(* ===== verification/_CoqProject ===== *)
-Q . S2P
Prelude.v
Pqueue.v
LineTable.v
Nvme.v
SsdConfig.v
ChannelModel.v
Ssd.v
ConvFtl.v
ConvGeom.v
ConvDev.v
ConvInv.v
ConvMap.v
ConvOps.v
ConvGc.v
ConvSafe.v
ConvInit.v
ConvProps.v
SimpleFtl.v
Alloc.v
WorkQueue.v
IoWorker.v
IoRing.v
IoInv.v
IoProps.v
Prp.v
HostIo.v
KvFtl.v
KvTable.v
KvInv.v
KvProps.v
KvIter.v
KvBatch.v
KvExamples.v
ZnsFtl.v
ZnsIo.v
ZnsInv.v
ZnsProps.v
Ctrl.v
CtrlProps.v
Admin.v
AdminProps.v
QueueProps.v
AdminHost.v
AdminExamples.v
Config.v
Pci.v
PciProps.v
Init.v
Dma.v
Boot.v
SimpleDev.v
Device.v
DmaIo.v
