(* ===== verification/Prelude.v ===== *)
(** * NVMeVirt: a verification library for the kernel module

    NVMeVirt is a Linux module that plays a virtual NVMe device.  A host driver
    writes commands into submission queues and rings doorbells in a shared BAR;
    a dispatcher thread polls the doorbells, asks the namespace's FTL when the
    command would finish on the modelled device, and hands the request to an
    I/O worker, which moves the data at once and posts the completion when the
    target time is reached.  The FTL never stores data: it keeps mapping tables
    and advances clocks.

    ** The parts and where they are

    Common ground.
    - [Prelude]: outcomes ([res]: a value, or the bug that stops the machine),
      the state monad [prog], fixed-width arithmetic ([u8] .. [u64], [i32]),
      array access with its range check, weakest preconditions, lemmas and
      hints shared by all files.
    - [Nvme]: command double words and their fields ([nvme.h], [nvme_zns.h]),
      requests and results ([nvmev.h]).
    - [SsdConfig]: the device profiles of [ssd_config.h] as values.

    The device model.
    - [ChannelModel] ([channel_model.c]): the credit ring of a transfer link.
    - [Ssd] ([ssd.c], [ssd.h]): geometry, physical addresses and their union
      views, the tree of channels, LUNs, blocks and pages, the write buffer,
      NAND commands.  [world] is what the partitions of a device share: PCIe
      link, write buffer, clock ticks and the internal operations scheduled.

    The conventional FTL.
    - [Pqueue] ([pqueue.c]): the heap, against the callbacks [PqCallbacks];
      [LineTable]: the callbacks of [conv_ftl.c] and the heap's contract.
    - [ConvFtl] ([conv_ftl.c]): every operation, [conv_proc_nvme_io_cmd] at the
      end.
    - [ConvGeom], [ConvDev], [ConvInv], [ConvMap], [ConvOps], [ConvGc],
      [ConvSafe], [ConvInit]: the invariant and its proof, from page addresses
      to the initialised namespace; [ConvProps]: the properties.

    The zoned FTL.
    - [ZnsFtl] ([zns_ftl.c], [zns_ftl.h]), [ZnsIo] ([zns_read_write.c],
      [zns_mgmt_send.c], [zns_mgmt_recv.c]); [ZnsInv], [ZnsProps].

    The key-value FTL.
    - [Alloc] ([append_only.c], [bitmap.c]): both allocators behind the
      interface [AllocatorLaws], against which the FTL is proved.
    - [KvFtl] ([kv_ftl.c]): every operation.  [KvTable], [KvInv]: chains of
      slots as walks, the invariant of table and regions; [KvProps],
      [KvIter], [KvBatch]: the properties of commands, iterators and
      batches; [KvExamples]: the properties on concrete devices.

    The timing-only FTL: [SimpleFtl] ([simple_ftl.c]).

    The I/O path.
    - [WorkQueue] ([io.c]): the two chains of slots of a worker.
    - [IoWorker] ([io.c], [nvmev_proc_dbs] of [main.c]): doorbells, dispatcher,
      worker passes, completions, interrupts, over the interface [FtlOps] that
      every namespace offers ([proc_io_cmd], [perform_io], [release_buffer]).
    - [IoRing], [IoInv], [IoProps]: completion rings, the interleaving of
      dispatcher and workers, the properties.
    - [Prp], [HostIo] ([__do_perform_io]): page lists and the copy.
    - [SimpleDev]: [FtlOps] with the Simple FTL and this copy; [CmdFine] names
      the commands whose PRP entries the copy can follow.
    - [Dma] ([dma.c]): channels and transfers of the DMA engine, whose kernel
      interface is a parameter with laws; [DmaIo]
      ([__do_perform_io_using_dma]): gathering and joining pages, and the
      equivalence with the copying loop.

    The controller.
    - [Ctrl] ([nvmev_proc_bars] of [pci.c]): the registers, the state of the
      whole device ([nvmev_dev]), the register poll; [CtrlProps]: bring-up.
    - [Admin] ([admin.c], [nvmev_proc_dbs] and the turn of the dispatcher of
      [main.c]): every admin command; [AdminProps], [AdminHost]: the admin ring
      and the structures the host reads; [QueueProps]: creation and deletion of
      I/O queues against the invariant of [IoInv]; [AdminExamples].
    - [Config] ([main.c]): parameters, processors, namespaces, procfs.
    - [Pci] ([pci.c], [pci.h]): the bit fields of the configuration space as the
      compiler lays them out, their initial contents, configuration accesses,
      interrupts; [PciProps].

    The whole.
    - [Init] ([ssd_config.h], [simple_init_namespace]): the five builds
      ([base_ssd]) with the initialisers of their FTLs, and the storage on which
      these return.
    - [Boot] ([NVMeV_init] of [main.c], [__create_pci_bus] of [pci.c],
      [NVMEV_IO_WORKER_INIT] of [io.c]): the state after loading, for any
      initialisers ([NVMeV_init]) and for those of a build ([load_build]).
    - [Device]: [vdev_step], the union of the steps of host, dispatcher and
      workers, and [vdev_inv], which joins the invariants of I/O path and admin
      queue.  The host may write any registers and the dispatcher execute any
      admin command; a step that fails ends a run.  Two things are asked of the
      host: queues in use are not deleted or replaced ([queue_cmd_safe];
      [QueueProps] has what happens otherwise), and the data of a request can be
      copied ([cmd_fine]; [SimpleDev] has when it cannot).  What the admin
      completion ring holds is followed from each new ACQ on cleared memory to
      the next AQA or shutdown ([answers_after]).  The state of [Boot] satisfies
      [vdev_inv] and every step keeps it.  The theorems hold for every namespace
      behind [FtlOps] whose copy succeeds ([FtlTotal]); they are applied to the
      device of [SimpleDev].

    ** Conventions

    A C [struct] is a [Record], an [enum] or tagged union an [Inductive], a
    pointer into an array its index, a list head the list of indices.  An
    operation that can trip an assertion, leave an array, follow NULL or divide
    by zero returns [res]; one that changes the device is a [prog].  Unsigned
    fields wrap explicitly; sizes that the source keeps in [int] or [size_t]
    and that the invariants bound stay plain [Z].  The clock ([cpu_clock]) is a
    parameter, read once per source call; theorems that need it to be monotone
    say so.

    ** What the theorems show

    - Composition: from a successful load on, in every run of [vdev_step], no
      I/O request that got a slot is lost, duplicated or early, every I/O ring
      carries what was posted to it, and a controller whose registers the host
      writes, with an admin queue or an AQA to make one, has taken them over
      within five polls ([Device]).  Each build loads on a storage that fits it
      ([Boot]).
    - Safety: on an initialised 970 PRO namespace no sequence of commands, each
      inside the namespace and no larger than the write buffer, and of buffer
      releases of any size trips an assertion; a worker is never stuck; the
      copy of a command fails on one shape of page list only; zone operations
      keep the zone invariant.
    - Refinement: the heap is a priority queue; zone management follows the
      zone state machine; a host that polls with its phase sees exactly the
      posted completions; the store is a byte store across page lists; the
      key-value device is a map; an admin doorbell is answered command by
      command, as long as the device can serve them; a turn of a submission
      doorbell queues each request that finds a slot, up to the first that
      its namespace does not take.
    - Equivalence: a batch of key-value commands with its commands one by one,
      the DMA variant of the copy with the copying loop.
    - Configuration: parameters are accepted exactly when usable, namespaces
      partition the storage, the configuration space is what a driver expects
      and stays so whatever is written to it.
    - Function: writes and reads of each FTL on every branch, allocation in the
      write buffer, garbage collection, credits of a link, chains of a work
      queue.
    - Liveness and termination: garbage collection, a worker's pass, doorbell
      processing, the walks over credit rings and hash chains.
    - Errors: theorems that exhibit what the code does where it is wrong; the
      manifest's findings name them.

    ** Loops and fuel

    A loop that is not structural takes fuel; running out is [Bug NoFuel], and
    theorems that say an operation [returns] exclude it.  The bounds: the queue
    size for the heap's percolation, the free channels for the choice of a DMA
    channel, the number of slots of a worker for the walks of its chains (a chain has no slot twice), one more than the ring
    size for a completion doorbell, the transfer length for the PRP loop (a
    turn moves a byte), the ring length for the credit loop, the pages of a
    flash page group for garbage collection, the number of slots for the walks
    of the hash table and its search for a free slot ([full_table_hangs] shows
    that the latter is the one loop of the program no fuel is enough for).

    ** Concurrency

    The dispatcher and the workers share the work queues without locks.
    [IoInv.io_step], and around it [Device.vdev_step], interleaves whole
    operations of the dispatcher and single visits of a worker; between two
    visits a worker's slot may be reclaimed.
    Memory is sequentially consistent, and try-locking an interrupt mutex
    always succeeds.  One dispatcher thread runs all FTL handlers, as in the
    source.

    ** Not modelled

    Unloading, creating threads and mapping memory ([main.c]): calls of the
    kernel that only acquire and release resources.  Parsing of numbers
    ([sscanf], [simple_strtol], [memparse]) and the bus scan of the kernel are
    parameters, as are the interfaces of the memory map and of the DMA engine.
    The pages of a queue belong to the queue: that the host could also reach
    them as data is not modelled; a register poll is one step.  The
    KV_PROTOTYPE branch of a worker, which calls the key-value handler instead
    of the copy; the handler itself is [KvFtl].  The table of pages that the DMA
    variant shares between workers is local to a call.  Functions that only
    free memory, print, or have no caller.  The host tool
    [xnvme_append_return_probe.cpp]. *)
From stdpp Require Export prelude.
From stdpp Require Import list.
#[global] Open Scope Z_scope.

(** ** Outcomes

    The kernel module has no exceptions.  An operation either returns or it
    takes the machine down: a failed [NVMEV_ASSERT] / [BUG_ON], a NULL
    dereference, an access outside an array, a division by zero.  [Uninit] is
    the use of a local variable no assignment reached.  [NoFuel] marks a loop
    whose bound was too small; the theorems show it is never reached. *)
Inductive bug : Set :=
| BugOn
| NullDeref
| OutOfRange
| DivByZero
| Uninit
| NoFuel.

Inductive res (A : Type) : Type :=
| Ok (a : A)
| Bug (b : bug).
Arguments Ok {A} a.
Arguments Bug {A} b.

#[global] Instance bug_eq_dec : EqDecision bug.
Proof. solve_decision. Defined.

#[global] Instance res_ret : MRet res := fun A a => Ok a.
#[global] Instance res_bind : MBind res := fun A B f m =>
  match m with Ok a => f a | Bug b => Bug b end.
#[global] Instance res_fmap : FMap res := fun A B f m =>
  match m with Ok a => Ok (f a) | Bug b => Bug b end.

(** [NVMEV_ASSERT(x)] is [BUG_ON(!x)]. *)
Definition NVMEV_ASSERT (x : bool) : res unit := if x then Ok tt else Bug BugOn.

Definition deref {A} (p : option A) : res A :=
  match p with Some a => Ok a | None => Bug NullDeref end.

Definition is_ok {A} (m : res A) : bool :=
  match m with Ok _ => true | Bug _ => false end.

(** Code that works on shared state [S]: the state is threaded through. *)
Definition prog (S A : Type) : Type := S -> res (A * S).

#[global] Instance prog_ret {S} : MRet (prog S) := fun A a s => Ok (a, s).
#[global] Instance prog_bind {S} : MBind (prog S) := fun A B f m s =>
  match m s with Ok (a, s') => f a s' | Bug b => Bug b end.

Definition lift {S A} (m : res A) : prog S A := fun s => a ← m; Ok (a, s).
Definition gets {S A} (f : S -> A) : prog S A := fun s => Ok (f s, s).
Definition modify {S} (f : S -> S) : prog S unit := fun s => Ok (tt, f s).

(** A loop [for (i = i0; i < i0 + n; i++) s = body(i, s)]. *)
Fixpoint for_loop {M} `{MRet M, MBind M} {St : Type} (n : nat) (i : Z) (body : Z -> St -> M St)
  (s : St) : M St :=
  match n with
  | O => mret s
  | S n => s ← body i s; for_loop n (i + 1) body s
  end.

(** ** Machine integers *)
Definition u8 (x : Z) : Z := x mod 256.
Definition u16 (x : Z) : Z := x mod 65536.
Definition u32 (x : Z) : Z := x mod 4294967296.
Definition u64 (x : Z) : Z := x mod 18446744073709551616.
(** Conversion to a 32-bit [int] (two's complement). *)
Definition i32 (x : Z) : Z := (x + 2147483648) mod 4294967296 - 2147483648.

Definition U32_MAX : Z := 4294967295.
Definition U64_MAX : Z := 18446744073709551615.

(** Little-endian bytes of an integer. *)
Fixpoint le_bytes (n : nat) (x : Z) : list Z :=
  match n with O => [] | S n => x mod 256 :: le_bytes n (x / 256) end.

(** The word that bytes stand for. *)
Definition le_word (bytes : list Z) : Z := foldr (fun b acc => b + 256 * acc) 0 bytes.

(** [memcpy(&buf[off], src)]. *)
Definition memcpy_to (buf : list Z) (off : Z) (src : list Z) : res (list Z) :=
  if decide (0 ≤ off /\ off + Z.of_nat (length src) ≤ Z.of_nat (length buf)) then
    Ok (take (Z.to_nat off) buf ++ src ++ drop (Z.to_nat off + length src) buf)
  else Bug OutOfRange.

(** The kernel's [DIV_ROUND_UP]; callers wrap it to the width of its operands. *)
Definition DIV_ROUND_UP (n d : Z) : Z := (n + d - 1) / d.

(** Division of the source where the divisor may be zero. *)
Definition checked_div (n d : Z) : res Z := if d =? 0 then Bug DivByZero else Ok (n / d).
Definition checked_mod (n d : Z) : res Z := if d =? 0 then Bug DivByZero else Ok (n mod d).

(** ** Arrays: reads and writes at a [Z] index, out of range is a bug *)
Definition aget {A} (l : list A) (i : Z) : res A :=
  if decide (0 ≤ i) then
    match l !! Z.to_nat i with Some a => Ok a | None => Bug OutOfRange end
  else Bug OutOfRange.

Definition aset {A} (l : list A) (i : Z) (a : A) : res (list A) :=
  if decide (0 ≤ i < Z.of_nat (length l)) then Ok (<[Z.to_nat i := a]> l) else Bug OutOfRange.

Definition aupd {A} (l : list A) (i : Z) (f : A -> A) : res (list A) :=
  a ← aget l i; aset l i (f a).

(** The same with an update that may itself be a bug. *)
Definition amod {A} (l : list A) (i : Z) (f : A -> res A) : res (list A) :=
  a ← aget l i; a ← f a; aset l i a.

(** [memset(&l[start], v, len)]. *)
Definition memset {A} (l : list A) (start len : Z) (v : A) : res (list A) :=
  if decide (0 ≤ start ∧ 0 ≤ len ∧ start + len ≤ Z.of_nat (length l)) then
    Ok (take (Z.to_nat start) l ++ replicate (Z.to_nat len) v ++ drop (Z.to_nat (start + len)) l)
  else Bug OutOfRange.

(** ** Lemmas on outcomes *)
Lemma bind_Ok {A B} (m : res A) (f : A -> res B) (b : B) :
  m ≫= f = Ok b <-> exists a, m = Ok a /\ f a = Ok b.
Proof.
  destruct m as [a|e]; simpl.
  - split; [eauto | intros (a' & [= <-] & ?); done].
  - split; [done | intros (a' & ? & ?); done].
Qed.

Lemma NVMEV_ASSERT_Ok b u : NVMEV_ASSERT b = Ok u <-> b = true.
Proof. destruct b, u; simpl; split; done. Qed.

Lemma NVMEV_ASSERT_true b : b = true -> NVMEV_ASSERT b = Ok tt.
Proof. by intros ->. Qed.

Lemma deref_Ok {A} (p : option A) a : deref p = Ok a <-> p = Some a.
Proof. destruct p; simpl; split; congruence. Qed.

Lemma aget_Ok {A} (l : list A) i a : aget l i = Ok a <-> 0 ≤ i /\ l !! Z.to_nat i = Some a.
Proof.
  unfold aget. case_decide; [|split; [done | intros [??]; lia]].
  destruct (l !! Z.to_nat i); split; intros; destruct_and?; simplify_eq; auto.
Qed.

Lemma aget_range {A} (l : list A) i a : aget l i = Ok a -> 0 ≤ i < Z.of_nat (length l).
Proof. rewrite aget_Ok. intros [? ?%lookup_lt_Some]. lia. Qed.

Lemma aget_in_range {A} (l : list A) i : 0 ≤ i < Z.of_nat (length l) -> exists a, aget l i = Ok a.
Proof.
  intros [??]. destruct (lookup_lt_is_Some_2 l (Z.to_nat i)) as [a Ha]; [lia|].
  exists a. by apply aget_Ok.
Qed.

Lemma aget_out {A} (l : list A) i : ~ 0 ≤ i < Z.of_nat (length l) -> aget l i = Bug OutOfRange.
Proof.
  intros Hi. unfold aget. case_decide; [|done]. by rewrite (proj2 (lookup_ge_None l _)) by lia.
Qed.

Lemma aset_out {A} (l : list A) i a : ~ 0 ≤ i < Z.of_nat (length l) -> aset l i a = Bug OutOfRange.
Proof. intros Hi. unfold aset. by rewrite decide_False. Qed.

Lemma aset_in_range {A} (l : list A) i a :
  0 ≤ i < Z.of_nat (length l) -> aset l i a = Ok (<[Z.to_nat i := a]> l).
Proof. intros ?. unfold aset. by rewrite decide_True. Qed.

Lemma aset_Ok {A} (l l' : list A) i a :
  aset l i a = Ok l' <-> 0 ≤ i < Z.of_nat (length l) /\ l' = <[Z.to_nat i := a]> l.
Proof.
  unfold aset. case_decide; split; try done; [by intros [= <-] | by intros [_ ->] | by intros [??]].
Qed.

Lemma aset_length {A} (l l' : list A) i a : aset l i a = Ok l' -> length l' = length l.
Proof. intros [_ ->]%aset_Ok. apply length_insert. Qed.

Lemma aget_aset_eq {A} (l l' : list A) i a : aset l i a = Ok l' -> aget l' i = Ok a.
Proof.
  intros [? ->]%aset_Ok. apply aget_Ok. split; [lia|].
  apply list_lookup_insert_eq. lia.
Qed.

Lemma aget_aset_ne {A} (l l' : list A) i j a :
  aset l i a = Ok l' -> i <> j -> aget l' j = aget l j.
Proof.
  intros [? ->]%aset_Ok ?. unfold aget. case_decide; [|done].
  rewrite list_lookup_insert_ne by lia. done.
Qed.

Lemma aget_insert {A} (l : list A) i j a :
  0 ≤ i < Z.of_nat (length l) ->
  aget (<[Z.to_nat i := a]> l) j = if decide (i = j) then Ok a else aget l j.
Proof.
  intros Hi. pose proof (aset_in_range l i a Hi) as Hs. case_decide as Hij.
  - subst j. by eapply aget_aset_eq.
  - by eapply aget_aset_ne.
Qed.

Lemma memset_Ok {A} (l l' : list A) s n v :
  memset l s n v = Ok l' ->
  length l' = length l /\
  forall i, 0 ≤ i < Z.of_nat (length l) ->
    aget l' i = if decide (s ≤ i < s + n) then Ok v else aget l i.
Proof.
  unfold memset. case_decide as H; [|done]. intros [= <-]. split.
  { rewrite !length_app, length_take, length_replicate, length_drop. lia. }
  intros i Hi. unfold aget. rewrite !(decide_True (P := 0 ≤ i)) by lia.
  destruct (decide (i < s)).
  { rewrite lookup_app_l by (rewrite length_take; lia).
    rewrite lookup_take_lt by lia. by rewrite decide_False by lia. }
  rewrite lookup_app_r by (rewrite length_take; lia). rewrite length_take.
  replace (Z.to_nat i - Z.to_nat s `min` length l)%nat with (Z.to_nat (i - s)) by lia.
  case_decide.
  - rewrite lookup_app_l by (rewrite length_replicate; lia).
    rewrite lookup_replicate_2 by lia. done.
  - rewrite lookup_app_r by (rewrite length_replicate; lia).
    rewrite length_replicate, lookup_drop.
    by replace (Z.to_nat (s + n) + (Z.to_nat (i - s) - Z.to_nat n))%nat with (Z.to_nat i) by lia.
Qed.

Lemma memset_in_range {A} (l : list A) s n v :
  0 ≤ s -> 0 ≤ n -> s + n ≤ Z.of_nat (length l) -> exists l', memset l s n v = Ok l'.
Proof. intros. unfold memset. rewrite decide_True by lia. eauto. Qed.

(** ** Lemmas on widths *)
Lemma u8_small x : 0 ≤ x < 256 -> u8 x = x.
Proof. apply Z.mod_small. Qed.
Lemma u16_small x : 0 ≤ x < 65536 -> u16 x = x.
Proof. apply Z.mod_small. Qed.
Lemma u32_small x : 0 ≤ x ≤ U32_MAX -> u32 x = x.
Proof. unfold U32_MAX. intros. apply Z.mod_small. lia. Qed.
Lemma u64_small x : 0 ≤ x ≤ U64_MAX -> u64 x = x.
Proof. unfold U64_MAX. intros. apply Z.mod_small. lia. Qed.
Lemma i32_small x : -2147483648 ≤ x < 2147483648 -> i32 x = x.
Proof. unfold i32. intros. rewrite Z.mod_small; lia. Qed.
Lemma u8_range x : 0 ≤ u8 x < 256.
Proof. apply Z.mod_pos_bound. lia. Qed.
Lemma u32_range x : 0 ≤ u32 x ≤ U32_MAX.
Proof. unfold u32, U32_MAX. pose proof (Z.mod_pos_bound x 4294967296). lia. Qed.
Lemma u64_range x : 0 ≤ u64 x ≤ U64_MAX.
Proof. unfold u64, U64_MAX. pose proof (Z.mod_pos_bound x 18446744073709551616). lia. Qed.

Lemma le_bytes_length n x : length (le_bytes n x) = n.
Proof. revert x. induction n as [|n IH]; intros x; [done|]. cbn. by rewrite IH. Qed.

Lemma le_word_bytes n : forall x, 0 ≤ x < 256 ^ Z.of_nat n -> le_word (le_bytes n x) = x.
Proof.
  induction n as [|n IH]; intros x Hx; [cbn in *; lia|]. cbn [le_bytes le_word foldr]. unfold le_word in IH.
  rewrite Nat2Z.inj_succ, Z.pow_succ_r in Hx by lia. rewrite IH.
  - pose proof (Z.div_mod x 256). lia.
  - split; [apply Z.div_pos; lia | apply Z.div_lt_upper_bound; lia].
Qed.

Lemma DIV_ROUND_UP_spec n d :
  0 < d -> n ≤ DIV_ROUND_UP n d * d < n + d.
Proof.
  intros Hd. unfold DIV_ROUND_UP.
  pose proof (Z.div_mod (n + d - 1) d). pose proof (Z.mod_pos_bound (n + d - 1) d Hd). nia.
Qed.

Lemma DIV_ROUND_UP_nonneg n d : 0 ≤ n -> 0 < d -> 0 ≤ DIV_ROUND_UP n d.
Proof. intros. unfold DIV_ROUND_UP. apply Z.div_pos; lia. Qed.

Lemma DIV_ROUND_UP_le n d : 0 < n -> 0 < d -> DIV_ROUND_UP n d ≤ n.
Proof.
  intros. unfold DIV_ROUND_UP. apply Z.div_le_upper_bound; [done|].
  assert (0 ≤ (d - 1) * (n - 1)) by (apply Z.mul_nonneg_nonneg; lia). lia.
Qed.

Lemma DIV_ROUND_UP_pos n d : 0 < n -> 0 < d -> 0 < DIV_ROUND_UP n d.
Proof. intros. pose proof (DIV_ROUND_UP_spec n d). nia. Qed.

(** ** Total correctness

    [returns m Q]: [m] returns, and its value satisfies [Q].  [wp] is the same
    for code on shared state.  Proofs about handlers go through these rules, one
    per construct, instead of unfolding the monad. *)
Definition returns {A} (m : res A) (Q : A -> Prop) : Prop :=
  match m with Ok a => Q a | Bug _ => False end.

Definition wp {S A} (m : prog S A) (Q : A -> S -> Prop) (s : S) : Prop :=
  match m s with Ok (a, s') => Q a s' | Bug _ => False end.

(** If the program returns, [Q] holds. *)
Definition wlp {S A} (m : prog S A) (Q : A -> S -> Prop) (s : S) : Prop := forall a s', m s = Ok (a, s') -> Q a s'.

Lemma returns_iff {A} (m : res A) Q : returns m Q <-> exists a, m = Ok a /\ Q a.
Proof.
  destruct m as [a|b]; simpl; split; try done; try (intros (? & [=] & ?); by subst). by eauto.
Qed.

Lemma returns_bind {A B} (m : res A) (f : A -> res B) Q :
  returns m (fun a => returns (f a) Q) -> returns (m ≫= f) Q.
Proof. by destruct m. Qed.

Lemma returns_assoc {A B C} (m : res A) (f : A -> res B) (g : B -> res C) Q :
  returns (m ≫= f) (fun b => returns (g b) Q) -> returns (a ← m; f a ≫= g) Q.
Proof. by destruct m as [a|]; [cbn; destruct (f a)|]. Qed.

Lemma returns_mono {A} (m : res A) (P Q : A -> Prop) :
  returns m P -> (forall a, P a -> Q a) -> returns m Q.
Proof. destruct m; simpl; auto. Qed.

Lemma returns_conj {A} (m : res A) (P Q : A -> Prop) :
  returns m P -> returns m Q -> returns m (fun a => P a /\ Q a).
Proof. destruct m; simpl; auto. Qed.

Lemma returns_Ok {A} (m : res A) a (Q : A -> Prop) : m = Ok a -> Q a -> returns m Q.
Proof. by intros ->. Qed.

Lemma returns_assert b (Q : unit -> Prop) : b = true -> Q tt -> returns (NVMEV_ASSERT b) Q.
Proof. by intros ->. Qed.

Lemma returns_aget {A} (l : list A) i (Q : A -> Prop) :
  0 ≤ i < Z.of_nat (length l) -> (forall a, aget l i = Ok a -> Q a) -> returns (aget l i) Q.
Proof. intros Hi HQ. destruct (aget_in_range l i Hi) as [a Ha]. rewrite Ha. by apply HQ. Qed.

Lemma returns_aset {A} (l : list A) i a (Q : list A -> Prop) :
  0 ≤ i < Z.of_nat (length l) -> Q (<[Z.to_nat i := a]> l) -> returns (aset l i a) Q.
Proof. intros Hi HQ. by rewrite aset_in_range. Qed.

Lemma returns_checked_div n d (Q : Z -> Prop) : d <> 0 -> Q (n / d) -> returns (checked_div n d) Q.
Proof. intros Hd HQ. unfold checked_div. by rewrite (proj2 (Z.eqb_neq _ _)). Qed.

Lemma returns_checked_mod n d (Q : Z -> Prop) : d <> 0 -> Q (n mod d) -> returns (checked_mod n d) Q.
Proof. intros Hd HQ. unfold checked_mod. by rewrite (proj2 (Z.eqb_neq _ _)). Qed.

Lemma returns_for_loop {St} (P : Z -> St -> Prop) (n : nat) i (body : Z -> St -> res St) s
  (Q : St -> Prop) :
  P i s ->
  (forall j t, i ≤ j < i + Z.of_nat n -> P j t -> returns (body j t) (P (j + 1))) ->
  (forall t, P (i + Z.of_nat n) t -> Q t) -> returns (for_loop n i body s) Q.
Proof.
  revert i s. induction n as [|n IH]; intros i s Hi Hb HQ; cbn [for_loop].
  { apply HQ. by replace (i + Z.of_nat 0) with i by lia. }
  apply returns_bind. eapply returns_mono; [apply Hb; [lia | done]|]. intros t Ht.
  apply (IH (i + 1)); [done | intros j u Hj; apply Hb; lia |].
  intros u. replace (i + 1 + Z.of_nat n) with (i + Z.of_nat (S n)) by lia. apply HQ.
Qed.

Lemma returns_amod {A} (l : list A) i (f : A -> res A) (Q : list A -> Prop) :
  0 ≤ i < Z.of_nat (length l) ->
  (forall a, aget l i = Ok a -> returns (f a) (fun b => Q (<[Z.to_nat i := b]> l))) ->
  returns (amod l i f) Q.
Proof.
  intros Hi Hf. destruct (aget_in_range l i Hi) as [a Ha]. unfold amod. rewrite Ha. simpl.
  apply returns_bind. eapply returns_mono; [by apply Hf|]. intros b Hb. by apply returns_aset.
Qed.

Lemma amod_Ok {A} (l l' : list A) i f :
  amod l i f = Ok l' <-> exists a b, aget l i = Ok a /\ f a = Ok b /\ l' = <[Z.to_nat i := b]> l.
Proof.
  unfold amod. rewrite bind_Ok. split.
  - intros (a & Ha & Hf). apply bind_Ok in Hf as (b & Hb & [_ Hs]%aset_Ok). eauto.
  - intros (a & b & Ha & Hb & ->). exists a. split; [done|]. rewrite Hb. simpl.
    apply aset_in_range. by eapply aget_range.
Qed.

(** An array of [n] elements that satisfy [P]. *)
Definition arr {A} (n : Z) (P : A -> Prop) (l : list A) : Prop :=
  Z.of_nat (length l) = n /\ Forall P l.

Lemma arr_aget {A} n (P : A -> Prop) l i a : arr n P l -> aget l i = Ok a -> P a.
Proof. intros [_ Hl] [_ Ha]%aget_Ok. by eapply Forall_lookup_1. Qed.

Lemma arr_get {A} n (P : A -> Prop) l i :
  arr n P l -> 0 ≤ i < n -> exists a, aget l i = Ok a /\ P a.
Proof.
  intros Hl Hi. destruct (aget_in_range l i) as [a Ha]; [destruct Hl; lia|].
  exists a. split; [done|]. by eapply arr_aget.
Qed.

Lemma arr_set {A} n (P : A -> Prop) l i a : arr n P l -> P a -> arr n P (<[i := a]> l).
Proof. intros [Hn Hl] Ha. split; [by rewrite length_insert|]. by apply Forall_insert. Qed.

Lemma arr_replicate {A} n (P : A -> Prop) a : 0 ≤ n -> P a -> arr n P (replicate (Z.to_nat n) a).
Proof. intros Hn Ha. split; [rewrite length_replicate; lia | by apply Forall_replicate]. Qed.

Lemma returns_arr {A} n (P : A -> Prop) l i (Q : A -> Prop) :
  arr n P l -> 0 ≤ i < n -> (forall a, aget l i = Ok a -> P a -> Q a) -> returns (aget l i) Q.
Proof. intros Hl Hi HQ. destruct (arr_get n P l i Hl Hi) as (a & Ha & Hp). rewrite Ha. by apply HQ. Qed.

(** ** Counting *)
Definition b2z (b : bool) : Z := if b then 1 else 0.

Fixpoint zcount {A} (f : A -> bool) (l : list A) : Z :=
  match l with [] => 0 | a :: l => b2z (f a) + zcount f l end.

Lemma b2z_range b : 0 ≤ b2z b ≤ 1.
Proof. destruct b; cbn; lia. Qed.

Lemma zcount_range {A} (f : A -> bool) l : 0 ≤ zcount f l ≤ Z.of_nat (length l).
Proof. induction l as [|a l IH]; cbn; [lia|]. pose proof (b2z_range (f a)). lia. Qed.

Lemma zcount_insert {A} (f : A -> bool) l i a b :
  aget l i = Ok a -> zcount f (<[Z.to_nat i := b]> l) = zcount f l - b2z (f a) + b2z (f b).
Proof.
  rewrite aget_Ok. intros [_ Hl]. revert Hl. generalize (Z.to_nat i). clear i.
  induction l as [|c l IH]; intros [|n]; simpl; intros Hl; try done.
  - injection Hl as ->. lia.
  - rewrite (IH n) by done. lia.
Qed.

(** An element outside the count keeps it below the length. *)
Lemma zcount_lt {A} (f : A -> bool) l i a :
  aget l i = Ok a -> f a = false -> zcount f l < Z.of_nat (length l).
Proof.
  rewrite aget_Ok. intros [_ Hl]. revert Hl. generalize (Z.to_nat i). clear i.
  induction l as [|c l IH]; intros [|n]; cbn; intros Hl Hf; try done.
  - injection Hl as ->. rewrite Hf. cbn. pose proof (zcount_range f l). lia.
  - pose proof (b2z_range (f c)). pose proof (IH n Hl Hf). lia.
Qed.

Lemma zcount_pos {A} (f : A -> bool) l i a : aget l i = Ok a -> f a = true -> 0 < zcount f l.
Proof.
  rewrite aget_Ok. intros [_ Hl]. revert Hl. generalize (Z.to_nat i). clear i.
  induction l as [|c l IH]; intros [|n]; cbn; intros Hl Hf; try done.
  - injection Hl as ->. rewrite Hf. cbn. pose proof (zcount_range f l). lia.
  - pose proof (b2z_range (f c)). pose proof (IH n Hl Hf). lia.
Qed.

Lemma zcount_ext {A} (f g : A -> bool) l : (forall x, x ∈ l -> f x = g x) -> zcount f l = zcount g l.
Proof.
  induction l as [|a l IH]; cbn; intros H; [done|]. rewrite (H a) by constructor.
  rewrite IH; [done|]. intros x Hx. apply H. by constructor.
Qed.

(** A count changes by the one element whose test changed. *)
Lemma zcount_upd {A} (f g : A -> bool) l x :
  NoDup l -> x ∈ l -> (forall y, y ∈ l -> y <> x -> f y = g y) ->
  zcount g l = zcount f l - b2z (f x) + b2z (g x).
Proof.
  induction 1 as [|a l Hn Hnd IH]; [by intros ?%not_elem_of_nil|].
  intros [->|Hx]%elem_of_cons H; cbn.
  - rewrite (zcount_ext g f l); [lia|]. intros y Hy. symmetry. apply H; [by constructor|]. by intros ->.
  - rewrite IH by (try done; intros y Hy; apply H; by constructor).
    rewrite (H a); [lia | by constructor | by intros ->].
Qed.

Lemma zcount_true {A} (f : A -> bool) l x : x ∈ l -> f x = true -> 0 < zcount f l.
Proof.
  induction l as [|a l IH]; [by intros ?%not_elem_of_nil|]. intros [->|Hx]%elem_of_cons Hf; cbn.
  - rewrite Hf. pose proof (zcount_range f l). cbn. lia.
  - pose proof (b2z_range (f a)). specialize (IH Hx Hf). lia.
Qed.

Lemma zcount_zero {A} (f : A -> bool) l : (forall x, x ∈ l -> f x = false) -> zcount f l = 0.
Proof.
  induction l as [|a l IH]; intros H; cbn; [done|]. rewrite (H a) by constructor.
  rewrite IH; [done|]. intros x Hx. apply H. by constructor.
Qed.

Lemma zcount_full {A} (f : A -> bool) l x :
  zcount f l = Z.of_nat (length l) -> x ∈ l -> f x = true.
Proof.
  induction l as [|a l IH]; [by intros _ ?%not_elem_of_nil|]. cbn. intros H.
  pose proof (zcount_range f l). pose proof (b2z_range (f a)).
  intros [->|Hx]%elem_of_cons; [destruct (f a); cbn in *; [done | lia]|]. apply IH; [lia | done].
Qed.

(** Disjoint tests. *)
Lemma zcount_disj {A} (f g : A -> bool) l :
  (forall x, f x = true -> g x = false) -> zcount f l + zcount g l ≤ Z.of_nat (length l).
Proof.
  intros H. induction l as [|a l IH]; cbn; [lia|]. specialize (H a).
  destruct (f a), (g a); cbn; lia.
Qed.

Section Wp.
Context {S : Type}.
Implicit Types s : S.

Lemma run_bind {A B} (m : prog S A) (f : A -> prog S B) a s s' : m s = Ok (a, s') -> (m ≫= f) s = f a s'.
Proof. unfold mbind, prog_bind. by intros ->. Qed.

Lemma run_lift {A B} (m : res A) (f : A -> prog S B) s : (lift m ≫= f) s = a ← m; f a s.
Proof. by destruct m. Qed.

Lemma wp_iff {A} (m : prog S A) (Q : A -> S -> Prop) s :
  wp m Q s <-> exists a s', m s = Ok (a, s') /\ Q a s'.
Proof.
  unfold wp. destruct (m s) as [[a t]|b]; split; try done.
  - by eauto.
  - intros (? & ? & [=] & ?). by subst.
  - by intros (? & ? & ? & ?).
Qed.

Lemma wp_run {A} (m : prog S A) (Q : A -> S -> Prop) s a s' : wp m Q s -> m s = Ok (a, s') -> Q a s'.
Proof. unfold wp. by intros Hw E; rewrite E in Hw. Qed.

Lemma wlp_bind {A B} (m : prog S A) (f : A -> prog S B) (Q : B -> S -> Prop) s : wlp m (fun a => wlp (f a) Q) s -> wlp (m ≫= f) Q s.
Proof. intros Hm b s' E. unfold mbind, prog_bind in E. destruct (m s) as [[a s1]|] eqn:Em; [|done]. exact (Hm a s1 Em b s' E). Qed.
Lemma wlp_lift {A B} (m : res A) (f : A -> prog S B) (Q : B -> S -> Prop) s : (forall a, m = Ok a -> wlp (f a) Q s) -> wlp (lift m ≫= f) Q s.
Proof. intros Hm b s' E. rewrite run_lift in E. apply bind_Ok in E as (a & Ea & E). exact (Hm a Ea b s' E). Qed.

Lemma wp_ret {A} (a : A) (Q : A -> S -> Prop) s : Q a s -> wp (mret a) Q s.
Proof. done. Qed.

Lemma wp_bind {A B} (m : prog S A) (f : A -> prog S B) (Q : B -> S -> Prop) s :
  wp m (fun a => wp (f a) Q) s -> wp (m ≫= f) Q s.
Proof. unfold wp, mbind, prog_bind. by destruct (m s) as [[a t]|b]. Qed.

Lemma wp_mono {A} (m : prog S A) (P Q : A -> S -> Prop) s :
  wp m P s -> (forall a t, P a t -> Q a t) -> wp m Q s.
Proof. unfold wp. destruct (m s) as [[a t]|b]; auto. Qed.

Lemma wp_lift {A} (m : res A) (Q : A -> S -> Prop) s :
  returns m (fun a => Q a s) -> wp (lift m) Q s.
Proof. unfold wp, lift. by destruct m. Qed.

Lemma wp_lift_Ok {A B} (m : res A) a (f : A -> prog S B) (Q : B -> S -> Prop) s :
  m = Ok a -> wp (f a) Q s -> wp (lift m ≫= f) Q s.
Proof. by intros ->. Qed.

Lemma wp_lift_bind {A B} (m : res A) (f : A -> prog S B) (Q : B -> S -> Prop) s :
  returns m (fun a => wp (f a) Q s) -> wp (lift m ≫= f) Q s.
Proof. by destruct m. Qed.

Lemma wp_gets {A} (f : S -> A) (Q : A -> S -> Prop) s : Q (f s) s -> wp (gets f) Q s.
Proof. done. Qed.

Lemma wp_modify (f : S -> S) (Q : unit -> S -> Prop) s : Q tt (f s) -> wp (modify f) Q s.
Proof. done. Qed.

Lemma wp_for_loop {St} (P : Z -> St -> S -> Prop) (n : nat) i (body : Z -> St -> prog S St) x
  (Q : St -> S -> Prop) s :
  P i x s ->
  (forall j y t, i ≤ j < i + Z.of_nat n -> P j y t -> wp (body j y) (P (j + 1)) t) ->
  (forall y t, P (i + Z.of_nat n) y t -> Q y t) -> wp (for_loop n i body x) Q s.
Proof.
  revert i x s. induction n as [|n IH]; intros i x s Hi Hb HQ; cbn [for_loop].
  { apply wp_ret, HQ. by replace (i + Z.of_nat 0) with i by lia. }
  apply wp_bind. eapply wp_mono; [apply Hb; [lia | done]|]. intros y t Ht.
  apply (IH (i + 1)); [done | intros j u v Hj; apply Hb; lia |].
  intros u v. replace (i + 1 + Z.of_nat n) with (i + Z.of_nat (Datatypes.S n)) by lia. apply HQ.
Qed.
End Wp.

(** ** Automation *)
Create HintDb nvmev.
#[export] Hint Resolve u8_range u32_range u64_range : nvmev.

(** Remove the wrap-around of an expression that [lia] can bound. *)
Ltac wsimpl :=
  repeat first
    [ rewrite u32_small by (unfold U32_MAX in *; lia)
    | rewrite u64_small by (unfold U64_MAX in *; lia)
    | rewrite u16_small by lia
    | rewrite u8_small by lia
    | rewrite i32_small by lia ].

(** A step of a handler whose value is known. *)
Ltac wp_ok H := apply (wp_lift_Ok _ _ _ _ _ H); cbv beta.

(** Split a successful computation into its steps. *)
Ltac res_inv :=
  repeat match goal with
  | H : _ ≫= _ = Ok _ |- _ =>
      let a := fresh "v" in let Ha := fresh "Hv" in let Hb := fresh "Hk" in
      apply bind_Ok in H; destruct H as (a & Ha & Hb)
  | H : NVMEV_ASSERT _ = Ok _ |- _ => apply NVMEV_ASSERT_Ok in H
  | H : Ok _ = Ok _ |- _ => injection H; clear H; intros; subst
  | H : Bug _ = Ok _ |- _ => discriminate H
  | H : mret _ = Ok _ |- _ => change (@mret res _ _) with (@Ok) in H
  | x : unit |- _ => destruct x
  | x : (_ * _)%type |- _ => destruct x
  end.

(** Case analysis on the boolean tests of the source. *)
Ltac case_test :=
  match goal with
  | |- context [if ?b then _ else _] => destruct b eqn:?
  | H : context [if ?b then _ else _] |- _ => destruct b eqn:?
  end.

Ltac bool_prop :=
  repeat match goal with
  | H : (_ && _)%bool = true |- _ => apply andb_true_iff in H; destruct H
  | H : (_ || _)%bool = false |- _ => apply orb_false_iff in H; destruct H
  | H : negb _ = true |- _ => apply negb_true_iff in H
  | H : negb _ = false |- _ => apply negb_false_iff in H
  | H : (_ <? _) = true |- _ => apply Z.ltb_lt in H
  | H : (_ <? _) = false |- _ => apply Z.ltb_ge in H
  | H : (_ <=? _) = true |- _ => apply Z.leb_le in H
  | H : (_ <=? _) = false |- _ => apply Z.leb_gt in H
  | H : (_ =? _) = true |- _ => apply Z.eqb_eq in H
  | H : (_ =? _) = false |- _ => apply Z.eqb_neq in H
  end.

(** Decide the tests that [lia] settles. *)
Ltac dec_simpl :=
  repeat match goal with
  | |- context [@decide ?P ?D] =>
      first [ rewrite (@decide_True _ P D) by lia | rewrite (@decide_False _ P D) by lia ]
  | H : context [@decide ?P ?D] |- _ =>
      first [ rewrite (@decide_True _ P D) in H by lia | rewrite (@decide_False _ P D) in H by lia ]
  end.
