(* ===== verification/Pqueue.v ===== *)
(** * Binary-heap priority queue ([src/pqueue/pqueue.c])

    The queue stores pointers; the priority and the heap position of an
    element live in the element itself and are reached through callbacks.
    [PqCallbacks] is that interface (the function pointers of
    [struct pqueue_t]), [PqLaws] what the callbacks promise; the FTL gives the
    instance for its line table. *)
From S2P Require Import Prelude.
#[local] Ltac Zify.zify_post_hook ::= Z.div_mod_to_equations.

(** The callbacks of [pqueue.h]: [St] is the memory the nodes live in. *)
Class PqCallbacks (St Node : Type) := {
  cmppri : Z -> Z -> bool;
  getpri : St -> Node -> Z;
  setpri : Node -> Z -> St -> St;
  getpos : St -> Node -> Z;
  setpos : Node -> Z -> St -> St;
}.

(** [struct pqueue_t] without the callbacks; [None] is memory [kmalloc] left
    uninitialised. *)
Record pqueue_t (Node : Type) := mk_pqueue {
  pq_size : Z;
  pq_avail : Z;
  pq_step : Z;
  pq_d : list (option Node);
}.
Arguments mk_pqueue {Node}.
Arguments pq_size {Node}.
Arguments pq_avail {Node}.
Arguments pq_step {Node}.
Arguments pq_d {Node}.

Definition left (i : Z) : Z := Z.shiftl i 1.
Definition right (i : Z) : Z := Z.shiftl i 1 + 1.
Definition parent (i : Z) : Z := Z.shiftr i 1.

Section ops.
Context {St Node : Type} `{!PqCallbacks St Node}.
Local Abbreviation queue := (pqueue_t Node).

Definition set_d (q : queue) (l : list (option Node)) : queue :=
  mk_pqueue (pq_size q) (pq_avail q) (pq_step q) l.
Definition set_size (q : queue) (n : Z) : queue :=
  mk_pqueue n (pq_avail q) (pq_step q) (pq_d q).

(** [q->d[i]] and [q->d[i] = n]. *)
Definition dget (q : queue) (i : Z) : res Node := o ← aget (pq_d q) i; deref o.
Definition dset (q : queue) (i : Z) (n : Node) : res queue :=
  l ← aset (pq_d q) i (Some n); Ok (set_d q l).

(** [kmalloc_q], [kmalloc_d]: whether the two allocations succeed. *)
Definition pqueue_init (n : Z) (kmalloc_q kmalloc_d : bool) : option queue :=
  if negb kmalloc_q then None
  else if negb kmalloc_d then None
  else Some (mk_pqueue 1 (n + 1) (n + 1) (replicate (Z.to_nat (n + 1)) None)).

Definition pqueue_size (q : queue) : Z := pq_size q - 1.

Fixpoint bubble_up_loop (fuel : nat) (q : queue) (st : St) (i moving_pri : Z)
  : res (queue * St * Z) :=
  match fuel with
  | O => Bug NoFuel
  | S fuel =>
    if 1 <? i then
      p ← dget q (parent i);
      if cmppri (getpri st p) moving_pri then
        q ← dset q i p;
        bubble_up_loop fuel q (setpos p i st) (parent i) moving_pri
      else Ok (q, st, i)
    else Ok (q, st, i)
  end.

Definition bubble_up (q : queue) (st : St) (i : Z) : res (queue * St) :=
  moving_node ← dget q i;
  '(q, st, i) ← bubble_up_loop (S (Z.to_nat i)) q st i (getpri st moving_node);
  q ← dset q i moving_node;
  Ok (q, setpos moving_node i st).

Definition maxchild (q : queue) (st : St) (i : Z) : res Z :=
  let child_node := left i in
  if pq_size q <=? child_node then Ok 0
  else if child_node + 1 <? pq_size q then
    l ← dget q child_node;
    r ← dget q (child_node + 1);
    Ok (if cmppri (getpri st l) (getpri st r) then child_node + 1 else child_node)
  else Ok child_node.

Fixpoint percolate_down_loop (fuel : nat) (q : queue) (st : St) (i moving_pri : Z)
  : res (queue * St * Z) :=
  match fuel with
  | O => Bug NoFuel
  | S fuel =>
    child_node ← maxchild q st i;
    if child_node =? 0 then Ok (q, st, i)
    else
      c ← dget q child_node;
      if cmppri moving_pri (getpri st c) then
        q ← dset q i c;
        percolate_down_loop fuel q (setpos c i st) child_node moving_pri
      else Ok (q, st, i)
  end.

Definition percolate_down (q : queue) (st : St) (i : Z) : res (queue * St) :=
  moving_node ← dget q i;
  '(q, st, i) ← percolate_down_loop (S (Z.to_nat (pq_size q))) q st i (getpri st moving_node);
  q ← dset q i moving_node;
  Ok (q, setpos moving_node i st).

(** A full queue is only reported ([NVMEV_ERROR]); the store that follows is
    then out of the array. *)
Definition pqueue_insert (q : queue) (st : St) (n : Node) : res (queue * St) :=
  let i := pq_size q in
  let q := set_size q (pq_size q + 1) in
  q ← dset q i n;
  bubble_up q st i.

Definition pqueue_change_priority (q : queue) (st : St) (new_pri : Z) (n : Node)
  : res (queue * St) :=
  let old_pri := getpri st n in
  let st := setpri n new_pri st in
  let posn := getpos st n in
  if cmppri old_pri new_pri then bubble_up q st posn else percolate_down q st posn.

Definition pqueue_remove (q : queue) (st : St) (n : Node) : res (queue * St) :=
  let posn := getpos st n in
  let q := set_size q (pq_size q - 1) in
  last ← dget q (pq_size q);
  q ← dset q posn last;
  if cmppri (getpri st n) (getpri st last) then bubble_up q st posn
  else percolate_down q st posn.

Definition pqueue_pop (q : queue) (st : St) : res (queue * St * option Node) :=
  if pq_size q =? 1 then Ok (q, st, None)
  else
    head ← dget q 1;
    let q := set_size q (pq_size q - 1) in
    last ← dget q (pq_size q);
    q ← dset q 1 last;
    '(q, st) ← percolate_down q st 1;
    Ok (q, st, Some head).

Definition pqueue_peek (q : queue) : res (option Node) :=
  if pq_size q =? 1 then Ok None else n ← dget q 1; Ok (Some n).

(** One side of the recursion of [subtree_is_valid]. *)
Definition child_is_valid (q : queue) (st : St) (rec : Z -> res bool) (pos child : Z)
  : res bool :=
  if child <? pq_size q then
    p ← dget q pos;
    c ← dget q child;
    if cmppri (getpri st p) (getpri st c) then Ok false else rec child
  else Ok true.

Fixpoint subtree_is_valid (fuel : nat) (q : queue) (st : St) (pos : Z) : res bool :=
  match fuel with
  | O => Bug NoFuel
  | S fuel =>
    l ← child_is_valid q st (subtree_is_valid fuel q st) pos (left pos);
    if negb l then Ok false
    else child_is_valid q st (subtree_is_valid fuel q st) pos (right pos)
  end.

Definition pqueue_is_valid (q : queue) (st : St) : res bool :=
  subtree_is_valid (S (Z.to_nat (pq_size q))) q st 1.
End ops.

(** What the callbacks promise: [setpos] and [setpri] write one field of one
    valid node, and the comparison is the strict order of a rank ([cmppri x y]
    says that a node of priority [y] belongs above one of priority [x]). *)
Class PqLaws (St Node : Type) `{!PqCallbacks St Node} `{!EqDecision Node} := {
  pq_valid : St -> Node -> Prop;
  pq_pri_ok : Z -> Prop;
  pq_rank : Z -> Z;
  cmppri_rank x y : cmppri x y = (pq_rank y <? pq_rank x);
  getpos_setpos st n m p : pq_valid st n ->
    getpos (setpos n p st) m = if decide (n = m) then p else getpos st m;
  getpri_setpos st n m p : getpri (setpos n p st) m = getpri st m;
  getpri_setpri st n m p : pq_valid st n -> pq_pri_ok p ->
    getpri (setpri n p st) m = if decide (n = m) then p else getpri st m;
  getpos_setpri st n m p : getpos (setpri n p st) m = getpos st m;
  pq_valid_setpos st n m p : pq_valid (setpos n p st) m <-> pq_valid st m;
  pq_valid_setpri st n m p : pq_valid (setpri n p st) m <-> pq_valid st m;
}.

Lemma left_eq i : left i = 2 * i.
Proof. unfold left. rewrite Z.shiftl_mul_pow2 by lia. lia. Qed.
Lemma right_eq i : right i = 2 * i + 1.
Proof. unfold right. rewrite Z.shiftl_mul_pow2 by lia. lia. Qed.
Lemma parent_eq i : parent i = i / 2.
Proof. unfold parent. rewrite Z.shiftr_div_pow2 by lia. done. Qed.

Section heap.
Context {St Node : Type} `{!PqCallbacks St Node} `{!EqDecision Node} `{!PqLaws St Node}.
Local Abbreviation queue := (pqueue_t Node).
Implicit Types (q : queue) (st : St) (V : Z -> Node) (m n : Node) (i j k sz : Z).

Definition rk (st : St) (n : Node) : Z := pq_rank (getpri st n).

(** [st'] differs from [st] by position updates of nodes in [P] only. *)
Inductive repos (P : Node -> Prop) (st : St) : St -> Prop :=
| repos_refl : repos P st st
| repos_step st' n p : P n -> repos P st st' -> repos P st (setpos n p st').

(** The array holds [V j] at every used index except the hole [h], and the
    node at [j] knows its position. *)
Record holes (q : queue) (st : St) (V : Z -> Node) (h : Z) : Prop := {
  ho_size : 1 ≤ pq_size q ≤ Z.of_nat (length (pq_d q));
  ho_get j : 1 ≤ j < pq_size q -> j <> h -> aget (pq_d q) j = Ok (Some (V j));
  ho_pos j : 1 ≤ j < pq_size q -> j <> h -> getpos st (V j) = j;
  ho_valid j : 1 ≤ j < pq_size q -> j <> h -> pq_valid st (V j);
}.

(** The moving node [m] is valid and stored at no index other than the hole. *)
Definition moving (q : queue) (st : St) (V : Z -> Node) (h : Z) (m : Node) : Prop :=
  pq_valid st m /\ forall j, 1 ≤ j < pq_size q -> j <> h -> V j <> m.

Definition fill (V : Z -> Node) (h : Z) (m : Node) : Z -> Node :=
  fun j => if decide (j = h) then m else V j.

(** The heap order on the edges the predicate [E] (on the child) selects. *)
Definition ordered (st : St) (sz : Z) (V : Z -> Node) (E : Z -> Prop) : Prop :=
  forall j, 1 < j < sz -> E j -> rk st (V (j / 2)) ≤ rk st (V j).

(** Children of the hole are not above its parent. *)
Definition bridged (st : St) (sz : Z) (V : Z -> Node) (i : Z) : Prop :=
  forall j, 1 < j < sz -> j / 2 = i -> 1 < i -> rk st (V (i / 2)) ≤ rk st (V j).

(** The invariant of a queue between operations. *)
Record pq_inv (q : queue) (st : St) (V : Z -> Node) : Prop := {
  pi_holes : holes q st V 0;
  pi_heap : ordered st (pq_size q) V (fun _ => True);
  pi_avail : Z.of_nat (length (pq_d q)) = pq_avail q;
}.
Definition pq_wf (q : queue) (st : St) : Prop := exists V, pq_inv q st V.

Definition pq_in (q : queue) (n : Node) : Prop :=
  exists j, 1 ≤ j < pq_size q /\ aget (pq_d q) j = Ok (Some n).

(** What a sift changes: the queue's shape is kept and the elements are [M]. *)
Record sifted (q : queue) (st : St) (M : Node -> Prop) (q' : queue) (st' : St) : Prop := {
  si_wf : pq_wf q' st';
  si_size : pq_size q' = pq_size q;
  si_avail : pq_avail q' = pq_avail q;
  si_in n : pq_in q' n <-> M n;
  si_repos : repos M st st';
}.

Lemma repos_rk P st st' n : repos P st st' -> getpri st' n = getpri st n.
Proof. induction 1 as [|st' k p ?? IH]; [done|]. by rewrite getpri_setpos. Qed.

Lemma repos_valid P st st' n : repos P st st' -> pq_valid st' n <-> pq_valid st n.
Proof. induction 1 as [|st' k p ?? IH]; [done|]. by rewrite pq_valid_setpos. Qed.

Lemma repos_pos P st st' n :
  repos P st st' -> (forall m, P m -> pq_valid st m) -> ~ P n -> getpos st' n = getpos st n.
Proof.
  intros Hr Hv Hn. induction Hr as [|st' k p HP Hr IH]; [done|].
  rewrite getpos_setpos by (eapply repos_valid; eauto).
  case_decide; [by subst | done].
Qed.

Lemma repos_mono (P Q : Node -> Prop) st st' :
  repos P st st' -> (forall n, P n -> Q n) -> repos Q st st'.
Proof. induction 1; intros; constructor; auto. Qed.

Lemma repos_trans P st st1 st2 : repos P st st1 -> repos P st1 st2 -> repos P st st2.
Proof. intros H1 H2. induction H2; [done | by constructor]. Qed.

Lemma dget_Ok q j n : dget q j = Ok n <-> aget (pq_d q) j = Ok (Some n).
Proof.
  unfold dget. rewrite bind_Ok. split.
  - intros (o & Ho & ->%deref_Ok). done.
  - intros H. exists (Some n). by rewrite deref_Ok.
Qed.

Lemma dget_hole q st V h j :
  holes q st V h -> 1 ≤ j < pq_size q -> j <> h -> dget q j = Ok (V j).
Proof. intros. apply dget_Ok. by eapply ho_get. Qed.

Lemma dset_Ok q i n :
  1 ≤ i < Z.of_nat (length (pq_d q)) ->
  dset q i n = Ok (set_d q (<[Z.to_nat i := Some n]> (pq_d q))).
Proof. intros. unfold dset. rewrite aset_in_range by lia. done. Qed.

Lemma fill_eq V h m : fill V h m h = m.
Proof. unfold fill. by rewrite decide_True. Qed.
Lemma fill_ne V h m j : j <> h -> fill V h m j = V j.
Proof. intros. unfold fill. by rewrite decide_False. Qed.

(** One sift step: the node at [k] moves into the hole [i]; the hole is now
    at [k]. *)
Lemma hole_move q st V i k :
  holes q st V i -> 1 ≤ i < pq_size q -> 1 ≤ k < pq_size q -> k <> i ->
  holes (set_d q (<[Z.to_nat i := Some (V k)]> (pq_d q))) (setpos (V k) i st)
    (fill V i (V k)) k.
Proof.
  intros H Hi Hk Hne. destruct H as [Hs Hg Hp Hv]. split; simpl.
  - rewrite length_insert. lia.
  - intros j Hj Hjk. rewrite aget_insert by lia. unfold fill.
    repeat case_decide; try congruence; try lia. by apply Hg.
  - intros j Hj Hjk. unfold fill. rewrite getpos_setpos by (apply Hv; lia).
    repeat case_decide; try congruence; try lia.
    + assert (getpos st (V k) = getpos st (V j)) as HE by congruence.
      rewrite !Hp in HE by lia. lia.
    + apply Hp; lia.
  - intros j Hj Hjk. rewrite pq_valid_setpos. unfold fill.
    case_decide; apply Hv; lia.
Qed.

(** The last step: the moving node fills the hole. *)
Lemma hole_fill q st V i m :
  holes q st V i -> moving q st V i m -> 1 ≤ i < pq_size q ->
  holes (set_d q (<[Z.to_nat i := Some m]> (pq_d q))) (setpos m i st) (fill V i m) 0.
Proof.
  intros [Hs Hg Hp Hv] [Hm Hf] Hi. split; simpl.
  - rewrite length_insert. lia.
  - intros j Hj _. rewrite aget_insert by lia. unfold fill.
    repeat case_decide; try congruence; try lia. by apply Hg.
  - intros j Hj _. unfold fill. rewrite getpos_setpos by done.
    repeat case_decide; try congruence.
    + exfalso. apply (Hf j); [lia | congruence | congruence].
    + by apply Hp.
  - intros j Hj _. rewrite pq_valid_setpos. unfold fill.
    case_decide; [done | by apply Hv].
Qed.

(** The nodes of a filled array. *)
Definition elems (q : queue) (V : Z -> Node) (h : Z) : Node -> Prop :=
  fun n => exists j, 1 ≤ j < pq_size q /\ j <> h /\ V j = n.

Lemma hole_in q st V n : holes q st V 0 -> pq_in q n <-> elems q V 0 n.
Proof.
  intros H. split.
  - intros (j & Hj & Hg). exists j. rewrite (ho_get _ _ _ _ H) in Hg by lia.
    injection Hg as ->. repeat split; lia || done.
  - intros (j & Hj & _ & <-). exists j. split; [done|]. eapply ho_get; [done | lia..].
Qed.

Lemma elems_move (q : queue) V i k n :
  1 ≤ i < pq_size q -> 1 ≤ k < pq_size q -> k <> i ->
  elems q (fill V i (V k)) k n <-> elems q V i n.
Proof.
  intros Hi Hk Hne. unfold elems, fill. split; intros (j & Hj & Hjh & He).
  - case_decide; [exists k | exists j]; repeat split; lia || done.
  - destruct (decide (j = k)) as [->|].
    + exists i. rewrite decide_True by done. repeat split; lia || done.
    + exists j. rewrite decide_False by done. repeat split; lia || done.
Qed.

Lemma elems_fill (q : queue) V i m n :
  1 ≤ i < pq_size q -> elems q (fill V i m) 0 n <-> n = m \/ elems q V i n.
Proof.
  intros Hi. unfold elems, fill. split.
  - intros (j & Hj & _ & He). case_decide; [by left | right; exists j; done].
  - intros [->|(j & Hj & Hjh & He)].
    + exists i. rewrite decide_True by done. repeat split; lia || done.
    + exists j. rewrite decide_False by done. repeat split; lia || done.
Qed.

(** *** Order lemmas of the two sifts *)
Lemma up_step st sz V i m :
  1 < i < sz ->
  ordered st sz (fill V i m) (fun j => j <> i) -> bridged st sz (fill V i m) i ->
  rk st m < rk st (V (i / 2)) ->
  ordered st sz (fill (fill V i (V (i / 2))) (i / 2) m) (fun j => j <> i / 2) /\
  bridged st sz (fill (fill V i (V (i / 2))) (i / 2) m) (i / 2).
Proof.
  intros Hi Ho Hb Hlt. unfold ordered, bridged, fill in *.
  assert (i / 2 <> i) as Hpi by lia. split.
  - intros j Hj Hne. pose proof (Ho j Hj) as Hoj. pose proof (Hb j Hj) as Hbj.
    destruct (decide (j = i)) as [->|]; dec_simpl; [lia|].
    destruct (decide (j / 2 = i)) as [E|].
    + rewrite E in *. dec_simpl. apply Hbj; lia.
    + specialize (Hoj ltac:(done)). case_decide; [|done]. rewrite H in *. lia.
  - intros j Hj Hjp H1. pose proof (Ho j Hj) as Hoj.
    pose proof (Ho (i / 2) ltac:(lia) ltac:(lia)) as Hop. dec_simpl.
    destruct (decide (j = i)) as [->|]; [lia|].
    specialize (Hoj ltac:(done)). rewrite Hjp in Hoj. dec_simpl. lia.
Qed.

Lemma up_done st sz V i m :
  1 ≤ i < sz ->
  ordered st sz (fill V i m) (fun j => j <> i) ->
  i ≤ 1 \/ rk st (V (i / 2)) ≤ rk st m ->
  ordered st sz (fill V i m) (fun _ => True).
Proof.
  intros Hi Ho Hle j Hj _. destruct (decide (j = i)) as [->|]; [|by apply Ho].
  rewrite fill_eq, fill_ne by lia. lia.
Qed.

(** [c] is the child of [i] that [maxchild] selects. *)
Lemma down_step st sz V i c m :
  1 ≤ i < sz -> 1 < c < sz -> c / 2 = i ->
  ordered st sz (fill V i m) (fun j => j / 2 <> i) -> bridged st sz (fill V i m) i ->
  rk st (V c) < rk st m ->
  (forall j, 1 < j < sz -> j / 2 = i -> rk st (V c) ≤ rk st (V j)) ->
  ordered st sz (fill (fill V i (V c)) c m) (fun j => j / 2 <> c) /\
  bridged st sz (fill (fill V i (V c)) c m) c.
Proof.
  intros Hi Hc Hci Ho Hb Hlt Hmin. unfold ordered, bridged, fill in *. split.
  - intros j Hj Hjc. pose proof (Ho j Hj) as Hoj. pose proof (Hb c Hc Hci) as Hbc. dec_simpl.
    destruct (decide (j / 2 = i)) as [E|].
    + destruct (decide (j = c)) as [->|]; [lia|]. dec_simpl. by apply Hmin.
    + dec_simpl. specialize (Hoj ltac:(done)).
      destruct (decide (j = i)) as [->|]; [apply Hbc; lia | done].
  - intros j Hj Hjc H1. rewrite Hci. pose proof (Ho j Hj) as Hoj. rewrite Hjc in Hoj.
    dec_simpl. apply Hoj. lia.
Qed.

Lemma down_done st sz V i m :
  1 ≤ i < sz ->
  ordered st sz (fill V i m) (fun j => j / 2 <> i) ->
  (forall j, 1 < j < sz -> j / 2 = i -> rk st m ≤ rk st (V j)) ->
  ordered st sz (fill V i m) (fun _ => True).
Proof.
  intros Hi Ho Hle j Hj _. destruct (decide (j / 2 = i)) as [E|]; [|by apply Ho].
  rewrite E, fill_eq, fill_ne by lia. by apply Hle.
Qed.

(** *** The sift loops

    [sifting] relates the state of a loop to the state [q0], [st0] it
    started from: the hole is at [i], the moving node is [m], the nodes other
    than [m] are [M]. *)
Record sifting (q0 : queue) (st0 : St) (M : Node -> Prop) (m : Node)
    (q : queue) (st : St) (V : Z -> Node) (i : Z) : Prop := {
  sg_holes : holes q st V i;
  sg_moving : moving q st V i m;
  sg_hole : 1 ≤ i < pq_size q;
  sg_size : pq_size q = pq_size q0;
  sg_avail : pq_avail q = pq_avail q0;
  sg_len : length (pq_d q) = length (pq_d q0);
  sg_in n : elems q V i n <-> M n;
  sg_repos : repos M st0 st;
}.

Lemma sifting_rk q0 st0 M m q st V i n :
  sifting q0 st0 M m q st V i -> getpri st n = getpri st0 n.
Proof. intros H. eapply repos_rk, sg_repos, H. Qed.

Lemma sifting_move q0 st0 M m q st V i k :
  sifting q0 st0 M m q st V i -> 1 ≤ k < pq_size q -> k <> i ->
  exists q', dset q i (V k) = Ok q' /\
    sifting q0 st0 M m q' (setpos (V k) i st) (fill V i (V k)) k.
Proof.
  intros [Hh [Hm Hf] Hi Hs Ha Hl Hin Hr] Hk Hne.
  pose proof (ho_size _ _ _ _ Hh). eexists. split; [apply dset_Ok; lia|]. split; simpl.
  - by apply hole_move.
  - split; [by apply pq_valid_setpos|]. intros j Hj Hjk. simpl in *. unfold fill.
    case_decide; apply Hf; lia.
  - lia.
  - done.
  - done.
  - by rewrite length_insert.
  - intros n. rewrite <- Hin. apply (elems_move q); lia.
  - constructor; [|done]. apply Hin. exists k. repeat split; lia || done.
Qed.

(** Leaving a loop in heap order, the moving node is stored in the hole. *)
Lemma sifting_finish q0 st0 M m q st V i :
  sifting q0 st0 M m q st V i ->
  Z.of_nat (length (pq_d q0)) = pq_avail q0 ->
  ordered st0 (pq_size q) (fill V i m) (fun _ => True) ->
  exists q', dset q i m = Ok q' /\
    sifted q0 st0 (fun n => n = m \/ M n) q' (setpos m i st).
Proof.
  intros [Hh Hm Hi Hs Ha Hl Hin Hr] Hav Ho. pose proof (ho_size _ _ _ _ Hh).
  eexists. split; [apply dset_Ok; lia|].
  pose proof (hole_fill _ _ _ _ _ Hh Hm Hi) as Hf. split; simpl; try done.
  - exists (fill V i m). split; [done | | simpl; rewrite length_insert; lia].
    intros j Hj _. unfold rk. rewrite !getpri_setpos, !(repos_rk _ _ _ _ Hr).
    by apply Ho.
  - intros n. rewrite (hole_in _ _ _ _ Hf), <- Hin. by apply (elems_fill q).
  - constructor; [by left|]. eapply repos_mono; [done | by right].
Qed.

Lemma bubble_up_loop_ok fuel q0 st0 M m q st V i :
  sifting q0 st0 M m q st V i -> (Z.to_nat i < fuel)%nat ->
  ordered st0 (pq_size q) (fill V i m) (fun j => j <> i) ->
  bridged st0 (pq_size q) (fill V i m) i ->
  exists q' st' V' i', bubble_up_loop fuel q st i (getpri st0 m) = Ok (q', st', i') /\
    sifting q0 st0 M m q' st' V' i' /\
    ordered st0 (pq_size q') (fill V' i' m) (fun _ => True).
Proof.
  revert q st V i. induction fuel as [|fuel IH]; intros q st V i Hsg Hfuel Ho Hb; [lia|].
  simpl. pose proof Hsg as [Hh Hm Hi Hs Ha Hl Hin Hr].
  destruct (Z.ltb_spec 1 i).
  2:{ exists q, st, V, i. split; [done|]. split; [done|]. apply up_done; [lia | done | lia]. }
  rewrite parent_eq. rewrite (dget_hole _ _ _ _ _ Hh) by lia. simpl.
  rewrite cmppri_rank, (repos_rk _ _ _ _ Hr).
  destruct (Z.ltb_spec (pq_rank (getpri st0 m)) (pq_rank (getpri st0 (V (i / 2))))).
  - destruct (sifting_move q0 st0 M m q st V i (i / 2)) as (q' & -> & Hsg');
      [done | lia | lia |]. simpl.
    assert (pq_size q' = pq_size q) as Hsz.
    { rewrite (sg_size _ _ _ _ _ _ _ _ Hsg'). done. }
    destruct (up_step st0 (pq_size q) V i m) as [Ho' Hb']; [lia | done..|].
    eapply IH; [exact Hsg' | lia | by rewrite Hsz..].
  - exists q, st, V, i. split; [done|]. split; [done|].
    apply up_done; [lia | done | by right].
Qed.

Lemma maxchild_ok q st V i m :
  holes q st V i -> 1 ≤ i < pq_size q ->
  exists c, maxchild q st i = Ok c /\
    (c = 0 /\ (forall j, 1 < j < pq_size q -> j / 2 <> i) \/
     1 < c < pq_size q /\ c / 2 = i /\
     forall j, 1 < j < pq_size q -> j / 2 = i -> rk st (V c) ≤ rk st (V j)).
Proof using Type*.
  intros Hh Hi. unfold maxchild. rewrite left_eq.
  destruct (Z.leb_spec (pq_size q) (2 * i)).
  { exists 0. split; [done|]. left. split; [done|]. lia. }
  destruct (Z.ltb_spec (2 * i + 1) (pq_size q)).
  - rewrite !(dget_hole _ _ _ _ _ Hh) by lia. simpl. eexists. split; [done|]. right.
    rewrite cmppri_rank.
    destruct (Z.ltb_spec (pq_rank (getpri st (V (2 * i + 1)))) (pq_rank (getpri st (V (2 * i)))));
      (split; [lia|]; split; [lia|]; intros j Hj Hji;
       assert (j = 2 * i \/ j = 2 * i + 1) as [-> | ->] by lia; unfold rk; lia).
  - eexists. split; [done|]. right. split; [lia|]. split; [lia|]. intros j Hj Hji.
    assert (j = 2 * i) as -> by lia. done.
Qed.

Lemma percolate_down_loop_ok fuel q0 st0 M m q st V i :
  sifting q0 st0 M m q st V i -> (Z.to_nat (pq_size q - i) < fuel)%nat ->
  ordered st0 (pq_size q) (fill V i m) (fun j => j / 2 <> i) ->
  bridged st0 (pq_size q) (fill V i m) i ->
  exists q' st' V' i', percolate_down_loop fuel q st i (getpri st0 m) = Ok (q', st', i') /\
    sifting q0 st0 M m q' st' V' i' /\
    ordered st0 (pq_size q') (fill V' i' m) (fun _ => True).
Proof.
  revert q st V i. induction fuel as [|fuel IH]; intros q st V i Hsg Hfuel Ho Hb; [lia|].
  simpl. pose proof Hsg as [Hh Hm Hi Hs Ha Hl Hin Hr].
  destruct (maxchild_ok q st V i m Hh Hi) as (c & -> & Hc). simpl.
  destruct (Z.eqb_spec c 0) as [->|Hc0].
  { exists q, st, V, i. split; [done|]. split; [done|].
    destruct Hc as [[_ Hc]|]; [|lia]. intros j Hj _. apply Ho; [done | by apply Hc]. }
  destruct Hc as [[? _]|(Hc & Hci & Hmin)]; [lia|].
  rewrite (dget_hole _ _ _ _ _ Hh) by lia. simpl.
  rewrite cmppri_rank, (repos_rk _ _ _ _ Hr).
  assert (forall j, 1 < j < pq_size q -> j / 2 = i -> rk st0 (V c) ≤ rk st0 (V j)) as Hmin'.
  { intros j Hj Hji. specialize (Hmin j Hj Hji). unfold rk in *.
    by rewrite !(repos_rk _ _ _ _ Hr) in Hmin. }
  destruct (Z.ltb_spec (pq_rank (getpri st0 (V c))) (pq_rank (getpri st0 m))).
  - destruct (sifting_move q0 st0 M m q st V i c) as (q' & -> & Hsg');
      [done | lia | lia |]. simpl.
    assert (pq_size q' = pq_size q) as Hsz.
    { rewrite (sg_size _ _ _ _ _ _ _ _ Hsg'). done. }
    destruct (down_step st0 (pq_size q) V i c m) as [Ho' Hb']; [lia | done..|].
    eapply IH; [exact Hsg' | lia | by rewrite Hsz..].
  - exists q, st, V, i. split; [done|]. split; [done|].
    apply down_done; [lia | done |]. intros j Hj Hji. specialize (Hmin' j Hj Hji).
    unfold rk in *. lia.
Qed.

(** *** Starting a sift: one node of a heap is replaced *)
Lemma replace_up st st' sz V i m :
  1 ≤ i < sz -> ordered st sz V (fun _ => True) ->
  (forall j, 1 ≤ j < sz -> j <> i -> rk st' (V j) = rk st (V j)) ->
  rk st' m ≤ rk st (V i) ->
  ordered st' sz (fill V i m) (fun j => j <> i) /\ bridged st' sz (fill V i m) i.
Proof.
  intros Hi Ho He Hle. unfold ordered, bridged, fill. split.
  - intros j Hj Hne. pose proof (Ho j Hj I). dec_simpl. rewrite (He j) by lia.
    case_decide as E; [rewrite E in *; lia | rewrite He; lia].
  - intros j Hj Hji H1. pose proof (Ho j Hj I) as H2. pose proof (Ho i ltac:(lia) I).
    rewrite Hji in H2. dec_simpl. rewrite !He by lia. lia.
Qed.

Lemma replace_down st st' sz V i m :
  1 ≤ i < sz -> ordered st sz V (fun _ => True) ->
  (forall j, 1 ≤ j < sz -> j <> i -> rk st' (V j) = rk st (V j)) ->
  rk st (V i) ≤ rk st' m ->
  ordered st' sz (fill V i m) (fun j => j / 2 <> i) /\ bridged st' sz (fill V i m) i.
Proof.
  intros Hi Ho He Hle. unfold ordered, bridged, fill. split.
  - intros j Hj Hne. pose proof (Ho j Hj I). dec_simpl. rewrite (He (j / 2)) by lia.
    case_decide as E; [subst j; lia | rewrite He; lia].
  - intros j Hj Hji H1. pose proof (Ho j Hj I) as H2. pose proof (Ho i ltac:(lia) I).
    rewrite Hji in H2. dec_simpl. rewrite !He by lia. lia.
Qed.

Lemma bubble_up_ok q st V i m :
  holes q st V i -> moving q st V i m -> 1 ≤ i < pq_size q -> dget q i = Ok m ->
  Z.of_nat (length (pq_d q)) = pq_avail q ->
  ordered st (pq_size q) (fill V i m) (fun j => j <> i) ->
  bridged st (pq_size q) (fill V i m) i ->
  exists q' st', bubble_up q st i = Ok (q', st') /\
    sifted q st (fun n => n = m \/ elems q V i n) q' st'.
Proof.
  intros Hh Hm Hi Hg Ha Ho Hb. unfold bubble_up. rewrite Hg. simpl.
  destruct (bubble_up_loop_ok (S (Z.to_nat i)) q st (elems q V i) m q st V i)
    as (q1 & st1 & V1 & i1 & He & Hsg & Ho1); [|lia | done..|].
  { split; try done. constructor. }
  simpl in He. rewrite He. simpl.
  destruct (sifting_finish _ _ _ _ _ _ _ _ Hsg Ha Ho1) as (q2 & -> & Hs). simpl. eauto.
Qed.

Lemma percolate_down_ok q st V i m :
  holes q st V i -> moving q st V i m -> 1 ≤ i < pq_size q -> dget q i = Ok m ->
  Z.of_nat (length (pq_d q)) = pq_avail q ->
  ordered st (pq_size q) (fill V i m) (fun j => j / 2 <> i) ->
  bridged st (pq_size q) (fill V i m) i ->
  exists q' st', percolate_down q st i = Ok (q', st') /\
    sifted q st (fun n => n = m \/ elems q V i n) q' st'.
Proof.
  intros Hh Hm Hi Hg Ha Ho Hb. unfold percolate_down. rewrite Hg. simpl.
  destruct (percolate_down_loop_ok (S (Z.to_nat (pq_size q))) q st (elems q V i) m q st V i)
    as (q1 & st1 & V1 & i1 & He & Hsg & Ho1); [|lia | done..|].
  { split; try done. constructor. }
  simpl in He. rewrite He. simpl.
  destruct (sifting_finish _ _ _ _ _ _ _ _ Hsg Ha Ho1) as (q2 & -> & Hs). simpl. eauto.
Qed.

(** Nodes at different indexes of a queue are different. *)
Lemma holes_inj q st V h j k :
  holes q st V h -> 1 ≤ j < pq_size q -> 1 ≤ k < pq_size q -> j <> h -> k <> h ->
  V j = V k -> j = k.
Proof. intros [_ _ Hp _] ???? E. rewrite <- (Hp j), <- (Hp k) by done. by rewrite E. Qed.

Lemma holes_weaken q st V i : holes q st V 0 -> holes q st V i.
Proof. intros [Hs Hg Hp Hv]. split; [done|..]; intros; auto with lia. Qed.

Lemma inv_moving q st V i :
  holes q st V 0 -> 1 ≤ i < pq_size q -> moving q st V i (V i).
Proof.
  intros H Hi. split; [apply (ho_valid _ _ _ _ H); lia|].
  intros j Hj Hne E. apply Hne. eapply holes_inj; eauto with lia.
Qed.

Lemma holes_setpri q st V h n p : holes q st V h -> holes q (setpri n p st) V h.
Proof.
  intros [Hs Hg Hp Hv]. split; try done; intros; [rewrite getpos_setpri | rewrite pq_valid_setpri]; auto.
Qed.

(** The element of least rank is at the root. *)
Lemma heap_root st sz V j :
  ordered st sz V (fun _ => True) -> 1 ≤ j < sz -> rk st (V 1) ≤ rk st (V j).
Proof.
  intros Ho. revert j. refine (well_founded_ind (Z.lt_wf 1) _ _). intros j IH Hj.
  destruct (decide (j = 1)) as [->|]; [lia|].
  specialize (IH (j / 2) ltac:(lia) ltac:(lia)). pose proof (Ho j ltac:(lia) I). lia.
Qed.

Lemma pq_in_valid q st n : pq_wf q st -> pq_in q n -> pq_valid st n.
Proof.
  intros [V [Hh _ _]] (j & Hj & _ & <-)%(hole_in _ _ _ _ Hh).
  eapply ho_valid; [done | lia..].
Qed.

Lemma pq_in_pos q st n : pq_wf q st -> pq_in q n -> 1 ≤ getpos st n < pq_size q.
Proof.
  intros [V [Hh _ _]] (j & Hj & ? & <-)%(hole_in _ _ _ _ Hh).
  erewrite ho_pos; [done | done | lia..].
Qed.

(** The queue depends on the nodes through the callbacks of its elements. *)
Lemma pq_wf_ext q st st' :
  (forall n, pq_in q n -> getpri st' n = getpri st n /\ getpos st' n = getpos st n /\
     (pq_valid st n -> pq_valid st' n)) ->
  pq_wf q st -> pq_wf q st'.
Proof.
  intros He [V [Hh Ho Ha]]. exists V.
  assert (forall j, 1 ≤ j < pq_size q -> pq_in q (V j)) as Hin.
  { intros j Hj. apply (hole_in _ _ _ _ Hh). exists j. repeat split; lia. }
  split; [|intros j Hj _|done].
  - destruct Hh as [Hs Hg Hp Hv]. split; [done | done | |]; intros j Hj Hj0;
      destruct (He (V j) (Hin j Hj)) as (_ & E & Hv'); [rewrite E; auto | auto].
  - unfold rk. assert (1 ≤ j / 2 < j) by (split; [apply Z.div_le_lower_bound; lia | apply Z.div_lt; lia]).
    rewrite (proj1 (He _ (Hin j ltac:(lia)))), (proj1 (He _ (Hin (j / 2) ltac:(lia)))). by apply Ho.
Qed.

(** *** The operations *)
Lemma insert_ok q st n :
  pq_wf q st -> pq_size q < pq_avail q -> pq_valid st n -> ~ pq_in q n ->
  exists q' st', pqueue_insert q st n = Ok (q', st') /\ pq_wf q' st' /\
    pq_size q' = pq_size q + 1 /\ pq_avail q' = pq_avail q /\
    (forall m, pq_in q' m <-> m = n \/ pq_in q m) /\
    repos (fun m => m = n \/ pq_in q m) st st'.
Proof.
  intros [V [Hh Ho Ha]] Hlt Hv Hn. unfold pqueue_insert.
  pose proof (ho_size _ _ _ _ Hh) as Hsz.
  rewrite dset_Ok by (simpl; lia). simpl.
  set (q1 := set_d (set_size q (pq_size q + 1)) (<[Z.to_nat (pq_size q) := Some n]> (pq_d q))).
  assert (holes q1 st V (pq_size q)) as Hh1.
  { split; simpl.
    - rewrite length_insert. lia.
    - intros j Hj Hne. rewrite aget_insert, decide_False by lia. apply (ho_get _ _ _ _ Hh); lia.
    - intros j Hj Hne. apply (ho_pos _ _ _ _ Hh); lia.
    - intros j Hj Hne. apply (ho_valid _ _ _ _ Hh); lia. }
  assert (forall m, elems q1 V (pq_size q) m <-> pq_in q m) as Hel.
  { intros m. rewrite (hole_in _ _ _ _ Hh). unfold elems. simpl.
    split; intros (j & Hj & Hne & <-); exists j; repeat split; lia. }
  destruct (bubble_up_ok q1 st V (pq_size q) n) as (q' & st' & He & Hs); try done.
  - split; [done|]. intros j Hj Hne E. apply Hn, Hel. exists j. done.
  - simpl. lia.
  - apply dget_Ok. simpl. rewrite aget_insert, decide_True by lia. done.
  - simpl. by rewrite length_insert.
  - intros j Hj Hne. simpl in Hj. rewrite !fill_ne by lia. apply Ho; [lia | done].
  - intros j Hj Hji H1. simpl in Hj. lia.
  - destruct Hs as [Hw Hs1 Hs2 Hin Hr]. exists q', st'. split; [done|]. split; [done|].
    split; [by rewrite Hs1|]. split; [by rewrite Hs2|]. split.
    + intros m. rewrite Hin, Hel. done.
    + eapply repos_mono; [done|]. intros m. simpl. by rewrite Hel.
Qed.

Lemma change_priority_ok q st n p :
  pq_wf q st -> pq_in q n -> pq_pri_ok p ->
  exists q' st', pqueue_change_priority q st p n = Ok (q', st') /\ pq_wf q' st' /\
    pq_size q' = pq_size q /\ pq_avail q' = pq_avail q /\
    (forall m, pq_in q' m <-> pq_in q m) /\ repos (pq_in q) (setpri n p st) st'.
Proof.
  intros Hwf Hin Hp. pose proof (pq_in_valid _ _ _ Hwf Hin) as Hv.
  destruct Hwf as [V [Hh Ho Ha]].
  destruct (proj1 (hole_in _ _ _ _ Hh) Hin) as (i & Hi & Hi0 & <-).
  unfold pqueue_change_priority. rewrite getpos_setpri, (ho_pos _ _ _ _ Hh) by lia.
  set (st1 := setpri (V i) p st).
  pose proof (holes_setpri _ _ _ _ (V i) p Hh) as Hh1. fold st1 in Hh1.
  assert (forall m, m = V i \/ elems q V i m <-> pq_in q m) as Hel.
  { intros m. rewrite (hole_in _ _ _ _ Hh), <- (elems_fill q) by lia. unfold elems, fill.
    split; intros (j & Hj & Hne & <-); exists j; case_decide; subst; done. }
  assert (forall q' st', sifted q st1 (fun m => m = V i \/ elems q V i m) q' st' ->
    pq_wf q' st' /\ pq_size q' = pq_size q /\ pq_avail q' = pq_avail q /\
    (forall m, pq_in q' m <-> pq_in q m) /\ repos (pq_in q) st1 st') as Hfin.
  { intros q' st' [Hw Hs1 Hs2 Hin' Hr]. split; [done|]. split; [done|]. split; [done|].
    split; [intros m; by rewrite Hin'|]. eapply repos_mono; [done|]. intros m. by rewrite Hel. }
  assert (forall j, 1 ≤ j < pq_size q -> j <> i -> rk st1 (V j) = rk st (V j)) as Hrk.
  { intros j Hj Hne. unfold rk, st1. rewrite getpri_setpri, decide_False; try done.
    intros E. apply Hne. eapply holes_inj; eauto with lia. }
  assert (rk st1 (V i) = pq_rank p) as Hrp.
  { unfold rk, st1. by rewrite getpri_setpri, decide_True. }
  rewrite cmppri_rank. pose proof (holes_weaken _ _ _ i Hh1) as Hw1.
  pose proof (inv_moving _ _ _ i Hh1 Hi) as Hm1.
  destruct (Z.ltb_spec (pq_rank p) (pq_rank (getpri st (V i)))).
  - destruct (replace_up st st1 (pq_size q) V i (V i)) as [Ho1 Hb1];
      [done | done | done | rewrite Hrp; unfold rk; lia |].
    destruct (bubble_up_ok q st1 V i (V i)) as (q' & st' & He & Hs); try done.
    { apply (dget_hole _ _ _ _ _ Hh1); lia. }
    exists q', st'. split; [done|]. by apply Hfin.
  - destruct (replace_down st st1 (pq_size q) V i (V i)) as [Ho1 Hb1];
      [done | done | done | rewrite Hrp; unfold rk; lia |].
    destruct (percolate_down_ok q st1 V i (V i)) as (q' & st' & He & Hs); try done.
    { apply (dget_hole _ _ _ _ _ Hh1); lia. }
    exists q', st'. split; [done|]. by apply Hfin.
Qed.

(** Dropping the last index: [q] shrinks to [sz] used slots plus slot 0. *)
Lemma holes_shrink q st V h sz :
  holes q st V h -> 1 ≤ sz ≤ pq_size q -> holes (set_size q sz) st V h.
Proof.
  intros [Hs Hg Hp Hv] Hsz. split; simpl; [lia | | |]; intros; auto with lia.
Qed.

(** [q->d[i] = last] after the size was decremented: the last node moves to
    the hole [i], and the queue holds every node but the old one at [i]. *)
Lemma replace_last q st V i :
  pq_inv q st V -> 1 ≤ i < pq_size q - 1 ->
  let q1 := set_d (set_size q (pq_size q - 1))
              (<[Z.to_nat i := Some (V (pq_size q - 1))]> (pq_d q)) in
  holes q1 st V i /\ moving q1 st V i (V (pq_size q - 1)) /\
  dget q1 i = Ok (V (pq_size q - 1)) /\
  Z.of_nat (length (pq_d q1)) = pq_avail q1 /\
  ordered st (pq_size q1) V (fun _ => True) /\
  forall m, m = V (pq_size q - 1) \/ elems q1 V i m <-> pq_in q m /\ m <> V i.
Proof.
  intros [Hh Ho Ha] Hi q1. pose proof (ho_size _ _ _ _ Hh) as Hs.
  assert (holes q1 st V i) as Hh1.
  { split; simpl.
    - rewrite length_insert. lia.
    - intros j Hj Hne. rewrite aget_insert, decide_False by lia. apply (ho_get _ _ _ _ Hh); lia.
    - intros j Hj Hne. apply (ho_pos _ _ _ _ Hh); lia.
    - intros j Hj Hne. apply (ho_valid _ _ _ _ Hh); lia. }
  assert (forall j k, 1 ≤ j < pq_size q -> 1 ≤ k < pq_size q -> V j = V k -> j = k) as Hinj.
  { intros j k Hj Hk. apply (holes_inj _ _ _ _ _ _ Hh); lia. }
  split; [done|]. split; [|split; [|split; [|split]]].
  - split; [apply (ho_valid _ _ _ _ Hh); lia|]. intros j Hj Hne E.
    simpl in Hj. apply Hinj in E; lia.
  - apply dget_Ok. simpl. by rewrite aget_insert, decide_True by lia.
  - simpl. by rewrite length_insert.
  - intros j Hj HT. simpl in Hj. apply Ho; [lia | done].
  - intros m. rewrite (hole_in _ _ _ _ Hh). unfold elems. simpl. split.
    + intros [->|(j & Hj & Hne & <-)].
      * split; [exists (pq_size q - 1); repeat split; lia|]. intros E. apply Hinj in E; lia.
      * split; [exists j; repeat split; lia|]. intros E. apply Hinj in E; lia.
    + intros [(j & Hj & _ & <-) Hne].
      destruct (decide (j = pq_size q - 1)) as [->|]; [by left|]. right. exists j.
      repeat split; try lia. intros ->. done.
Qed.

(** The one-element queue, or the removal of the last slot: the node is put
    back at its own index, which is no longer used. *)
Lemma drop_last q st V (st' : St) l :
  pq_inv q st V -> 2 ≤ pq_size q -> length l = length (pq_d q) ->
  (forall j, 1 ≤ j < pq_size q - 1 -> aget l j = aget (pq_d q) j) ->
  repos (fun m => m = V (pq_size q - 1)) st st' ->
  let q' := set_d (set_size q (pq_size q - 1)) l in
  pq_wf q' st' /\
  (forall m, pq_in q' m <-> pq_in q m /\ m <> V (pq_size q - 1)) /\
  repos (pq_in q) st st'.
Proof.
  intros [Hh Ho Ha] Hsz Hl Hg Hr q'. pose proof (ho_size _ _ _ _ Hh) as Hs.
  assert (forall j k, 1 ≤ j < pq_size q -> 1 ≤ k < pq_size q -> V j = V k -> j = k) as Hinj.
  { intros j k Hj Hk. apply (holes_inj _ _ _ _ _ _ Hh); lia. }
  assert (forall j, 1 ≤ j < pq_size q -> pq_valid st (V j)) as Hv.
  { intros j Hj. apply (ho_valid _ _ _ _ Hh); lia. }
  assert (holes q' st' V 0) as Hh'.
  { split; simpl.
    - lia.
    - intros j Hj _. rewrite Hg by lia. apply (ho_get _ _ _ _ Hh); lia.
    - intros j Hj _. erewrite repos_pos; [apply (ho_pos _ _ _ _ Hh); lia | exact Hr | |].
      + simpl. intros m ->. apply Hv. lia.
      + intros E. apply Hinj in E; lia.
    - intros j Hj _. apply (repos_valid _ _ _ _ Hr), Hv. lia. }
  split; [|split].
  - exists V. split; [done | | by simpl; rewrite Hl].
    intros j Hj _. simpl in Hj. unfold rk. rewrite !(repos_rk _ _ _ _ Hr). apply Ho; [lia | done].
  - intros m. rewrite (hole_in _ _ _ _ Hh'), (hole_in _ _ _ _ Hh). unfold elems. simpl. split.
    + intros (j & Hj & _ & <-). split; [exists j; repeat split; lia|].
      intros E. apply Hinj in E; lia.
    + intros [(j & Hj & _ & <-) Hne]. exists j. repeat split; try lia.
      destruct (decide (j = pq_size q - 1)) as [->|]; [done | lia].
  - eapply repos_mono; [done|]. simpl. intros m ->. apply (hole_in _ _ _ _ Hh).
    exists (pq_size q - 1). repeat split; lia.
Qed.

Lemma peek_ok q st :
  pq_wf q st ->
  pq_size q = 1 /\ pqueue_peek q = Ok None \/
  pq_size q <> 1 /\ exists n, pqueue_peek q = Ok (Some n) /\ pq_in q n /\ getpos st n = 1 /\
    forall m, pq_in q m -> rk st n ≤ rk st m.
Proof.
  intros [V [Hh Ho Ha]]. pose proof (ho_size _ _ _ _ Hh). unfold pqueue_peek.
  destruct (Z.eqb_spec (pq_size q) 1); [by left|]. right. split; [done|].
  rewrite (dget_hole _ _ _ _ 1 Hh) by lia. exists (V 1). split; [done|]. split.
  { apply (hole_in _ _ _ _ Hh). exists 1. repeat split; lia. }
  split; [apply (ho_pos _ _ _ _ Hh); lia|].
  intros m (j & Hj & _ & <-)%(hole_in _ _ _ _ Hh). by eapply heap_root.
Qed.

(** A size-one tail of [percolate_down]: there is no child to look at. *)
Lemma percolate_down_leaf q st i m :
  dget q i = Ok m -> pq_size q ≤ 2 * i -> 1 ≤ i < Z.of_nat (length (pq_d q)) ->
  percolate_down q st i =
    Ok (set_d q (<[Z.to_nat i := Some m]> (pq_d q)), setpos m i st).
Proof.
  intros Hg Hle Hi. unfold percolate_down. rewrite Hg. simpl. unfold maxchild.
  rewrite left_eq. rewrite (proj2 (Z.leb_le _ _)) by lia. simpl.
  by rewrite dset_Ok by lia.
Qed.

Lemma pop_ok q st :
  pq_wf q st -> pq_size q <> 1 ->
  exists q' st' n, pqueue_pop q st = Ok (q', st', Some n) /\ pqueue_peek q = Ok (Some n) /\
    pq_wf q' st' /\ pq_size q' = pq_size q - 1 /\ pq_avail q' = pq_avail q /\
    (forall m, pq_in q' m <-> pq_in q m /\ m <> n) /\ repos (pq_in q) st st'.
Proof.
  intros [V Hinv] Hne. pose proof Hinv as [Hh Ho Ha]. pose proof (ho_size _ _ _ _ Hh).
  unfold pqueue_pop, pqueue_peek. rewrite (proj2 (Z.eqb_neq _ _)) by done.
  rewrite (dget_hole _ _ _ _ 1 Hh) by lia. simpl.
  replace (dget (set_size q (pq_size q - 1)) (pq_size q - 1)) with (Ok (V (pq_size q - 1)))
    by (symmetry; apply (dget_hole _ _ _ _ _ Hh); lia). simpl.
  rewrite dset_Ok by (simpl; lia). simpl.
  destruct (decide (pq_size q = 2)) as [E2|].
  - erewrite percolate_down_leaf; [| |simpl; lia | simpl; rewrite length_insert; lia];
      [|apply dget_Ok; simpl; by rewrite aget_insert, decide_True by lia]. simpl.
    eexists _, _, (V 1). split; [done|]. split; [done|].
    rewrite E2 in *. replace (2 - 1) with 1 in * by lia.
    destruct (drop_last q st V (setpos (V 1) 1 st)
      (<[Z.to_nat 1 := Some (V 1)]> (<[Z.to_nat 1 := Some (V 1)]> (pq_d q))))
      as (Hw & Hin & Hr); [done | lia | by rewrite !length_insert | lia | |].
    { rewrite E2. constructor; [done | constructor]. }
    rewrite E2 in *. split; [exact Hw|]. split; [done|]. split; [done|]. split; [exact Hin | exact Hr].
  - destruct (replace_last q st V 1 Hinv ltac:(lia)) as (Hh1 & Hm1 & Hg1 & Ha1 & Ho1 & Hin).
    destruct (replace_down st st (pq_size q - 1) V 1 (V (pq_size q - 1))) as [Ho2 Hb2];
      [lia | done | done | by apply (heap_root _ (pq_size q)); [|lia] |].
    destruct (percolate_down_ok _ st V 1 _ Hh1 Hm1 ltac:(simpl; lia) Hg1 Ha1 Ho2 Hb2)
      as (q' & st' & He & [Hw Hs1 Hs2 Hi' Hr]).
    simpl in He. rewrite He. simpl. exists q', st', (V 1). split; [done|]. split; [done|].
    split; [done|]. split; [done|]. split; [done|].
    split; [intros m; by rewrite Hi', Hin|].
    eapply repos_mono; [done|]. intros m Hm. by apply Hin in Hm as [? _].
Qed.

Lemma remove_ok q st n :
  pq_wf q st -> pq_in q n ->
  exists q' st', pqueue_remove q st n = Ok (q', st') /\
    pq_wf q' st' /\ pq_size q' = pq_size q - 1 /\ pq_avail q' = pq_avail q /\
    (forall m, pq_in q' m <-> pq_in q m /\ m <> n) /\ repos (pq_in q) st st'.
Proof.
  intros [V Hinv] Hn. pose proof Hinv as [Hh Ho Ha]. pose proof (ho_size _ _ _ _ Hh).
  destruct (proj1 (hole_in _ _ _ _ Hh) Hn) as (i & Hi & _ & <-). unfold pqueue_remove.
  rewrite (ho_pos _ _ _ _ Hh) by lia. simpl.
  replace (dget (set_size q (pq_size q - 1)) (pq_size q - 1)) with (Ok (V (pq_size q - 1)))
    by (symmetry; apply (dget_hole _ _ _ _ _ Hh); lia). simpl.
  rewrite dset_Ok by (simpl; lia). simpl. rewrite cmppri_rank.
  destruct (decide (i = pq_size q - 1)) as [->|].
  - rewrite Z.ltb_irrefl.
    erewrite percolate_down_leaf; [| |simpl; lia | simpl; rewrite length_insert; lia];
      [|apply dget_Ok; simpl; by rewrite aget_insert, decide_True by lia].
    eexists _, _. split; [done|].
    set (l := <[Z.to_nat (pq_size q - 1) := Some (V (pq_size q - 1))]>
                (<[Z.to_nat (pq_size q - 1) := Some (V (pq_size q - 1))]> (pq_d q))).
    destruct (drop_last q st V (setpos (V (pq_size q - 1)) (pq_size q - 1) st) l)
      as (Hw & Hin & Hr); [done | lia | by unfold l; rewrite !length_insert | | |].
    { intros j Hj. unfold l. rewrite aget_insert by (rewrite length_insert; lia).
      rewrite decide_False by lia. by rewrite aget_insert, decide_False by lia. }
    { constructor; [done | constructor]. }
    split; [exact Hw|]. split; [done|]. split; [done|]. split; [exact Hin | exact Hr].
  - destruct (replace_last q st V i Hinv ltac:(lia)) as (Hh1 & Hm1 & Hg1 & Ha1 & Ho1 & Hin).
    assert (forall q' st', sifted (set_d (set_size q (pq_size q - 1))
        (<[Z.to_nat i:=Some (V (pq_size q - 1))]> (pq_d q))) st
        (fun m => m = V (pq_size q - 1) \/ elems (set_d (set_size q (pq_size q - 1))
        (<[Z.to_nat i:=Some (V (pq_size q - 1))]> (pq_d q))) V i m) q' st' ->
      pq_wf q' st' /\ pq_size q' = pq_size q - 1 /\ pq_avail q' = pq_avail q /\
      (forall m, pq_in q' m <-> pq_in q m /\ m <> V i) /\ repos (pq_in q) st st') as Hfin.
    { intros q' st' [Hw Hs1 Hs2 Hi' Hr]. split; [done|]. split; [done|]. split; [done|].
      split; [intros m; by rewrite Hi', Hin|].
      eapply repos_mono; [done|]. intros m Hm. by apply Hin in Hm as [? _]. }
    destruct (Z.ltb_spec (pq_rank (getpri st (V (pq_size q - 1)))) (pq_rank (getpri st (V i)))).
    + destruct (replace_up st st (pq_size q - 1) V i (V (pq_size q - 1))) as [Ho2 Hb2];
        [lia | done | done | unfold rk; lia |].
      destruct (bubble_up_ok _ st V i _ Hh1 Hm1 ltac:(simpl; lia) Hg1 Ha1 Ho2 Hb2)
        as (q' & st' & He & Hs). exists q', st'. split; [done|]. by apply Hfin.
    + destruct (replace_down st st (pq_size q - 1) V i (V (pq_size q - 1))) as [Ho2 Hb2];
        [lia | done | done | unfold rk; lia |].
      destruct (percolate_down_ok _ st V i _ Hh1 Hm1 ltac:(simpl; lia) Hg1 Ha1 Ho2 Hb2)
        as (q' & st' & He & Hs). exists q', st'. split; [done|]. by apply Hfin.
Qed.

(** *** The self-check *)

(** [below i j]: the edge into [j] lies in the subtree rooted at [i]. *)
Inductive below (i : Z) : Z -> Prop :=
| below_child j : 1 < j -> j / 2 = i -> below i j
| below_step j : 1 < j -> below i (j / 2) -> below i j.

Lemma below_split i j :
  1 ≤ i ->
  below i j <-> j = 2 * i \/ j = 2 * i + 1 \/ below (2 * i) j \/ below (2 * i + 1) j.
Proof.
  intros Hi. split.
  - induction 1 as [j Hj E|j Hj Hb IH]; [lia|].
    destruct IH as [E|[E|[IH|IH]]].
    + right; right; left. by apply below_child.
    + right; right; right. by apply below_child.
    + right; right; left. by apply below_step.
    + right; right; right. by apply below_step.
  - intros [->|[->|[H|H]]]; [apply below_child; lia.. | |].
    all: induction H as [j Hj E|j Hj Hb IH]; [|by apply below_step].
    all: apply below_step; [done|]; rewrite E; apply below_child; lia.
Qed.

Lemma below_root j : 1 < j -> below 1 j.
Proof.
  revert j. refine (well_founded_ind (Z.lt_wf 1) _ _). intros j IH Hj.
  destruct (decide (j / 2 = 1)); [by apply below_child|].
  apply below_step; [done|]. apply IH; lia.
Qed.

Lemma below_gt i j : 1 ≤ i -> below i j -> i < j.
Proof. intros Hi. induction 1; lia. Qed.

Lemma ordered_split st sz V i :
  1 ≤ i ->
  ordered st sz V (below i) <->
    (2 * i < sz -> rk st (V i) ≤ rk st (V (2 * i)) /\ ordered st sz V (below (2 * i))) /\
    (2 * i + 1 < sz ->
      rk st (V i) ≤ rk st (V (2 * i + 1)) /\ ordered st sz V (below (2 * i + 1))).
Proof.
  intros Hi. unfold ordered. split.
  - intros Ho. split; intros Hlt; split.
    + specialize (Ho (2 * i) ltac:(lia)). replace (2 * i / 2) with i in Ho by lia.
      apply Ho, below_child; lia.
    + intros j Hj Hb. apply Ho; [done|]. apply below_split; auto.
    + specialize (Ho (2 * i + 1) ltac:(lia)). replace ((2 * i + 1) / 2) with i in Ho by lia.
      apply Ho, below_child; lia.
    + intros j Hj Hb. apply Ho; [done|]. apply below_split; auto.
  - intros [Hl Hr] j Hj [->|[->|[Hb|Hb]]]%below_split; try done.
    + replace (2 * i / 2) with i by lia. apply Hl. lia.
    + replace ((2 * i + 1) / 2) with i by lia. apply Hr. lia.
    + pose proof (below_gt (2 * i) j ltac:(lia) Hb). apply Hl; [lia | done..].
    + pose proof (below_gt (2 * i + 1) j ltac:(lia) Hb). apply Hr; [lia | done..].
Qed.

Lemma child_is_valid_ok q st V (rec : Z -> res bool) i c :
  holes q st V 0 -> 1 ≤ i < c ->
  (c < pq_size q -> exists b, rec c = Ok b /\ (b = true <-> ordered st (pq_size q) V (below c))) ->
  exists b, child_is_valid q st rec i c = Ok b /\
    (b = true <-> (c < pq_size q ->
       rk st (V i) ≤ rk st (V c) /\ ordered st (pq_size q) V (below c))).
Proof.
  intros Hh Hi Hrec. unfold child_is_valid. destruct (Z.ltb_spec c (pq_size q)) as [Hc|Hc].
  2:{ exists true. split; [done|]. split; [lia | done]. }
  rewrite !(dget_hole _ _ _ _ _ Hh) by lia. simpl. rewrite cmppri_rank.
  change (pq_rank (getpri st (V i))) with (rk st (V i)).
  change (pq_rank (getpri st (V c))) with (rk st (V c)).
  destruct (Z.ltb_spec (rk st (V c)) (rk st (V i))).
  - exists false. split; [done|]. split; [done|]. intros H'. specialize (H' Hc). lia.
  - destruct (Hrec Hc) as (b & -> & Hb). exists b. split; [done|]. rewrite Hb.
    split; [intros; done|]. intros H'. by apply H'.
Qed.

Lemma subtree_is_valid_ok fuel q st V i :
  holes q st V 0 -> 1 ≤ i < pq_size q -> (Z.to_nat (pq_size q - i) < fuel)%nat ->
  exists b, subtree_is_valid fuel q st i = Ok b /\
    (b = true <-> ordered st (pq_size q) V (below i)).
Proof.
  revert i. induction fuel as [|fuel IH]; intros i Hh Hi Hf; [lia|]. simpl.
  rewrite left_eq, right_eq.
  destruct (child_is_valid_ok q st V (subtree_is_valid fuel q st) i (2 * i) Hh ltac:(lia))
    as (b1 & -> & Hb1); [intros; apply IH; (done || lia)|]. simpl.
  destruct b1; simpl.
  - destruct (child_is_valid_ok q st V (subtree_is_valid fuel q st) i (2 * i + 1) Hh ltac:(lia))
      as (b2 & -> & Hb2); [intros; apply IH; (done || lia)|].
    exists b2. split; [done|]. rewrite Hb2, (ordered_split _ _ _ i) by lia.
    pose proof (proj1 Hb1 eq_refl). tauto.
  - exists false. split; [done|]. rewrite (ordered_split _ _ _ i) by lia.
    split; [done|]. intros [Hl _]. by apply Hb1.
Qed.

Lemma is_valid_ok q st V :
  holes q st V 0 -> 1 < pq_size q ->
  exists b, pqueue_is_valid q st = Ok b /\
    (b = true <-> ordered st (pq_size q) V (fun _ => True)).
Proof.
  intros Hh Hs. unfold pqueue_is_valid. destruct (subtree_is_valid_ok (S (Z.to_nat (pq_size q))) q st V 1 Hh)
    as (b & -> & Hb); [lia..|].
  exists b. split; [done|]. rewrite Hb. split; intros Ho j Hj _; apply Ho; try done.
  apply below_root. lia.
Qed.

(** [n0]: any node, the type of pointers being inhabited. *)
Lemma init_ok (n0 : Node) sz q st :
  0 ≤ sz -> pqueue_init sz true true = Some q ->
  pq_wf q st /\ pq_size q = 1 /\ pq_avail q = sz + 1 /\ forall m, ~ pq_in q m.
Proof.
  intros Hn [= <-]. split; [|split; [done|split; [done|]]].
  - exists (fun _ => n0). split; simpl.
    + split; simpl; rewrite ?length_replicate; lia.
    + intros j. simpl. lia.
    + rewrite length_replicate. lia.
  - intros m (j & Hj & _). simpl in Hj. lia.
Qed.
End heap.
