(* ===== verification/LineTable.v ===== *)
(** * The line table and its victim queue
    ([struct line] of [src/conv_ftl.h], the [victim_line_*] callbacks of
    [src/conv_ftl.c])

    A line is named by its index in [lm->lines]; a pointer to a line is that
    index.  The file also states the contract of the priority queue, proved
    against the interface [PqLaws] and evaluated on this instance. *)
From S2P Require Import Prelude Pqueue.

(** [struct line]; [entry], the list node, is kept by the lists of line ids of
    [struct line_mgmt]. *)
Record line := mk_line {
  id : Z;
  ipc : Z;
  vpc : Z;
  pos : Z;
}.

#[global] Instance line_eq_dec : EqDecision line.
Proof. solve_decision. Defined.

Definition line_upd (f : line -> line) (a : Z) (lines : list line) : list line :=
  if decide (0 ≤ a) then alter f (Z.to_nat a) lines else lines.

(** A pointer that does not point into the table reads as a zeroed line; the
    valid pointers of [pq_valid] never do. *)
Definition line_at (lines : list line) (a : Z) : line :=
  match aget lines a with Ok l => l | Bug _ => mk_line 0 0 0 0 end.

Definition victim_line_cmp_pri (next curr : Z) : bool := curr <? next.
Definition victim_line_get_pri (lines : list line) (a : Z) : Z := u64 (vpc (line_at lines a)).
Definition victim_line_set_pri (a pri : Z) (lines : list line) : list line :=
  line_upd (fun l => mk_line (id l) (ipc l) (i32 pri) (pos l)) a lines.
Definition victim_line_get_pos (lines : list line) (a : Z) : Z := pos (line_at lines a).
Definition victim_line_set_pos (a p : Z) (lines : list line) : list line :=
  line_upd (fun l => mk_line (id l) (ipc l) (vpc l) p) a lines.

#[global] Instance victim_callbacks : PqCallbacks (list line) Z := {
  cmppri := victim_line_cmp_pri;
  getpri := victim_line_get_pri;
  setpri := victim_line_set_pri;
  getpos := victim_line_get_pos;
  setpos := victim_line_set_pos;
}.

Definition line_valid (lines : list line) (a : Z) : Prop := 0 ≤ a < Z.of_nat (length lines).

Lemma line_upd_length f a lines : length (line_upd f a lines) = length lines.
Proof. unfold line_upd. case_decide; [apply length_alter | done]. Qed.

Lemma aget_line_upd f a b lines :
  aget (line_upd f a lines) b =
    if decide (a = b) then (l ← aget lines b; Ok (f l)) else aget lines b.
Proof.
  unfold line_upd, aget. destruct (decide (0 ≤ a)); destruct (decide (0 ≤ b));
    destruct (decide (a = b)); simplify_eq; try done; try lia.
  - rewrite list_lookup_alter_eq. by destruct (lines !! Z.to_nat b).
  - rewrite list_lookup_alter_ne; [done|lia].
Qed.

Lemma line_at_upd f a b lines :
  line_valid lines a ->
  line_at (line_upd f a lines) b = if decide (a = b) then f (line_at lines b) else line_at lines b.
Proof.
  intros [l Hl]%aget_in_range. unfold line_at. rewrite aget_line_upd.
  case_decide; [subst; by rewrite Hl | done].
Qed.

Lemma line_at_upd_field {T} (g : line -> T) f a b lines :
  (forall l, g (f l) = g l) -> g (line_at (line_upd f a lines) b) = g (line_at lines b).
Proof.
  intros Hg. unfold line_at. rewrite aget_line_upd. case_decide; [|done].
  destruct (aget lines b); simpl; [apply Hg | done].
Qed.

#[global] Program Instance victim_laws : PqLaws (list line) Z := {
  pq_valid := line_valid;
  pq_pri_ok p := 0 ≤ p < 2147483648;
  pq_rank p := p;
}.
Next Obligation. done. Qed.
Next Obligation.
  intros lines n m p Hn. simpl. unfold victim_line_get_pos, victim_line_set_pos.
  rewrite line_at_upd by done. by case_decide.
Qed.
Next Obligation.
  intros lines n m p. simpl. unfold victim_line_get_pri, victim_line_set_pos.
  f_equal. by apply (line_at_upd_field vpc).
Qed.
Next Obligation.
  intros lines n m p Hn Hp. simpl in *. unfold victim_line_get_pri, victim_line_set_pri.
  rewrite line_at_upd by done. case_decide; [|done]. simpl.
  rewrite i32_small by lia. apply u64_small. unfold U64_MAX. lia.
Qed.
Next Obligation.
  intros lines n m p. simpl. unfold victim_line_get_pos, victim_line_set_pri.
  by apply (line_at_upd_field pos).
Qed.
Next Obligation.
  intros lines n m p. simpl. unfold line_valid, victim_line_set_pos. by rewrite line_upd_length.
Qed.
Next Obligation.
  intros lines n m p. simpl. unfold line_valid, victim_line_set_pri. by rewrite line_upd_length.
Qed.

(** ** The contract of the priority queue *)
Section contract.
Context {St Node : Type} `{!PqCallbacks St Node} `{!EqDecision Node} `{!PqLaws St Node}.
Implicit Types (q : pqueue_t Node) (st : St) (n m : Node).

(** What an operation leaves alone: every priority, and the position of the
    nodes outside [M]. *)
Definition keeps (st : St) (M : Node -> Prop) (st' : St) : Prop :=
  (forall m, getpri st' m = getpri st m) /\
  (forall m, pq_valid st' m <-> pq_valid st m) /\
  forall m, ~ M m -> getpos st' m = getpos st m.

Lemma repos_keeps M st st' :
  repos M st st' -> (forall m, M m -> pq_valid st m) -> keeps st M st'.
Proof.
  intros Hr Hv. split; [|split]; intros m.
  - by eapply repos_rk.
  - by eapply repos_valid.
  - intros Hm. by eapply repos_pos.
Qed.

(** [pqueue_insert] on a well-formed queue that is not full and does not
    hold [n] returns a well-formed queue (heap order, every element stored
    at the position it records) of one element more, that holds exactly the
    old elements and [n]; no priority and no position outside the queue
    changes. *)
Theorem pqueue_insert_spec q st n :
  pq_wf q st -> pq_size q < pq_avail q -> pq_valid st n -> ~ pq_in q n ->
  exists q' st', pqueue_insert q st n = Ok (q', st') /\ pq_wf q' st' /\
    pqueue_size q' = pqueue_size q + 1 /\
    (forall m, pq_in q' m <-> m = n \/ pq_in q m) /\ keeps st (pq_in q') st'.
Proof.
  intros Hwf Hlt Hv Hn. destruct (insert_ok q st n) as (q' & st' & He & Hw & Hs & _ & Hin & Hr);
    [done..|].
  exists q', st'. split; [done|]. split; [done|]. split; [unfold pqueue_size; lia|].
  split; [done|]. apply repos_keeps.
  - eapply repos_mono; [done|]. intros m. by rewrite Hin.
  - intros m [->|Hm]%Hin; [done|]. by eapply pq_in_valid.
Qed.

(** C20. [pqueue_pop] on a non-empty well-formed queue returns the node that
    [pqueue_peek] shows, an element of least rank, and leaves a well-formed
    queue of exactly the other elements; on an empty queue it returns NULL
    and changes nothing. *)
Theorem pqueue_pop_min q st :
  pq_wf q st ->
  (pqueue_size q = 0 -> pqueue_pop q st = Ok (q, st, None)) /\
  (pqueue_size q <> 0 ->
    exists q' st' n, pqueue_pop q st = Ok (q', st', Some n) /\
      pqueue_peek q = Ok (Some n) /\ pq_in q n /\
      (forall m, pq_in q m -> pq_rank (getpri st n) ≤ pq_rank (getpri st m)) /\
      pq_wf q' st' /\ pqueue_size q' = pqueue_size q - 1 /\
      (forall m, pq_in q' m <-> pq_in q m /\ m <> n) /\ keeps st (pq_in q) st').
Proof.
  intros Hwf. unfold pqueue_size. split.
  - intros Hs. unfold pqueue_pop. by rewrite (proj2 (Z.eqb_eq _ _)) by lia.
  - intros Hs. destruct (pop_ok q st Hwf ltac:(lia)) as (q' & st' & n & He & Hpk & Hw & Hsz & _ & Hin & Hr).
    exists q', st', n. split; [done|]. split; [done|].
    destruct (peek_ok q st Hwf) as [[? _]|(_ & n' & Hpk' & Hn & _ & Hmin)]; [lia|].
    rewrite Hpk in Hpk'. injection Hpk' as <-.
    split; [done|]. split; [done|]. split; [done|]. split; [lia|]. split; [done|].
    apply repos_keeps; [done|]. intros m. by apply pq_in_valid.
Qed.

(** [pqueue_change_priority] moves an element up or down to where its new
    priority belongs: the queue stays well formed with the same elements,
    the element has the new priority and the other priorities stay. *)
Theorem pqueue_change_priority_spec q st n p :
  pq_wf q st -> pq_in q n -> pq_pri_ok p ->
  exists q' st', pqueue_change_priority q st p n = Ok (q', st') /\ pq_wf q' st' /\
    pqueue_size q' = pqueue_size q /\ (forall m, pq_in q' m <-> pq_in q m) /\
    getpri st' n = p /\ (forall m, m <> n -> getpri st' m = getpri st m) /\
    (forall m, ~ pq_in q m -> getpos st' m = getpos st m).
Proof.
  intros Hwf Hin Hp. pose proof (pq_in_valid _ _ _ Hwf Hin) as Hv.
  destruct (change_priority_ok q st n p) as (q' & st' & He & Hw & Hs & _ & Hi & Hr); [done..|].
  exists q', st'. split; [done|]. split; [done|]. split; [unfold pqueue_size; lia|].
  split; [done|]. repeat setoid_rewrite (repos_rk _ _ _ _ Hr). split; [|split].
  - by rewrite getpri_setpri, decide_True.
  - intros m Hne. by rewrite getpri_setpri, decide_False.
  - intros m Hm. rewrite (repos_pos _ _ _ m Hr), getpos_setpri; [done | | done].
    intros k Hk. apply pq_valid_setpri. by eapply pq_in_valid.
Qed.

(** [pqueue_remove] takes any element out, wherever it is in the heap
    (the last slot included), and leaves a well-formed queue of exactly the
    others. *)
Theorem pqueue_remove_spec q st n :
  pq_wf q st -> pq_in q n ->
  exists q' st', pqueue_remove q st n = Ok (q', st') /\ pq_wf q' st' /\
    pqueue_size q' = pqueue_size q - 1 /\
    (forall m, pq_in q' m <-> pq_in q m /\ m <> n) /\ keeps st (pq_in q) st'.
Proof.
  intros Hwf Hin. destruct (remove_ok q st n) as (q' & st' & He & Hw & Hs & _ & Hi & Hr); [done..|].
  exists q', st'. split; [done|]. split; [done|]. split; [unfold pqueue_size; lia|].
  split; [done|]. apply repos_keeps; [done|]. intros m. by apply pq_in_valid.
Qed.

(** The self-check [pqueue_is_valid] terminates on a queue whose slots
    are filled and answers true exactly when no parent is outranked by its
    child, that is when the array is a heap. *)
Theorem pqueue_is_valid_iff q st V :
  holes q st V 0 -> 0 < pqueue_size q ->
  exists b, pqueue_is_valid q st = Ok b /\
    (b = true <-> forall j, 1 < j < pq_size q ->
       cmppri (getpri st (V (j / 2))) (getpri st (V j)) = false).
Proof.
  intros Hh Hs. unfold pqueue_size in Hs.
  destruct (is_valid_ok q st V Hh ltac:(lia)) as (b & -> & Hb).
  exists b. split; [done|]. rewrite Hb. unfold ordered, rk.
  split; intros H j Hj; [|intros _]; specialize (H j Hj); rewrite ?cmppri_rank in *.
  - apply Z.ltb_ge. auto.
  - by apply Z.ltb_ge in H.
Qed.
End contract.

(** *** A concrete queue: lines 2, 0, 1 with 1, 5 and 3 valid pages *)
Definition lines3 : list line :=
  [mk_line 0 3 5 2; mk_line 1 5 3 3; mk_line 2 7 1 1; mk_line 3 6 2 0].
Definition queue3 : pqueue_t Z :=
  mk_pqueue 4 5 5 [None; Some 2; Some 0; Some 1; None].
Definition nodes3 (j : Z) : Z := if j =? 1 then 2 else if j =? 2 then 0 else 1.

Lemma queue3_holes : holes queue3 lines3 nodes3 0.
Proof.
  split; [by simpl | ..]; simpl; intros j Hj _;
    assert (j = 1 \/ j = 2 \/ j = 3) as [-> | [-> | ->]] by lia; vm_compute; done.
Qed.

Lemma queue3_wf : pq_wf queue3 lines3.
Proof.
  exists nodes3. split; [apply queue3_holes | | done]. simpl. intros j Hj _.
  assert (j = 2 \/ j = 3) as [-> | ->] by lia; vm_compute; done.
Qed.

Lemma queue3_in a : 0 ≤ a < 3 -> pq_in queue3 a.
Proof.
  intros Ha. exists (if a =? 0 then 2 else if a =? 1 then 3 else 1).
  assert (a = 0 \/ a = 1 \/ a = 2) as [-> | [-> | ->]] by lia; vm_compute; done.
Qed.

Lemma queue3_not_in : ~ pq_in queue3 3.
Proof.
  intros (j & Hj & He). simpl in Hj.
  assert (j = 1 \/ j = 2 \/ j = 3) as [-> | [-> | ->]] by lia; vm_compute in He; done.
Qed.

Lemma pqueue_insert_spec_witness :
  exists q' st', pqueue_insert queue3 lines3 3 = Ok (q', st') /\ pq_wf q' st' /\
    pqueue_size q' = pqueue_size queue3 + 1 /\
    (forall m, pq_in q' m <-> m = 3 \/ pq_in queue3 m) /\ keeps lines3 (pq_in q') st'.
Proof.
  apply (pqueue_insert_spec queue3 lines3 3);
    [apply queue3_wf | reflexivity | vm_compute; done | apply queue3_not_in].
Defined.

Lemma pqueue_pop_min_witness :
  exists q' st' n, pqueue_pop queue3 lines3 = Ok (q', st', Some n) /\ pqueue_peek queue3 = Ok (Some n) /\
    pq_wf q' st'.
Proof.
  destruct (pqueue_pop_min queue3 lines3 queue3_wf) as [_ H].
  destruct (H ltac:(vm_compute; done)) as (q' & st' & n & H1 & H2 & _ & _ & H3 & _).
  exists q', st', n. auto.
Defined.

Lemma pqueue_change_priority_spec_witness :
  exists q' st', pqueue_change_priority queue3 lines3 0 0 = Ok (q', st') /\ pq_wf q' st' /\
    getpri st' 0 = 0.
Proof.
  destruct (pqueue_change_priority_spec queue3 lines3 0 0 queue3_wf)
    as (q' & st' & H1 & H2 & _ & _ & H3 & _); [apply queue3_in; lia | vm_compute; done |].
  exists q', st'. auto.
Defined.

Lemma pqueue_remove_spec_witness :
  exists q' st', pqueue_remove queue3 lines3 0 = Ok (q', st') /\ pq_wf q' st' /\
    pqueue_size q' = pqueue_size queue3 - 1.
Proof.
  destruct (pqueue_remove_spec queue3 lines3 0 queue3_wf)
    as (q' & st' & H1 & H2 & H3 & _); [apply queue3_in; lia |].
  exists q', st'. auto.
Defined.

Lemma pqueue_is_valid_iff_witness :
  exists b, pqueue_is_valid queue3 lines3 = Ok b /\
    (b = true <-> forall j, 1 < j < pq_size queue3 ->
       cmppri (getpri lines3 (nodes3 (j / 2))) (getpri lines3 (nodes3 j)) = false).
Proof.
  apply (pqueue_is_valid_iff queue3 lines3 nodes3); [apply queue3_holes | reflexivity].
Defined.

(** The concrete runs the witnesses describe. *)
Example insert_run :
  pqueue_insert queue3 lines3 3 =
    Ok (mk_pqueue 5 5 5 [None; Some 2; Some 3; Some 1; Some 0],
        [mk_line 0 3 5 4; mk_line 1 5 3 3; mk_line 2 7 1 1; mk_line 3 6 2 2]).
Proof. vm_compute. reflexivity. Qed.
Example pop_run :
  pqueue_pop queue3 lines3 =
    Ok (mk_pqueue 3 5 5 [None; Some 1; Some 0; Some 1; None],
        [mk_line 0 3 5 2; mk_line 1 5 3 1; mk_line 2 7 1 1; mk_line 3 6 2 0], Some 2).
Proof. vm_compute. reflexivity. Qed.
Example is_valid_run : pqueue_is_valid queue3 lines3 = Ok true.
Proof. vm_compute. reflexivity. Qed.
