(* ===== verification/Nvme.v ===== *)
(** * NVMe commands, status codes and requests
    ([src/nvme.h], [src/nvme_zns.h], [src/nvmev.h])

    A submission-queue entry is 64 bytes that the handlers read through a
    union of structures.  [nvme_command] keeps the double words; the fields of
    each member of the union are the projections below. *)
From S2P Require Import Prelude.

(** [enum nvme_opcode]. *)
Definition nvme_cmd_flush : Z := 0x00.
Definition nvme_cmd_write : Z := 0x01.
Definition nvme_cmd_read : Z := 0x02.
Definition nvme_cmd_zone_mgmt_send : Z := 0x79.
Definition nvme_cmd_zone_mgmt_recv : Z := 0x7a.
Definition nvme_cmd_zone_append : Z := 0x7d.

(** Status codes. *)
Definition NVME_SC_SUCCESS : Z := 0x0.
Definition NVME_SC_INVALID_OPCODE : Z := 0x1.
Definition NVME_SC_INVALID_FIELD : Z := 0x2.
Definition NVME_SCT_CMD_SPECIFIC_STATUS : Z := 1.
Definition NVME_SC_ZNS_INVALID_ZONE_OPERATION : Z :=
  Z.lor (Z.shiftl NVME_SCT_CMD_SPECIFIC_STATUS 8) 0xB6.
Definition NVME_SC_ZNS_ZRWA_RSRC_UNAVAIL : Z := NVME_SC_ZNS_INVALID_ZONE_OPERATION + 1.
Definition NVME_SC_ZNS_ERR_BOUNDARY : Z := NVME_SC_ZNS_INVALID_ZONE_OPERATION + 2.
Definition NVME_SC_ZNS_ERR_FULL : Z := NVME_SC_ZNS_INVALID_ZONE_OPERATION + 3.
Definition NVME_SC_ZNS_ERR_READ_ONLY : Z := NVME_SC_ZNS_INVALID_ZONE_OPERATION + 4.
Definition NVME_SC_ZNS_ERR_OFFLINE : Z := NVME_SC_ZNS_INVALID_ZONE_OPERATION + 5.
Definition NVME_SC_ZNS_INVALID_WRITE : Z := NVME_SC_ZNS_INVALID_ZONE_OPERATION + 6.
Definition NVME_SC_ZNS_NO_ACTIVE_ZONE : Z := NVME_SC_ZNS_INVALID_ZONE_OPERATION + 7.
Definition NVME_SC_ZNS_NO_OPEN_ZONE : Z := NVME_SC_ZNS_INVALID_ZONE_OPERATION + 8.
Definition NVME_SC_ZNS_INVALID_TRANSITION : Z := NVME_SC_ZNS_INVALID_ZONE_OPERATION + 9.

Definition NVME_CSI_NVM : Z := 0x0.
Definition NVME_CSI_ZNS : Z := 0x2.

(** [struct nvme_command]: the command dwords; [cdw10_11] is the 64-bit [slba]
    that the read/write, append and zone-management structures share. *)
Record nvme_command := mk_cmd {
  opcode : Z;
  command_id : Z;
  nsid : Z;
  prp1 : Z;
  prp2 : Z;
  cdw10_11 : Z;
  cdw12 : Z;
  cdw13 : Z;
}.

(** [struct nvme_rw_command]. *)
Definition rw_slba (c : nvme_command) : Z := cdw10_11 c.
Definition rw_length (c : nvme_command) : Z := Z.land (cdw12 c) 0xFFFF.
Definition rw_control (c : nvme_command) : Z := Z.land (Z.shiftr (cdw12 c) 16) 0xFFFF.
(** [cmd->control & NVME_RW_FUA], [NVME_RW_FUA = 1 << 14]. *)
Definition rw_fua (c : nvme_command) : bool := Z.testbit (rw_control c) 14.
Definition set_slba (c : nvme_command) (slba : Z) : nvme_command :=
  mk_cmd (opcode c) (command_id c) (nsid c) (prp1 c) (prp2 c) slba (cdw12 c) (cdw13 c).

(** [struct nvme_zone_mgmt_send]: the bit fields of dword 13. *)
Definition send_zsa (c : nvme_command) : Z := Z.land (cdw13 c) 0xFF.
Definition send_select_all (c : nvme_command) : Z := Z.land (Z.shiftr (cdw13 c) 8) 1.
Definition send_zsaso (c : nvme_command) : Z := Z.land (Z.shiftr (cdw13 c) 9) 1.

(** [struct nvme_zone_mgmt_recv]. *)
Definition recv_nr_dw (c : nvme_command) : Z := cdw12 c.
Definition recv_zra (c : nvme_command) : Z := Z.land (cdw13 c) 0xFF.
Definition recv_zra_specific_field (c : nvme_command) : Z := Z.land (Z.shiftr (cdw13 c) 8) 0xFF.
Definition recv_zra_specific_features (c : nvme_command) : Z := Z.land (Z.shiftr (cdw13 c) 16) 1.

(** [struct nvmev_request] and [struct nvmev_result]. *)
Record nvmev_request := mk_req {
  cmd : nvme_command;
  sq_id : Z;
  nsecs_start : Z;
}.

Record nvmev_result := mk_result {
  status : Z;
  nsecs_target : Z;
  result : Z;
}.

(** Unit conversions of [nvmev.h]. *)
Definition KB (k : Z) : Z := Z.shiftl k 10.
Definition MB (m : Z) : Z := Z.shiftl m 20.
Definition GB (g : Z) : Z := Z.shiftl g 30.
Definition NS_PER_SEC (s : Z) : Z := s * 1000 * 1000 * 1000.

Lemma rw_length_range c : 0 ≤ rw_length c < 65536.
Proof.
  unfold rw_length. change 0xFFFF with (Z.ones 16). rewrite Z.land_ones by lia.
  apply Z.mod_pos_bound. lia.
Qed.

(** [LBA_TO_BYTE] / [BYTE_TO_LBA]; [LBA_BITS] is 9 in every block of
    [ssd_config.h]. *)
Definition LBA_TO_BYTE (lba : Z) : Z := u64 (Z.shiftl lba 9).
Definition BYTE_TO_LBA (byte : Z) : Z := Z.shiftr byte 9.

(** [struct nvmev_ns]: the command set, the size in bytes and the FTL
    instances; [ns->proc_io_cmd] is the handler of the component [F] models. *)
Record nvmev_ns (F : Type) := mk_ns {
  ns_id : Z;
  ns_csi : Z;
  ns_size : Z;
  ns_nr_parts : Z;
  ns_ftls : F;
}.
Arguments mk_ns {F}.
Arguments ns_id {F}.
Arguments ns_csi {F}.
Arguments ns_size {F}.
Arguments ns_nr_parts {F}.
Arguments ns_ftls {F}.

Definition set_ftls {F} (ns : nvmev_ns F) (f : F) : nvmev_ns F :=
  mk_ns (ns_id ns) (ns_csi ns) (ns_size ns) (ns_nr_parts ns) f.

(** [ret->status = s; ret->nsecs_target = t]. *)
Definition set_status (ret : nvmev_result) (s : Z) : nvmev_result :=
  mk_result s (nsecs_target ret) (result ret).
Definition set_target (ret : nvmev_result) (t : Z) : nvmev_result :=
  mk_result (status ret) t (result ret).
