(* ===== verification/SsdConfig.v ===== *)
(** * Device configurations ([src/ssd_config.h])

    [BASE_SSD] selects one block of macros at compile time; each block is a
    value of [ssd_config].  [NVM] (Optane) and [KV] devices have no NAND
    geometry; the three NAND devices are below. *)
From S2P Require Import Prelude Nvme.

Inductive cell_mode_t : Set := CELL_MODE_UNKNOWN | CELL_MODE_SLC | CELL_MODE_MLC
  | CELL_MODE_TLC | CELL_MODE_QLC.

Definition cell_mode_Z (c : cell_mode_t) : Z :=
  match c with
  | CELL_MODE_UNKNOWN => 0 | CELL_MODE_SLC => 1 | CELL_MODE_MLC => 2
  | CELL_MODE_TLC => 3 | CELL_MODE_QLC => 4
  end.

(** The macros of one block.  [OP_AREA_PERCENT] is in hundredths (the source
    has the [double] 0.07 and uses it only through
    [(int)((1 + OP_AREA_PERCENT) * 100)]). *)
Record ssd_config := mk_config {
  LBA_BITS : Z;
  CELL_MODE : cell_mode_t;
  SSD_PARTITIONS : Z;
  NAND_CHANNELS : Z;
  LUNS_PER_NAND_CH : Z;
  PLNS_PER_LUN : Z;
  FLASH_PAGE_SIZE : Z;
  ONESHOT_PAGE_SIZE : Z;
  BLKS_PER_PLN : Z;
  BLK_SIZE : Z;
  MAX_CH_XFER_SIZE : Z;
  WRITE_UNIT_SIZE : Z;
  NAND_CHANNEL_BANDWIDTH : Z;
  PCIE_BANDWIDTH : Z;
  NAND_4KB_READ_LATENCY : list Z; (* LSB, MSB, CSB *)
  NAND_READ_LATENCY : list Z;
  NAND_PROG_LATENCY : Z;
  NAND_ERASE_LATENCY : Z;
  FW_4KB_READ_LATENCY : Z;
  FW_READ_LATENCY : Z;
  FW_WBUF_LATENCY0 : Z;
  FW_WBUF_LATENCY1 : Z;
  FW_CH_XFER_LATENCY : Z;
  OP_AREA_PERCENT : Z;
  GLOBAL_WB_SIZE : Z;
  WRITE_EARLY_COMPLETION : bool;
  ZONE_SIZE : Z;
  DIES_PER_ZONE : Z;
  ZONE_WB_SIZE : Z;
  MAX_ZRWA_ZONES : Z;
  ZRWAFG_SIZE : Z;
  ZRWA_SIZE : Z;
  ZRWA_BUFFER_SIZE : Z;
}.

Definition LBA_SIZE (cfg : ssd_config) : Z := Z.shiftl 1 (LBA_BITS cfg).

Definition SAMSUNG_970PRO : ssd_config := {|
  LBA_BITS := 9;
  CELL_MODE := CELL_MODE_MLC;
  SSD_PARTITIONS := 4;
  NAND_CHANNELS := 8;
  LUNS_PER_NAND_CH := 2;
  PLNS_PER_LUN := 1;
  FLASH_PAGE_SIZE := KB 32;
  ONESHOT_PAGE_SIZE := KB 32 * 1;
  BLKS_PER_PLN := 8192;
  BLK_SIZE := 0;
  MAX_CH_XFER_SIZE := KB 16;
  WRITE_UNIT_SIZE := 512;
  NAND_CHANNEL_BANDWIDTH := 800;
  PCIE_BANDWIDTH := 3360;
  NAND_4KB_READ_LATENCY := [35760 - 6000; 35760 + 6000; 0];
  NAND_READ_LATENCY := [36013 - 6000; 36013 + 6000; 0];
  NAND_PROG_LATENCY := 185000;
  NAND_ERASE_LATENCY := 0;
  FW_4KB_READ_LATENCY := 21500;
  FW_READ_LATENCY := 30490;
  FW_WBUF_LATENCY0 := 4000;
  FW_WBUF_LATENCY1 := 460;
  FW_CH_XFER_LATENCY := 0;
  OP_AREA_PERCENT := 7;
  GLOBAL_WB_SIZE := 8 * 2 * (KB 32 * 1) * 2;
  WRITE_EARLY_COMPLETION := true;
  ZONE_SIZE := 0;
  DIES_PER_ZONE := 0;
  ZONE_WB_SIZE := 0;
  MAX_ZRWA_ZONES := 0;
  ZRWAFG_SIZE := 0;
  ZRWA_SIZE := 0;
  ZRWA_BUFFER_SIZE := 0;
|}.

Definition ZNS_PROTOTYPE : ssd_config := {|
  LBA_BITS := 9;
  CELL_MODE := CELL_MODE_TLC;
  SSD_PARTITIONS := 1;
  NAND_CHANNELS := 8;
  LUNS_PER_NAND_CH := 16;
  PLNS_PER_LUN := 1;
  FLASH_PAGE_SIZE := KB 64;
  ONESHOT_PAGE_SIZE := KB 64 * 2;
  BLKS_PER_PLN := 0;
  BLK_SIZE := MB 32 / 1;
  MAX_CH_XFER_SIZE := KB 64;
  WRITE_UNIT_SIZE := KB 64 * 2;
  NAND_CHANNEL_BANDWIDTH := 800;
  PCIE_BANDWIDTH := 3200;
  NAND_4KB_READ_LATENCY := [25485; 25485; 25485];
  NAND_READ_LATENCY := [40950; 40950; 40950];
  NAND_PROG_LATENCY := 1913640;
  NAND_ERASE_LATENCY := 0;
  FW_4KB_READ_LATENCY := 37540 - 7390 + 2000;
  FW_READ_LATENCY := 37540 - 7390 + 2000;
  FW_WBUF_LATENCY0 := 0;
  FW_WBUF_LATENCY1 := 0;
  FW_CH_XFER_LATENCY := 413;
  OP_AREA_PERCENT := 0;
  GLOBAL_WB_SIZE := 8 * 16 * (KB 64 * 2) * 2;
  WRITE_EARLY_COMPLETION := false;
  ZONE_SIZE := MB 32;
  DIES_PER_ZONE := 1;
  ZONE_WB_SIZE := 0;
  MAX_ZRWA_ZONES := 0;
  ZRWAFG_SIZE := 0;
  ZRWA_SIZE := 0;
  ZRWA_BUFFER_SIZE := 0;
|}.

Definition WD_ZN540 : ssd_config := {|
  LBA_BITS := 9;
  CELL_MODE := CELL_MODE_TLC;
  SSD_PARTITIONS := 1;
  NAND_CHANNELS := 8;
  LUNS_PER_NAND_CH := 4;
  PLNS_PER_LUN := 1;
  FLASH_PAGE_SIZE := KB 32;
  ONESHOT_PAGE_SIZE := KB 32 * 3;
  BLKS_PER_PLN := 0;
  BLK_SIZE := GB 2 / (8 * 4);
  MAX_CH_XFER_SIZE := KB 32;
  WRITE_UNIT_SIZE := 512;
  NAND_CHANNEL_BANDWIDTH := 450;
  PCIE_BANDWIDTH := 3050;
  NAND_4KB_READ_LATENCY := [50000; 50000; 50000];
  NAND_READ_LATENCY := [58000; 58000; 58000];
  NAND_PROG_LATENCY := 561000;
  NAND_ERASE_LATENCY := 0;
  FW_4KB_READ_LATENCY := 20000;
  FW_READ_LATENCY := 13000;
  FW_WBUF_LATENCY0 := 5600;
  FW_WBUF_LATENCY1 := 600;
  FW_CH_XFER_LATENCY := 0;
  OP_AREA_PERCENT := 0;
  GLOBAL_WB_SIZE := 0;
  WRITE_EARLY_COMPLETION := true;
  ZONE_SIZE := GB 2;
  DIES_PER_ZONE := 8 * 4;
  ZONE_WB_SIZE := 10 * (KB 32 * 3);
  MAX_ZRWA_ZONES := 0;
  ZRWAFG_SIZE := 0;
  ZRWA_SIZE := 0;
  ZRWA_BUFFER_SIZE := 0;
|}.
