(* ===== verification/ChannelModel.v ===== *)
(** * The bandwidth model of a transfer link ([src/channel_model.c])

    A link (a NAND channel or the PCIe link) is a ring of time slots of
    [UNIT_TIME_INTERVAL] ns.  A slot has [max_credits] credits, one per
    [UNIT_XFER_SIZE] bytes; a request takes credits from its slot and the
    following ones, and its latency grows with the slots it had to skip.
    [cur_time] is the value [cpu_clock] returned. *)
From S2P Require Import Prelude Nvme.

Definition NR_CREDIT_ENTRIES : Z := 1024 * 96.
Definition UNIT_TIME_INTERVAL : Z := 4000.
Definition UNIT_XFER_SIZE : Z := 128.
Definition UNIT_XFER_CREDITS : Z := 1.

(** [struct channel_model]; [credit_t] is [uint8_t]. *)
Record channel_model := mk_chmodel {
  cm_cur_time : Z;
  cm_head : Z;
  cm_valid_len : Z;
  cm_max_credits : Z;
  cm_command_credits : Z;
  cm_xfer_lat : Z;
  cm_avail_credits : list Z;
}.

Definition BANDWIDTH_TO_TX_TIME (mb_s : Z) : Z := UNIT_XFER_SIZE * NS_PER_SEC 1 / MB mb_s.
Definition BANDWIDTH_TO_MAX_CREDITS (mb_s : Z) : Z :=
  MB mb_s * UNIT_TIME_INTERVAL / NS_PER_SEC 1 / UNIT_XFER_SIZE * UNIT_XFER_CREDITS.

(** [memset] stores the low byte of the value. *)
Definition MEMSET (l : list Z) (start len v : Z) : res (list Z) := memset l start len (u8 v).

Definition chmodel_init (bandwidth : Z) : channel_model :=
  let max_credits := u32 (BANDWIDTH_TO_MAX_CREDITS bandwidth) in
  mk_chmodel 0 0 0 max_credits 0 (u32 (BANDWIDTH_TO_TX_TIME bandwidth))
    (replicate (Z.to_nat NR_CREDIT_ENTRIES) (u8 max_credits)).

(** The [while (1)] of [chmodel_request]: consume credits from slot [pos] on,
    until the request is served or the ring is full.  Each turn but the last
    moves [pos] one slot towards [head], so [NR_CREDIT_ENTRIES] turns do. *)
Fixpoint consume_loop (fuel : nat) (avail : list Z) (head pos remaining_credits delay : Z)
  : res (list Z * Z * Z) :=
  match fuel with
  | O => Bug NoFuel
  | S fuel =>
    a ← aget avail pos;
    let consumed_credits := if remaining_credits <=? a then remaining_credits else a in
    avail ← aset avail pos (a - consumed_credits);
    let remaining_credits := remaining_credits - consumed_credits in
    if negb (remaining_credits =? 0) then
      let next_pos := (pos + 1) mod NR_CREDIT_ENTRIES in
      if negb (next_pos =? head) then
        consume_loop fuel avail head next_pos remaining_credits (u32 (delay + 1))
      else Ok (avail, pos, delay)
    else Ok (avail, pos, delay)
  end.

(** The first half of [chmodel_request]: the ring is advanced to [cur_time]. *)
Definition chmodel_advance (ch : channel_model) (cur_time : Z) : res channel_model :=
  let cur_time_offs :=
    u32 (cur_time / UNIT_TIME_INTERVAL - cm_cur_time ch / UNIT_TIME_INTERVAL) in
  let cur_time_offs := if cur_time_offs <? cm_valid_len ch then cur_time_offs else cm_valid_len ch in
  avail ←
    (if NR_CREDIT_ENTRIES <=? cm_head ch + cur_time_offs then
       l ← MEMSET (cm_avail_credits ch) (cm_head ch) (NR_CREDIT_ENTRIES - cm_head ch) (cm_max_credits ch);
       MEMSET l 0 (cur_time_offs - (NR_CREDIT_ENTRIES - cm_head ch)) (cm_max_credits ch)
     else
       MEMSET (cm_avail_credits ch) (cm_head ch) cur_time_offs (cm_max_credits ch));
  let valid_len := cm_valid_len ch - cur_time_offs in
  _ ← NVMEV_ASSERT (negb (NR_CREDIT_ENTRIES <? valid_len));
  Ok (mk_chmodel cur_time ((cm_head ch + cur_time_offs) mod NR_CREDIT_ENTRIES) valid_len
        (cm_max_credits ch) (cm_command_credits ch) (cm_xfer_lat ch) avail).

Definition chmodel_request (ch : channel_model) (cur_time request_time length : Z)
  : res (channel_model * Z) :=
  let units_to_xfer := u32 (u64 (length + UNIT_XFER_SIZE - 1) / UNIT_XFER_SIZE) in
  ch ← chmodel_advance ch cur_time;
  if request_time <? cur_time then Ok (ch, request_time)
  else
    let request_time_offs :=
      u32 (request_time / UNIT_TIME_INTERVAL - cur_time / UNIT_TIME_INTERVAL) in
    if NR_CREDIT_ENTRIES <=? request_time_offs then Ok (ch, request_time)
    else
      let pos := (cm_head ch + request_time_offs) mod NR_CREDIT_ENTRIES in
      let remaining_credits :=
        u32 (u32 (units_to_xfer * UNIT_XFER_CREDITS) + cm_command_credits ch) in
      default_delay ← checked_div remaining_credits (cm_max_credits ch);
      '(avail, pos, delay) ←
        consume_loop (Z.to_nat NR_CREDIT_ENTRIES) (cm_avail_credits ch) (cm_head ch) pos
          remaining_credits 0;
      let valid_length :=
        if cm_head ch <=? pos then pos - cm_head ch + 1
        else NR_CREDIT_ENTRIES - (cm_head ch - pos - 1) in
      let valid_len := if cm_valid_len ch <? valid_length then valid_length else cm_valid_len ch in
      let delay := if default_delay <? delay then delay - default_delay else 0 in
      let total_latency :=
        u64 (u32 (cm_xfer_lat ch * units_to_xfer) + u64 (delay * UNIT_TIME_INTERVAL)) in
      Ok (mk_chmodel (cm_cur_time ch) (cm_head ch) valid_len (cm_max_credits ch)
            (cm_command_credits ch) (cm_xfer_lat ch) avail,
          u64 (request_time + total_latency)).

(** ** Invariant *)

(** The ring index of the [k]-th slot from [head]. *)
Definition ring (head k : Z) : Z := (head + k) mod NR_CREDIT_ENTRIES.

Definition zsum (l : list Z) : Z := foldr Z.add 0 l.

(** A link between requests: the indexes are in range, a slot never holds more
    than [max_credits] nor less than none, and the slots past the valid window
    are untouched. *)
Record ch_ok (ch : channel_model) : Prop := {
  ch_len : Z.of_nat (length (cm_avail_credits ch)) = NR_CREDIT_ENTRIES;
  ch_head : 0 ≤ cm_head ch < NR_CREDIT_ENTRIES;
  ch_valid : 0 ≤ cm_valid_len ch ≤ NR_CREDIT_ENTRIES;
  ch_max : 0 < cm_max_credits ch < 256;
  ch_cmd : cm_command_credits ch = 0;
  ch_lat : 0 ≤ cm_xfer_lat ch ≤ U32_MAX;
  ch_slot i a : aget (cm_avail_credits ch) i = Ok a -> 0 ≤ a ≤ cm_max_credits ch;
  ch_fresh k : cm_valid_len ch ≤ k < NR_CREDIT_ENTRIES ->
    aget (cm_avail_credits ch) (ring (cm_head ch) k) = Ok (cm_max_credits ch);
}.

Lemma NR_pos : 0 < NR_CREDIT_ENTRIES ≤ 98304.
Proof. unfold NR_CREDIT_ENTRIES. lia. Qed.

#[local] Opaque NR_CREDIT_ENTRIES.

Lemma ring_eq h k :
  0 ≤ h < NR_CREDIT_ENTRIES -> 0 ≤ k < NR_CREDIT_ENTRIES ->
  ring h k = if decide (h + k < NR_CREDIT_ENTRIES) then h + k else h + k - NR_CREDIT_ENTRIES.
Proof.
  intros. unfold ring. case_decide; [apply Z.mod_small; lia|].
  rewrite <- (Z.mod_add _ (-1)) by lia. rewrite Z.mod_small; lia.
Qed.

Lemma ring_range h k : 0 ≤ ring h k < NR_CREDIT_ENTRIES.
Proof. apply Z.mod_pos_bound, NR_pos. Qed.

Lemma ring_inj h j k :
  0 ≤ h < NR_CREDIT_ENTRIES -> 0 ≤ j < NR_CREDIT_ENTRIES -> 0 ≤ k < NR_CREDIT_ENTRIES ->
  ring h j = ring h k -> j = k.
Proof. intros. rewrite !ring_eq in * by lia. repeat case_decide; lia. Qed.

(** Every index of the array is a slot. *)
Lemma ring_surj h i :
  0 ≤ h < NR_CREDIT_ENTRIES -> 0 ≤ i < NR_CREDIT_ENTRIES ->
  exists k, 0 ≤ k < NR_CREDIT_ENTRIES /\ ring h k = i.
Proof.
  intros. exists (if decide (h ≤ i) then i - h else i - h + NR_CREDIT_ENTRIES).
  case_decide; (split; [lia|]); rewrite ring_eq by lia; case_decide; lia.
Qed.

Lemma ring_ring h o k : ring (ring h o) k = ring h (o + k).
Proof.
  unfold ring. rewrite Zplus_mod_idemp_l. f_equal. lia.
Qed.

Lemma ring_succ h k : (ring h k + 1) mod NR_CREDIT_ENTRIES = ring h (k + 1).
Proof. unfold ring. rewrite Zplus_mod_idemp_l. f_equal. lia. Qed.

Lemma ring_wrap h o k :
  0 ≤ h < NR_CREDIT_ENTRIES -> NR_CREDIT_ENTRIES ≤ o + k < 2 * NR_CREDIT_ENTRIES ->
  ring h (o + k) = ring h (o + k - NR_CREDIT_ENTRIES).
Proof.
  intros. unfold ring. replace (h + (o + k)) with (h + (o + k - NR_CREDIT_ENTRIES) + 1 * NR_CREDIT_ENTRIES) by lia.
  rewrite Z.mod_add by lia. f_equal.
Qed.

Lemma zsum_insert l i x y :
  aget l i = Ok y -> zsum (<[Z.to_nat i := x]> l) = zsum l - y + x.
Proof.
  rewrite aget_Ok. intros [Hi Hl]. revert Hl. generalize (Z.to_nat i). clear i Hi.
  unfold zsum. induction l as [|z l IH]; intros [|n]; simpl; intros Hl; try done.
  - injection Hl as ->. lia.
  - rewrite (IH n) by done. lia.
Qed.

(** ** Advancing the ring *)
Lemma MEMSET_Ok l start len v :
  0 ≤ start -> 0 ≤ len -> start + len ≤ Z.of_nat (length l) -> 0 ≤ v < 256 ->
  exists l', MEMSET l start len v = Ok l' /\ length l' = length l /\
    forall i, 0 ≤ i < Z.of_nat (length l) ->
      aget l' i = if decide (start ≤ i < start + len) then Ok v else aget l i.
Proof.
  intros. unfold MEMSET. rewrite u8_small by lia.
  destruct (memset_in_range l start len v) as [l' Hl]; [lia..|].
  exists l'. split; [done|]. by apply memset_Ok.
Qed.

(** The slots [0 .. o) behind the new head are refilled. *)
Lemma refill_ok ch o :
  ch_ok ch -> 0 ≤ o ≤ NR_CREDIT_ENTRIES ->
  exists l',
    (if NR_CREDIT_ENTRIES <=? cm_head ch + o then
       l ← MEMSET (cm_avail_credits ch) (cm_head ch) (NR_CREDIT_ENTRIES - cm_head ch) (cm_max_credits ch);
       MEMSET l 0 (o - (NR_CREDIT_ENTRIES - cm_head ch)) (cm_max_credits ch)
     else MEMSET (cm_avail_credits ch) (cm_head ch) o (cm_max_credits ch)) = Ok l' /\
    length l' = length (cm_avail_credits ch) /\
    forall k, 0 ≤ k < NR_CREDIT_ENTRIES ->
      aget l' (ring (cm_head ch) k) =
        if decide (k < o) then Ok (cm_max_credits ch)
        else aget (cm_avail_credits ch) (ring (cm_head ch) k).
Proof.
  intros [Hlen Hh Hv Hm _ _ _ _] Ho. set (N := NR_CREDIT_ENTRIES) in *.
  destruct (Z.leb_spec N (cm_head ch + o)).
  - destruct (MEMSET_Ok (cm_avail_credits ch) (cm_head ch) (N - cm_head ch) (cm_max_credits ch))
      as (l & -> & Hl & Hg); [lia..|]. simpl.
    destruct (MEMSET_Ok l 0 (o - (N - cm_head ch)) (cm_max_credits ch))
      as (l' & -> & Hl' & Hg'); [lia..|].
    exists l'. split; [done|]. split; [lia|]. intros k Hk.
    pose proof (ring_range (cm_head ch) k) as Hr. fold N in Hr.
    rewrite Hg', Hg by lia. rewrite (ring_eq (cm_head ch) k) in * by lia. fold N in Hr |- *.
    repeat case_decide; try lia; done.
  - destruct (MEMSET_Ok (cm_avail_credits ch) (cm_head ch) o (cm_max_credits ch))
      as (l' & -> & Hl' & Hg'); [lia..|].
    exists l'. split; [done|]. split; [lia|]. intros k Hk.
    pose proof (ring_range (cm_head ch) k) as Hr. fold N in Hr.
    rewrite Hg' by lia. rewrite (ring_eq (cm_head ch) k) in * by lia. fold N in Hr |- *.
    repeat case_decide; try lia; done.
Qed.

(** What advancing leaves: the head moved over [o] slots, which are full. *)
Record advanced (ch : channel_model) (now o : Z) (ch' : channel_model) : Prop := {
  ad_ok : ch_ok ch';
  ad_time : cm_cur_time ch' = now;
  ad_off : 0 ≤ o ≤ cm_valid_len ch;
  ad_head : cm_head ch' = ring (cm_head ch) o;
  ad_valid : cm_valid_len ch' = cm_valid_len ch - o;
  ad_max : cm_max_credits ch' = cm_max_credits ch;
  ad_lat : cm_xfer_lat ch' = cm_xfer_lat ch;
}.

Lemma chmodel_advance_ok ch now :
  ch_ok ch -> exists ch' o, chmodel_advance ch now = Ok ch' /\ advanced ch now o ch'.
Proof.
  intros Hok. unfold chmodel_advance.
  set (o0 := u32 _). set (o := if o0 <? cm_valid_len ch then o0 else cm_valid_len ch).
  assert (0 ≤ o ≤ cm_valid_len ch) as Ho.
  { unfold o. pose proof (u32_range (now / UNIT_TIME_INTERVAL - cm_cur_time ch / UNIT_TIME_INTERVAL)).
    fold o0 in H. pose proof (ch_valid _ Hok). destruct (Z.ltb_spec o0 (cm_valid_len ch)); lia. }
  pose proof (ch_valid _ Hok) as Hv.
  destruct (refill_ok ch o Hok) as (l' & -> & Hl & Hg); [lia|]. simpl.
  destruct (Z.ltb_spec NR_CREDIT_ENTRIES (cm_valid_len ch - o)); [lia|]. simpl.
  exists (mk_chmodel now (ring (cm_head ch) o) (cm_valid_len ch - o)
    (cm_max_credits ch) (cm_command_credits ch) (cm_xfer_lat ch) l'), o.
  split; [done|]. split; simpl; try done.
  destruct Hok as [Hlen Hh Hv' Hm Hc Hlat Hs Hf]. split; simpl; try done.
  - lia.
  - apply ring_range.
  - lia.
  - intros i a Ha. pose proof (aget_range _ _ _ Ha) as Hr. rewrite Hl in Hr.
    destruct (ring_surj (cm_head ch) i) as (k & Hk & <-); [lia..|].
    rewrite Hg in Ha by lia. case_decide; [injection Ha as <-; lia|]. by eapply Hs.
  - intros k Hk. rewrite ring_ring.
    destruct (decide (o + k < NR_CREDIT_ENTRIES)).
    + rewrite Hg, decide_False by lia. apply Hf. lia.
    + rewrite ring_wrap by lia. by rewrite Hg, decide_True by lia.
Qed.

(** ** The consumption loop *)
Record consumed (max head k rem delay : Z) (l : list Z) (k' delay' : Z) (l' : list Z) : Prop := {
  co_len : length l' = length l;
  co_pos : k ≤ k' < NR_CREDIT_ENTRIES;
  co_slot i a : aget l' i = Ok a -> 0 ≤ a ≤ max;
  co_other j : 0 ≤ j < NR_CREDIT_ENTRIES -> ~ (k ≤ j ≤ k') -> aget l' (ring head j) = aget l (ring head j);
  co_delay : delay' = delay + (k' - k);
  co_sum : exists unserved, zsum l' = zsum l - rem + unserved /\ 0 ≤ unserved ≤ rem /\
    (unserved = 0 \/ k' = NR_CREDIT_ENTRIES - 1);
  co_full : (forall j, k ≤ j < NR_CREDIT_ENTRIES -> aget l (ring head j) = Ok max) ->
    (k' - k) * max ≤ rem;
}.

Lemma consume_loop_ok fuel max head k rem delay l :
  Z.of_nat (length l) = NR_CREDIT_ENTRIES -> 0 ≤ head < NR_CREDIT_ENTRIES ->
  0 ≤ k < NR_CREDIT_ENTRIES -> 0 ≤ rem -> 0 ≤ delay ≤ k ->
  (forall i a, aget l i = Ok a -> 0 ≤ a ≤ max) ->
  NR_CREDIT_ENTRIES - k ≤ Z.of_nat fuel ->
  exists l' k' delay', consume_loop fuel l head (ring head k) rem delay = Ok (l', ring head k', delay') /\
    consumed max head k rem delay l k' delay' l'.
Proof.
  revert k rem delay l. induction fuel as [|fuel IH];
    intros k rem delay l Hlen Hh Hk Hrem Hd Hs Hf; [lia|].
  simpl. pose proof (ring_range head k) as Hr. pose proof NR_pos as HN.
  destruct (aget_in_range l (ring head k)) as [a Ha]; [lia|]. rewrite Ha. simpl.
  pose proof (Hs _ _ Ha) as Hab.
  set (c := if rem <=? a then rem else a).
  assert (0 ≤ c ≤ a /\ c ≤ rem /\ (rem - c = 0 \/ c = a)) as Hc
    by (unfold c; destruct (Z.leb_spec rem a); lia).
  rewrite aset_in_range by lia. simpl. set (l1 := <[_ := _]> l).
  assert (forall i b, aget l1 i = Ok b -> 0 ≤ b ≤ max) as Hs1.
  { intros i b. unfold l1. rewrite aget_insert by lia. case_decide; [intros [= <-]; lia | apply Hs]. }
  assert (zsum l1 = zsum l - c) as Hz1 by (unfold l1; rewrite (zsum_insert _ _ _ a) by done; lia).
  assert (forall j, 0 ≤ j < NR_CREDIT_ENTRIES -> j <> k -> aget l1 (ring head j) = aget l (ring head j)) as Ho1.
  { intros j Hj Hne. unfold l1. rewrite aget_insert, decide_False; [done| |lia].
    intros E. apply Hne. by apply (ring_inj head). }
  destruct (Z.eqb_spec (rem - c) 0) as [E|E]; simpl.
  { exists l1, k, delay. split; [done|]. split; try done; try lia.
    - unfold l1. by rewrite length_insert.
    - intros j Hj Hne. apply Ho1; lia.
    - exists 0. lia. }
  rewrite ring_succ. destruct (Z.eqb_spec (ring head (k + 1)) head) as [E1|E1]; simpl.
  - assert (k = NR_CREDIT_ENTRIES - 1) as ->.
    { destruct (decide (k = NR_CREDIT_ENTRIES - 1)); [done|].
      rewrite ring_eq in E1 by lia. case_decide; lia. }
    exists l1, (NR_CREDIT_ENTRIES - 1), delay. split; [done|]. split; try done; try lia.
    + unfold l1. by rewrite length_insert.
    + intros j Hj Hne. apply Ho1; lia.
    + exists (rem - c). lia.
  - assert (k < NR_CREDIT_ENTRIES - 1) as Hlt.
    { destruct (decide (k = NR_CREDIT_ENTRIES - 1)) as [->|]; [|lia]. exfalso. apply E1.
      replace (NR_CREDIT_ENTRIES - 1 + 1) with (0 + NR_CREDIT_ENTRIES) by lia.
      rewrite ring_wrap by lia. rewrite ring_eq by lia. case_decide; lia. }
    rewrite u32_small by (unfold U32_MAX; lia).
    destruct (IH (k + 1) (rem - c) (delay + 1) l1) as (l' & k' & delay' & He & [Hl2 Hp2 Hs2 Ho2 Hd2 Hz2 Hfl]);
      [unfold l1; rewrite length_insert; done | lia.. | done | lia |].
    exists l', k', delay'. split; [done|]. split; try done; try lia.
    + unfold l1 in Hl2. by rewrite length_insert in Hl2.
    + intros j Hj Hne. rewrite Ho2 by lia. apply Ho1; lia.
    + destruct Hz2 as (u & Hu). exists u. lia.
    + intros Hall. assert (a = max) as ->.
      { specialize (Hall k ltac:(lia)). rewrite Ha in Hall. by injection Hall. }
      assert ((k' - (k + 1)) * max ≤ rem - c); [|lia].
      apply Hfl. intros j Hj. rewrite Ho1 by lia. apply Hall. lia.
Qed.

(** ** Requests *)
Definition xfer_units (length : Z) : Z := u32 (u64 (length + UNIT_XFER_SIZE - 1) / UNIT_XFER_SIZE).

(** The slot a request time falls in, counted from the current time. *)
Definition slot_of (now request_time : Z) : Z :=
  u32 (request_time / UNIT_TIME_INTERVAL - now / UNIT_TIME_INTERVAL).

Lemma xfer_units_range length : 0 ≤ xfer_units length ≤ U32_MAX.
Proof. apply u32_range. Qed.

(** A request inside the ring: what it consumes, and the time it returns. *)
Lemma request_in_ring ch now req length :
  ch_ok ch -> 0 ≤ now ≤ req -> slot_of now req < NR_CREDIT_ENTRIES ->
  exists ch1 o ch' k' unserved,
    chmodel_advance ch now = Ok ch1 /\ advanced ch now o ch1 /\
    chmodel_request ch now req length =
      Ok (ch', u64 (req + u64 (u32 (cm_xfer_lat ch * xfer_units length) +
        u64 ((if xfer_units length / cm_max_credits ch <? k' - slot_of now req
              then k' - slot_of now req - xfer_units length / cm_max_credits ch else 0)
             * UNIT_TIME_INTERVAL)))) /\
    ch_ok ch' /\ cm_cur_time ch' = now /\ cm_max_credits ch' = cm_max_credits ch /\
    cm_xfer_lat ch' = cm_xfer_lat ch /\
    slot_of now req ≤ k' < NR_CREDIT_ENTRIES /\
    cm_valid_len ch' = Z.max (cm_valid_len ch1) (k' + 1) /\
    zsum (cm_avail_credits ch') = zsum (cm_avail_credits ch1) - xfer_units length + unserved /\
    0 ≤ unserved ≤ xfer_units length /\ (unserved = 0 \/ k' = NR_CREDIT_ENTRIES - 1) /\
    (cm_valid_len ch1 ≤ slot_of now req ->
      k' - slot_of now req ≤ xfer_units length / cm_max_credits ch).
Proof.
  intros Hok Ht Hoff. destruct (chmodel_advance_ok ch now Hok) as (ch1 & o & Ha & Had).
  pose proof Had as [Hok1 Htm _ Hhd Hvl Hmx Hlt].
  pose proof Hok1 as [Hlen Hh Hv Hm Hc Hlat Hs Hf].
  pose proof (u32_range (req / UNIT_TIME_INTERVAL - now / UNIT_TIME_INTERVAL)) as Hk0.
  fold (slot_of now req) in Hk0. pose proof (xfer_units_range length) as Hu.
  unfold chmodel_request.
  assert (NR_CREDIT_ENTRIES ≤ Z.of_nat (Z.to_nat NR_CREDIT_ENTRIES)) as Hfuel by lia.
  revert Hfuel. generalize (Z.to_nat NR_CREDIT_ENTRIES). intros fuel Hfuel.
  destruct (consume_loop_ok fuel (cm_max_credits ch1) (cm_head ch1)
    (slot_of now req) (xfer_units length) 0 (cm_avail_credits ch1))
    as (l' & k' & dl & He & [Hl2 Hp2 Hs2 Ho2 Hd2 (u & Hz & Hub & Hu0) Hfl]); [done | done | lia.. | done | lia |].
  assert (forall P : Z, (if cm_head ch1 <=? ring (cm_head ch1) k' then ring (cm_head ch1) k' - cm_head ch1 + 1
    else NR_CREDIT_ENTRIES - (cm_head ch1 - ring (cm_head ch1) k' - 1)) = k' + 1) as Hvlen.
  { intros _. rewrite ring_eq by lia. case_decide.
    - rewrite (proj2 (Z.leb_le _ _)) by lia. lia.
    - rewrite (proj2 (Z.leb_gt _ _)) by lia. lia. }
  rewrite Ha. cbn [mbind res_bind]. fold (xfer_units length).
  rewrite (proj2 (Z.ltb_ge _ _)) by lia. fold (slot_of now req).
  rewrite (proj2 (Z.leb_gt _ _)) by done.
  unfold checked_div. rewrite (proj2 (Z.eqb_neq _ _)) by lia. simpl.
  unfold UNIT_XFER_CREDITS. rewrite Z.mul_1_r, Hc, Z.add_0_r.
  rewrite (u32_small (u32 _)) by apply u32_range. rewrite (u32_small (xfer_units length)) by done.
  fold (ring (cm_head ch1) (slot_of now req)). rewrite He. simpl.
  rewrite (Hvlen 0), Hmx, Hlt, Hd2, Z.add_0_l.
  eexists ch1, o, _, k', u. split; [done|]. split; [done|]. split; [done|]. simpl.
  split; [|repeat split; try done; try lia].
  2: destruct (Z.ltb_spec (cm_valid_len ch1) (k' + 1)); lia.
  - split; simpl; try done; try lia.
    + destruct (Z.ltb_spec (cm_valid_len ch1) (k' + 1)); lia.
    + intros i a Hai. rewrite <- Hmx. by eapply Hs2.
    + intros k Hk. rewrite <- Hmx. destruct (Z.ltb_spec (cm_valid_len ch1) (k' + 1));
        rewrite Ho2 by lia; apply Hf; lia.
  - intros Hfresh. rewrite <- Hmx. apply Z.div_le_lower_bound; [lia|].
    rewrite Z.mul_comm. apply Hfl. intros j Hj. apply Hf. lia.
Qed.

Lemma fresh_link_ok m lat l :
  0 < m < 256 -> 0 ≤ lat ≤ U32_MAX -> Z.of_nat (length l) = NR_CREDIT_ENTRIES ->
  (forall i, 0 ≤ i < NR_CREDIT_ENTRIES -> aget l i = Ok m) ->
  ch_ok (mk_chmodel 0 0 0 m 0 lat l).
Proof.
  intros Hm Hlat Hl Hall. pose proof NR_pos. split; simpl; try done; try lia.
  - intros i a Ha. pose proof (aget_range _ _ _ Ha). rewrite Hall in Ha by lia.
    injection Ha as <-. lia.
  - intros k Hk. apply Hall, ring_range.
Qed.

Lemma max_credits_wf bandwidth :
  0 < BANDWIDTH_TO_MAX_CREDITS bandwidth < 256 -> ch_ok (chmodel_init bandwidth).
Proof.
  intros Hb. unfold chmodel_init. pose proof NR_pos.
  apply fresh_link_ok.
  - rewrite u32_small by (unfold U32_MAX; lia). done.
  - apply u32_range.
  - rewrite length_replicate. lia.
  - intros i Hi. rewrite u32_small, u8_small by (unfold U32_MAX; lia).
    apply aget_Ok. split; [lia|]. apply lookup_replicate_2. lia.
Qed.

(** A bound on the latency of one request: 2^32 - 1 ns of transfer and at most
    one ring of waiting. *)
Definition CH_MAX_LATENCY : Z := 2 ^ 33.

(** A request to a link that satisfies the invariant returns. *)
Lemma chmodel_request_ok ch now request_time length :
  ch_ok ch -> 0 ≤ request_time ≤ U64_MAX -> 0 ≤ now ->
  returns (chmodel_request ch now request_time length) (fun '(ch', t) =>
    ch_ok ch' /\ cm_cur_time ch' = now /\ 0 ≤ t ≤ U64_MAX /\
    (request_time ≤ 2 ^ 63 -> request_time ≤ t ≤ request_time + CH_MAX_LATENCY)).
Proof.
  intros Hok Hr Hn. destruct (chmodel_advance_ok ch now Hok) as (ch1 & o & Ha & Had).
  assert (ch_ok ch1 /\ cm_cur_time ch1 = now /\ 0 ≤ request_time ≤ U64_MAX /\
    (request_time ≤ 2 ^ 63 ->
     request_time ≤ request_time ≤ request_time + CH_MAX_LATENCY)) as Hno.
  { unfold CH_MAX_LATENCY. destruct Had. auto with lia. }
  destruct (decide (request_time < now)) as [Hlt|Hge].
  { unfold chmodel_request. rewrite Ha. cbn [mbind res_bind].
    by rewrite (proj2 (Z.ltb_lt _ _)) by done. }
  destruct (decide (slot_of now request_time < NR_CREDIT_ENTRIES)) as [Hs|Hs].
  2:{ unfold chmodel_request. rewrite Ha. cbn [mbind res_bind].
      rewrite (proj2 (Z.ltb_ge _ _)) by lia. fold (slot_of now request_time).
      by rewrite (proj2 (Z.leb_le _ _)) by lia. }
  destruct (request_in_ring ch now request_time length) as
      (ch2 & o' & ch' & k' & u & _ & _ & -> & Hok' & Ht & _ & _ & Hk & _); [done | lia | done |].
  cbn [returns]. split; [done|]. split; [done|]. split; [apply u64_range|]. intros Hr'.
    set (dl := if _ <? _ then _ else _). assert (0 ≤ dl ≤ 98304) as Hdl.
    { pose proof NR_pos. unfold dl. pose proof (u32_range (request_time / UNIT_TIME_INTERVAL - now / UNIT_TIME_INTERVAL)).
      fold (slot_of now request_time) in H0.
      assert (0 ≤ xfer_units length / cm_max_credits ch).
      { apply Z.div_pos; [apply xfer_units_range | destruct (ch_max _ Hok); lia]. }
      destruct (Z.ltb_spec (xfer_units length / cm_max_credits ch) (k' - slot_of now request_time)); lia. }
    pose proof (u32_range (cm_xfer_lat ch * xfer_units length)).
    unfold U32_MAX, U64_MAX, UNIT_TIME_INTERVAL, CH_MAX_LATENCY in *.
    rewrite (u64_small (dl * 4000)) by (unfold U64_MAX; lia).
    rewrite (u64_small (_ + dl * 4000)) by (unfold U64_MAX; lia).
    rewrite u64_small by (unfold U64_MAX; lia). lia.
Qed.

(** C21. A request to a link that satisfies the invariant always completes: the
    consumption loop ends, the [NVMEV_ASSERT] on [valid_len] holds, no index
    leaves the ring, no division by zero; the link satisfies the invariant
    again, and the completion time is not before the request time. *)
Theorem chmodel_request_safe ch now request_time length :
  ch_ok ch -> 0 ≤ now -> 0 ≤ request_time < 2 ^ 63 ->
  exists ch' t, chmodel_request ch now request_time length = Ok (ch', t) /\
    ch_ok ch' /\ cm_cur_time ch' = now /\ request_time ≤ t.
Proof.
  intros Hok Hn Hr.
  destruct (proj1 (returns_iff _ _) (chmodel_request_ok ch now request_time length Hok
    ltac:(unfold U64_MAX; lia) Hn)) as ([ch' t] & He & Hok' & Ht & _ & Hle).
  exists ch', t. auto with lia.
Qed.

(** A transfer is charged to the link exactly once: a request that falls
    into the ring takes one credit per 128-byte unit out of the slots, all of
    them unless the ring is used to its end, and leaves every slot between no
    credit and [max_credits], the bandwidth of one interval. *)
Theorem chmodel_request_charges ch now request_time length :
  ch_ok ch -> 0 ≤ now ≤ request_time -> slot_of now request_time < NR_CREDIT_ENTRIES ->
  exists ch1 ch' t unserved,
    chmodel_advance ch now = Ok ch1 /\
    chmodel_request ch now request_time length = Ok (ch', t) /\
    zsum (cm_avail_credits ch') =
      zsum (cm_avail_credits ch1) - u32 (u64 (length + 127) / 128) + unserved /\
    0 ≤ unserved ≤ u32 (u64 (length + 127) / 128) /\
    (unserved = 0 \/ cm_valid_len ch' = NR_CREDIT_ENTRIES) /\
    forall i a, aget (cm_avail_credits ch') i = Ok a -> 0 ≤ a ≤ cm_max_credits ch'.
Proof.
  intros Hok Ht Hs.
  destruct (request_in_ring ch now request_time length Hok Ht Hs) as
    (ch1 & o & ch' & k' & u & Ha & Had & He & Hok' & _ & _ & _ & Hk & Hvl & Hz & Hu & Hfull & _).
  assert (xfer_units length = u32 (u64 (length + 127) / 128)) as Hun.
  { unfold xfer_units, UNIT_XFER_SIZE. do 3 f_equal. lia. }
  rewrite Hun in *. eexists ch1, ch', _, u. split; [done|]. split; [done|]. split; [done|].
  split; [done|]. split; [|apply Hok'].
  destruct Hfull as [|Hfull]; [by left|]. right. pose proof (ch_valid _ Hok'). lia.
Qed.

(** An uncontended transfer takes exactly the time of its bandwidth: when
    every slot from the request time on is unused, the request completes
    [xfer_lat] ns per 128-byte unit after its request time, with no waiting. *)
Theorem chmodel_request_uncontended ch now request_time length :
  ch_ok ch -> 0 ≤ now ≤ request_time -> request_time < 2 ^ 63 ->
  cm_valid_len ch ≤ slot_of now request_time < NR_CREDIT_ENTRIES ->
  exists ch', chmodel_request ch now request_time length =
    Ok (ch', request_time + u32 (cm_xfer_lat ch * u32 (u64 (length + 127) / 128))).
Proof.
  intros Hok Ht Hr [Hv Hs].
  destruct (request_in_ring ch now request_time length Hok Ht Hs) as
    (ch1 & o & ch' & k' & u & Ha & Had & He & Hok' & _ & _ & _ & Hk & _ & _ & _ & _ & Hun).
  assert (xfer_units length = u32 (u64 (length + 127) / 128)) as Hu.
  { unfold xfer_units, UNIT_XFER_SIZE. do 3 f_equal. lia. }
  exists ch'. rewrite He, Hu in *. rewrite (proj2 (Z.ltb_ge _ _)).
  2:{ apply Hun. destruct Had. lia. }
  pose proof (u32_range (cm_xfer_lat ch * u32 (u64 (length + 127) / 128))).
  unfold U32_MAX in *. change (u64 (0 * UNIT_TIME_INTERVAL)) with 0. rewrite Z.add_0_r.
  rewrite (u64_small (u32 _)) by (unfold U64_MAX; lia).
  by rewrite u64_small by (unfold U64_MAX; lia).
Qed.

(** The links of the shipped configurations start within the invariant. *)
Lemma shipped_links_ok bw : bw ∈ [800; 3360; 3200; 450; 3050] -> ch_ok (chmodel_init bw).
Proof.
  intros H. apply max_credits_wf.
  repeat (apply elem_of_cons in H as [->|H]; [vm_compute; done|]). by apply not_elem_of_nil in H.
Qed.

Lemma chmodel_request_safe_witness :
  exists ch' t, chmodel_request (chmodel_init 800) 1000 5000 4096 = Ok (ch', t) /\
    ch_ok ch' /\ cm_cur_time ch' = 1000 /\ 5000 ≤ t.
Proof.
  apply (chmodel_request_safe (chmodel_init 800) 1000 5000 4096);
    [apply shipped_links_ok; set_solver | lia | lia].
Defined.

Lemma chmodel_request_charges_witness :
  exists ch1 ch' t unserved,
    chmodel_advance (chmodel_init 800) 1000 = Ok ch1 /\
    chmodel_request (chmodel_init 800) 1000 5000 4096 = Ok (ch', t) /\
    zsum (cm_avail_credits ch') = zsum (cm_avail_credits ch1) - 32 + unserved.
Proof.
  destruct (chmodel_request_charges (chmodel_init 800) 1000 5000 4096)
    as (ch1 & ch' & t & u & H1 & H2 & H3 & _);
    [apply shipped_links_ok; set_solver | lia | reflexivity |].
  exists ch1, ch', t, u. split; [exact H1|]. split; [exact H2|]. exact H3.
Defined.

(** 4 KiB over the 800 MB/s channel of the 970 PRO: 32 units of 152 ns. *)
Lemma chmodel_request_uncontended_witness :
  exists ch', chmodel_request (chmodel_init 800) 1000 5000 4096 = Ok (ch', 5000 + 4864).
Proof.
  apply (chmodel_request_uncontended (chmodel_init 800) 1000 5000 4096);
    [apply shipped_links_ok; set_solver | lia | lia | split; [discriminate | reflexivity]].
Defined.
