(* ===== verification/Ssd.v ===== *)
(** * NAND device and firmware latency model ([src/ssd.h], [src/ssd.c])

    Geometry and parameters, the physical page address and its union views,
    the tree channel / LUN / plane / block / page, the write buffer counter and
    the functions that advance the device's time.  The PCIe link and the write
    buffer are pointers that the partitions of a device share: they live in the
    [world] all handlers thread through. *)
From S2P Require Import Prelude Nvme SsdConfig ChannelModel.

(** [enum { SEC_FREE, ... }] and [enum { PG_FREE, ... }] share their values. *)
Inductive pg_status : Set := PG_FREE | PG_INVALID | PG_VALID.
#[global] Instance pg_status_eq_dec : EqDecision pg_status.
Proof. solve_decision. Defined.

Inductive nand_op : Set := NAND_READ | NAND_WRITE | NAND_ERASE | NAND_NOP.
Inductive io_type : Set := USER_IO | GC_IO.

Definition CELL_TYPE_LSB : Z := 0.
Definition CELL_TYPE_MSB : Z := 1.
Definition CELL_TYPE_CSB : Z := 2.

(** ** Physical page addresses *)
Definition BLK_BITS : Z := 16.
Definition PAGE_BITS : Z := 16.
Definition PL_BITS : Z := 8.
Definition LUN_BITS : Z := 8.
Definition CH_BITS : Z := 8.
Definition RSB_BITS : Z := 64 - (BLK_BITS + PAGE_BITS + PL_BITS + LUN_BITS + CH_BITS).

(** The [g] view of the union. *)
Record ppa := mk_ppa {
  g_pg : Z;
  g_blk : Z;
  g_pl : Z;
  g_lun : Z;
  g_ch : Z;
  g_rsv : Z;
}.
#[global] Instance ppa_eq_dec : EqDecision ppa.
Proof. solve_decision. Defined.

(** The 64-bit view [ppa.ppa]: the bit fields are laid out from bit 0. *)
Definition ppa_ppa (p : ppa) : Z :=
  g_pg p + Z.shiftl (g_blk p) 16 + Z.shiftl (g_pl p) 32 + Z.shiftl (g_lun p) 40
  + Z.shiftl (g_ch p) 48 + Z.shiftl (g_rsv p) 56.

Definition ppa_of (x : Z) : ppa :=
  mk_ppa (Z.land x 0xFFFF) (Z.land (Z.shiftr x 16) 0xFFFF) (Z.land (Z.shiftr x 32) 0xFF)
    (Z.land (Z.shiftr x 40) 0xFF) (Z.land (Z.shiftr x 48) 0xFF) (Z.land (Z.shiftr x 56) 0xFF).

(** The [h] view: [blk_in_ssd] is the 40 bits above the page. *)
Definition blk_in_ssd (p : ppa) : Z := Z.land (Z.shiftr (ppa_ppa p) 16) (Z.ones 40).

Definition INVALID_PPA : ppa := mk_ppa 0xFFFF 0xFFFF 0xFF 0xFF 0xFF 0xFF.
Definition UNMAPPED_PPA : ppa := mk_ppa 0xFFFF 0xFFFF 0xFF 0xFF 0xFF 0xFF.
Definition INVALID_LPN : Z := U64_MAX.

(** Stores to the bit fields keep the low bits. *)
Definition set_pg (p : ppa) (v : Z) : ppa := mk_ppa (u16 v) (g_blk p) (g_pl p) (g_lun p) (g_ch p) (g_rsv p).
Definition set_blk (p : ppa) (v : Z) : ppa := mk_ppa (g_pg p) (u16 v) (g_pl p) (g_lun p) (g_ch p) (g_rsv p).
Definition set_pl (p : ppa) (v : Z) : ppa := mk_ppa (g_pg p) (g_blk p) (u8 v) (g_lun p) (g_ch p) (g_rsv p).
Definition set_lun (p : ppa) (v : Z) : ppa := mk_ppa (g_pg p) (g_blk p) (g_pl p) (u8 v) (g_ch p) (g_rsv p).
Definition set_ch (p : ppa) (v : Z) : ppa := mk_ppa (g_pg p) (g_blk p) (g_pl p) (g_lun p) (u8 v) (g_rsv p).

(** ** The device tree *)
Record nand_page := mk_page { sec : list pg_status; nsecs : Z; pg_st : pg_status }.

Record nand_block := mk_block {
  blk_pg : list nand_page;
  npgs : Z;
  blk_ipc : Z;
  blk_vpc : Z;
  erase_cnt : Z;
  blk_wp : Z;
}.

Record nand_plane := mk_plane {
  pl_blk : list nand_block;
  next_pln_avail_time : Z;
  nblks : Z;
}.

Record nand_lun := mk_lun {
  lun_pl : list nand_plane;
  npls : Z;
  next_lun_avail_time : Z;
  lun_busy : bool;
  lun_gc_endtime : Z;
}.

Record ssd_channel := mk_channel {
  ch_lun : list nand_lun;
  nluns : Z;
  ch_gc_endtime : Z;
  ch_perf_model : channel_model;
}.

(** [struct nand_cmd]. *)
Record nand_cmd := mk_ncmd {
  nc_type : io_type;
  nc_cmd : nand_op;
  nc_xfer_size : Z;
  nc_stime : Z;
  nc_interleave_pci_dma : bool;
  nc_ppa : ppa;
}.

(** [struct buffer]; its spin lock makes each operation atomic. *)
Record buffer := mk_buffer { buf_size : Z; buf_remaining : Z }.

Definition buffer_init (size : Z) : buffer := mk_buffer size size.

Definition buffer_allocate (buf : buffer) (size : Z) : res (buffer * Z) :=
  _ ← NVMEV_ASSERT (size <=? buf_size buf);
  let size := if buf_remaining buf <? size then 0 else size in
  Ok (mk_buffer (buf_size buf) (u64 (buf_remaining buf - size)), u32 size).

Definition buffer_release (buf : buffer) (size : Z) : buffer :=
  mk_buffer (buf_size buf) (u64 (buf_remaining buf + size)).

Definition buffer_refill (buf : buffer) : buffer := mk_buffer (buf_size buf) (buf_size buf).

(** ** Parameters *)
Record ssdparams := mk_params {
  secsz : Z; secs_per_pg : Z; pgsz : Z;
  pgs_per_flashpg : Z; flashpgs_per_blk : Z;
  pgs_per_oneshotpg : Z; oneshotpgs_per_blk : Z;
  pgs_per_blk : Z; blks_per_pl : Z; pls_per_lun : Z; luns_per_ch : Z; nchs : Z;
  cell_mode : Z;
  write_unit_size : Z; write_early_completion : bool;
  pg_4kb_rd_lat : list Z; pg_rd_lat : list Z; pg_wr_lat : Z; blk_er_lat : Z;
  max_ch_xfer_size : Z;
  fw_4kb_rd_lat : Z; fw_rd_lat : Z; fw_wbuf_lat0 : Z; fw_wbuf_lat1 : Z; fw_ch_xfer_lat : Z;
  ch_bandwidth : Z; pcie_bandwidth : Z;
  secs_per_blk : Z; secs_per_pl : Z; secs_per_lun : Z; secs_per_ch : Z; tt_secs : Z;
  pgs_per_pl : Z; pgs_per_lun : Z; pgs_per_ch : Z; tt_pgs : Z;
  blks_per_lun : Z; blks_per_ch : Z; tt_blks : Z;
  secs_per_line : Z; pgs_per_line : Z; blks_per_line : Z; tt_lines : Z;
  pls_per_ch : Z; tt_pls : Z; tt_luns : Z;
  write_buffer_size : Z;
}.

(** The sizes of [ssd_init_params] that depend on the capacity: the channels of
    a partition, the block size in bytes and the blocks of a plane. *)
Definition partition_sizes (cfg : ssd_config) (capacity nparts : Z) : res (Z * Z * Z) :=
  let nchs := NAND_CHANNELS cfg in
  let pls_per_lun := PLNS_PER_LUN cfg in
  let luns_per_ch := LUNS_PER_NAND_CH cfg in
  r ← checked_mod nchs nparts;
  _ ← NVMEV_ASSERT (r =? 0);
  let nchs := nchs / nparts in
  let capacity := capacity / nparts in
  if 0 <? BLKS_PER_PLN cfg then
    let blks_per_pl := BLKS_PER_PLN cfg in
    let d := i32 (blks_per_pl * pls_per_lun * luns_per_ch * nchs) in
    n ← checked_div (u64 (capacity + d - 1)) d;
    Ok (nchs, n, blks_per_pl)
  else
    _ ← NVMEV_ASSERT (0 <? BLK_SIZE cfg);
    let blk_size := BLK_SIZE cfg in
    let d := u64 (blk_size * pls_per_lun * luns_per_ch * nchs) in
    n ← checked_div (u64 (capacity + d - 1)) d;
    Ok (nchs, blk_size, i32 n).

(** The rest of it.  [int] products are computed at 32 bits ([i32]), products
    of [unsigned long] at 64. *)
Definition derived_params (cfg : ssd_config) (nchs blk_size blks_per_pl : Z) : ssdparams :=
  let secsz := LBA_SIZE cfg in
  let secs_per_pg := 4096 / LBA_SIZE cfg in
  let pgsz := i32 (secsz * secs_per_pg) in
  let pls_per_lun := PLNS_PER_LUN cfg in
  let luns_per_ch := LUNS_PER_NAND_CH cfg in
  let pgs_per_oneshotpg := ONESHOT_PAGE_SIZE cfg / pgsz in
  let oneshotpgs_per_blk := i32 (DIV_ROUND_UP blk_size (ONESHOT_PAGE_SIZE cfg)) in
  let pgs_per_flashpg := FLASH_PAGE_SIZE cfg / pgsz in
  let flashpgs_per_blk :=
    i32 (ONESHOT_PAGE_SIZE cfg / FLASH_PAGE_SIZE cfg * oneshotpgs_per_blk) in
  let pgs_per_blk := i32 (pgs_per_oneshotpg * oneshotpgs_per_blk) in
  let secs_per_blk := u64 (i32 (secs_per_pg * pgs_per_blk)) in
  let secs_per_pl := u64 (secs_per_blk * blks_per_pl) in
  let secs_per_lun := u64 (secs_per_pl * pls_per_lun) in
  let secs_per_ch := u64 (secs_per_lun * luns_per_ch) in
  let tt_secs := u64 (secs_per_ch * nchs) in
  let pgs_per_pl := u64 (i32 (pgs_per_blk * blks_per_pl)) in
  let pgs_per_lun := u64 (pgs_per_pl * pls_per_lun) in
  let pgs_per_ch := u64 (pgs_per_lun * luns_per_ch) in
  let tt_pgs := u64 (pgs_per_ch * nchs) in
  let blks_per_lun := u64 (i32 (blks_per_pl * pls_per_lun)) in
  let blks_per_ch := u64 (blks_per_lun * luns_per_ch) in
  let tt_blks := u64 (blks_per_ch * nchs) in
  let pls_per_ch := u64 (i32 (pls_per_lun * luns_per_ch)) in
  let tt_pls := u64 (pls_per_ch * nchs) in
  let tt_luns := u64 (i32 (luns_per_ch * nchs)) in
  let blks_per_line := tt_luns in
  let pgs_per_line := u64 (blks_per_line * pgs_per_blk) in
  let secs_per_line := u64 (pgs_per_line * secs_per_pg) in
  let tt_lines := blks_per_lun in
  mk_params secsz secs_per_pg pgsz pgs_per_flashpg flashpgs_per_blk
        pgs_per_oneshotpg oneshotpgs_per_blk pgs_per_blk blks_per_pl pls_per_lun luns_per_ch nchs
        (cell_mode_Z (CELL_MODE cfg)) (WRITE_UNIT_SIZE cfg) (WRITE_EARLY_COMPLETION cfg)
        (NAND_4KB_READ_LATENCY cfg) (NAND_READ_LATENCY cfg) (NAND_PROG_LATENCY cfg)
        (NAND_ERASE_LATENCY cfg) (MAX_CH_XFER_SIZE cfg)
        (FW_4KB_READ_LATENCY cfg) (FW_READ_LATENCY cfg) (FW_WBUF_LATENCY0 cfg)
        (FW_WBUF_LATENCY1 cfg) (FW_CH_XFER_LATENCY cfg)
        (NAND_CHANNEL_BANDWIDTH cfg) (PCIE_BANDWIDTH cfg)
        secs_per_blk secs_per_pl secs_per_lun secs_per_ch tt_secs
        pgs_per_pl pgs_per_lun pgs_per_ch tt_pgs
        blks_per_lun blks_per_ch tt_blks
        secs_per_line pgs_per_line blks_per_line tt_lines
        pls_per_ch tt_pls tt_luns (GLOBAL_WB_SIZE cfg).

Definition ssd_init_params (cfg : ssd_config) (capacity nparts : Z) : res ssdparams :=
  let pgsz := i32 (LBA_SIZE cfg * (4096 / LBA_SIZE cfg)) in
  '(nchs, blk_size, blks_per_pl) ← partition_sizes cfg capacity nparts;
  _ ← NVMEV_ASSERT ((ONESHOT_PAGE_SIZE cfg mod pgsz =? 0) && (FLASH_PAGE_SIZE cfg mod pgsz =? 0));
  _ ← NVMEV_ASSERT (ONESHOT_PAGE_SIZE cfg mod FLASH_PAGE_SIZE cfg =? 0);
  Ok (derived_params cfg nchs blk_size blks_per_pl).

(** ** Initialisation *)
Definition ssd_init_nand_page (spp : ssdparams) : nand_page :=
  mk_page (replicate (Z.to_nat (secs_per_pg spp)) PG_FREE) (secs_per_pg spp) PG_FREE.

Definition ssd_init_nand_blk (spp : ssdparams) : nand_block :=
  mk_block (replicate (Z.to_nat (pgs_per_blk spp)) (ssd_init_nand_page spp)) (pgs_per_blk spp) 0 0 0 0.

Definition ssd_init_nand_plane (spp : ssdparams) : nand_plane :=
  mk_plane (replicate (Z.to_nat (blks_per_pl spp)) (ssd_init_nand_blk spp)) 0 (blks_per_pl spp).

Definition ssd_init_nand_lun (spp : ssdparams) : nand_lun :=
  mk_lun (replicate (Z.to_nat (pls_per_lun spp)) (ssd_init_nand_plane spp)) (pls_per_lun spp) 0 false 0.

(** The link's [xfer_lat] also carries the firmware overhead per unit. *)
Definition ssd_init_ch (spp : ssdparams) : ssd_channel :=
  let m := chmodel_init (ch_bandwidth spp) in
  let lat := u32 (cm_xfer_lat m + u64 (fw_ch_xfer_lat spp * UNIT_XFER_SIZE) / KB 4) in
  mk_channel (replicate (Z.to_nat (luns_per_ch spp)) (ssd_init_nand_lun spp)) (luns_per_ch spp) 0
    (mk_chmodel (cm_cur_time m) (cm_head m) (cm_valid_len m) (cm_max_credits m)
       (cm_command_credits m) lat (cm_avail_credits m)).

Definition ssd_init_pcie (spp : ssdparams) : channel_model := chmodel_init (pcie_bandwidth spp).

(** [struct ssd] without the two pointers [pcie] and [write_buffer]. *)
Record ssd := mk_ssd { sp : ssdparams; ssd_ch : list ssd_channel }.

(** [ssd_init]: the device, its PCIe link and its write buffer. *)
Definition ssd_init (spp : ssdparams) : ssd * channel_model * buffer :=
  (mk_ssd spp (replicate (Z.to_nat (nchs spp)) (ssd_init_ch spp)),
   ssd_init_pcie spp, buffer_init (write_buffer_size spp)).

(** ** Access by address

    [get_pl], [get_blk] and [get_pg] return pointers into the tree; a read
    through one is [get_*], a write [mod_*]. *)
Definition get_ch (s : ssd) (p : ppa) : res ssd_channel := aget (ssd_ch s) (g_ch p).
Definition get_lun (s : ssd) (p : ppa) : res nand_lun := c ← get_ch s p; aget (ch_lun c) (g_lun p).
Definition get_pl (s : ssd) (p : ppa) : res nand_plane := l ← get_lun s p; aget (lun_pl l) (g_pl p).
Definition get_blk (s : ssd) (p : ppa) : res nand_block := l ← get_pl s p; aget (pl_blk l) (g_blk p).
Definition get_pg (s : ssd) (p : ppa) : res nand_page := b ← get_blk s p; aget (blk_pg b) (g_pg p).

Definition with_lun (c : ssd_channel) (l : list nand_lun) : ssd_channel :=
  mk_channel l (nluns c) (ch_gc_endtime c) (ch_perf_model c).
Definition with_pl (l : nand_lun) (x : list nand_plane) : nand_lun :=
  mk_lun x (npls l) (next_lun_avail_time l) (lun_busy l) (lun_gc_endtime l).
Definition with_blk (p : nand_plane) (x : list nand_block) : nand_plane :=
  mk_plane x (next_pln_avail_time p) (nblks p).
Definition with_pg (b : nand_block) (x : list nand_page) : nand_block :=
  mk_block x (npgs b) (blk_ipc b) (blk_vpc b) (erase_cnt b) (blk_wp b).

Definition mod_ch (s : ssd) (p : ppa) (f : ssd_channel -> res ssd_channel) : res ssd :=
  l ← amod (ssd_ch s) (g_ch p) f; Ok (mk_ssd (sp s) l).
Definition mod_lun (s : ssd) (p : ppa) (f : nand_lun -> res nand_lun) : res ssd :=
  mod_ch s p (fun c => l ← amod (ch_lun c) (g_lun p) f; Ok (with_lun c l)).
Definition mod_pl (s : ssd) (p : ppa) (f : nand_plane -> res nand_plane) : res ssd :=
  mod_lun s p (fun c => l ← amod (lun_pl c) (g_pl p) f; Ok (with_pl c l)).
Definition mod_blk (s : ssd) (p : ppa) (f : nand_block -> res nand_block) : res ssd :=
  mod_pl s p (fun c => l ← amod (pl_blk c) (g_blk p) f; Ok (with_blk c l)).
Definition mod_pg (s : ssd) (p : ppa) (f : nand_page -> res nand_page) : res ssd :=
  mod_blk s p (fun c => l ← amod (blk_pg c) (g_pg p) f; Ok (with_pg c l)).

(** [(ppa->g.pg / pgs_per_flashpg) % cell_mode]. *)
Definition get_cell (s : ssd) (p : ppa) : res Z :=
  fp ← checked_div (g_pg p) (pgs_per_flashpg (sp s));
  checked_mod fp (cell_mode (sp s)).

(** ** The shared world

    [cpu_clock] is a parameter; [w_tick] counts the calls made to it.
    [w_ops] is the queue of internal operations handed to the workers by
    [schedule_internal_operation]. *)
Inductive buf_ref : Set := WriteBuffer | ZoneWriteBuffer (zid : Z) | ZrwaBuffer (zid : Z) | NullBuffer.

Record internal_op := mk_iop {
  iop_sqid : Z;
  iop_nsecs_target : Z;
  iop_write_buffer : buf_ref;
  iop_buffs_to_release : Z;
}.

Record world := mk_world {
  w_tick : nat;
  w_pcie : channel_model;
  w_write_buffer : buffer;
  w_ops : list internal_op;
}.

Definition set_pcie (m : channel_model) (w : world) : world :=
  mk_world (w_tick w) m (w_write_buffer w) (w_ops w).
Definition set_write_buffer (b : buffer) (w : world) : world :=
  mk_world (w_tick w) (w_pcie w) b (w_ops w).
Definition tick (w : world) : world :=
  mk_world (S (w_tick w)) (w_pcie w) (w_write_buffer w) (w_ops w).

Definition schedule_internal_operation (sqid nsecs_target : Z) (wb : buf_ref) (n : Z) : prog world unit :=
  modify (fun w => mk_world (w_tick w) (w_pcie w) (w_write_buffer w)
                     (w_ops w ++ [mk_iop sqid nsecs_target wb n])).

(** [buffer_allocate(ssd->write_buffer, size)]. *)
Definition wb_allocate (size : Z) : prog world Z :=
  b ← gets w_write_buffer;
  '(b, n) ← lift (buffer_allocate b size);
  _ ← modify (set_write_buffer b);
  mret n.

(** A [READ] whose length is zero leaves [completed_time] unassigned. *)
Definition assigned {A} (x : option A) : res A :=
  match x with Some a => Ok a | None => Bug Uninit end.

Section Time.
Variable cpu_clock : nat -> Z.

Definition __get_ioclock : prog world Z :=
  t ← gets w_tick; _ ← modify tick; mret (cpu_clock t).

(** [chmodel_request(perf_model, request_time, length)] reads the clock. *)
Definition request_link (m : channel_model) (request_time length : Z) : prog world (channel_model * Z) :=
  now ← __get_ioclock; lift (chmodel_request m now request_time length).

Definition ssd_advance_pcie (request_time length : Z) : prog world Z :=
  m ← gets w_pcie;
  '(m, t) ← request_link m request_time length;
  _ ← modify (set_pcie m);
  mret t.

Definition ssd_advance_write_buffer (s : ssd) (request_time length : Z) : prog world Z :=
  let nsecs_latest := u64 (request_time + fw_wbuf_lat0 (sp s)) in
  let nsecs_latest :=
    u64 (nsecs_latest + u64 (fw_wbuf_lat1 (sp s) * (u64 (length + KB 4 - 1) / KB 4))) in
  ssd_advance_pcie nsecs_latest length.

(** The [while (remaining)] of [NAND_READ].  [completed_time] and [chnl_etime]
    have no value before the first turn. *)
Fixpoint read_loop (fuel : nat) (spp : ssdparams) (interleave : bool) (m : channel_model)
  (remaining chnl_stime : Z) (chnl_etime completed_time : option Z)
  : prog world (channel_model * option Z * option Z) :=
  if remaining =? 0 then mret (m, chnl_etime, completed_time) else
  match fuel with
  | O => lift (Bug NoFuel)
  | S fuel =>
    let xfer_size := Z.min remaining (u64 (max_ch_xfer_size spp)) in
    '(m, chnl_etime) ← request_link m chnl_stime xfer_size;
    completed_time ←
      (if interleave then ssd_advance_pcie chnl_etime xfer_size else mret chnl_etime);
    read_loop fuel spp interleave m (remaining - xfer_size) chnl_etime
      (Some chnl_etime) (Some completed_time)
  end.

Definition with_avail_time (t : Z) (l : nand_lun) : res nand_lun :=
  Ok (mk_lun (lun_pl l) (npls l) t (lun_busy l) (lun_gc_endtime l)).
Definition with_perf_model (m : channel_model) (c : ssd_channel) : res ssd_channel :=
  Ok (mk_channel (ch_lun c) (nluns c) (ch_gc_endtime c) m).

(** Every turn of the loop but the last moves [max_ch_xfer_size] bytes. *)
Definition read_fuel (spp : ssdparams) (xfer_size : Z) : nat :=
  Z.to_nat (DIV_ROUND_UP xfer_size (max_ch_xfer_size spp)).

Definition ssd_advance_nand (s : ssd) (ncmd : nand_cmd) : prog world (ssd * Z) :=
  cmd_stime ← (if nc_stime ncmd =? 0 then __get_ioclock else mret (nc_stime ncmd));
  let p := nc_ppa ncmd in
  if bool_decide (p = UNMAPPED_PPA) then mret (s, cmd_stime) else
  let spp := sp s in
  lun ← lift (get_lun s p);
  ch ← lift (get_ch s p);
  cell ← lift (get_cell s p);
  let stime := Z.max (next_lun_avail_time lun) cmd_stime in
  match nc_cmd ncmd with
  | NAND_READ =>
      lat ← lift (aget (if nc_xfer_size ncmd =? 4096 then pg_4kb_rd_lat spp else pg_rd_lat spp) cell);
      let nand_etime := u64 (stime + lat) in
      '(m, chnl_etime, completed_time) ←
        read_loop (read_fuel spp (nc_xfer_size ncmd)) spp (nc_interleave_pci_dma ncmd)
          (ch_perf_model ch) (nc_xfer_size ncmd) nand_etime None None;
      s ← lift (mod_ch s p (with_perf_model m));
      chnl_etime ← lift (assigned chnl_etime);
      completed_time ← lift (assigned completed_time);
      s ← lift (mod_lun s p (with_avail_time chnl_etime));
      mret (s, completed_time)
  | NAND_WRITE =>
      '(m, chnl_etime) ← request_link (ch_perf_model ch) stime (nc_xfer_size ncmd);
      s ← lift (mod_ch s p (with_perf_model m));
      let nand_etime := u64 (chnl_etime + pg_wr_lat spp) in
      s ← lift (mod_lun s p (with_avail_time nand_etime));
      mret (s, nand_etime)
  | NAND_ERASE =>
      let nand_etime := u64 (stime + blk_er_lat spp) in
      s ← lift (mod_lun s p (with_avail_time nand_etime));
      mret (s, nand_etime)
  | NAND_NOP =>
      s ← lift (mod_lun s p (with_avail_time stime));
      mret (s, stime)
  end.

Definition ssd_next_idle_time (s : ssd) : prog world Z :=
  latest ← __get_ioclock;
  lift (for_loop (Z.to_nat (nchs (sp s))) 0 (fun i latest =>
    ch ← aget (ssd_ch s) i;
    for_loop (Z.to_nat (luns_per_ch (sp s))) 0 (fun j latest =>
      l ← aget (ch_lun ch) j;
      Ok (Z.max latest (next_lun_avail_time l))) latest) latest).
End Time.

(** ** Well-formed devices *)
Definition page_wf (spp : ssdparams) (p : nand_page) : Prop := nsecs p = secs_per_pg spp.

Definition blk_wf (spp : ssdparams) (b : nand_block) : Prop :=
  arr (pgs_per_blk spp) (page_wf spp) (blk_pg b) /\ npgs b = pgs_per_blk spp.

Definition plane_wf (spp : ssdparams) (p : nand_plane) : Prop :=
  arr (blks_per_pl spp) (blk_wf spp) (pl_blk p).

Definition lun_wf (spp : ssdparams) (l : nand_lun) : Prop :=
  arr (pls_per_lun spp) (plane_wf spp) (lun_pl l) /\ 0 ≤ next_lun_avail_time l ≤ U64_MAX.

Definition channel_wf (spp : ssdparams) (c : ssd_channel) : Prop :=
  arr (luns_per_ch spp) (lun_wf spp) (ch_lun c) /\ ch_ok (ch_perf_model c).

(** What the rest of the device needs of its parameters. *)
Record params_ok (spp : ssdparams) : Prop := {
  po_pgsz : pgsz spp = 4096;
  po_secs : 0 < secs_per_pg spp;
  po_flash : 0 < pgs_per_flashpg spp;
  po_oneshot : 0 < pgs_per_oneshotpg spp;
  po_flash_blk : pgs_per_blk spp = pgs_per_flashpg spp * flashpgs_per_blk spp;
  po_oneshot_blk : pgs_per_blk spp = pgs_per_oneshotpg spp * oneshotpgs_per_blk spp;
  po_pgs : 0 < pgs_per_blk spp ≤ 65535;
  po_blks : 0 < blks_per_pl spp ≤ 65535;
  po_pls : 0 < pls_per_lun spp ≤ 255;
  po_luns : 0 < luns_per_ch spp ≤ 255;
  po_chs : 0 < nchs spp ≤ 255;
  po_cell : 0 < cell_mode spp ≤ 3;
  po_lat4k : arr 3 (fun x => 0 ≤ x ≤ U32_MAX) (pg_4kb_rd_lat spp);
  po_lat : arr 3 (fun x => 0 ≤ x ≤ U32_MAX) (pg_rd_lat spp);
  po_wr : 0 ≤ pg_wr_lat spp ≤ U32_MAX;
  po_er : 0 ≤ blk_er_lat spp ≤ U32_MAX;
  po_xfer : 0 < max_ch_xfer_size spp ≤ U32_MAX;
  po_tt_pgs : tt_pgs spp = nchs spp * pgs_per_ch spp;
  po_pgs_per_ch : pgs_per_ch spp = luns_per_ch spp * pgs_per_lun spp;
  po_pgs_per_lun : pgs_per_lun spp = pls_per_lun spp * pgs_per_pl spp;
  po_pgs_per_pl : pgs_per_pl spp = blks_per_pl spp * pgs_per_blk spp;
  po_tt_lines : tt_lines spp = blks_per_pl spp * pls_per_lun spp;
  po_tt_luns : tt_luns spp = luns_per_ch spp * nchs spp;
  po_pgs_per_line : pgs_per_line spp = tt_luns spp * pgs_per_blk spp;
}.

Lemma oneshot_le_blk spp : params_ok spp -> pgs_per_oneshotpg spp ≤ pgs_per_blk spp.
Proof.
  intros Hp. pose proof (po_oneshot_blk _ Hp). pose proof (po_oneshot _ Hp). pose proof (po_pgs _ Hp).
  assert (0 < oneshotpgs_per_blk spp) by (apply (Z.mul_pos_cancel_l (pgs_per_oneshotpg spp)); lia).
  nia.
Qed.

Record ssd_wf (s : ssd) : Prop := {
  sw_params : params_ok (sp s);
  sw_ch : arr (nchs (sp s)) (channel_wf (sp s)) (ssd_ch s);
}.

(** The address lies inside the device. *)
Definition ppa_in (spp : ssdparams) (p : ppa) : Prop :=
  0 ≤ g_ch p < nchs spp /\ 0 ≤ g_lun p < luns_per_ch spp /\ 0 ≤ g_pl p < pls_per_lun spp /\
  0 ≤ g_blk p < blks_per_pl spp /\ 0 ≤ g_pg p < pgs_per_blk spp.

Definition world_ok (w : world) : Prop := ch_ok (w_pcie w).

(** ** Access *)
Section Access.
Context (s : ssd) (Hs : ssd_wf s).

Lemma get_ch_ok p : 0 ≤ g_ch p < nchs (sp s) -> exists c, get_ch s p = Ok c /\ channel_wf (sp s) c.
Proof. apply arr_get, (sw_ch s Hs). Qed.

Lemma get_lun_ok p :
  0 ≤ g_ch p < nchs (sp s) -> 0 ≤ g_lun p < luns_per_ch (sp s) ->
  exists l, get_lun s p = Ok l /\ lun_wf (sp s) l.
Proof.
  intros Hc Hl. destruct (get_ch_ok p Hc) as (c & Hg & [Hw _]). unfold get_lun. rewrite Hg.
  by apply (arr_get _ _ _ _ Hw).
Qed.

Lemma get_pl_ok p : ppa_in (sp s) p -> exists l, get_pl s p = Ok l /\ plane_wf (sp s) l.
Proof.
  intros (Hc & Hl & Hp & _). destruct (get_lun_ok p Hc Hl) as (l & Hg & [Hw _]).
  unfold get_pl. rewrite Hg. by apply (arr_get _ _ _ _ Hw).
Qed.

Lemma get_blk_ok p : ppa_in (sp s) p -> exists b, get_blk s p = Ok b /\ blk_wf (sp s) b.
Proof.
  intros Hin. destruct (get_pl_ok p Hin) as (l & Hg & Hw). destruct Hin as (_ & _ & _ & Hb & _).
  unfold get_blk. rewrite Hg. by apply (arr_get _ _ _ _ Hw).
Qed.

Lemma get_pg_ok p : ppa_in (sp s) p -> exists g, get_pg s p = Ok g /\ page_wf (sp s) g.
Proof.
  intros Hin. destruct (get_blk_ok p Hin) as (l & Hg & Hw & _). destruct Hin as (_ & _ & _ & _ & Hb).
  unfold get_pg. rewrite Hg. by apply (arr_get _ _ _ _ Hw).
Qed.

Lemma get_cell_ok p : 0 ≤ g_pg p -> returns (get_cell s p) (fun c => 0 ≤ c < 3).
Proof.
  intros Hg. pose proof (sw_params s Hs) as Hp. unfold get_cell.
  apply returns_bind, returns_checked_div; [destruct Hp; lia|].
  apply returns_checked_mod; [destruct Hp; lia|].
  pose proof (Z.mod_pos_bound (g_pg p / pgs_per_flashpg (sp s)) (cell_mode (sp s))).
  destruct Hp. lia.
Qed.
End Access.

(** The cell time of a command: sensing, programming or erasing. *)
Definition nand_latency (s : ssd) (ncmd : nand_cmd) : res Z :=
  match nc_cmd ncmd with
  | NAND_READ =>
      cell ← get_cell s (nc_ppa ncmd);
      aget (if nc_xfer_size ncmd =? 4096 then pg_4kb_rd_lat (sp s) else pg_rd_lat (sp s)) cell
  | NAND_WRITE => Ok (pg_wr_lat (sp s))
  | NAND_ERASE => Ok (blk_er_lat (sp s))
  | NAND_NOP => Ok 0
  end.

(** ** Time-only updates

    Advancing the device changes a link, the clock and one LUN's
    [next_lun_avail_time]; pages, blocks and planes are untouched. *)
Definition lun_time (s : ssd) (p : ppa) : res Z := l ← get_lun s p; Ok (next_lun_avail_time l).

Record timed (s s' : ssd) : Prop := {
  tm_sp : sp s' = sp s;
  tm_wf : ssd_wf s';
  tm_pl q : get_pl s' q = get_pl s q;
}.

Lemma timed_refl s : ssd_wf s -> timed s s.
Proof. by split. Qed.

Lemma timed_trans s1 s2 s3 : timed s1 s2 -> timed s2 s3 -> timed s1 s3.
Proof.
  intros [Hp1 _ H1] [Hp2 Hw2 H2]. split; [congruence | done |].
  intros q. by rewrite H2, H1.
Qed.

Lemma timed_pg s s' q : timed s s' -> get_pg s' q = get_pg s q.
Proof. intros [_ _ H]. unfold get_pg, get_blk. by rewrite H. Qed.

Lemma timed_blk s s' q : timed s s' -> get_blk s' q = get_blk s q.
Proof. intros [_ _ H]. unfold get_blk. by rewrite H. Qed.

Lemma mod_perf_ok s p m :
  ssd_wf s -> 0 ≤ g_ch p < nchs (sp s) -> ch_ok m ->
  returns (mod_ch s p (with_perf_model m)) (fun s' =>
    timed s s' /\ forall q, lun_time s' q = lun_time s q).
Proof.
  intros Hs Hc Hm. pose proof (sw_ch s Hs) as Harr. unfold mod_ch.
  apply returns_bind, returns_amod; [destruct Harr; lia|]. intros c Hg. cbn.
  set (c' := mk_channel _ _ _ _). set (s' := mk_ssd _ _).
  assert (forall q, get_lun s' q = get_lun s q) as Hl.
  { intros q. unfold get_lun, get_ch, s'. cbn [ssd_ch]. rewrite aget_insert by (destruct Harr; lia).
    case_decide as E; [|done]. by rewrite <- E, Hg. }
  split; [|intros q; unfold lun_time; by rewrite Hl].
  split; [done | | intros q; unfold get_pl; by rewrite Hl].
  split; [apply Hs|]. apply arr_set; [done|]. split; [|done].
  apply (arr_aget _ _ _ _ _ Harr Hg).
Qed.

Lemma mod_avail_ok s p t :
  ssd_wf s -> 0 ≤ g_ch p < nchs (sp s) -> 0 ≤ g_lun p < luns_per_ch (sp s) -> 0 ≤ t ≤ U64_MAX ->
  returns (mod_lun s p (with_avail_time t)) (fun s' =>
    timed s s' /\ forall q, lun_time s' q =
      if decide (g_ch p = g_ch q /\ g_lun p = g_lun q) then Ok t else lun_time s q).
Proof.
  intros Hs Hc Hl Ht. pose proof (sw_ch s Hs) as Harr. unfold mod_lun, mod_ch.
  apply returns_bind, returns_amod; [destruct Harr; lia|]. intros c Hg.
  pose proof (arr_aget _ _ _ _ _ Harr Hg) as [Hlarr Hm].
  apply returns_bind, returns_amod; [destruct Hlarr; lia|]. intros l Hgl. cbn.
  pose proof (arr_aget _ _ _ _ _ Hlarr Hgl) as [Hpl _].
  set (l' := mk_lun _ _ _ _ _). set (s' := mk_ssd _ _).
  assert (forall q, get_lun s' q =
    if decide (g_ch p = g_ch q /\ g_lun p = g_lun q) then Ok l' else get_lun s q) as Hgq.
  { intros q. unfold get_lun, get_ch, s'. cbn [ssd_ch]. rewrite aget_insert by (destruct Harr; lia).
    case_decide as E; [|rewrite decide_False by tauto; done].
    cbn. rewrite aget_insert by (destruct Hlarr; lia). rewrite <- E, Hg. cbn.
    case_decide; [rewrite decide_True by tauto | rewrite decide_False by tauto]; done. }
  assert (get_lun s p = Ok l) as Hgp by (unfold get_lun, get_ch; rewrite Hg; done).
  split; [|intros q; unfold lun_time; rewrite Hgq; case_decide; done].
  split; [done | |].
  - split; [apply Hs|]. apply arr_set; [done|]. split; [|done]. by apply arr_set.
  - intros q. unfold get_pl. rewrite Hgq. case_decide as E; [|done]. cbn.
    assert (get_lun s q = Ok l) as ->; [|done].
    rewrite <- Hgp. unfold get_lun, get_ch. destruct E as [<- <-]. done.
Qed.

(** ** Advancing time *)

(** Two worlds that differ in the clock and the PCIe link only. *)
Definition same_bufs (w w' : world) : Prop :=
  w_write_buffer w' = w_write_buffer w /\ w_ops w' = w_ops w.

Lemma same_bufs_refl w : same_bufs w w.
Proof. by split. Qed.
Lemma same_bufs_trans w1 w2 w3 : same_bufs w1 w2 -> same_bufs w2 w3 -> same_bufs w1 w3.
Proof. intros [??] [??]. split; congruence. Qed.
#[export] Hint Resolve same_bufs_refl same_bufs_trans : nvmev.

Section TimeProofs.
Variable cpu_clock : nat -> Z.
Hypothesis clock_ok : forall n, 0 ≤ cpu_clock n < 2 ^ 62.

(** [t] is a time not before [t0], unless the 64-bit counter may wrap. *)
Definition later (slack t0 t : Z) : Prop :=
  0 ≤ t ≤ U64_MAX /\ (t0 + slack ≤ 2 ^ 63 -> t0 ≤ t ≤ t0 + slack).

Lemma get_ioclock_ok w :
  wp (__get_ioclock cpu_clock) (fun t w' => 0 ≤ t < 2 ^ 62 /\ w' = tick w) w.
Proof. split; [apply clock_ok | done]. Qed.

Lemma request_link_ok m t len w :
  ch_ok m -> 0 ≤ t ≤ U64_MAX ->
  wp (request_link cpu_clock m t len) (fun '(m', t') w' =>
    ch_ok m' /\ later CH_MAX_LATENCY t t' /\ w' = tick w) w.
Proof.
  intros Hm Ht. unfold request_link. apply wp_bind. eapply wp_mono; [apply get_ioclock_ok|].
  intros now w' [Hn ->]. apply wp_lift. eapply returns_mono; [apply chmodel_request_ok; auto with lia|].
  intros [m' t'] (Hok & _ & Hb & Hle). split; [done|]. split; [|done]. split; [done|].
  unfold CH_MAX_LATENCY in *. lia.
Qed.

Lemma ssd_advance_pcie_ok t len w :
  world_ok w -> 0 ≤ t ≤ U64_MAX ->
  wp (ssd_advance_pcie cpu_clock t len) (fun t' w' =>
    later CH_MAX_LATENCY t t' /\ world_ok w' /\ same_bufs w w') w.
Proof.
  intros Hw Ht. unfold ssd_advance_pcie. apply wp_bind, wp_gets, wp_bind.
  eapply wp_mono; [by apply request_link_ok|]. intros [m' t'] w' (Hm & Ht' & ->).
  apply wp_bind, wp_modify, wp_ret. split; [done|]. by split; [|split].
Qed.

Lemma ssd_advance_write_buffer_ok s t len w :
  world_ok w -> 0 ≤ t -> 0 ≤ len < 2 ^ 32 -> 0 ≤ fw_wbuf_lat0 (sp s) < 2 ^ 31 ->
  0 ≤ fw_wbuf_lat1 (sp s) < 2 ^ 31 ->
  wp (ssd_advance_write_buffer cpu_clock s t len) (fun t' w' =>
    later (2 ^ 53) t t' /\ world_ok w' /\ same_bufs w w') w.
Proof.
  intros Hw Ht Hlen H0 H1. unfold ssd_advance_write_buffer.
  eapply wp_mono; [apply ssd_advance_pcie_ok; [done | apply u64_range]|].
  intros t' w' ([Hb Hle] & Hw' & Hs). split; [|done]. split; [done|]. intros Hsl.
  revert Hle. unfold CH_MAX_LATENCY, KB. change (Z.shiftl 4 10) with 4096.
  rewrite (u64_small (len + 4096 - 1)) by (unfold U64_MAX; lia).
  assert (0 ≤ (len + 4096 - 1) / 4096 < 2 ^ 20 + 1) as Hd.
  { split; [apply Z.div_pos; lia | apply Z.div_lt_upper_bound; lia]. }
  set (d := (len + 4096 - 1) / 4096) in *.
  assert (0 ≤ fw_wbuf_lat1 (sp s) * d ≤ 2 ^ 31 * 2 ^ 20) by nia.
  rewrite (u64_small (t + _)) by (unfold U64_MAX; lia).
  rewrite (u64_small (_ * d)) by (unfold U64_MAX; lia).
  rewrite u64_small by (unfold U64_MAX; lia). lia.
Qed.

(** The read loop ends within [fuel] turns of [max_ch_xfer_size] bytes, and
    sets both times when there is something to transfer. *)
Lemma read_loop_ok spp inter fuel m rem t ce ct w :
  0 < max_ch_xfer_size spp ≤ U32_MAX -> ch_ok m -> world_ok w -> 0 ≤ t ≤ U64_MAX ->
  0 ≤ rem ≤ Z.of_nat fuel * max_ch_xfer_size spp ->
  wp (read_loop cpu_clock fuel spp inter m rem t ce ct) (fun '(m', ce', ct') w' =>
    ch_ok m' /\ world_ok w' /\ same_bufs w w' /\
    (if decide (rem = 0) then ce' = ce /\ ct' = ct else
      exists x y, ce' = Some x /\ ct' = Some y /\
        later (2 * CH_MAX_LATENCY * Z.of_nat fuel) t x /\ later (2 * CH_MAX_LATENCY * Z.of_nat fuel) t y /\
        (t + 2 * CH_MAX_LATENCY * Z.of_nat fuel ≤ 2 ^ 63 -> x ≤ y))) w.
Proof.
  revert m rem t ce ct w. induction fuel as [|fuel IH]; intros m rem t ce ct w Hx Hm Hw Ht Hr;
    cbn [read_loop].
  { rewrite (proj2 (Z.eqb_eq _ _)) by lia. apply wp_ret. cbv beta iota. rewrite decide_True by lia. auto with nvmev. }
  destruct (Z.eqb_spec rem 0) as [->|Hne].
  { apply wp_ret. cbv beta iota. rewrite decide_True by lia. auto with nvmev. }
  rewrite u64_small by (unfold U32_MAX, U64_MAX in *; lia).
  apply wp_bind. eapply wp_mono; [by apply request_link_ok|]. intros [m1 t1] w1 (Hm1 & Ht1 & ->).
  apply wp_bind. apply (wp_mono _ (fun y w2 => world_ok w2 /\ same_bufs w w2 /\
    later CH_MAX_LATENCY t1 y)).
  { destruct inter; [|apply wp_ret; unfold CH_MAX_LATENCY, later in *; split; [done|]; split; [by split | lia]].
    eapply wp_mono; [apply ssd_advance_pcie_ok; [done | apply Ht1]|].
    intros y w2 (? & ? & ?). auto. }
  intros y w2 (Hw2 & Hs2 & Hy).
  eapply wp_mono; [apply IH; try done; [apply Ht1 | lia]|].
  intros [[m' ce'] ct'] w' (Hm' & Hw' & Hs' & Hres).
  rewrite (decide_False (P := rem = 0)) by lia.
  split; [done|]. split; [done|]. split; [by eapply same_bufs_trans|].
  unfold later, CH_MAX_LATENCY in *.
  case_decide; [destruct Hres as [-> ->]; eauto 10 with lia|].
  destruct Hres as (x & z & -> & -> & ? & ? & ?). exists x, z. auto 10 with lia.
Qed.

(** What one NAND command does to the device: only the clock, the links and
    one LUN's time change; the LUN is busy until [tl], the command completes
    at [t]. *)
Definition advanced_to (s : ssd) (ncmd : nand_cmd) (w : world) (s' : ssd) (t : Z) (w' : world) : Prop :=
  timed s s' /\ world_ok w' /\ same_bufs w w' /\ 0 ≤ t ≤ U64_MAX /\
  exists a lat tl, lun_time s (nc_ppa ncmd) = Ok a /\ nand_latency s ncmd = Ok lat /\
    (forall q, lun_time s' q =
      if decide (g_ch (nc_ppa ncmd) = g_ch q /\ g_lun (nc_ppa ncmd) = g_lun q) then Ok tl
      else lun_time s q) /\
    (nc_stime ncmd <> 0 -> nc_stime ncmd ≤ 2 ^ 62 -> a ≤ 2 ^ 62 -> nc_xfer_size ncmd ≤ 2 ^ 26 ->
     Z.max a (nc_stime ncmd) + lat ≤ tl ≤ t).

Lemma ppa_in_mapped spp p : params_ok spp -> ppa_in spp p -> p <> UNMAPPED_PPA.
Proof. intros [] (_ & _ & _ & _ & Hg) ->. cbn in Hg. lia. Qed.

(** Every branch ends by storing the LUN's next time. *)
Lemma set_avail_ok s s1 ncmd w w2 a lat tl t :
  timed s s1 -> (forall q, lun_time s1 q = lun_time s q) ->
  ppa_in (sp s) (nc_ppa ncmd) -> world_ok w2 -> same_bufs w w2 ->
  0 ≤ tl ≤ U64_MAX -> 0 ≤ t ≤ U64_MAX ->
  lun_time s (nc_ppa ncmd) = Ok a -> nand_latency s ncmd = Ok lat ->
  (nc_stime ncmd <> 0 -> nc_stime ncmd ≤ 2 ^ 62 -> a ≤ 2 ^ 62 -> nc_xfer_size ncmd ≤ 2 ^ 26 ->
   Z.max a (nc_stime ncmd) + lat ≤ tl ≤ t) ->
  wp (s' ← lift (mod_lun s1 (nc_ppa ncmd) (with_avail_time tl)); mret (s', t))
    (fun '(s', t) w' => advanced_to s ncmd w s' t w') w2.
Proof.
  intros Ht Hlt (Hc & Hl & _) Hw Hb Htl Htt Ha Hlat Hle.
  apply wp_bind, wp_lift. eapply returns_mono.
  { apply mod_avail_ok; [apply Ht | by rewrite (tm_sp _ _ Ht).. | done]. }
  intros s' [Ht' Hq]. apply wp_ret. split; [by eapply timed_trans|].
  split; [done|]. split; [done|]. split; [done|]. exists a, lat, tl.
  split; [done|]. split; [done|]. split; [|done]. intros q. rewrite Hq. by case_decide.
Qed.

Lemma ssd_advance_nand_ok s ncmd w :
  ssd_wf s -> world_ok w -> ppa_in (sp s) (nc_ppa ncmd) ->
  0 ≤ nc_stime ncmd ≤ U64_MAX -> 0 ≤ nc_xfer_size ncmd ->
  (nc_cmd ncmd = NAND_READ -> 0 < nc_xfer_size ncmd) ->
  wp (ssd_advance_nand cpu_clock s ncmd) (fun '(s', t) w' => advanced_to s ncmd w s' t w') w.
Proof.
  intros Hs Hw Hin Hst Hx0 Hx. pose proof (sw_params s Hs) as Hp.
  unfold ssd_advance_nand. apply wp_bind.
  apply (wp_mono _ (fun st w1 => world_ok w1 /\ same_bufs w w1 /\ 0 ≤ st ≤ U64_MAX /\
    (nc_stime ncmd <> 0 -> st = nc_stime ncmd))).
  { destruct (Z.eqb_spec (nc_stime ncmd) 0) as [E|E].
    - eapply wp_mono; [apply get_ioclock_ok|]. intros st w1 [Hb ->]. unfold U64_MAX.
      split; [done|]. split; [by split|]. split; [lia|]. lia.
    - apply wp_ret. auto with nvmev. }
  intros st w1 (Hw1 & Hb1 & Hst1 & Hste).
  rewrite bool_decide_false by (by eapply ppa_in_mapped).
  pose proof Hin as (Hc & Hl & _ & _ & Hg).
  destruct (get_lun_ok s Hs _ Hc Hl) as (lun & Hlun & Hlw).
  destruct (get_ch_ok s Hs _ Hc) as (ch & Hch & _ & Hm).
  destruct (proj1 (returns_iff _ _) (get_cell_ok s Hs (nc_ppa ncmd) ltac:(lia))) as (cell & Hcell & Hcb).
  wp_ok Hlun. wp_ok Hch. wp_ok Hcell.
  assert (lun_time s (nc_ppa ncmd) = Ok (next_lun_avail_time lun)) as Ha
    by (unfold lun_time; by rewrite Hlun).
  destruct Hlw as [_ Hav]. set (a := next_lun_avail_time lun) in *.
  pose proof (set_avail_ok s s ncmd w w1 a) as Hfin.
  destruct (nc_cmd ncmd) eqn:Hcmd.
  - assert (arr 3 (fun x => 0 ≤ x ≤ U32_MAX)
      (if nc_xfer_size ncmd =? 4096 then pg_4kb_rd_lat (sp s) else pg_rd_lat (sp s))) as Hlats
      by (destruct Hp; by case_match).
    destruct (arr_get _ _ _ _ Hlats Hcb) as (lat & Hlat & Hlb). wp_ok Hlat.
    apply wp_bind. eapply wp_mono; [apply read_loop_ok; [apply Hp | done | done | apply u64_range |]|].
    { unfold read_fuel. pose proof (DIV_ROUND_UP_spec (nc_xfer_size ncmd) (max_ch_xfer_size (sp s))).
      pose proof (DIV_ROUND_UP_nonneg (nc_xfer_size ncmd) (max_ch_xfer_size (sp s))).
      destruct Hp. rewrite Z2Nat.id by lia. lia. }
    intros [[m ce] ct] w2 (Hm2 & Hw2 & Hb2 & Hres).
    rewrite decide_False in Hres by (specialize (Hx eq_refl); lia).
    destruct Hres as (x & y & -> & -> & Hlx & Hly & Hxy).
    apply wp_bind, wp_lift. eapply returns_mono; [by apply mod_perf_ok|].
    intros s1 [Ht1 Hq1].
    apply (wp_lift_Ok _ x); [done|]. apply (wp_lift_Ok _ y); [done|].
    apply (set_avail_ok s s1 ncmd w w2 a lat x y Ht1 Hq1 Hin Hw2
      (same_bufs_trans _ _ _ Hb1 Hb2) (proj1 Hlx) (proj1 Hly) Ha).
    { unfold nand_latency. rewrite Hcmd, Hcell. exact Hlat. }
    intros Hn H1 H2 H3. rewrite (Hste Hn) in *. unfold later, CH_MAX_LATENCY in *.
    rewrite u64_small in * by (unfold U64_MAX, U32_MAX in *; lia).
    assert (Z.of_nat (read_fuel (sp s) (nc_xfer_size ncmd)) ≤ 2 ^ 26) as Hfu.
    { specialize (Hx eq_refl). pose proof (po_xfer _ Hp) as Hpx. unfold read_fuel.
      pose proof (DIV_ROUND_UP_le (nc_xfer_size ncmd) (max_ch_xfer_size (sp s)) Hx (proj1 Hpx)).
      pose proof (DIV_ROUND_UP_nonneg (nc_xfer_size ncmd) (max_ch_xfer_size (sp s)) Hx0 (proj1 Hpx)).
      rewrite Z2Nat.id by done. lia. }
    unfold U32_MAX in *. lia.
  - apply wp_bind. eapply wp_mono; [apply request_link_ok; [done | lia]|].
    intros [m ce] w2 (Hm2 & Hce & ->).
    apply wp_bind, wp_lift. eapply returns_mono; [by apply mod_perf_ok|].
    intros s1 [Ht1 Hq1].
    apply (set_avail_ok s s1 ncmd w (tick w1) a (pg_wr_lat (sp s)) _ _ Ht1 Hq1 Hin Hw1 Hb1
      (u64_range _) (u64_range _) Ha).
    { unfold nand_latency. by rewrite Hcmd. }
    intros Hn H1 H2 H3. rewrite (Hste Hn) in *. unfold later, CH_MAX_LATENCY in *.
    destruct Hp. unfold U32_MAX in *. rewrite u64_small by (unfold U64_MAX; lia). lia.
  - apply (Hfin (blk_er_lat (sp s)) _ _ (timed_refl s Hs) (fun _ => eq_refl) Hin Hw1 Hb1
      (u64_range _) (u64_range _) Ha).
    { unfold nand_latency. by rewrite Hcmd. }
    intros Hn H1 H2 H3. rewrite (Hste Hn) in *.
    destruct Hp. unfold U32_MAX in *. rewrite u64_small by (unfold U64_MAX; lia). lia.
  - assert (0 ≤ a `max` st ≤ U64_MAX) as Hmax by lia.
    apply (Hfin 0 _ _ (timed_refl s Hs) (fun _ => eq_refl) Hin Hw1 Hb1 Hmax Hmax Ha).
    { unfold nand_latency. by rewrite Hcmd. }
    intros Hn H1 H2 H3. rewrite (Hste Hn) in *. lia.
Qed.
End TimeProofs.

(** ** Geometry *)

(** A configuration block the firmware can be built with. *)
Record config_ok (cfg : ssd_config) : Prop := {
  co_lba : LBA_BITS cfg = 9;
  co_pages : exists f k, 0 < f /\ 0 < k /\ f * k ≤ 65535 /\
    FLASH_PAGE_SIZE cfg = 4096 * f /\ ONESHOT_PAGE_SIZE cfg = 4096 * f * k;
  co_pls : 0 < PLNS_PER_LUN cfg ≤ 4;
  co_luns : 0 < LUNS_PER_NAND_CH cfg ≤ 255;
  co_cell : 0 < cell_mode_Z (CELL_MODE cfg) ≤ 3;
  co_lat4k : arr 3 (fun x => 0 ≤ x ≤ U32_MAX) (NAND_4KB_READ_LATENCY cfg);
  co_lat : arr 3 (fun x => 0 ≤ x ≤ U32_MAX) (NAND_READ_LATENCY cfg);
  co_wr : 0 ≤ NAND_PROG_LATENCY cfg ≤ U32_MAX;
  co_er : 0 ≤ NAND_ERASE_LATENCY cfg ≤ U32_MAX;
  co_xfer : 0 < MAX_CH_XFER_SIZE cfg ≤ U32_MAX;
}.

Lemma shipped_configs_ok cfg : cfg ∈ [SAMSUNG_970PRO; ZNS_PROTOTYPE; WD_ZN540] -> config_ok cfg.
Proof.
  intros H. repeat (apply elem_of_cons in H as [-> | H]); [..|by apply not_elem_of_nil in H].
  all: split; try done; try (split; [done|]; repeat constructor; done).
  - by exists 8, 1.
  - by exists 16, 2.
  - by exists 8, 3.
Qed.

(** The pages of a block: whole one-shot pages covering [blk_size] bytes. *)
Definition pages_of_blk (cfg : ssd_config) (blk_size : Z) : Z :=
  ONESHOT_PAGE_SIZE cfg / 4096 * DIV_ROUND_UP blk_size (ONESHOT_PAGE_SIZE cfg).

Lemma pages_of_blk_cover cfg blk_size :
  config_ok cfg -> blk_size ≤ pages_of_blk cfg blk_size * 4096 < blk_size + ONESHOT_PAGE_SIZE cfg.
Proof.
  intros [_ (f & k & Hf & Hk & _ & _ & HO) _ _ _ _ _ _ _ _]. unfold pages_of_blk.
  assert (ONESHOT_PAGE_SIZE cfg / 4096 = f * k) as E.
  { rewrite HO. replace (4096 * f * k) with (f * k * 4096) by lia. apply Z.div_mul. lia. }
  rewrite E. assert (0 < f * k) by nia.
  pose proof (DIV_ROUND_UP_spec blk_size (ONESHOT_PAGE_SIZE cfg)).
  set (D := DIV_ROUND_UP _ _) in *. rewrite HO in *. lia.
Qed.

Lemma derived_params_ok cfg chs blk_size blks :
  config_ok cfg -> 0 < chs ≤ 255 -> 0 < blk_size -> 0 < blks ≤ 65535 ->
  pages_of_blk cfg blk_size ≤ 65535 -> pages_of_blk cfg blk_size * blks < 2 ^ 31 ->
  let spp := derived_params cfg chs blk_size blks in
  params_ok spp /\ pgs_per_blk spp = pages_of_blk cfg blk_size /\ blks_per_pl spp = blks /\
  nchs spp = chs /\ pls_per_lun spp = PLNS_PER_LUN cfg /\ luns_per_ch spp = LUNS_PER_NAND_CH cfg.
Proof.
  intros [Hlba (f & k & Hf & Hk & Hfk & HF & HO) Hpl Hlu Hce H4 Hl Hw He Hx] Hc Hb Hn Hpg Hpn spp.
  assert (LBA_SIZE cfg = 512) as HL by (unfold LBA_SIZE; by rewrite Hlba).
  unfold pages_of_blk in *. set (D := DIV_ROUND_UP blk_size (ONESHOT_PAGE_SIZE cfg)) in *.
  assert (0 < f * k) as Hfk0 by nia.
  assert (0 < D) as HD by (apply DIV_ROUND_UP_pos; lia).
  assert (ONESHOT_PAGE_SIZE cfg / 4096 = f * k) as EO.
  { rewrite HO. replace (4096 * f * k) with (f * k * 4096) by lia. apply Z.div_mul. lia. }
  assert (FLASH_PAGE_SIZE cfg / 4096 = f) as EF.
  { rewrite HF, Z.mul_comm. apply Z.div_mul. lia. }
  assert (ONESHOT_PAGE_SIZE cfg / FLASH_PAGE_SIZE cfg = k) as EK.
  { rewrite HO, HF, Z.mul_comm. apply Z.div_mul. nia. }
  rewrite EO in *. set (P := f * k * D) in *.
  assert (P = f * (k * D)) as HP by (unfold P; lia).
  assert (0 < k * D ≤ P) as HkD by nia. assert (0 < D ≤ P) as HDP by nia.
  assert (0 < P) as HP0 by lia.
  assert (0 < P * blks) as HPn by nia.
  assert (i32 D = D) as ED by (apply i32_small; lia).
  assert (i32 (f * k * D) = P) as EP by (apply i32_small; unfold P in *; lia).
  assert (u64 (i32 (P * blks)) = blks * P) as Epl.
  { rewrite i32_small by lia. rewrite u64_small by (unfold U64_MAX; lia). lia. }
  assert (0 < blks * P * PLNS_PER_LUN cfg ≤ 2 ^ 31 * 4) as Hb1 by nia.
  assert (0 < blks * P * PLNS_PER_LUN cfg * LUNS_PER_NAND_CH cfg ≤ 2 ^ 31 * 4 * 255) as Hb2 by nia.
  assert (0 < blks * P * PLNS_PER_LUN cfg * LUNS_PER_NAND_CH cfg * chs ≤ 2 ^ 31 * 4 * 255 * 255) as Hb3 by nia.
  assert (0 < LUNS_PER_NAND_CH cfg * chs ≤ 255 * 255) as Hb4 by nia.
  assert (0 < LUNS_PER_NAND_CH cfg * chs * P ≤ 255 * 255 * 65535) as Hb5 by nia.
  assert (0 < blks * PLNS_PER_LUN cfg ≤ 65535 * 4) as Hb6 by nia.
  split; [|unfold spp, derived_params; rewrite HL; change (i32 (512 * (4096 / 512))) with 4096;
    rewrite EO; fold D; rewrite ED; cbn; auto].
  unfold spp, derived_params. rewrite HL. change (i32 (512 * (4096 / 512))) with 4096.
  change (4096 / 512) with 8. fold D. rewrite EO, EF, EK, ED, EP.
  assert (u64 (blks * P * PLNS_PER_LUN cfg) = PLNS_PER_LUN cfg * (blks * P)) as E1
    by (rewrite u64_small by (unfold U64_MAX; lia); lia).
  assert (u64 (PLNS_PER_LUN cfg * (blks * P) * LUNS_PER_NAND_CH cfg) =
    LUNS_PER_NAND_CH cfg * (PLNS_PER_LUN cfg * (blks * P))) as E2
    by (rewrite u64_small by (unfold U64_MAX; lia); lia).
  split; cbn; rewrite ?Epl, ?E1, ?E2; try done; try lia.
  - rewrite i32_small by lia. lia.
  - rewrite u64_small by (unfold U64_MAX; lia). lia.
  - rewrite i32_small by lia. apply u64_small. unfold U64_MAX. lia.
  - rewrite i32_small by lia. apply u64_small. unfold U64_MAX. lia.
  - rewrite (u64_small (i32 _)), i32_small by (rewrite ?i32_small; unfold U64_MAX; lia).
    apply u64_small. unfold U64_MAX. lia.
Qed.

Lemma ssd_init_params_sizes cfg capacity nparts chs blk_size blks :
  config_ok cfg -> partition_sizes cfg capacity nparts = Ok (chs, blk_size, blks) ->
  ssd_init_params cfg capacity nparts = Ok (derived_params cfg chs blk_size blks).
Proof.
  intros [Hlba (f & k & Hf & Hk & _ & HF & HO) _ _ _ _ _ _ _ _] E. unfold ssd_init_params.
  rewrite E. cbn [mbind res_bind]. unfold LBA_SIZE. rewrite Hlba.
  change (i32 (Z.shiftl 1 9 * (4096 / Z.shiftl 1 9))) with 4096. rewrite HF, HO.
  replace (4096 * f * k) with (f * k * 4096) by lia. rewrite Z.mod_mul by lia.
  replace (4096 * f) with (f * 4096) by lia. rewrite Z.mod_mul by lia.
  replace (f * k * 4096) with (k * (f * 4096)) by lia. rewrite Z.mod_mul by lia. done.
Qed.

(** The partition has room for its share of [capacity]: with [blks] blocks of
    at least [blk_size] bytes per plane. *)
Lemma tt_pgs_cover spp cap blk_size :
  params_ok spp -> blk_size ≤ pgs_per_blk spp * 4096 ->
  cap ≤ blk_size * (blks_per_pl spp * pls_per_lun spp * luns_per_ch spp * nchs spp) ->
  cap ≤ tt_pgs spp * pgsz spp.
Proof.
  intros Hp Hb Hcap. rewrite (po_tt_pgs _ Hp), (po_pgs_per_ch _ Hp), (po_pgs_per_lun _ Hp), (po_pgs_per_pl _ Hp), (po_pgsz _ Hp).
  set (N := blks_per_pl spp * pls_per_lun spp * luns_per_ch spp * nchs spp) in *.
  assert (0 ≤ N) by (unfold N; destruct Hp; nia).
  replace (nchs spp * (luns_per_ch spp * (pls_per_lun spp * (blks_per_pl spp * pgs_per_blk spp))) * 4096)
    with (pgs_per_blk spp * 4096 * N) by (unfold N; lia).
  nia.
Qed.

(** The sizes a partition is given: within the fields, and enough for its
    share of the capacity. *)
Definition sizes_fit cfg capacity : Prop := exists chs blk_size blks,
  partition_sizes cfg capacity (SSD_PARTITIONS cfg) = Ok (chs, blk_size, blks) /\
  chs * SSD_PARTITIONS cfg = NAND_CHANNELS cfg /\ 0 < chs ≤ 255 /\
  0 < blk_size /\ 0 < blks ≤ 65535 /\ pages_of_blk cfg blk_size ≤ 65535 /\
  pages_of_blk cfg blk_size * blks < 2 ^ 31 /\
  capacity / SSD_PARTITIONS cfg ≤ blk_size * (blks * PLNS_PER_LUN cfg * LUNS_PER_NAND_CH cfg * chs).

(** A fixed number of blocks: their size follows from the capacity. *)
Lemma samsung_sizes capacity : 2 ^ 20 ≤ capacity ≤ 2 ^ 43 -> sizes_fit SAMSUNG_970PRO capacity.
Proof.
  intros Hcap. set (c := capacity / 4). assert (2 ^ 18 ≤ c ≤ 2 ^ 41) as Hc.
  { unfold c. split; [apply Z.div_le_lower_bound; lia | apply Z.div_le_upper_bound; lia]. }
  exists 2, (DIV_ROUND_UP c 32768), 8192. unfold partition_sizes. cbn -[Z.div Z.modulo u64 DIV_ROUND_UP].
  change (8 / 4) with 2. change (i32 (8192 * 1 * 2 * 2)) with 32768. fold c.
  pose proof (DIV_ROUND_UP_spec c 32768 ltac:(lia)) as Hd.
  pose proof (pages_of_blk_cover SAMSUNG_970PRO (DIV_ROUND_UP c 32768)
    (shipped_configs_ok SAMSUNG_970PRO ltac:(by repeat constructor))) as Hpc.
  change (ONESHOT_PAGE_SIZE SAMSUNG_970PRO) with 32768 in Hpc.
  rewrite u64_small by (unfold U64_MAX; lia).
  repeat split; try lia.
Qed.

(** A fixed block size: the number of blocks follows from the capacity. *)
Lemma zns_prototype_sizes capacity : 2 ^ 20 ≤ capacity ≤ 2 ^ 43 -> sizes_fit ZNS_PROTOTYPE capacity.
Proof.
  intros Hcap. unfold sizes_fit. change (SSD_PARTITIONS ZNS_PROTOTYPE) with 1. rewrite Z.div_1_r.
  pose proof (DIV_ROUND_UP_spec capacity 4294967296 ltac:(lia)) as Hd.
  exists 8, 33554432, (DIV_ROUND_UP capacity 4294967296). unfold partition_sizes.
  change (0 <? BLKS_PER_PLN ZNS_PROTOTYPE) with false. cbn [negb].
  change (NAND_CHANNELS ZNS_PROTOTYPE) with 8. rewrite !Z.div_1_r.
  change (u64 (BLK_SIZE ZNS_PROTOTYPE * PLNS_PER_LUN ZNS_PROTOTYPE *
    LUNS_PER_NAND_CH ZNS_PROTOTYPE * 8)) with 4294967296.
  rewrite u64_small by (unfold U64_MAX; lia). fold (DIV_ROUND_UP capacity 4294967296).
  change (pages_of_blk ZNS_PROTOTYPE 33554432) with 8192. cbn -[Z.div Z.modulo u64 i32 DIV_ROUND_UP].
  fold (DIV_ROUND_UP capacity 4294967296).
  rewrite i32_small by lia. repeat split; try lia.
Qed.

Lemma zn540_sizes capacity : 2 ^ 20 ≤ capacity ≤ 2 ^ 43 -> sizes_fit WD_ZN540 capacity.
Proof.
  intros Hcap. unfold sizes_fit. change (SSD_PARTITIONS WD_ZN540) with 1. rewrite Z.div_1_r.
  pose proof (DIV_ROUND_UP_spec capacity 2147483648 ltac:(lia)) as Hd.
  exists 8, 67108864, (DIV_ROUND_UP capacity 2147483648). unfold partition_sizes.
  change (0 <? BLKS_PER_PLN WD_ZN540) with false. cbn [negb].
  change (NAND_CHANNELS WD_ZN540) with 8. rewrite !Z.div_1_r.
  change (u64 (BLK_SIZE WD_ZN540 * PLNS_PER_LUN WD_ZN540 *
    LUNS_PER_NAND_CH WD_ZN540 * 8)) with 2147483648.
  rewrite u64_small by (unfold U64_MAX; lia). fold (DIV_ROUND_UP capacity 2147483648).
  change (pages_of_blk WD_ZN540 67108864) with 16392. cbn -[Z.div Z.modulo u64 i32 DIV_ROUND_UP].
  fold (DIV_ROUND_UP capacity 2147483648).
  rewrite i32_small by lia. repeat split; try lia.
Qed.

Lemma shipped_sizes cfg capacity : cfg ∈ [SAMSUNG_970PRO; ZNS_PROTOTYPE; WD_ZN540] -> 2 ^ 20 ≤ capacity ≤ 2 ^ 43 -> sizes_fit cfg capacity.
Proof.
  intros Hcfg Hcap. repeat (apply elem_of_cons in Hcfg as [-> | Hcfg]); [..|by apply not_elem_of_nil in Hcfg].
  - by apply samsung_sizes.
  - by apply zns_prototype_sizes.
  - by apply zn540_sizes.
Qed.

(** C35. For every shipped device and any capacity up to 8 TiB, initialising the
    parameters trips no assertion and no 32-bit product overflows: the derived
    counts are the products of the geometry, every physical coordinate fits its
    bit field, and each partition has at least its share of the capacity. *)
Theorem ssd_init_params_geometry cfg capacity :
  cfg ∈ [SAMSUNG_970PRO; ZNS_PROTOTYPE; WD_ZN540] -> 2 ^ 20 ≤ capacity ≤ 2 ^ 43 ->
  exists spp, ssd_init_params cfg capacity (SSD_PARTITIONS cfg) = Ok spp /\ params_ok spp /\
    nchs spp * SSD_PARTITIONS cfg = NAND_CHANNELS cfg /\
    capacity / SSD_PARTITIONS cfg ≤ tt_pgs spp * pgsz spp.
Proof.
  intros Hcfg Hcap. pose proof (shipped_configs_ok _ Hcfg) as Hok.
  destruct (shipped_sizes cfg capacity Hcfg Hcap) as (chs & bs & blks & Hsz & Hch & Hch0 & Hbs & Hbl & Hpg & Hpn & Hcover).
  exists (derived_params cfg chs bs blks).
  destruct (derived_params_ok cfg chs bs blks) as (Hp & E1 & E2 & E3 & E4 & E5); try done.
  split; [by apply ssd_init_params_sizes|]. split; [done|]. split; [by rewrite E3|].
  apply (tt_pgs_cover _ _ bs); [done | |].
  - rewrite E1. apply pages_of_blk_cover. done.
  - by rewrite E2, E3, E4, E5.
Qed.

(** ** Addresses *)

(** Every field fits its width. *)
Definition ppa_fields_ok (p : ppa) : Prop :=
  0 ≤ g_pg p < 65536 /\ 0 ≤ g_blk p < 65536 /\ 0 ≤ g_pl p < 256 /\ 0 ≤ g_lun p < 256 /\
  0 ≤ g_ch p < 256 /\ 0 ≤ g_rsv p < 256.

Lemma ppa_ppa_eq p : ppa_ppa p = g_pg p + g_blk p * 65536 + g_pl p * 4294967296
  + g_lun p * 1099511627776 + g_ch p * 281474976710656 + g_rsv p * 72057594037927936.
Proof. unfold ppa_ppa. by rewrite !Z.shiftl_mul_pow2. Qed.

Lemma land_ones_mod x m n : m = Z.ones n -> 0 ≤ n -> Z.land x m = x mod 2 ^ n.
Proof. intros -> Hn. by apply Z.land_ones. Qed.

Lemma ppa_of_eq x : ppa_of x = mk_ppa (x mod 65536) (x / 65536 mod 65536) (x / 4294967296 mod 256)
  (x / 1099511627776 mod 256) (x / 281474976710656 mod 256) (x / 72057594037927936 mod 256).
Proof.
  unfold ppa_of. rewrite !Z.shiftr_div_pow2 by lia.
  by rewrite !(land_ones_mod _ 0xFFFF 16), !(land_ones_mod _ 0xFF 8).
Qed.

Lemma ppa_of_ppa_ok p : ppa_fields_ok p -> ppa_of (ppa_ppa p) = p.
Proof.
  intros (H1 & H2 & H3 & H4 & H5 & H6). rewrite ppa_of_eq, ppa_ppa_eq.
  destruct p as [pg blk pl lun ch rsv]; cbn in *. f_equal; Z.to_euclidean_division_equations; lia.
Qed.

Lemma ppa_ppa_of_ok x : 0 ≤ x ≤ U64_MAX -> ppa_ppa (ppa_of x) = x.
Proof.
  unfold U64_MAX. intros H. rewrite ppa_of_eq, ppa_ppa_eq. cbn.
  Z.to_euclidean_division_equations; lia.
Qed.

Lemma blk_in_ssd_eq p : ppa_fields_ok p ->
  blk_in_ssd p = g_blk p + g_pl p * 65536 + g_lun p * 16777216 + g_ch p * 4294967296.
Proof.
  intros (H1 & H2 & H3 & H4 & H5 & H6). unfold blk_in_ssd.
  rewrite Z.land_ones by lia. rewrite Z.shiftr_div_pow2 by lia. rewrite ppa_ppa_eq.
  change (2 ^ 16) with 65536. change (2 ^ 40) with 1099511627776.
  Z.to_euclidean_division_equations; lia.
Qed.

Lemma blk_in_ssd_inj p q : ppa_fields_ok p -> ppa_fields_ok q ->
  blk_in_ssd p = blk_in_ssd q <->
  g_blk p = g_blk q /\ g_pl p = g_pl q /\ g_lun p = g_lun q /\ g_ch p = g_ch q.
Proof.
  intros Hp Hq. rewrite !blk_in_ssd_eq by done.
  destruct Hp as (_ & ? & ? & ? & ? & _), Hq as (_ & ? & ? & ? & ? & _). lia.
Qed.

(** The two views of the address union agree: packing the bit fields into
    the 64-bit word and reading them back gives the address, and the word
    determines it; the block view [blk_in_ssd] is the same for two addresses
    exactly when they name the same block. *)
Theorem ppa_views_roundtrip p q :
  ppa_fields_ok p -> ppa_fields_ok q ->
  ppa_of (ppa_ppa p) = p /\
  (ppa_ppa p = ppa_ppa q <-> p = q) /\
  (blk_in_ssd p = blk_in_ssd q <->
   g_blk p = g_blk q /\ g_pl p = g_pl q /\ g_lun p = g_lun q /\ g_ch p = g_ch q).
Proof.
  intros Hp Hq. split; [by apply ppa_of_ppa_ok|]. split; [|by apply blk_in_ssd_inj].
  split; [|congruence]. intros E. rewrite <- (ppa_of_ppa_ok p), E by done. by apply ppa_of_ppa_ok.
Qed.

Lemma ppa_views_roundtrip_witness :
  ppa_of (ppa_ppa (mk_ppa 7 3 0 1 5 0)) = mk_ppa 7 3 0 1 5 0.
Proof.
  apply (ppa_views_roundtrip (mk_ppa 7 3 0 1 5 0) (mk_ppa 8 3 0 1 5 0));
    unfold ppa_fields_ok; cbn; lia.
Defined.

(** ** Write buffers *)
Definition buffer_wf (b : buffer) : Prop := 0 ≤ buf_remaining b ≤ buf_size b /\ buf_size b ≤ U32_MAX.

(** Nothing bounds what is given back: a buffer may hold more free bytes than
    its size. *)
Definition buffer_ok (b : buffer) : Prop := 0 ≤ buf_remaining b ≤ U64_MAX /\ buf_size b ≤ U32_MAX.

Lemma buffer_wf_ok b : buffer_wf b -> buffer_ok b.
Proof. unfold buffer_wf, buffer_ok, U32_MAX, U64_MAX. lia. Qed.

Lemma buffer_take_ok b n :
  buffer_ok b -> 0 ≤ n ≤ buf_size b ->
  returns (buffer_allocate b n) (fun '(b', m) =>
    buffer_ok b' /\ buf_size b' = buf_size b /\ buf_remaining b' = buf_remaining b - m /\
    m = if decide (n ≤ buf_remaining b) then n else 0).
Proof.
  intros [Hb Hs] Hn. unfold buffer_allocate. apply returns_bind, returns_assert; [apply Z.leb_le; lia|].
  cbn. unfold buffer_ok, U32_MAX in *.
  destruct (Z.ltb_spec (buf_remaining b) n); case_decide; try lia; cbn;
    rewrite u64_small by lia; rewrite u32_small by (unfold U32_MAX; lia); repeat split; try lia; done.
Qed.

Lemma buffer_give_ok b n : buffer_ok b -> buffer_ok (buffer_release b n).
Proof. intros [_ Hs]. split; [|done]. cbn. apply u64_range. Qed.

Lemma buffer_allocate_ok b n :
  buffer_wf b -> 0 ≤ n ≤ buf_size b ->
  returns (buffer_allocate b n) (fun '(b', m) =>
    buffer_wf b' /\ buf_size b' = buf_size b /\ buf_remaining b' = buf_remaining b - m /\
    m = if decide (n ≤ buf_remaining b) then n else 0).
Proof.
  intros Hwf Hn. eapply returns_mono; [by apply buffer_take_ok; [apply buffer_wf_ok|]|].
  intros [b' m] (_ & Es & Er & Em). split; [|done]. destruct Hwf. unfold buffer_wf. rewrite Es, Er, Em. case_decide; lia.
Qed.

Lemma buffer_release_ok b n :
  0 ≤ buf_remaining b -> 0 ≤ n -> buf_remaining b + n ≤ buf_size b -> buf_size b ≤ U32_MAX ->
  buffer_wf (buffer_release b n) /\ buf_remaining (buffer_release b n) = buf_remaining b + n.
Proof.
  intros. unfold buffer_release, buffer_wf, U32_MAX in *. cbn.
  rewrite u64_small by (unfold U64_MAX; lia). lia.
Qed.

(** A write buffer is never overdrawn: an allocation that fits the buffer
    either takes exactly the requested bytes or, when they are not free, takes
    nothing and reports 0; releasing what was taken restores the buffer. *)
Theorem buffer_allocate_release b n :
  buffer_wf b -> 0 ≤ n ≤ buf_size b ->
  exists b' m, buffer_allocate b n = Ok (b', m) /\ buffer_wf b' /\
    buf_remaining b' = buf_remaining b - m /\
    (n ≤ buf_remaining b /\ m = n \/ buf_remaining b < n /\ m = 0) /\
    buffer_release b' m = b.
Proof.
  intros Hb Hn. destruct (proj1 (returns_iff _ _) (buffer_allocate_ok b n Hb Hn))
    as ([b' m] & He & Hw & Hs & Hr & Hm). exists b', m. do 3 (split; [done|]).
  assert (n ≤ buf_remaining b /\ m = n \/ buf_remaining b < n /\ m = 0) as Hc
    by (case_decide; lia).
  split; [done|]. clear Hm. destruct Hb as [Hb1 Hb2].
  destruct (buffer_release_ok b' m) as [_ E]; [destruct Hw; lia | lia | lia | lia |].
  assert (buf_remaining (buffer_release b' m) = buf_remaining b) as Er by lia.
  destruct b as [sz rem]; unfold buffer_release in *; cbn in *. congruence.
Qed.

Lemma buffer_allocate_release_witness :
  exists b' m, buffer_allocate (buffer_init 8192) 4096 = Ok (b', m) /\ buffer_release b' m = buffer_init 8192.
Proof.
  destruct (buffer_allocate_release (buffer_init 8192) 4096) as (b' & m & H1 & _ & _ & _ & H2).
  - unfold buffer_wf, U32_MAX; cbn; lia.
  - cbn; lia.
  - exists b', m. split; [exact H1 | exact H2].
Defined.

(** ** The initial device *)
Lemma ch_ok_lat m lat : ch_ok m -> 0 ≤ lat ≤ U32_MAX ->
  ch_ok (mk_chmodel (cm_cur_time m) (cm_head m) (cm_valid_len m) (cm_max_credits m)
           (cm_command_credits m) lat (cm_avail_credits m)).
Proof. intros [] Hl. by split. Qed.

Definition link_bandwidth_ok (bw : Z) : Prop := 0 < BANDWIDTH_TO_MAX_CREDITS bw < 256.

Lemma ssd_init_ok spp s m b :
  params_ok spp -> link_bandwidth_ok (ch_bandwidth spp) -> link_bandwidth_ok (pcie_bandwidth spp) ->
  ssd_init spp = (s, m, b) ->
  ssd_wf s /\ sp s = spp /\ ch_ok m /\ b = mk_buffer (write_buffer_size spp) (write_buffer_size spp).
Proof.
  intros Hp Hc Hpc [= <- <- <-]. split; [|split; [done|]; split; [by apply max_credits_wf | done]].
  split; [done|]. pose proof (po_chs _ Hp). pose proof (po_luns _ Hp). pose proof (po_pls _ Hp).
  pose proof (po_blks _ Hp). pose proof (po_pgs _ Hp).
  apply arr_replicate; [cbn; lia|]. split.
  - apply arr_replicate; [lia|]. split; [|unfold U64_MAX; cbn; lia].
    apply arr_replicate; [lia|]. apply arr_replicate; [lia|].
    split; [|done]. apply arr_replicate; [lia|]. done.
  - apply ch_ok_lat; [by apply max_credits_wf | apply u32_range].
Qed.

(** Every page of a fresh device is free, every counter zero. *)
Lemma ssd_init_blk spp s m b p blk :
  ssd_init spp = (s, m, b) -> get_blk s p = Ok blk -> blk = ssd_init_nand_blk spp.
Proof.
  intros [= <- <- <-]. unfold get_blk, get_pl, get_lun, get_ch. intros H. res_inv.
  repeat match goal with
  | H : aget _ _ = Ok _ |- _ => apply aget_Ok in H; destruct H as [_ H]
  | H : replicate _ _ !! _ = Some _ |- _ => apply lookup_replicate_1 in H; destruct H as [-> _]
  | H : context [ch_lun (ssd_init_ch _)] |- _ => unfold ssd_init_ch in H; cbn in H
  | H : context [lun_pl (ssd_init_nand_lun _)] |- _ => unfold ssd_init_nand_lun in H; cbn in H
  | H : context [pl_blk (ssd_init_nand_plane _)] |- _ => unfold ssd_init_nand_plane in H; cbn in H
  | H : context [ssd_ch (mk_ssd _ _)] |- _ => cbn in H
  end.
  done.
Qed.

(** A NAND command on an address of the device always completes: a read's
    transfer loop ends, every index is in range and no time is used before it
    is set.  The command touches no page, block or plane, only the clock, the
    links and the next free time of its own LUN; that LUN starts the cell
    operation when it and the command are both ready, and the command completes
    no earlier than the cell latency after that nor before the LUN's new time. *)
Theorem nand_command_completes cpu_clock s ncmd w :
  (forall n, 0 ≤ cpu_clock n < 2 ^ 62) ->
  ssd_wf s -> world_ok w -> ppa_in (sp s) (nc_ppa ncmd) ->
  0 ≤ nc_stime ncmd ≤ U64_MAX -> 0 ≤ nc_xfer_size ncmd ->
  (nc_cmd ncmd = NAND_READ -> 0 < nc_xfer_size ncmd) ->
  exists s' t w', ssd_advance_nand cpu_clock s ncmd w = Ok ((s', t), w') /\
    advanced_to s ncmd w s' t w'.
Proof.
  intros Hk Hs Hw Hin Hst Hx0 Hx.
  destruct (proj1 (wp_iff _ _ _) (ssd_advance_nand_ok cpu_clock Hk s ncmd w Hs Hw Hin Hst Hx0 Hx))
    as ([s' t] & w' & He & Ha). exists s', t, w'. by split.
Qed.

(** ** A small device for the examples: 2 channels of 2 LUNs, 3 blocks of 4
    pages, 2 pages per flash page and per program unit. *)
Definition tiny_params : ssdparams :=
  mk_params 512 8 4096 2 2 2 2 4 3 1 2 2 2 512 true
    [100; 200; 0] [300; 400; 0] 1000 5000 4096 10 20 30 40 0 800 3360
    32 96 96 192 384 12 12 24 48 3 6 12 128 16 4 3 2 4 4 65536.

Lemma tiny_params_ok : params_ok tiny_params.
Proof. split; cbn; try lia; split; try done; repeat constructor; done. Qed.

Definition tiny_ssd : ssd := (ssd_init tiny_params).1.1.
Definition tiny_world : world :=
  mk_world 0 (ssd_init tiny_params).1.2 (ssd_init tiny_params).2 [].

Lemma tiny_bandwidth_ok : link_bandwidth_ok 800 /\ link_bandwidth_ok 3360.
Proof. split; split; vm_compute; done. Qed.

Lemma tiny_ssd_wf : ssd_wf tiny_ssd /\ world_ok tiny_world.
Proof.
  destruct (ssd_init_ok tiny_params tiny_ssd (w_pcie tiny_world) (w_write_buffer tiny_world))
    as (H1 & _ & H2 & _); [exact tiny_params_ok | apply tiny_bandwidth_ok.. | done | by split].
Qed.

Lemma nand_command_completes_witness :
  exists s' t w',
    ssd_advance_nand (fun _ => 1000) tiny_ssd
      (mk_ncmd USER_IO NAND_READ 8192 5000 true (mk_ppa 2 1 0 1 0 0)) tiny_world = Ok ((s', t), w') /\
    advanced_to tiny_ssd (mk_ncmd USER_IO NAND_READ 8192 5000 true (mk_ppa 2 1 0 1 0 0))
      tiny_world s' t w'.
Proof.
  apply (nand_command_completes (fun _ => 1000) tiny_ssd
    (mk_ncmd USER_IO NAND_READ 8192 5000 true (mk_ppa 2 1 0 1 0 0)) tiny_world).
  - lia.
  - apply tiny_ssd_wf.
  - apply tiny_ssd_wf.
  - unfold ppa_in; cbn; lia.
  - unfold U64_MAX; cbn; lia.
  - cbn; lia.
  - cbn; lia.
Defined.

Lemma ssd_init_params_geometry_witness :
  exists spp, ssd_init_params SAMSUNG_970PRO (2 ^ 36) 4 = Ok spp /\ params_ok spp.
Proof.
  destruct (ssd_init_params_geometry SAMSUNG_970PRO (2 ^ 36)) as (spp & H1 & H2 & _);
    [set_solver | lia | exists spp; split; [exact H1 | exact H2]].
Defined.
