(* ===== verification/ConvFtl.v ===== *)
(** * The conventional (page-mapping) FTL ([src/conv_ftl.h], [src/conv_ftl.c])

    A device is divided into [SSD_PARTITIONS] instances.  Each has a page
    mapping table and its reverse, two write pointers (host and GC) that walk
    a line (the same block of every LUN), the line lists and the victim queue,
    and the write credits that trigger foreground GC.  The instances share
    the PCIe link and the write buffer, which live in the [world]. *)
From S2P Require Import Prelude Nvme SsdConfig ChannelModel Ssd Pqueue LineTable.

Record convparams := mk_convparams {
  gc_thres_lines : Z;
  gc_thres_lines_high : Z;
  enable_gc_delay : bool;
  op_area_pcent : Z;
  pba_pcent : Z;
}.

(** [curline] is a pointer into the line table. *)
Record write_pointer := mk_wp {
  wp_curline : option Z;
  wp_ch : Z;
  wp_lun : Z;
  wp_pg : Z;
  wp_blk : Z;
  wp_pl : Z;
}.

Record line_mgmt := mk_lm {
  lm_lines : list line;
  lm_free_line_list : list Z;
  lm_victim_line_pq : pqueue_t Z;
  lm_full_line_list : list Z;
  lm_tt_lines : Z;
  lm_free_line_cnt : Z;
  lm_victim_line_cnt : Z;
  lm_full_line_cnt : Z;
}.

Record write_flow_control := mk_wfc { write_credits : Z; credits_to_refill : Z }.

Record conv_ftl := mk_conv {
  cv_ssd : ssd;
  cv_cp : convparams;
  cv_maptbl : list ppa;
  cv_rmap : list Z;
  cv_wp : write_pointer;
  cv_gc_wp : write_pointer;
  cv_lm : line_mgmt;
  cv_wfc : write_flow_control;
}.

(** ** Field updates *)
Definition with_ssd (c : conv_ftl) (s : ssd) : conv_ftl :=
  mk_conv s (cv_cp c) (cv_maptbl c) (cv_rmap c) (cv_wp c) (cv_gc_wp c) (cv_lm c) (cv_wfc c).
Definition with_maptbl (c : conv_ftl) (m : list ppa) : conv_ftl :=
  mk_conv (cv_ssd c) (cv_cp c) m (cv_rmap c) (cv_wp c) (cv_gc_wp c) (cv_lm c) (cv_wfc c).
Definition with_rmap (c : conv_ftl) (m : list Z) : conv_ftl :=
  mk_conv (cv_ssd c) (cv_cp c) (cv_maptbl c) m (cv_wp c) (cv_gc_wp c) (cv_lm c) (cv_wfc c).
Definition with_lm (c : conv_ftl) (m : line_mgmt) : conv_ftl :=
  mk_conv (cv_ssd c) (cv_cp c) (cv_maptbl c) (cv_rmap c) (cv_wp c) (cv_gc_wp c) m (cv_wfc c).
Definition with_wfc (c : conv_ftl) (f : write_flow_control) : conv_ftl :=
  mk_conv (cv_ssd c) (cv_cp c) (cv_maptbl c) (cv_rmap c) (cv_wp c) (cv_gc_wp c) (cv_lm c) f.

Definition lm_with_lines (m : line_mgmt) (l : list line) : line_mgmt :=
  mk_lm l (lm_free_line_list m) (lm_victim_line_pq m) (lm_full_line_list m) (lm_tt_lines m)
    (lm_free_line_cnt m) (lm_victim_line_cnt m) (lm_full_line_cnt m).
Definition lm_with_free (m : line_mgmt) (l : list Z) (n : Z) : line_mgmt :=
  mk_lm (lm_lines m) l (lm_victim_line_pq m) (lm_full_line_list m) (lm_tt_lines m)
    n (lm_victim_line_cnt m) (lm_full_line_cnt m).
Definition lm_with_full (m : line_mgmt) (l : list Z) (n : Z) : line_mgmt :=
  mk_lm (lm_lines m) (lm_free_line_list m) (lm_victim_line_pq m) l (lm_tt_lines m)
    (lm_free_line_cnt m) (lm_victim_line_cnt m) n.
Definition lm_with_victim (m : line_mgmt) (q : pqueue_t Z) (lines : list line) (n : Z) : line_mgmt :=
  mk_lm lines (lm_free_line_list m) q (lm_full_line_list m) (lm_tt_lines m)
    (lm_free_line_cnt m) n (lm_full_line_cnt m).

(** [list_del_init(&line->entry)]: the entry leaves the list it is linked in. *)
Definition list_del_init (m : line_mgmt) (a : Z) : line_mgmt :=
  mk_lm (lm_lines m) (filter (fun b => b <> a) (lm_free_line_list m)) (lm_victim_line_pq m)
    (filter (fun b => b <> a) (lm_full_line_list m)) (lm_tt_lines m)
    (lm_free_line_cnt m) (lm_victim_line_cnt m) (lm_full_line_cnt m).

(** ** Tests and table accesses *)
Definition last_pg_in_wordline (c : conv_ftl) (p : ppa) : res bool :=
  let spp := sp (cv_ssd c) in
  m ← checked_mod (g_pg p) (pgs_per_oneshotpg spp);
  Ok (m =? pgs_per_oneshotpg spp - 1).

Definition should_gc (c : conv_ftl) : bool :=
  lm_free_line_cnt (cv_lm c) <=? gc_thres_lines (cv_cp c).
Definition should_gc_high (c : conv_ftl) : bool :=
  lm_free_line_cnt (cv_lm c) <=? gc_thres_lines_high (cv_cp c).

Definition get_maptbl_ent (c : conv_ftl) (lpn : Z) : res ppa := aget (cv_maptbl c) lpn.

Definition set_maptbl_ent (c : conv_ftl) (lpn : Z) (p : ppa) : res conv_ftl :=
  _ ← NVMEV_ASSERT (lpn <? tt_pgs (sp (cv_ssd c)));
  m ← aset (cv_maptbl c) lpn p;
  Ok (with_maptbl c m).

Definition ppa2pgidx (c : conv_ftl) (p : ppa) : res Z :=
  let spp := sp (cv_ssd c) in
  let pgidx := u64 (g_ch p * pgs_per_ch spp + g_lun p * pgs_per_lun spp + g_pl p * pgs_per_pl spp
                    + i32 (g_blk p * pgs_per_blk spp) + g_pg p) in
  _ ← NVMEV_ASSERT (pgidx <? tt_pgs spp);
  Ok pgidx.

Definition get_rmap_ent (c : conv_ftl) (p : ppa) : res Z :=
  pgidx ← ppa2pgidx c p; aget (cv_rmap c) pgidx.

Definition set_rmap_ent (c : conv_ftl) (lpn : Z) (p : ppa) : res conv_ftl :=
  pgidx ← ppa2pgidx c p;
  m ← aset (cv_rmap c) pgidx lpn;
  Ok (with_rmap c m).

Definition valid_ppa (c : conv_ftl) (p : ppa) : bool :=
  let spp := sp (cv_ssd c) in
  if (g_ch p <? 0) || (nchs spp <=? g_ch p) then false
  else if (g_lun p <? 0) || (luns_per_ch spp <=? g_lun p) then false
  else if (g_pl p <? 0) || (pls_per_lun spp <=? g_pl p) then false
  else if (g_blk p <? 0) || (blks_per_pl spp <=? g_blk p) then false
  else if (g_pg p <? 0) || (pgs_per_blk spp <=? g_pg p) then false
  else true.

Definition valid_lpn (c : conv_ftl) (lpn : Z) : bool := lpn <? tt_pgs (sp (cv_ssd c)).
Definition mapped_ppa (p : ppa) : bool := negb (bool_decide (p = UNMAPPED_PPA)).

Definition check_addr (a max : Z) : res unit := NVMEV_ASSERT ((0 <=? a) && (a <? max)).

Definition consume_write_credit (c : conv_ftl) : conv_ftl :=
  with_wfc c (mk_wfc (u32 (write_credits (cv_wfc c) - 1)) (credits_to_refill (cv_wfc c))).

(** ** Initialisation *)

(** The loop puts every line on the free list. *)
Definition init_lines (spp : ssdparams) : res line_mgmt :=
  let tt := u32 (blks_per_pl spp) in
  _ ← NVMEV_ASSERT (tt =? tt_lines spp);
  q ← deref (pqueue_init (tt_lines spp) true true);
  '(lines, free, cnt) ← for_loop (Z.to_nat tt) 0
    (fun i '(lines, free, cnt) => Ok (lines ++ [mk_line i 0 0 0], free ++ [i], u32 (cnt + 1)))
    (([], [], 0) : list line * list Z * Z);
  _ ← NVMEV_ASSERT (cnt =? tt);
  Ok (mk_lm lines free q [] tt cnt 0 0).

Definition init_write_flow_control (spp : ssdparams) : write_flow_control :=
  mk_wfc (u32 (pgs_per_line spp)) (u32 (pgs_per_line spp)).

Definition get_next_free_line (m : line_mgmt) : line_mgmt * option Z :=
  match lm_free_line_list m with
  | [] => (m, None)
  | a :: l => (lm_with_free m l (u32 (lm_free_line_cnt m - 1)), Some a)
  end.

Definition __get_wp (c : conv_ftl) (io : io_type) : write_pointer :=
  match io with USER_IO => cv_wp c | GC_IO => cv_gc_wp c end.

Definition set_wp (c : conv_ftl) (io : io_type) (w : write_pointer) : conv_ftl :=
  match io with
  | USER_IO => mk_conv (cv_ssd c) (cv_cp c) (cv_maptbl c) (cv_rmap c) w (cv_gc_wp c) (cv_lm c) (cv_wfc c)
  | GC_IO => mk_conv (cv_ssd c) (cv_cp c) (cv_maptbl c) (cv_rmap c) (cv_wp c) w (cv_lm c) (cv_wfc c)
  end.

Definition prepare_write_pointer (c : conv_ftl) (io : io_type) : res conv_ftl :=
  let '(m, curline) := get_next_free_line (cv_lm c) in
  _ ← NVMEV_ASSERT (bool_decide (is_Some curline));
  a ← deref curline;
  l ← aget (lm_lines m) a;
  Ok (set_wp (with_lm c m) io (mk_wp curline 0 0 0 (id l) 0)).

Definition init_maptbl (spp : ssdparams) : list ppa := replicate (Z.to_nat (tt_pgs spp)) UNMAPPED_PPA.
Definition init_rmap (spp : ssdparams) : list Z := replicate (Z.to_nat (tt_pgs spp)) INVALID_LPN.

Definition conv_init_ftl (cpp : convparams) (s : ssd) : res conv_ftl :=
  let spp := sp s in
  lm ← init_lines spp;
  let no_wp := mk_wp None 0 0 0 0 0 in
  let c := mk_conv s cpp (init_maptbl spp) (init_rmap spp) no_wp no_wp lm (mk_wfc 0 0) in
  c ← prepare_write_pointer c USER_IO;
  c ← prepare_write_pointer c GC_IO;
  Ok (with_wfc c (init_write_flow_control spp)).

(** [pba_pcent = (int)((1 + op_area_pcent) * 100)], in hundredths. *)
Definition conv_init_params (cfg : ssd_config) : convparams :=
  mk_convparams 2 2 true (OP_AREA_PERCENT cfg) (100 + OP_AREA_PERCENT cfg).

(** The PCIe link and the write buffer of partition 0 become everyone's. *)
Definition conv_init_namespace (cfg : ssd_config) (ns_id size : Z)
  : res (nvmev_ns (list conv_ftl) * channel_model * buffer) :=
  let nr_parts := SSD_PARTITIONS cfg in
  spp ← ssd_init_params cfg size nr_parts;
  let cpp := conv_init_params cfg in
  let '(s, pcie, wb) := ssd_init spp in
  ftls ← for_loop (Z.to_nat nr_parts) 0
    (fun i ftls => c ← conv_init_ftl cpp s; Ok (ftls ++ [c])) [];
  Ok (mk_ns ns_id NVME_CSI_NVM (u64 (size * 100) / pba_pcent cpp) nr_parts ftls, pcie, wb).

(** ** Write pointers *)

(** The line is full or becomes a victim when its last page is written. *)
Definition retire_line (spp : ssdparams) (m : line_mgmt) (a : Z) : res line_mgmt :=
  l ← aget (lm_lines m) a;
  if vpc l =? pgs_per_line spp then
    _ ← NVMEV_ASSERT (ipc l =? 0);
    Ok (lm_with_full m (lm_full_line_list m ++ [a]) (u32 (lm_full_line_cnt m + 1)))
  else
    _ ← NVMEV_ASSERT ((0 <=? vpc l) && (vpc l <? pgs_per_line spp));
    _ ← NVMEV_ASSERT (0 <? ipc l);
    '(q, lines) ← pqueue_insert (lm_victim_line_pq m) (lm_lines m) a;
    Ok (lm_with_victim m q lines (u32 (lm_victim_line_cnt m + 1))).

Definition wp_with (w : write_pointer) (ch lun pg : Z) : write_pointer :=
  mk_wp (wp_curline w) ch lun pg (wp_blk w) (wp_pl w).

(** The line is used up: another one for the pointer.  [wpp->pg], [lun] and
    [ch] are 0 here. *)
Definition next_line (spp : ssdparams) (m : line_mgmt) (w : write_pointer) : res (line_mgmt * write_pointer) :=
  curline ← deref (wp_curline w);
  m ← retire_line spp m curline;
  _ ← check_addr (wp_blk w) (blks_per_pl spp);
  let '(m, next) := get_next_free_line m in
  a ← deref next;
  l ← aget (lm_lines m) a;
  _ ← check_addr (id l) (blks_per_pl spp);
  _ ← NVMEV_ASSERT (wp_pl w =? 0);
  Ok (m, mk_wp (Some a) 0 0 0 (u32 (id l)) (wp_pl w)).

(** [u32] pointers are compared with [int] parameters as unsigned; the early
    [goto out]s are the [else] branches. *)
Definition advance_write_pointer (c : conv_ftl) (io : io_type) : res conv_ftl :=
  let spp := sp (cv_ssd c) in
  let w := __get_wp c io in
  _ ← check_addr (wp_pg w) (pgs_per_blk spp);
  let pg := u32 (wp_pg w + 1) in
  r ← checked_mod pg (pgs_per_oneshotpg spp);
  if negb (r =? 0) then Ok (set_wp c io (wp_with w (wp_ch w) (wp_lun w) pg)) else
  let pg := u32 (pg - pgs_per_oneshotpg spp) in
  _ ← check_addr (wp_ch w) (nchs spp);
  let ch := u32 (wp_ch w + 1) in
  if negb (ch =? nchs spp) then Ok (set_wp c io (wp_with w ch (wp_lun w) pg)) else
  let ch := 0 in
  _ ← check_addr (wp_lun w) (luns_per_ch spp);
  let lun := u32 (wp_lun w + 1) in
  if negb (lun =? luns_per_ch spp) then Ok (set_wp c io (wp_with w ch lun pg)) else
  let lun := 0 in
  let pg := u32 (pg + pgs_per_oneshotpg spp) in
  if negb (pg =? pgs_per_blk spp) then Ok (set_wp c io (wp_with w ch lun pg)) else
  '(m, w) ← next_line spp (cv_lm c) w;
  Ok (set_wp (with_lm c m) io w).

Definition get_new_page (c : conv_ftl) (io : io_type) : res ppa :=
  let w := __get_wp c io in
  let p := set_pl (set_blk (set_pg (set_lun (set_ch (ppa_of 0) (wp_ch w)) (wp_lun w)) (wp_pg w))
                     (wp_blk w)) (wp_pl w) in
  _ ← NVMEV_ASSERT (g_pl p =? 0);
  Ok p.

(** ** Page, block and line status *)
Definition with_pg_st (st : pg_status) (g : nand_page) : nand_page := mk_page (sec g) (nsecs g) st.

Definition with_counts (b : nand_block) (i v : Z) : nand_block :=
  mk_block (blk_pg b) (npgs b) i v (erase_cnt b) (blk_wp b).

(** The line part of [mark_page_invalid]; [get_line(conv_ftl, ppa)] is the line
    of index [ppa->g.blk]. *)
Definition invalidate_line (spp : ssdparams) (m : line_mgmt) (a : Z) : res line_mgmt :=
  l ← aget (lm_lines m) a;
  _ ← NVMEV_ASSERT ((0 <=? ipc l) && (ipc l <? pgs_per_line spp));
  let was_full_line := vpc l =? pgs_per_line spp in
  _ ← (if was_full_line then NVMEV_ASSERT (ipc l =? 0) else Ok tt);
  lines ← aset (lm_lines m) a (mk_line (id l) (ipc l + 1) (vpc l) (pos l));
  _ ← NVMEV_ASSERT ((0 <? vpc l) && (vpc l <=? pgs_per_line spp));
  m ← (if negb (pos l =? 0) then
         '(q, lines) ← pqueue_change_priority (lm_victim_line_pq m) lines (u64 (vpc l - 1)) a;
         Ok (lm_with_victim m q lines (lm_victim_line_cnt m))
       else
         lines ← aset lines a (mk_line (id l) (ipc l + 1) (vpc l - 1) (pos l));
         Ok (lm_with_lines m lines));
  if was_full_line then
    let m := list_del_init m a in
    let m := lm_with_full m (lm_full_line_list m) (u32 (lm_full_line_cnt m - 1)) in
    '(q, lines) ← pqueue_insert (lm_victim_line_pq m) (lm_lines m) a;
    Ok (lm_with_victim m q lines (u32 (lm_victim_line_cnt m + 1)))
  else Ok m.

Definition mark_page_invalid (c : conv_ftl) (p : ppa) : res conv_ftl :=
  let spp := sp (cv_ssd c) in
  s ← mod_pg (cv_ssd c) p (fun g =>
    _ ← NVMEV_ASSERT (bool_decide (pg_st g = PG_VALID)); Ok (with_pg_st PG_INVALID g));
  s ← mod_blk s p (fun b =>
    _ ← NVMEV_ASSERT ((0 <=? blk_ipc b) && (blk_ipc b <? pgs_per_blk spp));
    _ ← NVMEV_ASSERT ((0 <? blk_vpc b) && (blk_vpc b <=? pgs_per_blk spp));
    Ok (with_counts b (blk_ipc b + 1) (blk_vpc b - 1)));
  m ← invalidate_line spp (cv_lm c) (g_blk p);
  Ok (with_lm (with_ssd c s) m).

(** The line part of [mark_page_valid]. *)
Definition validate_line (spp : ssdparams) (m : line_mgmt) (a : Z) : res line_mgmt :=
  l ← aget (lm_lines m) a;
  _ ← NVMEV_ASSERT ((0 <=? vpc l) && (vpc l <? pgs_per_line spp));
  lines ← aset (lm_lines m) a (mk_line (id l) (ipc l) (vpc l + 1) (pos l));
  Ok (lm_with_lines m lines).

Definition mark_page_valid (c : conv_ftl) (p : ppa) : res conv_ftl :=
  let spp := sp (cv_ssd c) in
  s ← mod_pg (cv_ssd c) p (fun g =>
    _ ← NVMEV_ASSERT (bool_decide (pg_st g = PG_FREE)); Ok (with_pg_st PG_VALID g));
  s ← mod_blk s p (fun b =>
    _ ← NVMEV_ASSERT ((0 <=? blk_vpc b) && (blk_vpc b <? pgs_per_blk spp));
    Ok (with_counts b (blk_ipc b) (blk_vpc b + 1)));
  m ← validate_line spp (cv_lm c) (g_blk p);
  Ok (with_lm (with_ssd c s) m).

Definition mark_block_free (c : conv_ftl) (p : ppa) : res conv_ftl :=
  let spp := sp (cv_ssd c) in
  s ← mod_blk (cv_ssd c) p (fun b =>
    pgs ← for_loop (Z.to_nat (pgs_per_blk spp)) 0 (fun i pgs =>
      amod pgs i (fun g =>
        _ ← NVMEV_ASSERT (nsecs g =? secs_per_pg spp); Ok (with_pg_st PG_FREE g))) (blk_pg b);
    _ ← NVMEV_ASSERT (npgs b =? pgs_per_blk spp);
    Ok (mk_block pgs (npgs b) 0 0 (i32 (erase_cnt b + 1)) (blk_wp b)));
  Ok (with_ssd c s).

Definition mark_line_free (c : conv_ftl) (p : ppa) : res conv_ftl :=
  let m := cv_lm c in
  let a := g_blk p in
  l ← aget (lm_lines m) a;
  lines ← aset (lm_lines m) a (mk_line (id l) 0 0 (pos l));
  Ok (with_lm c (lm_with_free (lm_with_lines m lines) (lm_free_line_list m ++ [a])
                   (u32 (lm_free_line_cnt m + 1)))).

(** The victim queue gives the line with the fewest valid pages; without
    [force] a line more than an eighth valid is left. *)
Definition select_victim_line (c : conv_ftl) (force : bool) : res (conv_ftl * option Z) :=
  let spp := sp (cv_ssd c) in
  let m := cv_lm c in
  victim ← pqueue_peek (lm_victim_line_pq m);
  match victim with
  | None => Ok (c, None)
  | Some a =>
    l ← aget (lm_lines m) a;
    if negb force && (pgs_per_line spp / 8 <? vpc l) then Ok (c, None) else
    '(q, lines, _) ← pqueue_pop (lm_victim_line_pq m) (lm_lines m);
    lines ← aupd lines a (fun l => mk_line (id l) (ipc l) (vpc l) 0);
    Ok (with_lm c (lm_with_victim m q lines (u32 (lm_victim_line_cnt m - 1))), Some a)
  end.

Definition is_same_flash_page (c : conv_ftl) (p1 p2 : ppa) : res bool :=
  let spp := sp (cv_ssd c) in
  pg1 ← checked_div (g_pg p1) (pgs_per_flashpg spp);
  pg2 ← checked_div (g_pg p2) (pgs_per_flashpg spp);
  Ok ((blk_in_ssd p1 =? blk_in_ssd p2) && (pg1 =? pg2)).

(** ** Garbage collection and the I/O path *)
Section Io.
Variable cpu_clock : nat -> Z.
(** [local_clock()] in [conv_flush]. *)
Variable local_clock : Z.

(** [ssd_advance_nand(conv_ftl->ssd, &ncmd)]. *)
Definition advance_nand (c : conv_ftl) (ncmd : nand_cmd) : prog world (conv_ftl * Z) :=
  '(s, t) ← ssd_advance_nand cpu_clock (cv_ssd c) ncmd;
  mret (with_ssd c s, t).

Definition gc_read_page (c : conv_ftl) (p : ppa) : prog world conv_ftl :=
  let spp := sp (cv_ssd c) in
  if enable_gc_delay (cv_cp c) then
    '(c, _) ← advance_nand c (mk_ncmd GC_IO NAND_READ (pgsz spp) 0 false p);
    mret c
  else mret c.

Definition gc_write_page (c : conv_ftl) (old_ppa : ppa) : prog world conv_ftl :=
  let spp := sp (cv_ssd c) in
  lpn ← lift (get_rmap_ent c old_ppa);
  _ ← lift (NVMEV_ASSERT (valid_lpn c lpn));
  new_ppa ← lift (get_new_page c GC_IO);
  c ← lift (set_maptbl_ent c lpn new_ppa);
  c ← lift (set_rmap_ent c lpn new_ppa);
  c ← lift (mark_page_valid c new_ppa);
  c ← lift (advance_write_pointer c GC_IO);
  if enable_gc_delay (cv_cp c) then
    last ← lift (last_pg_in_wordline c new_ppa);
    let gcw :=
      if (last : bool)
      then mk_ncmd GC_IO NAND_WRITE (u64 (i32 (pgsz spp * pgs_per_oneshotpg spp))) 0 false new_ppa
      else mk_ncmd GC_IO NAND_NOP 0 0 false new_ppa in
    '(c, _) ← advance_nand c gcw;
    mret c
  else mret c.

(** [ppa_copy.g.pg++]. *)
Definition next_pg (p : ppa) : ppa := set_pg p (g_pg p + 1).

Definition clean_one_flashpg (c : conv_ftl) (p : ppa) : prog world conv_ftl :=
  let spp := sp (cv_ssd c) in
  '(cnt, _) ← lift (for_loop (Z.to_nat (pgs_per_flashpg spp)) 0 (fun i '(cnt, q) =>
    g ← get_pg (cv_ssd c) q;
    _ ← NVMEV_ASSERT (negb (bool_decide (pg_st g = PG_FREE)));
    Ok (if bool_decide (pg_st g = PG_VALID) then cnt + 1 else cnt, next_pg q)) (0, p));
  if cnt <=? 0 then mret c else
  c ← (if enable_gc_delay (cv_cp c) then
         '(c, _) ← advance_nand c (mk_ncmd GC_IO NAND_READ (u64 (i32 (pgsz spp * cnt))) 0 false p);
         mret c
       else mret c);
  '(c, _) ← for_loop (Z.to_nat (pgs_per_flashpg spp)) 0 (fun i '(c, q) =>
    g ← lift (get_pg (cv_ssd c) q);
    c ← (if bool_decide (pg_st g = PG_VALID) then gc_write_page c q else mret c);
    mret (c, next_pg q)) (c, p);
  mret c.

(** [lunp->gc_endtime = lunp->next_lun_avail_time]. *)
Definition stamp_gc_endtime (l : nand_lun) : res nand_lun :=
  Ok (mk_lun (lun_pl l) (npls l) (next_lun_avail_time l) (lun_busy l) (next_lun_avail_time l)).

(** The body of [do_gc]'s loops for one flash page of one LUN; the last flash
    page also erases the block. *)
Definition gc_lun (c : conv_ftl) (flashpg : Z) (p : ppa) : prog world conv_ftl :=
  let spp := sp (cv_ssd c) in
  _ ← lift (get_lun (cv_ssd c) p);
  c ← clean_one_flashpg c p;
  if flashpg =? flashpgs_per_blk spp - 1 then
    c ← lift (mark_block_free c p);
    c ← (if enable_gc_delay (cv_cp c) then
           '(c, _) ← advance_nand c (mk_ncmd GC_IO NAND_ERASE 0 0 false p);
           mret c
         else mret c);
    s ← lift (mod_lun (cv_ssd c) p stamp_gc_endtime);
    mret (with_ssd c s)
  else mret c.

(** [ppa] is a local whose fields are set before they are used; its reserved
    byte never is, and nothing depends on it. *)
Definition do_gc (c : conv_ftl) (force : bool) : prog world (conv_ftl * Z) :=
  let spp := sp (cv_ssd c) in
  '(c, victim) ← lift (select_victim_line c force);
  match victim with
  | None => mret (c, -1)
  | Some a =>
    l ← lift (aget (lm_lines (cv_lm c)) a);
    let p := set_blk (mk_ppa 0 0 0 0 0 0) (id l) in
    let c := with_wfc c (mk_wfc (write_credits (cv_wfc c)) (u32 (ipc l))) in
    '(c, p) ← for_loop (Z.to_nat (flashpgs_per_blk spp)) 0 (fun flashpg '(c, p) =>
      let p := set_pg p (flashpg * pgs_per_flashpg spp) in
      for_loop (Z.to_nat (nchs spp)) 0 (fun ch '(c, p) =>
        for_loop (Z.to_nat (luns_per_ch spp)) 0 (fun lun '(c, p) =>
          let p := set_pl (set_lun (set_ch p ch) lun) 0 in
          c ← gc_lun c flashpg p;
          mret (c, p)) (c, p)) (c, p)) (c, p);
    c ← lift (mark_line_free c p);
    mret (c, 0)
  end.

Definition foreground_gc (c : conv_ftl) : prog world conv_ftl :=
  if should_gc_high c then '(c, _) ← do_gc c true; mret c else mret c.

(** [write_credits] is unsigned: [<= 0] is [= 0].  The credits to refill are
    read after GC, which may have changed them. *)
Definition check_and_refill_write_credit (c : conv_ftl) : prog world conv_ftl :=
  if write_credits (cv_wfc c) <=? 0 then
    c ← foreground_gc c;
    mret (with_wfc c (mk_wfc (u32 (write_credits (cv_wfc c) + credits_to_refill (cv_wfc c)))
                             (credits_to_refill (cv_wfc c))))
  else mret c.

Abbreviation ns_t := (nvmev_ns (list conv_ftl)).

Definition start_lpn_of (spp : ssdparams) (cmd : nvme_command) : res Z :=
  checked_div (rw_slba cmd) (secs_per_pg spp).
Definition end_lpn_of (spp : ssdparams) (cmd : nvme_command) : res Z :=
  checked_div (u64 (rw_slba cmd + (rw_length cmd + 1) - 1)) (secs_per_pg spp).

(** The state of [conv_read]'s loops: [nsecs_latest], [xfer_size], [prev_ppa]. *)
Definition issue_read (c : conv_ftl) (stime xfer_size : Z) (prev : ppa) (latest : Z)
  : prog world (conv_ftl * Z) :=
  '(c, t) ← advance_nand c (mk_ncmd USER_IO NAND_READ xfer_size stime true prev);
  mret (c, Z.max t latest).

(** One page of the inner loop. *)
Definition read_page (stime : Z) (local_lpn : Z) (st : conv_ftl * Z * Z * ppa)
  : prog world (conv_ftl * Z * Z * ppa) :=
  let '(c, latest, xfer_size, prev) := st in
  let spp := sp (cv_ssd c) in
  cur ← lift (get_maptbl_ent c local_lpn);
  if negb (mapped_ppa cur) || negb (valid_ppa c cur) then mret (c, latest, xfer_size, prev) else
  same ← lift (if mapped_ppa prev then is_same_flash_page c cur prev else Ok false);
  if (same : bool) then mret (c, latest, u32 (xfer_size + pgsz spp), prev) else
  '(c, latest) ← (if 0 <? xfer_size then issue_read c stime xfer_size prev latest
                  else mret (c, latest));
  mret (c, latest, u32 (pgsz spp), cur).

(** The pages [start], [start + nr_parts], ... up to [end_lpn] of one
    partition. *)
Definition read_part (c : conv_ftl) (stime start_lpn end_lpn nr_parts latest : Z)
  : prog world (conv_ftl * Z) :=
  prev ← lift (get_maptbl_ent c (start_lpn / nr_parts));
  '(c, latest, xfer_size, prev) ←
    for_loop (Z.to_nat ((end_lpn - start_lpn) / nr_parts + 1)) 0
      (fun k st => read_page stime ((start_lpn + k * nr_parts) / nr_parts) st)
      (c, latest, 0, prev);
  if 0 <? xfer_size then issue_read c stime xfer_size prev latest else mret (c, latest).

Definition conv_read (ns : ns_t) (req : nvmev_request) (ret : nvmev_result)
  : prog world (ns_t * bool * nvmev_result) :=
  c0 ← lift (aget (ns_ftls ns) 0);
  let spp := sp (cv_ssd c0) in
  let nr_parts := ns_nr_parts ns in
  let nr_lba := rw_length (cmd req) + 1 in
  start_lpn ← lift (start_lpn_of spp (cmd req));
  end_lpn ← lift (end_lpn_of spp (cmd req));
  e ← lift (checked_div end_lpn nr_parts);
  if tt_pgs spp <=? e then mret (ns, false, ret) else
  let stime :=
    u64 (nsecs_start req +
         (if LBA_TO_BYTE nr_lba <=? u32 (KB 4 * nr_parts) then fw_4kb_rd_lat spp else fw_rd_lat spp)) in
  '(ftls, latest) ← for_loop (Z.to_nat (Z.min nr_parts (end_lpn - start_lpn + 1))) 0
    (fun i '(ftls, latest) =>
      let start_lpn := start_lpn + i in
      c ← lift (aget ftls (start_lpn mod nr_parts));
      '(c, latest) ← read_part c stime start_lpn end_lpn nr_parts latest;
      ftls ← lift (aset ftls (start_lpn mod nr_parts) c);
      mret (ftls, latest)) (ns_ftls ns, nsecs_start req);
  mret (set_ftls ns ftls, true, set_status (set_target ret latest) NVME_SC_SUCCESS).

(** The old copy of a page that is written again. *)
Definition invalidate_old (c : conv_ftl) (local_lpn : Z) : res conv_ftl :=
  p ← get_maptbl_ent c local_lpn;
  if mapped_ppa p then
    c ← mark_page_invalid c p;
    set_rmap_ent c INVALID_LPN p
  else Ok c.

(** The new copy: a page from the write pointer, both tables, the status. *)
Definition map_new_page (c : conv_ftl) (local_lpn : Z) : res (conv_ftl * ppa) :=
  p ← get_new_page c USER_IO;
  c ← set_maptbl_ent c local_lpn p;
  _ ← ppa2pgidx c p;
  c ← set_rmap_ent c local_lpn p;
  c ← mark_page_valid c p;
  c ← advance_write_pointer c USER_IO;
  Ok (c, p).

(** The body of [conv_write]'s loop. *)
Definition write_page (sqid stime : Z) (c : conv_ftl) (local_lpn latest : Z)
  : prog world (conv_ftl * Z) :=
  let spp := sp (cv_ssd c) in
  c ← lift (invalidate_old c local_lpn);
  '(c, p) ← lift (map_new_page c local_lpn);
  last ← lift (last_pg_in_wordline c p);
  '(c, latest) ←
    (if (last : bool) then
       '(c, t) ← advance_nand c (mk_ncmd USER_IO NAND_WRITE
                   (u64 (i32 (pgsz spp * pgs_per_oneshotpg spp))) stime false p);
       _ ← schedule_internal_operation sqid t WriteBuffer (i32 (pgs_per_oneshotpg spp * pgsz spp));
       mret (c, Z.max t latest)
     else mret (c, latest));
  c ← check_and_refill_write_credit (consume_write_credit c);
  mret (c, latest).

Definition conv_write (ns : ns_t) (req : nvmev_request) (ret : nvmev_result)
  : prog world (ns_t * bool * nvmev_result) :=
  c0 ← lift (aget (ns_ftls ns) 0);
  let spp := sp (cv_ssd c0) in
  let nr_parts := ns_nr_parts ns in
  let bytes := LBA_TO_BYTE (rw_length (cmd req) + 1) in
  start_lpn ← lift (start_lpn_of spp (cmd req));
  end_lpn ← lift (end_lpn_of spp (cmd req));
  e ← lift (checked_div end_lpn nr_parts);
  if tt_pgs spp <=? e then mret (ns, false, ret) else
  allocated_buf_size ← wb_allocate bytes;
  if allocated_buf_size <? bytes then mret (ns, false, ret) else
  nsecs_latest ← ssd_advance_write_buffer cpu_clock (cv_ssd c0) (nsecs_start req) bytes;
  let nsecs_xfer_completed := nsecs_latest in
  '(ftls, nsecs_latest) ← for_loop (Z.to_nat (end_lpn - start_lpn + 1)) 0
    (fun i '(ftls, latest) =>
      let lpn := start_lpn + i in
      c ← lift (aget ftls (lpn mod nr_parts));
      '(c, latest) ← write_page (sq_id req) nsecs_xfer_completed c (lpn / nr_parts) latest;
      ftls ← lift (aset ftls (lpn mod nr_parts) c);
      mret (ftls, latest)) (ns_ftls ns, nsecs_latest);
  let target :=
    if rw_fua (cmd req) || negb (write_early_completion spp) then nsecs_latest
    else nsecs_xfer_completed in
  mret (set_ftls ns ftls, true, set_status (set_target ret target) NVME_SC_SUCCESS).

Definition conv_flush (ns : ns_t) (req : nvmev_request) (ret : nvmev_result)
  : prog world nvmev_result :=
  latest ← for_loop (Z.to_nat (ns_nr_parts ns)) 0 (fun i latest =>
    c ← lift (aget (ns_ftls ns) i);
    t ← ssd_next_idle_time cpu_clock (cv_ssd c);
    mret (Z.max latest t)) local_clock;
  mret (set_target (set_status ret NVME_SC_SUCCESS) latest).

Definition conv_proc_nvme_io_cmd (ns : ns_t) (req : nvmev_request) (ret : nvmev_result)
  : prog world (ns_t * bool * nvmev_result) :=
  _ ← lift (NVMEV_ASSERT (ns_csi ns =? NVME_CSI_NVM));
  if opcode (cmd req) =? nvme_cmd_write then conv_write ns req ret
  else if opcode (cmd req) =? nvme_cmd_read then conv_read ns req ret
  else if opcode (cmd req) =? nvme_cmd_flush then
    ret ← conv_flush ns req ret; mret (ns, true, ret)
  else mret (ns, true, ret).
End Io.
