(* ===== verification/ConvGeom.v ===== *)
(** * Page addresses of the conventional FTL

    The pages of a line in the order a write pointer visits them, their
    numbers in the reverse map, and counting over them. *)
From S2P Require Import Prelude Nvme SsdConfig ChannelModel Ssd Pqueue LineTable ConvFtl.

(** The devices the conventional FTL supports: one plane, and counts of pages
    that fit an [int]. *)
Record conv_geom (spp : ssdparams) : Prop := {
  cg_ok : params_ok spp;
  cg_pls : pls_per_lun spp = 1;
  cg_line : pgs_per_line spp < 2 ^ 31;
  cg_pl : pgs_per_pl spp < 2 ^ 31;
}.

(** An address inside the device, as the FTL builds them. *)
Definition cppa (spp : ssdparams) (p : ppa) : Prop := ppa_in spp p /\ g_rsv p = 0.

(** The place of a page in its line: word line, LUN, channel, page of the
    word line; and the page at a place. *)
Definition page_off (spp : ssdparams) (p : ppa) : Z :=
  (g_pg p / pgs_per_oneshotpg spp * tt_luns spp + (g_lun p * nchs spp + g_ch p)) * pgs_per_oneshotpg spp
  + g_pg p mod pgs_per_oneshotpg spp.

Definition page_at (spp : ssdparams) (b off : Z) : ppa :=
  let os := pgs_per_oneshotpg spp in
  let q := off / os in
  let u := q mod tt_luns spp in
  mk_ppa (q / tt_luns spp * os + off mod os) b 0 (u / nchs spp) (u mod nchs spp) 0.

Lemma div_mod_pair n a r : 0 ≤ r < n -> (a * n + r) / n = a /\ (a * n + r) mod n = r.
Proof.
  intros H. split.
  - rewrite Z.div_add_l, Z.div_small by lia. lia.
  - rewrite Z.add_comm, Z.mod_add, Z.mod_small; lia.
Qed.

Lemma pair_lt n m a r : 0 ≤ a < m -> 0 ≤ r < n -> 0 ≤ a * n + r < m * n.
Proof. nia. Qed.

(** The equations of the geometry. *)
Ltac geom H :=
  pose proof (po_oneshot _ (cg_ok _ H)); pose proof (po_tt_luns _ (cg_ok _ H));
  pose proof (po_oneshot_blk _ (cg_ok _ H)); pose proof (po_pgs_per_line _ (cg_ok _ H));
  pose proof (po_chs _ (cg_ok _ H)); pose proof (po_luns _ (cg_ok _ H)); pose proof (po_pgs _ (cg_ok _ H));
  pose proof (po_blks _ (cg_ok _ H)); pose proof (cg_pls _ H).

Section Geom.
Context (spp : ssdparams) (Hg : conv_geom spp).

Lemma ppl_eq : pgs_per_line spp = oneshotpgs_per_blk spp * tt_luns spp * pgs_per_oneshotpg spp.
Proof. geom Hg. congruence || nia. Qed.

Lemma ppl_pos : 0 < pgs_per_line spp.
Proof. geom Hg. nia. Qed.

Lemma tt_luns_pos : 0 < tt_luns spp.
Proof. geom Hg. nia. Qed.

Lemma oneshots_pos : 0 < oneshotpgs_per_blk spp.
Proof. geom Hg. nia. Qed.

Lemma page_off_at b off : 0 ≤ off < pgs_per_line spp -> page_off spp (page_at spp b off) = off.
Proof.
  intros Ho. pose proof (po_oneshot _ (cg_ok _ Hg)) as Hos. pose proof tt_luns_pos as Htl.
  pose proof (po_chs _ (cg_ok _ Hg)) as Hch.
  pose proof (Z.mod_pos_bound off _ Hos) as Hm.
  unfold page_off, page_at. cbn [g_pg g_lun g_ch].
  destruct (div_mod_pair (pgs_per_oneshotpg spp) (off / pgs_per_oneshotpg spp / tt_luns spp)
    (off mod pgs_per_oneshotpg spp) Hm) as [-> ->].
  set (q := off / pgs_per_oneshotpg spp).
  replace (q mod tt_luns spp / nchs spp * nchs spp + q mod tt_luns spp mod nchs spp) with (q mod tt_luns spp)
    by (rewrite (Z.div_mod (q mod tt_luns spp) (nchs spp)) at 1; lia).
  replace (q / tt_luns spp * tt_luns spp + q mod tt_luns spp) with q
    by (rewrite (Z.div_mod q (tt_luns spp)) at 1; lia).
  unfold q. rewrite (Z.div_mod off (pgs_per_oneshotpg spp)) at 3; lia.
Qed.

Lemma page_at_off p : cppa spp p -> page_at spp (g_blk p) (page_off spp p) = p.
Proof.
  intros [(Hc & Hl & Hp & Hb & Hpg) Hr]. pose proof (po_oneshot _ (cg_ok _ Hg)) as Hos.
  pose proof (po_tt_luns _ (cg_ok _ Hg)) as Htl. pose proof (cg_pls _ Hg).
  pose proof (Z.mod_pos_bound (g_pg p) _ Hos) as Hm.
  pose proof (pair_lt (nchs spp) (luns_per_ch spp) (g_lun p) (g_ch p) Hl Hc) as Hu. rewrite <- Htl in Hu.
  unfold page_at, page_off.
  destruct (div_mod_pair (pgs_per_oneshotpg spp)
    (g_pg p / pgs_per_oneshotpg spp * tt_luns spp + (g_lun p * nchs spp + g_ch p)) _ Hm) as [-> ->].
  destruct (div_mod_pair (tt_luns spp) (g_pg p / pgs_per_oneshotpg spp) _ Hu) as [-> ->].
  destruct (div_mod_pair (nchs spp) (g_lun p) _ Hc) as [-> ->].
  destruct p as [pg blk pl lun ch rsv]. cbn in *. f_equal; try lia.
  rewrite (Z.div_mod pg (pgs_per_oneshotpg spp)) at 3; lia.
Qed.

Lemma page_off_range p : cppa spp p -> 0 ≤ page_off spp p < pgs_per_line spp.
Proof.
  intros [(Hc & Hl & _ & _ & Hpg) _]. pose proof (po_oneshot _ (cg_ok _ Hg)) as Hos.
  pose proof (po_tt_luns _ (cg_ok _ Hg)) as Htl. pose proof (po_oneshot_blk _ (cg_ok _ Hg)) as Hob.
  pose proof (Z.mod_pos_bound (g_pg p) _ Hos) as Hm.
  pose proof (pair_lt (nchs spp) (luns_per_ch spp) (g_lun p) (g_ch p) Hl Hc) as Hu. rewrite <- Htl in Hu.
  rewrite ppl_eq. unfold page_off. apply pair_lt; [|done]. apply pair_lt; [|done].
  split; [apply Z.div_pos; lia | apply Z.div_lt_upper_bound; lia].
Qed.

Lemma page_at_in b off :
  0 ≤ b < blks_per_pl spp -> 0 ≤ off < pgs_per_line spp -> cppa spp (page_at spp b off).
Proof.
  intros Hb Ho. pose proof (po_oneshot _ (cg_ok _ Hg)) as Hos. pose proof tt_luns_pos as Htl.
  pose proof (po_chs _ (cg_ok _ Hg)) as Hch. pose proof (cg_pls _ Hg).
  pose proof (po_tt_luns _ (cg_ok _ Hg)) as Ett. pose proof (po_oneshot_blk _ (cg_ok _ Hg)) as Hob.
  pose proof ppl_eq as Ep. pose proof (Z.mod_pos_bound off _ Hos).
  set (q := off / pgs_per_oneshotpg spp).
  assert (0 ≤ q < oneshotpgs_per_blk spp * tt_luns spp) as Hq.
  { split; [apply Z.div_pos; lia | apply Z.div_lt_upper_bound; lia]. }
  pose proof (Z.mod_pos_bound q _ Htl).
  assert (0 ≤ q / tt_luns spp < oneshotpgs_per_blk spp) as Hw.
  { split; [apply Z.div_pos; lia | apply Z.div_lt_upper_bound; lia]. }
  split; [|done]. unfold ppa_in, page_at. cbn. fold q.
  split; [apply Z.mod_pos_bound; lia|].
  split; [split; [apply Z.div_pos; lia | apply Z.div_lt_upper_bound; lia]|].
  split; [lia|]. split; [done|]. rewrite Hob, (Z.mul_comm (pgs_per_oneshotpg spp)). by apply pair_lt.
Qed.

Lemma page_off_inj p q : cppa spp p -> cppa spp q -> g_blk p = g_blk q ->
  page_off spp p = page_off spp q -> p = q.
Proof. intros Hp Hq E1 E2. by rewrite <- (page_at_off p), <- (page_at_off q), E1, E2. Qed.

(** ** The numbers of pages *)
Definition pgidx (p : ppa) : Z :=
  g_ch p * pgs_per_ch spp + g_lun p * pgs_per_lun spp + g_pl p * pgs_per_pl spp
  + g_blk p * pgs_per_blk spp + g_pg p.

Lemma pgidx_eq p : cppa spp p ->
  pgidx p = ((g_ch p * luns_per_ch spp + g_lun p) * blks_per_pl spp + g_blk p) * pgs_per_blk spp + g_pg p.
Proof.
  intros [(_ & _ & Hp & _) _]. pose proof (cg_pls _ Hg) as E. unfold pgidx. 
  rewrite (po_pgs_per_ch _ (cg_ok _ Hg)), (po_pgs_per_lun _ (cg_ok _ Hg)), (po_pgs_per_pl _ (cg_ok _ Hg)), E.
  replace (g_pl p) with 0 by lia. ring.
Qed.

Lemma pgidx_range p : cppa spp p -> 0 ≤ pgidx p < tt_pgs spp.
Proof.
  intros Hp. rewrite pgidx_eq by done. destruct Hp as [(Hc & Hl & _ & Hb & Hpg) _].
  pose proof (cg_pls _ Hg) as E. 
  rewrite (po_tt_pgs _ (cg_ok _ Hg)), (po_pgs_per_ch _ (cg_ok _ Hg)), (po_pgs_per_lun _ (cg_ok _ Hg)),
    (po_pgs_per_pl _ (cg_ok _ Hg)), E.
  replace (nchs spp * (luns_per_ch spp * (1 * (blks_per_pl spp * pgs_per_blk spp))))
    with (nchs spp * luns_per_ch spp * blks_per_pl spp * pgs_per_blk spp) by lia.
  by repeat apply pair_lt.
Qed.

Lemma pgidx_inj p q : cppa spp p -> cppa spp q -> pgidx p = pgidx q -> p = q.
Proof.
  intros Hp Hq. rewrite !pgidx_eq by done. pose proof (cg_pls _ Hg).
  destruct Hp as [(Hc & Hl & Hpl & Hb & Hpg) Hr], Hq as [(Hc' & Hl' & Hpl' & Hb' & Hpg') Hr'].
  intros E.
  destruct (div_mod_pair _ ((g_ch p * luns_per_ch spp + g_lun p) * blks_per_pl spp + g_blk p) _ Hpg) as [E1 E2].
  rewrite E in E1, E2.
  destruct (div_mod_pair _ ((g_ch q * luns_per_ch spp + g_lun q) * blks_per_pl spp + g_blk q) _ Hpg') as [E3 E4].
  rewrite E3 in E1. rewrite E4 in E2.
  destruct (div_mod_pair _ (g_ch p * luns_per_ch spp + g_lun p) _ Hb) as [F1 F2].
  rewrite <- E1 in F1, F2. destruct (div_mod_pair _ (g_ch q * luns_per_ch spp + g_lun q) _ Hb') as [F3 F4].
  rewrite F3 in F1. rewrite F4 in F2.
  destruct (div_mod_pair _ (g_ch p) _ Hl) as [G1 G2]. rewrite <- F1 in G1, G2.
  destruct (div_mod_pair _ (g_ch q) _ Hl') as [G3 G4]. rewrite G3 in G1. rewrite G4 in G2.
  destruct p, q. cbn in *. f_equal; lia.
Qed.

Lemma tt_pgs_u64 : 0 < tt_pgs spp < 2 ^ 62.
Proof.
  geom Hg. pose proof (cg_pl _ Hg). rewrite (po_tt_pgs _ (cg_ok _ Hg)), (po_pgs_per_ch _ (cg_ok _ Hg)),
    (po_pgs_per_lun _ (cg_ok _ Hg)). assert (0 < pgs_per_pl spp) by (rewrite (po_pgs_per_pl _ (cg_ok _ Hg)); nia).
  assert (0 < nchs spp * luns_per_ch spp ≤ 255 * 255) by nia. nia.
Qed.

Lemma ppa2pgidx_ok c p : sp (cv_ssd c) = spp -> cppa spp p -> ppa2pgidx c p = Ok (pgidx p).
Proof.
  intros Es Hp. pose proof tt_pgs_u64 as Hu. pose proof (pgidx_range p Hp) as Hr. unfold ppa2pgidx. rewrite Es.
  destruct Hp as [(_ & _ & _ & Hb & Hpg) _]. pose proof (cg_pl _ Hg) as Hpl.
  rewrite (po_pgs_per_pl _ (cg_ok _ Hg)) in Hpl. pose proof (po_pgs _ (cg_ok _ Hg)).
  rewrite i32_small by nia. fold (pgidx p). rewrite u64_small by (unfold U64_MAX; lia).
  by rewrite (proj2 (Z.ltb_lt _ _)) by lia.
Qed.

(** ** The next page of a line *)
Lemma page_off_mk pg b pl lun ch r : page_off spp (mk_ppa pg b pl lun ch r) =
  (pg / pgs_per_oneshotpg spp * tt_luns spp + (lun * nchs spp + ch)) * pgs_per_oneshotpg spp
  + pg mod pgs_per_oneshotpg spp.
Proof. done. Qed.

(** Within a word line, the page number divides by the one-shot size. *)
Lemma oneshot_split pg : 0 ≤ pg ->
  let os := pgs_per_oneshotpg spp in
  ((pg + 1) mod os <> 0 /\ (pg + 1) / os = pg / os /\ (pg + 1) mod os = pg mod os + 1) \/
  ((pg + 1) mod os = 0 /\ pg mod os = os - 1 /\ pg + 1 - os = pg / os * os /\ (pg + 1) / os = pg / os + 1).
Proof.
  intros Hp os. pose proof (po_oneshot _ (cg_ok _ Hg)) as Hos. fold os in Hos.
  pose proof (Z.div_mod pg os ltac:(lia)) as Hd. pose proof (Z.mod_pos_bound pg os Hos) as Hm.
  destruct (decide (pg mod os = os - 1)) as [E|E]; [right | left].
  - assert (pg + 1 = (pg / os + 1) * os + 0) as E1 by lia.
    destruct (div_mod_pair os (pg / os + 1) 0 ltac:(lia)) as [F1 F2]. rewrite <- E1 in F1, F2.
    split; [done|]. split; [done|]. split; [lia | done].
  - assert (pg + 1 = pg / os * os + (pg mod os + 1)) as E1 by lia.
    destruct (div_mod_pair os (pg / os) (pg mod os + 1) ltac:(lia)) as [F1 F2]. rewrite <- E1 in F1, F2.
    lia.
Qed.

(** The address after [p] in its line, as the write pointer steps. *)
Definition page_succ (p : ppa) : option ppa :=
  let os := pgs_per_oneshotpg spp in
  let pg := g_pg p + 1 in
  if decide (pg mod os <> 0) then Some (mk_ppa pg (g_blk p) 0 (g_lun p) (g_ch p) 0)
  else if decide (g_ch p + 1 <> nchs spp) then Some (mk_ppa (pg - os) (g_blk p) 0 (g_lun p) (g_ch p + 1) 0)
  else if decide (g_lun p + 1 <> luns_per_ch spp) then Some (mk_ppa (pg - os) (g_blk p) 0 (g_lun p + 1) 0 0)
  else if decide (pg <> pgs_per_blk spp) then Some (mk_ppa pg (g_blk p) 0 0 0 0)
  else None.

Lemma page_succ_off p : cppa spp p ->
  match page_succ p with
  | Some q => cppa spp q /\ g_blk q = g_blk p /\ page_off spp q = page_off spp p + 1
  | None => page_off spp p + 1 = pgs_per_line spp
  end.
Proof.
  intros [(Hc & Hl & Hp & Hb & Hpg) Hr]. geom Hg. pose proof oneshots_pos.
  pose proof (oneshot_split (g_pg p) ltac:(lia)) as Hs.
  pose proof (Z.div_mod (g_pg p) (pgs_per_oneshotpg spp) ltac:(lia)) as Hd.
  assert (0 ≤ g_pg p / pgs_per_oneshotpg spp) by (apply Z.div_pos; lia).
  unfold page_succ, cppa, ppa_in.
  destruct Hs as [(E1 & E2 & E3) | (E1 & E2 & E3 & E4)].
  - rewrite decide_True by done. rewrite page_off_mk, E2, E3. unfold page_off. cbn.
    assert (g_pg p + 1 <> pgs_per_blk spp).
    { intros E. apply E1. rewrite E, H1, Z.mul_comm. apply Z.mod_mul. lia. }
    repeat split; lia.
  - rewrite decide_False by tauto.
    destruct (div_mod_pair (pgs_per_oneshotpg spp) (g_pg p / pgs_per_oneshotpg spp) 0 ltac:(lia)) as [F1 F2].
    rewrite Z.add_0_r, <- E3 in F1, F2.
    destruct (decide (g_ch p + 1 <> nchs spp)).
    { rewrite page_off_mk, F1, F2. unfold page_off. rewrite E2. cbn. repeat split; try lia. }
    destruct (decide (g_lun p + 1 <> luns_per_ch spp)).
    { rewrite page_off_mk, F1, F2. unfold page_off. rewrite E2. cbn. repeat split; try lia; nia. }
    assert (g_ch p = nchs spp - 1) as Ec by lia. assert (g_lun p = luns_per_ch spp - 1) as El by lia.
    destruct (decide (g_pg p + 1 <> pgs_per_blk spp)).
    { rewrite page_off_mk, E4, E1. unfold page_off. rewrite E2, Ec, El. cbn. repeat split; try lia; nia. }
    unfold page_off. rewrite E2, Ec, El, ppl_eq. nia.
Qed.
End Geom.

(** ** Counting the pages of a line *)
Definition line_pages (spp : ssdparams) (b : Z) : list ppa :=
  map (page_at spp b) (seqZ 0 (pgs_per_line spp)).

Lemma elem_of_line_pages spp b p : conv_geom spp -> 0 ≤ b < blks_per_pl spp ->
  p ∈ line_pages spp b <-> cppa spp p /\ g_blk p = b.
Proof.
  intros Hg Hb. unfold line_pages. rewrite list_elem_of_fmap. split.
  - intros (off & -> & Ho%elem_of_seqZ). split; [apply page_at_in; try done; lia | done].
  - intros [Hp <-]. exists (page_off spp p). split; [by rewrite page_at_off|].
    apply elem_of_seqZ. by apply page_off_range.
Qed.

Lemma line_pages_NoDup spp b : conv_geom spp -> NoDup (line_pages spp b).
Proof.
  intros Hg. unfold line_pages. apply NoDup_fmap_2_strong; [|apply NoDup_seqZ].
  intros i j Hi%elem_of_seqZ Hj%elem_of_seqZ E.
  rewrite <- (page_off_at spp Hg b i), <- (page_off_at spp Hg b j), E; lia.
Qed.

Lemma line_pages_length spp b : conv_geom spp -> Z.of_nat (length (line_pages spp b)) = pgs_per_line spp.
Proof.
  intros Hg. unfold line_pages. rewrite length_map, length_seqZ. pose proof (ppl_pos spp Hg). lia.
Qed.
