(* ===== verification/ConvDev.v ===== *)
(** * Page and block status under the conventional FTL

    Updating a block through its address, the status of a page, and the two
    counters of a block. *)
From S2P Require Import Prelude Nvme SsdConfig ChannelModel Ssd Pqueue LineTable ConvFtl ConvGeom.

(** ** Updates through an address *)
Definition same_lun (p q : ppa) : Prop := g_ch p = g_ch q /\ g_lun p = g_lun q.
Definition same_blk (p q : ppa) : Prop := same_lun p q /\ g_pl p = g_pl q /\ g_blk p = g_blk q.
#[global] Instance same_lun_dec p q : Decision (same_lun p q).
Proof. apply and_dec; apply Z.eq_dec. Defined.
#[global] Instance same_blk_dec p q : Decision (same_blk p q).
Proof. repeat apply and_dec; apply _. Defined.

Lemma mod_lun_ok s p f l l' :
  ssd_wf s -> 0 ≤ g_ch p < nchs (sp s) -> 0 ≤ g_lun p < luns_per_ch (sp s) ->
  get_lun s p = Ok l -> f l = Ok l' -> lun_wf (sp s) l' ->
  returns (mod_lun s p f) (fun s' => sp s' = sp s /\ ssd_wf s' /\
    forall q, get_lun s' q = if decide (same_lun p q) then Ok l' else get_lun s q).
Proof.
  intros Hs Hc Hl Hg Hf Hw. pose proof (sw_ch s Hs) as Harr. unfold mod_lun, mod_ch.
  apply returns_bind, returns_amod; [destruct Harr; lia|]. intros c Hgc.
  pose proof (arr_aget _ _ _ _ _ Harr Hgc) as [Hlarr Hm].
  apply returns_bind, returns_amod; [destruct Hlarr; lia|]. intros l0 Hgl.
  assert (l0 = l) as ->.
  { unfold get_lun, get_ch in Hg. rewrite Hgc in Hg. cbn in Hg. congruence. }
  rewrite Hf. cbn. split; [done|]. split.
  - split; [apply Hs|]. apply arr_set; [done|]. split; [|done]. by apply arr_set.
  - intros q. unfold get_lun, get_ch. cbn [ssd_ch]. rewrite aget_insert by (destruct Harr; lia).
    destruct (decide (same_lun p q)) as [[E1 E2]|E].
    + rewrite decide_True by done. cbn. rewrite aget_insert by (destruct Hlarr; lia). by rewrite decide_True.
    + case_decide as E1; [|done]. cbn. rewrite aget_insert by (destruct Hlarr; lia).
      rewrite decide_False by (intros E2; by apply E). by rewrite <- E1, Hgc.
Qed.

(** The effect of an update of one block. *)
Definition blk_set (s : ssd) (p : ppa) (b' : nand_block) (s' : ssd) : Prop :=
  sp s' = sp s /\ ssd_wf s' /\
  forall q, get_blk s' q = if decide (same_blk p q) then Ok b' else get_blk s q.

Lemma mod_blk_ok s p f b b' :
  ssd_wf s -> ppa_in (sp s) p -> get_blk s p = Ok b -> f b = Ok b' -> blk_wf (sp s) b' ->
  returns (mod_blk s p f) (blk_set s p b').
Proof.
  intros Hs Hin Hb Hf Hw. pose proof Hin as (Hc & Hl & Hp & Hk & _).
  destruct (get_lun_ok s Hs p Hc Hl) as (l & Hgl & Hlw & Ht).
  destruct (arr_get _ _ _ _ Hlw Hp) as (pl & Hgp & Hpw).
  unfold get_blk, get_pl in Hb. rewrite Hgl in Hb. cbn in Hb. rewrite Hgp in Hb. cbn in Hb.
  set (pl' := with_blk pl (<[Z.to_nat (g_blk p) := b']> (pl_blk pl))).
  set (l' := with_pl l (<[Z.to_nat (g_pl p) := pl']> (lun_pl l))).
  assert (arr (blks_per_pl (sp s)) (blk_wf (sp s)) (pl_blk pl')) as Hpw' by (by apply arr_set).
  unfold mod_blk, mod_pl. eapply returns_mono.
  { apply (mod_lun_ok s p _ l l' Hs Hc Hl Hgl); [|split; [by apply arr_set | done]].
    unfold amod. rewrite Hgp. cbn. rewrite Hb. cbn. rewrite Hf. cbn.
    rewrite aset_in_range by (destruct Hpw; lia). cbn. by rewrite aset_in_range by (destruct Hlw; lia). }
  intros s' (Es & Hs' & Hq). split; [done|]. split; [done|]. intros q.
  unfold get_blk, get_pl. rewrite Hq.
  destruct (decide (same_blk p q)) as [(E1 & E2 & E3)|E].
  { rewrite decide_True by done. cbn. rewrite aget_insert, decide_True by (done || destruct Hlw; lia).
    cbn. by rewrite aget_insert, decide_True by (done || destruct Hpw; lia). }
  case_decide as E1; [|done]. cbn. rewrite aget_insert by (destruct Hlw; lia).
  assert (get_lun s q = Ok l) as ->.
  { rewrite <- Hgl. unfold get_lun, get_ch. destruct E1 as [-> ->]. done. }
  cbn. case_decide as E2; [|done]. cbn. rewrite aget_insert by (destruct Hpw; lia).
  rewrite <- E2, Hgp. cbn. rewrite decide_False; [done|]. intros E3. by apply E.
Qed.

(** ** The status of a page *)
Definition pst (s : ssd) (p : ppa) : pg_status :=
  match get_pg s p with Ok g => pg_st g | Bug _ => PG_FREE end.

Definition is_valid (st : pg_status) : bool := match st with PG_VALID => true | _ => false end.
Definition is_invalid (st : pg_status) : bool := match st with PG_INVALID => true | _ => false end.

(** The counters of a block count its pages. *)
Definition blk_counts (b : nand_block) : Prop :=
  blk_vpc b = zcount (fun g => is_valid (pg_st g)) (blk_pg b) /\
  blk_ipc b = zcount (fun g => is_invalid (pg_st g)) (blk_pg b).

Record dev_ok (s : ssd) : Prop := {
  dv_wf : ssd_wf s;
  dv_cnt p b : ppa_in (sp s) p -> get_blk s p = Ok b -> blk_counts b;
}.

Lemma timed_pst s s' p : timed s s' -> pst s' p = pst s p.
Proof. intros Ht. unfold pst. by rewrite (timed_pg _ _ _ Ht). Qed.

Lemma timed_dev s s' : timed s s' -> dev_ok s -> dev_ok s'.
Proof.
  intros Ht [Hw Hc]. split; [apply Ht|]. intros p b Hin Hb. rewrite (tm_sp _ _ Ht) in Hin.
  rewrite (timed_blk _ _ _ Ht) in Hb. by eapply Hc.
Qed.

(** The device in which page [p] has status [st] and nothing else moved. *)
Record page_set (s : ssd) (p : ppa) (st : pg_status) (s' : ssd) : Prop := {
  ps_sp : sp s' = sp s;
  ps_dev : dev_ok s';
  ps_pst q : cppa (sp s) q -> pst s' q = if decide (q = p) then st else pst s q;
}.

Lemma same_blk_pg p q spp : cppa spp p -> cppa spp q -> pls_per_lun spp = 1 ->
  same_blk p q -> g_pg p = g_pg q -> q = p.
Proof.
  intros [_ Hp] [_ Hq] _ ([E1 E2] & E3 & E4) E5. destruct p, q. cbn in *. congruence.
Qed.

Lemma same_blk_refl p : same_blk p p.
Proof. done. Qed.

Lemma same_blk_sym p q : same_blk p q -> same_blk q p.
Proof. intros ([? ?] & ? & ?). by repeat split. Qed.

Lemma same_blk_get s p q : same_blk p q -> get_blk s q = get_blk s p.
Proof. intros ([E1 E2] & E3 & E4). unfold get_blk, get_pl, get_lun, get_ch. by rewrite E1, E2, E3, E4. Qed.

(** [mod_pg] followed by an update of the block's counters. *)
Lemma set_page_ok s p st (Q : pg_status -> Prop) (F : nand_page -> res nand_page)
  (G : nand_block -> res nand_block) :
  dev_ok s -> cppa (sp s) p -> pls_per_lun (sp s) = 1 -> Q (pst s p) ->
  (forall g, Q (pg_st g) -> F g = Ok (with_pg_st st g)) ->
  (forall b b', blk_counts b -> Z.of_nat (length (blk_pg b)) = pgs_per_blk (sp s) ->
     (exists g, aget (blk_pg b) (g_pg p) = Ok g /\ Q (pg_st g) /\
        b' = with_pg b (<[Z.to_nat (g_pg p) := with_pg_st st g]> (blk_pg b))) ->
     exists i v, G b' = Ok (with_counts b' i v) /\ blk_counts (with_counts b' i v)) ->
  returns (s ← mod_pg s p F; mod_blk s p G) (page_set s p st).
Proof.
  intros Hd Hp Hpl HQ HF HG. pose proof (dv_wf _ Hd) as Hs. pose proof Hp as [Hin Hr].
  destruct (get_blk_ok s Hs p Hin) as (b & Hb & Hbw & Hn).
  pose proof Hin as (_ & _ & _ & _ & Hpg).
  destruct (arr_get _ _ _ _ Hbw Hpg) as (g & Hgg & Hgw).
  assert (Q (pg_st g)) as HQg.
  { unfold pst, get_pg in HQ. rewrite Hb in HQ. cbn in HQ. by rewrite Hgg in HQ. }
  set (b1 := with_pg b (<[Z.to_nat (g_pg p) := with_pg_st st g]> (blk_pg b))).
  assert (blk_wf (sp s) b1) as Hb1 by (split; [by apply arr_set | done]).
  apply returns_bind. eapply returns_mono.
  { unfold mod_pg. apply (mod_blk_ok s p _ b b1 Hs Hin Hb); [|done].
    unfold amod. rewrite Hgg. cbn. rewrite HF by done. cbn.
    by rewrite aset_in_range by (destruct Hbw; lia). }
  intros s1 (Es1 & Hs1 & Hq1).
  destruct (HG b b1) as (i & v & HGb & Hcnt).
  { by eapply dv_cnt. }
  { apply Hbw. }
  { by exists g. }
  eapply returns_mono.
  { apply (mod_blk_ok s1 p G b1 (with_counts b1 i v) Hs1); [by rewrite Es1 | | done | by rewrite Es1].
    rewrite Hq1. by rewrite decide_True. }
  intros s2 (Es2 & Hs2 & Hq2).
  assert (forall q, get_blk s2 q = if decide (same_blk p q) then Ok (with_counts b1 i v) else get_blk s q) as Hq.
  { intros q. rewrite Hq2. case_decide; [done|]. rewrite Hq1. by rewrite decide_False. }
  split; [congruence | |].
  - split; [done|]. intros q b2 Hqin. rewrite Hq. rewrite Es2, Es1 in Hqin.
    case_decide; [by intros [= <-] | by apply Hd].
  - intros q Hcq. unfold pst, get_pg. rewrite Hq. destruct (decide (same_blk p q)) as [E|E].
    + cbn. rewrite aget_insert by (destruct Hbw; lia). case_decide as E2.
      * rewrite decide_True by (by eapply same_blk_pg). done.
      * rewrite decide_False by congruence.
        by rewrite (same_blk_get s p q E), Hb.
    + rewrite decide_False by (intros ->; by destruct E). done.
Qed.

(** Updating one page of the list of a block. *)
Lemma counts_after (f : pg_status -> bool) l i g st :
  aget l i = Ok g ->
  zcount (fun g => f (pg_st g)) (<[Z.to_nat i := with_pg_st st g]> l) =
    zcount (fun g => f (pg_st g)) l - b2z (f (pg_st g)) + b2z (f st).
Proof. intros Hg. by rewrite (zcount_insert _ _ _ _ _ Hg). Qed.

(** An erased block. *)
Record blk_erased (s : ssd) (p : ppa) (s' : ssd) : Prop := {
  be_sp : sp s' = sp s;
  be_dev : dev_ok s';
  be_pst q : cppa (sp s) q -> pst s' q = if decide (same_blk p q) then PG_FREE else pst s q;
}.

(** The device part of [mark_page_valid]. *)
Lemma dev_set_valid_ok s p spp :
  sp s = spp -> dev_ok s -> cppa spp p -> pls_per_lun spp = 1 -> pst s p = PG_FREE ->
  returns (s ← mod_pg s p (fun g =>
             _ ← NVMEV_ASSERT (bool_decide (pg_st g = PG_FREE)); Ok (with_pg_st PG_VALID g));
           mod_blk s p (fun b =>
             _ ← NVMEV_ASSERT ((0 <=? blk_vpc b) && (blk_vpc b <? pgs_per_blk spp));
             Ok (with_counts b (blk_ipc b) (blk_vpc b + 1)))) (page_set s p PG_VALID).
Proof.
  intros <- Hd Hp Hpl Hst.
  apply (set_page_ok s p PG_VALID (fun st => st = PG_FREE)); try done.
  { intros g Hg. by rewrite bool_decide_true. }
  intros b b' [Hv Hi] Hlen (g & Hg & Hgs & ->). cbn [blk_ipc blk_vpc with_pg].
  pose proof (counts_after is_valid _ _ _ PG_VALID Hg) as Hv'.
  pose proof (counts_after is_invalid _ _ _ PG_VALID Hg) as Hi'. rewrite Hgs in Hv', Hi'. cbn in Hv', Hi'.
  pose proof (zcount_range (fun g => is_valid (pg_st g)) (blk_pg b)).
  assert (zcount (fun g => is_valid (pg_st g)) (blk_pg b) < pgs_per_blk (sp s)) as Hlt.
  { rewrite <- Hlen. eapply zcount_lt; [exact Hg|]. by rewrite Hgs. }
  rewrite (proj2 (Z.leb_le 0 _)), (proj2 (Z.ltb_lt _ _)) by lia. cbn.
  exists (blk_ipc b), (blk_vpc b + 1). split; [done|]. unfold blk_counts. cbn. lia.
Qed.

(** The device part of [mark_page_invalid]. *)
Lemma dev_set_invalid_ok s p spp :
  sp s = spp -> dev_ok s -> cppa spp p -> pls_per_lun spp = 1 -> pst s p = PG_VALID ->
  returns (s ← mod_pg s p (fun g =>
             _ ← NVMEV_ASSERT (bool_decide (pg_st g = PG_VALID)); Ok (with_pg_st PG_INVALID g));
           mod_blk s p (fun b =>
             _ ← NVMEV_ASSERT ((0 <=? blk_ipc b) && (blk_ipc b <? pgs_per_blk spp));
             _ ← NVMEV_ASSERT ((0 <? blk_vpc b) && (blk_vpc b <=? pgs_per_blk spp));
             Ok (with_counts b (blk_ipc b + 1) (blk_vpc b - 1)))) (page_set s p PG_INVALID).
Proof.
  intros <- Hd Hp Hpl Hst.
  apply (set_page_ok s p PG_INVALID (fun st => st = PG_VALID)); try done.
  { intros g Hg. by rewrite bool_decide_true. }
  intros b b' [Hv Hi] Hlen (g & Hg & Hgs & ->). cbn [blk_ipc blk_vpc with_pg].
  pose proof (counts_after is_valid _ _ _ PG_INVALID Hg) as Hv'.
  pose proof (counts_after is_invalid _ _ _ PG_INVALID Hg) as Hi'. rewrite Hgs in Hv', Hi'. cbn in Hv', Hi'.
  pose proof (zcount_range (fun g => is_valid (pg_st g)) (blk_pg b)).
  pose proof (zcount_range (fun g => is_invalid (pg_st g)) (blk_pg b)).
  assert (zcount (fun g => is_invalid (pg_st g)) (blk_pg b) < pgs_per_blk (sp s)) as Hlt.
  { rewrite <- Hlen. eapply zcount_lt; [exact Hg|]. by rewrite Hgs. }
  assert (0 < zcount (fun g => is_valid (pg_st g)) (blk_pg b)) as Hpos.
  { eapply zcount_pos; [exact Hg|]. by rewrite Hgs. }
  rewrite (proj2 (Z.leb_le 0 (blk_ipc b))), (proj2 (Z.ltb_lt (blk_ipc b) _)) by lia.
  rewrite (proj2 (Z.ltb_lt 0 (blk_vpc b))), (proj2 (Z.leb_le (blk_vpc b) _)) by lia.
  exists (blk_ipc b + 1), (blk_vpc b - 1). split; [done|]. unfold blk_counts. cbn. lia.
Qed.

(** The loop of [mark_block_free] over the pages of a block. *)
Lemma free_pages_ok spp n pgs :
  arr n (page_wf spp) pgs -> 0 ≤ n ->
  returns (for_loop (Z.to_nat n) 0 (fun i pgs => amod pgs i (fun g =>
             _ ← NVMEV_ASSERT (nsecs g =? secs_per_pg spp); Ok (with_pg_st PG_FREE g))) pgs)
    (fun pgs' => arr n (page_wf spp) pgs' /\ forall i g, aget pgs' i = Ok g -> pg_st g = PG_FREE).
Proof.
  intros Ha Hn.
  apply (returns_for_loop (fun j pgs' => arr n (page_wf spp) pgs' /\
    forall i g, i < j -> aget pgs' i = Ok g -> pg_st g = PG_FREE)).
  - split; [done|]. intros i g Hi Hg. apply aget_range in Hg. lia.
  - intros j t Hj [Ht Hf]. apply returns_amod; [destruct Ht; lia|]. intros g Hg.
    pose proof (arr_aget _ _ _ _ _ Ht Hg) as Hw. unfold page_wf in Hw.
    rewrite (proj2 (Z.eqb_eq _ _)) by done. cbn. split; [by apply arr_set|].
    intros i g' Hi Hg'. rewrite aget_insert in Hg' by (by eapply aget_range).
    case_decide; [by injection Hg' as <- | apply (Hf i); [lia | done]].
  - intros t [Ht Hf]. split; [done|]. intros i g Hg. apply (Hf i); [|done].
    apply aget_range in Hg. destruct Ht. lia.
Qed.

Lemma mark_block_free_ok c p :
  let s := cv_ssd c in
  dev_ok s -> cppa (sp s) p -> pls_per_lun (sp s) = 1 ->
  returns (mark_block_free c p) (fun c' => exists s', c' = with_ssd c s' /\ blk_erased s p s').
Proof.
  intros s Hd Hp Hpl. pose proof (dv_wf _ Hd) as Hs. pose proof Hp as [Hin Hr].
  destruct (get_blk_ok s Hs p Hin) as (b & Hb & Hbw & Hn).
  unfold mark_block_free. fold s. pose proof (po_pgs _ (sw_params s Hs)).
  destruct (proj1 (returns_iff _ _) (free_pages_ok (sp s) _ _ Hbw ltac:(lia))) as (pgs & He & Hpw & Hf).
  set (b' := mk_block pgs (npgs b) 0 0 (i32 (erase_cnt b + 1)) (blk_wp b)).
  apply returns_bind. eapply returns_mono.
  { apply (mod_blk_ok s p _ b b' Hs Hin Hb); [|by split].
    rewrite He. cbn [mbind res_bind]. by rewrite (proj2 (Z.eqb_eq _ _)) by done. }
  intros s' (Es & Hs' & Hq). exists s'. split; [done|].
  assert (forall f, f PG_FREE = false -> zcount (fun g => f (pg_st g)) pgs = 0) as Hz.
  { intros f Hff. apply zcount_zero. intros g Hg. apply list_elem_of_lookup in Hg as [i Hi].
    rewrite (Hf (Z.of_nat i) g); [done|]. apply aget_Ok. split; [lia|]. by rewrite Nat2Z.id. }
  split; [done | |].
  - split; [done|]. intros q b2 Hqin. rewrite Hq. rewrite Es in Hqin.
    case_decide; [intros [= <-] | by apply Hd]. split; cbn; by rewrite Hz.
  - intros q [Hqin _]. unfold pst, get_pg. rewrite Hq. case_decide as E; [|done]. cbn.
    destruct (aget pgs (g_pg q)) as [g|] eqn:Eg; [by eapply Hf | done].
Qed.

(** [lunp->gc_endtime = ...] touches no block. *)
Lemma stamp_gc_endtime_ok s p :
  ssd_wf s -> ppa_in (sp s) p -> returns (mod_lun s p stamp_gc_endtime) (timed s).
Proof.
  intros Hs (Hc & Hl & _). destruct (get_lun_ok s Hs p Hc Hl) as (l & Hg & Hw & Ht).
  eapply returns_mono; [by apply (mod_lun_ok s p stamp_gc_endtime l _ Hs Hc Hl Hg eq_refl)|].
  intros s' (Es & Hs' & Hq). split; [done..|]. intros q. unfold get_pl. rewrite Hq.
  case_decide as E; [|done]. assert (get_lun s q = Ok l) as ->; [|done].
  rewrite <- Hg. unfold get_lun, get_ch. by destruct E as [-> ->].
Qed.
