(* ===== verification/ConvInv.v ===== *)
(** * The invariant of the conventional FTL

    Every line has one role.  The line table counts the valid pages of each
    line, a page is free exactly when its write pointer has not reached it,
    and the two mapping tables are inverse on the live pages.  While garbage
    collection empties a line, that line has the role [LErasing]. *)
From S2P Require Import Prelude Nvme SsdConfig ChannelModel Ssd Pqueue LineTable ConvFtl ConvGeom ConvDev.

(** ** The line table under the queue's callbacks *)

(** Only positions of lines in [P] differ. *)
Definition same_lines (P : Z -> Prop) (t t' : list line) : Prop :=
  length t' = length t /\
  forall b l, aget t b = Ok l -> exists l', aget t' b = Ok l' /\ id l' = id l /\ ipc l' = ipc l /\
    vpc l' = vpc l /\ (~ P b -> pos l' = pos l).

Lemma same_lines_refl P t : same_lines P t t.
Proof. split; [done|]. intros b l Hl. by exists l. Qed.

Lemma repos_same P t t' : repos P t t' -> same_lines P t t'.
Proof.
  induction 1 as [|t' a p HP Hr [Hlen IH]]; [apply same_lines_refl|]. split.
  - cbn. unfold victim_line_set_pos. by rewrite line_upd_length.
  - intros b l Hl. destruct (IH b l Hl) as (l' & Hl' & E1 & E2 & E3 & E4). cbn.
    unfold victim_line_set_pos. rewrite aget_line_upd. case_decide as Hab; [subst a|by exists l'].
    rewrite Hl'. cbn. eexists. split; [done|]. split; [done|]. split; [done|]. by split.
Qed.

Lemma same_lines_inv P t t' b l' : same_lines P t t' -> aget t' b = Ok l' ->
  exists l, aget t b = Ok l /\ id l' = id l /\ ipc l' = ipc l /\ vpc l' = vpc l /\ (~ P b -> pos l' = pos l).
Proof.
  intros [Hlen H] Hl'. destruct (aget_in_range t b) as [l Hl]; [rewrite <- Hlen; by eapply aget_range|].
  exists l. split; [done|]. destruct (H b l Hl) as (l2 & E & ?). rewrite Hl' in E. by injection E as <-.
Qed.

Lemma line_at_eq t b l : aget t b = Ok l -> line_at t b = l.
Proof. intros H. unfold line_at. by rewrite H. Qed.

(** ** Roles *)
Inductive line_role : Set := LFree | LFull | LVictim | LOpen (io : io_type) | LErasing.
#[global] Instance io_type_dec : EqDecision io_type.
Proof. solve_decision. Defined.
#[global] Instance line_role_dec : EqDecision line_role.
Proof. solve_decision. Defined.

(** The address a write pointer is at. *)
Definition wp_ppa (w : write_pointer) : ppa := mk_ppa (wp_pg w) (wp_blk w) (wp_pl w) (wp_lun w) (wp_ch w) 0.

Section Lines.
Context (spp : ssdparams) (Hg : conv_geom spp).

(** The pages of a line that have been written since it was free. *)
Definition written_pgs (r : line_role) (ws : io_type -> ppa) : Z :=
  match r with
  | LFree | LErasing => 0
  | LFull | LVictim => pgs_per_line spp
  | LOpen io => page_off spp (ws io)
  end.

Definition vcount (st : ppa -> pg_status) (b : Z) : Z :=
  zcount (fun p => is_valid (st p)) (line_pages spp b).

Record line_ok (st : ppa -> pg_status) (r : line_role) (ws : io_type -> ppa) (b : Z) (l : line) : Prop := {
  ln_id : id l = b;
  ln_pos : r <> LVictim -> pos l = 0;
  ln_vpc : r <> LErasing -> vpc l = vcount st b;
  ln_sum : r <> LErasing -> vpc l + ipc l = written_pgs r ws;
  ln_ipc : r <> LErasing -> 0 ≤ ipc l;
  ln_full : r = LFull -> vpc l = pgs_per_line spp;
  ln_victim : r = LVictim -> vpc l < pgs_per_line spp;
}.

(** [st] is the status of the pages, [ws] the addresses of the two write pointers, [er] the
    line garbage collection is emptying. *)
Record lines_ok (st : ppa -> pg_status) (er : option Z) (ro : Z -> line_role) (ws : io_type -> ppa)
  (m : line_mgmt) : Prop := {
  lo_len : Z.of_nat (length (lm_lines m)) = blks_per_pl spp;
  lo_ws io : cppa spp (ws io);
  lo_open io b : ro b = LOpen io <-> b = g_blk (ws io);
  lo_er b : ro b = LErasing <-> er = Some b;
  lo_er_in b : er = Some b -> 0 ≤ b < blks_per_pl spp;
  lo_line b l : aget (lm_lines m) b = Ok l -> line_ok st (ro b) ws b l;
  lo_st p : cppa spp p -> ro (g_blk p) <> LErasing ->
    st p = PG_FREE <-> written_pgs (ro (g_blk p)) ws ≤ page_off spp p;
  lo_free_nd : NoDup (lm_free_line_list m);
  lo_free b : b ∈ lm_free_line_list m <-> 0 ≤ b < blks_per_pl spp /\ ro b = LFree;
  lo_fulls_nd : NoDup (lm_full_line_list m);
  lo_fulls b : b ∈ lm_full_line_list m <-> 0 ≤ b < blks_per_pl spp /\ ro b = LFull;
  lo_pq : pq_wf (lm_victim_line_pq m) (lm_lines m);
  lo_pq_in b : pq_in (lm_victim_line_pq m) b <-> 0 ≤ b < blks_per_pl spp /\ ro b = LVictim;
  lo_avail : pq_avail (lm_victim_line_pq m) = blks_per_pl spp + 1;
  lo_free_cnt : lm_free_line_cnt m = Z.of_nat (length (lm_free_line_list m));
  lo_full_cnt : lm_full_line_cnt m = Z.of_nat (length (lm_full_line_list m));
  lo_victim_cnt : lm_victim_line_cnt m = pq_size (lm_victim_line_pq m) - 1;
  lo_total : lm_free_line_cnt m + lm_full_line_cnt m + lm_victim_line_cnt m + 2
    + (if er is Some _ then 1 else 0) = blks_per_pl spp;
}.

(** Free pages: whole lines and the rest of the two open lines. *)
Definition room (ws : io_type -> ppa) (m : line_mgmt) : Z :=
  lm_free_line_cnt m * pgs_per_line spp + (pgs_per_line spp - page_off spp (ws USER_IO))
  + (pgs_per_line spp - page_off spp (ws GC_IO)).

(** ** Counting valid pages *)
Lemma vcount_range st b : 0 ≤ vcount st b ≤ pgs_per_line spp.
Proof. rewrite <- (line_pages_length spp b Hg). apply zcount_range. Qed.

Lemma vcount_pos st p : cppa spp p -> st p = PG_VALID -> 0 < vcount st (g_blk p).
Proof.
  intros Hp Hst. eapply zcount_true.
  - apply elem_of_line_pages; [done | apply Hp | done].
  - by rewrite Hst.
Qed.

(** One page changes status. *)
Lemma vcount_upd st st' p b :
  cppa spp p -> 0 ≤ b < blks_per_pl spp ->
  (forall q, cppa spp q -> q <> p -> st' q = st q) ->
  vcount st' b = vcount st b +
    (if decide (b = g_blk p) then b2z (is_valid (st' p)) - b2z (is_valid (st p)) else 0).
Proof.
  intros Hp Hb H. unfold vcount. case_decide as E.
  - rewrite (zcount_upd (fun q => is_valid (st q)) (fun q => is_valid (st' q)) _ p); [lia | | |].
    + by apply line_pages_NoDup.
    + by apply elem_of_line_pages.
    + intros q Hq Hne. apply elem_of_line_pages in Hq as [Hq _]; [|done..]. by rewrite H.
  - rewrite (zcount_ext (fun q => is_valid (st' q)) (fun q => is_valid (st q))); [lia|].
    intros q Hq. apply elem_of_line_pages in Hq as [Hq Eb]; [|done..]. rewrite H; [done..|congruence].
Qed.

(** ** Taking one valid page out of a line *)

(** The table after line [a] lost a valid page, positions of queued lines
    apart. *)
Record demoted (m : line_mgmt) (a : Z) (m' : line_mgmt) : Prop := {
  de_len : length (lm_lines m') = length (lm_lines m);
  de_line b l' : aget (lm_lines m') b = Ok l' -> exists l, aget (lm_lines m) b = Ok l /\ id l' = id l /\
    ipc l' = ipc l + (if decide (b = a) then 1 else 0) /\
    vpc l' = vpc l - (if decide (b = a) then 1 else 0) /\
    (~ pq_in (lm_victim_line_pq m) b -> pos l' = pos l);
  de_pq : pq_wf (lm_victim_line_pq m') (lm_lines m');
  de_in b : pq_in (lm_victim_line_pq m') b <-> pq_in (lm_victim_line_pq m) b;
  de_size : pq_size (lm_victim_line_pq m') = pq_size (lm_victim_line_pq m);
  de_avail : pq_avail (lm_victim_line_pq m') = pq_avail (lm_victim_line_pq m);
  de_rest : lm_free_line_list m' = lm_free_line_list m /\ lm_full_line_list m' = lm_full_line_list m /\
    lm_tt_lines m' = lm_tt_lines m /\ lm_free_line_cnt m' = lm_free_line_cnt m /\
    lm_full_line_cnt m' = lm_full_line_cnt m /\ lm_victim_line_cnt m' = lm_victim_line_cnt m;
}.

(** A line that is not queued changes freely; a queued one keeps its
    position and, but for [pqueue_change_priority], its priority. *)
Lemma pq_wf_insert q t a l l' :
  pq_wf q t -> aget t a = Ok l -> pos l' = pos l -> (vpc l' = vpc l \/ ~ pq_in q a) ->
  pq_wf q (<[Z.to_nat a := l']> t).
Proof.
  intros Hq Ha Hp Hv. pose proof (aget_range _ _ _ Ha) as Hr.
  apply (pq_wf_ext q t); [|done]. intros n Hn. cbn.
  unfold victim_line_get_pri, victim_line_get_pos, line_at, line_valid. rewrite length_insert, aget_insert by done.
  destruct (decide (a = n)) as [<-|]; [|done]. rewrite Ha. destruct Hv as [->|]; done.
Qed.

(** A line outside the queue changes freely. *)
Lemma pq_wf_outside q t a l' :
  pq_wf q t -> 0 ≤ a < Z.of_nat (length t) -> ~ pq_in q a -> pq_wf q (<[Z.to_nat a := l']> t).
Proof.
  intros Hq Hr Ha. apply (pq_wf_ext q t); [|done]. intros n Hn. cbn.
  unfold victim_line_get_pri, victim_line_get_pos, line_at, line_valid. rewrite length_insert, aget_insert by done.
  by destruct (decide (a = n)) as [<-|].
Qed.

Lemma demote_ok st er ro ws m a l :
  lines_ok st er ro ws m -> aget (lm_lines m) a = Ok l -> 0 < vpc l ≤ pgs_per_line spp ->
  returns (lines ← aset (lm_lines m) a (mk_line (id l) (ipc l + 1) (vpc l) (pos l));
           if negb (pos l =? 0) then
             '(q, lines) ← pqueue_change_priority (lm_victim_line_pq m) lines (u64 (vpc l - 1)) a;
             Ok (lm_with_victim m q lines (lm_victim_line_cnt m))
           else
             lines ← aset lines a (mk_line (id l) (ipc l + 1) (vpc l - 1) (pos l));
             Ok (lm_with_lines m lines)) (demoted m a).
Proof.
  intros Hl Ha Hv. pose proof (aget_range _ _ _ Ha) as Hr. pose proof (cg_line _ Hg) as Hppl.
  rewrite aset_in_range by done. cbn [mbind res_bind].
  set (l1 := mk_line (id l) (ipc l + 1) (vpc l) (pos l)).
  set (t1 := <[Z.to_nat a := l1]> (lm_lines m)).
  assert (aget t1 a = Ok l1) as Ha1 by (unfold t1; rewrite aget_insert by done; by rewrite decide_True).
  assert (pq_wf (lm_victim_line_pq m) t1) as Hq1.
  { eapply pq_wf_insert; [apply Hl | exact Ha | done | by left]. }
  assert (forall b l', aget t1 b = Ok l' -> exists l0, aget (lm_lines m) b = Ok l0 /\ id l' = id l0 /\
    ipc l' = ipc l0 + (if decide (b = a) then 1 else 0) /\ vpc l' = vpc l0 /\ pos l' = pos l0) as Hb1.
  { intros b l'. unfold t1. rewrite aget_insert by done. destruct (decide (a = b)) as [<-|Hne].
    - intros [= <-]. exists l. by rewrite decide_True.
    - intros E. exists l'. rewrite decide_False by congruence. split; [done|]. split; [done|]. lia. }
  destruct (Z.eqb_spec (pos l) 0) as [E|E]; cbn [negb].
  - rewrite aset_in_range by (unfold t1; by rewrite length_insert). cbn [mbind res_bind returns].
    assert (~ pq_in (lm_victim_line_pq m) a) as Hn.
    { intros Hin. pose proof (pq_in_pos _ _ _ (lo_pq _ _ _ _ _ Hl) Hin) as Hp. cbn in Hp.
      unfold victim_line_get_pos in Hp. rewrite (line_at_eq _ _ _ Ha) in Hp. lia. }
    assert (Z.of_nat (length t1) = Z.of_nat (length (lm_lines m))) as Hlen by (unfold t1; by rewrite length_insert).
    split; cbn; try done.
    + unfold t1. by rewrite !length_insert.
    + intros b l'. rewrite aget_insert by lia. destruct (decide (a = b)) as [<-|Hne].
      * intros [= <-]. exists l. by rewrite !decide_True.
      * intros Hb. destruct (Hb1 b l' Hb) as (l0 & ? & ? & E1 & E2 & E3). exists l0.
        rewrite decide_False in * by congruence. split; [done|]. split; [done|]. split; [done|]. split; [lia | done].
    + eapply pq_wf_insert; [exact Hq1 | exact Ha1 | done | by right].
  - assert (ro a = LVictim) as Hro.
    { destruct (decide (ro a = LVictim)); [done|]. exfalso. apply E.
      by eapply ln_pos; [eapply lo_line|]. }
    assert (pq_in (lm_victim_line_pq m) a) as Hin.
    { apply (lo_pq_in _ _ _ _ _ Hl). split; [rewrite <- (lo_len _ _ _ _ _ Hl); lia | done]. }
    rewrite u64_small by (unfold U64_MAX; lia).
    destruct (change_priority_ok (lm_victim_line_pq m) t1 a (vpc l - 1) Hq1 Hin ltac:(cbn; lia))
      as (q' & t' & -> & Hq' & Hs & Hav & Hi & Hrep).
    apply repos_same in Hrep. cbn in Hrep. cbn [mbind res_bind returns].
    assert (length (victim_line_set_pri a (vpc l - 1) t1) = length (lm_lines m)) as Hlen.
    { unfold victim_line_set_pri, t1. by rewrite line_upd_length, length_insert. }
    split; cbn; try done.
    + by rewrite (proj1 Hrep).
    + intros b l' Hb. destruct (same_lines_inv _ _ _ _ _ Hrep Hb) as (l2 & Hl2 & E1 & E2 & E3 & E4).
      unfold victim_line_set_pri in Hl2. rewrite aget_line_upd in Hl2.
      destruct (decide (a = b)) as [<-|Hne].
      * rewrite Ha1 in Hl2. cbn in Hl2. injection Hl2 as <-. cbn in *. rewrite i32_small in E3 by lia.
        exists l. rewrite !decide_True by done. done.
      * destruct (Hb1 b l2 Hl2) as (l0 & ? & ? & E5 & E6 & E7). exists l0.
        rewrite !decide_False in * by congruence. split; [done|]. split; [congruence|].
        split; [lia|]. split; [lia|]. intros Hn. rewrite <- E7. by apply E4.
Qed.

(** The roles after a page of line [a] became invalid. *)
Definition demote_role (ro : Z -> line_role) (a : Z) : Z -> line_role :=
  if decide (ro a = LFull) then fun b => if decide (b = a) then LVictim else ro b else ro.

Lemma written_bound r ws : (forall io, cppa spp (ws io)) -> 0 ≤ written_pgs r ws ≤ pgs_per_line spp.
Proof.
  intros Hw. pose proof (ppl_pos spp Hg). destruct r as [| | |io|]; cbn; try lia.
  pose proof (page_off_range spp Hg (ws io) (Hw io)). lia.
Qed.

Lemma line_ok_demoted st st' ro ws p l l' b :
  cppa spp p -> st p = PG_VALID -> st' p = PG_INVALID ->
  (forall q, cppa spp q -> q <> p -> st' q = st q) -> 0 ≤ b < blks_per_pl spp ->
  line_ok st (ro b) ws b l -> (g_blk p = b -> ro b <> LFull) ->
  id l' = id l -> ipc l' = ipc l + (if decide (b = g_blk p) then 1 else 0) ->
  vpc l' = vpc l - (if decide (b = g_blk p) then 1 else 0) -> (ro b <> LVictim -> pos l' = pos l) ->
  line_ok st' (ro b) ws b l'.
Proof.
  intros Hp Hst Hst' Hq Hb [] Hnf E1 E2 E3 E4.
  pose proof (vcount_upd st st' p b Hp Hb Hq) as Hc. rewrite Hst, Hst' in Hc. cbn in Hc.
  split; intros; rewrite ?E1, ?E2, ?E3, ?E4 by done; try done;
    repeat match goal with H : ?P -> _, H' : ?P |- _ => specialize (H H') end; try case_decide; try lia.
  exfalso. by apply Hnf.
Qed.

Lemma filter_ne_id (l : list Z) a : a ∉ l -> filter (fun b => b <> a) l = l.
Proof.
  induction l as [|c l IH]; [done|]. intros [H1 H2]%not_elem_of_cons.
  rewrite filter_cons_True by congruence. by rewrite IH.
Qed.

Lemma filter_ne_length (l : list Z) a :
  NoDup l -> a ∈ l -> Z.of_nat (length (filter (fun b => b <> a) l)) = Z.of_nat (length l) - 1.
Proof.
  induction 1 as [|c l Hc Hn IH]; [by intros ?%not_elem_of_nil|].
  intros [<-|Ha]%elem_of_cons.
  - rewrite filter_cons_False by tauto. rewrite filter_ne_id by done. cbn. lia.
  - rewrite filter_cons_True by (intros ->; by apply Hc). cbn [length]. specialize (IH Ha). lia.
Qed.

Lemma written_demote ro a r b ws :
  demote_role ro a b = r -> written_pgs r ws = written_pgs (ro b) ws.
Proof.
  unfold demote_role. intros <-. case_decide as E; [|done]. case_decide; [|done]. subst. by rewrite E.
Qed.

Lemma demote_role_other ro a b r : r <> LFull -> r <> LVictim -> demote_role ro a b = r <-> ro b = r.
Proof.
  intros H1 H2. unfold demote_role. case_decide as E; [|done]. case_decide; [subst|done].
  rewrite E. split; intros; congruence.
Qed.

Lemma st_demoted st st' er ro ws m p :
  lines_ok st er ro ws m -> cppa spp p -> st p = PG_VALID -> st' p = PG_INVALID ->
  (forall q, cppa spp q -> q <> p -> st' q = st q) ->
  forall q, cppa spp q -> demote_role ro (g_blk p) (g_blk q) <> LErasing ->
    st' q = PG_FREE <-> written_pgs (demote_role ro (g_blk p) (g_blk q)) ws ≤ page_off spp q.
Proof.
  intros Hl Hp Hst Hst' Hq q Hcq Hr. rewrite (written_demote ro (g_blk p) _ (g_blk q)) by done.
  assert (ro (g_blk q) <> LErasing) as Hr' by (by rewrite <- (demote_role_other ro (g_blk p))).
  rewrite <- (lo_st _ _ _ _ _ Hl q Hcq Hr').
  destruct (decide (q = p)) as [->|]; [rewrite Hst, Hst'; split; congruence | by rewrite Hq].
Qed.

Lemma line_vpc st er ro ws m p l :
  lines_ok st er ro ws m -> cppa spp p -> st p = PG_VALID -> ro (g_blk p) <> LErasing ->
  aget (lm_lines m) (g_blk p) = Ok l ->
  0 < vpc l ≤ pgs_per_line spp /\ 0 ≤ ipc l < pgs_per_line spp /\
  (vpc l = pgs_per_line spp <-> ro (g_blk p) = LFull) /\ (vpc l = pgs_per_line spp -> ipc l = 0).
Proof.
  intros Hl Hp Hst Hr Ha. pose proof (lo_line _ _ _ _ _ Hl _ _ Ha) as Ho.
  pose proof (vcount_pos st p Hp Hst) as Hv. rewrite <- (ln_vpc _ _ _ _ _ Ho Hr) in Hv.
  pose proof (ln_sum _ _ _ _ _ Ho Hr) as Hs. pose proof (ln_ipc _ _ _ _ _ Ho Hr) as Hi.
  pose proof (written_bound (ro (g_blk p)) ws (lo_ws _ _ _ _ _ Hl)) as Hw.
  split; [lia|]. split; [lia|]. split; [|lia]. split; [|by apply Ho].
  intros E. destruct (ro (g_blk p)) as [| | |io|] eqn:Er; cbn in Hs; try lia; [done | |].
  - pose proof (ln_victim _ _ _ _ _ Ho eq_refl). lia.
  - pose proof (page_off_range spp Hg _ (lo_ws _ _ _ _ _ Hl io)). lia.
Qed.

Lemma lines_range st er ro ws m : lines_ok st er ro ws m ->
  0 ≤ lm_free_line_cnt m /\ 0 ≤ lm_full_line_cnt m /\ 0 ≤ lm_victim_line_cnt m /\
  lm_free_line_cnt m + lm_full_line_cnt m + lm_victim_line_cnt m + 2 ≤ blks_per_pl spp ≤ 65535.
Proof.
  intros Hl. pose proof (lo_total _ _ _ _ _ Hl) as Ht. pose proof (lo_free_cnt _ _ _ _ _ Hl).
  pose proof (lo_full_cnt _ _ _ _ _ Hl). pose proof (lo_victim_cnt _ _ _ _ _ Hl).
  destruct (lo_pq _ _ _ _ _ Hl) as [V Hi]. pose proof (ho_size _ _ _ _ (pi_holes _ _ _ Hi)).
  pose proof (po_blks _ (cg_ok _ Hg)). destruct er; lia.
Qed.

Lemma invalidate_line_ok st st' er ro ws m p :
  lines_ok st er ro ws m -> cppa spp p -> st p = PG_VALID -> st' p = PG_INVALID ->
  (forall q, cppa spp q -> q <> p -> st' q = st q) -> ro (g_blk p) <> LErasing ->
  returns (invalidate_line spp m (g_blk p)) (fun m' =>
    lines_ok st' er (demote_role ro (g_blk p)) ws m' /\ lm_free_line_cnt m' = lm_free_line_cnt m).
Proof.
  intros Hl Hp Hst Hst' Hq Hr. pose proof Hp as [(_ & _ & _ & Hb & _) _].
  set (a := g_blk p) in *. pose proof (lo_len _ _ _ _ _ Hl) as Hlen.
  destruct (aget_in_range (lm_lines m) a ltac:(lia)) as [l Ha].
  destruct (line_vpc _ _ _ _ _ _ _ Hl Hp Hst Hr Ha) as (Hv & Hi & Hfull & Hf0). fold a in Hfull.
  pose proof (lines_range _ _ _ _ _ Hl) as Hrng.
  pose proof (st_demoted st st' er ro ws m p Hl Hp Hst Hst' Hq) as Hst2. fold a in Hst2.
  unfold invalidate_line. rewrite Ha. cbn [mbind res_bind].
  rewrite (proj2 (Z.leb_le 0 (ipc l))), (proj2 (Z.ltb_lt (ipc l) _)) by lia. cbn [andb NVMEV_ASSERT mbind res_bind].
  assert ((if vpc l =? pgs_per_line spp then NVMEV_ASSERT (ipc l =? 0) else Ok tt) = Ok tt) as ->.
  { destruct (Z.eqb_spec (vpc l) (pgs_per_line spp)); [|done]. by rewrite (proj2 (Z.eqb_eq _ _)) by auto. }
  rewrite (proj2 (Z.ltb_lt 0 (vpc l))), (proj2 (Z.leb_le (vpc l) _)) by lia. cbn [andb NVMEV_ASSERT mbind res_bind].
  apply returns_assoc. eapply returns_mono; [by eapply demote_ok|].
  intros m1 [Dlen Dline Dpq Din Dsize Dav (D1 & D2 & D3 & D4 & D5 & D6)].
  assert (forall b l', aget (lm_lines m1) b = Ok l' -> 0 ≤ b < blks_per_pl spp) as Hrb.
  { intros b l' Hb'. rewrite <- Hlen, <- Dlen. by eapply aget_range. }
  destruct (Z.eqb_spec (vpc l) (pgs_per_line spp)) as [E|E].
  - pose proof (proj1 Hfull E) as Hro.
    assert (forall b, demote_role ro a b = if decide (b = a) then LVictim else ro b) as Hdr.
    { intros b. unfold demote_role. by rewrite decide_True. }
    set (m2 := lm_with_full _ _ _). change (lm_victim_line_pq m2) with (lm_victim_line_pq m1).
    change (lm_lines m2) with (lm_lines m1).
    assert (~ pq_in (lm_victim_line_pq m1) a) as Hnin.
    { rewrite Din, (lo_pq_in _ _ _ _ _ Hl). intros [_ ?]. congruence. }
    destruct (insert_ok (lm_victim_line_pq m1) (lm_lines m1) a Dpq) as (q2 & t2 & -> & Hq2 & Hs2 & Hav2 & Hin2 & Hrep).
    { rewrite Dsize, Dav, (lo_avail _ _ _ _ _ Hl). pose proof (lo_victim_cnt _ _ _ _ _ Hl). lia. }
    { cbn. unfold line_valid. lia. }
    { done. }
    apply repos_same in Hrep. cbn [mbind res_bind returns].
    assert (a ∈ lm_full_line_list m) as Hain by (by apply (lo_fulls _ _ _ _ _ Hl)).
    assert (a ∉ lm_free_line_list m) as Hafr by (intros [_ ?]%(lo_free _ _ _ _ _ Hl); congruence).
    pose proof (filter_ne_length _ _ (lo_fulls_nd _ _ _ _ _ Hl) Hain) as Hfl.
    split; [|cbn; by rewrite D4].
    split; cbn; rewrite ?D1, ?D2, ?D4, ?D5, ?D6, ?(filter_ne_id _ _ Hafr); try (apply Hl).
    + by rewrite (proj1 Hrep), Dlen.
    + intros io b. rewrite demote_role_other by done. apply Hl.
    + intros b. rewrite demote_role_other by done. apply Hl.
    + intros b l2 Hl2. destruct (same_lines_inv _ _ _ _ _ Hrep Hl2) as (l1 & Hl1 & E1 & E2 & E3 & E4).
      destruct (Dline b l1 Hl1) as (l0 & Hl0 & F1 & F2 & F3 & F4).
      pose proof (lo_line _ _ _ _ _ Hl _ _ Hl0) as Hlo. rewrite Hdr.
      pose proof (vcount_upd st st' p b Hp (Hrb b l1 Hl1) Hq) as Hc. rewrite Hst, Hst' in Hc. fold a in Hc. cbn in Hc.
      destruct Hlo as [G1 G2 G3 G4 G5 G6 G7].
      destruct (decide (b = a)) as [->|Hne].
      * rewrite Hro in *. specialize (G3 ltac:(done)). specialize (G4 ltac:(done)). specialize (G5 ltac:(done)).
        rewrite Ha in Hl0. injection Hl0 as <-. cbn in G4.
        split; intros; cbn; try done; try lia.
      * split; intros; try done; rewrite ?E1, ?E2, ?E3, ?F1, ?F2, ?F3;
          repeat match goal with H : ?P -> _, H' : ?P |- _ => specialize (H H') end; try done; try lia.
        rewrite E4, F4; [done | |].
        -- rewrite (lo_pq_in _ _ _ _ _ Hl). tauto.
        -- rewrite Din, (lo_pq_in _ _ _ _ _ Hl). tauto.
    + exact Hst2.
    + intros b. rewrite demote_role_other by done. apply (lo_free _ _ _ _ _ Hl).
    + apply NoDup_filter, Hl.
    + intros b. rewrite list_elem_of_filter, (lo_fulls _ _ _ _ _ Hl), Hdr. case_decide; [subst|tauto].
      split; [tauto | intros [_ ?]; congruence].
    + done.
    + intros b. rewrite Hin2, Din, (lo_pq_in _ _ _ _ _ Hl), Hdr. case_decide; [subst|tauto].
      rewrite Hro. split; [by intros _ | by left].
    + by rewrite Hav2, Dav, (lo_avail _ _ _ _ _ Hl).
    + rewrite Hfl, (lo_full_cnt _ _ _ _ _ Hl). apply u32_small. unfold U32_MAX.
      pose proof (lo_full_cnt _ _ _ _ _ Hl). lia.
    + rewrite Hs2, Dsize. pose proof (lo_victim_cnt _ _ _ _ _ Hl). rewrite u32_small by (unfold U32_MAX; lia). lia.
    + pose proof (lo_full_cnt _ _ _ _ _ Hl). pose proof (lo_total _ _ _ _ _ Hl).
      rewrite !u32_small by (unfold U32_MAX; lia). lia.
  - assert (ro a <> LFull) as Hro by (intros Hro; by apply E, Hfull).
    assert (demote_role ro a = ro) as Hdr by (unfold demote_role; by rewrite decide_False).
    rewrite Hdr in *. cbn [returns]. split; [|done].
    split; rewrite ?Dlen, ?D1, ?D2, ?D4, ?D5, ?D6, ?Dsize, ?Dav; try (apply Hl); try done.
    + intros b l1 Hl1. destruct (Dline b l1 Hl1) as (l0 & Hl0 & F1 & F2 & F3 & F4).
      eapply line_ok_demoted; try done; [by eapply Hrb | by apply Hl | by intros <- |].
      intros Hnv. apply F4. rewrite (lo_pq_in _ _ _ _ _ Hl). tauto.
    + intros b. rewrite Din. apply Hl.
Qed.

(** ** Writing the page at a write pointer *)
Definition wset (ws : io_type -> ppa) (io : io_type) (q : ppa) : io_type -> ppa :=
  fun i => if decide (i = io) then q else ws i.

Section Place.
Context (st st' : ppa -> pg_status) (er : option Z) (ro : Z -> line_role) (ws : io_type -> ppa) (m : line_mgmt).
Context (io : io_type) (Hl : lines_ok st er ro ws m).
Context (Hst' : st' (ws io) = PG_VALID) (Hq : forall q, cppa spp q -> q <> ws io -> st' q = st q).

Lemma ws_role : ro (g_blk (ws io)) = LOpen io.
Proof. by apply (lo_open _ _ _ _ _ Hl). Qed.

Lemma ws_free : st (ws io) = PG_FREE.
Proof. apply (lo_st _ _ _ _ _ Hl); rewrite ?ws_role; [apply Hl | done | cbn; lia]. Qed.

Lemma st_placed q : cppa spp q -> g_blk q = g_blk (ws io) ->
  st' q = PG_FREE <-> page_off spp (ws io) + 1 ≤ page_off spp q.
Proof.
  intros Hc Hb. pose proof (lo_st _ _ _ _ _ Hl q Hc) as Hs. rewrite Hb, ws_role in Hs. cbn in Hs.
  destruct (decide (q = ws io)) as [->|Hne].
  - rewrite Hst'. split; [done | lia].
  - rewrite Hq, Hs by done. split; [|lia]. intros Hle.
    assert (page_off spp q <> page_off spp (ws io)); [|lia].
    intros E. apply Hne. apply (page_off_inj spp Hg); [done | apply Hl | done | done].
Qed.

Lemma vcount_placed b : 0 ≤ b < blks_per_pl spp ->
  vcount st' b = vcount st b + (if decide (b = g_blk (ws io)) then 1 else 0).
Proof.
  intros Hb. rewrite (vcount_upd st st' (ws io) b (lo_ws _ _ _ _ _ Hl io) Hb Hq), Hst', ws_free.
  cbn. by case_decide.
Qed.

(** The line after the page is counted. *)
Lemma validate_ok : exists l, aget (lm_lines m) (g_blk (ws io)) = Ok l /\
  line_ok st (LOpen io) ws (g_blk (ws io)) l /\
  validate_line spp m (g_blk (ws io)) = Ok (lm_with_lines m
    (<[Z.to_nat (g_blk (ws io)) := mk_line (id l) (ipc l) (vpc l + 1) (pos l)]> (lm_lines m))).
Proof.
  pose proof (lo_ws _ _ _ _ _ Hl io) as Hc. pose proof Hc as [(_ & _ & _ & Hb & _) _].
  destruct (aget_in_range (lm_lines m) (g_blk (ws io))) as [l Ha]; [rewrite (lo_len _ _ _ _ _ Hl); lia|].
  pose proof (lo_line _ _ _ _ _ Hl _ _ Ha) as Ho. rewrite ws_role in Ho. exists l. split; [done|]. split; [done|].
  pose proof (ln_vpc _ _ _ _ _ Ho ltac:(done)) as Hv. pose proof (vcount_range st (g_blk (ws io))).
  pose proof (ln_sum _ _ _ _ _ Ho ltac:(done)) as Hs. pose proof (ln_ipc _ _ _ _ _ Ho ltac:(done)). cbn in Hs.
  pose proof (page_off_range spp Hg _ Hc). unfold validate_line. rewrite Ha. cbn [mbind res_bind].
  rewrite (proj2 (Z.leb_le 0 (vpc l))), (proj2 (Z.ltb_lt (vpc l) _)) by lia. cbn [andb NVMEV_ASSERT mbind res_bind].
  rewrite aset_in_range by (by eapply aget_range). done.
Qed.

Lemma wset_eq q : wset ws io q io = q.
Proof. unfold wset. by rewrite decide_True. Qed.
Lemma wset_ne q i : i <> io -> wset ws io q i = ws i.
Proof. intros. unfold wset. by rewrite decide_False. Qed.

Lemma written_wset r q : r <> LOpen io -> written_pgs r (wset ws io q) = written_pgs r ws.
Proof. destruct r as [| | |i|]; cbn; try done. intros H. rewrite wset_ne; congruence. Qed.

(** A line other than the one written keeps what is said of it. *)
Lemma line_ok_placed q b l : 0 ≤ b < blks_per_pl spp -> b <> g_blk (ws io) ->
  line_ok st (ro b) ws b l -> line_ok st' (ro b) (wset ws io q) b l.
Proof.
  intros Hb Hne [].
  assert (ro b <> LOpen io) as Hr by (rewrite (lo_open _ _ _ _ _ Hl); done).
  pose proof (vcount_placed b Hb) as Hv. rewrite decide_False in Hv by done.
  split; intros; rewrite ?written_wset by done; auto; rewrite Hv, Z.add_0_r; auto.
Qed.

(** Not the last page: the pointer moves on in its line. *)
Lemma place_within_ok q : page_succ spp (ws io) = Some q ->
  returns (validate_line spp m (g_blk (ws io))) (fun m' =>
    lines_ok st' er ro (wset ws io q) m' /\ lm_free_line_cnt m' = lm_free_line_cnt m).
Proof.
  intros Hs. pose proof (page_succ_off spp Hg _ (lo_ws _ _ _ _ _ Hl io)) as Hn. rewrite Hs in Hn.
  destruct Hn as (Hqc & Hqb & Hqo). destruct validate_ok as (l & Ha & Ho & ->). cbn [returns].
  pose proof (aget_range _ _ _ Ha) as Hr. split; [|done].
  split; cbn; try apply Hl.
  - rewrite length_insert. apply Hl.
  - intros i. unfold wset. case_decide; [done | apply Hl].
  - intros i b. unfold wset. case_decide; [subst; rewrite Hqb|]; apply (lo_open _ _ _ _ _ Hl).
  - intros b l'. rewrite aget_insert by done. destruct (decide (g_blk (ws io) = b)) as [<-|Hne].
    + intros [= <-]. rewrite ws_role. destruct Ho.
      assert (0 ≤ g_blk (ws io) < blks_per_pl spp) as Hb by (rewrite <- (lo_len _ _ _ _ _ Hl); lia).
      pose proof (vcount_placed _ Hb) as Hv. rewrite decide_True in Hv by done.
      split; cbn; intros; rewrite ?wset_eq; auto; try done.
      * rewrite Hv. f_equal. auto.
      * cbn in ln_sum0. specialize (ln_sum0 ltac:(done)). lia.
    + intros Hl'. apply line_ok_placed; [|done|by apply Hl].
      rewrite <- (lo_len _ _ _ _ _ Hl). by eapply aget_range.
  - intros p Hp Hr'. destruct (decide (g_blk p = g_blk (ws io))) as [E|E].
    + rewrite st_placed by done. rewrite E, ws_role. cbn. by rewrite wset_eq, Hqo.
    + rewrite written_wset by (rewrite (lo_open _ _ _ _ _ Hl); done).
      rewrite Hq by (try done; congruence). by apply Hl.
  - eapply pq_wf_insert; [apply Hl | exact Ha | done | right].
    rewrite (lo_pq_in _ _ _ _ _ Hl), ws_role. by intros [_ ?].
Qed.

(** *** The line is used up *)

(** The table when line [a] joined the full lines or the victims. *)
Record retired (m1 : line_mgmt) (a : Z) (r : line_role) (m2 : line_mgmt) : Prop := {
  re_len : length (lm_lines m2) = length (lm_lines m1);
  re_line b l' : aget (lm_lines m2) b = Ok l' -> exists l, aget (lm_lines m1) b = Ok l /\ id l' = id l /\
    ipc l' = ipc l /\ vpc l' = vpc l /\
    (~ pq_in (lm_victim_line_pq m1) b -> (b = a -> r <> LVictim) -> pos l' = pos l);
  re_full_nd : NoDup (lm_full_line_list m2);
  re_full b : b ∈ lm_full_line_list m2 <-> b ∈ lm_full_line_list m1 \/ (b = a /\ r = LFull);
  re_pq : pq_wf (lm_victim_line_pq m2) (lm_lines m2);
  re_in b : pq_in (lm_victim_line_pq m2) b <-> pq_in (lm_victim_line_pq m1) b \/ (b = a /\ r = LVictim);
  re_avail : pq_avail (lm_victim_line_pq m2) = pq_avail (lm_victim_line_pq m1);
  re_full_cnt : lm_full_line_cnt m2 = Z.of_nat (length (lm_full_line_list m2));
  re_victim_cnt : lm_victim_line_cnt m2 = pq_size (lm_victim_line_pq m2) - 1;
  re_total : lm_full_line_cnt m2 + lm_victim_line_cnt m2 = lm_full_line_cnt m1 + lm_victim_line_cnt m1 + 1;
  re_free : lm_free_line_list m2 = lm_free_line_list m1 /\ lm_free_line_cnt m2 = lm_free_line_cnt m1;
}.

Lemma retire_ok t1 l1 a :
  a = g_blk (ws io) -> pq_wf (lm_victim_line_pq m) t1 -> length t1 = length (lm_lines m) ->
  aget t1 a = Ok l1 -> vpc l1 + ipc l1 = pgs_per_line spp -> 0 ≤ vpc l1 -> 0 ≤ ipc l1 ->
  returns (retire_line spp (lm_with_lines m t1) a) (fun m2 => exists r, retired (lm_with_lines m t1) a r m2 /\
    (r = LFull /\ vpc l1 = pgs_per_line spp \/ r = LVictim /\ vpc l1 < pgs_per_line spp)).
Proof.
  intros -> Hq1 Hlen1 Ha Hsum Hv Hi. pose proof (lines_range _ _ _ _ _ Hl) as Hrng. pose proof ws_role as Hro.
  unfold retire_line. cbn [lm_lines lm_with_lines]. rewrite Ha. cbn [mbind res_bind].
  assert (g_blk (ws io) ∉ lm_full_line_list m) as Hnf.
  { rewrite (lo_fulls _ _ _ _ _ Hl), Hro. by intros [_ ?]. }
  assert (~ pq_in (lm_victim_line_pq m) (g_blk (ws io))) as Hnv.
  { rewrite (lo_pq_in _ _ _ _ _ Hl), Hro. by intros [_ ?]. }
  pose proof (lo_full_cnt _ _ _ _ _ Hl) as Hfc. pose proof (lo_victim_cnt _ _ _ _ _ Hl) as Hvc.
  destruct (Z.eqb_spec (vpc l1) (pgs_per_line spp)) as [E|E].
  - rewrite (proj2 (Z.eqb_eq (ipc l1) 0)) by lia. cbn. exists LFull. split; [|by left].
    split; cbn; try done; try (rewrite ?u32_small by (unfold U32_MAX; lia); rewrite ?length_app; cbn; lia).
    + intros b l' Hb. by exists l'.
    + apply NoDup_app. split; [apply Hl|]. split; [|apply NoDup_singleton].
      intros x Hx ->%list_elem_of_singleton. done.
    + intros b. rewrite elem_of_app, list_elem_of_singleton. tauto.
    + intros b. split; [by left | by intros [?|[_ ?]]].
  - rewrite (proj2 (Z.leb_le 0 (vpc l1))), (proj2 (Z.ltb_lt (vpc l1) _)), (proj2 (Z.ltb_lt 0 (ipc l1))) by lia.
    cbn [andb NVMEV_ASSERT mbind res_bind lm_victim_line_pq lm_with_lines].
    destruct (insert_ok (lm_victim_line_pq m) t1 (g_blk (ws io)) Hq1) as (q2 & t2 & -> & Hq2 & Hs2 & Hav2 & Hin2 & Hrep).
    { rewrite (lo_avail _ _ _ _ _ Hl). lia. }
    { cbn. by eapply aget_range. }
    { done. }
    apply repos_same in Hrep. cbn [mbind res_bind returns]. exists LVictim. split; [|right; split; [done | lia]].
    split; cbn; try done; try (rewrite ?u32_small by (unfold U32_MAX; lia); rewrite ?Hs2; lia).
    + apply Hrep.
    + intros b l' Hb. destruct (same_lines_inv _ _ _ _ _ Hrep Hb) as (l & Hl0 & E1 & E2 & E3 & E4).
      exists l. split; [done|]. split; [done|]. split; [done|]. split; [done|]. intros H1 H2. apply E4.
      intros [->|?]; [by apply H2 | done].
    + apply Hl.
    + intros b. split; [by left | by intros [?|[_ ?]]].
    + intros b. rewrite Hin2. tauto.
Qed.

(** The roles when line [a] is retired as [r] and line [a2] opened. *)
Definition next_role (a : Z) (r : line_role) (a2 : Z) : Z -> line_role :=
  fun b => if decide (b = a2) then LOpen io else if decide (b = a) then r else ro b.

Lemma next_role_other a r a2 b r0 :
  a = g_blk (ws io) -> r = LFull \/ r = LVictim -> ro a2 = LFree ->
  r0 = LErasing \/ (exists i, r0 = LOpen i /\ i <> io) ->
  next_role a r a2 b = r0 <-> ro b = r0.
Proof.
  intros -> Hr H2 Hr0. unfold next_role. pose proof ws_role as Hro.
  destruct (decide (b = a2)) as [->|]; [|destruct (decide (b = g_blk (ws io))) as [->|]; [|done]];
    rewrite ?H2, ?Hro; destruct Hr0 as [->|(i & -> & Hi)]; destruct Hr as [->| ->]; split; congruence.
Qed.

Lemma next_role_closed a r a2 b r0 :
  a = g_blk (ws io) -> 0 ≤ a < blks_per_pl spp -> ro a2 = LFree -> a2 <> a -> r0 = LFull \/ r0 = LVictim ->
  (0 ≤ b < blks_per_pl spp /\ ro b = r0) \/ (b = a /\ r = r0) <->
  0 ≤ b < blks_per_pl spp /\ next_role a r a2 b = r0.
Proof.
  intros -> Ha H2 Hne Hr0. unfold next_role. pose proof ws_role as Hro.
  destruct (decide (b = a2)) as [->|]; [|destruct (decide (b = g_blk (ws io))) as [->|]]; [| |tauto].
  - rewrite H2. destruct Hr0 as [->| ->]; split; [intros [[_ ?]|[? _]] | intros [_ ?] | intros [[_ ?]|[? _]] |
      intros [_ ?]]; congruence.
  - rewrite Hro. split; [intros [[_ ?]|[_ ?]] | intros [_ ?]; by right]; [|done].
    destruct Hr0; congruence.
Qed.

Lemma fresh_page_ok a2 : 0 ≤ a2 < blks_per_pl spp ->
  cppa spp (mk_ppa 0 a2 0 0 0 0) /\ page_off spp (mk_ppa 0 a2 0 0 0 0) = 0.
Proof.
  intros Hb. geom Hg. split.
  - split; [|done]. unfold ppa_in. cbn. lia.
  - rewrite page_off_mk, Z.div_0_l, Z.mod_0_l by lia. lia.
Qed.

Lemma place_last_ok w :
  page_succ spp (ws io) = None -> wp_curline w = Some (g_blk (ws io)) ->
  wp_blk w = g_blk (ws io) -> wp_pl w = 0 -> 0 < lm_free_line_cnt m ->
  returns (m1 ← validate_line spp m (g_blk (ws io)); next_line spp m1 w) (fun '(m', w') =>
    exists ro', lines_ok st' er ro' (wset ws io (wp_ppa w')) m' /\
      wp_curline w' = Some (wp_blk w') /\ page_off spp (wp_ppa w') = 0 /\
      lm_free_line_cnt m' = lm_free_line_cnt m - 1).
Proof.
  intros Hs Hcur Hblk Hpl Hfree. pose proof (page_succ_off spp Hg _ (lo_ws _ _ _ _ _ Hl io)) as Hlast.
  rewrite Hs in Hlast. pose proof ws_role as Hro. destruct validate_ok as (l & Ha & Ho & ->). cbn [mbind res_bind].
  pose proof (aget_range _ _ _ Ha) as Hr. pose proof (lo_len _ _ _ _ _ Hl) as Hlen.
  pose proof (lines_range _ _ _ _ _ Hl) as Hrng.
  set (a := g_blk (ws io)) in *. set (l1 := mk_line (id l) (ipc l) (vpc l + 1) (pos l)).
  set (t1 := <[Z.to_nat a := l1]> (lm_lines m)). set (m1 := lm_with_lines m t1).
  pose proof (ln_sum _ _ _ _ _ Ho ltac:(done)) as Hsum. cbn in Hsum.
  pose proof (ln_ipc _ _ _ _ _ Ho ltac:(done)) as Hipc.
  pose proof (ln_vpc _ _ _ _ _ Ho ltac:(done)) as Hvpc. pose proof (vcount_range st a) as Hvr.
  assert (pq_wf (lm_victim_line_pq m) t1) as Hq1.
  { eapply pq_wf_insert; [apply Hl | exact Ha | done | right]. rewrite (lo_pq_in _ _ _ _ _ Hl), Hro. by intros [_ ?]. }
  assert (length t1 = length (lm_lines m)) as Hlen1 by apply length_insert.
  assert (aget t1 a = Ok l1) as Ha1 by (unfold t1; rewrite aget_insert by done; by rewrite decide_True).
  unfold next_line. rewrite Hcur. cbn [deref mbind res_bind].
  apply returns_bind. eapply returns_mono.
  { apply (retire_ok t1 l1 a eq_refl Hq1 Hlen1 Ha1); cbn; lia. }
  intros m2 (r & [Rlen Rline Rfnd Rfull Rpq Rin Rav Rfc Rvc Rtot [Rfl Rfcnt]] & Hrr). cbn in Rfl, Rfcnt, Rtot, Rav, Rlen.
  unfold check_addr. rewrite Hblk, (proj2 (Z.leb_le 0 a)), (proj2 (Z.ltb_lt a _)) by lia. cbn [andb NVMEV_ASSERT mbind res_bind].
  unfold get_next_free_line. rewrite Rfl. pose proof (lo_free_cnt _ _ _ _ _ Hl) as Hfc.
  destruct (lm_free_line_list m) as [|a2 rest] eqn:Efl; [cbn in Hfc; lia|]. cbn [deref mbind res_bind lm_lines lm_with_free].
  assert (0 ≤ a2 < blks_per_pl spp /\ ro a2 = LFree) as [Hb2 Hro2].
  { apply (lo_free _ _ _ _ _ Hl). rewrite Efl. constructor. }
  assert (a2 <> a) as Hne by (intros ->; congruence).
  destruct (aget_in_range (lm_lines m2) a2) as [l2 Hl2]; [rewrite Rlen, Hlen1; lia|].
  rewrite Hl2. cbn [mbind res_bind].
  destruct (Rline a2 l2 Hl2) as (l0 & Hl0 & F1 & F2 & F3 & F4). cbn in Hl0, F4. unfold t1 in Hl0.
  rewrite aget_insert, decide_False in Hl0 by (done || congruence).
  pose proof (lo_line _ _ _ _ _ Hl _ _ Hl0) as Ho2. rewrite Hro2 in Ho2.
  rewrite F1, (ln_id _ _ _ _ _ Ho2), (proj2 (Z.leb_le 0 a2)), (proj2 (Z.ltb_lt a2 _)) by lia.
  cbn [andb NVMEV_ASSERT mbind res_bind]. rewrite Hpl. cbn [Z.eqb NVMEV_ASSERT mbind res_bind returns].
  rewrite u32_small by (unfold U32_MAX; lia).
  destruct (fresh_page_ok a2 Hb2) as [Hf Hf0]. unfold wp_ppa. cbn.
  exists (next_role a r a2). split; [|split; [done|split; [exact Hf0|]]].
  2:{ rewrite Rfcnt. apply u32_small. unfold U32_MAX. lia. }
  assert (r = LFull \/ r = LVictim) as Hr2 by tauto.
  assert (forall b, next_role a r a2 b =
    if decide (b = a2) then LOpen io else if decide (b = a) then r else ro b) as Hnr by done.
  split; cbn; rewrite ?Rlen, ?Hlen1, ?Rfcnt; try apply Hl; try done.
  - intros i. unfold wset. case_decide; [done | apply Hl].
  - intros i b. destruct (decide (i = io)) as [->|Hi].
    + rewrite wset_eq, Hnr. cbn. destruct (decide (b = a2)); [done|]. split; [|done].
      destruct (decide (b = a)) as [->|]; [destruct Hr2; congruence|]. intros H%(lo_open _ _ _ _ _ Hl). done.
    + rewrite wset_ne by done. rewrite next_role_other; [apply (lo_open _ _ _ _ _ Hl) | done..|].
      right. by exists i.
  - intros b. rewrite next_role_other; [apply (lo_er _ _ _ _ _ Hl) | done..|]. by left.
  - intros b l' Hb. destruct (Rline b l' Hb) as (l3 & Hl3 & G1 & G2 & G3 & G4).
    assert (0 ≤ b < blks_per_pl spp) as Hbr by (rewrite <- Hlen, <- Hlen1, <- Rlen; by eapply aget_range).
    pose proof (vcount_placed b Hbr) as Hvp. fold a in Hvp.
    cbn in Hl3. unfold t1 in Hl3. rewrite aget_insert in Hl3 by done. cbn in G4. rewrite Hnr.
    destruct (decide (a = b)) as [<-|Hab].
    + injection Hl3 as <-. rewrite decide_False by done. rewrite decide_True by done.
      rewrite decide_True in Hvp by done. cbn in G1, G2, G3.
      split; intros; rewrite ?G1, ?G2, ?G3; try done; try lia.
      * apply Ho.
      * rewrite G4; [by apply Ho | rewrite (lo_pq_in _ _ _ _ _ Hl), Hro; by intros [_ ?] | done].
      * destruct Hr2 as [->| ->]; cbn; lia.
      * destruct Hrr as [[-> ?]|[-> ?]]; [done | congruence].
      * destruct Hrr as [[-> ?]|[-> ?]]; [congruence | done].
    + pose proof (lo_line _ _ _ _ _ Hl _ _ Hl3) as Ho3.
      rewrite (decide_False (P := b = a)) by congruence. rewrite (decide_False (P := b = a)) in Hvp by congruence.
      destruct (decide (b = a2)) as [->|Hb2'].
      * rewrite Hro2 in Ho3. destruct Ho3 as [I1 I2 I3 I4 I5 _ _].
        split; intros; rewrite ?G1, ?G2, ?G3, ?Hvp; try done; try (specialize (I3 ltac:(done))); try lia; try auto.
        -- rewrite G4; [by apply I2 | rewrite (lo_pq_in _ _ _ _ _ Hl), Hro2; by intros [_ ?] | by intros E; destruct (Hne E)].
        -- specialize (I4 ltac:(done)). cbn in I4. cbn. rewrite wset_eq, Hf0. lia.
      * pose proof (line_ok_placed (mk_ppa 0 a2 0 0 0 0) b l3 Hbr (not_eq_sym Hab) Ho3) as [I1 I2 I3 I4 I5 I6 I7].
        split; intros; rewrite ?G1, ?G2, ?G3; auto.
        rewrite G4; [auto | rewrite (lo_pq_in _ _ _ _ _ Hl); tauto | intros E; by destruct Hab].
  - intros p Hp Hr'. rewrite Hnr in *. destruct (decide (g_blk p = a2)) as [E2|E2].
    + cbn. rewrite wset_eq, Hf0. rewrite Hq by (try done; intros ->; by apply Hne).
      rewrite (lo_st _ _ _ _ _ Hl) by (try done; by rewrite E2, Hro2). by rewrite E2, Hro2.
    + destruct (decide (g_blk p = a)) as [E|E].
      * rewrite st_placed by done. rewrite Hlast. destruct Hr2 as [->| ->]; done.
      * rewrite written_wset by (rewrite (lo_open _ _ _ _ _ Hl); done).
        rewrite Hq by (try done; intros ->; by apply E). by apply Hl.
  - pose proof (lo_free_nd _ _ _ _ _ Hl) as Hnd. rewrite Efl in Hnd. by apply NoDup_cons in Hnd as [_ ?].
  - intros b. pose proof (lo_free _ _ _ _ _ Hl b) as Hb. rewrite Efl, elem_of_cons in Hb.
    pose proof (lo_free_nd _ _ _ _ _ Hl) as Hnd. rewrite Efl in Hnd. apply NoDup_cons in Hnd as [Hnin _].
    rewrite Hnr. destruct (decide (b = a2)) as [->|]; [split; [done | intros [_ ?]; done]|].
    destruct (decide (b = a)) as [->|].
    + split; [intros H; destruct Hb as [Hb _]; specialize (Hb (or_intror H)) as [_ ?]; congruence |].
      intros [_ ->]. destruct Hr2; congruence.
    + tauto.
  - intros b. rewrite Rfull, (lo_fulls _ _ _ _ _ Hl). apply (next_role_closed a r a2); try done; [lia | by left].
  - intros b. rewrite Rin, (lo_pq_in _ _ _ _ _ Hl). apply (next_role_closed a r a2); try done; [lia | by right].
  - by rewrite Rav, (lo_avail _ _ _ _ _ Hl).
  - cbn [length] in Hfc. rewrite u32_small by (unfold U32_MAX; lia). lia.
  - pose proof (lo_total _ _ _ _ _ Hl). rewrite u32_small by (unfold U32_MAX; lia). lia.
Qed.
End Place.
End Lines.
