(* ===== verification/ConvMap.v ===== *)
(** * The two mapping tables of the conventional FTL

    [maptbl] sends logical pages to addresses and [rmap] addresses back; on
    the live pages (those that hold the current copy of a logical page) they
    are inverse.  While a logical page moves, its entry is a hole. *)
From S2P Require Import Prelude Nvme SsdConfig ChannelModel Ssd Pqueue LineTable ConvFtl ConvGeom.

Record map_ok (spp : ssdparams) (live : ppa -> Prop) (hole : option Z) (mt : list ppa) (rm : list Z) : Prop := {
  mo_mt : Z.of_nat (length mt) = tt_pgs spp;
  mo_rm : Z.of_nat (length rm) = tt_pgs spp;
  mo_in p : live p -> cppa spp p;
  mo_fwd lpn p : aget mt lpn = Ok p -> p <> UNMAPPED_PPA -> hole <> Some lpn ->
    live p /\ aget rm (pgidx spp p) = Ok lpn;
  mo_bwd p : live p -> exists lpn, aget rm (pgidx spp p) = Ok lpn /\ aget mt lpn = Ok p /\ hole <> Some lpn;
}.

Section Map.
Context (spp : ssdparams) (Hg : conv_geom spp).
Implicit Types (live : ppa -> Prop) (mt : list ppa) (rm : list Z).

Lemma map_ok_ext live live' hole mt rm :
  (forall p, live' p <-> live p) -> map_ok spp live hole mt rm -> map_ok spp live' hole mt rm.
Proof.
  intros H []. split; try done.
  - intros p ?%H. auto.
  - intros lpn p ???. rewrite H. auto.
  - intros p ?%H. auto.
Qed.

(** The entry of a logical page that has no copy may be regarded as a hole. *)
Lemma map_unmapped live mt rm lpn :
  map_ok spp live None mt rm -> aget mt lpn = Ok UNMAPPED_PPA -> map_ok spp live (Some lpn) mt rm.
Proof.
  intros [] Hu. split; try done.
  - intros l p ???. by apply mo_fwd0.
  - intros p Hp. destruct (mo_bwd0 p Hp) as (l & ? & Hl & _). exists l. split; [done|]. split; [done|].
    intros [= ->]. rewrite Hu in Hl. injection Hl as <-.
    apply (ppa_in_mapped spp UNMAPPED_PPA (cg_ok _ Hg)); [by apply mo_in0 | done].
Qed.

(** A live page dies and leaves a hole in [maptbl]. *)
Lemma map_hole live live' mt rm lpn q :
  map_ok spp live None mt rm -> live q -> aget rm (pgidx spp q) = Ok lpn ->
  (forall p, live' p <-> live p /\ p <> q) ->
  map_ok spp live' (Some lpn) mt rm /\ aget mt lpn = Ok q.
Proof.
  intros [] Hq Hrm Hlive. destruct (mo_bwd0 q Hq) as (l0 & E & Hmt & _). rewrite Hrm in E. injection E as <-.
  split; [|done]. split; try done.
  - intros p [? _]%Hlive. auto.
  - intros l p Hl Hu Hne. destruct (mo_fwd0 l p Hl Hu ltac:(done)) as [Hp Hr]. split; [|done].
    apply Hlive. split; [done|]. intros ->. rewrite Hr in Hrm. injection Hrm as ->. done.
  - intros p [Hp Hpq]%Hlive. destruct (mo_bwd0 p Hp) as (l & ? & Hl & _). exists l. split; [done|].
    split; [done|]. intros [= ->]. rewrite Hmt in Hl. by injection Hl as ->.
Qed.

(** The entry of [rmap] for a dead page is free to change. *)
Lemma map_rm_dead live hole mt rm q v :
  map_ok spp live hole mt rm -> cppa spp q -> ~ live q ->
  map_ok spp live hole mt (<[Z.to_nat (pgidx spp q) := v]> rm).
Proof.
  intros [] Hq Hd. pose proof (pgidx_range spp Hg q Hq) as Hr.
  assert (forall p, live p -> aget (<[Z.to_nat (pgidx spp q) := v]> rm) (pgidx spp p) = aget rm (pgidx spp p)) as Hs.
  { intros p Hp. rewrite aget_insert by lia. rewrite decide_False; [done|].
    intros E%(pgidx_inj spp Hg); [subst; done | done | auto]. }
  split; try done.
  - by rewrite length_insert.
  - intros l p ???. destruct (mo_fwd0 l p) as [Hp ?]; [done..|]. split; [done|]. by rewrite Hs.
  - intros p Hp. rewrite Hs by done. auto.
Qed.

(** The hole is filled by a page that was dead. *)
Lemma map_place live live' mt rm lpn q :
  map_ok spp live (Some lpn) mt rm -> cppa spp q -> ~ live q -> 0 ≤ lpn < tt_pgs spp ->
  (forall p, live' p <-> live p \/ p = q) ->
  map_ok spp live' None (<[Z.to_nat lpn := q]> mt) (<[Z.to_nat (pgidx spp q) := lpn]> rm).
Proof.
  intros Hm Hq Hd Hl Hlive. pose proof (map_rm_dead _ _ _ _ q lpn Hm Hq Hd) as [].
  pose proof (pgidx_range spp Hg q Hq) as Hr. pose proof (mo_rm _ _ _ _ _ Hm). split; try done.
  - by rewrite length_insert.
  - intros p [?| ->]%Hlive; auto.
  - intros l p. rewrite aget_insert by lia. case_decide as E.
    + intros [= <-] _ _. subst l. split; [apply Hlive; by right|]. by rewrite aget_insert, decide_True by lia.
    + intros Ha Hu _. destruct (mo_fwd0 l p Ha Hu) as [Hp ?]; [congruence|].
      split; [apply Hlive; by left | done].
  - intros p [Hp| ->]%Hlive.
    + destruct (mo_bwd0 p Hp) as (l & ? & ? & Hne). exists l. split; [done|]. split; [|done].
      rewrite aget_insert by lia. rewrite decide_False; [done|]. congruence.
    + exists lpn. rewrite !aget_insert, !decide_True by (done || lia). done.
Qed.

Lemma map_init : 0 ≤ tt_pgs spp -> map_ok spp (fun _ => False) None (init_maptbl spp) (init_rmap spp).
Proof.
  intros Ht. unfold init_maptbl, init_rmap. split; rewrite ?length_replicate; try lia; try done.
  intros lpn p [_ Ha]%aget_Ok Hu. by apply lookup_replicate_1 in Ha as [-> _].
Qed.

(** Distinct live pages hold distinct logical pages: there are no more of
    them than logical pages in use. *)
Lemma live_bounded live mt rm n pages :
  map_ok spp live None mt rm -> 0 ≤ n ->
  (forall lpn p, aget mt lpn = Ok p -> p <> UNMAPPED_PPA -> lpn < n) ->
  NoDup pages -> (forall p, p ∈ pages -> live p) -> Z.of_nat (length pages) ≤ n.
Proof.
  intros [] Hn Hb Hnd Hp.
  set (f p := match aget rm (pgidx spp p) with Ok l => l | Bug _ => 0 end).
  assert (forall p, p ∈ pages -> aget mt (f p) = Ok p) as Hf.
  { intros p Hin. destruct (mo_bwd0 p (Hp p Hin)) as (l & Hr & Hl & _). unfold f. by rewrite Hr. }
  assert (NoDup (f <$> pages)) as Hnd'.
  { apply NoDup_fmap_2_strong; [|done]. intros p q Hpi Hqi E.
    pose proof (Hf p Hpi) as H1. pose proof (Hf q Hqi) as H2. rewrite E in H1. congruence. }
  assert (f <$> pages ⊆+ seqZ 0 n) as Hs.
  { apply NoDup_submseteq; [done|]. intros l (p & -> & Hin)%list_elem_of_fmap. apply elem_of_seqZ.
    pose proof (Hf p Hin) as Ha. pose proof (aget_range _ _ _ Ha). split; [lia|].
    pose proof (Hb _ _ Ha) as Hlt. cbn. apply Hlt.
    apply (ppa_in_mapped spp p (cg_ok _ Hg)). by apply mo_in0, Hp. }
  apply submseteq_length in Hs. rewrite length_fmap, length_seqZ in Hs. lia.
Qed.
End Map.
