(* ===== verification/ConvOps.v ===== *)
(** * One page of the conventional FTL

    The invariant of an FTL instance, and the steps that invalidate the old
    copy of a logical page and place the new one. *)
From S2P Require Import Prelude Nvme SsdConfig ChannelModel Ssd Pqueue LineTable ConvFtl ConvGeom ConvDev ConvInv ConvMap.

Definition wps (c : conv_ftl) (io : io_type) : ppa := wp_ppa (__get_wp c io).

Section Ops.
Context (spp : ssdparams) (Hg : conv_geom spp).

(** ** Equal statuses and pointers *)
Lemma written_pgs_ext r ws ws' : (forall io, ws' io = ws io) -> written_pgs spp r ws' = written_pgs spp r ws.
Proof. intros H. destruct r; cbn; by rewrite ?H. Qed.

Lemma vcount_ext st st' b : 0 ≤ b < blks_per_pl spp -> (forall p, cppa spp p -> g_blk p = b -> st' p = st p) ->
  vcount spp st' b = vcount spp st b.
Proof.
  intros Hb H. apply zcount_ext. intros p Hp. apply elem_of_line_pages in Hp as [Hp ?]; [|done..]. by rewrite H.
Qed.

(** Nothing is said of the pages of the line that is being emptied. *)
Lemma lines_ok_ext st st' er ro ws ws' m :
  (forall p, cppa spp p -> ro (g_blk p) <> LErasing -> st' p = st p) -> (forall io, ws' io = ws io) ->
  lines_ok spp st er ro ws m -> lines_ok spp st' er ro ws' m.
Proof.
  intros Hs Hw Hl. pose proof (written_pgs_ext) as Hwr. split; try apply Hl.
  - intros io. rewrite Hw. apply Hl.
  - intros io b. rewrite Hw. apply Hl.
  - intros b l Ha. destruct (lo_line _ _ _ _ _ _ Hl b l Ha).
    assert (0 ≤ b < blks_per_pl spp) as Hb by (rewrite <- (lo_len _ _ _ _ _ _ Hl); by eapply aget_range).
    split; intros; rewrite ?(written_pgs_ext _ ws ws') by done; auto.
    rewrite (vcount_ext st st'); auto. intros p Hp <-. by apply Hs.
  - intros p Hp Hr. rewrite Hs by done. rewrite (written_pgs_ext _ ws ws') by done. by apply Hl.
Qed.

(** ** The invariant of an instance *)

(** A page that holds the current copy of a logical page; [dead] are the
    pages garbage collection has moved away. *)
Definition live (s : ssd) (dead : ppa -> Prop) (p : ppa) : Prop :=
  cppa spp p /\ pst s p = PG_VALID /\ ~ dead p.

Record ftl_ok (er : option Z) (ro : Z -> line_role) (dead : ppa -> Prop) (hole : option Z) (c : conv_ftl) : Prop := {
  fk_sp : sp (cv_ssd c) = spp;
  fk_dev : dev_ok (cv_ssd c);
  fk_lines : lines_ok spp (pst (cv_ssd c)) er ro (wps c) (cv_lm c);
  fk_map : map_ok spp (live (cv_ssd c) dead) hole (cv_maptbl c) (cv_rmap c);
  fk_cur io : wp_curline (__get_wp c io) = Some (wp_blk (__get_wp c io));
  fk_dead p : dead p -> er = Some (g_blk p);
}.

Definition croom (c : conv_ftl) : Z := room spp (wps c) (cv_lm c).

(** Time passes: everything but the clocks stays. *)
Lemma ftl_timed er ro dead hole c s' :
  ftl_ok er ro dead hole c -> timed (cv_ssd c) s' -> ftl_ok er ro dead hole (with_ssd c s').
Proof.
  intros [] Ht. split; cbn; try done.
  - by rewrite (tm_sp _ _ Ht).
  - by eapply timed_dev.
  - eapply lines_ok_ext; [|done|done]. intros p _ _. by apply timed_pst.
  - eapply map_ok_ext; [|done]. intros p. unfold live. by rewrite (timed_pst _ _ _ Ht).
Qed.

(** ** The write pointer *)
Lemma cppa_small p : cppa spp p ->
  u16 (g_pg p) = g_pg p /\ u16 (g_blk p) = g_blk p /\ u8 (g_pl p) = g_pl p /\ u8 (g_lun p) = g_lun p /\
  u8 (g_ch p) = g_ch p.
Proof.
  intros [(Hc & Hl & Hp & Hb & Hpg) _]. geom Hg.
  repeat split; first [apply u16_small | apply u8_small]; lia.
Qed.

Lemma get_new_page_ok c io : cppa spp (wps c io) -> get_new_page c io = Ok (wps c io).
Proof.
  intros Hp. pose proof (cppa_small _ Hp) as (E1 & E2 & E3 & E4 & E5). unfold get_new_page.
  change (ppa_of 0) with (mk_ppa 0 0 0 0 0 0). unfold wps, wp_ppa, set_pl, set_blk, set_pg, set_lun, set_ch in *. cbn -[u16 u8] in *.
  rewrite E1, E2, E3, E4, E5. destruct Hp as [(_ & _ & Hp & _) _]. cbn in Hp. pose proof (cg_pls _ Hg).
  by rewrite (proj2 (Z.eqb_eq _ 0)) by lia.
Qed.

Definition wp_at (w : write_pointer) (q : ppa) : write_pointer :=
  mk_wp (wp_curline w) (g_ch q) (g_lun q) (g_pg q) (wp_blk w) (wp_pl w).

Lemma advance_eq c io : sp (cv_ssd c) = spp -> cppa spp (wps c io) ->
  advance_write_pointer c io =
    match page_succ spp (wps c io) with
    | Some q => Ok (set_wp c io (wp_at (__get_wp c io) q))
    | None => '(m, w) ← next_line spp (cv_lm c) (__get_wp c io); Ok (set_wp (with_lm c m) io w)
    end.
Proof.
  intros Es [(Hc & Hl & Hp & Hb & Hpg) _]. unfold advance_write_pointer, page_succ. rewrite Es.
  unfold wps, wp_ppa in *. cbn in *. set (w := __get_wp c io) in *. geom Hg.
  unfold check_addr.
  rewrite (proj2 (Z.leb_le 0 (wp_pg w))), (proj2 (Z.ltb_lt (wp_pg w) _)) by lia. cbn [andb NVMEV_ASSERT mbind res_bind].
  rewrite u32_small by (unfold U32_MAX; lia). unfold checked_mod.
  rewrite (proj2 (Z.eqb_neq (pgs_per_oneshotpg spp) 0)) by lia. cbn [mbind res_bind].
  destruct (Z.eqb_spec ((wp_pg w + 1) mod pgs_per_oneshotpg spp) 0) as [E|E]; cbn [negb].
  2:{ by rewrite decide_True. }
  rewrite decide_False by tauto.
  rewrite (proj2 (Z.leb_le 0 (wp_ch w))), (proj2 (Z.ltb_lt (wp_ch w) _)) by lia. cbn [andb NVMEV_ASSERT mbind res_bind].
  assert (pgs_per_oneshotpg spp ≤ wp_pg w + 1) as Hge.
  { pose proof (Z.div_mod (wp_pg w + 1) (pgs_per_oneshotpg spp) ltac:(lia)) as Hd. rewrite E in Hd.
    assert (0 < (wp_pg w + 1) / pgs_per_oneshotpg spp); nia. }
  rewrite !(u32_small (wp_ch w + 1)), (u32_small (wp_pg w + 1 - _)) by (unfold U32_MAX; lia).
  destruct (Z.eqb_spec (wp_ch w + 1) (nchs spp)); cbn [negb]; [rewrite decide_False by tauto | by rewrite decide_True].
  rewrite (proj2 (Z.leb_le 0 (wp_lun w))), (proj2 (Z.ltb_lt (wp_lun w) _)) by lia. cbn [andb NVMEV_ASSERT mbind res_bind].
  rewrite !(u32_small (wp_lun w + 1)) by (unfold U32_MAX; lia).
  destruct (Z.eqb_spec (wp_lun w + 1) (luns_per_ch spp)); cbn [negb];
    [rewrite decide_False by tauto | by rewrite decide_True].
  replace (wp_pg w + 1 - pgs_per_oneshotpg spp + pgs_per_oneshotpg spp) with (wp_pg w + 1) by lia.
  rewrite u32_small by (unfold U32_MAX; lia).
  destruct (Z.eqb_spec (wp_pg w + 1) (pgs_per_blk spp)); cbn [negb];
    [by rewrite decide_False by tauto | by rewrite decide_True].
Qed.

Lemma page_succ_fields p q : page_succ spp p = Some q -> g_blk q = g_blk p /\ g_pl q = 0 /\ g_rsv q = 0.
Proof. unfold page_succ. intros H. repeat case_decide; try done; by injection H as <-. Qed.

Lemma wps_set_wp c io w i : wps (set_wp c io w) i = wset (wps c) io (wp_ppa w) i.
Proof. unfold wps, wset. by destruct io, i. Qed.

Lemma wp_ppa_at c io q : cppa spp (wps c io) -> page_succ spp (wps c io) = Some q ->
  wp_ppa (wp_at (__get_wp c io) q) = q.
Proof.
  intros [(_ & _ & Hp & _) _] (E1 & E2 & E3)%page_succ_fields. pose proof (cg_pls _ Hg).
  unfold wps, wp_ppa in *. cbn in *. destruct q. cbn in *. subst. f_equal. lia.
Qed.

(** Room beyond the two open lines means a free line. *)
Lemma room_line st er ro ws m io :
  lines_ok spp st er ro ws m -> pgs_per_line spp + 2 ≤ room spp ws m ->
  page_off spp (ws io) + 1 = pgs_per_line spp -> 0 < lm_free_line_cnt m.
Proof.
  intros Hl Hr Ho. destruct (lines_range _ Hg _ _ _ _ _ Hl) as [Hf _].
  pose proof (page_off_range spp Hg _ (lo_ws _ _ _ _ _ _ Hl USER_IO)).
  pose proof (page_off_range spp Hg _ (lo_ws _ _ _ _ _ _ Hl GC_IO)).
  destruct (decide (lm_free_line_cnt m = 0)) as [E|]; [|lia]. unfold room in Hr. rewrite E in Hr.
  destruct io; lia.
Qed.

Lemma room_wset ws m io q m' : lm_free_line_cnt m' * pgs_per_line spp - page_off spp q =
    lm_free_line_cnt m * pgs_per_line spp - page_off spp (ws io) - 1 ->
  room spp (wset ws io q) m' = room spp ws m - 1.
Proof. unfold room, wset. intros H. destruct io; repeat (case_decide; try done); lia. Qed.

(** [mark_page_valid] on the line table, then [advance_write_pointer]. *)
Lemma validate_advance_ok st st' er ro c io :
  let ws := wps c in
  sp (cv_ssd c) = spp -> lines_ok spp st er ro ws (cv_lm c) ->
  st' (ws io) = PG_VALID -> (forall q, cppa spp q -> q <> ws io -> st' q = st q) ->
  (forall i, wp_curline (__get_wp c i) = Some (wp_blk (__get_wp c i))) ->
  pgs_per_line spp + 2 ≤ croom c ->
  returns (m ← validate_line spp (cv_lm c) (g_blk (ws io)); advance_write_pointer (with_lm c m) io)
    (fun c' => exists m' w' ro', c' = set_wp (with_lm c m') io w' /\
       lines_ok spp st' er ro' (wset ws io (wp_ppa w')) m' /\ wp_curline w' = Some (wp_blk w') /\
       room spp (wset ws io (wp_ppa w')) m' = croom c - 1).
Proof.
  intros ws Es Hl Hv Hq Hcur Hroom. pose proof (lo_ws _ _ _ _ _ _ Hl io) as Hc.
  pose proof (page_succ_off spp Hg _ Hc) as Hoff.
  assert (forall m, advance_write_pointer (with_lm c m) io =
    match page_succ spp (ws io) with
    | Some q => Ok (set_wp (with_lm c m) io (wp_at (__get_wp c io) q))
    | None => '(m, w) ← next_line spp m (__get_wp c io); Ok (set_wp (with_lm c m) io w)
    end) as Hadv.
  { intros m. rewrite advance_eq; [by destruct io | done | by destruct io]. }
  revert Hoff Hadv. destruct (page_succ spp (ws io)) as [q|] eqn:Hs; intros Hoff Hadv.
  - apply returns_bind. eapply returns_mono; [by eapply (place_within_ok _ Hg)|].
    intros m [Hl' Hf]. rewrite Hadv. cbn. exists m, (wp_at (__get_wp c io) q), ro.
    rewrite (wp_ppa_at c io q) by done. split; [done|]. split; [done|]. split; [apply Hcur|].
    apply room_wset. fold ws. rewrite Hf. lia.
  - assert (0 < lm_free_line_cnt (cv_lm c)) as Hfree by (by eapply room_line).
    destruct Hc as [(_ & _ & Hpl & _) _]. pose proof (cg_pls _ Hg).
    assert (wp_pl (__get_wp c io) = 0) as Hpl0 by (unfold ws, wps, wp_ppa in Hpl; cbn in Hpl; lia).
    pose proof (place_last_ok spp Hg st st' er ro ws _ io Hl Hv Hq _ Hs (Hcur io) eq_refl Hpl0 Hfree) as Hplace.
    destruct (validate_line spp (cv_lm c) (g_blk (ws io))) as [m|]; [|done].
    cbn [mbind res_bind returns] in *. rewrite Hadv.
    apply returns_bind. eapply returns_mono; [exact Hplace|].
    intros [m' w'] (ro' & H1 & H2 & H3 & H4). cbn. exists m', w', ro'.
    split; [by destruct io|]. split; [done|]. split; [done|]. apply room_wset. fold ws. lia.
Qed.

(** ** Placing the new copy of a logical page *)
Record placed (er : option Z) (dead : ppa -> Prop) (c : conv_ftl) (io : io_type) (lpn : Z) (c' : conv_ftl) : Prop := {
  pl_ok : exists ro', ftl_ok er ro' dead None c';
  pl_room : croom c' = croom c - 1;
  pl_map : cv_maptbl c' = <[Z.to_nat lpn := wps c io]> (cv_maptbl c);
  pl_cfg : cv_cp c' = cv_cp c /\ cv_wfc c' = cv_wfc c;
  pl_pst q : cppa spp q -> pst (cv_ssd c') q = if decide (q = wps c io) then PG_VALID else pst (cv_ssd c) q;
}.

Lemma live_placed s s' dead p :
  cppa spp p -> pst s' p = PG_VALID -> ~ dead p -> (forall q, cppa spp q -> q <> p -> pst s' q = pst s q) ->
  forall q, live s' dead q <-> live s dead q \/ q = p.
Proof.
  intros Hp Hv Hd Ho q. unfold live. destruct (decide (q = p)) as [->|Hne].
  - split; [by right | done].
  - split; [intros (Hq & H & ?); left; by rewrite <- Ho | intros [(Hq & H & ?)|?]; [by rewrite Ho | done]].
Qed.

Lemma place_ok er ro dead c io lpn :
  ftl_ok er ro dead (Some lpn) c -> 0 ≤ lpn < tt_pgs spp -> pgs_per_line spp + 2 ≤ croom c ->
  let p := wps c io in
  returns (set_maptbl_ent c lpn p) (fun c1 => returns (set_rmap_ent c1 lpn p) (fun c2 =>
    returns (mark_page_valid c2 p) (fun c3 => returns (advance_write_pointer c3 io) (placed er dead c io lpn)))).
Proof.
  intros [Es Hd Hl Hm Hcur Hdd] Hlpn Hroom p. pose proof (lo_ws _ _ _ _ _ _ Hl io) as Hp. fold p in Hp.
  pose proof (mo_mt _ _ _ _ _ Hm) as Hmt. pose proof (mo_rm _ _ _ _ _ Hm) as Hrm.
  pose proof (pgidx_range spp Hg p Hp) as Hpi.
  assert (pst (cv_ssd c) p = PG_FREE) as Hfree by (by eapply ws_free).
  assert (ro (g_blk p) = LOpen io) as Hro by (by eapply ws_role).
  assert (~ dead p) as Hnd.
  { intros E%Hdd. apply (lo_er _ _ _ _ _ _ Hl) in E. congruence. }
  unfold set_maptbl_ent. rewrite Es, (proj2 (Z.ltb_lt lpn _)) by lia.
  rewrite aset_in_range by lia. cbn [NVMEV_ASSERT mbind res_bind returns].
  unfold set_rmap_ent. rewrite (ppa2pgidx_ok spp) by done. cbn [mbind res_bind].
  rewrite aset_in_range by (cbn; lia). cbn [mbind res_bind returns].
  unfold mark_page_valid. cbn [cv_ssd with_rmap with_maptbl]. rewrite Es.
  assert (~ live (cv_ssd c) dead p) as Hnl by (intros (_ & E & _); congruence).
  apply returns_assoc. eapply returns_mono; [apply dev_set_valid_ok; [done..|apply (cg_pls _ Hg) | done]|].
  intros s' [Ss Sd Sp]. rewrite Es in Sp. cbn [cv_lm with_rmap with_maptbl].
  set (c0 := with_ssd (with_rmap (with_maptbl c _) _) s').
  assert (forall i, __get_wp c0 i = __get_wp c i) as Hwp by (by intros []).
  assert (forall q, cppa spp q -> q <> p -> pst s' q = pst (cv_ssd c) q) as Hoth.
  { intros q Hq Hne. rewrite Sp by done. by rewrite decide_False. }
  assert (pst s' p = PG_VALID) as Hpv by (rewrite Sp by done; by rewrite decide_True).
  pose proof (map_place spp Hg _ (live s' dead) _ _ lpn p Hm Hp Hnl Hlpn
    (live_placed _ _ dead p Hp Hpv Hnd Hoth)) as Hm'.
  apply returns_bind.
  assert (returns (m ← validate_line spp (cv_lm c) (g_blk p); advance_write_pointer (with_lm c0 m) io)
    (placed er dead c io lpn)) as HH; [|by destruct (validate_line spp (cv_lm c) (g_blk p))].
  eapply returns_mono.
  { apply (validate_advance_ok (pst (cv_ssd c)) (pst s') er ro c0 io); [cbn; congruence | exact Hl | exact Hpv | exact Hoth |
      intros i; rewrite Hwp; apply Hcur | exact Hroom]. }
  intros c' (m' & w' & ro' & -> & Hl' & Hw' & Hr').
  assert (forall i, wps (set_wp (with_lm c0 m') io w') i = wset (wps c0) io (wp_ppa w') i) as Hws.
  { intros i. rewrite wps_set_wp. by destruct i, io. }
  split.
  - exists ro'. split.
    + destruct io; cbn; congruence.
    + by destruct io.
    + eapply lines_ok_ext; [|exact Hws|]; [|destruct io; exact Hl']. intros q Hq _. by destruct io.
    + destruct io; exact Hm'.
    + intros i. destruct io, i; cbn; try done; [apply (Hcur GC_IO) | apply (Hcur USER_IO)].
    + done.
  - change (croom c) with (croom c0). rewrite <- Hr'. unfold croom, room. rewrite !Hws. by destruct io.
  - by destruct io.
  - by destruct io.
  - intros q Hq. rewrite <- Sp by done. by destruct io.
Qed.

(** ** Invalidating the old copy *)
Definition no_dead (p : ppa) : Prop := False.

(** An instance between two operations. *)
Definition ftl_idle (c : conv_ftl) : Prop := exists ro, ftl_ok None ro no_dead None c.

(** The mapped logical pages, the configuration and the room stay. *)
Definition same_user (c c' : conv_ftl) : Prop :=
  cv_maptbl c' = cv_maptbl c /\ croom c' = croom c /\ cv_cp c' = cv_cp c /\ cv_wfc c' = cv_wfc c.

Lemma live_idle s p : live s no_dead p <-> cppa spp p /\ pst s p = PG_VALID.
Proof. unfold live, no_dead. tauto. Qed.

Lemma mark_page_invalid_ok ro hole c p mt rm :
  ftl_ok None ro no_dead None c -> live (cv_ssd c) no_dead p ->
  map_ok spp (fun q => live (cv_ssd c) no_dead q /\ q <> p) hole mt rm ->
  returns (mark_page_invalid c p) (fun c' => exists s' m' ro', c' = with_lm (with_ssd c s') m' /\
    sp s' = spp /\ dev_ok s' /\ lines_ok spp (pst s') None ro' (wps c) m' /\
    map_ok spp (live s' no_dead) hole mt rm /\ lm_free_line_cnt m' = lm_free_line_cnt (cv_lm c)).
Proof.
  intros [Es Hd Hl Hm Hcur Hdd] [Hp Hv]%live_idle Hhole. unfold mark_page_invalid. rewrite Es.
  assert (ro (g_blk p) <> LErasing) as Hro by (intros E%(lo_er _ _ _ _ _ _ Hl); done).
  apply returns_assoc. eapply returns_mono.
  { apply dev_set_invalid_ok; [done..|apply (cg_pls _ Hg) | done]. }
  intros s' [Ss Sd Sp]. rewrite Es in Sp.
  assert (forall q, cppa spp q -> q <> p -> pst s' q = pst (cv_ssd c) q) as Hoth.
  { intros q Hq Hne. rewrite Sp by done. by rewrite decide_False. }
  assert (pst s' p = PG_INVALID) as Hpi by (rewrite Sp by done; by rewrite decide_True).
  apply returns_bind. eapply returns_mono; [by eapply (invalidate_line_ok spp Hg (pst (cv_ssd c)) (pst s'))|].
  intros m' [Hl' Hf]. cbn. exists s', m', (demote_role ro (g_blk p)). split; [done|]. split; [congruence|].
  split; [done|]. split; [done|]. split; [|done]. eapply map_ok_ext; [|exact Hhole].
  intros q. rewrite !live_idle. destruct (decide (q = p)) as [->|Hne].
  - rewrite Hpi. split; [by intros [_ ?] | by intros [_ ?]].
  - split; [intros [Hq ?]; by rewrite <- Hoth | intros [[Hq ?] _]; by rewrite Hoth].
Qed.

Lemma invalidate_old_ok c lpn :
  ftl_idle c -> 0 ≤ lpn < tt_pgs spp ->
  returns (invalidate_old c lpn) (fun c' => (exists ro, ftl_ok None ro no_dead (Some lpn) c') /\ same_user c c').
Proof.
  intros [ro Hf] Hlpn. pose proof Hf as [Es Hd Hl Hm Hcur Hdd].
  unfold invalidate_old, get_maptbl_ent.
  destruct (aget_in_range (cv_maptbl c) lpn) as [p Ha]; [rewrite (mo_mt _ _ _ _ _ Hm); lia|].
  rewrite Ha. cbn [mbind res_bind]. unfold mapped_ppa. destruct (decide (p = UNMAPPED_PPA)) as [->|Hu].
  - rewrite bool_decide_true by done. cbn. split; [|done]. exists ro. split; try done. by apply map_unmapped.
  - rewrite bool_decide_false by done. cbn [negb].
    destruct (mo_fwd _ _ _ _ _ Hm lpn p Ha Hu ltac:(done)) as [Hp Hr]. pose proof (proj1 Hp) as Hc.
    edestruct (map_hole spp _ (fun q => live (cv_ssd c) no_dead q /\ q <> p) _ _ lpn p Hm Hp Hr) as [Hm1 _]; [done|].
    assert (~ (live (cv_ssd c) no_dead p /\ p <> p)) as Hnl by tauto.
    pose proof (map_rm_dead spp Hg _ _ _ _ p INVALID_LPN Hm1 Hc Hnl) as Hm2.
    apply returns_bind. eapply returns_mono; [by eapply mark_page_invalid_ok|].
    intros c' (s' & m' & ro' & -> & Es' & Hd' & Hl' & Hm' & Hfree). unfold set_rmap_ent.
    rewrite (ppa2pgidx_ok spp) by done. cbn [mbind res_bind cv_rmap with_lm with_ssd].
    pose proof (pgidx_range spp Hg p Hc). rewrite aset_in_range by (rewrite (mo_rm _ _ _ _ _ Hm); lia).
    cbn. split; [exists ro'; by split|]. split; [done|]. split; [|done].
    unfold croom, room. cbn. by rewrite Hfree.
Qed.
End Ops.
