(* ===== verification/ConvGc.v ===== *)
(** * Garbage collection of the conventional FTL

    Emptying one victim line: [gc_inv] says how far each LUN has got, and
    that the room for the copies still to be made is there. *)
From S2P Require Import Prelude Nvme SsdConfig ChannelModel Ssd Pqueue LineTable ConvFtl ConvGeom ConvDev ConvInv ConvMap ConvOps.

(** A logical page that the table maps. *)
Definition mapped (c : conv_ftl) (lpn : Z) : Prop := exists p, aget (cv_maptbl c) lpn = Ok p /\ p <> UNMAPPED_PPA.

(** What garbage collection leaves alone: the set of mapped pages, the
    parameters and the credits. *)
Record gc_frame (c c' : conv_ftl) : Prop := {
  gf_mapped lpn : mapped c' lpn <-> mapped c lpn;
  gf_cp : cv_cp c' = cv_cp c;
  gf_wfc : cv_wfc c' = cv_wfc c;
}.

Lemma gc_frame_refl c : gc_frame c c.
Proof. done. Qed.

Lemma gc_frame_trans c1 c2 c3 : gc_frame c1 c2 -> gc_frame c2 c3 -> gc_frame c1 c3.
Proof. intros [H1 ? ?] [H2 ? ?]. split; [intros lpn; by rewrite H2 | congruence | congruence]. Qed.

Lemma gc_frame_ssd c s : gc_frame c (with_ssd c s).
Proof. done. Qed.

(** What it does to the shared world: the clock and the links advance. *)
Definition quiet (w w' : world) : Prop := world_ok w' /\ same_bufs w w'.

Lemma quiet_trans w1 w2 w3 : quiet w1 w2 -> quiet w2 w3 -> quiet w1 w3.
Proof. intros [? ?] [? ?]. split; [done | by eapply same_bufs_trans]. Qed.

Lemma quiet_refl w : world_ok w -> quiet w w.
Proof. intros. split; [done | apply same_bufs_refl]. Qed.

Section Gc.
Context (spp : ssdparams) (Hg : conv_geom spp).
Context (cpu_clock : nat -> Z) (clock_ok : forall n, 0 ≤ cpu_clock n < 2 ^ 62).

Lemma advance_nand_ok c ncmd w :
  sp (cv_ssd c) = spp -> dev_ok (cv_ssd c) -> world_ok w -> cppa spp (nc_ppa ncmd) ->
  0 ≤ nc_stime ncmd ≤ U64_MAX -> 0 ≤ nc_xfer_size ncmd -> (nc_cmd ncmd = NAND_READ -> 0 < nc_xfer_size ncmd) ->
  wp (advance_nand cpu_clock c ncmd) (fun '(c', t) w' => exists s', c' = with_ssd c s' /\
    timed (cv_ssd c) s' /\ 0 ≤ t ≤ U64_MAX /\ quiet w w') w.
Proof.
  intros Es Hd Hw [Hp _] Ht Hx Hr. rewrite <- Es in Hp. unfold advance_nand. apply wp_bind.
  eapply wp_mono; [by apply ssd_advance_nand_ok; [|apply Hd|..]|].
  intros [s' t] w' (Htm & Hw' & Hb & Hr' & _). apply wp_ret. by exists s'.
Qed.

(** A command of garbage collection only lets time pass. *)
Lemma gc_nand_ok er ro dead hole c cmd size p w (Q : conv_ftl -> world -> Prop) :
  ftl_ok spp er ro dead hole c -> world_ok w -> cppa spp p -> 0 ≤ size -> (cmd = NAND_READ -> 0 < size) ->
  (forall s' w', timed (cv_ssd c) s' -> quiet w w' -> Q (with_ssd c s') w') ->
  wp ('(c, _) ← advance_nand cpu_clock c (mk_ncmd GC_IO cmd size 0 false p); mret c) Q w.
Proof.
  intros [] Hw Hp Hs Hr HQ. apply wp_bind. eapply wp_mono.
  { apply advance_nand_ok; try done; cbn; unfold U64_MAX; lia. }
  intros [c' t] w' (s' & -> & Ht & _ & Hq). apply wp_ret. by apply HQ.
Qed.

(** Only pages that hold data can be dead. *)
Lemma ftl_dead_ext er ro dead dead' hole c :
  ftl_ok spp er ro dead hole c -> (forall p, dead' p -> er = Some (g_blk p)) ->
  (forall p, cppa spp p -> pst (cv_ssd c) p = PG_VALID -> dead' p <-> dead p) ->
  ftl_ok spp er ro dead' hole c.
Proof.
  intros [] Her Hd. split; try done. eapply map_ok_ext; [|done]. intros p. unfold live.
  split; intros (Hc & Hv & ?); pose proof (Hd p Hc Hv); tauto.
Qed.

(** ** Moving one page *)

(** [dead'] adds [q] to [dead]. *)
Definition dies (dead dead' : ppa -> Prop) (q : ppa) : Prop :=
  forall p, cppa spp p -> dead' p <-> dead p \/ p = q.

Record moved (v : Z) (dead' : ppa -> Prop) (c c' : conv_ftl) : Prop := {
  mv_ok : exists ro, ftl_ok spp (Some v) ro dead' None c';
  mv_frame : gc_frame c c';
  mv_room : croom spp c' = croom spp c - 1;
  mv_pst p : cppa spp p -> g_blk p = v -> pst (cv_ssd c') p = pst (cv_ssd c) p;
}.

Lemma moved_timed v dead' c c' s' :
  moved v dead' c c' -> timed (cv_ssd c') s' -> moved v dead' c (with_ssd c' s').
Proof.
  intros [[ro H1] H2 H3 H4] Ht. split; try done.
  - exists ro. by apply ftl_timed.
  - by destruct H2.
  - intros p Hp Hb. cbn. rewrite (timed_pst _ _ _ Ht). auto.
Qed.

Lemma placed_mapped er dead c io lpn c' :
  placed spp er dead c io lpn c' -> cppa spp (wps c io) -> 0 ≤ lpn < Z.of_nat (length (cv_maptbl c)) ->
  forall l, mapped c' l <-> l = lpn \/ mapped c l.
Proof.
  intros Hp Hc Hl l. unfold mapped. rewrite (pl_map _ _ _ _ _ _ _ Hp).
  pose proof (ppa_in_mapped spp _ (cg_ok _ Hg) (proj1 Hc)) as Hu.
  setoid_rewrite aget_insert; [|done]. destruct (decide (lpn = l)) as [->|Hne].
  - split; [by left|]. intros _. by exists (wps c io).
  - split; [by right | by intros [?|?]].
Qed.

Lemma gc_write_page_ok v ro dead dead' c q w :
  ftl_ok spp (Some v) ro dead None c -> live spp (cv_ssd c) dead q -> g_blk q = v -> dies dead dead' q ->
  (forall p, dead' p -> g_blk p = v) -> pgs_per_line spp + 2 ≤ croom spp c -> world_ok w ->
  wp (gc_write_page cpu_clock c q) (fun c' w' => moved v dead' c c' /\ quiet w w') w.
Proof.
  intros Hf Hq Hqv Hdies Hd' Hroom Hw. pose proof Hf as [Es Hd Hl Hm Hcur Hdd].
  destruct (mo_bwd _ _ _ _ _ Hm q Hq) as (lpn & Hr & Hmt & _). pose proof (proj1 Hq) as Hqc.
  pose proof (aget_range _ _ _ Hmt) as Hlpn. pose proof (mo_mt _ _ _ _ _ Hm) as Hlen.
  edestruct (map_hole spp _ (live spp (cv_ssd c) dead') _ _ lpn q Hm Hq Hr) as [Hm1 _].
  { intros p. unfold live. split; [intros (Hc & ? & Hn) | intros ((Hc & ? & ?) & ?)]; rewrite (Hdies p Hc) in *; tauto. }
  assert (ftl_ok spp (Some v) ro dead' (Some lpn) c) as Hf1 by (split; try done; intros p Hp; f_equal; symmetry; auto).
  assert (cppa spp (wps c GC_IO)) as Hnew by apply Hl.
  assert (mapped c lpn) as Hmapped.
  { exists q. split; [done|]. apply (ppa_in_mapped spp q (cg_ok _ Hg)), Hqc. }
  unfold gc_write_page, get_rmap_ent. rewrite (ppa2pgidx_ok spp) by done. cbn [mbind res_bind]. rewrite Hr.
  apply (wp_lift_Ok _ _ _ _ _ eq_refl). unfold valid_lpn. rewrite Es, (proj2 (Z.ltb_lt lpn _)) by lia.
  apply (wp_lift_Ok _ _ _ _ _ eq_refl).
  rewrite (get_new_page_ok spp) by done. apply (wp_lift_Ok _ _ _ _ _ eq_refl).
  apply wp_lift_bind. eapply returns_mono; [eapply (place_ok spp Hg); [done | lia | done]|]. intros c1 H1.
  apply wp_lift_bind. eapply returns_mono; [exact H1|]. intros c2 H2.
  apply wp_lift_bind. eapply returns_mono; [exact H2|]. intros c3 H3.
  apply wp_lift_bind. eapply returns_mono; [exact H3|]. clear c1 c2 c3 H1 H2 H3. intros c' Hpl.
  assert (moved v dead' c c') as Hmv.
  { pose proof Hpl as [H1 H2 H3 [H4 H5] H6]. split; try done.
    - split; try done. intros l. rewrite (placed_mapped _ _ _ _ _ _ Hpl) by (done || lia).
      split; [by intros [->|?] | by right].
    - intros p Hp Hb. rewrite H6 by done. rewrite decide_False; [done|]. intros ->.
      assert (ro (g_blk (wps c GC_IO)) = LOpen GC_IO) as Ho by (by eapply ws_role).
      rewrite Hb in Ho. rewrite (proj2 (lo_er _ _ _ _ _ _ Hl v)) in Ho by done. done. }
  assert (sp (cv_ssd c') = spp) as Es' by (by destruct (mv_ok _ _ _ _ Hmv) as [? []]).
  destruct (enable_gc_delay (cv_cp c')); [|apply wp_ret; by split; [|apply quiet_refl]].
  unfold last_pg_in_wordline. rewrite Es'. unfold checked_mod. geom Hg.
  rewrite (proj2 (Z.eqb_neq (pgs_per_oneshotpg spp) 0)) by lia. apply (wp_lift_Ok _ _ _ _ _ eq_refl).
  destruct (mv_ok _ _ _ _ Hmv) as [ro' Hf']. pose proof (u64_range (i32 (pgsz spp * pgs_per_oneshotpg spp))).
  destruct (_ =? _); (eapply gc_nand_ok; [done|done|done|lia|done|]; intros s' w' Ht Hqt; split; [by apply moved_timed | done]).
Qed.

(** ** Progress through the victim line *)
Section Line.
Context (v K : Z) (Hv : 0 ≤ v < blks_per_pl spp) (HK : pgs_per_line spp + 1 ≤ K).

(** [k ch lun] pages of the block of this LUN have been handled. *)
Definition gdead (k : Z -> Z -> Z) (p : ppa) : Prop :=
  cppa spp p /\ g_blk p = v /\ g_pg p < k (g_ch p) (g_lun p).

(** The valid pages of the line that are still to be moved. *)
Definition to_move (k : Z -> Z -> Z) (s : ssd) : Z :=
  zcount (fun p => is_valid (pst s p) && (k (g_ch p) (g_lun p) <=? g_pg p)) (line_pages spp v).

(** [E ch lun]: the block of this LUN is erased. *)
Record gc_inv (k : Z -> Z -> Z) (E : Z -> Z -> bool) (c : conv_ftl) : Prop := {
  gi_ok : exists ro, ftl_ok spp (Some v) ro (gdead k) None c;
  gi_room : croom spp c = K + to_move k (cv_ssd c);
  gi_pst p : cppa spp p -> g_blk p = v -> pst (cv_ssd c) p = PG_FREE <-> E (g_ch p) (g_lun p) = true;
}.

Definition bump (k : Z -> Z -> Z) (ch lun x : Z) : Z -> Z -> Z :=
  fun c l => if decide (c = ch /\ l = lun) then x else k c l.

Lemma page_eq p q : cppa spp p -> cppa spp q -> g_blk p = g_blk q -> g_ch p = g_ch q -> g_lun p = g_lun q ->
  g_pg p = g_pg q -> p = q.
Proof.
  intros [(_ & _ & Hp & _) Hr] [(_ & _ & Hp' & _) Hr'] ????. pose proof (cg_pls _ Hg).
  destruct p, q. cbn in *. f_equal; lia.
Qed.

Lemma to_move_ext k k' s s' :
  (forall p, cppa spp p -> g_blk p = v -> is_valid (pst s' p) && (k' (g_ch p) (g_lun p) <=? g_pg p) =
    is_valid (pst s p) && (k (g_ch p) (g_lun p) <=? g_pg p)) -> to_move k' s' = to_move k s.
Proof. intros H. apply zcount_ext. intros p [Hp Hb]%elem_of_line_pages; [|done..]. by apply H. Qed.

(** Pages without data are skipped. *)
Lemma gc_skip k k' E c :
  gc_inv k E c ->
  (forall p, cppa spp p -> g_blk p = v -> pst (cv_ssd c) p = PG_VALID ->
     k' (g_ch p) (g_lun p) ≤ g_pg p <-> k (g_ch p) (g_lun p) ≤ g_pg p) -> gc_inv k' E c.
Proof.
  intros [[ro Hf] Hr Hp] Hk. split; [| |done].
  - exists ro. eapply ftl_dead_ext; [done|by intros p (_ & <- & _)|]. intros p Hc Hst. unfold gdead.
    split; intros (? & Hb & ?); (split; [done|]; split; [done|]); pose proof (Hk p Hc Hb Hst); lia.
  - rewrite Hr. f_equal. symmetry. apply to_move_ext. intros p Hc Hb.
    destruct (pst (cv_ssd c) p) eqn:Hst; try done. cbn. pose proof (Hk p Hc Hb Hst) as H.
    destruct (Z.leb_spec (k' (g_ch p) (g_lun p)) (g_pg p)), (Z.leb_spec (k (g_ch p) (g_lun p)) (g_pg p)); try done; lia.
Qed.

Lemma gc_timed k E c s' : gc_inv k E c -> timed (cv_ssd c) s' -> gc_inv k E (with_ssd c s').
Proof.
  intros [[ro Hf] Hr Hp] Ht. split.
  - exists ro. by apply ftl_timed.
  - change (croom spp (with_ssd c s')) with (croom spp c). rewrite Hr. f_equal. symmetry.
    apply to_move_ext. intros p _ _. cbn. by rewrite (timed_pst _ _ _ Ht).
  - intros p Hc Hb. cbn. rewrite (timed_pst _ _ _ Ht). auto.
Qed.

(** One page that holds data is moved. *)
Lemma gc_move k E c q w :
  gc_inv k E c -> cppa spp q -> g_blk q = v -> g_pg q = k (g_ch q) (g_lun q) ->
  pst (cv_ssd c) q = PG_VALID -> world_ok w ->
  wp (gc_write_page cpu_clock c q) (fun c' w' =>
    gc_inv (bump k (g_ch q) (g_lun q) (g_pg q + 1)) E c' /\ gc_frame c c' /\ quiet w w') w.
Proof.
  intros [[ro Hf] Hr Hp] Hq Hb Hk Hst Hw. set (k' := bump k _ _ _).
  assert (forall p, cppa spp p -> g_blk p = v -> p <> q ->
    k' (g_ch p) (g_lun p) ≤ g_pg p <-> k (g_ch p) (g_lun p) ≤ g_pg p) as Hk'.
  { intros p Hc Hpb Hne. unfold k', bump. case_decide as E1; [|done]. destruct E1 as [E1 E3].
    rewrite E1, E3, <- Hk. assert (g_pg p <> g_pg q); [|lia]. intros E2. apply Hne, page_eq; congruence. }
  assert (k' (g_ch q) (g_lun q) = g_pg q + 1) as Hkq by (unfold k', bump; by rewrite decide_True).
  assert (live spp (cv_ssd c) (gdead k) q) as Hlive.
  { split; [done|]. split; [done|]. intros (_ & _ & ?). lia. }
  assert (to_move k' (cv_ssd c) = to_move k (cv_ssd c) - 1) as Hto.
  { unfold to_move.
    erewrite (zcount_upd (fun p => is_valid (pst (cv_ssd c) p) && (k (g_ch p) (g_lun p) <=? g_pg p)) _ _ q);
      [|by apply line_pages_NoDup | by apply elem_of_line_pages |].
    - rewrite Hst, Hkq, <- Hk, (proj2 (Z.leb_le (g_pg q) (g_pg q))), (proj2 (Z.leb_gt (g_pg q + 1) _)) by lia.
      cbn. lia.
    - intros p [Hc Hpb]%elem_of_line_pages Hne; [|done..]. f_equal. pose proof (Hk' p Hc Hpb Hne).
      destruct (Z.leb_spec (k (g_ch p) (g_lun p)) (g_pg p)), (Z.leb_spec (k' (g_ch p) (g_lun p)) (g_pg p));
        try done; lia. }
  assert (0 ≤ to_move k' (cv_ssd c)) as Hpos by (apply zcount_range).
  eapply wp_mono.
  { eapply (gc_write_page_ok v ro (gdead k) (gdead k')); try done; [|by intros p (_ & ? & _) | lia].
    intros p Hc. unfold gdead. destruct (decide (p = q)) as [->|Hne].
    - split; [by right|]. intros _. split; [done|]. split; [done | lia].
    - split; [intros (_ & Hpb & ?); left | intros [(_ & Hpb & ?)|?]; [|done]];
        (split; [done|]; split; [done|]); pose proof (Hk' p Hc Hpb Hne); lia. }
  intros c' w' [[Hok Hfr Hrm Hps] Hqt]. split; [|by split]. split; [done| |].
  - rewrite Hrm, Hr. rewrite (to_move_ext k' k' (cv_ssd c) (cv_ssd c')); [lia|].
    intros p Hc Hpb. by rewrite Hps.
  - intros p Hc Hpb. rewrite Hps by done. auto.
Qed.

(** ** One flash page *)
Definition pg_plus (p : ppa) (i : Z) : ppa := mk_ppa (g_pg p + i) (g_blk p) (g_pl p) (g_lun p) (g_ch p) (g_rsv p).

Lemma pg_plus_0 p : pg_plus p 0 = p.
Proof. unfold pg_plus. rewrite Z.add_0_r. by destruct p. Qed.

Lemma next_pg_plus p i : 0 ≤ g_pg p + i < 65535 -> next_pg (pg_plus p i) = pg_plus p (i + 1).
Proof. intros H. unfold next_pg, set_pg, pg_plus. cbn -[u16]. rewrite u16_small by lia. f_equal. lia. Qed.

Lemma pg_plus_in p i : cppa spp p -> 0 ≤ i -> g_pg p + i < pgs_per_blk spp -> cppa spp (pg_plus p i).
Proof. intros [(? & ? & ? & ? & ?) ?] ??. split; [|done]. unfold ppa_in, pg_plus. cbn. lia. Qed.

Lemma get_pst s p : ssd_wf s -> cppa (sp s) p -> exists g, get_pg s p = Ok g /\ pg_st g = pst s p.
Proof.
  intros Hs [Hp _]. destruct (get_pg_ok s Hs p Hp) as (g & Hgp & _). exists g. split; [done|].
  unfold pst. by rewrite Hgp.
Qed.

(** Counting the pages that hold data; none is free. *)
Lemma count_pages_ok s p n :
  ssd_wf s -> cppa (sp s) p -> sp s = spp -> 0 ≤ n -> g_pg p + n ≤ pgs_per_blk spp ->
  (forall i, 0 ≤ i < n -> pst s (pg_plus p i) <> PG_FREE) ->
  returns (for_loop (Z.to_nat n) 0 (fun i '(cnt, q) =>
    g ← get_pg s q;
    _ ← NVMEV_ASSERT (negb (bool_decide (pg_st g = PG_FREE)));
    Ok (if bool_decide (pg_st g = PG_VALID) then cnt + 1 else cnt, next_pg q)) (0, p))
    (fun '(cnt, _) => 0 ≤ cnt ≤ n /\ (cnt ≤ 0 -> forall i, 0 ≤ i < n -> pst s (pg_plus p i) <> PG_VALID)).
Proof.
  intros Hs Hp Es Hn Hend Hf. rewrite Es in Hp. pose proof (po_pgs _ (cg_ok _ Hg)).
  pose proof Hp as [(_ & _ & _ & _ & Hpg) _].
  apply (returns_for_loop (fun i '(cnt, q) => q = pg_plus p i /\ 0 ≤ cnt ≤ i /\
    (cnt ≤ 0 -> forall j, 0 ≤ j < i -> pst s (pg_plus p j) <> PG_VALID))).
  - rewrite pg_plus_0. split; [done|]. split; [lia|]. intros _ j. lia.
  - intros i [cnt q] Hi (-> & Hc & Hz).
    destruct (get_pst s (pg_plus p i)) as (g & -> & Hst); [done | rewrite Es; apply pg_plus_in; [done | lia..] |].
    cbn [mbind res_bind]. rewrite Hst, (bool_decide_false (pst s (pg_plus p i) = PG_FREE)) by (apply Hf; lia). cbn [negb NVMEV_ASSERT mbind res_bind returns].
    rewrite next_pg_plus by lia. split; [done|]. case_bool_decide as E; split; try lia.
    intros Hc0 j Hj. destruct (decide (j = i)) as [->|]; [done | apply Hz; lia].
  - intros [cnt q] (_ & Hc & Hz). replace (0 + Z.of_nat (Z.to_nat n)) with n in * by lia. by split.
Qed.

Lemma clean_one_flashpg_ok k E c p w :
  let n := pgs_per_flashpg spp in
  gc_inv k E c -> cppa spp p -> g_blk p = v -> g_pg p = k (g_ch p) (g_lun p) ->
  g_pg p + n ≤ pgs_per_blk spp -> E (g_ch p) (g_lun p) = false -> world_ok w ->
  wp (clean_one_flashpg cpu_clock c p) (fun c' w' =>
    gc_inv (bump k (g_ch p) (g_lun p) (g_pg p + n)) E c' /\ gc_frame c c' /\ quiet w w') w.
Proof.
  intros n Hi Hp Hb Hk Hend HE Hw. pose proof (gi_ok _ _ _ Hi) as [ro [Es Hd _ _ _ _]].
  pose proof (po_flash _ (cg_ok _ Hg)) as Hn. pose proof (po_pgs _ (cg_ok _ Hg)) as Hpp.
  pose proof Hp as [(_ & _ & _ & _ & Hpg) _].
  assert (forall i, 0 ≤ i < n -> pst (cv_ssd c) (pg_plus p i) <> PG_FREE) as Hnf.
  { intros i Hi' Hst. apply (gi_pst _ _ _ Hi) in Hst; [|apply pg_plus_in; [done | lia..] | done].
    cbn in Hst. congruence. }
  unfold clean_one_flashpg. rewrite Es. apply wp_lift_bind.
  eapply returns_mono; [apply count_pages_ok; [apply Hd | by rewrite Es | done | lia | done | done]|].
  intros [cnt q] [Hc Hz]. destruct (Z.leb_spec cnt 0) as [Hc0|Hc0].
  - apply wp_ret. split; [|by split; [|apply quiet_refl]]. eapply gc_skip; [done|].
    intros r Hr Hrb Hst. unfold bump. case_decide as E1; [|done]. destruct E1 as [E1 E2].
    rewrite E1, E2, <- Hk. split; [lia|]. intros Hge. destruct (decide (g_pg p + n ≤ g_pg r)); [done|].
    exfalso. apply (Hz Hc0 (g_pg r - g_pg p)); [fold n; lia|].
    replace (pg_plus p (g_pg r - g_pg p)) with r; [done|].
    apply page_eq; try done; [apply pg_plus_in; [done | lia..] | cbn; congruence | cbn; lia].
  - apply wp_bind.
    apply (wp_mono _ (fun c1 w1 => gc_inv k E c1 /\ gc_frame c c1 /\ quiet w w1)).
    { destruct (enable_gc_delay (cv_cp c)); [|apply wp_ret; by split; [|split; [|apply quiet_refl]]].
      destruct (gi_ok _ _ _ Hi) as [ro' Hf]. rewrite (po_pgsz _ (cg_ok _ Hg)).
      pose proof (po_flash_blk _ (cg_ok _ Hg)).
      assert (u64 (i32 (4096 * cnt)) = 4096 * cnt) as ->.
      { rewrite i32_small by (unfold n in *; lia). apply u64_small. unfold U64_MAX, n in *. lia. }
      eapply gc_nand_ok; [done|done|done|lia|lia|]. intros s' w' Ht Hq. split; [by apply gc_timed|]. by split. }
    intros c1 w1 (Hi1 & Hf1 & Hq1). apply wp_bind.
    apply (wp_for_loop (fun i '(c', q) w' => q = pg_plus p i /\
      gc_inv (bump k (g_ch p) (g_lun p) (g_pg p + i)) E c' /\ gc_frame c c' /\ quiet w w')).
    + rewrite pg_plus_0. split; [done|]. split; [|by split]. eapply gc_skip; [done|].
      intros r _ _ _. unfold bump. case_decide as E1; [|done]. destruct E1 as [-> ->]. lia.
    + intros i [c2 q2] w2 Hi2 (-> & Hinv & Hfr & Hqt). rewrite next_pg_plus by lia.
      assert (cppa spp (pg_plus p i)) as Hqc by (apply pg_plus_in; [done | lia..]).
      destruct (gi_ok _ _ _ Hinv) as [ro2 Hf2]. pose proof (fk_sp _ _ _ _ _ _ Hf2) as Es2.
      destruct (get_pst (cv_ssd c2) (pg_plus p i)) as (g & -> & Hst);
        [apply (dv_wf _ (fk_dev _ _ _ _ _ _ Hf2)) | by rewrite Es2 |].
      apply (wp_lift_Ok _ _ _ _ _ eq_refl). rewrite Hst. apply wp_bind.
      apply (wp_mono _ (fun c3 w3 => gc_inv (bump k (g_ch p) (g_lun p) (g_pg p + (i + 1))) E c3 /\
        gc_frame c c3 /\ quiet w w3)); [|intros c3 w3 H3; by apply wp_ret].
      case_bool_decide as Hval.
      * eapply wp_mono.
        { apply (gc_move _ E c2 (pg_plus p i) w2 Hinv Hqc Hb); [|done|apply Hqt].
          unfold bump. by rewrite decide_True. }
        intros c3 w3 (H1 & H2 & H3). split; [|split; [by eapply gc_frame_trans | by eapply quiet_trans]].
        eapply gc_skip; [done|]. intros r _ _ _. unfold bump. cbn.
        case_decide; [lia | done].
      * apply wp_ret. split; [|done]. eapply gc_skip; [done|]. intros r Hr Hrb Hrv. unfold bump.
        case_decide as E1; [|done]. destruct E1 as [E1 E2]. split; [lia|]. intros Hge.
        assert (g_pg r <> g_pg p + i); [|lia]. intros E3. apply Hval. replace (pg_plus p i) with r; [done|].
        apply page_eq; try done; cbn; congruence.
    + intros [c2 q2] w2 (_ & H1 & H2). apply wp_ret.
      replace (0 + Z.of_nat (Z.to_nat (pgs_per_flashpg spp))) with n in H1 by (unfold n; lia). by split.
Qed.

(** ** One LUN *)
Definition mark (E : Z -> Z -> bool) (ch lun : Z) : Z -> Z -> bool :=
  fun c l => bool_decide (c = ch /\ l = lun) || E c l.

Lemma same_blk_victim p q : cppa spp p -> cppa spp q -> g_blk p = v -> g_blk q = v ->
  same_blk p q <-> g_ch q = g_ch p /\ g_lun q = g_lun p.
Proof.
  intros [(_ & _ & Hp & _) _] [(_ & _ & Hq & _) _] Ep Eq. pose proof (cg_pls _ Hg).
  unfold same_blk, same_lun. split; [intros ([? ?] & _); by split|]. intros [-> ->]. rewrite Ep, Eq.
  split; [done|]. split; [lia | done].
Qed.

Lemma gc_erase_ok k E c p :
  gc_inv k E c -> cppa spp p -> g_blk p = v -> pgs_per_blk spp ≤ k (g_ch p) (g_lun p) ->
  returns (mark_block_free c p) (fun c' => gc_inv k (mark E (g_ch p) (g_lun p)) c' /\ gc_frame c c').
Proof.
  intros [[ro [Es Hd Hl Hm Hcur Hdd]] Hr Hp] Hc Hb Hk.
  eapply returns_mono; [by apply mark_block_free_ok; rewrite ?Es; [..|apply (cg_pls _ Hg)]|].
  intros c' (s' & -> & [Ss Sd Sp]). rewrite Es in Sp. split; [|done].
  assert (forall q, cppa spp q -> g_blk q <> v -> pst s' q = pst (cv_ssd c) q) as Hoth.
  { intros q Hq Hne. rewrite Sp by done. rewrite decide_False; [done|]. intros (_ & _ & ?). congruence. }
  assert (forall q, cppa spp q -> g_blk q = v -> pst s' q =
    if decide (g_ch q = g_ch p /\ g_lun q = g_lun p) then PG_FREE else pst (cv_ssd c) q) as Hln.
  { intros q Hq Hqb. rewrite Sp by done. pose proof (same_blk_victim p q Hc Hq Hb Hqb) as Hs.
    destruct (decide (same_blk p q)) as [H|H]; case_decide; tauto. }
  assert (forall q, cppa spp q -> g_ch q = g_ch p /\ g_lun q = g_lun p -> g_pg q < k (g_ch q) (g_lun q)) as Hdone.
  { intros q [(_ & _ & _ & _ & Hq) _] [-> ->]. lia. }
  split.
  - exists ro. split; cbn; try done.
    + congruence.
    + eapply (lines_ok_ext spp Hg); [|done|exact Hl]. intros q Hq Hro. apply Hoth; [done|]. intros <-.
      by apply Hro, (lo_er _ _ _ _ _ _ Hl).
    + eapply map_ok_ext; [|exact Hm]. intros q. unfold live. destruct (decide (g_blk q = v)) as [Hqb|Hqb].
      * split; intros (Hq & Hst & Hnd); (split; [done|]); (split; [|done]);
          pose proof (Hln q Hq Hqb) as H; case_decide as E1; try congruence.
        exfalso. apply Hnd. split; [done|]. split; [done | by apply Hdone].
      * split; intros (Hq & Hst & Hnd); (split; [done|]); (split; [|done]); pose proof (Hoth q Hq Hqb); congruence.
  - change (croom spp (with_ssd c s')) with (croom spp c). rewrite Hr. f_equal. symmetry.
    apply to_move_ext. intros q Hq Hqb. cbn. rewrite Hln by done. case_decide as E1; [|done].
    pose proof (Hdone q Hq E1). rewrite (proj2 (Z.leb_gt _ _)) by lia. by rewrite !andb_false_r.
  - intros q Hq Hqb. cbn. rewrite Hln by done. unfold mark. case_decide as E1.
    + rewrite bool_decide_true by done. done.
    + rewrite bool_decide_false by done. by apply Hp.
Qed.

Lemma gc_lun_ok k E f c p w :
  let n := pgs_per_flashpg spp in
  let last := f =? flashpgs_per_blk spp - 1 in
  gc_inv k E c -> cppa spp p -> g_blk p = v -> g_pg p = f * n -> k (g_ch p) (g_lun p) = f * n ->
  0 ≤ f < flashpgs_per_blk spp -> E (g_ch p) (g_lun p) = false -> world_ok w ->
  wp (gc_lun cpu_clock c f p) (fun c' w' =>
    gc_inv (bump k (g_ch p) (g_lun p) ((f + 1) * n)) (if last then mark E (g_ch p) (g_lun p) else E) c' /\
    gc_frame c c' /\ quiet w w') w.
Proof.
  intros n last Hi Hp Hb Hpg Hk Hf HE Hw. pose proof (gi_ok _ _ _ Hi) as [ro Hok].
  pose proof (fk_sp _ _ _ _ _ _ Hok) as Es. pose proof (po_flash _ (cg_ok _ Hg)) as Hn.
  pose proof (po_flash_blk _ (cg_ok _ Hg)) as Hfb. fold n in Hn, Hfb.
  unfold gc_lun. rewrite Es.
  destruct (get_lun_ok (cv_ssd c) (dv_wf _ (fk_dev _ _ _ _ _ _ Hok)) p) as (l & Hl & _);
    [rewrite Es; apply Hp | rewrite Es; apply Hp|].
  apply (wp_lift_Ok _ _ _ _ _ Hl). apply wp_bind.
  eapply wp_mono; [by apply (clean_one_flashpg_ok k E); try done; [congruence | fold n; nia]|].
  intros c1 w1 (H1 & F1 & Q1). fold n in H1.
  replace (g_pg p + n) with ((f + 1) * n) in H1 by lia. fold last. destruct last eqn:El; [|by apply wp_ret].
  apply Z.eqb_eq in El. apply wp_lift_bind.
  eapply returns_mono; [apply (gc_erase_ok _ _ c1 p H1 Hp Hb)|].
  { unfold bump. rewrite decide_True by done. nia. }
  intros c2 [H2 F2]. apply wp_bind.
  apply (wp_mono _ (fun c3 w3 => gc_inv (bump k (g_ch p) (g_lun p) ((f + 1) * n)) (mark E (g_ch p) (g_lun p)) c3 /\
    gc_frame c c3 /\ quiet w w3)).
  { assert (gc_frame c c2) as F3 by (by eapply gc_frame_trans).
    destruct (enable_gc_delay (cv_cp c2)); [|apply wp_ret; by split].
    destruct (gi_ok _ _ _ H2) as [ro2 Hok2].
    eapply gc_nand_ok; [done|apply Q1|done|lia|done|]. intros s' w' Ht Hq.
    split; [by apply gc_timed|]. split; [by destruct F3 | by eapply quiet_trans]. }
  intros c3 w3 (H3 & F3 & Q3). apply wp_lift_bind. destruct (gi_ok _ _ _ H3) as [ro3 [Es3 Hd3 _ _ _ _]].
  eapply returns_mono; [apply stamp_gc_endtime_ok; [apply Hd3 | rewrite Es3; apply Hp]|].
  intros s' Ht. apply wp_ret. split; [by apply gc_timed|]. split; [by destruct F3 | done].
Qed.
End Line.

(** ** Choosing the victim *)
Definition erasing (ro : Z -> line_role) (v : Z) : Z -> line_role :=
  fun b => if decide (b = v) then LErasing else ro b.

Lemma erasing_other ro v b r : ro v = LVictim -> r <> LVictim -> r <> LErasing ->
  erasing ro v b = r <-> ro b = r.
Proof. intros Hv H1 H2. unfold erasing. case_decide; [subst; rewrite Hv|done]. split; congruence. Qed.

Lemma pop_line_ok st ro ws m v q t t2 l :
  lines_ok spp st None ro ws m -> ro v = LVictim ->
  pq_wf q t -> pq_size q = pq_size (lm_victim_line_pq m) - 1 -> pq_avail q = pq_avail (lm_victim_line_pq m) ->
  (forall b, pq_in q b <-> pq_in (lm_victim_line_pq m) b /\ b <> v) ->
  same_lines (pq_in (lm_victim_line_pq m)) (lm_lines m) t ->
  aget t v = Ok l -> t2 = <[Z.to_nat v := mk_line (id l) (ipc l) (vpc l) 0]> t ->
  let m' := lm_with_victim m q t2 (u32 (lm_victim_line_cnt m - 1)) in
  lines_ok spp st (Some v) (erasing ro v) ws m' /\ exists l', aget (lm_lines m') v = Ok l' /\ id l' = v /\
    vcount spp st v < pgs_per_line spp /\ ipc l' = pgs_per_line spp - vcount spp st v /\ 0 ≤ vcount spp st v.
Proof.
  intros Hl Hro Hq Hqs Hqa Hqi Hs Ha -> m'. pose proof (lines_range _ Hg _ _ _ _ _ Hl) as Hrng.
  pose proof (aget_range _ _ _ Ha) as Hr. pose proof (lo_len _ _ _ _ _ _ Hl) as Hlen.
  pose proof (lo_victim_cnt _ _ _ _ _ _ Hl) as Hvc. pose proof (proj1 Hs) as Hlt.
  destruct (same_lines_inv _ _ _ _ _ Hs Ha) as (l0 & Hl0 & E1 & E2 & E3 & _).
  pose proof (lo_line _ _ _ _ _ _ Hl _ _ Hl0) as Ho. rewrite Hro in Ho.
  assert (0 ≤ v < blks_per_pl spp) as Hv by lia.
  assert (1 ≤ pq_size q) as Hq1 by (destruct Hq as [V Hi]; pose proof (ho_size _ _ _ _ (pi_holes _ _ _ Hi)); lia).
  split.
  - split; cbn; try (apply Hl); try done.
    + by rewrite length_insert, Hlt.
    + intros io b. rewrite erasing_other by done. apply (lo_open _ _ _ _ _ _ Hl).
    + intros b. unfold erasing. case_decide as E; [by subst|]. split; [|intros [= <-]; done].
      intros H%(lo_er _ _ _ _ _ _ Hl). done.
    + by intros b [= <-].
    + intros b lb. rewrite aget_insert by done. unfold erasing. destruct (decide (v = b)) as [<-|Hne].
      * intros [= <-]. rewrite decide_True by done. split; cbn; try done. by rewrite E1, (ln_id _ _ _ _ _ _ Ho).
      * intros Hb. rewrite decide_False by congruence.
        destruct (same_lines_inv _ _ _ _ _ Hs Hb) as (lb0 & Hlb0 & F1 & F2 & F3 & F4).
        destruct (lo_line _ _ _ _ _ _ Hl _ _ Hlb0). split; rewrite ?F1, ?F2, ?F3; try done.
        intros Hnv. rewrite F4; [auto|]. rewrite (lo_pq_in _ _ _ _ _ _ Hl). by intros [_ ?].
    + intros p Hp. unfold erasing. case_decide; [done|]. intros _. apply Hl; [done|].
      intros H1%(lo_er _ _ _ _ _ _ Hl). done.
    + intros b. rewrite erasing_other by done. apply (lo_free _ _ _ _ _ _ Hl).
    + intros b. rewrite erasing_other by done. apply (lo_fulls _ _ _ _ _ _ Hl).
    + eapply (pq_wf_outside q t v); try done. rewrite Hqi. by intros [_ ?].
    + intros b. rewrite Hqi, (lo_pq_in _ _ _ _ _ _ Hl). unfold erasing. case_decide; [|tauto].
      split; [by intros [_ ?] | by intros [_ ?]].
    + by rewrite Hqa, (lo_avail _ _ _ _ _ _ Hl).
    + rewrite Hqs. rewrite u32_small by (unfold U32_MAX; lia). lia.
    + pose proof (lo_total _ _ _ _ _ _ Hl) as Ht. cbn in Ht. rewrite u32_small by (unfold U32_MAX; lia). lia.
  - cbn. rewrite aget_insert, decide_True by done. eexists. split; [done|]. cbn.
    pose proof (ln_vpc _ _ _ _ _ _ Ho ltac:(done)). pose proof (ln_sum _ _ _ _ _ _ Ho ltac:(done)) as Hsum.
    pose proof (ln_victim _ _ _ _ _ _ Ho eq_refl). cbn in Hsum. pose proof (vcount_range spp Hg st v).
    rewrite E1, E2, (ln_id _ _ _ _ _ _ Ho). repeat split; lia.
Qed.

(** The rank of a queued line is the number of its valid pages. *)
Lemma victim_rank st er ro ws m b : lines_ok spp st er ro ws m -> 0 ≤ b < blks_per_pl spp -> ro b = LVictim ->
  pq_rank (getpri (lm_lines m) b) = vcount spp st b.
Proof.
  intros Hl Hb Hro. destruct (aget_in_range (lm_lines m) b) as [l Ha]; [rewrite (lo_len _ _ _ _ _ _ Hl); lia|].
  pose proof (lo_line _ _ _ _ _ _ Hl _ _ Ha) as Ho. rewrite Hro in Ho. cbn. unfold victim_line_get_pri.
  rewrite (line_at_eq _ _ _ Ha), (ln_vpc _ _ _ _ _ _ Ho) by done.
  pose proof (vcount_range spp Hg st b). pose proof (cg_line _ Hg). apply u64_small. unfold U64_MAX. lia.
Qed.

Lemma select_victim_ok ro c force :
  ftl_ok spp None ro no_dead None c ->
  returns (select_victim_line c force) (fun '(c', vo) =>
    match vo with
    | None => c' = c /\ (force = true -> lm_victim_line_cnt (cv_lm c) = 0)
    | Some v => exists m' l, c' = with_lm c m' /\ ro v = LVictim /\ 0 ≤ v < blks_per_pl spp /\
        lines_ok spp (pst (cv_ssd c)) (Some v) (erasing ro v) (wps c) m' /\
        lm_free_line_cnt m' = lm_free_line_cnt (cv_lm c) /\ aget (lm_lines m') v = Ok l /\ id l = v /\
        let n := vcount spp (pst (cv_ssd c)) v in
        0 ≤ n < pgs_per_line spp /\ ipc l = pgs_per_line spp - n /\
        forall b, 0 ≤ b < blks_per_pl spp -> ro b = LVictim -> n ≤ vcount spp (pst (cv_ssd c)) b
    end).
Proof.
  intros [Es Hd Hl Hm Hcur Hdd]. unfold select_victim_line. rewrite Es.
  destruct (peek_ok _ _ (lo_pq _ _ _ _ _ _ Hl)) as [[Hs ->] | (Hs & v & Hpk & Hin & _ & Hmin)].
  { cbn. split; [done|]. intros _. rewrite (lo_victim_cnt _ _ _ _ _ _ Hl). lia. }
  rewrite Hpk. cbn [mbind res_bind]. pose proof (proj1 (lo_pq_in _ _ _ _ _ _ Hl v) Hin) as [Hv Hro].
  destruct (aget_in_range (lm_lines (cv_lm c)) v) as [l0 Hl0]; [rewrite (lo_len _ _ _ _ _ _ Hl); lia|].
  rewrite Hl0. cbn [mbind res_bind].
  destruct (negb force && (pgs_per_line spp / 8 <? vpc l0)) eqn:Ef.
  { cbn. split; [done|]. by intros ->. }
  destruct (pop_ok _ _ (lo_pq _ _ _ _ _ _ Hl) Hs) as (q & t & v' & -> & Hpk' & Hq & Hqs & Hqa & Hqi & Hrep).
  rewrite Hpk in Hpk'. injection Hpk' as <-. apply repos_same in Hrep. cbn [mbind res_bind].
  destruct (aget_in_range t v) as [l Ht]; [rewrite (proj1 Hrep), (lo_len _ _ _ _ _ _ Hl); lia|].
  unfold aupd. rewrite Ht. cbn [mbind res_bind]. rewrite aset_in_range by (by eapply aget_range).
  cbn [mbind res_bind returns].
  edestruct (pop_line_ok _ _ _ _ v q t _ l Hl Hro Hq Hqs Hqa Hqi Hrep Ht eq_refl) as (Hl' & l' & Hl'' & E1 & E2 & E3 & E4).
  assert (forall b, 0 ≤ b < blks_per_pl spp -> ro b = LVictim ->
    vcount spp (pst (cv_ssd c)) v ≤ vcount spp (pst (cv_ssd c)) b) as Hcheap.
  { intros b Hb Hrb. pose proof (Hmin b ltac:(by apply (lo_pq_in _ _ _ _ _ _ Hl))) as Hle.
    unfold rk in Hle.
    by rewrite !(victim_rank _ _ _ _ _ _ Hl) in Hle. }
  by exists (lm_with_victim (cv_lm c) q (<[Z.to_nat v:=mk_line (id l) (ipc l) (vpc l) 0]> t)
    (u32 (lm_victim_line_cnt (cv_lm c) - 1))), l'.
Qed.

(** ** Freeing the line *)
Definition freed (ro : Z -> line_role) (v : Z) : Z -> line_role :=
  fun b => if decide (b = v) then LFree else ro b.

Lemma freed_other ro v b r : ro v = LErasing -> r <> LErasing -> r <> LFree -> freed ro v b = r <-> ro b = r.
Proof. intros Hv H1 H2. unfold freed. case_decide; [subst; rewrite Hv|done]. split; congruence. Qed.

Lemma free_line_ok st ro ws m v l :
  lines_ok spp st (Some v) ro ws m -> (forall p, cppa spp p -> g_blk p = v -> st p = PG_FREE) ->
  aget (lm_lines m) v = Ok l ->
  lines_ok spp st None (freed ro v) ws
    (lm_with_free (lm_with_lines m (<[Z.to_nat v := mk_line (id l) 0 0 (pos l)]> (lm_lines m)))
       (lm_free_line_list m ++ [v]) (u32 (lm_free_line_cnt m + 1))).
Proof.
  intros Hl Hst Ha. pose proof (lines_range _ Hg _ _ _ _ _ Hl) as Hrng. pose proof (aget_range _ _ _ Ha) as Hr.
  pose proof (lo_len _ _ _ _ _ _ Hl) as Hlen. pose proof (proj2 (lo_er _ _ _ _ _ _ Hl v) eq_refl) as Hro.
  pose proof (lo_free_cnt _ _ _ _ _ _ Hl) as Hfc. pose proof (lo_line _ _ _ _ _ _ Hl _ _ Ha) as Ho. rewrite Hro in Ho.
  assert (u32 (lm_free_line_cnt m + 1) = lm_free_line_cnt m + 1) as Eu by (apply u32_small; unfold U32_MAX; lia).
  split; cbn; rewrite ?Eu; try (apply Hl); try done.
  - by rewrite length_insert.
  - intros io b. rewrite freed_other by done. apply (lo_open _ _ _ _ _ _ Hl).
  - intros b. unfold freed. case_decide as E; [done|]. split; [|done].
    intros H%(lo_er _ _ _ _ _ _ Hl). congruence.
  - intros b lb. rewrite aget_insert by done. unfold freed. destruct (decide (v = b)) as [<-|Hne].
    + intros [= <-]. rewrite decide_True by done. destruct Ho; split; cbn; auto; try done.
      intros _. symmetry. apply zcount_zero. intros p [Hp Hpb]%elem_of_line_pages; [|done|lia]. by rewrite Hst.
    + intros Hb. rewrite decide_False by congruence. by apply Hl.
  - intros p Hp. unfold freed. case_decide as E.
    + intros _. rewrite Hst by done. cbn. pose proof (page_off_range spp Hg p Hp). split; [lia | done].
    + intros Hn. by apply Hl.
  - apply NoDup_app. split; [apply Hl|]. split; [|apply NoDup_singleton].
    intros b Hb ->%list_elem_of_singleton. apply (lo_free _ _ _ _ _ _ Hl) in Hb as [_ ?]. congruence.
  - intros b. rewrite elem_of_app, list_elem_of_singleton, (lo_free _ _ _ _ _ _ Hl). unfold freed.
    case_decide as E; [subst|tauto]. rewrite Hro. split; [|by right].
    intros _. split; [lia | done].
  - intros b. rewrite freed_other by done. apply (lo_fulls _ _ _ _ _ _ Hl).
  - apply pq_wf_outside; [apply Hl | done|]. rewrite (lo_pq_in _ _ _ _ _ _ Hl), Hro. by intros [_ ?].
  - intros b. rewrite freed_other by done. apply (lo_pq_in _ _ _ _ _ _ Hl).
  - rewrite length_app. cbn. lia.
  - pose proof (lo_total _ _ _ _ _ _ Hl) as Ht. cbn in Ht. lia.
Qed.

(** ** The loops of [do_gc] *)
Section Loops.
Context (v K : Z) (Hv : 0 ≤ v < blks_per_pl spp) (HK : pgs_per_line spp + 1 ≤ K).

(** The LUNs the inner loops have passed. *)
Definition passed (ch lun c l : Z) : bool := (c <? ch) || ((c =? ch) && (l <? lun)).
Definition handled (f ch lun : Z) : Z -> Z -> Z :=
  fun c l => if passed ch lun c l then (f + 1) * pgs_per_flashpg spp else f * pgs_per_flashpg spp.
Definition erased (f ch lun : Z) : Z -> Z -> bool :=
  fun c l => let last := flashpgs_per_blk spp - 1 in (last <? f) || ((f =? last) && passed ch lun c l).

Lemma gc_inv_ext k k' E E' c :
  gc_inv v K k E c ->
  (forall ch lun, 0 ≤ ch < nchs spp -> 0 ≤ lun < luns_per_ch spp -> k' ch lun = k ch lun /\ E' ch lun = E ch lun) ->
  gc_inv v K k' E' c.
Proof.
  intros H Hk. assert (gc_inv v K k' E c) as [H1 H2 H3].
  { eapply gc_skip; [done..|]. intros p [(Hc & Hl & _) _] _ _. by destruct (Hk _ _ Hc Hl) as [-> _]. }
  split; [done..|]. intros p Hp. pose proof Hp as [(Hc & Hl & _) _]. destruct (Hk _ _ Hc Hl) as [_ ->]. auto.
Qed.

(** The states of the loops: [done f ch lun]. *)
Definition gc_at (c0 : conv_ftl) (w0 : world) (f ch lun : Z) (x : conv_ftl * ppa) (w : world) : Prop :=
  let '(c, p) := x in
  gc_inv v K (handled f ch lun) (erased f ch lun) c /\ gc_frame c0 c /\ quiet w0 w /\ g_blk p = v /\ g_rsv p = 0.

Lemma gc_at_next c0 w0 f ch lun f' ch' lun' x w :
  gc_at c0 w0 f ch lun x w ->
  (forall c l, 0 ≤ c < nchs spp -> 0 ≤ l < luns_per_ch spp ->
     handled f' ch' lun' c l = handled f ch lun c l /\ erased f' ch' lun' c l = erased f ch lun c l) ->
  gc_at c0 w0 f' ch' lun' x w.
Proof. destruct x as [c p]. intros (H & ?) Hk. split; [by eapply gc_inv_ext | done]. Qed.

Lemma gc_lun_step c0 w0 f ch lun c p w :
  let p' := set_pl (set_lun (set_ch p ch) lun) 0 in
  gc_at c0 w0 f ch lun (c, p) w -> g_pg p = f * pgs_per_flashpg spp ->
  0 ≤ f < flashpgs_per_blk spp -> 0 ≤ ch < nchs spp -> 0 ≤ lun < luns_per_ch spp ->
  wp (c' ← gc_lun cpu_clock c f p'; mret (c', p')) (fun x w' => gc_at c0 w0 f ch (lun + 1) x w' /\
    g_pg x.2 = f * pgs_per_flashpg spp) w.
Proof.
  intros p' (Hi & Hfr & Hq & Hb & Hrs) Hpg Hf Hc Hl. geom Hg.
  pose proof (po_flash _ (cg_ok _ Hg)) as Hn. pose proof (po_flash_blk _ (cg_ok _ Hg)) as Hfb.
  assert (u8 ch = ch /\ u8 lun = lun) as [E1 E2] by (split; apply u8_small; lia).
  assert (g_ch p' = ch /\ g_lun p' = lun /\ g_pl p' = 0 /\ g_blk p' = v /\ g_pg p' = g_pg p /\ g_rsv p' = 0)
    as (F1 & F2 & F3 & F4 & F5 & F6).
  { unfold p', set_pl, set_lun, set_ch. cbn -[u8]. by rewrite E1, E2. }
  assert (cppa spp p') as Hp.
  { split; [|done]. unfold ppa_in. rewrite F1, F2, F3, F4, F5, Hpg. nia. }
  assert (passed ch lun ch lun = false) as Hps by (unfold passed; rewrite Z.ltb_irrefl, Z.eqb_refl, Z.ltb_irrefl; done).
  apply wp_bind. eapply wp_mono.
  { eapply (gc_lun_ok v K Hv HK _ _ f c p'); [exact Hi | done | done | lia | | done | | apply Hq].
    - rewrite F1, F2. unfold handled. by rewrite Hps.
    - rewrite F1, F2. unfold erased. rewrite Hps, (proj2 (Z.ltb_ge _ _)) by lia. by rewrite andb_false_r. }
  intros c' w' (H' & Hfr' & Hq'). apply wp_ret. split; [|exact (eq_trans F5 Hpg)].
  split; [|split; [by eapply gc_frame_trans | split; [by eapply quiet_trans | done]]].
  eapply gc_inv_ext; [exact H'|]. intros c1 l1 Hc1 Hl1. rewrite F1, F2. unfold handled, erased, bump, mark, passed.
  destruct (decide (c1 = ch /\ l1 = lun)) as [[-> ->]|Hne].
  - rewrite Z.ltb_irrefl, Z.eqb_refl, (proj2 (Z.ltb_lt lun (lun + 1))) by lia. cbn. split; [done|].
    rewrite (proj2 (Z.ltb_ge _ f)) by lia. cbn.
    destruct (f =? flashpgs_per_blk spp - 1); [by rewrite bool_decide_true | done].
  - assert ((l1 <? lun + 1) && (c1 =? ch) = (l1 <? lun) && (c1 =? ch)) as Hb1.
    { destruct (Z.eqb_spec c1 ch), (Z.ltb_spec l1 (lun + 1)), (Z.ltb_spec l1 lun); try done; lia. }
    rewrite !(andb_comm (c1 =? ch)), Hb1. split; [done|].
    rewrite (proj2 (Z.ltb_ge _ f)) by lia. cbn.
    destruct (f =? flashpgs_per_blk spp - 1); cbn; [|done]. by rewrite bool_decide_false, (andb_comm (c1 =? ch)).
Qed.

Lemma passed_row ch c l : 0 ≤ l < luns_per_ch spp -> passed ch (luns_per_ch spp) c l = passed (ch + 1) 0 c l.
Proof.
  intros Hl. unfold passed. rewrite (proj2 (Z.ltb_lt l _)), (proj2 (Z.ltb_ge l 0)) by lia.
  destruct (Z.ltb_spec c ch), (Z.eqb_spec c ch), (Z.ltb_spec c (ch + 1)), (Z.eqb_spec c (ch + 1)); try done; lia.
Qed.

Lemma passed_all c l : 0 ≤ c < nchs spp -> passed (nchs spp) 0 c l = true.
Proof. intros Hc. unfold passed. by rewrite (proj2 (Z.ltb_lt c _)) by lia. Qed.

Lemma passed_none c l : 0 ≤ c -> 0 ≤ l -> passed 0 0 c l = false.
Proof.
  intros Hc Hl. unfold passed. rewrite (proj2 (Z.ltb_ge c 0)), (proj2 (Z.ltb_ge l 0)) by lia. by rewrite andb_false_r.
Qed.

Lemma gc_loops_ok c0 c p w :
  let F := flashpgs_per_blk spp in
  gc_at c0 w 0 0 0 (c, p) w ->
  wp (for_loop (Z.to_nat F) 0 (fun flashpg '(c, p) =>
      let p := set_pg p (flashpg * pgs_per_flashpg spp) in
      for_loop (Z.to_nat (nchs spp)) 0 (fun ch '(c, p) =>
        for_loop (Z.to_nat (luns_per_ch spp)) 0 (fun lun '(c, p) =>
          let p := set_pl (set_lun (set_ch p ch) lun) 0 in
          c ← gc_lun cpu_clock c flashpg p;
          mret (c, p)) (c, p)) (c, p)) (c, p)) (gc_at c0 w F 0 0) w.
Proof.
  intros F Hat. pose proof (po_flash _ (cg_ok _ Hg)) as Hn. pose proof (po_flash_blk _ (cg_ok _ Hg)) as Hfb.
  geom Hg. assert (0 < F) as HF by (unfold F; nia).
  apply (wp_for_loop (fun f x w' => gc_at c0 w f 0 0 x w')); [done | |].
  2:{ intros x w' H'. by replace (0 + Z.of_nat (Z.to_nat F)) with F in H' by lia. }
  intros f [c1 p1] w1 Hf Hs1. cbv zeta. set (p2 := set_pg p1 _).
  assert (g_pg p2 = f * pgs_per_flashpg spp) as Hpg2.
  { unfold p2, set_pg. cbn -[u16]. apply u16_small. unfold F in Hf. nia. }
  apply (wp_for_loop (fun ch x w' => gc_at c0 w f ch 0 x w' /\ g_pg x.2 = f * pgs_per_flashpg spp)).
  - split; [|done]. destruct Hs1 as (? & ? & ? & ? & ?). by split_and!.
  - intros ch [c2 q2] w2 Hch [Hs2 Hq2].
    apply (wp_for_loop (fun lun x w' => gc_at c0 w f ch lun x w' /\ g_pg x.2 = f * pgs_per_flashpg spp)); [done| |].
    + intros lun [c3 q3] w3 Hlun [Hs3 Hq3]. apply gc_lun_step; try done; unfold F in *; lia.
    + intros x w' [Hx Hq]. split; [|done]. replace (0 + Z.of_nat (Z.to_nat (luns_per_ch spp))) with (luns_per_ch spp) in Hx by lia.
      eapply gc_at_next; [done|]. intros a l Ha Hl. unfold handled, erased. by rewrite passed_row.
  - intros x w' [Hx _]. replace (0 + Z.of_nat (Z.to_nat (nchs spp))) with (nchs spp) in Hx by lia.
    eapply gc_at_next; [done|]. intros a l Ha Hl. unfold handled, erased.
    rewrite passed_all, passed_none by lia. split; [done|]. rewrite andb_false_r, orb_false_r, andb_true_r.
    destruct (Z.ltb_spec (flashpgs_per_blk spp - 1) (f + 1)), (Z.ltb_spec (flashpgs_per_blk spp - 1) f),
      (Z.eqb_spec f (flashpgs_per_blk spp - 1)); try done; lia.
Qed.

(** At the end the line is erased and goes back to the free list. *)
Lemma mark_line_free_ok c0 w0 c p w :
  gc_at c0 w0 (flashpgs_per_blk spp) 0 0 (c, p) w ->
  returns (mark_line_free c p) (fun c' => ftl_idle spp c' /\ gc_frame c0 c' /\ croom spp c' = K + pgs_per_line spp).
Proof.
  intros ([[ro Hf] Hr Hp] & Hfr & _ & Hb & _). pose proof Hf as [Es Hd Hl Hm Hcur Hdd].
  assert (forall q, cppa spp q -> g_blk q = v -> pst (cv_ssd c) q = PG_FREE) as Hfree.
  { intros q Hq Hqb. apply Hp; [done..|]. unfold erased. by rewrite (proj2 (Z.ltb_lt _ _)) by lia. }
  assert (to_move v (handled (flashpgs_per_blk spp) 0 0) (cv_ssd c) = 0) as Ht.
  { apply zcount_zero. intros q [Hq Hqb]%elem_of_line_pages; [|done..]. by rewrite Hfree. }
  destruct (aget_in_range (lm_lines (cv_lm c)) v) as [l Ha]; [rewrite (lo_len _ _ _ _ _ _ Hl); lia|].
  unfold mark_line_free. rewrite Hb, Ha. cbn [mbind res_bind]. rewrite aset_in_range by (by eapply aget_range).
  cbn [mbind res_bind returns]. pose proof (free_line_ok _ _ _ _ _ _ Hl Hfree Ha) as Hl'. split; [|split].
  - exists (freed ro v). split; try done. eapply map_ok_ext; [|exact Hm]. intros q. unfold live, no_dead.
    split; [intros (? & ? & _) | intros (? & ? & _); by auto]. split; [done|]. split; [done|].
    intros (Hq & Hqb & _). cbn in *. rewrite Hfree in H0; done.
  - by destruct Hfr.
  - rewrite Ht, Z.add_0_r in Hr. rewrite <- Hr. unfold croom, room. cbn. pose proof (lines_range _ Hg _ _ _ _ _ Hl).
    rewrite u32_small by (unfold U32_MAX; lia). unfold wps. cbn. lia.
Qed.
End Loops.

(** ** [do_gc] *)
Lemma do_gc_ok c w :
  ftl_idle spp c -> 2 * pgs_per_line spp ≤ croom spp c -> world_ok w ->
  wp (do_gc cpu_clock c true) (fun '(c', r) w' => ftl_idle spp c' /\ quiet w w' /\
    (forall lpn, mapped c' lpn <-> mapped c lpn) /\ cv_cp c' = cv_cp c /\
    (r = -1 /\ c' = c /\ lm_victim_line_cnt (cv_lm c) = 0 \/
     r = 0 /\ exists n, 0 < n ≤ pgs_per_line spp /\ croom spp c' = croom spp c + n /\
       cv_wfc c' = mk_wfc (write_credits (cv_wfc c)) n)) w.
Proof.
  intros [ro Hf] Hroom Hw. pose proof Hf as [Es Hd Hl Hm Hcur Hdd]. unfold do_gc. apply wp_lift_bind.
  eapply returns_mono; [by apply select_victim_ok|]. intros [c1 [v|]].
  2:{ intros [-> H]. apply wp_ret. split; [by exists ro|]. split; [by apply quiet_refl|]. split; [done|]. split; [done|].
      left. by split; [|split; [|apply H]]. }
  intros (m' & l & -> & Hro & Hv & Hl' & Hfree & Ha & Hid & Hn & Hipc & _).
  set (n := vcount spp (pst (cv_ssd c)) v) in *. pose proof (cg_line _ Hg) as Hppl.
  apply (wp_lift_Ok _ _ _ _ _ Ha). rewrite Hid. cbv zeta.
  set (c1 := with_wfc _ _). set (p := set_blk _ _). rewrite Es. set (K := croom spp c - n).
  assert (HK : pgs_per_line spp + 1 ≤ K) by (unfold K; lia).
  assert (gc_at v K c1 w 0 0 0 (c1, p) w) as Hat.
  { assert (forall q, cppa spp q -> handled 0 0 0 (g_ch q) (g_lun q) = 0) as Hh.
    { intros q [(? & ? & _) _]. unfold handled. rewrite passed_none by lia. done. }
    split; [|split; [done|split; [by apply quiet_refl | split; [|done]]]].
    - split.
      + exists (erasing ro v). split; try done; [|by intros q (_ & <- & _)]. eapply map_ok_ext; [|exact Hm].
        intros q. unfold live, no_dead. split; intros (Hq & ? & _); (split; [done|]; split; [done|]); [tauto|].
        intros (_ & _ & Hlt). rewrite Hh in Hlt by done. destruct Hq as [(_ & _ & _ & _ & ?) _]. lia.
      + change (croom spp c1) with (room spp (wps c) m'). unfold room. rewrite Hfree.
        fold (room spp (wps c) (cv_lm c)). change (room spp (wps c) (cv_lm c)) with (croom spp c).
        assert (to_move v (handled 0 0 0) (cv_ssd c1) = n) as ->; [|unfold K; lia].
        apply zcount_ext. intros q [Hq _]%elem_of_line_pages; [|done..]. rewrite Hh by done.
        rewrite (proj2 (Z.leb_le 0 (g_pg q))) by apply Hq. by rewrite andb_true_r.
      + intros q Hq Hqb. pose proof (lo_st _ _ _ _ _ _ Hl q Hq) as Hst. rewrite Hqb, Hro in Hst.
        specialize (Hst ltac:(done)). cbn in Hst. pose proof (page_off_range spp Hg q Hq).
        pose proof (po_flash _ (cg_ok _ Hg)). pose proof (po_flash_blk _ (cg_ok _ Hg)). geom Hg.
        destruct Hq as [(? & ? & _) _]. unfold erased. rewrite passed_none, andb_false_r by lia.
        rewrite (proj2 (Z.ltb_ge _ 0)) by nia. cbn. rewrite Hst. split; [lia | done].
    - unfold p, set_blk. cbn -[u16]. apply u16_small. pose proof (po_blks _ (cg_ok _ Hg)). lia. }
  apply wp_bind. eapply wp_mono; [by eapply (gc_loops_ok v K Hv HK)|]. intros [c2 p2] w2 Hat2.
  apply wp_lift_bind. eapply returns_mono; [by eapply mark_line_free_ok|]. intros c3 (Hidle & Hfr & Hroom3).
  apply wp_ret. destruct Hat2 as (_ & _ & Hq & _). split; [done|]. split; [done|].
  split; [intros lpn; by rewrite (gf_mapped _ _ Hfr)|]. split; [by rewrite (gf_cp _ _ Hfr)|].
  right. split; [done|]. exists (pgs_per_line spp - n). split; [lia|]. split; [unfold K in Hroom3; lia|].
  rewrite (gf_wfc _ _ Hfr). cbn. rewrite Hipc. rewrite u32_small by (unfold U32_MAX; lia). done.
Qed.
End Gc.
