(* ===== verification/ConvSafe.v ===== *)
(** * The conventional FTL never runs out of room

    The invariant of an instance ties the free pages to the write credits;
    with a bound on the logical pages the host uses, foreground garbage
    collection always finds a victim when it is needed. *)
From S2P Require Import Prelude Nvme SsdConfig ChannelModel Ssd Pqueue LineTable ConvFtl ConvGeom ConvDev ConvInv ConvMap ConvOps ConvGc.

Section Safe.
Context (spp : ssdparams) (Hg : conv_geom spp).
Context (cpu_clock : nat -> Z) (clock_ok : forall n, 0 ≤ cpu_clock n < 2 ^ 62).

(** [N] logical pages leave four lines spare: two open ones and the two free
    ones below which garbage collection starts. *)
Definition overprovisioned (N : Z) : Prop := 0 ≤ N < (blks_per_pl spp - 4) * pgs_per_line spp.

Record ftl_inv (N : Z) (c : conv_ftl) : Prop := {
  fi_idle : ftl_idle spp c;
  fi_bound lpn : mapped c lpn -> lpn < N;
  fi_room : 2 * pgs_per_line spp + write_credits (cv_wfc c) ≤ croom spp c;
  fi_credits : 0 < write_credits (cv_wfc c) ≤ pgs_per_line spp;
  fi_refill : 0 < credits_to_refill (cv_wfc c) ≤ pgs_per_line spp;
  fi_thres : gc_thres_lines_high (cv_cp c) = 2;
}.

(** ** There is a victim *)

(** The full lines hold only live pages. *)
Lemma full_lines_bounded ro c N :
  ftl_ok spp None ro no_dead None c -> (forall lpn, mapped c lpn -> lpn < N) -> 0 ≤ N ->
  lm_full_line_cnt (cv_lm c) * pgs_per_line spp ≤ N.
Proof.
  intros [Es Hd Hl Hm Hcur Hdd] Hb HN. rewrite (lo_full_cnt _ _ _ _ _ _ Hl).
  set (fs := lm_full_line_list (cv_lm c)). set (pages := fs ≫= line_pages spp).
  assert (Z.of_nat (length pages) = Z.of_nat (length fs) * pgs_per_line spp) as <-.
  { unfold pages. clearbody fs. induction fs as [|b fs IH]; [done|]. rewrite bind_cons.
    cbn [length]. rewrite length_app, Nat2Z.inj_add, IH, (line_pages_length spp b Hg). lia. }
  assert (forall b, b ∈ fs -> 0 ≤ b < blks_per_pl spp /\ ro b = LFull) as Hfs by (intros b; apply (lo_fulls _ _ _ _ _ _ Hl)).
  assert (forall b p, b ∈ fs -> p ∈ line_pages spp b -> cppa spp p /\ g_blk p = b) as Hin.
  { intros b p Hbf Hp. apply elem_of_line_pages in Hp; [done..|]. by apply Hfs. }
  eapply (live_bounded spp Hg); [exact Hm | done | | |].
  - intros lpn p Ha Hu. apply Hb. by exists p.
  - unfold pages. apply NoDup_bind; [|intros b _; by apply line_pages_NoDup | apply (lo_fulls_nd _ _ _ _ _ _ Hl)].
    intros b1 b2 p H1 H2 [_ <-]%Hin [_ <-]%Hin; done.
  - intros p (b & Hp & Hbf)%list_elem_of_bind. destruct (Hfs b Hbf) as [Hbr Hro].
    apply live_idle. destruct (Hin b p Hbf Hp) as [Hc _]. split; [done|].
    destruct (aget_in_range (lm_lines (cv_lm c)) b) as [l Ha]; [rewrite (lo_len _ _ _ _ _ _ Hl); lia|].
    pose proof (lo_line _ _ _ _ _ _ Hl _ _ Ha) as Ho. rewrite Hro in Ho.
    pose proof (ln_full _ _ _ _ _ _ Ho eq_refl) as E. rewrite (ln_vpc _ _ _ _ _ _ Ho) in E by done.
    unfold vcount in E. rewrite <- (line_pages_length spp b Hg) in E.
    pose proof (zcount_full _ _ p E Hp) as Hv. cbn in Hv. by destruct (pst (cv_ssd c) p).
Qed.

(** When few lines are free, the queue of victims is not empty. *)
Lemma victim_exists c N :
  ftl_idle spp c -> (forall lpn, mapped c lpn -> lpn < N) -> overprovisioned N ->
  lm_free_line_cnt (cv_lm c) ≤ 2 -> lm_victim_line_cnt (cv_lm c) <> 0.
Proof.
  intros [ro Hf] Hb HN Hfree E. pose proof (full_lines_bounded ro c N Hf Hb (proj1 HN)) as Hfull.
  pose proof (lo_total _ _ _ _ _ _ (fk_lines _ _ _ _ _ _ Hf)) as Ht. cbn in Ht. pose proof (ppl_pos spp Hg).
  unfold overprovisioned in HN. nia.
Qed.

(** ** Credits *)
Lemma idle_wfc c f : ftl_idle spp c -> ftl_idle spp (with_wfc c f).
Proof. intros [ro []]. by exists ro. Qed.

Lemma credit_refill_ok N c w :
  ftl_idle spp c -> (forall lpn, mapped c lpn -> lpn < N) -> overprovisioned N ->
  2 * pgs_per_line spp + write_credits (cv_wfc c) ≤ croom spp c ->
  0 ≤ write_credits (cv_wfc c) ≤ pgs_per_line spp -> 0 < credits_to_refill (cv_wfc c) ≤ pgs_per_line spp ->
  gc_thres_lines_high (cv_cp c) = 2 -> world_ok w ->
  wp (check_and_refill_write_credit cpu_clock c) (fun c' w' =>
    ftl_inv N c' /\ (forall lpn, mapped c' lpn <-> mapped c lpn) /\ quiet w w') w.
Proof.
  intros Hi Hb HN Hr Hcr Hre Hth Hw. pose proof (cg_line _ Hg) as Hppl. unfold check_and_refill_write_credit.
  destruct (Z.leb_spec (write_credits (cv_wfc c)) 0) as [E|E].
  2:{ apply wp_ret. split; [split; try done; lia|]. by split; [|apply quiet_refl]. }
  assert (write_credits (cv_wfc c) = 0) as E0 by lia. apply wp_bind.
  apply (wp_mono _ (fun c' w' => ftl_idle spp c' /\ (forall lpn, mapped c' lpn <-> mapped c lpn) /\ quiet w w' /\
    cv_cp c' = cv_cp c /\ write_credits (cv_wfc c') = 0 /\ 0 < credits_to_refill (cv_wfc c') ≤ pgs_per_line spp /\
    2 * pgs_per_line spp + credits_to_refill (cv_wfc c') ≤ croom spp c')).
  { unfold foreground_gc, should_gc_high. rewrite Hth.
    destruct (Z.leb_spec (lm_free_line_cnt (cv_lm c)) 2) as [Ef|Ef].
    - apply wp_bind. eapply wp_mono; [apply do_gc_ok; try done; lia|].
      intros [c' r] w' (Hi' & Hq & Hm & Hcp & [(_ & _ & Hv)|(_ & n & Hn & Hr' & Hf)]).
      + exfalso. by apply (victim_exists c N).
      + apply wp_ret. rewrite Hf. cbn. split_and!; try done; lia.
    - apply wp_ret. split_and!; try done; try lia.
      destruct Hi as [ro Hf]. pose proof (fk_lines _ _ _ _ _ _ Hf) as Hl.
      pose proof (page_off_range spp Hg _ (lo_ws _ _ _ _ _ _ Hl USER_IO)).
      pose proof (page_off_range spp Hg _ (lo_ws _ _ _ _ _ _ Hl GC_IO)).
      unfold croom, room. nia. }
  intros c' w' (Hi' & Hm & Hq & Hcp & Hc0 & Hc1 & Hr'). apply wp_ret. rewrite Hc0, Z.add_0_l.
  rewrite u32_small by (unfold U32_MAX; lia). split; [|done]. split; cbn; try done; try lia.
  - by apply idle_wfc.
  - intros lpn ?%Hm. auto.
  - congruence.
Qed.

(** ** One page of a host write *)

(** What a host command does to the shared world: time passes, and transfers
    from the write buffer are scheduled. *)
Record world_grows (w w' : world) : Prop := {
  wg_ok : world_ok w';
  wg_buf : w_write_buffer w' = w_write_buffer w;
  wg_ops : exists ops, w_ops w' = w_ops w ++ ops;
}.

Lemma grows_quiet w w' : quiet w w' -> world_grows w w'.
Proof. intros [? [E1 E2]]. split; try done. exists []. by rewrite app_nil_r, E2. Qed.

Lemma grows_trans w1 w2 w3 : world_grows w1 w2 -> world_grows w2 w3 -> world_grows w1 w3.
Proof.
  intros [? E1 [o1 F1]] [? E2 [o2 F2]]. split; [done | congruence|]. exists (o1 ++ o2).
  by rewrite F2, F1, app_assoc.
Qed.

Lemma overprovisioned_pgs N : overprovisioned N -> N ≤ tt_pgs spp.
Proof.
  intros [_ HN]. pose proof (ppl_pos spp Hg). pose proof (po_blks _ (cg_ok _ Hg)). pose proof (cg_ok _ Hg) as Hp.
  assert (tt_pgs spp = blks_per_pl spp * pgs_per_line spp) as ->; [|nia].
  rewrite (po_tt_pgs _ Hp), (po_pgs_per_ch _ Hp), (po_pgs_per_lun _ Hp), (po_pgs_per_pl _ Hp),
    (po_pgs_per_line _ Hp), (po_tt_luns _ Hp), (cg_pls _ Hg). lia.
Qed.

(** The tables and the write pointer, before the time and the credits. *)
Lemma rewrite_ok N c lpn :
  ftl_inv N c -> 0 ≤ lpn < N -> overprovisioned N ->
  returns (invalidate_old c lpn) (fun c1 => returns (map_new_page c1 lpn) (fun '(c', p) =>
    ftl_idle spp c' /\ cppa spp p /\ aget (cv_maptbl c') lpn = Ok p /\ croom spp c' = croom spp c - 1 /\
    cv_cp c' = cv_cp c /\ cv_wfc c' = cv_wfc c /\ forall l, mapped c' l <-> l = lpn \/ mapped c l)).
Proof.
  intros [Hi Hb Hr Hcr Hre Hth] Hlpn HN. pose proof (overprovisioned_pgs N HN) as Hle.
  pose proof (cg_line _ Hg). pose proof (ppl_pos spp Hg).
  eapply returns_mono; [eapply (invalidate_old_ok spp Hg); [done | lia]|].
  intros c1 ([ro Hf] & Hmt & Hroom & Hcp & Hwf). pose proof Hf as [Es Hd Hl Hm Hcur Hdd].
  assert (cppa spp (wps c1 USER_IO)) as Hp by apply Hl. pose proof (mo_mt _ _ _ _ _ Hm) as Hlen.
  assert (pgs_per_line spp + 2 ≤ croom spp c1) as Hroom1.
  { rewrite Hroom. lia. }
  unfold map_new_page. rewrite (get_new_page_ok spp) by done. cbn [mbind res_bind].
  apply returns_bind. eapply returns_mono; [eapply (place_ok spp Hg); [done | lia | done]|]. intros c2 H2.
  assert (exists i, ppa2pgidx c2 (wps c1 USER_IO) = Ok i) as [i ->].
  { unfold set_rmap_ent in H2. destruct (ppa2pgidx c2 (wps c1 USER_IO)) as [i|]; [by exists i | done]. }
  cbn [mbind res_bind]. apply returns_bind. eapply returns_mono; [exact H2|]. intros c3 H3.
  apply returns_bind. eapply returns_mono; [exact H3|]. intros c4 H4.
  apply returns_bind. eapply returns_mono; [exact H4|]. intros c' Hpl. cbn.
  pose proof (placed_mapped spp Hg _ _ _ _ _ _ Hpl Hp ltac:(lia)) as Hmap.
  destruct Hpl as [Hok Hrm Hmp [Hcp' Hwf'] _].
  split; [done|]. split; [done|]. rewrite Hmp, aget_insert, decide_True by (done || lia).
  split; [done|]. split; [lia|]. split; [congruence|]. split; [congruence|]. intros l. rewrite Hmap.
  unfold mapped. by rewrite Hmt.
Qed.

Lemma write_page_ok N sqid stime c lpn latest w :
  ftl_inv N c -> 0 ≤ lpn < N -> overprovisioned N -> world_ok w -> 0 ≤ stime ≤ U64_MAX -> 0 ≤ latest ≤ U64_MAX ->
  wp (write_page cpu_clock sqid stime c lpn latest) (fun '(c', latest') w' =>
    ftl_inv N c' /\ (forall l, mapped c' l <-> l = lpn \/ mapped c l) /\ world_grows w w' /\
    latest ≤ latest' ≤ U64_MAX) w.
Proof.
  intros Hinv Hlpn HN Hw Hst Hlat. pose proof Hinv as [Hi Hb Hr Hcr Hre Hth]. pose proof (cg_line _ Hg).
  destruct Hi as [ro Hf0]. pose proof (fk_sp _ _ _ _ _ _ Hf0) as Es0. unfold write_page. rewrite Es0.
  pose proof (rewrite_ok N c lpn Hinv Hlpn HN) as Hre1.
  apply wp_lift_bind. eapply returns_mono; [exact Hre1|]. intros c1 H1. cbv beta in H1.
  apply wp_lift_bind. eapply returns_mono; [exact H1|]. clear c1 H1 Hre1.
  intros [c2 p] (Hi2 & Hp & _ & Hr2 & Hcp2 & Hwf2 & Hm2).
  destruct Hi2 as [ro2 Hf2]. pose proof (fk_sp _ _ _ _ _ _ Hf2) as Es2. geom Hg.
  unfold last_pg_in_wordline, checked_mod. rewrite Es2, (proj2 (Z.eqb_neq (pgs_per_oneshotpg spp) 0)) by lia.
  apply (wp_lift_Ok _ _ _ _ _ eq_refl). apply wp_bind.
  apply (wp_mono _ (fun '(c3, l3) w3 => (exists s', timed (cv_ssd c2) s' /\ c3 = with_ssd c2 s') /\ world_grows w w3 /\
    latest ≤ l3 ≤ U64_MAX)).
  { destruct (_ =? _).
    - apply wp_bind. eapply wp_mono.
      { apply (advance_nand_ok spp cpu_clock clock_ok c2); [done | apply Hf2 | done | done | done | | done].
        cbn. apply u64_range. }
      intros [c3 t] w3 (s' & -> & Ht & Hb3 & Hq3). apply wp_bind, wp_modify, wp_ret.
      split; [by exists s'|]. split; [|lia].
      destruct (grows_quiet _ _ Hq3) as [Hw3 Hbuf [ops Hops]]. split; [done | done|]. cbn.
      eexists. by rewrite Hops, <- app_assoc.
    - apply wp_ret. split; [exists (cv_ssd c2); split; [apply timed_refl, Hf2 | by destruct c2]|].
      split; [by apply grows_quiet, quiet_refl | lia]. }
  intros [c3 l3] w3 ((s' & Ht & ->) & Hg3 & Hl3). apply wp_bind.
  set (c4 := consume_write_credit _).
  assert (ftl_idle spp c4) as Hi4 by (apply idle_wfc; exists ro2; by apply ftl_timed).
  assert (write_credits (cv_wfc c4) = write_credits (cv_wfc c) - 1) as Hc4.
  { cbn. rewrite Hwf2. apply u32_small. unfold U32_MAX. lia. }
  eapply wp_mono.
  { apply (credit_refill_ok N c4 w3 Hi4); try done.
    - intros l [->|?]%Hm2; [lia | auto].
    - change (croom spp c4) with (croom spp c2). lia.
    - lia.
    - cbn. by rewrite Hwf2.
    - cbn. by rewrite Hcp2.
    - apply Hg3. }
  intros c5 w5 (Hi5 & Hm5 & Hq5). apply wp_ret. split; [done|].
  split; [intros l; rewrite Hm5; apply Hm2|]. split; [|done].
  eapply grows_trans; [done | by apply grows_quiet].
Qed.

(** ** The namespace *)

(** Logical page [lpn] of the namespace belongs to partition [lpn mod n]. *)
Definition ns_mapped (ns : nvmev_ns (list conv_ftl)) (lpn : Z) : Prop :=
  exists c, aget (ns_ftls ns) (lpn mod ns_nr_parts ns) = Ok c /\ mapped c (lpn / ns_nr_parts ns).

Definition parts_mapped (n : Z) (ftls : list conv_ftl) (lpn : Z) : Prop :=
  exists c, aget ftls (lpn mod n) = Ok c /\ mapped c (lpn / n).

Record ns_inv (N : Z) (ns : nvmev_ns (list conv_ftl)) : Prop := {
  ni_parts : 0 < ns_nr_parts ns < 2 ^ 16;
  ni_ftls : arr (ns_nr_parts ns) (ftl_inv N) (ns_ftls ns);
  ni_over : overprovisioned N;
}.

Record fw_ok : Prop := {
  fo_lat0 : 0 ≤ fw_wbuf_lat0 spp < 2 ^ 31;
  fo_lat1 : 0 ≤ fw_wbuf_lat1 spp < 2 ^ 31;
}.

(** The logical pages of a command. *)
Definition first_lpn (cmd : nvme_command) : Z := rw_slba cmd / secs_per_pg spp.
Definition last_lpn (cmd : nvme_command) : Z := (rw_slba cmd + rw_length cmd) / secs_per_pg spp.

(** A command the driver passes on: no wrap of the address, a time. *)
Record req_ok (req : nvmev_request) : Prop := {
  rq_slba : 0 ≤ rw_slba (cmd req);
  rq_end : rw_slba (cmd req) + rw_length (cmd req) ≤ U64_MAX;
  rq_time : 0 ≤ nsecs_start req ≤ U64_MAX;
}.

Lemma lpn_range req : req_ok req ->
  start_lpn_of spp (cmd req) = Ok (first_lpn (cmd req)) /\ end_lpn_of spp (cmd req) = Ok (last_lpn (cmd req)) /\
  0 ≤ first_lpn (cmd req) ≤ last_lpn (cmd req).
Proof.
  intros [H1 H2 _]. pose proof (po_secs _ (cg_ok _ Hg)) as Hs. pose proof (rw_length_range (cmd req)).
  unfold start_lpn_of, end_lpn_of, checked_div, first_lpn, last_lpn.
  rewrite (proj2 (Z.eqb_neq (secs_per_pg spp) 0)) by lia.
  replace (rw_slba (cmd req) + (rw_length (cmd req) + 1) - 1) with (rw_slba (cmd req) + rw_length (cmd req)) by lia.
  rewrite u64_small by lia. split; [done|]. split; [done|].
  split; [apply Z.div_pos; lia | apply Z.div_le_mono; lia].
Qed.

Lemma bytes_range n : 0 ≤ n < 65536 -> LBA_TO_BYTE (n + 1) = (n + 1) * 512.
Proof.
  intros H. unfold LBA_TO_BYTE. rewrite Z.shiftl_mul_pow2 by lia. apply u64_small. unfold U64_MAX. lia.
Qed.

Lemma parts_upd n ftls c' lpn :
  0 < n -> Z.of_nat (length ftls) = n -> 0 ≤ lpn ->
  (exists c, aget ftls (lpn mod n) = Ok c /\ forall l, mapped c' l <-> l = lpn / n \/ mapped c l) ->
  forall l, 0 ≤ l -> parts_mapped n (<[Z.to_nat (lpn mod n) := c']> ftls) l <-> l = lpn \/ parts_mapped n ftls l.
Proof.
  intros Hn Hlen Hlpn (c & Hc & Hm) l Hl. unfold parts_mapped.
  pose proof (Z.mod_pos_bound lpn n Hn). pose proof (Z.div_mod lpn n ltac:(lia)). pose proof (Z.div_mod l n ltac:(lia)).
  setoid_rewrite aget_insert; [|lia]. destruct (decide (lpn mod n = l mod n)) as [E|E].
  - rewrite <- E. split.
    + intros (x & [= <-] & [Hx|Hx]%Hm); [left; congruence | right; by exists c].
    + intros [->|(x & Hx & Hmx)]; exists c'; (split; [done|]); apply Hm; [by left|].
      right. by rewrite Hc in Hx; injection Hx as ->.
  - split; [by right|]. intros [->|?]; [done | done].
Qed.

(** The loop of [conv_write] over the logical pages. *)
Lemma write_loop_ok N n sqid stime first last ftls latest w :
  0 < n -> arr n (ftl_inv N) ftls -> overprovisioned N -> world_ok w -> 0 ≤ stime ≤ U64_MAX ->
  0 ≤ latest ≤ U64_MAX -> 0 ≤ first ≤ last -> last / n < N ->
  wp (for_loop (Z.to_nat (last - first + 1)) 0
    (fun i '(ftls, latest) =>
      let lpn := first + i in
      c ← lift (aget ftls (lpn mod n));
      '(c, latest) ← write_page cpu_clock sqid stime c (lpn / n) latest;
      ftls ← lift (aset ftls (lpn mod n) c);
      mret (ftls, latest)) (ftls, latest))
    (fun '(ftls', latest') w' => arr n (ftl_inv N) ftls' /\ world_grows w w' /\ latest ≤ latest' ≤ U64_MAX /\
      forall l, 0 ≤ l -> parts_mapped n ftls' l <-> first ≤ l ≤ last \/ parts_mapped n ftls l) w.
Proof.
  intros Hn Ha HN Hw Hst Hlat Hfl Hlast.
  apply (wp_for_loop (fun i '(f, t) w' => arr n (ftl_inv N) f /\ world_grows w w' /\ latest ≤ t ≤ U64_MAX /\
    forall l, 0 ≤ l -> parts_mapped n f l <-> first ≤ l < first + i \/ parts_mapped n ftls l)).
  - split; [done|]. split; [by apply grows_quiet, quiet_refl|]. split; [lia|]. intros l Hl. split; [by right|].
    intros [?|?]; [lia | done].
  - intros i [f t] w1 Hi (Hf & Hg1 & Ht & Hm). cbv zeta. set (lpn := first + i).
    pose proof (Z.mod_pos_bound lpn n Hn) as Hmod. destruct (arr_get _ _ _ _ Hf Hmod) as (c & Hc & Hcinv).
    apply (wp_lift_Ok _ _ _ _ _ Hc). apply wp_bind.
    assert (0 ≤ lpn / n < N) as Hloc.
    { split; [apply Z.div_pos; lia|]. assert (lpn / n ≤ last / n); [apply Z.div_le_mono; lia | lia]. }
    eapply wp_mono; [apply (write_page_ok N); try done; [apply Hg1 | lia]|].
    intros [c' t'] w2 (Hc' & Hm' & Hg2 & Ht'). destruct Hf as [Hlen Hfa].
    apply wp_lift_bind. rewrite aset_in_range by lia. cbn [returns]. apply wp_ret.
    split; [by apply arr_set|]. split; [by eapply grows_trans|]. split; [lia|].
    intros l Hl. rewrite (parts_upd n f c' lpn Hn Hlen); [|lia | by exists c | done]. rewrite Hm by done.
    assert (first ≤ l < first + (i + 1) <-> l = lpn \/ first ≤ l < first + i) as -> by (unfold lpn; lia). tauto.
  - intros [f t] w' (H1 & H2 & H3 & H4). split; [done|]. split; [done|]. split; [done|]. intros l Hl.
    rewrite H4 by done.
    by assert (first ≤ l < first + (0 + Z.of_nat (Z.to_nat (last - first + 1))) <-> first ≤ l ≤ last) as -> by lia.
Qed.

(** What [conv_write] promises. *)
Record write_done (N : Z) (ns : nvmev_ns (list conv_ftl)) (req : nvmev_request) (w : world)
  (ns' : nvmev_ns (list conv_ftl)) (ret' : nvmev_result) (w' : world) : Prop := {
  wd_inv : ns_inv N ns';
  wd_world : world_ok w';
  wd_buf : buf_remaining (w_write_buffer w') = buf_remaining (w_write_buffer w) - (rw_length (cmd req) + 1) * 512;
  wd_bufsz : buf_size (w_write_buffer w') = buf_size (w_write_buffer w);
  wd_ns : ns_csi ns' = ns_csi ns /\ ns_nr_parts ns' = ns_nr_parts ns;
  wd_mapped l : 0 ≤ l -> ns_mapped ns' l <-> first_lpn (cmd req) ≤ l ≤ last_lpn (cmd req) \/ ns_mapped ns l;
  wd_status : status ret' = NVME_SC_SUCCESS;
  wd_target : nsecs_start req + 2 ^ 53 ≤ 2 ^ 63 -> nsecs_start req ≤ nsecs_target ret';
}.

Lemma conv_write_ok N ns req ret w :
  ns_inv N ns -> fw_ok -> req_ok req -> world_ok w -> buffer_ok (w_write_buffer w) ->
  (rw_length (cmd req) + 1) * 512 ≤ buf_size (w_write_buffer w) -> last_lpn (cmd req) / ns_nr_parts ns < N ->
  wp (conv_write cpu_clock ns req ret) (fun '(ns', ok, ret') w' =>
    if (ok : bool) then (rw_length (cmd req) + 1) * 512 ≤ buf_remaining (w_write_buffer w) /\
        write_done N ns req w ns' ret' w'
    else ns' = ns /\ ret' = ret /\ w' = w /\ buf_remaining (w_write_buffer w) < (rw_length (cmd req) + 1) * 512) w.
Proof.
  intros [Hn Hf HN] [Hl0 Hl1] Hrq Hw Hbuf Hsize Hlast. pose proof Hf as [Hlen Hfa].
  destruct (arr_get _ _ _ 0 Hf ltac:(lia)) as (c0 & Hc0 & Hinv0).
  destruct (fi_idle _ _ Hinv0) as [ro0 Hf0]. pose proof (fk_sp _ _ _ _ _ _ Hf0) as Es0.
  destruct (lpn_range req Hrq) as (Hs & He & Hr). pose proof (overprovisioned_pgs N HN) as Htt.
  pose proof (rw_length_range (cmd req)) as Hlr.
  unfold conv_write. apply (wp_lift_Ok _ _ _ _ _ Hc0). rewrite Es0, bytes_range by done.
  set (bytes := (rw_length (cmd req) + 1) * 512) in *.
  apply (wp_lift_Ok _ _ _ _ _ Hs). apply (wp_lift_Ok _ _ _ _ _ He).
  unfold checked_div. rewrite (proj2 (Z.eqb_neq (ns_nr_parts ns) 0)) by lia. apply (wp_lift_Ok _ _ _ _ _ eq_refl).
  rewrite (proj2 (Z.leb_gt (tt_pgs spp) _)) by lia.
  unfold wb_allocate. apply wp_bind, wp_bind, wp_gets. apply wp_lift_bind.
  eapply returns_mono; [apply buffer_take_ok; [done | lia]|]. intros [b m] (Hb' & Hbs & Hbr & Hm).
  apply wp_bind, wp_modify, wp_ret. case_decide as Hroom; subst m.
  2:{ rewrite (proj2 (Z.ltb_lt 0 bytes)) by lia. apply wp_ret. split; [done|]. split; [done|]. split; [|lia].
      destruct w as [? ? [bs br] ?], b as [bs' br']. cbn in *. subst bs'. by rewrite Hbr, Z.sub_0_r. }
  rewrite Z.ltb_irrefl. apply wp_bind. pose proof (rq_time _ Hrq) as Htime.
  eapply wp_mono; [apply ssd_advance_write_buffer_ok; [done | done | lia | lia | |]; by rewrite Es0|].
  intros t w1 (Ht & Hw1 & Hsb1). destruct Ht as [Ht Htl]. cbv zeta. apply wp_bind.
  eapply wp_mono; [apply (write_loop_ok N); try done; lia|].
  intros [f' t'] w2 (Hf' & Hg2 & Ht' & Hm'). apply wp_ret. split; [done|].
  split; cbn; try done.
  - apply Hg2.
  - rewrite (wg_buf _ _ Hg2). destruct Hsb1 as [-> _]. cbn. lia.
  - rewrite (wg_buf _ _ Hg2). by destruct Hsb1 as [-> _].
  - intros Hs53. specialize (Htl Hs53). case_match; lia.
Qed.

(** ** Reads *)
Lemma inv_timed N c s' : ftl_inv N c -> timed (cv_ssd c) s' -> ftl_inv N (with_ssd c s').
Proof.
  intros [[ro Hf] ? ? ? ? ?] Ht. split; try done. exists ro. by apply ftl_timed.
Qed.

(** The instance after some reads. *)
Definition only_time (c c' : conv_ftl) : Prop := exists s', timed (cv_ssd c) s' /\ c' = with_ssd c s'.

Lemma only_time_refl N c : ftl_inv N c -> only_time c c.
Proof.
  intros [[ro Hf] _ _ _ _ _]. exists (cv_ssd c). split; [apply timed_refl, Hf | by destruct c].
Qed.

Lemma only_time_step c c1 s' : only_time c c1 -> timed (cv_ssd c1) s' -> only_time c (with_ssd c1 s').
Proof.
  intros (s1 & Ht1 & ->) Ht. exists s'. split; [by eapply timed_trans|]. done.
Qed.

Lemma only_time_inv N c c' : ftl_inv N c -> only_time c c' -> ftl_inv N c'.
Proof. intros Hi (s' & Ht & ->). by apply inv_timed. Qed.

(** The address of a mapped page is inside the device. *)
Lemma mapped_cppa N c lpn p : ftl_inv N c -> aget (cv_maptbl c) lpn = Ok p -> p <> UNMAPPED_PPA -> cppa spp p.
Proof.
  intros [[ro Hf] _ _ _ _ _] Ha Hu. destruct (mo_fwd _ _ _ _ _ (fk_map _ _ _ _ _ _ Hf) lpn p Ha Hu) as [Hp _]; [done|].
  apply Hp.
Qed.

Lemma issue_read_ok N c0 c stime xfer prev latest w w0 :
  ftl_inv N c0 -> only_time c0 c -> quiet w0 w -> cppa spp prev -> 0 < xfer -> 0 ≤ stime ≤ U64_MAX ->
  0 ≤ latest ≤ U64_MAX ->
  wp (issue_read cpu_clock c stime xfer prev latest) (fun '(c', t) w' =>
    only_time c0 c' /\ quiet w0 w' /\ latest ≤ t ≤ U64_MAX) w.
Proof.
  intros Hi Hc Hq Hp Hx Hs Hl. pose proof (only_time_inv N c0 c Hi Hc) as [[ro Hf] _ _ _ _ _].
  unfold issue_read. apply wp_bind. eapply wp_mono.
  { apply (advance_nand_ok spp cpu_clock clock_ok c); [apply (fk_sp _ _ _ _ _ _ Hf) | apply (fk_dev _ _ _ _ _ _ Hf) | apply Hq | done | done | cbn; lia | done]. }
  intros [c' t] w' (s' & -> & Ht & Htr & Hq'). apply wp_ret.
  split; [by eapply only_time_step|]. split; [by eapply quiet_trans | lia].
Qed.

(** The state of the loop of [conv_read] after [k] pages. *)
Definition reading (c0 : conv_ftl) (w0 : world) (latest0 k : Z) (st : conv_ftl * Z * Z * ppa) (w : world) : Prop :=
  let '(c, latest, xfer, prev) := st in
  only_time c0 c /\ quiet w0 w /\ latest0 ≤ latest ≤ U64_MAX /\ 0 ≤ xfer ≤ k * 4096 /\
  (prev <> UNMAPPED_PPA -> cppa spp prev) /\ (0 < xfer -> cppa spp prev).

Lemma read_page_ok N c0 w0 latest0 k stime lpn st w :
  ftl_inv N c0 -> 0 ≤ latest0 -> 0 ≤ stime ≤ U64_MAX -> 0 ≤ lpn < tt_pgs spp -> 0 ≤ k < 65536 ->
  reading c0 w0 latest0 k st w ->
  wp (read_page cpu_clock stime lpn st) (reading c0 w0 latest0 (k + 1)) w.
Proof.
  intros Hi Hl0 Hst Hlpn Hk. destruct st as [[[c latest] xfer] prev]. intros (Hc & Hq & Hl & Hx & Hpu & Hpx).
  pose proof (only_time_inv N c0 c Hi Hc) as Hci. pose proof (fi_idle _ _ Hci) as [ro Hf].
  pose proof (fk_map _ _ _ _ _ _ Hf) as Hm. pose proof (fk_sp _ _ _ _ _ _ Hf) as Es.
  unfold read_page, get_maptbl_ent. rewrite Es, (po_pgsz _ (cg_ok _ Hg)).
  destruct (aget_in_range (cv_maptbl c) lpn) as [cur Ha]; [rewrite (mo_mt _ _ _ _ _ Hm); lia|].
  apply (wp_lift_Ok _ _ _ _ _ Ha).
  destruct (negb (mapped_ppa cur) || negb (valid_ppa c cur)) eqn:Ec.
  { apply wp_ret. split_and!; try done; lia. }
  apply orb_false_iff in Ec as [Ec _]. apply negb_false_iff in Ec. unfold mapped_ppa in Ec at 1.
  apply negb_true_iff, bool_decide_eq_false in Ec. pose proof (mapped_cppa N c lpn cur Hci Ha Ec) as Hcur.
  assert (exists b, (if mapped_ppa prev then is_same_flash_page c cur prev else Ok false) = Ok b /\
    (b = true -> prev <> UNMAPPED_PPA)) as (same & -> & Hsame).
  { unfold mapped_ppa. case_bool_decide as E; [by exists false|]. cbn. unfold is_same_flash_page, checked_div. rewrite Es.
    pose proof (po_flash _ (cg_ok _ Hg)). rewrite (proj2 (Z.eqb_neq (pgs_per_flashpg spp) 0)) by lia. cbn.
    eexists. by split. }
  apply (wp_lift_Ok _ _ _ _ _ eq_refl). destruct same.
  { apply wp_ret. rewrite u32_small by (unfold U32_MAX; lia). specialize (Hpu (Hsame eq_refl)).
    split_and!; try done; lia. }
  change (u32 4096) with 4096. apply wp_bind.
  apply (wp_mono _ (fun '(c', t) w' => only_time c0 c' /\ quiet w0 w' /\ latest0 ≤ t ≤ U64_MAX)).
  - destruct (Z.ltb_spec 0 xfer) as [Hx0|Hx0]; [|by apply wp_ret].
    eapply wp_mono; [apply (issue_read_ok N c0); try done; [auto | lia]|].
    intros [c' t] w' (? & ? & ?). split; [done|]. split; [done | lia].
  - intros [c' t] w' (H1 & H2 & H3). apply wp_ret. split_and!; try done; lia.
Qed.

Lemma read_part_ok N c stime start last n latest w :
  ftl_inv N c -> 0 < n -> 0 ≤ start ≤ last -> last / n < tt_pgs spp -> last - start < 65536 ->
  0 ≤ stime ≤ U64_MAX -> 0 ≤ latest ≤ U64_MAX -> world_ok w ->
  wp (read_part cpu_clock c stime start last n latest) (fun '(c', t) w' =>
    only_time c c' /\ quiet w w' /\ latest ≤ t ≤ U64_MAX) w.
Proof.
  intros Hi Hn Hsl Hlast Hlen Hst Hl Hw. pose proof (fi_idle _ _ Hi) as [ro Hf].
  pose proof (fk_map _ _ _ _ _ _ Hf) as Hm. unfold read_part, get_maptbl_ent.
  assert (0 ≤ start / n ≤ last / n) as Hs by (split; [apply Z.div_pos; lia | apply Z.div_le_mono; lia]).
  destruct (aget_in_range (cv_maptbl c) (start / n)) as [p Ha]; [rewrite (mo_mt _ _ _ _ _ Hm); lia|].
  apply (wp_lift_Ok _ _ _ _ _ Ha). apply wp_bind.
  assert (0 ≤ (last - start) / n ≤ last - start) as Hcnt.
  { split; [apply Z.div_pos; lia | apply Z.div_le_upper_bound; nia]. }
  apply (wp_for_loop (fun k st w' => reading c w latest k st w')).
  - split_and!; try done; try lia; [by eapply only_time_refl|]. intros Hu. by eapply mapped_cppa.
  - intros k st w' Hk Hrd. apply (read_page_ok N); try done; try lia.
    assert (start + k * n ≤ last) as Hle.
    { pose proof (Z.mul_div_le (last - start) n Hn). nia. }
    split; [apply Z.div_pos; nia|]. assert ((start + k * n) / n ≤ last / n); [apply Z.div_le_mono; lia | lia].
  - intros [[[c' t] xfer] prev] w' (H1 & H2 & H3 & H4 & H5 & H6). destruct (Z.ltb_spec 0 xfer); [|by apply wp_ret].
    eapply wp_mono; [apply (issue_read_ok N c); try done; [auto | lia]|].
    intros [c2 t2] w2 (? & ? & ?). split; [done|]. split; [done | lia].
Qed.

Definition ftls_timed (f f' : list conv_ftl) : Prop :=
  forall j c', aget f' j = Ok c' -> exists c, aget f j = Ok c /\ only_time c c'.

Lemma only_time_trans c1 c2 c3 : only_time c1 c2 -> only_time c2 c3 -> only_time c1 c3.
Proof. intros H (s & Ht & ->). by eapply only_time_step. Qed.

Lemma ftls_timed_mapped n f f' l : 0 < n -> Z.of_nat (length f) = n -> length f' = length f -> ftls_timed f f' ->
  parts_mapped n f' l <-> parts_mapped n f l.
Proof.
  intros Hn Hlen Hlen' Ht. pose proof (Z.mod_pos_bound l n Hn). unfold parts_mapped. split.
  - intros (c' & Hc' & Hm). destruct (Ht _ _ Hc') as (c & Hc & s' & _ & ->). by exists c.
  - intros (c & Hc & Hm). destruct (aget_in_range f' (l mod n)) as [c' Hc']; [lia|].
    exists c'. split; [done|]. destruct (Ht _ _ Hc') as (c2 & Hc2 & s' & _ & ->).
    rewrite Hc in Hc2. by injection Hc2 as <-.
Qed.

Record read_done (N : Z) (ns : nvmev_ns (list conv_ftl)) (req : nvmev_request) (w : world)
  (ns' : nvmev_ns (list conv_ftl)) (ret' : nvmev_result) (w' : world) : Prop := {
  rd_inv : ns_inv N ns';
  rd_timed : ftls_timed (ns_ftls ns) (ns_ftls ns');
  rd_ns : ns_csi ns' = ns_csi ns /\ ns_nr_parts ns' = ns_nr_parts ns;
  rd_mapped l : ns_mapped ns' l <-> ns_mapped ns l;
  rd_quiet : quiet w w';
  rd_status : status ret' = NVME_SC_SUCCESS;
  rd_target : nsecs_start req ≤ nsecs_target ret';
}.

Lemma conv_read_ok N ns req ret w :
  ns_inv N ns -> req_ok req -> world_ok w -> last_lpn (cmd req) / ns_nr_parts ns < tt_pgs spp ->
  wp (conv_read cpu_clock ns req ret) (fun '(ns', ok, ret') w' =>
    ok = true /\ read_done N ns req w ns' ret' w') w.
Proof.
  intros [Hn Hf HN] Hrq Hw Hlast. pose proof Hf as [Hlen Hfa]. set (n := ns_nr_parts ns) in *.
  destruct (arr_get _ _ _ 0 Hf ltac:(lia)) as (c0 & Hc0 & Hinv0).
  destruct (fi_idle _ _ Hinv0) as [ro0 Hf0]. pose proof (fk_sp _ _ _ _ _ _ Hf0) as Es0.
  destruct (lpn_range req Hrq) as (Hs & He & Hr). pose proof (po_secs _ (cg_ok _ Hg)) as Hsec.
  pose proof (rw_length_range (cmd req)) as Hlr. pose proof (rq_time _ Hrq) as Htime.
  assert (last_lpn (cmd req) - first_lpn (cmd req) < 65536) as Hspan.
  { unfold last_lpn, first_lpn. pose proof (Z.div_mod (rw_slba (cmd req)) (secs_per_pg spp) ltac:(lia)).
    pose proof (Z.mod_pos_bound (rw_slba (cmd req)) (secs_per_pg spp) Hsec).
    assert ((rw_slba (cmd req) + rw_length (cmd req)) / secs_per_pg spp <
      rw_slba (cmd req) / secs_per_pg spp + rw_length (cmd req) + 1); [|lia].
    apply Z.div_lt_upper_bound; nia. }
  unfold conv_read. apply (wp_lift_Ok _ _ _ _ _ Hc0). rewrite Es0. cbv zeta. fold n.
  apply (wp_lift_Ok _ _ _ _ _ Hs). apply (wp_lift_Ok _ _ _ _ _ He).
  unfold checked_div. rewrite (proj2 (Z.eqb_neq n 0)) by lia. apply (wp_lift_Ok _ _ _ _ _ eq_refl).
  rewrite (proj2 (Z.leb_gt (tt_pgs spp) _)) by done. set (stime := u64 _). apply wp_bind.
  apply (wp_for_loop (fun i '(f, t) w' => arr n (ftl_inv N) f /\ ftls_timed (ns_ftls ns) f /\ quiet w w' /\
    nsecs_start req ≤ t ≤ U64_MAX)).
  - split; [done|]. split; [|split; [by apply quiet_refl | lia]].
    intros j c Hc. exists c. split; [done|]. eapply (only_time_refl N). by eapply arr_aget.
  - intros i [f t] w1 Hi (Hf1 & Ht1 & Hq1 & Htt). cbv zeta. set (lpn := first_lpn (cmd req) + i).
    pose proof (Z.mod_pos_bound lpn n ltac:(lia)) as Hmod. destruct (arr_get _ _ _ _ Hf1 Hmod) as (c & Hc & Hci).
    apply (wp_lift_Ok _ _ _ _ _ Hc). apply wp_bind.
    eapply wp_mono; [apply (read_part_ok N); try done; [lia|lia|lia|apply u64_range|lia|apply Hq1]|].
    intros [c' t'] w2 (Hc' & Hq2 & Ht'). apply wp_lift_bind. destruct Hf1 as [Hlen1 Hfa1].
    rewrite aset_in_range by lia. cbn [returns]. apply wp_ret.
    split; [apply arr_set; [by split | by eapply only_time_inv]|].
    split; [|split; [by eapply quiet_trans | lia]].
    intros j c2. rewrite aget_insert by lia. case_decide as Ej; [|apply Ht1].
    intros [= <-]. rewrite <- Ej. destruct (Ht1 _ _ Hc) as (c1 & Hc1 & Hct). exists c1. split; [done|].
    by eapply only_time_trans.
  - intros [f t] w' (Hf1 & Ht1 & Hq1 & Htt). apply wp_ret. split; [done|]. split; cbn; try done; try lia.
    + intros l. apply (ftls_timed_mapped n); [lia | done | destruct Hf1; cbn; lia | done].
Qed.
End Safe.
