(* ===== verification/ConvInit.v ===== *)
(** * A fresh conventional FTL satisfies the invariant

    [conv_init_ftl] on a fresh device, and [conv_init_namespace] for the
    Samsung 970 PRO profile, whose 7% spare area is more than the four lines
    the invariant needs. *)
From S2P Require Import Prelude Nvme SsdConfig ChannelModel Ssd Pqueue LineTable ConvFtl ConvGeom ConvDev ConvInv ConvMap ConvOps ConvGc ConvSafe.

Lemma seqZ_snoc n : 0 ≤ n -> seqZ 0 (n + 1) = seqZ 0 n ++ [n].
Proof.
  intros Hn. rewrite seqZ_app by lia. f_equal.
Qed.

Section Init.
Context (spp : ssdparams) (Hg : conv_geom spp).

Definition fresh_line (i : Z) : line := mk_line i 0 0 0.

Lemma init_lines_ok : exists q, pqueue_init (Node := Z) (tt_lines spp) true true = Some q /\
  init_lines spp = Ok (mk_lm (fresh_line <$> seqZ 0 (blks_per_pl spp)) (seqZ 0 (blks_per_pl spp)) q []
    (blks_per_pl spp) (blks_per_pl spp) 0 0).
Proof.
  geom Hg. pose proof (po_tt_lines _ (cg_ok _ Hg)) as Htl. rewrite (cg_pls _ Hg), Z.mul_1_r in Htl.
  eexists. split; [done|]. unfold init_lines. rewrite u32_small by (unfold U32_MAX; lia).
  rewrite (proj2 (Z.eqb_eq _ _)) by lia. cbn [NVMEV_ASSERT mbind res_bind pqueue_init deref].
  set (body := fun i '(lines, free, cnt) => _).
  assert (forall n, 0 ≤ n ≤ blks_per_pl spp -> for_loop (Z.to_nat n) 0 body ([], [], 0) =
    Ok (fresh_line <$> seqZ 0 n, seqZ 0 n, n)) as Hloop.
  { intros n Hn. set (x := for_loop _ _ _ _).
    assert (returns x (fun y => y = (fresh_line <$> seqZ 0 n, seqZ 0 n, n))) as Hx.
    { apply (returns_for_loop (fun i y => y = (fresh_line <$> seqZ 0 i, seqZ 0 i, i))).
      - done.
      - intros i y Hi ->. unfold body. cbn [returns]. rewrite u32_small by (unfold U32_MAX; lia).
        rewrite seqZ_snoc by lia. by rewrite fmap_app.
      - intros y ->. by replace (0 + Z.of_nat (Z.to_nat n)) with n by lia. }
    clearbody x. destruct x; [by rewrite Hx | done]. }
  rewrite Hloop by lia. cbn. by rewrite Z.eqb_refl.
Qed.

(** ** A fresh instance *)
Definition fresh_role (b : Z) : line_role :=
  if decide (b = 0) then LOpen USER_IO else if decide (b = 1) then LOpen GC_IO else LFree.

Definition fresh_wp (b : Z) : write_pointer := mk_wp (Some b) 0 0 0 b 0.
Definition fresh_ws (io : io_type) : ppa := wp_ppa (fresh_wp (match io with USER_IO => 0 | GC_IO => 1 end)).

Definition fresh_lm (q : pqueue_t Z) : line_mgmt :=
  mk_lm (fresh_line <$> seqZ 0 (blks_per_pl spp)) (seqZ 2 (blks_per_pl spp - 2)) q [] (blks_per_pl spp)
    (blks_per_pl spp - 2) 0 0.

Lemma aget_fresh b l : aget (fresh_line <$> seqZ 0 (blks_per_pl spp)) b = Ok l -> l = fresh_line b.
Proof.
  intros [Hb Hl]%aget_Ok. rewrite list_lookup_fmap in Hl. apply fmap_Some in Hl as (x & Hx & ->).
  apply lookup_seqZ in Hx as [-> _]. f_equal. lia.
Qed.

Lemma fresh_lines_ok st q :
  5 ≤ blks_per_pl spp -> (forall p, st p = PG_FREE) -> pqueue_init (tt_lines spp) true true = Some q ->
  lines_ok spp st None fresh_role fresh_ws (fresh_lm q).
Proof.
  intros HL Hst Hq. geom Hg. pose proof (po_tt_lines _ (cg_ok _ Hg)) as Htl. rewrite (cg_pls _ Hg), Z.mul_1_r in Htl.
  set (lines := fresh_line <$> seqZ 0 (blks_per_pl spp)).
  destruct (init_ok 0 (tt_lines spp) q lines ltac:(lia) Hq) as (Hwf & Hs & Ha & Hin).
  assert (forall io, page_off spp (fresh_ws io) = 0) as Hoff.
  { intros io. unfold fresh_ws, wp_ppa. rewrite page_off_mk. cbn. rewrite Z.div_0_l, Z.mod_0_l by lia. lia. }
  assert (forall b, vcount spp st b = 0) as Hv by (intros b; apply zcount_zero; intros p _; by rewrite Hst).
  assert (forall b io, fresh_role b = LOpen io <-> b = g_blk (fresh_ws io)) as Hopen.
  { intros b io. unfold fresh_role. repeat case_decide; destruct io; cbn; split; intros; try lia; congruence. }
  assert (forall b, fresh_role b = LFree \/ exists io, fresh_role b = LOpen io) as Hcase.
  { intros b. unfold fresh_role. repeat case_decide; eauto. }
  assert (forall b, 0 ≤ written_pgs spp (fresh_role b) fresh_ws ≤ 0) as Hw.
  { intros b. destruct (Hcase b) as [->|[io ->]]; cbn; rewrite ?Hoff; lia. }
  assert (forall b r, r = LFull \/ r = LVictim \/ r = LErasing -> fresh_role b <> r) as Hno.
  { intros b r Hr. destruct (Hcase b) as [->|[io ->]]; intros Hb; destruct Hr as [?|[?|?]]; congruence. }
  split; cbn; try done; try lia.
  - rewrite length_fmap, length_seqZ. lia.
  - intros io. split; [|done]. destruct io; unfold ppa_in; cbn; lia.
  - intros b. split; [|done]. intros Hb. by apply Hno in Hb; [|auto].
  - intros b l ->%aget_fresh. split; cbn; rewrite ?Hv; try done.
    + intros _. specialize (Hw b). lia.
    + intros Hb. by apply Hno in Hb; [|auto].
    + intros _. apply (ppl_pos spp Hg).
  - intros p Hp _. rewrite Hst. specialize (Hw (g_blk p)). pose proof (page_off_range spp Hg p Hp).
    split; [lia | done].
  - apply NoDup_seqZ.
  - intros b. rewrite elem_of_seqZ. unfold fresh_role.
    repeat case_decide; (split; [intros ?; split; [lia | done || lia] | intros [? ?]; try done; lia]).
  - apply NoDup_nil_2.
  - intros b. split; [by intros ?%not_elem_of_nil|]. intros [_ Hb]. by apply Hno in Hb; [|auto].
  - intros b. split; [by intros ?%Hin|]. intros [_ Hb]. by apply Hno in Hb; [|auto].
  - rewrite length_seqZ. lia.
Qed.

Lemma conv_init_ftl_ok N cpp s m b :
  ssd_init spp = (s, m, b) -> ssd_wf s -> overprovisioned spp N -> gc_thres_lines_high cpp = 2 ->
  returns (conv_init_ftl cpp s) (ftl_inv spp N).
Proof.
  intros Hinit Hs HN Hth. pose proof Hinit as [= Es _ _]. assert (sp s = spp) as Esp by (by rewrite <- Es).
  pose proof (ppl_pos spp Hg) as Hpp. pose proof (cg_line _ Hg) as Hpl.
  assert (5 ≤ blks_per_pl spp) as HL by (unfold overprovisioned in HN; nia).
  pose proof (po_blks _ (cg_ok _ Hg)) as Hblk. pose proof (tt_pgs_u64 spp Hg) as Htt.
  assert (forall p, pst s p = PG_FREE) as Hfree.
  { intros p. unfold pst, get_pg. destruct (get_blk s p) as [bl|] eqn:Eb; [|done]. cbn.
    rewrite (ssd_init_blk _ _ _ _ _ _ Hinit Eb). unfold ssd_init_nand_blk. cbn.
    destruct (aget _ _) as [g|] eqn:Eg; [|done].
    apply aget_Ok in Eg as [_ Eg]. by apply lookup_replicate_1 in Eg as [-> _]. }
  destruct init_lines_ok as (q & Hq & Hlm). unfold conv_init_ftl. rewrite Esp, Hlm. cbn [mbind res_bind].
  assert (seqZ 0 (blks_per_pl spp) = 0 :: 1 :: seqZ 2 (blks_per_pl spp - 2)) as Hseq.
  { rewrite (seqZ_cons 0), (seqZ_cons (Z.succ 0)) by lia. do 3 f_equal. lia. }
  assert (forall i, 0 ≤ i < blks_per_pl spp -> aget (fresh_line <$> seqZ 0 (blks_per_pl spp)) i = Ok (fresh_line i)) as Hget.
  { intros i Hi. destruct (aget_in_range (fresh_line <$> seqZ 0 (blks_per_pl spp)) i) as [l Hl].
    - rewrite length_fmap, length_seqZ. lia.
    - by rewrite Hl, (aget_fresh _ _ Hl). }
  set (lines := fresh_line <$> seqZ 0 (blks_per_pl spp)) in *. rewrite Hseq.
  unfold prepare_write_pointer, get_next_free_line.
  cbn [cv_lm lm_free_line_list lm_with_free lm_lines lm_free_line_cnt set_wp with_lm].
  rewrite bool_decide_true by done. cbn [NVMEV_ASSERT mbind res_bind deref]. rewrite Hget by lia.
  cbn [NVMEV_ASSERT mbind res_bind deref cv_lm lm_free_line_list lm_with_free lm_lines lm_free_line_cnt set_wp with_lm].
  rewrite bool_decide_true by done. cbn [NVMEV_ASSERT mbind res_bind deref]. rewrite Hget by lia.
  cbn [mbind res_bind returns]. rewrite !u32_small by (rewrite ?u32_small; unfold U32_MAX; lia).
  replace (blks_per_pl spp - 1 - 1) with (blks_per_pl spp - 2) by lia.
  set (c := with_wfc _ _).
  assert (c = mk_conv s cpp (init_maptbl spp) (init_rmap spp) (fresh_wp 0) (fresh_wp 1) (fresh_lm q)
    (mk_wfc (pgs_per_line spp) (pgs_per_line spp))) as ->.
  { unfold c, init_write_flow_control. rewrite u32_small by (unfold U32_MAX; lia). done. }
  set (c := mk_conv _ _ _ _ _ _ _ _).
  assert (forall lpn, ~ mapped c lpn) as Hnm.
  { intros lpn (p & [_ Hp]%aget_Ok & Hu). by apply lookup_replicate_1 in Hp as [-> _]. }
  assert (lines_ok spp (pst s) None fresh_role (wps c) (fresh_lm q)) as Hl.
  { eapply (lines_ok_ext spp Hg _ _ _ _ fresh_ws); [done | by intros [] | by apply fresh_lines_ok]. }
  split; cbn; try lia; [| by intros lpn ?%Hnm |].
  - exists fresh_role. split; cbn; try done.
    + split; [done|]. intros p bl _ Hb. rewrite (ssd_init_blk _ _ _ _ _ _ Hinit Hb).
      split; cbn; symmetry; apply zcount_zero; intros g Hgr; apply elem_of_replicate_inv in Hgr; by subst.
    + eapply map_ok_ext; [|apply map_init; lia]. intros p. split; [|done].
      intros (_ & Hp & _). rewrite Hfree in Hp. done.
    + by intros [].
  - unfold croom, room. change (page_off spp (wps c USER_IO)) with (page_off spp (fresh_ws USER_IO)).
    change (page_off spp (wps c GC_IO)) with (page_off spp (fresh_ws GC_IO)). cbn.
    pose proof (page_off_range spp Hg _ (lo_ws _ _ _ _ _ _ Hl USER_IO)).
    pose proof (page_off_range spp Hg _ (lo_ws _ _ _ _ _ _ Hl GC_IO)).
    assert (page_off spp (fresh_ws USER_IO) = 0 /\ page_off spp (fresh_ws GC_IO) = 0) as [E1 E2].
    { geom Hg. unfold fresh_ws, wp_ppa. rewrite !page_off_mk. cbn. rewrite Z.div_0_l, Z.mod_0_l by lia. lia. }
    rewrite E1, E2. nia.
Qed.
End Init.

(** ** The shipped profile *)

(** The partitions of a namespace are built one after the other. *)
Lemma init_parts_ok spp N cpp s m b n :
  conv_geom spp -> ssd_init spp = (s, m, b) -> ssd_wf s -> overprovisioned spp N ->
  gc_thres_lines_high cpp = 2 -> 0 ≤ n ->
  returns (for_loop (Z.to_nat n) 0 (fun i ftls => c ← conv_init_ftl cpp s; Ok (ftls ++ [c])) [])
    (arr n (ftl_inv spp N)).
Proof.
  intros Hg Hi Hs HN Hth Hn. apply (returns_for_loop (fun i f => arr i (ftl_inv spp N) f)).
  - by split.
  - intros i f _ [Hlen Hf]. apply returns_bind. eapply returns_mono; [by eapply conv_init_ftl_ok|].
    intros c Hc. split; [rewrite length_app; cbn; lia|]. apply Forall_app. by split; [|constructor].
  - intros f Hf. by replace (0 + Z.of_nat (Z.to_nat n)) with n in Hf by lia.
Qed.

Definition samsung_blk (size : Z) : Z := DIV_ROUND_UP (size / 4) 32768.
Definition samsung_params (size : Z) : ssdparams := derived_params SAMSUNG_970PRO 2 (samsung_blk size) 8192.

Lemma samsung_params_ok size :
  2 ^ 20 ≤ size ≤ 2 ^ 43 ->
  let spp := samsung_params size in
  ssd_init_params SAMSUNG_970PRO size 4 = Ok spp /\ conv_geom spp /\ fw_ok spp /\ secs_per_pg spp = 8 /\
  size / 4 ≤ 32768 * 4096 * pgs_per_blk spp /\
  blks_per_pl spp = 8192 /\ pgs_per_line spp = 4 * pgs_per_blk spp.
Proof.
  intros Hs spp. pose proof (shipped_configs_ok SAMSUNG_970PRO (list_elem_of_here _ _)) as Hok.
  set (c := size / 4). assert (2 ^ 18 ≤ c ≤ 2 ^ 41) as Hc.
  { unfold c. split; [apply Z.div_le_lower_bound; lia | apply Z.div_le_upper_bound; lia]. }
  pose proof (DIV_ROUND_UP_spec c 32768 ltac:(lia)) as Hd.
  pose proof (pages_of_blk_cover SAMSUNG_970PRO (samsung_blk size) Hok) as Hpc.
  change (ONESHOT_PAGE_SIZE SAMSUNG_970PRO) with 32768 in Hpc. unfold samsung_blk in Hpc. fold c in Hpc.
  destruct (derived_params_ok SAMSUNG_970PRO 2 (samsung_blk size) 8192) as (Hp & E1 & E2 & E3 & E4 & E5);
    unfold samsung_blk; fold c; try done; try lia.
  fold (samsung_params size) in *. unfold samsung_blk in *. fold c in E1.
  fold spp in Hp, E1, E2, E3, E4, E5.
  split.
  { apply ssd_init_params_sizes; [done|]. unfold partition_sizes. cbn -[Z.div Z.modulo u64 DIV_ROUND_UP].
    change (8 / 4) with 2. change (i32 (8192 * 1 * 2 * 2)) with 32768. fold c.
    rewrite u64_small by (unfold U64_MAX; lia). done. }
  assert (pgs_per_line spp = 4 * pgs_per_blk spp) as Eppl.
  { rewrite (po_pgs_per_line _ Hp), (po_tt_luns _ Hp), E3, E5. done. }
  split; [|split; [by split|split; [done|]]].
  - split; [done | done | |]; [rewrite Eppl, E1; lia|]. rewrite (po_pgs_per_pl _ Hp), E1, E2. lia.
  - split; [|by split]. rewrite E1. lia.
Qed.

(** The pages of the namespace fit beside the spare lines. *)
Definition samsung_pages (size : Z) : Z := size * 100 / 107 / 16384 + 1.

Lemma samsung_over size : 2 ^ 20 ≤ size ≤ 2 ^ 43 -> overprovisioned (samsung_params size) (samsung_pages size).
Proof.
  intros Hs. destruct (samsung_params_ok size Hs) as (_ & Hg & _ & _ & Hcap & Eb & El).
  pose proof (po_pgs _ (cg_ok _ Hg)) as Hp. unfold overprovisioned, samsung_pages. rewrite Eb, El.
  pose proof (Z.div_mod size 4 ltac:(lia)). pose proof (Z.mod_pos_bound size 4 ltac:(lia)).
  set (P := pgs_per_blk (samsung_params size)) in *. rewrite Z.div_div by lia. split.
  - assert (0 ≤ size * 100 / (107 * 16384)) by (apply Z.div_pos; lia). lia.
  - assert (size * 100 / (107 * 16384) < 8188 * (4 * P) - 1 + 1 - 1); [|lia].
    apply Z.div_lt_upper_bound; lia.
Qed.

Lemma init_namespace_csi cfg ns_id size ns pcie wb :
  conv_init_namespace cfg ns_id size = Ok (ns, pcie, wb) -> ns_csi ns = NVME_CSI_NVM.
Proof.
  unfold conv_init_namespace. intros H. apply bind_Ok in H as (spp & _ & H).
  destruct (ssd_init spp) as [[s m] b]. apply bind_Ok in H as (ftls & _ & H). by injection H as <- _ _.
Qed.

Lemma conv_init_namespace_ok ns_id size :
  2 ^ 20 ≤ size ≤ 2 ^ 43 ->
  returns (conv_init_namespace SAMSUNG_970PRO ns_id size) (fun '(ns, pcie, wb) =>
    let spp := samsung_params size in
    ns_inv spp (samsung_pages size) ns /\ ns_size ns = size * 100 / 107 /\ ns_nr_parts ns = 4 /\
    ch_ok pcie /\ buffer_wf wb /\ buf_size wb = 2 ^ 20).
Proof.
  intros Hs. destruct (samsung_params_ok size Hs) as (Hi & Hg & Hfw & _). set (spp := samsung_params size) in *.
  unfold conv_init_namespace. change (SSD_PARTITIONS SAMSUNG_970PRO) with 4. rewrite Hi. cbn [mbind res_bind].
  destruct (ssd_init spp) as [[s m] b] eqn:Es.
  destruct (ssd_init_ok spp s m b) as (Hw & _ & Hm & Hb); [apply Hg | .. | done |].
  { change (ch_bandwidth spp) with 800. apply tiny_bandwidth_ok. }
  { change (pcie_bandwidth spp) with 3360. apply tiny_bandwidth_ok. }
  apply returns_bind. eapply returns_mono.
  { eapply (init_parts_ok spp (samsung_pages size)); [done | done | done | by apply samsung_over | done | lia]. }
  intros ftls Hf. cbn [returns]. split; [|split; [|split; [done|split; [done|]]]].
  - split; [cbn; lia | done | by apply samsung_over].
  - cbn. change (100 + 7) with 107. rewrite u64_small; [done|]. unfold U64_MAX. lia.
  - rewrite Hb. change (write_buffer_size spp) with 1048576. split; [split; cbn; unfold U32_MAX; lia | done].
Qed.
