(* ===== verification/ConvProps.v ===== *)
(** * Properties of the conventional FTL

    What the handlers promise on every namespace that satisfies the
    invariant, the geometry of addresses, and a step relation over host
    commands whose reachable states never stop the device. *)
From S2P Require Import Prelude Nvme SsdConfig ChannelModel Ssd Pqueue LineTable ConvFtl ConvGeom ConvDev ConvInv ConvMap ConvOps ConvGc ConvSafe ConvInit.

Section Flush.
Context (spp : ssdparams) (Hg : conv_geom spp).
Context (cpu_clock : nat -> Z) (clock_ok : forall n, 0 ≤ cpu_clock n < 2 ^ 62).

Lemma next_idle_ok s w : ssd_wf s -> world_ok w ->
  wp (ssd_next_idle_time cpu_clock s) (fun t w' => 0 ≤ t ≤ U64_MAX /\ quiet w w') w.
Proof.
  intros Hs Hw. unfold ssd_next_idle_time. apply wp_bind. eapply wp_mono; [by apply get_ioclock_ok|].
  intros t w' [Ht ->]. apply wp_lift. pose proof (sw_ch s Hs) as Ha.
  apply (returns_for_loop (fun _ t => 0 ≤ t ≤ U64_MAX)); [unfold U64_MAX; lia | |intros t' Ht'; by split].
  intros i t1 Hi Ht1. apply returns_bind. destruct (arr_get _ _ _ i Ha ltac:(lia)) as (c & -> & [Hc _]).
  apply (returns_for_loop (fun _ t => 0 ≤ t ≤ U64_MAX)); [done | |done].
  intros j t2 Hj Ht2. apply returns_bind. destruct (arr_get _ _ _ j Hc ltac:(lia)) as (l & -> & [_ Hl]). cbn. lia.
Qed.

Lemma conv_flush_ok N ns req ret local_clock w :
  ns_inv spp N ns -> world_ok w -> 0 ≤ local_clock ≤ U64_MAX ->
  wp (conv_flush cpu_clock local_clock ns req ret) (fun ret' w' =>
    quiet w w' /\ status ret' = NVME_SC_SUCCESS /\ local_clock ≤ nsecs_target ret') w.
Proof.
  intros [Hn Hf HN] Hw Hl. unfold conv_flush. apply wp_bind.
  apply (wp_for_loop (fun _ t w' => local_clock ≤ t ≤ U64_MAX /\ quiet w w')).
  - split; [lia | by apply quiet_refl].
  - intros i t w1 Hi [Ht Hq]. destruct (arr_get _ _ _ i Hf ltac:(lia)) as (c & Hc & Hinv).
    destruct (fi_idle _ _ _ Hinv) as [ro Hok]. apply (wp_lift_Ok _ _ _ _ _ Hc). apply wp_bind.
    eapply wp_mono; [apply next_idle_ok; [apply (dv_wf _ (fk_dev _ _ _ _ _ _ Hok)) | apply Hq]|].
    intros t2 w2 [Ht2 Hq2]. apply wp_ret. split; [lia | by eapply quiet_trans].
  - intros t w' [Ht Hq]. apply wp_ret. split; [done|]. split; [done | cbn; lia].
Qed.
End Flush.

(** ** Addresses *)

(** The numbers the reverse map is indexed with: on the addresses of the
    device [ppa2pgidx] trips no assertion, stays below [tt_pgs], and gives
    different pages different numbers. *)
Theorem ppa2pgidx_injective c p q :
  conv_geom (sp (cv_ssd c)) -> cppa (sp (cv_ssd c)) p -> cppa (sp (cv_ssd c)) q ->
  exists i j, ppa2pgidx c p = Ok i /\ ppa2pgidx c q = Ok j /\ 0 ≤ i < tt_pgs (sp (cv_ssd c)) /\
    (i = j -> p = q).
Proof.
  intros Hg Hp Hq. exists (pgidx (sp (cv_ssd c)) p), (pgidx (sp (cv_ssd c)) q).
  rewrite !(ppa2pgidx_ok (sp (cv_ssd c))) by done. split; [done|]. split; [done|].
  split; [by apply pgidx_range | by apply pgidx_inj].
Qed.

(** A write pointer visits the pages of its line one after the other, each
    exactly once: from the page at place [k] of line [b] (word line by word
    line, and in a word line LUN by LUN and channel by channel)
    [advance_write_pointer] goes to the page at place [k + 1], changing nothing
    else, and it only takes another line after the last page. *)
Theorem write_pointer_order c io b k :
  let spp := sp (cv_ssd c) in
  conv_geom spp -> 0 ≤ b < blks_per_pl spp -> 0 ≤ k < pgs_per_line spp -> wps c io = page_at spp b k ->
  if decide (k + 1 < pgs_per_line spp) then
    exists w, advance_write_pointer c io = Ok (set_wp c io w) /\ wp_ppa w = page_at spp b (k + 1)
  else advance_write_pointer c io =
    ('(m, w) ← next_line spp (cv_lm c) (__get_wp c io); Ok (set_wp (with_lm c m) io w)).
Proof.
  intros spp Hg Hb Hk Hw. pose proof (page_at_in spp Hg b k Hb Hk) as Hc. rewrite <- Hw in Hc.
  rewrite (advance_eq spp Hg) by done. pose proof (page_succ_off spp Hg _ Hc) as Hs.
  assert (page_off spp (wps c io) = k) as Ek by (rewrite Hw; by apply page_off_at).
  destruct (page_succ spp (wps c io)) as [q|] eqn:Eq.
  - destruct Hs as (Hq & Hqb & Hqo). pose proof (page_off_range spp Hg q Hq). rewrite decide_True by lia.
    eexists. split; [done|]. rewrite (wp_ppa_at spp Hg) by done.
    rewrite <- (page_at_off spp Hg q Hq), Hqb, Hqo, Ek, Hw. done.
  - rewrite decide_False by lia. done.
Qed.

(** The victim of garbage collection is the cheapest one: the line
    [select_victim_line] takes out of the queue has no more valid pages than
    any line queued; with [force] the answer is NULL only when no line is
    queued, and then nothing changes. *)
Theorem select_victim_cheapest spp ro c force :
  conv_geom spp -> ftl_ok spp None ro no_dead None c ->
  exists c' vo, select_victim_line c force = Ok (c', vo) /\
    match vo with
    | None => c' = c /\ (force = true -> lm_victim_line_cnt (cv_lm c) = 0)
    | Some v => ro v = LVictim /\ forall b, 0 ≤ b < blks_per_pl spp -> ro b = LVictim ->
        vcount spp (pst (cv_ssd c)) v ≤ vcount spp (pst (cv_ssd c)) b
    end.
Proof.
  intros Hg Hf. destruct (proj1 (returns_iff _ _) (select_victim_ok spp Hg ro c force Hf)) as ([c' vo] & He & H).
  exists c', vo. split; [done|]. destruct vo as [v|]; [|done].
  by destruct H as (m' & l & _ & Hro & _ & _ & _ & _ & _ & _ & _ & Hmin).
Qed.

(** ** Host commands *)
Section Commands.
Context (spp : ssdparams) (Hg : conv_geom spp).
Context (cpu_clock : nat -> Z) (clock_ok : forall n, 0 ≤ cpu_clock n < 2 ^ 62).

(** C4. A host write never stops the device: on a namespace with the invariant,
    a write inside it returns.  When the write buffer has too few free bytes
    it is refused and nothing at all changes; otherwise exactly the logical
    pages of the command become mapped beside those that were, garbage
    collection included, the buffer is charged the bytes of the command, the
    invariant holds again, and the completion is not before the start. *)
Theorem conv_write_spec N ns req ret w :
  ns_inv spp N ns -> fw_ok spp -> req_ok req -> world_ok w -> buffer_ok (w_write_buffer w) ->
  (rw_length (cmd req) + 1) * 512 ≤ buf_size (w_write_buffer w) ->
  last_lpn spp (cmd req) / ns_nr_parts ns < N ->
  exists ns' ok ret' w', conv_write cpu_clock ns req ret w = Ok ((ns', ok, ret'), w') /\
    if (ok : bool) then write_done spp N ns req w ns' ret' w'
    else ns' = ns /\ ret' = ret /\ w' = w /\
      buf_remaining (w_write_buffer w) < (rw_length (cmd req) + 1) * 512.
Proof.
  intros Hn Hf Hr Hw Hb Hs Hl.
  destruct (proj1 (wp_iff _ _ _) (conv_write_ok spp Hg cpu_clock clock_ok N ns req ret w Hn Hf Hr Hw Hb Hs Hl))
    as ([[ns' ok] ret'] & w' & He & H).
  exists ns', ok, ret', w'. split; [done|]. destruct ok; [apply H | done].
Qed.

(** A host read inside the device always succeeds and changes no table:
    each instance differs from what it was only in its clocks, so the same
    logical pages are mapped to the same addresses, and the completion is not
    before the start. *)
Theorem conv_read_spec N ns req ret w :
  ns_inv spp N ns -> req_ok req -> world_ok w -> last_lpn spp (cmd req) / ns_nr_parts ns < tt_pgs spp ->
  exists ns' ret' w', conv_read cpu_clock ns req ret w = Ok ((ns', true, ret'), w') /\
    read_done spp N ns req w ns' ret' w'.
Proof.
  intros Hn Hr Hw Hl.
  destruct (proj1 (wp_iff _ _ _) (conv_read_ok spp Hg cpu_clock clock_ok N ns req ret w Hn Hr Hw Hl))
    as ([[ns' ok] ret'] & w' & He & -> & H). by exists ns', ret', w'.
Qed.

(** C5. Foreground garbage collection is invisible to the host and always gains
    room: it returns, the same logical pages stay mapped and the two tables
    stay inverse; either no line was queued and nothing changed, or the victim
    line is erased and free again, the free pages grow by the number of its
    invalid pages, at least one, and that number becomes the credit. *)
Theorem do_gc_spec c w :
  ftl_idle spp c -> 2 * pgs_per_line spp ≤ croom spp c -> world_ok w ->
  exists c' r w', do_gc cpu_clock c true w = Ok ((c', r), w') /\ ftl_idle spp c' /\
    (forall lpn, mapped c' lpn <-> mapped c lpn) /\
    (r = -1 /\ c' = c /\ lm_victim_line_cnt (cv_lm c) = 0 \/
     r = 0 /\ exists n, 0 < n ≤ pgs_per_line spp /\ croom spp c' = croom spp c + n /\
       credits_to_refill (cv_wfc c') = n).
Proof.
  intros Hi Hr Hw. destruct (proj1 (wp_iff _ _ _) (do_gc_ok spp Hg cpu_clock clock_ok c w Hi Hr Hw))
    as ([c' r] & w' & He & Hi' & _ & Hm & _ & H).
  exists c', r, w'. split; [done|]. split; [done|]. split; [done|].
  destruct H as [?|(? & n & ? & ? & E)]; [by left | right]. split; [done|]. exists n. by rewrite E.
Qed.

(** *** Sequences of commands *)

(** A state of the device: the namespace and what it shares. *)
Definition dev_state : Type := nvmev_ns (list conv_ftl) * world.

(** A command the driver sends: inside the namespace, no larger than the write
    buffer. *)
Record host_req (N : Z) (st : dev_state) (req : nvmev_request) : Prop := {
  hr_req : req_ok req;
  hr_in : last_lpn spp (cmd req) / ns_nr_parts st.1 < N;
  hr_size : (rw_length (cmd req) + 1) * 512 ≤ buf_size (w_write_buffer st.2);
}.

(** One step: a command is processed, or a worker gives bytes back to the write
    buffer, as many as it likes. *)
Inductive dev_step (N : Z) : dev_state -> dev_state -> Prop :=
  | step_cmd ns w req ret now ns' ok ret' w' :
      host_req N (ns, w) req -> 0 ≤ now ≤ U64_MAX ->
      conv_proc_nvme_io_cmd cpu_clock now ns req ret w = Ok ((ns', ok, ret'), w') ->
      dev_step N (ns, w) (ns', w')
  | step_release ns w n :
      dev_step N (ns, w) (ns, set_write_buffer (buffer_release (w_write_buffer w) n) w).

Record dev_inv (N : Z) (st : dev_state) : Prop := {
  di_ns : ns_inv spp N st.1;
  di_csi : ns_csi st.1 = NVME_CSI_NVM;
  di_world : world_ok st.2;
  di_buf : buffer_ok (w_write_buffer st.2);
}.

Lemma cmd_ok (Hfw : fw_ok spp) N ns w req ret now :
  dev_inv N (ns, w) -> host_req N (ns, w) req -> 0 ≤ now ≤ U64_MAX ->
  wp (conv_proc_nvme_io_cmd cpu_clock now ns req ret) (fun '(ns', _, _) w' => dev_inv N (ns', w')) w.
Proof.
  intros [Hns Hcsi Hw Hb] [Hr Hin Hs] Hnow. cbn in *. unfold conv_proc_nvme_io_cmd.
  rewrite Hcsi. apply (wp_lift_Ok _ _ _ _ _ eq_refl).
  assert (forall ns' w', ns_csi ns' = ns_csi ns -> ns_inv spp N ns' -> quiet w w' -> dev_inv N (ns', w')) as Hqi.
  { intros ns' w' Ec Hi' [Hw' [Eb _]]. split; cbn; try done; congruence. }
  destruct (_ =? nvme_cmd_write); [|destruct (_ =? nvme_cmd_read); [|destruct (_ =? nvme_cmd_flush)]].
  - eapply wp_mono; [by eapply (conv_write_ok spp Hg cpu_clock clock_ok N)|].
    intros [[ns' ok] ret'] w'. destruct ok; [|by intros (-> & _ & -> & _)].
    intros [Hlt []]. destruct Hb as [Hb1 Hb2]. split; cbn; try done; [intuition congruence|].
    unfold buffer_ok. pose proof (rw_length_range (cmd req)). lia.
  - eapply wp_mono; [eapply (conv_read_ok spp Hg cpu_clock clock_ok N); try done|].
    { pose proof (overprovisioned_pgs spp Hg N (ni_over _ _ _ Hns)). lia. }
    intros [[ns' ok] ret'] w' [-> []]. apply Hqi; [intuition congruence | done..].
  - apply wp_bind. eapply wp_mono; [by eapply conv_flush_ok|]. intros ret' w' [Hq _]. apply wp_ret. by apply Hqi.
  - apply wp_ret. by apply Hqi.
Qed.

Lemma reach_inv (Hfw : fw_ok spp) N st st' : rtc (dev_step N) st st' -> dev_inv N st -> dev_inv N st'.
Proof.
  induction 1 as [|st1 st2 st3 Hs _ IH]; [done|]. intros Hi. apply IH. clear IH.
  destruct Hs as [ns w req ret now ns' ok ret' w' Hq Hnow He | ns w n].
  - pose proof (cmd_ok Hfw N ns w req ret now Hi Hq Hnow) as Hok. unfold wp in Hok. by rewrite He in Hok.
  - destruct Hi as [H1 H2 H3 H4]. cbn in *. split; cbn; try done. by apply buffer_give_ok.
Qed.
End Commands.

(** C3. The shipped 970 PRO profile, of any size up to 8 TiB, never reaches an
    assertion, an index out of range, a NULL line or a use of an unset value:
    initialising it succeeds, and after any sequence of commands inside the
    namespace and no larger than the write buffer (reads, writes, flushes,
    unknown opcodes; MDTS asks for a quarter of the buffer), interleaved with
    releases of any number of bytes of the buffer, the next command returns. *)
Theorem samsung_never_stops cpu_clock ns_id size ns pcie wb tick0 st req ret now :
  (forall n, 0 ≤ cpu_clock n < 2 ^ 62) -> 2 ^ 20 ≤ size ≤ 2 ^ 43 ->
  conv_init_namespace SAMSUNG_970PRO ns_id size = Ok (ns, pcie, wb) ->
  rtc (dev_step (samsung_params size) cpu_clock (samsung_pages size)) (ns, mk_world tick0 pcie wb []) st ->
  host_req (samsung_params size) (samsung_pages size) st req -> 0 ≤ now ≤ U64_MAX ->
  exists ns' ok ret' w', conv_proc_nvme_io_cmd cpu_clock now st.1 req ret st.2 = Ok ((ns', ok, ret'), w').
Proof.
  intros Hclk Hs Hinit Hreach Hreq Hnow. pose proof (conv_init_namespace_ok ns_id size Hs) as Hi. rewrite Hinit in Hi.
  destruct Hi as (Hns & _ & _ & Hp & Hb & _). destruct (samsung_params_ok size Hs) as (_ & Hg & Hfw & _).
  pose proof (init_namespace_csi _ _ _ _ _ _ Hinit) as Hcsi. clear Hinit.
  apply (reach_inv _ Hg _ Hclk Hfw) in Hreach; [|by split; try apply buffer_wf_ok]. destruct st as [ns1 w1].
  destruct (proj1 (wp_iff _ _ _) (cmd_ok _ Hg _ Hclk Hfw _ ns1 w1 req ret now Hreach Hreq Hnow))
    as ([[ns' ok] ret'] & w' & He & _). by exists ns', ok, ret', w'.
Qed.

(** C40. A logical block of the 970 PRO namespace always belongs to a logical
    page the invariant allows: initialising the namespace succeeds for every
    size, gives the invariant in all four partitions with no page mapped, and
    every command that ends inside the advertised size stays below the bound
    that leaves garbage collection its spare lines. *)
Theorem samsung_namespace_fits ns_id size :
  2 ^ 20 ≤ size ≤ 2 ^ 43 ->
  exists ns pcie wb, conv_init_namespace SAMSUNG_970PRO ns_id size = Ok (ns, pcie, wb) /\
    ns_inv (samsung_params size) (samsung_pages size) ns /\ ns_size ns = size * 100 / 107 /\
    forall cmd, 0 ≤ rw_slba cmd -> (rw_slba cmd + rw_length cmd) * 512 < ns_size ns ->
      last_lpn (samsung_params size) cmd / ns_nr_parts ns < samsung_pages size.
Proof.
  intros Hs. destruct (proj1 (returns_iff _ _) (conv_init_namespace_ok ns_id size Hs)) as ([[ns pcie] wb] & He & H).
  destruct H as (Hns & Hsz & Hn & _). exists ns, pcie, wb. split; [done|]. split; [done|]. split; [done|].
  intros c H0 Hlt. rewrite Hn. rewrite Hsz in Hlt. unfold last_lpn, samsung_pages.
  destruct (samsung_params_ok size Hs) as (_ & _ & _ & -> & _).
  rewrite Z.div_div by lia. apply Z.lt_succ_r.
  apply Z.div_le_lower_bound; [lia|]. pose proof (Z.mul_div_le (rw_slba c + rw_length c) (8 * 4) ltac:(lia)). lia.
Qed.

(** ** A small device: 2 channels of 2 LUNs, 8 lines of 16 pages, two
    partitions *)
Definition tiny_conv_params : ssdparams :=
  mk_params 512 8 4096 2 2 2 2 4 8 1 2 2 2 512 true
    [100; 200; 0] [300; 400; 0] 1000 5000 4096 10 20 30 40 0 800 3360
    32 256 256 512 1024 32 32 64 128 8 16 32 128 16 4 8 2 4 4 65536.
Definition tiny_cp : convparams := mk_convparams 2 2 true 7 107.
Definition tiny_conv_dev : ssd := (ssd_init tiny_conv_params).1.1.
Definition tiny_ftls : list conv_ftl :=
  match for_loop 2 0 (fun i ftls => c ← conv_init_ftl tiny_cp tiny_conv_dev; Ok (ftls ++ [c])) [] with
  | Ok f => f | Bug _ => [] end.
Definition tiny_conv_ns : nvmev_ns (list conv_ftl) := mk_ns 0 NVME_CSI_NVM 65536 2 tiny_ftls.
Definition tiny_conv_world : world :=
  mk_world 0 (ssd_init tiny_conv_params).1.2 (ssd_init tiny_conv_params).2 [].
(** A command on the blocks 8 to 31: the logical pages 1 to 3. *)
Definition tiny_conv_req (op : Z) : nvmev_request := mk_req (mk_cmd op 1 1 0 0 8 23 0) 1 1000.

Lemma tiny_conv_geom : conv_geom tiny_conv_params.
Proof.
  split; [|done..]. split; cbn; try lia; split; try done; repeat constructor; done.
Qed.

Lemma tiny_conv_dev_ok : ssd_wf tiny_conv_dev /\ world_ok tiny_conv_world.
Proof.
  destruct (ssd_init_ok tiny_conv_params tiny_conv_dev (w_pcie tiny_conv_world) (w_write_buffer tiny_conv_world))
    as (H1 & _ & H2 & _); [apply tiny_conv_geom | apply tiny_bandwidth_ok.. | done | by split].
Qed.

Lemma tiny_over : overprovisioned tiny_conv_params 40.
Proof. by split; vm_compute. Qed.

Lemma tiny_conv_inv : ns_inv tiny_conv_params 40 tiny_conv_ns.
Proof.
  split; [done | | apply tiny_over].
  pose proof (init_parts_ok tiny_conv_params 40 tiny_cp tiny_conv_dev (w_pcie tiny_conv_world)
    (w_write_buffer tiny_conv_world) 2 tiny_conv_geom eq_refl (proj1 tiny_conv_dev_ok) tiny_over eq_refl ltac:(lia)) as H.
  cbn [ns_ftls ns_nr_parts tiny_conv_ns]. unfold tiny_ftls. change (Z.to_nat 2) with 2%nat in H.
  revert H. by destruct (for_loop 2 0 _ _).
Qed.

Lemma tiny_req_ok op : req_ok (tiny_conv_req op).
Proof. split; [by vm_compute | by vm_compute | by split; vm_compute]. Qed.

Lemma tiny_conv_fw : fw_ok tiny_conv_params.
Proof. by split; split; vm_compute. Qed.

Definition tiny_conv_ftl : conv_ftl := default (mk_conv tiny_conv_dev tiny_cp [] [] (fresh_wp 0) (fresh_wp 1)
  (mk_lm [] [] (mk_pqueue 0 0 0 []) [] 0 0 0 0) (mk_wfc 0 0)) (head tiny_ftls).

Lemma tiny_conv_ftl_inv : ftl_inv tiny_conv_params 40 tiny_conv_ftl.
Proof.
  pose proof (ni_ftls _ _ _ tiny_conv_inv) as [Hl Hf]. cbn in Hl, Hf. unfold tiny_conv_ftl.
  destruct tiny_ftls as [|c f]; [done|]. by inversion Hf.
Qed.

Lemma ppa2pgidx_injective_witness :
  let p := mk_ppa 1 2 0 1 0 0 in let q := mk_ppa 3 7 0 1 1 0 in
  exists i j, ppa2pgidx tiny_conv_ftl p = Ok i /\ ppa2pgidx tiny_conv_ftl q = Ok j /\
    0 ≤ i < tt_pgs (sp (cv_ssd tiny_conv_ftl)) /\ (i = j -> p = q).
Proof.
  apply (ppa2pgidx_injective tiny_conv_ftl).
  - exact tiny_conv_geom.
  - split; [|reflexivity]. unfold ppa_in. vm_compute. repeat split; done.
  - split; [|reflexivity]. unfold ppa_in. vm_compute. repeat split; done.
Defined.

(** The last page of the first word line: the next is the first page of the
    second. *)
Lemma write_pointer_order_witness :
  let c := set_wp tiny_conv_ftl GC_IO (mk_wp (Some 1) 1 1 1 1 0) in
  exists w, advance_write_pointer c GC_IO = Ok (set_wp c GC_IO w) /\ wp_ppa w = page_at tiny_conv_params 1 8.
Proof.
  exact (write_pointer_order (set_wp tiny_conv_ftl GC_IO (mk_wp (Some 1) 1 1 1 1 0)) GC_IO 1 7 tiny_conv_geom
    ltac:(split; vm_compute; done) ltac:(split; vm_compute; done) eq_refl).
Defined.

Lemma select_victim_cheapest_witness :
  exists ro c' vo, ftl_ok tiny_conv_params None ro no_dead None tiny_conv_ftl /\
    select_victim_line tiny_conv_ftl true = Ok (c', vo).
Proof.
  destruct (fi_idle _ _ _ tiny_conv_ftl_inv) as [ro Hf].
  destruct (select_victim_cheapest tiny_conv_params ro tiny_conv_ftl true tiny_conv_geom Hf) as (c' & vo & He & _).
  exists ro, c', vo. split; [exact Hf | exact He].
Defined.

Lemma conv_write_spec_witness :
  exists ns' ok ret' w', conv_write (fun _ => 1000) tiny_conv_ns (tiny_conv_req nvme_cmd_write)
      (mk_result 0 0 0) tiny_conv_world = Ok ((ns', ok, ret'), w') /\
    if (ok : bool) then write_done tiny_conv_params 40 tiny_conv_ns (tiny_conv_req nvme_cmd_write)
      tiny_conv_world ns' ret' w'
    else ns' = tiny_conv_ns /\ ret' = mk_result 0 0 0 /\ w' = tiny_conv_world /\ 65536 < 24 * 512.
Proof.
  apply (conv_write_spec tiny_conv_params tiny_conv_geom (fun _ => 1000)).
  - intros n. lia.
  - exact tiny_conv_inv.
  - exact tiny_conv_fw.
  - apply tiny_req_ok.
  - apply tiny_conv_dev_ok.
  - split; [split|]; vm_compute; done.
  - vm_compute. done.
  - vm_compute. done.
Defined.

Lemma conv_read_spec_witness :
  exists ns' ret' w', conv_read (fun _ => 1000) tiny_conv_ns (tiny_conv_req nvme_cmd_read)
      (mk_result 0 0 0) tiny_conv_world = Ok ((ns', true, ret'), w') /\
    read_done tiny_conv_params 40 tiny_conv_ns (tiny_conv_req nvme_cmd_read) tiny_conv_world ns' ret' w'.
Proof.
  apply (conv_read_spec tiny_conv_params tiny_conv_geom (fun _ => 1000)).
  - intros n. lia.
  - exact tiny_conv_inv.
  - apply tiny_req_ok.
  - apply tiny_conv_dev_ok.
  - vm_compute. done.
Defined.

Lemma do_gc_spec_witness :
  exists c' r w', do_gc (fun _ => 1000) tiny_conv_ftl true tiny_conv_world = Ok ((c', r), w') /\
    ftl_idle tiny_conv_params c'.
Proof.
  destruct (do_gc_spec tiny_conv_params tiny_conv_geom (fun _ => 1000) ltac:(intros n; lia) tiny_conv_ftl
    tiny_conv_world (fi_idle _ _ _ tiny_conv_ftl_inv)) as (c' & r & w' & He & Hi & _).
  - pose proof (fi_room _ _ _ tiny_conv_ftl_inv). pose proof (fi_credits _ _ _ tiny_conv_ftl_inv). lia.
  - apply tiny_conv_dev_ok.
  - exists c', r, w'. split; [exact He | exact Hi].
Defined.

Lemma samsung_never_stops_witness :
  exists ns pcie wb ns' ok ret' w',
    conv_init_namespace SAMSUNG_970PRO 0 (2 ^ 30) = Ok (ns, pcie, wb) /\
    conv_proc_nvme_io_cmd (fun _ => 1000) 2000 ns (tiny_conv_req nvme_cmd_write) (mk_result 0 0 0)
      (mk_world 0 pcie wb []) = Ok ((ns', ok, ret'), w').
Proof.
  pose proof (conv_init_namespace_ok 0 (2 ^ 30) ltac:(lia)) as Hi.
  destruct (conv_init_namespace SAMSUNG_970PRO 0 (2 ^ 30)) as [[[ns pcie] wb]|] eqn:E; [|destruct Hi].
  destruct Hi as (_ & _ & Hn & _ & _ & Hsz).
  destruct (samsung_never_stops (fun _ => 1000) 0 (2 ^ 30) ns pcie wb 0%nat (ns, mk_world 0 pcie wb [])
    (tiny_conv_req nvme_cmd_write) (mk_result 0 0 0) 2000) as (ns' & ok & ret' & w' & He).
  - intros n. lia.
  - lia.
  - exact E.
  - apply rtc_refl.
  - split; [apply tiny_req_ok | | ].
    + cbn [fst]. rewrite Hn. vm_compute. done.
    + cbn [snd w_write_buffer]. rewrite Hsz. vm_compute. done.
  - unfold U64_MAX. lia.
  - exists ns, pcie, wb, ns', ok, ret', w'. split; [reflexivity | exact He].
Defined.

Lemma samsung_namespace_fits_witness :
  exists ns pcie wb, conv_init_namespace SAMSUNG_970PRO 0 (2 ^ 30) = Ok (ns, pcie, wb) /\
    ns_size ns = 2 ^ 30 * 100 / 107.
Proof.
  destruct (samsung_namespace_fits 0 (2 ^ 30)) as (ns & pcie & wb & He & _ & Hs & _); [lia|].
  exists ns, pcie, wb. split; [exact He | exact Hs].
Defined.

(** *** Concrete runs

    A host that overwrites two logical pages of the small device 60 times: the
    writes use up the lines, garbage collection runs, and both pages stay
    mapped. *)
Definition overwrite (n : nat) : prog world conv_ftl :=
  '(c, _) ← for_loop n 0 (fun i '(c, t) => write_page (fun _ => 1000) 1 1000 c (i mod 2) t) (tiny_conv_ftl, 1000);
  mret c.
Definition overwrite_ok (n : nat) : bool :=
  match overwrite n tiny_conv_world with
  | Ok (c, _) => forallb (fun lpn => match aget (cv_maptbl c) lpn with Ok p => mapped_ppa p | Bug _ => false end) [0; 1]
      && forallb (fun lpn => match aget (cv_maptbl c) lpn with Ok p => negb (mapped_ppa p) | Bug _ => false end) [2; 3]
  | Bug _ => false
  end.
Example overwrite_run : overwrite_ok 60 = true.
Proof. vm_compute. reflexivity. Qed.
