(* ===== verification/SimpleFtl.v ===== *)
(** * Timing by I/O units ([src/simple_ftl.c], the config of [src/nvmev.h])

    A device without a NAND model is an array of I/O units, one completion
    time each ([nvmev_vdev->io_unit_stat]).  A request is cut into pieces of
    [1 << io_unit_shift] bytes that go round the units; each piece costs the
    latency, and the units of the first round stay busy for [trailing] more.
    [kv_ftl.c] has a copy of the same functions with its own opcodes. *)
From S2P Require Import Prelude Nvme.

(** The fields of [struct nvmev_config] that the timing uses. *)
Record nvmev_config := mk_config {
  nr_io_units : Z;
  io_unit_shift : Z;
  read_delay : Z;
  read_time : Z;
  read_trailing : Z;
  write_delay : Z;
  write_time : Z;
  write_trailing : Z;
}.

Section Units.
Variable config : nvmev_config.

(** [1 << shift] in an [unsigned int], and [lba >> (shift - LBA_BITS)]; other
    shift counts are undefined in C and count as a bug here. *)
Definition io_unit_size : Z := u32 (Z.shiftl 1 (io_unit_shift config)).
Definition first_io_unit (lba : Z) : res Z :=
  if (9 <=? io_unit_shift config) && (io_unit_shift config <=? 31)
  then checked_mod (Z.shiftr lba (io_unit_shift config - 9)) (nr_io_units config)
  else Bug OutOfRange.

(** The loop: [nr] counts the pieces that leave [trailing] behind. *)
Fixpoint units_loop (fuel : nat) (latency trailing : Z) (stat : list Z) (io_unit latest nr length : Z) : res (list Z * Z) :=
  match fuel with
  | O => Bug NoFuel
  | S fuel =>
    let latest := u64 (latest + latency) in
    stat ← aset stat io_unit latest;
    stat ← (if 0 <? nr then aset stat io_unit (u64 (latest + trailing)) else Ok stat);
    let nr := nr - 1 in
    let length := length - Z.min length io_unit_size in
    let io_unit := u32 (io_unit + 1) in
    let io_unit := if nr_io_units config <=? io_unit then 0 else io_unit in
    if 0 <? length then units_loop fuel latency trailing stat io_unit latest nr length
    else Ok (stat, latest)
  end.

(** A piece is at least a byte. *)
Definition schedule_units (costs : Z * Z * Z) (stat : list Z) (lba length nsecs_start : Z) : res (list Z * Z) :=
  let '(delay, latency, trailing) := costs in
  io_unit ← first_io_unit lba;
  let nr := Z.min (nr_io_units config) (u32 (length + io_unit_size - 1) / io_unit_size) in
  t ← aget stat io_unit;
  units_loop (Z.to_nat length + 1) latency trailing stat io_unit (u64 (Z.max nsecs_start t + delay)) nr length.

(** Delay, latency and trailing time. *)
Definition io_costs (opcode : Z) : Z * Z * Z :=
  if opcode =? nvme_cmd_write then (write_delay config, write_time config, write_trailing config)
  else if opcode =? nvme_cmd_read then (read_delay config, read_time config, read_trailing config)
  else (0, 0, 0).

Definition __schedule_io_units (opcode : Z) (stat : list Z) (lba length nsecs_start : Z) : res (list Z * Z) :=
  schedule_units (io_costs opcode) stat lba length nsecs_start.

Definition __schedule_flush (stat : list Z) : res Z :=
  for_loop (Z.to_nat (nr_io_units config)) 0 (fun i latest => t ← aget stat i; Ok (Z.max latest t)) 0.

(** [(cmd->length + 1) << LBA_BITS]. *)
Definition simple_cmd_io_size (c : nvme_command) : Z := u64 (Z.shiftl (rw_length c + 1) 9).

(** [now] is what [__get_wallclock] returns.  An unknown opcode leaves the
    result as it is. *)
Definition simple_proc_nvme_io_cmd {F} (ns : nvmev_ns F) (stat : list Z) (c : nvme_command) (ret : nvmev_result) (now : Z)
  : res (bool * list Z * nvmev_result) :=
  _ ← NVMEV_ASSERT (ns_csi ns =? NVME_CSI_NVM);
  if (opcode c =? nvme_cmd_write) || (opcode c =? nvme_cmd_read) then
    '(stat, t) ← __schedule_io_units (opcode c) stat (rw_slba c) (simple_cmd_io_size c) now;
    Ok (true, stat, set_target ret t)
  else if opcode c =? nvme_cmd_flush then
    t ← __schedule_flush stat; Ok (true, stat, set_target ret t)
  else Ok (true, stat, ret).

(** ** What a request does to the units *)
Record config_ok (stat : list Z) : Prop := {
  co_units : 0 < nr_io_units config ≤ 1048576;
  co_shift : 9 ≤ io_unit_shift config ≤ 31;
  co_stat : Z.of_nat (length stat) = nr_io_units config;
  co_times : Forall (fun t => 0 ≤ t) stat;
}.

Record costs_ok : Prop := {
  cs_read : 0 ≤ read_delay config /\ 0 ≤ read_time config /\ 0 ≤ read_trailing config;
  cs_write : 0 ≤ write_delay config /\ 0 ≤ write_time config /\ 0 ≤ write_trailing config;
}.

(** The number of pieces of a request. *)
Definition pieces (length : Z) : Z := Z.max 1 (DIV_ROUND_UP length io_unit_size).

(** Piece [k] of a request that starts at unit [u] uses this unit. *)
Definition unit_at (u k : Z) : Z := (u + k) mod nr_io_units config.

Section Spec.
Context (stat0 : list Z) (Hok : config_ok stat0).

Lemma io_unit_size_pos : 0 < io_unit_size ≤ 2147483648.
Proof.
  destruct (co_shift _ Hok) as [H1 H2]. unfold io_unit_size. rewrite Z.shiftl_1_l.
  pose proof (Z.pow_pos_nonneg 2 (io_unit_shift config) ltac:(lia) ltac:(lia)).
  pose proof (Z.pow_le_mono_r 2 (io_unit_shift config) 31 ltac:(lia) ltac:(lia)).
  change (2 ^ 31) with 2147483648 in *. rewrite u32_small; unfold U32_MAX; lia.
Qed.

Lemma pieces_more len : 0 < len - Z.min len io_unit_size -> pieces len = 1 + pieces (len - Z.min len io_unit_size).
Proof.
  intros H. pose proof io_unit_size_pos. rewrite Z.min_r in * by lia. unfold pieces, DIV_ROUND_UP.
  replace (len + io_unit_size - 1) with (len - io_unit_size + io_unit_size - 1 + 1 * io_unit_size) by lia.
  rewrite Z.div_add by lia. pose proof (Z.div_le_lower_bound (len - io_unit_size + io_unit_size - 1) io_unit_size 1). lia.
Qed.

Lemma pieces_last len : 0 ≤ len -> len - Z.min len io_unit_size ≤ 0 -> pieces len = 1.
Proof.
  intros H0 H. pose proof io_unit_size_pos. unfold pieces, DIV_ROUND_UP.
  assert ((len + io_unit_size - 1) / io_unit_size < 2) by (apply Z.div_lt_upper_bound; lia). lia.
Qed.

Lemma unit_at_range u k : 0 ≤ unit_at u k < nr_io_units config.
Proof. apply Z.mod_pos_bound, Hok. Qed.

Lemma unit_at_next u k : (if nr_io_units config <=? u32 (unit_at u k + 1) then 0 else u32 (unit_at u k + 1)) = unit_at u (k + 1).
Proof.
  pose proof (unit_at_range u k). destruct (co_units _ Hok). rewrite u32_small by (unfold U32_MAX; lia).
  unfold unit_at in *. replace (u + (k + 1)) with (u + k + 1) by lia. rewrite (Z.add_mod (u + k) 1) by lia.
  destruct (decide (nr_io_units config = 1)) as [E|E].
  { rewrite E, !Z.mod_1_r. done. }
  rewrite (Z.mod_small 1 (nr_io_units config)) by lia. destruct (Z.leb_spec (nr_io_units config) ((u + k) mod nr_io_units config + 1)).
  - replace ((u + k) mod nr_io_units config + 1) with (nr_io_units config) by lia. by rewrite Z.mod_same by lia.
  - by rewrite (Z.mod_small ((u + k) mod _ + 1)) by lia.
Qed.

Lemma unit_at_distinct u i j : i < j -> j - i < nr_io_units config -> unit_at u i <> unit_at u j.
Proof.
  intros H1 H2 E. unfold unit_at in E. assert ((j - i) mod nr_io_units config = 0) as Em.
  { replace (j - i) with ((u + j) - (u + i)) by lia. rewrite Zminus_mod, E, Z.sub_diag. apply Z.mod_0_l. pose proof (co_units _ Hok). lia. }
  rewrite Z.mod_small in Em by lia. lia.
Qed.

(** *** The pieces [k], ..., [n - 1] *)
Section Loop.
Context (latency trailing base u nr n : Z) (Hlat : 0 ≤ latency) (Htr : 0 ≤ trailing) (Hbase : 0 ≤ base)
  (Hroom : base + n * latency + trailing ≤ U64_MAX).

Definition busy_until (i : Z) : Z := base + (i + 1) * latency + (if i <? nr then trailing else 0).

Record scheduled (k : Z) (stat stat' : list Z) : Prop := {
  sd_length : length stat' = length stat;
  sd_last : forall i, k ≤ i < n -> n - i ≤ nr_io_units config -> aget stat' (unit_at u i) = Ok (busy_until i);
  sd_idle : forall j, (forall i, k ≤ i < n -> j <> unit_at u i) -> aget stat' j = aget stat j;
}.

Lemma units_loop_ok fuel : forall k stat len, 0 ≤ k -> n = k + pieces len -> 0 ≤ len < Z.of_nat fuel ->
  Z.of_nat (length stat) = nr_io_units config ->
  returns (units_loop fuel latency trailing stat (unit_at u k) (base + k * latency) (nr - k) len)
    (fun '(stat', latest) => latest = base + n * latency /\ scheduled k stat stat').
Proof.
  induction fuel as [|fuel IH]; intros k stat len Hk Hn Hf Hst; [lia|]. pose proof (unit_at_range u k) as Hu.
  pose proof io_unit_size_pos as Hsz. assert (1 ≤ pieces len) as Hp by (unfold pieces; lia). cbn [units_loop].
  replace (base + k * latency + latency) with (base + (k + 1) * latency) by lia.
  assert ((k + 1) * latency ≤ n * latency) as Hle by nia.
  rewrite (u64_small (base + (k + 1) * latency)) by nia. rewrite aset_in_range by lia. cbn [mbind res_bind].
  set (v := if 0 <? nr - k then u64 (base + (k + 1) * latency + trailing) else base + (k + 1) * latency).
  assert (v = busy_until k) as Ev.
  { unfold v, busy_until. destruct (Z.ltb_spec 0 (nr - k)), (Z.ltb_spec k nr); try lia. apply u64_small. nia. }
  assert ((if 0 <? nr - k then aset (<[Z.to_nat (unit_at u k) := base + (k + 1) * latency]> stat) (unit_at u k)
             (u64 (base + (k + 1) * latency + trailing)) else Ok (<[Z.to_nat (unit_at u k) := base + (k + 1) * latency]> stat))
          = Ok (<[Z.to_nat (unit_at u k) := v]> stat)) as ->.
  { unfold v. destruct (0 <? nr - k); [|done]. rewrite aset_in_range by (rewrite length_insert; lia). by rewrite list_insert_insert_eq. }
  cbn [mbind res_bind]. rewrite unit_at_next. destruct (Z.ltb_spec 0 (len - Z.min len io_unit_size)) as [Hm|Hm].
  - pose proof (pieces_more len Hm) as Hpm. replace (nr - k - 1) with (nr - (k + 1)) by lia.
    eapply returns_mono; [apply IH; [lia | lia | lia | by rewrite length_insert]|].
    intros [stat' latest] [-> [Hl Hla Hid]]. split; [done|]. rewrite length_insert in Hl. split; [done|..].
    + intros i Hi Hni. destruct (decide (i = k)) as [->|Hne]; [|apply Hla; lia].
      rewrite Hid by (intros i' Hi'; apply unit_at_distinct; lia). rewrite aget_insert by lia. by rewrite decide_True, Ev.
    + intros j Hj. rewrite Hid by (intros i Hi; apply Hj; lia). rewrite aget_insert by lia.
      rewrite decide_False; [done|]. intros <-. apply (Hj k); [lia|done].
  - pose proof (pieces_last len ltac:(lia) Hm) as Hpl. assert (n = k + 1) as -> by lia. split; [done|]. split.
    + apply length_insert.
    + intros i Hi _. assert (i = k) as -> by lia. rewrite aget_insert by lia. by rewrite decide_True, Ev.
    + intros j Hj. rewrite aget_insert by lia. rewrite decide_False; [done|]. intros <-. apply (Hj k); [lia|done].
Qed.
End Loop.

Lemma schedule_units_ok delay latency trailing lba len start : 0 ≤ delay -> 0 ≤ latency -> 0 ≤ trailing ->
  0 ≤ lba -> 0 ≤ len -> len + io_unit_size ≤ U32_MAX ->
  let u := Z.shiftr lba (io_unit_shift config - 9) mod nr_io_units config in
  let base := Z.max start (nth (Z.to_nat u) stat0 0) + delay in
  base + pieces len * latency + trailing ≤ U64_MAX ->
  returns (schedule_units (delay, latency, trailing) stat0 lba len start) (fun '(stat, latest) =>
    latest = base + pieces len * latency /\
    scheduled latency trailing base u (Z.min (nr_io_units config) (DIV_ROUND_UP len io_unit_size)) (pieces len) 0 stat0 stat).
Proof.
  intros Hd Hl Ht Hlba Hlen Hlen2 u base Hroom. destruct Hok as [Hn Hsh Hst Htm]. pose proof io_unit_size_pos.
  unfold schedule_units, first_io_unit. rewrite (proj2 (Z.leb_le _ _)), (proj2 (Z.leb_le (io_unit_shift config) _)) by lia. cbn.
  unfold checked_mod. rewrite (proj2 (Z.eqb_neq _ 0)) by lia. cbn [mbind res_bind]. fold u.
  assert (0 ≤ u < nr_io_units config) as Hu by (apply Z.mod_pos_bound; lia).
  destruct (aget_in_range stat0 u) as [t Hg]; [lia|]. rewrite Hg. cbn [mbind res_bind]. pose proof Hg as Hg'.
  apply aget_Ok in Hg' as [_ Hg']. assert (0 ≤ t) as Ht0 by (by eapply Forall_lookup_1 in Htm).
  assert (base = Z.max start t + delay) as Eb by (unfold base; by rewrite (nth_lookup_Some _ _ _ _ Hg')).
  assert (unit_at u 0 = u) as Eu by (unfold unit_at; rewrite Z.add_0_r; apply Z.mod_small; lia).
  rewrite <- Eb. assert (1 ≤ pieces len) by (unfold pieces; lia). rewrite (u64_small base) by nia.
  assert (DIV_ROUND_UP len io_unit_size = u32 (len + io_unit_size - 1) / io_unit_size) as ->
    by (unfold DIV_ROUND_UP; by rewrite u32_small by lia).
  set (nr := Z.min _ _). pose proof (units_loop_ok latency trailing base u nr (pieces len) Hl Ht ltac:(lia) Hroom
    (Z.to_nat len + 1) 0 stat0 len ltac:(lia) eq_refl ltac:(lia) Hst) as Hrun.
  rewrite Eu, Z.add_0_r, Z.sub_0_r in Hrun. exact Hrun.
Qed.

Lemma schedule_flush_ok : exists t, __schedule_flush stat0 = Ok t /\ Forall (fun x => x ≤ t) stat0 /\ (t = 0 \/ t ∈ stat0).
Proof.
  apply returns_iff. unfold __schedule_flush. destruct Hok as [Hn _ Hst _].
  apply (returns_for_loop (fun i t => Forall (fun x => x ≤ t) (take (Z.to_nat i) stat0) /\ (t = 0 \/ t ∈ stat0))).
  - split; [constructor | by left].
  - intros j t Hj [Hf Hin]. destruct (aget_in_range stat0 j) as [x Hx]; [lia|]. rewrite Hx. cbn.
    apply aget_Ok in Hx as [_ Hx]. replace (Z.to_nat (j + 1)) with (S (Z.to_nat j)) by lia.
    rewrite (take_S_r _ _ _ Hx). split; [apply Forall_app; split|].
    + eapply Forall_impl; [exact Hf|]. cbn. lia.
    + apply Forall_singleton. lia.
    + destruct (Z.max_dec t x) as [-> | ->]; [done|]. right. by eapply list_elem_of_lookup_2.
  - intros t [Hf Hin]. split; [|done]. rewrite take_ge in Hf by lia. done.
Qed.
End Spec.

(** C36. A request costs its latency once per piece, after the unit of its
    first block is free; it ends, and it leaves every unit busy until the last
    piece that used it, plus the trailing time if that piece was in the first
    round.  Units the request does not reach keep their time. *)
Theorem schedule_io_units_spec stat op lba len start :
  config_ok stat -> costs_ok -> 0 ≤ lba -> 0 ≤ len -> len + io_unit_size ≤ U32_MAX ->
  let '(delay, latency, trailing) := io_costs op in
  let u := Z.shiftr lba (io_unit_shift config - 9) mod nr_io_units config in
  let base := Z.max start (nth (Z.to_nat u) stat 0) + delay in
  base + pieces len * latency + trailing ≤ U64_MAX ->
  returns (__schedule_io_units op stat lba len start) (fun '(stat', latest) =>
    latest = base + pieces len * latency /\
    scheduled latency trailing base u (Z.min (nr_io_units config) (DIV_ROUND_UP len io_unit_size)) (pieces len) 0 stat stat').
Proof.
  intros Hok Hc Hlba Hlen Hl2. unfold __schedule_io_units. destruct (io_costs op) as [[delay latency] trailing] eqn:Ec.
  assert (0 ≤ delay /\ 0 ≤ latency /\ 0 ≤ trailing) as (Hd & Hl & Ht).
  { destruct Hc. unfold io_costs in Ec. repeat case_match; injection Ec as <- <- <-; lia. }
  by apply schedule_units_ok.
Qed.
End Units.

(** The default units of the module, 8 of 4 KiB. *)
Definition default_config : nvmev_config := mk_config 8 12 1 1000 0 1 2000 500.

(** A write of nine pages goes round the units. *)
Lemma schedule_io_units_spec_witness :
  returns (__schedule_io_units default_config nvme_cmd_write (replicate 8 0) 80 36864 50) (fun '(stat', latest) =>
    latest = 51 + 9 * 2000 /\ scheduled default_config 2000 500 51 2 8 9 0 (replicate 8 0) stat').
Proof.
  refine (schedule_io_units_spec default_config (replicate 8 0) nvme_cmd_write 80 36864 50 _ _ _ _ _ _).
  - split; cbn; try lia. repeat constructor; lia.
  - split; cbn; lia.
  - lia.
  - lia.
  - vm_compute. discriminate.
  - vm_compute. discriminate.
Defined.

Example nine_pages : __schedule_io_units default_config nvme_cmd_write (replicate 8 0) 80 36864 50
  = Ok ([14551; 16551; 18051; 4551; 6551; 8551; 10551; 12551]%Z, 18051).
Proof. vm_compute. reflexivity. Qed.
