(* ===== verification/Alloc.v ===== *)
(** * Space for values
    ([src/append_only.c], [src/bitmap.c], [struct allocator_ops] of
    [src/kv_ftl.h])

    The key-value FTL asks an allocator for the place of a new value; nothing
    is ever given back.  [allocator_ops] are the function pointers,
    [AllocatorLaws] what a client relies on: a granted region is inside the
    storage and apart from the ones granted before. *)
From S2P Require Import Prelude.

(** [init] and [allocate]; [kill] does nothing and [deallocate] is not set. *)
Record allocator_ops (A : Type) := mk_ops {
  init : Z -> A -> res (Z * A);
  allocate : Z -> A -> res (Z * A);
}.
Arguments init {A}.
Arguments allocate {A}.

(** A region: where it begins, and its bytes. *)
Definition region : Type := Z * Z.
Definition inside (r : region) (x : Z) : Prop := r.1 ≤ x < r.1 + r.2.
Definition apart (r s : region) : Prop := forall x, inside r x -> ~ inside s x.

(** What the allocator promises about the regions it granted so far. *)
Class AllocatorLaws {A} (ops : allocator_ops A) := {
  al_inv : Z -> A -> list region -> Prop;
  (** The largest storage it can manage. *)
  al_max : Z;
  (** There is room for a value of this length. *)
  al_room : Z -> A -> Z -> Prop;
  al_init : forall size a, 0 ≤ size ≤ al_max -> returns (init ops size a) (fun '(r, a) => r = 1 /\ al_inv size a []);
  al_allocate : forall size a g len, al_inv size a g -> al_room size a len ->
    returns (allocate ops len a) (fun '(off, a') => exists n, len ≤ n /\ 0 ≤ off < size /\ off + n ≤ size /\
      Forall (apart (off, n)) g /\ al_inv size a' ((off, n) :: g));
}.

(** ** The append-only allocator ([append_only.c]) *)
Module AppendOnly.

Record ao_state := mk { latest : Z; dev_size : Z; total_written : Z }.

Definition append_only_allocator_init (size : Z) (_ : ao_state) : res (Z * ao_state) := Ok (1, mk 0 size 0).

(** The check against [dev_size] only prints. *)
Definition append_only_allocate (length : Z) (a : ao_state) : res (Z * ao_state) :=
  Ok (latest a, mk (u64 (latest a + length)) (dev_size a) (u64 (total_written a + length))).

Definition append_only_ops : allocator_ops ao_state := mk_ops ao_state append_only_allocator_init append_only_allocate.

Definition ao_inv (size : Z) (a : ao_state) (g : list region) : Prop :=
  dev_size a = size /\ 0 ≤ latest a ≤ size /\ size ≤ U64_MAX /\ Forall (fun r => r.1 + r.2 ≤ latest a) g.
Definition ao_room (size : Z) (a : ao_state) (len : Z) : Prop := 0 ≤ len /\ latest a < size /\ latest a + len ≤ size.

#[global] Program Instance append_only_laws : AllocatorLaws append_only_ops := {| al_inv := ao_inv; al_max := U64_MAX; al_room := ao_room |}.
Next Obligation. intros size a Hs. cbn. split; [done|]. split; [done|]. cbn. repeat split; try lia. constructor. Qed.
Next Obligation.
  intros size a g len (Hd & Hl & Hs & Hg) (H0 & H1 & H2). cbn. exists len. split; [lia|]. split; [lia|]. split; [lia|].
  assert (u64 (latest a + len) = latest a + len) as E by (apply u64_small; unfold U64_MAX in *; lia). split.
  - eapply Forall_impl; [exact Hg|]. intros r Hr x Hx. unfold inside in *. cbn in *. lia.
  - split; [done|]. cbn. rewrite E. split; [lia|]. split; [done|]. constructor; [cbn; lia|].
    eapply Forall_impl; [exact Hg|]. cbn. lia.
Qed.
End AppendOnly.

(** ** The bitmap allocator ([bitmap.c]) *)
Module Bitmap.

Definition SMALL_LENGTH : Z := 1024.
Definition LARGE_LENGTH : Z := 4096.
(** The bits of [small_bitmap[600000]] and [large_bitmap[300000]]. *)
Definition SMALL_BITS : Z := 600000 * 64.
Definition LARGE_BITS : Z := 300000 * 64.

Record bm_state := mk {
  small_nbits : Z;
  large_nbits : Z;
  small_bitmap : Z -> bool;
  large_bitmap : Z -> bool;
  small_capacity : Z;
  large_capacity : Z;
  small_last_pos : Z;
  large_last_pos : Z;
  dev_size : Z;
  total_written : Z;
}.

(** [bitmap_zero(map, nbits)] clears whole words; [bitmap_set(map, off, 1)]. *)
Definition bitmap_zero (bits : Z) (map : Z -> bool) (nbits : Z) : res (Z -> bool) :=
  let n := 64 * DIV_ROUND_UP nbits 64 in
  if n <=? bits then Ok (fun i => if (0 <=? i) && (i <? n) then false else map i) else Bug OutOfRange.
Definition bitmap_set1 (bits : Z) (map : Z -> bool) (off : Z) : res (Z -> bool) :=
  if (0 <=? off) && (off <? bits) then Ok (fun i => if i =? off then true else map i) else Bug OutOfRange.

Section Ops.
(** [bitmap_find_next_zero_area(map, size, start, 1, 0)] of the kernel. *)
Variable find_zero : (Z -> bool) -> Z -> Z -> Z.

(** The statics [last_pos] and [capacity] are not reset. *)
Definition bitmap_allocator_init (size : Z) (a : bm_state) : res (Z * bm_state) :=
  let sn := size / 2 / SMALL_LENGTH in
  let ln := size / 2 / LARGE_LENGTH in
  sm ← bitmap_zero SMALL_BITS (small_bitmap a) sn;
  lm ← bitmap_zero LARGE_BITS (large_bitmap a) ln;
  Ok (1, mk sn ln sm lm (small_capacity a) (large_capacity a) (small_last_pos a) (large_last_pos a) size (total_written a)).

(** A length beyond [LARGE_LENGTH] is only reported. *)
Definition bitmap_allocate (length : Z) (a : bm_state) : res (Z * bm_state) :=
  let tw := u64 (total_written a + length) in
  if SMALL_LENGTH <? length then
    let off := find_zero (large_bitmap a) (large_nbits a) (large_last_pos a) in
    lm ← bitmap_set1 LARGE_BITS (large_bitmap a) off;
    let pos := if large_nbits a <? off + 1 then 0 else off + 1 in
    Ok (dev_size a / 2 + off * LARGE_LENGTH,
        mk (small_nbits a) (large_nbits a) (small_bitmap a) lm (small_capacity a) (large_capacity a + 1) (small_last_pos a) pos (dev_size a) tw)
  else
    let off := find_zero (small_bitmap a) (small_nbits a) (small_last_pos a) in
    sm ← bitmap_set1 SMALL_BITS (small_bitmap a) off;
    let pos := if small_nbits a <? off + 1 then 0 else off + 1 in
    Ok (off * SMALL_LENGTH,
        mk (small_nbits a) (large_nbits a) sm (large_bitmap a) (small_capacity a + 1) (large_capacity a) pos (large_last_pos a) (dev_size a) tw).

Definition bitmap_ops : allocator_ops bm_state := mk_ops bm_state bitmap_allocator_init bitmap_allocate.

(** What the kernel documents of the search: the first zero bit from [start]
    on, or a position beyond [size]. *)
Record find_zero_spec : Prop := {
  fz_found : forall map size start i, 0 ≤ start ≤ i -> i < size -> map i = false ->
    (forall j, start ≤ j < i -> map j = true) -> find_zero map size start = i;
  fz_none : forall map size start, 0 ≤ start -> (forall j, start ≤ j < size -> map j = true) -> size < find_zero map size start;
}.

Definition granted_ok (a : bm_state) (r : region) : Prop :=
  (exists i, 0 ≤ i < small_nbits a /\ small_bitmap a i = true /\ r = (i * SMALL_LENGTH, SMALL_LENGTH)) \/
  (exists i, 0 ≤ i < large_nbits a /\ large_bitmap a i = true /\ r = (dev_size a / 2 + i * LARGE_LENGTH, LARGE_LENGTH)).

Record bm_inv (size : Z) (a : bm_state) (g : list region) : Prop := {
  bi_size : dev_size a = size;
  bi_small : 0 ≤ small_nbits a ≤ SMALL_BITS /\ small_nbits a = size / 2 / SMALL_LENGTH;
  bi_large : 0 ≤ large_nbits a ≤ LARGE_BITS /\ large_nbits a = size / 2 / LARGE_LENGTH;
  bi_granted : Forall (granted_ok a) g;
}.

(** A zero bit ahead of the last position: the search does not go back. *)
Definition free_ahead (map : Z -> bool) (pos nbits : Z) : Prop :=
  exists i, 0 ≤ pos ≤ i /\ i < nbits /\ map i = false /\ forall j, pos ≤ j < i -> map j = true.
Definition bm_room (size : Z) (a : bm_state) (len : Z) : Prop :=
  if SMALL_LENGTH <? len then len ≤ LARGE_LENGTH /\ free_ahead (large_bitmap a) (large_last_pos a) (large_nbits a)
  else free_ahead (small_bitmap a) (small_last_pos a) (small_nbits a).

Context (Hfz : find_zero_spec).

(** The two static arrays hold the bits of at most 78643200000 bytes. *)
Lemma bits_fit size : 0 ≤ size ≤ 78643200000 ->
  0 ≤ size / 2 / 1024 ≤ 38400000 /\ 64 * ((size / 2 / 1024 + 64 - 1) / 64) ≤ 38400000 /\
  0 ≤ size / 2 / 4096 ≤ 19200000 /\ 64 * ((size / 2 / 4096 + 64 - 1) / 64) ≤ 19200000.
Proof. intros Hs. split_and!; Z.div_mod_to_equations; lia. Qed.

Lemma init_inv size a : 0 ≤ size ≤ 78643200000 -> returns (bitmap_allocator_init size a) (fun '(r, a) => r = 1 /\ bm_inv size a []).
Proof.
  intros Hs. destruct (bits_fit size Hs) as (Hsm & Hsz & Hlm & Hlz). unfold bitmap_allocator_init, bitmap_zero, DIV_ROUND_UP.
  change SMALL_LENGTH with 1024. change LARGE_LENGTH with 4096. change SMALL_BITS with 38400000. change LARGE_BITS with 19200000.
  rewrite (proj2 (Z.leb_le _ _) Hsz). cbn [mbind res_bind].
  rewrite (proj2 (Z.leb_le _ _) Hlz). cbn [mbind res_bind]. split; [done|]. by split.
Qed.

Lemma find_ahead map pos nbits : free_ahead map pos nbits ->
  0 ≤ find_zero map nbits pos < nbits /\ map (find_zero map nbits pos) = false.
Proof. intros (i & Hp & Hn & Hi & Hj). rewrite (fz_found Hfz map nbits pos i) by (done || lia). split; [lia|done]. Qed.

Lemma halves size a g : bm_inv size a g -> 0 ≤ size /\ small_nbits a * SMALL_LENGTH ≤ size / 2 /\
  size / 2 + large_nbits a * LARGE_LENGTH ≤ size.
Proof.
  intros [_ [[Hs _] Es] [_ El] _]. unfold SMALL_LENGTH, LARGE_LENGTH in *. split_and!; Z.div_mod_to_equations; lia.
Qed.

Lemma granted_apart a r off n : granted_ok a r -> small_nbits a * SMALL_LENGTH ≤ dev_size a / 2 ->
  (exists i, n = SMALL_LENGTH /\ off = i * SMALL_LENGTH /\ 0 ≤ i < small_nbits a /\ small_bitmap a i = false) \/
  (exists i, n = LARGE_LENGTH /\ off = dev_size a / 2 + i * LARGE_LENGTH /\ 0 ≤ i < large_nbits a /\ large_bitmap a i = false) ->
  apart (off, n) r.
Proof.
  unfold SMALL_LENGTH, LARGE_LENGTH. intros [(k & Hk & Hb & ->)|(k & Hk & Hb & ->)] Hh [(i & -> & -> & Hi & Hf)|(i & -> & -> & Hi & Hf)] x Hx;
    unfold inside in *; cbn in *; unfold SMALL_LENGTH, LARGE_LENGTH; try lia.
  - assert (k <> i) by congruence. lia.
  - assert (k <> i) by congruence. lia.
Qed.

Lemma alloc_inv size a g len : bm_inv size a g -> bm_room size a len ->
  returns (bitmap_allocate len a) (fun '(off, a') => exists n, len ≤ n /\ 0 ≤ off < size /\ off + n ≤ size /\
    Forall (apart (off, n)) g /\ bm_inv size a' ((off, n) :: g)).
Proof.
  intros Hinv Hroom. pose proof (halves _ _ _ Hinv) as (Hz & Hh1 & Hh2). destruct Hinv as [Hd [Hs Es] [Hl El] Hg].
  unfold bm_room in Hroom. unfold bitmap_allocate, bitmap_set1. destruct (Z.ltb_spec SMALL_LENGTH len) as [Hlen|Hlen].
  - destruct Hroom as [Hmax Hfree]. apply find_ahead in Hfree as [Hr Hf]. set (off := find_zero _ _ _) in *.
    rewrite (proj2 (Z.leb_le 0 off)), (proj2 (Z.ltb_lt off _)) by lia. cbn. exists LARGE_LENGTH.
    split; [done|]. unfold LARGE_LENGTH in *. split; [rewrite Hd; Z.div_mod_to_equations; lia|]. split; [rewrite Hd; lia|]. split.
    + eapply Forall_impl; [exact Hg|]. intros r Hgr. apply (granted_apart a); [done | by rewrite Hd |]. right. by exists off.
    + split; cbn; try done. constructor.
      * right. exists off. cbn. by rewrite Z.eqb_refl.
      * eapply Forall_impl; [exact Hg|]. intros r [(i & Hi & Hb & ->)|(i & Hi & Hb & ->)]; [left; by exists i|].
        right. exists i. cbn. rewrite Hb. by destruct (i =? off).
  - apply find_ahead in Hroom as [Hr Hf]. set (off := find_zero _ _ _) in *.
    rewrite (proj2 (Z.leb_le 0 off)), (proj2 (Z.ltb_lt off _)) by lia. cbn. exists SMALL_LENGTH.
    split; [done|]. unfold SMALL_LENGTH in *. split; [Z.div_mod_to_equations; lia|]. split; [Z.div_mod_to_equations; lia|]. split.
    + eapply Forall_impl; [exact Hg|]. intros r Hgr. apply (granted_apart a); [done | by rewrite Hd |]. left. by exists off.
    + split; cbn; try done. constructor.
      * left. exists off. cbn. by rewrite Z.eqb_refl.
      * eapply Forall_impl; [exact Hg|]. intros r [(i & Hi & Hb & ->)|(i & Hi & Hb & ->)]; [|right; by exists i].
        left. exists i. cbn. rewrite Hb. by destruct (i =? off).
Qed.

#[local] Instance bitmap_laws : AllocatorLaws bitmap_ops.
Proof. exact (Build_AllocatorLaws bm_state bitmap_ops bm_inv 78643200000 bm_room init_inv alloc_inv). Defined.

(** Once the small half is full, a small value is placed beyond the half,
    over the first large ones. *)
Lemma small_half_full size a g len : bm_inv size a g -> 0 ≤ small_last_pos a -> len ≤ SMALL_LENGTH ->
  (forall j, small_last_pos a ≤ j < small_nbits a -> small_bitmap a j = true) ->
  find_zero (small_bitmap a) (small_nbits a) (small_last_pos a) < SMALL_BITS ->
  returns (bitmap_allocate len a) (fun '(off, _) => (small_nbits a + 1) * SMALL_LENGTH ≤ off).
Proof.
  intros [_ [Hs _] _ _] Hp Hlen Hall Hb. pose proof (fz_none Hfz _ _ _ Hp Hall) as Hn. unfold bitmap_allocate, bitmap_set1.
  rewrite (proj2 (Z.ltb_ge _ _)) by done. rewrite (proj2 (Z.leb_le 0 _)), (proj2 (Z.ltb_lt _ SMALL_BITS)) by lia. cbn. unfold SMALL_LENGTH. lia.
Qed.
End Ops.
End Bitmap.
