(* ===== verification/WorkQueue.v ===== *)
(** * The work queue of an I/O worker
    ([src/io.c], [struct nvmev_io_work] and [struct nvmev_io_worker] of
    [src/nvmev.h])

    A worker has a fixed array of [NR_MAX_PARALLEL_IO] slots.  The indices of
    the slots form two chains: the requests in flight, linked in both
    directions and ordered by target time, and the free slots, linked forward
    only.  The dispatcher takes slots from the head of the free chain and
    returns completed ones to its tail; the worker only walks [next].  The
    second half of the file relates the arrays to the two sequences they
    stand for. *)
From stdpp Require Import sorting.
From S2P Require Import Prelude Nvme Ssd.

Definition NR_MAX_PARALLEL_IO : Z := 16384.
(** [-1] as an [unsigned int]: the end of a chain. *)
Definition NIL : Z := u32 (-1).

(** [struct nvmev_io_work]; the time stamps only [PERF_DEBUG] reads are left
    out. *)
Record nvmev_io_work := mk_work {
  iw_sqid : Z;
  iw_cqid : Z;
  iw_sq_entry : Z;
  iw_command_id : Z;
  iw_nsecs_start : Z;
  iw_nsecs_target : Z;
  iw_nsecs_enqueue : Z;
  iw_is_copied : bool;
  iw_is_completed : bool;
  iw_status : Z;
  iw_result0 : Z;
  iw_result1 : Z;
  iw_is_internal : bool;
  iw_write_buffer : buf_ref;
  iw_buffs_to_release : Z;
  iw_next : Z;
  iw_prev : Z;
}.

Definition iw_links (n p : Z) (w : nvmev_io_work) : nvmev_io_work :=
  mk_work (iw_sqid w) (iw_cqid w) (iw_sq_entry w) (iw_command_id w) (iw_nsecs_start w) (iw_nsecs_target w)
    (iw_nsecs_enqueue w) (iw_is_copied w) (iw_is_completed w) (iw_status w) (iw_result0 w) (iw_result1 w)
    (iw_is_internal w) (iw_write_buffer w) (iw_buffs_to_release w) n p.
Definition iw_set_next (n : Z) (w : nvmev_io_work) : nvmev_io_work := iw_links n (iw_prev w) w.
Definition iw_set_prev (p : Z) (w : nvmev_io_work) : nvmev_io_work := iw_links (iw_next w) p w.
Definition iw_flags (copied completed : bool) (w : nvmev_io_work) : nvmev_io_work :=
  mk_work (iw_sqid w) (iw_cqid w) (iw_sq_entry w) (iw_command_id w) (iw_nsecs_start w) (iw_nsecs_target w)
    (iw_nsecs_enqueue w) copied completed (iw_status w) (iw_result0 w) (iw_result1 w)
    (iw_is_internal w) (iw_write_buffer w) (iw_buffs_to_release w) (iw_next w) (iw_prev w).

(** [struct nvmev_io_worker]. *)
Record nvmev_io_worker := mk_worker {
  work_queue : list nvmev_io_work;
  free_seq : Z;
  free_seq_end : Z;
  io_seq : Z;
  io_seq_end : Z;
  latest_nsecs : Z;
  worker_id : Z;
}.

Definition wk_queue (wk : nvmev_io_worker) (q : list nvmev_io_work) : nvmev_io_worker :=
  mk_worker q (free_seq wk) (free_seq_end wk) (io_seq wk) (io_seq_end wk) (latest_nsecs wk) (worker_id wk).
Definition wk_free (wk : nvmev_io_worker) (s e : Z) : nvmev_io_worker :=
  mk_worker (work_queue wk) s e (io_seq wk) (io_seq_end wk) (latest_nsecs wk) (worker_id wk).
Definition wk_io (wk : nvmev_io_worker) (s e : Z) : nvmev_io_worker :=
  mk_worker (work_queue wk) (free_seq wk) (free_seq_end wk) s e (latest_nsecs wk) (worker_id wk).
Definition wk_latest (wk : nvmev_io_worker) (t : Z) : nvmev_io_worker :=
  mk_worker (work_queue wk) (free_seq wk) (free_seq_end wk) (io_seq wk) (io_seq_end wk) t (worker_id wk).

(** ** Insertion *)
(** The loop of [__insert_req_sorted], from the last request backwards. *)
Fixpoint scan_back (fuel : nat) (q : list nvmev_io_work) (latest target curr : Z) : res Z :=
  if curr =? NIL then Ok curr else
  match fuel with
  | O => Bug NoFuel
  | S fuel =>
    w ← aget q curr;
    if iw_nsecs_target w <=? latest then Ok curr
    else if iw_nsecs_target w <=? target then Ok curr
    else scan_back fuel q latest target (iw_prev w)
  end.

Definition __insert_req_sorted (entry : Z) (wk : nvmev_io_worker) (target : Z) : res nvmev_io_worker :=
  if io_seq wk =? NIL then Ok (wk_io wk entry entry)
  else
    let q := work_queue wk in
    curr ← scan_back (length q) q (latest_nsecs wk) target (io_seq_end wk);
    if curr =? NIL then
      q ← aupd q (io_seq wk) (iw_set_prev entry);
      q ← aupd q entry (iw_set_next (io_seq wk));
      Ok (wk_io (wk_queue wk q) entry (io_seq_end wk))
    else
      c ← aget q curr;
      if iw_next c =? NIL then
        q ← aupd q entry (iw_set_prev curr);
        q ← aupd q curr (iw_set_next entry);
        Ok (wk_io (wk_queue wk q) (io_seq wk) entry)
      else
        q ← aupd q entry (iw_set_prev curr);
        c ← aget q curr;
        q ← aupd q entry (iw_set_next (iw_next c));
        e ← aget q entry;
        q ← aupd q (iw_next e) (iw_set_prev entry);
        q ← aupd q curr (iw_set_next entry);
        Ok (wk_queue wk q).

(** The part of [__allocate_work_queue_entry] on the chosen worker: [None] when
    one free slot is left. *)
Definition allocate_entry (wk : nvmev_io_worker) : res (option (nvmev_io_worker * Z)) :=
  let e := free_seq wk in
  w ← aget (work_queue wk) e;
  if NR_MAX_PARALLEL_IO <=? iw_next w then Ok None
  else
    _ ← NVMEV_ASSERT (negb (NR_MAX_PARALLEL_IO <=? iw_next w));
    Ok (Some (wk_free wk (iw_next w) (free_seq_end wk), e)).

(** The slot as [__enqueue_io_req] and [schedule_internal_operation] fill it,
    linked into the chain of the requests in flight. *)
Definition fill_and_insert (wk : nvmev_io_worker) (entry : Z) (f : nvmev_io_work -> nvmev_io_work)
  (target : Z) : res nvmev_io_worker :=
  q ← aupd (work_queue wk) entry f;
  __insert_req_sorted entry (wk_queue wk q) target.

(** The assignments of [__enqueue_io_req] to its slot: [write_buffer] and
    [buffs_to_release] keep what they were. *)
Definition enqueue_work (sqid cqid sq_entry cid nsecs_start now : Z) (ret : nvmev_result)
  (w : nvmev_io_work) : nvmev_io_work :=
  mk_work sqid cqid sq_entry cid nsecs_start (nsecs_target ret) now false false (status ret)
    (Z.land (result ret) 0xFFFFFFFF) (Z.shiftr (result ret) 32) false
    (iw_write_buffer w) (iw_buffs_to_release w) NIL NIL.

(** The assignments of [schedule_internal_operation]. *)
Definition internal_work (sqid now target : Z) (wb : buf_ref) (n : Z) (w : nvmev_io_work) : nvmev_io_work :=
  mk_work sqid (iw_cqid w) (iw_sq_entry w) (iw_command_id w) now target now true false (iw_status w)
    (iw_result0 w) (iw_result1 w) true wb n NIL NIL.

(** ** Reclaiming *)
Definition iw_done (latest : Z) (w : nvmev_io_work) : bool :=
  iw_is_completed w && iw_is_copied w && (iw_nsecs_target w <=? latest).

(** The loop over the completed prefix: the last entry of it, [NIL] if none. *)
Fixpoint reclaim_scan (fuel : nat) (q : list nvmev_io_work) (latest curr last : Z) : res Z :=
  if curr =? NIL then Ok last else
  match fuel with
  | O => Bug NoFuel
  | S fuel =>
    w ← aget q curr;
    if iw_done latest w then reclaim_scan fuel q latest (iw_next w) curr else Ok last
  end.

(** One turn of [__reclaim_completed_reqs]. *)
Definition reclaim_worker (wk : nvmev_io_worker) : res nvmev_io_worker :=
  let q := work_queue wk in
  let first_entry := io_seq wk in
  last_entry ← reclaim_scan (length q) q (latest_nsecs wk) first_entry NIL;
  if last_entry =? NIL then Ok wk
  else
    w ← aget q last_entry;
    let wk := wk_io wk (iw_next w) (io_seq_end wk) in
    q ← (if negb (iw_next w =? NIL) then aupd q (iw_next w) (iw_set_prev NIL) else Ok q);
    q ← aupd q last_entry (iw_set_next NIL);
    q ← aupd q first_entry (iw_set_prev (free_seq_end wk));
    q ← aupd q (free_seq_end wk) (iw_set_next first_entry);
    Ok (wk_free (wk_queue wk q) (free_seq wk) last_entry).

(** ** Initialisation *)
(** A slot of the zeroed array. *)
Definition zero_work : nvmev_io_work :=
  mk_work 0 0 0 0 0 0 0 false false 0 0 0 false NullBuffer 0 0 0.

(** The body of [NVMEV_IO_WORKER_INIT] for one worker. *)
Definition init_worker (id : Z) : res nvmev_io_worker :=
  let q := map (fun i => iw_links (i + 1) (u32 (i - 1)) zero_work) (seqZ 0 NR_MAX_PARALLEL_IO) in
  q ← aupd q (NR_MAX_PARALLEL_IO - 1) (iw_set_next NIL);
  Ok (mk_worker q 0 (NR_MAX_PARALLEL_IO - 1) NIL NIL 0 id).

(** ** Chains

    [path f s l t]: following [f] from [s] visits the indices [l] and arrives
    at [t]. *)
Fixpoint path (f : Z -> Z) (s : Z) (l : list Z) (t : Z) : Prop :=
  match l with
  | [] => s = t
  | a :: l => s = a /\ path f (f a) l t
  end.

Lemma path_app f s l1 l2 t : path f s (l1 ++ l2) t <-> exists m, path f s l1 m /\ path f m l2 t.
Proof.
  revert s. induction l1 as [|a l1 IH]; intros s; cbn.
  - split; [eauto | by intros (m & -> & ?)].
  - rewrite IH. split; [intros (-> & m & ? & ?) | intros (m & (-> & ?) & ?)]; eauto.
Qed.

Lemma path_ext f g s l t : (forall a, a ∈ l -> f a = g a) -> path f s l t -> path g s l t.
Proof.
  revert s. induction l as [|a l IH]; intros s H; cbn; [done|]. intros [-> Hp]. split; [done|].
  rewrite <- H by constructor. apply IH; [|done]. intros b Hb. apply H. by constructor.
Qed.

Lemma path_mid f s l1 a l2 t : path f s (l1 ++ a :: l2) t <-> path f s l1 a /\ path f (f a) l2 t.
Proof.
  rewrite path_app. cbn. split; [by intros (m & ? & -> & ?) | intros [??]; by exists a].
Qed.

Lemma path_snoc f s l a t : path f s (l ++ [a]) t <-> path f s l a /\ f a = t.
Proof. apply path_mid. Qed.

Lemma path_off f g s l t i : i ∉ l -> (forall j, j <> i -> g j = f j) -> path f s l t -> path g s l t.
Proof. intros Hi H. apply path_ext. intros a Ha. symmetry. apply H. by intros ->. Qed.

(** The successor of a member is a member, or the end. *)
Lemma path_next f s l t a : path f s l t -> a ∈ l -> f a ∈ l \/ f a = t.
Proof.
  intros Hp (l1 & l2 & ->)%list_elem_of_split. apply path_mid in Hp as [_ Hp].
  destruct l2 as [|b l2]; cbn in Hp; [by right|]. left. destruct Hp as [-> _]. set_solver.
Qed.

Lemma path_start f s l t : path f s l t -> s ∈ l \/ l = [] /\ s = t.
Proof. destruct l; cbn; [by right | intros [-> _]; left; constructor]. Qed.

(** ** The array as a function on indices *)
Definition wget (q : list nvmev_io_work) (i : Z) : nvmev_io_work :=
  match aget q i with Ok w => w | Bug _ => zero_work end.

Lemma wget_Ok q i : 0 ≤ i < Z.of_nat (length q) -> aget q i = Ok (wget q i).
Proof. intros Hi. unfold wget. by destruct (aget_in_range q i Hi) as [w ->]. Qed.

Lemma returns_aupd {A} (l : list A) i f (Q : list A -> Prop) :
  0 ≤ i < Z.of_nat (length l) ->
  (forall a, aget l i = Ok a -> Q (<[Z.to_nat i := f a]> l)) -> returns (aupd l i f) Q.
Proof.
  intros Hi HQ. unfold aupd. destruct (aget_in_range l i Hi) as [a Ha]. rewrite Ha. cbn.
  apply returns_aset; [done|]. by apply HQ.
Qed.

Lemma wget_insert q i j w : 0 ≤ i < Z.of_nat (length q) ->
  wget (<[Z.to_nat i := w]> q) j = if decide (j = i) then w else wget q j.
Proof.
  intros Hi. unfold wget. rewrite aget_insert by done.
  destruct (decide (i = j)) as [->|]; [by rewrite decide_True|]. by rewrite decide_False.
Qed.

(** An update of a slot, seen through [wget]. *)
Lemma returns_wupd q i f (Q : list nvmev_io_work -> Prop) :
  0 ≤ i < Z.of_nat (length q) ->
  (forall q', length q' = length q ->
     (forall j, wget q' j = if decide (j = i) then f (wget q i) else wget q j) -> Q q') ->
  returns (aupd q i f) Q.
Proof.
  intros Hi HQ. apply returns_aupd; [done|]. intros a Ha. apply HQ; [by rewrite length_insert|].
  intros j. rewrite wget_insert by done. enough (wget q i = a) as -> by done. unfold wget. by rewrite Ha.
Qed.

Definition nx (q : list nvmev_io_work) (i : Z) : Z := iw_next (wget q i).
Definition pv (q : list nvmev_io_work) (i : Z) : Z := iw_prev (wget q i).

(** Everything of a slot but its links. *)
Definition payload (w : nvmev_io_work) : nvmev_io_work := iw_links 0 0 w.
Definition same_payload (q q' : list nvmev_io_work) : Prop := forall i, payload (wget q' i) = payload (wget q i).

Lemma payload_next n w : payload (iw_set_next n w) = payload w.
Proof. by destruct w. Qed.
Lemma payload_prev n w : payload (iw_set_prev n w) = payload w.
Proof. by destruct w. Qed.
Lemma payload_target w w' : payload w = payload w' -> iw_nsecs_target w = iw_nsecs_target w'.
Proof. by destruct w, w'; intros [=]. Qed.
Lemma payload_flags w w' : payload w = payload w' ->
  iw_is_copied w = iw_is_copied w' /\ iw_is_completed w = iw_is_completed w'.
Proof. by destruct w, w'; intros [=]. Qed.

(** ** The two sequences

    [wq_rep wk L F]: the chain of the requests in flight visits [L], forwards
    and backwards; the free chain visits [F]; together they are every slot. *)
Record wq_rep (wk : nvmev_io_worker) (L F : list Z) : Prop := {
  wr_len : Z.of_nat (length (work_queue wk)) = NR_MAX_PARALLEL_IO;
  wr_perm : L ++ F ≡ₚ seqZ 0 NR_MAX_PARALLEL_IO;
  wr_next : path (nx (work_queue wk)) (io_seq wk) L NIL;
  wr_prev : L <> [] -> path (pv (work_queue wk)) (io_seq_end wk) (reverse L) NIL;
  wr_free : path (nx (work_queue wk)) (free_seq wk) F NIL;
  wr_last : last F = Some (free_seq_end wk);
}.

Lemma NIL_eq : NIL = 4294967295.
Proof. reflexivity. Qed.

Lemma wr_range wk L F i : wq_rep wk L F -> i ∈ L ++ F -> 0 ≤ i < NR_MAX_PARALLEL_IO.
Proof. intros H. rewrite (wr_perm _ _ _ H). rewrite elem_of_seqZ. lia. Qed.

Lemma wr_nodup wk L F : wq_rep wk L F -> NoDup (L ++ F).
Proof. intros H. rewrite (wr_perm _ _ _ H). apply NoDup_seqZ. Qed.

Lemma wr_not_nil wk L F i : wq_rep wk L F -> i ∈ L ++ F -> i <> NIL.
Proof. intros H Hi ->. pose proof (wr_range _ _ _ _ H Hi). rewrite NIL_eq in *. unfold NR_MAX_PARALLEL_IO in *. lia. Qed.

Lemma wr_wget wk L F i : wq_rep wk L F -> i ∈ L ++ F -> aget (work_queue wk) i = Ok (wget (work_queue wk) i).
Proof. intros H Hi. apply wget_Ok. rewrite (wr_len _ _ _ H). by eapply wr_range. Qed.

Lemma wr_lengths wk L F : wq_rep wk L F -> (length L + length F)%nat = length (work_queue wk).
Proof.
  intros H. rewrite <- length_app. rewrite (wr_perm _ _ _ H), length_seqZ. pose proof (wr_len _ _ _ H). lia.
Qed.

(** ** Taking a slot *)
Lemma allocate_ok wk L e F : wq_rep wk L (e :: F) ->
  free_seq wk = e /\
  allocate_entry wk = Ok (if decide (F = []) then None else Some (wk_free wk (nx (work_queue wk) e) (free_seq_end wk), e)).
Proof.
  intros H. pose proof (wr_free _ _ _ H) as [He Hf]. split; [done|]. unfold allocate_entry. rewrite He.
  rewrite (wr_wget wk L (e :: F)) by (done || set_solver). cbn. fold (nx (work_queue wk) e).
  destruct F as [|b F]; cbn in Hf |- *.
  - rewrite Hf. done.
  - destruct Hf as [Eb _]. pose proof (wr_range _ _ _ b H ltac:(set_solver)) as Hb.
    rewrite (proj2 (Z.leb_gt _ _)) by lia. done.
Qed.

(** The state while [e] belongs to neither chain. *)
Record wq_open (wk : nvmev_io_worker) (L : list Z) (e : Z) (F : list Z) : Prop := {
  wo_len : Z.of_nat (length (work_queue wk)) = NR_MAX_PARALLEL_IO;
  wo_perm : e :: L ++ F ≡ₚ seqZ 0 NR_MAX_PARALLEL_IO;
  wo_next : path (nx (work_queue wk)) (io_seq wk) L NIL;
  wo_prev : L <> [] -> path (pv (work_queue wk)) (io_seq_end wk) (reverse L) NIL;
  wo_free : path (nx (work_queue wk)) (free_seq wk) F NIL;
  wo_last : last F = Some (free_seq_end wk);
  wo_entry : nx (work_queue wk) e = NIL /\ pv (work_queue wk) e = NIL;
}.

Lemma wo_range wk L e F i : wq_open wk L e F -> i ∈ e :: L ++ F -> 0 ≤ i < Z.of_nat (length (work_queue wk)).
Proof. intros H. rewrite (wo_perm _ _ _ _ H), (wo_len _ _ _ _ H). rewrite elem_of_seqZ. lia. Qed.

Lemma wo_nodup wk L e F : wq_open wk L e F -> NoDup (e :: L ++ F).
Proof. intros H. rewrite (wo_perm _ _ _ _ H). apply NoDup_seqZ. Qed.

Lemma wo_not_nil wk L e F i : wq_open wk L e F -> i ∈ e :: L ++ F -> i <> NIL.
Proof.
  intros H Hi ->. pose proof (wo_range _ _ _ _ _ H Hi) as Hr. rewrite (wo_len _ _ _ _ H), NIL_eq in Hr.
  unfold NR_MAX_PARALLEL_IO in Hr. lia.
Qed.

(** [i] is due after the new request, as the insertion compares them. *)
Definition later (q : list nvmev_io_work) (latest target i : Z) : Prop :=
  latest < iw_nsecs_target (wget q i) /\ target < iw_nsecs_target (wget q i).

(** The insertion point between [L1] and [L2]. *)
Definition insert_point (q : list nvmev_io_work) (latest target : Z) (L1 L2 : list Z) : Prop :=
  Forall (later q latest target) L2 /\ forall a, last L1 = Some a -> ~ later q latest target a.

Lemma scan_back_ok q latest target L curr fuel :
  path (pv q) curr (reverse L) NIL -> Forall (fun i => 0 ≤ i < Z.of_nat (length q) /\ i <> NIL) L -> (length L <= fuel)%nat ->
  returns (scan_back fuel q latest target curr) (fun c => exists L1 L2, L = L1 ++ L2 /\
    insert_point q latest target L1 L2 /\ c = default NIL (last L1)).
Proof.
  revert curr fuel. induction L as [|a L IH] using rev_ind; intros curr fuel Hp Hr Hl.
  { cbn in Hp. subst curr. destruct fuel; exists [], []; (split; [done|]); (split; [by split | done]). }
  rewrite reverse_snoc in Hp. destruct Hp as [-> Hp]. apply Forall_app in Hr as [Hr Ha]. inversion_clear Ha as [|? ? [Hi Hn] _].
  rewrite length_app in Hl. cbn in Hl. destruct fuel as [|fuel]; [lia|]. cbn [scan_back].
  rewrite (proj2 (Z.eqb_neq _ _)) by done. rewrite (wget_Ok q a) by done. cbn [mbind res_bind].
  assert (~ later q latest target a -> returns (Ok a) (fun c => exists L1 L2, L ++ [a] = L1 ++ L2 /\
    insert_point q latest target L1 L2 /\ c = default NIL (last L1))) as Hstop.
  { intros Hla. exists (L ++ [a]), []. rewrite app_nil_r, last_snoc.
    split; [done|]. split; [|done]. split; [constructor|]. rewrite last_snoc. by intros b [= <-]. }
  destruct (_ <=? latest) eqn:E1; bool_prop; [apply Hstop; unfold later; lia|].
  destruct (_ <=? target) eqn:E2; bool_prop; [apply Hstop; unfold later; lia|].
  eapply returns_mono; [apply (IH (pv q a) fuel); [done..|lia]|].
  intros c (L1 & L2 & -> & [Hf Hs] & ->). exists L1, (L2 ++ [a]). rewrite app_assoc.
  split; [done|]. split; [|done]. split; [|done]. apply Forall_app. split; [done|]. repeat constructor; lia.
Qed.

(** What an insertion leaves alone. *)
Record same_work (wk wk' : nvmev_io_worker) : Prop := {
  sw_payload : same_payload (work_queue wk) (work_queue wk');
  sw_latest : latest_nsecs wk' = latest_nsecs wk;
  sw_id : worker_id wk' = worker_id wk;
}.

Ltac wcbn := cbn [work_queue io_seq io_seq_end free_seq free_seq_end wk_io wk_queue wk_free wk_latest].

(** Split the facts that no index occurs twice. *)
Ltac nodup :=
  repeat match goal with
  | H : NoDup (_ :: _) |- _ => apply NoDup_cons in H as [? ?]
  | H : NoDup (_ ++ _) |- _ => apply NoDup_app in H as (? & ? & ?)
  | H : _ ∉ _ :: _ |- _ => apply not_elem_of_cons in H as [? ?]
  | H : _ ∉ _ ++ _ |- _ => apply not_elem_of_app in H as [? ?]
  end.

Lemma insert_head wk b L e F : wq_open wk (b :: L) e F ->
  returns (q ← aupd (work_queue wk) (io_seq wk) (iw_set_prev e);
           q ← aupd q e (iw_set_next (io_seq wk));
           Ok (wk_io (wk_queue wk q) e (io_seq_end wk)))
    (fun wk' => wq_rep wk' (e :: b :: L) F /\ same_work wk wk').
Proof.
  intros H. pose proof (wo_nodup _ _ _ _ H) as Hd. pose proof (wo_next _ _ _ _ H) as [Eb Hn].
  rewrite Eb in *. apply returns_bind, returns_wupd; [apply (wo_range _ _ _ _ _ H); set_solver|]. intros q1 L1 G1.
  apply returns_bind, returns_wupd; [rewrite L1; apply (wo_range _ _ _ _ _ H); set_solver|]. intros q2 L2 G2.
  nodup. assert (b ∉ F) by (eauto using list_elem_of_here).
  destruct (wo_entry _ _ _ _ H) as [En Ep].
  assert (forall i, nx q2 i = if decide (i = e) then b else nx (work_queue wk) i) as Hnx.
  { intros i. unfold nx. rewrite G2. destruct (decide (i = e)) as [->|]; [done|]. rewrite G1.
    destruct (decide (i = b)) as [->|]; done. }
  assert (forall i, pv q2 i = if decide (i = b) then e else pv (work_queue wk) i) as Hpv.
  { intros i. unfold pv. rewrite G2. destruct (decide (i = e)) as [->|]; rewrite G1;
      [by rewrite !decide_False | destruct (decide (i = b)) as [->|]; done]. }
  split; [split; wcbn|].
  - rewrite L2, L1. apply H.
  - apply H.
  - split; [done|]. rewrite Hnx, decide_True by done. split; [done|]. rewrite Hnx, decide_False by done.
    eapply path_ext, Hn. intros a Ha. rewrite Hnx, decide_False by set_solver. done.
  - intros _. pose proof (wo_prev _ _ _ _ H ltac:(done)) as Hp. rewrite reverse_cons in Hp. rewrite !reverse_cons. apply path_snoc in Hp as [Hp _].
    rewrite !path_snoc, !Hpv, decide_True, decide_False by done. repeat split; [|done].
    eapply path_ext, Hp. intros a Ha. rewrite Hpv, decide_False; [done|].
    intros E. subst a. by rewrite elem_of_reverse in Ha.
  - eapply path_ext, H. intros a Ha. rewrite Hnx, decide_False by set_solver. done.
  - apply H.
  - split; [|done..]. intros i. cbn. rewrite G2.
    destruct (decide (i = e)) as [->|]; rewrite ?payload_next, G1;
      [destruct (decide (e = b)) as [->|] | destruct (decide (i = b)) as [->|]]; rewrite ?payload_prev; done.
Qed.

Lemma insert_tail wk L c e F : wq_open wk (L ++ [c]) e F ->
  returns (q ← aupd (work_queue wk) e (iw_set_prev c);
           q ← aupd q c (iw_set_next e);
           Ok (wk_io (wk_queue wk q) (io_seq wk) e))
    (fun wk' => wq_rep wk' (L ++ [c; e]) F /\ same_work wk wk').
Proof.
  intros H. pose proof (wo_nodup _ _ _ _ H) as Hd. pose proof (wo_next _ _ _ _ H) as Hn. apply path_snoc in Hn as [Hn _].
  apply returns_bind, returns_wupd; [apply (wo_range _ _ _ _ _ H); set_solver|]. intros q1 L1 G1.
  apply returns_bind, returns_wupd; [rewrite L1; apply (wo_range _ _ _ _ _ H); set_solver|]. intros q2 L2 G2.
  nodup. destruct (wo_entry _ _ _ _ H) as [En Ep]. assert (c ∉ L) by set_solver. assert (c ∉ F) by set_solver.
  assert (forall i, nx q2 i = if decide (i = c) then e else nx (work_queue wk) i) as Hnx.
  { intros i. unfold nx. rewrite G2, !G1. destruct (decide (i = c)) as [->|]; [done|]. by destruct (decide (i = e)) as [->|]. }
  assert (forall i, pv q2 i = if decide (i = e) then c else pv (work_queue wk) i) as Hpv.
  { intros i. unfold pv. rewrite G2, !G1. destruct (decide (i = c)) as [->|]; [by rewrite !decide_False|].
    by destruct (decide (i = e)) as [->|]. }
  split; [split; wcbn|].
  - rewrite L2, L1. apply H.
  - rewrite <- (wo_perm _ _ _ _ H). solve_Permutation.
  - apply path_mid. split; [|split; [by rewrite Hnx, decide_True|]].
    + eapply (path_off _ _ _ _ _ c), Hn; [done|]. intros j ?. by rewrite Hnx, decide_False.
    + cbn. by rewrite Hnx, decide_False.
  - intros _. rewrite reverse_app. split; [done|]. rewrite Hpv, decide_True by done.
    pose proof (wo_prev _ _ _ _ H ltac:(by destruct L)) as Hp. rewrite reverse_snoc in Hp. change (reverse [c; e]) with [e; c].
    cbn in Hp |- *. destruct Hp as [_ Hp]. split; [done|]. rewrite Hpv, decide_False by done.
    eapply (path_off _ _ _ _ _ e), Hp; [by rewrite elem_of_reverse|]. intros j ?. by rewrite Hpv, decide_False.
  - eapply (path_off _ _ _ _ _ c), H; [done|]. intros j ?. by rewrite Hnx, decide_False.
  - apply H.
  - split; [|done..]. intros i. cbn. rewrite G2, !G1.
    destruct (decide (i = c)) as [->|]; rewrite ?payload_next;
      [destruct (decide (c = e)) as [->|] | destruct (decide (i = e)) as [->|]]; rewrite ?payload_prev; done.
Qed.

Lemma insert_between wk L1 c d L2 e F : wq_open wk (L1 ++ c :: d :: L2) e F ->
  returns (q ← aupd (work_queue wk) e (iw_set_prev c);
           cw ← aget q c;
           q ← aupd q e (iw_set_next (iw_next cw));
           ew ← aget q e;
           q ← aupd q (iw_next ew) (iw_set_prev e);
           q ← aupd q c (iw_set_next e);
           Ok (wk_queue wk q))
    (fun wk' => wq_rep wk' (L1 ++ c :: e :: d :: L2) F /\ same_work wk wk').
Proof.
  intros H. pose proof (wo_nodup _ _ _ _ H) as Hd. pose proof (wo_next _ _ _ _ H) as Hn. apply path_mid in Hn as [Hn [Ed Hn2]].
  pose proof (wo_prev _ _ _ _ H ltac:(by destruct L1)) as Hp.
  apply returns_bind, returns_wupd; [apply (wo_range _ _ _ _ _ H); set_solver|]. intros q1 N1 G1.
  rewrite (wget_Ok q1 c) by (rewrite N1; apply (wo_range _ _ _ _ _ H); set_solver). cbn [mbind res_bind].
  apply returns_bind, returns_wupd; [rewrite N1; apply (wo_range _ _ _ _ _ H); set_solver|]. intros q2 N2 G2.
  nodup. assert ((c ∉ L1) /\ (d ∉ L1) /\ c <> d) as (? & ? & ?) by set_solver.
  assert ((c ∉ F) /\ (d ∉ F)) as [? ?] by set_solver.
  rewrite (wget_Ok q2 e) by (rewrite N2, N1; apply (wo_range _ _ _ _ _ H); set_solver). cbn [mbind res_bind].
  assert (iw_next (wget q2 e) = d) as ->.
  { rewrite G2, decide_True by done. cbn. rewrite G1, decide_False by done. by rewrite <- Ed. }
  apply returns_bind, returns_wupd; [rewrite N2, N1; apply (wo_range _ _ _ _ _ H); set_solver|]. intros q3 N3 G3.
  apply returns_bind, returns_wupd; [rewrite N3, N2, N1; apply (wo_range _ _ _ _ _ H); set_solver|]. intros q4 N4 G4.
  assert (forall i, nx q4 i = if decide (i = c) then e else if decide (i = e) then d else nx (work_queue wk) i) as Hnx.
  { intros i. unfold nx. rewrite G4, !G3, !G2, !G1. by repeat case_decide; subst. }
  assert (forall i, pv q4 i = if decide (i = e) then c else if decide (i = d) then e else pv (work_queue wk) i) as Hpv.
  { intros i. unfold pv. rewrite G4, !G3, !G2, !G1. by repeat case_decide; subst. }
  split; [split; wcbn|].
  - rewrite N4, N3, N2, N1. apply H.
  - rewrite <- (wo_perm _ _ _ _ H). solve_Permutation.
  - apply path_mid. rewrite Hnx, decide_True by done. split.
    + eapply path_ext, Hn. intros a Ha. rewrite Hnx, !decide_False by set_solver. done.
    + split; [done|]. rewrite Hnx, decide_False, decide_True by done. split; [done|].
      eapply path_ext; [|rewrite Hnx, !decide_False by done; exact Hn2].
      intros a Ha. rewrite Hnx, !decide_False by set_solver. done.
  - intros _. rewrite !reverse_app, !reverse_cons, <- !app_assoc in *. cbn in Hp |- *.
    apply path_mid in Hp as [Hp [Ec Hp2]]. apply path_mid. rewrite !Hpv, !(decide_True (P := d = d)), !(decide_False (P := d = e)) by done.
    split; [|split; [done|]].
    + eapply path_ext, Hp. intros a Ha. rewrite elem_of_reverse in Ha. rewrite Hpv, !decide_False by set_solver. done.
    + rewrite Hpv, decide_True by done. split; [done|]. rewrite Hpv, !decide_False by done.
      eapply path_ext, Hp2. intros a Ha. rewrite elem_of_reverse in Ha. rewrite Hpv, !decide_False by set_solver. done.
  - eapply path_ext, H. intros a Ha. rewrite Hnx, !decide_False by set_solver. done.
  - apply H.
  - split; [|done..]. intros i. cbn. rewrite G4, !G3, !G2, !G1.
    repeat (case_decide; subst; rewrite ?payload_next, ?payload_prev); done.
Qed.

(** The insertion links [e] at the insertion point and touches nothing else. *)
Lemma insert_req_ok wk L e F target : wq_open wk L e F ->
  returns (__insert_req_sorted e wk target) (fun wk' => exists L1 L2, L = L1 ++ L2 /\
    insert_point (work_queue wk) (latest_nsecs wk) target L1 L2 /\ wq_rep wk' (L1 ++ e :: L2) F /\ same_work wk wk').
Proof.
  intros H. unfold __insert_req_sorted. pose proof (wo_next _ _ _ _ H) as Hn.
  destruct L as [|b L].
  { cbn in Hn. rewrite Hn, Z.eqb_refl. destruct (wo_entry _ _ _ _ H) as [En Ep]. exists [], []. split; [done|]. split.
    { split; [constructor | done]. }
    split; [|by split]. split; wcbn; try apply H; cbn; by rewrite ?En, ?Ep. }
  set (L0 := b :: L) in *. assert (io_seq wk = b) as Eb by apply Hn.
  rewrite (proj2 (Z.eqb_neq _ _)) by (rewrite Eb; eapply wo_not_nil; [done | set_solver]).
  apply returns_bind. eapply returns_mono; [apply (scan_back_ok _ _ _ L0)|].
  - by apply (wo_prev _ _ _ _ H).
  - apply Forall_forall. intros i Hi. split; [apply (wo_range _ _ _ _ _ H) | apply (wo_not_nil _ _ _ _ _ H)]; set_solver.
  - pose proof (Permutation_length (wo_perm _ _ _ _ H)) as Hl. rewrite length_seqZ, length_cons, length_app in Hl.
    pose proof (wo_len _ _ _ _ H). lia.
  - intros c (L1 & L2 & E & Hip & ->). destruct L1 as [|c L1 _] using rev_ind.
    { cbn in E |- *. subst L2. eapply returns_mono; [by apply insert_head|].
      intros wk' [Hr Hs]. by exists [], L0. }
    rewrite last_snoc. cbn [default from_option id]. rewrite <- app_assoc in E. cbn in E.
    rewrite (proj2 (Z.eqb_neq _ _)) by (eapply wo_not_nil; [done | rewrite E; set_solver]).
    rewrite wget_Ok by (apply (wo_range _ _ _ _ _ H); rewrite E; set_solver). cbn [mbind res_bind].
    change (iw_next (wget (work_queue wk) c)) with (nx (work_queue wk) c).
    rewrite E in H. pose proof (wo_next _ _ _ _ H) as Hn'. apply path_mid in Hn' as [_ Hn'].
    destruct L2 as [|d L2].
    + cbn in Hn'. rewrite Hn', Z.eqb_refl. eapply returns_mono; [by apply insert_tail|].
      intros wk' [Hr Hs]. exists (L1 ++ [c]), []. rewrite app_nil_r, <- app_assoc. by rewrite E.
    + destruct Hn' as [-> _]. rewrite (proj2 (Z.eqb_neq _ _)) by (eapply wo_not_nil; [done | set_solver]).
      eapply returns_mono; [by apply insert_between|]. intros wk' [Hr Hs].
      exists (L1 ++ [c]), (d :: L2). rewrite <- !app_assoc. by rewrite E.
Qed.

(** ** Enqueueing *)
(** A request is written to the first free slot [e] and linked at its place;
    nothing else changes. *)
Record enqueued (wk : nvmev_io_worker) (L : list Z) (e : Z) (F : list Z) (f : nvmev_io_work -> nvmev_io_work)
  (target : Z) (L1 L2 : list Z) (wk' : nvmev_io_worker) : Prop := {
  eq_split : L = L1 ++ L2;
  eq_point : insert_point (work_queue wk) (latest_nsecs wk) target L1 L2;
  eq_rep : wq_rep wk' (L1 ++ e :: L2) F;
  eq_entry : payload (wget (work_queue wk') e) = payload (f (wget (work_queue wk) e));
  eq_other : forall i, i <> e -> payload (wget (work_queue wk') i) = payload (wget (work_queue wk) i);
  eq_latest : latest_nsecs wk' = latest_nsecs wk;
  eq_id : worker_id wk' = worker_id wk;
}.

Lemma enqueue_ok wk L e F f target :
  wq_rep wk L (e :: F) -> F <> [] -> (forall w, iw_next (f w) = NIL /\ iw_prev (f w) = NIL) ->
  returns (fill_and_insert (wk_free wk (nx (work_queue wk) e) (free_seq_end wk)) e f target)
    (fun wk' => exists L1 L2, enqueued wk L e F f target L1 L2 wk').
Proof.
  intros H HF Hf. pose proof (wr_nodup _ _ _ H) as Hd. pose proof (wr_free _ _ _ H) as [He Hfr]. unfold fill_and_insert. wcbn.
  assert (0 ≤ e < Z.of_nat (length (work_queue wk))) as Hir.
  { rewrite (wr_len _ _ _ H). apply (wr_range _ _ _ _ H). set_solver. }
  apply returns_bind, returns_wupd; [done|]. intros q Nq G.
  assert ((e ∉ L) /\ (e ∉ F)) as [HeL HeF] by (nodup; set_solver).
  assert (forall i, i <> e -> wget q i = wget (work_queue wk) i) as Go by (intros i ?; by rewrite G, decide_False).
  assert (wget q e = f (wget (work_queue wk) e)) as Ge by (by rewrite G, decide_True).
  eapply returns_mono; [apply (insert_req_ok _ L e F)|].
  - split; wcbn.
    + rewrite Nq. apply H.
    + rewrite <- (wr_perm _ _ _ H). solve_Permutation.
    + eapply (path_off _ _ _ _ _ e), H; [done|]. intros j Hj. unfold nx. by rewrite Go.
    + intros HL. eapply (path_off _ _ _ _ _ e); [|intros j Hj; unfold pv; by rewrite Go|by apply H].
      by rewrite elem_of_reverse.
    + eapply (path_off _ _ _ _ _ e), Hfr; [done|]. intros j Hj. unfold nx. by rewrite Go.
    + pose proof (wr_last _ _ _ H) as Hl. destruct F; [done|]. exact Hl.
    + unfold nx, pv. rewrite Ge. apply Hf.
  - intros wk' (L1 & L2 & -> & [Hlat Hst] & Hrep & [Hs Ht Hi]). exists L1, L2. cbn in Hs, Ht, Hi.
    split; cbn in *; try done.
    + assert (forall i, i ∈ L1 ++ L2 -> later q (latest_nsecs wk) target i <->
        later (work_queue wk) (latest_nsecs wk) target i) as Hlt.
      { intros i Hi'. unfold later. rewrite Go; [done|]. by intros ->. }
      rewrite Forall_forall in Hlat. split.
      * apply Forall_forall. intros i Hi'. apply Hlt; [set_solver | by apply Hlat].
      * intros a Ha. rewrite <- Hlt; [by apply Hst|]. apply last_Some_elem_of in Ha. set_solver.
    + by rewrite Hs, Ge.
    + intros i ?. by rewrite Hs, Go.
Qed.

(** ** Reclaiming *)
Definition done_at (wk : nvmev_io_worker) (i : Z) : bool := iw_done (latest_nsecs wk) (wget (work_queue wk) i).

(** [P] is the longest prefix of completed requests of [P ++ R]. *)
Definition done_prefix (wk : nvmev_io_worker) (P R : list Z) : Prop :=
  Forall (fun i => done_at wk i = true) P /\ forall r, head R = Some r -> done_at wk r = false.

Lemma reclaim_scan_ok wk L curr last0 fuel :
  path (nx (work_queue wk)) curr L NIL ->
  Forall (fun i => 0 ≤ i < Z.of_nat (length (work_queue wk)) /\ i <> NIL) L -> (length L <= fuel)%nat ->
  returns (reclaim_scan fuel (work_queue wk) (latest_nsecs wk) curr last0) (fun c => exists P R, L = P ++ R /\
    done_prefix wk P R /\ c = default last0 (last P)).
Proof.
  revert curr last0 fuel. induction L as [|a L IH]; intros curr last0 fuel Hp Hr Hl.
  { cbn in Hp. subst curr. destruct fuel; exists [], []; (split; [done|]); (split; [by split | done]). }
  cbn in Hp. destruct Hp as [-> Hp]. inversion_clear Hr as [|? ? [Hi Hn] Hr']. cbn in Hl.
  destruct fuel as [|fuel]; [lia|]. cbn [reclaim_scan].
  rewrite (proj2 (Z.eqb_neq _ _)) by done. rewrite (wget_Ok _ a) by done. cbn [mbind res_bind].
  fold (done_at wk a). destruct (done_at wk a) eqn:Ed.
  - eapply returns_mono; [apply (IH (nx (work_queue wk) a) a fuel); [done..|lia]|].
    intros c (P & R & -> & [Hf Hs] & ->). exists (a :: P), R. split; [done|]. split; [split; [by constructor | done]|].
    destruct P as [|b P]; [done|]. cbn [last default]. destruct (last (b :: P)) eqn:El; [done|].
    by apply last_None in El.
  - exists [], (a :: L). split; [done|]. split; [|done]. split; [constructor | by intros r [= <-]].
Qed.

Lemma reclaim_links wk P R z F fe p : wq_rep wk (P ++ z :: R) (F ++ [fe]) -> head (P ++ [z]) = Some p ->
  returns (q ← (if negb (nx (work_queue wk) z =? NIL) then aupd (work_queue wk) (nx (work_queue wk) z) (iw_set_prev NIL)
                else Ok (work_queue wk));
           q ← aupd q z (iw_set_next NIL);
           q ← aupd q p (iw_set_prev fe);
           q ← aupd q fe (iw_set_next p);
           Ok (wk_free (wk_queue (wk_io wk (nx (work_queue wk) z) (io_seq_end wk)) q) (free_seq wk) z))
    (fun wk' => wq_rep wk' R ((F ++ [fe]) ++ P ++ [z]) /\ same_work wk wk').
Proof.
  intros H Hh. pose proof (wr_nodup _ _ _ H) as Hd. set (q0 := work_queue wk) in *.
  assert (p ∈ P ++ [z]) as Hp by (by apply head_Some_elem_of).
  assert (forall i, i ∈ (P ++ z :: R) ++ F ++ [fe] -> 0 ≤ i < Z.of_nat (length q0)) as Hrg.
  { intros i Hi. unfold q0. rewrite (wr_len _ _ _ H). by apply (wr_range _ _ _ _ H). }
  pose proof (wr_next _ _ _ H) as Hn. fold q0 in Hn. apply path_mid in Hn as [Hn HnR].
  assert (returns (if negb (nx q0 z =? NIL) then aupd q0 (nx q0 z) (iw_set_prev NIL) else Ok q0)
    (fun q1 => length q1 = length q0 /\ forall i, wget q1 i = if decide (head R = Some i) then iw_set_prev NIL (wget q0 i) else wget q0 i))
    as Hq1.
  { destruct R as [|r R]; cbn in HnR.
    - rewrite HnR. cbn. split; [done|]. intros i. by rewrite decide_False.
    - destruct HnR as [-> _]. rewrite (proj2 (Z.eqb_neq _ _)) by (eapply wr_not_nil; [done | set_solver]). cbn [negb].
      apply returns_wupd; [apply Hrg; set_solver|]. intros q1 N1 G1. split; [done|]. intros i. rewrite G1. cbn.
      destruct (decide (i = r)) as [->|]; [by rewrite decide_True | rewrite decide_False; congruence]. }
  apply returns_bind. eapply returns_mono; [exact Hq1|]. intros q1 [N1 G1]. clear Hq1.
  apply returns_bind, returns_wupd; [rewrite N1; apply Hrg; set_solver|]. intros q2 N2 G2.
  apply returns_bind, returns_wupd; [rewrite N2, N1; apply Hrg; set_solver|]. intros q3 N3 G3.
  apply returns_bind, returns_wupd; [rewrite N3, N2, N1; apply Hrg; set_solver|]. intros q4 N4 G4.
  assert ((z ∉ P) /\ (z ∉ R) /\ (z ∉ F) /\ z <> fe) as (HzP & HzR & HzF & Hzf) by (nodup; set_solver).
  assert ((fe ∉ P) /\ (fe ∉ R) /\ (fe ∉ F)) as (HfP & HfR & HfF) by (nodup; set_solver).
  assert (forall r, head R = Some r -> r <> p /\ r ∉ P ++ [z]) as HrP.
  { intros r Hr%head_Some_elem_of. assert (r ∉ P ++ [z]) by (nodup; set_solver). split; [by intros -> | done]. }
  assert (p ∉ R) as HpR by (nodup; set_solver).
  assert (forall i, nx q4 i = if decide (i = fe) then p else if decide (i = z) then NIL else nx q0 i) as Hnx.
  { intros i. unfold nx. rewrite G4, !G3, !G2, !G1. by repeat case_decide; subst. }
  assert (forall i, pv q4 i = if decide (i = p) then fe else if decide (head R = Some i) then NIL else pv q0 i) as Hpv.
  { intros i. unfold pv. rewrite G4, !G3, !G2, !G1. repeat case_decide; subst; try done; exfalso; naive_solver. }
  split; [split; wcbn|].
  - rewrite N4, N3, N2, N1. apply H.
  - rewrite <- (wr_perm _ _ _ H). solve_Permutation.
  - eapply path_ext, HnR. intros a Ha. rewrite Hnx, !decide_False by set_solver. done.
  - intros HR. pose proof (wr_prev _ _ _ H ltac:(by destruct P)) as Hpr. rewrite reverse_app, reverse_cons in Hpr.
    destruct R as [|r R]; [done|]. rewrite reverse_cons, <- !app_assoc in Hpr. cbn in Hpr. apply path_mid in Hpr as [Hpr _].
    rewrite reverse_cons. apply path_snoc. rewrite Hpv, decide_False, decide_True by (done || by apply HrP). split; [|done].
    eapply path_ext, Hpr. intros a Ha. rewrite elem_of_reverse in Ha. rewrite Hpv, !decide_False; [done| |set_solver].
    cbn. intros [= ->]. nodup. done.
  - pose proof (wr_free _ _ _ H) as Hf. fold q0 in Hf. apply path_snoc in Hf as [Hf _]. rewrite <- app_assoc. apply path_mid. split.
    + eapply path_ext, Hf. intros a Ha. rewrite Hnx, !decide_False by set_solver. done.
    + rewrite Hnx, decide_True by done. apply path_snoc. rewrite Hnx, decide_False, decide_True by done. split; [|done].
      assert (p = io_seq wk) as -> by (destruct P; cbn in Hh, Hn; destruct_and?; congruence).
      eapply path_ext, Hn. intros a Ha. rewrite Hnx, !decide_False by set_solver. done.
  - by rewrite app_assoc, last_snoc.
  - split; [|done..]. intros i. cbn. fold q0. rewrite G4, !G3, !G2, !G1.
    repeat (case_decide; subst; rewrite ?payload_next, ?payload_prev); done.
Qed.

(** Reclaiming moves the longest completed prefix to the end of the free
    chain. *)
Lemma reclaim_ok wk L F : wq_rep wk L F ->
  returns (reclaim_worker wk) (fun wk' => exists P R, L = P ++ R /\ done_prefix wk P R /\
    wq_rep wk' R (F ++ P) /\ same_work wk wk').
Proof.
  intros H. unfold reclaim_worker. apply returns_bind.
  eapply returns_mono; [apply (reclaim_scan_ok wk L); [apply H | |]|].
  - apply Forall_forall. intros i Hi. rewrite (wr_len _ _ _ H).
    split; [apply (wr_range _ _ _ _ H) | apply (wr_not_nil _ _ _ _ H)]; set_solver.
  - pose proof (wr_lengths _ _ _ H). lia.
  - intros c (P & R & -> & Hd & ->). destruct P as [|z P _] using rev_ind.
    { cbn. exists [], R. rewrite app_nil_r. split; [done|]. by split. }
    rewrite last_snoc. cbn [default from_option id]. rewrite <- app_assoc in H. cbn in H.
    rewrite (proj2 (Z.eqb_neq _ _)) by (eapply wr_not_nil; [done | set_solver]).
    rewrite (wr_wget wk _ F) by (done || set_solver). cbn [mbind res_bind]. wcbn.
    fold (nx (work_queue wk) z). pose proof (wr_last _ _ _ H) as Hl. apply last_Some in Hl as [F' ->].
    pose proof (wr_next _ _ _ H) as Hn.
    assert (head (P ++ [z]) = Some (io_seq wk)) as Hh by (destruct P; cbn in *; destruct_and?; congruence).
    eapply returns_mono; [by eapply reclaim_links|]. intros wk' [Hr Hs].
    exists (P ++ [z]), R. rewrite app_assoc in Hr |- *. done.
Qed.

(** ** Order

    Requests whose target time is reached are not sorted among themselves; the
    others are, and come after them.  [clip] is the time the order compares. *)
Definition clip (latest t : Z) : Z := Z.max latest t.
Definition due_sorted (wk : nvmev_io_worker) (L : list Z) : Prop :=
  StronglySorted (fun i j => clip (latest_nsecs wk) (iw_nsecs_target (wget (work_queue wk) i)) ≤
                             clip (latest_nsecs wk) (iw_nsecs_target (wget (work_queue wk) j))) L.

Lemma StronglySorted_impl {A} (R S : A -> A -> Prop) l :
  (forall a b, a ∈ l -> b ∈ l -> R a b -> S a b) -> StronglySorted R l -> StronglySorted S l.
Proof.
  induction l as [|a l IH]; intros H; [constructor|]. rewrite !StronglySorted_cons, !Forall_forall.
  intros [Ha Hl]. split; [|apply IH; [|done]; intros; apply H; set_solver].
  intros b Hb. apply H; [set_solver..|]. by apply Ha.
Qed.

Lemma due_sorted_mono wk wk' L :
  (forall i, i ∈ L -> iw_nsecs_target (wget (work_queue wk') i) = iw_nsecs_target (wget (work_queue wk) i)) ->
  latest_nsecs wk ≤ latest_nsecs wk' -> due_sorted wk L -> due_sorted wk' L.
Proof.
  intros Ht Hl. apply StronglySorted_impl. intros a b Ha Hb. rewrite !Ht by done. unfold clip. lia.
Qed.

Lemma same_work_target wk wk' i : same_work wk wk' ->
  iw_nsecs_target (wget (work_queue wk') i) = iw_nsecs_target (wget (work_queue wk) i).
Proof. intros H. apply payload_target, H. Qed.

Lemma enqueued_sorted wk L e F f target L1 L2 wk' :
  enqueued wk L e F f target L1 L2 wk' -> (forall w, iw_nsecs_target (f w) = target) ->
  e ∉ L -> due_sorted wk L -> due_sorted wk' (L1 ++ e :: L2).
Proof.
  intros [-> [Hlat Hst] _ He Ho Ht _] Hf HeL Hs. rewrite Forall_forall in Hlat. unfold due_sorted in *. rewrite Ht.
  apply payload_target in He. rewrite Hf in He.
  assert (forall i, i ∈ L1 ++ L2 -> iw_nsecs_target (wget (work_queue wk') i) = iw_nsecs_target (wget (work_queue wk) i)) as Hi.
  { intros i Hi. apply payload_target, Ho. by intros ->. }
  apply StronglySorted_app in Hs as (Hx & Hs1 & Hs2). apply StronglySorted_app. split; [|split].
  - intros a b Ha [->|Hb]%elem_of_cons.
    + rewrite He, Hi by set_solver. destruct (last L1) as [c|] eqn:El; [|apply last_None in El; subst; set_solver].
      pose proof (Hst c eq_refl) as Hc. apply last_Some in El as [L1' ->]. unfold later in Hc.
      apply StronglySorted_app in Hs1 as (Hx1 & _ & _). apply elem_of_app in Ha as [Ha|Ha%list_elem_of_singleton].
      * specialize (Hx1 a c Ha ltac:(set_solver)). unfold clip in *. lia.
      * subst. unfold clip. lia.
    + rewrite !Hi by set_solver. by apply Hx.
  - eapply StronglySorted_impl, Hs1. intros a b Ha Hb. by rewrite !Hi by set_solver.
  - apply StronglySorted_cons. split.
    + apply Forall_forall. intros b Hb. rewrite He, Hi by set_solver. pose proof (Hlat b Hb) as [? ?]. unfold clip. lia.
    + eapply StronglySorted_impl, Hs2. intros a b Ha Hb. by rewrite !Hi by set_solver.
Qed.

(** ** Initialisation *)
Lemma path_seq f n a : (forall i, a ≤ i < a + Z.of_nat n -> f i = i + 1) -> path f a (seqZ a (Z.of_nat n)) (a + Z.of_nat n).
Proof.
  revert a. induction n as [|n IH]; intros a H; [rewrite seqZ_nil by lia; cbn; lia|]. rewrite seqZ_cons by lia. cbn [path]. split; [done|].
  rewrite H by lia. replace (Z.pred (Z.of_nat (S n))) with (Z.of_nat n) by lia.
  replace (a + Z.of_nat (S n)) with (a + 1 + Z.of_nat n) by lia. replace (Z.succ a) with (a + 1) by lia.
  apply IH. intros i Hi. apply H. lia.
Qed.

Lemma init_slots_ok n : 0 < n ->
  returns (aupd (map (fun i => iw_links (i + 1) (u32 (i - 1)) zero_work) (seqZ 0 n)) (n - 1) (iw_set_next NIL))
    (fun q => Z.of_nat (length q) = n /\ path (nx q) 0 (seqZ 0 n) NIL /\ last (seqZ 0 n) = Some (n - 1) /\
              forall i, iw_is_completed (wget q i) = false).
Proof.
  intros Hn. set (q0 := map _ _).
  assert (length q0 = Z.to_nat n) as N0 by (unfold q0; by rewrite length_map, length_seqZ).
  assert (forall i, 0 ≤ i < n -> wget q0 i = iw_links (i + 1) (u32 (i - 1)) zero_work) as G0.
  { intros i Hi. unfold wget, q0. erewrite (proj2 (aget_Ok _ _ _)); [done|]. split; [lia|].
    rewrite list_lookup_fmap, lookup_seqZ_lt by lia. cbn. do 3 f_equal; lia. }
  apply returns_wupd; [lia|]. intros q1 N1 G1.
  assert (seqZ 0 n = seqZ 0 (n - 1) ++ [n - 1]) as Es.
  { replace n with (n - 1 + 1) at 1 by lia. rewrite seqZ_app by lia. f_equal. }
  split; [lia|]. split; [|split].
  - rewrite Es. apply path_snoc. unfold nx. rewrite G1, decide_True by done. split; [|done].
    pose proof (path_seq (nx q1) (Z.to_nat (n - 1)) 0) as Hp. rewrite Z2Nat.id in Hp by lia.
    apply Hp. intros i Hi. unfold nx. rewrite G1, decide_False by lia. by rewrite G0 by lia.
  - by rewrite Es, last_snoc.
  - intros i. rewrite G1. destruct (decide (0 ≤ i < n)).
    + rewrite !G0 by lia. by destruct (decide _).
    + rewrite decide_False by lia. unfold wget. destruct (aget q0 i) eqn:E; [|done].
      apply aget_range in E. lia.
Qed.

Lemma init_worker_ok id : returns (init_worker id) (fun wk => wq_rep wk [] (seqZ 0 NR_MAX_PARALLEL_IO) /\
  latest_nsecs wk = 0 /\ worker_id wk = id /\ forall i, iw_is_completed (wget (work_queue wk) i) = false).
Proof.
  unfold init_worker. apply returns_bind. eapply returns_mono; [by apply init_slots_ok|].
  intros q (Hl & Hp & Hla & Hc). split; [by split|]. by split_and!.
Qed.
