(* ===== verification/IoWorker.v ===== *)
(** * The I/O path: doorbells, dispatcher and workers
    ([src/io.c], the queue structures of [src/nvmev.h], [nvmev_proc_dbs] of
    [src/main.c])

    The dispatcher fetches commands from a submission queue, lets the namespace
    compute their completion time, and hands them to the I/O worker of the
    queue.  The worker moves the data and, once the target time is reached,
    posts the completion or performs the scheduled release of buffer space.
    What a namespace does is the interface [FtlOps]. *)
From S2P Require Import Prelude Nvme Ssd WorkQueue.

Definition NR_MAX_IO_QUEUE : Z := 72.
(** [PAGE_SIZE / sizeof(struct nvme_command)], [.. / sizeof(struct nvme_completion)]. *)
Definition NR_SQE_PER_PAGE : Z := 4096 / 64.
Definition NR_CQE_PER_PAGE : Z := 4096 / 16.

(** ** Queues *)
Record nvmev_sq_stat := mk_stat {
  nr_dispatched : Z;
  nr_dispatch : Z;
  nr_in_flight : Z;
  max_nr_in_flight : Z;
  total_io : Z;
}.

(** [sq->sq] is an array of pages of commands. *)
Record nvmev_submission_queue := mk_sq {
  sq_qid : Z;
  sq_cqid : Z;
  sq_queue_size : Z;
  sq_stat : nvmev_sq_stat;
  sq_pages : list (list nvme_command);
}.

Definition sq_with_stat (sq : nvmev_submission_queue) (s : nvmev_sq_stat) : nvmev_submission_queue :=
  mk_sq (sq_qid sq) (sq_cqid sq) (sq_queue_size sq) s (sq_pages sq).
Definition sq_with_pages (sq : nvmev_submission_queue) (p : list (list nvme_command)) : nvmev_submission_queue :=
  mk_sq (sq_qid sq) (sq_cqid sq) (sq_queue_size sq) (sq_stat sq) p.

(** [sq_entry(entry_id)], read and written. *)
Definition sq_entry (sq : nvmev_submission_queue) (entry_id : Z) : res nvme_command :=
  p ← aget (sq_pages sq) (entry_id / NR_SQE_PER_PAGE); aget p (entry_id mod NR_SQE_PER_PAGE).
Definition set_sq_entry (sq : nvmev_submission_queue) (entry_id : Z) (c : nvme_command) : res nvmev_submission_queue :=
  p ← amod (sq_pages sq) (entry_id / NR_SQE_PER_PAGE) (fun p => aset p (entry_id mod NR_SQE_PER_PAGE) c);
  Ok (sq_with_pages sq p).

(** [struct nvme_completion]. *)
Record nvme_completion := mk_cqe {
  cqe_result0 : Z;
  cqe_result1 : Z;
  cqe_sq_head : Z;
  cqe_sq_id : Z;
  cqe_command_id : Z;
  cqe_status : Z;
}.

Record nvmev_completion_queue := mk_cq {
  cq_qid : Z;
  cq_irq_vector : Z;
  cq_irq_enabled : bool;
  cq_interrupt_ready : bool;
  cq_queue_size : Z;
  cq_phase : Z;
  cq_head : Z;
  cq_tail : Z;
  cq_pages : list (list nvme_completion);
}.

Definition cq_with_ready (cq : nvmev_completion_queue) (r : bool) : nvmev_completion_queue :=
  mk_cq (cq_qid cq) (cq_irq_vector cq) (cq_irq_enabled cq) r (cq_queue_size cq) (cq_phase cq) (cq_head cq)
    (cq_tail cq) (cq_pages cq).
Definition cq_with_tail (cq : nvmev_completion_queue) (t : Z) : nvmev_completion_queue :=
  mk_cq (cq_qid cq) (cq_irq_vector cq) (cq_irq_enabled cq) (cq_interrupt_ready cq) (cq_queue_size cq) (cq_phase cq)
    (cq_head cq) t (cq_pages cq).

(** [cq_entry(entry_id)]. *)
Definition cq_entry (cq : nvmev_completion_queue) (entry_id : Z) : res nvme_completion :=
  p ← aget (cq_pages cq) (entry_id / NR_CQE_PER_PAGE); aget p (entry_id mod NR_CQE_PER_PAGE).
Definition set_cq_entry (cq : nvmev_completion_queue) (entry_id : Z) (e : nvme_completion) : res (list (list nvme_completion)) :=
  amod (cq_pages cq) (entry_id / NR_CQE_PER_PAGE) (fun p => aset p (entry_id mod NR_CQE_PER_PAGE) e).

(** What [__fill_cq_result] stores for a request, with the phase bit. *)
Definition completion_of (w : nvmev_io_work) (phase : Z) : nvme_completion :=
  mk_cqe (u32 (iw_result0 w)) (u32 (iw_result1 w)) (u16 (iw_sq_entry w)) (u16 (iw_sqid w)) (u16 (iw_command_id w))
    (u16 (Z.lor phase (Z.shiftl (iw_status w) 1))).

(** [__fill_cq_result] on its queue, under [entry_lock]. *)
Definition __fill_cq_result (w : nvmev_io_work) (cq : nvmev_completion_queue) : res nvmev_completion_queue :=
  let head := cq_head cq in
  pages ← set_cq_entry cq head (completion_of w (cq_phase cq));
  let '(head, phase) :=
    if head + 1 =? cq_queue_size cq then (0, if cq_phase cq =? 0 then 1 else 0) else (head + 1, cq_phase cq) in
  Ok (mk_cq (cq_qid cq) (cq_irq_vector cq) (cq_irq_enabled cq) true (cq_queue_size cq) phase head (cq_tail cq) pages).

(** ** The device *)
(** What a namespace (its FTL and its memory) offers to the I/O path. *)
Class FtlOps (F : Type) := {
  (** [ns[nsid].proc_io_cmd]: whether the command is accepted, the command as
      the handler leaves it, its result, and the calls of
      [schedule_internal_operation] it made. *)
  proc_io_cmd : Z -> nvmev_request -> nvmev_result -> F -> res (bool * nvmev_request * nvmev_result * list internal_op * F);
  (** [__do_perform_io] on a command. *)
  perform_io : nvme_command -> F -> res F;
  (** [buffer_release]. *)
  release_buffer : buf_ref -> Z -> F -> res F;
}.

Record io_dev (F : Type) := mk_dev {
  sqes : list (option nvmev_submission_queue);
  cqes : list (option nvmev_completion_queue);
  io_workers : list nvmev_io_worker;
  io_worker_turn : Z;
  nr_sq : Z;
  nr_cq : Z;
  dbs : list Z;
  old_dbs : list Z;
  irqs : list Z;
  dev_tick : nat;
  dev_ftl : F;
}.
Arguments mk_dev {F}.
Arguments sqes {F}.
Arguments cqes {F}.
Arguments io_workers {F}.
Arguments io_worker_turn {F}.
Arguments nr_sq {F}.
Arguments nr_cq {F}.
Arguments dbs {F}.
Arguments old_dbs {F}.
Arguments irqs {F}.
Arguments dev_tick {F}.
Arguments dev_ftl {F}.

Section Updates.
Context {F : Type}.
Implicit Types d : io_dev F.
Definition dev_with_sqes d (q : list (option nvmev_submission_queue)) : io_dev F :=
  mk_dev q (cqes d) (io_workers d) (io_worker_turn d) (nr_sq d) (nr_cq d) (dbs d) (old_dbs d) (irqs d) (dev_tick d) (dev_ftl d).
Definition dev_with_cqes d (q : list (option nvmev_completion_queue)) : io_dev F :=
  mk_dev (sqes d) q (io_workers d) (io_worker_turn d) (nr_sq d) (nr_cq d) (dbs d) (old_dbs d) (irqs d) (dev_tick d) (dev_ftl d).
Definition dev_with_workers d (ws : list nvmev_io_worker) : io_dev F :=
  mk_dev (sqes d) (cqes d) ws (io_worker_turn d) (nr_sq d) (nr_cq d) (dbs d) (old_dbs d) (irqs d) (dev_tick d) (dev_ftl d).
Definition dev_with_turn d (t : Z) : io_dev F :=
  mk_dev (sqes d) (cqes d) (io_workers d) t (nr_sq d) (nr_cq d) (dbs d) (old_dbs d) (irqs d) (dev_tick d) (dev_ftl d).
Definition dev_with_old_dbs d (l : list Z) : io_dev F :=
  mk_dev (sqes d) (cqes d) (io_workers d) (io_worker_turn d) (nr_sq d) (nr_cq d) (dbs d) l (irqs d) (dev_tick d) (dev_ftl d).
Definition dev_with_irqs d (l : list Z) : io_dev F :=
  mk_dev (sqes d) (cqes d) (io_workers d) (io_worker_turn d) (nr_sq d) (nr_cq d) (dbs d) (old_dbs d) l (dev_tick d) (dev_ftl d).
Definition dev_with_ftl d (f : F) : io_dev F :=
  mk_dev (sqes d) (cqes d) (io_workers d) (io_worker_turn d) (nr_sq d) (nr_cq d) (dbs d) (old_dbs d) (irqs d) (dev_tick d) f.
Definition dev_ticked d : io_dev F :=
  mk_dev (sqes d) (cqes d) (io_workers d) (io_worker_turn d) (nr_sq d) (nr_cq d) (dbs d) (old_dbs d) (irqs d) (S (dev_tick d)) (dev_ftl d).
End Updates.

Section Io.
Context {F : Type} `{FtlOps F}.
(** The two clocks: [cpu_clock] of the dispatcher's CPU and [local_clock] of
    the caller's, at the n-th reading. *)
Context (cpu_clock local_clock : nat -> Z).
#[local] Abbreviation M := (prog (io_dev F)).

Definition __get_wallclock : M Z := fun d => Ok (cpu_clock (dev_tick d), dev_ticked d).
Definition get_local_clock : M Z := fun d => Ok (local_clock (dev_tick d), dev_ticked d).

(** Access to the tables of the device. *)
Definition get_worker (turn : Z) : M nvmev_io_worker := fun d => wk ← aget (io_workers d) turn; Ok (wk, d).
Definition set_worker (turn : Z) (wk : nvmev_io_worker) : M unit := fun d =>
  ws ← aset (io_workers d) turn wk; Ok (tt, dev_with_workers d ws).
Definition find_sq (sqid : Z) : M (option nvmev_submission_queue) := fun d => q ← aget (sqes d) sqid; Ok (q, d).
Definition find_cq (cqid : Z) : M (option nvmev_completion_queue) := fun d => q ← aget (cqes d) cqid; Ok (q, d).
Definition get_sq (sqid : Z) : M nvmev_submission_queue := q ← find_sq sqid; lift (deref q).
Definition set_sq (sqid : Z) (sq : nvmev_submission_queue) : M unit := fun d =>
  qs ← aset (sqes d) sqid (Some sq); Ok (tt, dev_with_sqes d qs).
Definition get_cq (cqid : Z) : M nvmev_completion_queue := q ← find_cq cqid; lift (deref q).
Definition set_cq (cqid : Z) (cq : nvmev_completion_queue) : M unit := fun d =>
  qs ← aset (cqes d) cqid (Some cq); Ok (tt, dev_with_cqes d qs).
Definition on_ftl {A} (f : F -> res (A * F)) : M A := fun d =>
  '(a, f) ← f (dev_ftl d); Ok (a, dev_with_ftl d f).

(** ** The dispatcher *)
(** [CONFIG_NVMEV_IO_WORKER_BY_SQ] is defined. *)
Definition __get_io_worker (sqid : Z) : M Z := fun d =>
  turn ← checked_mod (u32 (sqid - 1)) (Z.of_nat (length (io_workers d))); Ok (turn, d).

Definition __allocate_work_queue_entry (sqid : Z) : M (option (Z * Z)) :=
  turn ← __get_io_worker sqid;
  wk ← get_worker turn;
  r ← lift (allocate_entry wk);
  match r with
  | None => mret None
  | Some (wk, e) =>
    _ ← modify (fun d => dev_with_turn d (if turn + 1 =? Z.of_nat (length (io_workers d)) then 0 else turn + 1));
    _ ← set_worker turn wk;
    mret (Some (turn, e))
  end.

Definition __enqueue_io_req (sqid cqid sqe nsecs_start : Z) (ret : nvmev_result) : M unit :=
  sq ← get_sq sqid;
  r ← __allocate_work_queue_entry sqid;
  match r with
  | None => mret tt
  | Some (turn, entry) =>
    c ← lift (sq_entry sq sqe);
    now ← get_local_clock;
    wk ← get_worker turn;
    wk ← lift (fill_and_insert wk entry (enqueue_work sqid cqid sqe (command_id c) nsecs_start now ret) (nsecs_target ret));
    set_worker turn wk
  end.

Definition dev_schedule_internal_operation (op : internal_op) : M unit :=
  r ← __allocate_work_queue_entry (iop_sqid op);
  match r with
  | None => mret tt
  | Some (turn, entry) =>
    now ← get_local_clock;
    wk ← get_worker turn;
    wk ← lift (fill_and_insert wk entry
      (internal_work (iop_sqid op) now (iop_nsecs_target op) (iop_write_buffer op) (iop_buffs_to_release op))
      (iop_nsecs_target op));
    set_worker turn wk
  end.

Definition __reclaim_completed_reqs : M unit := fun d =>
  ws ← for_loop (length (io_workers d)) 0 (fun turn ws => amod ws turn reclaim_worker) (io_workers d);
  Ok (tt, dev_with_workers d ws).

Fixpoint schedule_ops (ops : list internal_op) : M unit :=
  match ops with [] => mret tt | op :: ops => _ ← dev_schedule_internal_operation op; schedule_ops ops end.

Definition __cmd_io_size (c : nvme_command) : Z := u64 (Z.shiftl (rw_length c + 1) 9).

(** [None]: the namespace refused the command for now; else its size. *)
Definition __nvmev_proc_io (sqid sqe : Z) : M (option Z) :=
  sq ← get_sq sqid;
  start ← __get_wallclock;
  c ← lift (sq_entry sq sqe);
  '(ok, req, ret, ops) ← on_ftl (fun f =>
    '(ok, req, ret, ops, f) ← proc_io_cmd (u32 (nsid c - 1)) (mk_req c sqid start) (mk_result NVME_SC_SUCCESS start 0) f;
    Ok (ok, req, ret, ops, f));
  _ ← schedule_ops ops;
  sq ← lift (set_sq_entry sq sqe (cmd req));
  _ ← set_sq sqid sq;
  if (ok : bool) then
    _ ← __enqueue_io_req sqid (sq_cqid sq) sqe start ret;
    _ ← __reclaim_completed_reqs;
    mret (Some (__cmd_io_size (cmd req)))
  else mret None.

(** The loop of [nvmev_proc_io_sq]: the number of commands processed. *)
Fixpoint proc_sq_loop (n : nat) (sqid sqe seq : Z) : M Z :=
  match n with
  | O => mret seq
  | S n =>
    r ← __nvmev_proc_io sqid sqe;
    match r with
    | None => mret seq
    | Some io_size =>
      sq ← get_sq sqid;
      let sqe := if sqe + 1 =? sq_queue_size sq then 0 else sqe + 1 in
      let s := sq_stat sq in
      _ ← set_sq sqid (sq_with_stat sq (mk_stat (u32 (nr_dispatched s + 1)) (nr_dispatch s) (u32 (nr_in_flight s + 1))
                                          (max_nr_in_flight s) (u64 (total_io s + io_size))));
      proc_sq_loop n sqid sqe (seq + 1)
    end
  end.

Definition nvmev_proc_io_sq (sqid new_db old_db : Z) : M Z :=
  q ← find_sq sqid;
  match q with
  | None => mret old_db
  | Some sq =>
    let num_proc := if new_db - old_db <? 0 then new_db - old_db + sq_queue_size sq else new_db - old_db in
    seq ← proc_sq_loop (Z.to_nat num_proc) sqid old_db 0;
    sq ← get_sq sqid;
    let s := sq_stat sq in
    _ ← set_sq sqid (sq_with_stat sq (mk_stat (nr_dispatched s) (u32 (nr_dispatch s + 1)) (nr_in_flight s)
          (u32 (Z.max (i32 (max_nr_in_flight s)) (i32 (nr_in_flight s)))) (total_io s)));
    lift (checked_mod (old_db + seq) (sq_queue_size sq))
  end.

(** The loop of [nvmev_proc_io_cq]; it ends when [i] meets [new_db]. *)
Fixpoint proc_cq_loop (fuel : nat) (cq : nvmev_completion_queue) (new_db i : Z) : M unit :=
  if i =? new_db then mret tt else
  match fuel with
  | O => lift (Bug NoFuel)
  | S fuel =>
    if cq_queue_size cq <=? i then proc_cq_loop fuel cq new_db 0
    else
      e ← lift (cq_entry cq i);
      q ← find_sq (cqe_sq_id e);
      match q with
      | None => proc_cq_loop fuel cq new_db (i + 1)
      | Some sq =>
        let s := sq_stat sq in
        _ ← set_sq (cqe_sq_id e) (sq_with_stat sq (mk_stat (nr_dispatched s) (nr_dispatch s)
              (u32 (nr_in_flight s - 1)) (max_nr_in_flight s) (total_io s)));
        proc_cq_loop fuel cq new_db (i + 1)
      end
  end.

Definition nvmev_proc_io_cq (cqid new_db old_db : Z) : M unit :=
  cq ← get_cq cqid;
  _ ← proc_cq_loop (Z.to_nat (cq_queue_size cq + 1)) cq new_db old_db;
  set_cq cqid (cq_with_tail cq (if new_db =? -1 then cq_queue_size cq - 1 else new_db - 1)).

(** The I/O queues of [nvmev_proc_dbs]: every submission queue whose doorbell
    moved, then every completion queue. *)
Definition read_dbs (idx : Z) : M (Z * Z) := fun d =>
  new_db ← aget (dbs d) idx; old_db ← aget (old_dbs d) idx; Ok ((i32 new_db, i32 old_db), d).
Definition write_old_db (idx db : Z) : M unit := fun d =>
  l ← aset (old_dbs d) idx (u32 db); Ok (tt, dev_with_old_dbs d l).

Definition proc_sq_db (qid : Z) (updated : bool) : M bool :=
  q ← find_sq qid;
  match q with
  | None => mret updated
  | Some _ =>
    '(new_db, old_db) ← read_dbs (qid * 2);
    if new_db =? old_db then mret updated
    else
      db ← nvmev_proc_io_sq qid new_db old_db;
      _ ← write_old_db (qid * 2) db;
      mret true
  end.

Definition proc_cq_db (qid : Z) (updated : bool) : M bool :=
  q ← find_cq qid;
  match q with
  | None => mret updated
  | Some _ =>
    '(new_db, old_db) ← read_dbs (qid * 2 + 1);
    if new_db =? old_db then mret updated
    else
      _ ← nvmev_proc_io_cq qid new_db old_db;
      _ ← write_old_db (qid * 2 + 1) new_db;
      mret true
  end.

Definition nvmev_proc_dbs : M bool :=
  n ← gets nr_sq;
  updated ← for_loop (Z.to_nat n) 1 proc_sq_db false;
  n ← gets nr_cq;
  for_loop (Z.to_nat n) 1 proc_cq_db updated.

(** ** The worker *)
(** The copy of a request's data, unless it is internal or already done. *)
Definition copy_entry (w : nvmev_io_work) : M nvmev_io_work :=
  if iw_is_copied w then mret w
  else if iw_is_internal w then mret (iw_flags true (iw_is_completed w) w)
  else
    sq ← get_sq (iw_sqid w);
    c ← lift (sq_entry sq (iw_sq_entry w));
    _ ← on_ftl (fun f => f ← perform_io c f; Ok (tt, f));
    mret (iw_flags true (iw_is_completed w) w).

(** The release or the completion of a request whose time has come. *)
Definition finish_entry (w : nvmev_io_work) : M unit :=
  if iw_is_internal w then
    on_ftl (fun f => f ← release_buffer (iw_write_buffer w) (iw_buffs_to_release w) f; Ok (tt, f))
  else
    cq ← get_cq (iw_cqid w);
    cq ← lift (__fill_cq_result w cq);
    set_cq (iw_cqid w) cq.

(** One turn of the inner loop of [nvmev_io_worker] at slot [curr], up to the
    assignment of [curr]. *)
Definition visit_entry (turn curr delta : Z) : M unit :=
  wk ← get_worker turn;
  w ← lift (aget (work_queue wk) curr);
  now ← get_local_clock;
  let curr_nsecs := u64 (now + delta) in
  let wk := wk_latest wk curr_nsecs in
  if iw_is_completed w then set_worker turn wk
  else
    w ← copy_entry w;
    if iw_nsecs_target w <=? curr_nsecs then
      _ ← finish_entry w;
      q ← lift (aset (work_queue wk) curr (iw_flags true true w));
      set_worker turn (wk_queue wk q)
    else
      q ← lift (aset (work_queue wk) curr w);
      set_worker turn (wk_queue wk q).

(** [curr = w->next]. *)
Definition next_entry (turn curr : Z) : M Z :=
  wk ← get_worker turn; w ← lift (aget (work_queue wk) curr); mret (iw_next w).

Fixpoint worker_loop (fuel : nat) (turn curr delta : Z) : M unit :=
  if curr =? NIL then mret tt else
  match fuel with
  | O => lift (Bug NoFuel)
  | S fuel =>
    _ ← visit_entry turn curr delta;
    curr ← next_entry turn curr;
    worker_loop fuel turn curr delta
  end.

(** The completion queues a worker signals: those [__get_io_worker] gives it. *)
Definition signal_cq (id qidx : Z) (u : unit) : M unit :=
  turn ← __get_io_worker qidx;
  if negb (id =? turn) then mret tt
  else
    q ← find_cq qidx;
    match q with
    | None => mret tt
    | Some cq =>
      if negb (cq_irq_enabled cq) then mret tt
      else if cq_interrupt_ready cq then
        _ ← set_cq qidx (cq_with_ready cq false);
        modify (fun d => dev_with_irqs d (irqs d ++ [cq_irq_vector cq]))
      else mret tt
    end.

(** One turn of the outer loop of [nvmev_io_worker]. *)
Definition worker_pass (turn : Z) : M unit :=
  wall ← __get_wallclock;
  loc ← get_local_clock;
  wk ← get_worker turn;
  _ ← worker_loop (length (work_queue wk)) turn (io_seq wk) (wall - loc);
  n ← gets nr_cq;
  for_loop (Z.to_nat n) 1 (signal_cq (worker_id wk)) tt.
End Io.
