(* ===== verification/IoRing.v ===== *)
(** * The completion ring and the host's side of it

    A completion queue is a ring of slots that the device writes and the host
    polls; both keep their own position, and the phase bit of an entry tells
    the host whether the slot holds a new completion.  [cq_ok] relates the
    queue to the log of everything posted to it. *)
From S2P Require Import Prelude Nvme Ssd WorkQueue IoWorker.

(** The phase the [k]-th completion of a queue of [n] slots is posted with. *)
Definition phase_of (n : Z) (k : nat) : Z := if Z.even (Z.of_nat k / n) then 1 else 0.
Definition slot_at (n : Z) (k : nat) : Z := Z.of_nat k mod n.

(** The bit of the status word the host compares with its own phase. *)
Definition phase_bit (e : nvme_completion) : Z := Z.land (cqe_status e) 1.

Record cq_ok (cq : nvmev_completion_queue) (log : list nvmev_io_work) : Prop := {
  co_size : 0 < cq_queue_size cq;
  co_slots : forall j, 0 ≤ j < cq_queue_size cq -> exists e, cq_entry cq j = Ok e;
  co_head : cq_head cq = slot_at (cq_queue_size cq) (length log);
  co_phase : cq_phase cq = phase_of (cq_queue_size cq) (length log);
  co_log : forall k w, log !! k = Some w -> Z.of_nat (length log) ≤ Z.of_nat k + cq_queue_size cq ->
    cq_entry cq (slot_at (cq_queue_size cq) k) = Ok (completion_of w (phase_of (cq_queue_size cq) k));
  co_fresh : forall j, Z.of_nat (length log) ≤ j < cq_queue_size cq -> exists e, cq_entry cq j = Ok e /\ phase_bit e = 0;
}.

Lemma phase_bit_completion w n k : phase_bit (completion_of w (phase_of n k)) = phase_of n k.
Proof.
  unfold phase_bit, completion_of. cbn [cqe_status]. set (p := phase_of n k).
  assert (p = 0 \/ p = 1) as Hp by (unfold p, phase_of; destruct (Z.even _); auto).
  unfold u16. change 65536 with (2 ^ 16). rewrite <- Z.land_ones by lia.
  rewrite <- Z.land_assoc. change (Z.land (Z.ones 16) 1) with 1.
  rewrite Z.land_lor_distr_l. replace (Z.land (Z.shiftl (iw_status w) 1) 1) with 0.
  { rewrite Z.lor_0_r. by destruct Hp as [-> | ->]. }
  symmetry. apply Z.bits_inj_0. intros i. rewrite Z.land_spec.
  destruct (Z.eq_dec i 0) as [->|]; [by rewrite Z.shiftl_spec_low|].
  destruct (Z.lt_ge_cases i 0); [by rewrite !Z.testbit_neg_r|].
  replace (Z.testbit 1 i) with false; [apply andb_false_r|]. symmetry.
  change 1 with (2 ^ 0). apply Z.pow2_bits_false. lia.
Qed.

Lemma slot_range n k : 0 < n -> 0 ≤ slot_at n k < n.
Proof. intros. apply Z.mod_pos_bound. lia. Qed.

(** One step of the position: the next slot and its phase. *)
Lemma slot_succ n k : 0 < n ->
  slot_at n (S k) = (if slot_at n k + 1 =? n then 0 else slot_at n k + 1) /\
  phase_of n (S k) = if slot_at n k + 1 =? n then (if phase_of n k =? 0 then 1 else 0) else phase_of n k.
Proof.
  intros Hn. unfold slot_at, phase_of. rewrite Nat2Z.inj_succ. set (z := Z.of_nat k).
  pose proof (Z.div_mod z n ltac:(lia)) as E. pose proof (Z.mod_pos_bound z n Hn).
  destruct (Z.eqb_spec (z mod n + 1) n) as [En|En].
  - assert (Z.succ z = (z / n + 1) * n) as -> by lia. rewrite Z.mod_mul, Z.div_mul by lia. split; [done|].
    rewrite Z.add_1_r, Z.even_succ, <- Z.negb_even. by destruct (Z.even _).
  - assert (Z.succ z = (z mod n + 1) + (z / n) * n) as -> by lia.
    rewrite Z.mod_add, Z.div_add, Z.mod_small, Z.div_small by lia. done.
Qed.

(** Distinct positions less than a turn apart use distinct slots. *)
Lemma slot_distinct n k l : 0 < n -> (k < l)%nat -> Z.of_nat l < Z.of_nat k + n -> slot_at n k <> slot_at n l.
Proof.
  intros Hn Hkl Hl E. unfold slot_at in E.
  pose proof (Z.div_mod (Z.of_nat k) n ltac:(lia)). pose proof (Z.div_mod (Z.of_nat l) n ltac:(lia)).
  remember (Z.of_nat l / n - Z.of_nat k / n) as q eqn:Eq.
  assert (Z.of_nat l - Z.of_nat k = n * q) by (subst q; lia). destruct (Z.le_gt_cases q 0); nia.
Qed.

(** *** Entries *)
Definition cq_put (cq : nvmev_completion_queue) (p : list (list nvme_completion)) : nvmev_completion_queue :=
  mk_cq (cq_qid cq) (cq_irq_vector cq) (cq_irq_enabled cq) (cq_interrupt_ready cq) (cq_queue_size cq) (cq_phase cq)
    (cq_head cq) (cq_tail cq) p.

Lemma set_cq_entry_ok cq i e0 e : cq_entry cq i = Ok e0 ->
  returns (set_cq_entry cq i e) (fun p => forall j, 0 ≤ j ->
    cq_entry (cq_put cq p) j = if decide (j = i) then Ok e else cq_entry cq j).
Proof.
  unfold cq_entry, set_cq_entry. intros Hi. apply bind_Ok in Hi as (p & Hp & He).
  pose proof (aget_range _ _ _ Hp). pose proof (aget_range _ _ _ He).
  unfold amod. rewrite Hp. cbn [mbind res_bind]. rewrite aset_in_range by done. cbn [mbind res_bind].
  apply returns_aset; [done|]. intros j Hj. cbn [cq_pages cq_put].
  rewrite aget_insert by done. destruct (decide (i / NR_CQE_PER_PAGE = j / NR_CQE_PER_PAGE)) as [Ed|Ed].
  - cbn [mbind res_bind]. rewrite aget_insert by done. rewrite <- Ed, Hp. cbn [mbind res_bind].
    destruct (decide (i mod NR_CQE_PER_PAGE = j mod NR_CQE_PER_PAGE)) as [Em|Em].
    + rewrite decide_True; [done|]. rewrite (Z.div_mod j NR_CQE_PER_PAGE), (Z.div_mod i NR_CQE_PER_PAGE) by done. congruence.
    + rewrite decide_False by congruence. done.
  - rewrite decide_False by congruence. done.
Qed.

(** Posting a completion appends it to the log. *)
Lemma fill_cq_ok cq log w : cq_ok cq log ->
  returns (__fill_cq_result w cq) (fun cq' => cq_ok cq' (log ++ [w]) /\ cq_queue_size cq' = cq_queue_size cq /\
    cq_interrupt_ready cq' = true).
Proof.
  intros [Hn Hs Hh Hp Hl Hf]. set (n := cq_queue_size cq) in *. unfold __fill_cq_result. fold n.
  destruct (slot_succ n (length log) Hn) as [Es Ep]. pose proof (slot_range n (length log) Hn) as Hr.
  destruct (Hs (cq_head cq)) as [e0 He0]; [rewrite Hh; lia|].
  apply returns_bind. eapply returns_mono; [by eapply set_cq_entry_ok|]. intros pages Hg.
  assert (forall h ph j, 0 ≤ j -> cq_entry (mk_cq (cq_qid cq) (cq_irq_vector cq) (cq_irq_enabled cq) true n ph h (cq_tail cq) pages) j
    = if decide (j = cq_head cq) then Ok (completion_of w (cq_phase cq)) else cq_entry cq j) as He by (intros h ph; exact Hg).
  clear Hg.
  assert (forall h ph, h = slot_at n (S (length log)) -> ph = phase_of n (S (length log)) ->
    cq_ok (mk_cq (cq_qid cq) (cq_irq_vector cq) (cq_irq_enabled cq) true n ph h (cq_tail cq) pages) (log ++ [w])) as Hok.
  { intros h ph Eh Eph.
    split; cbn [cq_queue_size cq_head cq_phase]; rewrite ?length_app, ?Nat.add_1_r; try done.
    - intros j Hj. rewrite He by lia. destruct (decide _); [by eexists | by apply Hs].
    - intros k v Hk Hlt. rewrite He by (apply slot_range; done). rewrite Hh.
      apply lookup_snoc_Some in Hk as [[Hk Hv]|[-> <-]].
      + rewrite decide_False by (apply slot_distinct; lia). apply Hl; [done | lia].
      + rewrite decide_True by done. by rewrite Hp.
    - intros j Hj. rewrite He, decide_False; [apply Hf; lia | | lia]. rewrite Hh. unfold slot_at.
      rewrite Z.mod_small by lia. lia. }
  rewrite Hh, Hp. fold n. destruct (slot_at n (length log) + 1 =? n); cbn [returns]; (split; [|done]); apply Hok; done.
Qed.
