(* ===== verification/IoInv.v ===== *)
(** * The invariant of the I/O path

    The dispatcher and the workers share the work queues without a lock.  The
    run of the system is a step relation whose steps are the operations of
    [IoWorker] in any interleaving: the dispatcher enqueues, schedules and
    reclaims while each worker is at some slot of its chain ([curr]).  Two
    ghost logs record the requests that got a slot and what the workers
    finished. *)
From stdpp Require Import sorting.
From S2P Require Import Prelude Nvme Ssd WorkQueue IoWorker IoRing.

(** ** The requests of one worker *)
Fixpoint chain (fuel : nat) (q : list nvmev_io_work) (s : Z) : list Z :=
  if s =? NIL then [] else
  match fuel with O => [] | S fuel => s :: chain fuel q (nx q s) end.

Definition in_flight (wk : nvmev_io_worker) : list Z :=
  chain (length (work_queue wk)) (work_queue wk) (io_seq wk).

(** A request without its links and progress flags. *)
Definition core (w : nvmev_io_work) : nvmev_io_work := iw_flags false false (payload w).

Definition unfinished (w : nvmev_io_work) : option nvmev_io_work :=
  if iw_is_completed w then None else Some (core w).

(** The requests a worker has yet to finish. *)
Definition pending (wk : nvmev_io_worker) : list nvmev_io_work :=
  omap (fun i => unfinished (wget (work_queue wk) i)) (in_flight wk).

Lemma chain_path q s l fuel : path (nx q) s l NIL -> Forall (fun i => i <> NIL) l -> (length l <= fuel)%nat ->
  chain fuel q s = l.
Proof.
  revert s fuel. induction l as [|a l IH]; intros s fuel Hp Hn Hl.
  { cbn in Hp. subst s. by destruct fuel. }
  cbn in Hp, Hl. destruct Hp as [-> Hp]. apply Forall_cons in Hn as [Hn1 Hn]. destruct fuel as [|fuel]; [lia|]. cbn [chain].
  rewrite (proj2 (Z.eqb_neq _ _)) by done. f_equal. apply IH; [done..|lia].
Qed.

Lemma in_flight_eq wk L F : wq_rep wk L F -> in_flight wk = L.
Proof.
  intros H. apply chain_path; [apply H | |].
  - apply Forall_forall. intros i Hi. eapply wr_not_nil; [done | set_solver].
  - pose proof (wr_lengths _ _ _ H). lia.
Qed.

Lemma payload_core w w' : payload w = payload w' -> core w = core w'.
Proof. unfold core. by intros ->. Qed.

Lemma payload_unfinished w w' : payload w = payload w' -> unfinished w = unfinished w'.
Proof. intros E. unfold unfinished. rewrite (payload_core _ _ E). by destruct (payload_flags _ _ E) as [_ ->]. Qed.

Lemma core_flags c d w : core (iw_flags c d w) = core w.
Proof. by destruct w. Qed.

Lemma omap_same {A B} (f g : A -> option B) (l : list A) : (forall a, a ∈ l -> f a = g a) -> omap f l = omap g l.
Proof.
  induction l as [|a l IH]; intros H; [done|]. cbn. rewrite (H a) by constructor.
  rewrite IH; [done|]. intros b Hb. apply H. by constructor.
Qed.

Lemma omap_none {A B} (f : A -> option B) (l : list A) : (forall a, a ∈ l -> f a = None) -> omap f l = [].
Proof.
  induction l as [|a l IH]; intros H; [done|]. cbn. rewrite (H a) by constructor.
  apply IH. intros b Hb. apply H. by constructor.
Qed.

(** The slots of a worker and the slot its thread is at: in flight, or on the
    free chain among the slots that were used before.  The slots never used
    are at the head of the free chain. *)
Record wk_at (wk : nvmev_io_worker) (pc : Z) (L Fr Rc : list Z) : Prop := {
  wa_rep : wq_rep wk L (Fr ++ Rc);
  wa_used : forall i, i ∈ Rc -> iw_is_completed (wget (work_queue wk) i) = true;
  wa_pc : pc = NIL \/ pc ∈ L ++ Rc;
}.
Definition wk_ok (wk : nvmev_io_worker) (pc : Z) : Prop := exists L Fr Rc, wk_at wk pc L Fr Rc.

Lemma pending_eq wk L F : wq_rep wk L F ->
  pending wk = omap (fun i => unfinished (wget (work_queue wk) i)) L.
Proof. intros H. unfold pending. by rewrite (in_flight_eq _ _ _ H). Qed.

(** *** Enqueueing adds one unfinished request *)
Lemma enqueue_pending wk pc L e Fr Rc F f target L1 L2 wk' :
  wk_at wk pc L Fr Rc -> Fr ++ Rc = e :: F -> enqueued wk L e F f target L1 L2 wk' ->
  (forall w, iw_is_completed (f w) = false) ->
  wk_ok wk' pc /\ pending wk' ≡ₚ core (f (wget (work_queue wk) e)) :: pending wk.
Proof.
  intros [Hr Hu Hpc] EF [-> _ Hr' He Ho _ _] Hf. pose proof (wr_nodup _ _ _ Hr) as Hd. rewrite EF in Hr, Hd.
  assert (forall i, i ∈ (L1 ++ L2) ++ F -> payload (wget (work_queue wk') i) = payload (wget (work_queue wk) i)) as Hs.
  { intros i Hi. apply Ho. intros ->. nodup. set_solver. }
  split.
  - destruct Fr as [|e' Fr]; cbn in EF.
    + exists (L1 ++ e :: L2), [], F. split; [done | |].
      * intros i Hi. rewrite (proj2 (payload_flags _ _ (Hs i ltac:(set_solver)))). apply Hu. subst. by constructor.
      * destruct Hpc as [|Hp]; [by left|]. right. subst Rc. set_solver.
    + injection EF as -> <-. exists (L1 ++ e :: L2), Fr, Rc. split; [done | |].
      * intros i Hi. rewrite (proj2 (payload_flags _ _ (Hs i ltac:(set_solver)))). by apply Hu.
      * destruct Hpc as [|Hp]; [by left|]. right. set_solver.
  - rewrite (pending_eq _ _ _ Hr), (pending_eq _ _ _ Hr'), !omap_app. cbn.
    assert (unfinished (wget (work_queue wk') e) = Some (core (f (wget (work_queue wk) e)))) as ->.
    { unfold unfinished. destruct (payload_flags _ _ He) as [_ ->]. rewrite Hf. by rewrite (payload_core _ _ He). }
    rewrite <- Permutation_middle. apply Permutation_skip. apply reflexive_eq. f_equal; apply omap_same;
      intros i Hi; apply payload_unfinished, Hs; set_solver.
Qed.

(** *** Reclaiming keeps the unfinished requests *)
Lemma reclaim_pending wk pc : wk_ok wk pc ->
  returns (reclaim_worker wk) (fun wk' => wk_ok wk' pc /\ pending wk' = pending wk).
Proof.
  intros (L & Fr & Rc & [Hr Hu Hpc]). eapply returns_mono; [by apply reclaim_ok|].
  intros wk' (P & R & -> & [Hd _] & Hr' & Hs). rewrite Forall_forall in Hd.
  assert (forall i, i ∈ P -> iw_is_completed (wget (work_queue wk) i) = true) as HP.
  { intros i Hi. pose proof (Hd i Hi) as H. unfold done_at, iw_done in H. by bool_prop. }
  rewrite <- app_assoc in Hr'. split.
  - exists R, Fr, (Rc ++ P). split; [done | |].
    + intros i Hi. rewrite (proj2 (payload_flags _ _ (sw_payload _ _ Hs i))). apply elem_of_app in Hi as [?|?]; auto.
    + destruct Hpc as [|Hp]; [by left|]. right. set_solver.
  - rewrite (pending_eq _ _ _ Hr), (pending_eq _ _ _ Hr'), omap_app.
    rewrite (omap_none _ P) by (intros i Hi; unfold unfinished; by rewrite HP).
    apply omap_same. intros i Hi. apply payload_unfinished, Hs.
Qed.

(** *** A visit *)
(** Storing a slot with other progress flags keeps both chains. *)
Lemma flags_rep wk L F i c d t : wq_rep wk L F -> 0 ≤ i < NR_MAX_PARALLEL_IO ->
  wq_rep (wk_queue (wk_latest wk t) (<[Z.to_nat i := iw_flags c d (wget (work_queue wk) i)]> (work_queue wk))) L F.
Proof.
  intros H Hi. set (q := <[_ := _]> _).
  assert (forall j, wget q j = if decide (j = i) then iw_flags c d (wget (work_queue wk) i) else wget (work_queue wk) j) as G.
  { intros j. apply wget_insert. rewrite (wr_len _ _ _ H). lia. }
  assert (forall j, nx q j = nx (work_queue wk) j) as Hn by (intros j; unfold nx; rewrite G; by destruct (decide (j = i)) as [->|]).
  assert (forall j, pv q j = pv (work_queue wk) j) as Hp by (intros j; unfold pv; rewrite G; by destruct (decide (j = i)) as [->|]).
  split; wcbn; try apply H.
  - unfold q. rewrite length_insert. apply H.
  - eapply path_ext, H. intros a _. by rewrite Hn.
  - intros HL. eapply path_ext, (wr_prev _ _ _ H HL). intros a _. by rewrite Hp.
  - eapply path_ext, H. intros a _. by rewrite Hn.
Qed.

Lemma pc_range wk pc : wk_ok wk pc -> pc <> NIL -> 0 ≤ pc < NR_MAX_PARALLEL_IO /\
  aget (work_queue wk) pc = Ok (wget (work_queue wk) pc).
Proof.
  intros (L & Fr & Rc & [Hr _ Hpc]) Hn. destruct Hpc as [|Hpc]; [done|].
  assert (pc ∈ L ++ Fr ++ Rc) as Hin by set_solver. split; [by apply (wr_range _ _ _ _ Hr) | by apply (wr_wget _ _ _ _ Hr)].
Qed.

Lemma latest_ok wk pc t : wk_ok wk pc -> wk_ok (wk_latest wk t) pc /\ pending (wk_latest wk t) = pending wk.
Proof.
  intros (L & Fr & Rc & [[] Hu Hpc]). split; [|done]. exists L, Fr, Rc. by split; [split| |].
Qed.

Lemma visit_pending wk pc c d t : wk_ok wk pc -> pc <> NIL -> iw_is_completed (wget (work_queue wk) pc) = false ->
  let wk' := wk_queue (wk_latest wk t) (<[Z.to_nat pc := iw_flags c d (wget (work_queue wk) pc)]> (work_queue wk)) in
  wk_ok wk' pc /\ pending wk ≡ₚ (if d then [core (wget (work_queue wk) pc)] else []) ++ pending wk'.
Proof.
  intros Hok Hn Hc. destruct (pc_range _ _ Hok Hn) as [Hrg _]. destruct Hok as (L & Fr & Rc & [Hr Hu Hpc]). intros wk'.
  assert (wq_rep wk' L (Fr ++ Rc)) as Hr' by (by apply flags_rep).
  assert (forall j, wget (work_queue wk') j = if decide (j = pc) then iw_flags c d (wget (work_queue wk) pc) else wget (work_queue wk) j) as G.
  { intros j. apply wget_insert. rewrite (wr_len _ _ _ Hr). lia. }
  assert (pc ∉ Rc) as HRc by (intros H; specialize (Hu _ H); congruence).
  destruct Hpc as [|Hpc]; [done|]. apply elem_of_app in Hpc as [Hpc|]; [|done]. split.
  - exists L, Fr, Rc. split; [done| |right; set_solver]. intros i Hi. rewrite G, decide_False by (by intros ->). by apply Hu.
  - rewrite (pending_eq _ _ _ Hr), (pending_eq _ _ _ Hr'). pose proof (wr_nodup _ _ _ Hr) as Hd.
    apply list_elem_of_split in Hpc as (L1 & L2 & ->). rewrite !omap_app. cbn.
    rewrite G, decide_True by done. unfold unfinished at 2. rewrite Hc.
    assert (forall l : list Z, pc ∉ l -> omap (fun i => unfinished (wget (work_queue wk') i)) l =
                                omap (fun i => unfinished (wget (work_queue wk) i)) l) as Hsame.
    { intros l Hl. apply omap_same. intros i Hi. rewrite G, decide_False; [done|]. by intros ->. }
    rewrite !Hsame by (nodup; set_solver). destruct d; cbn.
    + by rewrite <- Permutation_middle.
    + by rewrite core_flags.
Qed.

(** *** Moving along the chain *)
Lemma start_ok wk pc : wk_ok wk pc -> wk_ok wk (io_seq wk).
Proof.
  intros (L & Fr & Rc & [Hr Hu _]). exists L, Fr, Rc. split; [done..|].
  destruct (path_start _ _ _ _ (wr_next _ _ _ Hr)) as [?|[_ ?]]; [right; set_solver | by left].
Qed.

(** The successor of a slot that was used is never one that was not: a worker
    that the dispatcher overtakes stays among completed slots. *)
Lemma advance_ok wk pc : wk_ok wk pc -> pc <> NIL -> wk_ok wk (nx (work_queue wk) pc).
Proof.
  intros (L & Fr & Rc & [Hr Hu Hpc]) Hn. exists L, Fr, Rc. split; [done..|]. destruct Hpc as [|Hpc]; [done|].
  apply elem_of_app in Hpc as [Hpc|Hpc].
  - destruct (path_next _ _ _ _ _ (wr_next _ _ _ Hr) Hpc) as [?|?]; [right; set_solver | by left].
  - pose proof (wr_free _ _ _ Hr) as Hf. apply path_app in Hf as (m & _ & Hf).
    destruct (path_next _ _ _ _ _ Hf Hpc) as [?|?]; [right; set_solver | by left].
Qed.

(** ** The workers of the device *)
Definition all_pending (ws : list nvmev_io_worker) : list nvmev_io_work := concat (map pending ws).

Record workers_ok (ws : list nvmev_io_worker) (pcs : list Z) : Prop := {
  wo_some : ws <> [];
  wo_pcs : length pcs = length ws;
  wo_each : forall turn wk pc, aget ws turn = Ok wk -> aget pcs turn = Ok pc -> wk_ok wk pc;
}.

Lemma workers_get ws pcs turn : workers_ok ws pcs -> 0 ≤ turn < Z.of_nat (length ws) ->
  exists wk pc, aget ws turn = Ok wk /\ aget pcs turn = Ok pc /\ wk_ok wk pc.
Proof.
  intros H Hr. destruct (aget_in_range ws turn Hr) as [wk Hw].
  destruct (aget_in_range pcs turn) as [pc Hp]; [rewrite (wo_pcs _ _ H); lia|]. exists wk, pc. split; [done|]. split; [done|].
  by apply (wo_each _ _ H turn).
Qed.

Lemma workers_set ws pcs turn wk pc : workers_ok ws pcs -> 0 ≤ turn < Z.of_nat (length ws) ->
  aget pcs turn = Ok pc -> wk_ok wk pc -> workers_ok (<[Z.to_nat turn := wk]> ws) pcs.
Proof.
  intros H Hr Hp Hwk. split.
  - intros E. apply (f_equal length) in E. rewrite length_insert in E. cbn in E. lia.
  - rewrite length_insert. apply H.
  - intros t wk' pc'. rewrite aget_insert by done. case_decide as E; [|by apply H].
    intros [= <-] Hp'. subst t. rewrite Hp in Hp'. by injection Hp' as <-.
Qed.

Lemma pcs_set ws pcs turn wk pc : workers_ok ws pcs -> aget ws turn = Ok wk -> wk_ok wk pc ->
  workers_ok ws (<[Z.to_nat turn := pc]> pcs).
Proof.
  intros H Hw Hwk. pose proof (aget_range _ _ _ Hw). split; [apply H | rewrite length_insert; apply H|].
  intros t wk' pc' Hw'. rewrite aget_insert by (rewrite (wo_pcs _ _ H); lia). case_decide as E; [|by apply H].
  intros [= <-]. subst t. rewrite Hw in Hw'. by injection Hw' as <-.
Qed.

Lemma all_pending_split ws turn wk : aget ws turn = Ok wk -> exists rest,
  all_pending ws ≡ₚ pending wk ++ rest /\
  forall wk', all_pending (<[Z.to_nat turn := wk']> ws) ≡ₚ pending wk' ++ rest.
Proof.
  rewrite aget_Ok. intros [_ Hl]. pose proof (list_elem_of_split_length _ _ _ Hl) as (l1 & l2 & -> & El).
  exists (concat (map pending l1) ++ concat (map pending l2)). unfold all_pending.
  assert (forall wk', concat (map pending (l1 ++ wk' :: l2)) ≡ₚ
    pending wk' ++ concat (map pending l1) ++ concat (map pending l2)) as H.
  { intros wk'. rewrite map_app, concat_app. cbn. solve_Permutation. }
  split; [apply H|]. intros wk'. rewrite El, insert_app_r_alt, Nat.sub_diag by lia. apply H.
Qed.

Lemma all_pending_grow ws turn wk wk' x : aget ws turn = Ok wk -> pending wk' ≡ₚ x ++ pending wk ->
  all_pending (<[Z.to_nat turn := wk']> ws) ≡ₚ x ++ all_pending ws.
Proof.
  intros (rest & E1 & E2)%all_pending_split E. rewrite E2, E1, E. by rewrite app_assoc.
Qed.

Lemma all_pending_shrink ws turn wk wk' x : aget ws turn = Ok wk -> pending wk ≡ₚ x ++ pending wk' ->
  all_pending ws ≡ₚ x ++ all_pending (<[Z.to_nat turn := wk']> ws).
Proof.
  intros (rest & E1 & E2)%all_pending_split E. rewrite E2, E1, E. by rewrite app_assoc.
Qed.

Lemma all_pending_keep ws turn wk wk' : aget ws turn = Ok wk -> pending wk' = pending wk ->
  all_pending (<[Z.to_nat turn := wk']> ws) ≡ₚ all_pending ws.
Proof. intros H E. apply (all_pending_grow ws turn wk wk' []); [done | by rewrite E]. Qed.

(** ** The operations of the dispatcher *)
Section Dispatcher.
Context {F : Type} `{FtlOps F} (cpu_clock local_clock : nat -> Z).
Implicit Types d : io_dev F.

Definition worker_of (d : io_dev F) (sqid : Z) : Z := u32 (sqid - 1) mod Z.of_nat (length (io_workers d)).

Lemma worker_of_range d sqid : io_workers d <> [] -> 0 ≤ worker_of d sqid < Z.of_nat (length (io_workers d)).
Proof. intros Hn. apply Z.mod_pos_bound. destruct (io_workers d); [done | cbn; lia]. Qed.

(** What is queued for a request that fills its slot with [f]: nothing if no
    slot can be had. *)
Definition granted (d : io_dev F) (sqid : Z) (f : nvmev_io_work -> nvmev_io_work) : list nvmev_io_work :=
  match aget (io_workers d) (worker_of d sqid) with
  | Ok wk => match allocate_entry wk with
             | Ok (Some (_, e)) => [core (f (wget (work_queue wk) e))]
             | _ => []
             end
  | Bug _ => []
  end.

(** Nothing but the workers, their turn and the clock has changed. *)
Record workers_only (d d' : io_dev F) : Prop := {
  wo_sqes : sqes d' = sqes d;
  wo_cqes : cqes d' = cqes d;
  wo_nr : length (io_workers d') = length (io_workers d);
  wo_ftl : dev_ftl d' = dev_ftl d;
}.

Definition alloc_result (d : io_dev F) (pcs : list Z) (sqid : Z) (r : option (Z * Z)) (d' : io_dev F) : Prop :=
  match r with
  | None => d' = d /\ forall f, granted d sqid f = []
  | Some (turn, e) => turn = worker_of d sqid /\ exists wk pc L Fr Rc F',
      aget (io_workers d) turn = Ok wk /\ aget pcs turn = Ok pc /\ wk_at wk pc L Fr Rc /\ Fr ++ Rc = e :: F' /\ F' <> [] /\
      (forall f, granted d sqid f = [core (f (wget (work_queue wk) e))]) /\
      workers_only d d' /\ dev_tick d' = dev_tick d /\
      io_workers d' = <[Z.to_nat turn := wk_free wk (nx (work_queue wk) e) (free_seq_end wk)]> (io_workers d)
  end.

Lemma allocate_wp d pcs sqid : workers_ok (io_workers d) pcs ->
  wp (__allocate_work_queue_entry sqid) (alloc_result d pcs sqid) d.
Proof.
  intros Hw. pose proof (worker_of_range d sqid (wo_some _ _ Hw)) as Hr. unfold __allocate_work_queue_entry, __get_io_worker.
  apply wp_bind. unfold wp at 1. unfold checked_mod. rewrite (proj2 (Z.eqb_neq _ _)) by lia. cbn. fold (worker_of d sqid).
  destruct (workers_get _ _ _ Hw Hr) as (wk & pc & Hwk & Hpc & (L & Fr & Rc & Hat)).
  apply wp_bind. unfold wp at 1, get_worker. rewrite Hwk. cbn.
  pose proof (wa_rep _ _ _ _ _ Hat) as Hrep. pose proof (wr_last _ _ _ Hrep) as Hla.
  destruct (Fr ++ Rc) as [|e F'] eqn:EF; [done|].
  destruct (allocate_ok _ _ _ _ Hrep) as [_ Ha]. apply (wp_lift_Ok _ _ _ _ _ Ha).
  assert (forall f, granted d sqid f = if decide (F' = []) then [] else [core (f (wget (work_queue wk) e))]) as Hg.
  { intros f. unfold granted. rewrite Hwk, Ha. by destruct (decide _). }
  destruct (decide (F' = [])) as [->|HF']; [by split|].
  apply wp_bind, wp_modify. cbn. apply wp_bind. unfold wp at 1, set_worker. cbn. rewrite aset_in_range by done. cbn. split; [done|].
  exists wk, pc, L, Fr, Rc, F'. split_and!; try done. split; cbn; try done. by rewrite length_insert.
Qed.

Lemma insert_wp d d1 pcs sqid e f target : workers_ok (io_workers d) pcs ->
  alloc_result d pcs sqid (Some (worker_of d sqid, e)) d1 ->
  (forall w, iw_next (f w) = NIL /\ iw_prev (f w) = NIL) -> (forall w, iw_is_completed (f w) = false) ->
  forall d2, d2 = d1 \/ d2 = dev_ticked d1 ->
  wp (wk ← get_worker (worker_of d sqid); wk ← lift (fill_and_insert wk e f target); set_worker (worker_of d sqid) wk)
    (fun _ d' => workers_only d d' /\ workers_ok (io_workers d') pcs /\
      all_pending (io_workers d') ≡ₚ granted d sqid f ++ all_pending (io_workers d)) d2.
Proof.
  intros Hw (_ & wk & pc & L & Fr & Rc & F' & Hwk & Hpc & Hat & EF & HF' & Hg & [Eq1 Eq2 Eq3 Eq4] & _ & Ew) Hf Hc d2 Hd2.
  assert (io_workers d2 = io_workers d1 /\ sqes d2 = sqes d1 /\ cqes d2 = cqes d1 /\ dev_ftl d2 = dev_ftl d1) as (F1 & F2 & F3 & F4)
    by (by destruct Hd2 as [-> | ->]). clear Hd2.
  pose proof (worker_of_range d sqid (wo_some _ _ Hw)) as Hr.
  apply wp_bind. unfold wp at 1, get_worker. rewrite F1, Ew, aget_insert, decide_True by done. cbn [mbind res_bind].
  pose proof (wa_rep _ _ _ _ _ Hat) as Hrep. rewrite EF in Hrep.
  apply wp_lift_bind. eapply returns_mono; [by apply (enqueue_ok _ _ _ _ f target Hrep)|].
  intros wk' (L1 & L2 & He). destruct (enqueue_pending _ _ _ _ _ _ _ _ _ _ _ _ Hat EF He Hc) as [Hok Hp].
  unfold wp, set_worker. rewrite F1, Ew, aset_in_range by (rewrite length_insert; done). cbn.
  rewrite list_insert_insert_eq. split; [|split].
  - split; cbn; rewrite ?length_insert; congruence.
  - by apply (workers_set _ _ _ _ pc).
  - rewrite Hg. by apply (all_pending_grow _ _ wk).
Qed.

Lemma get_sq_wp {A} d sqid sq (f : nvmev_submission_queue -> prog (io_dev F) A) Q :
  aget (sqes d) sqid = Ok (Some sq) -> wp (f sq) Q d -> wp (get_sq sqid ≫= f) Q d.
Proof. intros E. unfold wp, get_sq, find_sq, mbind, prog_bind. rewrite E. done. Qed.

Lemma get_cq_wp {A} d cqid cq (f : nvmev_completion_queue -> prog (io_dev F) A) Q :
  aget (cqes d) cqid = Ok (Some cq) -> wp (f cq) Q d -> wp (get_cq cqid ≫= f) Q d.
Proof. intros E. unfold wp, get_cq, find_cq, mbind, prog_bind. rewrite E. done. Qed.

(** Both kinds of request: queued if a slot can be had, else dropped. *)
Lemma schedule_wp d pcs op : workers_ok (io_workers d) pcs ->
  wp (dev_schedule_internal_operation local_clock op) (fun _ d' => workers_only d d' /\ workers_ok (io_workers d') pcs /\
    all_pending (io_workers d') ≡ₚ granted d (iop_sqid op) (internal_work (iop_sqid op) (local_clock (dev_tick d))
      (iop_nsecs_target op) (iop_write_buffer op) (iop_buffs_to_release op)) ++ all_pending (io_workers d)) d.
Proof.
  intros Hw. unfold dev_schedule_internal_operation. apply wp_bind. eapply wp_mono; [by apply (allocate_wp d pcs)|].
  intros [[turn e]|] d1 Ha.
  - pose proof Ha as (-> & _ & _ & _ & _ & _ & _ & _ & _ & _ & _ & _ & _ & _ & Et & _).
    apply wp_bind. unfold wp at 1, get_local_clock. rewrite Et. apply (insert_wp d d1); auto.
  - destruct Ha as [-> Hg]. rewrite Hg. apply wp_ret. split; [by split | by split].
Qed.

Lemma enqueue_wp d pcs sqid cqid sqe start ret sq c : workers_ok (io_workers d) pcs ->
  aget (sqes d) sqid = Ok (Some sq) -> sq_entry sq sqe = Ok c ->
  wp (__enqueue_io_req local_clock sqid cqid sqe start ret) (fun _ d' => workers_only d d' /\ workers_ok (io_workers d') pcs /\
    all_pending (io_workers d') ≡ₚ granted d sqid (enqueue_work sqid cqid sqe (command_id c) start (local_clock (dev_tick d)) ret)
      ++ all_pending (io_workers d)) d.
Proof.
  intros Hw Hsq Hc. unfold __enqueue_io_req. apply (get_sq_wp _ _ _ _ _ Hsq).
  apply wp_bind. eapply wp_mono; [by apply (allocate_wp d pcs)|]. intros [[turn e]|] d1 Ha.
  - pose proof Ha as (-> & _ & _ & _ & _ & _ & _ & _ & _ & _ & _ & _ & _ & _ & Et & _).
    apply (wp_lift_Ok _ _ _ _ _ Hc).
    apply wp_bind. unfold wp at 1, get_local_clock. rewrite Et. apply (insert_wp d d1); auto.
  - destruct Ha as [-> Hg]. rewrite Hg. apply wp_ret. split; [by split | by split].
Qed.

Lemma reclaim_wp d pcs : workers_ok (io_workers d) pcs ->
  wp __reclaim_completed_reqs (fun _ d' => workers_only d d' /\ workers_ok (io_workers d') pcs /\
    all_pending (io_workers d') ≡ₚ all_pending (io_workers d) /\ dev_tick d' = dev_tick d) d.
Proof.
  intros Hw. unfold __reclaim_completed_reqs, wp.
  assert (returns (for_loop (length (io_workers d)) 0 (fun turn ws => amod ws turn reclaim_worker) (io_workers d))
    (fun ws => length ws = length (io_workers d) /\ workers_ok ws pcs /\ all_pending ws ≡ₚ all_pending (io_workers d))) as Hl.
  { apply (returns_for_loop (fun _ ws => length ws = length (io_workers d) /\ workers_ok ws pcs /\
      all_pending ws ≡ₚ all_pending (io_workers d))); [by split| |auto].
    intros j ws Hj (Hl & Hok & Hp). destruct (workers_get ws pcs j Hok ltac:(lia)) as (wk & pc & Hwk & Hpc & Hwo).
    apply returns_amod; [lia|]. intros wk0 Hwk0. rewrite Hwk in Hwk0. injection Hwk0 as <-. eapply returns_mono; [by apply reclaim_pending|].
    intros wk' [Hok' Hp']. split; [by rewrite length_insert|]. split; [apply (workers_set _ _ _ _ pc); [done | lia | done | done]|].
    rewrite <- Hp. by apply (all_pending_keep _ _ wk). }
  revert Hl. destruct (for_loop _ _ _ _); [|done]. cbn. intros (Hl & Hok & Hp). split_and!; [by split | done..].
Qed.
End Dispatcher.

(** ** Runs *)
Record io_state (F : Type) := mk_io {
  st_dev : io_dev F;
  st_pcs : list Z;                          (* [curr] of each worker *)
  st_accepted : list nvmev_io_work;         (* ghost: requests that got a slot *)
  st_posted : list (Z * nvmev_io_work);     (* ghost: finished requests and when *)
}.
Arguments mk_io {F}.
Arguments st_dev {F}.
Arguments st_pcs {F}.
Arguments st_accepted {F}.
Arguments st_posted {F}.

(** The completions posted to a queue. *)
Definition host_log (posted : list (Z * nvmev_io_work)) (cqid : Z) : list nvmev_io_work :=
  filter (fun w => iw_is_internal w = false /\ iw_cqid w = cqid) (map snd posted).

(** The commands whose data a namespace can move. *)
Class CmdFine (F : Type) := cmd_fine : nvme_command -> Prop.

(** The queues of a request exist, and its data can be moved. *)
Definition serviceable {F} `{CmdFine F} (d : io_dev F) (w : nvmev_io_work) : Prop :=
  iw_is_internal w = true \/
  (exists sq c, aget (sqes d) (iw_sqid w) = Ok (Some sq) /\ sq_entry sq (iw_sq_entry w) = Ok c /\ cmd_fine (F := F) c) /\
  (exists cq, aget (cqes d) (iw_cqid w) = Ok (Some cq)).

Section Runs.
Context {F : Type} `{FtlOps F} `{CmdFine F} (cpu_clock local_clock : nat -> Z).
Implicit Types d : io_dev F.

(** What a visit finishes. *)
Definition visit_posts d turn pc delta : list (Z * nvmev_io_work) :=
  match aget (io_workers d) turn with
  | Ok wk =>
    let w := wget (work_queue wk) pc in
    let now := u64 (local_clock (dev_tick d) + delta) in
    if iw_is_completed w then [] else if iw_nsecs_target w <=? now then [(now, core w)] else []
  | Bug _ => []
  end.

Inductive io_step : io_state F -> io_state F -> Prop :=
  | step_enqueue d pcs acc post sqid cqid sqe start ret d' sq c cq :
      aget (sqes d) sqid = Ok (Some sq) -> sq_entry sq sqe = Ok c -> cmd_fine (F := F) c -> aget (cqes d) cqid = Ok (Some cq) ->
      __enqueue_io_req local_clock sqid cqid sqe start ret d = Ok (tt, d') ->
      io_step (mk_io d pcs acc post) (mk_io d' pcs (acc ++ granted d sqid
        (enqueue_work sqid cqid sqe (command_id c) start (local_clock (dev_tick d)) ret)) post)
  | step_schedule d pcs acc post op d' :
      dev_schedule_internal_operation local_clock op d = Ok (tt, d') ->
      io_step (mk_io d pcs acc post) (mk_io d' pcs (acc ++ granted d (iop_sqid op)
        (internal_work (iop_sqid op) (local_clock (dev_tick d)) (iop_nsecs_target op) (iop_write_buffer op)
           (iop_buffs_to_release op))) post)
  | step_reclaim d pcs acc post d' :
      __reclaim_completed_reqs d = Ok (tt, d') -> io_step (mk_io d pcs acc post) (mk_io d' pcs acc post)
  | step_ftl d pcs acc post f : io_step (mk_io d pcs acc post) (mk_io (dev_with_ftl d f) pcs acc post)
  | step_host d pcs acc post sqid sq sq' sqs :
      (* the host writes commands, the dispatcher its statistics *)
      aget (sqes d) sqid = Ok (Some sq) -> (forall i c, sq_entry sq i = Ok c -> exists c', sq_entry sq' i = Ok c' /\ (cmd_fine (F := F) c -> cmd_fine (F := F) c')) ->
      aset (sqes d) sqid (Some sq') = Ok sqs ->
      io_step (mk_io d pcs acc post) (mk_io (dev_with_sqes d sqs) pcs acc post)
  | step_start d pcs acc post turn wk pcs' :
      aget (io_workers d) turn = Ok wk -> aset pcs turn (io_seq wk) = Ok pcs' ->
      io_step (mk_io d pcs acc post) (mk_io d pcs' acc post)
  | step_visit d pcs acc post turn pc delta d' :
      aget pcs turn = Ok pc -> pc <> NIL -> visit_entry local_clock turn pc delta d = Ok (tt, d') ->
      io_step (mk_io d pcs acc post) (mk_io d' pcs acc (post ++ visit_posts d turn pc delta))
  | step_next d pcs acc post turn pc pc' d' pcs' :
      aget pcs turn = Ok pc -> pc <> NIL -> next_entry turn pc d = Ok (pc', d') -> aset pcs turn pc' = Ok pcs' ->
      io_step (mk_io d pcs acc post) (mk_io d' pcs' acc post)
  | step_signal d pcs acc post id qidx d' :
      signal_cq id qidx tt d = Ok (tt, d') -> io_step (mk_io d pcs acc post) (mk_io d' pcs acc post).

Record io_inv (st : io_state F) : Prop := {
  ii_workers : workers_ok (io_workers (st_dev st)) (st_pcs st);
  ii_once : st_accepted st ≡ₚ map snd (st_posted st) ++ all_pending (io_workers (st_dev st));
  ii_due : Forall (fun p => iw_nsecs_target p.2 ≤ p.1) (st_posted st);
  ii_rings : forall cqid cq, aget (cqes (st_dev st)) cqid = Ok (Some cq) -> cq_ok cq (host_log (st_posted st) cqid);
  ii_queues : Forall (serviceable (st_dev st)) (all_pending (io_workers (st_dev st)));
}.

(** Every request a namespace has queued can be carried out. *)
Class FtlTotal : Prop := {
  perform_total : forall c f, cmd_fine (F := F) c -> exists f', perform_io c f = Ok f';
  release_total : forall b n f, exists f', release_buffer b n f = Ok f';
}.

Lemma serviceable_same d d' w : sqes d' = sqes d -> cqes d' = cqes d -> serviceable d w -> serviceable d' w.
Proof. unfold serviceable. by intros -> ->. Qed.

Lemma granted_forall d sqid f (P : nvmev_io_work -> Prop) : (forall w, P (core (f w))) -> Forall P (granted d sqid f).
Proof.
  intros Hp. unfold granted. destruct (aget _ _) as [wk|]; [|constructor].
  destruct (allocate_entry wk) as [[[? e]|]|]; repeat constructor. apply Hp.
Qed.

(** The dispatcher's steps: [g] is what they queued. *)
Lemma dispatch_inv d pcs acc post d' g : io_inv (mk_io d pcs acc post) -> workers_only d d' ->
  workers_ok (io_workers d') pcs -> all_pending (io_workers d') ≡ₚ g ++ all_pending (io_workers d) ->
  Forall (serviceable d) g -> io_inv (mk_io d' pcs (acc ++ g) post).
Proof.
  intros [Hw Ho Hd Hr Hq] [Es Ec _ _] Hw' Hp Hg. cbn in *. split; cbn.
  - done.
  - rewrite Ho, Hp. solve_Permutation.
  - done.
  - by rewrite Ec.
  - rewrite Hp. apply Forall_app. split; (eapply Forall_impl; [eassumption|]); intros w; by apply serviceable_same.
Qed.

(** *** A visit *)
Lemma get_worker_wp {A} d turn wk (f : nvmev_io_worker -> prog (io_dev F) A) Q :
  aget (io_workers d) turn = Ok wk -> wp (f wk) Q d -> wp (get_worker turn ≫= f) Q d.
Proof. intros E. unfold wp, get_worker, mbind, prog_bind. rewrite E. done. Qed.

Lemma set_worker_wp d turn wk (Q : unit -> io_dev F -> Prop) : 0 ≤ turn < Z.of_nat (length (io_workers d)) ->
  Q tt (dev_with_workers d (<[Z.to_nat turn := wk]> (io_workers d))) -> wp (set_worker turn wk) Q d.
Proof. intros Hr HQ. unfold wp, set_worker. by rewrite aset_in_range. Qed.

(** Neither the workers nor the submission queues have changed. *)
Record same_workers d d' : Prop := {
  sw_workers : io_workers d' = io_workers d;
  sw_sqes : sqes d' = sqes d;
  sw_cqes_len : length (cqes d') = length (cqes d);
}.

Lemma copy_wp (Ht : FtlTotal) d w : serviceable d w ->
  wp (copy_entry w) (fun w' d' => w' = iw_flags true (iw_is_completed w) w /\ same_workers d d' /\ cqes d' = cqes d) d.
Proof.
  intros Hs. unfold copy_entry. destruct (iw_is_copied w) eqn:Ec.
  { apply wp_ret. split; [destruct w; cbn in *; by subst | by split]. }
  destruct (iw_is_internal w) eqn:Ei; [by apply wp_ret; split|].
  destruct Hs as [|[(sq & c & Hsq & Hc & Hfine) _]]; [congruence|].
  apply (get_sq_wp _ _ _ _ _ Hsq), (wp_lift_Ok _ _ _ _ _ Hc). apply wp_bind. unfold wp at 1, on_ftl.
  destruct (perform_total c (dev_ftl d) Hfine) as [f' Hf]. rewrite Hf. cbn. by split.
Qed.

(** The rings after a visit. *)
Definition rings_ok d (post : list (Z * nvmev_io_work)) : Prop :=
  forall cqid cq, aget (cqes d) cqid = Ok (Some cq) -> cq_ok cq (host_log post cqid).

Lemma host_log_snoc post t w cqid :
  host_log (post ++ [(t, w)]) cqid = host_log post cqid ++
    (if decide (iw_is_internal w = false /\ iw_cqid w = cqid) then [w] else []).
Proof.
  unfold host_log. rewrite map_app, filter_app. by f_equal.
Qed.

Lemma fill_core w cq : __fill_cq_result w cq = __fill_cq_result (core w) cq.
Proof. done. Qed.

Lemma finish_wp (Ht : FtlTotal) d post t w : serviceable d w -> rings_ok d post ->
  wp (finish_entry w) (fun _ d' => same_workers d d' /\ rings_ok d' (post ++ [(t, core w)]) /\
    forall cqid cq, aget (cqes d) cqid = Ok (Some cq) -> exists cq', aget (cqes d') cqid = Ok (Some cq')) d.
Proof.
  intros Hs Hr. unfold finish_entry. destruct (iw_is_internal w) eqn:Ei.
  - unfold wp, on_ftl. destruct (release_total (iw_write_buffer w) (iw_buffs_to_release w) (dev_ftl d)) as [f' Hf].
    rewrite Hf. cbn. split; [by split|]. split; [|eauto]. intros cqid cq Hcq. rewrite host_log_snoc.
    rewrite decide_False by (cbn; rewrite Ei; naive_solver). rewrite app_nil_r. by apply Hr.
  - destruct Hs as [|[_ [cq Hcq]]]; [congruence|]. apply (get_cq_wp _ _ _ _ _ Hcq).
    apply wp_lift_bind. rewrite fill_core. eapply returns_mono; [by apply fill_cq_ok, Hr|]. intros cq' [Hok _].
    pose proof (aget_range _ _ _ Hcq) as Hrg. unfold wp, set_cq. rewrite aset_in_range by done. cbn.
    split; [split; cbn; by rewrite ?length_insert|]. split.
    + intros cqid cq1. cbn. rewrite aget_insert by done. rewrite host_log_snoc. destruct (decide (iw_cqid w = cqid)) as [<-|Hne].
      * intros [= <-]. rewrite decide_True by (split; [by destruct w | by destruct w]). done.
      * intros Hcq1. rewrite decide_False by (destruct w; cbn; naive_solver). rewrite app_nil_r. by apply Hr.
    + intros cqid cq1. cbn. rewrite aget_insert by done. destruct (decide _); eauto.
Qed.

Lemma visit_wp (Ht : FtlTotal) d pcs acc post turn pc delta : io_inv (mk_io d pcs acc post) ->
  aget pcs turn = Ok pc -> pc <> NIL ->
  wp (visit_entry local_clock turn pc delta)
    (fun _ d' => io_inv (mk_io d' pcs acc (post ++ visit_posts d turn pc delta))) d.
Proof.
  intros Hi Hpc Hn. pose proof Hi as [Hw Ho Hd Hr Hq]. cbn in *.
  destruct (workers_get _ pcs turn Hw) as (wk & pc' & Hwk & Hpc' & Hok);
    [rewrite <- (wo_pcs _ _ Hw); by eapply aget_range|]. rewrite Hpc in Hpc'. injection Hpc' as <-.
  pose proof (aget_range _ _ _ Hwk) as Hrg. destruct (pc_range _ _ Hok Hn) as [Hrp Hg].
  unfold visit_posts, visit_entry. rewrite Hwk. apply (get_worker_wp _ _ _ _ _ Hwk), (wp_lift_Ok _ _ _ _ _ Hg).
  apply wp_bind. unfold wp at 1, get_local_clock. cbv beta iota zeta. set (now := u64 _). set (w := wget _ pc).
  assert (forall wk', wk_ok wk' pc -> workers_ok (<[Z.to_nat turn := wk']> (io_workers d)) pcs) as Hset
    by (intros wk' Hwk'; by apply (workers_set _ _ _ _ pc)).
  destruct (iw_is_completed w) eqn:Ec.
  { destruct (latest_ok wk pc now Hok) as [Hok' Hp]. apply set_worker_wp; [done|]. rewrite app_nil_r.
    pose proof (all_pending_keep _ _ _ _ Hwk Hp) as Hk. split; cbn; [by apply Hset | by rewrite Hk | done | done |].
    rewrite Hk. eapply Forall_impl; [done|]. intros v. by apply serviceable_same. }
  destruct (visit_pending wk pc true true now Hok Hn Ec) as [Hok1 Hp1].
  destruct (visit_pending wk pc true false now Hok Hn Ec) as [Hok2 Hp2].
  fold w in Hok1, Hp1, Hok2, Hp2. apply (all_pending_shrink _ _ _ _ _ Hwk) in Hp1, Hp2.
  assert (serviceable d w) as Hsw.
  { rewrite Hp1 in Hq. apply Forall_app in Hq as [Hq _]. inversion_clear Hq as [|? ? Hq' _].
    unfold serviceable in *. by destruct w. }
  assert (0 ≤ pc < Z.of_nat (length (work_queue wk))) as Hlen by (by eapply aget_range).
  apply wp_bind. eapply wp_mono; [by apply (copy_wp Ht (dev_ticked d) w)|].
  intros w' d1 (-> & [W1 W2 W3] & Ecq). rewrite Ec.
  change (iw_nsecs_target (iw_flags true false w)) with (iw_nsecs_target w). destruct (_ <=? now) eqn:El.
  - apply wp_bind. eapply wp_mono; [apply (finish_wp Ht d1 post now (iw_flags true false w))|].
    + eapply serviceable_same; [exact W2 | by rewrite Ecq |]. unfold serviceable in *. by destruct w.
    + intros cqid cq. rewrite Ecq. apply Hr.
    + intros _ d2 ([V1 V2 V3] & Hr2 & Hcs). rewrite core_flags in Hr2.
      apply wp_lift_bind. apply returns_aset; [done|]. apply set_worker_wp; [rewrite V1, W1; done|].
      rewrite V1, W1. cbn. split; cbn; [by apply Hset | | | done |].
      * rewrite Ho, Hp1, map_app. cbn. by rewrite <- app_assoc.
      * apply Forall_app. split; [done|]. bool_prop. repeat constructor. by destruct w.
      * rewrite Hp1 in Hq. apply Forall_app in Hq as [_ Hq]. eapply Forall_impl; [exact Hq|].
        intros v [Hv|[(sq & c & Hv1 & Hv2 & Hv4) [cq Hv3]]]; [by left|]. right. cbn. rewrite V2, W2. split; [by exists sq, c|].
        apply (Hcs _ cq). by rewrite Ecq.
  - rewrite app_nil_r. apply wp_lift_bind. apply returns_aset; [done|]. apply set_worker_wp; [rewrite W1; done|].
    rewrite W1. cbn. split; cbn; [by apply Hset | | done | |].
    + by rewrite Ho, Hp2.
    + intros cqid cq. cbn. rewrite Ecq. apply Hr.
    + rewrite Hp2 in Hq. eapply Forall_impl; [exact Hq|]. intros v. apply serviceable_same; [exact W2 | exact Ecq].
Qed.
End Runs.
