(* ===== verification/IoProps.v ===== *)
(** * The properties of the I/O path *)
From stdpp Require Import sorting.
From S2P Require Import Prelude Nvme Ssd WorkQueue IoWorker IoRing IoInv.

Section Runs.
Context {F : Type} `{FtlOps F} `{CmdFine F} (local_clock : nat -> Z).
Implicit Types d : io_dev F.

Lemma signal_wp d post id qidx : io_workers d <> [] -> 0 ≤ qidx < Z.of_nat (length (cqes d)) -> rings_ok d post ->
  wp (signal_cq id qidx tt) (fun _ d' => same_workers d d' /\ rings_ok d' post /\
    forall cqid cq, aget (cqes d) cqid = Ok (Some cq) -> exists cq', aget (cqes d') cqid = Ok (Some cq')) d.
Proof.
  intros Hn Hrg Hr. assert (same_workers d d) as Hs by (by split).
  unfold signal_cq, __get_io_worker, wp, mbind, prog_bind, checked_mod.
  rewrite (proj2 (Z.eqb_neq _ _)) by (destruct (io_workers d); [done | cbn; lia]). cbn.
  destruct (negb _); [split_and!; [done..|eauto]|]. unfold find_cq.
  destruct (aget_in_range _ _ Hrg) as [q Hq]. rewrite Hq. cbn. destruct q as [cq|]; [|split_and!; [done..|eauto]].
  destruct (negb (cq_irq_enabled cq)); [split_and!; [done..|eauto]|].
  destruct (cq_interrupt_ready cq); [|split_and!; [done..|eauto]].
  unfold set_cq, modify. cbn. rewrite aset_in_range by done. cbn. split_and!.
  - split; cbn; by rewrite ?length_insert.
  - intros cqid cq1. cbn. rewrite aget_insert by done. destruct (decide _) as [<-|]; [|apply Hr].
    intros [= <-]. destruct (Hr _ _ Hq). by split.
  - intros cqid cq1. cbn. rewrite aget_insert by done. destruct (decide _); eauto.
Qed.

(** Steps that touch neither the slots nor the logs. *)
Lemma quiet_inv d d' pcs acc post : io_inv (mk_io d pcs acc post) -> io_workers d' = io_workers d -> rings_ok d' post ->
  (forall w, serviceable d w -> serviceable d' w) -> io_inv (mk_io d' pcs acc post).
Proof.
  intros [Hw Ho Hd Hr Hq] Ew Hr' Hs. cbn in *. split; cbn; rewrite ?Ew; try done.
  eapply Forall_impl; [exact Hq | exact Hs].
Qed.

Lemma step_inv (Ht : FtlTotal) st st' : io_step local_clock st st' -> io_inv st -> io_inv st'.
Proof.
  intros Hs Hi. destruct Hs as [d pcs acc post sqid cqid sqe start ret d' sq c cq Hsq Hc Hfine Hcq He | d pcs acc post op d' He
    | d pcs acc post d' He | d pcs acc post f | d pcs acc post sqid sq sq' sqs Hsq Hsq' He
    | d pcs acc post turn wk pcs' Hwk Hp | d pcs acc post turn pc delta d' Hpc Hn He
    | d pcs acc post turn pc pc' d' pcs' Hpc Hn He Hp | d pcs acc post id qidx d' He];
    pose proof Hi as [Hw Ho Hd Hr Hq]; cbn in *.
  - destruct (wp_run _ _ _ _ _ (enqueue_wp local_clock d pcs sqid cqid sqe start ret sq c Hw Hsq Hc) He) as (Hwo & Hwk & Hp).
    eapply dispatch_inv; [done..|]. apply granted_forall. intros w. right. split; [by exists sq, c | by exists cq].
  - destruct (wp_run _ _ _ _ _ (schedule_wp local_clock d pcs op Hw) He) as (Hwo & Hwk & Hp).
    eapply dispatch_inv; [done..|]. apply granted_forall. intros w. by left.
  - destruct (wp_run _ _ _ _ _ (reclaim_wp d pcs Hw) He) as (Hwo & Hwk & Hp & _).
    rewrite <- (app_nil_r acc). eapply dispatch_inv; [done..| |constructor]. done.
  - by eapply quiet_inv.
  - apply aset_Ok in He as [Hrg ->]. eapply quiet_inv; [done..|]. intros w [Hw1|[(sq1 & c & H1 & H2 & Hfine) H3]]; [by left|].
    right. split; [|done]. cbn. rewrite aget_insert by done. destruct (decide _) as [E|]; [|eauto].
    subst sqid. rewrite Hsq in H1. injection H1 as <-. destruct (Hsq' _ _ H2) as (c' & Hc' & Hf'). exists sq', c'. auto.
  - apply aset_Ok in Hp as [Hrg ->]. split; cbn; try done. destruct (aget_in_range pcs turn Hrg) as [pc Hpc].
    eapply pcs_set; [done..|]. eapply start_ok, (wo_each _ _ Hw); eauto.
  - exact (wp_run _ _ _ _ _ (visit_wp local_clock Ht d pcs acc post turn pc delta Hi Hpc Hn) He).
  - apply aset_Ok in Hp as [Hrg ->]. destruct (workers_get _ pcs turn Hw) as (wk & pc1 & Hwk & Hpc1 & Hok);
      [rewrite <- (wo_pcs _ _ Hw); lia|]. rewrite Hpc in Hpc1. injection Hpc1 as <-.
    destruct (pc_range _ _ Hok Hn) as [_ Hg]. unfold next_entry, mbind, prog_bind, get_worker in He. rewrite Hwk in He. cbn in He.
    rewrite Hg in He. injection He as <- <-. split; cbn; try done. eapply pcs_set; [done..|]. by apply advance_ok.
  - assert (0 ≤ qidx < Z.of_nat (length (cqes d)) \/ d' = d) as [Hrg| ->].
    { unfold signal_cq, mbind, prog_bind in He. destruct (__get_io_worker qidx d) as [[turn d1]|] eqn:Eg; [|done].
      unfold __get_io_worker in Eg. apply bind_Ok in Eg as (t & _ & [= -> ->]).
      destruct (negb _); [right; by injection He|]. unfold find_cq in He.
      destruct (aget (cqes d1) qidx) eqn:Ea; [left; by eapply aget_range | done]. }
    + destruct (wp_run _ _ _ _ _ (signal_wp d post id qidx (wo_some _ _ Hw) Hrg Hr) He) as ([W1 W2 W3] & Hr' & Hc).
      eapply quiet_inv; [done..|]. intros w [?|[(sq & c & H1 & H2 & Hfine) [cq H3]]]; [by left|]. right. rewrite W2. split; [by exists sq, c | by apply (Hc _ cq)].
    + done.
Qed.

(** The state after [NVMEV_IO_WORKER_INIT] and the creation of the queues. *)
Record io_start (st : io_state F) : Prop := {
  is_workers : 0 < Z.of_nat (length (io_workers (st_dev st)));
  is_init : forall turn wk, aget (io_workers (st_dev st)) turn = Ok wk -> init_worker turn = Ok wk;
  is_pcs : st_pcs st = map (fun _ => NIL) (io_workers (st_dev st));
  is_logs : st_accepted st = [] /\ st_posted st = [];
  is_rings : forall cqid cq, aget (cqes (st_dev st)) cqid = Ok (Some cq) -> cq_ok cq [];
}.

Lemma idle_worker wk turn pc : init_worker turn = Ok wk -> pc = NIL -> wk_ok wk pc /\ pending wk = [].
Proof.
  intros E ->. pose proof (init_worker_ok turn) as Hi. rewrite E in Hi. clear E. destruct Hi as (Hr & _ & _ & Hc). split.
  - exists [], (seqZ 0 NR_MAX_PARALLEL_IO), []. split; [by rewrite app_nil_r | | by left].
    by intros i ?%not_elem_of_nil.
  - by rewrite (pending_eq _ _ _ Hr).
Qed.

Lemma start_inv st : io_start st -> io_inv st.
Proof.
  intros [Hl Hi Hp [Ha Hpo] Hr].
  assert (forall turn wk, aget (io_workers (st_dev st)) turn = Ok wk -> pending wk = []) as Hpe.
  { intros turn wk Hwk. by destruct (idle_worker wk turn NIL (Hi _ _ Hwk) eq_refl). }
  assert (all_pending (io_workers (st_dev st)) = []) as Hall.
  { unfold all_pending. apply concat_nil_Forall, Forall_map, Forall_lookup. intros i wk Hwk.
    apply (Hpe (Z.of_nat i)). apply aget_Ok. rewrite Nat2Z.id. split; [lia | done]. }
  split; rewrite ?Ha, ?Hpo, ?Hall; try done.
  split; [by intros E; rewrite E in Hl | by rewrite Hp, length_map|]. intros turn wk pc Hwk. rewrite Hp.
  intros [_ Hpc]%aget_Ok. apply list_lookup_fmap_Some in Hpc as (? & ? & ?).
  apply (idle_worker wk turn pc (Hi _ _ Hwk)); congruence.
Qed.

Lemma reach_io_inv (Ht : FtlTotal) st0 st : io_start st0 -> rtc (io_step local_clock) st0 st -> io_inv st.
Proof.
  intros Hs Hr. apply start_inv in Hs. induction Hr as [|st1 st2 st3 H1 _ IH]; [done|]. apply IH. by eapply step_inv.
Qed.

(** *** A pass of the worker *)
Lemma copy_frame d w w' d' : copy_entry w d = Ok (w', d') ->
  w' = iw_flags true (iw_is_completed w) w /\ io_workers d' = io_workers d /\ dev_tick d' = dev_tick d.
Proof.
  unfold copy_entry. destruct (iw_is_copied w) eqn:Ec.
  { intros [= <- <-]. split; [by destruct w; cbn in *; subst | done]. }
  destruct (iw_is_internal w); [by intros [= <- <-]|].
  unfold get_sq, find_sq, lift, on_ftl, mbind, prog_bind. destruct (aget (sqes d) _) as [[sq|]|]; try done. cbn.
  destruct (sq_entry sq _); [|done]. cbn. destruct (perform_io _ _); [|done]. cbn. by intros [= <- <-].
Qed.

Lemma finish_frame d w d' : finish_entry w d = Ok (tt, d') -> io_workers d' = io_workers d /\ dev_tick d' = dev_tick d.
Proof.
  unfold finish_entry. destruct (iw_is_internal w).
  - unfold on_ftl. cbn. destruct (release_buffer _ _ _); [|done]. cbn. by intros [= <-].
  - unfold get_cq, find_cq, set_cq, lift, mbind, prog_bind. destruct (aget (cqes d) _) as [[cq|]|]; try done. cbn.
    destruct (__fill_cq_result w cq); [|done]. cbn. destruct (aset _ _ _); [|done]. cbn. by intros [= <-].
Qed.

(** A visit changes the progress flags of its slot and nothing else of the
    workers: the request is finished exactly if its time has come. *)
Lemma visit_frame d turn pc delta d' wk : aget (io_workers d) turn = Ok wk ->
  visit_entry local_clock turn pc delta d = Ok (tt, d') ->
  let now := u64 (local_clock (dev_tick d) + delta) in
  let w := wget (work_queue wk) pc in
  dev_tick d' = S (dev_tick d) /\ exists c,
    io_workers d' = <[Z.to_nat turn := wk_queue (wk_latest wk now)
      (<[Z.to_nat pc := iw_flags c (iw_is_completed w || (iw_nsecs_target w <=? now)) w]> (work_queue wk))]> (io_workers d).
Proof.
  intros Hwk. unfold visit_entry, get_worker, lift, get_local_clock, set_worker, mbind, prog_bind. rewrite Hwk. cbn.
  destruct (aget (work_queue wk) pc) as [w|] eqn:Hg; [|done]. cbn. intros He.
  assert (wget (work_queue wk) pc = w) as -> by (unfold wget; by rewrite Hg).
  assert (iw_flags (iw_is_copied w) (iw_is_completed w) w = w) as Ew by (by destruct w).
  destruct (iw_is_completed w) eqn:Ec.
  { change (io_workers (dev_ticked d)) with (io_workers d) in He. destruct (aset (io_workers d) turn _) eqn:Es; [|done]. injection He as <-. cbn. split; [done|].
    exists (iw_is_copied w). cbn. rewrite Ew. apply aset_Ok in Es as [_ ->].
    apply aget_Ok in Hg as [_ Hg]. by rewrite (list_insert_id _ _ _ Hg). }
  destruct (copy_entry w (dev_ticked d)) as [[w' d1]|] eqn:Ecp; [|done].
  apply copy_frame in Ecp as (-> & W1 & T1). rewrite Ec in He. cbn in He, W1, T1.
  change (iw_nsecs_target (iw_flags true false w)) with (iw_nsecs_target w) in He.
  destruct (iw_nsecs_target w <=? _); cbn in He.
  - destruct (finish_entry _ d1) as [[[] d2]|] eqn:Ef; [|done]. apply finish_frame in Ef as [W2 T2].
    destruct (aset (work_queue wk) pc _) eqn:Es; [|done]. cbn in He. rewrite W2, W1 in He.
    destruct (aset (io_workers d) turn _) eqn:Es2; [|done]. injection He as <-. cbn. split; [congruence|]. exists true.
    apply aset_Ok in Es as [_ ->]. apply aset_Ok in Es2 as [_ ->]. done.
  - destruct (aset (work_queue wk) pc _) eqn:Es; [|done]. cbn in He. rewrite W1 in He.
    destruct (aset (io_workers d) turn _) eqn:Es2; [|done]. injection He as <-. cbn. split; [congruence|]. exists true.
    apply aset_Ok in Es as [_ ->]. apply aset_Ok in Es2 as [_ ->]. done.
Qed.

Lemma loop_ok (Ht : FtlTotal) turn delta T acc L Fs L2 : forall d pcs post pc fuel wk,
  io_inv (mk_io d pcs acc post) -> aget pcs turn = Ok pc -> aget (io_workers d) turn = Ok wk ->
  wq_rep wk L Fs -> path (nx (work_queue wk)) pc L2 NIL -> (forall i, i ∈ L2 -> i ∈ L) -> (length L2 <= fuel)%nat ->
  (forall i, i ∈ L -> i ∈ L2 \/ iw_is_completed (wget (work_queue wk) i) = true \/ T < iw_nsecs_target (wget (work_queue wk) i)) ->
  (forall n, (dev_tick d <= n)%nat -> T ≤ u64 (local_clock n + delta)) -> NoDup L2 ->
  exists d' pcs' post' wk', worker_loop local_clock fuel turn pc delta d = Ok (tt, d') /\
    rtc (io_step local_clock) (mk_io d pcs acc post) (mk_io d' pcs' acc post') /\
    aget (io_workers d') turn = Ok wk' /\ Forall (fun w => T < iw_nsecs_target w) (pending wk').
Proof.
  induction L2 as [|a L2 IH]; intros d pcs post pc fuel wk Hi Hpc Hwk Hrep Hp Hin Hl Hdone Hclk Hnd.
  { cbn in Hp. subst pc. exists d, pcs, post, wk. split; [by destruct fuel|]. split; [apply rtc_refl|]. split; [done|].
    rewrite (pending_eq _ _ _ Hrep). apply Forall_forall. intros w (i & Hi' & Hu)%list_elem_of_omap.
    unfold unfinished in Hu. destruct (Hdone i Hi') as [?%not_elem_of_nil|[Hc|Hlt]]; [done | by rewrite Hc in Hu |].
    destruct (iw_is_completed _); [done|]. injection Hu as <-. done. }
  cbn in Hp, Hl. destruct Hp as [-> Hp]. assert (a ∈ L) as HaL by (apply Hin; constructor).
  assert (a <> NIL) as Hn by (eapply wr_not_nil; [done | set_solver]).
  destruct fuel as [|fuel]; [lia|]. cbn [worker_loop]. rewrite (proj2 (Z.eqb_neq _ _)) by done.
  destruct (proj1 (wp_iff _ _ _) (visit_wp local_clock Ht d pcs acc post turn a delta Hi Hpc Hn)) as ([] & d1 & Hv & Hi1).
  destruct (visit_frame d turn a delta d1 wk Hwk Hv) as (Et & c & Ew). cbv zeta in Ew.
  set (w0 := wget (work_queue wk) a) in *. set (now := u64 _) in *.
  set (wk1 := wk_queue _ _) in Ew. pose proof (aget_range _ _ _ Hwk) as Hrg.
  assert (aget (io_workers d1) turn = Ok wk1) as Hwk1 by (rewrite Ew, aget_insert, decide_True by done; done).
  assert (0 ≤ a < NR_MAX_PARALLEL_IO) as Har by (apply (wr_range _ _ _ _ Hrep); set_solver).
  assert (wq_rep wk1 L Fs) as Hrep1 by (by apply flags_rep).
  assert (forall j, wget (work_queue wk1) j = if decide (j = a) then iw_flags c (iw_is_completed w0 || (iw_nsecs_target w0 <=? now)) w0
    else wget (work_queue wk) j) as G by (intros j; apply wget_insert; rewrite (wr_len _ _ _ Hrep); lia).
  assert (forall j, nx (work_queue wk1) j = nx (work_queue wk) j) as Hnx.
  { intros j. unfold nx. rewrite G. by destruct (decide (j = a)) as [->|]. }
  unfold mbind at 1, prog_bind at 1. rewrite Hv.
  assert (next_entry turn a d1 = Ok (nx (work_queue wk) a, d1)) as Hne.
  { unfold next_entry, get_worker, mbind, prog_bind. rewrite Hwk1. cbn.
    rewrite (wr_wget _ _ _ _ Hrep1) by set_solver. cbn. by rewrite <- Hnx. }
  unfold mbind at 1, prog_bind at 1. rewrite Hne.
  pose proof (aget_range _ _ _ Hpc) as Hpr. set (pcs1 := <[Z.to_nat turn := nx (work_queue wk) a]> pcs).
  assert (io_step local_clock (mk_io d1 pcs acc (post ++ visit_posts local_clock d turn a delta))
    (mk_io d1 pcs1 acc (post ++ visit_posts local_clock d turn a delta))) as Hstep.
  { eapply step_next; [done..|]. by apply aset_in_range. }
  edestruct (IH d1 pcs1 (post ++ visit_posts local_clock d turn a delta) (nx (work_queue wk) a) fuel wk1)
    as (d' & pcs' & post' & wk' & H1 & H2 & H3 & H4).
  - by eapply step_inv.
  - unfold pcs1. rewrite aget_insert by done. by rewrite decide_True.
  - done.
  - done.
  - eapply path_ext, Hp. intros i _. by rewrite Hnx.
  - intros i Hi'. apply Hin. by constructor.
  - lia.
  - intros i Hi'. rewrite G. destruct (decide (i = a)) as [->|Hia].
    + right. cbn. destruct (Z.le_gt_cases (iw_nsecs_target w0) T) as [Hle|]; [left | by right].
      rewrite (proj2 (Z.leb_le _ _)); [apply orb_true_r|]. pose proof (Hclk (dev_tick d) ltac:(lia)). unfold now. lia.
    + destruct (Hdone i Hi') as [[->|?]%elem_of_cons|?]; [done | by left | by right].
  - intros n Hle. apply Hclk. lia.
  - by inversion_clear Hnd.
  - exists d', pcs', post', wk'. split; [done|]. split; [|done]. eapply rtc_l; [by eapply step_visit|]. by eapply rtc_l.
Qed.

(** ** Claims on the interleavings *)
(** C6. Under every interleaving of the dispatcher (enqueueing, scheduling,
    reclaiming) with the workers, each request that got a slot is either still
    pending or has been finished, exactly once, and never before its target
    time: nothing is lost, duplicated or invented. *)
Theorem completions_exactly_once (Ht : FtlTotal) st0 st :
  io_start st0 -> rtc (io_step local_clock) st0 st ->
  st_accepted st ≡ₚ map snd (st_posted st) ++ all_pending (io_workers (st_dev st)) /\
  Forall (fun p => iw_nsecs_target p.2 ≤ p.1) (st_posted st).
Proof. intros Hs Hr. destruct (reach_io_inv Ht _ _ Hs Hr). done. Qed.

(** A turn of a worker: the slot it is at exists, even if the dispatcher
    reclaimed it meanwhile, its queues are there, and so is the next slot. *)
Lemma turn_ok (Ht : FtlTotal) d pcs acc post turn pc delta :
  io_inv (mk_io d pcs acc post) -> aget pcs turn = Ok pc -> pc <> NIL ->
  exists d' pc', visit_entry local_clock turn pc delta d = Ok (tt, d') /\ next_entry turn pc d' = Ok (pc', d').
Proof.
  intros Hi Hpc Hn.
  destruct (proj1 (wp_iff _ _ _) (visit_wp local_clock Ht d pcs acc post turn pc delta Hi Hpc Hn)) as ([] & d1 & Hv & Hi1).
  pose proof (ii_workers _ Hi1) as Hw. cbn in Hw. destruct (workers_get _ pcs turn Hw) as (wk & pc' & Hwk & Hpc' & Hok);
    [rewrite <- (wo_pcs _ _ Hw); by eapply aget_range|]. rewrite Hpc in Hpc'. injection Hpc' as <-.
  destruct (pc_range _ _ Hok Hn) as [_ Hg]. exists d1, (nx (work_queue wk) pc). split; [done|].
  unfold next_entry, get_worker, mbind, prog_bind. rewrite Hwk. cbn. rewrite Hg. done.
Qed.

(** Under every interleaving, no step of a worker fails. *)
Corollary worker_never_stuck (Ht : FtlTotal) st0 st turn pc delta :
  io_start st0 -> rtc (io_step local_clock) st0 st -> aget (st_pcs st) turn = Ok pc -> pc <> NIL ->
  exists d' pc', visit_entry local_clock turn pc delta (st_dev st) = Ok (tt, d') /\
    next_entry turn pc d' = Ok (pc', d').
Proof.
  intros Hs Hr. pose proof (reach_io_inv Ht _ _ Hs Hr) as Hi. destruct st as [d pcs acc post]. by apply (turn_ok Ht d pcs acc post).
Qed.


(** C7. A host that polls a completion queue with its own position [h] and
    phase sees exactly the completions posted to it, in order: the slot it looks
    at carries its phase if and only if the [h]-th completion has been posted,
    and then it is that completion -- as long as the host is not a whole turn
    behind, which the device does not check. *)
Theorem host_sees_completions (Ht : FtlTotal) st0 st cqid cq h :
  io_start st0 -> rtc (io_step local_clock) st0 st -> aget (cqes (st_dev st)) cqid = Ok (Some cq) ->
  let log := host_log (st_posted st) cqid in
  let n := cq_queue_size cq in
  (h <= length log)%nat -> Z.of_nat (length log) ≤ Z.of_nat h + n ->
  exists e, cq_entry cq (slot_at n h) = Ok e /\
    (phase_bit e = phase_of n h <-> (h < length log)%nat) /\
    forall w, log !! h = Some w -> e = completion_of w (phase_of n h).
Proof.
  intros Hs Hr Hcq log n Hh Hlt. destruct (ii_rings _ (reach_io_inv Ht _ _ Hs Hr) _ _ Hcq) as [Hn Hsl _ _ Hl Hf].
  fold n log in Hn, Hsl, Hl, Hf. destruct (decide (h < length log)%nat) as [Hlo|Hge].
  - destruct (lookup_lt_is_Some_2 log h Hlo) as [w Hw]. exists (completion_of w (phase_of n h)).
    split; [by apply Hl|]. split; [by rewrite phase_bit_completion|]. by intros w' [= <-]%(eq_trans (eq_sym Hw)).
  - assert (h = length log) as -> by lia. destruct (Z.lt_ge_cases (Z.of_nat (length log)) n) as [Hsm|Hbig].
    + destruct (Hf (Z.of_nat (length log))) as (e & He & Hp); [lia|]. exists e.
      unfold slot_at, phase_of. rewrite Z.mod_small, Z.div_small by lia. cbn. rewrite Hp.
      split; [done|]. split; [split; lia|]. intros w Hw. apply lookup_lt_Some in Hw. lia.
    + set (k := (length log - Z.to_nat n)%nat). destruct (lookup_lt_is_Some_2 log k) as [w Hw]; [lia|].
      exists (completion_of w (phase_of n k)). assert (Z.of_nat (length log) = Z.of_nat k + 1 * n) as E by lia.
      assert (slot_at n (length log) = slot_at n k) as -> by (unfold slot_at; rewrite E; apply Z.mod_add; lia).
      split; [apply Hl; [done | lia]|]. rewrite phase_bit_completion. split.
      * unfold phase_of. rewrite E, Z.div_add by lia. rewrite Z.add_1_r, Z.even_succ, <- Z.negb_even.
        destruct (Z.even _); cbn; split; lia.
      * intros w' Hw'. apply lookup_lt_Some in Hw'. lia.
Qed.
End Runs.

(** ** Claims on the operations *)
(** C31. Enqueueing puts the request behind every queued one that is due
    earlier or at the same time, and before every later one; the order of the
    rest is kept.  Among the requests whose time the worker has reached there
    is no order. *)
Theorem enqueue_keeps_order wk L Fs wk1 e sqid cqid sqe cid start now ret :
  wq_rep wk L Fs -> due_sorted wk L -> allocate_entry wk = Ok (Some (wk1, e)) ->
  exists wk' L1 L2, fill_and_insert wk1 e (enqueue_work sqid cqid sqe cid start now ret) (nsecs_target ret) = Ok wk' /\
    L = L1 ++ L2 /\ in_flight wk' = L1 ++ e :: L2 /\ due_sorted wk' (in_flight wk') /\
    pending wk' ≡ₚ core (enqueue_work sqid cqid sqe cid start now ret (wget (work_queue wk) e)) :: pending wk /\
    Forall (later (work_queue wk) (latest_nsecs wk) (nsecs_target ret)) L2.
Proof.
  intros Hr Hs Ha. pose proof (wr_last _ _ _ Hr) as Hla. destruct Fs as [|e' Fs]; [done|].
  destruct (allocate_ok _ _ _ _ Hr) as [He Ha']. rewrite Ha in Ha'. destruct (decide (Fs = [])) as [|Hne]; [done|].
  injection Ha' as -> ->. set (f := enqueue_work _ _ _ _ _ _ _).
  destruct (proj1 (returns_iff _ _) (enqueue_ok wk L e' Fs f (nsecs_target ret) Hr Hne ltac:(done))) as (wk' & Hf & L1 & L2 & He').
  pose proof (eq_rep _ _ _ _ _ _ _ _ _ He') as Hr'. pose proof (eq_split _ _ _ _ _ _ _ _ _ He') as ->.
  assert (e' ∉ L1 ++ L2) as Hnin by (pose proof (wr_nodup _ _ _ Hr) as Hd; apply NoDup_app in Hd as (_ & Hd & _); set_solver).
  exists wk', L1, L2. rewrite (in_flight_eq _ _ _ Hr'). split_and!; try done.
  - by eapply enqueued_sorted.
  - eapply (enqueue_pending wk NIL _ e' (e' :: Fs) [] Fs); [|by rewrite app_nil_r|exact He'|done].
    split; [by rewrite app_nil_r| |by left]. by intros i ?%not_elem_of_nil.
  - apply He'.
Qed.

Section Full.
Context {F : Type} `{FtlOps F} (local_clock : nat -> Z).

(** With a single free slot left the request is dropped without a trace:
    the handler has accounted for it, and no completion will ever be posted. *)
Theorem full_queue_drops (d : io_dev F) sqid cqid sqe start ret wk L Fs sq :
  aget (sqes d) sqid = Ok (Some sq) -> aget (io_workers d) (worker_of d sqid) = Ok wk ->
  wq_rep wk L Fs -> (length Fs <= 1)%nat ->
  __enqueue_io_req local_clock sqid cqid sqe start ret d = Ok (tt, d).
Proof.
  intros Hsq Hwk Hr Hl. pose proof (wr_last _ _ _ Hr) as Hla. destruct Fs as [|e [|? ?]]; cbn in Hla, Hl; [done| |lia].
  destruct (allocate_ok _ _ _ _ Hr) as [_ Ha]. rewrite decide_True in Ha by done.
  pose proof (aget_range _ _ _ Hwk) as Hrg.
  unfold __enqueue_io_req, get_sq, find_sq, __allocate_work_queue_entry, __get_io_worker, get_worker, checked_mod, mbind, prog_bind.
  rewrite Hsq. cbn. rewrite (proj2 (Z.eqb_neq _ _)) by lia. cbn. fold (worker_of d sqid). rewrite Hwk. cbn. rewrite Ha. done.
Qed.
End Full.

(** ** Submission queues *)
Section Sq.
Context {F : Type} `{FtlOps F} (cpu_clock local_clock : nat -> Z).
Implicit Types d : io_dev F.

(** The commands a queue holds can be read, its counters are 32-bit. *)
Record sq_ready (sq : nvmev_submission_queue) : Prop := {
  sr_size : 0 < sq_queue_size sq;
  sr_slots : forall i, 0 ≤ i < sq_queue_size sq -> exists c, sq_entry sq i = Ok c;
  sr_dispatched : 0 ≤ nr_dispatched (sq_stat sq) ≤ U32_MAX;
  sr_in_flight : 0 ≤ nr_in_flight (sq_stat sq) ≤ U32_MAX;
}.

Lemma set_sq_entry_ok sq i c0 c : sq_entry sq i = Ok c0 -> 0 ≤ i ->
  returns (set_sq_entry sq i c) (fun sq' => sq_stat sq' = sq_stat sq /\ sq_queue_size sq' = sq_queue_size sq /\
    sq_cqid sq' = sq_cqid sq /\ sq_entry sq' i = Ok c /\
    forall j c1, sq_entry sq j = Ok c1 -> exists c2, sq_entry sq' j = Ok c2).
Proof.
  unfold sq_entry, set_sq_entry. intros Hi H0. apply bind_Ok in Hi as (p & Hp & He).
  pose proof (aget_range _ _ _ Hp). pose proof (aget_range _ _ _ He).
  apply returns_bind, returns_amod; [done|]. intros p' Hp'. rewrite Hp in Hp'. injection Hp' as <-.
  apply returns_aset; [done|]. cbn. split_and!; try done.
  - rewrite aget_insert, decide_True by done. cbn. by rewrite aget_insert, decide_True.
  - intros j c1. rewrite aget_insert by done. destruct (decide _) as [Ed|]; [|eauto]. rewrite <- Ed, Hp. cbn.
    rewrite aget_insert by done. destruct (decide _); eauto.
Qed.

(** The handlers of the namespaces return, whatever the command. *)
Class HandlerTotal : Prop :=
  handler_total : forall nsid req ret f, exists r, proc_io_cmd nsid req ret f = Ok r.

Lemma schedule_ops_wp ops pcs : forall d, workers_ok (io_workers d) pcs ->
  wp (schedule_ops local_clock ops) (fun _ d' => workers_only d d' /\ workers_ok (io_workers d') pcs /\
    exists ws, Forall (fun w => iw_is_internal w = true) ws /\
      all_pending (io_workers d') ≡ₚ ws ++ all_pending (io_workers d)) d.
Proof.
  induction ops as [|op ops IH]; intros d Hw; [apply wp_ret; split; [done|]; split; [done|]; by exists []|].
  cbn [schedule_ops]. apply wp_bind.
  eapply wp_mono; [by apply schedule_wp|]. intros _ d1 ([E1 E2 E3 E4] & Hw1 & Hp1).
  eapply wp_mono; [by apply IH|]. intros _ d2 ([] & Hw2 & ws & Hi & Hp2). split; [split; congruence|]. split; [done|].
  eexists. split; [|rewrite Hp2, Hp1, app_assoc; reflexivity]. apply Forall_app. split; [exact Hi | by apply granted_forall].
Qed.

(** *** What becomes of the commands

    The command [c] in slot [sqe]: what the namespace answers, given the time
    it was fetched; what is queued for it, the request itself with that answer
    (unless it was put off, or no slot is left) and the internal operations
    the namespace asked for; what the dispatcher is told. *)
Definition handled (sqid sqe : Z) (sq : nvmev_submission_queue) d (r : option Z) (ws : list nvmev_io_work) d' : Prop :=
  let now := cpu_clock (dev_tick d) in
  exists c ok req ret ops f d1 wi,
    sq_entry sq sqe = Ok c /\
    proc_io_cmd (u32 (nsid c - 1)) (mk_req c sqid now) (mk_result NVME_SC_SUCCESS now 0) (dev_ftl d) = Ok (ok, req, ret, ops, f) /\
    schedule_ops local_clock ops (dev_with_ftl (dev_ticked d) f) = Ok (tt, d1) /\
    r = (if (ok : bool) then Some (__cmd_io_size (cmd req)) else None) /\
    ws = (if ok then granted d1 sqid (enqueue_work sqid (sq_cqid sq) sqe (command_id (cmd req)) now (local_clock (dev_tick d1)) ret)
          else []) ++ wi /\
    Forall (fun w => iw_is_internal w = true) wi /\ dev_ftl d' = f /\
    all_pending (io_workers d') ≡ₚ ws ++ all_pending (io_workers d).

(** The statistics of a command of [io_size] bytes. *)
Definition count_io (io_size : Z) (sq : nvmev_submission_queue) : nvmev_submission_queue :=
  let s := sq_stat sq in
  sq_with_stat sq (mk_stat (u32 (nr_dispatched s + 1)) (nr_dispatch s) (u32 (nr_in_flight s + 1)) (max_nr_in_flight s)
    (u64 (total_io s + io_size))).

(** Commands taken one after the other from slot [sqe] on, and what each of
    them queued. *)
Inductive queue_run (sqid : Z) : Z -> io_dev F -> list (list nvmev_io_work) -> io_dev F -> Prop :=
  | run_none sqe d : queue_run sqid sqe d [] d
  | run_next sqe d sq io_size ws d1 sq1 wss d' :
      aget (sqes d) sqid = Ok (Some sq) -> handled sqid sqe sq d (Some io_size) ws d1 -> aget (sqes d1) sqid = Ok (Some sq1) ->
      queue_run sqid ((sqe + 1) mod sq_queue_size sq)
        (dev_with_sqes d1 (<[Z.to_nat sqid := Some (count_io io_size sq1)]> (sqes d1))) wss d' ->
      queue_run sqid sqe d (ws :: wss) d'.

Lemma run_pending sqid sqe d wss d' : queue_run sqid sqe d wss d' ->
  all_pending (io_workers d') ≡ₚ concat wss ++ all_pending (io_workers d).
Proof.
  induction 1 as [|sqe d sq n ws d1 sq1 wss d' _ Hh _ _ IH]; [done|]. destruct Hh as (? & ? & ? & ? & ? & ? & ? & ? & _ & _ & _ & _ & _ & _ & _ & Hp).
  cbn in *. rewrite IH, Hp. rewrite !app_assoc. by rewrite (Permutation_app_comm (concat wss)).
Qed.

(** What the processing of commands keeps of the queue [sqid], [k] of them
    accounted for. *)
Record sq_after (sqid : Z) (pcs : list Z) (sq : nvmev_submission_queue) (k : Z) (d' : io_dev F) : Prop := {
  sa_workers : workers_ok (io_workers d') pcs;
  sa_sq : exists sq', aget (sqes d') sqid = Ok (Some sq') /\ sq_ready sq' /\
    sq_queue_size sq' = sq_queue_size sq /\
    nr_dispatched (sq_stat sq') = u32 (nr_dispatched (sq_stat sq) + k) /\
    nr_in_flight (sq_stat sq') = u32 (nr_in_flight (sq_stat sq) + k);
}.

Lemma proc_io_wp (Hh : HandlerTotal) d pcs sqid sqe sq : workers_ok (io_workers d) pcs ->
  aget (sqes d) sqid = Ok (Some sq) -> sq_ready sq -> 0 ≤ sqe < sq_queue_size sq ->
  wp (__nvmev_proc_io cpu_clock local_clock sqid sqe) (fun r d' => workers_ok (io_workers d') pcs /\
    (exists ws, handled sqid sqe sq d r ws d') /\
    exists sq', aget (sqes d') sqid = Ok (Some sq') /\ sq_ready sq' /\ sq_queue_size sq' = sq_queue_size sq /\
      sq_stat sq' = sq_stat sq) d.
Proof.
  intros Hw Hsq [Hsz Hrd Hn1 Hn2] Hrg. destruct (Hrd _ Hrg) as [c Hc]. unfold __nvmev_proc_io.
  apply (get_sq_wp _ _ _ _ _ Hsq). apply wp_bind. unfold wp at 1, __get_wallclock. apply (wp_lift_Ok _ _ _ _ _ Hc).
  apply wp_bind. unfold wp at 1, on_ftl. cbn [dev_ftl dev_ticked].
  destruct (handler_total (u32 (nsid c - 1)) (mk_req c sqid (cpu_clock (dev_tick d)))
    (mk_result NVME_SC_SUCCESS (cpu_clock (dev_tick d)) 0) (dev_ftl d)) as [[[[[ok req] ret] ops] f] Hf].
  rewrite Hf. cbn [mbind res_bind]. apply wp_bind.
  pose proof (schedule_ops_wp ops pcs (dev_with_ftl (dev_ticked d) f) Hw) as Hops.
  apply wp_iff in Hops as ([] & d1 & Eops & [E1 _ _ Ef1] & Hw1 & wi & Hi & Hp1). apply wp_iff. exists tt, d1. split; [exact Eops|]. cbn in E1.
  apply wp_lift_bind. eapply returns_mono; [by apply (set_sq_entry_ok sq sqe c); [|lia]|].
  intros sq1 (S1 & S2 & S3 & S4 & S5). pose proof (aget_range _ _ _ Hsq) as Hr.
  apply wp_bind. unfold wp at 1, set_sq. rewrite E1, aset_in_range by done. cbn [mbind res_bind].
  set (d2 := dev_with_sqes _ _).
  assert (aget (sqes d2) sqid = Ok (Some sq1)) as Hsq1 by (cbn; by rewrite aget_insert, decide_True).
  assert (sq_ready sq1) as Hrd1.
  { split; [lia | | by rewrite S1 | by rewrite S1].
    intros i Hi'. rewrite S2 in Hi'. destruct (Hrd i Hi') as [ci Hci]. by eapply S5. }
  destruct ok.
  2:{ apply wp_ret. split; [done|]. split; [|by exists sq1]. exists wi, c, false, req, ret, ops, f, d1, wi. by split_and!. }
  apply wp_bind. eapply wp_mono; [by apply (enqueue_wp local_clock d2 pcs _ _ _ _ _ sq1 (cmd req))|].
  intros _ d3 ([E2 _ _ Ef3] & Hw3 & Hp3). apply wp_bind. eapply wp_mono; [by apply (reclaim_wp d3 pcs)|].
  intros _ d4 ([E3 _ _ Ef4] & Hw4 & Hp4 & _). apply wp_ret. split; [done|]. split; [|exists sq1; by rewrite E3, E2].
  eexists _, c, true, req, ret, ops, f, d1, wi. split; [exact Hc|]. split; [exact Hf|]. split; [exact Eops|]. split; [done|].
  split; [reflexivity|]. split; [exact Hi|]. split; [rewrite Ef4, Ef3; exact Ef1|].
  rewrite Hp4, Hp3, S3. cbn [io_workers dev_with_sqes d2]. rewrite Hp1, app_assoc. reflexivity.
Qed.

Lemma u32_add x y : u32 (u32 x + y) = u32 (x + y).
Proof. apply Zplus_mod_idemp_l. Qed.

(** The loop stops short only at a command that is put off. *)
Definition stopped (sqid sqe size : Z) (n : nat) (wss : list (list nvmev_io_work)) (dk d' : io_dev F) : Prop :=
  if decide (length wss = n) then d' = dk
  else exists sqk ws, aget (sqes dk) sqid = Ok (Some sqk) /\
    handled sqid ((sqe + Z.of_nat (length wss)) mod size) sqk dk None ws d'.

Lemma proc_sq_loop_ok (Hh : HandlerTotal) pcs sqid n : forall d sq sqe seq,
  workers_ok (io_workers d) pcs -> aget (sqes d) sqid = Ok (Some sq) -> sq_ready sq -> 0 ≤ sqe < sq_queue_size sq ->
  wp (proc_sq_loop cpu_clock local_clock n sqid sqe seq) (fun r d' => exists wss dk, r = seq + Z.of_nat (length wss) /\
    (length wss ≤ n)%nat /\ sq_after sqid pcs sq (Z.of_nat (length wss)) d' /\
    queue_run sqid sqe d wss dk /\ stopped sqid sqe (sq_queue_size sq) n wss dk d') d.
Proof.
  induction n as [|n IH]; intros d sq sqe seq Hw Hsq Hrd Hrg; cbn [proc_sq_loop].
  { apply wp_ret. exists [], d. split; [cbn; lia|]. split; [done|]. split; [|by split; [constructor|]]. split; [done|]. exists sq. destruct Hrd.
    cbn. rewrite !Z.add_0_r, !u32_small by done. by split_and!. }
  apply wp_bind. pose proof (proc_io_wp Hh d pcs sqid sqe sq Hw Hsq Hrd Hrg) as Hp.
  apply wp_iff in Hp as (r & d1 & He & Hw1 & [ws Hws] & sq1 & Hsq1 & Hrd1 & Ez & Es). apply wp_iff. exists r, d1. split; [done|].
  destruct r as [io_size|].
  - apply (get_sq_wp _ _ _ _ _ Hsq1). cbv zeta. fold (count_io io_size sq1). set (sq2 := count_io io_size sq1).
    set (sqe' := if sqe + 1 =? sq_queue_size sq1 then 0 else sqe + 1).
    pose proof (aget_range _ _ _ Hsq1) as Hr. apply wp_bind. unfold wp at 1, set_sq. rewrite aset_in_range by done. cbn [mbind res_bind].
    set (d2 := dev_with_sqes _ _).
    assert (aget (sqes d2) sqid = Ok (Some sq2)) as Hsq2 by (cbn; by rewrite aget_insert, decide_True).
    assert (sq_ready sq2) as Hrd2 by (destruct Hrd1; split; cbn; try done; apply u32_range).
    assert (0 ≤ sqe' < sq_queue_size sq2 /\ sqe' = (sqe + 1) mod sq_queue_size sq) as [Hrg' Em].
    { unfold sqe'. cbn. rewrite Ez. destruct (Z.eqb_spec (sqe + 1) (sq_queue_size sq)) as [E|].
      - rewrite E, Z.mod_same by lia. lia.
      - rewrite Z.mod_small by lia. lia. }
    eapply wp_mono; [by apply (IH d2 sq2 sqe' (seq + 1))|].
    intros r d' (wss & dk & -> & Hk & [Hwa (sq' & A1 & A2 & A3 & A4 & A5)] & Hrun & Hst). exists (ws :: wss), dk. cbn [length].
    split; [lia|]. split; [lia|]. split; [|split].
    + split; [done|]. exists sq'. cbn in A3, A4, A5. rewrite Es in A4, A5. rewrite u32_add in A4, A5.
      rewrite A4, A5, A3, Ez. split_and!; try done; f_equal; lia.
    + rewrite Em in Hrun. by eapply run_next.
    + unfold stopped in *. cbn [length]. repeat case_decide; try lia; [done|]. destruct Hst as (sqk & wk & Hsqk & Hstop). exists sqk, wk.
      split; [done|]. revert Hstop. cbn. rewrite Ez, Em, Zplus_mod_idemp_l. by replace (sqe + 1 + Z.of_nat (length wss)) with (sqe + Z.of_nat (S (length wss))) by lia.
  - apply wp_ret. exists [], d. cbn [length]. split; [lia|]. split; [lia|]. split; [|split; [constructor|]].
    + split; [done|]. exists sq1. destruct Hrd. cbn. rewrite !Z.add_0_r, !u32_small, Es by done. by split_and!.
    + unfold stopped. cbn. exists sq, ws. split; [done|]. by rewrite Z.add_0_r, Z.mod_small by lia.
Qed.


(** *** The completion doorbell *)
(** The slots between two positions of a ring of [n]. *)
Definition ring_range (n i j : Z) : list Z :=
  if i <=? j then seqZ i (j - i) else seqZ i (n - i) ++ seqZ 0 j.

Definition sqid_at (cq : nvmev_completion_queue) (i : Z) : Z :=
  match cq_entry cq i with Ok e => cqe_sq_id e | Bug _ => 0 end.

(** The slots [l] are consumed: each takes one request off the count of its
    submission queue, if that still exists. *)
Record consumed_by (cq : nvmev_completion_queue) (l : list Z) d d' : Prop := {
  cb_cqes : cqes d' = cqes d;
  cb_len : length (sqes d') = length (sqes d);
  cb_none : forall s, aget (sqes d) s = Ok None -> aget (sqes d') s = Ok None;
  cb_some : forall s sq, aget (sqes d) s = Ok (Some sq) -> exists sq', aget (sqes d') s = Ok (Some sq') /\
    u32 (nr_in_flight (sq_stat sq')) = u32 (nr_in_flight (sq_stat sq) - zcount (fun i => sqid_at cq i =? s) l) /\
    sq_pages sq' = sq_pages sq /\ sq_queue_size sq' = sq_queue_size sq;
}.

Lemma u32_sub_l x y : u32 (u32 x - y) = u32 (x - y).
Proof. apply Zminus_mod_idemp_l. Qed.

Lemma ring_range_cons n i j : 0 ≤ i < n -> 0 ≤ j < n -> i <> j -> ring_range n i j = i :: ring_range n (i + 1) j.
Proof.
  intros Hi Hj Hne. unfold ring_range. destruct (Z.leb_spec i j), (Z.leb_spec (i + 1) j); try lia.
  - rewrite seqZ_cons by lia. do 2 f_equal; lia.
  - rewrite seqZ_cons by lia. cbn. do 3 f_equal; lia.
Qed.

Lemma proc_cq_loop_ok cq n new fuel : n = cq_queue_size cq -> 0 ≤ new < n ->
  (forall i, 0 ≤ i < n -> exists e, cq_entry cq i = Ok e) ->
  forall d i, (forall i, 0 ≤ i < n -> 0 ≤ sqid_at cq i < Z.of_nat (length (sqes d))) -> 0 ≤ i ≤ n ->
  Z.of_nat (length (ring_range n i new)) + (if i <=? new then 0 else 1) ≤ Z.of_nat fuel ->
  wp (proc_cq_loop fuel cq new i) (fun _ d' => consumed_by cq (ring_range n i new) d d') d.
Proof.
  intros En Hnew Hsl. induction fuel as [|fuel IH]; intros d i Hsq Hi Hf; cbn [proc_cq_loop];
    destruct (Z.eqb_spec i new) as [->|Hne].
  1, 3: apply wp_ret; unfold ring_range; rewrite Z.leb_refl, Z.sub_diag; split; try done;
    intros s sq Hs; exists sq; cbn; by rewrite Z.sub_0_r.
  { destruct (Z.leb_spec i new); [|lia]. rewrite ring_range_cons in Hf by lia. cbn in Hf. lia. }
  rewrite <- En. destruct (Z.leb_spec n i).
  - assert (i = n) as -> by lia. assert (ring_range n n new = ring_range n 0 new) as Er.
    { unfold ring_range. rewrite (proj2 (Z.leb_gt n new)), (proj2 (Z.leb_le 0 new)), Z.sub_diag, Z.sub_0_r by lia. done. }
    rewrite Er in *. apply IH; [done|lia|]. rewrite (proj2 (Z.leb_gt n new)) in Hf by lia.
    rewrite (proj2 (Z.leb_le 0 new)) by lia. lia.
  - destruct (Hsl i ltac:(lia)) as [e He]. apply (wp_lift_Ok _ _ _ _ _ He). pose proof (Hsq i ltac:(lia)) as Hr.
    assert (sqid_at cq i = cqe_sq_id e) as Ei by (unfold sqid_at; by rewrite He). rewrite Ei in Hr.
    rewrite ring_range_cons in * by lia. cbn [length] in Hf.
    assert (Z.of_nat (length (ring_range n (i + 1) new)) + (if i + 1 <=? new then 0 else 1) ≤ Z.of_nat fuel) as Hf'.
    { destruct (Z.leb_spec i new), (Z.leb_spec (i + 1) new); lia. }
    apply wp_bind. unfold wp at 1, find_sq. destruct (aget_in_range _ _ Hr) as [q Hq]. rewrite Hq. cbn [mbind res_bind].
    destruct q as [sq|].
    + cbv zeta. set (sq1 := sq_with_stat sq _). apply wp_bind. unfold wp at 1, set_sq. rewrite aset_in_range by done. cbn [mbind res_bind].
      set (d1 := dev_with_sqes _ _). eapply wp_mono; [apply (IH d1 (i + 1)); [cbn; by rewrite length_insert | lia | done]|].
      intros _ d' [C1 C2 C3 C4]. cbn in C1, C2, C3, C4. rewrite length_insert in C2. split; [done..| |].
      * intros s Hs. apply C3. rewrite aget_insert by done. rewrite decide_False; [done|]. intros <-. congruence.
      * intros s sq0 Hs. cbn [zcount]. rewrite Ei. destruct (Z.eqb_spec (cqe_sq_id e) s) as [<-|Hs'].
        -- rewrite Hq in Hs. injection Hs as <-. destruct (C4 (cqe_sq_id e) sq1) as (sq' & D1 & D2 & D3 & D4).
           { by rewrite aget_insert, decide_True. }
           exists sq'. split_and!; try done. rewrite D2. cbn. rewrite u32_sub_l. f_equal. lia.
        -- destruct (C4 s sq0) as (sq' & D1 & D2 & D3 & D4); [by rewrite aget_insert, decide_False|]. by exists sq'.
    + eapply wp_mono; [apply (IH d (i + 1)); [done | lia | done]|]. intros _ d' [C1 C2 C3 C4]. split; [done..|].
      intros s sq0 Hs. cbn [zcount]. rewrite Ei. rewrite (proj2 (Z.eqb_neq (cqe_sq_id e) s)) by congruence. by apply C4.
Qed.

(** C32. Processing a completion doorbell inside the ring ends: it consumes
    exactly the slots from the old position to the new one, around the end of
    the ring, and takes them off the counts of their submission queues.  (The
    tail it stores is [-1] when the doorbell is 0.) *)
Theorem proc_io_cq_spec d cqid cq new_db old_db :
  aget (cqes d) cqid = Ok (Some cq) -> 0 ≤ old_db < cq_queue_size cq -> 0 ≤ new_db < cq_queue_size cq ->
  (forall i, 0 ≤ i < cq_queue_size cq -> exists e, cq_entry cq i = Ok e) ->
  (forall i, 0 ≤ i < cq_queue_size cq -> 0 ≤ sqid_at cq i < Z.of_nat (length (sqes d))) ->
  exists d1 d', nvmev_proc_io_cq cqid new_db old_db d = Ok (tt, d') /\
    consumed_by cq (ring_range (cq_queue_size cq) old_db new_db) d d1 /\ sqes d' = sqes d1 /\
    aget (cqes d') cqid = Ok (Some (cq_with_tail cq (new_db - 1))).
Proof.
  intros Hcq Ho Hn Hsl Hsq. pose proof (proc_cq_loop_ok cq _ new_db (Z.to_nat (cq_queue_size cq + 1)) eq_refl Hn Hsl d old_db Hsq) as Hp.
  apply wp_iff in Hp as ([] & d1 & He & Hc); [|lia|].
  - unfold nvmev_proc_io_cq, get_cq, find_cq, mbind, prog_bind. rewrite Hcq. cbn [mbind res_bind lift deref]. rewrite He.
    pose proof (aget_range _ _ _ Hcq) as Hr. unfold set_cq. rewrite (cb_cqes _ _ _ _ Hc), aset_in_range by done. cbn [mbind res_bind].
    rewrite (proj2 (Z.eqb_neq new_db (-1))) by lia. eexists d1, _. split; [done|]. split; [done|]. split; [done|].
    cbn. by rewrite aget_insert, decide_True.
  - unfold ring_range. destruct (Z.leb_spec old_db new_db); rewrite ?length_app, ?length_seqZ; lia.
Qed.
End Sq.

(** ** A small device

    One queue pair with a ring of two completions, one worker, and a namespace
    that takes every command and completes it 100 ns later. *)
#[local] Instance unit_ops : FtlOps unit := {|
  proc_io_cmd := fun _ req ret f => Ok (true, req, set_target ret (nsecs_start req + 100), [], f);
  perform_io := fun _ f => Ok f;
  release_buffer := fun _ _ f => Ok f;
|}.

#[local] Instance unit_fine : CmdFine unit := fun _ => True.

#[local] Instance unit_total : FtlTotal (F := unit).
Proof. split; intros; by eexists. Qed.

#[local] Instance unit_handler : HandlerTotal (F := unit).
Proof. intros ? ? ? ?. by eexists. Qed.

Definition tiny_worker : nvmev_io_worker :=
  match init_worker 0 with Ok wk => wk | Bug _ => mk_worker [] 0 0 0 0 0 0 end.
Definition tiny_cmd : nvme_command := mk_cmd nvme_cmd_read 7 1 0 0 0 0 0.
Definition tiny_sq : nvmev_submission_queue :=
  mk_sq 1 1 4 (mk_stat 0 0 0 0 0) [replicate 64 tiny_cmd].
Definition tiny_cq : nvmev_completion_queue :=
  mk_cq 1 0 true false 2 1 0 (-1) [replicate 256 (mk_cqe 0 0 0 1 0 0)].
Definition tiny_io_dev : io_dev unit :=
  mk_dev [None; Some tiny_sq] [None; Some tiny_cq] [tiny_worker] 0 1 1 [0; 0; 2; 0] [0; 0; 0; 0] [] 0 tt.
Definition tiny_clock (n : nat) : Z := 1000.
Definition tiny_st0 : io_state unit := mk_io tiny_io_dev [NIL] [] [].

Lemma tiny_worker_init : init_worker 0 = Ok tiny_worker.
Proof.
  unfold tiny_worker. pose proof (init_worker_ok 0) as H. destruct (init_worker 0); [reflexivity | destruct H].
Qed.

Lemma tiny_worker_rep : wq_rep tiny_worker [] (seqZ 0 NR_MAX_PARALLEL_IO).
Proof. pose proof (init_worker_ok 0) as H. rewrite tiny_worker_init in H. apply H. Qed.

Lemma tiny_cq_ok : cq_ok tiny_cq [].
Proof.
  split; try reflexivity.
  - intros j Hj. assert (j = 0 \/ j = 1) as [-> | ->] by (cbn in Hj; lia); eexists; reflexivity.
  - intros k w Hk. rewrite lookup_nil in Hk. discriminate.
  - intros j Hj. assert (j = 0 \/ j = 1) as [-> | ->] by (cbn in Hj; lia); eexists; split; reflexivity.
Qed.

(** The entry 1 of a table of two. *)
Lemma aget_pair {A} (a b x : A) i : aget [a; b] i = Ok x -> x = a \/ i = 1 /\ x = b.
Proof.
  intros [H0 Hl]%aget_Ok. destruct (Z.to_nat i) as [|[|n]] eqn:E; cbn in Hl; [left; congruence | | discriminate Hl].
  right. split; [lia | congruence].
Qed.

Lemma tiny_start : io_start tiny_st0.
Proof.
  split; cbn [st_dev st_pcs st_accepted st_posted tiny_st0 tiny_io_dev io_workers cqes].
  - cbn [length]. lia.
  - intros turn wk [H0 Hl]%aget_Ok. destruct (Z.to_nat turn) as [|n] eqn:E; [|discriminate Hl].
    apply (inj Some) in Hl. assert (turn = 0) as -> by lia. rewrite <- Hl. exact tiny_worker_init.
  - reflexivity.
  - split; reflexivity.
  - intros cqid cq [H|[_ H]]%aget_pair; [discriminate H|]. injection H as ->. apply tiny_cq_ok.
Qed.

Lemma tiny_workers_ok : workers_ok (io_workers tiny_io_dev) [NIL].
Proof. exact (ii_workers _ (start_inv _ tiny_start)). Qed.

Lemma wp_pick {S} (m : prog S unit) Q s s0 : wp m Q s ->
  m s = Ok (tt, match m s with Ok (_, t) => t | Bug _ => s0 end).
Proof. unfold wp. by destruct (m s) as [[[] t]|]. Qed.

Lemma tiny_allocate : exists wk1, allocate_entry tiny_worker = Ok (Some (wk1, 0)).
Proof.
  destruct (allocate_ok tiny_worker [] 0 (seqZ 1 (NR_MAX_PARALLEL_IO - 1))) as [_ Ha].
  - pose proof tiny_worker_rep as H. by rewrite seqZ_cons in H by (vm_compute; reflexivity).
  - rewrite decide_False in Ha; [by eexists|]. intros E. apply (f_equal length) in E. rewrite length_seqZ in E.
    cbn [length] in E. unfold NR_MAX_PARALLEL_IO in E. lia.
Qed.

(** One request is enqueued, and the worker starts a pass. *)
Definition tiny_result : nvmev_result := mk_result 0 500 0.
Definition tiny_work : nvmev_io_work -> nvmev_io_work :=
  enqueue_work 1 1 0 (command_id tiny_cmd) 400 (tiny_clock (dev_tick tiny_io_dev)) tiny_result.
Definition tiny_acc : list nvmev_io_work := [] ++ granted tiny_io_dev 1 tiny_work.
Definition tiny_dev1 : io_dev unit :=
  match __enqueue_io_req tiny_clock 1 1 0 400 tiny_result tiny_io_dev with Ok (_, d) => d | Bug _ => tiny_io_dev end.
Definition tiny_wk1 : nvmev_io_worker :=
  match aget (io_workers tiny_dev1) 0 with Ok wk => wk | Bug _ => tiny_worker end.
Definition tiny_st1 : io_state unit := mk_io tiny_dev1 [NIL] tiny_acc [].
Definition tiny_st2 : io_state unit := mk_io tiny_dev1 [io_seq tiny_wk1] tiny_acc [].

Lemma tiny_granted : exists w, tiny_acc = [core (tiny_work w)].
Proof.
  unfold tiny_acc, granted. change (aget (io_workers tiny_io_dev) (worker_of tiny_io_dev 1)) with (Ok tiny_worker).
  cbv iota beta. destruct tiny_allocate as [wk1 ->]. by eexists.
Qed.

Lemma tiny_enqueued : wp (__enqueue_io_req tiny_clock 1 1 0 400 tiny_result)
  (fun _ d' => workers_only tiny_io_dev d' /\ workers_ok (io_workers d') [NIL] /\
     all_pending (io_workers d') ≡ₚ granted tiny_io_dev 1 tiny_work ++ all_pending (io_workers tiny_io_dev)) tiny_io_dev.
Proof.
  exact (enqueue_wp tiny_clock tiny_io_dev [NIL] 1 1 0 400 tiny_result tiny_sq tiny_cmd tiny_workers_ok eq_refl eq_refl).
Qed.

Lemma tiny_enqueue : __enqueue_io_req tiny_clock 1 1 0 400 tiny_result tiny_io_dev = Ok (tt, tiny_dev1).
Proof. exact (wp_pick _ _ _ tiny_io_dev tiny_enqueued). Qed.

Lemma tiny_reach1 : rtc (io_step tiny_clock) tiny_st0 tiny_st1.
Proof.
  eapply rtc_l; [|apply rtc_refl].
  exact (step_enqueue tiny_clock tiny_io_dev [NIL] [] [] 1 1 0 400 tiny_result tiny_dev1 tiny_sq tiny_cmd tiny_cq
    eq_refl eq_refl I eq_refl tiny_enqueue).
Qed.

Lemma tiny_workers1 : io_workers tiny_dev1 = [tiny_wk1].
Proof.
  destruct (wp_run _ _ _ _ _ tiny_enqueued tiny_enqueue) as ([_ _ Hl _] & _). unfold tiny_wk1.
  destruct (io_workers tiny_dev1) as [|wk [|? ?]]; [discriminate Hl | reflexivity | discriminate Hl].
Qed.

Lemma tiny_wk1_eq : aget (io_workers tiny_dev1) 0 = Ok tiny_wk1.
Proof. rewrite tiny_workers1. reflexivity. Qed.

Lemma tiny_reach2 : rtc (io_step tiny_clock) tiny_st0 tiny_st2.
Proof.
  eapply rtc_r; [apply tiny_reach1|]. apply (step_start tiny_clock tiny_dev1 [NIL] tiny_acc [] 0 tiny_wk1); [exact tiny_wk1_eq|].
  rewrite aset_in_range; [reflexivity | cbn [length]; lia].
Qed.

(** With a request in the chain, the pass starts at a slot. *)
Lemma busy_chain (d : io_dev unit) pcs acc wk :
  io_inv (mk_io d pcs acc []) -> io_workers d = [wk] -> length acc = 1%nat -> io_seq wk <> NIL.
Proof.
  intros H Ew Ha E. pose proof (ii_once _ H) as Ho. cbn in Ho. rewrite Ew in Ho. cbn in Ho.
  assert (pending wk = []) as Ep.
  { unfold pending, in_flight. rewrite E. by destruct (length (work_queue wk)). }
  rewrite Ep in Ho. apply Permutation_length in Ho. rewrite Ha in Ho. discriminate Ho.
Qed.

Lemma tiny_busy : io_seq tiny_wk1 <> NIL.
Proof.
  apply (busy_chain tiny_dev1 [NIL] tiny_acc tiny_wk1); [|exact tiny_workers1|].
  - exact (reach_io_inv tiny_clock unit_total tiny_st0 tiny_st1 tiny_start tiny_reach1).
  - destruct tiny_granted as [w ->]. reflexivity.
Qed.

Lemma completions_exactly_once_witness :
  (exists w, st_accepted tiny_st1 = [w]) /\
  st_accepted tiny_st1 ≡ₚ map snd (st_posted tiny_st1) ++ all_pending (io_workers (st_dev tiny_st1)).
Proof.
  split; [destruct tiny_granted as [w Hw]; exists (core (tiny_work w)); exact Hw|].
  exact (proj1 (completions_exactly_once tiny_clock unit_total tiny_st0 tiny_st1 tiny_start tiny_reach1)).
Defined.

Lemma worker_never_stuck_witness :
  exists d' pc', visit_entry tiny_clock 0 (io_seq tiny_wk1) 0 (st_dev tiny_st2) = Ok (tt, d') /\
    next_entry 0 (io_seq tiny_wk1) d' = Ok (pc', d').
Proof.
  exact (worker_never_stuck tiny_clock unit_total tiny_st0 tiny_st2 0 (io_seq tiny_wk1) 0 tiny_start tiny_reach2
    eq_refl tiny_busy).
Defined.


Lemma host_sees_completions_witness :
  exists e, cq_entry tiny_cq (slot_at (cq_queue_size tiny_cq) 0) = Ok e /\
    (phase_bit e = phase_of (cq_queue_size tiny_cq) 0 <-> (0 < length (host_log (st_posted tiny_st0) 1))%nat) /\
    forall w, host_log (st_posted tiny_st0) 1 !! 0%nat = Some w -> e = completion_of w (phase_of (cq_queue_size tiny_cq) 0).
Proof.
  exact (host_sees_completions tiny_clock unit_total tiny_st0 tiny_st0 1 tiny_cq 0 tiny_start (rtc_refl _ _) eq_refl
    (le_n 0) ltac:(discriminate)).
Defined.

Lemma enqueue_keeps_order_witness :
  exists wk1 wk' L1 L2, allocate_entry tiny_worker = Ok (Some (wk1, 0)) /\
    fill_and_insert wk1 0 (enqueue_work 1 1 0 7 400 1000 tiny_result) 500 = Ok wk' /\
    [] = L1 ++ L2 /\ in_flight wk' = L1 ++ 0 :: L2.
Proof.
  destruct tiny_allocate as [wk1 Ha]. exists wk1.
  destruct (enqueue_keeps_order tiny_worker [] _ wk1 0 1 1 0 7 400 1000 tiny_result tiny_worker_rep
    ltac:(constructor) Ha) as (wk' & L1 & L2 & H1 & H2 & H3 & _).
  exists wk', L1, L2. split; [exact Ha|]. split; [exact H1|]. split; [exact H2 | exact H3].
Defined.

(** A worker with every slot but one in flight. *)
Definition full_slots (n : Z) : list nvmev_io_work :=
  map (fun i => iw_links (if n - 2 <=? i then NIL else i + 1) (u32 (i - 1)) zero_work) (seqZ 0 n).
Definition full_worker : nvmev_io_worker :=
  mk_worker (full_slots NR_MAX_PARALLEL_IO) (NR_MAX_PARALLEL_IO - 1) (NR_MAX_PARALLEL_IO - 1) 0
    (NR_MAX_PARALLEL_IO - 2) 0 0.
Definition full_dev : io_dev unit :=
  mk_dev [None; Some tiny_sq] [None; Some tiny_cq] [full_worker] 0 1 1 [] [] [] 0 tt.

Lemma path_down f n : (forall i, 0 ≤ i < Z.of_nat n -> f i = u32 (i - 1)) -> Z.of_nat n ≤ U32_MAX ->
  path f (u32 (Z.of_nat n - 1)) (reverse (seqZ 0 (Z.of_nat n))) NIL.
Proof.
  induction n as [|n IH]; intros H Hn; [done|].
  replace (Z.of_nat (S n)) with (Z.of_nat n + 1) in * by lia. rewrite seqZ_app by lia.
  rewrite (seqZ_cons (0 + Z.of_nat n)), (seqZ_nil _ (Z.pred 1)) by lia. rewrite reverse_snoc. cbn [path]. rewrite H by lia.
  rewrite u32_small by lia. split; [lia|]. apply IH; [|lia]. intros i Hi. apply H. lia.
Qed.

Lemma full_slots_ok n : 2 < n ≤ U32_MAX ->
  Z.of_nat (length (full_slots n)) = n /\ seqZ 0 (n - 1) ++ [n - 1] = seqZ 0 n /\
  path (nx (full_slots n)) 0 (seqZ 0 (n - 1)) NIL /\
  path (pv (full_slots n)) (n - 2) (reverse (seqZ 0 (n - 1))) NIL /\ path (nx (full_slots n)) (n - 1) [n - 1] NIL.
Proof.
  intros Hm.
  assert (seqZ 0 n = seqZ 0 (n - 1) ++ [n - 1] /\ seqZ 0 (n - 1) = seqZ 0 (n - 2) ++ [n - 2]) as [E1 E2].
  { split; [replace n with (n - 1 + 1) at 1 by lia | replace (n - 1) with (n - 2 + 1) at 1 by lia];
      rewrite seqZ_app by lia; f_equal; rewrite seqZ_cons, seqZ_nil by lia; f_equal; lia. }
  assert (forall i, 0 ≤ i < n -> wget (full_slots n) i = iw_links (if n - 2 <=? i then NIL else i + 1) (u32 (i - 1)) zero_work) as G.
  { intros i Hi. unfold wget, full_slots. erewrite (proj2 (aget_Ok _ _ _)); [done|]. split; [lia|].
    rewrite list_lookup_fmap, lookup_seqZ_lt by lia. cbn [fmap option_fmap option_map]. rewrite Z.add_0_l, Z2Nat.id by lia. done. }
  split_and!.
  - unfold full_slots. rewrite length_map, length_seqZ. lia.
  - done.
  - rewrite E2. apply path_snoc. split.
    + pose proof (path_seq (nx (full_slots n)) (Z.to_nat (n - 2)) 0) as Hp. rewrite Z2Nat.id in Hp by lia. apply Hp.
      intros i Hi. unfold nx. rewrite G by lia. cbn. rewrite (proj2 (Z.leb_gt _ _)); lia.
    + unfold nx. rewrite G by lia. cbn [iw_next iw_links]. by rewrite Z.leb_refl.
  - pose proof (path_down (pv (full_slots n)) (Z.to_nat (n - 1))) as Hp.
    rewrite Z2Nat.id, u32_small in Hp by lia. replace (n - 2) with (n - 1 - 1) by lia. apply Hp; [|lia].
    intros i Hi. unfold pv. rewrite G by lia. done.
  - split; [done|]. cbn [path]. unfold nx. rewrite G by lia. cbn [iw_next iw_links]. rewrite (proj2 (Z.leb_le _ _)) by lia. done.
Qed.

Lemma full_worker_rep : wq_rep full_worker (seqZ 0 (NR_MAX_PARALLEL_IO - 1)) [NR_MAX_PARALLEL_IO - 1].
Proof.
  destruct (full_slots_ok NR_MAX_PARALLEL_IO) as (H1 & H2 & H3 & H4 & H5); [split; [reflexivity | discriminate]|].
  split; [exact H1 | exact (reflexive_eq _ _ H2) | exact H3 | exact (fun _ => H4) | exact H5 | reflexivity].
Qed.

Lemma full_queue_drops_witness :
  __enqueue_io_req tiny_clock 1 1 0 400 tiny_result full_dev = Ok (tt, full_dev).
Proof.
  apply (full_queue_drops tiny_clock full_dev 1 1 0 400 tiny_result full_worker _ _ tiny_sq eq_refl eq_refl full_worker_rep).
  exact (le_n 1).
Defined.


Lemma proc_io_cq_spec_witness :
  exists d1 d', nvmev_proc_io_cq 1 0 1 tiny_io_dev = Ok (tt, d') /\ consumed_by tiny_cq (ring_range 2 1 0) tiny_io_dev d1 /\
    sqes d' = sqes d1 /\ aget (cqes d') 1 = Ok (Some (cq_with_tail tiny_cq (-1))).
Proof.
  apply (proc_io_cq_spec tiny_io_dev 1 tiny_cq 0 1).
  - reflexivity.
  - split; vm_compute; congruence.
  - split; vm_compute; congruence.
  - intros i Hi. assert (i = 0 \/ i = 1) as [-> | ->] by (cbn in Hi; lia); eexists; reflexivity.
  - intros i Hi. assert (i = 0 \/ i = 1) as [-> | ->] by (cbn in Hi; lia); split; vm_compute; congruence.
Defined.

(** *** A concrete run

    From the doorbell to the interrupt, with a work queue of four slots: two commands fetched, their completions
    posted with phase 1 in both slots of the ring, the phase of the next turn
    reversed, one interrupt sent. *)
Definition ring_clock (n : nat) : Z := 1000 * Z.of_nat n.
Definition ring_worker : nvmev_io_worker :=
  mk_worker (map (fun i => iw_links (if i =? 3 then NIL else i + 1) (u32 (i - 1)) zero_work) [0; 1; 2; 3]) 0 3 NIL NIL 0 0.
Definition doorbell_run : option (list Z * list Z * Z * Z * list (res Z)) :=
  match (_ ← nvmev_proc_dbs ring_clock ring_clock; worker_pass ring_clock ring_clock 0)
          (dev_with_workers tiny_io_dev [ring_worker]) with
  | Ok (_, d) =>
    match aget (cqes d) 1 with
    | Ok (Some cq) => Some (old_dbs d, irqs d, cq_phase cq, cq_head cq,
                            map (fun i => e ← cq_entry cq i; Ok (phase_bit e)) [0; 1])
    | _ => None
    end
  | Bug _ => None
  end.
Example doorbell_to_interrupt : doorbell_run = Some ([0; 0; 2; 0], [0], 0, 0, [Ok 1; Ok 1]).
Proof. vm_compute. reflexivity. Qed.
