(* ===== verification/Prp.v ===== *)
(** * Walking the PRP list of a command
    (the loops of [__do_perform_io] in [src/io.c] and of
    [__prp_transfer_data] in [src/zns_mgmt_recv.c])

    A command's data lies in host pages: [prp1] with any offset, then [prp2],
    which is a page or, for longer transfers, the address of a list of page
    addresses.  Host memory is read by physical address; a mapping is the
    physical address it starts at. *)
From S2P Require Import Prelude.

Definition PAGE_SIZE : Z := 4096.
Definition PAGE_OFFSET_MASK : Z := PAGE_SIZE - 1.
Definition page_offset (paddr : Z) : Z := Z.land paddr PAGE_OFFSET_MASK.

(** Host memory by physical address, a byte each; a little-endian 64-bit read. *)
Definition host_mem : Type := Z -> Z.
Definition mem_u64 (m : host_mem) (a : Z) : Z :=
  foldr (fun i acc => m (a + Z.of_nat i) + 256 * acc) 0 (seq 0 8).

(** Bytes written at a host address. *)
Definition mem_write (m : host_mem) (a : Z) (bytes : list Z) : host_mem :=
  fun x => match aget bytes (x - a) with Ok b => b | Bug _ => m x end.

(** [size] bytes of a device buffer; reading past its end is a bug. *)
Definition buf_read (buf : list Z) (off size : Z) : res (list Z) :=
  if decide (0 ≤ off /\ 0 ≤ size /\ off + size ≤ Z.of_nat (length buf)) then
    Ok (take (Z.to_nat size) (drop (Z.to_nat off) buf))
  else Bug OutOfRange.

Section Walk.
(** [pfn_valid(paddr >> PAGE_SHIFT)]: the page has a kernel mapping. *)
Variable pfn_valid : Z -> bool.

(** [kmap_atomic_pfn(PRP_PFN(paddr))] maps the page, [memremap(paddr, ..)]
    the address itself. *)
Definition map_page (paddr : Z) : Z :=
  if pfn_valid (Z.shiftr paddr 12) then Z.shiftl (Z.shiftr paddr 12) 12 else paddr.

(** The list pointer is a [void *] plus the offset in the first case, a
    [u64 *] plus the offset in the second. *)
Definition map_list (paddr : Z) : Z :=
  if pfn_valid (Z.shiftr paddr 12) then map_page paddr + page_offset paddr
  else paddr + 8 * page_offset paddr.

(** The locals of the loop. *)
Record prp_walk := mk_walk { prp_offs : Z; prp2_offs : Z; paddr_list : option Z }.

Definition walk_start : prp_walk := mk_walk 0 0 None.

(** The address of the next page; [rd64] reads host memory. *)
Definition next_prp (rd64 : Z -> Z) (prp1 prp2 remaining : Z) (w : prp_walk) : res (prp_walk * Z) :=
  let offs := prp_offs w + 1 in
  if offs =? 1 then Ok (mk_walk offs (prp2_offs w) (paddr_list w), prp1)
  else if offs =? 2 then
    if PAGE_SIZE <? remaining then
      let l := map_list prp2 in
      Ok (mk_walk offs (prp2_offs w + 1) (Some l), rd64 (l + 8 * prp2_offs w))
    else Ok (mk_walk offs (prp2_offs w) (paddr_list w), prp2)
  else
    l ← deref (paddr_list w);
    Ok (mk_walk offs (prp2_offs w + 1) (paddr_list w), rd64 (l + 8 * prp2_offs w)).

(** The bytes of the page that this turn moves. *)
Definition prp_chunk (paddr remaining : Z) : Z :=
  let io_size := Z.min remaining PAGE_SIZE in
  let mem_offs := page_offset paddr in
  if PAGE_SIZE <? io_size + mem_offs then PAGE_SIZE - mem_offs else io_size.

Section Transfer.
Context {St : Type}.
(** Host memory of the state, and [memcpy] between [io_size] bytes at a host
    address and the device at [offset]. *)
Variable rd64 : St -> Z -> Z.
Variable memcpy : St -> Z -> Z -> Z -> res St.

Fixpoint prp_transfer_loop (fuel : nat) (s : St) (prp1 prp2 : Z) (w : prp_walk)
  (offset remaining : Z) : res St :=
  if remaining =? 0 then Ok s else
  match fuel with
  | O => Bug NoFuel
  | S fuel =>
    '(w, paddr) ← next_prp (rd64 s) prp1 prp2 remaining w;
    let vaddr := map_page paddr in
    let io_size := prp_chunk paddr remaining in
    s ← memcpy s (vaddr + page_offset paddr) offset io_size;
    prp_transfer_loop fuel s prp1 prp2 w (offset + io_size) (remaining - io_size)
  end.

(** Every turn moves at least one byte. *)
Definition prp_transfer (s : St) (prp1 prp2 offset length : Z) : res St :=
  prp_transfer_loop (Z.to_nat length) s prp1 prp2 walk_start offset length.
End Transfer.
End Walk.
