(* ===== verification/HostIo.v ===== *)
(** * Moving a command's data
    ([__do_perform_io] of [src/io.c])

    The worker copies between the device's storage and the host pages of a
    command.  [prp_addr] says where the [i]-th byte of the data lies in host
    memory; the loop of the source moves exactly those bytes. *)
From S2P Require Import Prelude Nvme Prp IoWorker.

(** Host memory and the storage of the device, a byte per address. *)
Record io_mem := mk_io_mem { host : host_mem; storage : Z -> Z }.

(** [memcpy(dst, src, n)] between two memories. *)
Definition mem_copy (dst : Z -> Z) (d : Z) (src : Z -> Z) (s n : Z) : Z -> Z :=
  fun x => if (d <=? x) && (x <? d + n) then src (s + (x - d)) else dst x.

Lemma mem_copy_in dst d src s n j : 0 ≤ j < n -> mem_copy dst d src s n (d + j) = src (s + j).
Proof.
  intros Hj. unfold mem_copy. rewrite (proj2 (Z.leb_le _ _)), (proj2 (Z.ltb_lt _ _)) by lia. cbn. f_equal. lia.
Qed.

Lemma mem_copy_out dst d src s n x : (forall j, 0 ≤ j < n -> x <> d + j) -> mem_copy dst d src s n x = dst x.
Proof.
  intros Hx. unfold mem_copy. destruct (Z.leb_spec d x), (Z.ltb_spec x (d + n)); try done. by destruct (Hx (x - d)); lia.
Qed.

Section Io.
Variable pfn_valid : Z -> bool.
(** [nvmev_vdev->ns[nsid].mapped]: where the storage of a namespace begins. *)
Variable ns_mapped : Z -> Z.

Definition __cmd_io_offset (c : nvme_command) : Z := u64 (Z.shiftl (rw_slba c) 9).

(** The copy of one page of the loop. *)
Definition io_memcpy (c : nvme_command) (s : io_mem) (vaddr offset io_size : Z) : res io_mem :=
  let dev := ns_mapped (u64 (nsid c - 1)) + offset in
  if (opcode c =? nvme_cmd_write) || (opcode c =? nvme_cmd_zone_append) then
    Ok (mk_io_mem (host s) (mem_copy (storage s) dev (host s) vaddr io_size))
  else if opcode c =? nvme_cmd_read then
    Ok (mk_io_mem (mem_copy (host s) vaddr (storage s) dev io_size) (storage s))
  else Ok s.

Definition __do_perform_io (c : nvme_command) (s : io_mem) : res (io_mem * Z) :=
  s ← prp_transfer pfn_valid (fun s => mem_u64 (host s)) (io_memcpy c) s (prp1 c) (prp2 c)
        (__cmd_io_offset c) (__cmd_io_size c);
  Ok (s, u32 (__cmd_io_size c)).
End Io.

(** ** Where a byte lies

    [prp1] holds the data up to the end of its page; the rest is the page
    [prp2] if it fits, else the pages the list at [prp2] names. *)
Section Address.
Variable rd64 : Z -> Z.
Variables prp1 prp2 len : Z.

Definition prp_first : Z := Z.min len (PAGE_SIZE - page_offset prp1).
Definition prp_listed : bool := PAGE_SIZE <? len - prp_first.
Definition prp_page (j : Z) : Z := if prp_listed then rd64 (prp2 + 8 * j) else prp2.
Definition prp_addr (i : Z) : Z :=
  if i <? prp_first then prp1 + i
  else prp_page ((i - prp_first) / PAGE_SIZE) + (i - prp_first) mod PAGE_SIZE.

(** The pages of a well-formed list: mapped, and all but the first aligned. *)
Record prp_ok (pfn_valid : Z -> bool) : Prop := {
  po_len : 0 ≤ len;
  po_valid1 : pfn_valid (Z.shiftr prp1 12) = true;
  po_valid2 : pfn_valid (Z.shiftr prp2 12) = true;
  po_page : forall j, 0 ≤ j -> j * PAGE_SIZE < len - prp_first ->
    pfn_valid (Z.shiftr (prp_page j) 12) = true /\ page_offset (prp_page j) = 0;
}.
End Address.

Lemma page_offset_mod a : page_offset a = a mod PAGE_SIZE.
Proof. unfold page_offset, PAGE_OFFSET_MASK, PAGE_SIZE. change (4096 - 1) with (Z.ones 12). by rewrite Z.land_ones. Qed.

Lemma page_offset_range a : 0 ≤ page_offset a < PAGE_SIZE.
Proof. rewrite page_offset_mod. by apply Z.mod_pos_bound. Qed.

Lemma page_base a : Z.shiftl (Z.shiftr a 12) 12 + page_offset a = a.
Proof.
  rewrite page_offset_mod, Z.shiftr_div_pow2, Z.shiftl_mul_pow2 by lia. change (2 ^ 12) with PAGE_SIZE.
  pose proof (Z.div_mod a PAGE_SIZE ltac:(done)). lia.
Qed.

Section Walk.
Context (pfn_valid : Z -> bool) {St : Type} (rd64 : St -> Z -> Z) (memcpy : St -> Z -> Z -> Z -> res St).

Lemma map_page_addr a : pfn_valid (Z.shiftr a 12) = true -> map_page pfn_valid a + page_offset a = a.
Proof. intros H. unfold map_page. rewrite H. apply page_base. Qed.

Lemma map_list_addr a : pfn_valid (Z.shiftr a 12) = true -> map_list pfn_valid a = a.
Proof. intros H. unfold map_list. rewrite H. by apply map_page_addr. Qed.

Lemma prp_chunk_eq a n : 0 ≤ n -> prp_chunk a n = Z.min n (PAGE_SIZE - page_offset a).
Proof.
  intros Hn. pose proof (page_offset_range a). unfold prp_chunk.
  destruct (Z.ltb_spec PAGE_SIZE (Z.min n PAGE_SIZE + page_offset a)); lia.
Qed.

(** *** The loop

    [walk_at k w]: the locals of the loop once [k] bytes have been moved. *)
Section Rule.
Context (rd : Z -> Z) (prp1 prp2 len off : Z) (Hok : prp_ok rd prp1 prp2 len pfn_valid).
#[local] Abbreviation first := (prp_first prp1 len).
#[local] Abbreviation addr := (prp_addr rd prp1 prp2 len).

Definition walk_at (k : Z) (w : prp_walk) : Prop :=
  k = 0 /\ w = walk_start \/
  exists m, 0 ≤ m /\ k = Z.min len (first + PAGE_SIZE * m) /\ prp_offs w = m + 1 /\ prp2_offs w = (if prp_listed prp1 len then m else 0) /\
    (1 ≤ m -> prp_listed prp1 len = true -> paddr_list w = Some prp2).

Lemma first_range : 0 < len -> 0 < first ≤ len.
Proof. intros Hl. pose proof (page_offset_range prp1). unfold prp_first. lia. Qed.

Lemma addr_first i : 0 ≤ i < first -> addr i = prp1 + i.
Proof. intros Hi. unfold prp_addr. rewrite (proj2 (Z.ltb_lt _ _)) by lia. done. Qed.

Lemma addr_page m i : 0 ≤ m -> 0 ≤ i < PAGE_SIZE -> addr (first + PAGE_SIZE * m + i) = prp_page rd prp1 prp2 len m + i.
Proof.
  intros Hm Hi. unfold prp_addr. assert (0 < PAGE_SIZE) as HP by (by vm_compute).
  rewrite (proj2 (Z.ltb_ge _ _)) by lia.
  replace (first + PAGE_SIZE * m + i - first) with (i + m * PAGE_SIZE) by lia.
  rewrite Z.div_add, Z.mod_add by lia. rewrite Z.div_small, Z.mod_small by lia. by rewrite Z.add_0_l.
Qed.

Lemma next_prp_first s w : walk_at 0 w -> 0 < len -> exists w',
  next_prp pfn_valid (rd64 s) prp1 prp2 len w = Ok (w', prp1) /\ walk_at first w'.
Proof.
  intros [[_ ->]|(m & Hm & E & _)] Hl; pose proof (first_range Hl); [|unfold PAGE_SIZE in *; lia].
  exists (mk_walk 1 0 None). split; [done|]. right. exists 0. cbn. split; [done|]. split; [lia|]. split; [done|].
  split; [by destruct (prp_listed _ _)|lia].
Qed.

Lemma next_prp_page s w m : 0 ≤ m -> walk_at (first + PAGE_SIZE * m) w -> first + PAGE_SIZE * m < len ->
  (forall j, 0 ≤ j -> prp_listed prp1 len = true -> j * PAGE_SIZE < len - first -> rd64 s (prp2 + 8 * j) = rd (prp2 + 8 * j)) ->
  exists w', next_prp pfn_valid (rd64 s) prp1 prp2 (len - (first + PAGE_SIZE * m)) w = Ok (w', prp_page rd prp1 prp2 len m) /\
    walk_at (Z.min len (first + PAGE_SIZE * (m + 1))) w'.
Proof.
  intros Hm Hw Hlt Hrd. pose proof (first_range ltac:(pose proof (page_offset_range prp1); unfold prp_first, PAGE_SIZE in *; lia)) as Hf.
  assert (0 < PAGE_SIZE) as HP by (by vm_compute).
  destruct Hw as [[? _]|(m' & Hm' & E & Eo & E2 & Hlist)]; [nia|]. assert (m' = m) as -> by nia. clear E Hm'.
  unfold next_prp. rewrite Eo. rewrite (proj2 (Z.eqb_neq _ 1)) by lia. unfold prp_page.
  destruct (Z.eqb_spec (m + 1 + 1) 2) as [Em|Em].
  - assert (m = 0) as -> by lia. rewrite Z.mul_0_r, Z.add_0_r. fold (prp_listed prp1 len).
    destruct (prp_listed prp1 len) eqn:El.
    + rewrite map_list_addr by apply Hok. rewrite E2, Hrd by (done || lia). eexists. split; [done|].
      right. exists 1. rewrite El. cbn. split_and!; try done; lia.
    + eexists. split; [done|]. right. exists 1. rewrite El. cbn. split_and!; try done; lia.
  - assert (prp_listed prp1 len = true) as El by (unfold prp_listed; apply Z.ltb_lt; nia).
    rewrite El in *. rewrite (Hlist ltac:(lia) eq_refl). cbn. rewrite E2, Hrd by (done || nia). eexists. split; [done|].
    right. exists (m + 1). rewrite El. cbn. split_and!; try done; lia.
Qed.

(** The loop moves the data in order, piece by piece: [Q k] holds when the
    first [k] bytes have been moved. *)
Lemma prp_loop_rule (Q : Z -> St -> Prop) fuel : forall s k w,
  (forall k s j, Q k s -> 0 ≤ j -> prp_listed prp1 len = true -> j * PAGE_SIZE < len - first -> rd64 s (prp2 + 8 * j) = rd (prp2 + 8 * j)) ->
  (forall k n s, 0 ≤ k -> 0 < n -> k + n ≤ len -> Q k s -> (forall j, 0 ≤ j < n -> addr (k + j) = addr k + j) ->
     returns (memcpy s (addr k) (off + k) n) (Q (k + n))) ->
  Q k s -> walk_at k w -> 0 ≤ k ≤ len -> len - k ≤ Z.of_nat fuel ->
  returns (prp_transfer_loop pfn_valid rd64 memcpy fuel s prp1 prp2 w (off + k) (len - k)) (Q len).
Proof.
  induction fuel as [|fuel IH]; intros s k w Hrd Hcp HQ Hw Hk Hf; cbn [prp_transfer_loop];
    (destruct (Z.eqb_spec (len - k) 0) as [E|E]; [cbn; by replace len with k by lia|]); [lia|].
  assert (0 < PAGE_SIZE) as HP by (by vm_compute). pose proof (first_range ltac:(lia)) as Hf1.
  assert (exists w' p n, next_prp pfn_valid (rd64 s) prp1 prp2 (len - k) w = Ok (w', p) /\ walk_at (k + n) w' /\
    pfn_valid (Z.shiftr p 12) = true /\ p = addr k /\ n = Z.min (len - k) (PAGE_SIZE - page_offset p) /\ 0 < n /\
    (forall j, 0 ≤ j < n -> addr (k + j) = addr k + j)) as (w' & p & n & Hn & Hw' & Hv & Ep & En & Hn0 & Hj).
  { destruct Hw as [[-> ->]|Hw].
    - destruct (next_prp_first s walk_start) as (w' & Hn & Hw'); [by left | lia |]. rewrite Z.sub_0_r.
      exists w', prp1, first. split; [done|]. split; [done|]. split; [apply Hok|]. split; [by rewrite addr_first, Z.add_0_r by lia|].
      split; [done|]. split; [lia|]. intros j Hj. rewrite !addr_first by lia. lia.
    - destruct Hw as (m & Hm & Ek & Hw). assert (k = first + PAGE_SIZE * m) as Ek' by lia. clear Ek. subst k.
      destruct (next_prp_page s w m Hm) as (w' & Hn & Hw'); [right; exists m; split_and!; try done; [lia|apply Hw..] | lia | eauto |].
      destruct (po_page _ _ _ _ _ Hok m Hm) as [Hv Ho]; [lia|].
      assert (addr (first + PAGE_SIZE * m) = prp_page rd prp1 prp2 len m) as Ea.
      { pose proof (addr_page m 0 Hm ltac:(lia)) as H. by rewrite !Z.add_0_r in H. }
      exists w', (prp_page rd prp1 prp2 len m), (Z.min (len - (first + PAGE_SIZE * m)) PAGE_SIZE).
      split; [done|]. split.
      { replace (first + PAGE_SIZE * m + Z.min (len - (first + PAGE_SIZE * m)) PAGE_SIZE)
          with (Z.min len (first + PAGE_SIZE * (m + 1))) by lia. done. }
      split; [done|]. split; [done|]. rewrite Ho, Z.sub_0_r. split; [done|]. split; [lia|].
      intros j Hj. rewrite Ea. apply addr_page; lia. }
  rewrite Hn. cbn [mbind res_bind]. rewrite map_page_addr by done. rewrite prp_chunk_eq, <- En, Ep by lia.
  apply returns_bind. eapply returns_mono; [apply Hcp; try done; lia|]. intros s' HQ'.
  rewrite <- Z.add_assoc. replace (len - k - n) with (len - (k + n)) by lia. apply IH; try done; lia.
Qed.

Lemma prp_transfer_rule (Q : Z -> St -> Prop) s :
  (forall k s j, Q k s -> 0 ≤ j -> prp_listed prp1 len = true -> j * PAGE_SIZE < len - first -> rd64 s (prp2 + 8 * j) = rd (prp2 + 8 * j)) ->
  (forall k n s, 0 ≤ k -> 0 < n -> k + n ≤ len -> Q k s -> (forall j, 0 ≤ j < n -> addr (k + j) = addr k + j) ->
     returns (memcpy s (addr k) (off + k) n) (Q (k + n))) ->
  Q 0 s -> returns (prp_transfer pfn_valid rd64 memcpy s prp1 prp2 off len) (Q len).
Proof.
  intros Hrd Hcp HQ. pose proof (po_len _ _ _ _ _ Hok). unfold prp_transfer.
  pose proof (prp_loop_rule Q (Z.to_nat len) s 0 walk_start Hrd Hcp HQ) as H0. rewrite Z.add_0_r, Z.sub_0_r in H0.
  apply H0; [by left | lia..].
Qed.
End Rule.
End Walk.

(** ** Moving the data of a transfer

    The storage is seen from [base]; the transfer is at [off] there. *)
Section Move.
Context (pfn_valid : Z -> bool) (memcpy : io_mem -> Z -> Z -> Z -> res io_mem) (base : Z).

Lemma mem_u64_ext (m m' : host_mem) a : (forall b, 0 ≤ b < 8 -> m (a + b) = m' (a + b)) -> mem_u64 m a = mem_u64 m' a.
Proof. intros H. unfold mem_u64. cbn. by rewrite !H by lia. Qed.

Lemma move_to_storage s prp1 prp2 off len :
  (forall s a o n, off ≤ o -> o + n ≤ off + len -> memcpy s a o n = Ok (mk_io_mem (host s) (mem_copy (storage s) (base + o) (host s) a n))) ->
  prp_ok (mem_u64 (host s)) prp1 prp2 len pfn_valid ->
  returns (prp_transfer pfn_valid (fun s => mem_u64 (host s)) memcpy s prp1 prp2 off len) (fun s' => host s' = host s /\
    forall x, storage s' x = if (base + off <=? x) && (x <? base + off + len)
      then host s (prp_addr (mem_u64 (host s)) prp1 prp2 len (x - (base + off))) else storage s x).
Proof.
  intros Hcp Hok. apply (prp_transfer_rule pfn_valid _ _ (mem_u64 (host s)) prp1 prp2 len off Hok
    (fun k s' => host s' = host s /\ forall x, storage s' x = if (base + off <=? x) && (x <? base + off + k)
       then host s (prp_addr (mem_u64 (host s)) prp1 prp2 len (x - (base + off))) else storage s x)).
  - by intros k s' j [-> _].
  - intros k n s' Hk Hn Hkn [Eh Es] Hj. rewrite Hcp by lia. cbn. split; [done|].
    intros x. rewrite Eh. destruct (decide (base + (off + k) ≤ x < base + (off + k) + n)) as [Hin|Hout].
    + replace x with (base + (off + k) + (x - (base + (off + k)))) at 1 by lia. rewrite mem_copy_in by lia.
      rewrite (proj2 (Z.leb_le _ _)), (proj2 (Z.ltb_lt _ _)) by lia. cbn. rewrite <- Hj by lia. do 2 f_equal. lia.
    + rewrite mem_copy_out, Es by lia. destruct (Z.leb_spec (base + off) x); [|done]. cbn.
      destruct (Z.ltb_spec x (base + off + k)), (Z.ltb_spec x (base + off + (k + n))); done || lia.
  - split; [done|]. intros x. destruct (Z.leb_spec (base + off) x); cbn; [|done]. by rewrite (proj2 (Z.ltb_ge _ _)) by lia.
Qed.

(** The bytes of a transfer to the host land in distinct places, none of them
    in the list of pages. *)
Record pages_ok (m : host_mem) (prp1 prp2 len : Z) : Prop := {
  pg_data : prp_ok (mem_u64 m) prp1 prp2 len pfn_valid;
  pg_inj : forall i j, 0 ≤ i < len -> 0 ≤ j < len ->
    prp_addr (mem_u64 m) prp1 prp2 len i = prp_addr (mem_u64 m) prp1 prp2 len j -> i = j;
  pg_list : prp_listed prp1 len = true -> forall i j b, 0 ≤ i < len -> 0 ≤ b < 8 ->
    0 ≤ j -> j * PAGE_SIZE < len - prp_first prp1 len -> prp_addr (mem_u64 m) prp1 prp2 len i <> prp2 + 8 * j + b;
}.

(** [st] is the device's side: the storage, or a buffer. *)
Lemma move_to_host (st : Z -> Z) s prp1 prp2 off len :
  (forall s' a o n, off ≤ o -> o + n ≤ off + len -> storage s' = storage s ->
     memcpy s' a o n = Ok (mk_io_mem (mem_copy (host s') a st (base + o) n) (storage s'))) ->
  pages_ok (host s) prp1 prp2 len -> 0 ≤ len ->
  returns (prp_transfer pfn_valid (fun s => mem_u64 (host s)) memcpy s prp1 prp2 off len) (fun s' => storage s' = storage s /\
    (forall i, 0 ≤ i < len -> host s' (prp_addr (mem_u64 (host s)) prp1 prp2 len i) = st (base + off + i)) /\
    (forall x, (forall i, 0 ≤ i < len -> x <> prp_addr (mem_u64 (host s)) prp1 prp2 len i) -> host s' x = host s x)).
Proof.
  intros Hcp [Hok Hinj Hli] Hlen. set (addr := prp_addr (mem_u64 (host s)) prp1 prp2 len) in *.
  eapply returns_mono; [apply (prp_transfer_rule pfn_valid _ _ (mem_u64 (host s)) prp1 prp2 len off Hok
    (fun k s' => 0 ≤ k ≤ len /\ storage s' = storage s /\
       (forall i, 0 ≤ i < k -> host s' (addr i) = st (base + off + i)) /\
       (forall x, (forall i, 0 ≤ i < k -> x <> addr i) -> host s' x = host s x)))|].
  - intros k s' j (Hk & _ & _ & Hx) Hj Hlst Hlt. apply mem_u64_ext. intros b Hb. apply Hx. intros i Hi E.
    by apply (Hli Hlst i j b); [lia..|].
  - intros k n s' Hk Hn Hkn (_ & Est & Hd & Hx) Hj. fold addr in Hj. fold (addr k). rewrite Hcp by (done || lia).
    cbn. split; [lia|]. split; [done|]. split.
    + intros i Hi. destruct (decide (i < k)) as [Hlt|Hge].
      * rewrite mem_copy_out; [apply Hd; lia|]. intros j Hjn E. rewrite <- Hj in E by done. apply Hinj in E; lia.
      * replace i with (k + (i - k)) by lia. rewrite Hj, mem_copy_in by lia. f_equal. lia.
    + intros x Hxi. rewrite mem_copy_out; [apply Hx; intros; apply Hxi; lia|].
      intros j Hjn ->. apply (Hxi (k + j)); [lia|]. by rewrite Hj.
  - split; [lia|]. split; [done|]. split; [lia|]. done.
  - by intros s' (_ & H).
Qed.
End Move.

(** ** The data of a command *)
Section Command.
Context (pfn_valid : Z -> bool) (ns_mapped : Z -> Z).
Implicit Types (c : nvme_command) (s : io_mem).

(** Where the bytes of [c] lie: in host memory [m], and on the device. *)
Definition data_addr (m : host_mem) c (i : Z) : Z := prp_addr (mem_u64 m) (prp1 c) (prp2 c) (__cmd_io_size c) i.
Definition dev_addr c (i : Z) : Z := ns_mapped (u64 (nsid c - 1)) + __cmd_io_offset c + i.
Definition data_ok (m : host_mem) c : Prop := prp_ok (mem_u64 m) (prp1 c) (prp2 c) (__cmd_io_size c) pfn_valid.

Lemma __cmd_io_size_eq c : __cmd_io_size c = (rw_length c + 1) * 512 /\ 0 < __cmd_io_size c ≤ 33554432.
Proof.
  pose proof (rw_length_range c). unfold __cmd_io_size. rewrite Z.shiftl_mul_pow2 by lia. change (2 ^ 9) with 512.
  rewrite u64_small by (unfold U64_MAX; lia). lia.
Qed.

Definition is_write c : bool := (opcode c =? nvme_cmd_write) || (opcode c =? nvme_cmd_zone_append).

Lemma write_moves c s : is_write c = true -> data_ok (host s) c ->
  returns (__do_perform_io pfn_valid ns_mapped c s) (fun '(s', n) => n = __cmd_io_size c /\ host s' = host s /\
    forall x, storage s' x = if (dev_addr c 0 <=? x) && (x <? dev_addr c (__cmd_io_size c))
                             then host s (data_addr (host s) c (x - dev_addr c 0)) else storage s x).
Proof.
  intros Hop Hok. pose proof (__cmd_io_size_eq c) as [_ Hl]. unfold __do_perform_io. apply returns_bind.
  eapply returns_mono; [apply (move_to_storage pfn_valid _ (ns_mapped (u64 (nsid c - 1)))); [|exact Hok]|].
  - intros s' a o n _ _. unfold io_memcpy. fold (is_write c). by rewrite Hop.
  - intros s' [Eh Es]. cbn. split; [apply u32_small; unfold U32_MAX; lia|]. split; [done|].
    intros x. rewrite Es. unfold dev_addr. by rewrite Z.add_0_r.
Qed.

Definition read_ok (m : host_mem) c : Prop := pages_ok pfn_valid m (prp1 c) (prp2 c) (__cmd_io_size c).

Lemma read_moves c s : opcode c = nvme_cmd_read -> read_ok (host s) c ->
  returns (__do_perform_io pfn_valid ns_mapped c s) (fun '(s', n) => n = __cmd_io_size c /\ storage s' = storage s /\
    (forall i, 0 ≤ i < __cmd_io_size c -> host s' (data_addr (host s) c i) = storage s (dev_addr c i)) /\
    (forall x, (forall i, 0 ≤ i < __cmd_io_size c -> x <> data_addr (host s) c i) -> host s' x = host s x)).
Proof.
  intros Hop Hok. pose proof (__cmd_io_size_eq c) as [_ Hl]. unfold __do_perform_io. apply returns_bind.
  eapply returns_mono; [apply (move_to_host pfn_valid _ (ns_mapped (u64 (nsid c - 1))) (storage s)); [|exact Hok | lia]|].
  - intros s' a o n _ _ Est. unfold io_memcpy. rewrite Hop, Est. done.
  - intros s' (Est & Hd & Hx). cbn. split; [apply u32_small; unfold U32_MAX; lia|]. done.
Qed.

(** ** A sequence of commands

    Between commands the host may change its memory at will: each command
    comes with the memory it is performed in.  [perform_all] threads the
    storage through them. *)
Fixpoint perform_all (st : Z -> Z) (l : list (host_mem * nvme_command)) : res (Z -> Z) :=
  match l with
  | [] => Ok st
  | (m, c) :: l => '(s, _) ← __do_perform_io pfn_valid ns_mapped c (mk_io_mem m st); perform_all (storage s) l
  end.

Definition in_data c (x : Z) : Prop := exists i, 0 ≤ i < __cmd_io_size c /\ x = dev_addr c i.

Definition io_ok (m : host_mem) c : Prop :=
  if is_write c then data_ok m c else opcode c = nvme_cmd_read /\ read_ok m c.

Lemma in_data_spec c x : in_data c x <-> dev_addr c 0 ≤ x < dev_addr c (__cmd_io_size c).
Proof.
  unfold in_data, dev_addr. split; [intros (i & Hi & ->); lia|].
  intros Hx. exists (x - (ns_mapped (u64 (nsid c - 1)) + __cmd_io_offset c)). lia.
Qed.

Lemma perform_one c m st (X : Z -> Prop) : io_ok m c -> (is_write c = true -> forall x, X x -> ~ in_data c x) ->
  returns (__do_perform_io pfn_valid ns_mapped c (mk_io_mem m st)) (fun '(s, _) => forall x, X x -> storage s x = st x).
Proof.
  unfold io_ok. intros Hok Hx. destruct (is_write c) eqn:Ew.
  - eapply returns_mono; [by apply write_moves|]. intros [s n] (_ & _ & Hs) x HX. rewrite Hs.
    destruct (Z.leb_spec (dev_addr c 0) x), (Z.ltb_spec x (dev_addr c (__cmd_io_size c))); try done.
    destruct (Hx eq_refl x HX). by apply in_data_spec.
  - destruct Hok as [Hr Hok]. eapply returns_mono; [by apply read_moves|]. by intros [s n] (_ & -> & _).
Qed.

Lemma perform_all_keeps l : forall st (X : Z -> Prop),
  Forall (fun '(m, c) => io_ok m c /\ (is_write c = true -> forall x, X x -> ~ in_data c x)) l ->
  returns (perform_all st l) (fun st' => forall x, X x -> st' x = st x).
Proof.
  induction l as [|[m c] l IH]; intros st X Hl; [done|]. apply Forall_cons in Hl as [[Hok Hx] Hl]. cbn [perform_all].
  apply returns_bind. eapply returns_mono; [by apply perform_one|]. intros [s n] Hs.
  eapply returns_mono; [by apply IH|]. intros st' Hst x HX. by rewrite Hst, Hs.
Qed.

(** What a command reads back is what was written. *)
Definition same_range c c' : Prop := nsid c' = nsid c /\ rw_slba c' = rw_slba c /\ rw_length c' = rw_length c.

(** C8. The device stores: write a range of blocks, perform any number of
    other commands that do not write into it, whatever the host does to its
    memory meanwhile, and read the range back through any other pages; the
    pages of the read then hold, byte for byte, what the pages of the write
    held.  Nothing in the two page lists need agree. *)
Theorem io_roundtrip w r (mw mr : host_mem) (st : Z -> Z) l :
  is_write w = true -> data_ok mw w -> opcode r = nvme_cmd_read -> read_ok mr r -> same_range w r ->
  Forall (fun '(m, c) => io_ok m c /\ (is_write c = true -> forall x, in_data w x -> ~ in_data c x)) l ->
  returns ('(s, _) ← __do_perform_io pfn_valid ns_mapped w (mk_io_mem mw st);
           st ← perform_all (storage s) l;
           __do_perform_io pfn_valid ns_mapped r (mk_io_mem mr st))
    (fun '(s, n) => n = __cmd_io_size w /\
       forall i, 0 ≤ i < __cmd_io_size w -> host s (data_addr mr r i) = mw (data_addr mw w i)).
Proof.
  intros Hw Hmw Hr Hmr (En & Es & El) Hl. assert (__cmd_io_size r = __cmd_io_size w) as Elen by (unfold __cmd_io_size; by rewrite El).
  apply returns_bind. eapply returns_mono; [by apply write_moves|]. intros [s1 n1] (_ & _ & Hs1).
  apply returns_bind. eapply returns_mono; [by apply (perform_all_keeps l _ (in_data w))|]. intros st' Hst.
  eapply returns_mono; [by apply read_moves|]. intros [s2 n2] (-> & _ & Hd & _). split; [done|]. intros i Hi. cbn in Hd.
  rewrite Hd by (by rewrite Elen). replace (dev_addr r i) with (dev_addr w i) by (unfold dev_addr, __cmd_io_offset; by rewrite En, Es).
  assert (in_data w (dev_addr w i)) as Hin by (by exists i).
  rewrite Hst, Hs1 by done. apply in_data_spec in Hin. rewrite (proj2 (Z.leb_le _ _)), (proj2 (Z.ltb_lt _ _)) by lia.
  cbn. f_equal. unfold dev_addr. f_equal. lia.
Qed.
End Command.

(** ** A three-page transfer

    Data that starts 512 bytes into a page and goes on in the pages a list
    names. *)
Definition tiny_pages : host_mem := fun x =>
  if x =? 0x20002 then 3 else if x =? 0x2000a then 3 else if x =? 0x20012 then 3
  else if x =? 0x20009 then 0x10 else if x =? 0x20011 then 0x20 else 0.
(** The host has put [x mod 251] at every address of the data. *)
Definition tiny_filled : host_mem := fun x => if x <? 0x20000 then x mod 251 else if x <? 0x30000 then tiny_pages x else x mod 251.
Definition tiny_write : nvme_command := mk_cmd nvme_cmd_write 1 1 0x10200 0x20000 100 23 0.
Definition tiny_read : nvme_command := mk_cmd nvme_cmd_read 2 1 0x10200 0x20000 100 23 0.
(** One block elsewhere. *)
Definition tiny_other : nvme_command := mk_cmd nvme_cmd_write 3 1 0x7000 0 124 0 0.

Lemma tiny_page m c j : prp1 c = 0x10200 -> prp2 c = 0x20000 -> __cmd_io_size c = 12288 ->
  (forall x, 0x20000 ≤ x < 0x20100 -> m x = tiny_pages x) ->
  0 ≤ j -> j * PAGE_SIZE < __cmd_io_size c - prp_first (prp1 c) (__cmd_io_size c) ->
  prp_page (mem_u64 m) (prp1 c) (prp2 c) (__cmd_io_size c) j = 0x30000 + 0x1000 * j.
Proof.
  intros -> -> -> Hm Hj Hlt. change (prp_first 66048 12288) with 3584 in Hlt. change PAGE_SIZE with 4096 in Hlt.
  assert (j = 0 \/ j = 1 \/ j = 2) as Hc by lia. unfold prp_page. change (prp_listed 66048 12288) with true. cbn iota.
  rewrite (mem_u64_ext m tiny_pages) by (intros; apply Hm; lia). by destruct Hc as [-> | [-> | ->]].
Qed.

Lemma tiny_addr m c i : prp1 c = 0x10200 -> prp2 c = 0x20000 -> __cmd_io_size c = 12288 ->
  (forall x, 0x20000 ≤ x < 0x20100 -> m x = tiny_pages x) -> 0 ≤ i < 12288 ->
  data_addr m c i = if i <? 3584 then 0x10200 + i else 0x30000 + (i - 3584).
Proof.
  intros E1 E2 El Hm Hi. unfold data_addr, prp_addr. rewrite El, E1, E2. change (prp_first 66048 12288) with 3584.
  destruct (Z.ltb_spec i 3584); [done|]. change PAGE_SIZE with 4096.
  pose proof (tiny_page m c ((i - 3584) / 4096) E1 E2 El Hm) as Hp. rewrite El, E1, E2 in Hp.
  change (prp_first 66048 12288) with 3584 in Hp. change PAGE_SIZE with 4096 in Hp.
  pose proof (Z.div_mod (i - 3584) 4096 ltac:(lia)). pose proof (Z.mod_pos_bound (i - 3584) 4096 ltac:(lia)).
  rewrite Hp by lia. lia.
Qed.

Lemma tiny_data_ok m c : prp1 c = 0x10200 -> prp2 c = 0x20000 -> __cmd_io_size c = 12288 ->
  (forall x, 0x20000 ≤ x < 0x20100 -> m x = tiny_pages x) -> data_ok (fun _ => true) m c.
Proof.
  intros E1 E2 El Hm. split; [lia | done | done|]. intros j Hj Hlt. split; [done|].
  rewrite (tiny_page m c j), page_offset_mod by done. change PAGE_SIZE with 4096.
  replace (196608 + 4096 * j) with ((48 + j) * 4096) by lia. by apply Z.mod_mul.
Qed.

Lemma tiny_read_ok m c : prp1 c = 0x10200 -> prp2 c = 0x20000 -> __cmd_io_size c = 12288 ->
  (forall x, 0x20000 ≤ x < 0x20100 -> m x = tiny_pages x) -> read_ok (fun _ => true) m c.
Proof.
  intros E1 E2 El Hm. split; [by apply tiny_data_ok|..].
  - intros i j Hi Hj. fold (data_addr m c i) (data_addr m c j). rewrite El in *. rewrite !tiny_addr by done. destruct (Z.ltb_spec i 3584), (Z.ltb_spec j 3584); lia.
  - intros _ i j b Hi Hb Hj. fold (data_addr m c i). rewrite El in *. rewrite tiny_addr, E1, E2 by done. change (prp_first 66048 12288) with 3584. change PAGE_SIZE with 4096.
    destruct (Z.ltb_spec i 3584); lia.
Qed.

Lemma tiny_other_ok : io_ok (fun _ => true) (fun _ => 7) tiny_other.
Proof.
  split; [by vm_compute | done | done|]. intros j Hj Hlt. exfalso. unfold prp_first in Hlt.
  change (__cmd_io_size tiny_other) with 512 in Hlt. change (page_offset (prp1 tiny_other)) with 0 in Hlt.
  change PAGE_SIZE with 4096 in Hlt. lia.
Qed.

Lemma tiny_apart x : in_data (fun _ => 0) tiny_write x -> ~ in_data (fun _ => 0) tiny_other x.
Proof.
  rewrite !in_data_spec. change (dev_addr (fun _ => 0) tiny_write (__cmd_io_size tiny_write)) with 63488.
  change (dev_addr (fun _ => 0) tiny_other 0) with 63488. lia.
Qed.

Lemma io_roundtrip_witness :
  returns ('(s, _) ← __do_perform_io (fun _ => true) (fun _ => 0) tiny_write (mk_io_mem tiny_filled (fun _ => 0));
           st ← perform_all (fun _ => true) (fun _ => 0) (storage s) [((fun _ => 7) : host_mem, tiny_other)];
           __do_perform_io (fun _ => true) (fun _ => 0) tiny_read (mk_io_mem tiny_pages st))
    (fun '(s, n) => n = __cmd_io_size tiny_write /\
       forall i, 0 ≤ i < __cmd_io_size tiny_write -> host s (data_addr tiny_pages tiny_read i) = tiny_filled (data_addr tiny_filled tiny_write i)).
Proof.
  apply (io_roundtrip (fun _ => true) (fun _ => 0) tiny_write tiny_read tiny_filled tiny_pages (fun _ => 0) [((fun _ => 7) : host_mem, tiny_other)]).
  - reflexivity.
  - apply tiny_data_ok; try reflexivity. intros x Hx. unfold tiny_filled.
    destruct (Z.ltb_spec x 0x20000); [lia|]. destruct (Z.ltb_spec x 0x30000); [reflexivity|lia].
  - reflexivity.
  - by apply tiny_read_ok.
  - done.
  - apply Forall_singleton. split; [apply tiny_other_ok|]. intros _. apply tiny_apart.
Defined.
