(* ===== verification/KvFtl.v ===== *)
(** * The key-value FTL
    ([src/kv_ftl.c], [src/kv_ftl.h], [src/nvme_kv.h])

    Keys are kept in a hash table whose slots are chained: a key goes to its
    slot, or to the next free slot after the end of the chain that starts
    there.  Values lie in the storage where the allocator put them.  A command
    is performed by an I/O worker, which finds the key, moves the value and
    updates the table. *)
From S2P Require Import Prelude Nvme SimpleFtl Alloc Prp IoWorker HostIo.

(** ** Commands

    The 64 bytes of [struct nvme_kv_command]; every member of the union has
    the value pointers, double word 10, the bytes of double word 11 and the
    last 16 bytes (the inline key) at the same place. *)
Definition nvme_cmd_kv_store : Z := 0x81.
Definition nvme_cmd_kv_append : Z := 0x83.
Definition nvme_cmd_kv_batch : Z := 0x85.
Definition nvme_cmd_kv_retrieve : Z := 0x90.
Definition nvme_cmd_kv_delete : Z := 0xA1.
Definition nvme_cmd_kv_iter_req : Z := 0xB1.
Definition nvme_cmd_kv_iter_read : Z := 0xB2.
Definition nvme_cmd_kv_exist : Z := 0xB3.

Record nvme_kv_command := mk_kv {
  kv_opcode : Z;
  kv_prp1 : Z;
  kv_prp2 : Z;
  kv_value_len : Z;
  kv_key_len : Z;
  kv_option : Z;
  kv_rsvd4 : Z;
  kv_key : list Z;
}.

Definition KV_ERR_KEY_NOT_EXIST : Z := 0x310.
Definition ITER_OPTION_OPEN : Z := 0x01.
Definition ITER_OPTION_CLOSE : Z := 0x02.
Definition MAX_SUB_CMD : Z := 8.
Definition ALIGN_LEN : Z := 64.

Definition is_kv_cmd (op : Z) : bool :=
  bool_decide (op ∈ [nvme_cmd_kv_append; nvme_cmd_kv_store; nvme_cmd_kv_retrieve; nvme_cmd_kv_delete;
                     nvme_cmd_kv_iter_req; nvme_cmd_kv_iter_read; nvme_cmd_kv_exist; nvme_cmd_kv_batch]).
Definition is_kv_iter_cmd (op : Z) : bool := (op =? nvme_cmd_kv_iter_req) || (op =? nvme_cmd_kv_iter_read).

(** The key is at most 256 bytes long, the value at most 4 GiB. *)
Definition cmd_key_length (cmd : nvme_kv_command) : Z := kv_key_len cmd + 1.
Definition cmd_value_length (cmd : nvme_kv_command) : Z := u32 (Z.shiftl (kv_value_len cmd) 2).
Definition kv_io_cmd_value_prp (cmd : nvme_kv_command) (n : Z) : Z :=
  if n =? 1 then kv_prp1 cmd else if n =? 2 then kv_prp2 cmd else 0.

(** The bytes of the iterator's two words. *)
Definition iter_handle_of (cmd : nvme_kv_command) : Z := kv_key_len cmd.
Definition iter_val (cmd : nvme_kv_command) : Z := le_word (take 4 (kv_key cmd)).
Definition iter_bitmask (cmd : nvme_kv_command) : Z := le_word (take 4 (drop 4 (kv_key cmd))).

(** ** The state *)
Definition KEY_SIZE : nat := 18.
(** [GB(1)] of table and [ALLOCATOR_TYPE_APPEND_ONLY] in [ssd_config.h]. *)
Definition KV_MAPPING_TABLE_SIZE : Z := 1073741824.
Definition kv_allocator : allocator_ops AppendOnly.ao_state := AppendOnly.append_only_ops.
(** [-1] as a [size_t] and as an [unsigned int]. *)
Definition FREE : Z := U64_MAX.
Definition NO_SLOT : Z := U32_MAX.

Record mapping_entry := mk_entry {
  me_key : list Z;
  mem_offset : Z;
  me_length : Z;
  next_slot : Z;
}.

(** [memset(&mapping, -1, sizeof(struct mapping_entry))]. *)
Definition cleared_entry : mapping_entry := mk_entry (replicate KEY_SIZE 255) FREE U64_MAX NO_SLOT.

Record kv_iter_context := mk_iter {
  ki_prefix : Z;
  ki_bitmask : Z;
  ki_buf : Z -> Z;
  ki_byteswritten : Z;
  ki_bufoffset : Z;
  ki_end : bool;
  ki_current_pos : Z;
}.

(** An element of [iter_handle[17]]: the array comes from [kmalloc]. *)
Inductive iter_ptr :=
| IterUninit
| IterNull
| IterAt (h : kv_iter_context).

Record kv_ftl (A : Type) := mk_kvftl {
  kv_mapping_table : list mapping_entry;
  hash_slots : Z;
  allocator_state : A;
  iter_handle : list iter_ptr;
}.
Arguments mk_kvftl {A}.
Arguments kv_mapping_table {A}.
Arguments hash_slots {A}.
Arguments allocator_state {A}.
Arguments iter_handle {A}.

Definition kv_with_table {A} (kv : kv_ftl A) (t : list mapping_entry) : kv_ftl A :=
  mk_kvftl t (hash_slots kv) (allocator_state kv) (iter_handle kv).
Definition kv_with_alloc {A} (kv : kv_ftl A) (a : A) : kv_ftl A :=
  mk_kvftl (kv_mapping_table kv) (hash_slots kv) a (iter_handle kv).
Definition kv_with_iters {A} (kv : kv_ftl A) (l : list iter_ptr) : kv_ftl A :=
  mk_kvftl (kv_mapping_table kv) (hash_slots kv) (allocator_state kv) l.

(** ** The hash table

    The functions below see the table as a list of slots. *)
Definition hash_function (key : list Z) (length : Z) : res Z :=
  for_loop (Z.to_nat length) 0 (fun i h => p ← aget key i; Ok (Z.lxor (u32 (h * 16777619)) p)) 2166136261.

Definition get_hash_slot (slots : Z) (key : list Z) (key_len : Z) : res Z :=
  h ← hash_function key key_len; s ← checked_mod h slots; Ok (u32 s).

(** [memcmp(a, b, n) == 0] and [memcpy(dst, src, n)] on two arrays. *)
Definition memcmp_eq (a b : list Z) (n : Z) : res bool :=
  if (n <=? Z.of_nat (length a)) && (n <=? Z.of_nat (length b))
  then Ok (bool_decide (take (Z.to_nat n) a = take (Z.to_nat n) b)) else Bug OutOfRange.
Definition memcpy_key (dst src : list Z) (n : Z) : res (list Z) :=
  if (n <=? Z.of_nat (length src)) && (n <=? Z.of_nat (length dst))
  then Ok (take (Z.to_nat n) src ++ drop (Z.to_nat n) dst) else Bug OutOfRange.

(** The loop that [update_mapping_entry], [get_mapping_entry] and
    [delete_mapping_entry] share: the slot of the key, if its chain has it. *)
Fixpoint find_key (fuel : nat) (t : list mapping_entry) (key : list Z) (key_len slot : Z) : res (option Z) :=
  match fuel with
  | O => Bug NoFuel
  | S fuel =>
    e ← aget t slot;
    if mem_offset e =? FREE then Ok None
    else
      eq ← memcmp_eq key (me_key e) key_len;
      if eq : bool then Ok (Some slot)
      else if next_slot e =? NO_SLOT then Ok None
      else find_key fuel t key key_len (next_slot e)
  end.

(** The first loop of [find_next_slot]: the last used slot of the chain. *)
Fixpoint chain_tail (fuel : nat) (t : list mapping_entry) (tail prevs : Z) : res Z :=
  match fuel with
  | O => Bug NoFuel
  | S fuel =>
    e ← aget t tail;
    if mem_offset e =? FREE then Ok prevs
    else if next_slot e =? NO_SLOT then Ok tail
    else chain_tail fuel t (next_slot e) tail
  end.

(** The second loop: the next free slot, round the table. *)
Fixpoint next_free (fuel : nat) (t : list mapping_entry) (slots slot : Z) : res Z :=
  match fuel with
  | O => Bug NoFuel
  | S fuel =>
    e ← aget t slot;
    if mem_offset e =? FREE then Ok slot
    else next_free fuel t slots (if slots <=? u32 (slot + 1) then 0 else u32 (slot + 1))
  end.

Section Kv.
Context {A : Type} (ops : allocator_ops A).
(** [nvmev_vdev->config.storage_size]. *)
Variable storage_size : Z.
(** What [kmalloc] leaves in a fresh buffer. *)
Variable kmalloc_bytes : Z -> Z.
Implicit Types (kv : kv_ftl A) (cmd : nvme_kv_command) (s : io_mem).

(** A chain has no slot twice, so the slots bound the walks. *)
Definition lookup_slot kv (key : list Z) (key_len : Z) : res (option Z) :=
  slot ← get_hash_slot (hash_slots kv) key key_len;
  find_key (length (kv_mapping_table kv)) (kv_mapping_table kv) key key_len slot.

(** The new slot and the slot to link it from. *)
Definition find_next_slot kv (original_slot : Z) : res (Z * Z) :=
  let t := kv_mapping_table kv in
  prevs ← chain_tail (length t) t original_slot NO_SLOT;
  slot ← next_free (length t) t (hash_slots kv) prevs;
  Ok (slot, prevs).

Definition chain_mapping kv (prev slot : Z) : res (kv_ftl A) :=
  t ← aupd (kv_mapping_table kv) prev (fun e => mk_entry (me_key e) (mem_offset e) (me_length e) slot);
  Ok (kv_with_table kv t).

Definition new_mapping_entry_by_key kv (key : list Z) (key_len val_len val_offset : Z) : res (kv_ftl A) :=
  _ ← NVMEV_ASSERT (negb (storage_size <=? val_offset));
  slot ← get_hash_slot (hash_slots kv) key key_len;
  e ← aget (kv_mapping_table kv) slot;
  '(slot, prev_slot) ← (if mem_offset e =? FREE then Ok (slot, NO_SLOT) else find_next_slot kv slot);
  t ← amod (kv_mapping_table kv) slot (fun e =>
        k ← memcpy_key (me_key e) key key_len; Ok (mk_entry k val_offset (u64 val_len) (next_slot e)));
  let kv := kv_with_table kv t in
  if prev_slot =? NO_SLOT then Ok kv else chain_mapping kv prev_slot slot.

(** The same text on the fields of a command. *)
Definition new_mapping_entry kv cmd (val_offset : Z) : res (kv_ftl A) :=
  new_mapping_entry_by_key kv (kv_key cmd) (cmd_key_length cmd) (cmd_value_length cmd) val_offset.

(** Returns 0, or 1 when the key is not there. *)
Definition update_mapping_entry kv cmd : res (kv_ftl A * Z) :=
  f ← lookup_slot kv (kv_key cmd) (cmd_key_length cmd);
  match f with
  | Some slot =>
    t ← aupd (kv_mapping_table kv) slot (fun e => mk_entry (me_key e) (mem_offset e) (cmd_value_length cmd) (next_slot e));
    Ok (kv_with_table kv t, 0)
  | None => Ok (kv, 1)
  end.

Definition get_mapping_entry_by_key kv (key : list Z) (key_len : Z) : res mapping_entry :=
  f ← lookup_slot kv key key_len;
  match f with
  | Some slot =>
    e ← aget (kv_mapping_table kv) slot;
    k ← memcpy_key (me_key cleared_entry) (me_key e) key_len;
    Ok (mk_entry k (mem_offset e) (me_length e) (next_slot e))
  | None => Ok cleared_entry
  end.

Definition get_mapping_entry kv cmd : res mapping_entry :=
  get_mapping_entry_by_key kv (kv_key cmd) (cmd_key_length cmd).

(** The entry it returns is not used. *)
Definition delete_mapping_entry kv cmd : res (kv_ftl A) :=
  f ← lookup_slot kv (kv_key cmd) (cmd_key_length cmd);
  match f with
  | Some slot => t ← aset (kv_mapping_table kv) slot cleared_entry; Ok (kv_with_table kv t)
  | None => Ok kv
  end.

(** ** Moving a value *)
Definition allocate_mem_offset_by_length kv (val_len : Z) : res (Z * kv_ftl A) :=
  '(offset, a) ← allocate ops (u64 val_len) (allocator_state kv);
  Ok (if offset =? FREE then 0 else offset, kv_with_alloc kv a).

Definition allocate_mem_offset kv cmd : res (Z * kv_ftl A) :=
  if kv_opcode cmd =? nvme_cmd_kv_store then allocate_mem_offset_by_length kv (cmd_value_length cmd)
  else Ok (0, kv).

Definition in_storage (offset n : Z) : bool := (0 <=? offset) && (offset + n <=? storage_size).

Definition kv_memcpy cmd s (vaddr offset io_size : Z) : res io_mem :=
  if kv_opcode cmd =? nvme_cmd_kv_store then
    if in_storage offset io_size then Ok (mk_io_mem (host s) (mem_copy (storage s) offset (host s) vaddr io_size)) else Bug OutOfRange
  else if kv_opcode cmd =? nvme_cmd_kv_retrieve then
    if in_storage offset io_size then Ok (mk_io_mem (mem_copy (host s) vaddr (storage s) offset io_size) (storage s)) else Bug OutOfRange
  else Ok s.

(** The pages are all mapped with [kmap_atomic_pfn]. *)
Definition kv_transfer cmd s (offset length : Z) : res io_mem :=
  prp_transfer (fun _ => true) (fun s => mem_u64 (host s)) (kv_memcpy cmd) s
    (kv_io_cmd_value_prp cmd 1) (kv_io_cmd_value_prp cmd 2) offset length.

(** What the first part of [__do_perform_kv_io] decides. *)
Inductive kv_plan :=
| KvReturn (status : Z)
| KvMove (offset length : Z) (is_insert : Z).

Definition plan_kv_io kv cmd (entry : mapping_entry) (status : Z) : res (kv_plan * kv_ftl A) :=
  let missing := mem_offset entry =? FREE in
  let length := cmd_value_length cmd in
  if kv_opcode cmd =? nvme_cmd_kv_store then
    if missing then '(new_offset, kv) ← allocate_mem_offset kv cmd; Ok (KvMove new_offset length 1, kv)
    else if negb (length =? me_length entry) && (length <=? Bitmap.SMALL_LENGTH) && (me_length entry <=? Bitmap.SMALL_LENGTH)
    then Ok (KvMove (mem_offset entry) length 2, kv)
    else Ok (KvMove (mem_offset entry) length 0, kv)
  else if kv_opcode cmd =? nvme_cmd_kv_retrieve then
    if missing then Ok (KvReturn KV_ERR_KEY_NOT_EXIST, kv)
    else Ok (KvMove (mem_offset entry) (Z.min (me_length entry) length) 0, kv)
  else if kv_opcode cmd =? nvme_cmd_kv_exist then
    Ok (KvReturn (if missing then KV_ERR_KEY_NOT_EXIST else status), kv)
  else if kv_opcode cmd =? nvme_cmd_kv_delete then
    if missing then Ok (KvReturn KV_ERR_KEY_NOT_EXIST, kv)
    else kv ← delete_mapping_entry kv cmd; Ok (KvReturn status, kv)
  else Ok (KvReturn status, kv).

(** The status and the result, with the state. *)
Definition __do_perform_kv_io kv cmd s (status : Z) : res (kv_ftl A * io_mem * Z * Z) :=
  entry ← get_mapping_entry kv cmd;
  '(plan, kv) ← plan_kv_io kv cmd entry status;
  match plan with
  | KvReturn status => Ok (kv, s, status, 0)
  | KvMove offset length is_insert =>
    s ← kv_transfer cmd s offset length;
    kv ← (if is_insert =? 1 then new_mapping_entry kv cmd offset
          else if is_insert =? 2 then '(kv, _) ← update_mapping_entry kv cmd; Ok kv
          else Ok kv);
    Ok (kv, s, status, if kv_opcode cmd =? nvme_cmd_kv_retrieve then u32 length else 0)
  end.

(** ** Batches

    The payload is a head of 512 bytes with an attribute of 16 bytes per
    sub-command, then per sub-command a head, the key and the value, each
    padded to [ALIGN_LEN]. *)
Definition __do_perform_kv_batched_io kv s (opcode : Z) (key : list Z) (key_len : Z) (value : list Z) (val_len : Z)
  : res (kv_ftl A * io_mem) :=
  entry ← get_mapping_entry_by_key kv key key_len;
  if negb (opcode =? nvme_cmd_kv_store) then Ok (kv, s)
  else
    let missing := mem_offset entry =? FREE in
    '(offset, kv) ← (if missing then allocate_mem_offset_by_length kv val_len else Ok (mem_offset entry, kv));
    v ← buf_read value 0 val_len;
    s ← (if in_storage offset val_len then Ok (mk_io_mem (host s) (mem_write (storage s) offset v)) else Bug OutOfRange);
    kv ← (if missing then new_mapping_entry_by_key kv key key_len val_len offset else Ok kv);
    Ok (kv, s).

(** [memset(key, 0, 20)] and the copy; [memset(value, 0, 4097)] likewise. *)
Definition padded (size : nat) (bytes : list Z) : res (list Z) :=
  if (length bytes <=? size)%nat then Ok (bytes ++ replicate (size - length bytes) 0) else Bug OutOfRange.

Definition align_up (n : Z) : Z := (Z.quot (n - 1) ALIGN_LEN + 1) * ALIGN_LEN.

(** [payload->sub_payload]. *)
Definition SUB_PAYLOAD : Z := 512.

(** One turn of the loop over the sub-commands. *)
Definition batch_sub_cmd (buffer : list Z) (i : Z) (x : kv_ftl A * io_mem * Z) : res (kv_ftl A * io_mem * Z) :=
  let '(kv, s, payload_offset) := x in
  attr ← (if i <? MAX_SUB_CMD then buf_read buffer (16 * i) 16 else Bug OutOfRange);
  let opcode := nth 0 attr 0 in
  let key_len := nth 1 attr 0 in
  let val_len := i32 (le_word (take 4 (drop 4 attr))) in
  let sub_len := align_up key_len + align_up val_len + ALIGN_LEN in
  k ← buf_read buffer (SUB_PAYLOAD + payload_offset) key_len;
  key ← padded 20 k;
  v ← buf_read buffer (SUB_PAYLOAD + payload_offset + align_up key_len) val_len;
  value ← padded 4097 v;
  '(kv, s) ← __do_perform_kv_batched_io kv s opcode key key_len value val_len;
  Ok (kv, s, payload_offset + sub_len).

(** The payload read from the host. *)
Definition batch_buffer cmd s : res (list Z) :=
  let length := cmd_value_length cmd in
  '(_, buf) ← prp_transfer (fun _ => true) (fun '(s, _) => mem_u64 (host s))
      (fun '(s, buf) vaddr offset n => Ok (s, mem_copy buf offset (host s) vaddr n))
      (s, kmalloc_bytes) (kv_io_cmd_value_prp cmd 1) (kv_io_cmd_value_prp cmd 2) 0 length;
  Ok (map buf (seqZ 0 length)).

Definition __do_perform_kv_batch kv cmd s (status : Z) : res (kv_ftl A * io_mem * Z * Z) :=
  buffer ← batch_buffer cmd s;
  '(kv, s, _) ← for_loop (Z.to_nat (kv_rsvd4 cmd)) 0 (batch_sub_cmd buffer) (kv, s, ALIGN_LEN);
  Ok (kv, s, status, 0).

(** ** Iterators *)
Definition iter_ptr_null (p : iter_ptr) : res bool :=
  match p with IterUninit => Bug Uninit | IterNull => Ok true | IterAt _ => Ok false end.

(** The first free handle from [iter] on, [n] of them left to try. *)
Fixpoint free_iter (n : nat) (l : list iter_ptr) (iter : Z) : res (option Z) :=
  match n with
  | O => Ok None
  | S n => p ← aget l iter; b ← iter_ptr_null p; if b : bool then Ok (Some iter) else free_iter n l (iter + 1)
  end.

Definition kv_iter_open kv cmd (status : Z) : res (kv_ftl A * Z * Z) :=
  f ← free_iter 16 (iter_handle kv) 1;
  match f with
  | None => Ok (kv, status, 1)
  | Some iter =>
    l ← aset (iter_handle kv) iter (IterAt (mk_iter (iter_val cmd) (iter_bitmask cmd) kmalloc_bytes 0 0 false 0));
    Ok (kv_with_iters kv l, 0, iter)
  end.

Definition kv_iter_close kv cmd : res (kv_ftl A * Z * Z) :=
  p ← aget (iter_handle kv) (iter_handle_of cmd);
  null ← iter_ptr_null p;
  l ← (if null : bool then Ok (iter_handle kv) else aset (iter_handle kv) (iter_handle_of cmd) IterNull);
  Ok (kv_with_iters kv l, 0, 0).

(** Every key is returned with this length. *)
Definition keylen : Z := 16.

Definition iter_match (h : kv_iter_context) (e : mapping_entry) : bool :=
  negb (mem_offset e =? FREE) &&
  (Z.land (le_word (take 4 (me_key e))) (ki_bitmask h) =? Z.land (ki_prefix h) (ki_bitmask h)).

(** The scan of [kv_iter_read]: position, buffer, bytes used, number of keys,
    and whether the end of the table was reached. *)
Fixpoint iter_scan (fuel : nat) (t : list mapping_entry) (slots : Z) (h : kv_iter_context)
  (pos : Z) (buf : Z -> Z) (buf_offset nr_keys : Z) : res (Z * (Z -> Z) * Z * Z * bool) :=
  if negb (pos <? slots) then Ok (pos, buf, buf_offset, nr_keys, false) else
  match fuel with
  | O => Bug NoFuel
  | S fuel =>
    e ← aget t pos;
    if iter_match h e && (1024 <? buf_offset + 4 + keylen) then Ok (pos, buf, buf_offset, nr_keys, false)
    else
      '(buf, buf_offset, nr_keys) ←
        (if iter_match h e then
           k ← buf_read (me_key e) 0 keylen;
           Ok (mem_write (mem_write buf buf_offset (le_bytes 4 keylen)) (buf_offset + 4) k,
               buf_offset + 4 + Z.land (keylen + 3) (Z.lnot 3), nr_keys + 1)
         else Ok (buf, buf_offset, nr_keys));
      if pos + 1 =? slots then Ok (pos + 1, buf, buf_offset, nr_keys, true)
      else iter_scan fuel t slots h (pos + 1) buf buf_offset nr_keys
  end.

Definition kv_iter_read kv cmd s (status : Z) : res (kv_ftl A * io_mem * Z * Z) :=
  p ← aget (iter_handle kv) (iter_handle_of cmd);
  match p with
  | IterUninit => Bug Uninit
  | IterNull => Ok (kv, s, status, 0)
  | IterAt h =>
    '(pos, buf, buf_offset, nr_keys, is_end) ←
      iter_scan (length (kv_mapping_table kv)) (kv_mapping_table kv) (hash_slots kv) h (ki_current_pos h) (ki_buf h) 4 0;
    let buf := mem_write buf 0 (le_bytes 4 nr_keys) in
    let h := mk_iter (ki_prefix h) (ki_bitmask h) buf (ki_byteswritten h) (ki_bufoffset h) (ki_end h) pos in
    l ← aset (iter_handle kv) (iter_handle_of cmd) (IterAt h);
    s ← prp_transfer (fun _ => true) (fun s => mem_u64 (host s))
          (fun s vaddr offset n => Ok (mk_io_mem (mem_copy (host s) vaddr buf offset n) (storage s)))
          s (kv_io_cmd_value_prp cmd 1) (kv_io_cmd_value_prp cmd 2) 0 buf_offset;
    Ok (kv_with_iters kv l, s, if is_end : bool then 0x393 else 0, buf_offset)
  end.

Definition __do_perform_kv_iter_io kv cmd s (status : Z) : res (kv_ftl A * io_mem * Z * Z) :=
  if kv_opcode cmd =? nvme_cmd_kv_iter_req then
    if negb (Z.land (kv_option cmd) ITER_OPTION_OPEN =? 0) then
      '(kv, status, r) ← kv_iter_open kv cmd status; Ok (kv, s, status, r)
    else if negb (Z.land (kv_option cmd) ITER_OPTION_CLOSE =? 0) then
      '(kv, status, r) ← kv_iter_close kv cmd; Ok (kv, s, status, r)
    else Ok (kv, s, status, 0)
  else if kv_opcode cmd =? nvme_cmd_kv_iter_read then kv_iter_read kv cmd s status
  else Ok (kv, s, status, 0).

(** ** The namespace *)
Definition kv_identify_nvme_io_cmd (opcode : Z) : bool := is_kv_cmd opcode.

Definition kv_perform_nvme_io_cmd kv cmd s (status : Z) : res (kv_ftl A * io_mem * Z * Z) :=
  if kv_opcode cmd =? nvme_cmd_kv_batch then __do_perform_kv_batch kv cmd s status
  else if is_kv_iter_cmd (kv_opcode cmd) then __do_perform_kv_iter_io kv cmd s status
  else __do_perform_kv_io kv cmd s status.

(** An entry of the fresh table: zeroed, then three fields set to [-1]. *)
Definition empty_entry : mapping_entry := mk_entry (replicate KEY_SIZE 0) FREE U64_MAX NO_SLOT.

(** [sizeof(struct mapping_entry)]: 18 bytes of key, padded to 24, then 8, 8,
    4, padded to 48. *)
Definition KV_MAPPING_ENTRY_SIZE : Z := 48.

(** [iter_handle[16]] is never written.  [a] is the allocator's state before. *)
Definition kv_init_namespace (ns_id table_size size : Z) (a : A) : res (nvmev_ns (kv_ftl A)) :=
  '(_, a) ← init ops storage_size a;
  let slots := table_size / KV_MAPPING_ENTRY_SIZE in
  Ok (mk_ns ns_id NVME_CSI_NVM size 0
        (mk_kvftl (replicate (Z.to_nat slots) empty_entry) slots a (replicate 16 IterNull ++ [IterUninit]))).
End Kv.

(** ** The time of a command *)
Definition kv_io_costs (config : nvmev_config) (opcode : Z) : Z * Z * Z :=
  if (opcode =? nvme_cmd_write) || (opcode =? nvme_cmd_kv_store) || (opcode =? nvme_cmd_kv_batch)
  then (write_delay config, write_time config, write_trailing config)
  else if (opcode =? nvme_cmd_read) || (opcode =? nvme_cmd_kv_retrieve)
  then (read_delay config, read_time config, read_trailing config)
  else (0, 0, 0).

Definition kv_schedule_io_units (config : nvmev_config) (opcode : Z) (stat : list Z) (lba length nsecs_start : Z) : res (list Z * Z) :=
  schedule_units config (kv_io_costs config opcode) stat lba length nsecs_start.

(** [c] and [kv] are the two views of the command. *)
Definition kv_proc_nvme_io_cmd (config : nvmev_config) (stat : list Z) (c : nvme_command) (kv : nvme_kv_command) (ret : nvmev_result) (now : Z)
  : res (bool * list Z * nvmev_result) :=
  let op := opcode c in
  if (op =? nvme_cmd_write) || (op =? nvme_cmd_read) then
    '(stat, t) ← kv_schedule_io_units config op stat (rw_slba c) (simple_cmd_io_size c) now; Ok (true, stat, set_target ret t)
  else if op =? nvme_cmd_flush then
    t ← __schedule_flush config stat; Ok (true, stat, set_target ret t)
  else if (op =? nvme_cmd_kv_store) || (op =? nvme_cmd_kv_retrieve) || (op =? nvme_cmd_kv_batch) then
    '(stat, t) ← kv_schedule_io_units config op stat 0 (cmd_value_length kv) now; Ok (true, stat, set_target ret t)
  else Ok (true, stat, ret).
