(* ===== verification/KvTable.v ===== *)
(** * The chains of the key-value hash table

    From every slot [next_slot] leads through used slots to the end of a chain
    or to a free slot.  The file relates the loops of [KvFtl] to these walks,
    and shows what insertion and deletion do to them. *)
From S2P Require Import Prelude Alloc HostIo KvFtl.

(** ** Walks *)
Section Table.
Implicit Types (t : list mapping_entry) (l : list Z) (o : option Z).

Definition slot_free t (i : Z) : Prop := exists e, aget t i = Ok e /\ mem_offset e = FREE.
Definition slot_used t (i : Z) : Prop := exists e, aget t i = Ok e /\ mem_offset e <> FREE.

(** [walk t s l o]: from [s] through the used slots [l] to the end of the
    chain ([o = None]) or to the free slot [o]. *)
Inductive walk t : Z -> list Z -> option Z -> Prop :=
| walk_free s e : aget t s = Ok e -> mem_offset e = FREE -> walk t s [] (Some s)
| walk_last s e : aget t s = Ok e -> mem_offset e <> FREE -> next_slot e = NO_SLOT -> walk t s [s] None
| walk_next s e l o : aget t s = Ok e -> mem_offset e <> FREE -> next_slot e <> NO_SLOT ->
    walk t (next_slot e) l o -> walk t s (s :: l) o.

(** The slots a loop reads on a walk. *)
Definition visits l o : nat := length l + match o with Some _ => 1 | None => 0 end.

(** Between commands every walk ends, and a free slot leads nowhere. *)
Record table_ok t : Prop := {
  to_size : 0 < Z.of_nat (length t) < NO_SLOT;
  to_entries : Forall (fun e => length (me_key e) = KEY_SIZE /\ (mem_offset e = FREE -> next_slot e = NO_SLOT)) t;
  to_walk : forall s, 0 ≤ s < Z.of_nat (length t) -> exists l o, walk t s l o;
}.

Lemma walk_fun t s l o : walk t s l o -> forall l' o', walk t s l' o' -> l' = l /\ o' = o.
Proof.
  induction 1 as [s e Hg Hf|s e Hg Hu Hn|s e l o Hg Hu Hn _ IH]; intros l' o' H';
    inversion H' as [s1 e1 Hg1 Hf1|s1 e1 Hg1 Hu1 Hn1|s1 e1 l1 o1 Hg1 Hu1 Hn1 Hw1]; subst;
    rewrite Hg in Hg1; injection Hg1 as <-; try done.
  destruct (IH _ _ Hw1) as [-> ->]. done.
Qed.

Lemma walk_split t s l o l1 x l2 : walk t s l o -> l = l1 ++ x :: l2 -> walk t x (x :: l2) o.
Proof.
  intros H. revert l1. induction H as [s e Hg Hf|s e Hg Hu Hn|s e l o Hg Hu Hn Hw IH]; intros [|y l1] E; simplify_eq/=.
  - by eapply walk_last.
  - by destruct l1.
  - by eapply walk_next.
  - by eapply IH.
Qed.

Lemma walk_nodup t s l o : walk t s l o -> NoDup l.
Proof.
  induction 1 as [s e Hg Hf|s e Hg Hu Hn|s e l o Hg Hu Hn Hw IH].
  - constructor.
  - apply NoDup_singleton.
  - apply NoDup_cons. split; [|done]. intros (l1 & l2 & ->)%list_elem_of_split.
    pose proof (walk_split _ _ _ _ _ _ _ Hw eq_refl) as H1.
    destruct (walk_fun _ _ _ _ H1 _ _ (walk_next t s e _ _ Hg Hu Hn Hw)) as [E _].
    apply (f_equal length) in E. rewrite !length_cons, length_app in E. cbn in E. lia.
Qed.

Lemma walk_used t s l o i : walk t s l o -> i ∈ l -> slot_used t i.
Proof. induction 1; rewrite ?elem_of_nil, ?list_elem_of_singleton, ?elem_of_cons; intros; destruct_or?; simplify_eq; eauto; by eexists. Qed.

Lemma walk_end t s l f : walk t s l (Some f) -> slot_free t f.
Proof. remember (Some f) as o eqn:Eo. induction 1; simplify_eq; eauto. by eexists. Qed.

Lemma used_range t i : slot_used t i -> 0 ≤ i < Z.of_nat (length t).
Proof. intros (e & He & _). by eapply aget_range. Qed.

Lemma free_range t i : slot_free t i -> 0 ≤ i < Z.of_nat (length t).
Proof. intros (e & He & _). by eapply aget_range. Qed.

Lemma used_not_free t i : slot_used t i -> ~ slot_free t i.
Proof. intros (e & He & Hu) (e' & He' & Hf). congruence. Qed.

Lemma walk_head_used t s l o : walk t s l o -> l <> [] -> exists e, aget t s = Ok e /\ mem_offset e <> FREE.
Proof. destruct 1; [done|eauto..]. Qed.

Lemma walk_last_used t s l o : walk t s l o -> l <> [] -> exists p, last l = Some p /\ walk t p [p] o.
Proof.
  intros Hw Hl. destruct (exists_last Hl) as (l1 & p & ->). exists p. rewrite last_snoc. split; [done|].
  by eapply walk_split.
Qed.

(** The slots a walk visits, its end included, are all different. *)
Lemma walk_length t s l o : walk t s l o -> (visits l o <= length t)%nat.
Proof.
  intros Hw. pose proof (walk_nodup _ _ _ _ Hw) as Hnd. unfold visits.
  set (m := l ++ match o with Some f => [f] | None => [] end).
  assert (NoDup m) as Hm.
  { apply NoDup_app. split; [done|]. split; [|destruct o; [apply NoDup_singleton | constructor]].
    intros i Hi. destruct o as [f|]; [|apply not_elem_of_nil]. intros ->%list_elem_of_singleton.
    by apply (used_not_free t f); [eapply walk_used | eapply walk_end]. }
  assert (m ⊆+ seqZ 0 (Z.of_nat (length t))) as Hs.
  { apply NoDup_submseteq; [done|]. intros i Hi. apply elem_of_seqZ. apply elem_of_app in Hi as [Hi|Hi].
    - pose proof (used_range t i ltac:(by eapply walk_used)). lia.
    - destruct o as [f|]; [|by apply not_elem_of_nil in Hi]. apply list_elem_of_singleton in Hi as ->.
      pose proof (free_range t f ltac:(by eapply walk_end)). lia. }
  apply submseteq_length in Hs. rewrite length_seqZ in Hs. unfold m in Hs. rewrite length_app in Hs.
  destruct o; cbn in *; lia.
Qed.

(** ** Looking a key up *)
Definition key_at t (i : Z) : list Z := match aget t i with Ok e => me_key e | Bug _ => [] end.
Definition same_key (key : list Z) (n : Z) t (i : Z) : bool :=
  bool_decide (take (Z.to_nat n) key = take (Z.to_nat n) (key_at t i)).

Lemma key_at_eq t i e : aget t i = Ok e -> key_at t i = me_key e.
Proof. unfold key_at. by intros ->. Qed.

Lemma entry_ok t i e : table_ok t -> aget t i = Ok e -> length (me_key e) = KEY_SIZE /\ (mem_offset e = FREE -> next_slot e = NO_SLOT).
Proof.
  intros Ht He. apply aget_Ok in He as [_ He]. by apply (Forall_lookup_1 _ _ _ _ (to_entries _ Ht) He).
Qed.

Lemma find_key_ok t key n : table_ok t -> 0 ≤ n ≤ Z.of_nat (length key) -> n ≤ Z.of_nat KEY_SIZE ->
  forall s l o, walk t s l o -> forall fuel, (visits l o <= fuel)%nat ->
  find_key fuel t key n s = Ok (find (same_key key n t) l).
Proof.
  intros Ht Hn Hn2. induction 1 as [s e Hg Hf|s e Hg Hu Hn3|s e l o Hg Hu Hn3 Hw IH]; intros [|fuel] Hl; unfold visits in *; cbn in Hl; try lia; cbn [find_key];
    rewrite Hg; cbn [mbind res_bind]; [by rewrite (proj2 (Z.eqb_eq _ _) Hf)|..];
    rewrite (proj2 (Z.eqb_neq _ _) Hu); unfold memcmp_eq;
    rewrite (proj2 (Z.leb_le n (Z.of_nat (length key)))), (proj1 (entry_ok _ _ _ Ht Hg)), (proj2 (Z.leb_le n _)) by lia;
    cbn [andb mbind res_bind find]; unfold same_key at 1; rewrite (key_at_eq _ _ _ Hg); case_bool_decide; try done.
  - by rewrite Hn3.
  - rewrite (proj2 (Z.eqb_neq _ _) Hn3). by apply IH; lia.
Qed.

Lemma chain_tail_ok t s l o : walk t s l o -> forall prevs fuel, (visits l o <= fuel)%nat ->
  chain_tail fuel t s prevs = Ok (default prevs (last l)).
Proof.
  induction 1 as [s e Hg Hf|s e Hg Hu Hn|s e l o Hg Hu Hn Hw IH]; intros prevs [|fuel] Hl; unfold visits in *; cbn in Hl; try lia; cbn [chain_tail];
    rewrite Hg; cbn [mbind res_bind].
  - by rewrite (proj2 (Z.eqb_eq _ _) Hf).
  - by rewrite (proj2 (Z.eqb_neq _ _) Hu), Hn.
  - rewrite (proj2 (Z.eqb_neq _ _) Hu), (proj2 (Z.eqb_neq _ _) Hn), IH by lia.
    rewrite last_cons. by destruct (last l).
Qed.

(** ** The search for a free slot *)
Lemma next_slot_eq (n s : Z) : 0 ≤ s < n -> n < NO_SLOT ->
  (if n <=? u32 (s + 1) then 0 else u32 (s + 1)) = (s + 1) mod n.
Proof.
  intros Hs Hn. unfold NO_SLOT in Hn. rewrite u32_small by lia. destruct (Z.leb_spec n (s + 1)).
  - replace (s + 1) with n by lia. by rewrite Z.mod_same by lia.
  - by rewrite Z.mod_small by lia.
Qed.

Lemma next_free_ok t fuel : let n := Z.of_nat (length t) in n < NO_SLOT -> forall s d, 0 ≤ s < n -> 0 ≤ d < Z.of_nat fuel ->
  slot_free t ((s + d) mod n) -> exists f, next_free fuel t n s = Ok f /\ slot_free t f.
Proof.
  intros n Hn. induction fuel as [|fuel IH]; intros s d Hs Hd Hf; [lia|]. cbn [next_free].
  destruct (aget_in_range t s Hs) as [e He]. rewrite He. cbn [mbind res_bind].
  destruct (Z.eqb_spec (mem_offset e) FREE) as [E|E]; [exists s; split; [done|by eexists]|].
  rewrite next_slot_eq by done. assert (d <> 0).
  { intros ->. rewrite Z.add_0_r, Z.mod_small in Hf by lia. destruct Hf as (e' & He' & Hf). congruence. }
  apply (IH _ (d - 1)); [apply Z.mod_pos_bound; lia | lia |]. rewrite Z.add_mod_idemp_l by lia. by replace (s + 1 + (d - 1)) with (s + d) by lia.
Qed.

Lemma next_free_found t s : table_ok t -> 0 ≤ s < Z.of_nat (length t) -> (exists f, slot_free t f) ->
  exists f, next_free (length t) t (Z.of_nat (length t)) s = Ok f /\ slot_free t f.
Proof.
  intros Ht Hs [f Hf]. pose proof (free_range _ _ Hf) as Hr. pose proof (to_size _ Ht).
  apply (next_free_ok t (length t) ltac:(lia) s ((f - s) mod Z.of_nat (length t)) Hs); [apply Z.mod_pos_bound; lia|].
  rewrite Z.add_mod_idemp_r by lia. replace (s + (f - s)) with f by lia. by rewrite Z.mod_small.
Qed.

(** On a full table the search never ends. *)
Lemma next_free_full t fuel : let n := Z.of_nat (length t) in n < NO_SLOT -> (forall i, ~ slot_free t i) ->
  forall s, 0 ≤ s < n -> next_free fuel t n s = Bug NoFuel.
Proof.
  intros n Hn Hno. induction fuel as [|fuel IH]; intros s Hs; [done|]. cbn [next_free].
  destruct (aget_in_range t s Hs) as [e He]. rewrite He. cbn [mbind res_bind].
  destruct (Z.eqb_spec (mem_offset e) FREE) as [E|E]; [destruct (Hno s); by eexists|].
  rewrite next_slot_eq by done. apply IH, Z.mod_pos_bound. lia.
Qed.

(** ** Deletion *)
Lemma aget_upd t i j e : 0 ≤ i < Z.of_nat (length t) -> aget (<[Z.to_nat i := e]> t) j = if decide (i = j) then Ok e else aget t j.
Proof. apply aget_insert. Qed.

(** The part of a walk before slot [d]. *)
Fixpoint before (d : Z) l : list Z :=
  match l with [] => [] | x :: l => if decide (x = d) then [] else x :: before d l end.

Lemma before_out d l : d ∉ l -> before d l = l.
Proof. induction l as [|x l IH]; [done|]. intros [Hx Hl]%not_elem_of_cons. cbn. rewrite decide_False by done. by rewrite IH. Qed.

Lemma delete_walk t d e s l o : slot_used t d -> mem_offset e = FREE -> walk t s l o ->
  walk (<[Z.to_nat d := e]> t) s (before d l) (if decide (d ∈ l) then Some d else o).
Proof.
  intros Hd He Hw. pose proof (used_range _ _ Hd) as Hr.
  induction Hw as [s e1 Hg Hf|s e1 Hg Hu Hn|s e1 l o Hg Hu Hn Hw IH]; cbn.
  - rewrite decide_False by apply not_elem_of_nil. eapply walk_free; [|exact Hf]. rewrite aget_upd by done.
    rewrite decide_False; [done|]. intros ->. by apply (used_not_free t s); [|eexists].
  - destruct (decide (s = d)) as [->|Hne].
    + rewrite decide_True by by apply list_elem_of_singleton. eapply walk_free; [|exact He]. by rewrite aget_upd, decide_True by done.
    + rewrite decide_False by (by intros ->%list_elem_of_singleton). eapply walk_last; [|done..]. by rewrite aget_upd, decide_False by done.
  - destruct (decide (s = d)) as [->|Hne].
    + rewrite decide_True by apply list_elem_of_here. eapply walk_free; [|exact He]. by rewrite aget_upd, decide_True by done.
    + replace (if decide (d ∈ s :: l) then Some d else o) with (if decide (d ∈ l) then Some d else o).
      * eapply walk_next; [|done..]. by rewrite aget_upd, decide_False by done.
      * apply decide_ext. rewrite elem_of_cons. naive_solver.
Qed.

Lemma find_before (f : Z -> bool) d l : find f (before d l) = match find f l with
  | Some x => if decide (d ∈ before x l ++ [x]) then None else Some x | None => None end.
Proof.
  induction l as [|y l IH]; [done|]. cbn. destruct (decide (y = d)) as [->|Hne]; cbn.
  - destruct (f d) eqn:Ef; [rewrite decide_True; [done|] | destruct (find f l) as [x|] eqn:Ex; [|done]].
    + apply elem_of_app. right. by apply list_elem_of_singleton.
    + rewrite decide_True; [done|]. apply elem_of_app. destruct (decide (d = x)) as [->|]; [right; by apply list_elem_of_singleton|left; apply list_elem_of_here].
  - destruct (f y) eqn:Ef; [rewrite decide_False; [done|]|].
    + rewrite decide_True by done. cbn. intros ?%list_elem_of_singleton. congruence.
    + rewrite IH. destruct (find f l) as [x|] eqn:Ex; [|done]. apply decide_ext.
      assert (y <> x) by (intros ->; apply find_some in Ex as [_ ?]; congruence).
      rewrite decide_False by done. cbn. rewrite elem_of_cons. naive_solver.
Qed.

Lemma delete_ok t d : table_ok t -> slot_used t d -> table_ok (<[Z.to_nat d := cleared_entry]> t).
Proof.
  intros [Hs He Hw] Hd. split; rewrite ?length_insert; [done| |].
  - apply Forall_insert; [done|]. by split.
  - intros s Hr. destruct (Hw s Hr) as (l & o & H). eexists _, _. by eapply delete_walk.
Qed.

(** ** Insertion

    [inserted t t' f e p]: the free slot [f] gets the entry [e], and slot [p],
    if it is one, leads to [f]. *)
Definition linked (e : mapping_entry) (slot : Z) : mapping_entry := mk_entry (me_key e) (mem_offset e) (me_length e) slot.

Record inserted t t' (f : Z) (e : mapping_entry) (p : Z) : Prop := {
  in_free : slot_free t f;
  in_length : length t' = length t;
  in_new : aget t' f = Ok e /\ mem_offset e <> FREE /\ next_slot e = NO_SLOT /\ length (me_key e) = KEY_SIZE;
  in_prev : forall e, aget t p = Ok e -> aget t' p = Ok (linked e f) /\ exists o, walk t p [p] o;
  in_other : forall i, i <> f -> i <> p -> aget t' i = aget t i;
}.

(** Whether a walk now goes on to [f]. *)
Definition joins (f p : Z) l o : bool := bool_decide (p ∈ l \/ o = Some f).

Lemma insert_walk t t' f e p s l o : inserted t t' f e p -> table_ok t -> walk t s l o ->
  walk t' s (if joins f p l o then l ++ [f] else l) (if joins f p l o then None else o).
Proof.
  intros [Hf Hlen (Hn1 & Hn2 & Hn3 & _) Hp Ho] Ht Hw. pose proof (free_range _ _ Hf) as Hfr. pose proof (to_size _ Ht) as Hsz.
  assert (forall i, slot_used t i -> i <> f) as Huf by (intros i Hu ->; by apply (used_not_free t f)).
  unfold joins. induction Hw as [s e1 Hg Hfr1|s e1 Hg Hu Hn|s e1 l o Hg Hu Hn Hw IH].
  - destruct (decide (s = f)) as [->|Hne].
    + rewrite bool_decide_true by by right. by eapply walk_last.
    + rewrite bool_decide_false by (rewrite elem_of_nil; naive_solver). destruct (decide (s = p)) as [->|Hnp].
      { destruct (Hp _ Hg) as [_ [op Hop]]. inversion Hop; simplify_eq; congruence. }
      eapply walk_free; [|exact Hfr1]. by rewrite Ho.
  - assert (s <> f) as Hsf by (apply Huf; by eexists). destruct (decide (s = p)) as [->|Hnp].
    + rewrite bool_decide_true by (left; apply list_elem_of_here). destruct (Hp _ Hg) as [Hg' _].
      eapply (walk_next _ _ _ [f]); [exact Hg' | done | cbn; unfold NO_SLOT in *; lia | cbn; by eapply walk_last].
    + rewrite bool_decide_false by (rewrite list_elem_of_singleton; naive_solver). eapply walk_last; [|done..]. by rewrite Ho.
  - assert (s <> f) as Hsf by (apply Huf; by eexists). destruct (decide (s = p)) as [->|Hnp].
    + destruct (Hp _ Hg) as [Hg' [op Hop]].
      destruct (walk_fun _ _ _ _ Hop _ _ (walk_next t p e1 _ _ Hg Hu Hn Hw)) as [El _]. injection El as ->.
      rewrite bool_decide_true by (left; apply list_elem_of_here).
      eapply (walk_next _ _ _ [f]); [exact Hg' | done | cbn; unfold NO_SLOT in *; lia | cbn; by eapply walk_last].
    + rewrite (bool_decide_ext (p ∈ s :: l \/ o = Some f) (p ∈ l \/ o = Some f)) by (rewrite elem_of_cons; naive_solver).
      case_bool_decide; (eapply walk_next; [by rewrite Ho | done..]).
Qed.

Lemma insert_table_ok t t' f e p : inserted t t' f e p -> table_ok t -> table_ok t'.
Proof.
  intros Hi Ht. pose proof Hi as [Hf Hlen (Hn1 & Hn2 & Hn3 & Hn4) Hp Ho]. split; rewrite ?Hlen; [apply Ht| |].
  - apply Forall_lookup. intros k e' Hk. assert (aget t' (Z.of_nat k) = Ok e') as Hg.
    { unfold aget. rewrite decide_True by lia. by rewrite Nat2Z.id, Hk. }
    destruct (decide (Z.of_nat k = f)) as [E|Hne]; [rewrite E, Hn1 in Hg; injection Hg as <-; done|].
    destruct (decide (Z.of_nat k = p)) as [E|Hnp].
    + pose proof (aget_range _ _ _ Hg) as Hr. rewrite Hlen in Hr. destruct (aget_in_range t _ Hr) as [e0 He0].
      destruct (entry_ok _ _ _ Ht He0) as [Hkl _]. rewrite E in *. destruct (Hp _ He0) as [Hg' [op Hop]]. rewrite Hg in Hg'.
      injection Hg' as ->. split; [done|]. cbn. intros HF. inversion Hop; simplify_eq; congruence.
    + rewrite Ho in Hg by done. by eapply entry_ok.
  - intros s Hr. destruct (to_walk _ Ht s Hr) as (l & o & Hw). eexists _, _. by eapply insert_walk.
Qed.

Lemma insert_keys t t' f e p i : inserted t t' f e p -> i <> f -> key_at t' i = key_at t i.
Proof.
  intros [_ Hlen _ Hp Ho] Hi. destruct (decide (i = p)) as [->|Hnp]; [|unfold key_at; by rewrite Ho].
  unfold key_at. destruct (aget t p) as [e0|] eqn:E; [by destruct (Hp _ eq_refl) as [-> _]|].
  destruct (aget t' p) as [e'|] eqn:E'; [|done]. apply aget_range in E'. rewrite Hlen in E'. destruct (aget_in_range t p E'). congruence.
Qed.
End Table.
