(* ===== verification/KvInv.v ===== *)
(** * The invariant of the key-value FTL

    The table is well formed and the values of its entries lie in disjoint
    regions that the allocator granted.  [kv_value] is the value the table
    gives for a key; the lemmas say what inserting, updating and deleting an
    entry do to it. *)
From stdpp Require Import gmap.
From S2P Require Import Prelude Nvme Alloc Prp HostIo KvFtl KvTable.

Lemma find_app_split {A} (f : A -> bool) l1 l2 : find f (l1 ++ l2) = match find f l1 with Some x => Some x | None => find f l2 end.
Proof. induction l1 as [|x l1 IH]; [done|]. cbn. by destruct (f x). Qed.

Lemma find_ext_in {A} (f g : A -> bool) l : (forall x, x ∈ l -> f x = g x) -> find f l = find g l.
Proof.
  induction l as [|x l IH]; intros H; [done|]. cbn. rewrite (H x) by apply list_elem_of_here.
  rewrite IH; [done|]. intros y Hy. apply H. by apply list_elem_of_further.
Qed.

(** ** The home slot of a key *)
Section Home.
Implicit Types (key : list Z).

Lemma hash_ok key n : 0 ≤ n ≤ Z.of_nat (length key) -> exists h, hash_function key n = Ok h.
Proof.
  intros Hn. assert (returns (hash_function key n) (fun _ => True)) as H%returns_iff.
  { unfold hash_function. apply (returns_for_loop (fun _ _ => True)); [done| |done].
    intros j h Hj _. destruct (aget_in_range key j) as [p ->]; [lia|]. done. }
  destruct H as (h & H & _). by exists h.
Qed.

Lemma aget_take key n i : 0 ≤ i < n -> n ≤ Z.of_nat (length key) -> aget (take (Z.to_nat n) key) i = aget key i.
Proof. intros Hi Hn. unfold aget. destruct (decide (0 ≤ i)); [|lia]. by rewrite lookup_take_lt by lia. Qed.

Lemma for_loop_ext {St} (n : nat) (f g : Z -> St -> res St) : forall i x,
  (forall j y, i ≤ j < i + Z.of_nat n -> f j y = g j y) -> for_loop n i f x = for_loop n i g x.
Proof.
  induction n as [|n IH]; intros i x H; [done|]. cbn [for_loop]. rewrite H by lia.
  destruct (g i x) as [y|]; [|done]. cbn. apply IH. intros. apply H. lia.
Qed.

(** Only the first [n] bytes count. *)
Lemma hash_take key n : 0 ≤ n ≤ Z.of_nat (length key) -> hash_function (take (Z.to_nat n) key) n = hash_function key n.
Proof. intros Hn. apply for_loop_ext. intros j h Hj. by rewrite aget_take by lia. Qed.

Lemma home_ok slots key n : 0 < slots ≤ NO_SLOT -> 0 ≤ n ≤ Z.of_nat (length key) ->
  exists h, get_hash_slot slots key n = Ok h /\ 0 ≤ h < slots.
Proof.
  intros Hs Hn. destruct (hash_ok key n Hn) as [h Hh]. unfold get_hash_slot, checked_mod. rewrite Hh. cbn.
  rewrite (proj2 (Z.eqb_neq _ _)) by lia. cbn. eexists. split; [done|]. pose proof (Z.mod_pos_bound h slots ltac:(lia)).
  unfold NO_SLOT in *. rewrite u32_small; lia.
Qed.

Lemma home_take slots key n : 0 ≤ n ≤ Z.of_nat (length key) -> get_hash_slot slots (take (Z.to_nat n) key) n = get_hash_slot slots key n.
Proof. intros Hn. unfold get_hash_slot. by rewrite hash_take. Qed.
End Home.

Section Kv.
Context {A : Type} (ops : allocator_ops A) `{!AllocatorLaws ops} (storage_size : Z).
Implicit Types (kv : kv_ftl A) (s : io_mem) (cmd : nvme_kv_command) (key : list Z).
#[local] Abbreviation table := kv_mapping_table.

Record kv_shape kv : Prop := {
  ks_table : table_ok (table kv);
  ks_slots : hash_slots kv = Z.of_nat (length (table kv));
}.

(** Where the walk for a key begins and what it visits. *)
Lemma key_walk kv key n : kv_shape kv -> 0 ≤ n ≤ Z.of_nat (length key) ->
  exists h l o, get_hash_slot (hash_slots kv) key n = Ok h /\ walk (table kv) h l o.
Proof.
  intros [Ht Hs] Hn. pose proof (to_size _ Ht). destruct (home_ok (hash_slots kv) key n) as (h & Hh & Hr); [lia|done|].
  destruct (to_walk _ Ht h) as (l & o & Hw); [lia|]. eauto 6.
Qed.

Lemma lookup_walk kv key n h l o : kv_shape kv -> 0 ≤ n ≤ Z.of_nat (length key) -> n ≤ Z.of_nat KEY_SIZE ->
  get_hash_slot (hash_slots kv) key n = Ok h -> walk (table kv) h l o ->
  lookup_slot kv key n = Ok (find (same_key key n (table kv)) l).
Proof.
  intros [Ht Hs] Hn Hn2 Hh Hw. unfold lookup_slot. rewrite Hh. cbn.
  apply (find_key_ok _ _ _ Ht Hn Hn2 _ _ _ Hw). by eapply walk_length.
Qed.

Lemma lookup_total kv key n : kv_shape kv -> 0 ≤ n ≤ Z.of_nat (length key) -> n ≤ Z.of_nat KEY_SIZE ->
  exists f, lookup_slot kv key n = Ok f.
Proof. intros Hs Hn Hn2. destruct (key_walk kv key n Hs Hn) as (h & l & o & Hh & Hw). eexists. by eapply lookup_walk. Qed.

Lemma lookup_take kv key n : 0 ≤ n ≤ Z.of_nat (length key) -> n ≤ Z.of_nat KEY_SIZE -> kv_shape kv ->
  lookup_slot kv (take (Z.to_nat n) key) n = lookup_slot kv key n.
Proof.
  intros Hn Hn2 Hs. destruct (key_walk kv key n Hs Hn) as (h & l & o & Hh & Hw).
  rewrite (lookup_walk kv key n h l o) by done. rewrite (lookup_walk kv (take (Z.to_nat n) key) n h l o); try done.
  - f_equal. apply find_ext_in. intros i _. unfold same_key. by rewrite take_take, Nat.min_id.
  - rewrite length_take. lia.
  - by rewrite home_take.
Qed.

Lemma lookup_used kv key n i : kv_shape kv -> 0 ≤ n ≤ Z.of_nat (length key) -> n ≤ Z.of_nat KEY_SIZE ->
  lookup_slot kv key n = Ok (Some i) -> slot_used (table kv) i.
Proof.
  intros Hs Hn Hn2 Hl. destruct (key_walk kv key n Hs Hn) as (h & l & o & Hh & Hw).
  rewrite (lookup_walk kv key n h l o) in Hl by done. injection Hl as Hl. apply find_some in Hl as [Hin _].
  eapply walk_used; [done|]. by apply list_elem_of_In.
Qed.

(** ** A new entry *)
Definition new_entry key n val_len val_offset (old : mapping_entry) : mapping_entry :=
  mk_entry (take (Z.to_nat n) key ++ drop (Z.to_nat n) (me_key old)) val_offset (u64 val_len) (next_slot old).

Lemma new_entry_length key n vl vo old : 0 ≤ n ≤ Z.of_nat (length key) -> n ≤ Z.of_nat KEY_SIZE ->
  length (me_key old) = KEY_SIZE -> length (me_key (new_entry key n vl vo old)) = KEY_SIZE.
Proof. intros. cbn. rewrite length_app, length_take, length_drop. lia. Qed.

Lemma write_entry_ok (t : list mapping_entry) f e0 key n vl vo : aget t f = Ok e0 -> length (me_key e0) = KEY_SIZE ->
  0 ≤ n ≤ Z.of_nat (length key) -> n ≤ Z.of_nat KEY_SIZE ->
  amod t f (fun e => k ← memcpy_key (me_key e) key n; Ok (mk_entry k vo (u64 vl) (next_slot e)))
  = Ok (<[Z.to_nat f := new_entry key n vl vo e0]> t).
Proof.
  intros He Hk Hn Hn2. unfold amod. rewrite He. cbn. unfold memcpy_key.
  rewrite Hk, (proj2 (Z.leb_le _ _)), (proj2 (Z.leb_le n (Z.of_nat KEY_SIZE))) by lia. cbn.
  apply aset_in_range. by eapply aget_range.
Qed.

Lemma new_mapping_entry_ok kv key n vl vo h l o : kv_shape kv -> 0 ≤ n ≤ Z.of_nat (length key) -> n ≤ Z.of_nat KEY_SIZE ->
  vo < storage_size -> vo <> FREE -> get_hash_slot (hash_slots kv) key n = Ok h -> walk (table kv) h l o ->
  (exists f, slot_free (table kv) f) ->
  exists f e0 t' p, new_mapping_entry_by_key storage_size kv key n vl vo = Ok (kv_with_table kv t') /\
    aget (table kv) f = Ok e0 /\ inserted (table kv) t' f (new_entry key n vl vo e0) p /\ joins f p l o = true.
Proof.
  intros [Ht Hs] Hn Hn2 Hvo Hvf Hh Hw Hfree. unfold new_mapping_entry_by_key.
  rewrite (proj2 (Z.leb_gt _ _)) by lia. cbn. rewrite Hh. cbn. pose proof (to_size _ Ht) as Hsz.
  assert (forall f e0, aget (table kv) f = Ok e0 -> mem_offset e0 = FREE ->
    let e := new_entry key n vl vo e0 in mem_offset e <> FREE /\ next_slot e = NO_SLOT /\ length (me_key e) = KEY_SIZE) as Hnew.
  { intros f e0 Hg Hf. destruct (entry_ok _ _ _ Ht Hg) as [Hk Hnx]. split; [done|]. split; [by apply Hnx|]. by apply new_entry_length. }
  destruct (decide (l = [])) as [->|Hne].
  - inversion Hw as [? e Hg Hf| |]; subst. rewrite Hg. cbn. rewrite (proj2 (Z.eqb_eq _ _) Hf). cbn.
    destruct (entry_ok _ _ _ Ht Hg) as [Hk _]. rewrite (write_entry_ok _ _ _ _ _ _ _ Hg Hk Hn Hn2). cbn.
    pose proof (aget_range _ _ _ Hg) as Hr. eexists h, e, _, NO_SLOT. split; [done|]. split; [done|].
    split; [|apply bool_decide_true; by right]. split.
    + by eexists.
    + apply length_insert.
    + rewrite aget_insert, decide_True by done. split; [done|]. by eapply Hnew.
    + intros e' He'%aget_range. lia.
    + intros i Hi _. rewrite aget_insert by done. by rewrite decide_False.
  - destruct (walk_head_used _ _ _ _ Hw Hne) as (e & Hg & Hu). rewrite Hg. cbn. rewrite (proj2 (Z.eqb_neq _ _) Hu).
    destruct (walk_last_used _ _ _ _ Hw Hne) as (p & Hp & Hwp). unfold find_next_slot.
    rewrite (chain_tail_ok _ _ _ _ Hw) by by eapply walk_length. cbn. rewrite Hp, Hs. cbn.
    assert (slot_used (table kv) p) as Hup by (eapply walk_used; [exact Hwp | apply list_elem_of_here]).
    pose proof (used_range _ _ Hup) as Hpr. destruct (next_free_found _ p Ht Hpr Hfree) as (f & -> & (e0 & He0 & Hf0)). cbn.
    destruct (entry_ok _ _ _ Ht He0) as [Hk _]. rewrite (write_entry_ok _ _ _ _ _ _ _ He0 Hk Hn Hn2). cbn.
    rewrite (proj2 (Z.eqb_neq _ _)) by lia. pose proof (aget_range _ _ _ He0) as Hr.
    assert (p <> f) as Hpf by (intros ->; apply (used_not_free _ _ Hup); by eexists).
    destruct Hup as (ep & Hep & Hup). unfold chain_mapping, aupd. cbn. rewrite aget_insert, decide_False, Hep by done. cbn.
    rewrite aset_in_range by by rewrite length_insert. cbn. eexists f, e0, _, p. split; [done|]. split; [done|].
    split; [|apply bool_decide_true; left; by apply last_Some_elem_of]. split.
    + by eexists.
    + by rewrite !length_insert.
    + rewrite aget_insert, decide_False, aget_insert, decide_True by (done || by rewrite length_insert). split; [done|]. by eapply Hnew.
    + intros e' He'. rewrite Hep in He'. injection He' as <-. rewrite aget_insert, decide_True by (done || by rewrite length_insert).
      split; [done|]. by exists o.
    + intros i Hi Hip. by rewrite aget_insert, decide_False, aget_insert, decide_False by (done || by rewrite length_insert).
Qed.

(** *** What a lookup finds afterwards *)
Lemma inserted_shape kv t' f e p : inserted (table kv) t' f e p -> kv_shape kv -> kv_shape (kv_with_table kv t').
Proof. intros Hi [Ht Hs]. split; cbn; [by eapply insert_table_ok | by rewrite (in_length _ _ _ _ _ Hi)]. Qed.

Lemma lookup_inserted kv t' f e p key n h l o : inserted (table kv) t' f e p -> kv_shape kv ->
  0 ≤ n ≤ Z.of_nat (length key) -> n ≤ Z.of_nat KEY_SIZE ->
  get_hash_slot (hash_slots kv) key n = Ok h -> walk (table kv) h l o ->
  lookup_slot (kv_with_table kv t') key n = Ok (match find (same_key key n (table kv)) l with
    | Some i => Some i | None => if joins f p l o && same_key key n t' f then Some f else None end).
Proof.
  intros Hi Hs Hn Hn2 Hh Hw. pose proof (inserted_shape _ _ _ _ _ Hi Hs) as Hs'.
  rewrite (lookup_walk _ key n h _ _ Hs' Hn Hn2 Hh (insert_walk _ _ _ _ _ _ _ _ Hi (ks_table _ Hs) Hw)).
  assert (find (same_key key n t') l = find (same_key key n (table kv)) l) as E.
  { apply find_ext_in. intros i Hil. unfold same_key. rewrite (insert_keys _ _ _ _ _ _ Hi); [done|]. intros ->.
    eapply used_not_free; [by eapply walk_used | apply Hi]. }
  cbn. destruct (joins f p l o); cbn [andb]; [rewrite find_app_split|]; rewrite E; clear E.
  - destruct (find _ l); [done|]. cbn. by destruct (same_key key n t' f).
  - by destruct (find _ l).
Qed.

Lemma same_key_new t key key' n f vl vo e0 : 0 ≤ n ≤ Z.of_nat (length key) -> aget t f = Ok (new_entry key n vl vo e0) ->
  same_key key' n t f = bool_decide (take (Z.to_nat n) key' = take (Z.to_nat n) key).
Proof.
  intros Hn Hg. unfold same_key. rewrite (key_at_eq _ _ _ Hg). unfold new_entry. cbn [me_key].
  rewrite take_app_le by (rewrite length_take; lia). by rewrite take_take, Nat.min_id.
Qed.

(** ** Values *)
Definition entry_region (e : mapping_entry) : region := (mem_offset e, me_length e).

Record regions_ok (t : list mapping_entry) (g : list region) : Prop := {
  rg_in : forall i e, aget t i = Ok e -> mem_offset e <> FREE ->
    0 ≤ mem_offset e < storage_size /\ 0 ≤ me_length e /\ mem_offset e + me_length e ≤ storage_size /\
    forall x, inside (entry_region e) x -> exists r, r ∈ g /\ inside r x;
  rg_apart : forall i j e e', aget t i = Ok e -> aget t j = Ok e' -> mem_offset e <> FREE -> mem_offset e' <> FREE ->
    i <> j -> apart (entry_region e) (entry_region e');
}.

Record kv_inv kv (g : list region) : Prop := {
  ki_shape : kv_shape kv;
  ki_alloc : al_inv storage_size (allocator_state kv) g;
  ki_regions : regions_ok (table kv) g;
}.

Definition bytes_at (st : Z -> Z) (off len : Z) : list Z := map st (seqZ off len).

(** The value of a key of [n] bytes. *)
Definition kv_value kv s key (n : Z) : option (list Z) :=
  match lookup_slot kv key n with
  | Ok (Some i) => match aget (table kv) i with Ok e => Some (bytes_at (storage s) (mem_offset e) (me_length e)) | Bug _ => None end
  | _ => None
  end.

Lemma bytes_at_ext (st st' : Z -> Z) off len : (forall x, inside (off, len) x -> st x = st' x) -> bytes_at st off len = bytes_at st' off len.
Proof. intros H. apply map_ext_in. intros x Hx%list_elem_of_In%elem_of_seqZ. apply H. unfold inside. cbn. lia. Qed.

Lemma bytes_at_length st off len : 0 ≤ len -> Z.of_nat (length (bytes_at st off len)) = len.
Proof. intros H. unfold bytes_at. rewrite length_map, length_seqZ. lia. Qed.

Lemma inserted_aget t t' f e p i e' : inserted t t' f e p -> aget t' i = Ok e' ->
  i = f /\ e' = e \/ i <> f /\ exists e0, aget t i = Ok e0 /\ entry_region e' = entry_region e0.
Proof.
  intros [_ Hlen (Hn & _) Hp Ho] Hg. destruct (decide (i = f)) as [->|Hi]; [left; split; congruence|]. right. split; [done|].
  destruct (decide (i = p)) as [->|Hip]; [|exists e'; by rewrite <- Ho].
  pose proof (aget_range _ _ _ Hg) as Hr. rewrite Hlen in Hr. destruct (aget_in_range t p Hr) as [e0 He0].
  exists e0. destruct (Hp _ He0) as [Hg' _]. rewrite Hg in Hg'. by injection Hg' as ->.
Qed.

(** The new region is one the allocator just granted. *)
Lemma inserted_regions t t' g f e p n : inserted t t' f e p -> regions_ok t g -> Forall (apart (mem_offset e, n)) g ->
  0 ≤ mem_offset e < storage_size -> 0 ≤ me_length e ≤ n -> mem_offset e + n ≤ storage_size ->
  regions_ok t' ((mem_offset e, n) :: g).
Proof.
  intros Hi [Hin Hap] Hg Ho Hl Hb. rewrite Forall_forall in Hg.
  assert (forall i e', aget t i = Ok e' -> mem_offset e' <> FREE -> apart (entry_region e) (entry_region e')) as Hnew.
  { intros i e' Hg1 Hu x Hx Hx'. destruct (Hin _ _ Hg1 Hu) as (_ & _ & _ & Hcov). destruct (Hcov x Hx') as (r & Hr & Hrx).
    apply (Hg r Hr x); [|done]. unfold inside in *. cbn in *. lia. }
  assert (forall a b, entry_region a = entry_region b -> mem_offset a = mem_offset b /\ me_length a = me_length b) as Hinj
    by (intros a b [= -> ->]; done).
  split.
  - intros i e' Hg' Hu. destruct (inserted_aget _ _ _ _ _ _ _ Hi Hg') as [[-> ->]|[_ (e0 & Hg0 & E)]].
    + split; [done|]. split; [lia|]. split; [lia|]. intros x Hx. exists (mem_offset e, n).
      split; [apply list_elem_of_here|]. unfold inside in *. cbn in *. lia.
    + destruct (Hinj _ _ E) as [Eo El]. rewrite E, Eo, El. destruct (Hin i e0 Hg0) as (H1 & H2 & H3 & H4); [by rewrite <- Eo|].
      do 3 (split; [done|]). intros x Hx. destruct (H4 x Hx) as (r & Hr & Hrx). exists r. split; [by apply list_elem_of_further|done].
  - intros i j a b Hga Hgb Hua Hub Hij x Hxa Hxb.
    destruct (inserted_aget _ _ _ _ _ _ _ Hi Hga) as [[-> ->]|[_ (a0 & Ha0 & Ea)]],
      (inserted_aget _ _ _ _ _ _ _ Hi Hgb) as [[-> ->]|[_ (b0 & Hb0 & Eb)]]; try done.
    + rewrite Eb in Hxb. destruct (Hinj _ _ Eb) as [Eo _]. apply (Hnew j b0 Hb0 ltac:(congruence) x Hxa Hxb).
    + rewrite Ea in Hxa. destruct (Hinj _ _ Ea) as [Eo _]. apply (Hnew i a0 Ha0 ltac:(congruence) x Hxb Hxa).
    + rewrite Ea in Hxa. rewrite Eb in Hxb. destruct (Hinj _ _ Ea) as [Eo _], (Hinj _ _ Eb) as [Eo' _].
      apply (Hap i j a0 b0 Ha0 Hb0 ltac:(congruence) ltac:(congruence) Hij x Hxa Hxb).
Qed.

Lemma lookup_key kv key n i : kv_shape kv -> 0 ≤ n ≤ Z.of_nat (length key) -> n ≤ Z.of_nat KEY_SIZE ->
  lookup_slot kv key n = Ok (Some i) -> take (Z.to_nat n) key = take (Z.to_nat n) (key_at (table kv) i).
Proof.
  intros Hs Hn Hn2 Hl. destruct (key_walk kv key n Hs Hn) as (h & l & o & Hh & Hw).
  rewrite (lookup_walk kv key n h l o) in Hl by done. injection Hl as Hl. apply find_some in Hl as [_ H].
  unfold same_key in H. by apply bool_decide_eq_true_1 in H.
Qed.

Lemma kv_value_slot kv s key n i e : lookup_slot kv key n = Ok (Some i) -> aget (table kv) i = Ok e ->
  kv_value kv s key n = Some (bytes_at (storage s) (mem_offset e) (me_length e)).
Proof. unfold kv_value. by intros -> ->. Qed.

(** *** Inserting *)
Lemma value_inserted kv s s' g t' f e0 p key key' n h l o vl vo m :
  kv_shape kv -> regions_ok (table kv) g -> 0 ≤ n ≤ Z.of_nat (length key) -> n ≤ Z.of_nat (length key') -> n ≤ Z.of_nat KEY_SIZE -> 0 ≤ vl ≤ m -> m ≤ U64_MAX ->
  lookup_slot kv key n = Ok None -> get_hash_slot (hash_slots kv) key n = Ok h -> walk (table kv) h l o -> joins f p l o = true ->
  inserted (table kv) t' f (new_entry key n vl vo e0) p -> Forall (apart (vo, m)) g ->
  (forall x, ~ inside (vo, vl) x -> storage s' x = storage s x) ->
  kv_value (kv_with_table kv t') s' key' n =
    if decide (take (Z.to_nat n) key' = take (Z.to_nat n) key) then Some (bytes_at (storage s') vo vl) else kv_value kv s key' n.
Proof.
  intros Hs [Hin _] Hn Hn' Hn2 Hvl Hm Hnone Hh Hw Hj Hi Hg Hst.
  destruct (in_new _ _ _ _ _ Hi) as (Hgf & _ & _ & _).
  destruct (key_walk kv key' n Hs ltac:(lia)) as (h' & l' & o' & Hh' & Hw').
  pose proof (lookup_walk kv key' n h' l' o' Hs ltac:(lia) Hn2 Hh' Hw') as Hl0.
  pose proof (lookup_inserted kv t' f _ p key' n h' l' o' Hi Hs ltac:(lia) Hn2 Hh' Hw') as Hl1.
  rewrite (same_key_new _ _ _ _ _ _ _ _ Hn Hgf) in Hl1. destruct (decide (take (Z.to_nat n) key' = take (Z.to_nat n) key)) as [E|E].
  - (* the key itself: its walk is that of [key] *)
    assert (lookup_slot kv key' n = Ok None) as Hk by (rewrite <- Hnone, <- (lookup_take kv key n), <- E, lookup_take by (done || lia); done).
    assert (h' = h) as -> by (rewrite <- (home_take _ key'), E, home_take in Hh' by lia; congruence).
    destruct (walk_fun _ _ _ _ Hw _ _ Hw') as [-> ->]. rewrite Hl0 in Hk. injection Hk as Hk. rewrite Hk, Hj, bool_decide_true in Hl1 by done.
    rewrite (kv_value_slot _ _ _ _ _ _ Hl1 Hgf). cbn. by rewrite u64_small by lia.
  - rewrite bool_decide_false, andb_false_r in Hl1 by done. unfold kv_value. rewrite Hl1, Hl0. destruct (find _ l') as [i|] eqn:Ef; [|done].
    assert (slot_used (table kv) i) as Hu by (apply find_some in Ef as [Hil _]; eapply walk_used; [done|by apply list_elem_of_In]).
    destruct Hu as (ei & Hei & Hui). cbn. rewrite Hei.
    destruct (aget_in_range t' i) as [ei' Hei']; [rewrite (in_length _ _ _ _ _ Hi); by eapply aget_range|].
    rewrite Hei'. destruct (inserted_aget _ _ _ _ _ _ _ Hi Hei') as [[-> _]|[_ (e1 & He1 & Er)]].
    { destruct (in_free _ _ _ _ _ Hi) as (e2 & He2 & Hf2). congruence. }
    rewrite Hei in He1. injection He1 as <-. injection Er as -> ->. f_equal. apply bytes_at_ext. intros x Hx. apply Hst. intros Hx'.
    destruct (Hin i ei Hei Hui) as (_ & _ & _ & Hcov). destruct (Hcov x Hx) as (r & Hr & Hrx).
    rewrite Forall_forall in Hg. apply (Hg r Hr x); [|done]. unfold inside in *. cbn in *. lia.
Qed.

(** *** Rewriting a value in place *)
Definition resized (e : mapping_entry) (len : Z) : mapping_entry := mk_entry (me_key e) (mem_offset e) len (next_slot e).

Lemma resized_walk t i e len h l o : aget t i = Ok e -> walk t h l o -> walk (<[Z.to_nat i := resized e len]> t) h l o.
Proof.
  intros Hg Hw. pose proof (aget_range _ _ _ Hg) as Hr.
  assert (forall j ej, aget t j = Ok ej -> exists ej', aget (<[Z.to_nat i := resized e len]> t) j = Ok ej' /\
    mem_offset ej' = mem_offset ej /\ next_slot ej' = next_slot ej) as Hsame.
  { intros j ej Hj. rewrite aget_insert by done. destruct (decide (i = j)) as [<-|]; [|eauto].
    rewrite Hg in Hj. injection Hj as <-. by exists (resized e len). }
  induction Hw as [s e1 Hs Hf|s e1 Hs Hu Hn|s e1 l o Hs Hu Hn _ IH]; destruct (Hsame _ _ Hs) as (e2 & Hs2 & Eo & En).
  - apply (walk_free _ s e2); congruence.
  - apply (walk_last _ s e2); congruence.
  - apply (walk_next _ s e2); [congruence.. | by rewrite En].
Qed.

Lemma resized_shape kv i e len : aget (table kv) i = Ok e -> kv_shape kv ->
  kv_shape (kv_with_table kv (<[Z.to_nat i := resized e len]> (table kv))).
Proof.
  intros Hg [Ht Hs]. split; cbn; [|by rewrite length_insert]. split; rewrite ?length_insert; [apply Ht| |].
  - apply Forall_insert; [apply Ht|]. cbn. by eapply entry_ok.
  - intros s Hr. destruct (to_walk _ Ht s Hr) as (l & o & Hw). eexists _, _. by apply resized_walk.
Qed.

Lemma resized_key t i e len j : aget t i = Ok e -> key_at (<[Z.to_nat i := resized e len]> t) j = key_at t j.
Proof.
  intros Hg. unfold key_at. rewrite aget_insert by by eapply aget_range. destruct (decide (i = j)) as [<-|]; [by rewrite Hg|done].
Qed.

Lemma lookup_resized kv i e len key n : aget (table kv) i = Ok e -> kv_shape kv -> 0 ≤ n ≤ Z.of_nat (length key) -> n ≤ Z.of_nat KEY_SIZE ->
  lookup_slot (kv_with_table kv (<[Z.to_nat i := resized e len]> (table kv))) key n = lookup_slot kv key n.
Proof.
  intros Hg Hs Hn Hn2. destruct (key_walk kv key n Hs Hn) as (h & l & o & Hh & Hw).
  rewrite (lookup_walk kv key n h l o) by done.
  rewrite (lookup_walk _ key n h l o (resized_shape _ _ _ len Hg Hs) Hn Hn2 Hh (resized_walk _ _ _ _ _ _ _ Hg Hw)).
  f_equal. apply find_ext_in. intros j _. unfold same_key. cbn. by rewrite (resized_key _ _ _ _ _ Hg).
Qed.

Lemma resized_regions t g i e len : aget t i = Ok e -> mem_offset e <> FREE -> 0 ≤ len ≤ me_length e -> regions_ok t g ->
  regions_ok (<[Z.to_nat i := resized e len]> t) g.
Proof.
  intros Hg Hu Hl [Hin Hap]. pose proof (aget_range _ _ _ Hg) as Hr.
  assert (forall j ej, aget (<[Z.to_nat i := resized e len]> t) j = Ok ej -> exists e0, aget t j = Ok e0 /\
    mem_offset ej = mem_offset e0 /\ 0 ≤ me_length e0 /\ me_length ej ≤ me_length e0 /\ (0 ≤ me_length e0 -> 0 ≤ me_length ej) \/
    mem_offset ej = FREE) as Hj.
  { intros j ej. rewrite aget_insert by done. destruct (decide (i = j)) as [<-|].
    - intros [= <-]. exists e. left. cbn. split; [done|]. lia.
    - intros Hj. exists ej. destruct (decide (mem_offset ej = FREE)); [by right|]. left. split; [done|].
      destruct (Hin j ej Hj ltac:(done)) as (_ & H1 & _). lia. }
  assert (forall a b x, mem_offset a = mem_offset b -> me_length a ≤ me_length b -> inside (entry_region a) x -> inside (entry_region b) x) as Hsub
    by (intros a b x Eo El; unfold inside; cbn; lia).
  split.
  - intros j ej Hgj Huj. destruct (Hj _ _ Hgj) as (e0 & [(Hg0 & Eo & H0 & Hle & Hnn)|]); [|done].
    destruct (Hin j e0 Hg0 ltac:(congruence)) as (H1 & H2 & H3 & H4). rewrite Eo. do 2 (split; [lia|]). split; [lia|].
    intros x Hx. apply H4. by eapply Hsub.
  - intros j k a b Ha Hb Hua Hub Hjk x Hxa Hxb.
    destruct (Hj _ _ Ha) as (a0 & [(Ha0 & Ea & _ & Hla & _)|]); [|done]. destruct (Hj _ _ Hb) as (b0 & [(Hb0 & Eb & _ & Hlb & _)|]); [|done].
    apply (Hap j k a0 b0 Ha0 Hb0 ltac:(congruence) ltac:(congruence) Hjk x); by eapply Hsub.
Qed.

Lemma value_resized kv s s' g i e len key key' n : kv_inv kv g ->
  0 ≤ n ≤ Z.of_nat (length key) -> n ≤ Z.of_nat (length key') -> n ≤ Z.of_nat KEY_SIZE -> 0 ≤ len ≤ me_length e ->
  lookup_slot kv key n = Ok (Some i) -> aget (table kv) i = Ok e ->
  (forall x, ~ inside (mem_offset e, len) x -> storage s' x = storage s x) ->
  kv_value (kv_with_table kv (<[Z.to_nat i := resized e len]> (table kv))) s' key' n =
    if decide (take (Z.to_nat n) key' = take (Z.to_nat n) key) then Some (bytes_at (storage s') (mem_offset e) len) else kv_value kv s key' n.
Proof.
  intros [Hs _ [Hin Hap]] Hn Hn' Hn2 Hlen Hl Hg Hst. pose proof (lookup_resized kv i e len key' n Hg Hs ltac:(lia) Hn2) as Hl'.
  pose proof (aget_range _ _ _ Hg) as Hr. pose proof (lookup_key _ _ _ _ Hs Hn Hn2 Hl) as Hk.
  destruct (lookup_used _ _ _ _ Hs Hn Hn2 Hl) as (e0 & He0 & Hu). rewrite Hg in He0. injection He0 as <-.
  destruct (decide (take (Z.to_nat n) key' = take (Z.to_nat n) key)) as [E|E].
  - rewrite <- (lookup_take kv key' n), E, (lookup_take kv key n), Hl in Hl' by (done || lia).
    erewrite kv_value_slot; [|exact Hl' | cbn; by rewrite aget_insert, decide_True by done]. done.
  - unfold kv_value. rewrite Hl'. destruct (lookup_total kv key' n Hs ltac:(lia) Hn2) as [[j|] Hlj]; rewrite Hlj; [|done].
    destruct (lookup_used kv key' n j Hs ltac:(lia) Hn2 Hlj) as (ej & Hgj & Huj). pose proof (lookup_key kv key' n j Hs ltac:(lia) Hn2 Hlj) as Hkj.
    assert (i <> j) by (intros ->; congruence). cbn. rewrite aget_insert, decide_False, Hgj by done. f_equal. apply bytes_at_ext.
    intros x Hx. apply Hst. intros Hx'. apply (Hap i j e ej Hg Hgj Hu Huj ltac:(done) x); [|done]. unfold inside in *. cbn in *. lia.
Qed.

(** *** Deleting *)
Definition without kv (d : Z) : kv_ftl A := kv_with_table kv (<[Z.to_nat d := cleared_entry]> (table kv)).

Lemma before_not_in d l : d ∉ before d l.
Proof.
  induction l as [|x l IH]; [apply not_elem_of_nil|]. cbn. destruct (decide (x = d)); [apply not_elem_of_nil|].
  rewrite not_elem_of_cons. by split.
Qed.

Lemma without_inv kv d g : kv_inv kv g -> slot_used (table kv) d -> kv_inv (without kv d) g.
Proof.
  intros [[Ht Hs] Ha [Hin Hap]] Hd. pose proof (used_range _ _ Hd) as Hr.
  assert (forall i e, aget (<[Z.to_nat d := cleared_entry]> (table kv)) i = Ok e -> mem_offset e <> FREE -> aget (table kv) i = Ok e) as Hold.
  { intros i e. rewrite aget_insert by done. by destruct (decide (d = i)) as [<-|]; [intros [= <-]|]. }
  split; [split; cbn; [by apply delete_ok | by rewrite length_insert] | done |]. split; cbn.
  - intros i e Hg Hu. apply (Hin i e); [by apply Hold | done].
  - intros i j a b Ha' Hb Hua Hub. apply (Hap i j a b); [by apply Hold | by apply Hold | done..].
Qed.

(** A lookup whose way leads over the deleted slot fails; the others are as
    before. *)
Lemma lookup_without kv d key n h l o : kv_shape kv -> slot_used (table kv) d ->
  0 ≤ n ≤ Z.of_nat (length key) -> n ≤ Z.of_nat KEY_SIZE ->
  get_hash_slot (hash_slots kv) key n = Ok h -> walk (table kv) h l o ->
  lookup_slot (without kv d) key n = match lookup_slot kv key n with
    | Ok (Some i) => if decide (d ∈ before i l ++ [i]) then Ok None else Ok (Some i)
    | r => r
    end.
Proof.
  intros Hs Hd Hn Hn2 Hh Hw. pose proof (used_range _ _ Hd) as Hr.
  assert (kv_shape (without kv d)) as Hs' by (destruct Hs; split; cbn; [by apply delete_ok | by rewrite length_insert]).
  rewrite (lookup_walk kv key n h l o) by done.
  rewrite (lookup_walk (without kv d) key n h _ _ Hs' Hn Hn2 Hh (delete_walk _ _ cleared_entry _ _ _ Hd eq_refl Hw)).
  rewrite (find_ext_in _ (same_key key n (table kv))).
  - rewrite find_before. destruct (find _ l) as [i|]; [|done]. by destruct (decide (d ∈ _)).
  - intros i Hi. assert (d <> i) by (intros ->; by apply before_not_in in Hi). unfold same_key, key_at. cbn.
    by rewrite aget_insert, decide_False by done.
Qed.

Lemma value_without kv s d key n h l o : kv_shape kv -> slot_used (table kv) d ->
  0 ≤ n ≤ Z.of_nat (length key) -> n ≤ Z.of_nat KEY_SIZE ->
  get_hash_slot (hash_slots kv) key n = Ok h -> walk (table kv) h l o ->
  kv_value (without kv d) s key n = match lookup_slot kv key n with
    | Ok (Some i) => if decide (d ∈ before i l ++ [i]) then None else kv_value kv s key n
    | _ => None
    end.
Proof.
  intros Hs Hd Hn Hn2 Hh Hw. unfold kv_value. rewrite (lookup_without kv d key n h l o) by done.
  destruct (lookup_slot kv key n) as [[i|]|]; try done. destruct (decide (d ∈ before i l ++ [i])) as [Hin|Hin]; [done|].
  cbn. rewrite aget_insert by by apply used_range. rewrite decide_False; [done|]. intros ->. apply Hin.
  apply elem_of_app. right. apply list_elem_of_here.
Qed.
End Kv.
