(* ===== verification/KvProps.v ===== *)
(** * Properties of the key-value FTL

    With keys of one length and without deletions the device is a map from
    keys to values, whichever allocator it uses.  The other theorems say what
    deletions, longer values, a full table and a full device do to it. *)
From stdpp Require Import gmap.
From S2P Require Import Prelude Nvme Alloc Prp HostIo KvFtl KvTable KvInv.

Section Kv.
Context {A : Type} (ops : allocator_ops A) `{!AllocatorLaws ops} (storage_size : Z) (Hsize : storage_size ≤ U64_MAX).
(** The length of all keys. *)
Context (L : Z) (HL : 0 < L ≤ 16).
Implicit Types (kv : kv_ftl A) (s : io_mem) (cmd : nvme_kv_command) (key : list Z).

(** ** Commands *)
Definition key_ok cmd : Prop := cmd_key_length cmd = L /\ length (kv_key cmd) = 16%nat.
Definition cmd_key cmd : list Z := take (Z.to_nat L) (kv_key cmd).

(** The bytes of the value in host memory. *)
Definition value_addr (m : host_mem) cmd (len i : Z) : Z := prp_addr (mem_u64 m) (kv_prp1 cmd) (kv_prp2 cmd) len i.
Definition host_value (m : host_mem) cmd (len : Z) : list Z := map (fun i => m (value_addr m cmd len i)) (seqZ 0 len).

Lemma key_bounds cmd : key_ok cmd -> 0 ≤ L ≤ Z.of_nat (length (kv_key cmd)) /\ L ≤ Z.of_nat KEY_SIZE.
Proof. intros [_ ->]. unfold KEY_SIZE. lia. Qed.

Lemma cmd_key_length_eq cmd : key_ok cmd -> Z.of_nat (length (cmd_key cmd)) = L.
Proof. intros [_ Hk]. unfold cmd_key. rewrite length_take, Hk. lia. Qed.

Lemma value_length_range cmd : 0 ≤ cmd_value_length cmd ≤ U32_MAX.
Proof. apply u32_range. Qed.

Lemma get_entry_ok kv cmd : kv_shape kv -> key_ok cmd -> exists f, lookup_slot kv (kv_key cmd) L = Ok f /\
  match f with
  | Some i => exists e k, aget (kv_mapping_table kv) i = Ok e /\ mem_offset e <> FREE /\
      get_mapping_entry kv cmd = Ok (mk_entry k (mem_offset e) (me_length e) (next_slot e))
  | None => get_mapping_entry kv cmd = Ok cleared_entry
  end.
Proof.
  intros Hs Hk. destruct (key_bounds cmd Hk) as [Hn Hn2]. destruct (lookup_total kv (kv_key cmd) L Hs Hn Hn2) as [f Hf].
  exists f. split; [done|]. unfold get_mapping_entry, get_mapping_entry_by_key. rewrite (proj1 Hk), Hf. cbn. destruct f as [i|]; [|done].
  destruct (lookup_used kv _ _ _ Hs Hn Hn2 Hf) as (e & He & Hu). rewrite He. cbn.
  pose proof (proj1 (entry_ok _ _ _ (ks_table _ Hs) He)) as Hl. exists e, (take (Z.to_nat L) (me_key e) ++ drop (Z.to_nat L) (me_key cleared_entry)).
  split; [done|]. split; [done|]. unfold memcpy_key. rewrite Hl. cbn [length replicate me_key cleared_entry].
  change (Z.of_nat (length (replicate KEY_SIZE 255))) with 18. by rewrite !(proj2 (Z.leb_le L _)) by (unfold KEY_SIZE; lia).
Qed.

(** ** Moving the value *)
Definition stored cmd s off len x : Z :=
  if bool_decide (inside (off, len) x) then host s (value_addr (host s) cmd len (x - off)) else storage s x.

Lemma store_writes cmd s off : kv_opcode cmd = nvme_cmd_kv_store -> let len := cmd_value_length cmd in
  0 ≤ off -> off + len ≤ storage_size -> prp_ok (mem_u64 (host s)) (kv_prp1 cmd) (kv_prp2 cmd) len (fun _ => true) ->
  returns (kv_transfer storage_size cmd s off len) (fun s' => host s' = host s /\ forall x, storage s' x = stored cmd s off len x).
Proof.
  intros Hop len Ho Hb Hok. eapply returns_mono; [apply (move_to_storage (fun _ => true) _ 0); [|exact Hok]|].
  - intros s' a o n H1 H2. unfold kv_memcpy, in_storage. rewrite Hop. cbn.
    by rewrite (proj2 (Z.leb_le 0 o)), (proj2 (Z.leb_le (o + n) _)) by lia.
  - intros s' [Eh Es]. split; [done|]. intros x. rewrite Es. change (0 + off) with off. unfold stored, inside, value_addr. cbn.
    destruct (Z.leb_spec off x), (Z.ltb_spec x (off + len)); cbn; first [rewrite bool_decide_true by lia | rewrite bool_decide_false by lia]; done.
Qed.

Lemma store_moves cmd s off : kv_opcode cmd = nvme_cmd_kv_store -> let len := cmd_value_length cmd in
  0 ≤ off -> off + len ≤ storage_size -> prp_ok (mem_u64 (host s)) (kv_prp1 cmd) (kv_prp2 cmd) len (fun _ => true) ->
  returns (kv_transfer storage_size cmd s off len) (fun s' => host s' = host s /\
    bytes_at (storage s') off len = host_value (host s) cmd len /\ forall x, ~ inside (off, len) x -> storage s' x = storage s x).
Proof.
  intros Hop len Ho Hb Hok. eapply returns_mono; [by apply store_writes|]. fold len. intros s' [Eh Es]. split; [done|]. split.
  - unfold bytes_at, host_value. rewrite <- (Z.add_0_r off) at 1. rewrite <- fmap_add_seqZ.
    change (Z.add off <$> seqZ 0 len) with (map (Z.add off) (seqZ 0 len)). rewrite map_map. apply map_ext_in.
    intros i Hi%list_elem_of_In%elem_of_seqZ. rewrite Es. unfold stored, inside. cbn.
    rewrite bool_decide_true by lia. do 2 f_equal. lia.
  - intros x Hx. rewrite Es. unfold stored. by rewrite bool_decide_false.
Qed.

Lemma retrieve_moves cmd s off len : kv_opcode cmd = nvme_cmd_kv_retrieve -> 0 ≤ len ->
  0 ≤ off -> off + len ≤ storage_size -> pages_ok (fun _ => true) (host s) (kv_prp1 cmd) (kv_prp2 cmd) len ->
  returns (kv_transfer storage_size cmd s off len) (fun s' => storage s' = storage s /\
    forall i, 0 ≤ i < len -> host s' (value_addr (host s) cmd len i) = storage s (off + i)).
Proof.
  intros Hop Hl Ho Hb Hok. eapply returns_mono; [apply (move_to_host (fun _ => true) _ 0 (storage s)); [|exact Hok | done]|].
  - intros s' a o n H1 H2 Est. unfold kv_memcpy, in_storage. rewrite Hop, Est. cbn.
    by rewrite (proj2 (Z.leb_le 0 o)), (proj2 (Z.leb_le (o + n) _)) by lia.
  - intros s' (Est & Hd & _). split; [done|]. exact Hd.
Qed.

(** ** The map the device stands for *)
Definition kv_refines kv s (m : gmap (list Z) (list Z)) : Prop :=
  forall key, Z.of_nat (length key) = L -> m !! key = kv_value kv s key L.

(** What a command means: the map, the status and the result after it. *)
Definition kv_spec (m : gmap (list Z) (list Z)) cmd (data : list Z) (status : Z) : gmap (list Z) (list Z) * Z * Z :=
  if kv_opcode cmd =? nvme_cmd_kv_store then (<[cmd_key cmd := data]> m, status, 0)
  else match m !! cmd_key cmd with
  | None => (m, KV_ERR_KEY_NOT_EXIST, 0)
  | Some v => (m, status, if kv_opcode cmd =? nvme_cmd_kv_retrieve then Z.min (Z.of_nat (length v)) (cmd_value_length cmd) else 0)
  end.

(** A new key needs a slot and space; a new value of a key must not be longer
    than the old one, and only a small one may be shorter. *)
Definition store_room kv (old : option (list Z)) (len : Z) : Prop :=
  match old with
  | None => (exists f, slot_free (kv_mapping_table kv) f) /\ al_room storage_size (allocator_state kv) len
  | Some v => len = Z.of_nat (length v) \/ len ≤ Z.of_nat (length v) ≤ Bitmap.SMALL_LENGTH
  end.

Definition kv_io_ok kv s (m : gmap (list Z) (list Z)) cmd : Prop :=
  let old := m !! cmd_key cmd in
  (kv_opcode cmd = nvme_cmd_kv_store /\ store_room kv old (cmd_value_length cmd) /\
     prp_ok (mem_u64 (host s)) (kv_prp1 cmd) (kv_prp2 cmd) (cmd_value_length cmd) (fun _ => true)) \/
  (kv_opcode cmd = nvme_cmd_kv_retrieve /\ forall v, old = Some v ->
     pages_ok (fun _ => true) (host s) (kv_prp1 cmd) (kv_prp2 cmd) (Z.min (Z.of_nat (length v)) (cmd_value_length cmd))) \/
  kv_opcode cmd = nvme_cmd_kv_exist.

(** The pages of a retrieve hold the value. *)
Definition delivered (m : gmap (list Z) (list Z)) cmd s s' (r : Z) : Prop :=
  kv_opcode cmd = nvme_cmd_kv_retrieve -> forall v, m !! cmd_key cmd = Some v ->
  forall i, 0 ≤ i < r -> host s' (value_addr (host s) cmd r i) = nth (Z.to_nat i) v 0.

Lemma kv_value_cmd kv s cmd : kv_shape kv -> key_ok cmd -> kv_value kv s (cmd_key cmd) L = kv_value kv s (kv_key cmd) L.
Proof. intros Hs Hk. destruct (key_bounds cmd Hk). unfold kv_value, cmd_key. by rewrite lookup_take. Qed.

Lemma refines_updated kv s kv' s' m cmd data : kv_refines kv s m -> key_ok cmd ->
  (forall key, Z.of_nat (length key) = L -> kv_value kv' s' key L =
     if decide (take (Z.to_nat L) key = cmd_key cmd) then Some data else kv_value kv s key L) ->
  kv_refines kv' s' (<[cmd_key cmd := data]> m).
Proof.
  intros Hm Hk Hv key Hl. rewrite Hv by done. rewrite take_ge by lia. destruct (decide (key = cmd_key cmd)) as [->|Hne].
  - by rewrite lookup_insert_eq.
  - rewrite lookup_insert_ne by done. by apply Hm.
Qed.

(** *** Storing a new key *)
Lemma store_new kv s g m cmd status : kv_inv ops storage_size kv g -> kv_refines kv s m -> key_ok cmd ->
  kv_opcode cmd = nvme_cmd_kv_store -> m !! cmd_key cmd = None -> store_room kv None (cmd_value_length cmd) ->
  prp_ok (mem_u64 (host s)) (kv_prp1 cmd) (kv_prp2 cmd) (cmd_value_length cmd) (fun _ => true) ->
  returns (__do_perform_kv_io ops storage_size kv cmd s status) (fun '(kv', s', st, r) => st = status /\ r = 0 /\
    host s' = host s /\ (exists g', kv_inv ops storage_size kv' g') /\ kv_refines kv' s' (<[cmd_key cmd := host_value (host s) cmd (cmd_value_length cmd)]> m)).
Proof.
  intros Hinv Hm Hk Hop Hnone [Hfree Hroom] Hprp. pose proof Hinv as [Hs Hal Hrg]. destruct (key_bounds cmd Hk) as [Hn Hn2].
  pose proof (value_length_range cmd) as Hvl. unfold U32_MAX in Hvl. set (len := cmd_value_length cmd) in *.
  destruct (get_entry_ok kv cmd Hs Hk) as (f & Hf & Hg). rewrite (Hm _ (cmd_key_length_eq _ Hk)), kv_value_cmd in Hnone by done.
  destruct f as [i|]; [destruct Hg as (e & k & He & Hu & _); by rewrite (kv_value_slot _ _ _ _ _ _ Hf He) in Hnone|].
  unfold __do_perform_kv_io. rewrite Hg. cbn. unfold plan_kv_io. rewrite Hop. cbn. unfold allocate_mem_offset, allocate_mem_offset_by_length.
  rewrite Hop. cbn. fold len. rewrite (u64_small len) by (unfold U64_MAX; lia).
  pose proof (al_allocate _ _ _ _ Hal Hroom) as (pa & Hpa & Hp)%returns_iff. destruct pa as [off a']. destruct Hp as (n & Hln & Ho & Hon & Hap & Hal').
  rewrite Hpa. cbn. unfold FREE. rewrite (proj2 (Z.eqb_neq off _)) by lia. apply returns_bind.
  eapply returns_mono; [by apply (store_moves cmd s off Hop); [lia | lia |]|]. fold len. intros s' (Eh & Ed & Ex). cbn.
  destruct (key_walk kv (kv_key cmd) L Hs Hn) as (h & l & o & Hh & Hw).
  assert (kv_shape (kv_with_alloc kv a')) as Hs' by (destruct Hs; by split).
  destruct (new_mapping_entry_ok storage_size (kv_with_alloc kv a') (kv_key cmd) L len off h l o Hs' Hn Hn2 ltac:(lia)
    ltac:(unfold FREE; lia) Hh Hw Hfree) as (fs & e0 & t' & p & Hnew & He0 & Hi & Hj).
  unfold new_mapping_entry. rewrite (proj1 Hk). fold len. rewrite Hnew. cbn. split; [done|]. split; [done|]. split; [done|]. split.
  - exists ((off, n) :: g). split; cbn; [by eapply (inserted_shape (kv_with_alloc kv a')) | done |].
    eapply (inserted_regions _ _ _ _ _ _ _ n Hi Hrg); cbn; [done | lia | rewrite u64_small by (unfold U64_MAX; lia); lia | lia].
  - eapply refines_updated; [done..|]. intros key Hlk. rewrite <- Ed.
    eapply (value_inserted storage_size (kv_with_alloc kv a') s s' g t' fs e0 p (kv_key cmd) key L h l o len off n);
      (eassumption || lia).
Qed.

(** *** Storing a key that is there *)
Lemma resized_same kv i e : aget (kv_mapping_table kv) i = Ok e ->
  kv_with_table kv (<[Z.to_nat i := resized e (me_length e)]> (kv_mapping_table kv)) = kv.
Proof.
  intros [_ He]%aget_Ok. destruct kv as [t ? ? ?]. unfold kv_with_table. cbn in *. f_equal. apply list_insert_id. by destruct e.
Qed.

Lemma update_ok kv cmd i e : key_ok cmd -> lookup_slot kv (kv_key cmd) L = Ok (Some i) -> aget (kv_mapping_table kv) i = Ok e ->
  update_mapping_entry kv cmd = Ok (kv_with_table kv (<[Z.to_nat i := resized e (cmd_value_length cmd)]> (kv_mapping_table kv)), 0).
Proof.
  intros Hk Hf He. unfold update_mapping_entry. rewrite (proj1 Hk), Hf. cbn. unfold aupd. rewrite He. cbn.
  by rewrite aset_in_range by by eapply aget_range.
Qed.

Lemma found_entry kv s g m cmd v : kv_inv ops storage_size kv g -> kv_refines kv s m -> key_ok cmd -> m !! cmd_key cmd = Some v ->
  exists i e k, lookup_slot kv (kv_key cmd) L = Ok (Some i) /\ aget (kv_mapping_table kv) i = Ok e /\ mem_offset e <> FREE /\
    get_mapping_entry kv cmd = Ok (mk_entry k (mem_offset e) (me_length e) (next_slot e)) /\
    v = bytes_at (storage s) (mem_offset e) (me_length e) /\ Z.of_nat (length v) = me_length e /\
    0 ≤ mem_offset e < storage_size /\ 0 ≤ me_length e /\ mem_offset e + me_length e ≤ storage_size.
Proof.
  intros [Hs _ [Hin _]] Hm Hk Hv. destruct (get_entry_ok kv cmd Hs Hk) as (f & Hf & Hg).
  rewrite (Hm _ (cmd_key_length_eq _ Hk)), kv_value_cmd in Hv by done. destruct f as [i|]; [|unfold kv_value in Hv; by rewrite Hf in Hv].
  destruct Hg as (e & k & He & Hu & Hg). rewrite (kv_value_slot _ _ _ _ _ _ Hf He) in Hv. injection Hv as <-.
  destruct (Hin i e He Hu) as (H1 & H2 & H3 & _). exists i, e, k. by rewrite bytes_at_length.
Qed.

Lemma store_old kv s g m cmd status v : kv_inv ops storage_size kv g -> kv_refines kv s m -> key_ok cmd ->
  kv_opcode cmd = nvme_cmd_kv_store -> m !! cmd_key cmd = Some v -> store_room kv (Some v) (cmd_value_length cmd) ->
  prp_ok (mem_u64 (host s)) (kv_prp1 cmd) (kv_prp2 cmd) (cmd_value_length cmd) (fun _ => true) ->
  returns (__do_perform_kv_io ops storage_size kv cmd s status) (fun '(kv', s', st, r) => st = status /\ r = 0 /\
    host s' = host s /\ (exists g', kv_inv ops storage_size kv' g') /\ kv_refines kv' s' (<[cmd_key cmd := host_value (host s) cmd (cmd_value_length cmd)]> m)).
Proof.
  intros Hinv Hm Hk Hop Hv Hroom Hprp. pose proof Hinv as [Hs Hal Hrg]. destruct (key_bounds cmd Hk) as [Hn Hn2].
  destruct (found_entry _ _ _ _ _ _ Hinv Hm Hk Hv) as (i & e & k & Hf & He & Hu & Hg & _ & Elen & Ho & Hl & Hb).
  cbn in Hroom. rewrite Elen in Hroom. pose proof (value_length_range cmd) as Hvl. set (len := cmd_value_length cmd) in *.
  unfold __do_perform_kv_io. rewrite Hg. cbn. unfold plan_kv_io. rewrite Hop. cbn. rewrite (proj2 (Z.eqb_neq _ _) Hu). fold len.
  set (plan := if negb (len =? me_length e) && (len <=? Bitmap.SMALL_LENGTH) && (me_length e <=? Bitmap.SMALL_LENGTH) then 2 else 0).
  assert ((if negb (len =? me_length e) && (len <=? Bitmap.SMALL_LENGTH) && (me_length e <=? Bitmap.SMALL_LENGTH)
           then Ok (KvMove (mem_offset e) len 2, kv) else Ok (KvMove (mem_offset e) len 0, kv)) = Ok (KvMove (mem_offset e) len plan, kv)) as ->
    by (unfold plan; by destruct (_ && _ && _)).
  cbn. apply returns_bind.
  eapply returns_mono; [apply (store_moves cmd s (mem_offset e) Hop); [lia | fold len; lia | done]|]. fold len. intros s' (Eh & Ed & Ex).
  set (kv' := kv_with_table kv (<[Z.to_nat i := resized e len]> (kv_mapping_table kv))).
  assert ((if plan =? 1 then new_mapping_entry storage_size kv cmd (mem_offset e) else if plan =? 2
           then '(kv, _) ← update_mapping_entry kv cmd; Ok kv else Ok kv) = Ok kv') as ->.
  { unfold plan. destruct (Z.eqb_spec len (me_length e)) as [E|E]; cbn.
    - unfold kv'. by rewrite E, resized_same.
    - destruct Hroom as [?|[? ?]]; [done|]. rewrite !(proj2 (Z.leb_le _ Bitmap.SMALL_LENGTH)) by lia. cbn. by rewrite (update_ok _ _ i e). }
  cbn. do 3 (split; [done|]). assert (0 ≤ len ≤ me_length e) as Hlen by lia. split.
  - exists g. split; [by apply resized_shape | done | by eapply resized_regions].
  - eapply refines_updated; [done..|]. intros key Hlk. rewrite <- Ed. unfold kv', cmd_key.
    by apply (value_resized ops storage_size kv s s' g i e len (kv_key cmd) key L Hinv); (done || lia).
Qed.

Lemma nth_bytes st off len i : 0 ≤ i < len -> nth (Z.to_nat i) (bytes_at st off len) 0 = st (off + i).
Proof.
  intros Hi. unfold bytes_at. apply nth_lookup_Some. rewrite list_lookup_fmap. rewrite lookup_seqZ_lt by lia.
  cbn. f_equal. f_equal. lia.
Qed.

(** C16. With keys of one length, and as long as there is room, the device is a
    map: storing binds the key to the bytes of the host's pages and leaves
    every other key alone, retrieving delivers the first bytes of the value,
    and an absent key is reported as such.  The invariant of the table and of
    the regions is kept, whatever allocator is used. *)
Theorem kv_io_refines_map kv s g m cmd status :
  kv_inv ops storage_size kv g -> kv_refines kv s m -> key_ok cmd -> kv_io_ok kv s m cmd ->
  returns (__do_perform_kv_io ops storage_size kv cmd s status) (fun '(kv', s', st, r) =>
    let '(m', st', r') := kv_spec m cmd (host_value (host s) cmd (cmd_value_length cmd)) status in
    st = st' /\ r = r' /\ (exists g', kv_inv ops storage_size kv' g') /\ kv_refines kv' s' m' /\ delivered m cmd s s' r).
Proof.
  intros Hinv Hm Hk Hok. pose proof (ki_shape _ _ _ _ Hinv) as Hs. unfold kv_spec, delivered.
  destruct Hok as [(Hop & Hroom & Hprp)|[(Hop & Hpg)|Hop]]; rewrite Hop; cbn -[nth].
  - destruct (m !! cmd_key cmd) as [v|] eqn:Ev; eapply returns_mono.
    1: by apply (store_old kv s g m cmd status v).
    2: by apply (store_new kv s g m cmd status).
    all: intros [[[kv' s'] st] r] (-> & -> & _ & Hi & Hr); by split_and!.
  - unfold __do_perform_kv_io. destruct (m !! cmd_key cmd) as [v|] eqn:Ev.
    + destruct (found_entry _ _ _ _ _ _ Hinv Hm Hk Ev) as (i & e & k & Hf & He & Hu & Hg & Ebv & Elen & Ho & Hl & Hb).
      rewrite Hg. cbn -[nth]. unfold plan_kv_io. rewrite Hop. cbn -[nth]. rewrite (proj2 (Z.eqb_neq _ _) Hu). cbn -[nth]. apply returns_bind.
      specialize (Hpg v eq_refl). rewrite Elen in *. pose proof (value_length_range cmd) as Hvl. set (n := Z.min _ _) in *.
      eapply returns_mono; [apply (retrieve_moves cmd s (mem_offset e) n Hop); [lia..|done]|]. intros s' [Est Hd]. cbn -[nth].
      rewrite u32_small by (unfold U32_MAX in *; lia). split; [done|]. split; [done|]. split; [by exists g|]. split.
      * intros key Hlk. rewrite (Hm key Hlk). unfold kv_value. by rewrite Est.
      * intros _ v' [= <-] j Hj. rewrite Hd, Ebv, nth_bytes by lia. done.
    + destruct (get_entry_ok kv cmd Hs Hk) as (f & Hf & Hg). rewrite (Hm _ (cmd_key_length_eq _ Hk)), kv_value_cmd in Ev by done.
      destruct f as [i|]; [destruct Hg as (e & k & He & Hu & _); by rewrite (kv_value_slot _ _ _ _ _ _ Hf He) in Ev|].
      rewrite Hg. cbn. unfold plan_kv_io. rewrite Hop. cbn. split_and!; try done. by exists g.
  - unfold __do_perform_kv_io. destruct (get_entry_ok kv cmd Hs Hk) as (f & Hf & Hg). rewrite (Hm _ (cmd_key_length_eq _ Hk)), kv_value_cmd by done.
    destruct f as [i|].
    + destruct Hg as (e & k & He & Hu & Hg). rewrite (kv_value_slot _ _ _ _ _ _ Hf He), Hg. cbn. unfold plan_kv_io. rewrite Hop. cbn.
      rewrite (proj2 (Z.eqb_neq _ _) Hu). cbn. split_and!; try done. by exists g.
    + unfold kv_value. rewrite Hf, Hg. cbn. unfold plan_kv_io. rewrite Hop. cbn. split_and!; try done. by exists g.
Qed.

(** ** Deletion *)

(** C19. Deleting a key empties its slot and nothing else: the key is gone, and
    so is every key whose way from its home slot led over that slot; all other
    keys keep their values.  An absent key is reported. *)
Theorem kv_delete_spec kv s g m cmd status :
  kv_inv ops storage_size kv g -> kv_refines kv s m -> key_ok cmd -> kv_opcode cmd = nvme_cmd_kv_delete ->
  returns (__do_perform_kv_io ops storage_size kv cmd s status) (fun '(kv', s', st, r) =>
    s' = s /\ r = 0 /\ kv_inv ops storage_size kv' g /\ kv_value kv' s (cmd_key cmd) L = None /\
    match m !! cmd_key cmd with
    | None => st = KV_ERR_KEY_NOT_EXIST /\ kv' = kv
    | Some _ => st = status /\ exists d, lookup_slot kv (kv_key cmd) L = Ok (Some d) /\
        forall key h l o i, Z.of_nat (length key) = L ->
        get_hash_slot (hash_slots kv) key L = Ok h -> walk (kv_mapping_table kv) h l o -> lookup_slot kv key L = Ok (Some i) ->
        kv_value kv' s key L = if decide (d ∈ before i l ++ [i]) then None else m !! key
    end).
Proof.
  intros Hinv Hm Hk Hop. pose proof (ki_shape _ _ _ _ Hinv) as Hs. destruct (key_bounds cmd Hk) as [Hn Hn2].
  pose proof (cmd_key_length_eq _ Hk) as Hkl. unfold __do_perform_kv_io. destruct (m !! cmd_key cmd) as [v|] eqn:Ev.
  - destruct (found_entry _ _ _ _ _ _ Hinv Hm Hk Ev) as (d & e & k & Hf & He & Hu & Hg & _).
    assert (slot_used (kv_mapping_table kv) d) as Hd by by eexists. pose proof (used_range _ _ Hd) as Hr.
    rewrite Hg. cbn. unfold plan_kv_io. rewrite Hop. cbn. rewrite (proj2 (Z.eqb_neq _ _) Hu). unfold delete_mapping_entry.
    rewrite (proj1 Hk), Hf. cbn. rewrite aset_in_range by done. cbn. fold (without kv d).
    split; [done|]. split; [done|]. split; [by apply without_inv|]. split.
    + destruct (key_walk kv (cmd_key cmd) L Hs ltac:(lia)) as (h & l & o & Hh & Hw).
      rewrite (value_without kv s d _ L h l o) by (done || lia). unfold cmd_key at 1. rewrite lookup_take, Hf by done.
      rewrite decide_True; [done|]. apply elem_of_app. right. apply list_elem_of_here.
    + split; [done|]. exists d. split; [done|]. intros key h l o i Hlk Hh Hw Hli.
      rewrite (value_without kv s d _ L h l o), Hli by (done || lia). by rewrite (Hm key Hlk).
  - destruct (get_entry_ok kv cmd Hs Hk) as (f & Hf & Hg). rewrite (Hm _ Hkl) in Ev. pose proof Ev as Ev'. rewrite kv_value_cmd in Ev' by done.
    destruct f as [i|]; [destruct Hg as (e & k & He & Hu & _); by rewrite (kv_value_slot _ _ _ _ _ _ Hf He) in Ev'|].
    rewrite Hg. cbn. unfold plan_kv_io. rewrite Hop. cbn. by split_and!.
Qed.

(** ** A full table *)
Lemma new_entry_full kv key n vl vo : kv_shape kv -> 0 ≤ n ≤ Z.of_nat (length key) ->
  vo < storage_size -> (forall i, ~ slot_free (kv_mapping_table kv) i) ->
  new_mapping_entry_by_key storage_size kv key n vl vo = Bug NoFuel.
Proof.
  intros Hs Hn Hvo Hfull. destruct (key_walk kv key n Hs Hn) as (h & l & o & Hh & Hw). pose proof Hs as [Ht Hsl]. pose proof (to_size _ Ht).
  unfold new_mapping_entry_by_key. rewrite (proj2 (Z.leb_gt _ _)) by lia. cbn. rewrite Hh. cbn.
  destruct (decide (l = [])) as [->|Hne]; [inversion Hw; subst; exfalso; eapply Hfull; by eexists|].
  destruct (walk_head_used _ _ _ _ Hw Hne) as (e & Hg & Hu). rewrite Hg. cbn. rewrite (proj2 (Z.eqb_neq _ _) Hu).
  destruct (walk_last_used _ _ _ _ Hw Hne) as (p & Hp & Hwp). unfold find_next_slot.
  rewrite (chain_tail_ok _ _ _ _ Hw) by by eapply walk_length. cbn. rewrite Hp, Hsl. cbn.
  rewrite next_free_full; [done | lia | done |]. eapply used_range, walk_used; [exact Hwp | apply list_elem_of_here].
Qed.

(** When every slot is used, storing a new key never returns: the second
    loop of [find_next_slot] goes round the table for ever, whatever its fuel
    and wherever it starts. *)
Theorem full_table_hangs kv s g m cmd status : kv_inv ops storage_size kv g -> kv_refines kv s m -> key_ok cmd ->
  kv_opcode cmd = nvme_cmd_kv_store -> m !! cmd_key cmd = None -> al_room storage_size (allocator_state kv) (cmd_value_length cmd) ->
  prp_ok (mem_u64 (host s)) (kv_prp1 cmd) (kv_prp2 cmd) (cmd_value_length cmd) (fun _ => true) ->
  (forall i, ~ slot_free (kv_mapping_table kv) i) ->
  __do_perform_kv_io ops storage_size kv cmd s status = Bug NoFuel /\
  forall fuel slot, 0 ≤ slot < hash_slots kv -> next_free fuel (kv_mapping_table kv) (hash_slots kv) slot = Bug NoFuel.
Proof.
  intros Hinv Hm Hk Hop Hnone Hroom Hprp Hfull. pose proof Hinv as [Hs Hal _]. pose proof (to_size _ (ks_table _ Hs)) as Hsz. split.
  - destruct (key_bounds cmd Hk) as [Hn Hn2]. pose proof (value_length_range cmd) as Hvl. unfold U32_MAX in Hvl.
    destruct (get_entry_ok kv cmd Hs Hk) as (f & Hf & Hg). rewrite (Hm _ (cmd_key_length_eq _ Hk)), kv_value_cmd in Hnone by done.
    destruct f as [i|]; [destruct Hg as (e & k & He & Hu & _); by rewrite (kv_value_slot _ _ _ _ _ _ Hf He) in Hnone|].
    unfold __do_perform_kv_io. rewrite Hg. cbn. unfold plan_kv_io. rewrite Hop. cbn. unfold allocate_mem_offset, allocate_mem_offset_by_length.
    rewrite Hop. cbn. rewrite u64_small by (unfold U64_MAX; lia).
    pose proof (al_allocate _ _ _ _ Hal Hroom) as (pa & Hpa & Hp)%returns_iff. destruct pa as [off a']. destruct Hp as (n & Hln & Ho & Hon & _).
    rewrite Hpa. cbn. unfold FREE. rewrite (proj2 (Z.eqb_neq off _)) by lia.
    destruct (proj1 (returns_iff _ _) (store_moves cmd s off Hop ltac:(lia) ltac:(lia) Hprp)) as (s' & Hs' & _). rewrite Hs'. cbn.
    unfold new_mapping_entry. rewrite (proj1 Hk), new_entry_full; [done | by destruct Hs | done | lia | done].
  - intros fuel slot Hr. rewrite (ks_slots _ Hs) in *. by apply next_free_full; [lia|..].
Qed.

(** ** A value that grows *)

(** C37. Storing a longer value over a key writes past the end of its region,
    since its place is not reconsidered: a key whose value lies there reads
    back the new bytes where the two overlap. *)
Theorem longer_update_overwrites kv s g m cmd status other v i j e e' :
  kv_inv ops storage_size kv g -> kv_refines kv s m -> key_ok cmd -> kv_opcode cmd = nvme_cmd_kv_store ->
  m !! cmd_key cmd = Some v -> lookup_slot kv (kv_key cmd) L = Ok (Some i) -> aget (kv_mapping_table kv) i = Ok e ->
  Z.of_nat (length other) = L -> other <> cmd_key cmd -> lookup_slot kv other L = Ok (Some j) -> aget (kv_mapping_table kv) j = Ok e' ->
  let len := cmd_value_length cmd in
  me_length e < len -> mem_offset e + len ≤ storage_size ->
  prp_ok (mem_u64 (host s)) (kv_prp1 cmd) (kv_prp2 cmd) len (fun _ => true) ->
  returns (__do_perform_kv_io ops storage_size kv cmd s status) (fun '(kv', s', st, r) => st = status /\ r = 0 /\
    kv_value kv' s' other L = Some (map (stored cmd s (mem_offset e) len) (seqZ (mem_offset e') (me_length e')))).
Proof.
  intros Hinv Hm Hk Hop Hv Hf He Hlo Hne Hfo He' len Hlen Hb Hprp. destruct (key_bounds cmd Hk) as [Hn Hn2]. pose proof Hinv as [Hs _ Hrg].
  destruct (found_entry _ _ _ _ _ _ Hinv Hm Hk Hv) as (i2 & e2 & k & Hf2 & He2 & Hu & Hg & _ & _ & Ho & Hl & _).
  rewrite Hf in Hf2. injection Hf2 as <-. rewrite He in He2. injection He2 as <-.
  unfold __do_perform_kv_io. rewrite Hg. cbn. unfold plan_kv_io. rewrite Hop. cbn. rewrite (proj2 (Z.eqb_neq _ _) Hu). fold len.
  assert (i <> j) as Hij.
  { intros ->. apply Hne. pose proof (lookup_key _ _ _ _ Hs Hn Hn2 Hf) as H1.
    pose proof (lookup_key kv other L j Hs ltac:(lia) Hn2 Hfo) as H2. unfold cmd_key. rewrite H1, <- H2. symmetry. apply take_ge. lia. }
  assert (forall s', (forall x, storage s' x = stored cmd s (mem_offset e) len x) -> forall kv', lookup_slot kv' other L = Ok (Some j) ->
    aget (kv_mapping_table kv') j = Ok e' ->
    kv_value kv' s' other L = Some (map (stored cmd s (mem_offset e) len) (seqZ (mem_offset e') (me_length e')))) as Hval.
  { intros s' Hs' kv' Hl' Hg'. rewrite (kv_value_slot _ _ _ _ _ _ Hl' Hg'). f_equal. by apply map_ext. }
  destruct (negb (len =? me_length e) && (len <=? Bitmap.SMALL_LENGTH) && (me_length e <=? Bitmap.SMALL_LENGTH)); cbn; apply returns_bind;
    (eapply returns_mono; [by apply (store_writes cmd s (mem_offset e) Hop); [lia|..]|]); fold len; intros s' [_ Es]; cbn.
  - rewrite (update_ok _ _ i e) by done. cbn. split; [done|]. split; [done|]. apply Hval; [done | | cbn; by rewrite aget_insert, decide_False by (by eapply aget_range || done)].
    by rewrite (lookup_resized kv i e (cmd_value_length cmd) other L) by (done || lia).
  - split; [done|]. split; [done|]. by apply Hval.
Qed.

(** ** The fresh device *)
Lemma aget_replicate {B} (b : B) (n : nat) i : 0 ≤ i < Z.of_nat n -> aget (replicate n b) i = Ok b.
Proof. intros Hi. unfold aget. rewrite decide_True by lia. by rewrite lookup_replicate_2 by lia. Qed.

Lemma fresh_shape a l (n : nat) : 0 < Z.of_nat n < NO_SLOT -> kv_shape (mk_kvftl (A := A) (replicate n empty_entry) (Z.of_nat n) a l).
Proof.
  intros Hn. split; cbn; [|by rewrite length_replicate]. split; rewrite ?length_replicate; [done| |].
  - apply Forall_replicate. by split.
  - intros i Hi. exists [], (Some i). apply (walk_free _ _ empty_entry); [by apply aget_replicate | done].
Qed.

(** The namespace starts as the empty map: its table is well formed, no
    region is granted, and every key is absent. *)
Theorem kv_init_empty ns_id table_size size a :
  KV_MAPPING_ENTRY_SIZE ≤ table_size -> table_size / KV_MAPPING_ENTRY_SIZE < NO_SLOT -> 0 ≤ storage_size ≤ al_max ->
  returns (kv_init_namespace ops storage_size ns_id table_size size a) (fun ns =>
    ns_size ns = size /\ kv_inv ops storage_size (ns_ftls ns) [] /\ forall s, kv_refines (ns_ftls ns) s ∅).
Proof.
  intros Ht Hn Hst. unfold kv_init_namespace. apply returns_bind. eapply returns_mono; [by apply al_init|].
  intros [r a'] [_ Hal]. cbn. set (n := table_size / KV_MAPPING_ENTRY_SIZE) in *.
  assert (0 < n) by (apply Z.div_str_pos; unfold KV_MAPPING_ENTRY_SIZE in *; lia).
  set (l := [_; _; _; _; _; _; _; _; _; _; _; _; _; _; _; _; _]).
  pose proof (fresh_shape a' l (Z.to_nat n) ltac:(lia)) as Hs. rewrite Z2Nat.id in Hs by lia.
  assert (forall i e, aget (replicate (Z.to_nat n) empty_entry) i = Ok e -> mem_offset e = FREE) as Hfree.
  { intros i e Hg. pose proof (aget_range _ _ _ Hg) as Hr. rewrite length_replicate in Hr. rewrite aget_replicate in Hg by lia. by injection Hg as <-. }
  split; [done|]. split.
  - split; [done | done |]. split; cbn.
    + intros i e Hg Hu. destruct Hu. by eapply Hfree.
    + intros i j e e' Hg _ Hu. destruct Hu. by eapply Hfree.
  - intros s key Hk. rewrite lookup_empty. unfold kv_value.
    destruct (lookup_total _ key L Hs ltac:(lia) ltac:(unfold KEY_SIZE; lia)) as [[i|] Hf]; rewrite Hf; [|done].
    destruct (lookup_used _ key L i Hs ltac:(lia) ltac:(unfold KEY_SIZE; lia) Hf) as (e & He & Hu). destruct Hu. by eapply Hfree.
Qed.
End Kv.
