(* ===== verification/KvIter.v ===== *)
(** * Iterators of the key-value FTL

    A read of an iterator returns the keys of up to 51 matching slots, from
    where the last read stopped.  Reading until the device says so returns
    every matching key of the table, in the order of the slots. *)
From stdpp Require Import gmap.
From S2P Require Import Prelude Nvme Alloc Prp HostIo KvFtl KvTable KvInv.

(** ** What a read returns *)
Definition key16 (e : mapping_entry) : list Z := take 16 (me_key e).

(** The matching keys from slot [pos] on. *)
Definition matches (t : list mapping_entry) (h : kv_iter_context) (pos : Z) : list (list Z) :=
  map key16 (List.filter (iter_match h) (drop (Z.to_nat pos) t)).

(** A page: the number of keys, and each key after its length. *)
Definition iter_record (k : list Z) : list Z := le_bytes 4 keylen ++ k.
Definition iter_body (ks : list (list Z)) : list Z := concat (map iter_record ks).
Definition iter_page (ks : list (list Z)) : list Z := le_bytes 4 (Z.of_nat (length ks)) ++ iter_body ks.

Lemma mem_write_in m a bytes i : 0 ≤ i < Z.of_nat (length bytes) -> mem_write m a bytes (a + i) = nth (Z.to_nat i) bytes 0.
Proof.
  intros Hi. unfold mem_write. replace (a + i - a) with i by lia. destruct (aget_in_range bytes i Hi) as [b Hb]. rewrite Hb.
  apply aget_Ok in Hb as [_ Hb]. symmetry. by apply nth_lookup_Some.
Qed.

Lemma mem_write_out m a bytes x : ~ (a ≤ x < a + Z.of_nat (length bytes)) -> mem_write m a bytes x = m x.
Proof. intros Hx. unfold mem_write. destruct (aget bytes (x - a)) eqn:E; [|done]. apply aget_range in E. lia. Qed.

Lemma map_seqZ_nth (f : Z -> Z) l len : Z.of_nat (length l) = len ->
  (forall i, 0 ≤ i < len -> f i = nth (Z.to_nat i) l 0) -> map f (seqZ 0 len) = l.
Proof.
  intros Hl Hf. apply list_eq. intros i. change (map f (seqZ 0 len)) with (f <$> seqZ 0 len). rewrite list_lookup_fmap.
  destruct (decide (Z.of_nat i < len)) as [Hi|Hi].
  - rewrite lookup_seqZ_lt by lia. cbn. rewrite Z.add_0_l, Hf, Nat2Z.id by lia.
    destruct (lookup_lt_is_Some_2 l i ltac:(lia)) as [x Hx]. by rewrite Hx, (nth_lookup_Some _ _ _ _ Hx).
  - rewrite lookup_seqZ_ge, lookup_ge_None_2 by lia. done.
Qed.

Lemma key16_length e : length (me_key e) = KEY_SIZE -> length (key16 e) = 16%nat.
Proof. intros H. unfold key16. rewrite length_take, H. done. Qed.

Lemma iter_body_length ks : Forall (fun k => length k = 16%nat) ks -> Z.of_nat (length (iter_body ks)) = 20 * Z.of_nat (length ks).
Proof.
  induction 1 as [|k ks Hk _ IH]; [done|]. unfold iter_body in *. cbn [map concat]. rewrite length_app. unfold iter_record at 1.
  rewrite length_app, Hk. cbn [length le_bytes]. lia.
Qed.

Lemma iter_body_snoc ks k : iter_body (ks ++ [k]) = iter_body ks ++ iter_record k.
Proof. unfold iter_body. rewrite map_app, concat_app. cbn. by rewrite app_nil_r. Qed.

(** The buffer holds the records of [ks] from byte 4 on. *)
Definition holds (buf : Z -> Z) (ks : list (list Z)) : Prop :=
  Forall (fun k => length k = 16%nat) ks /\
  forall i, 0 ≤ i < 20 * Z.of_nat (length ks) -> buf (4 + i) = nth (Z.to_nat i) (iter_body ks) 0.

Lemma holds_snoc buf ks k : holds buf ks -> length k = 16%nat ->
  let o := 4 + 20 * Z.of_nat (length ks) in
  holds (mem_write (mem_write buf o (le_bytes 4 keylen)) (o + 4) k) (ks ++ [k]).
Proof.
  intros [Hks Hb] Hk o. pose proof (iter_body_length ks Hks) as Hl. split; [apply Forall_app; split; [done|by apply Forall_singleton]|].
  intros i. rewrite length_app. cbn [length]. intros Hi. rewrite iter_body_snoc.
  destruct (decide (i < 20 * Z.of_nat (length ks))) as [Hlt|Hge].
  - rewrite !mem_write_out by (rewrite ?Hk; cbn [length le_bytes]; lia). rewrite Hb, app_nth1 by lia. done.
  - rewrite app_nth2 by lia. unfold iter_record. replace (Z.to_nat i - length (iter_body ks))%nat with (Z.to_nat (i - 20 * Z.of_nat (length ks))) by lia.
    set (j := i - 20 * Z.of_nat (length ks)). destruct (decide (j < 4)) as [Hj|Hj].
    + rewrite mem_write_out by lia. replace (4 + i) with (o + j) by lia. rewrite mem_write_in by (cbn; lia). by rewrite app_nth1 by (cbn; lia).
    + replace (4 + i) with (o + 4 + (j - 4)) by lia. rewrite mem_write_in by (rewrite Hk; lia).
      rewrite app_nth2 by (cbn [length le_bytes]; lia). f_equal. cbn [length le_bytes]. lia.
Qed.

(** ** The scan *)
Section Scan.
Context (t : list mapping_entry) (h : kv_iter_context) (Ht : table_ok t).
#[local] Abbreviation n := (Z.of_nat (length t)).

Lemma matches_here pos e : aget t pos = Ok e -> matches t h pos = (if iter_match h e then [key16 e] else []) ++ matches t h (pos + 1).
Proof.
  intros [Hp He]%aget_Ok. unfold matches. rewrite (drop_S _ _ _ He). replace (Z.to_nat (pos + 1)) with (S (Z.to_nat pos)) by lia.
  cbn. by destruct (iter_match h e).
Qed.

Lemma matches_end pos : n ≤ pos -> matches t h pos = [].
Proof. intros H. unfold matches. by rewrite drop_ge by lia. Qed.

Lemma iter_scan_ok fuel : forall pos buf ks, 0 ≤ pos ≤ n -> n - pos ≤ Z.of_nat fuel -> (length ks <= 51)%nat -> holds buf ks ->
  returns (iter_scan fuel t n h pos buf (4 + 20 * Z.of_nat (length ks)) (Z.of_nat (length ks)))
    (fun '(pos', buf', bo, nr, e) => exists ks', matches t h pos = ks' ++ matches t h pos' /\ pos ≤ pos' ≤ n /\
       holds buf' (ks ++ ks') /\ (length (ks ++ ks') <= 51)%nat /\
       bo = 4 + 20 * Z.of_nat (length (ks ++ ks')) /\ nr = Z.of_nat (length (ks ++ ks')) /\
       if e : bool then pos' = n else pos = n \/ length (ks ++ ks') = 51%nat /\ pos' < n).
Proof.
  induction fuel as [|fuel IH]; intros pos buf ks Hp Hf Hl Hh; cbn [iter_scan];
    (destruct (Z.ltb_spec pos n) as [Hlt|Hge]; cbn [negb];
      [|exists []; rewrite app_nil_r; assert (pos = n) as -> by lia; split_and!; try done; by left]); [lia|].
  destruct (aget_in_range t pos) as [e He]; [lia|]. rewrite He. cbn [mbind res_bind].
  pose proof (matches_here pos e He) as Hm. pose proof (key16_length e (proj1 (entry_ok _ _ _ Ht He))) as Hk.
  assert (forall ks1 buf1, holds buf1 ks1 -> (length ks1 <= 51)%nat -> forall K, ks1 = ks ++ K -> matches t h pos = K ++ matches t h (pos + 1) ->
    returns (if pos + 1 =? n then Ok (pos + 1, buf1, 4 + 20 * Z.of_nat (length ks1), Z.of_nat (length ks1), true)
             else iter_scan fuel t n h (pos + 1) buf1 (4 + 20 * Z.of_nat (length ks1)) (Z.of_nat (length ks1)))
    (fun '(pos', buf', bo, nr, e) => exists ks', matches t h pos = ks' ++ matches t h pos' /\ pos ≤ pos' ≤ n /\
       holds buf' (ks ++ ks') /\ (length (ks ++ ks') <= 51)%nat /\
       bo = 4 + 20 * Z.of_nat (length (ks ++ ks')) /\ nr = Z.of_nat (length (ks ++ ks')) /\
       if e : bool then pos' = n else pos = n \/ length (ks ++ ks') = 51%nat /\ pos' < n)) as Hgo.
  { intros ks1 buf1 Hh1 Hl1 K -> HK. destruct (Z.eqb_spec (pos + 1) n) as [E|E].
    - exists K. split_and!; try done; lia.
    - eapply returns_mono; [by apply IH; [lia|lia|..]|]. intros [[[[pos' buf'] bo] nr] e'] (ks' & H1 & H2 & H3 & H4 & H5 & H6 & H7).
      exists (K ++ ks'). rewrite <- !app_assoc in *. rewrite HK, H1. split_and!; try done; try lia. destruct e'; [done|]. right. by destruct H7; [lia|]. }
  destruct (iter_match h e) eqn:Em; cbn [andb].
  - unfold keylen. destruct (Z.ltb_spec 1024 (4 + 20 * Z.of_nat (length ks) + 4 + 16)) as [Hfull|Hroom].
    + exists []. rewrite app_nil_r. split_and!; try done; try lia.
    + unfold buf_read. rewrite (proj1 (entry_ok _ _ _ Ht He)). rewrite decide_True by done. cbn [mbind res_bind].
      change (drop (Z.to_nat 0) (me_key e)) with (me_key e). change (take (Z.to_nat 16) (me_key e)) with (key16 e).
      change (Z.land (16 + 3) (Z.lnot 3)) with 16. pose proof (holds_snoc buf ks (key16 e) Hh Hk) as Hh1. cbv zeta in Hh1.
      replace (4 + 20 * Z.of_nat (length ks) + 4 + 16) with (4 + 20 * Z.of_nat (length (ks ++ [key16 e]))) by (rewrite length_app; cbn; lia).
      replace (Z.of_nat (length ks) + 1) with (Z.of_nat (length (ks ++ [key16 e]))) by (rewrite length_app; cbn; lia).
      apply (Hgo _ _ Hh1) with (K := [key16 e]); [rewrite length_app; cbn; lia | done | done].
  - cbn [mbind res_bind]. apply (Hgo ks buf Hh Hl) with (K := []); [by rewrite app_nil_r | done].
Qed.
End Scan.

(** ** A read command *)
Section Read.
Context {A : Type}.
Implicit Types (kv : kv_ftl A) (s : io_mem) (cmd : nvme_kv_command).

(** The host's buffer lies in one page. *)
Definition one_page cmd : Prop := page_offset (kv_prp1 cmd) ≤ 3072.

Definition iter_at kv cmd (h : kv_iter_context) : Prop := aget (iter_handle kv) (iter_handle_of cmd) = Ok (IterAt h).

(** The device is as before but for the iterator. *)
Definition only_iter kv kv' : Prop :=
  kv_mapping_table kv' = kv_mapping_table kv /\ hash_slots kv' = hash_slots kv /\ allocator_state kv' = allocator_state kv.

(** The bytes a command of [r] bytes left in the host's page. *)
Definition host_page cmd s (r : Z) : list Z := map (fun i => host s (kv_prp1 cmd + i)) (seqZ 0 r).

Lemma matches_ext t h h' pos : ki_prefix h' = ki_prefix h -> ki_bitmask h' = ki_bitmask h -> matches t h' pos = matches t h pos.
Proof. intros Ep Eb. unfold matches. f_equal. apply filter_ext. intros e. unfold iter_match. by rewrite Ep, Eb. Qed.

Lemma page_addr m cmd len i : one_page cmd -> 0 ≤ len ≤ 1024 -> 0 ≤ i < len -> prp_addr m (kv_prp1 cmd) (kv_prp2 cmd) len i = kv_prp1 cmd + i.
Proof.
  unfold one_page. intros Hp Hl Hi. unfold prp_addr, prp_first. rewrite (proj2 (Z.ltb_lt _ _)); [done|]. unfold PAGE_SIZE. lia.
Qed.

Lemma page_pages_ok m cmd len : one_page cmd -> 0 ≤ len ≤ 1024 -> pages_ok (fun _ => true) m (kv_prp1 cmd) (kv_prp2 cmd) len.
Proof.
  intros Hp Hl. assert (prp_first (kv_prp1 cmd) len = len) as Ef by (unfold one_page, prp_first, PAGE_SIZE in *; lia). split.
  - split; [lia | done | done |]. rewrite Ef. unfold PAGE_SIZE. lia.
  - intros i j Hi Hj. rewrite !page_addr by done. lia.
  - unfold prp_listed. rewrite Ef, Z.sub_diag. done.
Qed.

Lemma iter_page_nth ks i : Forall (fun k => length k = 16%nat) ks -> 0 ≤ i < 20 * Z.of_nat (length ks) ->
  nth (Z.to_nat (4 + i)) (iter_page ks) 0 = nth (Z.to_nat i) (iter_body ks) 0.
Proof.
  intros Hk Hi. unfold iter_page. rewrite app_nth2 by (cbn [length le_bytes]; lia). f_equal. cbn [length le_bytes]. lia.
Qed.

Lemma iter_read_ok kv cmd s h status : kv_shape kv -> iter_at kv cmd h -> one_page cmd ->
  0 ≤ ki_current_pos h ≤ Z.of_nat (length (kv_mapping_table kv)) ->
  returns (kv_iter_read kv cmd s status) (fun '(kv', s', st, r) => exists ks h',
    storage s' = storage s /\ only_iter kv kv' /\ iter_at kv' cmd h' /\ ki_prefix h' = ki_prefix h /\ ki_bitmask h' = ki_bitmask h /\
    ki_current_pos h ≤ ki_current_pos h' ≤ Z.of_nat (length (kv_mapping_table kv)) /\
    matches (kv_mapping_table kv) h (ki_current_pos h) = ks ++ matches (kv_mapping_table kv) h (ki_current_pos h') /\
    host_page cmd s' r = iter_page ks /\ (length ks <= 51)%nat /\
    ((st = 0x393 /\ ki_current_pos h' = Z.of_nat (length (kv_mapping_table kv))) \/
     (st = 0 /\ (ki_current_pos h = Z.of_nat (length (kv_mapping_table kv)) \/
        length ks = 51%nat /\ ki_current_pos h' < Z.of_nat (length (kv_mapping_table kv)))))).
Proof.
  intros [Ht Hs] Hh Hp Hpos. unfold iter_at in *. unfold kv_iter_read. rewrite Hh. cbn [mbind res_bind]. rewrite Hs.
  pose proof (iter_scan_ok (kv_mapping_table kv) h Ht (length (kv_mapping_table kv)) (ki_current_pos h) (ki_buf h) [] Hpos ltac:(lia) ltac:(cbn; lia)
    ltac:(split; [constructor | cbn; lia])) as Hsc.
  change (4 + 20 * Z.of_nat (length [])) with 4 in Hsc. change (Z.of_nat (length [])) with 0 in Hsc.
  apply returns_bind. eapply returns_mono; [exact Hsc|]. intros [[[[pos' buf'] bo] nr] e] (ks & Hm & Hr & [Hks Hb] & Hl & -> & -> & He).
  cbn [app] in *. pose proof (aget_range _ _ _ Hh) as Hir. rewrite aset_in_range by done. cbn [mbind res_bind].
  set (len := 4 + 20 * Z.of_nat (length ks)). assert (0 ≤ len ≤ 1024) as Hlen by lia.
  set (buf2 := mem_write buf' 0 (le_bytes 4 (Z.of_nat (length ks)))). apply returns_bind.
  eapply returns_mono; [apply (move_to_host (fun _ => true) _ 0 buf2); [by intros | by apply page_pages_ok | lia]|].
  intros s' (Est & Hd & _). cbn -[iter_page]. exists ks, (mk_iter (ki_prefix h) (ki_bitmask h) buf2 (ki_byteswritten h) (ki_bufoffset h) (ki_end h) pos').
  split; [done|]. split; [done|]. split; [by rewrite aget_insert, decide_True by done|]. do 4 (split; [done|]). split.
  - pose proof (iter_body_length ks Hks) as Hbl. unfold host_page. apply map_seqZ_nth.
    { unfold iter_page. rewrite length_app. cbn [length le_bytes]. lia. }
    intros i Hi. rewrite <- (page_addr (mem_u64 (host s)) cmd len i), Hd by done. change (0 + 0 + i) with i. unfold buf2.
    destruct (decide (i < 4)) as [Hi4|Hi4].
    + change i with (0 + i) at 1. rewrite mem_write_in by (cbn [length le_bytes]; lia). unfold iter_page. by rewrite app_nth1 by (cbn [length le_bytes]; lia).
    + rewrite mem_write_out by (cbn [length le_bytes]; lia). replace i with (4 + (i - 4)) by lia. rewrite Hb, iter_page_nth by (done || lia). done.
  - split; [done|]. destruct e; [by left|]. right. split; [done|]. done.
Qed.

(** ** Reading to the end

    The host reads again and again until the status says the table is
    exhausted; the pages it saw, in order. *)
Fixpoint iter_reads (n : nat) kv cmd s : res (kv_ftl A * list (list Z)) :=
  match n with
  | O => Bug NoFuel
  | S n =>
    '(kv, s, st, r) ← kv_iter_read kv cmd s 0;
    if st =? 0x393 then Ok (kv, [host_page cmd s r])
    else '(kv, pages) ← iter_reads n kv cmd s; Ok (kv, host_page cmd s r :: pages)
  end.

Lemma iter_reads_ok kv cmd h n : forall s kv' h', kv_shape kv -> only_iter kv kv' -> iter_at kv' cmd h' -> one_page cmd ->
  ki_prefix h' = ki_prefix h -> ki_bitmask h' = ki_bitmask h ->
  0 ≤ ki_current_pos h' < Z.of_nat (length (kv_mapping_table kv)) ->
  (Z.to_nat (Z.of_nat (length (kv_mapping_table kv)) - ki_current_pos h') <= n)%nat ->
  returns (iter_reads n kv' cmd s) (fun '(kv'', pages) => exists groups, only_iter kv kv'' /\ pages = map iter_page groups /\
    concat groups = matches (kv_mapping_table kv) h (ki_current_pos h') /\
    (51 * (length groups - 1) <= length (concat groups))%nat).
Proof.
  induction n as [|n IH]; intros s kv' h' Hs Ho Hi Hp Ep Eb Hpos Hn; [lia|]. cbn [iter_reads]. destruct Ho as (Et & Esl & Eal).
  assert (kv_shape kv') as Hs' by (destruct Hs; split; by rewrite ?Et, ?Esl).
  apply returns_bind. eapply returns_mono; [apply (iter_read_ok kv' cmd s h' 0 Hs' Hi Hp); rewrite Et; lia|].
  intros [[[kv1 s1] st] r] (ks & h1 & _ & (Et1 & Esl1 & Eal1) & Hi1 & Ep1 & Eb1 & Hr1 & Hm & Hpg & Hl & Hst). rewrite Et in *.
  assert (only_iter kv kv1) as Ho1 by (split_and!; congruence).
  rewrite (matches_ext _ h h'), (matches_ext _ h h') in Hm by done. destruct Hst as [[-> Hend]|[-> [Hend|[Hfull Hmore]]]]; [|lia|].
  - cbn. exists [ks]. rewrite Hpg. split; [done|]. split; [done|]. cbn. rewrite app_nil_r. split; [|lia].
    rewrite Hm, Hend, matches_end, app_nil_r by lia. done.
  - cbn. apply returns_bind. assert (ki_current_pos h' < ki_current_pos h1) as Hgt.
    { destruct (decide (ki_current_pos h1 = ki_current_pos h')) as [E|E]; [|lia]. rewrite E in Hm.
      apply (f_equal length) in Hm. rewrite length_app in Hm. lia. }
    eapply returns_mono; [apply (IH s1 kv1 h1 Hs Ho1 Hi1 Hp); [congruence.. | lia | lia]|].
    intros [kv2 pages] (groups & Ho2 & -> & Hg & Hc). exists (ks :: groups). split; [done|]. split; [by rewrite Hpg|]. cbn.
    rewrite Hg, Hm. split; [done|]. rewrite <- Hg, length_app. destruct groups as [|? groups]; cbn in *; lia.
Qed.

(** C18. Reading an iterator until the device reports its end ends, and gives
    every key of the table that matches the iterator, once and in the order of
    the slots, 51 keys to a page; the table is not touched.  Keys are cut or
    padded to 16 bytes. *)
Theorem kv_iter_complete kv cmd s h : kv_shape kv -> iter_at kv cmd h -> one_page cmd ->
  ki_current_pos h = 0 ->
  returns (iter_reads (length (kv_mapping_table kv)) kv cmd s) (fun '(kv', pages) => exists groups,
    only_iter kv kv' /\ pages = map iter_page groups /\
    concat groups = map key16 (List.filter (iter_match h) (kv_mapping_table kv)) /\
    (51 * (length groups - 1) <= length (concat groups))%nat).
Proof.
  intros Hs Hi Hp Hpos. pose proof (to_size _ (ks_table _ Hs)).
  pose proof (iter_reads_ok kv cmd h (length (kv_mapping_table kv)) s kv h Hs ltac:(done) Hi Hp eq_refl eq_refl ltac:(lia) ltac:(lia)) as Hr.
  rewrite Hpos in Hr. exact Hr.
Qed.
End Read.
