(* ===== verification/KvBatch.v ===== *)
(** * Batches of the key-value FTL

    A batch packs up to eight stores in one payload.  Its layout is written
    out as an encoder; performing the encoded batch is performing its stores
    one after the other. *)
From stdpp Require Import gmap.
From S2P Require Import Prelude Nvme Alloc Prp HostIo KvFtl KvTable KvInv KvProps KvIter.

(** ** The payload *)
Record sub_cmd := mk_sub { sub_op : Z; sub_key : list Z; sub_value : list Z }.

Definition zeros (n : Z) : list Z := replicate (Z.to_nat n) 0.
Definition lenZ (l : list Z) : Z := Z.of_nat (length l).

(** [struct sub_cmd_attribute]. *)
Definition attr_bytes (c : sub_cmd) : list Z :=
  [sub_op c; lenZ (sub_key c); 0; 0] ++ le_bytes 4 (lenZ (sub_value c)) ++ zeros 8.
(** Bytes padded to [ALIGN_LEN]. *)
Definition aligned (l : list Z) : list Z := l ++ zeros (align_up (lenZ l) - lenZ l).
(** A sub-command's head, key and value. *)
Definition sub_bytes (c : sub_cmd) : list Z := zeros ALIGN_LEN ++ aligned (sub_key c) ++ aligned (sub_value c).

Definition attrs (l : list sub_cmd) : list Z := concat (map attr_bytes l).
Definition subs (l : list sub_cmd) : list Z := concat (map sub_bytes l).
Definition batch_payload (l : list sub_cmd) : list Z :=
  attrs l ++ zeros (SUB_PAYLOAD - lenZ (attrs l)) ++ subs l.

(** What the device takes: keys that fit its buffer, values of a page. *)
Record sub_ok (c : sub_cmd) : Prop := {
  so_key : 1 ≤ lenZ (sub_key c) ≤ 20;
  so_value : 1 ≤ lenZ (sub_value c) ≤ 4096;
}.

(** ** Reading it back *)
Lemma buf_read_app a b c : buf_read (a ++ b ++ c) (lenZ a) (lenZ b) = Ok b.
Proof.
  unfold buf_read, lenZ. rewrite decide_True by (rewrite !length_app; lia).
  by rewrite !Nat2Z.id, drop_app_length, take_app_length.
Qed.

(** The same where the offset and the pieces are known up to equality. *)
Lemma buf_read_at buf a b c off n : buf = a ++ b ++ c -> lenZ a = off -> lenZ b = n -> buf_read buf off n = Ok b.
Proof. intros -> <- <-. apply buf_read_app. Qed.

Lemma lenZ_app a b : lenZ (a ++ b) = lenZ a + lenZ b.
Proof. unfold lenZ. rewrite length_app. lia. Qed.

Lemma lenZ_zeros n : 0 ≤ n -> lenZ (zeros n) = n.
Proof. intros. unfold lenZ, zeros. rewrite length_replicate. lia. Qed.

Lemma align_up_eq n : 1 ≤ n -> align_up n = ((n - 1) / 64 + 1) * 64 /\ n ≤ align_up n.
Proof.
  intros Hn. unfold align_up, ALIGN_LEN. rewrite Z.quot_div_nonneg by lia. split; [done|]. Z.div_mod_to_equations. lia.
Qed.

Lemma lenZ_aligned l : 1 ≤ lenZ l -> lenZ (aligned l) = align_up (lenZ l).
Proof. intros H. pose proof (align_up_eq _ H). unfold aligned. rewrite lenZ_app, lenZ_zeros by lia. lia. Qed.

Lemma lenZ_attrs l : lenZ (attrs l) = 16 * Z.of_nat (length l).
Proof.
  induction l as [|c l IH]; [done|]. change (attrs (c :: l)) with (attr_bytes c ++ attrs l). rewrite lenZ_app, IH.
  change (lenZ (attr_bytes c)) with 16. cbn [length]. lia.
Qed.

Lemma padded_ok size l : (length l <= size)%nat -> padded size l = Ok (l ++ replicate (size - length l) 0).
Proof. intros H. unfold padded. by rewrite (proj2 (Nat.leb_le _ _)). Qed.

Section Batch.
Context {A : Type} (ops : allocator_ops A) (storage_size : Z) (kmalloc_bytes : Z -> Z).
Implicit Types (kv : kv_ftl A) (s : io_mem) (cmd : nvme_kv_command).

(** The sub-commands one after the other. *)
Definition perform_sub kv s (c : sub_cmd) : res (kv_ftl A * io_mem) :=
  __do_perform_kv_batched_io ops storage_size kv s (sub_op c)
    (sub_key c ++ replicate (20 - length (sub_key c)) 0) (lenZ (sub_key c))
    (sub_value c ++ replicate (4097 - length (sub_value c)) 0) (lenZ (sub_value c)).

Fixpoint perform_subs kv s (l : list sub_cmd) : res (kv_ftl A * io_mem) :=
  match l with [] => Ok (kv, s) | c :: l => '(kv, s) ← perform_sub kv s c; perform_subs kv s l end.

Lemma subs_cons c l : subs (c :: l) = sub_bytes c ++ subs l.
Proof. done. Qed.

Lemma lenZ_sub_bytes c : sub_ok c -> lenZ (sub_bytes c) = ALIGN_LEN + align_up (lenZ (sub_key c)) + align_up (lenZ (sub_value c)).
Proof. intros [Hk Hv]. unfold sub_bytes. rewrite !lenZ_app, !lenZ_aligned by lia. rewrite lenZ_zeros by done. lia. Qed.

(** One sub-command of a payload [l ++ c :: l2], with anything behind it. *)
Lemma batch_sub_ok kv s l c l2 rest : Forall sub_ok (l ++ c :: l2) -> (length (l ++ c :: l2) <= 8)%nat ->
  batch_sub_cmd ops storage_size (batch_payload (l ++ c :: l2) ++ rest) (Z.of_nat (length l)) (kv, s, ALIGN_LEN + lenZ (subs l)) =
  ('(kv, s) ← perform_sub kv s c; Ok (kv, s, ALIGN_LEN + lenZ (subs (l ++ [c])))).
Proof.
  intros Hok H8. pose proof Hok as Hc. apply Forall_app in Hc as [_ Hc]. apply Forall_cons in Hc as [Hc _]. pose proof Hc as [Hk Hv].
  pose proof (align_up_eq _ (proj1 Hk)) as [_ Hak]. pose proof (align_up_eq _ (proj1 Hv)) as [_ Hav].
  set (buf := batch_payload _ ++ rest). pose proof (lenZ_attrs (l ++ c :: l2)) as Hla. rewrite length_app in H8. cbn [length] in H8.
  assert (attrs (l ++ c :: l2) = attrs l ++ attr_bytes c ++ attrs l2) as Ea by (unfold attrs; by rewrite map_app, concat_app).
  assert (subs (l ++ c :: l2) = subs l ++ sub_bytes c ++ subs l2) as Es by (unfold subs; by rewrite map_app, concat_app).
  set (pad := zeros (SUB_PAYLOAD - lenZ (attrs (l ++ c :: l2)))).
  assert (lenZ (attrs (l ++ c :: l2) ++ pad) = SUB_PAYLOAD) as Hhead.
  { unfold pad. rewrite lenZ_app, lenZ_zeros; [lia|]. rewrite Hla, length_app. cbn [length]. unfold SUB_PAYLOAD. lia. }
  assert (buf_read buf (16 * Z.of_nat (length l)) 16 = Ok (attr_bytes c)) as Ha.
  { apply (buf_read_at _ (attrs l) _ (attrs l2 ++ pad ++ subs (l ++ c :: l2) ++ rest)); [|apply lenZ_attrs | done].
    unfold buf, batch_payload. fold pad. rewrite Ea. by rewrite <- !app_assoc. }
  assert (buf_read buf (SUB_PAYLOAD + (ALIGN_LEN + lenZ (subs l))) (lenZ (sub_key c)) = Ok (sub_key c)) as Hkey.
  { apply (buf_read_at _ ((attrs (l ++ c :: l2) ++ pad) ++ subs l ++ zeros ALIGN_LEN) _
      (zeros (align_up (lenZ (sub_key c)) - lenZ (sub_key c)) ++ aligned (sub_value c) ++ subs l2 ++ rest)); [|rewrite !lenZ_app, lenZ_zeros, <- Hhead, lenZ_app by done; lia|done].
    unfold buf, batch_payload. fold pad. rewrite Es. unfold sub_bytes, aligned at 1. by rewrite <- !app_assoc. }
  assert (buf_read buf (SUB_PAYLOAD + (ALIGN_LEN + lenZ (subs l)) + align_up (lenZ (sub_key c))) (lenZ (sub_value c)) = Ok (sub_value c)) as Hval.
  { apply (buf_read_at _ ((attrs (l ++ c :: l2) ++ pad) ++ subs l ++ zeros ALIGN_LEN ++ aligned (sub_key c)) _
      (zeros (align_up (lenZ (sub_value c)) - lenZ (sub_value c)) ++ subs l2 ++ rest));
      [|rewrite !lenZ_app, lenZ_aligned, lenZ_zeros, <- Hhead, lenZ_app by (done || lia); lia|done].
    unfold buf, batch_payload. fold pad. rewrite Es. unfold sub_bytes. unfold aligned at 2. by rewrite <- !app_assoc. }
  unfold batch_sub_cmd. rewrite (proj2 (Z.ltb_lt _ _)) by (unfold MAX_SUB_CMD; lia). rewrite Ha. cbn [mbind res_bind].
  change (nth 0 (attr_bytes c) 0) with (sub_op c). change (nth 1 (attr_bytes c) 0) with (lenZ (sub_key c)).
  change (take 4 (drop 4 (attr_bytes c))) with (le_bytes 4 (lenZ (sub_value c))).
  rewrite le_word_bytes by (cbn; lia). rewrite i32_small by lia. rewrite Hkey. cbn [mbind res_bind].
  unfold lenZ in Hk, Hv. rewrite padded_ok by lia. cbn [mbind res_bind]. rewrite Hval. cbn [mbind res_bind].
  rewrite padded_ok by lia. cbn [mbind res_bind]. fold (lenZ (sub_key c)) (lenZ (sub_value c)). unfold perform_sub.
  destruct (__do_perform_kv_batched_io _ _ _ _ _ _ _ _ _) as [[kv' s']|b]; [|done]. cbn [mbind res_bind]. f_equal. f_equal.
  replace (subs (l ++ [c])) with (subs l ++ sub_bytes c) by (unfold subs; rewrite map_app, concat_app; cbn; by rewrite app_nil_r).
  rewrite lenZ_app, lenZ_sub_bytes by done. lia.
Qed.

Lemma batch_loop_ok rest l2 : forall l kv s, Forall sub_ok (l ++ l2) -> (length (l ++ l2) <= 8)%nat ->
  for_loop (length l2) (Z.of_nat (length l)) (batch_sub_cmd ops storage_size (batch_payload (l ++ l2) ++ rest)) (kv, s, ALIGN_LEN + lenZ (subs l)) =
  ('(kv, s) ← perform_subs kv s l2; Ok (kv, s, ALIGN_LEN + lenZ (subs (l ++ l2)))).
Proof.
  induction l2 as [|c l2 IH]; intros l kv s Hok H8; [by rewrite app_nil_r|]. cbn [length for_loop perform_subs].
  rewrite batch_sub_ok by done. destruct (perform_sub kv s c) as [[kv' s']|b]; [|done]. cbn [mbind res_bind].
  pose proof (IH (l ++ [c]) kv' s') as H. rewrite <- !app_assoc in H. cbn [app] in H.
  replace (Z.of_nat (length l) + 1) with (Z.of_nat (length (l ++ [c]))) by (rewrite length_app; cbn; lia). by apply H.
Qed.

(** The payload in the host's pages. *)
Lemma batch_buffer_ok cmd s : prp_ok (mem_u64 (host s)) (kv_prp1 cmd) (kv_prp2 cmd) (cmd_value_length cmd) (fun _ => true) ->
  batch_buffer kmalloc_bytes cmd s = Ok (host_value (host s) cmd (cmd_value_length cmd)).
Proof.
  intros Hok. unfold batch_buffer. set (len := cmd_value_length cmd) in *.
  pose proof (prp_transfer_rule (fun _ => true) (St := io_mem * (Z -> Z)) (fun '(s, _) => mem_u64 (host s))
    (fun '(s, buf) vaddr offset n => Ok (s, mem_copy buf offset (host s) vaddr n)) (mem_u64 (host s)) _ _ len 0 Hok
    (fun k '(s', buf) => s' = s /\ forall i, 0 ≤ i < k -> buf i = host s (value_addr (host s) cmd len i)) (s, kmalloc_bytes)) as H.
  apply returns_iff in H as ([s' buf] & E & -> & Hb).
  - unfold kv_io_cmd_value_prp. cbn [Z.eqb Pos.eqb]. change (2 =? 1) with false. cbn iota. rewrite E. cbn [mbind res_bind]. f_equal. apply map_ext_in. intros i Hi%list_elem_of_In%elem_of_seqZ. apply Hb. lia.
  - by intros k [s' buf] j [-> _].
  - intros k n [s' buf] Hk Hn Hkn [-> Hb] Hj. cbn. split; [done|]. intros i Hi. destruct (decide (i < k)) as [Hlt|Hge].
    + rewrite mem_copy_out by lia. apply Hb. lia.
    + replace i with (k + (i - k)) at 1 by lia. rewrite mem_copy_in by lia. f_equal. rewrite <- Hj by lia.
      unfold value_addr. f_equal. lia.
  - split; [done|]. lia.
Qed.

(** C17. A batch is its sub-commands one after the other: when the host's pages
    hold the payload of at most eight well-formed sub-commands (anything may
    follow it), performing the batch performs each of them on the state the
    previous one left, with the keys and values that were packed. *)
Theorem kv_batch_sequence kv cmd s status l rest : Forall sub_ok l -> (length l <= 8)%nat ->
  kv_rsvd4 cmd = Z.of_nat (length l) ->
  prp_ok (mem_u64 (host s)) (kv_prp1 cmd) (kv_prp2 cmd) (cmd_value_length cmd) (fun _ => true) ->
  host_value (host s) cmd (cmd_value_length cmd) = batch_payload l ++ rest ->
  __do_perform_kv_batch ops storage_size kmalloc_bytes kv cmd s status =
    ('(kv, s) ← perform_subs kv s l; Ok (kv, s, status, 0)).
Proof.
  intros Hok H8 Hn Hprp Hpay. unfold __do_perform_kv_batch. rewrite batch_buffer_ok, Hpay by done. cbn [mbind res_bind].
  rewrite Hn, Nat2Z.id. change ALIGN_LEN with (ALIGN_LEN + lenZ (subs [])) at 1.
  pose proof (batch_loop_ok rest l [] kv s Hok H8) as H. cbn [app length] in H. change (Z.of_nat 0) with 0 in H. rewrite H.
  by destruct (perform_subs kv s l) as [[kv' s']|].
Qed.
End Batch.
