(* ===== verification/KvExamples.v ===== *)
(** * A key-value device with two slots

    Two keys with the same home slot, so that one is chained behind the other;
    the properties of the key-value FTL at this device. *)
From stdpp Require Import gmap.
From S2P Require Import Prelude Nvme Alloc Prp HostIo KvFtl KvTable KvInv KvProps KvIter KvBatch.

(** Keys of 16 bytes; 1 and 3 live in slot 0, 2 in slot 1. *)
Definition tiny_key (x : Z) : list Z := x :: replicate 15 0.
Definition tiny_entry (x off next : Z) : mapping_entry := mk_entry (tiny_key x ++ [0; 0]) off 8 next.
Definition tiny_table : list mapping_entry := [tiny_entry 1 0 1; tiny_entry 3 8 NO_SLOT].
Definition tiny_iter : kv_iter_context := mk_iter 1 1 (fun _ => 0) 0 0 false 0.
Definition tiny_kv : kv_ftl AppendOnly.ao_state :=
  mk_kvftl tiny_table 2 (AppendOnly.mk 16 4096 16) [IterUninit; IterAt tiny_iter].
Definition tiny_storage : Z -> Z := fun x => x.
(** The value of a command lies in the page at 0x1000, whose bytes are 7. *)
Definition tiny_io : io_mem := mk_io_mem (fun _ => 7) tiny_storage.
Definition tiny_map : gmap (list Z) (list Z) :=
  {[ tiny_key 1 := [0; 1; 2; 3; 4; 5; 6; 7]; tiny_key 3 := [8; 9; 10; 11; 12; 13; 14; 15] ]}.
Definition tiny_kv_cmd (op words x : Z) : nvme_kv_command := mk_kv op 0x1000 0 words 15 0 0 (tiny_key x).

#[local] Abbreviation ops := AppendOnly.append_only_ops.
#[local] Abbreviation size := 4096.

Lemma tiny_walk0 : walk tiny_table 0 [0; 1] None.
Proof.
  apply (walk_next _ 0 (tiny_entry 1 0 1)); [done..|]. by apply (walk_last _ 1 (tiny_entry 3 8 NO_SLOT)).
Qed.

Lemma tiny_walk1 : walk tiny_table 1 [1] None.
Proof. by apply (walk_last _ 1 (tiny_entry 3 8 NO_SLOT)). Qed.

Lemma tiny_slots i e : aget tiny_table i = Ok e -> i = 0 /\ e = tiny_entry 1 0 1 \/ i = 1 /\ e = tiny_entry 3 8 NO_SLOT.
Proof.
  intros Hg. pose proof (aget_range _ _ _ Hg) as Hr. cbn in Hr. assert (i = 0 \/ i = 1) as [-> | ->] by lia.
  - left. injection Hg as <-. done.
  - right. injection Hg as <-. done.
Qed.

Lemma tiny_shape : kv_shape tiny_kv.
Proof.
  split; [|done]. split; [done | by repeat constructor |].
  intros i Hi. cbn in Hi. assert (i = 0 \/ i = 1) as [-> | ->] by lia; [exists [0; 1], None; apply tiny_walk0 | exists [1], None; apply tiny_walk1].
Qed.

Lemma tiny_inv : kv_inv ops size tiny_kv [(0, 8); (8, 8)].
Proof.
  split; [apply tiny_shape | |].
  - repeat split; try done. repeat constructor; done.
  - split.
    + intros i e [[-> ->]|[-> ->]]%tiny_slots _; cbn; (split; [lia|]; split; [lia|]; split; [lia|]); intros x Hx;
        [exists (0, 8) | exists (8, 8)]; (split; [rewrite !elem_of_cons; naive_solver | exact Hx]).
    + intros i j e e' [[-> ->]|[-> ->]]%tiny_slots [[-> ->]|[-> ->]]%tiny_slots _ _ Hne x; unfold inside; cbn; lia.
Qed.

Lemma tiny_refines : kv_refines 16 tiny_kv tiny_io tiny_map.
Proof.
  intros key Hk. destruct (decide (key = tiny_key 1)) as [->|H1]; [by vm_compute|].
  destruct (decide (key = tiny_key 3)) as [->|H3]; [by vm_compute|].
  unfold tiny_map. rewrite lookup_insert_ne, lookup_singleton_ne by congruence. unfold kv_value.
  destruct (lookup_total tiny_kv key 16 tiny_shape ltac:(lia) ltac:(unfold KEY_SIZE; lia)) as [[i|] Hf]; rewrite Hf; [|done].
  pose proof (lookup_key tiny_kv key 16 i tiny_shape ltac:(lia) ltac:(unfold KEY_SIZE; lia) Hf) as Hkey.
  destruct (lookup_used tiny_kv key 16 i tiny_shape ltac:(lia) ltac:(unfold KEY_SIZE; lia) Hf) as (e & He & _).
  rewrite (key_at_eq _ _ _ He), take_ge in Hkey by lia. destruct (tiny_slots _ _ He) as [[_ ->]|[_ ->]]; by cbn in Hkey.
Qed.

Lemma tiny_page_ok op words x : 0 ≤ words ≤ 256 ->
  prp_ok (mem_u64 (host tiny_io)) 0x1000 0 (cmd_value_length (tiny_kv_cmd op words x)) (fun _ => true).
Proof.
  intros Hw. assert (cmd_value_length (tiny_kv_cmd op words x) = words * 4) as El.
  { unfold cmd_value_length. change (kv_value_len (tiny_kv_cmd op words x)) with words. rewrite Z.shiftl_mul_pow2 by lia.
    apply u32_small. unfold U32_MAX. lia. }
  assert (one_page (tiny_kv_cmd op words x)) as Hp by (vm_compute; discriminate).
  assert (0 ≤ cmd_value_length (tiny_kv_cmd op words x) ≤ 1024) as Hl by lia.
  exact (pg_data _ _ _ _ _ (page_pages_ok (host tiny_io) (tiny_kv_cmd op words x) _ Hp Hl)).
Qed.

Lemma tiny_full i : ~ slot_free tiny_table i.
Proof. intros (e & [[_ ->]|[_ ->]]%tiny_slots & Hf); discriminate. Qed.

(** ** The shipped configuration starts empty *)
Lemma kv_init_empty_witness :
  returns (kv_init_namespace kv_allocator 1073741824 0 KV_MAPPING_TABLE_SIZE 1073741824 (AppendOnly.mk 0 0 0)) (fun ns =>
    ns_size ns = 1073741824 /\ kv_inv kv_allocator 1073741824 (ns_ftls ns) [] /\ forall s, kv_refines 16 (ns_ftls ns) s ∅).
Proof.
  refine (kv_init_empty kv_allocator 1073741824 16 _ 0 KV_MAPPING_TABLE_SIZE 1073741824 (AppendOnly.mk 0 0 0) _ _ _).
  - lia.
  - vm_compute. discriminate.
  - vm_compute. reflexivity.
  - change (0 ≤ 1073741824 ≤ U64_MAX). unfold U64_MAX. lia.
Defined.

(** ** Retrieving the chained key *)
Lemma kv_io_refines_map_witness :
  let cmd := tiny_kv_cmd nvme_cmd_kv_retrieve 2 3 in
  returns (__do_perform_kv_io ops size tiny_kv cmd tiny_io 0) (fun '(kv', s', st, r) =>
    let '(m', st', r') := kv_spec 16 tiny_map cmd (host_value (host tiny_io) cmd (cmd_value_length cmd)) 0 in
    st = st' /\ r = r' /\ (exists g', kv_inv ops size kv' g') /\ kv_refines 16 kv' s' m' /\ delivered 16 tiny_map cmd tiny_io s' r).
Proof.
  intros cmd. refine (kv_io_refines_map ops size _ 16 _ tiny_kv tiny_io [(0, 8); (8, 8)] tiny_map cmd 0 tiny_inv tiny_refines _ _).
  - unfold U64_MAX. lia.
  - lia.
  - split; reflexivity.
  - right. left. split; [reflexivity|]. intros v Hv. assert (v = [8; 9; 10; 11; 12; 13; 14; 15]) as -> by (vm_compute in Hv; congruence).
    apply page_pages_ok; [by vm_compute|]. vm_compute. split; discriminate.
Defined.

Lemma kv_delete_spec_witness :
  let cmd := tiny_kv_cmd nvme_cmd_kv_delete 0 1 in
  returns (__do_perform_kv_io ops size tiny_kv cmd tiny_io 0) (fun '(kv', s', st, r) =>
    s' = tiny_io /\ r = 0 /\ kv_inv ops size kv' [(0, 8); (8, 8)] /\ kv_value kv' tiny_io (cmd_key 16 cmd) 16 = None /\
    match tiny_map !! cmd_key 16 cmd with
    | None => st = KV_ERR_KEY_NOT_EXIST /\ kv' = tiny_kv
    | Some _ => st = 0 /\ exists d, lookup_slot tiny_kv (kv_key cmd) 16 = Ok (Some d) /\
        forall key h l o i, Z.of_nat (length key) = 16 ->
        get_hash_slot (hash_slots tiny_kv) key 16 = Ok h -> walk (kv_mapping_table tiny_kv) h l o -> lookup_slot tiny_kv key 16 = Ok (Some i) ->
        kv_value kv' tiny_io key 16 = if decide (d ∈ before i l ++ [i]) then None else tiny_map !! key
    end).
Proof.
  intros cmd. refine (kv_delete_spec ops size 16 _ tiny_kv tiny_io [(0, 8); (8, 8)] tiny_map cmd 0 tiny_inv tiny_refines _ _).
  - lia.
  - split; reflexivity.
  - reflexivity.
Defined.

Lemma full_table_hangs_witness :
  __do_perform_kv_io ops size tiny_kv (tiny_kv_cmd nvme_cmd_kv_store 2 2) tiny_io 0 = Bug NoFuel /\
  forall fuel slot, 0 ≤ slot < hash_slots tiny_kv -> next_free fuel (kv_mapping_table tiny_kv) (hash_slots tiny_kv) slot = Bug NoFuel.
Proof.
  refine (full_table_hangs ops size _ 16 _ tiny_kv tiny_io [(0, 8); (8, 8)] tiny_map (tiny_kv_cmd nvme_cmd_kv_store 2 2) 0 tiny_inv tiny_refines _ _ _ _ _ tiny_full).
  - unfold U64_MAX. lia.
  - lia.
  - split; reflexivity.
  - reflexivity.
  - reflexivity.
  - vm_compute. split; [discriminate|]. split; [reflexivity|discriminate].
  - apply (tiny_page_ok nvme_cmd_kv_store 2 2). lia.
Defined.

(** Twelve bytes over the first key: the other key begins with 7s. *)
Lemma longer_update_overwrites_witness :
  let cmd := tiny_kv_cmd nvme_cmd_kv_store 3 1 in
  returns (__do_perform_kv_io ops size tiny_kv cmd tiny_io 0) (fun '(kv', s', st, r) => st = 0 /\ r = 0 /\
    kv_value kv' s' (tiny_key 3) 16 = Some (map (stored cmd tiny_io 0 (cmd_value_length cmd)) (seqZ 8 8))).
Proof.
  intros cmd. refine (longer_update_overwrites ops size 16 _ tiny_kv tiny_io [(0, 8); (8, 8)] tiny_map cmd 0 (tiny_key 3)
    [0; 1; 2; 3; 4; 5; 6; 7] 0 1 (tiny_entry 1 0 1) (tiny_entry 3 8 NO_SLOT) tiny_inv tiny_refines _ _ _ _ _ _ _ _ _ _ _ _).
  - lia.
  - split; reflexivity.
  - reflexivity.
  - reflexivity.
  - reflexivity.
  - reflexivity.
  - reflexivity.
  - discriminate.
  - reflexivity.
  - reflexivity.
  - vm_compute. reflexivity.
  - vm_compute. discriminate.
  - apply (tiny_page_ok nvme_cmd_kv_store 3 1). lia.
Defined.

(** ** The keys with bit 0 set *)
Definition tiny_read_cmd : nvme_kv_command := mk_kv nvme_cmd_kv_iter_read 0x1000 0 256 1 0 0 (replicate 16 0).

Lemma kv_iter_complete_witness :
  returns (iter_reads (length (kv_mapping_table tiny_kv)) tiny_kv tiny_read_cmd tiny_io) (fun '(kv', pages) => exists groups,
    only_iter tiny_kv kv' /\ pages = map iter_page groups /\
    concat groups = map key16 (List.filter (iter_match tiny_iter) (kv_mapping_table tiny_kv)) /\
    (51 * (length groups - 1) <= length (concat groups))%nat).
Proof.
  refine (kv_iter_complete tiny_kv tiny_read_cmd tiny_io tiny_iter tiny_shape _ _ _).
  - reflexivity.
  - vm_compute. discriminate.
  - reflexivity.
Defined.

(** ** A batch of two stores *)
Definition tiny_batch : list sub_cmd :=
  [mk_sub nvme_cmd_kv_store (tiny_key 1) [1; 2; 3; 4; 5; 6; 7; 8]; mk_sub nvme_cmd_kv_store (tiny_key 3) [9; 9; 9; 9; 9; 9; 9; 9]].
Definition tiny_batch_cmd : nvme_kv_command := mk_kv nvme_cmd_kv_batch 0x1000 0 224 15 0 2 (replicate 16 0).
Definition tiny_batch_io : io_mem := mk_io_mem (mem_write (fun _ => 0) 0x1000 (batch_payload tiny_batch)) tiny_storage.

Lemma kv_batch_sequence_witness :
  __do_perform_kv_batch ops size (fun _ => 0) tiny_kv tiny_batch_cmd tiny_batch_io 0 =
    ('(kv, s) ← perform_subs ops size tiny_kv tiny_batch_io tiny_batch; Ok (kv, s, 0, 0)).
Proof.
  refine (kv_batch_sequence ops size (fun _ => 0) tiny_kv tiny_batch_cmd tiny_batch_io 0 tiny_batch [] _ _ _ _ _).
  - repeat constructor; vm_compute; discriminate.
  - vm_compute. lia.
  - reflexivity.
  - apply (pg_data _ _ _ _ _ (page_pages_ok (host tiny_batch_io) tiny_batch_cmd 896 ltac:(vm_compute; discriminate) ltac:(lia))).
  - vm_compute. reflexivity.
Defined.

(** ** What the defects do, run *)
Definition kv_run (kv : kv_ftl AppendOnly.ao_state) (s : io_mem) (cmds : list nvme_kv_command) : res (list (Z * Z)) :=
  '(_, _, l) ← foldl (fun acc c => '(kv, s, l) ← acc; '(kv, s, st, r) ← kv_perform_nvme_io_cmd ops size (fun _ => 0) kv c s 0; Ok (kv, s, l ++ [(st, r)]))
    (Ok (kv, s, [])) cmds; Ok l.

(** Deleting key 1 loses key 3, which was chained behind it. *)
Example delete_loses_key : kv_run tiny_kv tiny_io
  [tiny_kv_cmd nvme_cmd_kv_exist 0 3; tiny_kv_cmd nvme_cmd_kv_delete 0 1; tiny_kv_cmd nvme_cmd_kv_exist 0 3]
  = Ok [(0, 0); (0, 0); (KV_ERR_KEY_NOT_EXIST, 0)].
Proof. vm_compute. reflexivity. Qed.

(** The sixteenth iterator reads the handle that was never initialised. *)
Example sixteenth_iterator :
  let kv := mk_kvftl tiny_table 2 (AppendOnly.mk 16 4096 16) (replicate 16 IterNull ++ [IterUninit]) in
  let opening := mk_kv nvme_cmd_kv_iter_req 0 0 0 0 ITER_OPTION_OPEN 0 (replicate 16 0) in
  is_ok (kv_run kv tiny_io (replicate 15 opening)) = true /\ kv_run kv tiny_io (replicate 16 opening) = Bug Uninit.
Proof. vm_compute. split; reflexivity. Qed.

(** A full device writes beyond its storage. *)
Example store_past_the_end :
  let kv := mk_kvftl [empty_entry; empty_entry] 2 (AppendOnly.mk 4092 4096 4092) [] in
  kv_run kv tiny_io [tiny_kv_cmd nvme_cmd_kv_store 2 1] = Bug OutOfRange.
Proof. vm_compute. reflexivity. Qed.
