(* ===== verification/ZnsFtl.v ===== *)
(** * The zoned FTL: zones, resources and address mapping
    ([src/nvme_zns.h], [src/zns_ftl.h], [src/zns_ftl.c])

    A zone has a descriptor (state, write pointer, capacity, ZRWA bit); three
    counters bound the active, the open and the ZRWA zones.  The zones' data
    is the byte array [zn_storage]. *)
From S2P Require Import Prelude Nvme SsdConfig ChannelModel Ssd.

Inductive zone_state : Set :=
| ZONE_STATE_EMPTY
| ZONE_STATE_OPENED_IMPL
| ZONE_STATE_OPENED_EXPL
| ZONE_STATE_CLOSED
| ZONE_STATE_READ_ONLY
| ZONE_STATE_FULL
| ZONE_STATE_OFFLINE.
#[global] Instance zone_state_eq_dec : EqDecision zone_state.
Proof. solve_decision. Defined.

Definition zone_state_Z (s : zone_state) : Z :=
  match s with
  | ZONE_STATE_EMPTY => 0x1 | ZONE_STATE_OPENED_IMPL => 0x2 | ZONE_STATE_OPENED_EXPL => 0x3
  | ZONE_STATE_CLOSED => 0x4 | ZONE_STATE_READ_ONLY => 0xD | ZONE_STATE_FULL => 0xE
  | ZONE_STATE_OFFLINE => 0xF
  end.

Definition ZONE_TYPE_SEQ_WRITE_REQUIRED : Z := 0x2.

Inductive zone_resource_type : Set := ACTIVE_ZONE | OPEN_ZONE | ZRWA_ZONE.
#[global] Instance zone_resource_type_eq_dec : EqDecision zone_resource_type.
Proof. solve_decision. Defined.

Inductive zone_send_action : Set :=
| ZSA_CLOSE_ZONE | ZSA_FINISH_ZONE | ZSA_OPEN_ZONE | ZSA_RESET_ZONE | ZSA_OFFLINE_ZONE
| ZSA_SET_ZONE_DESC_EXT | ZSA_FLUSH_EXPL_ZRWA | ZSA_OTHER.

Definition zone_send_action_of (x : Z) : zone_send_action :=
  if x =? 0x1 then ZSA_CLOSE_ZONE else if x =? 0x2 then ZSA_FINISH_ZONE
  else if x =? 0x3 then ZSA_OPEN_ZONE else if x =? 0x4 then ZSA_RESET_ZONE
  else if x =? 0x5 then ZSA_OFFLINE_ZONE else if x =? 0x10 then ZSA_SET_ZONE_DESC_EXT
  else if x =? 0x11 then ZSA_FLUSH_EXPL_ZRWA else ZSA_OTHER.

(** [struct zone_descriptor]; the attribute bits other than [zrwav] and the
    attribute information are zeroed at creation and never written. *)
Record zone_descriptor := mk_zone {
  zd_type : Z;
  zd_state : zone_state;
  zd_zrwav : bool;
  zone_capacity : Z;
  zslba : Z;
  wp : Z;
}.
#[global] Instance zone_descriptor_eq_dec : EqDecision zone_descriptor.
Proof. solve_decision. Defined.


(** The 64 bytes of a descriptor in memory. *)
Definition zone_descriptor_bytes (d : zone_descriptor) : list Z :=
  [zd_type d; zone_state_Z (zd_state d) * 16; if zd_zrwav d then 8 else 0; 0]
  ++ replicate 4 0 ++ le_bytes 8 (zone_capacity d) ++ le_bytes 8 (zslba d) ++ le_bytes 8 (wp d)
  ++ replicate 32 0.

Definition sizeof_zone_descriptor : Z := 64.
(** The header of [struct zone_report]: [nr_zones] and seven reserved words. *)
Definition zone_report_header : Z := 64.

Record znsparams := mk_znsparams {
  nr_zones : Z;
  nr_active_zones : Z;
  nr_open_zones : Z;
  dies_per_zone : Z;
  zone_size : Z;
  zone_wb_size : Z;
  nr_zrwa_zones : Z;
  zrwafg_size : Z;
  zrwa_size : Z;
  zrwa_buffer_size : Z;
  lbas_per_zrwafg : Z;
  lbas_per_zrwa : Z;
}.

Record zone_resource_info := mk_rsrc { acquired_cnt : Z; total_cnt : Z }.

(** [res_infos] is the array indexed by [zone_resource_type]; the buffer arrays
    are absent when their size is 0. *)
Record zns_ftl := mk_zns {
  zn_ssd : ssd;
  zp : znsparams;
  res_active : zone_resource_info;
  res_open : zone_resource_info;
  res_zrwa : zone_resource_info;
  zone_descs : list zone_descriptor;
  report_buffer : list Z;
  zone_write_buffer : option (list buffer);
  zrwa_buffer : option (list buffer);
  zn_storage : Z -> Z;
}.

(** ** Field updates *)
Definition zn_with_ssd (z : zns_ftl) (s : ssd) : zns_ftl :=
  mk_zns s (zp z) (res_active z) (res_open z) (res_zrwa z) (zone_descs z) (report_buffer z)
    (zone_write_buffer z) (zrwa_buffer z) (zn_storage z).
Definition zn_with_descs (z : zns_ftl) (l : list zone_descriptor) : zns_ftl :=
  mk_zns (zn_ssd z) (zp z) (res_active z) (res_open z) (res_zrwa z) l (report_buffer z)
    (zone_write_buffer z) (zrwa_buffer z) (zn_storage z).
Definition zn_with_report (z : zns_ftl) (b : list Z) : zns_ftl :=
  mk_zns (zn_ssd z) (zp z) (res_active z) (res_open z) (res_zrwa z) (zone_descs z) b
    (zone_write_buffer z) (zrwa_buffer z) (zn_storage z).
Definition zn_with_wb (z : zns_ftl) (b : option (list buffer)) : zns_ftl :=
  mk_zns (zn_ssd z) (zp z) (res_active z) (res_open z) (res_zrwa z) (zone_descs z) (report_buffer z)
    b (zrwa_buffer z) (zn_storage z).
Definition zn_with_zrwa (z : zns_ftl) (b : option (list buffer)) : zns_ftl :=
  mk_zns (zn_ssd z) (zp z) (res_active z) (res_open z) (res_zrwa z) (zone_descs z) (report_buffer z)
    (zone_write_buffer z) b (zn_storage z).
Definition zn_with_storage (z : zns_ftl) (f : Z -> Z) : zns_ftl :=
  mk_zns (zn_ssd z) (zp z) (res_active z) (res_open z) (res_zrwa z) (zone_descs z) (report_buffer z)
    (zone_write_buffer z) (zrwa_buffer z) f.

Definition get_res (z : zns_ftl) (ty : zone_resource_type) : zone_resource_info :=
  match ty with ACTIVE_ZONE => res_active z | OPEN_ZONE => res_open z | ZRWA_ZONE => res_zrwa z end.

Definition set_res (z : zns_ftl) (ty : zone_resource_type) (r : zone_resource_info) : zns_ftl :=
  mk_zns (zn_ssd z) (zp z)
    (match ty with ACTIVE_ZONE => r | _ => res_active z end)
    (match ty with OPEN_ZONE => r | _ => res_open z end)
    (match ty with ZRWA_ZONE => r | _ => res_zrwa z end)
    (zone_descs z) (report_buffer z) (zone_write_buffer z) (zrwa_buffer z) (zn_storage z).

(** ** Internal functions of [zns_ftl.h] *)
Definition get_storage_addr_from_zid (z : zns_ftl) (zid : Z) : Z := u64 (zid * zone_size (zp z)).

Definition is_zone_resource_avail (z : zns_ftl) (ty : zone_resource_type) : bool :=
  acquired_cnt (get_res z ty) <? total_cnt (get_res z ty).
Definition is_zone_resource_full (z : zns_ftl) (ty : zone_resource_type) : bool :=
  acquired_cnt (get_res z ty) =? total_cnt (get_res z ty).

Definition acquire_zone_resource (z : zns_ftl) (ty : zone_resource_type) : zns_ftl * bool :=
  if is_zone_resource_avail z ty then
    (set_res z ty (mk_rsrc (u32 (acquired_cnt (get_res z ty) + 1)) (total_cnt (get_res z ty))), true)
  else (z, false).

(** [ASSERT] is an empty macro. *)
Definition release_zone_resource (z : zns_ftl) (ty : zone_resource_type) : zns_ftl :=
  set_res z ty (mk_rsrc (u32 (acquired_cnt (get_res z ty) - 1)) (total_cnt (get_res z ty))).

Definition zone_at (z : zns_ftl) (zid : Z) : res zone_descriptor := aget (zone_descs z) zid.

Definition mod_zone (z : zns_ftl) (zid : Z) (f : zone_descriptor -> zone_descriptor) : res zns_ftl :=
  l ← aupd (zone_descs z) zid f; Ok (zn_with_descs z l).

Definition zd_with_state (st : zone_state) (d : zone_descriptor) : zone_descriptor :=
  mk_zone (zd_type d) st (zd_zrwav d) (zone_capacity d) (zslba d) (wp d).
Definition zd_with_wp (w : Z) (d : zone_descriptor) : zone_descriptor :=
  mk_zone (zd_type d) (zd_state d) (zd_zrwav d) (zone_capacity d) (zslba d) w.
Definition zd_with_zrwav (b : bool) (d : zone_descriptor) : zone_descriptor :=
  mk_zone (zd_type d) (zd_state d) b (zone_capacity d) (zslba d) (wp d).

Definition change_zone_state (z : zns_ftl) (zid : Z) (st : zone_state) : res zns_ftl :=
  mod_zone z zid (zd_with_state st).

Definition lpn_to_zone (z : zns_ftl) (lpn : Z) : res Z :=
  n ← checked_div (zone_size (zp z)) (pgsz (sp (zn_ssd z))); q ← checked_div lpn n; Ok (u32 q).
(** The products of [zone_to_slpn] and [zone_to_slba] are 32-bit. *)
Definition zone_to_slpn (z : zns_ftl) (zid : Z) : res Z :=
  n ← checked_div (zone_size (zp z)) (pgsz (sp (zn_ssd z))); Ok (u32 (u32 zid * n)).
Definition lba_to_zone (z : zns_ftl) (lba : Z) : res Z :=
  n ← checked_div (zone_size (zp z)) (secsz (sp (zn_ssd z))); q ← checked_div lba n; Ok (u32 q).
Definition zone_to_slba (z : zns_ftl) (zid : Z) : res Z :=
  n ← checked_div (zone_size (zp z)) (secsz (sp (zn_ssd z))); Ok (u32 (u32 zid * n)).
Definition zone_to_elba (z : zns_ftl) (zid : Z) : res Z :=
  s ← zone_to_slba z (u32 (zid + 1)); Ok (u64 (s - 1)).
Definition zone_to_elpn (z : zns_ftl) (zid : Z) : res Z :=
  e ← zone_to_elba z zid; checked_div e (secs_per_pg (sp (zn_ssd z))).
Definition die_to_channel (z : zns_ftl) (die : Z) : res Z := checked_mod die (nchs (sp (zn_ssd z))).
Definition die_to_lun (z : zns_ftl) (die : Z) : res Z := checked_div die (nchs (sp (zn_ssd z))).
Definition lba_to_lpn (z : zns_ftl) (lba : Z) : res Z := checked_div lba (secs_per_pg (sp (zn_ssd z))).

(** ** Initialisation *)
Definition zns_init_params (cfg : ssd_config) (spp : ssdparams) (capacity : Z) : res znsparams :=
  n ← checked_div capacity (ZONE_SIZE cfg);
  l ← checked_div (ZRWA_SIZE cfg) (secsz spp);
  lf ← checked_div (ZRWAFG_SIZE cfg) (secsz spp);
  let zpp := mk_znsparams (u32 n) (u32 n) (u32 n) (DIES_PER_ZONE cfg) (u32 (ZONE_SIZE cfg))
    (u32 (ZONE_WB_SIZE cfg)) (MAX_ZRWA_ZONES cfg) (ZRWAFG_SIZE cfg) (ZRWA_SIZE cfg)
    (ZRWA_BUFFER_SIZE cfg) lf l in
  r ← checked_mod capacity (zone_size zpp);
  _ ← NVMEV_ASSERT (r =? 0);
  r ← checked_mod (zone_size zpp) (pgsz spp);
  _ ← NVMEV_ASSERT (r =? 0);
  Ok zpp.

(** The loop of [__init_descriptor]: [zslba] accumulates the zone starts. *)
Fixpoint init_zones (n : nat) (zslba lbas : Z) : list zone_descriptor :=
  match n with
  | O => []
  | S n => mk_zone ZONE_TYPE_SEQ_WRITE_REQUIRED ZONE_STATE_EMPTY false lbas zslba zslba
             :: init_zones n (u64 (zslba + lbas)) lbas
  end.

(** [heap] is what [kmalloc] left in the report buffer. *)
Definition __init_descriptor (zpp : znsparams) (heap : list Z)
  : list zone_descriptor * list Z * option (list buffer) * option (list buffer) :=
  let n := Z.to_nat (nr_zones zpp) in
  (init_zones n 0 (BYTE_TO_LBA (zone_size zpp)),
   take (Z.to_nat (zone_report_header + sizeof_zone_descriptor * (nr_zones zpp + 1))) heap,
   (if zone_wb_size zpp =? 0 then None else Some (replicate n (buffer_init (zone_wb_size zpp)))),
   (if zrwa_buffer_size zpp =? 0 then None else Some (replicate n (buffer_init (zrwa_buffer_size zpp))))).

(** [__init_resource]: all three totals are [nr_zones]. *)
Definition init_resource (zpp : znsparams) : zone_resource_info := mk_rsrc 0 (nr_zones zpp).

Definition zns_init_ftl (zpp : znsparams) (s : ssd) (heap : list Z) (mapped : Z -> Z) : zns_ftl :=
  let '(zones, report, wbs, zrwa) := __init_descriptor zpp heap in
  let r := init_resource zpp in
  mk_zns s zpp r r r zones report wbs zrwa mapped.

Definition zns_init_namespace (cfg : ssd_config) (id size : Z) (heap : list Z) (mapped : Z -> Z)
  : res (nvmev_ns zns_ftl * channel_model * buffer) :=
  let nr_parts := 1 in
  spp ← ssd_init_params cfg size nr_parts;
  let '(s, pcie, wb) := ssd_init spp in
  zpp ← zns_init_params cfg spp size;
  Ok (mk_ns id NVME_CSI_ZNS size nr_parts (zns_init_ftl zpp s heap mapped), pcie, wb).
