(* ===== verification/ZnsIo.v ===== *)
(** * The zoned command set ([src/zns_read_write.c], [src/zns_mgmt_send.c],
    [src/zns_mgmt_recv.c], [zns_flush] and [zns_proc_nvme_io_cmd] of
    [src/zns_ftl.c])

    Writes, appends and reads, ZRWA writes, zone management and zone reports
    on the zones of [ZnsFtl]. *)
From S2P Require Import Prelude Nvme SsdConfig ChannelModel Ssd Prp ZnsFtl.

(** ** Zone management send *)
Definition __zmgmt_send_close_zone (z : zns_ftl) (zid : Z) : res (zns_ftl * Z) :=
  d ← zone_at z zid;
  match zd_state d with
  | ZONE_STATE_OPENED_IMPL | ZONE_STATE_OPENED_EXPL =>
      z ← change_zone_state z zid ZONE_STATE_CLOSED;
      Ok (release_zone_resource z OPEN_ZONE, NVME_SC_SUCCESS)
  | ZONE_STATE_CLOSED => Ok (z, NVME_SC_SUCCESS)
  | _ => Ok (z, NVME_SC_ZNS_INVALID_TRANSITION)
  end.

(** [ZONE_STATE_CLOSED] and what falls through to it, in finish and reset. *)
Definition release_active (z : zns_ftl) (is_zrwa_zone : bool) : zns_ftl :=
  let z := release_zone_resource z ACTIVE_ZONE in
  if is_zrwa_zone then release_zone_resource z ZRWA_ZONE else z.

Definition __zmgmt_send_finish_zone (z : zns_ftl) (zid : Z) : res (zns_ftl * Z) :=
  d ← zone_at z zid;
  let is_zrwa_zone := zd_zrwav d in
  match zd_state d with
  | ZONE_STATE_OPENED_IMPL | ZONE_STATE_OPENED_EXPL =>
      let z := release_active (release_zone_resource z OPEN_ZONE) is_zrwa_zone in
      z ← change_zone_state z zid ZONE_STATE_FULL; Ok (z, NVME_SC_SUCCESS)
  | ZONE_STATE_CLOSED =>
      let z := release_active z is_zrwa_zone in
      z ← change_zone_state z zid ZONE_STATE_FULL; Ok (z, NVME_SC_SUCCESS)
  | ZONE_STATE_EMPTY =>
      z ← change_zone_state z zid ZONE_STATE_FULL; Ok (z, NVME_SC_SUCCESS)
  | ZONE_STATE_FULL => Ok (z, NVME_SC_SUCCESS)
  | _ => Ok (z, NVME_SC_ZNS_INVALID_TRANSITION)
  end.

(** [ZONE_STATE_CLOSED] of the open action. *)
Definition open_closed_zone (z : zns_ftl) (zid : Z) : res (zns_ftl * Z) :=
  let '(z, ok) := acquire_zone_resource z OPEN_ZONE in
  if negb ok then Ok (z, NVME_SC_ZNS_NO_OPEN_ZONE)
  else z ← change_zone_state z zid ZONE_STATE_OPENED_EXPL; Ok (z, NVME_SC_SUCCESS).

Definition __zmgmt_send_open_zone (z : zns_ftl) (zid zrwa : Z) : res (zns_ftl * Z) :=
  d ← zone_at z zid;
  match zd_state d with
  | ZONE_STATE_EMPTY =>
      if is_zone_resource_full z ACTIVE_ZONE then Ok (z, NVME_SC_ZNS_NO_ACTIVE_ZONE)
      else if is_zone_resource_full z OPEN_ZONE then Ok (z, NVME_SC_ZNS_NO_OPEN_ZONE)
      else if negb (zrwa =? 0) && is_zone_resource_full z ZRWA_ZONE then
        Ok (z, NVME_SC_ZNS_ZRWA_RSRC_UNAVAIL)
      else
        z ← (if negb (zrwa =? 0) then
               mod_zone (acquire_zone_resource z ZRWA_ZONE).1 zid (zd_with_zrwav true)
             else Ok z);
        open_closed_zone (acquire_zone_resource z ACTIVE_ZONE).1 zid
  | ZONE_STATE_CLOSED => open_closed_zone z zid
  | ZONE_STATE_OPENED_IMPL =>
      z ← change_zone_state z zid ZONE_STATE_OPENED_EXPL; Ok (z, NVME_SC_SUCCESS)
  | ZONE_STATE_OPENED_EXPL => Ok (z, NVME_SC_SUCCESS)
  | _ => Ok (z, NVME_SC_ZNS_INVALID_TRANSITION)
  end.

(** An access to the buffer array of a zone; the array is NULL when its
    configured size is 0. *)
Definition mod_zrwa_buffer (z : zns_ftl) (zid : Z) (f : buffer -> res (buffer * Z)) : res (zns_ftl * Z) :=
  l ← deref (zrwa_buffer z);
  b ← aget l zid;
  '(b, n) ← f b;
  l ← aset l zid b;
  Ok (zn_with_zrwa z (Some l), n).

Definition __reset_zone (z : zns_ftl) (zid : Z) : res zns_ftl :=
  let zone_start_addr := get_storage_addr_from_zid z zid in
  let size := zone_size (zp z) in
  let z := zn_with_storage z (fun a =>
    if (zone_start_addr <=? a) && (a <? zone_start_addr + size) then 0 else zn_storage z a) in
  z ← mod_zone z zid (fun d => zd_with_zrwav false (zd_with_wp (zslba d) d));
  if negb (zrwa_buffer_size (zp z) =? 0) then
    '(z, _) ← mod_zrwa_buffer z zid (fun b => Ok (buffer_refill b, 0)); Ok z
  else Ok z.

Definition __zmgmt_send_reset_zone (z : zns_ftl) (zid : Z) : res (zns_ftl * Z) :=
  d ← zone_at z zid;
  let is_zrwa_zone := zd_zrwav d in
  let reset z := (z ← change_zone_state z zid ZONE_STATE_EMPTY; z ← __reset_zone z zid;
                  Ok (z, NVME_SC_SUCCESS)) in
  match zd_state d with
  | ZONE_STATE_OPENED_IMPL | ZONE_STATE_OPENED_EXPL =>
      reset (release_active (release_zone_resource z OPEN_ZONE) is_zrwa_zone)
  | ZONE_STATE_CLOSED => reset (release_active z is_zrwa_zone)
  | ZONE_STATE_FULL | ZONE_STATE_EMPTY => reset z
  | _ => Ok (z, NVME_SC_ZNS_INVALID_TRANSITION)
  end.

Definition __zmgmt_send_offline_zone (z : zns_ftl) (zid : Z) : res (zns_ftl * Z) :=
  d ← zone_at z zid;
  match zd_state d with
  | ZONE_STATE_READ_ONLY =>
      z ← change_zone_state z zid ZONE_STATE_OFFLINE; Ok (z, NVME_SC_SUCCESS)
  | ZONE_STATE_OFFLINE => Ok (z, NVME_SC_SUCCESS)
  | _ => Ok (z, NVME_SC_ZNS_INVALID_TRANSITION)
  end.

Definition __zmgmt_send_flush_explicit_zrwa (z : zns_ftl) (slba : Z) : res (zns_ftl * Z) :=
  zid ← lba_to_zone z slba;
  d ← zone_at z zid;
  start ← zone_to_slba z zid;
  let w := wp d in
  let zrwa_start := w in
  let zrwa_end :=
    Z.min (u64 (zrwa_start + lbas_per_zrwa (zp z) - 1)) (u64 (start + zone_capacity d - 1)) in
  let nr_lbas_flush := u64 (slba - w + 1) in
  if negb (zd_zrwav d) then Ok (z, NVME_SC_ZNS_INVALID_ZONE_OPERATION)
  else if negb ((zrwa_start <=? slba) && (slba <=? zrwa_end)) then
    Ok (z, NVME_SC_ZNS_INVALID_ZONE_OPERATION)
  else
    r ← checked_mod nr_lbas_flush (lbas_per_zrwafg (zp z));
    if negb (r =? 0) then Ok (z, NVME_SC_INVALID_FIELD) else
    match zd_state d with
    | ZONE_STATE_OPENED_EXPL | ZONE_STATE_OPENED_IMPL | ZONE_STATE_CLOSED =>
        let w' := u64 (slba + 1) in
        z ← mod_zone z zid (zd_with_wp w');
        if w' =? u64 (start + zone_capacity d) then
          let z := if bool_decide (zd_state d = ZONE_STATE_CLOSED) then z
                   else release_zone_resource z OPEN_ZONE in
          let z := release_zone_resource (release_zone_resource z ACTIVE_ZONE) ZRWA_ZONE in
          z ← change_zone_state z zid ZONE_STATE_FULL; Ok (z, NVME_SC_SUCCESS)
        else Ok (z, NVME_SC_SUCCESS)
    | _ => Ok (z, NVME_SC_ZNS_INVALID_ZONE_OPERATION)
    end.

(** The [switch] has no case for the other actions: [status] keeps whatever
    the stack held, [None]. *)
Definition __zmgmt_send (z : zns_ftl) (slba action opt : Z) : res (zns_ftl * option Z) :=
  zid ← lba_to_zone z slba;
  let known r := ('(z, st) ← (r : res (zns_ftl * Z)); Ok (z, Some st)) in
  match zone_send_action_of action with
  | ZSA_CLOSE_ZONE => known (__zmgmt_send_close_zone z zid)
  | ZSA_FINISH_ZONE => known (__zmgmt_send_finish_zone z zid)
  | ZSA_OPEN_ZONE => known (__zmgmt_send_open_zone z zid opt)
  | ZSA_RESET_ZONE => known (__zmgmt_send_reset_zone z zid)
  | ZSA_OFFLINE_ZONE => known (__zmgmt_send_offline_zone z zid)
  | ZSA_FLUSH_EXPL_ZRWA => known (__zmgmt_send_flush_explicit_zrwa z slba)
  | ZSA_SET_ZONE_DESC_EXT | ZSA_OTHER => Ok (z, None)
  end.

Abbreviation zns_ns := (nvmev_ns zns_ftl).

Definition zns_zmgmt_send (ns : zns_ns) (req : nvmev_request) (ret : nvmev_result)
  : res (zns_ns * nvmev_result) :=
  let z := ns_ftls ns in
  let c := cmd req in
  let action := send_zsa c in
  let opt := send_zsaso c in
  let slba := cdw10_11 c in
  _ ← lba_to_zone z slba;
  '(z, status) ←
    (if negb (send_select_all c =? 0) then
       z ← for_loop (Z.to_nat (nr_zones (zp z))) 0 (fun zid z =>
             s ← zone_to_slba z zid; '(z, _) ← __zmgmt_send z s action opt; Ok z) z;
       Ok (z, NVME_SC_SUCCESS)
     else
       '(z, st) ← __zmgmt_send z slba action opt;
       st ← assigned st;
       Ok (z, st));
  Ok (set_ftls ns z, set_status (set_target ret (nsecs_start req)) status).

(** ** Zone management receive *)
Definition __check_zmgmt_rcv_option_supported (z : zns_ftl) (c : nvme_command) : res bool :=
  zid ← lba_to_zone z (cdw10_11 c);
  if nr_zones (zp z) <=? zid then Ok false
  else if negb (recv_zra c =? 0) then Ok false
  else if negb (recv_zra_specific_field c =? 0) then Ok false
  else Ok true.

(** [(cmd->nr_dw + 1) * sizeof(uint32_t)]. *)
Definition recv_length (c : nvme_command) : Z := u32 (recv_nr_dw c + 1) * 4.

(** The number of zones a report names. *)
Definition nr_zone_to_report (z : zns_ftl) (c : nvme_command) (start_zid : Z) : Z :=
  let all := u64 (nr_zones (zp z) - start_zid) in
  let n :=
    if recv_zra_specific_features c =? 0 then all
    else u64 (recv_length c / sizeof_zone_descriptor - 1) in
  if all <? n then all else n.

Definition __fill_zone_report (z : zns_ftl) (c : nvme_command) (report : list Z) : res (list Z) :=
  start_zid ← lba_to_zone z (cdw10_11 c);
  let n := nr_zone_to_report z c start_zid in
  report ← memcpy_to report 0 (le_bytes 8 n);
  if decide (start_zid + n ≤ Z.of_nat (length (zone_descs z))) then
    let zones := take (Z.to_nat n) (drop (Z.to_nat start_zid) (zone_descs z)) in
    memcpy_to report zone_report_header (concat (map zone_descriptor_bytes zones))
  else Bug OutOfRange.

(** [__prp_transfer_data(prp1, prp2, buffer, length, 0)]: the device's buffer
    to the host; every page has a kernel mapping here ([kmap_atomic_pfn]). *)
Definition __prp_transfer_data (m : host_mem) (prp1 prp2 : Z) (buf : list Z) (length : Z) : res host_mem :=
  prp_transfer (fun _ => true) mem_u64
    (fun m vaddr off size => l ← buf_read buf off size; Ok (mem_write m vaddr l))
    m prp1 prp2 0 length.

Definition zns_zmgmt_recv (m : host_mem) (ns : zns_ns) (req : nvmev_request) (ret : nvmev_result)
  : res (host_mem * zns_ns * nvmev_result) :=
  let z := ns_ftls ns in
  let c := cmd req in
  ok ← __check_zmgmt_rcv_option_supported z c;
  '(m, z, status) ←
    (if (ok : bool) then
       report ← __fill_zone_report z c (report_buffer z);
       m ← __prp_transfer_data m (prp1 c) (prp2 c) report (recv_length c);
       Ok (m, zn_with_report z report, NVME_SC_SUCCESS)
     else Ok (m, z, NVME_SC_INVALID_FIELD));
  Ok (m, set_ftls ns z, set_status (set_target ret (nsecs_start req)) status).

(** ** Writes *)

(** [true] when the request stays in one zone. *)
Definition __check_boundary_error (z : zns_ftl) (slba nr_lba : Z) : res bool :=
  a ← lba_to_zone z slba;
  b ← lba_to_zone z (u64 (u64 (slba + nr_lba) - 1));
  Ok (a =? b).

(** [ASSERT(0)] on a ZRWA zone is an empty macro. *)
Definition __increase_write_ptr (z : zns_ftl) (zid nr_lba : Z) : res zns_ftl :=
  d ← zone_at z zid;
  start ← zone_to_slba z zid;
  let cur := u64 (wp d + u32 nr_lba) in
  z ← mod_zone z zid (zd_with_wp cur);
  if cur =? u64 (start + zone_capacity d) then
    let z := release_zone_resource z OPEN_ZONE in
    let z := release_zone_resource z ACTIVE_ZONE in
    change_zone_state z zid ZONE_STATE_FULL
  else Ok z.

Definition __lpn_to_ppa (z : zns_ftl) (lpn : Z) : res ppa :=
  let spp := sp (zn_ssd z) in
  let zpp := zp z in
  zone ← lpn_to_zone z lpn;
  slpn ← zone_to_slpn z zone;
  let off := u64 (lpn - slpn) in
  sdie ← checked_mod (u64 (zone * dies_per_zone zpp)) (tt_luns spp);
  q ← checked_div off (pgs_per_oneshotpg spp);
  d ← checked_mod q (dies_per_zone zpp);
  let die := u32 (u32 sdie + d) in
  channel ← die_to_channel z die;
  lun ← die_to_lun z die;
  pg ← checked_mod off (pgs_per_oneshotpg spp);
  Ok (mk_ppa (u16 pg) 0 0 (u8 lun) (u8 channel) 0).

(** The zone's own write buffer when the device has them. *)
Definition zone_buffer (z : zns_ftl) (zid : Z) : buf_ref :=
  if negb (zone_wb_size (zp z) =? 0) then ZoneWriteBuffer zid else WriteBuffer.

(** [buffer_allocate(write_buffer, size)]. *)
Definition zns_buffer_allocate (z : zns_ftl) (zid size : Z) : prog world (zns_ftl * Z) :=
  match zone_buffer z zid with
  | ZoneWriteBuffer zid =>
      l ← lift (deref (zone_write_buffer z));
      b ← lift (aget l zid);
      '(b, n) ← lift (buffer_allocate b size);
      l ← lift (aset l zid b);
      mret (zn_with_wb z (Some l), n)
  | _ => n ← wb_allocate size; mret (z, n)
  end.

(** The [switch (state)] of [__zns_write]. *)
Definition open_for_write (z : zns_ftl) (zid : Z) : res (zns_ftl * Z) :=
  let '(z, ok) := acquire_zone_resource z OPEN_ZONE in
  if negb ok then Ok (z, NVME_SC_ZNS_NO_OPEN_ZONE)
  else z ← change_zone_state z zid ZONE_STATE_OPENED_IMPL; Ok (z, NVME_SC_SUCCESS).

Definition write_zone_state (z : zns_ftl) (zid slba : Z) (state : zone_state) : res (zns_ftl * Z) :=
  match state with
  | ZONE_STATE_EMPTY =>
      d ← zone_at z zid;
      if negb (slba =? zslba d) then Ok (z, NVME_SC_ZNS_INVALID_WRITE)
      else if is_zone_resource_full z ACTIVE_ZONE then Ok (z, NVME_SC_ZNS_NO_ACTIVE_ZONE)
      else if is_zone_resource_full z OPEN_ZONE then Ok (z, NVME_SC_ZNS_NO_OPEN_ZONE)
      else open_for_write (acquire_zone_resource z ACTIVE_ZONE).1 zid
  | ZONE_STATE_CLOSED => open_for_write z zid
  | ZONE_STATE_OPENED_IMPL | ZONE_STATE_OPENED_EXPL => Ok (z, NVME_SC_SUCCESS)
  | ZONE_STATE_FULL => Ok (z, NVME_SC_ZNS_ERR_FULL)
  | ZONE_STATE_READ_ONLY => Ok (z, NVME_SC_ZNS_ERR_READ_ONLY)
  | ZONE_STATE_OFFLINE => Ok (z, NVME_SC_ZNS_ERR_OFFLINE)
  end.

(** The checks of [__zns_write] and, when they pass, the write pointer: what
    the command does to the zones.  The status is not SUCCESS after a
    [goto out]. *)
Definition zns_write_zone (z : zns_ftl) (zid slba nr_lba : Z) (state : zone_state) : res (zns_ftl * Z) :=
  let spp := sp (zn_ssd z) in
  r ← checked_mod (LBA_TO_BYTE nr_lba) (write_unit_size spp);
  if negb (r =? 0) then Ok (z, NVME_SC_ZNS_INVALID_WRITE) else
  in_zone ← __check_boundary_error z slba nr_lba;
  if negb in_zone then Ok (z, NVME_SC_ZNS_ERR_BOUNDARY) else
  d ← zone_at z zid;
  if negb (slba =? wp d) then Ok (z, NVME_SC_ZNS_INVALID_WRITE) else
  '(z, status) ← write_zone_state z zid slba state;
  if negb (status =? NVME_SC_SUCCESS) then Ok (z, status) else
  z ← __increase_write_ptr z zid nr_lba;
  Ok (z, NVME_SC_SUCCESS).

(** [ret->nsecs_target] at [out:]. *)
Definition write_target (spp : ssdparams) (c : nvme_command) (latest xfer_completed : Z) : Z :=
  if rw_fua c || negb (write_early_completion spp) then latest else xfer_completed.

Section Io.
Variable cpu_clock : nat -> Z.
(** [local_clock()] in [zns_flush]. *)
Variable local_clock : Z.

Definition zns_advance_nand (z : zns_ftl) (ncmd : nand_cmd) : prog world (zns_ftl * Z) :=
  '(s, t) ← ssd_advance_nand cpu_clock (zn_ssd z) ncmd;
  mret (zn_with_ssd z s, t).

(** [pgs_per_oneshotpg * pgsz], an [int]. *)
Definition oneshot_bytes (spp : ssdparams) : Z := i32 (pgs_per_oneshotpg spp * pgsz spp).

(** The loop of [__zns_write] from [lpn] to [elpn]: a NAND program for every
    one-shot page the write completes and for the last page of the zone. *)
Fixpoint zns_write_loop (fuel : nat) (z : zns_ftl) (sqid : Z) (wb : buf_ref)
  (lpn elpn zone_elpn stime latest : Z) : prog world (zns_ftl * Z) :=
  if elpn <? lpn then mret (z, latest) else
  match fuel with
  | O => lift (Bug NoFuel)
  | S fuel =>
    let spp := sp (zn_ssd z) in
    p ← lift (__lpn_to_ppa z lpn);
    pg_off ← lift (checked_mod (g_pg p) (pgs_per_oneshotpg spp));
    let pgs := Z.min (elpn - lpn + 1) (u64 (pgs_per_oneshotpg spp - pg_off)) in
    '(z, latest) ←
      (if (pg_off + pgs =? pgs_per_oneshotpg spp) || (lpn + pgs - 1 =? zone_elpn) then
         unaligned_space ← lift (checked_mod (zone_size (zp z)) (oneshot_bytes spp));
         '(z, t) ← zns_advance_nand z (mk_ncmd USER_IO NAND_WRITE (u64 (oneshot_bytes spp)) stime false p);
         let bufs_to_release :=
           if (lpn + pgs - 1 =? zone_elpn) && (0 <? unaligned_space) then unaligned_space
           else oneshot_bytes spp in
         _ ← schedule_internal_operation sqid t wb bufs_to_release;
         mret (z, Z.max t latest)
       else mret (z, latest));
    zns_write_loop fuel z sqid wb (lpn + pgs) elpn zone_elpn stime latest
  end.

Definition set_cmd (req : nvmev_request) (c : nvme_command) : nvmev_request :=
  mk_req c (sq_id req) (nsecs_start req).

Definition set_ret_result (ret : nvmev_result) (r : Z) : nvmev_result :=
  mk_result (status ret) (nsecs_target ret) r.

(** An append is given the zone's write pointer as its address, in the command
    itself and in the result. *)
Definition append_slba (d : zone_descriptor) (req : nvmev_request) (ret : nvmev_result)
  : nvmev_request * nvmev_result :=
  if opcode (cmd req) =? nvme_cmd_zone_append then
    (set_cmd req (set_slba (cmd req) (wp d)), set_ret_result ret (wp d))
  else (req, ret).

Definition __zns_write (z : zns_ftl) (req : nvmev_request) (ret : nvmev_result)
  : prog world (zns_ftl * nvmev_request * bool * nvmev_result) :=
  let spp := sp (zn_ssd z) in
  let nr_lba := u32 (rw_length (cmd req) + 1) in
  zid ← lift (lba_to_zone z (rw_slba (cmd req)));
  d ← lift (zone_at z zid);
  let state := zd_state d in
  let start := nsecs_start req in
  let '(req, ret) := append_slba d req ret in
  let slba := rw_slba (cmd req) in
  slpn ← lift (lba_to_lpn z slba);
  elpn ← lift (lba_to_lpn z (u64 (u64 (slba + nr_lba) - 1)));
  zone_elpn ← lift (zone_to_elpn z zid);
  let wb := zone_buffer z zid in
  '(z, got) ← zns_buffer_allocate z zid (LBA_TO_BYTE nr_lba);
  if got <? LBA_TO_BYTE nr_lba then mret (z, req, false, ret) else
  '(z, status) ← lift (zns_write_zone z zid slba nr_lba state);
  '(z, latest, xfer_completed) ←
    (if negb (status =? NVME_SC_SUCCESS) then mret (z, start, start) else
     t ← ssd_advance_write_buffer cpu_clock (zn_ssd z) start (LBA_TO_BYTE nr_lba);
     '(z, latest) ← zns_write_loop (Z.to_nat (elpn - slpn + 1)) z (sq_id req) wb slpn elpn zone_elpn t t;
     mret (z, latest, t));
  mret (z, req, true,
        set_target (set_status ret status) (write_target spp (cmd req) latest xfer_completed)).

(** The [while (remaining > 0)] of [__zns_write_zrwa]. *)
Fixpoint zrwa_flush_loop (fuel : nat) (z : zns_ftl) (sqid zid lpn remaining stime latest : Z)
  : prog world (zns_ftl * Z) :=
  if remaining <=? 0 then mret (z, latest) else
  match fuel with
  | O => lift (Bug NoFuel)
  | S fuel =>
    let spp := sp (zn_ssd z) in
    p ← lift (__lpn_to_ppa z lpn);
    pg_off ← lift (checked_mod (g_pg p) (pgs_per_oneshotpg spp));
    let pgs := Z.min remaining (u64 (pgs_per_oneshotpg spp - pg_off)) in
    '(z, latest) ←
      (if pg_off + pgs =? pgs_per_oneshotpg spp then
         '(z, t) ← zns_advance_nand z (mk_ncmd USER_IO NAND_WRITE (u64 (oneshot_bytes spp)) stime false p);
         _ ← schedule_internal_operation sqid t (ZrwaBuffer zid) (oneshot_bytes spp);
         mret (z, Z.max t latest)
       else mret (z, latest));
    zrwa_flush_loop fuel z sqid zid (lpn + pgs) (remaining - pgs) stime latest
  end.

(** The [switch] of [__zns_write_zrwa]. *)
Definition zrwa_zone_state (z : zns_ftl) (zid : Z) (state : zone_state) : res (zns_ftl * Z) :=
  match state with
  | ZONE_STATE_CLOSED | ZONE_STATE_EMPTY =>
      let '(z, ok) := acquire_zone_resource z OPEN_ZONE in
      if negb ok then Ok (z, NVME_SC_ZNS_NO_OPEN_ZONE) else
      '(z, n) ← mod_zrwa_buffer z zid (fun b => buffer_allocate b (zrwa_size (zp z)));
      _ ← NVMEV_ASSERT (negb (n =? 0));
      z ← change_zone_state z zid ZONE_STATE_OPENED_IMPL;
      Ok (z, NVME_SC_SUCCESS)
  | ZONE_STATE_OPENED_IMPL | ZONE_STATE_OPENED_EXPL => Ok (z, NVME_SC_SUCCESS)
  | ZONE_STATE_FULL => Ok (z, NVME_SC_ZNS_ERR_FULL)
  | ZONE_STATE_READ_ONLY => Ok (z, NVME_SC_ZNS_ERR_READ_ONLY)
  | ZONE_STATE_OFFLINE => Ok (z, NVME_SC_ZNS_ERR_OFFLINE)
  end.

(** The checks of [__zns_write_zrwa], up to the state change. *)
Definition zrwa_check (z : zns_ftl) (zid slba nr_lba elba impl_end : Z) (state : zone_state)
  : res (zns_ftl * Z) :=
  r ← checked_mod (LBA_TO_BYTE nr_lba) (write_unit_size (sp (zn_ssd z)));
  if negb (r =? 0) then Ok (z, NVME_SC_ZNS_INVALID_WRITE) else
  in_zone ← __check_boundary_error z slba nr_lba;
  if negb in_zone then Ok (z, NVME_SC_ZNS_ERR_BOUNDARY) else
  d ← zone_at z zid;
  if (slba <? wp d) || (impl_end <? elba) then Ok (z, NVME_SC_ZNS_INVALID_WRITE) else
  zrwa_zone_state z zid state.

(** The LBAs an accepted write flushes implicitly. *)
Definition zrwa_nr_lbas_flush (z : zns_ftl) (zid elba impl_start prev_wp : Z) : res Z :=
  zone_elba ← zone_to_elba z zid;
  if impl_start <=? elba then
    let fg := lbas_per_zrwafg (zp z) in
    q ← checked_div (u64 (u64 (elba - impl_start + 1) + fg - 1)) fg;
    Ok (u64 (q * fg))
  else if elba =? zone_elba then Ok (u64 (elba - prev_wp + 1))
  else Ok 0.

Definition __zns_write_zrwa (z : zns_ftl) (req : nvmev_request) (ret : nvmev_result)
  : prog world (zns_ftl * bool * nvmev_result) :=
  let spp := sp (zn_ssd z) in
  let c := cmd req in
  let slba := rw_slba c in
  let nr_lba := u32 (rw_length c + 1) in
  let elba := u64 (u64 (slba + nr_lba) - 1) in
  zid ← lift (lba_to_zone z slba);
  d ← lift (zone_at z zid);
  let prev_wp := wp d in
  let lbas := lbas_per_zrwa (zp z) in
  let impl_start := u64 (prev_wp + lbas) in
  let impl_end := u64 (prev_wp + u32 (2 * lbas) - 1) in
  let start := nsecs_start req in
  '(z, status) ← lift (zrwa_check z zid slba nr_lba elba impl_end (zd_state d));
  if negb (status =? NVME_SC_SUCCESS) then
    mret (z, true, set_target (set_status ret status) start)
  else
  nr_lbas_flush ← lift (zrwa_nr_lbas_flush z zid elba impl_start prev_wp);
  '(z, ok) ← lift
    (if 0 <? nr_lbas_flush then
       '(z, n) ← mod_zrwa_buffer z zid (fun b => buffer_allocate b (LBA_TO_BYTE nr_lbas_flush));
       if n =? 0 then Ok (z, false)
       else z ← __increase_write_ptr z zid nr_lbas_flush; Ok (z, true)
     else Ok (z, true));
  if negb ok then mret (z, false, ret) else
  xfer_completed ← ssd_advance_write_buffer cpu_clock (zn_ssd z) start (LBA_TO_BYTE nr_lba);
  lpn ← lift (lba_to_lpn z prev_wp);
  remaining ← lift (checked_div nr_lbas_flush (secs_per_pg spp));
  '(z, latest) ← zrwa_flush_loop (Z.to_nat remaining) z (sq_id req) zid lpn remaining
                   xfer_completed xfer_completed;
  mret (z, true, set_target (set_status ret status) (write_target spp c latest xfer_completed)).

(** The request is returned with the address an append was given. *)
Definition zns_write (ns : zns_ns) (req : nvmev_request) (ret : nvmev_result)
  : prog world (zns_ns * nvmev_request * bool * nvmev_result) :=
  let z := ns_ftls ns in
  slpn ← lift (lba_to_lpn z (rw_slba (cmd req)));
  zid ← lift (lpn_to_zone z slpn);
  d ← lift (zone_at z zid);
  if negb (zd_zrwav d) then
    '(z, req, ok, ret) ← __zns_write z req ret; mret (set_ftls ns z, req, ok, ret)
  else
    '(z, ok, ret) ← __zns_write_zrwa z req ret; mret (set_ftls ns z, req, ok, ret).

(** ** Reads *)
Fixpoint zns_read_loop (fuel : nat) (z : zns_ftl) (lpn elpn stime latest : Z)
  : prog world (zns_ftl * Z) :=
  if elpn <? lpn then mret (z, latest) else
  match fuel with
  | O => lift (Bug NoFuel)
  | S fuel =>
    let spp := sp (zn_ssd z) in
    p ← lift (__lpn_to_ppa z lpn);
    pg_off ← lift (checked_mod (g_pg p) (pgs_per_flashpg spp));
    let pgs := Z.min (elpn - lpn + 1) (u64 (pgs_per_flashpg spp - pg_off)) in
    '(z, t) ← zns_advance_nand z (mk_ncmd USER_IO NAND_READ (u64 (pgs * pgsz spp)) stime false p);
    zns_read_loop fuel z (lpn + pgs) elpn stime (if latest <? t then t else latest)
  end.

Definition zns_read (ns : zns_ns) (req : nvmev_request) (ret : nvmev_result)
  : prog world (zns_ns * bool * nvmev_result) :=
  let z := ns_ftls ns in
  let spp := sp (zn_ssd z) in
  let slba := rw_slba (cmd req) in
  let nr_lba := u32 (rw_length (cmd req) + 1) in
  slpn ← lift (lba_to_lpn z slba);
  elpn ← lift (lba_to_lpn z (u64 (u64 (slba + nr_lba) - 1)));
  zid ← lift (lpn_to_zone z slpn);
  d ← lift (zone_at z zid);
  status ← lift
    (if bool_decide (zd_state d = ZONE_STATE_OFFLINE) then Ok NVME_SC_ZNS_ERR_OFFLINE
     else in_zone ← __check_boundary_error z slba nr_lba;
          Ok (if (in_zone : bool) then NVME_SC_SUCCESS else NVME_SC_ZNS_ERR_BOUNDARY));
  let stime := u64 (nsecs_start req +
    (if LBA_TO_BYTE nr_lba <=? KB 4 then fw_4kb_rd_lat spp else fw_rd_lat spp)) in
  '(z, latest) ← zns_read_loop (Z.to_nat (elpn - slpn + 1)) z slpn elpn stime stime;
  t ← ssd_advance_pcie cpu_clock latest (u64 (nr_lba * secsz spp));
  let latest := if latest <? t then t else latest in
  mret (set_ftls ns z, true, set_target (set_status ret status) latest).

(** ** Flush and dispatch *)
Definition zns_flush (ns : zns_ns) (req : nvmev_request) (ret : nvmev_result)
  : prog world nvmev_result :=
  t ← ssd_next_idle_time cpu_clock (zn_ssd (ns_ftls ns));
  mret (set_target (set_status ret NVME_SC_SUCCESS) (Z.max local_clock t)).

Definition zns_proc_nvme_io_cmd (m : host_mem) (ns : zns_ns) (req : nvmev_request) (ret : nvmev_result)
  : prog world (host_mem * zns_ns * nvmev_request * bool * nvmev_result) :=
  _ ← lift (NVMEV_ASSERT (ns_csi ns =? NVME_CSI_ZNS));
  _ ← lift (NVMEV_ASSERT (ns_nr_parts ns =? 1));
  let op := opcode (cmd req) in
  if (op =? nvme_cmd_write) || (op =? nvme_cmd_zone_append) then
    '(ns, req, ok, ret) ← zns_write ns req ret; mret (m, ns, req, ok, ret)
  else if op =? nvme_cmd_read then
    '(ns, ok, ret) ← zns_read ns req ret; mret (m, ns, req, ok, ret)
  else if op =? nvme_cmd_flush then
    ret ← zns_flush ns req ret; mret (m, ns, req, true, ret)
  else if op =? nvme_cmd_zone_mgmt_send then
    '(ns, ret) ← lift (zns_zmgmt_send ns req ret); mret (m, ns, req, true, ret)
  else if op =? nvme_cmd_zone_mgmt_recv then
    '(m, ns, ret) ← lift (zns_zmgmt_recv m ns req ret); mret (m, ns, req, true, ret)
  else mret (m, ns, req, true, ret).
End Io.
