(* ===== verification/ZnsInv.v ===== *)
(** * The zone invariant

    What holds of the zones between commands: where each zone lies, how its
    write pointer and its state fit together, and that the three counters
    count the zones that hold the resource. *)
From S2P Require Import Prelude Nvme SsdConfig ChannelModel Ssd Prp ZnsFtl ZnsIo.

Definition is_open (d : zone_descriptor) : bool :=
  match zd_state d with ZONE_STATE_OPENED_IMPL | ZONE_STATE_OPENED_EXPL => true | _ => false end.
Definition is_active (d : zone_descriptor) : bool :=
  is_open d || match zd_state d with ZONE_STATE_CLOSED => true | _ => false end.
Definition is_zrwa (d : zone_descriptor) : bool := is_active d && zd_zrwav d.

(** The logical blocks of a zone. *)
Definition zone_lbas (z : zns_ftl) : Z := zone_size (zp z) / secsz (sp (zn_ssd z)).

(** The device under the zones. *)
Record zns_geom (z : zns_ftl) : Prop := {
  zg_ssd : ssd_wf (zn_ssd z);
  zg_secsz : secsz (sp (zn_ssd z)) = 512;
  zg_secs : secs_per_pg (sp (zn_ssd z)) = 8;
  zg_size : zone_size (zp z) = 512 * zone_lbas z;
  zg_align : zone_lbas z mod 8 = 0;
  zg_pos : 0 < zone_lbas z;
  zg_zones : 0 < nr_zones (zp z);
  zg_32 : nr_zones (zp z) * zone_lbas z ≤ U32_MAX;
  zg_dies : 0 < dies_per_zone (zp z) ≤ U32_MAX;
  zg_dies_div : tt_luns (sp (zn_ssd z)) mod dies_per_zone (zp z) = 0;
  zg_unit : 0 < write_unit_size (sp (zn_ssd z));
  zg_lat0 : 0 ≤ fw_wbuf_lat0 (sp (zn_ssd z)) < 2 ^ 31;
  zg_lat1 : 0 ≤ fw_wbuf_lat1 (sp (zn_ssd z)) < 2 ^ 31;
}.

(** Zone [i] is [L] blocks from [i * L].  A zone without ZRWA never points past
    its end, and reaches it exactly when it becomes full. *)
Record zone_ok (L i : Z) (d : zone_descriptor) : Prop := {
  zo_start : zslba d = i * L;
  zo_cap : zone_capacity d = L;
  zo_wp : zslba d ≤ wp d ≤ U32_MAX;
  zo_end : zd_zrwav d = false -> wp d ≤ zslba d + L;
  zo_empty : zd_state d = ZONE_STATE_EMPTY -> wp d = zslba d /\ zd_zrwav d = false;
  zo_room : is_active d = true -> zd_zrwav d = false -> wp d < zslba d + L;
}.

Record zns_inv (z : zns_ftl) : Prop := {
  zi_geom : zns_geom z;
  zi_len : Z.of_nat (length (zone_descs z)) = nr_zones (zp z);
  zi_zone i d : zone_at z i = Ok d -> zone_ok (zone_lbas z) i d;
  zi_total ty : total_cnt (get_res z ty) = nr_zones (zp z);
  zi_open : acquired_cnt (res_open z) = zcount is_open (zone_descs z);
  zi_active : acquired_cnt (res_active z) = zcount is_active (zone_descs z);
  zi_zrwa : zcount is_zrwa (zone_descs z) ≤ acquired_cnt (res_zrwa z) ≤ nr_zones (zp z);
  zi_report : Z.of_nat (length (report_buffer z)) =
    zone_report_header + sizeof_zone_descriptor * (nr_zones (zp z) + 1);
  zi_wbuf : zone_wb_size (zp z) <> 0 ->
    exists l, zone_write_buffer z = Some l /\ arr (nr_zones (zp z)) buffer_wf l;
  zi_zbuf : zrwa_buffer_size (zp z) <> 0 ->
    exists l, zrwa_buffer z = Some l /\ Z.of_nat (length l) = nr_zones (zp z);
}.

(** What no zone command changes; resetting a zone refills its ZRWA buffer. *)
Record zns_frame (z z' : zns_ftl) : Prop := {
  zf_ssd : zn_ssd z' = zn_ssd z;
  zf_zp : zp z' = zp z;
  zf_report : report_buffer z' = report_buffer z;
  zf_wb : zone_write_buffer z' = zone_write_buffer z;
  zf_zrwa l : zrwa_buffer z = Some l ->
    exists l', zrwa_buffer z' = Some l' /\ length l' = length l;
}.

(** ** Zone numbers *)
Section Numbers.
Context (z : zns_ftl) (Hg : zns_geom z).

Lemma zone_lbas_u32 : 0 < zone_lbas z ≤ U32_MAX /\ nr_zones (zp z) ≤ U32_MAX.
Proof. destruct Hg. nia. Qed.

Lemma zone_lbas_ge : 8 ≤ zone_lbas z.
Proof.
  pose proof (zg_pos z Hg). pose proof (zg_align z Hg).
  pose proof (Z.div_mod (zone_lbas z) 8 ltac:(lia)). lia.
Qed.

Lemma lba_to_zone_eq lba : 0 ≤ lba ≤ 2 ^ 34 -> lba_to_zone z lba = Ok (lba / zone_lbas z).
Proof.
  intros Hl. pose proof zone_lbas_ge. pose proof zone_lbas_u32. pose proof (zg_pos z Hg). unfold lba_to_zone, checked_div.
  rewrite (zg_secsz z Hg). cbn [Z.eqb]. change (512 =? 0) with false. cbn [mbind res_bind].
  assert (zone_size (zp z) / 512 = zone_lbas z) as ->.
  { rewrite (zg_size z Hg), Z.mul_comm. apply Z.div_mul. lia. }
  rewrite (proj2 (Z.eqb_neq _ _)) by lia. cbn. f_equal. apply u32_small.
  split; [apply Z.div_pos; lia|]. apply Z.div_le_upper_bound; [lia|]. unfold U32_MAX in *. lia.
Qed.

Lemma zone_to_slba_eq i : 0 ≤ i ≤ nr_zones (zp z) -> zone_to_slba z i = Ok (i * zone_lbas z).
Proof.
  intros Hi. pose proof zone_lbas_u32. unfold zone_to_slba, checked_div.
  rewrite (zg_secsz z Hg). change (512 =? 0) with false. cbn [mbind res_bind].
  assert (zone_size (zp z) / 512 = zone_lbas z) as ->.
  { rewrite (zg_size z Hg), Z.mul_comm. apply Z.div_mul. lia. }
  rewrite (u32_small i) by lia. cbn. rewrite u32_small; [done|]. pose proof (zg_32 z Hg). nia.
Qed.

(** A block belongs to the zone whose range contains it. *)
Lemma lba_in_zone lba i : i * zone_lbas z ≤ lba < (i + 1) * zone_lbas z -> lba / zone_lbas z = i.
Proof. intros. symmetry. apply Z.div_unique with (lba - i * zone_lbas z); lia. Qed.

Lemma lba_zone_range lba :
  0 ≤ lba < nr_zones (zp z) * zone_lbas z -> 0 ≤ lba / zone_lbas z < nr_zones (zp z).
Proof.
  intros Hl. pose proof (zg_pos z Hg). split; [apply Z.div_pos; lia|].
  apply Z.div_lt_upper_bound; lia.
Qed.
End Numbers.

(** ** One zone changes *)

(** [z'] is [z] with zone [zid] changed from [d] to [d'] and the counters
    following it. *)
Record zstep (z : zns_ftl) (zid : Z) (d d' : zone_descriptor) (z' : zns_ftl) : Prop := {
  zs_frame : zns_frame z z';
  zs_at : zone_at z zid = Ok d;
  zs_descs : zone_descs z' = <[Z.to_nat zid := d']> (zone_descs z);
  zs_total ty : total_cnt (get_res z' ty) = total_cnt (get_res z ty);
  zs_open : acquired_cnt (res_open z') = acquired_cnt (res_open z) - b2z (is_open d) + b2z (is_open d');
  zs_active : acquired_cnt (res_active z') =
    acquired_cnt (res_active z) - b2z (is_active d) + b2z (is_active d');
  zs_zrwa : acquired_cnt (res_zrwa z') =
    acquired_cnt (res_zrwa z) - b2z (is_zrwa d) + b2z (is_zrwa d');
}.

Lemma frame_refl z : zns_frame z z.
Proof. split; eauto. Qed.

Lemma frame_lbas z z' : zns_frame z z' -> zone_lbas z' = zone_lbas z.
Proof. intros [H1 H2 _ _ _]. unfold zone_lbas. by rewrite H1, H2. Qed.

Lemma frame_geom z z' : zns_frame z z' -> zns_geom z -> zns_geom z'.
Proof.
  intros Hf []. pose proof (frame_lbas _ _ Hf). destruct Hf as [Hs Hz _ _ _].
  by split; rewrite ?Hs, ?Hz, ?H.
Qed.

Lemma zstep_at z zid d d' z' i : zstep z zid d d' z' ->
  zone_at z' i = if decide (zid = i) then Ok d' else zone_at z i.
Proof.
  intros Hs. unfold zone_at. rewrite (zs_descs _ _ _ _ _ Hs). apply aget_insert.
  eapply aget_range, (zs_at _ _ _ _ _ Hs).
Qed.

Lemma frame_trans z1 z2 z3 : zns_frame z1 z2 -> zns_frame z2 z3 -> zns_frame z1 z3.
Proof.
  intros [A1 A2 A3 A4 A5] [B1 B2 B3 B4 B5]. split; try congruence. intros l Hl.
  destruct (A5 l Hl) as (l1 & Hl1 & E1). destruct (B5 l1 Hl1) as (l2 & Hl2 & E2).
  exists l2. split; [done | lia].
Qed.

Lemma zstep_trans z zid d d1 d2 z1 z2 :
  zstep z zid d d1 z1 -> zstep z1 zid d1 d2 z2 -> zstep z zid d d2 z2.
Proof.
  intros H1 H2. split.
  - eapply frame_trans; [eapply zs_frame, H1 | eapply zs_frame, H2].
  - apply H1.
  - rewrite (zs_descs _ _ _ _ _ H2), (zs_descs _ _ _ _ _ H1). by rewrite list_insert_insert_eq.
  - intros ty. by rewrite (zs_total _ _ _ _ _ H2), (zs_total _ _ _ _ _ H1).
  - rewrite (zs_open _ _ _ _ _ H2), (zs_open _ _ _ _ _ H1). lia.
  - rewrite (zs_active _ _ _ _ _ H2), (zs_active _ _ _ _ _ H1). lia.
  - rewrite (zs_zrwa _ _ _ _ _ H2), (zs_zrwa _ _ _ _ _ H1). lia.
Qed.

Lemma zstep_same z zid d : zone_at z zid = Ok d -> zstep z zid d d z.
Proof.
  intros Ha. split; try done; try lia; [by apply frame_refl|].
  symmetry. apply list_insert_id. by apply aget_Ok in Ha as [_ ?].
Qed.

Lemma zstep_inv z zid d d' z' :
  zns_inv z -> zstep z zid d d' z' -> zone_ok (zone_lbas z) zid d' ->
  acquired_cnt (res_zrwa z') ≤ nr_zones (zp z) -> zns_inv z'.
Proof.
  intros Hi Hs Hd Hz. pose proof (zs_frame _ _ _ _ _ Hs) as Hf.
  pose proof (zs_at _ _ _ _ _ Hs) as Ha. unfold zone_at in Ha.
  split.
  - eapply frame_geom; [done | apply Hi].
  - rewrite (zs_descs _ _ _ _ _ Hs), length_insert, (zf_zp _ _ Hf). apply Hi.
  - intros i e. rewrite (zstep_at _ _ _ _ _ _ Hs), (frame_lbas _ _ Hf).
    case_decide; [intros [= <-]; by subst | apply Hi].
  - intros ty. rewrite (zs_total _ _ _ _ _ Hs), (zf_zp _ _ Hf). apply Hi.
  - rewrite (zs_open _ _ _ _ _ Hs), (zs_descs _ _ _ _ _ Hs), (zcount_insert _ _ _ d), (zi_open _ Hi); done.
  - rewrite (zs_active _ _ _ _ _ Hs), (zs_descs _ _ _ _ _ Hs), (zcount_insert _ _ _ d), (zi_active _ Hi); done.
  - rewrite (zs_descs _ _ _ _ _ Hs), (zcount_insert _ _ _ d) by done. rewrite (zf_zp _ _ Hf).
    pose proof (zs_zrwa _ _ _ _ _ Hs). pose proof (zi_zrwa _ Hi). lia.
  - rewrite (zf_report _ _ Hf), (zf_zp _ _ Hf). apply Hi.
  - rewrite (zf_wb _ _ Hf), (zf_zp _ _ Hf). apply Hi.
  - rewrite (zf_zp _ _ Hf). intros Hne. destruct (zi_zbuf _ Hi Hne) as (l & Hl & Hn).
    destruct (zf_zrwa _ _ Hf l Hl) as (l' & Hl' & Hn'). exists l'. split; [done | lia].
Qed.

(** What the counters say about a zone: a holder is counted, and as long as
    one zone does not hold it the resource is available. *)
Record counted (z : zns_ftl) (d : zone_descriptor) : Prop := {
  ct_nr : nr_zones (zp z) ≤ U32_MAX;
  ct_open : b2z (is_open d) ≤ acquired_cnt (res_open z) ≤ nr_zones (zp z) - 1 + b2z (is_open d);
  ct_active : b2z (is_active d) ≤ acquired_cnt (res_active z) ≤ nr_zones (zp z) - 1 + b2z (is_active d);
  ct_zrwa : b2z (is_zrwa d) ≤ acquired_cnt (res_zrwa z) ≤ nr_zones (zp z);
  ct_tot_open : total_cnt (res_open z) = nr_zones (zp z);
  ct_tot_active : total_cnt (res_active z) = nr_zones (zp z);
  ct_tot_zrwa : total_cnt (res_zrwa z) = nr_zones (zp z);
}.

Lemma zcount_holder {A} (f : A -> bool) l i a :
  aget l i = Ok a -> b2z (f a) ≤ zcount f l ≤ Z.of_nat (length l) - 1 + b2z (f a).
Proof.
  intros Ha. pose proof (zcount_range f l). destruct (f a) eqn:E; cbn.
  - pose proof (zcount_pos f l i a Ha E). lia.
  - pose proof (zcount_lt f l i a Ha E). lia.
Qed.

Lemma inv_counted z zid d : zns_inv z -> zone_at z zid = Ok d -> counted z d.
Proof.
  intros Hi Ha. pose proof (zone_lbas_u32 z (zi_geom _ Hi)) as [_ Hn]. unfold zone_at in Ha.
  pose proof (zi_len _ Hi) as Hlen. split; [done | | | | apply (zi_total _ Hi OPEN_ZONE)
    | apply (zi_total _ Hi ACTIVE_ZONE) | apply (zi_total _ Hi ZRWA_ZONE)].
  - rewrite (zi_open _ Hi), <- Hlen. by eapply zcount_holder.
  - rewrite (zi_active _ Hi), <- Hlen. by eapply zcount_holder.
  - pose proof (zi_zrwa _ Hi). pose proof (zcount_holder is_zrwa _ _ _ Ha). lia.
Qed.

Lemma mod_zone_ok z zid d f :
  zone_at z zid = Ok d -> mod_zone z zid f = Ok (zn_with_descs z (<[Z.to_nat zid := f d]> (zone_descs z))).
Proof.
  intros Ha. unfold mod_zone, aupd. unfold zone_at in Ha. rewrite Ha. cbn.
  by rewrite aset_in_range by (by eapply aget_range).
Qed.

(** The state machine of the zones, as the specification's transitions: from
    which states an action is accepted, and the state it leads to. *)
Inductive zone_action : zone_send_action -> zone_state -> zone_state -> Prop :=
| za_close_impl : zone_action ZSA_CLOSE_ZONE ZONE_STATE_OPENED_IMPL ZONE_STATE_CLOSED
| za_close_expl : zone_action ZSA_CLOSE_ZONE ZONE_STATE_OPENED_EXPL ZONE_STATE_CLOSED
| za_close_closed : zone_action ZSA_CLOSE_ZONE ZONE_STATE_CLOSED ZONE_STATE_CLOSED
| za_finish st : st <> ZONE_STATE_READ_ONLY -> st <> ZONE_STATE_OFFLINE ->
    zone_action ZSA_FINISH_ZONE st ZONE_STATE_FULL
| za_open st : st <> ZONE_STATE_FULL -> st <> ZONE_STATE_READ_ONLY -> st <> ZONE_STATE_OFFLINE ->
    zone_action ZSA_OPEN_ZONE st ZONE_STATE_OPENED_EXPL
| za_reset st : st <> ZONE_STATE_READ_ONLY -> st <> ZONE_STATE_OFFLINE ->
    zone_action ZSA_RESET_ZONE st ZONE_STATE_EMPTY
| za_offline st : st = ZONE_STATE_READ_ONLY \/ st = ZONE_STATE_OFFLINE ->
    zone_action ZSA_OFFLINE_ZONE st ZONE_STATE_OFFLINE.

(** What one zone management command leaves: accepted, the zone makes a
    transition of [zone_action] and nothing else changes but the counters; or
    rejected, and the device is as before. *)
Definition accepted (a : zone_send_action) (z : zns_ftl) (zid : Z) (d : zone_descriptor)
  (z' : zns_ftl) (st : Z) : Prop :=
  st = NVME_SC_SUCCESS /\ exists d', zstep z zid d d' z' /\ acquired_cnt (res_zrwa z') ≤ nr_zones (zp z) /\
    zone_ok (zone_lbas z) zid d' /\
    zone_action a (zd_state d) (zd_state d') /\
    wp d' = match a with ZSA_RESET_ZONE => zslba d | _ => wp d end.

Definition rejected (a : zone_send_action) (z : zns_ftl) (d : zone_descriptor)
  (z' : zns_ftl) (st : Z) : Prop :=
  z' = z /\ st = NVME_SC_ZNS_INVALID_TRANSITION /\ forall s', ~ zone_action a (zd_state d) s'.

(** The step is computed: solve the frame by reflexivity and the counters by
    arithmetic on [counted]. *)
Ltac zstep_solve Hc E :=
  split; [split; cbn; eauto; fail | assumption | done | by intros [] | ..]; cbn;
  destruct Hc; unfold is_zrwa, is_active, is_open in *; cbn in *; rewrite ?E in *; cbn in *;
  unfold U32_MAX in *; rewrite ?u32_small by (unfold U32_MAX; lia); try lia.

Ltac count_solve Hc E :=
  cbn; destruct Hc; unfold is_zrwa, is_active, is_open in *; cbn in *; rewrite ?E in *; cbn in *;
  unfold U32_MAX in *; rewrite ?u32_small by (unfold U32_MAX; lia); try lia.

Ltac zone_ok_solve Ho E :=
  destruct Ho; split; cbn in *; try done; unfold is_active, is_open in *; cbn in *; rewrite ?E in *;
  cbn in *; try done; auto; try (intros; lia).

Section Actions.
Context (z : zns_ftl) (zid : Z) (d : zone_descriptor).
Context (Hi : zns_inv z) (Ha : zone_at z zid = Ok d).

Lemma close_zone_ok :
  returns (__zmgmt_send_close_zone z zid) (fun '(z', st) =>
    accepted ZSA_CLOSE_ZONE z zid d z' st \/ rejected ZSA_CLOSE_ZONE z d z' st).
Proof.
  pose proof (inv_counted _ _ _ Hi Ha) as Hc. pose proof (zi_zone _ Hi _ _ Ha) as Ho.
  unfold __zmgmt_send_close_zone. rewrite Ha. cbn [mbind res_bind].
  destruct (zd_state d) eqn:E; cbn;
    try (right; split; [done|]; split; [done|]; rewrite E; intros s' H; inversion H; fail).
  - unfold change_zone_state. rewrite (mod_zone_ok _ _ d) by done. left. split; [done|].
    exists (zd_with_state ZONE_STATE_CLOSED d). split; [zstep_solve Hc E|]. split; [count_solve Hc E|].
    split; [zone_ok_solve Ho E|]. cbn. rewrite E. split; [constructor | done].
  - unfold change_zone_state. rewrite (mod_zone_ok _ _ d) by done. left. split; [done|].
    exists (zd_with_state ZONE_STATE_CLOSED d). split; [zstep_solve Hc E|]. split; [count_solve Hc E|].
    split; [zone_ok_solve Ho E|]. cbn. rewrite E. split; [constructor | done].
  - left. split; [done|]. exists d. split; [by apply zstep_same|]. split; [by destruct Hc; lia|].
    split; [done|]. rewrite E. split; [constructor | done].
Qed.

Lemma finish_zone_ok :
  returns (__zmgmt_send_finish_zone z zid) (fun '(z', st) =>
    accepted ZSA_FINISH_ZONE z zid d z' st \/ rejected ZSA_FINISH_ZONE z d z' st).
Proof.
  pose proof (inv_counted _ _ _ Hi Ha) as Hc. pose proof (zi_zone _ Hi _ _ Ha) as Ho.
  unfold __zmgmt_send_finish_zone. rewrite Ha. cbn [mbind res_bind].
  destruct (zd_state d) eqn:E; cbn [returns];
    try (right; split; [done|]; split; [done|]; rewrite E; intros s' H; inversion H; done);
    unfold change_zone_state, release_active.
  5: { left. split; [done|]. exists d. split; [by apply zstep_same|]. split; [by destruct Hc; lia|]. split; [done|].
       rewrite E. by split; [constructor|]. }
  all: destruct (zd_zrwav d) eqn:Ez; rewrite (mod_zone_ok _ _ d) by exact Ha; left; (split; [done|]);
    exists (zd_with_state ZONE_STATE_FULL d);
    (split; [zstep_solve Hc E; rewrite ?Ez in *; cbn in *; rewrite ?u32_small by (unfold U32_MAX; lia); lia|]);
    (split; [count_solve Hc E; rewrite ?Ez in *; cbn in *; rewrite ?u32_small by (unfold U32_MAX; lia); lia|]);
    (split; [zone_ok_solve Ho E|]); cbn; rewrite E; split; try done; by constructor.
Qed.

Lemma offline_zone_ok :
  returns (__zmgmt_send_offline_zone z zid) (fun '(z', st) =>
    accepted ZSA_OFFLINE_ZONE z zid d z' st \/ rejected ZSA_OFFLINE_ZONE z d z' st).
Proof.
  pose proof (inv_counted _ _ _ Hi Ha) as Hc. pose proof (zi_zone _ Hi _ _ Ha) as Ho.
  unfold __zmgmt_send_offline_zone. rewrite Ha. cbn [mbind res_bind].
  destruct (zd_state d) eqn:E; cbn [returns];
    try (right; split; [done|]; split; [done|]; rewrite E; intros s' H; inversion H; subst; destruct_or?; congruence).
  - unfold change_zone_state. rewrite (mod_zone_ok _ _ d) by done. left. split; [done|].
    exists (zd_with_state ZONE_STATE_OFFLINE d). split; [zstep_solve Hc E|]. split; [count_solve Hc E|].
    split; [zone_ok_solve Ho E|]. cbn. rewrite E. split; [constructor; by left | done].
  - left. split; [done|]. exists d. split; [by apply zstep_same|]. split; [by destruct Hc; lia|].
    split; [done|]. rewrite E. split; [constructor; by right | done].
Qed.

(** The ZRWA resource may be exhausted; the other two never are. *)
Lemma open_zone_ok zrwa :
  returns (__zmgmt_send_open_zone z zid zrwa) (fun '(z', st) =>
    accepted ZSA_OPEN_ZONE z zid d z' st \/ rejected ZSA_OPEN_ZONE z d z' st \/
    (z' = z /\ st = NVME_SC_ZNS_ZRWA_RSRC_UNAVAIL /\ zrwa <> 0)).
Proof.
  pose proof (inv_counted _ _ _ Hi Ha) as Hc. pose proof (zi_zone _ Hi _ _ Ha) as Ho.
  unfold __zmgmt_send_open_zone. rewrite Ha. cbn [mbind res_bind].
  destruct (zd_state d) eqn:E; cbn [returns];
    try (right; left; split; [done|]; split; [done|]; rewrite E; intros s' H; inversion H; subst; destruct_or?; congruence).
  - assert (acquired_cnt (res_active z) < total_cnt (res_active z) /\
            acquired_cnt (res_open z) < total_cnt (res_open z)) as [Hna Hno].
    { destruct Hc. unfold is_active, is_open in *. rewrite E in *. cbn in *. lia. }
    unfold is_zone_resource_full. cbn [get_res].
    rewrite (proj2 (Z.eqb_neq (acquired_cnt (res_active z)) _)) by lia.
    rewrite (proj2 (Z.eqb_neq (acquired_cnt (res_open z)) _)) by lia.
    destruct (Z.eqb_spec zrwa 0) as [->|Hz]; cbn [negb andb].
    + cbn [mbind res_bind].
      unfold open_closed_zone, acquire_zone_resource, is_zone_resource_avail. cbn [get_res].
      rewrite (proj2 (Z.ltb_lt (acquired_cnt (res_active z)) _)) by done. cbn.
      rewrite (proj2 (Z.ltb_lt (acquired_cnt (res_open z)) _)) by done. cbn.
      destruct (zo_empty _ _ _ Ho E) as [Hw Hzv]. pose proof (zg_pos _ (zi_geom _ Hi)).
      unfold change_zone_state. rewrite (mod_zone_ok _ _ d) by exact Ha. left. split; [done|].
      exists (zd_with_state ZONE_STATE_OPENED_EXPL d).
      split; [zstep_solve Hc E; rewrite ?Hzv in *; cbn in *; lia|]. split; [count_solve Hc E|].
      split; [zone_ok_solve Ho E|]. cbn. rewrite E. split; [by constructor | done].
    + destruct (Z.eqb_spec (acquired_cnt (res_zrwa z)) (total_cnt (res_zrwa z))) as [Hf|Hf]; cbn [returns].
      { right. right. done. }
      destruct (zo_empty _ _ _ Ho E) as [Hw Hzv].
      assert (acquired_cnt (res_zrwa z) < total_cnt (res_zrwa z)) as Hnz by (destruct Hc; lia).
      unfold acquire_zone_resource, is_zone_resource_avail. cbn [get_res].
      rewrite (proj2 (Z.ltb_lt (acquired_cnt (res_zrwa z)) _)) by done. cbn [fst].
      rewrite (mod_zone_ok _ _ d) by exact Ha. cbn.
      rewrite (proj2 (Z.ltb_lt (acquired_cnt (res_active z)) _)) by done. cbn [fst].
      unfold open_closed_zone, acquire_zone_resource, is_zone_resource_avail. cbn.
      rewrite (proj2 (Z.ltb_lt (acquired_cnt (res_open z)) _)) by done. cbn.
      unfold change_zone_state. rewrite (mod_zone_ok _ _ (zd_with_zrwav true d)).
      2:{ unfold zone_at. cbn. rewrite aget_insert by (by eapply aget_range). by rewrite decide_True. }
      left. split; [done|]. exists (zd_with_state ZONE_STATE_OPENED_EXPL (zd_with_zrwav true d)).
      split.
      * split; [split; cbn; eauto; fail | assumption | cbn; by rewrite list_insert_insert_eq | by intros [] | ..]; cbn;
          destruct Hc; unfold is_zrwa, is_active, is_open in *; cbn in *; rewrite ?E in *; cbn in *;
          unfold U32_MAX in *; rewrite ?Hzv in *; cbn in *; rewrite ?u32_small by (unfold U32_MAX; lia); lia.
      * split; [count_solve Hc E|]. split; [zone_ok_solve Ho E|]. cbn. rewrite E. split; [by constructor | done].
  - unfold change_zone_state. rewrite (mod_zone_ok _ _ d) by done. left. split; [done|].
    exists (zd_with_state ZONE_STATE_OPENED_EXPL d). split; [zstep_solve Hc E|]. split; [count_solve Hc E|].
    split; [zone_ok_solve Ho E|]. cbn. rewrite E. split; [by constructor | done].
  - left. split; [done|]. exists d. split; [by apply zstep_same|]. split; [by destruct Hc; lia|]. split; [done|].
    rewrite E. split; [by constructor | done].
  - assert (acquired_cnt (res_open z) < total_cnt (res_open z)) as Hno.
    { destruct Hc. unfold is_open in *. rewrite E in *. cbn in *. lia. }
    unfold open_closed_zone, acquire_zone_resource, is_zone_resource_avail. cbn [get_res].
    rewrite (proj2 (Z.ltb_lt (acquired_cnt (res_open z)) _)) by done. cbn [negb].
    unfold change_zone_state. rewrite (mod_zone_ok _ _ d) by exact Ha. left. split; [done|].
    exists (zd_with_state ZONE_STATE_OPENED_EXPL d). split; [zstep_solve Hc E|]. split; [count_solve Hc E|].
    split; [zone_ok_solve Ho E|]. cbn. rewrite E. split; [by constructor | done].
Qed.

(** The zone as a reset leaves it, and its bytes. *)
Definition reset_desc : zone_descriptor :=
  zd_with_zrwav false (zd_with_wp (zslba d) (zd_with_state ZONE_STATE_EMPTY d)).

Definition zone_bytes_zero (z z' : zns_ftl) (zid : Z) : Prop :=
  forall a, zn_storage z' a =
    if (get_storage_addr_from_zid z zid <=? a) &&
       (a <? get_storage_addr_from_zid z zid + zone_size (zp z)) then 0 else zn_storage z a.

(** [change_zone_state] and [__reset_zone] on a device [z1] that differs from
    [z] in the counters only. *)
Lemma reset_steps_ok z1 :
  zns_frame z z1 -> zone_descs z1 = zone_descs z -> zrwa_buffer z1 = zrwa_buffer z ->
  zn_storage z1 = zn_storage z ->
  exists z', (z1 ← change_zone_state z1 zid ZONE_STATE_EMPTY; __reset_zone z1 zid) = Ok z' /\
    zns_frame z z' /\ zone_descs z' = <[Z.to_nat zid := reset_desc]> (zone_descs z) /\
    res_open z' = res_open z1 /\ res_active z' = res_active z1 /\ res_zrwa z' = res_zrwa z1 /\
    zone_bytes_zero z z' zid.
Proof.
  intros Hf Hd Hz Hst. pose proof Hf as [Hs Hp Hr Hw _].
  unfold change_zone_state. rewrite (mod_zone_ok _ _ d) by (unfold zone_at; rewrite Hd; exact Ha).
  cbn [mbind res_bind]. unfold __reset_zone.
  rewrite (mod_zone_ok _ _ (zd_with_state ZONE_STATE_EMPTY d)).
  2:{ unfold zone_at. cbn. rewrite Hd. rewrite aget_insert by (by eapply aget_range).
      by rewrite decide_True. }
  cbn [mbind res_bind]. cbn. rewrite Hp, Hd.
  destruct (Z.eqb_spec (zrwa_buffer_size (zp z)) 0) as [E|E]; cbn [negb].
  - eexists. split; [done|]. cbn. split; [split; cbn; try done; rewrite ?Hz; eauto|].
    split; [by rewrite list_insert_insert_eq|]. repeat (split; [done|]).
    intros a. cbn. unfold get_storage_addr_from_zid. cbn. by rewrite Hp, Hst.
  - destruct (zi_zbuf _ Hi E) as (l & Hl & Hn). unfold mod_zrwa_buffer. cbn. rewrite Hz, Hl. cbn.
    assert (0 ≤ zid < Z.of_nat (length l)) as Hzr.
    { rewrite Hn, <- (zi_len _ Hi). by eapply aget_range. }
    destruct (aget_in_range l zid Hzr) as [b Hb]. rewrite Hb. cbn. rewrite aset_in_range by done. cbn.
    eexists. split; [done|]. cbn. split.
    { split; cbn; try done. intros l0 Hl0. rewrite Hl in Hl0. injection Hl0 as <-.
      eexists. split; [done|]. apply length_insert. }
    split; [by rewrite list_insert_insert_eq|]. repeat (split; [done|]).
    intros a. cbn. unfold get_storage_addr_from_zid. cbn. by rewrite Hp, Hst.
Qed.

Lemma reset_zone_ok :
  returns (__zmgmt_send_reset_zone z zid) (fun '(z', st) =>
    accepted ZSA_RESET_ZONE z zid d z' st /\ zone_bytes_zero z z' zid \/
    rejected ZSA_RESET_ZONE z d z' st).
Proof.
  pose proof (inv_counted _ _ _ Hi Ha) as Hc. pose proof (zi_zone _ Hi _ _ Ha) as Ho.
  assert (zone_ok (zone_lbas z) zid reset_desc) as Hro.
  { destruct Ho. split; cbn; try done; try lia. intros _. pose proof (zg_pos _ (zi_geom _ Hi)). lia. }
  assert (forall z1, zns_frame z z1 -> zone_descs z1 = zone_descs z -> zrwa_buffer z1 = zrwa_buffer z ->
    zn_storage z1 = zn_storage z ->
    (forall ty, total_cnt (get_res z1 ty) = total_cnt (get_res z ty)) ->
    acquired_cnt (res_open z1) = acquired_cnt (res_open z) - b2z (is_open d) ->
    acquired_cnt (res_active z1) = acquired_cnt (res_active z) - b2z (is_active d) ->
    acquired_cnt (res_zrwa z1) = acquired_cnt (res_zrwa z) - b2z (is_zrwa d) ->
    zone_action ZSA_RESET_ZONE (zd_state d) ZONE_STATE_EMPTY ->
    returns (z1 ← change_zone_state z1 zid ZONE_STATE_EMPTY; z1 ← __reset_zone z1 zid;
             Ok (z1, NVME_SC_SUCCESS)) (fun '(z', st) =>
      accepted ZSA_RESET_ZONE z zid d z' st /\ zone_bytes_zero z z' zid \/
      rejected ZSA_RESET_ZONE z d z' st)) as Hgo.
  { intros z1 Hf Hd Hz Hst Ht H1 H2 H3 Hact.
    destruct (reset_steps_ok z1 Hf Hd Hz Hst) as (z' & He & Hf' & Hd' & E1 & E2 & E3 & Hb).
    destruct (change_zone_state z1 zid ZONE_STATE_EMPTY) as [z2|]; [|done]. cbn in He |- *.
    rewrite He. cbn. left. split; [|done]. split; [done|]. exists reset_desc.
    split; [|split; [by rewrite E3, H3; pose proof (b2z_range (is_zrwa d)); destruct Hc; lia | by split; [|split]]].
    split; try done.
    - intros ty. rewrite <- Ht. by destruct ty; cbn; rewrite ?E1, ?E2, ?E3.
    - rewrite E1, H1. cbn. lia.
    - rewrite E2, H2. cbn. lia.
    - rewrite E3, H3. cbn. lia. }
  unfold __zmgmt_send_reset_zone. rewrite Ha. cbn [mbind res_bind].
  destruct (zd_state d) eqn:E;
    try (right; split; [done|]; split; [done|]; rewrite E; intros s' H; inversion H; subst; congruence);
    (apply Hgo; [.. | by constructor]);
    unfold release_active; destruct (zd_zrwav d) eqn:Ez; cbn; try done;
    try (split; cbn; eauto; fail); try (by intros []);
    destruct Hc; unfold is_zrwa, is_active, is_open in *; rewrite ?E, ?Ez in *; cbn in *;
    unfold U32_MAX in *; rewrite ?u32_small by (unfold U32_MAX; lia); lia.
Qed.
End Actions.

Lemma accepted_inv a z zid d z' st : zns_inv z -> accepted a z zid d z' st -> zns_inv z'.
Proof. intros Hi (_ & d' & Hs & Hz & Hd & _). by eapply zstep_inv. Qed.

(** ** Explicit ZRWA flush *)
Lemma flush_explicit_zrwa_ok z slba zid d :
  zns_inv z -> zid = slba / zone_lbas z -> 0 ≤ slba < nr_zones (zp z) * zone_lbas z ->
  zone_at z zid = Ok d -> (lbas_per_zrwafg (zp z) <> 0 \/ zd_zrwav d = false) ->
  returns (__zmgmt_send_flush_explicit_zrwa z slba) (fun '(z', st) =>
    z' = z /\ st <> NVME_SC_SUCCESS \/
    st = NVME_SC_SUCCESS /\ zd_zrwav d = true /\ is_active d = true /\
    exists d', zstep z zid d d' z' /\ zns_inv z' /\ wp d' = slba + 1 /\ wp d ≤ slba /\
      (slba - wp d + 1) mod lbas_per_zrwafg (zp z) = 0 /\
      zd_state d' = if decide (slba + 1 = zslba d + zone_lbas z) then ZONE_STATE_FULL else zd_state d).
Proof.
  intros Hi Hzid Hsl Ha Hfg. pose proof (zi_geom _ Hi) as Hg.
  pose proof (inv_counted _ _ _ Hi Ha) as Hc. pose proof (zi_zone _ Hi _ _ Ha) as Ho.
  pose proof (zg_32 _ Hg) as H32. pose proof (zone_lbas_u32 z Hg) as [HL _].
  pose proof (lba_zone_range z Hg slba Hsl) as Hzr. rewrite <- Hzid in Hzr.
  unfold __zmgmt_send_flush_explicit_zrwa. rewrite (lba_to_zone_eq z Hg) by (unfold U32_MAX in *; lia). cbn [mbind res_bind].
  rewrite <- Hzid, Ha. cbn [mbind res_bind]. rewrite (zone_to_slba_eq z Hg) by lia. cbn [mbind res_bind].
  pose proof (zo_start _ _ _ Ho) as Hst. pose proof (zo_cap _ _ _ Ho) as Hcap. pose proof (zo_wp _ _ _ Ho) as Hwp.
  rewrite Hcap. rewrite <- Hst.
  assert (zslba d + zone_lbas z ≤ U32_MAX) as Hend by nia.
  destruct (zd_zrwav d) eqn:Ez; cbn [negb]; [|by left].
  destruct (Z.leb_spec (wp d) slba) as [Hle|Hle]; cbn [andb negb]; [|by left].
  destruct (Z.leb_spec slba (Z.min (u64 (wp d + lbas_per_zrwa (zp z) - 1)) (u64 (zslba d + zone_lbas z - 1)))) as [He|He];
    cbn [negb]; [|by left].
  assert (slba < zslba d + zone_lbas z) as Hlt.
  { unfold U32_MAX in *. rewrite (u64_small (zslba d + _ - 1)) in He by (unfold U64_MAX; lia). lia. }
  assert (u64 (slba - wp d + 1) = slba - wp d + 1) as ->
    by (apply u64_small; unfold U32_MAX, U64_MAX in *; lia).
  assert (u64 (slba + 1) = slba + 1) as -> by (apply u64_small; unfold U32_MAX, U64_MAX in *; lia).
  rewrite (u64_small (zslba d + _)) by (unfold U32_MAX, U64_MAX in *; lia).
  destruct Hfg as [Hfg|]; [|done]. unfold checked_mod. rewrite (proj2 (Z.eqb_neq _ 0)) by done.
  cbn [mbind res_bind]. destruct (Z.eqb_spec ((slba - wp d + 1) mod lbas_per_zrwafg (zp z)) 0) as [Em|];
    cbn [negb]; [|by left].
  assert (forall st, zone_ok (zone_lbas z) zid (zd_with_state st (zd_with_wp (slba + 1) d)) \/ st = ZONE_STATE_EMPTY) as Hok.
  { intros st. destruct (decide (st = ZONE_STATE_EMPTY)); [by right | left].
    split; cbn; try done; try lia; intros; congruence. }
  assert (forall z1, zone_descs z1 = <[Z.to_nat zid := zd_with_wp (slba + 1) d]> (zone_descs z) ->
    zone_at z1 zid = Ok (zd_with_wp (slba + 1) d)) as Hat.
  { intros z1 E1. unfold zone_at. rewrite E1, aget_insert by (by eapply aget_range). by rewrite decide_True. }
  destruct (zd_state d) eqn:E; try (by left); rewrite (mod_zone_ok _ _ d) by exact Ha; cbn [mbind res_bind];
    (destruct (Z.eqb_spec (slba + 1) (zslba d + zone_lbas z)) as [Ee|Ee];
     [case_bool_decide; try done; unfold change_zone_state;
      rewrite (mod_zone_ok _ _ (zd_with_wp (slba + 1) d)) by (by apply Hat); cbn [mbind res_bind]|]);
    cbn [returns]; right; (split; [done|]); (split; [done|]);
    (split; [unfold is_active, is_open; by rewrite E|]).
  1,3,5: exists (zd_with_state ZONE_STATE_FULL (zd_with_wp (slba + 1) d)).
  4,5,6: exists (zd_with_wp (slba + 1) d).
  all: match goal with |- zstep ?z ?zid ?d ?d' ?z' /\ _ => assert (zstep z zid d d' z') as Hstep end.
  1,3,5: split; [split; cbn; eauto; fail | assumption | cbn; by rewrite list_insert_insert_eq | by intros [] | ..];
    count_solve Hc E; rewrite ?Ez in *; cbn in *; rewrite ?u32_small by (unfold U32_MAX; lia); lia.
  4,6,8: split; [split; cbn; eauto; fail | assumption | done | by intros [] | ..];
    count_solve Hc E; rewrite ?Ez in *; cbn in *; lia.
  all: split; [exact Hstep|]; split.
  all: try (eapply zstep_inv; [exact Hi | exact Hstep | |
    rewrite (zs_zrwa _ _ _ _ _ Hstep);
    count_solve Hc E; rewrite ?Ez in *; cbn in *; lia]).
  1,3,5: by destruct (Hok ZONE_STATE_FULL).
  4,6,8: by replace (zd_with_wp (slba + 1) d) with (zd_with_state (zd_state d) (zd_with_wp (slba + 1) d))
      by (rewrite E; by destruct d; cbn in *; subst); destruct (Hok (zd_state d)); congruence.
  all: cbn; rewrite ?E; case_decide; try done; auto.
Qed.

(** ** The initial device *)
Lemma init_zones_length n s l : length (init_zones n s l) = n.
Proof. revert s. induction n as [|n IH]; intros s; cbn; [done|]. by rewrite IH. Qed.

Lemma init_zones_at n s l i d :
  0 ≤ s -> 0 ≤ l -> s + Z.of_nat n * l ≤ U64_MAX -> aget (init_zones n s l) i = Ok d ->
  d = mk_zone ZONE_TYPE_SEQ_WRITE_REQUIRED ZONE_STATE_EMPTY false l (s + i * l) (s + i * l).
Proof.
  intros Hs Hl Hb [Hi Hn]%aget_Ok. revert s i Hs Hb Hi Hn. induction n as [|n IH]; intros s i Hs Hb Hi Hn; [done|].
  cbn [init_zones] in Hn. destruct (decide (i = 0)) as [->|].
  { cbn in Hn. injection Hn as <-. by rewrite Z.mul_0_l, Z.add_0_r. }
  rewrite (u64_small (s + l)) in Hn by nia.
  replace (Z.to_nat i) with (S (Z.to_nat (i - 1))) in Hn by lia. cbn in Hn.
  rewrite (IH (s + l) (i - 1)) by (done || nia). f_equal; lia.
Qed.

Lemma zcount_all_false {A} (f : A -> bool) (l : list A) :
  (forall i a, aget l i = Ok a -> f a = false) -> zcount f l = 0.
Proof.
  induction l as [|a l IH]; intros Hf; cbn; [done|].
  rewrite (Hf 0 a) by done. cbn. apply IH. intros i b Hb.
  apply (Hf (i + 1) b). apply aget_Ok in Hb as [Hi Hb]. apply aget_Ok. split; [lia|].
  by replace (Z.to_nat (i + 1)) with (S (Z.to_nat i)) by lia.
Qed.

(** A device of whole zones whose parameters fit the firmware's integers. *)
Record zns_params_ok (s : ssd) (zpp : znsparams) : Prop := {
  zk_ssd : ssd_wf s;
  zk_secsz : secsz (sp s) = 512;
  zk_secs : secs_per_pg (sp s) = 8;
  zk_size : zone_size zpp mod 4096 = 0;
  zk_pos : 0 < zone_size zpp;
  zk_zones : 0 < nr_zones zpp;
  zk_32 : nr_zones zpp * zone_size zpp ≤ U32_MAX * 512;
  zk_dies : 0 < dies_per_zone zpp ≤ U32_MAX;
  zk_dies_div : tt_luns (sp s) mod dies_per_zone zpp = 0;
  zk_unit : 0 < write_unit_size (sp s);
  zk_lat0 : 0 ≤ fw_wbuf_lat0 (sp s) < 2 ^ 31;
  zk_lat1 : 0 ≤ fw_wbuf_lat1 (sp s) < 2 ^ 31;
  zk_wb : 0 ≤ zone_wb_size zpp ≤ U32_MAX;
}.

Lemma zns_init_inv s zpp heap mapped :
  zns_params_ok s zpp ->
  zone_report_header + sizeof_zone_descriptor * (nr_zones zpp + 1) ≤ Z.of_nat (length heap) ->
  zns_inv (zns_init_ftl zpp s heap mapped).
Proof.
  intros Hk Hheap. pose proof (zk_pos _ _ Hk). pose proof (zk_zones _ _ Hk) as Hnz.
  assert (exists L, zone_size zpp = 512 * L /\ 0 < L /\ L mod 8 = 0) as (L & HL & HLp & HL8).
  { pose proof (Z.div_mod (zone_size zpp) 4096 ltac:(lia)) as Hd. rewrite (zk_size _ _ Hk) in Hd.
    exists (8 * (zone_size zpp / 4096)). split; [lia|]. split; [lia|].
    rewrite Z.mul_comm. apply Z.mod_mul. lia. }
  pose proof (zk_32 _ _ Hk) as H32. rewrite HL in H32.
  assert (nr_zones zpp * L ≤ U32_MAX) as HnL by (unfold U32_MAX in *; lia).
  assert (nr_zones zpp ≤ U32_MAX) as Hn32 by nia.
  set (z := zns_init_ftl zpp s heap mapped).
  assert (zone_lbas z = L) as Hlb.
  { unfold z, zone_lbas, zns_init_ftl. cbn. rewrite (zk_secsz _ _ Hk), HL, Z.mul_comm. by apply Z.div_mul. }
  assert (BYTE_TO_LBA (zone_size zpp) = L) as Hbl.
  { unfold BYTE_TO_LBA. rewrite Z.shiftr_div_pow2 by lia. rewrite HL, Z.mul_comm. by apply Z.div_mul. }
  assert (forall i d, zone_at z i = Ok d ->
    0 ≤ i < nr_zones zpp /\
    d = mk_zone ZONE_TYPE_SEQ_WRITE_REQUIRED ZONE_STATE_EMPTY false L (i * L) (i * L)) as Hat.
  { intros i d Hd. unfold zone_at, z, zns_init_ftl in Hd. cbn in Hd.
    pose proof (aget_range _ _ _ Hd) as Hr. rewrite init_zones_length in Hr.
    apply init_zones_at in Hd; [| lia | lia | rewrite Hbl; unfold U32_MAX, U64_MAX in *; lia].
    rewrite Hbl in Hd. split; [lia | done]. }
  assert (forall f, (forall i, f (mk_zone ZONE_TYPE_SEQ_WRITE_REQUIRED ZONE_STATE_EMPTY false L i i) = false) ->
    zcount f (zone_descs z) = 0) as Hcnt.
  { intros f Hf. apply zcount_all_false. intros i a Ha. destruct (Hat i a Ha) as [_ ->]. apply Hf. }
  split; rewrite ?Hlb.
  - split; rewrite ?Hlb; cbn; try done; try apply Hk.
  - cbn. rewrite init_zones_length. lia.
  - intros i d Hd. destruct (Hat i d Hd) as [Hr ->]. split; cbn; try done; nia.
  - by intros [].
  - cbn. symmetry. by apply Hcnt.
  - cbn. symmetry. by apply Hcnt.
  - rewrite Hcnt by done. cbn. lia.
  - change (report_buffer z) with
      (take (Z.to_nat (zone_report_header + sizeof_zone_descriptor * (nr_zones zpp + 1))) heap).
    change (zp z) with zpp. rewrite length_take. unfold zone_report_header, sizeof_zone_descriptor in *. lia.
  - cbn. intros Hne. rewrite (proj2 (Z.eqb_neq _ _)) by done. eexists. split; [done|].
    apply arr_replicate; [lia|]. split; cbn; pose proof (zk_wb _ _ Hk); lia.
  - cbn. intros Hne. rewrite (proj2 (Z.eqb_neq _ _)) by done. eexists. split; [done|].
    rewrite length_replicate. lia.
Qed.
