(* ===== verification/ZnsProps.v ===== *)
(** * Properties of the zoned command set

    The write path against its specification, appends, resets, zone
    management, reports; and what ZRWA does on a device without it. *)
From S2P Require Import Prelude Nvme SsdConfig ChannelModel Ssd Prp ZnsFtl ZnsIo ZnsInv.

(** ** Writing in a zone *)

(** What the specification asks of a write of [nr] blocks at [slba] to the
    zone [d], and the status of the one that fails. *)
Definition write_status (z : zns_ftl) (d : zone_descriptor) (slba nr : Z) : Z :=
  if negb (LBA_TO_BYTE nr mod write_unit_size (sp (zn_ssd z)) =? 0) then NVME_SC_ZNS_INVALID_WRITE
  else if negb (slba / zone_lbas z =? (slba + nr - 1) / zone_lbas z) then NVME_SC_ZNS_ERR_BOUNDARY
  else if negb (slba =? wp d) then NVME_SC_ZNS_INVALID_WRITE
  else match zd_state d with
       | ZONE_STATE_FULL => NVME_SC_ZNS_ERR_FULL
       | ZONE_STATE_READ_ONLY => NVME_SC_ZNS_ERR_READ_ONLY
       | ZONE_STATE_OFFLINE => NVME_SC_ZNS_ERR_OFFLINE
       | _ => NVME_SC_SUCCESS
       end.

(** The state of a zone after a write that ended at [w]. *)
Definition written_state (z : zns_ftl) (d : zone_descriptor) (w : Z) : zone_state :=
  if decide (w = zslba d + zone_lbas z) then ZONE_STATE_FULL
  else match zd_state d with
       | ZONE_STATE_EMPTY | ZONE_STATE_CLOSED => ZONE_STATE_OPENED_IMPL
       | st => st
       end.

(** The zones after a write: [nr] blocks further, or as they were. *)
Definition written (z : zns_ftl) (zid slba nr : Z) (d : zone_descriptor) (z' : zns_ftl) (st : Z) : Prop :=
  st = write_status z d slba nr /\ zns_inv z' /\ zns_frame z z' /\
  (st = NVME_SC_SUCCESS ->
     wp d + nr ≤ zslba d + zone_lbas z /\
     exists d', zstep z zid d d' z' /\ wp d' = wp d + nr /\ zd_zrwav d' = false /\
       zd_state d' = written_state z d (wp d + nr)) /\
  (st <> NVME_SC_SUCCESS -> z' = z).

(** A zone the write may go on in: implicitly or explicitly open. *)
Record opened (z : zns_ftl) (zid : Z) (d : zone_descriptor) (z1 : zns_ftl) (d1 : zone_descriptor) : Prop := {
  od_step : zstep z zid d d1 z1;
  od_inv : zns_inv z1;
  od_wp : wp d1 = wp d;
  od_start : zslba d1 = zslba d;
  od_zrwav : zd_zrwav d1 = false;
  od_open : is_open d1 = true;
  od_state : zd_state d1 = match zd_state d with
    | ZONE_STATE_EMPTY | ZONE_STATE_CLOSED => ZONE_STATE_OPENED_IMPL | st => st end;
}.

Lemma lba_bytes nr : 0 ≤ nr ≤ 65536 -> LBA_TO_BYTE nr = nr * 512.
Proof.
  intros. unfold LBA_TO_BYTE. rewrite Z.shiftl_mul_pow2 by lia. apply u64_small. unfold U64_MAX. lia.
Qed.

Section Write.
Context (z : zns_ftl) (zid : Z) (d : zone_descriptor).
Context (Hi : zns_inv z) (Ha : zone_at z zid = Ok d) (Hzr : zd_zrwav d = false).

Lemma open_for_write_ok :
  zd_state d = ZONE_STATE_EMPTY \/ zd_state d = ZONE_STATE_CLOSED ->
  exists z1 d1, opened z zid d z1 d1 /\
    open_for_write (if bool_decide (zd_state d = ZONE_STATE_EMPTY)
                    then (acquire_zone_resource z ACTIVE_ZONE).1 else z) zid = Ok (z1, NVME_SC_SUCCESS).
Proof.
  intros Hst. pose proof (inv_counted _ _ _ Hi Ha) as Hc. pose proof (zi_zone _ Hi _ _ Ha) as Ho.
  set (d1 := zd_with_state ZONE_STATE_OPENED_IMPL d).
  assert (zone_ok (zone_lbas z) zid d1) as Ho1.
  { pose proof (zo_empty _ _ _ Ho) as Hemp. pose proof (zg_pos _ (zi_geom _ Hi)).
    unfold d1. destruct Hst as [E | E]; [destruct (Hemp E)|]; clear Hemp; zone_ok_solve Ho E. }
  assert (acquired_cnt (res_open z) < total_cnt (res_open z)) as Hno.
  { destruct Hc, Hst as [E | E]; unfold is_open in *; rewrite E in *; cbn in *; lia. }
  assert (zd_state d = ZONE_STATE_EMPTY -> acquired_cnt (res_active z) < total_cnt (res_active z)) as Hna.
  { intros E. destruct Hc; unfold is_active, is_open in *; rewrite E in *; cbn in *; lia. }
  unfold open_for_write, acquire_zone_resource, is_zone_resource_avail. cbn [get_res].
  destruct Hst as [E | E]; rewrite E.
  - rewrite bool_decide_true by done. specialize (Hna E).
    rewrite (proj2 (Z.ltb_lt (acquired_cnt (res_active z)) _)) by done. cbn [fst get_res set_res res_open].
    rewrite (proj2 (Z.ltb_lt (acquired_cnt (res_open z)) _)) by done. cbn [negb].
    unfold change_zone_state. rewrite (mod_zone_ok _ _ d) by exact Ha. cbn [mbind res_bind].
    eexists _, d1. split; [|done]. 
    match goal with |- opened _ _ _ ?z1 _ => assert (zstep z zid d d1 z1) as Hs by (unfold d1; zstep_solve Hc E; rewrite ?Hzr in *; cbn in *; lia) end.
    split; try done; [|by unfold d1; cbn; rewrite E].
    eapply zstep_inv; [exact Hi | exact Hs | done |]. cbn. destruct Hc; lia.
  - rewrite bool_decide_false by done.
    rewrite (proj2 (Z.ltb_lt (acquired_cnt (res_open z)) _)) by done. cbn [negb].
    unfold change_zone_state. rewrite (mod_zone_ok _ _ d) by exact Ha. cbn [mbind res_bind].
    eexists _, d1. split; [|done].
    match goal with |- opened _ _ _ ?z1 _ => assert (zstep z zid d d1 z1) as Hs by (unfold d1; zstep_solve Hc E) end.
    split; try done; [|by unfold d1; cbn; rewrite E].
    eapply zstep_inv; [exact Hi | exact Hs | done |]. cbn. destruct Hc; lia.
Qed.
End Write.

(** The write pointer moves; at the end of the zone the zone is full and its
    resources are free again. *)
Lemma increase_write_ptr_ok z zid d nr :
  zns_inv z -> zone_at z zid = Ok d -> zd_zrwav d = false -> is_open d = true ->
  0 ≤ nr ≤ 65536 -> wp d + nr ≤ zslba d + zone_lbas z ->
  exists z' d', __increase_write_ptr z zid nr = Ok z' /\ zstep z zid d d' z' /\ zns_inv z' /\
    wp d' = wp d + nr /\ zd_zrwav d' = false /\
    zd_state d' = if decide (wp d + nr = zslba d + zone_lbas z) then ZONE_STATE_FULL else zd_state d.
Proof.
  intros Hi Ha Hz Hop Hnr Hend. pose proof (zi_geom _ Hi) as Hg.
  pose proof (inv_counted _ _ _ Hi Ha) as Hc. pose proof (zi_zone _ Hi _ _ Ha) as Ho.
  pose proof (zone_lbas_u32 z Hg) as [HL _]. pose proof (zg_32 z Hg).
  assert (0 ≤ zid < nr_zones (zp z)) as Hzid by (rewrite <- (zi_len _ Hi); by eapply aget_range).
  pose proof (zo_start _ _ _ Ho) as Hst. pose proof (zo_cap _ _ _ Ho) as Hcap. pose proof (zo_wp _ _ _ Ho) as Hwp.
  assert (zslba d + zone_lbas z ≤ U32_MAX) as He by nia.
  unfold __increase_write_ptr. rewrite Ha. cbn [mbind res_bind].
  rewrite (zone_to_slba_eq z Hg) by lia. cbn [mbind res_bind].
  rewrite (mod_zone_ok _ _ d) by exact Ha. cbn [mbind res_bind]. rewrite Hcap, <- Hst.
  rewrite (u32_small nr) by (unfold U32_MAX; lia).
  rewrite (u64_small (wp d + nr)) by (unfold U32_MAX, U64_MAX in *; lia).
  rewrite (u64_small (zslba d + _)) by (unfold U32_MAX, U64_MAX in *; lia).
  set (dw := zd_with_wp (wp d + nr) d).
  destruct (Z.eqb_spec (wp d + nr) (zslba d + zone_lbas z)) as [E|E].
  - set (d' := zd_with_state ZONE_STATE_FULL dw).
    unfold change_zone_state. rewrite (mod_zone_ok _ _ dw).
    2:{ unfold zone_at. cbn. rewrite aget_insert by (by eapply aget_range). by rewrite decide_True. }
    eexists _, d'. split; [done|]. rewrite decide_True by done.
    match goal with |- zstep _ _ _ _ ?z1 /\ _ => assert (zstep z zid d d' z1) as Hs end.
    { split; [split; cbn; eauto; fail | assumption | cbn; by rewrite list_insert_insert_eq | by intros [] | ..];
        cbn; destruct Hc; unfold is_zrwa, is_active in *; rewrite ?Hop, ?Hz in *; cbn in *;
        unfold U32_MAX in *; rewrite ?u32_small by (unfold U32_MAX; lia); lia. }
    split; [exact Hs|]. split; [|done]. eapply zstep_inv; [exact Hi | exact Hs | |].
    + split; cbn; try done; lia.
    + cbn. destruct Hc; lia.
  - eexists _, dw. split; [done|]. rewrite decide_False by done.
    match goal with |- zstep _ _ _ _ ?z1 /\ _ => assert (zstep z zid d dw z1) as Hs end.
    { split; [split; cbn; eauto; fail | assumption | done | by intros [] | ..];
        cbn; unfold is_zrwa, is_active, is_open; cbn; lia. }
    split; [exact Hs|]. split; [|done]. eapply zstep_inv; [exact Hi | exact Hs | |].
    + unfold is_open in Hop. split; cbn; try done; try lia. intros Hemp. rewrite Hemp in Hop. done.
    + cbn. destruct Hc; lia.
Qed.

(** The zone part of a write is the specification's. *)
Lemma write_zone_ok z zid d slba nr :
  zns_inv z -> zone_at z zid = Ok d -> zd_zrwav d = false -> 0 ≤ slba ≤ U32_MAX -> 0 < nr ≤ 65536 ->
  returns (zns_write_zone z zid slba nr (zd_state d)) (fun '(z', st) => written z zid slba nr d z' st).
Proof.
  intros Hi Ha Hz Hsl Hnr. pose proof (zi_geom _ Hi) as Hg. pose proof (zi_zone _ Hi _ _ Ha) as Ho.
  pose proof (zone_lbas_ge z Hg) as HL8.
  unfold zns_write_zone, checked_mod. pose proof (zg_unit z Hg) as Hu.
  rewrite (proj2 (Z.eqb_neq _ 0)) by lia. cbn [mbind res_bind].
  assert (forall st, st = write_status z d slba nr -> st <> NVME_SC_SUCCESS ->
    written z zid slba nr d z st) as Hrej.
  { intros st -> Hne. split; [done|]. split; [done|]. split; [apply frame_refl|]. by split. }
  destruct (Z.eqb_spec (LBA_TO_BYTE nr mod write_unit_size (sp (zn_ssd z))) 0) as [Eu|Eu]; cbn [negb].
  2:{ apply Hrej; [|done]. unfold write_status. by rewrite (proj2 (Z.eqb_neq _ 0)). }
  unfold __check_boundary_error. unfold U32_MAX in *.
  rewrite !(u64_small (slba + nr)), !(u64_small (slba + nr - 1)) by (unfold U64_MAX; lia).
  rewrite !(lba_to_zone_eq z Hg) by lia. cbn [mbind res_bind].
  destruct (Z.eqb_spec (slba / zone_lbas z) ((slba + nr - 1) / zone_lbas z)) as [Eb|Eb]; cbn [negb].
  2:{ apply Hrej; [|done]. unfold write_status. rewrite Eu. cbn. by rewrite (proj2 (Z.eqb_neq _ _)). }
  rewrite Ha. cbn [mbind res_bind]. destruct (Z.eqb_spec slba (wp d)) as [Ew|Ew]; cbn [negb].
  2:{ apply Hrej; [|done]. unfold write_status. rewrite Eu. cbn. rewrite (proj2 (Z.eqb_eq _ _) Eb). cbn.
      by rewrite (proj2 (Z.eqb_neq _ _)). }
  assert (write_status z d slba nr = match zd_state d with
       | ZONE_STATE_FULL => NVME_SC_ZNS_ERR_FULL
       | ZONE_STATE_READ_ONLY => NVME_SC_ZNS_ERR_READ_ONLY
       | ZONE_STATE_OFFLINE => NVME_SC_ZNS_ERR_OFFLINE
       | _ => NVME_SC_SUCCESS end) as Hws.
  { unfold write_status. rewrite Eu. cbn. rewrite (proj2 (Z.eqb_eq _ _) Eb). cbn.
    by rewrite (proj2 (Z.eqb_eq _ _) Ew). }
  assert (wp d < zslba d + zone_lbas z -> wp d + nr ≤ zslba d + zone_lbas z) as Hroom.
  { intros Hlt. pose proof (zo_start _ _ _ Ho) as Hst. pose proof (zo_wp _ _ _ Ho).
    rewrite Ew in Eb. rewrite (lba_in_zone z (wp d) zid) in Eb by nia.
    pose proof (Z.mul_div_le (wp d + nr - 1) (zone_lbas z) ltac:(lia)).
    pose proof (Z.mul_succ_div_gt (wp d + nr - 1) (zone_lbas z) ltac:(lia)). nia. }
  assert (forall z1 d1, opened z zid d z1 d1 -> wp d < zslba d + zone_lbas z ->
    write_status z d slba nr = NVME_SC_SUCCESS ->
    returns (z2 ← __increase_write_ptr z1 zid nr; Ok (z2, NVME_SC_SUCCESS))
      (fun '(z', st) => written z zid slba nr d z' st)) as Hgo.
  { intros z1 d1 Ho1 Hlt Hst. pose proof (zs_frame _ _ _ _ _ (od_step _ _ _ _ _ Ho1)) as Hf.
    destruct (increase_write_ptr_ok z1 zid d1 nr) as (z' & d' & -> & Hs & Hi' & Hw & Hzv & Hst').
    - apply Ho1.
    - rewrite (zstep_at _ _ _ _ _ _ (od_step _ _ _ _ _ Ho1)). by rewrite decide_True.
    - apply Ho1.
    - apply Ho1.
    - lia.
    - rewrite (od_wp _ _ _ _ _ Ho1), (od_start _ _ _ _ _ Ho1), (frame_lbas _ _ Hf). by apply Hroom.
    - cbn. split; [done|]. split; [done|].
      split; [eapply frame_trans; [exact Hf | apply Hs]|]. split; [|done]. intros _.
      split; [by apply Hroom|]. exists d'. split; [eapply zstep_trans; [apply Ho1 | exact Hs]|].
      rewrite Hw, Hst', (od_wp _ _ _ _ _ Ho1), (od_start _ _ _ _ _ Ho1), (frame_lbas _ _ Hf).
      split; [done|]. split; [done|]. unfold written_state.
      destruct (Z.eq_dec (wp d + nr) (zslba d + zone_lbas z)) as [Eq|Ne].
      + by rewrite !decide_True by done.
      + rewrite !decide_False by done. apply (od_state _ _ _ _ _ Ho1). }
  pose proof (zg_pos z Hg) as HL0. pose proof (inv_counted _ _ _ Hi Ha) as Hc.
  pose proof (open_for_write_ok z zid d Hi Ha Hz) as Hof.
  destruct (zd_state d) eqn:E; cbn [write_zone_state mbind res_bind]; try (by apply Hrej).
  - destruct (zo_empty _ _ _ Ho E) as [Hw0 _]. rewrite Ha. cbn [mbind res_bind].
    rewrite (proj2 (Z.eqb_eq slba (zslba d))) by lia. cbn [negb].
    unfold is_zone_resource_full. cbn [get_res].
    assert (acquired_cnt (res_active z) <> total_cnt (res_active z) /\
            acquired_cnt (res_open z) <> total_cnt (res_open z)) as [Hna Hno].
    { destruct Hc. unfold is_active, is_open in *. rewrite E in *. cbn in *. lia. }
    rewrite (proj2 (Z.eqb_neq (acquired_cnt (res_active z)) _)) by done.
    rewrite (proj2 (Z.eqb_neq (acquired_cnt (res_open z)) _)) by done.
    destruct Hof as (z1 & d1 & Ho1 & He); [by left|]. rewrite bool_decide_true in He by done. rewrite He.
    cbn [mbind res_bind]. change (negb (NVME_SC_SUCCESS =? NVME_SC_SUCCESS)) with false.
    apply (Hgo z1 d1 Ho1); [lia | done].
  - apply (Hgo z d); [| | done]; [|apply (zo_room _ _ _ Ho); [unfold is_active, is_open; by rewrite E | done]].
    split; try done; [by apply zstep_same | unfold is_open; by rewrite E | by rewrite E].
  - apply (Hgo z d); [| | done]; [|apply (zo_room _ _ _ Ho); [unfold is_active, is_open; by rewrite E | done]].
    split; try done; [by apply zstep_same | unfold is_open; by rewrite E | by rewrite E].
  - destruct Hof as (z1 & d1 & Ho1 & He); [by right|]. rewrite bool_decide_false in He by done. rewrite He.
    cbn [mbind res_bind]. change (negb (NVME_SC_SUCCESS =? NVME_SC_SUCCESS)) with false.
    apply (Hgo z1 d1 Ho1); [|done]. apply (zo_room _ _ _ Ho); [unfold is_active, is_open; by rewrite E | done].
Qed.

(** ** Timing on a zoned device *)

(** Only the NAND times change. *)
Definition ssd_only (z z' : zns_ftl) : Prop :=
  z' = zn_with_ssd z (zn_ssd z') /\ timed (zn_ssd z) (zn_ssd z').

Lemma ssd_only_refl z : zns_geom z -> ssd_only z z.
Proof. intros Hg. split; [by destruct z | apply timed_refl, (zg_ssd z Hg)]. Qed.

Lemma ssd_only_trans z1 z2 z3 : ssd_only z1 z2 -> ssd_only z2 z3 -> ssd_only z1 z3.
Proof.
  intros [E1 T1] [E2 T2]. split; [rewrite E2, E1; done | by eapply timed_trans].
Qed.

Lemma ssd_only_geom z z' : ssd_only z z' -> zns_geom z -> zns_geom z'.
Proof.
  intros [E [Hsp Hwf _]] []. rewrite E. split; unfold zone_lbas in *; cbn; rewrite ?Hsp; try done.
Qed.

Lemma ssd_only_inv z z' : ssd_only z z' -> zns_inv z -> zns_inv z'.
Proof.
  intros Hs Hi. split; [eapply ssd_only_geom; [exact Hs | apply Hi] | ..];
    destruct Hs as [E [Hsp _ _]]; rewrite E; [apply Hi | | intros ty; destruct ty; [apply (zi_total _ Hi ACTIVE_ZONE) | apply (zi_total _ Hi OPEN_ZONE) |
      apply (zi_total _ Hi ZRWA_ZONE)] | apply Hi..].
  intros i d. unfold zone_lbas. cbn. rewrite Hsp. apply (zi_zone _ Hi).
Qed.

Lemma with_wb_inv z wb :
  zns_inv z -> (zone_wb_size (zp z) <> 0 -> exists l, wb = Some l /\ arr (nr_zones (zp z)) buffer_wf l) ->
  zns_inv (zn_with_wb z wb).
Proof.
  intros Hi Hwb. split; [destruct (zi_geom _ Hi); by split | apply Hi | apply (zi_zone _ Hi) |
    intros ty; destruct ty; [apply (zi_total _ Hi ACTIVE_ZONE) | apply (zi_total _ Hi OPEN_ZONE) |
      apply (zi_total _ Hi ZRWA_ZONE)] | apply Hi | apply Hi | apply Hi | apply Hi | done | apply Hi].
Qed.

Lemma mod_sum_lt a n d t : 0 ≤ a -> 0 < d -> 0 < t -> t mod d = 0 -> 0 ≤ n ->
  0 ≤ (n * d) mod t + a mod d < t.
Proof.
  intros Ha Hd Ht Hm Hn. pose proof (Z.mod_pos_bound a d Hd).
  apply Z.mod_divide in Hm as [k Hk]; [|lia]. subst t.
  assert (0 < k) by nia. rewrite Z.mul_mod_distr_r by lia.
  pose proof (Z.mod_pos_bound n k). nia.
Qed.

Lemma lpn_to_ppa_ok z lpn :
  zns_geom z -> 0 ≤ lpn ->
  returns (__lpn_to_ppa z lpn) (fun p =>
    ppa_in (sp (zn_ssd z)) p /\ g_pg p < pgs_per_oneshotpg (sp (zn_ssd z))).
Proof.
  intros Hg Hl. pose proof (sw_params _ (zg_ssd z Hg)) as Hp. set (spp := sp (zn_ssd z)) in *.
  pose proof (zone_lbas_ge z Hg) as HL. pose proof (zg_align z Hg) as Hal.
  assert (0 < zone_size (zp z) / 4096) as HP.
  { rewrite (zg_size z Hg). apply Z.div_str_pos. lia. }
  unfold __lpn_to_ppa, lpn_to_zone, zone_to_slpn. fold spp. rewrite (po_pgsz spp Hp).
  unfold checked_div, checked_mod. change (4096 =? 0) with false. cbn [mbind res_bind].
  rewrite (proj2 (Z.eqb_neq (zone_size (zp z) / 4096) 0)) by lia. cbn [mbind res_bind].
  set (zone := u32 (lpn / (zone_size (zp z) / 4096))).
  pose proof (u32_range (lpn / (zone_size (zp z) / 4096))) as Hzr. fold zone in Hzr.
  set (off := u64 (lpn - _)). assert (0 ≤ off) as Hoff by apply u64_range.
  pose proof (po_luns _ Hp). pose proof (po_chs _ Hp). pose proof (po_tt_luns _ Hp) as Htt.
  pose proof (po_oneshot _ Hp). pose proof (po_pgs _ Hp).
  assert (0 < tt_luns spp ≤ 255 * 255) as Htl by nia.
  rewrite (proj2 (Z.eqb_neq (tt_luns spp) 0)) by lia. cbn [mbind res_bind].
  rewrite (proj2 (Z.eqb_neq (pgs_per_oneshotpg spp) 0)) by lia. cbn [mbind res_bind].
  pose proof (zg_dies z Hg) as Hd. rewrite (proj2 (Z.eqb_neq (dies_per_zone (zp z)) 0)) by lia.
  cbn [mbind res_bind].
  rewrite (u64_small (zone * _)) by (unfold U32_MAX, U64_MAX in *; nia).
  pose proof (mod_sum_lt (off / pgs_per_oneshotpg spp) zone (dies_per_zone (zp z)) (tt_luns spp)) as Hdie.
  assert (0 ≤ off / pgs_per_oneshotpg spp) by (apply Z.div_pos; lia).
  specialize (Hdie ltac:(done) ltac:(lia) ltac:(lia) (zg_dies_div z Hg) ltac:(lia)).
  set (q := (off / pgs_per_oneshotpg spp) mod dies_per_zone (zp z)) in *.
  pose proof (Z.mod_pos_bound (off / pgs_per_oneshotpg spp) (dies_per_zone (zp z)) ltac:(lia)) as Hq. fold q in Hq.
  pose proof (Z.mod_pos_bound (zone * dies_per_zone (zp z)) (tt_luns spp) ltac:(lia)) as Hsd.
  set (sdie := (zone * dies_per_zone (zp z)) mod tt_luns spp) in *.
  rewrite (u32_small sdie) by (unfold U32_MAX; lia). rewrite (u32_small (sdie + q)) by (unfold U32_MAX; lia).
  unfold die_to_channel, die_to_lun, checked_mod, checked_div. fold spp.
  rewrite !(proj2 (Z.eqb_neq (nchs spp) 0)) by lia. cbn [mbind res_bind returns].
  pose proof (Z.mod_pos_bound (sdie + q) (nchs spp) ltac:(lia)).
  pose proof (Z.mod_pos_bound off (pgs_per_oneshotpg spp) ltac:(lia)).
  assert (0 ≤ (sdie + q) / nchs spp < luns_per_ch spp) as Hlun.
  { split; [apply Z.div_pos; lia | apply Z.div_lt_upper_bound; lia]. }
  assert (pgs_per_oneshotpg spp ≤ pgs_per_blk spp) as Hop.
  { apply oneshot_le_blk, Hp. }
  pose proof (po_pls _ Hp). pose proof (po_blks _ Hp).
  unfold ppa_in. cbn [g_pg g_blk g_pl g_lun g_ch]. rewrite (u16_small (off mod _)) by lia.
  rewrite (u8_small ((sdie + q) / _)) by lia. rewrite (u8_small (_ mod _)) by lia. lia.
Qed.

Section DataPath.
Variable cpu_clock : nat -> Z.
Hypothesis clock_ok : forall n, 0 ≤ cpu_clock n < 2 ^ 62.

(** Worlds that may differ in the clock, the link and the scheduled
    operations, which only grow. *)
Definition world_grows (w w' : world) : Prop :=
  w_write_buffer w' = w_write_buffer w /\ exists l, w_ops w' = w_ops w ++ l.

Lemma world_grows_refl w : world_grows w w.
Proof. split; [done|]. exists []. by rewrite app_nil_r. Qed.
Lemma world_grows_trans w1 w2 w3 : world_grows w1 w2 -> world_grows w2 w3 -> world_grows w1 w3.
Proof.
  intros [E1 [l1 H1]] [E2 [l2 H2]]. split; [congruence|]. exists (l1 ++ l2).
  by rewrite H2, H1, app_assoc.
Qed.
Lemma same_bufs_grows w w' : same_bufs w w' -> world_grows w w'.
Proof. intros [E1 E2]. split; [done|]. exists []. by rewrite app_nil_r. Qed.

Lemma zns_advance_nand_ok z ncmd w :
  zns_geom z -> world_ok w -> ppa_in (sp (zn_ssd z)) (nc_ppa ncmd) ->
  0 ≤ nc_stime ncmd ≤ U64_MAX -> 0 ≤ nc_xfer_size ncmd ->
  (nc_cmd ncmd = NAND_READ -> 0 < nc_xfer_size ncmd) ->
  Prelude.wp (zns_advance_nand cpu_clock z ncmd) (fun '(z', t) w' =>
    ssd_only z z' /\ world_ok w' /\ world_grows w w' /\ 0 ≤ t ≤ U64_MAX) w.
Proof.
  intros Hg Hw Hin Hst Hx Hr. unfold zns_advance_nand. apply wp_bind.
  eapply wp_mono; [by apply (ssd_advance_nand_ok cpu_clock clock_ok); try done; apply (zg_ssd z Hg)|].
  intros [s t] w' (Ht & Hw' & Hb & Hb' & _). apply wp_ret.
  split; [by split|]. split; [done|]. split; [by apply same_bufs_grows | done].
Qed.

(** The write loop ends: every turn moves at least one page. *)
Lemma zns_write_loop_ok sqid wb elpn zone_elpn stime fuel z lpn latest w :
  zns_geom z -> world_ok w -> 0 ≤ lpn -> elpn - lpn + 1 ≤ Z.of_nat fuel ->
  0 ≤ stime ≤ U64_MAX -> 0 ≤ latest ≤ U64_MAX ->
  Prelude.wp (zns_write_loop cpu_clock fuel z sqid wb lpn elpn zone_elpn stime latest) (fun '(z', t) w' =>
    ssd_only z z' /\ world_ok w' /\ world_grows w w' /\ latest ≤ t ≤ U64_MAX) w.
Proof.
  revert z lpn latest w. induction fuel as [|fuel IH]; intros z lpn latest w Hg Hw Hl Hf Hst Hla;
    cbn [zns_write_loop]; (destruct (Z.ltb_spec elpn lpn) as [Hlt|Hge];
      [apply wp_ret; split; [by apply ssd_only_refl|]; split; [done|]; split; [apply world_grows_refl | lia]|]).
  { lia. }
  pose proof (sw_params _ (zg_ssd z Hg)) as Hp. pose proof (po_oneshot _ Hp) as Hos.
  apply wp_lift_bind. eapply returns_mono; [by apply lpn_to_ppa_ok|]. intros p [Hin Hpg].
  pose proof (oneshot_le_blk _ Hp). pose proof (po_pgs _ Hp).
  apply wp_lift_bind, returns_checked_mod; [lia|].
  assert (0 ≤ g_pg p) by apply Hin. rewrite (Z.mod_small (g_pg p)) by lia.
  rewrite u64_small by (unfold U64_MAX; lia).
  set (pgs := Z.min _ _). assert (1 ≤ pgs) as Hpgs by (unfold pgs; lia).
  apply wp_bind. apply (wp_mono _ (fun '(z1, t1) w1 =>
    ssd_only z z1 /\ world_ok w1 /\ world_grows w w1 /\ latest ≤ t1 ≤ U64_MAX)).
  - destruct (_ || _); [|apply wp_ret; split; [by apply ssd_only_refl|]; split; [done|];
      split; [apply world_grows_refl | lia]].
    assert (0 < oneshot_bytes (sp (zn_ssd z))) as Hob.
    { unfold oneshot_bytes. rewrite (po_pgsz _ Hp), i32_small by lia. lia. }
    apply wp_lift_bind, returns_checked_mod; [lia|]. apply wp_bind.
    eapply wp_mono; [apply zns_advance_nand_ok; try done; [apply u64_range]|].
    intros [z1 t1] w1 (Hs & Hw1 & Hg1 & Ht1). apply wp_bind. unfold schedule_internal_operation.
    apply wp_modify, wp_ret. split; [done|]. split; [done|]. split; [|lia].
    eapply world_grows_trans; [exact Hg1|]. split; [done|]. by eexists.
  - intros [z1 t1] w1 (Hs & Hw1 & Hg1 & Ht1).
    eapply wp_mono; [apply IH; try done; [by eapply ssd_only_geom | lia..]|].
    intros [z2 t2] w2 (Hs2 & Hw2 & Hg2 & Ht2). split; [by eapply ssd_only_trans|].
    split; [done|]. split; [by eapply world_grows_trans | lia].
Qed.

(** The buffer the write goes through has room for [size] bytes when empty. *)
Definition buffer_fits (z : zns_ftl) (w : world) (size : Z) : Prop :=
  if decide (zone_wb_size (zp z) = 0) then buffer_wf (w_write_buffer w) /\ size ≤ buf_size (w_write_buffer w)
  else forall l b i, zone_write_buffer z = Some l -> aget l i = Ok b -> size ≤ buf_size b.

(** The free bytes of the buffer a write to the zone goes through. *)
Definition buffer_left (z : zns_ftl) (zid : Z) (w : world) : Z :=
  if decide (zone_wb_size (zp z) = 0) then buf_remaining (w_write_buffer w)
  else match zone_write_buffer z with
       | Some l => match aget l zid with Ok b => buf_remaining b | Bug _ => 0 end
       | None => 0
       end.

Lemma buffer_left_same z z' zid w w' : zp z' = zp z -> zone_write_buffer z' = zone_write_buffer z ->
  w_write_buffer w' = w_write_buffer w -> buffer_left z' zid w' = buffer_left z zid w.
Proof. unfold buffer_left. by intros -> -> ->. Qed.

(** The same device but for the zone write buffers. *)
Definition wb_only (z z' : zns_ftl) : Prop := z' = zn_with_wb z (zone_write_buffer z').

Lemma zns_buffer_allocate_ok z zid size w :
  zns_inv z -> 0 ≤ zid < nr_zones (zp z) -> 0 ≤ size -> buffer_fits z w size -> world_ok w ->
  Prelude.wp (zns_buffer_allocate z zid size) (fun '(z', n) w' =>
    zns_inv z' /\ wb_only z z' /\ n = (if decide (size ≤ buffer_left z zid w) then size else 0) /\ world_ok w' /\
    w_ops w' = w_ops w /\ buffer_left z' zid w' = buffer_left z zid w - n) w.
Proof.
  intros Hi Hz Hs Hfit Hw. unfold zns_buffer_allocate, zone_buffer, buffer_fits, buffer_left in *.
  destruct (decide (zone_wb_size (zp z) = 0)) as [E|E].
  - rewrite E. cbn [Z.eqb negb]. destruct Hfit as [Hbw Hsz]. unfold wb_allocate.
    apply wp_bind, wp_bind, wp_gets, wp_lift_bind.
    eapply returns_mono; [by apply buffer_allocate_ok|].
    intros [b n] (_ & _ & Hb & Hn). apply wp_bind, wp_modify, wp_ret, wp_ret.
    split; [done|]. split; [by destruct z|]. split; [exact Hn|]. split; [done|]. split; [done|]. by rewrite decide_True.
  - rewrite (proj2 (Z.eqb_neq _ 0)) by done. cbn [negb].
    destruct (zi_wbuf _ Hi E) as (l & Hl & Harr). rewrite Hl. apply wp_lift_bind. cbn [returns deref].
    destruct (arr_get _ _ _ _ Harr Hz) as (b & Hb & Hbw). wp_ok Hb. apply wp_lift_bind.
    eapply returns_mono; [apply buffer_allocate_ok; [done | split; [done | by eapply Hfit]]|].
    intros [b' n] (Hbw' & _ & Hb' & Hn). apply wp_lift_bind, returns_aset; [destruct Harr; lia|].
    apply wp_ret. split.
    + apply with_wb_inv; [done|]. intros _. eexists. split; [done|]. by apply arr_set.
    + rewrite Hb. split; [done|]. split; [exact Hn|]. split; [done|]. split; [done|]. cbn. rewrite decide_False by done.
      rewrite aget_insert by (destruct Harr; lia). by rewrite decide_True.
Qed.

(** The first block of a command: an append is sent to the write pointer. *)
Definition target_slba (d : zone_descriptor) (req : nvmev_request) : Z :=
  if opcode (cmd req) =? nvme_cmd_zone_append then wp d else rw_slba (cmd req).

(** A write or an append, as the host sees it.  [z'] is the device after
    it; the zones are changed only by a write that succeeds.  [ok = false] asks
    the dispatcher to offer the command again; the buffer is charged by every
    other outcome, an error included. *)
Definition write_done (z : zns_ftl) (zid : Z) (d : zone_descriptor) (req : nvmev_request)
  (w : world) (z' : zns_ftl) (req' : nvmev_request) (ok : bool) (ret ret' : nvmev_result) (w' : world) : Prop :=
  let slba := target_slba d req in
  let nr := rw_length (cmd req) + 1 in
  let st := write_status z d slba nr in
  zns_inv z' /\ zp z' = zp z /\ zone_lbas z' = zone_lbas z /\
  rw_slba (cmd req') = slba /\
  result ret' = (if opcode (cmd req) =? nvme_cmd_zone_append then wp d else result ret) /\
  ok = bool_decide (nr * 512 ≤ buffer_left z zid w) /\
  buffer_left z' zid w' = buffer_left z zid w - (if ok then nr * 512 else 0) /\
  if (ok && (st =? NVME_SC_SUCCESS))%bool then
    status ret' = NVME_SC_SUCCESS /\ nsecs_start req ≤ nsecs_target ret' /\
    wp d + nr ≤ zslba d + zone_lbas z /\
    exists d', zone_descs z' = <[Z.to_nat zid := d']> (zone_descs z) /\
      wp d' = wp d + nr /\ zd_state d' = written_state z d (wp d + nr) /\
      zd_zrwav d' = false /\ zslba d' = zslba d
  else zone_descs z' = zone_descs z /\
    (ok = true -> status ret' = st /\ nsecs_target ret' = nsecs_start req).

Lemma lba_to_lpn_eq z lba : zns_geom z -> lba_to_lpn z lba = Ok (lba / 8).
Proof. intros Hg. unfold lba_to_lpn, checked_div. by rewrite (zg_secs z Hg). Qed.

Lemma zone_to_elpn_ok z i : zns_geom z -> 0 ≤ i < nr_zones (zp z) ->
  exists e, zone_to_elpn z i = Ok e.
Proof.
  intros Hg Hi. pose proof (zone_lbas_u32 z Hg) as [_ Hn]. unfold zone_to_elpn, zone_to_elba.
  rewrite u32_small by lia. rewrite (zone_to_slba_eq z Hg) by lia. cbn [mbind res_bind].
  unfold checked_div. rewrite (zg_secs z Hg). by eexists.
Qed.

Lemma append_slba_eq d req ret req' ret' :
  append_slba d req ret = (req', ret') ->
  rw_slba (cmd req') = target_slba d req /\ nsecs_start req' = nsecs_start req /\
  rw_length (cmd req') = rw_length (cmd req) /\ status ret' = status ret /\
  result ret' = (if opcode (cmd req) =? nvme_cmd_zone_append then wp d else result ret).
Proof. unfold append_slba, target_slba. destruct (_ =? _); intros [= <- <-]; done. Qed.

Lemma write_status_frame z z' d slba nr :
  zn_ssd z' = zn_ssd z -> zp z' = zp z -> write_status z' d slba nr = write_status z d slba nr.
Proof. intros E1 E2. unfold write_status, zone_lbas. by rewrite E1, E2. Qed.

Lemma zns_write_ok z d req ret w :
  let zid := rw_slba (cmd req) / zone_lbas z in
  zns_inv z -> world_ok w -> 0 ≤ rw_slba (cmd req) < nr_zones (zp z) * zone_lbas z ->
  zone_at z zid = Ok d -> zd_zrwav d = false ->
  buffer_fits z w ((rw_length (cmd req) + 1) * 512) -> 0 ≤ nsecs_start req ≤ 2 ^ 62 ->
  Prelude.wp (__zns_write cpu_clock z req ret) (fun '(z', req', ok, ret') w' =>
    world_ok w' /\ write_done z zid d req w z' req' ok ret ret' w') w.
Proof.
  intros zid Hi Hw Hsl Ha Hzv Hfit Hst. pose proof (zi_geom _ Hi) as Hg.
  pose proof (zg_32 _ Hg) as H32. pose proof (rw_length_range (cmd req)) as Hlen.
  pose proof (lba_zone_range z Hg _ Hsl) as Hzid. fold zid in Hzid.
  pose proof (zi_zone _ Hi _ _ Ha) as Ho.
  unfold __zns_write. set (nr := rw_length (cmd req) + 1) in *.
  rewrite (u32_small nr) by (unfold nr, U32_MAX; lia).
  apply (wp_lift_Ok _ zid); [apply lba_to_zone_eq; [done | unfold U32_MAX in *; lia]|].
  wp_ok Ha. destruct (append_slba d req ret) as [req1 ret1] eqn:Eapp.
  destruct (append_slba_eq _ _ _ _ _ Eapp) as (Es & En & Elen & Est & Eres).
  set (slba := rw_slba (cmd req1)) in *.
  assert (0 ≤ slba ≤ U32_MAX) as Hslb.
  { rewrite Es. unfold target_slba. pose proof (zo_wp _ _ _ Ho). pose proof (zo_start _ _ _ Ho).
    pose proof (zg_pos _ Hg). case_test; [nia | lia]. }
  rewrite !(u64_small (slba + nr)), !(u64_small (slba + nr - 1)) by (unfold U32_MAX, U64_MAX, nr in *; lia).
  wp_ok (lba_to_lpn_eq z slba Hg). wp_ok (lba_to_lpn_eq z (slba + nr - 1) Hg).
  destruct (zone_to_elpn_ok z zid Hg Hzid) as [ze Hze]. wp_ok Hze.
  rewrite (lba_bytes nr) by (unfold nr; lia).
  apply wp_bind. eapply wp_mono; [apply zns_buffer_allocate_ok; try done; unfold nr; lia|].
  intros [z1 got] w1 (Hi1 & Hwb & Hgot & Hw1 & _ & Hleft).
  assert (zone_descs z1 = zone_descs z /\ zn_ssd z1 = zn_ssd z /\ zp z1 = zp z) as (Ed & Ess & Ezp)
    by (rewrite Hwb; done).
  assert (negb (got <? nr * 512) = bool_decide (nr * 512 ≤ buffer_left z zid w) /\ got = (if got <? nr * 512 then 0 else nr * 512)) as [Hroom Hgot'].
  { clear Hleft. rewrite Hgot. assert (0 < nr * 512) by (unfold nr; lia). case_decide as Hd.
    - rewrite bool_decide_true, Z.ltb_irrefl by done. done.
    - rewrite bool_decide_false, (proj2 (Z.ltb_lt 0 _)) by done. done. }
  rewrite Hgot' in Hleft. clear Hgot. destruct (Z.ltb_spec got (nr * 512)) as [Hlt|Hge]; cbn [negb] in Hroom.
  { apply wp_ret. split; [done|]. split; [done|]. split; [done|].
    split; [unfold zone_lbas; by rewrite Ess, Ezp|]. split; [done|]. split; [done|].
    split; [exact Hroom|]. split; [exact Hleft|]. cbn [andb]. by split. }
  assert (zone_at z1 zid = Ok d) as Ha1 by (unfold zone_at; by rewrite Ed).
  assert (zone_lbas z1 = zone_lbas z) as Elb by (unfold zone_lbas; by rewrite Ess, Ezp).
  apply wp_lift_bind. eapply returns_mono; [apply (write_zone_ok z1 zid d); try done; unfold nr; lia|].
  intros [z2 st] (Hst2 & Hi2 & Hf2 & Hok & Hrej).
  rewrite (write_status_frame z z1) in Hst2 by done. rewrite Es in Hst2.
  destruct (Z.eqb_spec st NVME_SC_SUCCESS) as [Esc|Esc]; cbn [negb].
  - pose proof (zi_geom _ Hi2) as Hg2. apply wp_bind, wp_bind.
    eapply wp_mono; [apply (ssd_advance_write_buffer_ok cpu_clock clock_ok); [done | lia | unfold nr; lia |
      apply (zg_lat0 _ Hg2) | apply (zg_lat1 _ Hg2)]|].
    intros t w2 ([Htb Htl] & Hw2 & Hb2). apply wp_bind.
    eapply wp_mono; [apply zns_write_loop_ok;
      [exact Hg2 | exact Hw2 | apply Z.div_pos; lia | lia | exact Htb | exact Htb]|].
    intros [z3 t3] w3 (Hs3 & Hw3 & [Hwb3 _] & Ht3). apply wp_ret, wp_ret.
    destruct (Hok Esc) as (Hend & d' & Hstep & Hwp & Hzv' & Hzst). pose proof (zs_frame _ _ _ _ _ Hstep) as Hf.
    split; [done|]. split; [by eapply ssd_only_inv|].
    assert (zp z3 = zp z2 /\ zone_lbas z3 = zone_lbas z2) as [Ez3 El3].
    { destruct Hs3 as [E3 [Hsp _ _]]. rewrite E3. unfold zone_lbas. cbn. by rewrite Hsp. }
    split; [by rewrite Ez3, (zf_zp _ _ Hf)|].
    split; [by rewrite El3, (frame_lbas _ _ Hf)|].
    split; [done|]. split; [done|]. split; [exact Hroom|]. split.
    { cbv iota. fold nr. rewrite <- Hleft. apply buffer_left_same; [by rewrite Ez3, (zf_zp _ _ Hf) | | by rewrite Hwb3, (proj1 Hb2)].
      destruct Hs3 as [E3 _]. rewrite E3. apply (zf_wb _ _ Hf). }
    cbn [andb]. fold nr.
    rewrite <- Hst2, Esc. change (NVME_SC_SUCCESS =? NVME_SC_SUCCESS) with true. cbv iota.
    split; [done|]. rewrite Elb in Hend. split.
    { cbn. unfold write_target. specialize (Htl ltac:(lia)). case_test; lia. }
    split; [done|]. exists d'. destruct Hs3 as [E3 _]. rewrite E3. cbn.
    rewrite (zs_descs _ _ _ _ _ Hstep), Ed. split; [done|]. split; [done|].
    split; [rewrite Hzst; unfold written_state; by rewrite Elb|]. split; [done|].
    assert (zone_at z2 zid = Ok d') as Ha2 by (rewrite (zstep_at _ _ _ _ _ _ Hstep); by rewrite decide_True).
    pose proof (zi_zone _ Hi2 _ _ Ha2) as Ho2.
    rewrite (zo_start _ _ _ Ho2), (zo_start _ _ _ Ho), (frame_lbas _ _ Hf), Elb. done.
  - apply wp_bind, wp_ret, wp_ret. rewrite (Hrej Esc). split; [done|].
    split; [done|]. split; [done|]. split; [done|]. split; [done|]. split; [done|].
    split; [exact Hroom|]. split; [exact Hleft|]. cbn [andb]. fold nr.
    rewrite <- Hst2, (proj2 (Z.eqb_neq _ _)) by done. split; [done|]. intros _.
    split; [done|]. cbn. unfold write_target. by case_test.
Qed.
End DataPath.

Lemma lpn_to_zone_eq z lba :
  zns_geom z -> 0 ≤ lba ≤ U32_MAX -> lpn_to_zone z (lba / 8) = Ok (lba / zone_lbas z).
Proof.
  intros Hg Hl. pose proof (zone_lbas_ge z Hg) as HL. pose proof (zg_align z Hg) as Ha.
  pose proof (Z.div_mod (zone_lbas z) 8 ltac:(lia)) as Hd. rewrite Ha in Hd.
  unfold lpn_to_zone, checked_div. rewrite (po_pgsz _ (sw_params _ (zg_ssd z Hg))).
  change (4096 =? 0) with false. cbn [mbind res_bind].
  assert (zone_size (zp z) / 4096 = zone_lbas z / 8) as ->.
  { rewrite (zg_size z Hg), Hd. replace (512 * (8 * (zone_lbas z / 8) + 0)) with (zone_lbas z / 8 * 4096) by lia.
    rewrite Z.div_mul by lia. f_equal. rewrite <- Hd. done. }
  rewrite (proj2 (Z.eqb_neq _ 0)) by lia. cbn [mbind res_bind]. rewrite Z.div_div by lia.
  replace (8 * (zone_lbas z / 8)) with (zone_lbas z) by lia. f_equal. apply u32_small.
  split; [apply Z.div_pos; lia|]. apply Z.div_le_upper_bound; nia.
Qed.

Section Namespace.
Variable cpu_clock : nat -> Z.
Hypothesis clock_ok : forall n, 0 ≤ cpu_clock n < 2 ^ 62.

Lemma zns_write_ns_ok (ns : nvmev_ns zns_ftl) d req ret w :
  let z := ns_ftls ns in
  let zid := rw_slba (cmd req) / zone_lbas z in
  zns_inv z -> world_ok w -> 0 ≤ rw_slba (cmd req) < nr_zones (zp z) * zone_lbas z ->
  zone_at z zid = Ok d -> zd_zrwav d = false ->
  buffer_fits z w ((rw_length (cmd req) + 1) * 512) -> 0 ≤ nsecs_start req ≤ 2 ^ 62 ->
  Prelude.wp (zns_write cpu_clock ns req ret) (fun '(ns', req', ok, ret') w' =>
    world_ok w' /\ write_done z zid d req w (ns_ftls ns') req' ok ret ret' w') w.
Proof.
  intros z zid Hi Hw Hsl Ha Hzv Hfit Hst. pose proof (zi_geom _ Hi) as Hg. pose proof (zg_32 _ Hg).
  unfold zns_write. fold z. wp_ok (lba_to_lpn_eq z (rw_slba (cmd req)) Hg).
  apply (wp_lift_Ok _ zid); [apply lpn_to_zone_eq; [done | lia]|]. wp_ok Ha. rewrite Hzv. cbn [negb].
  apply wp_bind. eapply wp_mono; [by apply (zns_write_ok cpu_clock clock_ok z d)|].
  intros [[[z' req'] ok] ret'] w' [Hw' Hd]. apply wp_ret. by split.
Qed.
End Namespace.


(** C22. Appends never overlap: after an append of [n1] blocks that succeeded,
    the next append to the same zone, when it succeeds, is given the address
    [n1] blocks after the first one's, and both lie inside the zone. *)
Theorem zone_append_disjoint cpu_clock (ns ns1 ns2 : nvmev_ns zns_ftl) d r1 r2 q1 q2 ret1 ret2 o1 o2 w w1 w2 :
  (forall n, 0 ≤ cpu_clock n < 2 ^ 62) ->
  let z := ns_ftls ns in
  let zid := rw_slba (cmd r1) / zone_lbas z in
  let n1 := rw_length (cmd r1) + 1 in
  let n2 := rw_length (cmd r2) + 1 in
  zns_inv z -> world_ok w -> 0 ≤ rw_slba (cmd r1) < nr_zones (zp z) * zone_lbas z ->
  rw_slba (cmd r2) = rw_slba (cmd r1) ->
  opcode (cmd r1) = nvme_cmd_zone_append -> opcode (cmd r2) = nvme_cmd_zone_append ->
  zone_at z zid = Ok d -> zd_zrwav d = false ->
  buffer_fits z w (n1 * 512) -> buffer_fits (ns_ftls ns1) w1 (n2 * 512) ->
  0 ≤ nsecs_start r1 ≤ 2 ^ 62 -> 0 ≤ nsecs_start r2 ≤ 2 ^ 62 ->
  zns_write cpu_clock ns r1 ret1 w = Ok ((ns1, q1, true, o1), w1) -> status o1 = NVME_SC_SUCCESS ->
  zns_write cpu_clock ns1 r2 ret2 w1 = Ok ((ns2, q2, true, o2), w2) -> status o2 = NVME_SC_SUCCESS ->
  zslba d ≤ result o1 /\ result o2 = result o1 + n1 /\ result o2 + n2 ≤ zslba d + zone_lbas z.
Proof.
  intros Hk z zid n1 n2 Hi Hw Hsl E2 Hop1 Hop2 Ha Hz Hf1 Hf2 Ht1 Ht2 He1 Hs1 He2 Hs2.
  pose proof (zns_write_ns_ok cpu_clock Hk ns d r1 ret1 w Hi Hw Hsl Ha Hz Hf1 Ht1) as H1.
  rewrite wp_iff in H1. destruct H1 as ([[[a b] c] e] & w' & He & Hw1 & (Hi1 & Ep & El & _ & Hr1 & _ & _ & Hd1)).
  rewrite He1 in He. injection He as <- <- <- <- <-. cbn [andb] in Hd1.
  destruct (Z.eqb_spec (write_status z d (target_slba d r1) n1) NVME_SC_SUCCESS) as [Es|Es].
  2:{ exfalso. apply Es. fold n1 z in Hd1. rewrite (proj2 (Z.eqb_neq _ _) Es) in Hd1.
      destruct Hd1 as [_ Hd1]. destruct (Hd1 eq_refl) as [Hst _]. congruence. }
  fold n1 z in Hd1. rewrite Es in Hd1. cbn in Hd1.
  destruct Hd1 as (_ & _ & Hend1 & d' & Hdesc & Hwp' & _ & Hz' & Hst').
  assert (zone_at (ns_ftls ns1) (rw_slba (cmd r2) / zone_lbas (ns_ftls ns1)) = Ok d') as Ha'.
  { rewrite E2, El. unfold zone_at. rewrite Hdesc. fold z. fold zid.
    unfold zone_at in Ha. rewrite aget_insert by (by eapply aget_range). by rewrite decide_True. }
  assert (0 ≤ rw_slba (cmd r2) < nr_zones (zp (ns_ftls ns1)) * zone_lbas (ns_ftls ns1)) as Hsl2.
  { by rewrite E2, Ep, El. }
  pose proof (zns_write_ns_ok cpu_clock Hk ns1 d' r2 ret2 w1 Hi1 Hw1 Hsl2 Ha' Hz' Hf2 Ht2) as H2.
  rewrite wp_iff in H2. destruct H2 as ([[[a b] c] e] & w' & He & _ & (_ & _ & _ & _ & Hr2 & _ & _ & Hd2)).
  rewrite He2 in He. injection He as <- <- <- <- <-. cbn [andb] in Hd2. fold n2 in Hd2.
  destruct (Z.eqb_spec (write_status (ns_ftls ns1) d' (target_slba d' r2) n2) NVME_SC_SUCCESS) as [Es2|Es2].
  2:{ destruct Hd2 as [_ Hd2]. destruct (Hd2 eq_refl) as [Hst2 _]. congruence. }
  destruct Hd2 as (_ & _ & Hend2 & _).
  rewrite Hop1 in Hr1. rewrite Hop2 in Hr2. cbn in Hr1, Hr2. fold n1 in Hwp'.
  pose proof (zo_wp _ _ _ (zi_zone _ Hi _ _ Ha)). rewrite El in Hend2. fold z in Hend2. lia.
Qed.

(** ** Zone management *)

(** The outcome of one action on one zone. *)
Definition managed (a : zone_send_action) (opt : Z) (z : zns_ftl) (zid : Z) (d : zone_descriptor)
  (z' : zns_ftl) (st : Z) : Prop :=
  zns_inv z' /\ zns_frame z z' /\
  (accepted a z zid d z' st \/ rejected a z d z' st \/
   a = ZSA_OPEN_ZONE /\ z' = z /\ st = NVME_SC_ZNS_ZRWA_RSRC_UNAVAIL /\ opt <> 0).

Lemma managed_ok a opt z zid d z' st :
  zns_inv z ->
  accepted a z zid d z' st \/ rejected a z d z' st \/
    a = ZSA_OPEN_ZONE /\ z' = z /\ st = NVME_SC_ZNS_ZRWA_RSRC_UNAVAIL /\ opt <> 0 ->
  managed a opt z zid d z' st.
Proof.
  intros Hi H. split; [|split; [|done]].
  - destruct H as [H|[[-> _]|(_ & -> & _)]]; [by eapply accepted_inv | done | done].
  - destruct H as [(_ & d' & Hs & _)|[[-> _]|(_ & -> & _)]]; [apply Hs | apply frame_refl | apply frame_refl].
Qed.

Lemma returns_known {A} (r : res (zns_ftl * A)) (P : zns_ftl -> A -> Prop) :
  returns r (fun '(z', st) => P z' st) ->
  returns ('(z, st) ← r; Ok (z, Some st)) (fun '(z', o) => exists st, o = Some st /\ P z' st).
Proof. destruct r as [[z st]|]; [cbn; eauto | done]. Qed.

Lemma mgmt_send_ok z slba act opt d :
  zns_inv z -> 0 ≤ slba < nr_zones (zp z) * zone_lbas z -> zone_at z (slba / zone_lbas z) = Ok d ->
  1 ≤ act ≤ 5 ->
  returns (__zmgmt_send z slba act opt) (fun '(z', o) => exists st, o = Some st /\
    managed (zone_send_action_of act) opt z (slba / zone_lbas z) d z' st).
Proof.
  intros Hi Hsl Ha Hact. pose proof (zi_geom _ Hi) as Hg. pose proof (zg_32 _ Hg).
  unfold __zmgmt_send. rewrite (lba_to_zone_eq z Hg) by (unfold U32_MAX in *; lia). cbn [mbind res_bind].
  assert (act = 1 \/ act = 2 \/ act = 3 \/ act = 4 \/ act = 5) as Hc by lia.
  destruct Hc as [-> | [-> | [-> | [-> | ->]]]]; cbn [zone_send_action_of Z.eqb Pos.eqb];
    apply returns_known; (eapply returns_mono;
      [first [by apply close_zone_ok | by apply finish_zone_ok | by apply (open_zone_ok z _ d)
             | by apply reset_zone_ok | by apply offline_zone_ok]|]);
    intros [z' st] Hm; (apply managed_ok; [exact Hi|]); clear - Hm; intuition auto.
Qed.

Lemma zone_exists z slba : zns_inv z -> 0 ≤ slba < nr_zones (zp z) * zone_lbas z ->
  exists d, zone_at z (slba / zone_lbas z) = Ok d.
Proof.
  intros Hi Hs. apply aget_in_range. rewrite (zi_len _ Hi). by apply lba_zone_range; [apply Hi|].
Qed.

(** C15. Zone management follows the zone state machine and never fails: each of
    close, finish, open, reset and offline is accepted exactly from the states
    [zone_action] gives, where it moves that zone alone to the new state (a
    reset also rewinds the write pointer), and is refused with "invalid zone
    state transition" from the others, changing nothing; only a ZRWA request
    can lack a resource.  The counters keep counting the open and active
    zones, so opening never runs out of them. *)
Theorem zone_management_transitions z slba act opt :
  zns_inv z -> 0 ≤ slba < nr_zones (zp z) * zone_lbas z -> 1 ≤ act ≤ 5 ->
  exists d z' st, zone_at z (slba / zone_lbas z) = Ok d /\
    __zmgmt_send z slba act opt = Ok (z', Some st) /\
    managed (zone_send_action_of act) opt z (slba / zone_lbas z) d z' st.
Proof.
  intros Hi Hsl Hact. destruct (zone_exists z slba Hi Hsl) as [d Ha].
  destruct (proj1 (returns_iff _ _) (mgmt_send_ok z slba act opt d Hi Hsl Ha Hact))
    as ([z' o] & He & st & -> & Hm).
  exists d, z', st. by split.
Qed.

(** ** Management of all zones *)

(** What an action leaves of a zone: the state it leads to, with the write
    pointer at the start after a reset; or the zone as it was, if its state
    does not allow the action or a ZRWA cannot be had. *)
Definition zone_after (a : zone_send_action) (opt : Z) (d d' : zone_descriptor) : Prop :=
  (zone_action a (zd_state d) (zd_state d') /\ wp d' = match a with ZSA_RESET_ZONE => zslba d | _ => wp d end) \/
  (d' = d /\ ((forall s, ~ zone_action a (zd_state d) s) \/ a = ZSA_OPEN_ZONE /\ opt <> 0)).

Definition one_zone_after (a : zone_send_action) (opt : Z) (z : zns_ftl) (zid : Z) (z' : zns_ftl) : Prop :=
  zns_inv z' /\ zp z' = zp z /\ zone_lbas z' = zone_lbas z /\
  forall i d, zone_at z i = Ok d -> exists d', zone_at z' i = Ok d' /\ if decide (i = zid) then zone_after a opt d d' else d' = d.

Lemma managed_after a opt z zid d z' st : zone_at z zid = Ok d -> managed a opt z zid d z' st -> one_zone_after a opt z zid z'.
Proof.
  intros Ha (Hi' & Hf & Hm). split; [done|]. split; [apply Hf|]. split; [by apply frame_lbas|]. intros i e He.
  destruct Hm as [(_ & d' & Hs & _ & _ & Hact & Hw)|Hm].
  - rewrite (zstep_at _ _ _ _ _ _ Hs). destruct (decide (zid = i)) as [<-|Hne].
    + rewrite Ha in He. injection He as <-. exists d'. split; [done|]. rewrite decide_True by done. by left.
    + exists e. by rewrite decide_False by done.
  - assert (z' = z /\ ((forall s, ~ zone_action a (zd_state d) s) \/ a = ZSA_OPEN_ZONE /\ opt <> 0)) as [-> Hr] by (unfold rejected in Hm; tauto).
    exists e. split; [done|]. destruct (decide (i = zid)) as [->|]; [|done].
    rewrite Ha in He. injection He as <-. by right.
Qed.

(** Any action but the flush of a ZRWA; the switch has no case for the others
    and leaves the zone alone. *)
Lemma send_one_ok z slba act opt :
  zns_inv z -> 0 ≤ slba < nr_zones (zp z) * zone_lbas z -> zone_send_action_of act <> ZSA_FLUSH_EXPL_ZRWA ->
  returns (__zmgmt_send z slba act opt) (fun '(z', _) => one_zone_after (zone_send_action_of act) opt z (slba / zone_lbas z) z').
Proof.
  intros Hi Hsl Hact. destruct (zone_exists z slba Hi Hsl) as [d Ha]. destruct (decide (1 ≤ act ≤ 5)) as [Hr|Hr].
  - eapply returns_mono; [by apply mgmt_send_ok|]. intros [z' o] (st & _ & Hm). by eapply managed_after.
  - pose proof (zi_geom _ Hi) as Hg. pose proof (zg_32 _ Hg). unfold __zmgmt_send.
    rewrite (lba_to_zone_eq z Hg) by (unfold U32_MAX in *; lia). cbn [mbind res_bind].
    assert (zone_send_action_of act = ZSA_SET_ZONE_DESC_EXT \/ zone_send_action_of act = ZSA_OTHER) as Hc.
    { revert Hact. unfold zone_send_action_of. repeat (rewrite (proj2 (Z.eqb_neq act _)) by lia).
      destruct (act =? 16); [by left|]. destruct (act =? 17); [done | by right]. }
    assert (one_zone_after (zone_send_action_of act) opt z (slba / zone_lbas z) z) as Hz.
    { split; [done|]. split; [done|]. split; [done|]. intros i e He. exists e. split; [done|]. case_decide; [|done].
      right. split; [done|]. left. intros s Hs. destruct Hc as [E|E]; rewrite E in Hs; inversion Hs. }
    destruct (zone_send_action_of act); try done; by destruct Hc.
Qed.

(** C38. A zone management send command with [select_all] and any action but the
    flush of a ZRWA always returns, completes at once with success, and applies
    the action to every zone: each is moved as the zone state machine says if
    its state allows the action, and left exactly as it was if not (or if an
    open asks for a ZRWA that is not to be had).  The zone invariant holds
    again. *)
Theorem zmgmt_send_all_zones (ns : nvmev_ns zns_ftl) req ret :
  let z := ns_ftls ns in
  zns_inv z -> 0 ≤ cdw10_11 (cmd req) ≤ U32_MAX -> send_select_all (cmd req) <> 0 ->
  zone_send_action_of (send_zsa (cmd req)) <> ZSA_FLUSH_EXPL_ZRWA ->
  exists z', zns_zmgmt_send ns req ret = Ok (set_ftls ns z', set_status (set_target ret (nsecs_start req)) NVME_SC_SUCCESS) /\
    zns_inv z' /\ forall i d, zone_at z i = Ok d -> exists d', zone_at z' i = Ok d' /\
      zone_after (zone_send_action_of (send_zsa (cmd req))) (send_zsaso (cmd req)) d d'.
Proof.
  intros z Hi Hsl Hall Hact. pose proof (zi_geom _ Hi) as Hg. pose proof (zg_32 _ Hg) as H32. pose proof (zg_pos _ Hg) as HL.
  unfold zns_zmgmt_send. fold z. rewrite (lba_to_zone_eq z Hg) by (unfold U32_MAX in *; lia). cbn [mbind res_bind].
  rewrite (proj2 (Z.eqb_neq _ _) Hall). cbn [negb].
  set (a := zone_send_action_of _) in *. set (opt := send_zsaso _).
  assert (returns (for_loop (Z.to_nat (nr_zones (zp z))) 0 (fun zid z => s ← zone_to_slba z zid;
      '(z, _) ← __zmgmt_send z s (send_zsa (cmd req)) opt; Ok z) z)
    (fun z' => zns_inv z' /\ forall i d, zone_at z i = Ok d -> exists d', zone_at z' i = Ok d' /\ zone_after a opt d d')) as Hr.
  { apply (returns_for_loop (fun n z' => zns_inv z' /\ zp z' = zp z /\ zone_lbas z' = zone_lbas z /\
      forall i d, zone_at z i = Ok d -> exists d', zone_at z' i = Ok d' /\ if decide (i < n) then zone_after a opt d d' else d' = d)).
    - split; [done|]. split; [done|]. split; [done|]. intros i d Hd. exists d. split; [done|].
      rewrite decide_False; [done|]. apply aget_range in Hd. lia.
    - intros k z1 Hk (Hi1 & Ep & El & Hz). rewrite Z2Nat.id in Hk by lia.
      rewrite (zone_to_slba_eq z1 (zi_geom _ Hi1)) by (rewrite Ep; lia). cbn [mbind res_bind].
      assert (k * zone_lbas z1 / zone_lbas z1 = k) as Ek by (rewrite El; apply Z.div_mul; lia).
      apply returns_bind. eapply returns_mono; [apply send_one_ok; [done | rewrite Ep, El; nia | done]|].
      rewrite Ek. intros [z2 o] (Hi2 & Ep2 & El2 & Hz2). cbn. split; [done|]. split; [congruence|]. split; [congruence|].
      intros i d Hd. destruct (Hz i d Hd) as (d1 & Hd1 & H1). destruct (Hz2 i d1 Hd1) as (d2 & Hd2 & H2).
      exists d2. split; [done|]. repeat case_decide; subst; try lia; congruence || done.
    - intros z' (Hi' & _ & _ & Hz). split; [done|]. intros i d Hd. destruct (Hz i d Hd) as (d' & Hd' & H').
      exists d'. split; [done|]. rewrite decide_True in H'; [done|]. apply aget_range in Hd. rewrite (zi_len _ Hi) in Hd. lia. }
  apply returns_iff in Hr as (z' & He & Hi' & Hz). fold z in He. rewrite He. cbn. by exists z'.
Qed.

(** A zone management send whose action the handler does not know (set
    zone descriptor extension included) is answered with whatever the local
    variable [status] held: no branch assigns it. *)
Theorem zmgmt_send_unknown_action (ns : nvmev_ns zns_ftl) req ret :
  zns_geom (ns_ftls ns) -> 0 ≤ cdw10_11 (cmd req) ≤ U32_MAX ->
  send_select_all (cmd req) = 0 ->
  ~ (1 ≤ send_zsa (cmd req) ≤ 5 \/ send_zsa (cmd req) = 0x11) ->
  zns_zmgmt_send ns req ret = Bug Uninit.
Proof.
  intros Hg Hs Hall Hact. unfold U32_MAX in *.
  unfold zns_zmgmt_send, __zmgmt_send. rewrite !(lba_to_zone_eq _ Hg) by lia.
  cbn [mbind res_bind]. rewrite Hall. cbn [Z.eqb negb]. unfold zone_send_action_of.
  repeat (rewrite (proj2 (Z.eqb_neq (send_zsa (cmd req)) _)) by lia).
  destruct (Z.eqb_spec (send_zsa (cmd req)) 0x10); [done|].
  by rewrite (proj2 (Z.eqb_neq (send_zsa (cmd req)) _)) by lia.
Qed.

(** C39. A reset gives the zone back empty: it succeeds in every state but
    read-only and offline, the write pointer is the start of the zone, the
    bytes of the zone read zero and no other byte of the device changes. *)
Theorem zone_reset_erases z slba opt d :
  zns_inv z -> 0 ≤ slba < nr_zones (zp z) * zone_lbas z ->
  zone_at z (slba / zone_lbas z) = Ok d ->
  zd_state d <> ZONE_STATE_READ_ONLY -> zd_state d <> ZONE_STATE_OFFLINE ->
  exists z' d', __zmgmt_send z slba 4 opt = Ok (z', Some NVME_SC_SUCCESS) /\ zns_inv z' /\
    zone_at z' (slba / zone_lbas z) = Ok d' /\ zd_state d' = ZONE_STATE_EMPTY /\ wp d' = zslba d /\
    forall a, zn_storage z' a =
      if bool_decide (zslba d * 512 ≤ a < (zslba d + zone_lbas z) * 512) then 0 else zn_storage z a.
Proof.
  intros Hi Hsl Ha H1 H2. pose proof (zi_geom _ Hi) as Hg. pose proof (zg_32 _ Hg) as H32.
  unfold __zmgmt_send. rewrite (lba_to_zone_eq z Hg) by (unfold U32_MAX in *; lia).
  cbn [mbind res_bind zone_send_action_of Z.eqb Pos.eqb].
  pose proof (reset_zone_ok z _ d Hi Ha) as Hr. set (zid := slba / zone_lbas z) in *.
  pose proof (lba_zone_range z Hg slba Hsl) as Hz. fold zid in Hz.
  destruct (__zmgmt_send_reset_zone z zid) as [[z' st]|]; [|done]. cbn in Hr |- *.
  destruct Hr as [[Hacc Hb]|(_ & _ & Hno)].
  2:{ exfalso. eapply (Hno ZONE_STATE_EMPTY). by constructor. }
  pose proof (accepted_inv _ _ _ _ _ _ Hi Hacc) as Hi'.
  destruct Hacc as (-> & d' & Hs & _ & _ & Hact & Hw). exists z', d'.
  split; [done|]. split; [done|]. split; [rewrite (zstep_at _ _ _ _ _ _ Hs); by rewrite decide_True|].
  split; [by inversion Hact|]. split; [done|]. intros a. rewrite Hb.
  pose proof (zo_start _ _ _ (zi_zone _ Hi _ _ Ha)) as Hst.
  pose proof (zone_lbas_u32 z Hg) as [HL Hn].
  assert (get_storage_addr_from_zid z zid = zslba d * 512) as ->.
  { unfold get_storage_addr_from_zid. rewrite (zg_size z Hg), Hst.
    rewrite u64_small by (unfold U32_MAX, U64_MAX in *; nia). lia. }
  rewrite (zg_size z Hg). case_bool_decide as Hb'.
  - by rewrite (proj2 (Z.leb_le _ _)), (proj2 (Z.ltb_lt _ _)) by lia.
  - destruct (Z.leb_spec (zslba d * 512) a); cbn [andb]; [|done].
    by rewrite (proj2 (Z.ltb_ge _ _)) by lia.
Qed.

(** Opening an empty zone with a ZRWA, while the counter allows it. *)
Lemma open_empty_zrwa z zid d :
  zns_inv z -> zone_at z zid = Ok d -> zd_state d = ZONE_STATE_EMPTY ->
  acquired_cnt (res_zrwa z) < nr_zones (zp z) ->
  exists z', __zmgmt_send_open_zone z zid 1 = Ok (z', NVME_SC_SUCCESS) /\ zns_frame z z' /\
    zone_at z' zid = Ok (zd_with_state ZONE_STATE_OPENED_EXPL (zd_with_zrwav true d)).
Proof.
  intros Hi Ha E Hz. pose proof (inv_counted _ _ _ Hi Ha) as Hc.
  assert (acquired_cnt (res_active z) < total_cnt (res_active z) /\
          acquired_cnt (res_open z) < total_cnt (res_open z)) as [Hna Hno].
  { destruct Hc. unfold is_active, is_open in *. rewrite E in *. cbn in *. lia. }
  assert (acquired_cnt (res_zrwa z) < total_cnt (res_zrwa z)) as Hnz by (destruct Hc; lia).
  unfold __zmgmt_send_open_zone. rewrite Ha. cbn [mbind res_bind]. rewrite E.
  unfold is_zone_resource_full. cbn [get_res].
  rewrite (proj2 (Z.eqb_neq (acquired_cnt (res_active z)) _)) by lia.
  rewrite (proj2 (Z.eqb_neq (acquired_cnt (res_open z)) _)) by lia.
  rewrite (proj2 (Z.eqb_neq (acquired_cnt (res_zrwa z)) _)) by lia. cbn [Z.eqb negb andb].
  unfold acquire_zone_resource, is_zone_resource_avail. cbn [get_res].
  rewrite (proj2 (Z.ltb_lt (acquired_cnt (res_zrwa z)) _)) by done. cbn [fst].
  rewrite (mod_zone_ok _ _ d) by exact Ha. cbn.
  rewrite (proj2 (Z.ltb_lt (acquired_cnt (res_active z)) _)) by done. cbn [fst].
  unfold open_closed_zone, acquire_zone_resource, is_zone_resource_avail. cbn.
  rewrite (proj2 (Z.ltb_lt (acquired_cnt (res_open z)) _)) by done. cbn.
  unfold zone_at in Ha. pose proof (aget_range _ _ _ Ha).
  unfold change_zone_state. rewrite (mod_zone_ok _ _ (zd_with_zrwav true d)).
  2:{ unfold zone_at. cbn. rewrite aget_insert by done. by rewrite decide_True. }
  eexists. split; [done|]. split; [split; cbn; eauto|].
  unfold zone_at. cbn. rewrite aget_insert by (by rewrite length_insert). by rewrite decide_True.
Qed.

(** On a device built without ZRWA (its sizes are 0, as in every shipped
    configuration) an empty zone 0 can still be opened with a ZRWA, and an
    explicit flush of its first block then divides by zero. *)
Theorem zrwa_disabled_flush_divides_by_zero z d :
  zns_inv z -> lbas_per_zrwa (zp z) = 0 -> lbas_per_zrwafg (zp z) = 0 ->
  zone_at z 0 = Ok d -> zd_state d = ZONE_STATE_EMPTY ->
  acquired_cnt (res_zrwa z) < nr_zones (zp z) ->
  exists z', __zmgmt_send z 0 3 1 = Ok (z', Some NVME_SC_SUCCESS) /\
    __zmgmt_send z' 0 0x11 0 = Bug DivByZero.
Proof.
  intros Hi Hl Hfg Ha Hst Hr. pose proof (zi_geom _ Hi) as Hg. pose proof (zg_pos _ Hg) as HL.
  pose proof (zone_lbas_u32 z Hg) as [HLu _].
  assert (0 / zone_lbas z = 0) as E0 by (apply Z.div_0_l; lia).
  destruct (open_empty_zrwa z 0 d Hi Ha Hst Hr) as (z' & He & Hf & Ha').
  exists z'. unfold __zmgmt_send. rewrite (lba_to_zone_eq z Hg) by lia. cbn [mbind res_bind].
  rewrite E0. cbn [zone_send_action_of Z.eqb Pos.eqb]. rewrite He. split; [done|].
  pose proof (frame_geom _ _ Hf Hg) as Hg'. pose proof (frame_lbas _ _ Hf) as El.
  pose proof (zi_zone _ Hi _ _ Ha) as Ho. destruct (zo_empty _ _ _ Ho Hst) as [Hw _].
  pose proof (zo_start _ _ _ Ho) as Hs0.
  rewrite (lba_to_zone_eq z' Hg') by lia. cbn [mbind res_bind].
  unfold __zmgmt_send_flush_explicit_zrwa. rewrite (lba_to_zone_eq z' Hg') by lia. cbn [mbind res_bind].
  rewrite El, E0, Ha'. cbn [mbind res_bind].
  rewrite (zone_to_slba_eq z' Hg') by (pose proof (zg_zones _ Hg'); lia). cbn [mbind res_bind].
  cbn [wp zd_zrwav zone_capacity zd_with_state zd_with_zrwav negb].
  rewrite Hw, Hs0, (zo_cap _ _ _ Ho), (zf_zp _ _ Hf), Hl, Hfg, !Z.mul_0_l.
  change (u64 (0 + 0 - 1)) with U64_MAX. rewrite (u64_small (0 + _ - 1)) by (unfold U32_MAX, U64_MAX in *; lia).
  rewrite (proj2 (Z.leb_le 0 (Z.min _ _))) by (unfold U64_MAX; lia). cbn. done.
Qed.

(** A rejected write keeps its write-buffer space: the buffer is taken
    before the checks, the error paths do not release it and schedule nothing
    that would, so each refused command leaves the zone's buffer smaller by
    its length (until no write to the zone is accepted any more). *)
Theorem rejected_write_leaks_buffer cpu_clock z d b l req ret w :
  let zid := rw_slba (cmd req) / zone_lbas z in
  let bytes := (rw_length (cmd req) + 1) * 512 in
  zns_inv z -> 0 ≤ rw_slba (cmd req) < nr_zones (zp z) * zone_lbas z ->
  zone_at z zid = Ok d -> zd_zrwav d = false -> zone_wb_size (zp z) <> 0 ->
  zone_write_buffer z = Some l -> aget l zid = Ok b -> bytes ≤ buf_remaining b ->
  write_status z d (target_slba d req) (rw_length (cmd req) + 1) <> NVME_SC_SUCCESS ->
  exists z' req' ret' l' b', __zns_write cpu_clock z req ret w = Ok ((z', req', true, ret'), w) /\
    status ret' = write_status z d (target_slba d req) (rw_length (cmd req) + 1) /\
    zone_write_buffer z' = Some l' /\ aget l' zid = Ok b' /\
    buf_remaining b' = buf_remaining b - bytes.
Proof.
  intros zid bytes Hi Hsl Ha Hzv Hwb Hl Hb Hrem Hrej. pose proof (zi_geom _ Hi) as Hg.
  pose proof (zg_32 _ Hg) as H32. pose proof (rw_length_range (cmd req)) as Hlen.
  pose proof (lba_zone_range z Hg _ Hsl) as Hzid. fold zid in Hzid.
  pose proof (zi_zone _ Hi _ _ Ha) as Ho.
  destruct (zi_wbuf _ Hi Hwb) as (l0 & Hl0 & Harr). rewrite Hl in Hl0. injection Hl0 as <-.
  pose proof (arr_aget _ _ _ _ _ Harr Hb) as Hbw. destruct Hbw as [Hbw Hbs].
  unfold __zns_write. set (nr := rw_length (cmd req) + 1) in *.
  rewrite (u32_small nr) by (unfold nr, U32_MAX; lia).
  assert (lba_to_zone z (rw_slba (cmd req)) = Ok zid) as Ezid
    by (apply lba_to_zone_eq; [done | unfold U32_MAX in *; lia]).
  destruct (append_slba d req ret) as [req1 ret1] eqn:Eapp.
  destruct (append_slba_eq _ _ _ _ _ Eapp) as (Es & En & Elen & Est & Eres).
  set (slba := rw_slba (cmd req1)) in *.
  assert (0 ≤ slba ≤ U32_MAX) as Hslb.
  { rewrite Es. unfold target_slba. pose proof (zo_wp _ _ _ Ho). pose proof (zo_start _ _ _ Ho).
    pose proof (zg_pos _ Hg). case_test; [nia | lia]. }
  destruct (zone_to_elpn_ok z zid Hg Hzid) as [ze Hze].
  destruct (proj1 (returns_iff _ _) (buffer_allocate_ok b bytes (conj Hbw Hbs) ltac:(unfold bytes, nr in *; lia)))
    as ([b' n] & Hal & Hbw' & _ & Hrem' & Hn). rewrite decide_True in Hn by done. subst n.
  set (z1 := zn_with_wb z (Some (<[Z.to_nat zid := b']> l))).
  assert (zns_inv z1) as Hi1.
  { apply with_wb_inv; [done|]. intros _. eexists. split; [done|]. by apply arr_set. }
  pose proof (write_zone_ok z1 zid d slba nr Hi1 Ha Hzv Hslb ltac:(unfold nr; lia)) as Hwz.
  destruct (zns_write_zone z1 zid slba nr (zd_state d)) as [[z2 st]|] eqn:Ewz; [|done].
  destruct Hwz as (Hst & _ & _ & _ & Hsame).
  rewrite (write_status_frame z z1) in Hst by done. rewrite Es in Hst. rewrite <- Hst in Hrej.
  rewrite (Hsame Hrej) in *. clear Hsame.
  assert (0 ≤ zid < Z.of_nat (length l)) as Hzl by (destruct Harr; lia).
  eexists z1, req1, _, (<[Z.to_nat zid := b']> l), b'.
  split; [|split; [|split; [done|split; [|done]]]].
  3:{ rewrite aget_insert by done. by rewrite decide_True. }
  2:{ rewrite <- Hst. instantiate (1 := set_target (set_status ret1 st) (nsecs_start req)). done. }
  unfold lift, mbind, prog_bind, res_bind, mret, prog_ret. rewrite Ezid, Ha, Eapp. fold slba.
  rewrite !(u64_small (slba + nr)), !(u64_small (slba + nr - 1)) by (unfold U32_MAX, U64_MAX, nr in *; lia).
  rewrite !(lba_to_lpn_eq _ _ Hg), Hze, (lba_bytes nr) by (unfold nr; lia).
  unfold zns_buffer_allocate, zone_buffer. rewrite (proj2 (Z.eqb_neq _ 0)) by done. cbn [negb].
  unfold lift, mbind, prog_bind, res_bind, mret, prog_ret. rewrite Hl. cbn [deref]. rewrite Hb.
  fold bytes. rewrite Hal, aset_in_range by done. fold z1.
  rewrite Z.ltb_irrefl. rewrite Ewz. rewrite (proj2 (Z.eqb_neq _ _)) by done. cbn.
  unfold write_target. by case_test.
Qed.

(** ** A small zoned device: four zones of 64 blocks on two dies each, a write
    buffer of 16 KiB per zone, no ZRWA. *)
Definition tiny_zpp : znsparams := mk_znsparams 4 4 4 2 32768 16384 0 0 0 0 0 0.
Definition tiny_zns : zns_ftl := zns_init_ftl tiny_zpp tiny_ssd (replicate 400 0) (fun _ => 7).
Definition tiny_ns : nvmev_ns zns_ftl := mk_ns 1 NVME_CSI_ZNS 131072 1 tiny_zns.
Definition tiny_zone (i : Z) : zone_descriptor :=
  mk_zone ZONE_TYPE_SEQ_WRITE_REQUIRED ZONE_STATE_EMPTY false 64 (i * 64) (i * 64).
Definition tiny_clock (n : nat) : Z := 1000 + Z.of_nat n mod 2.

(** A command of [n] blocks at [slba], and a zone management command. *)
Definition tiny_rw (op slba n : Z) : nvmev_request := mk_req (mk_cmd op 1 1 0 0 slba (n - 1) 0) 1 500.
Definition tiny_send (slba d13 : Z) : nvmev_request :=
  mk_req (mk_cmd nvme_cmd_zone_mgmt_send 1 1 0 0 slba 0 d13) 1 500.
Definition tiny_ret : nvmev_result := mk_result 0 0 0.

Lemma tiny_zns_inv : zns_inv tiny_zns.
Proof.
  apply zns_init_inv; [|rewrite length_replicate; vm_compute; done].
  split; try (by apply tiny_ssd_wf); vm_compute; done.
Qed.

Lemma tiny_clock_ok n : 0 ≤ tiny_clock n < 2 ^ 62.
Proof. unfold tiny_clock. pose proof (Z.mod_pos_bound (Z.of_nat n) 2 ltac:(lia)). lia. Qed.

(** The buffers of all zones have 16 KiB. *)
Definition buffers_16k (z : zns_ftl) : bool :=
  (zone_wb_size (zp z) =? 16384) &&
  match zone_write_buffer z with Some l => forallb (fun b => buf_size b =? 16384) l | None => true end.

Lemma tiny_fits z w n : buffers_16k z = true -> n ≤ 16384 -> buffer_fits z w n.
Proof.
  unfold buffers_16k. intros [E%Z.eqb_eq Hl]%andb_true_iff Hn. unfold buffer_fits. rewrite E, decide_False by done.
  intros l b i Hs [_ Hb]%aget_Ok. rewrite Hs in Hl. rewrite forallb_forall in Hl.
  apply list_elem_of_lookup_2, list_elem_of_In, Hl, Z.eqb_eq in Hb. lia.
Qed.


(** Two appends of 8 and 16 blocks to zone 2. *)
Definition tiny_append (n : Z) : nvmev_request := tiny_rw nvme_cmd_zone_append 128 n.
Definition run_write (ns : nvmev_ns zns_ftl) (req : nvmev_request) (w : world)
  : nvmev_ns zns_ftl * nvmev_request * nvmev_result * world :=
  match zns_write tiny_clock ns req tiny_ret w with
  | Ok ((ns', req', _, ret'), w') => (ns', req', ret', w')
  | Bug _ => (ns, req, tiny_ret, w)
  end.
Definition run_write_ok (ns : nvmev_ns zns_ftl) (req : nvmev_request) (w : world) : bool :=
  match zns_write tiny_clock ns req tiny_ret w with Ok ((_, _, ok, _), _) => ok | Bug _ => false end.

Lemma run_write_eq ns req w : run_write_ok ns req w = true ->
  zns_write tiny_clock ns req tiny_ret w =
    Ok ((((run_write ns req w).1.1.1, (run_write ns req w).1.1.2, true), (run_write ns req w).1.2),
        (run_write ns req w).2).
Proof.
  unfold run_write_ok, run_write.
  destruct (zns_write tiny_clock ns req tiny_ret w) as [[[[[]]]]|]; [|done]. by intros ->.
Qed.

Definition tiny_run1 := run_write tiny_ns (tiny_append 8) tiny_world.
Definition tiny_run2 := run_write tiny_run1.1.1.1 (tiny_append 16) tiny_run1.2.

Lemma zone_append_disjoint_witness :
  128 ≤ result tiny_run1.1.2 /\ result tiny_run2.1.2 = result tiny_run1.1.2 + 8 /\
  result tiny_run2.1.2 + 16 ≤ 192.
Proof.
  apply (zone_append_disjoint tiny_clock tiny_ns tiny_run1.1.1.1 tiny_run2.1.1.1 (tiny_zone 2)
    (tiny_append 8) (tiny_append 16) tiny_run1.1.1.2 tiny_run2.1.1.2 tiny_ret tiny_ret
    tiny_run1.1.2 tiny_run2.1.2 tiny_world tiny_run1.2 tiny_run2.2).
  - exact tiny_clock_ok.
  - exact tiny_zns_inv.
  - apply tiny_ssd_wf.
  - vm_compute. by split.
  - done.
  - done.
  - done.
  - vm_compute. done.
  - done.
  - by apply tiny_fits.
  - apply tiny_fits; by vm_compute.
  - done.
  - done.
  - apply run_write_eq. vm_compute. done.
  - vm_compute. done.
  - apply run_write_eq. vm_compute. done.
  - vm_compute. done.
Defined.

Lemma zone_management_transitions_witness :
  exists d z' st, zone_at tiny_zns (70 / zone_lbas tiny_zns) = Ok d /\
    __zmgmt_send tiny_zns 70 3 0 = Ok (z', Some st) /\
    managed (zone_send_action_of 3) 0 tiny_zns (70 / zone_lbas tiny_zns) d z' st.
Proof.
  apply (zone_management_transitions tiny_zns 70 3 0); [exact tiny_zns_inv | vm_compute; by split | lia].
Defined.

(** Open, in all zones. *)
Lemma zmgmt_send_all_zones_witness :
  exists z', zns_zmgmt_send tiny_ns (tiny_send 64 0x103) tiny_ret =
      Ok (set_ftls tiny_ns z', set_status (set_target tiny_ret 500) NVME_SC_SUCCESS) /\ zns_inv z' /\
    exists d', zone_at z' 2 = Ok d' /\ zone_after ZSA_OPEN_ZONE 0 (tiny_zone 2) d'.
Proof.
  destruct (zmgmt_send_all_zones tiny_ns (tiny_send 64 0x103) tiny_ret) as (z' & He & Hi & Hz).
  - exact tiny_zns_inv.
  - vm_compute. by split.
  - by vm_compute.
  - by vm_compute.
  - exists z'. split; [exact He|]. split; [exact Hi|]. exact (Hz 2 (tiny_zone 2) eq_refl).
Defined.

Lemma zmgmt_send_unknown_action_witness :
  zns_zmgmt_send tiny_ns (tiny_send 64 0x10) tiny_ret = Bug Uninit.
Proof.
  apply (zmgmt_send_unknown_action tiny_ns (tiny_send 64 0x10) tiny_ret);
    [exact (zi_geom _ tiny_zns_inv) | vm_compute; by split | vm_compute; done |].
  change (send_zsa (cmd (tiny_send 64 0x10))) with 0x10. lia.
Defined.

Lemma zone_reset_erases_witness :
  exists z' d', __zmgmt_send tiny_zns 64 4 0 = Ok (z', Some NVME_SC_SUCCESS) /\ zns_inv z' /\
    zone_at z' (64 / zone_lbas tiny_zns) = Ok d' /\ zd_state d' = ZONE_STATE_EMPTY /\ wp d' = 64 /\
    forall a, zn_storage z' a =
      if bool_decide (64 * 512 ≤ a < (64 + zone_lbas tiny_zns) * 512) then 0 else 7.
Proof.
  apply (zone_reset_erases tiny_zns 64 0 (tiny_zone 1)); try done. exact tiny_zns_inv.
Defined.

Lemma zrwa_disabled_flush_divides_by_zero_witness :
  exists z', __zmgmt_send tiny_zns 0 3 1 = Ok (z', Some NVME_SC_SUCCESS) /\
    __zmgmt_send z' 0 0x11 0 = Bug DivByZero.
Proof.
  apply (zrwa_disabled_flush_divides_by_zero tiny_zns (tiny_zone 0)); try done; exact tiny_zns_inv.
Defined.

(** A write of 8 blocks that does not start at the write pointer. *)
Lemma rejected_write_leaks_buffer_witness :
  exists z' req' ret' l' b',
    __zns_write tiny_clock tiny_zns (tiny_rw nvme_cmd_write 72 8) tiny_ret tiny_world
      = Ok ((z', req', true, ret'), tiny_world) /\
    status ret' = NVME_SC_ZNS_INVALID_WRITE /\
    zone_write_buffer z' = Some l' /\ aget l' 1 = Ok b' /\
    buf_remaining b' = 16384 - 4096.
Proof.
  apply (rejected_write_leaks_buffer tiny_clock tiny_zns (tiny_zone 1) (buffer_init 16384)
    (replicate 4 (buffer_init 16384)) (tiny_rw nvme_cmd_write 72 8) tiny_ret tiny_world); try done.
  exact tiny_zns_inv.
Defined.
