(* ===== verification/Ctrl.v ===== *)
(** * The controller's registers and its admin queue
    ([nvmev_proc_bars] of [src/pci.c], [struct nvme_ctrl_regs] of
    [src/pci.h], [struct nvmev_admin_queue] and [struct nvmev_dev] of
    [src/nvmev.h])

    The host writes registers in a shared BAR whenever it likes; the dispatcher
    polls them, compares each with the value it saw last and handles one
    change per call, in a fixed order; a call is taken as one step, the host
    writes between calls.  Host memory is read by physical
    address.  As in [IoWorker], a queue owns the pages it was created on: what
    the host later writes there is a change of [nvme_sq] or [sq_pages]. *)
From S2P Require Import Prelude Nvme Prp IoWorker.

(** ** Registers

    The registers the device reads or writes; the capability, version and
    interrupt-mask registers are never looked at again once they are set. *)
Record nvme_ctrl_regs := mk_regs {
  u_cc : Z;
  u_csts : Z;
  u_aqa : Z;
  u_asq : Z;
  u_acq : Z;
}.

(** The bit fields of the unions. *)
Definition cc_en (r : nvme_ctrl_regs) : Z := Z.land (u_cc r) 1.
Definition cc_shn (r : nvme_ctrl_regs) : Z := Z.land (Z.shiftr (u_cc r) 14) 3.
Definition csts_rdy (r : nvme_ctrl_regs) : Z := Z.land (u_csts r) 1.
Definition csts_shst (r : nvme_ctrl_regs) : Z := Z.land (Z.shiftr (u_csts r) 2) 3.
Definition aqa_asqs (r : nvme_ctrl_regs) : Z := Z.land (u_aqa r) 0xFFF.
Definition aqa_acqs (r : nvme_ctrl_regs) : Z := Z.land (Z.shiftr (u_aqa r) 16) 0xFFF.

(** [bar->csts.rdy = v], [bar->csts.shst = v]. *)
Definition with_csts (r : nvme_ctrl_regs) (s : Z) : nvme_ctrl_regs :=
  mk_regs (u_cc r) s (u_aqa r) (u_asq r) (u_acq r).
Definition set_rdy (v : Z) (r : nvme_ctrl_regs) : nvme_ctrl_regs :=
  with_csts r (Z.lor (Z.ldiff (u_csts r) 1) v).
Definition set_shst (v : Z) (r : nvme_ctrl_regs) : nvme_ctrl_regs :=
  with_csts r (Z.lor (Z.ldiff (u_csts r) 12) (Z.shiftl v 2)).

(** [struct __nvme_bar]: the values last seen. *)
Record __nvme_bar := mk_bar { cc : Z; aqa : Z; asq : Z; acq : Z }.

(** ** The admin queue *)
Record nvmev_admin_queue := mk_aq {
  aq_phase : Z;
  sq_depth : Z;
  cq_depth : Z;
  aq_cq_head : Z;
  nvme_sq : option (list (list nvme_command));
  nvme_cq : option (list (list nvme_completion));
}.

(** ** Queue pages

    [page_address(pfn_to_page(prp >> PAGE_SHIFT) + offset) + (prp & ~PAGE_MASK)]. *)
Definition prp_address_offset (prp offset : Z) : Z :=
  Z.shiftl (Z.shiftr prp 12 + offset) 12 + page_offset prp.
Definition prp_address (prp : Z) : Z := prp_address_offset prp 0.

(** A little-endian number of [n] bytes. *)
Definition mem_le (n : nat) (m : host_mem) (a : Z) : Z :=
  foldr (fun i acc => m (a + Z.of_nat i) + 256 * acc) 0 (seq 0 n).

(** [struct nvme_command] and [struct nvme_completion] in memory. *)
Definition sizeof_nvme_command : Z := 64.
Definition sizeof_nvme_completion : Z := 16.
Definition read_command (m : host_mem) (a : Z) : nvme_command :=
  mk_cmd (mem_le 1 m a) (mem_le 2 m (a + 2)) (mem_le 4 m (a + 4)) (mem_le 8 m (a + 24)) (mem_le 8 m (a + 32))
    (mem_le 8 m (a + 40)) (mem_le 4 m (a + 48)) (mem_le 4 m (a + 52)).
Definition read_completion (m : host_mem) (a : Z) : nvme_completion :=
  mk_cqe (mem_le 4 m a) (mem_le 4 m (a + 4)) (mem_le 2 m (a + 8)) (mem_le 2 m (a + 10)) (mem_le 2 m (a + 12))
    (mem_le 2 m (a + 14)).

Definition sq_page (m : host_mem) (a : Z) : list nvme_command :=
  map (fun i => read_command m (a + sizeof_nvme_command * i)) (seqZ 0 NR_SQE_PER_PAGE).
Definition cq_page (m : host_mem) (a : Z) : list nvme_completion :=
  map (fun i => read_completion m (a + sizeof_nvme_completion * i)) (seqZ 0 NR_CQE_PER_PAGE).

(** The pages of a queue of [entries] entries of [size] bytes. *)
Definition queue_pages (entries size : Z) : Z := DIV_ROUND_UP (entries * size) PAGE_SIZE.

(** ** The device *)
(** The host memory that the commands of a namespace read and write. *)
Class HostMem (F : Type) := {
  host_of : F -> host_mem;
  host_put : host_mem -> F -> F;
}.

Class HostMemLaws (F : Type) `{HostMem F} : Prop := {
  host_of_put : forall m f, host_of (host_put m f) = m;
}.

Section Device.
Context {F N : Type} `{HostMem F}.

(** [struct nvmev_dev]; the queues, doorbells and workers are [io_dev]. *)
Record nvmev_dev := mk_vdev {
  bar : nvme_ctrl_regs;
  old_bar : __nvme_bar;
  admin_q : option nvmev_admin_queue;
  vio : io_dev F;
  vns : list (nvmev_ns N);
  mdts : Z;
}.

Implicit Types d : nvmev_dev.
Definition dev_with_bar d b : nvmev_dev := mk_vdev b (old_bar d) (admin_q d) (vio d) (vns d) (mdts d).
Definition dev_with_old_bar d b : nvmev_dev := mk_vdev (bar d) b (admin_q d) (vio d) (vns d) (mdts d).
Definition dev_with_admin d q : nvmev_dev := mk_vdev (bar d) (old_bar d) q (vio d) (vns d) (mdts d).
Definition dev_with_io d v : nvmev_dev := mk_vdev (bar d) (old_bar d) (admin_q d) v (vns d) (mdts d).

Definition io_with_dbs (v : io_dev F) (l : list Z) : io_dev F :=
  mk_dev (sqes v) (cqes v) (io_workers v) (io_worker_turn v) (nr_sq v) (nr_cq v) l (old_dbs v) (irqs v) (dev_tick v) (dev_ftl v).

#[local] Abbreviation M := (prog nvmev_dev).

(** [nvmev_vdev->dbs[i] = nvmev_vdev->old_dbs[i] = 0]. *)
Definition clear_db (i : Z) : M unit := fun d =>
  l ← aset (dbs (vio d)) i 0; o ← aset (old_dbs (vio d)) i 0;
  Ok (tt, dev_with_io d (dev_with_old_dbs (io_with_dbs (vio d) l) o)).

Definition set_admin (q : nvmev_admin_queue) : M unit := modify (fun d => dev_with_admin d (Some q)).
Definition see_bar (f : __nvme_bar -> __nvme_bar) : M unit := modify (fun d => dev_with_old_bar d (f (old_bar d))).

(** The branches of [nvmev_proc_bars], up to [goto out]. *)
Definition proc_aqa : M unit :=
  r ← gets bar;
  q ← gets admin_q;
  _ ← see_bar (fun o => mk_bar (cc o) (u_aqa r) (asq o) (acq o));
  let pages := match q with Some q => (nvme_sq q, nvme_cq q) | None => (None, None) end in
  _ ← set_admin (mk_aq 1 (aqa_asqs r + 1) (aqa_acqs r + 1) 0 pages.1 pages.2);
  _ ← clear_db 0; clear_db 1.

Definition proc_asq : M unit :=
  r ← gets bar;
  q ← gets admin_q;
  match q with
  | None => mret tt
  | Some q =>
    _ ← see_bar (fun o => mk_bar (cc o) (aqa o) (u_asq r) (acq o));
    m ← gets (fun d => host_of (dev_ftl (vio d)));
    let depth := aqa_asqs r + 1 in
    let sq := map (fun i => sq_page m (Z.shiftl (Z.shiftr (u_asq r) 12 + i) 12)) (seqZ 0 (queue_pages depth sizeof_nvme_command)) in
    _ ← set_admin (mk_aq (aq_phase q) depth (cq_depth q) (aq_cq_head q) (Some sq) (nvme_cq q));
    clear_db 0
  end.

Definition proc_acq : M unit :=
  r ← gets bar;
  q ← gets admin_q;
  match q with
  | None => mret tt
  | Some q =>
    _ ← see_bar (fun o => mk_bar (cc o) (aqa o) (asq o) (u_acq r));
    m ← gets (fun d => host_of (dev_ftl (vio d)));
    let depth := aqa_acqs r + 1 in
    let cq := map (fun i => cq_page m (Z.shiftl (Z.shiftr (u_acq r) 12 + i) 12)) (seqZ 0 (queue_pages depth sizeof_nvme_completion)) in
    _ ← set_admin (mk_aq 1 (sq_depth q) depth 0 (nvme_sq q) (Some cq));
    clear_db 1
  end.

Definition proc_enable : M unit :=
  r ← gets bar;
  q ← gets admin_q;
  if cc_en r =? 1 then
    match q with
    | Some _ => modify (fun d => dev_with_bar d (set_rdy 1 (bar d)))
    | None => mret tt
    end
  else modify (fun d => dev_with_bar d (set_rdy 0 (bar d))).

(** [nvmev_vdev->admin_q->cq_head = 0] follows NULL without an admin queue. *)
Definition proc_shutdown : M unit :=
  r ← gets bar;
  if cc_shn r =? 1 then
    _ ← modify (fun d => dev_with_bar d (set_shst 2 (bar d)));
    _ ← clear_db 0; _ ← clear_db 1;
    q ← gets admin_q;
    q ← lift (deref q);
    set_admin (mk_aq (aq_phase q) (sq_depth q) (cq_depth q) 0 (nvme_sq q) (nvme_cq q))
  else mret tt.

Definition proc_cc : M unit :=
  _ ← proc_enable;
  _ ← proc_shutdown;
  r ← gets bar;
  see_bar (fun o => mk_bar (u_cc r) (aqa o) (asq o) (acq o)).

(** Whether a change was handled. *)
Definition nvmev_proc_bars : M bool :=
  r ← gets bar;
  o ← gets old_bar;
  if negb (aqa o =? u_aqa r) then _ ← proc_aqa; mret true
  else if negb (asq o =? u_asq r) then _ ← proc_asq; mret true
  else if negb (acq o =? u_acq r) then _ ← proc_acq; mret true
  else if negb (cc o =? u_cc r) then _ ← proc_cc; mret true
  else mret false.
End Device.
Arguments nvmev_dev : clear implicits.
Arguments mk_vdev {F N}.
