(* ===== verification/CtrlProps.v ===== *)
(** * Bringing the controller up and resetting it

    Each call of [nvmev_proc_bars] is one of four pure updates of the device;
    polling goes through them in the order AQA, ASQ, ACQ, CC and stops. *)
From S2P Require Import Prelude Nvme Prp IoWorker Ctrl.

Section Bars.
Context {F N : Type} `{HostMem F}.
#[local] Abbreviation dev := (nvmev_dev F N).
Implicit Types d : dev.

(** ** The four updates *)
Definition cleared (i : Z) d : dev :=
  dev_with_io d (dev_with_old_dbs (io_with_dbs (vio d) (<[Z.to_nat i := 0]> (dbs (vio d)))) (<[Z.to_nat i := 0]> (old_dbs (vio d)))).

Definition has_dbs d : Prop := 2 ≤ Z.of_nat (length (dbs (vio d))) /\ 2 ≤ Z.of_nat (length (old_dbs (vio d))).

Lemma clear_db_ok i d : has_dbs d -> 0 ≤ i < 2 -> clear_db i d = Ok (tt, cleared i d).
Proof. intros [H1 H2] Hi. unfold clear_db. by rewrite !aset_in_range by lia. Qed.

Lemma cleared_dbs i d : has_dbs d -> has_dbs (cleared i d).
Proof. unfold has_dbs, cleared. cbn. by rewrite !length_insert. Qed.

Definition admin_pages d := match admin_q d with Some q => (nvme_sq q, nvme_cq q) | None => (None, None) end.

Definition after_aqa d : dev :=
  cleared 1 (cleared 0 (dev_with_admin (dev_with_old_bar d (mk_bar (cc (old_bar d)) (u_aqa (bar d)) (asq (old_bar d)) (acq (old_bar d))))
    (Some (mk_aq 1 (aqa_asqs (bar d) + 1) (aqa_acqs (bar d) + 1) 0 (admin_pages d).1 (admin_pages d).2)))).

(** The pages at ASQ and ACQ. *)
Definition asq_pages d : list (list nvme_command) :=
  map (fun i => sq_page (host_of (dev_ftl (vio d))) (Z.shiftl (Z.shiftr (u_asq (bar d)) 12 + i) 12))
    (seqZ 0 (queue_pages (aqa_asqs (bar d) + 1) sizeof_nvme_command)).
Definition acq_pages d : list (list nvme_completion) :=
  map (fun i => cq_page (host_of (dev_ftl (vio d))) (Z.shiftl (Z.shiftr (u_acq (bar d)) 12 + i) 12))
    (seqZ 0 (queue_pages (aqa_acqs (bar d) + 1) sizeof_nvme_completion)).

Definition after_asq d (q : nvmev_admin_queue) : dev :=
  cleared 0 (dev_with_admin (dev_with_old_bar d (mk_bar (cc (old_bar d)) (aqa (old_bar d)) (u_asq (bar d)) (acq (old_bar d))))
    (Some (mk_aq (aq_phase q) (aqa_asqs (bar d) + 1) (cq_depth q) (aq_cq_head q) (Some (asq_pages d)) (nvme_cq q)))).

Definition after_acq d (q : nvmev_admin_queue) : dev :=
  cleared 1 (dev_with_admin (dev_with_old_bar d (mk_bar (cc (old_bar d)) (aqa (old_bar d)) (asq (old_bar d)) (u_acq (bar d))))
    (Some (mk_aq 1 (sq_depth q) (aqa_acqs (bar d) + 1) 0 (nvme_sq q) (Some (acq_pages d))))).

(** [csts] as the device leaves it. *)
Definition cc_regs (r : nvme_ctrl_regs) : nvme_ctrl_regs :=
  let r := set_rdy (cc_en r) r in if cc_shn r =? 1 then set_shst 2 r else r.

Definition after_cc d (q : nvmev_admin_queue) : dev :=
  let d' := dev_with_old_bar (dev_with_bar d (cc_regs (bar d)))
              (mk_bar (u_cc (bar d)) (aqa (old_bar d)) (asq (old_bar d)) (acq (old_bar d))) in
  if cc_shn (bar d) =? 1 then
    dev_with_admin (cleared 1 (cleared 0 d')) (Some (mk_aq (aq_phase q) (sq_depth q) (cq_depth q) 0 (nvme_sq q) (nvme_cq q)))
  else d'.

Lemma proc_aqa_ok d : has_dbs d -> proc_aqa d = Ok (tt, after_aqa d).
Proof.
  intros Hd. unfold proc_aqa, gets, see_bar, set_admin, modify, mbind, prog_bind. cbv beta iota zeta.
  rewrite clear_db_ok by (first [lia | exact Hd]). cbv iota beta. rewrite clear_db_ok by (first [lia | exact Hd | apply cleared_dbs; exact Hd]). done.
Qed.

Lemma proc_asq_ok d q : has_dbs d -> admin_q d = Some q -> proc_asq d = Ok (tt, after_asq d q).
Proof.
  intros Hd Hq. unfold proc_asq, gets, see_bar, set_admin, modify, mbind, prog_bind. cbv beta iota zeta. rewrite Hq. cbv iota beta.
  by rewrite clear_db_ok by (first [lia | exact Hd]).
Qed.

Lemma proc_acq_ok d q : has_dbs d -> admin_q d = Some q -> proc_acq d = Ok (tt, after_acq d q).
Proof.
  intros Hd Hq. unfold proc_acq, gets, see_bar, set_admin, modify, mbind, prog_bind. cbv beta iota zeta. rewrite Hq. cbv iota beta.
  by rewrite clear_db_ok by (first [lia | exact Hd]).
Qed.

Lemma cc_en_range r : cc_en r = 0 \/ cc_en r = 1.
Proof.
  assert (cc_en r = u_cc r mod 2) as -> by (apply (Z.land_ones _ 1); lia).
  pose proof (Z.mod_pos_bound (u_cc r) 2 ltac:(lia)). lia.
Qed.

Lemma proc_cc_ok d q : has_dbs d -> admin_q d = Some q -> proc_cc d = Ok (tt, after_cc d q).
Proof.
  intros Hd Hq. unfold proc_cc, proc_enable, proc_shutdown, gets, see_bar, set_admin, modify, mbind, prog_bind. cbv beta iota zeta.
  rewrite Hq. unfold after_cc, cc_regs.
  assert (forall v, cc_shn (set_rdy v (bar d)) = cc_shn (bar d)) as Es by done.
  destruct (cc_en_range (bar d)) as [-> | ->]; cbn [Z.eqb Pos.eqb]; cbv iota beta; rewrite Es; cbn [bar dev_with_bar]; rewrite ?Es;
    (destruct (Z.eqb_spec (cc_shn (bar d)) 1) as [E|E]; [|done]);
    rewrite clear_db_ok by (first [lia | exact Hd]); cbv iota beta; rewrite clear_db_ok by (first [lia | exact Hd | apply cleared_dbs; exact Hd]); cbv iota beta;
    cbn [admin_q cleared dev_with_io dev_with_bar]; rewrite Hq; done.
Qed.

(** ** Polling *)
Fixpoint poll_bars (fuel : nat) : prog dev bool :=
  match fuel with
  | O => mret true
  | S fuel => b ← nvmev_proc_bars; if b : bool then poll_bars fuel else mret false
  end.

Definition settled d : Prop :=
  old_bar d = mk_bar (u_cc (bar d)) (u_aqa (bar d)) (u_asq (bar d)) (u_acq (bar d)).

(** One call handles the first change it finds. *)
Lemma poll_step n d (b : bool) d' : nvmev_proc_bars d = Ok (b, d') ->
  poll_bars (S n) d = if b then poll_bars n d' else Ok (false, d').
Proof. intros E. cbn [poll_bars]. unfold mbind, prog_bind. rewrite E. by destruct b. Qed.

Lemma bars_aqa d : has_dbs d -> aqa (old_bar d) <> u_aqa (bar d) -> nvmev_proc_bars d = Ok (true, after_aqa d).
Proof.
  intros Hd Ha. unfold nvmev_proc_bars, gets, mbind, prog_bind. cbv beta iota zeta.
  rewrite (proj2 (Z.eqb_neq _ _) Ha). cbn [negb]. by rewrite proc_aqa_ok.
Qed.

Lemma bars_asq d q : has_dbs d -> admin_q d = Some q -> aqa (old_bar d) = u_aqa (bar d) -> asq (old_bar d) <> u_asq (bar d) ->
  nvmev_proc_bars d = Ok (true, after_asq d q).
Proof.
  intros Hd Hq Ha Hs. unfold nvmev_proc_bars, gets, mbind, prog_bind. cbv beta iota zeta.
  rewrite (proj2 (Z.eqb_eq _ _) Ha), (proj2 (Z.eqb_neq _ _) Hs). cbn [negb]. by rewrite (proc_asq_ok _ q).
Qed.

Lemma bars_acq d q : has_dbs d -> admin_q d = Some q -> aqa (old_bar d) = u_aqa (bar d) -> asq (old_bar d) = u_asq (bar d) ->
  acq (old_bar d) <> u_acq (bar d) -> nvmev_proc_bars d = Ok (true, after_acq d q).
Proof.
  intros Hd Hq Ha Hs Hc. unfold nvmev_proc_bars, gets, mbind, prog_bind. cbv beta iota zeta.
  rewrite (proj2 (Z.eqb_eq _ _) Ha), (proj2 (Z.eqb_eq _ _) Hs), (proj2 (Z.eqb_neq _ _) Hc). cbn [negb]. by rewrite (proc_acq_ok _ q).
Qed.

Lemma bars_cc d q : has_dbs d -> admin_q d = Some q -> aqa (old_bar d) = u_aqa (bar d) -> asq (old_bar d) = u_asq (bar d) ->
  acq (old_bar d) = u_acq (bar d) -> cc (old_bar d) <> u_cc (bar d) -> nvmev_proc_bars d = Ok (true, after_cc d q).
Proof.
  intros Hd Hq Ha Hs Hc Hn. unfold nvmev_proc_bars, gets, mbind, prog_bind. cbv beta iota zeta.
  rewrite (proj2 (Z.eqb_eq _ _) Ha), (proj2 (Z.eqb_eq _ _) Hs), (proj2 (Z.eqb_eq _ _) Hc), (proj2 (Z.eqb_neq _ _) Hn).
  cbn [negb]. by rewrite (proc_cc_ok _ q).
Qed.

Lemma poll_settled n d : settled d -> poll_bars (S n) d = Ok (false, d).
Proof.
  intros Hs. cbn [poll_bars]. unfold nvmev_proc_bars, gets, mbind, prog_bind. rewrite Hs. cbn. by rewrite !Z.eqb_refl.
Qed.

(** The reference: each register once, in the order AQA, ASQ, ACQ, CC. *)
Definition settle_aqa d : dev := if aqa (old_bar d) =? u_aqa (bar d) then d else after_aqa d.
Definition with_queue d (f : nvmev_admin_queue -> dev) : dev := match admin_q d with Some q => f q | None => d end.
Definition settle_asq d : dev := if asq (old_bar d) =? u_asq (bar d) then d else with_queue d (after_asq d).
Definition settle_acq d : dev := if acq (old_bar d) =? u_acq (bar d) then d else with_queue d (after_acq d).
Definition settle_cc d : dev := if cc (old_bar d) =? u_cc (bar d) then d else with_queue d (after_cc d).
Definition settle d : dev := settle_cc (settle_acq (settle_asq (settle_aqa d))).

Lemma poll_more n d d' : poll_bars n d = Ok (false, d') -> poll_bars (S n) d = Ok (false, d').
Proof.
  revert d. induction n as [|n IH]; intros d; [done|]. cbn [poll_bars]. unfold mbind, prog_bind.
  destruct (nvmev_proc_bars d) as [[[] d1]|]; [|done..]. apply IH.
Qed.

Lemma poll_aqa n d d' : has_dbs d -> poll_bars n (settle_aqa d) = Ok (false, d') -> poll_bars (S n) d = Ok (false, d').
Proof.
  intros Hd. unfold settle_aqa. destruct (Z.eqb_spec (aqa (old_bar d)) (u_aqa (bar d))); [apply poll_more|].
  by rewrite (poll_step _ _ _ _ (bars_aqa d Hd ltac:(done))).
Qed.

Lemma poll_asq n d d' q : has_dbs d -> admin_q d = Some q -> aqa (old_bar d) = u_aqa (bar d) ->
  poll_bars n (settle_asq d) = Ok (false, d') -> poll_bars (S n) d = Ok (false, d').
Proof.
  intros Hd Hq Ha. unfold settle_asq, with_queue. destruct (Z.eqb_spec (asq (old_bar d)) (u_asq (bar d))); [apply poll_more|].
  rewrite Hq. by rewrite (poll_step _ _ _ _ (bars_asq d q Hd Hq Ha ltac:(done))).
Qed.

Lemma poll_acq n d d' q : has_dbs d -> admin_q d = Some q -> aqa (old_bar d) = u_aqa (bar d) -> asq (old_bar d) = u_asq (bar d) ->
  poll_bars n (settle_acq d) = Ok (false, d') -> poll_bars (S n) d = Ok (false, d').
Proof.
  intros Hd Hq Ha Hs. unfold settle_acq, with_queue. destruct (Z.eqb_spec (acq (old_bar d)) (u_acq (bar d))); [apply poll_more|].
  rewrite Hq. by rewrite (poll_step _ _ _ _ (bars_acq d q Hd Hq Ha Hs ltac:(done))).
Qed.

Lemma poll_cc n d q : has_dbs d -> admin_q d = Some q -> aqa (old_bar d) = u_aqa (bar d) -> asq (old_bar d) = u_asq (bar d) ->
  acq (old_bar d) = u_acq (bar d) -> settled (settle_cc d) -> poll_bars (S (S n)) d = Ok (false, settle_cc d).
Proof.
  intros Hd Hq Ha Hs Hc. unfold settle_cc, with_queue. destruct (Z.eqb_spec (cc (old_bar d)) (u_cc (bar d))).
  - intros. by apply poll_settled.
  - rewrite Hq. intros. rewrite (poll_step _ _ _ _ (bars_cc d q Hd Hq Ha Hs Hc ltac:(done))). by apply poll_settled.
Qed.

Lemma after_cc_regs d q : let r := bar (after_cc d q) in
  old_bar (after_cc d q) = mk_bar (u_cc (bar d)) (aqa (old_bar d)) (asq (old_bar d)) (acq (old_bar d)) /\
  u_cc r = u_cc (bar d) /\ u_aqa r = u_aqa (bar d) /\ u_asq r = u_asq (bar d) /\ u_acq r = u_acq (bar d).
Proof.
  assert (bar (after_cc d q) = cc_regs (bar d)) as Hb by (unfold after_cc; by destruct (cc_shn (bar d) =? 1)).
  cbv zeta. rewrite Hb. split; [unfold after_cc; by destruct (cc_shn (bar d) =? 1)|].
  unfold cc_regs. by destruct (cc_shn (set_rdy _ _) =? 1).
Qed.

(** What a stage leaves alone. *)
Record same_regs d d' : Prop := {
  sr_bar : bar d' = bar d;
  sr_dbs : has_dbs d';
  sr_mem : host_of (dev_ftl (vio d')) = host_of (dev_ftl (vio d));
}.

Lemma settle_aqa_ok d : has_dbs d -> aqa (old_bar d) <> u_aqa (bar d) \/ is_Some (admin_q d) ->
  same_regs d (settle_aqa d) /\ aqa (old_bar (settle_aqa d)) = u_aqa (bar d) /\ is_Some (admin_q (settle_aqa d)).
Proof.
  intros Hd Hq. unfold settle_aqa. destruct (Z.eqb_spec (aqa (old_bar d)) (u_aqa (bar d))).
  - split; [by split|]. split; [done|]. by destruct Hq.
  - split; [split; [done| |done] | by split; [|eexists]]. by apply cleared_dbs, cleared_dbs.
Qed.

Lemma settle_asq_ok d q : has_dbs d -> admin_q d = Some q ->
  same_regs d (settle_asq d) /\ old_bar (settle_asq d) = mk_bar (cc (old_bar d)) (aqa (old_bar d)) (u_asq (bar d)) (acq (old_bar d)) /\
  is_Some (admin_q (settle_asq d)).
Proof.
  intros Hd Hq. unfold settle_asq, with_queue. rewrite Hq. destruct (Z.eqb_spec (asq (old_bar d)) (u_asq (bar d))) as [<-|].
  - split; [by split|]. split; [by destruct (old_bar d)|]. by eexists.
  - split; [split; [done| |done] | by split; [|eexists]]. by apply cleared_dbs.
Qed.

Lemma settle_acq_ok d q : has_dbs d -> admin_q d = Some q ->
  same_regs d (settle_acq d) /\ old_bar (settle_acq d) = mk_bar (cc (old_bar d)) (aqa (old_bar d)) (asq (old_bar d)) (u_acq (bar d)) /\
  is_Some (admin_q (settle_acq d)).
Proof.
  intros Hd Hq. unfold settle_acq, with_queue. rewrite Hq. destruct (Z.eqb_spec (acq (old_bar d)) (u_acq (bar d))) as [<-|].
  - split; [by split|]. split; [by destruct (old_bar d)|]. by eexists.
  - split; [split; [done| |done] | by split; [|eexists]]. by apply cleared_dbs.
Qed.

Lemma poll_settle d : has_dbs d -> aqa (old_bar d) <> u_aqa (bar d) \/ is_Some (admin_q d) ->
  poll_bars 5 d = Ok (false, settle d) /\ settled (settle d).
Proof.
  intros Hd Hq. unfold settle.
  destruct (settle_aqa_ok d Hd Hq) as ([Hb1 Hd1 _] & Ha1 & [q1 Hq1]). rewrite <- Hb1 in Ha1. set (d1 := settle_aqa d) in *.
  destruct (settle_asq_ok d1 q1 Hd1 Hq1) as ([Hb2 Hd2 _] & Ho2 & [q2 Hq2]). set (d2 := settle_asq d1) in *.
  destruct (settle_acq_ok d2 q2 Hd2 Hq2) as ([Hb3 Hd3 _] & Ho3 & [q3 Hq3]). set (d3 := settle_acq d2) in *.
  assert (aqa (old_bar d3) = u_aqa (bar d3)) as Ha3 by (rewrite Ho3, Hb3, Hb2, Ho2; done).
  assert (asq (old_bar d3) = u_asq (bar d3)) as Hs3 by (rewrite Ho3, Hb3, Hb2, Ho2; done).
  assert (acq (old_bar d3) = u_acq (bar d3)) as Hc3 by (rewrite Ho3, Hb3; done).
  assert (settled (settle_cc d3)) as Hset.
  { unfold settle_cc, with_queue. rewrite Hq3. destruct (Z.eqb_spec (cc (old_bar d3)) (u_cc (bar d3))) as [E|E].
    - unfold settled. rewrite <- E, <- Ha3, <- Hs3, <- Hc3. by destruct (old_bar d3).
    - unfold settled. destruct (after_cc_regs d3 q3) as (-> & -> & -> & -> & ->). by rewrite Ha3, Hs3, Hc3. }
  split; [|done]. apply poll_aqa; [done|]. fold d1. apply (poll_asq _ _ _ q1); [done..|]. fold d2.
  apply (poll_acq _ _ _ q2); [done|done|by rewrite Ho2, Hb2|by rewrite Ho2, Hb2|]. fold d3. by apply (poll_cc 0 _ q3).
Qed.

(** ** Bits *)
Lemma land1 x : Z.land x 1 = x mod 2.
Proof. apply (Z.land_ones x 1). lia. Qed.

Lemma csts_set_rdy v r : v = 0 \/ v = 1 -> csts_rdy (set_rdy v r) = v.
Proof.
  intros Hv. unfold csts_rdy, set_rdy. cbn [u_csts with_csts]. rewrite Z.land_lor_distr_l, Z.land_ldiff. by destruct Hv as [-> | ->].
Qed.

Lemma csts_set_shst r : csts_rdy (set_shst 2 r) = csts_rdy r /\ csts_shst (set_shst 2 r) = 2.
Proof.
  unfold csts_rdy, csts_shst, set_shst. cbn [u_csts with_csts]. split; apply Z.bits_inj'; intros i Hi.
  - rewrite !Z.land_spec, Z.lor_spec, Z.ldiff_spec. destruct (Z.eq_dec i 0) as [->|]; [by rewrite !andb_true_r, orb_false_r|].
    replace (Z.testbit 1 i) with false; [by rewrite !andb_false_r|]. symmetry. apply (Z.pow2_bits_false 0). lia.
  - rewrite Z.land_spec, Z.shiftr_spec, Z.lor_spec, Z.ldiff_spec by done.
    assert (i = 0 \/ i = 1 \/ 2 ≤ i) as [-> | [-> | Hi2]] by lia; [by rewrite andb_false_r | by rewrite andb_false_r |].
    rewrite (Z.bits_above_log2 3 i), (Z.bits_above_log2 2 i) by (cbn; lia). by rewrite andb_false_r.
Qed.

Lemma cc_regs_csts r : csts_rdy (cc_regs r) = cc_en r /\ (cc_shn r = 1 -> csts_shst (cc_regs r) = 2).
Proof.
  unfold cc_regs. change (cc_shn (set_rdy (cc_en r) r)) with (cc_shn r). destruct (Z.eqb_spec (cc_shn r) 1).
  - destruct (csts_set_shst (set_rdy (cc_en r) r)) as [-> ->]. split; [|done]. apply csts_set_rdy, cc_en_range.
  - split; [apply csts_set_rdy, cc_en_range | done].
Qed.

(** ** Bring-up *)
Definition db_clear (i : Z) d : Prop := aget (dbs (vio d)) i = Ok 0 /\ aget (old_dbs (vio d)) i = Ok 0.

Lemma cleared_clear i d : has_dbs d -> 0 ≤ i < 2 -> db_clear i (cleared i d).
Proof.
  intros [H1 H2] Hi. unfold db_clear, cleared. cbn. rewrite !aget_insert by lia. by rewrite !decide_True.
Qed.

Lemma cleared_keep i j d : has_dbs d -> 0 ≤ i < 2 -> 0 ≤ j < 2 -> db_clear i d -> db_clear i (cleared j d).
Proof.
  intros [H1 H2] Hi Hj [Hn Ho]. unfold db_clear, cleared. cbn. rewrite !aget_insert by lia. rewrite Hn, Ho. by destruct (decide _).
Qed.

Lemma settle_queue d : aqa (old_bar d) <> u_aqa (bar d) \/ is_Some (admin_q d) ->
  exists q, admin_q (settle d) = Some q /\
    (aqa (old_bar d) <> u_aqa (bar d) \/ asq (old_bar d) <> u_asq (bar d) -> sq_depth q = aqa_asqs (bar d) + 1) /\
    (aqa (old_bar d) <> u_aqa (bar d) \/ acq (old_bar d) <> u_acq (bar d) ->
       cq_depth q = aqa_acqs (bar d) + 1 /\ aq_phase q = 1 /\ aq_cq_head q = 0) /\
    (asq (old_bar d) <> u_asq (bar d) -> nvme_sq q = Some (asq_pages d)) /\
    (acq (old_bar d) <> u_acq (bar d) -> nvme_cq q = Some (acq_pages d)).
Proof.
  intros Hq. unfold settle. set (cc_of := settle_cc).
  assert (forall d q, admin_q d = Some q -> exists h, admin_q (cc_of d) = Some (mk_aq (aq_phase q) (sq_depth q) (cq_depth q) h (nvme_sq q) (nvme_cq q)) /\
    (aq_cq_head q = 0 -> h = 0)) as Hcc.
  { clear. intros d q Hq. unfold cc_of, settle_cc, with_queue. rewrite Hq. destruct (Z.eqb _ _).
    - exists (aq_cq_head q). split; [rewrite Hq; by destruct q | done].
    - unfold after_cc. destruct (Z.eqb _ _); cbn; [by eexists|]. rewrite Hq. exists (aq_cq_head q). by destruct q. }
  clearbody cc_of. unfold settle_acq, settle_asq, settle_aqa, with_queue.
  destruct (Z.eqb_spec (aqa (old_bar d)) (u_aqa (bar d))) as [Ea|Ea]; [destruct Hq as [?|[q Hq]]; [done|]|]; cbn;
    destruct (Z.eqb_spec (asq (old_bar d)) (u_asq (bar d))) as [Es|Es]; rewrite ?Hq; cbn;
    destruct (Z.eqb_spec (acq (old_bar d)) (u_acq (bar d))) as [Ec|Ec]; rewrite ?Hq; cbn;
    (match goal with |- context [cc_of ?x] => edestruct (Hcc x) as (h & -> & Hh); [first [exact Hq | reflexivity]|] end;
     eexists; split; [reflexivity|]; cbn; cbn in Hh);
    repeat split; try done; try (intros; destruct_or?; done); by (intros; apply Hh).
Qed.

Lemma settle_status d : has_dbs d -> aqa (old_bar d) <> u_aqa (bar d) \/ is_Some (admin_q d) -> cc (old_bar d) <> u_cc (bar d) ->
  csts_rdy (bar (settle d)) = cc_en (bar d) /\ (cc_shn (bar d) = 1 -> csts_shst (bar (settle d)) = 2).
Proof.
  intros Hd Hq Hc. unfold settle.
  destruct (settle_aqa_ok d Hd Hq) as ([Hb1 Hd1 _] & _ & [q1 Hq1]).
  assert (cc (old_bar (settle_aqa d)) = cc (old_bar d)) as Eo1 by (unfold settle_aqa; by destruct (_ =? _)).
  set (d1 := settle_aqa d) in *.
  destruct (settle_asq_ok d1 q1 Hd1 Hq1) as ([Hb2 Hd2 _] & Ho2 & [q2 Hq2]). set (d2 := settle_asq d1) in *.
  destruct (settle_acq_ok d2 q2 Hd2 Hq2) as ([Hb3 Hd3 _] & Ho3 & [q3 Hq3]). set (d3 := settle_acq d2) in *.
  assert (bar d3 = bar d) as Hb by congruence. assert (cc (old_bar d3) = cc (old_bar d)) as Ho by (rewrite Ho3, Ho2; cbn; done).
  unfold settle_cc, with_queue. rewrite Ho, Hb, Hq3, (proj2 (Z.eqb_neq _ _) Hc).
  assert (bar (after_cc d3 q3) = cc_regs (bar d)) as -> by (unfold after_cc; rewrite Hb; by destruct (_ =? 1)).
  apply cc_regs_csts.
Qed.

Lemma settle_doorbells d : has_dbs d -> aqa (old_bar d) <> u_aqa (bar d) \/ is_Some (admin_q d) ->
  (aqa (old_bar d) <> u_aqa (bar d) \/ asq (old_bar d) <> u_asq (bar d) -> db_clear 0 (settle d)) /\
  (aqa (old_bar d) <> u_aqa (bar d) \/ acq (old_bar d) <> u_acq (bar d) -> db_clear 1 (settle d)).
Proof.
  intros Hd Hq. unfold settle.
  destruct (settle_aqa_ok d Hd Hq) as ([Hb1 Hd1 _] & _ & [q1 Hq1]).
  assert (asq (old_bar (settle_aqa d)) = asq (old_bar d) /\ acq (old_bar (settle_aqa d)) = acq (old_bar d)) as [Eo1 Eo1']
    by (unfold settle_aqa; by destruct (_ =? _)).
  assert (aqa (old_bar d) <> u_aqa (bar d) -> db_clear 0 (settle_aqa d) /\ db_clear 1 (settle_aqa d)) as Hc1.
  { intros Ha. unfold settle_aqa. rewrite (proj2 (Z.eqb_neq _ _) Ha). unfold after_aqa.
    split; [apply cleared_keep; [by apply cleared_dbs | lia | lia |]; by apply cleared_clear | by apply cleared_clear; [apply cleared_dbs|]]. }
  set (d1 := settle_aqa d) in *.
  destruct (settle_asq_ok d1 q1 Hd1 Hq1) as ([Hb2 Hd2 _] & Ho2 & [q2 Hq2]).
  assert ((db_clear 0 d1 \/ asq (old_bar d) <> u_asq (bar d) -> db_clear 0 (settle_asq d1)) /\ (db_clear 1 d1 -> db_clear 1 (settle_asq d1))) as [Hc2 Hc2'].
  { unfold settle_asq, with_queue. rewrite Eo1, Hb1, Hq1. destruct (Z.eqb_spec (asq (old_bar d)) (u_asq (bar d))); [by split; [intros [?|?]|]|].
    unfold after_asq. split; intros; [by apply cleared_clear | by apply cleared_keep]. }
  set (d2 := settle_asq d1) in *.
  destruct (settle_acq_ok d2 q2 Hd2 Hq2) as ([Hb3 Hd3 _] & Ho3 & [q3 Hq3]).
  assert ((db_clear 1 d2 \/ acq (old_bar d) <> u_acq (bar d) -> db_clear 1 (settle_acq d2)) /\ (db_clear 0 d2 -> db_clear 0 (settle_acq d2))) as [Hc3 Hc3'].
  { unfold settle_acq, with_queue. rewrite Ho2, Hb2, Hb1, Hq2. cbn [acq]. rewrite Eo1'.
    destruct (Z.eqb_spec (acq (old_bar d)) (u_acq (bar d))); [by split; [intros [?|?]|]|].
    unfold after_acq. split; intros; [by apply cleared_clear | by apply cleared_keep]. }
  set (d3 := settle_acq d2) in *.
  assert (forall i, 0 ≤ i < 2 -> db_clear i d3 -> db_clear i (settle_cc d3)) as Hc4.
  { intros i Hi Hc. unfold settle_cc, with_queue. rewrite Hq3. destruct (_ =? _); [done|]. unfold after_cc. destruct (_ =? _); [|done].
    apply (cleared_keep _ 1 (cleared 0 _)); [by apply cleared_dbs | done | lia |]. by apply cleared_keep. }
  split; (intros [Ha|Hx]; (apply Hc4; [lia|])).
  - by apply Hc3', Hc2; left; apply Hc1.
  - by apply Hc3', Hc2; right.
  - by apply Hc3; left; apply Hc2', Hc1.
  - by apply Hc3; right.
Qed.

(** *** Without an admin queue *)
Lemma bars_retry d : admin_q d = None -> aqa (old_bar d) = u_aqa (bar d) ->
  asq (old_bar d) <> u_asq (bar d) \/ acq (old_bar d) <> u_acq (bar d) -> nvmev_proc_bars d = Ok (true, d).
Proof.
  intros Hq Ha Hx. unfold nvmev_proc_bars, proc_asq, proc_acq, gets, mbind, prog_bind. cbv beta iota zeta.
  rewrite (proj2 (Z.eqb_eq _ _) Ha). cbn [negb].
  destruct (Z.eqb_spec (asq (old_bar d)) (u_asq (bar d))) as [Es|]; cbn [negb]; [|by rewrite Hq].
  destruct Hx as [|Hc]; [done|]. rewrite (proj2 (Z.eqb_neq _ _) Hc). cbn [negb]. by rewrite Hq.
Qed.

Lemma poll_retry n d : nvmev_proc_bars d = Ok (true, d) -> poll_bars n d = Ok (true, d).
Proof. intros E. induction n as [|n IH]; [done|]. by rewrite (poll_step _ _ _ _ E). Qed.

(** CC alone: RDY is cleared by a disable and not set by an enable. *)
Definition after_cc_alone d : dev :=
  dev_with_old_bar (if cc_en (bar d) =? 1 then d else dev_with_bar d (set_rdy 0 (bar d)))
    (mk_bar (u_cc (bar d)) (aqa (old_bar d)) (asq (old_bar d)) (acq (old_bar d))).

Lemma bars_cc_alone d : has_dbs d -> admin_q d = None -> aqa (old_bar d) = u_aqa (bar d) -> asq (old_bar d) = u_asq (bar d) ->
  acq (old_bar d) = u_acq (bar d) -> cc (old_bar d) <> u_cc (bar d) ->
  nvmev_proc_bars d = if cc_shn (bar d) =? 1 then Bug NullDeref else Ok (true, after_cc_alone d).
Proof.
  intros Hd Hq Ha Hs Hc Hx. unfold nvmev_proc_bars, proc_cc, proc_enable, proc_shutdown, gets, see_bar, modify, mbind, prog_bind, mret, prog_ret. cbv beta iota zeta.
  rewrite (proj2 (Z.eqb_eq _ _) Ha), (proj2 (Z.eqb_eq _ _) Hs), (proj2 (Z.eqb_eq _ _) Hc), (proj2 (Z.eqb_neq _ _) Hx). cbn [negb].
  rewrite Hq. unfold after_cc_alone. assert (forall v, cc_shn (set_rdy v (bar d)) = cc_shn (bar d)) as Es by done.
  destruct (cc_en (bar d) =? 1); cbv iota beta; cbn [bar dev_with_bar]; rewrite ?Es; (destruct (cc_shn (bar d) =? 1); [|done]);
    rewrite clear_db_ok by (first [lia | exact Hd]); cbv iota beta; rewrite clear_db_ok by (first [lia | exact Hd | apply cleared_dbs; exact Hd]); cbv iota beta;
    cbn [admin_q cleared dev_with_io dev_with_bar]; by rewrite Hq.
Qed.

(** One poll, whatever has been written, if it returns. *)
Lemma bars_cases d b d' : has_dbs d -> nvmev_proc_bars d = Ok (b, d') ->
  (aqa (old_bar d) <> u_aqa (bar d) /\ d' = after_aqa d) \/
  (aqa (old_bar d) = u_aqa (bar d) /\ asq (old_bar d) <> u_asq (bar d) /\ d' = with_queue d (after_asq d)) \/
  (aqa (old_bar d) = u_aqa (bar d) /\ asq (old_bar d) = u_asq (bar d) /\ acq (old_bar d) <> u_acq (bar d) /\ d' = with_queue d (after_acq d)) \/
  (aqa (old_bar d) = u_aqa (bar d) /\ asq (old_bar d) = u_asq (bar d) /\ acq (old_bar d) = u_acq (bar d) /\ cc (old_bar d) <> u_cc (bar d) /\
     d' = match admin_q d with Some q => after_cc d q | None => after_cc_alone d end) \/
  (settled d /\ d' = d).
Proof.
  intros Hd E. unfold with_queue. destruct (decide (aqa (old_bar d) = u_aqa (bar d))) as [Ha|Ha]; [right|left].
  2:{ rewrite (bars_aqa d Hd Ha) in E. by injection E as _ <-. }
  destruct (decide (asq (old_bar d) = u_asq (bar d))) as [Hs|Hs]; [right|left].
  2:{ destruct (admin_q d) as [q|] eqn:Hq; [rewrite (bars_asq d q Hd Hq Ha Hs) in E | rewrite (bars_retry d Hq Ha (or_introl Hs)) in E]; by injection E as _ <-. }
  destruct (decide (acq (old_bar d) = u_acq (bar d))) as [Hc|Hc]; [right|left].
  2:{ destruct (admin_q d) as [q|] eqn:Hq; [rewrite (bars_acq d q Hd Hq Ha Hs Hc) in E | rewrite (bars_retry d Hq Ha (or_intror Hc)) in E]; by injection E as _ <-. }
  destruct (decide (cc (old_bar d) = u_cc (bar d))) as [Hx|Hx]; [right|left].
  - assert (settled d) as Hse by (unfold settled; destruct (old_bar d); cbn in *; congruence). split; [done|].
    pose proof (poll_settled 0 d Hse) as Hp. rewrite (poll_step 0 d b d' E) in Hp. destruct b; [by injection Hp as | by injection Hp as <-].
  - destruct (admin_q d) as [q|] eqn:Hq; [rewrite (bars_cc d q Hd Hq Ha Hs Hc Hx) in E; by injection E as _ <-|].
    rewrite (bars_cc_alone d Hd Hq Ha Hs Hc Hx) in E. destruct (cc_shn (bar d) =? 1); [done|]. by injection E as _ <-.
Qed.

(** C11. Bring-up, whatever the host has written since the device looked last.
    With an admin queue, or a new AQA to make one: polling stops after at most
    five calls with every register seen, and the queue is the one asked for:
    the depths of AQA, empty rings on the pages at ASQ and ACQ with phase 1,
    the admin doorbells at zero, and CSTS.RDY equal to CC.EN.  Without either:
    a new ASQ or ACQ is retried for ever, nothing changing until AQA is
    written; a new CC alone is taken in by one call, which cannot set RDY, and
    a shutdown request in it follows NULL. *)
Theorem controller_bring_up d : has_dbs d ->
  let o := old_bar d in
  let r := bar d in
  (aqa o <> u_aqa r \/ is_Some (admin_q d) -> exists d' q, poll_bars 5 d = Ok (false, d') /\ settled d' /\ admin_q d' = Some q /\
    (cc o <> u_cc r -> csts_rdy (bar d') = cc_en r /\ (cc_shn r = 1 -> csts_shst (bar d') = 2)) /\
    (aqa o <> u_aqa r \/ asq o <> u_asq r -> sq_depth q = aqa_asqs r + 1 /\ db_clear 0 d') /\
    (aqa o <> u_aqa r \/ acq o <> u_acq r ->
       cq_depth q = aqa_acqs r + 1 /\ aq_phase q = 1 /\ aq_cq_head q = 0 /\ db_clear 1 d') /\
    (asq o <> u_asq r -> nvme_sq q = Some (asq_pages d)) /\
    (acq o <> u_acq r -> nvme_cq q = Some (acq_pages d))) /\
  (aqa o = u_aqa r -> admin_q d = None ->
    (asq o <> u_asq r \/ acq o <> u_acq r -> forall n, poll_bars n d = Ok (true, d)) /\
    (asq o = u_asq r -> acq o = u_acq r -> cc o <> u_cc r ->
       if cc_shn r =? 1 then nvmev_proc_bars d = Bug NullDeref
       else exists d', poll_bars 2 d = Ok (false, d') /\ settled d' /\ admin_q d' = None /\
         csts_rdy (bar d') = if cc_en r =? 1 then csts_rdy r else 0)).
Proof.
  intros Hd o r. split.
  - intros Hq. destruct (poll_settle d Hd Hq) as [Hp Hs]. destruct (settle_queue d Hq) as (q & Eq & H1 & H2 & H3 & H4).
    destruct (settle_doorbells d Hd Hq) as [D0 D1]. exists (settle d), q. split_and!; try done.
    + apply settle_status; done.
    + intros Hx. by split; [apply H1 | apply D0].
    + intros Hx. destruct (H2 Hx) as (? & ? & ?). by split_and!; [..|apply D1].
  - intros Ha Hq. split; [intros Hx n; by apply poll_retry, bars_retry|]. intros Hs Hc Hx.
    pose proof (bars_cc_alone d Hd Hq Ha Hs Hc Hx) as E. fold r in E. destruct (cc_shn r =? 1); [done|].
    assert (settled (after_cc_alone d)) as Hse by (unfold settled, after_cc_alone; cbn; fold o r; rewrite Ha, Hs, Hc; fold r; by destruct (_ =? 1)).
    exists (after_cc_alone d). split; [by rewrite (poll_step _ _ _ _ E); apply (poll_settled 0)|]. split; [done|].
    unfold after_cc_alone. fold r. destruct (cc_en r =? 1); split; try done. unfold csts_rdy, set_rdy. cbn.
    apply Z.bits_inj'. intros k Hk. rewrite Z.land_spec, Z.lor_spec, Z.ldiff_spec, Z.bits_0. by destruct (Z.testbit (u_csts r) k), (Z.testbit 1 k).
Qed.
End Bars.
