(* ===== verification/Admin.v ===== *)
(** * Admin commands ([src/admin.c], [nvmev_proc_dbs] and the loop of
    [nvmev_dispatcher] of [src/main.c])

    The dispatcher executes an admin command at once: it creates and deletes
    I/O queues, fills the host's page with log pages and identify structures,
    and posts the completion in the admin completion queue. *)
From S2P Require Import Prelude Nvme Prp ZnsFtl IoWorker Ctrl.

(** ** The commands

    The fields of the members of [struct nvme_command], in dwords 10 and 11. *)
Definition cdw10 (c : nvme_command) : Z := Z.land (cdw10_11 c) 0xFFFFFFFF.
Definition cdw11 (c : nvme_command) : Z := Z.land (Z.shiftr (cdw10_11 c) 32) 0xFFFFFFFF.
Definition lo16 (x : Z) : Z := Z.land x 0xFFFF.
Definition hi16 (x : Z) : Z := Z.land (Z.shiftr x 16) 0xFFFF.

(** [struct nvme_create_cq] and [struct nvme_create_sq]. *)
Definition create_qid (c : nvme_command) : Z := lo16 (cdw10 c).
Definition create_qsize (c : nvme_command) : Z := hi16 (cdw10 c).
Definition create_flags (c : nvme_command) : Z := lo16 (cdw11 c).
Definition create_cq_irq_vector (c : nvme_command) : Z := hi16 (cdw11 c).
Definition create_sq_cqid (c : nvme_command) : Z := hi16 (cdw11 c).
(** [NVME_CQ_IRQ_ENABLED] is bit 1 of the flags. *)
Definition create_irq_enabled (c : nvme_command) : bool := Z.testbit (create_flags c) 1.
(** [struct nvme_delete_queue]. *)
Definition delete_qid (c : nvme_command) : Z := lo16 (cdw10 c).
(** [struct nvme_get_log_page_command]. *)
Definition log_lid (c : nvme_command) : Z := Z.land (cdw10 c) 0xFF.
Definition log_numdl (c : nvme_command) : Z := hi16 (cdw10 c).
Definition log_numdu (c : nvme_command) : Z := lo16 (cdw11 c).
(** [struct nvme_identify] and [struct nvme_features]. *)
Definition identify_cns (c : nvme_command) : Z := i32 (cdw10 c).
Definition features_fid (c : nvme_command) : Z := cdw10 c.
Definition features_dword11 (c : nvme_command) : Z := cdw11 c.

(** [enum nvme_admin_opcode], as far as the device distinguishes them. *)
Inductive nvme_admin_opcode : Set :=
| nvme_admin_delete_sq | nvme_admin_create_sq | nvme_admin_get_log_page | nvme_admin_delete_cq | nvme_admin_create_cq
| nvme_admin_identify | nvme_admin_abort_cmd | nvme_admin_set_features | nvme_admin_get_features
| nvme_admin_async_event | nvme_admin_other.

#[global] Instance nvme_admin_opcode_eq_dec : EqDecision nvme_admin_opcode.
Proof. solve_decision. Defined.

Definition admin_opcode_of (op : Z) : nvme_admin_opcode :=
  if op =? 0x00 then nvme_admin_delete_sq else if op =? 0x01 then nvme_admin_create_sq
  else if op =? 0x02 then nvme_admin_get_log_page else if op =? 0x04 then nvme_admin_delete_cq
  else if op =? 0x05 then nvme_admin_create_cq else if op =? 0x06 then nvme_admin_identify
  else if op =? 0x08 then nvme_admin_abort_cmd else if op =? 0x09 then nvme_admin_set_features
  else if op =? 0x0a then nvme_admin_get_features else if op =? 0x0c then nvme_admin_async_event
  else nvme_admin_other.

Definition NVME_LOG_SMART : Z := 0x02.
Definition NVME_LOG_CMD_EFFECTS : Z := 0x05.
Definition NVME_FEAT_NUM_QUEUES : Z := 0x07.
Definition NVME_NIDT_CSI : Z := 0x4.
Definition NVME_LBAF_RP_BEST : Z := 0.
Definition NVME_LBAF_RP_GOOD : Z := 2.
Definition OZCS_ZRWA : Z := Z.shiftl 1 1.
Definition ZRWACAP_EXPFLUSHSUP : Z := Z.shiftl 1 0.

(** ** The structures the device fills in *)
(** [memset(p, v, n)]. *)
Definition mem_set (m : host_mem) (a v n : Z) : host_mem :=
  fun x => if (a <=? x) && (x <? a + n) then v else m x.

(** [struct nvme_smart_log]: 512 bytes of which only [spare_thresh] is set. *)
Definition smart_log : list Z := <[4%nat := 20]> (replicate 512 0).

(** [struct nvme_effects_log]: [acs] and [iocs], 256 little-endian words each.
    [zns] is [SUPPORTED_SSD_TYPE(ZNS)]. *)
Definition NVME_CMD_EFFECTS_CSUPP : Z := Z.shiftl 1 0.
Definition NVME_CMD_EFFECTS_LBCC : Z := Z.shiftl 1 1.
Definition effects_word (zns : bool) (i : Z) : Z :=
  if i <? 256 then
    match admin_opcode_of i with
    | nvme_admin_get_log_page | nvme_admin_identify | nvme_admin_set_features | nvme_admin_get_features
    | nvme_admin_async_event => NVME_CMD_EFFECTS_CSUPP
    | _ => 0
    end
  else if zns then
    if (i - 256 =? nvme_cmd_zone_append) || (i - 256 =? nvme_cmd_zone_mgmt_recv) then NVME_CMD_EFFECTS_CSUPP
    else if i - 256 =? nvme_cmd_zone_mgmt_send then Z.lor NVME_CMD_EFFECTS_CSUPP NVME_CMD_EFFECTS_LBCC
    else 0
  else 0.
Definition effects_log (zns : bool) : list Z :=
  concat (map (fun i => le_bytes 4 (effects_word zns i)) (seqZ 0 512)) ++ replicate 2048 0.

(** [struct nvme_lbaf]: metadata size, log2 of the data size, performance. *)
Definition lbaf_bytes (ms ds rp : Z) : list Z := le_bytes 2 ms ++ [ds; rp].
Definition lbaf_table : list (Z * Z * Z) :=
  [(0, 9, NVME_LBAF_RP_GOOD); (8, 9, NVME_LBAF_RP_GOOD); (16, 9, NVME_LBAF_RP_GOOD);
   (0, 12, NVME_LBAF_RP_BEST); (8, 12, NVME_LBAF_RP_BEST); (64, 12, NVME_LBAF_RP_BEST); (128, 12, NVME_LBAF_RP_BEST)].
(** [LBA_BITS] is 9 in every configuration. *)
Definition id_ns_flbas : Z := 0.

(** The stores of [__nvmev_admin_identify_namespace] into the zeroed page, by
    the offsets of [struct nvme_id_ns]. *)
Definition write_id_ns (m : host_mem) (a size : Z) : host_mem :=
  let m := mem_write m (a + 128) (concat (map (fun '(ms, ds, rp) => lbaf_bytes ms ds rp) lbaf_table)) in
  let m := mem_write m (a + 26) [id_ns_flbas] in
  let m := mem_write m (a + 25) [6] in
  let m := mem_write m (a + 29) [0] in
  let ds := match lbaf_table !! Z.to_nat id_ns_flbas with Some (_, ds, _) => ds | None => 0 end in
  let nsze := Z.shiftr size ds in
  mem_write m a (le_bytes 8 nsze ++ le_bytes 8 nsze ++ le_bytes 8 nsze).

(** [struct nvme_id_zns_ns]; the ZRWA fields only when there are ZRWA zones. *)
Definition write_id_zns_ns (m : host_mem) (a : Z) (zpp : znsparams) : host_mem :=
  let m := mem_write m a (le_bytes 2 0 ++ le_bytes 2 0) in
  let m := mem_write m (a + 4) (le_bytes 4 (u32 (nr_active_zones zpp - 1)) ++ le_bytes 4 (u32 (nr_open_zones zpp - 1))) in
  let m := if 0 <? nr_zrwa_zones zpp then
      let m := mem_write m (a + 2) (le_bytes 2 OZCS_ZRWA) in
      mem_write m (a + 44) (le_bytes 4 (u32 (nr_zrwa_zones zpp - 1)) ++ le_bytes 2 (u16 (zrwafg_size zpp)) ++
                            le_bytes 2 (u16 (zrwa_size zpp)) ++ [ZRWACAP_EXPFLUSHSUP])
    else m in
  mem_write m (a + 2816) (le_bytes 8 (BYTE_TO_LBA (zone_size zpp)) ++ [0]).

(** [struct nvme_id_ctrl]; the strings of [snprintf] with their end. *)
Definition id_sn : list Z := [67; 83; 76; 95; 86; 105; 114; 116; 95; 83; 78; 95; 48; 49; 0]. (* CSL_Virt_SN_01 *)
Definition id_mn : list Z := [67; 83; 76; 95; 86; 105; 114; 116; 95; 77; 78; 95; 48; 49; 0]. (* CSL_Virt_MN_01 *)
Definition id_fr : list Z := [67; 83; 76; 95; 48; 48; 50; 0]. (* CSL_002 *)
Definition write_id_ctrl (m : host_mem) (a nr_ns mdts : Z) : host_mem :=
  let m := mem_write m (a + 516) (le_bytes 4 (u32 nr_ns) ++ le_bytes 2 0) in
  let m := mem_write m (a + 258) [3] in
  let m := mem_write m (a + 525) [0] in
  let m := mem_write (mem_write (mem_write m (a + 4) id_sn) (a + 24) id_mn) (a + 64) id_fr in
  let m := mem_write m (a + 77) [u8 mdts] in
  mem_write m (a + 512) [0x66; 0x44].

(** The list of active namespaces above [nsid]: 32-bit words from the start of
    the page, [i] running from 1 to [nr_ns]. *)
Definition write_ns_list (m : host_mem) (a : Z) (ids : list Z) : host_mem :=
  mem_write m a (concat (map (le_bytes 4) ids)).
Definition active_above (nr_ns nsid : Z) : list Z :=
  List.filter (fun i => nsid <? i) (seqZ 1 nr_ns).

(** [NS_SSD_TYPE] of a namespace and, for a zoned one, the parameters that
    the [zp] of its FTL holds. *)
Inductive ns_kind : Type := SSD_TYPE_NVM | SSD_TYPE_CONV | SSD_TYPE_ZNS (zpp : znsparams) | SSD_TYPE_KV.

Section Admin.
Context {F : Type} `{HostMem F} `{FtlOps F}.
Variable pfn_valid : Z -> bool.
(** [SUPPORTED_SSD_TYPE(ZNS)]. *)
Variable zns_supported : bool.
#[local] Abbreviation dev := (nvmev_dev F ns_kind).
#[local] Abbreviation M := (prog dev).

Definition on_io {A} (m : prog (io_dev F) A) : M A := fun d => '(a, v) ← m (vio d); Ok (a, dev_with_io d v).

(** [queue->...] and [sq_entry(eid)] of the admin queue. *)
Definition get_admin : M nvmev_admin_queue := q ← gets admin_q; lift (deref q).
Definition admin_entry (eid : Z) : M nvme_command :=
  q ← get_admin;
  pages ← lift (deref (nvme_sq q));
  lift (p ← aget pages (eid / NR_SQE_PER_PAGE); aget p (eid mod NR_SQE_PER_PAGE)).

(** Host memory: [page_address] is the kernel's mapping of a page, at its
    physical address. *)
Definition get_mem : M host_mem := gets (fun d => host_of (dev_ftl (vio d))).
Definition put_mem (m : host_mem) : M unit :=
  modify (fun d => dev_with_io d (dev_with_ftl (vio d) (host_put m (dev_ftl (vio d))))).

(** ** Completions *)
Definition admin_cqe (c : nvme_command) (eid ret result0 result1 phase : Z) : nvme_completion :=
  mk_cqe (u32 result0) (u32 result1) (u16 eid) 0 (u16 (command_id c)) (u16 (Z.lor phase (Z.shiftl ret 1))).

Definition __make_cq_entry_results (eid ret result0 result1 : Z) : M unit :=
  q ← get_admin;
  c ← admin_entry eid;
  let cq_head := aq_cq_head q in
  pages ← lift (deref (nvme_cq q));
  pages ← lift (amod pages (cq_head / NR_CQE_PER_PAGE) (fun p =>
    aset p (cq_head mod NR_CQE_PER_PAGE) (admin_cqe c eid ret result0 result1 (aq_phase q))));
  let '(cq_head, phase) :=
    if cq_head + 1 =? cq_depth q then (0, if aq_phase q =? 0 then 1 else 0) else (cq_head + 1, aq_phase q) in
  set_admin (mk_aq phase (sq_depth q) (cq_depth q) cq_head (nvme_sq q) (Some pages)).

Definition __make_cq_entry (eid ret : Z) : M unit := __make_cq_entry_results eid ret 0 0.

(** ** Queues

    The [i]-th page of a queue created at [prp1]: a kernel mapping, or a page
    of the [memremap] of the whole queue. *)
Definition queue_page_addr (prp1 i : Z) : Z :=
  if pfn_valid (Z.shiftr prp1 12) then prp_address_offset prp1 i else prp1 + i * PAGE_SIZE.

Definition __nvmev_admin_create_cq (eid : Z) : M unit :=
  c ← admin_entry eid;
  m ← get_mem;
  let qid := create_qid c in
  let queue_size := create_qsize c + 1 in
  let num_pages := queue_pages queue_size sizeof_nvme_completion in
  let cq := mk_cq qid (if create_irq_enabled c then create_cq_irq_vector c else 0) (create_irq_enabled c) false
    queue_size 1 0 (-1) (map (fun i => cq_page m (queue_page_addr (prp1 c) i)) (seqZ 0 num_pages)) in
  _ ← on_io (set_cq qid cq);
  _ ← clear_db (qid * 2 + 1);
  __make_cq_entry eid NVME_SC_SUCCESS.

(** The entry becomes NULL whether there was a queue or not. *)
Definition __nvmev_admin_delete_cq (eid : Z) : M unit :=
  c ← admin_entry eid;
  _ ← on_io (fun v => qs ← aset (cqes v) (delete_qid c) None; Ok (tt, dev_with_cqes v qs));
  __make_cq_entry eid NVME_SC_SUCCESS.

Definition __nvmev_admin_create_sq (eid : Z) : M unit :=
  c ← admin_entry eid;
  m ← get_mem;
  let qid := create_qid c in
  let queue_size := create_qsize c + 1 in
  let num_pages := queue_pages queue_size sizeof_nvme_command in
  let sq := mk_sq qid (create_sq_cqid c) queue_size (mk_stat 0 0 0 0 0)
    (map (fun i => sq_page m (queue_page_addr (prp1 c) i)) (seqZ 0 num_pages)) in
  _ ← on_io (set_sq qid sq);
  _ ← clear_db (qid * 2);
  __make_cq_entry eid NVME_SC_SUCCESS.

Definition __nvmev_admin_delete_sq (eid : Z) : M unit :=
  c ← admin_entry eid;
  _ ← on_io (fun v => qs ← aset (sqes v) (delete_qid c) None; Ok (tt, dev_with_sqes v qs));
  __make_cq_entry eid NVME_SC_SUCCESS.

(** ** Log pages

    The copy reads [len] bytes of a static structure. *)
Definition log_page_len (c : nvme_command) : Z :=
  u32 (Z.shiftl (u32 (Z.lor (Z.shiftl (log_numdu c) 16) (log_numdl c) + 1)) 2).

Definition __nvmev_admin_get_log_page (eid : Z) : M unit :=
  c ← admin_entry eid;
  let len := log_page_len c in
  let page := prp_address (prp1 c) in
  m ← get_mem;
  _ ← (if log_lid c =? NVME_LOG_SMART then
         b ← lift (buf_read smart_log 0 len); put_mem (mem_write m page b)
       else if log_lid c =? NVME_LOG_CMD_EFFECTS then
         b ← lift (buf_read (effects_log zns_supported) 0 len); put_mem (mem_write m page b)
       else put_mem (mem_set m page 0 len));
  __make_cq_entry eid NVME_SC_SUCCESS.

(** ** Identify *)
Definition get_ns (i : Z) : M (nvmev_ns ns_kind) := fun d => n ← aget (vns d) i; Ok (n, d).
Definition nr_ns (d : dev) : Z := Z.of_nat (length (vns d)).

Definition __nvmev_admin_identify_namespace (eid : Z) : M unit :=
  c ← admin_entry eid;
  let page := prp_address (prp1 c) in
  m ← get_mem;
  ns ← get_ns (u32 (nsid c - 1));
  _ ← put_mem (write_id_ns (mem_set m page 0 PAGE_SIZE) page (ns_size ns));
  __make_cq_entry eid NVME_SC_SUCCESS.

Definition __nvmev_admin_identify_namespaces (eid : Z) : M unit :=
  c ← admin_entry eid;
  let page := prp_address (prp1 c) in
  m ← get_mem;
  n ← gets nr_ns;
  _ ← put_mem (write_ns_list (mem_set m page 0 (PAGE_SIZE * 2)) page (active_above n (nsid c)));
  __make_cq_entry eid NVME_SC_SUCCESS.

(** [sizeof(struct nvme_id_ns_desc)] is 4096. *)
Definition __nvmev_admin_identify_namespace_desc (eid : Z) : M unit :=
  c ← admin_entry eid;
  let page := prp_address (prp1 c) in
  m ← get_mem;
  ns ← get_ns (i32 (nsid c - 1));
  let m := mem_write (mem_set m page 0 4096) page [NVME_NIDT_CSI; 1] in
  _ ← put_mem (mem_write m (page + 4) [u8 (ns_csi ns)]);
  __make_cq_entry eid NVME_SC_SUCCESS.

(** [sizeof(struct nvme_id_zns_ns)] is 4096. *)
Definition __nvmev_admin_identify_zns_namespace (eid : Z) : M unit :=
  c ← admin_entry eid;
  ns ← get_ns (i32 (nsid c - 1));
  match ns_ftls ns with
  | SSD_TYPE_ZNS zpp =>
    _ ← lift (NVMEV_ASSERT (ns_csi ns =? NVME_CSI_ZNS));
    let page := prp_address (prp1 c) in
    m ← get_mem;
    _ ← put_mem (write_id_zns_ns (mem_set m page 0 4096) page zpp);
    __make_cq_entry eid NVME_SC_SUCCESS
  | _ => __make_cq_entry eid NVME_SC_SUCCESS
  end.

(** Only [zasl] is stored; the rest of the page is left as it was. *)
Definition __nvmev_admin_identify_zns_ctrl (eid : Z) : M unit :=
  c ← admin_entry eid;
  m ← get_mem;
  _ ← put_mem (mem_write m (prp_address (prp1 c)) [0]);
  __make_cq_entry eid NVME_SC_SUCCESS.

(** [sizeof(struct nvme_id_ctrl)] is 4096. *)
Definition __nvmev_admin_identify_ctrl (eid : Z) : M unit :=
  c ← admin_entry eid;
  let page := prp_address (prp1 c) in
  m ← get_mem;
  n ← gets nr_ns;
  limit ← gets mdts;
  _ ← put_mem (write_id_ctrl (mem_set m page 0 4096) page n limit);
  __make_cq_entry eid NVME_SC_SUCCESS.

Definition __nvmev_admin_identify (eid : Z) : M unit :=
  c ← admin_entry eid;
  let cns := identify_cns c in
  if cns =? 0x00 then __nvmev_admin_identify_namespace eid
  else if cns =? 0x01 then __nvmev_admin_identify_ctrl eid
  else if cns =? 0x02 then __nvmev_admin_identify_namespaces eid
  else if cns =? 0x03 then __nvmev_admin_identify_namespace_desc eid
  else if cns =? 0x05 then __nvmev_admin_identify_zns_namespace eid
  else if cns =? 0x06 then __nvmev_admin_identify_zns_ctrl eid
  else __make_cq_entry eid NVME_SC_INVALID_OPCODE.

(** ** Features *)
Definition queues_result (v : io_dev F) : Z :=
  u32 (Z.lor (Z.shiftl (u32 (nr_cq v - 1)) 16) (u32 (nr_sq v - 1))).

Definition with_nr (v : io_dev F) (sq cq : Z) : io_dev F :=
  mk_dev (sqes v) (cqes v) (io_workers v) (io_worker_turn v) sq cq (dbs v) (old_dbs v) (irqs v) (dev_tick v) (dev_ftl v).

Definition __nvmev_admin_set_features (eid : Z) : M unit :=
  c ← admin_entry eid;
  if features_fid c =? NVME_FEAT_NUM_QUEUES then
    let sq := Z.min (lo16 (features_dword11 c) + 1) NR_MAX_IO_QUEUE in
    let cq := Z.min (hi16 (features_dword11 c) + 1) NR_MAX_IO_QUEUE in
    _ ← modify (fun d => dev_with_io d (with_nr (vio d) sq cq));
    v ← gets vio;
    __make_cq_entry_results eid NVME_SC_SUCCESS (queues_result v) 0
  else __make_cq_entry_results eid NVME_SC_SUCCESS 0 0.

Definition __nvmev_admin_get_features (eid : Z) : M unit :=
  c ← admin_entry eid;
  v ← gets vio;
  __make_cq_entry_results eid NVME_SC_SUCCESS (if features_fid c =? NVME_FEAT_NUM_QUEUES then queues_result v else 0) 0.

Definition __nvmev_admin_async_event (eid : Z) : M unit := __make_cq_entry eid NVME_SC_SUCCESS.

(** ** Dispatch *)
Definition __nvmev_proc_admin_req (entry_id : Z) : M unit :=
  c ← admin_entry entry_id;
  match admin_opcode_of (opcode c) with
  | nvme_admin_delete_sq => __nvmev_admin_delete_sq entry_id
  | nvme_admin_create_sq => __nvmev_admin_create_sq entry_id
  | nvme_admin_get_log_page => __nvmev_admin_get_log_page entry_id
  | nvme_admin_delete_cq => __nvmev_admin_delete_cq entry_id
  | nvme_admin_create_cq => __nvmev_admin_create_cq entry_id
  | nvme_admin_identify => __nvmev_admin_identify entry_id
  | nvme_admin_abort_cmd => mret tt
  | nvme_admin_set_features => __nvmev_admin_set_features entry_id
  | nvme_admin_get_features => __nvmev_admin_get_features entry_id
  | nvme_admin_async_event => __nvmev_admin_async_event entry_id
  | nvme_admin_other => __make_cq_entry entry_id NVME_SC_INVALID_OPCODE
  end.

(** The loop: [n] commands left, the next one at [curr]. *)
Fixpoint proc_admin_loop (n : nat) (curr : Z) : M unit :=
  match n with
  | O => mret tt
  | S n =>
    _ ← __nvmev_proc_admin_req curr;
    q ← get_admin;
    proc_admin_loop n (if curr + 1 =? sq_depth q then 0 else curr + 1)
  end.

Definition nvmev_proc_admin_sq (new_db old_db : Z) : M unit :=
  q ← get_admin;
  let num_proc := if new_db - old_db <? 0 then new_db - old_db + sq_depth q else new_db - old_db in
  _ ← proc_admin_loop (Z.to_nat num_proc) old_db;
  modify (fun d => dev_with_io d (dev_with_irqs (vio d) (irqs (vio d) ++ [0]))).

Definition nvmev_proc_admin_cq (new_db old_db : Z) : M unit := mret tt.

(** The admin doorbells, which [nvmev_proc_dbs] looks at first. *)
Definition proc_admin_db (i : Z) (handler : Z -> Z -> M unit) : M bool :=
  '(new_db, old_db) ← on_io (read_dbs i);
  if new_db =? old_db then mret false
  else _ ← handler new_db old_db; _ ← on_io (write_old_db i new_db); mret true.

Section Dispatcher.
Context (cpu_clock local_clock : nat -> Z).

(** The whole of [nvmev_proc_dbs]; [IoWorker] has the part on I/O queues. *)
Definition vdev_proc_dbs : M bool :=
  u0 ← proc_admin_db 0 nvmev_proc_admin_sq;
  u1 ← proc_admin_db 1 nvmev_proc_admin_cq;
  u2 ← on_io (nvmev_proc_dbs cpu_clock local_clock);
  mret (u0 || u1 || u2).

(** One turn of [nvmev_dispatcher]; whether it did anything. *)
Definition dispatcher_turn : M bool :=
  b ← nvmev_proc_bars;
  u ← vdev_proc_dbs;
  mret (b || u).
End Dispatcher.
End Admin.
