(* ===== verification/AdminProps.v ===== *)
(** * Properties of the admin queue

    The admin completion queue is posted to as the I/O completion queues are
    ([make_cq_fill]), so the ring invariant of [IoRing] serves both. *)
From S2P Require Import Prelude Nvme Prp Ssd WorkQueue IoWorker IoRing IoInv Ctrl CtrlProps Admin.

(** ** Fields *)
Lemma lo16_range x : 0 ≤ lo16 x < 65536.
Proof. unfold lo16. change 0xFFFF with (Z.ones 16). rewrite Z.land_ones by lia. by apply Z.mod_pos_bound. Qed.
Lemma hi16_range x : 0 ≤ hi16 x < 65536.
Proof. apply (lo16_range (Z.shiftr x 16)). Qed.
#[export] Hint Resolve lo16_range hi16_range : nvmev.

(** The entry of the submission ring at [eid]. *)
Definition sq_at (q : nvmev_admin_queue) (eid : Z) : res nvme_command :=
  pages ← deref (nvme_sq q); p ← aget pages (eid / NR_SQE_PER_PAGE); aget p (eid mod NR_SQE_PER_PAGE).

(** The admin completion queue seen as an I/O completion queue, and an answer
    as a finished request. *)
Definition admin_ring (q : nvmev_admin_queue) (pages : list (list nvme_completion)) : nvmev_completion_queue :=
  mk_cq 0 0 true true (cq_depth q) (aq_phase q) (aq_cq_head q) (-1) pages.
Definition admin_work (c : nvme_command) (eid ret r0 r1 : Z) : nvmev_io_work :=
  mk_work 0 0 eid (command_id c) 0 0 0 true true ret r0 r1 false NullBuffer 0 NIL NIL.

(** The fields that posting a completion sets. *)
Lemma fill_fields w cq cq' : __fill_cq_result w cq = Ok cq' ->
  cq' = mk_cq (cq_qid cq) (cq_irq_vector cq) (cq_irq_enabled cq) true (cq_queue_size cq) (cq_phase cq') (cq_head cq')
    (cq_tail cq) (cq_pages cq').
Proof.
  unfold __fill_cq_result. destruct (set_cq_entry _ _ _); [|done]. cbn [mbind res_bind]. by destruct (_ =? _); intros [= <-].
Qed.

Section AdminProps.
Context {F : Type} `{HostMem F} `{FtlOps F}.
Variable pfn_valid : Z -> bool.
Variable zns_supported : bool.
#[local] Abbreviation dev := (nvmev_dev F ns_kind).
Implicit Types d : dev.

Lemma get_admin_ok d q : admin_q d = Some q -> get_admin d = Ok (q, d).
Proof. intros Hq. unfold get_admin, gets, lift, mbind, prog_bind. by rewrite Hq. Qed.

Lemma admin_entry_ok d q eid c : admin_q d = Some q -> sq_at q eid = Ok c -> admin_entry eid d = Ok (c, d).
Proof.
  intros Hq Hc. unfold admin_entry, get_admin, gets, lift, mbind, prog_bind. rewrite Hq. cbn.
  unfold sq_at in Hc. destruct (nvme_sq q) as [pages|]; [|done]. cbn in *.
  destruct (aget pages _) as [p|]; [|done]. cbn in *. by rewrite Hc.
Qed.

(** Posting an answer is [__fill_cq_result] on the ring. *)
Lemma make_cq_fill d q pages eid c ret r0 r1 : admin_q d = Some q -> nvme_cq q = Some pages -> sq_at q eid = Ok c ->
  __make_cq_entry_results eid ret r0 r1 d =
    (cq ← __fill_cq_result (admin_work c eid ret r0 r1) (admin_ring q pages);
     Ok (tt, dev_with_admin d (Some (mk_aq (cq_phase cq) (sq_depth q) (cq_depth q) (cq_head cq) (nvme_sq q) (Some (cq_pages cq)))))).
Proof.
  intros Hq Hp Hc. unfold __make_cq_entry_results. rewrite (run_bind _ _ _ _ _ (get_admin_ok d q Hq)).
  rewrite (run_bind _ _ _ _ _ (admin_entry_ok d q eid c Hq Hc)). rewrite Hp. rewrite (run_lift (deref (Some pages))). cbn [deref]; cbn [mbind res_bind].
  unfold __fill_cq_result, set_cq_entry, admin_ring. cbn [cq_head cq_pages cq_phase cq_queue_size]. rewrite run_lift.
  change (completion_of (admin_work c eid ret r0 r1) (aq_phase q)) with (admin_cqe c eid ret r0 r1 (aq_phase q)).
  destruct (amod pages _ _) as [pages'|]; [|done]. cbn [mbind res_bind].
  by destruct (aq_cq_head q + 1 =? cq_depth q).
Qed.

(** ** The invariant

    [log] is everything posted so far. *)
Record admin_inv (log : list nvmev_io_work) d : Prop := {
  ai_queue : exists q pages, admin_q d = Some q /\ nvme_cq q = Some pages /\ cq_ok (admin_ring q pages) log;
  ai_sqes : Z.of_nat (length (sqes (vio d))) = NR_MAX_IO_QUEUE + 1;
  ai_cqes : Z.of_nat (length (cqes (vio d))) = NR_MAX_IO_QUEUE + 1;
  ai_dbs : 2 * NR_MAX_IO_QUEUE + 2 ≤ Z.of_nat (length (dbs (vio d)));
  ai_old_dbs : 2 * NR_MAX_IO_QUEUE + 2 ≤ Z.of_nat (length (old_dbs (vio d)));
  ai_ns : Z.of_nat (length (vns d)) < 2147483648;
  ai_csi : Forall (fun ns => match ns_ftls ns with SSD_TYPE_ZNS _ => ns_csi ns = NVME_CSI_ZNS | _ => True end) (vns d);
}.

(** What no admin command changes. *)
Record admin_frame d d' : Prop := {
  af_regs : bar d' = bar d /\ old_bar d' = old_bar d;
  af_ns : vns d' = vns d;
  af_mdts : mdts d' = mdts d;
  af_workers : io_workers (vio d') = io_workers (vio d);
  af_irqs : irqs (vio d') = irqs (vio d);
  af_sq : forall q, admin_q d = Some q -> exists q', admin_q d' = Some q' /\ sq_depth q' = sq_depth q /\ nvme_sq q' = nvme_sq q;
}.

#[global] Instance admin_frame_refl : Reflexive admin_frame.
Proof. intros d. split; try done. intros q Hq. by exists q. Qed.

#[global] Instance admin_frame_trans : Transitive admin_frame.
Proof.
  intros d1 d2 d3 [[A1 A2] B C D E G] [[A1' A2'] B' C' D' E' G']. split; try congruence; [split; congruence|].
  intros q Hq. destruct (G q Hq) as (q' & Hq' & E1 & E2). destruct (G' q' Hq') as (q'' & Hq'' & E1' & E2').
  exists q''. split; [done|]. split; congruence.
Qed.

(** [d'] is [d] with other tables of the same size. *)
Record tables_only d d' : Prop := {
  to_frame : admin_frame d d';
  to_admin : admin_q d' = admin_q d;
  to_sqes : length (sqes (vio d')) = length (sqes (vio d));
  to_cqes : length (cqes (vio d')) = length (cqes (vio d));
  to_dbs : length (dbs (vio d')) = length (dbs (vio d));
  to_old : length (old_dbs (vio d')) = length (old_dbs (vio d));
}.

Lemma tables_inv log d d' : tables_only d d' -> admin_inv log d -> admin_inv log d'.
Proof.
  intros [Hf Ha H1 H2 H3 H4] [Hq A B C D E G]. split; rewrite ?Ha, ?H1, ?H2, ?H3, ?H4, ?(af_ns _ _ Hf); done.
Qed.

(** [c], answered with [st]: what every handler ends with. *)
Definition replied (log : list nvmev_io_work) (eid : Z) (c : nvme_command) (st : Z) d d' : Prop :=
  admin_frame d d' /\ exists r0 r1, admin_inv (log ++ [admin_work c eid st r0 r1]) d'.

Lemma make_cq_wp log d q eid c st r0 r1 : admin_inv log d -> admin_q d = Some q -> sq_at q eid = Ok c ->
  wp (__make_cq_entry_results eid st r0 r1) (fun _ d' => admin_frame d d' /\ vio d' = vio d /\
    admin_inv (log ++ [admin_work c eid st r0 r1]) d') d.
Proof.
  intros [(q' & pages & Hq & Hp & Hok) ? ? ? ? ? ?] Hq' Hc. rewrite Hq in Hq'. injection Hq' as ->.
  unfold wp. rewrite (make_cq_fill d q pages eid c st r0 r1 Hq Hp Hc).
  pose proof (fill_cq_ok _ _ (admin_work c eid st r0 r1) Hok) as Hf. apply returns_iff in Hf as (cq & Ecq & Hcq & Hsz & Hr).
  pose proof (fill_fields _ _ _ Ecq) as Hfields.
  rewrite Ecq. cbn [mbind res_bind]. split; [|split; [done|]].
  - split; try done. intros q0 Hq0. rewrite Hq in Hq0. injection Hq0 as <-. by eexists.
  - split; try done. eexists _, _. split; [done|]. split; [done|]. unfold admin_ring. cbn.
    match goal with |- cq_ok ?x _ => replace x with cq by exact Hfields end. done.
Qed.

(** ** What each command does

    The queue a creation installs, and host memory after a log page or an
    identify command ([None]: no store). *)
Definition new_cq (m : host_mem) (c : nvme_command) : nvmev_completion_queue :=
  mk_cq (create_qid c) (if create_irq_enabled c then create_cq_irq_vector c else 0) (create_irq_enabled c) false
    (create_qsize c + 1) 1 0 (-1) (map (fun i => cq_page m (queue_page_addr pfn_valid (prp1 c) i))
      (seqZ 0 (queue_pages (create_qsize c + 1) sizeof_nvme_completion))).
Definition new_sq (m : host_mem) (c : nvme_command) : nvmev_submission_queue :=
  mk_sq (create_qid c) (create_sq_cqid c) (create_qsize c + 1) (mk_stat 0 0 0 0 0)
    (map (fun i => sq_page m (queue_page_addr pfn_valid (prp1 c) i))
      (seqZ 0 (queue_pages (create_qsize c + 1) sizeof_nvme_command))).

Definition db_reset (i : Z) (v : io_dev F) : io_dev F :=
  dev_with_old_dbs (io_with_dbs v (<[Z.to_nat i := 0]> (dbs v))) (<[Z.to_nat i := 0]> (old_dbs v)).

Definition log_mem (c : nvme_command) (m : host_mem) : host_mem :=
  let len := log_page_len c in
  let page := prp_address (prp1 c) in
  if log_lid c =? NVME_LOG_SMART then mem_write m page (take (Z.to_nat len) smart_log)
  else if log_lid c =? NVME_LOG_CMD_EFFECTS then mem_write m page (take (Z.to_nat len) (effects_log zns_supported))
  else mem_set m page 0 len.

Definition identify_mem d (c : nvme_command) (m : host_mem) : option host_mem :=
  let page := prp_address (prp1 c) in
  let cns := identify_cns c in
  let ns := vns d !! Z.to_nat (nsid c - 1) in
  if cns =? 0 then ns ← ns; Some (write_id_ns (mem_set m page 0 PAGE_SIZE) page (ns_size ns))
  else if cns =? 1 then Some (write_id_ctrl (mem_set m page 0 4096) page (nr_ns d) (mdts d))
  else if cns =? 2 then Some (write_ns_list (mem_set m page 0 (PAGE_SIZE * 2)) page (active_above (nr_ns d) (nsid c)))
  else if cns =? 3 then ns ← ns; Some (mem_write (mem_write (mem_set m page 0 4096) page [NVME_NIDT_CSI; 1]) (page + 4) [u8 (ns_csi ns)])
  else if cns =? 5 then
    ns ← ns; match ns_ftls ns with SSD_TYPE_ZNS zpp => Some (write_id_zns_ns (mem_set m page 0 4096) page zpp) | _ => None end
  else if cns =? 6 then Some (mem_write m page [0])
  else None.

Definition queue_count (x : Z) : Z := Z.min (x + 1) NR_MAX_IO_QUEUE.

(** The I/O side of the device after a command. *)
Definition admin_effect d (c : nvme_command) : io_dev F :=
  let v := vio d in
  let m := host_of (dev_ftl v) in
  let put m := dev_with_ftl v (host_put m (dev_ftl v)) in
  match admin_opcode_of (opcode c) with
  | nvme_admin_create_cq =>
    db_reset (create_qid c * 2 + 1) (dev_with_cqes v (<[Z.to_nat (create_qid c) := Some (new_cq m c)]> (cqes v)))
  | nvme_admin_create_sq =>
    db_reset (create_qid c * 2) (dev_with_sqes v (<[Z.to_nat (create_qid c) := Some (new_sq m c)]> (sqes v)))
  | nvme_admin_delete_cq => dev_with_cqes v (<[Z.to_nat (delete_qid c) := None]> (cqes v))
  | nvme_admin_delete_sq => dev_with_sqes v (<[Z.to_nat (delete_qid c) := None]> (sqes v))
  | nvme_admin_get_log_page => put (log_mem c m)
  | nvme_admin_identify => match identify_mem d c m with Some m => put m | None => v end
  | nvme_admin_set_features =>
    if features_fid c =? NVME_FEAT_NUM_QUEUES then
      with_nr v (queue_count (lo16 (features_dword11 c))) (queue_count (hi16 (features_dword11 c)))
    else v
  | _ => v
  end.

Definition admin_status (c : nvme_command) : Z :=
  match admin_opcode_of (opcode c) with
  | nvme_admin_other => NVME_SC_INVALID_OPCODE
  | nvme_admin_identify =>
    if existsb (Z.eqb (identify_cns c)) [0; 1; 2; 3; 5; 6] then NVME_SC_SUCCESS else NVME_SC_INVALID_OPCODE
  | _ => NVME_SC_SUCCESS
  end.

(** The commands the device can serve: nothing checks a queue number, a
    namespace or the length of a log page. *)
Definition admin_cmd_ok d (c : nvme_command) : Prop :=
  match admin_opcode_of (opcode c) with
  | nvme_admin_create_cq | nvme_admin_create_sq => create_qid c ≤ NR_MAX_IO_QUEUE
  | nvme_admin_delete_cq | nvme_admin_delete_sq => delete_qid c ≤ NR_MAX_IO_QUEUE
  | nvme_admin_get_log_page =>
    (log_lid c = NVME_LOG_SMART -> log_page_len c ≤ 512) /\ (log_lid c = NVME_LOG_CMD_EFFECTS -> log_page_len c ≤ 4096)
  | nvme_admin_identify => identify_cns c ∈ [0; 3; 5] -> 1 ≤ nsid c ≤ nr_ns d
  | _ => True
  end.

#[global] Instance admin_cmd_ok_dec d c : Decision (admin_cmd_ok d c).
Proof. unfold admin_cmd_ok. destruct (admin_opcode_of (opcode c)); apply _. Defined.

(** ** The handlers

    Each ends by posting its answer on a device whose tables have kept their
    sizes. *)
Record same_tables (v v' : io_dev F) : Prop := {
  st_workers : io_workers v' = io_workers v;
  st_irqs : irqs v' = irqs v;
  st_sqes : length (sqes v') = length (sqes v);
  st_cqes : length (cqes v') = length (cqes v);
  st_dbs : length (dbs v') = length (dbs v);
  st_old : length (old_dbs v') = length (old_dbs v);
}.

Lemma io_tables d v : same_tables (vio d) v -> tables_only d (dev_with_io d v).
Proof. intros []. split; try done. split; try done. intros q Hq. by exists q. Qed.

Definition served (log : list nvmev_io_work) (eid : Z) (c : nvme_command) (st : Z) (v : io_dev F) d d' : Prop :=
  admin_frame d d' /\ vio d' = v /\ exists r0 r1, admin_inv (log ++ [admin_work c eid st r0 r1]) d'.

Section Handlers.
Context (log : list nvmev_io_work) d (q : nvmev_admin_queue) (eid : Z) (c : nvme_command).
Hypotheses (Hinv : admin_inv log d) (Hq : admin_q d = Some q) (Hc : sq_at q eid = Ok c).
#[local] Abbreviation m := (host_of (dev_ftl (vio d))).

Lemma answer_wp v st r0 r1 : same_tables (vio d) v ->
  wp (__make_cq_entry_results eid st r0 r1) (fun _ => served log eid c st v d) (dev_with_io d v).
Proof.
  intros Hv. pose proof (io_tables d v Hv) as Ht. eapply wp_mono; [eapply make_cq_wp; [by eapply tables_inv|exact Hq|exact Hc]|].
  intros _ d' (Hf & Hio & Hi). split; [etrans; [apply Ht | done]|]. split; [by rewrite Hio|]. by eexists _, _.
Qed.

Lemma entry_wp {A} (f : nvme_command -> prog dev A) Q : wp (f c) Q d -> wp (admin_entry eid ≫= f) Q d.
Proof. unfold wp. by rewrite (run_bind _ _ _ _ _ (admin_entry_ok d q eid c Hq Hc)). Qed.

Lemma io_same : same_tables (vio d) (vio d).
Proof. by split. Qed.

Lemma dev_same : dev_with_io d (vio d) = d.
Proof. by destruct d. Qed.

(** An answer without any effect. *)
Lemma reply_wp st r0 r1 : wp (__make_cq_entry_results eid st r0 r1) (fun _ => served log eid c st (vio d) d) d.
Proof. pose proof (answer_wp (vio d) st r0 r1 io_same) as Hx. by rewrite dev_same in Hx. Qed.

(** A store into host memory before the answer. *)
Lemma put_wp m' st : wp (put_mem m' ≫= fun _ => __make_cq_entry eid st)
  (fun _ => served log eid c st (dev_with_ftl (vio d) (host_put m' (dev_ftl (vio d)))) d) d.
Proof. apply (answer_wp (dev_with_ftl (vio d) (host_put m' (dev_ftl (vio d)))) st 0 0). by split. Qed.

Lemma reset_ok i v : 0 ≤ i -> i < Z.of_nat (length (dbs v)) -> i < Z.of_nat (length (old_dbs v)) ->
  clear_db i (dev_with_io d v) = Ok (tt, dev_with_io d (db_reset i v)).
Proof. intros. unfold clear_db. by rewrite !aset_in_range by (cbn; lia). Qed.

Lemma reset_same i v : same_tables (vio d) v -> same_tables (vio d) (db_reset i v).
Proof. intros []. by split; cbn; rewrite ?length_insert. Qed.

Lemma create_cq_wp : create_qid c ≤ NR_MAX_IO_QUEUE ->
  wp (__nvmev_admin_create_cq pfn_valid eid) (fun _ => served log eid c NVME_SC_SUCCESS
    (db_reset (create_qid c * 2 + 1) (dev_with_cqes (vio d) (<[Z.to_nat (create_qid c) := Some (new_cq m c)]> (cqes (vio d))))) d) d.
Proof.
  intros Hid. pose proof (lo16_range (cdw10 c)) as Hr. fold (create_qid c) in Hr. destruct Hinv.
  apply entry_wp. unfold wp, get_mem, gets, on_io, set_cq, mbind, prog_bind. cbv beta iota zeta.
  rewrite aset_in_range by lia. cbn [mbind res_bind]. cbv beta iota. rewrite reset_ok by (cbn; lia).
  apply answer_wp, reset_same. by split; cbn; rewrite ?length_insert.
Qed.

Lemma create_sq_wp : create_qid c ≤ NR_MAX_IO_QUEUE ->
  wp (__nvmev_admin_create_sq pfn_valid eid) (fun _ => served log eid c NVME_SC_SUCCESS
    (db_reset (create_qid c * 2) (dev_with_sqes (vio d) (<[Z.to_nat (create_qid c) := Some (new_sq m c)]> (sqes (vio d))))) d) d.
Proof.
  intros Hid. pose proof (lo16_range (cdw10 c)) as Hr. fold (create_qid c) in Hr. destruct Hinv.
  apply entry_wp. unfold wp, get_mem, gets, on_io, set_sq, mbind, prog_bind. cbv beta iota zeta.
  rewrite aset_in_range by lia. cbn [mbind res_bind]. cbv beta iota. rewrite reset_ok by (cbn; lia).
  apply answer_wp, reset_same. by split; cbn; rewrite ?length_insert.
Qed.

Lemma delete_cq_wp : delete_qid c ≤ NR_MAX_IO_QUEUE ->
  wp (__nvmev_admin_delete_cq eid) (fun _ => served log eid c NVME_SC_SUCCESS
    (dev_with_cqes (vio d) (<[Z.to_nat (delete_qid c) := None]> (cqes (vio d)))) d) d.
Proof.
  intros Hid. pose proof (lo16_range (cdw10 c)) as Hr. fold (delete_qid c) in Hr. destruct Hinv.
  apply entry_wp. unfold wp, on_io, mbind, prog_bind. cbv beta iota zeta.
  rewrite aset_in_range by lia. cbn [mbind res_bind]. cbv beta iota.
  apply answer_wp. by split; cbn; rewrite ?length_insert.
Qed.

Lemma delete_sq_wp : delete_qid c ≤ NR_MAX_IO_QUEUE ->
  wp (__nvmev_admin_delete_sq eid) (fun _ => served log eid c NVME_SC_SUCCESS
    (dev_with_sqes (vio d) (<[Z.to_nat (delete_qid c) := None]> (sqes (vio d)))) d) d.
Proof.
  intros Hid. pose proof (lo16_range (cdw10 c)) as Hr. fold (delete_qid c) in Hr. destruct Hinv.
  apply entry_wp. unfold wp, on_io, mbind, prog_bind. cbv beta iota zeta.
  rewrite aset_in_range by lia. cbn [mbind res_bind]. cbv beta iota.
  apply answer_wp. by split; cbn; rewrite ?length_insert.
Qed.

Lemma log_page_len_range : 0 ≤ log_page_len c.
Proof. apply u32_range. Qed.

Lemma log_read (buf : list Z) n : Z.of_nat (length buf) = n -> log_page_len c ≤ n ->
  buf_read buf 0 (log_page_len c) = Ok (take (Z.to_nat (log_page_len c)) buf).
Proof. intros Hl Hn. pose proof log_page_len_range. unfold buf_read. by rewrite decide_True by lia. Qed.

Lemma effects_length : Z.of_nat (length (effects_log zns_supported)) = 4096.
Proof. by destruct zns_supported; vm_compute. Qed.

Lemma log_page_wp :
  (log_lid c = NVME_LOG_SMART -> log_page_len c ≤ 512) -> (log_lid c = NVME_LOG_CMD_EFFECTS -> log_page_len c ≤ 4096) ->
  wp (__nvmev_admin_get_log_page zns_supported eid) (fun _ => served log eid c NVME_SC_SUCCESS
    (dev_with_ftl (vio d) (host_put (log_mem c m) (dev_ftl (vio d)))) d) d.
Proof.
  intros H1 H2. apply entry_wp.
  unfold wp, get_mem, gets. unfold mbind at 1, prog_bind at 1. unfold log_mem.
  destruct (Z.eqb_spec (log_lid c) NVME_LOG_SMART) as [E|E]; [|destruct (Z.eqb_spec (log_lid c) NVME_LOG_CMD_EFFECTS) as [E'|E']].
  - unfold mbind at 1, prog_bind at 1. rewrite run_lift, (log_read _ 512) by auto. apply put_wp.
  - unfold mbind at 1, prog_bind at 1. rewrite run_lift, (log_read _ 4096) by auto using effects_length. apply put_wp.
  - apply put_wp.
Qed.

Lemma ns_found (i : Z) : 1 ≤ nsid c ≤ nr_ns d -> i = nsid c - 1 -> exists ns, get_ns i d = Ok (ns, d) /\ vns d !! Z.to_nat (nsid c - 1) = Some ns.
Proof.
  intros Hn ->. unfold nr_ns in Hn. destruct (aget_in_range (vns d) (nsid c - 1)) as [ns Hns]; [lia|].
  exists ns. unfold get_ns. rewrite Hns. split; [done|]. by apply aget_Ok in Hns as [_ ?].
Qed.

Definition identify_effect : io_dev F :=
  match identify_mem d c m with Some m' => dev_with_ftl (vio d) (host_put m' (dev_ftl (vio d))) | None => vio d end.

Lemma identify_wp : (identify_cns c ∈ [0; 3; 5] -> 1 ≤ nsid c ≤ nr_ns d) ->
  wp (__nvmev_admin_identify eid) (fun _ => served log eid c
    (if existsb (Z.eqb (identify_cns c)) [0; 1; 2; 3; 5; 6] then NVME_SC_SUCCESS else NVME_SC_INVALID_OPCODE) identify_effect d) d.
Proof.
  intros Hn. pose proof (ai_ns _ _ Hinv) as Hsm. apply entry_wp. unfold identify_effect, identify_mem. cbn [existsb].
  destruct (Z.eqb_spec (identify_cns c) 0) as [E0|E0]; [|destruct (Z.eqb_spec (identify_cns c) 1) as [E1|E1];
    [|destruct (Z.eqb_spec (identify_cns c) 2) as [E2|E2]; [|destruct (Z.eqb_spec (identify_cns c) 3) as [E3|E3];
    [|destruct (Z.eqb_spec (identify_cns c) 5) as [E5|E5]; [|destruct (Z.eqb_spec (identify_cns c) 6) as [E6|E6]]]]]];
    cbn [orb]; try (apply entry_wp; apply put_wp).
  - assert (1 ≤ nsid c ≤ nr_ns d) as Hns by (apply Hn; rewrite E0; set_solver). pose proof Hns. unfold nr_ns in *.
    destruct (ns_found (u32 (nsid c - 1)) Hns) as (ns & Hg & Hl); [by wsimpl|]. rewrite Hl.
    apply entry_wp. unfold wp, get_mem, gets. unfold mbind at 1, prog_bind at 1. rewrite (run_bind _ _ _ _ _ Hg). apply put_wp.
  - assert (1 ≤ nsid c ≤ nr_ns d) as Hns by (apply Hn; rewrite E3; set_solver). pose proof Hns. unfold nr_ns in *.
    destruct (ns_found (i32 (nsid c - 1)) Hns) as (ns & Hg & Hl); [by wsimpl|]. rewrite Hl.
    apply entry_wp. unfold wp, get_mem, gets. unfold mbind at 1, prog_bind at 1. rewrite (run_bind _ _ _ _ _ Hg). apply put_wp.
  - assert (1 ≤ nsid c ≤ nr_ns d) as Hns by (apply Hn; rewrite E5; set_solver). pose proof Hns. unfold nr_ns in *.
    destruct (ns_found (i32 (nsid c - 1)) Hns) as (ns & Hg & Hl); [by wsimpl|]. rewrite Hl.
    apply entry_wp. unfold wp. rewrite (run_bind _ _ _ _ _ Hg).
    pose proof (proj1 (Forall_lookup _ _) (ai_csi _ _ Hinv) _ _ Hl) as Hcsi. cbn [mbind option_bind].
    cbn beta in Hcsi. destruct (ns_ftls ns); try apply reply_wp. rewrite Hcsi, run_lift. cbn. apply put_wp.
  - apply reply_wp.
Qed.

Lemma set_features_wp : wp (__nvmev_admin_set_features eid) (fun _ => served log eid c NVME_SC_SUCCESS
  (if features_fid c =? NVME_FEAT_NUM_QUEUES then
     with_nr (vio d) (queue_count (lo16 (features_dword11 c))) (queue_count (hi16 (features_dword11 c)))
   else vio d) d) d.
Proof.
  apply entry_wp. destruct (features_fid c =? NVME_FEAT_NUM_QUEUES); [|apply reply_wp].
  apply (answer_wp (with_nr _ _ _)). by split.
Qed.

Lemma get_features_wp : wp (__nvmev_admin_get_features eid) (fun _ => served log eid c NVME_SC_SUCCESS (vio d) d) d.
Proof. apply entry_wp. apply reply_wp. Qed.

(** Any command but an abort is served; an abort is dropped. *)
Lemma proc_admin_req_ok : admin_cmd_ok d c ->
  wp (__nvmev_proc_admin_req pfn_valid zns_supported eid) (fun _ d' =>
    if decide (admin_opcode_of (opcode c) = nvme_admin_abort_cmd) then d' = d
    else served log eid c (admin_status c) (admin_effect d c) d d') d.
Proof.
  intros Hok. unfold admin_cmd_ok, admin_status, admin_effect in *. apply entry_wp.
  destruct (admin_opcode_of (opcode c)) eqn:E; cbn.
  - by apply delete_sq_wp.
  - by apply create_sq_wp.
  - by apply log_page_wp; apply Hok.
  - by apply delete_cq_wp.
  - by apply create_cq_wp.
  - by apply identify_wp.
  - done.
  - apply set_features_wp.
  - apply get_features_wp.
  - apply reply_wp.
  - apply reply_wp.
Qed.

(** A command the device cannot serve takes it out of an array. *)
Lemma entry_bug {A} (f : nvme_command -> prog dev A) : f c d = Bug OutOfRange -> (admin_entry eid ≫= f) d = Bug OutOfRange.
Proof. by rewrite (run_bind _ _ _ _ _ (admin_entry_ok d q eid c Hq Hc)). Qed.

Lemma ns_missing i : ~ 0 ≤ i < nr_ns d -> get_ns i d = Bug OutOfRange.
Proof. intros Hi. unfold get_ns. by rewrite aget_out. Qed.

Lemma log_overread (buf : list Z) n : Z.of_nat (length buf) = n -> ~ log_page_len c ≤ n -> buf_read buf 0 (log_page_len c) = Bug OutOfRange.
Proof. intros Hl Hn. unfold buf_read. by rewrite decide_False by lia. Qed.

Lemma queue_bug : NR_MAX_IO_QUEUE < create_qid c ->
  __nvmev_admin_create_cq pfn_valid eid d = Bug OutOfRange /\ __nvmev_admin_create_sq pfn_valid eid d = Bug OutOfRange.
Proof.
  intros Hid. destruct Hinv. split; apply entry_bug; unfold get_mem, gets, on_io, set_cq, set_sq, mbind, prog_bind; cbv beta iota zeta;
    by rewrite aset_out by lia.
Qed.

Lemma delete_bug : NR_MAX_IO_QUEUE < delete_qid c ->
  __nvmev_admin_delete_cq eid d = Bug OutOfRange /\ __nvmev_admin_delete_sq eid d = Bug OutOfRange.
Proof.
  intros Hid. destruct Hinv. split; apply entry_bug; unfold on_io, mbind, prog_bind; cbv beta iota zeta; by rewrite aset_out by lia.
Qed.

Lemma log_page_bug : ~ ((log_lid c = NVME_LOG_SMART -> log_page_len c ≤ 512) /\ (log_lid c = NVME_LOG_CMD_EFFECTS -> log_page_len c ≤ 4096)) ->
  __nvmev_admin_get_log_page zns_supported eid d = Bug OutOfRange.
Proof.
  intros Hbad. apply entry_bug. unfold get_mem, gets. unfold mbind at 1, prog_bind at 1.
  destruct (Z.eqb_spec (log_lid c) NVME_LOG_SMART) as [E|E]; [|destruct (Z.eqb_spec (log_lid c) NVME_LOG_CMD_EFFECTS) as [E'|E']].
  - unfold mbind at 1, prog_bind at 1. rewrite run_lift, (log_overread _ 512); [done..|]. intros Hl. apply Hbad. split; [done|]. rewrite E. done.
  - unfold mbind at 1, prog_bind at 1. rewrite run_lift, (log_overread _ 4096); [done | apply effects_length |]. intros Hl. apply Hbad. by split.
  - tauto.
Qed.

Lemma identify_bug : 0 ≤ nsid c ≤ U32_MAX -> identify_cns c ∈ [0; 3; 5] -> ~ 1 ≤ nsid c ≤ nr_ns d ->
  __nvmev_admin_identify eid d = Bug OutOfRange.
Proof.
  intros Hw Hcns Hns. pose proof (ai_ns _ _ Hinv) as Hsm. fold (nr_ns d) in Hsm. unfold U32_MAX in *. apply entry_bug.
  assert (~ 0 ≤ u32 (nsid c - 1) < nr_ns d) as H32.
  { destruct (decide (nsid c = 0)) as [->|]; [change (u32 (0 - 1)) with 4294967295; lia | rewrite u32_small by (unfold U32_MAX; lia); lia]. }
  assert (~ 0 ≤ i32 (nsid c - 1) < nr_ns d) as Hi32.
  { destruct (decide (nsid c - 1 < 2147483648)) as [Hl|Hl]; [rewrite i32_small by lia; lia|].
    unfold i32. rewrite <- (Z.mod_unique_pos _ _ 1 (nsid c - 1 + 2147483648 - 4294967296)) by lia. lia. }
  rewrite !elem_of_cons in Hcns. destruct Hcns as [-> | [-> | [-> | []%not_elem_of_nil]]]; cbn [Z.eqb Pos.eqb]; apply entry_bug;
    unfold get_mem, gets; unfold mbind, prog_bind; cbv beta iota; by rewrite ns_missing.
Qed.

(** A command's namespace number has 32 bits. *)
Definition cmd_fits (c : nvme_command) : Prop := 0 ≤ nsid c ≤ U32_MAX.

Lemma proc_admin_req_bug : cmd_fits c -> ~ admin_cmd_ok d c -> __nvmev_proc_admin_req pfn_valid zns_supported eid d = Bug OutOfRange.
Proof.
  intros Hw Hbad. unfold admin_cmd_ok in *. apply entry_bug.
  destruct (admin_opcode_of (opcode c)) eqn:E; try (by destruct Hbad).
  - apply delete_bug. lia.
  - apply queue_bug. lia.
  - by apply log_page_bug.
  - apply delete_bug. lia.
  - apply queue_bug. lia.
  - apply identify_bug; [done | |]; [destruct (decide (identify_cns c ∈ [0; 3; 5])) | intros ?]; tauto.
Qed.
End Handlers.

(** ** A doorbell *)
Definition next_slot (q : nvmev_admin_queue) (curr : Z) : Z := if curr + 1 =? sq_depth q then 0 else curr + 1.

(** The next [n] entries of the submission ring from [curr] on. *)
Fixpoint requests (q : nvmev_admin_queue) (n : nat) (curr : Z) : list (Z * nvme_command) :=
  match n with
  | O => []
  | S n => match sq_at q curr with Ok c => (curr, c) :: requests q n (next_slot q curr) | Bug _ => [] end
  end.

(** Those that get an answer, and what the answer says. *)
Definition answered (p : Z * nvme_command) : Prop := admin_opcode_of (opcode p.2) <> nvme_admin_abort_cmd.
#[global] Instance answered_dec p : Decision (answered p) := _.
Definition answer_of (p : Z * nvme_command) : Z * Z * Z := (p.1, command_id p.2, admin_status p.2).
Definition answer_in (w : nvmev_io_work) : Z * Z * Z := (iw_sq_entry w, iw_command_id w, iw_status w).

Lemma requests_same q q' n curr : nvme_sq q' = nvme_sq q -> sq_depth q' = sq_depth q -> requests q' n curr = requests q n curr.
Proof.
  intros E1 E2. revert curr. induction n as [|n IH]; intros curr; [done|]. cbn [requests]. unfold sq_at, next_slot. rewrite E1, E2.
  by destruct (pages ← deref (nvme_sq q); _); rewrite ?IH.
Qed.

Lemma cmd_ok_same d d' c : admin_frame d d' -> admin_cmd_ok d c -> admin_cmd_ok d' c.
Proof. intros Hf. unfold admin_cmd_ok, nr_ns. by rewrite (af_ns _ _ Hf). Qed.

(** One command: answered, or dropped if it is an abort. *)
Lemma proc_admin_one log d q curr c : admin_inv log d -> admin_q d = Some q -> sq_at q curr = Ok c -> admin_cmd_ok d c ->
  wp (__nvmev_proc_admin_req pfn_valid zns_supported curr) (fun _ d1 => admin_frame d d1 /\ exists ws,
    admin_inv (log ++ ws) d1 /\ map answer_in ws = map answer_of (filter answered [(curr, c)])) d.
Proof.
  intros Hi Hq Hc Hok. eapply wp_mono; [by eapply proc_admin_req_ok|]. intros [] d1 Hd1. cbv beta in Hd1.
  rewrite filter_cons. destruct (nvme_admin_opcode_eq_dec (admin_opcode_of (opcode c)) nvme_admin_abort_cmd) as [E|E];
    [rewrite decide_True in Hd1 by done | rewrite decide_False in Hd1 by done].
  - subst d1. split; [done|]. exists []. rewrite decide_False by (unfold answered; tauto). by rewrite app_nil_r.
  - destruct Hd1 as (Hfr & _ & r0 & r1 & Hi1). split; [done|]. eexists. split; [done|]. by rewrite decide_True.
Qed.

Lemma proc_admin_loop_ok n : forall curr d log q, admin_inv log d -> admin_q d = Some q ->
  length (requests q n curr) = n -> Forall (fun p => admin_cmd_ok d p.2) (requests q n curr) ->
  wp (proc_admin_loop pfn_valid zns_supported n curr) (fun _ d' => admin_frame d d' /\ exists ws,
    admin_inv (log ++ ws) d' /\ map answer_in ws = map answer_of (filter answered (requests q n curr))) d.
Proof.
  induction n as [|n IH]; intros curr d log q Hi Hq Hl Hf; cbn [proc_admin_loop requests] in *.
  { split; [done|]. exists []. by rewrite app_nil_r. }
  destruct (sq_at q curr) as [c|] eqn:Hc; [|done]. injection Hl as Hl. apply Forall_cons in Hf as [Hc1 Hf]. cbn in Hc1.
  apply wp_bind. eapply wp_mono; [by eapply proc_admin_one|]. intros [] d1 (Hfr & ws & Hi1 & Ea).
  destruct (af_sq _ _ Hfr q Hq) as (q1 & Hq1 & Ed & Es). unfold wp. rewrite (run_bind _ _ _ _ _ (get_admin_ok d1 q1 Hq1)).
  rewrite Ed. fold (next_slot q curr). eapply wp_mono; [apply (IH _ _ _ _ Hi1 Hq1)|].
  - by rewrite (requests_same q q1).
  - rewrite (requests_same q q1) by done. eapply Forall_impl; [exact Hf|]. intros p. by apply cmd_ok_same.
  - intros _ d2 (Hfr2 & ws2 & Hi2 & Ea2). split; [by etrans|]. exists (ws ++ ws2). rewrite app_assoc. split; [done|].
    rewrite map_app, Ea, Ea2, (requests_same q q1) by done. by rewrite <- map_app, <- filter_app.
Qed.

(** The first command that cannot be served ends it. *)
Lemma proc_admin_loop_bug n : forall curr d log q, admin_inv log d -> admin_q d = Some q ->
  Forall (fun p => cmd_fits p.2) (requests q n curr) -> Exists (fun p => ~ admin_cmd_ok d p.2) (requests q n curr) ->
  proc_admin_loop pfn_valid zns_supported n curr d = Bug OutOfRange.
Proof.
  induction n as [|n IH]; intros curr d log q Hi Hq Hw Hx; cbn [proc_admin_loop requests] in *; [by inversion Hx|].
  destruct (sq_at q curr) as [c|] eqn:Hc; [|by inversion Hx]. apply Forall_cons in Hw as [Hw1 Hw].
  destruct (decide (admin_cmd_ok d c)) as [Hok|Hbad].
  - apply Exists_cons in Hx as [Hx|Hx]; [done|].
    pose proof (proc_admin_one log d q curr c Hi Hq Hc Hok) as Hone. apply wp_iff in Hone as ([] & d1 & E1 & Hfr & ws & Hi1 & _).
    destruct (af_sq _ _ Hfr q Hq) as (q1 & Hq1 & Ed & Es).
    rewrite (run_bind _ _ _ _ _ E1), (run_bind _ _ _ _ _ (get_admin_ok d1 q1 Hq1)). rewrite Ed. fold (next_slot q curr).
    apply (IH _ _ _ _ Hi1 Hq1); rewrite (requests_same q q1) by done; [done|].
    eapply Exists_impl; [exact Hx|]. intros p Hp Hok1. apply Hp. revert Hok1. unfold admin_cmd_ok, nr_ns. by rewrite (af_ns _ _ Hfr).
  - unfold mbind, prog_bind. by rewrite (proc_admin_req_bug log d q curr c Hi Hq Hc Hw1 Hbad).
Qed.

(** C10. A ring of the admin doorbell, whatever the commands between the old and
    the new tail.  If the device can serve them all (queue numbers in its
    tables, log pages no longer than the log, identify for a namespace that
    exists), it ends, and every command except an abort is answered in ring
    order, each once: the admin completion ring is extended by exactly these
    answers, with the command's identifier, slot and status, and vector 0 is
    signalled once; unknown opcodes and unknown identify structures are
    refused, aborts dropped without an answer.  If it cannot serve one of them,
    it leaves an array there: nothing checks those fields. *)
Theorem admin_doorbell_served log d q new_db old_db : admin_inv log d -> admin_q d = Some q ->
  0 ≤ old_db < sq_depth q -> 0 ≤ new_db < sq_depth q ->
  let n := Z.to_nat ((new_db - old_db) mod sq_depth q) in
  length (requests q n old_db) = n -> Forall (fun p => cmd_fits p.2) (requests q n old_db) ->
  if decide (Forall (fun p => admin_cmd_ok d p.2) (requests q n old_db)) then
    wp (nvmev_proc_admin_sq pfn_valid zns_supported new_db old_db) (fun _ d' => exists ws,
      admin_inv (log ++ ws) d' /\ map answer_in ws = map answer_of (filter answered (requests q n old_db)) /\
      irqs (vio d') = irqs (vio d) ++ [0] /\ io_workers (vio d') = io_workers (vio d) /\ bar d' = bar d) d
  else nvmev_proc_admin_sq pfn_valid zns_supported new_db old_db d = Bug OutOfRange.
Proof.
  intros Hi Hq Ho Hn n Hl Hw. unfold nvmev_proc_admin_sq.
  assert ((if new_db - old_db <? 0 then new_db - old_db + sq_depth q else new_db - old_db) = (new_db - old_db) mod sq_depth q) as En.
  { destruct (Z.ltb_spec (new_db - old_db) 0); [|by rewrite Z.mod_small by lia].
    apply (Z.mod_unique_pos _ _ (-1)); lia. }
  destruct (decide _) as [Hf|Hf].
  - unfold wp. rewrite (run_bind _ _ _ _ _ (get_admin_ok d q Hq)), En. fold n. apply wp_bind.
    eapply wp_mono; [by eapply proc_admin_loop_ok|]. intros _ d' (Hfr & ws & Hi' & Ea).
    apply wp_modify. exists ws. split; [|split; [done|]; split; [by cbn; rewrite (af_irqs _ _ Hfr) | by split; [apply Hfr | apply Hfr]]].
    destruct Hi' as [? ? ? ? ? ? ?]. by split.
  - rewrite (run_bind _ _ _ _ _ (get_admin_ok d q Hq)), En. fold n. unfold mbind, prog_bind.
    rewrite (proc_admin_loop_bug n old_db d log q Hi Hq Hw); [done|].
    apply not_Forall_Exists; [apply _ | done].
Qed.
End AdminProps.
