(* ===== verification/QueueProps.v ===== *)
(** * Creating and deleting I/O queues

    The admin commands meet the I/O path: a created completion queue is an
    empty ring in the sense of [IoRing], and queue management keeps the
    invariant of the dispatcher and the workers -- as long as no request in
    flight belongs to the queue, which the device does not check. *)
From S2P Require Import Prelude Nvme Prp Ssd WorkQueue IoWorker IoRing IoInv Ctrl CtrlProps Admin AdminProps.

Lemma prp_address_offset_eq prp i : prp_address_offset prp i = prp + PAGE_SIZE * i.
Proof.
  unfold prp_address_offset. rewrite Z.shiftl_mul_pow2, Z.shiftr_div_pow2 by lia. change (2 ^ 12) with PAGE_SIZE.
  assert (page_offset prp = prp mod PAGE_SIZE) as -> by (apply (Z.land_ones prp 12); lia).
  pose proof (Z.div_mod prp PAGE_SIZE ltac:(done)). lia.
Qed.

Lemma queue_page_addr_eq pfn_valid prp i : queue_page_addr pfn_valid prp i = prp + PAGE_SIZE * i.
Proof. unfold queue_page_addr. rewrite prp_address_offset_eq. destruct (pfn_valid _); lia. Qed.

(** A table of pages: entry [j] lies at offset [size * j] of the queue. *)
Lemma paged_get {A} (per n : Z) (f : Z -> Z -> A) j : 0 < per -> 0 ≤ j -> j / per < n ->
  (p ← aget (map (fun i => map (f i) (seqZ 0 per)) (seqZ 0 n)) (j / per); aget p (j mod per)) = Ok (f (j / per) (j mod per)).
Proof.
  intros Hp Hj Hn. pose proof (Z.mod_pos_bound j per Hp). assert (0 ≤ j / per) by (apply Z.div_pos; lia).
  assert (aget (map (fun i => map (f i) (seqZ 0 per)) (seqZ 0 n)) (j / per) = Ok (map (f (j / per)) (seqZ 0 per))) as ->.
  { apply aget_Ok. split; [done|]. rewrite list_lookup_fmap, lookup_seqZ_lt by lia. cbn. do 3 f_equal. lia. }
  cbn [mbind res_bind]. apply aget_Ok. split; [lia|]. rewrite list_lookup_fmap, lookup_seqZ_lt by lia. cbn. do 2 f_equal. lia.
Qed.

Lemma pages_enough (per size n j : Z) : 0 < per -> 0 < size -> per * size = PAGE_SIZE -> 0 ≤ j < n ->
  j / per < queue_pages n size.
Proof.
  intros Hp Hs E Hj. unfold queue_pages. destruct (DIV_ROUND_UP_spec (n * size) PAGE_SIZE) as [Hd _]; [done|].
  apply Z.div_lt_upper_bound; [done|]. set (k := DIV_ROUND_UP _ _) in *. rewrite <- E in Hd.
  assert (n ≤ k * per) by (apply (Z.mul_le_mono_pos_r _ _ size Hs); lia). lia.
Qed.

Section Queues.
Context {F : Type} `{HostMem F} `{FtlOps F} `{CmdFine F}.
Variable pfn_valid : Z -> bool.
Variable zns_supported : bool.
#[local] Abbreviation dev := (nvmev_dev F ns_kind).
Implicit Types d : dev.

(** The completion that lies at slot [j] of a queue at [prp]. *)
Definition cqe_at (m : host_mem) (prp j : Z) : nvme_completion := read_completion m (prp + sizeof_nvme_completion * j).
Definition sqe_at (m : host_mem) (prp j : Z) : nvme_command := read_command m (prp + sizeof_nvme_command * j).

Lemma create_size_pos c : 0 < create_qsize c + 1.
Proof. pose proof (hi16_range (cdw10 c)). unfold create_qsize. lia. Qed.

Lemma new_cq_entry m c j : 0 ≤ j < create_qsize c + 1 -> cq_entry (new_cq pfn_valid m c) j = Ok (cqe_at m (prp1 c) j).
Proof.
  intros Hj. unfold cq_entry, new_cq. cbn [cq_pages].
  rewrite (paged_get NR_CQE_PER_PAGE _ (fun i k => read_completion m (queue_page_addr pfn_valid (prp1 c) i + sizeof_nvme_completion * k)));
    [|done|lia|by apply pages_enough].
  rewrite queue_page_addr_eq. unfold cqe_at. do 2 f_equal. rewrite (Z.div_mod j NR_CQE_PER_PAGE) at 3 by done.
  change PAGE_SIZE with (sizeof_nvme_completion * NR_CQE_PER_PAGE). lia.
Qed.

Lemma new_sq_entry m c j : 0 ≤ j < create_qsize c + 1 -> sq_entry (new_sq pfn_valid m c) j = Ok (sqe_at m (prp1 c) j).
Proof.
  intros Hj. unfold sq_entry, new_sq. cbn [sq_pages].
  rewrite (paged_get NR_SQE_PER_PAGE _ (fun i k => read_command m (queue_page_addr pfn_valid (prp1 c) i + sizeof_nvme_command * k)));
    [|done|lia|by apply pages_enough].
  rewrite queue_page_addr_eq. unfold sqe_at. do 2 f_equal. rewrite (Z.div_mod j NR_SQE_PER_PAGE) at 3 by done.
  change PAGE_SIZE with (sizeof_nvme_command * NR_SQE_PER_PAGE). lia.
Qed.

(** On cleared memory a new completion queue is an empty ring. *)
Definition cleared_ring (m : host_mem) (c : nvme_command) : Prop :=
  forall j, 0 ≤ j < create_qsize c + 1 -> phase_bit (cqe_at m (prp1 c) j) = 0.

Lemma new_cq_ok m c : cleared_ring m c -> cq_ok (new_cq pfn_valid m c) [].
Proof.
  intros Hm. pose proof (create_size_pos c). split; cbn [new_cq cq_queue_size cq_head cq_phase length Z.of_nat]; try done.
  - intros j Hj. rewrite new_cq_entry by done. by eexists.
  - intros j Hj. rewrite new_cq_entry by done. eexists. split; [done|]. by apply Hm.
Qed.

(** No request in flight belongs to submission queue [qid]; none will complete
    in completion queue [qid]. *)
Definition sq_idle (v : io_dev F) (qid : Z) : Prop :=
  Forall (fun w => iw_is_internal w = true \/ iw_sqid w <> qid) (all_pending (io_workers v)).
Definition cq_idle (v : io_dev F) (qid : Z) : Prop :=
  Forall (fun w => iw_is_internal w = true \/ iw_cqid w <> qid) (all_pending (io_workers v)).

(** What the host has to see to when it manages queues: a completion queue is
    created under a number not used before and on cleared memory, and nothing
    in flight uses a queue that is replaced or deleted. *)
Definition queue_cmd_safe (post : list (Z * nvmev_io_work)) d (c : nvme_command) : Prop :=
  match admin_opcode_of (opcode c) with
  | nvme_admin_create_cq =>
    host_log post (create_qid c) = [] /\ cleared_ring (host_of (dev_ftl (vio d))) c
  | nvme_admin_create_sq => sq_idle (vio d) (create_qid c)
  | nvme_admin_delete_cq => cq_idle (vio d) (delete_qid c)
  | nvme_admin_delete_sq => sq_idle (vio d) (delete_qid c)
  | _ => True
  end.

(** The invariant when only the queue tables change. *)
Lemma io_inv_tables (v v' : io_dev F) pcs acc post : io_inv (mk_io v pcs acc post) -> io_workers v' = io_workers v ->
  (forall cqid cq, aget (cqes v') cqid = Ok (Some cq) -> cq_ok cq (host_log post cqid)) ->
  Forall (serviceable v') (all_pending (io_workers v)) -> io_inv (mk_io v' pcs acc post).
Proof. intros [Hw Ho Hd _ _] Ew Hr Hq. split; cbn in *; rewrite ?Ew; done. Qed.

Lemma insert_none {B} (l : list (option B)) (i j : Z) x a : 0 ≤ i -> aget (<[Z.to_nat i := x]> l) j = Ok (Some a) ->
  (j = i /\ x = Some a) \/ (j <> i /\ aget l j = Ok (Some a)).
Proof.
  intros Hi Hg. pose proof (aget_range _ _ _ Hg) as Hr. rewrite length_insert in Hr. apply aget_Ok in Hg as [Hj Hg].
  destruct (decide (j = i)) as [->|Hne].
  - left. split; [done|]. rewrite list_lookup_insert_eq in Hg by lia. congruence.
  - right. split; [done|]. apply aget_Ok. split; [done|]. by rewrite list_lookup_insert_ne in Hg by lia.
Qed.

Lemma insert_keeps {B} (l : list (option B)) (i j : Z) x a : 0 ≤ i -> j <> i -> aget l j = Ok (Some a) ->
  aget (<[Z.to_nat i := x]> l) j = Ok (Some a).
Proof.
  intros Hi Hne [Hj Hg]%aget_Ok. apply aget_Ok. split; [done|]. by rewrite list_lookup_insert_ne by lia.
Qed.

Lemma serviceable_sqes (v : io_dev F) qid x w : 0 ≤ qid -> iw_is_internal w = true \/ iw_sqid w <> qid -> serviceable v w ->
  serviceable (dev_with_sqes v (<[Z.to_nat qid := x]> (sqes v))) w.
Proof.
  intros Hq [Hi|Hne] Hs; [by left|]. destruct Hs as [Hi|[(sq & c & Hg & Hc & Hf) Hcq]]; [by left|]. right. split; [|done].
  exists sq, c. split; [by apply insert_keeps | done].
Qed.

Lemma serviceable_cqes (v : io_dev F) qid x w : 0 ≤ qid -> iw_is_internal w = true \/ iw_cqid w <> qid \/ is_Some x -> serviceable v w ->
  serviceable (dev_with_cqes v (<[Z.to_nat qid := x]> (cqes v))) w.
Proof.
  intros Hq Hx Hs. destruct Hs as [Hi|[Hsq [cq Hcq]]]; [by left|]. destruct Hx as [Hi|Hx]; [by left|]. right. split; [done|]. cbn.
  destruct (decide (iw_cqid w = qid)) as [E|Hne]; [|exists cq; by apply insert_keeps].
  destruct Hx as [?|[a ->]]; [done|]. exists a. pose proof (aget_range _ _ _ Hcq). rewrite aget_insert by lia. by rewrite decide_True.
Qed.

Lemma idle_forall (P : nvmev_io_work -> Prop) l (v v' : io_dev F) :
  Forall P l -> Forall (serviceable v) l -> (forall w, P w -> serviceable v w -> serviceable v' w) -> Forall (serviceable v') l.
Proof. intros Hp Hs Hi. rewrite !Forall_forall in *. intros w Hw. apply Hi; auto. Qed.

(** *** The I/O side after a command that returns, whatever becomes of the answer *)
Definition admin_io d (c : nvme_command) (v : io_dev F) : Prop :=
  match admin_opcode_of (opcode c) with
  | nvme_admin_create_cq | nvme_admin_create_sq | nvme_admin_delete_cq | nvme_admin_delete_sq => v = admin_effect pfn_valid zns_supported d c
  | nvme_admin_get_log_page | nvme_admin_identify => v = vio d \/ exists f, v = dev_with_ftl (vio d) f
  | nvme_admin_set_features => v = vio d \/ exists a b, v = with_nr (vio d) a b
  | _ => v = vio d
  end.

Section Returning.
Context d (q : nvmev_admin_queue) (eid : Z) (c : nvme_command).
Hypotheses (Hq : admin_q d = Some q) (Hc : sq_at q eid = Ok c).
#[local] Abbreviation after v := (fun (_ : unit) d' => vio d' = v /\ vns d' = vns d).

Lemma entry_wlp {A} (f : nvme_command -> prog dev A) Q : wlp (f c) Q d -> wlp (admin_entry eid ≫= f) Q d.
Proof. unfold wlp. by rewrite (run_bind _ _ _ _ _ (admin_entry_ok d q eid c Hq Hc)). Qed.

Lemma get_admin_reads d1 q1 d2 : get_admin d1 = Ok (q1, d2) -> d2 = d1.
Proof. unfold get_admin, gets, lift, mbind, prog_bind. destruct (deref _); [|done]. by intros [= _ <-]. Qed.
Lemma admin_entry_reads e d1 c1 d2 : admin_entry e d1 = Ok (c1, d2) -> d2 = d1.
Proof.
  assert (wlp (admin_entry e) (fun _ d2 => d2 = d1) d1) as Hw.
  { apply wlp_bind. intros q1 d3 ->%get_admin_reads. apply wlp_lift. intros pages _. unfold lift. intros c2 d3 (? & _ & [= _ <-])%bind_Ok. done. }
  apply Hw.
Qed.
Lemma reply_wlp d1 st r0 r1 : vns d1 = vns d -> wlp (__make_cq_entry_results eid st r0 r1) (after (vio d1)) d1.
Proof.
  intros En. apply wlp_bind. intros q1 d2 ->%get_admin_reads. apply wlp_bind. intros c1 d2 ->%admin_entry_reads.
  apply wlp_lift. intros pages _. apply wlp_lift. intros pages' _. intros [] d'. destruct (_ =? _); intros [= <-]; by split.
Qed.

Lemma put_wlp m' st : wlp (put_mem m' ≫= fun _ => __make_cq_entry eid st) (after (dev_with_ftl (vio d) (host_put m' (dev_ftl (vio d))))) d.
Proof. exact (reply_wlp (dev_with_io d (dev_with_ftl (vio d) (host_put m' (dev_ftl (vio d))))) st 0 0 eq_refl). Qed.

(** A queue table, then a doorbell, then the answer. *)
Lemma reset_wlp v i st : 0 ≤ i -> wlp (clear_db i ≫= fun _ => __make_cq_entry eid st) (after (db_reset i v)) (dev_with_io d v).
Proof.
  intros Hi. apply wlp_bind. intros [] d1 E. unfold clear_db in E. apply bind_Ok in E as (l & El & E). apply bind_Ok in E as (o & Eo & E).
  injection E as <-. apply aset_Ok in El as [_ ->]. apply aset_Ok in Eo as [_ ->]. exact (reply_wlp (dev_with_io d (db_reset i v)) st 0 0 eq_refl).
Qed.

Lemma state_of {S A} (a b : A) (s t : S) : Ok (a, s) = Ok (b, t) -> s = t.
Proof. by intros [= _ ->]. Qed.

Lemma on_io_wlp {A} (g : prog (io_dev F) A) (f : A -> prog dev unit) Q :
  (forall a v, g (vio d) = Ok (a, v) -> wlp (f a) Q (dev_with_io d v)) -> wlp (on_io g ≫= f) Q d.
Proof. intros Hf. apply wlp_bind. intros a d1 E. apply bind_Ok in E as ([b v] & Ev & E). injection E as <- <-. by apply Hf. Qed.

Lemma mem_wlp (f : host_mem -> prog dev unit) Q : wlp (f (host_of (dev_ftl (vio d)))) Q d -> wlp (get_mem ≫= f) Q d.
Proof. exact (fun Hf => Hf). Qed.

Lemma queue_wlp : wlp (__nvmev_admin_create_cq pfn_valid eid) (after (db_reset (create_qid c * 2 + 1)
      (dev_with_cqes (vio d) (<[Z.to_nat (create_qid c) := Some (new_cq pfn_valid (host_of (dev_ftl (vio d))) c)]> (cqes (vio d)))))) d /\
  wlp (__nvmev_admin_create_sq pfn_valid eid) (after (db_reset (create_qid c * 2)
      (dev_with_sqes (vio d) (<[Z.to_nat (create_qid c) := Some (new_sq pfn_valid (host_of (dev_ftl (vio d))) c)]> (sqes (vio d)))))) d.
Proof.
  pose proof (lo16_range (cdw10 c)) as Hr. fold (create_qid c) in Hr.
  split; apply entry_wlp, mem_wlp.
  - apply on_io_wlp. intros [] v E. apply bind_Ok in E as (t & [_ ->]%aset_Ok & E). apply state_of in E as <-.
    apply (reset_wlp _ (create_qid c * 2 + 1)). lia.
  - apply on_io_wlp. intros [] v E. apply bind_Ok in E as (t & [_ ->]%aset_Ok & E). apply state_of in E as <-.
    apply (reset_wlp _ (create_qid c * 2)). lia.
Qed.

Lemma delete_wlp : wlp (__nvmev_admin_delete_cq eid) (after (dev_with_cqes (vio d) (<[Z.to_nat (delete_qid c) := None]> (cqes (vio d))))) d /\
  wlp (__nvmev_admin_delete_sq eid) (after (dev_with_sqes (vio d) (<[Z.to_nat (delete_qid c) := None]> (sqes (vio d))))) d.
Proof.
  split; apply entry_wlp, on_io_wlp; intros [] v E; apply bind_Ok in E as (t & [_ ->]%aset_Ok & E); apply state_of in E as <-;
    exact (reply_wlp (dev_with_io d _) NVME_SC_SUCCESS 0 0 eq_refl).
Qed.

(** The I/O side and the namespaces after any command that returns. *)
Lemma log_page_wlp : wlp (__nvmev_admin_get_log_page zns_supported eid) (fun _ d' => (exists f, vio d' = dev_with_ftl (vio d) f) /\ vns d' = vns d) d.
Proof.
  apply entry_wlp. apply (mem_wlp (fun m => _)).
  assert (forall m', wlp (put_mem m' ≫= fun _ => __make_cq_entry eid NVME_SC_SUCCESS) (fun _ d' => (exists f, vio d' = dev_with_ftl (vio d) f) /\ vns d' = vns d) d) as Hput.
  { intros m' u d' E. destruct (put_wlp m' _ u d' E) as [Ev En]. split; [by eexists | done]. }
  destruct (_ =? NVME_LOG_SMART); [|destruct (_ =? NVME_LOG_CMD_EFFECTS)]; [| |apply Hput];
    intros u d' E; unfold mbind at 1, prog_bind at 1 in E; rewrite run_lift in E; destruct (buf_read _ _ _); [|done| |done]; exact (Hput _ _ _ E).
Qed.

Lemma identify_wlp : wlp (__nvmev_admin_identify eid) (fun _ d' => (vio d' = vio d \/ exists f, vio d' = dev_with_ftl (vio d) f) /\ vns d' = vns d) d.
Proof.
  set (Q := fun (_ : unit) d' => _). assert (forall m', wlp (put_mem m' ≫= fun _ => __make_cq_entry eid NVME_SC_SUCCESS) Q d) as Hput.
  { intros m' u d' E. destruct (put_wlp m' _ u d' E) as [Ev En]. split; [right; by eexists | done]. }
  assert (forall st, wlp (__make_cq_entry eid st) Q d) as Hrep.
  { intros st u d' E. destruct (reply_wlp d st 0 0 eq_refl u d' E) as [Ev En]. split; [by left | done]. }
  assert (forall i (f : nvmev_ns ns_kind -> prog dev unit), (forall ns, wlp (f ns) Q d) -> wlp (get_ns i ≫= f) Q d) as Hns.
  { intros i f Hf. apply wlp_bind. intros ns d0 E. apply bind_Ok in E as (n & _ & E). injection E as <- <-. apply Hf. }
  apply entry_wlp. cbv beta zeta. repeat (destruct (identify_cns c =? _); [apply entry_wlp|]); try apply Hrep.
  - apply (mem_wlp (fun m => _)), Hns. intros ns. apply Hput.
  - apply (mem_wlp (fun m => _)). apply (Hput _).
  - apply (mem_wlp (fun m => _)). apply (Hput _).
  - apply (mem_wlp (fun m => _)), Hns. intros ns. apply Hput.
  - apply Hns. intros ns. destruct (ns_ftls ns); try apply Hrep. apply wlp_lift. intros _ _. apply (mem_wlp (fun m => _)), Hput.
  - apply (mem_wlp (fun m => _)), Hput.
Qed.

Lemma admin_req_wlp : wlp (__nvmev_proc_admin_req pfn_valid zns_supported eid) (fun _ d' => admin_io d c (vio d') /\ vns d' = vns d) d.
Proof.
  apply entry_wlp. unfold admin_io, admin_effect. destruct (admin_opcode_of (opcode c)).
  - apply delete_wlp.
  - apply queue_wlp.
  - intros u d' E. destruct (log_page_wlp u d' E) as [Hf En]. split; [by right | done].
  - apply delete_wlp.
  - apply queue_wlp.
  - apply identify_wlp.
  - by intros u d' [= _ <-].
  - apply entry_wlp. destruct (_ =? _).
    + set (v := with_nr (vio d) (queue_count (lo16 (features_dword11 c))) (queue_count (hi16 (features_dword11 c)))).
      intros u d' E. destruct (reply_wlp (dev_with_io d v) _ _ _ eq_refl u d' E) as [Ev En].
      split; [right; eexists _, _; exact Ev | exact En].
    + intros u d' E. destruct (reply_wlp d _ _ _ eq_refl u d' E) as [Ev En]. split; [by left | done].
  - apply entry_wlp. exact (reply_wlp d NVME_SC_SUCCESS (if features_fid c =? NVME_FEAT_NUM_QUEUES then queues_result (vio d) else 0) 0 eq_refl).
  - exact (reply_wlp d NVME_SC_SUCCESS 0 0 eq_refl).
  - exact (reply_wlp d NVME_SC_INVALID_OPCODE 0 0 eq_refl).
Qed.
End Returning.

(** Such a command has been there to read. *)
Lemma admin_req_entry d eid u d' : __nvmev_proc_admin_req pfn_valid zns_supported eid d = Ok (u, d') ->
  exists q c, admin_q d = Some q /\ sq_at q eid = Ok c.
Proof.
  unfold __nvmev_proc_admin_req, admin_entry, get_admin, gets, lift, mbind, prog_bind. destruct (admin_q d) as [q|]; [|done]. cbn.
  intros E. exists q. unfold sq_at. destruct (nvme_sq q) as [pages|]; [|done]. cbn in *.
  destruct (aget pages _) as [p|]; [|done]. cbn in *. destruct (aget p _) as [c|]; [|done]. by exists c.
Qed.

(** Admin commands and the I/O path: any admin command that is safe in the
    sense of [queue_cmd_safe] keeps the invariant of dispatcher, workers and
    completion rings -- so everything [IoProps] derives from it holds across
    the creation and deletion of queues. *)
Lemma admin_io_inv d c v pcs acc post : admin_io d c v -> queue_cmd_safe post d c -> io_inv (mk_io (vio d) pcs acc post) -> io_inv (mk_io v pcs acc post).
Proof.
  intros Hv Hs Hio. pose proof Hio as [_ _ _ Hr Hse]. cbn in Hr, Hse.
  pose proof (lo16_range (cdw10 c)) as Hrg. unfold queue_cmd_safe, admin_io, admin_effect in *.
  assert (forall f, io_inv (mk_io (dev_with_ftl (vio d) f) pcs acc post)) as Hftl by (intros f; by apply (io_inv_tables _ _ _ _ _ Hio)).
  destruct (admin_opcode_of (opcode c)); try subst v; try done.
  - apply (io_inv_tables _ _ _ _ _ Hio); [done | done |]. eapply idle_forall; [exact Hs | done |].
    intros w. apply serviceable_sqes, Hrg.
  - apply (io_inv_tables _ _ _ _ _ Hio); [done | done |]. eapply idle_forall; [exact Hs | done |].
    intros w. apply serviceable_sqes, Hrg.
  - by destruct Hv as [-> | [f ->]].
  - apply (io_inv_tables _ _ _ _ _ Hio); [done | |].
    + intros cqid cq [[_ [=]]|[_ Hg]]%insert_none; [by apply Hr | apply Hrg].
    + eapply idle_forall; [exact Hs | done |]. intros w Hw. apply serviceable_cqes; [apply Hrg | destruct Hw; auto].
  - destruct Hs as [Hf Hm]. apply (io_inv_tables _ _ _ _ _ Hio); [done | |].
    + intros cqid cq [[-> [= <-]]|[_ Hg]]%insert_none; [| by apply Hr | apply Hrg]. rewrite Hf. by apply new_cq_ok.
    + eapply Forall_impl; [exact Hse|]. intros w Hw. apply serviceable_cqes; [apply Hrg | by right; right; eexists | done].
  - by destruct Hv as [-> | [f ->]].
  - destruct Hv as [-> | (a & b & ->)]; [done | by apply (io_inv_tables _ _ _ _ _ Hio)].
Qed.

(** C33. Deleting a completion queue while a request for it is in flight: the
    device answers with success, and the worker that finds the request due
    follows a NULL queue. *)
Theorem delete_cq_in_flight_faults local_clock log d q eid c turn curr delta wk w : admin_inv log d -> admin_q d = Some q ->
  sq_at q eid = Ok c -> admin_opcode_of (opcode c) = nvme_admin_delete_cq -> delete_qid c ≤ NR_MAX_IO_QUEUE ->
  aget (io_workers (vio d)) turn = Ok wk -> aget (work_queue wk) curr = Ok w ->
  iw_is_internal w = false -> iw_is_copied w = true -> iw_is_completed w = false -> iw_cqid w = delete_qid c ->
  iw_nsecs_target w ≤ u64 (local_clock (dev_tick (vio d)) + delta) ->
  wp (__nvmev_proc_admin_req pfn_valid zns_supported eid) (fun _ d' =>
    (exists r0 r1, admin_inv (log ++ [admin_work c eid NVME_SC_SUCCESS r0 r1]) d') /\
    visit_entry local_clock turn curr delta (vio d') = Bug NullDeref) d.
Proof.
  intros Hi Hq Hc E Hid Hwk Hw Hint Hcp Hcm Hcq Hdue.
  eapply wp_mono; [eapply proc_admin_req_ok; [done..|]; unfold admin_cmd_ok; by rewrite E|]. intros [] d'.
  rewrite decide_False by (by rewrite E). unfold served, admin_status, admin_effect. rewrite E. intros (_ & Ev & Ha). split; [done|].
  rewrite Ev. pose proof (lo16_range (cdw10 c)) as Hrg. fold (delete_qid c) in Hrg.
  unfold visit_entry, get_worker, mbind, prog_bind, lift. cbn [io_workers dev_with_cqes]. rewrite Hwk. cbn [mbind res_bind].
  rewrite Hw. cbn [mbind res_bind]. unfold get_local_clock. cbn [dev_tick dev_with_cqes]. rewrite Hcm.
  unfold copy_entry. rewrite Hcp. cbn [mret prog_ret]. rewrite (proj2 (Z.leb_le _ _) Hdue).
  unfold finish_entry. rewrite Hint. unfold get_cq, find_cq, mbind, prog_bind, lift. cbn [dev_ticked dev_with_cqes cqes].
  rewrite Hcq. rewrite aget_insert by (rewrite ?(ai_cqes _ _ Hi); lia). by rewrite decide_True.
Qed.
End Queues.
