(* ===== verification/AdminHost.v ===== *)
(** * What the host sees of the admin queue

    The identify structures as the host reads them from its page, and the
    admin queue across a restart of the controller. *)
From S2P Require Import Prelude Nvme Prp Ssd WorkQueue IoWorker IoRing IoInv Ctrl CtrlProps Admin AdminProps.

(** ** Memory *)
Lemma mem_write_at m a i l k :
  mem_write m (a + i) l (a + k) = if decide (0 ≤ k - i < Z.of_nat (length l)) then nth (Z.to_nat (k - i)) l 0 else m (a + k).
Proof.
  unfold mem_write. replace (a + k - (a + i)) with (k - i) by lia. destruct (decide _) as [Hr|Hr].
  - destruct (aget_in_range l (k - i) Hr) as [b Hb]. rewrite Hb. apply aget_Ok in Hb as [_ Hb]. symmetry. by apply nth_lookup_Some.
  - destruct (aget l (k - i)) eqn:Hb; [|done]. by apply aget_range in Hb.
Qed.

Lemma mem_write_base m a l k :
  mem_write m a l (a + k) = if decide (0 ≤ k < Z.of_nat (length l)) then nth (Z.to_nat k) l 0 else m (a + k).
Proof. pose proof (mem_write_at m a 0 l k) as Hx. by rewrite Z.add_0_r, Z.sub_0_r in Hx. Qed.

Lemma mem_set_at m a v n k : mem_set m a v n (a + k) = if decide (0 ≤ k < n) then v else m (a + k).
Proof. unfold mem_set. destruct (decide _), (Z.leb_spec a (a + k)), (Z.ltb_spec (a + k) (a + n)); cbn; try done; lia. Qed.

(** A number written is read back. *)
Lemma mem_le_bytes n : forall m a x, 0 ≤ x < 256 ^ Z.of_nat n ->
  (forall i, (i < n)%nat -> m (a + Z.of_nat i) = nth i (le_bytes n x) 0) -> mem_le n m a = x.
Proof.
  induction n as [|n IH]; intros m a x Hx Hm; [cbn in *; lia|].
  unfold mem_le. rewrite <- cons_seq, <- fmap_S_seq. cbn [foldr]. rewrite foldr_fmap.
  assert (foldr (fun i acc => m (a + Z.of_nat (S i)) + 256 * acc) 0 (seq 0 n) = x / 256) as E.
  { rewrite <- (IH m (a + 1) (x / 256)).
    - unfold mem_le. apply foldr_ext; [|done..]. intros i acc. by replace (a + 1 + Z.of_nat i) with (a + Z.of_nat (S i)) by lia.
    - rewrite Nat2Z.inj_succ, Z.pow_succ_r in Hx by lia. split; [apply Z.div_pos; lia | apply Z.div_lt_upper_bound; lia].
    - intros i Hi. replace (a + 1 + Z.of_nat i) with (a + Z.of_nat (S i)) by lia. rewrite Hm by lia. done. }
  rewrite E, (Hm 0%nat) by lia. cbn [le_bytes nth]. pose proof (Z.div_mod x 256 ltac:(lia)). lia.
Qed.

(** Look a byte up in a stack of stores at known offsets. *)
Ltac read_byte :=
  repeat first
    [ rewrite mem_write_at; match goal with |- context [decide ?P] => first
        [rewrite (decide_True (P := P)) by (cbn; lia) | rewrite (decide_False (P := P)) by (cbn; lia)] end
    | rewrite mem_write_base; match goal with |- context [decide ?P] => first
        [rewrite (decide_True (P := P)) by (cbn; lia) | rewrite (decide_False (P := P)) by (cbn; lia)] end
    | rewrite mem_set_at; match goal with |- context [decide ?P] => first
        [rewrite (decide_True (P := P)) by (cbn; lia) | rewrite (decide_False (P := P)) by (cbn; lia)] end ].

(** ** Identify namespace *)
Section IdNs.
Variables (m : host_mem) (a size : Z).
#[local] Abbreviation m' := (write_id_ns (mem_set m a 0 PAGE_SIZE) a size).
#[local] Abbreviation nsze := (Z.shiftr size 9).

Lemma id_ns_out x : ~ a ≤ x < a + PAGE_SIZE -> m' x = m x.
Proof.
  intros Hx. change PAGE_SIZE with 4096 in *. unfold write_id_ns. replace x with (a + (x - a)) by lia. set (k := x - a) in *.
  assert (k < 0 \/ 4096 ≤ k) by lia. clearbody k. clear Hx. by read_byte.
Qed.

Lemma id_ns_sizes i : 0 ≤ size ≤ U64_MAX -> 0 ≤ i < 3 -> mem_le 8 m' (a + 8 * i) = nsze.
Proof.
  intros Hs Hi. apply mem_le_bytes.
  { rewrite Z.shiftr_div_pow2 by lia. change (256 ^ Z.of_nat 8) with (U64_MAX + 1). split; [apply Z.div_pos; lia|].
    apply Z.div_lt_upper_bound; unfold U64_MAX in *; lia. }
  intros j Hj. rewrite <- Z.add_assoc. unfold write_id_ns. cbv zeta. rewrite mem_write_base.
  rewrite decide_True by (cbn; lia). change (match lbaf_table !! Z.to_nat id_ns_flbas with Some (_, ds, _) => ds | None => 0 end) with 9.
  assert (i = 0 \/ i = 1 \/ i = 2) as [-> | [-> | ->]] by lia; (do 8 (destruct j as [|j]; [done|])); lia.
Qed.

Lemma id_ns_formats k ms ds rp : lbaf_table !! k = Some (ms, ds, rp) ->
  mem_le 2 m' (a + (128 + 4 * Z.of_nat k)) = ms /\ m' (a + (130 + 4 * Z.of_nat k)) = ds /\ m' (a + (131 + 4 * Z.of_nat k)) = rp.
Proof.
  intros Hk. assert (0 ≤ ms < 256 ^ Z.of_nat 2 /\ (k < 7)%nat) as [Hm Hk7].
  { split; [|by apply lookup_lt_Some in Hk]. do 7 (destruct k as [|k]; [injection Hk as <- <- <-; vm_compute; split; [done|congruence || done] |]). done. }
  split; [apply mem_le_bytes; [done|]; intros j Hj; rewrite <- Z.add_assoc|split];
    unfold write_id_ns; cbv zeta; read_byte;
    (do 7 (destruct k as [|k]; [injection Hk as <- <- <-; try (do 2 (destruct j as [|j]; [done|]); lia); done|])); lia.
Qed.

Lemma id_ns_flbas_byte : m' (a + 26) = id_ns_flbas.
Proof. unfold write_id_ns. cbv zeta. by read_byte. Qed.
End IdNs.

(** ** The list of active namespaces *)
Section IdList.
Variables (m : host_mem) (a : Z) (ids : list Z).
#[local] Abbreviation m' := (write_ns_list (mem_set m a 0 (PAGE_SIZE * 2)) a ids).

Lemma words_length l : length (concat (map (le_bytes 4) l)) = (4 * length l)%nat.
Proof. induction l as [|x l IH]; [done|]. cbn [map concat]. rewrite length_app, le_bytes_length, IH. cbn. lia. Qed.

Lemma words_nth l k id j : l !! k = Some id -> (j < 4)%nat -> nth (4 * k + j) (concat (map (le_bytes 4) l)) 0 = nth j (le_bytes 4 id) 0.
Proof.
  revert k. induction l as [|x l IH]; intros k; [done|]. intros Hk Hj. cbn [map concat]. destruct k as [|k].
  - injection Hk as ->. by rewrite app_nth1 by (rewrite le_bytes_length; lia).
  - rewrite app_nth2 by (rewrite le_bytes_length; lia). rewrite le_bytes_length.
    replace (4 * S k + j - 4)%nat with (4 * k + j)%nat by lia. by apply IH.
Qed.

Lemma ns_list_word k id : ids !! k = Some id -> 0 ≤ id < 4294967296 -> mem_le 4 m' (a + 4 * Z.of_nat k) = id.
Proof.
  intros Hk Hid. pose proof (lookup_lt_Some _ _ _ Hk). apply mem_le_bytes; [done|]. intros j Hj. rewrite <- Z.add_assoc.
  unfold write_ns_list. rewrite mem_write_base, decide_True by (rewrite words_length; lia).
  replace (Z.to_nat (4 * Z.of_nat k + Z.of_nat j)) with (4 * k + j)%nat by lia. by apply words_nth.
Qed.

Lemma ns_list_zero k : 4 * Z.of_nat (length ids) ≤ k < PAGE_SIZE * 2 -> m' (a + k) = 0.
Proof.
  intros Hk. unfold write_ns_list. rewrite mem_write_base, decide_False by (rewrite words_length; lia).
  by rewrite mem_set_at, decide_True by lia.
Qed.

Lemma ns_list_out k : 4 * Z.of_nat (length ids) ≤ PAGE_SIZE * 2 -> k < 0 \/ PAGE_SIZE * 2 ≤ k -> m' (a + k) = m (a + k).
Proof.
  intros Hl Hk. unfold write_ns_list. rewrite mem_write_base, decide_False by (rewrite words_length; lia).
  by rewrite mem_set_at, decide_False by lia.
Qed.
End IdList.

Lemma active_above_spec n nsid id : id ∈ active_above n nsid <-> 1 ≤ id ≤ n /\ nsid < id.
Proof.
  unfold active_above. rewrite list_elem_of_In, filter_In, <- list_elem_of_In, elem_of_seqZ, Z.ltb_lt. lia.
Qed.

Lemma active_above_length n nsid : 0 ≤ n -> Z.of_nat (length (active_above n nsid)) ≤ n.
Proof.
  intros Hn. unfold active_above. pose proof (filter_length_le (fun i => nsid <? i) (seqZ 1 n)) as Hl. rewrite length_seqZ in Hl. lia.
Qed.

Section Host.
Context {F : Type} `{HostMemLaws F} `{FtlOps F}.
Variable pfn_valid : Z -> bool.
Variable zns_supported : bool.
#[local] Abbreviation dev := (nvmev_dev F ns_kind).
#[local] Abbreviation mem d := (host_of (dev_ftl (vio d))).
Implicit Types d : dev.

Lemma prp_address_eq prp : prp_address prp = prp.
Proof.
  unfold prp_address, prp_address_offset. rewrite Z.add_0_r, Z.shiftl_mul_pow2, Z.shiftr_div_pow2 by lia. change (2 ^ 12) with PAGE_SIZE.
  assert (page_offset prp = prp mod PAGE_SIZE) as -> by (apply (Z.land_ones prp 12); lia).
  pose proof (Z.div_mod prp PAGE_SIZE ltac:(done)). lia.
Qed.

(** Serving an identify command. *)
Lemma identify_served log d q eid c m' : admin_inv log d -> admin_q d = Some q -> sq_at q eid = Ok c ->
  admin_opcode_of (opcode c) = nvme_admin_identify -> (identify_cns c ∈ [0; 3; 5] -> 1 ≤ nsid c ≤ nr_ns d) ->
  identify_mem d c (mem d) = Some m' ->
  wp (__nvmev_proc_admin_req pfn_valid zns_supported eid) (fun _ d' => mem d' = m' /\ exists r0 r1,
    admin_inv (log ++ [admin_work c eid (admin_status c) r0 r1]) d') d.
Proof.
  intros Hi Hq Hc E Hn Em. eapply wp_mono; [eapply proc_admin_req_ok; [done..|]; unfold admin_cmd_ok; by rewrite E|]. intros [] d'.
  rewrite decide_False by (by rewrite E). intros (_ & Ev & Ha). split; [|done]. rewrite Ev. unfold admin_effect. rewrite E, Em.
  apply host_of_put.
Qed.

(** C28. Identify Namespace: the page at PRP1 tells the size, capacity and use
    of the namespace in blocks of the format in use, which has 512-byte
    blocks and no metadata, lists the seven formats, and no other byte of host
    memory changes; the answer says success. *)
Theorem identify_namespace_spec log d q eid c ns : admin_inv log d -> admin_q d = Some q -> sq_at q eid = Ok c ->
  admin_opcode_of (opcode c) = nvme_admin_identify -> identify_cns c = 0 -> 1 ≤ nsid c ->
  vns d !! Z.to_nat (nsid c - 1) = Some ns -> 0 ≤ ns_size ns ≤ U64_MAX ->
  let page := prp1 c in
  wp (__nvmev_proc_admin_req pfn_valid zns_supported eid) (fun _ d' =>
    (forall i, 0 ≤ i < 3 -> mem_le 8 (mem d') (page + 8 * i) = ns_size ns / 512) /\
    (exists k, mem d' (page + 26) = Z.of_nat k /\ mem_le 2 (mem d') (page + (128 + 4 * Z.of_nat k)) = 0 /\
       2 ^ mem d' (page + (130 + 4 * Z.of_nat k)) = 512) /\
    (forall k ms ds rp, lbaf_table !! k = Some (ms, ds, rp) ->
       mem_le 2 (mem d') (page + (128 + 4 * Z.of_nat k)) = ms /\ mem d' (page + (130 + 4 * Z.of_nat k)) = ds) /\
    (forall x, ~ page ≤ x < page + PAGE_SIZE -> mem d' x = mem d x) /\
    (exists r0 r1, admin_inv (log ++ [admin_work c eid NVME_SC_SUCCESS r0 r1]) d')) d.
Proof.
  intros Hi Hq Hc E Ecns Hn Hns Hsz page. pose proof (lookup_lt_Some _ _ _ Hns).
  eapply wp_mono; [apply (identify_served log d q eid c (write_id_ns (mem_set (mem d) page 0 PAGE_SIZE) page (ns_size ns))); try done|].
  - intros _. unfold nr_ns. lia.
  - unfold identify_mem. rewrite Ecns, Hns, prp_address_eq. done.
  - intros _ d' [-> Ha]. unfold admin_status in Ha. rewrite E, Ecns in Ha. split_and!; [..|exact Ha].
    + intros i Hir. rewrite id_ns_sizes by done. by rewrite Z.shiftr_div_pow2 by lia.
    + exists 0%nat. rewrite id_ns_flbas_byte. destruct (id_ns_formats (mem d) page (ns_size ns) 0 0 9 2 eq_refl) as (-> & -> & _). done.
    + intros k ms ds rp Hk. by destruct (id_ns_formats (mem d) page (ns_size ns) _ _ _ _ Hk) as (? & ? & _).
    + intros x Hx. by apply id_ns_out.
Qed.

(** Identify, active namespaces: the words from the start of the page are
    the numbers above NSID of the namespaces, in order and followed by zeros;
    but two pages are cleared, so the page behind the host's buffer is
    overwritten with zeros. *)
Theorem namespace_list_clears_two_pages log d q eid c : admin_inv log d -> admin_q d = Some q -> sq_at q eid = Ok c ->
  admin_opcode_of (opcode c) = nvme_admin_identify -> identify_cns c = 2 -> 4 * nr_ns d ≤ PAGE_SIZE ->
  let page := prp1 c in
  let ids := active_above (nr_ns d) (nsid c) in
  wp (__nvmev_proc_admin_req pfn_valid zns_supported eid) (fun _ d' =>
    (forall id, id ∈ ids <-> 1 ≤ id ≤ nr_ns d /\ nsid c < id) /\
    (forall k id, ids !! k = Some id -> mem_le 4 (mem d') (page + 4 * Z.of_nat k) = id) /\
    (forall x, page + 4 * Z.of_nat (length ids) ≤ x < page + PAGE_SIZE -> mem d' x = 0) /\
    (forall x, page + PAGE_SIZE ≤ x < page + PAGE_SIZE + PAGE_SIZE -> mem d' x = 0) /\
    (forall x, x < page \/ page + PAGE_SIZE + PAGE_SIZE ≤ x -> mem d' x = mem d x)) d.
Proof.
  intros Hi Hq Hc E Ecns Hn page ids. assert (0 ≤ nr_ns d) as Hn0 by (unfold nr_ns; lia).
  pose proof (active_above_length (nr_ns d) (nsid c) Hn0) as Hl. fold ids in Hl.
  eapply wp_mono; [apply (identify_served log d q eid c (write_ns_list (mem_set (mem d) page 0 (PAGE_SIZE * 2)) page ids)); try done|].
  - rewrite Ecns. set_solver.
  - unfold identify_mem. rewrite Ecns, prp_address_eq. done.
  - intros _ d' [-> _]. change (PAGE_SIZE * 2) with (PAGE_SIZE + PAGE_SIZE) in *. change PAGE_SIZE with 4096 in *. split_and!.
    + intros id. apply active_above_spec.
    + intros k id Hk. apply ns_list_word; [done|]. apply list_elem_of_lookup_2, active_above_spec in Hk. lia.
    + intros x Hx. replace x with (page + (x - page)) by lia. apply ns_list_zero. change (PAGE_SIZE * 2) with 8192. lia.
    + intros x Hx. replace x with (page + (x - page)) by lia. apply ns_list_zero. change (PAGE_SIZE * 2) with 8192. lia.
    + intros x Hx. replace x with (page + (x - page)) by lia. apply ns_list_out; change (PAGE_SIZE * 2) with 8192; lia.
Qed.

(** ** Restart *)
Definition write_cc (v : Z) d : dev :=
  dev_with_bar d (mk_regs v (u_csts (bar d)) (u_aqa (bar d)) (u_asq (bar d)) (u_acq (bar d))).

Lemma poll_write_cc v d q : has_dbs d -> settled d -> admin_q d = Some q -> v <> u_cc (bar d) ->
  poll_bars 5 (write_cc v d) = Ok (false, after_cc (write_cc v d) q).
Proof.
  intros Hd Hs Hq Hv. destruct (poll_settle (write_cc v d)) as [-> _]; [done | right; by eexists|]. do 2 f_equal.
  unfold settle, settle_aqa. rewrite Hs at 1. cbn [aqa]. rewrite Z.eqb_refl.
  unfold settle_asq. rewrite Hs at 1. cbn [asq]. rewrite Z.eqb_refl. unfold settle_acq. rewrite Hs at 1. cbn [acq]. rewrite Z.eqb_refl.
  unfold settle_cc, with_queue. rewrite Hs at 1. cbn [cc bar write_cc dev_with_bar u_cc].
  rewrite (proj2 (Z.eqb_neq _ _)) by done. cbn [admin_q write_cc dev_with_bar]. by rewrite Hq.
Qed.

(** The queue after a change of CC: a shutdown rewinds the ring, nothing else
    touches it. *)
Definition cc_queue (v : Z) (q : nvmev_admin_queue) : nvmev_admin_queue :=
  if Z.land (Z.shiftr v 14) 3 =? 1 then mk_aq (aq_phase q) (sq_depth q) (cq_depth q) 0 (nvme_sq q) (nvme_cq q) else q.

Lemma after_write_cc v d q : has_dbs d -> settled d -> admin_q d = Some q ->
  let d' := after_cc (write_cc v d) q in
  has_dbs d' /\ settled d' /\ u_cc (bar d') = v /\ csts_rdy (bar d') = Z.land v 1 /\ admin_q d' = Some (cc_queue v q).
Proof.
  intros Hd Hs Hq d'. destruct (after_cc_regs (write_cc v d) q) as (Ho & E1 & E2 & E3 & E4). fold d' in Ho, E1, E2, E3, E4.
  assert (bar d' = cc_regs (bar (write_cc v d))) as Eb by (unfold d', after_cc; by destruct (_ =? 1)).
  split_and!.
  - unfold d', after_cc. destruct (_ =? 1); [|done]. apply cleared_dbs, cleared_dbs. done.
  - unfold settled. rewrite Ho, E1, E2, E3, E4. cbn [write_cc dev_with_bar old_bar bar u_cc u_aqa u_asq u_acq]. by rewrite Hs.
  - by rewrite E1.
  - rewrite Eb. destruct (cc_regs_csts (bar (write_cc v d))) as [-> _]. done.
  - unfold d', after_cc, cc_queue, cc_shn. cbn [write_cc dev_with_bar bar u_cc]. by destruct (_ =? 1).
Qed.

Lemma post_slot d q pages eid c st e0 : admin_q d = Some q -> nvme_cq q = Some pages -> sq_at q eid = Ok c ->
  cq_entry (admin_ring q pages) (aq_cq_head q) = Ok e0 ->
  wp (__make_cq_entry eid st) (fun _ d' => exists q' pages', admin_q d' = Some q' /\ nvme_cq q' = Some pages' /\
    cq_entry (admin_ring q' pages') (aq_cq_head q) = Ok (admin_cqe c eid st 0 0 (aq_phase q)) /\
    forall j, 0 ≤ j -> j <> aq_cq_head q -> cq_entry (admin_ring q' pages') j = cq_entry (admin_ring q pages) j) d.
Proof.
  intros Hq Hp Hc He. unfold wp, __make_cq_entry. rewrite (make_cq_fill d q pages eid c st 0 0 Hq Hp Hc).
  unfold __fill_cq_result. cbn [cq_head cq_phase cq_queue_size admin_ring].
  pose proof (set_cq_entry_ok (admin_ring q pages) (aq_cq_head q) e0 (completion_of (admin_work c eid st 0 0) (aq_phase q)) He) as Hs.
  apply returns_iff in Hs as (p & Ep & Hj). rewrite Ep. cbn [mbind res_bind].
  assert (0 ≤ aq_cq_head q) as Hh.
  { unfold cq_entry in He. cbn in He. destruct (aget pages _) eqn:Ea; [|done]. apply aget_range in Ea as [Hx _].
    destruct (Z.lt_ge_cases (aq_cq_head q) 0); [|done]. pose proof (Z.div_lt_upper_bound (aq_cq_head q) NR_CQE_PER_PAGE 0 eq_refl). lia. }
  destruct (aq_cq_head q + 1 =? cq_depth q); cbn [cq_phase cq_head cq_pages]; (eexists _, _; split; [done|]; split; [done|]; split;
    [refine (eq_trans (Hj _ Hh) _); by rewrite decide_True|]; intros j Hj0 Hne; refine (eq_trans (Hj j Hj0) _); by rewrite decide_False).
Qed.

(** C34. Restart: when the host disables the controller, with or without a
    shutdown, and enables it again without moving its queues, the device is
    ready again but keeps the phase of its completion ring -- and without a
    shutdown its position too: the next answer goes to that slot with that
    phase and to no other, while the host starts over at slot 0 with phase 1. *)
Theorem restart_keeps_ring log d q off on eid c st pages : has_dbs d -> settled d -> admin_inv log d -> admin_q d = Some q ->
  nvme_cq q = Some pages -> sq_at q eid = Ok c ->
  off <> u_cc (bar d) -> Z.land off 1 = 0 -> on <> off -> Z.land on 1 = 1 -> Z.land (Z.shiftr on 14) 3 <> 1 ->
  let head := if Z.land (Z.shiftr off 14) 3 =? 1 then 0 else aq_cq_head q in
  exists d1 d2, poll_bars 5 (write_cc off d) = Ok (false, d1) /\ csts_rdy (bar d1) = 0 /\
    poll_bars 5 (write_cc on d1) = Ok (false, d2) /\ csts_rdy (bar d2) = 1 /\
    wp (__make_cq_entry eid st) (fun _ d3 => exists q3 pages3, admin_q d3 = Some q3 /\ nvme_cq q3 = Some pages3 /\
      cq_entry (admin_ring q3 pages3) head = Ok (admin_cqe c eid st 0 0 (aq_phase q)) /\
      forall j, 0 ≤ j -> j <> head -> cq_entry (admin_ring q3 pages3) j = cq_entry (admin_ring q pages) j) d2.
Proof.
  intros Hd Hs Hi Hq Hp Hc Hoff Eoff Hon Eon Hshn head.
  destruct (after_write_cc off d q Hd Hs Hq) as (Hd1 & Hs1 & Ec1 & Er1 & Hq1). set (d1 := after_cc (write_cc off d) q) in *.
  destruct (after_write_cc on d1 _ Hd1 Hs1 Hq1) as (_ & _ & _ & Er2 & Hq2). set (d2 := after_cc (write_cc on d1) _) in *.
  exists d1, d2. split; [by apply poll_write_cc|]. split; [by rewrite Er1|]. split; [apply poll_write_cc; [done..|by rewrite Ec1]|].
  split; [by rewrite Er2|].
  set (q1 := cc_queue off q) in *. assert (cc_queue on q1 = q1) as Eq2 by (unfold cc_queue at 1; by rewrite (proj2 (Z.eqb_neq _ _) Hshn)).
  rewrite Eq2 in Hq2. destruct (ai_queue _ _ Hi) as (q0 & pages0 & Hq0 & Hp0 & Hok). assert (q0 = q) as -> by congruence.
  assert (pages0 = pages) as -> by congruence.
  assert (aq_cq_head q1 = head /\ aq_phase q1 = aq_phase q /\ nvme_sq q1 = nvme_sq q /\ nvme_cq q1 = nvme_cq q /\ cq_depth q1 = cq_depth q) as (E1 & E2 & E3 & E4 & E5)
    by (unfold q1, cc_queue, head; by destruct (_ =? 1)).
  destruct (co_slots _ _ Hok head) as [e0 He0].
  { pose proof (co_size _ _ Hok). unfold head. destruct (_ =? 1); [lia|]. pose proof (co_head _ _ Hok) as Eh. cbn in Eh |- *.
    rewrite Eh. by apply slot_range. }
  rewrite <- E2. rewrite <- E1. apply (post_slot d2 q1 pages eid c st e0); [done | by rewrite E4 | by unfold sq_at in *; rewrite E3 |].
  rewrite E1. exact He0.
Qed.
End Host.
