(* ===== verification/AdminExamples.v ===== *)
(** * The admin queue on a small controller

    A controller over plain host memory with a four-entry admin queue pair,
    and the properties of [CtrlProps], [AdminProps], [QueueProps] and
    [AdminHost] on it. *)
From S2P Require Import Prelude Nvme Prp Ssd WorkQueue IoWorker IoRing IoInv IoProps Ctrl CtrlProps Admin AdminProps QueueProps AdminHost.

#[local] Instance mem_host : HostMem host_mem := {| host_of := fun m => m; host_put := fun m _ => m |}.
#[local] Instance mem_host_laws : HostMemLaws host_mem.
Proof. by split. Qed.
#[local] Instance mem_ops : FtlOps host_mem := {|
  proc_io_cmd := fun _ req ret f => Ok (true, req, set_target ret (nsecs_start req + 100), [], f);
  perform_io := fun _ f => Ok f;
  release_buffer := fun _ _ f => Ok f;
|}.
#[local] Instance mem_fine : CmdFine host_mem := fun _ => True.

Definition adm_io (workers : list nvmev_io_worker) : io_dev host_mem :=
  mk_dev (replicate 73 None) (replicate 73 None) workers 0 0 0 (replicate 146 0) (replicate 146 0) [] 0 (fun _ => 0).

(** An admin command by opcode, namespace, page and dwords 10 and 11. *)
Definition adm_cmd (op nsid prp d10 d11 : Z) : nvme_command := mk_cmd op (op + 100) nsid prp 0 (d10 + 4294967296 * d11) 0 0.
Definition adm_sq : list nvme_command :=
  [adm_cmd 0x06 1 0x5000 0 0; (* identify namespace 1 *)
   adm_cmd 0x08 0 0 0 0; (* abort *)
   adm_cmd 0x09 0 0 7 0x30003; (* four queue pairs *)
   adm_cmd 0x7f 0 0 0 0].
Definition adm_queue : nvmev_admin_queue :=
  mk_aq 1 4 4 0 (Some [adm_sq]) (Some [replicate 4 (mk_cqe 0 0 0 0 0 0)]).
Definition adm_ns : nvmev_ns ns_kind := mk_ns 0 NVME_CSI_NVM 1048576 1 SSD_TYPE_NVM.
Definition adm_regs : nvme_ctrl_regs := mk_regs 1 1 0x30003 0x10000 0x20000.

(** Off, with all registers just programmed; on, with nothing posted yet. *)
Definition adm_off : nvmev_dev host_mem ns_kind :=
  mk_vdev (mk_regs 1 0 0x30003 0x10000 0x20000) (mk_bar 0 0 0 0) None (adm_io []) [adm_ns] 5.
Definition adm_on (q : nvmev_admin_queue) (workers : list nvmev_io_worker) : nvmev_dev host_mem ns_kind :=
  mk_vdev adm_regs (mk_bar 1 0x30003 0x10000 0x20000) (Some q) (adm_io workers) [adm_ns] 5.

Lemma adm_off_dbs : has_dbs adm_off.
Proof. split; vm_compute; discriminate. Qed.

Lemma controller_bring_up_witness :
  exists d' q, poll_bars 5 adm_off = Ok (false, d') /\ admin_q d' = Some q /\ csts_rdy (bar d') = 1 /\
    sq_depth q = 4 /\ cq_depth q = 4 /\ aq_phase q = 1 /\ nvme_sq q = Some (asq_pages adm_off).
Proof.
  destruct (proj1 (controller_bring_up adm_off adm_off_dbs) ltac:(left; discriminate)) as (d' & q & H1 & _ & H2 & H3 & H4 & H5 & H6 & _).
  exists d', q. split; [exact H1|]. split; [exact H2|]. split; [exact (proj1 (H3 ltac:(discriminate)))|].
  split; [exact (proj1 (H4 ltac:(left; discriminate)))|]. destruct (H5 ltac:(left; discriminate)) as (E1 & E2 & _).
  split; [exact E1|]. split; [exact E2 | exact (H6 ltac:(discriminate))].
Defined.

(** A ring of four slots that nothing has been posted to. *)
Lemma adm_ring_ok sq : cq_ok (admin_ring (mk_aq 1 4 4 0 sq (nvme_cq adm_queue)) [replicate 4 (mk_cqe 0 0 0 0 0 0)]) [].
Proof.
  split; try reflexivity.
  - intros j Hj. assert (j = 0 \/ j = 1 \/ j = 2 \/ j = 3) as [-> | [-> | [-> | ->]]] by (cbn in Hj; lia); eexists; reflexivity.
  - intros k w Hk. rewrite lookup_nil in Hk. discriminate.
  - intros j Hj. assert (j = 0 \/ j = 1 \/ j = 2 \/ j = 3) as [-> | [-> | [-> | ->]]] by (cbn in Hj; lia); eexists; split; reflexivity.
Qed.

Lemma adm_inv_ok sq workers : admin_inv [] (adm_on (mk_aq 1 4 4 0 sq (nvme_cq adm_queue)) workers).
Proof.
  split; try reflexivity; try (vm_compute; discriminate).
  - eexists _, _. split; [reflexivity|]. split; [reflexivity|]. apply adm_ring_ok.
  - repeat constructor.
Qed.

(** Three of the four commands are answered: the abort is not. *)
Lemma admin_doorbell_served_witness :
  wp (nvmev_proc_admin_sq (fun _ => true) false 3 0) (fun _ d' => exists ws, admin_inv ws d' /\
    map answer_in ws = [(0, 106, 0); (2, 109, 0)]) (adm_on adm_queue []).
Proof.
  pose proof (admin_doorbell_served (fun _ => true) false [] (adm_on adm_queue []) adm_queue 3 0 (adm_inv_ok _ _) eq_refl
    ltac:(split; [lia | reflexivity]) ltac:(split; [lia | reflexivity]) eq_refl) as Hs.
  rewrite decide_True in Hs.
  - eapply wp_mono; [apply Hs|].
    + repeat constructor; vm_compute; discriminate.
    + intros _ d' (ws & H1 & H2 & _). exists ws. split; [exact H1|]. rewrite H2. reflexivity.
  - apply (Forall_cons_2 _ (0, adm_cmd 0x06 1 0x5000 0 0)); [split; vm_compute; discriminate|].
    apply (Forall_cons_2 _ (1, adm_cmd 0x08 0 0 0 0)); [exact I|].
    apply (Forall_cons_2 _ (2, adm_cmd 0x09 0 0 7 0x30003)); [exact I | constructor].
Defined.

Lemma identify_namespace_spec_witness :
  wp (__nvmev_proc_admin_req (fun _ => true) false 0) (fun _ d' =>
    mem_le 8 (host_of (dev_ftl (vio d'))) (0x5000 + 8 * 0) = 2048) (adm_on adm_queue []).
Proof.
  eapply wp_mono; [apply (identify_namespace_spec (fun _ => true) false [] (adm_on adm_queue []) adm_queue 0
    (adm_cmd 0x06 1 0x5000 0 0) adm_ns (adm_inv_ok _ _) eq_refl eq_refl eq_refl eq_refl)|].
  - vm_compute. discriminate.
  - reflexivity.
  - split; vm_compute; discriminate.
  - intros _ d' [H _]. exact (H 0 ltac:(lia)).
Defined.

(** A second page of ones behind the host's buffer is lost. *)
Definition adm_list (m : host_mem) : nvmev_dev host_mem ns_kind :=
  let q := mk_aq 1 4 4 0 (Some [[adm_cmd 0x06 0 0x5000 2 0]]) (nvme_cq adm_queue) in
  dev_with_io (adm_on q []) (dev_with_ftl (adm_io []) m).

Lemma namespace_list_clears_two_pages_witness :
  wp (__nvmev_proc_admin_req (fun _ => true) false 0) (fun _ d' =>
    mem_le 4 (host_of (dev_ftl (vio d'))) 0x5000 = 1 /\ host_of (dev_ftl (vio d')) 0x6000 = 0) (adm_list (fun _ => 1)).
Proof.
  eapply wp_mono; [apply (namespace_list_clears_two_pages (fun _ => true) false [] (adm_list (fun _ => 1))
    (mk_aq 1 4 4 0 (Some [[adm_cmd 0x06 0 0x5000 2 0]]) (nvme_cq adm_queue)) 0 (adm_cmd 0x06 0 0x5000 2 0))|].
  - destruct (adm_inv_ok (Some [[adm_cmd 0x06 0 0x5000 2 0]]) []). split; assumption.
  - reflexivity.
  - reflexivity.
  - reflexivity.
  - reflexivity.
  - vm_compute. discriminate.
  - intros _ d' (_ & H1 & _ & H2 & _). split; [exact (H1 0%nat 1 eq_refl) | apply (H2 0x6000); vm_compute; split; congruence].
Defined.

(** A controller whose completion ring has just turned once: phase 0. *)
Definition adm_turned : nvmev_admin_queue :=
  mk_aq 0 4 4 0 (Some [adm_sq]) (Some [replicate 4 (mk_cqe 0 0 0 0 106 1)]).
Definition adm_log : list nvmev_io_work := replicate 4 (admin_work (adm_cmd 0x06 1 0x5000 0 0) 0 0 0 0).

Lemma adm_turned_ok workers : admin_inv adm_log (adm_on adm_turned workers).
Proof.
  split; try reflexivity; try (vm_compute; discriminate).
  - eexists _, _. split; [reflexivity|]. split; [reflexivity|]. split; try reflexivity.
    + intros j Hj. assert (j = 0 \/ j = 1 \/ j = 2 \/ j = 3) as [-> | [-> | [-> | ->]]] by (cbn in Hj; lia); eexists; reflexivity.
    + intros k w Hk _. do 4 (destruct k as [|k]; [injection Hk as <-; reflexivity|]). discriminate Hk.
    + intros j Hj. cbn in Hj. lia.
  - repeat constructor.
Qed.

Lemma restart_keeps_ring_witness :
  exists d1 d2, poll_bars 5 (write_cc 0 (adm_on adm_turned [])) = Ok (false, d1) /\
    poll_bars 5 (write_cc 1 d1) = Ok (false, d2) /\ csts_rdy (bar d2) = 1 /\
    wp (__make_cq_entry 0 0) (fun _ d3 => exists q3 pages3, admin_q d3 = Some q3 /\ nvme_cq q3 = Some pages3 /\
      cq_entry (admin_ring q3 pages3) 0 = Ok (mk_cqe 0 0 0 0 106 0)) d2.
Proof.
  destruct (restart_keeps_ring (adm_log) (adm_on adm_turned []) adm_turned 0 1 0
    (adm_cmd 0x06 1 0x5000 0 0) 0 [replicate 4 (mk_cqe 0 0 0 0 106 1)]) as (d1 & d2 & H1 & _ & H2 & H3 & H4).
  - split; vm_compute; discriminate.
  - reflexivity.
  - apply adm_turned_ok.
  - reflexivity.
  - reflexivity.
  - reflexivity.
  - discriminate.
  - reflexivity.
  - discriminate.
  - reflexivity.
  - discriminate.
  - exists d1, d2. split; [exact H1|]. split; [exact H2|]. split; [exact H3|].
    eapply wp_mono; [exact H4|]. intros _ d3 (q3 & pages3 & E1 & E2 & E3 & _). exists q3, pages3. split; [exact E1|]. split; [exact E2 | exact E3].
Defined.

(** ** Queues *)
Definition adm_create : nvme_command := adm_cmd 0x05 0 0x6000 0x10001 3. (* queue 1, two entries, interrupts *)
Definition adm_creating : nvmev_dev host_mem ns_kind :=
  adm_on (mk_aq 1 4 4 0 (Some [[adm_create]]) (nvme_cq adm_queue)) [tiny_worker].

Lemma adm_io_inv : io_inv (mk_io (vio adm_creating) [NIL] [] []).
Proof.
  split; cbn [st_dev st_pcs st_accepted st_posted].
  - exact tiny_workers_ok.
  - cbn. destruct (idle_worker tiny_worker 0 NIL tiny_worker_init eq_refl) as [_ E]. unfold all_pending. cbn. rewrite E. done.
  - constructor.
  - intros cqid cq [_ Hl]%aget_Ok. apply lookup_replicate in Hl as [Hl _]. discriminate.
  - cbn. destruct (idle_worker tiny_worker 0 NIL tiny_worker_init eq_refl) as [_ E]. unfold all_pending. cbn. rewrite E. constructor.
Qed.

(** A worker with one request whose data has been copied, due at once. *)
Definition adm_flying : nvmev_io_work := mk_work 1 1 0 7 0 0 0 true false 0 0 0 false NullBuffer 0 NIL NIL.
Definition adm_delete : nvme_command := adm_cmd 0x04 0 0 1 0.
Definition adm_deleting : nvmev_dev host_mem ns_kind :=
  adm_on (mk_aq 1 4 4 0 (Some [[adm_delete]]) (nvme_cq adm_queue)) [mk_worker [adm_flying] 0 0 0 0 0 0].

Lemma delete_cq_in_flight_faults_witness :
  wp (__nvmev_proc_admin_req (fun _ => true) false 0) (fun _ d' =>
    visit_entry (fun _ => 1000) 0 0 0 (vio d') = Bug NullDeref) adm_deleting.
Proof.
  eapply wp_mono; [apply (delete_cq_in_flight_faults (fun _ => true) false (fun _ => 1000) [] adm_deleting
    (mk_aq 1 4 4 0 (Some [[adm_delete]]) (nvme_cq adm_queue)) 0 adm_delete 0 0 0 (mk_worker [adm_flying] 0 0 0 0 0 0) adm_flying
    (adm_inv_ok _ _) eq_refl eq_refl eq_refl); try reflexivity; vm_compute; discriminate|].
  intros _ d' [_ H]. exact H.
Defined.

(** ** What nothing checks

    A queue number beyond the table and a namespace that does not exist. *)
Definition adm_fault (c : nvme_command) : option bug :=
  match __nvmev_proc_admin_req (fun _ => true) false 0 (adm_on (mk_aq 1 4 4 0 (Some [[c]]) (nvme_cq adm_queue)) []) with
  | Ok _ => None
  | Bug b => Some b
  end.
Example unchecked_commands :
  map adm_fault [adm_cmd 0x01 0 0x6000 0x10049 0; adm_cmd 0x06 0 0x5000 3 0; adm_cmd 0x06 2 0x5000 0 0; adm_cmd 0x02 0 0x5000 0x800002 0]
  = replicate 4 (Some OutOfRange).
Proof. vm_compute. reflexivity. Qed.
