(* ===== verification/Config.v ===== *)
(** * Module parameters and namespaces
    ([src/main.c], [struct nvmev_config] of [src/nvmev.h])

    Loading the module checks the parameters, fixes the layout of the reserved
    memory -- a megabyte for the registers, the storage, and for the key-value
    device its table behind it -- reads the list of processors, and carves the
    storage into namespaces.  The files under [/proc/nvmev] show the state of
    the submission queues and change the timing afterwards. *)
From Stdlib Require Import Ascii String.
From S2P Require Import Prelude Nvme SimpleFtl WorkQueue IoWorker.

Definition EINVAL : Z := 22.
Definition EPERM : Z := 1.

(** ** Parameters *)
Record module_params := mk_params {
  p_memmap_start : Z;
  p_memmap_size : Z;
  p_perf : nvmev_config;
  p_cpus : option string;
}.

(** [struct nvmev_config]; [perf] is the part that the timing uses. *)
Record device_config := mk_devcfg {
  memmap_start : Z;
  memmap_size : Z;
  storage_start : Z;
  storage_size : Z;
  cpu_nr_dispatcher : Z;
  nr_io_workers : Z;
  cpu_nr_io_workers : list Z;
  perf : nvmev_config;
}.

Section Validate.
(** [e820__mapped_any(start, end, type)] of the kernel's memory map, for the
    types RAM, RESERVED_KERN and RESERVED.  A kernel without the type
    RESERVED_KERN, for which the [#ifdef] leaves the second test out, is the
    case [fun _ _ => false]. *)
Variables e820_ram e820_reserved_kern e820_reserved : Z -> Z -> bool.

Definition __validate_configs_arch (p : module_params) : Z :=
  let resv_start_bytes := p_memmap_start p in
  let resv_end_bytes := u64 (resv_start_bytes + p_memmap_size p - 1) in
  if e820_ram resv_start_bytes resv_end_bytes then - EPERM
  else if e820_reserved_kern resv_start_bytes resv_end_bytes then - EPERM
  else if negb (e820_reserved resv_start_bytes resv_end_bytes) then - EPERM
  else 0.

Definition __validate_configs (p : module_params) : Z :=
  if p_memmap_start p =? 0 then - EINVAL
  else if p_memmap_size p =? 0 then - EINVAL
  else if p_memmap_size p <=? MB 1 then - EINVAL
  else if negb (__validate_configs_arch p =? 0) then - EPERM
  else if (nr_io_units (p_perf p) =? 0) || (io_unit_shift (p_perf p) =? 0) then - EINVAL
  else if read_time (p_perf p) =? 0 then - EINVAL
  else if write_time (p_perf p) =? 0 then - EINVAL
  else 0.
End Validate.

(** ** The list of processors

    [strsep(&cpus, ",")] until the string is used up. *)
Fixpoint strsep_tokens (s : string) : list string :=
  match s with
  | EmptyString => [EmptyString]
  | String c s =>
    match strsep_tokens s with
    | [] => [EmptyString]
    | t :: ts => if Ascii.eqb c "," then EmptyString :: t :: ts else String c t :: ts
    end
  end.

Definition tokens (cpus : option string) : list string :=
  match cpus with None => [] | Some s => strsep_tokens s end.

Section Load.
Variables e820_ram e820_reserved_kern e820_reserved : Z -> Z -> bool.
(** [simple_strtol(cpu, NULL, 10)] of the kernel. *)
Variable simple_strtol : string -> Z.
(** [BASE_SSD == KV_PROTOTYPE] and its [KV_MAPPING_TABLE_SIZE]. *)
Variable kv_table : option Z.

(** [unsigned int cpu_nr_io_workers[32]]. *)
Definition NR_WORKER_CPUS : Z := 32.

(** One turn of the loop over the tokens: [first], the dispatcher's processor,
    the workers so far. *)
Definition load_cpu (x : bool * Z * Z * list Z) (cpu : string) : res (bool * Z * Z * list Z) :=
  let '(first, dispatcher, n, workers) := x in
  let cpu_nr := u32 (simple_strtol cpu) in
  if (first : bool) then Ok (false, cpu_nr, n, workers)
  else workers ← aset workers n cpu_nr; Ok (false, dispatcher, u32 (n + 1), workers).

Fixpoint load_cpus (x : bool * Z * Z * list Z) (cpus : list string) : res (bool * Z * Z * list Z) :=
  match cpus with [] => Ok x | cpu :: cpus => x ← load_cpu x cpu; load_cpus x cpus end.

(** [None]: the parameters were refused. *)
Definition __load_configs (p : module_params) : res (option device_config) :=
  if __validate_configs e820_ram e820_reserved_kern e820_reserved p <? 0 then Ok None
  else
    let size := match kv_table with Some t => u64 (p_memmap_size p - t) | None => p_memmap_size p end in
    '(_, dispatcher, n, workers) ← load_cpus (true, u32 (-1), 0, replicate (Z.to_nat NR_WORKER_CPUS) 0) (tokens (p_cpus p));
    Ok (Some (mk_devcfg (p_memmap_start p) size (u64 (p_memmap_start p + MB 1)) (u64 (size - MB 1)) dispatcher n workers (p_perf p))).
End Load.

(** ** Namespaces *)
Section Namespaces.
Context {N : Type}.
(** [simple_init_namespace], [conv_init_namespace], [zns_init_namespace] and
    [kv_init_namespace]: number, size, start. *)
Variables simple_init conv_init zns_init kv_init : Z -> Z -> Z -> res N.
(** [ns_ssd_type[]] and [ns_capacity[]]. *)
Variables ns_ssd_type ns_capacity : list Z.

Definition init_namespace (i size addr : Z) : res N :=
  t ← aget ns_ssd_type i;
  if t =? 0 then simple_init i size addr (* SSD_TYPE_NVM *)
  else if t =? 1 then conv_init i size addr (* SSD_TYPE_CONV *)
  else if t =? 2 then zns_init i size addr (* SSD_TYPE_ZNS *)
  else if t =? 3 then kv_init i size addr (* SSD_TYPE_KV *)
  else Bug BugOn.

Definition ns_size_of (i remaining_capacity : Z) : res Z :=
  c ← aget ns_capacity i;
  Ok (if c =? 0 then remaining_capacity else Z.min c remaining_capacity).

(** The loop of [NVMEV_NAMESPACE_INIT]; the capacity left and the address of
    the next namespace are threaded through. *)
Fixpoint namespace_loop (n : nat) (i remaining_capacity ns_addr : Z) (ns : list N) : res (list N) :=
  match n with
  | O => Ok ns
  | S n =>
    size ← ns_size_of i remaining_capacity;
    x ← init_namespace i size ns_addr;
    namespace_loop n (i + 1) (u64 (remaining_capacity - size)) (ns_addr + size) (ns ++ [x])
  end.

Definition NVMEV_NAMESPACE_INIT (nr_ns : nat) (storage_size storage_mapped : Z) : res (list N) :=
  namespace_loop nr_ns 0 storage_size storage_mapped [].
End Namespaces.

(** ** The files under /proc/nvmev *)
Section Proc.
Context {F : Type}.
#[local] Abbreviation M := (prog (io_dev F)).

(** The 32-bit difference of two doorbells, as an [int]. *)
Definition __get_nr_entries (dbs_idx queue_size : Z) : M Z := fun d =>
  new_db ← aget (dbs d) dbs_idx; old_db ← aget (old_dbs d) dbs_idx;
  let diff := i32 (new_db - old_db) in
  Ok (if diff <? 0 then diff + queue_size else diff, d).

(** What a read of [stat] prints: a line per queue and the totals. *)
Record stat_totals := mk_totals { t_in_flight : Z; t_dispatch : Z; t_dispatched : Z; t_total_io : Z }.
Definition stat_line : Type := Z * Z * nvmev_sq_stat.

Definition read_stat_line (i : Z) (x : list stat_line * stat_totals) : M (list stat_line * stat_totals) :=
  let '(ls, t) := x in
  q ← find_sq i;
  match q with
  | None => mret x
  | Some sq =>
    n ← __get_nr_entries (i * 2) (sq_queue_size sq);
    let s := sq_stat sq in
    _ ← set_sq i (sq_with_stat sq (mk_stat (nr_dispatched s) (nr_dispatch s) (nr_in_flight s) 0 (total_io s)));
    mret (ls ++ [(i, n, s)],
      mk_totals (u32 (t_in_flight t + nr_in_flight s)) (u32 (t_dispatch t + nr_dispatch s))
        (u32 (t_dispatched t + nr_dispatched s)) (u64 (t_total_io t + total_io s)))
  end.

Definition proc_read_stat : M (list stat_line * stat_totals) :=
  n ← gets nr_sq;
  for_loop (Z.to_nat n) 1 read_stat_line ([], mk_totals 0 0 0 0).

(** A write to [stat] clears the statistics. *)
Definition clear_stat_line (i : Z) (u : unit) : M unit :=
  q ← find_sq i;
  match q with
  | None => mret tt
  | Some sq => set_sq i (sq_with_stat sq (mk_stat 0 0 0 0 0))
  end.

Definition proc_write_stat : M unit :=
  n ← gets nr_sq;
  for_loop (Z.to_nat n) 1 clear_stat_line tt.
End Proc.

(** Writes to [read_times], [write_times] and [io_units]: [nums] are the
    numbers [sscanf] converts, at most as many as the format asks for; the
    others keep their value. *)
Definition num (nums : list Z) (i : nat) (old : Z) : Z := match nums !! i with Some x => u32 x | None => old end.

Definition proc_write_read_times (nums : list Z) (c : nvmev_config) : nvmev_config :=
  mk_config (nr_io_units c) (io_unit_shift c) (num nums 0 (read_delay c)) (num nums 1 (read_time c)) (num nums 2 (read_trailing c))
    (write_delay c) (write_time c) (write_trailing c).

Definition proc_write_write_times (nums : list Z) (c : nvmev_config) : nvmev_config :=
  mk_config (nr_io_units c) (io_unit_shift c) (read_delay c) (read_time c) (read_trailing c)
    (num nums 0 (write_delay c)) (num nums 1 (write_time c)) (num nums 2 (write_trailing c)).

(** The units start anew, all idle, unless nothing was converted. *)
Definition proc_write_io_units (nums : list Z) (c : nvmev_config) (io_unit_stat : list Z) : nvmev_config * list Z :=
  match nums with
  | [] => (c, io_unit_stat)
  | _ =>
    let c := mk_config (num nums 0 (nr_io_units c)) (num nums 1 (io_unit_shift c)) (read_delay c) (read_time c) (read_trailing c)
      (write_delay c) (write_time c) (write_trailing c) in
    (c, replicate (Z.to_nat (nr_io_units c)) 0)
  end.

(** * Properties *)

(** ** Tokens *)
Fixpoint join (ts : list string) : string :=
  match ts with
  | [] => EmptyString
  | [t] => t
  | t :: ts => append t (String "," (join ts))
  end.

Definition no_comma (t : string) : Prop := ~ In ","%char (list_ascii_of_string t).

Lemma strsep_tokens_ok s : strsep_tokens s <> [] /\ join (strsep_tokens s) = s /\ Forall no_comma (strsep_tokens s).
Proof.
  induction s as [|c s (Hn & Hj & Hf)]; cbn [strsep_tokens].
  - split; [done|]. split; [done|]. apply Forall_singleton. by intros [].
  - destruct (strsep_tokens s) as [|t ts]; [done|]. apply Forall_cons in Hf as [Ht Hf]. destruct (Ascii.eqb_spec c ",") as [->|Hc].
    + split; [done|]. split; [by rewrite <- Hj|]. apply Forall_cons. split; [by intros []|]. by apply Forall_cons.
    + split; [done|]. split; [destruct ts; rewrite <- Hj; done|]. constructor; [|done]. intros [Heq|Hi]; [done | by apply Ht].
Qed.

Section LoadProps.
Variables e820_ram e820_reserved_kern e820_reserved : Z -> Z -> bool.
Variable simple_strtol : string -> Z.
#[local] Abbreviation load := (__load_configs e820_ram e820_reserved_kern e820_reserved simple_strtol).
#[local] Abbreviation valid := (__validate_configs e820_ram e820_reserved_kern e820_reserved).
#[local] Abbreviation cpu_of t := (u32 (simple_strtol t)).

(** The parameters the module accepts. *)
Record params_ok (p : module_params) : Prop := {
  po_start : p_memmap_start p <> 0;
  po_size : MB 1 < p_memmap_size p;
  po_reserved : e820_reserved (p_memmap_start p) (u64 (p_memmap_start p + p_memmap_size p - 1)) = true;
  po_free : e820_ram (p_memmap_start p) (u64 (p_memmap_start p + p_memmap_size p - 1)) = false /\
    e820_reserved_kern (p_memmap_start p) (u64 (p_memmap_start p + p_memmap_size p - 1)) = false;
  po_units : nr_io_units (p_perf p) <> 0 /\ io_unit_shift (p_perf p) <> 0;
  po_times : read_time (p_perf p) <> 0 /\ write_time (p_perf p) <> 0;
}.

Lemma validate_iff p : 0 ≤ p_memmap_size p -> (valid p <? 0) = false <-> params_ok p.
Proof.
  intros Hs. unfold __validate_configs, __validate_configs_arch, EINVAL, EPERM. split.
  - intros Hv. repeat case_test; bool_prop; try lia; try discriminate. split; try done; try lia.
  - intros [H1 H2 H3 [H4 H5] [H6 H7] [H8 H9]]. rewrite H3, H4, H5. cbn [negb Z.eqb].
    assert (0 < MB 1) by done. rewrite (proj2 (Z.eqb_neq _ _) H1), (proj2 (Z.eqb_neq (p_memmap_size p) 0)) by lia.
    rewrite (proj2 (Z.leb_gt _ _) H2), (proj2 (Z.eqb_neq _ _) H6), (proj2 (Z.eqb_neq _ _) H7), (proj2 (Z.eqb_neq _ _) H8), (proj2 (Z.eqb_neq _ _) H9).
    done.
Qed.

Lemma load_cpus_workers ts : forall d n ws, 0 ≤ n -> n + Z.of_nat (length ts) ≤ Z.of_nat (length ws) -> Z.of_nat (length ws) ≤ NR_WORKER_CPUS ->
  load_cpus simple_strtol (false, d, n, ws) ts =
    Ok (false, d, n + Z.of_nat (length ts), take (Z.to_nat n) ws ++ map (fun t => cpu_of t) ts ++ drop (Z.to_nat n + length ts) ws).
Proof.
  unfold NR_WORKER_CPUS.
  induction ts as [|t ts IH]; intros d n ws Hn Hl Hw; cbn [load_cpus length map app].
  { by rewrite Nat.add_0_r, take_drop, Z.add_0_r. }
  cbn [length] in Hl. unfold load_cpu at 1. rewrite aset_in_range by lia. cbn [mbind res_bind]. wsimpl.
  rewrite IH by (rewrite ?length_insert; lia). do 2 f_equal; [f_equal; lia|].
  replace (Z.to_nat (n + 1)) with (S (Z.to_nat n)) by lia. set (k := Z.to_nat n).
  rewrite (take_S_r _ _ (cpu_of t)) by (apply list_lookup_insert_eq; lia). rewrite take_insert_ge by lia.
  rewrite <- app_assoc. cbn [app]. do 3 f_equal. rewrite drop_insert_lt by lia. f_equal. lia.
Qed.

Lemma load_cpus_too_many ts : forall d n ws, 0 ≤ n ≤ Z.of_nat (length ws) -> Z.of_nat (length ws) < n + Z.of_nat (length ts) ->
  Z.of_nat (length ws) ≤ NR_WORKER_CPUS -> load_cpus simple_strtol (false, d, n, ws) ts = Bug OutOfRange.
Proof.
  unfold NR_WORKER_CPUS. induction ts as [|t ts IH]; intros d n ws Hn Hl Hw; cbn [load_cpus length] in *; [lia|].
  unfold load_cpu at 1. destruct (decide (n < Z.of_nat (length ws))) as [Hlt|Hge].
  - rewrite aset_in_range by lia. cbn [mbind res_bind]. wsimpl. apply IH; rewrite ?length_insert; lia.
  - unfold aset. by rewrite decide_False by lia.
Qed.

Lemma load_cpus_ok ts : let x := load_cpus simple_strtol (true, u32 (-1), 0, replicate (Z.to_nat NR_WORKER_CPUS) 0) ts in
  (33 < Z.of_nat (length ts) -> x = Bug OutOfRange) /\
  (Z.of_nat (length ts) ≤ 33 -> exists f d n ws, x = Ok (f, d, n, ws) /\ n = Z.max 0 (Z.of_nat (length ts) - 1) /\
     map (fun t => cpu_of t) ts = take (length ts) (d :: ws)).
Proof.
  destruct ts as [|t ts]; cbn [length load_cpus]; [split; [lia|]; by eexists _, _, _, _|].
  set (ws := replicate _ _). assert (Z.of_nat (length ws) = NR_WORKER_CPUS) as Hw by done. clearbody ws.
  change (load_cpu simple_strtol (true, u32 (-1), 0, ws) t) with (Ok (false, cpu_of t, 0, ws)). cbn [mbind res_bind].
  unfold NR_WORKER_CPUS in *. split.
  - intros Hn. apply load_cpus_too_many; unfold NR_WORKER_CPUS; lia.
  - intros Hn. rewrite load_cpus_workers by (unfold NR_WORKER_CPUS; lia).
    eexists _, _, _, _. split; [done|]. split; [lia|]. cbn [map take Nat.add Z.to_nat app]. f_equal.
    rewrite take_0. cbn [app]. symmetry. apply take_app_length'. symmetry. apply length_map.
Qed.

(** The reserved memory as the configuration divides it; [t] is the size of the
    key-value table. *)
Definition layout_ok (p : module_params) (t : Z) (c : device_config) : Prop :=
  storage_start c = p_memmap_start p + MB 1 /\ storage_size c = p_memmap_size p - MB 1 - t /\ 0 < storage_size c /\
  storage_start c + storage_size c + t = p_memmap_start p + p_memmap_size p.

Lemma load_accepted kv_table p : 0 ≤ p_memmap_size p -> params_ok p -> Z.of_nat (length (tokens (p_cpus p))) ≤ 33 ->
  let t := match kv_table with Some t => t | None => 0 end in
  let n := length (tokens (p_cpus p)) in
  exists c, load kv_table p = Ok (Some c) /\ perf c = p_perf p /\ nr_io_workers c = Z.max 0 (Z.of_nat n - 1) /\
    map (fun t => cpu_of t) (tokens (p_cpus p)) = take n (cpu_nr_dispatcher c :: cpu_nr_io_workers c) /\
    memmap_start c = p_memmap_start p /\ storage_start c = u64 (p_memmap_start p + MB 1) /\
    (p_memmap_size p ≤ U64_MAX -> storage_size c = u64 (p_memmap_size p - t - MB 1)).
Proof.
  intros Hz Hp Hn t n. unfold __load_configs. rewrite (proj2 (validate_iff p Hz) Hp).
  destruct (load_cpus_ok (tokens (p_cpus p))) as [_ Hfew]. destruct (Hfew Hn) as (f & dsp & k & ws & -> & -> & Hc). cbn [mbind res_bind].
  eexists. split; [done|]. split; [done|]. split; [done|]. split; [done|]. split; [done|]. split; [done|]. intros Hu. cbn [storage_size].
  subst t. destruct kv_table as [t|]; [|by rewrite Z.sub_0_r]. unfold u64. by rewrite Zminus_mod_idemp_l.
Qed.

Lemma load_too_many kv_table p : 0 ≤ p_memmap_size p -> params_ok p -> 33 < Z.of_nat (length (tokens (p_cpus p))) -> load kv_table p = Bug OutOfRange.
Proof.
  intros Hz Hp Hn. unfold __load_configs. rewrite (proj2 (validate_iff p Hz) Hp).
  destruct (load_cpus_ok (tokens (p_cpus p))) as [Hmany _]. by rewrite Hmany.
Qed.

Lemma load_refused kv_table p : 0 ≤ p_memmap_size p -> ~ params_ok p -> load kv_table p = Ok None.
Proof.
  intros Hz Hp. unfold __load_configs. destruct (valid p <? 0) eqn:Ev; [done|]. by apply (proj1 (validate_iff p Hz)) in Ev.
Qed.

(** With room for the table the memory is divided. *)
Lemma load_ok kv_table p t : t = match kv_table with Some t => t | None => 0 end -> params_ok p -> 0 ≤ p_memmap_start p ->
  p_memmap_start p + p_memmap_size p ≤ U64_MAX -> 0 ≤ t < p_memmap_size p - MB 1 -> Z.of_nat (length (tokens (p_cpus p))) ≤ 33 ->
  exists c, load kv_table p = Ok (Some c) /\ nr_io_workers c = Z.max 0 (Z.of_nat (length (tokens (p_cpus p))) - 1) /\
    layout_ok p t c /\ memmap_start c = p_memmap_start p.
Proof.
  intros Et Hp Hs Hu Ht Hn. assert (0 < MB 1) by done.
  destruct (load_accepted kv_table p ltac:(lia) Hp Hn) as (c & E & _ & Ew & _ & Em & Ess & Esz). exists c. split; [done|]. split; [done|]. split; [|done].
  unfold layout_ok. rewrite Esz, Ess, <- Et by lia. rewrite !u64_small by lia. lia.
Qed.

(** C30. Loading: the parameters are accepted exactly when the reserved memory
    is usable and the timing is not zero.  Then the registers, the storage and
    the key-value table divide the reserved memory, the first processor is the
    dispatcher's and the others are the workers'; a 34th processor runs over
    the table of workers.  A key-value device whose memory is no larger than
    its table and the registers gets a storage size of almost 2^64. *)
Theorem load_configs_spec kv_table p ts : ts = tokens (p_cpus p) ->
  0 ≤ p_memmap_start p -> 0 ≤ p_memmap_size p -> p_memmap_start p + p_memmap_size p ≤ U64_MAX ->
  let t := match kv_table with Some t => t | None => 0 end in
  0 ≤ t ≤ U64_MAX - MB 1 ->
  (~ params_ok p -> load kv_table p = Ok None) /\
  (params_ok p -> 33 < Z.of_nat (length ts) -> load kv_table p = Bug OutOfRange) /\
  (params_ok p -> Z.of_nat (length ts) ≤ 33 -> exists c, load kv_table p = Ok (Some c) /\ perf c = p_perf p /\
     nr_io_workers c = Z.max 0 (Z.of_nat (length ts) - 1) /\
     map (fun t => cpu_of t) ts = take (length ts) (cpu_nr_dispatcher c :: cpu_nr_io_workers c) /\
     (t < p_memmap_size p - MB 1 -> layout_ok p t c) /\
     (p_memmap_size p - MB 1 < t -> storage_size c = p_memmap_size p - MB 1 - t + U64_MAX + 1)).
Proof.
  intros -> Hs0 Hz0 Hz t Ht. split; [by apply load_refused|]. split; [by apply load_too_many|]. intros Hp Hn.
  destruct (load_accepted kv_table p Hz0 Hp Hn) as (c & E & Ep & Ew & Ec & _ & Ess & Esz). exists c. do 4 (split; [done|]).
  pose proof (po_size _ Hp). assert (0 < MB 1) by done. split.
  - intros Hlt. destruct (load_ok kv_table p t eq_refl Hp Hs0 Hz ltac:(lia) Hn) as (c' & E' & _ & Hl & _). rewrite E in E'. by injection E' as <-.
  - intros Hlt. rewrite Esz by lia. fold t. unfold u64, U64_MAX in *. symmetry. apply (Z.mod_unique_pos _ _ (-1)); lia.
Qed.
End LoadProps.

(** ** Namespaces *)
Section NamespaceProps.
Context {N : Type}.
Variables simple_init conv_init zns_init kv_init : Z -> Z -> Z -> res N.
Variables ns_ssd_type ns_capacity : list Z.
#[local] Abbreviation init_ns := (init_namespace simple_init conv_init zns_init kv_init ns_ssd_type).

(** The sizes the loop hands out from [rem] on: consecutive regions, none
    larger than its capacity, a capacity of zero taking all that is left. *)
Fixpoint carve (rem : Z) (caps : list Z) : list Z :=
  match caps with
  | [] => []
  | c :: caps => let size := if c =? 0 then rem else Z.min c rem in size :: carve (rem - size) caps
  end.

(** Number, size and start of each region. *)
Fixpoint regions (i addr : Z) (sizes : list Z) : list (Z * Z * Z) :=
  match sizes with [] => [] | size :: sizes => (i, size, addr) :: regions (i + 1) (addr + size) sizes end.

Lemma carve_bounds caps : forall rem, Forall (fun c => 0 ≤ c) caps -> 0 ≤ rem ->
  Forall (fun s => 0 ≤ s) (carve rem caps) /\ foldr Z.add 0 (carve rem caps) ≤ rem /\
  (In 0 caps -> foldr Z.add 0 (carve rem caps) = rem).
Proof.
  induction caps as [|c caps IH]; intros rem Hc Hr; [by split; [constructor|]|]. apply Forall_cons in Hc as [Hc0 Hc]. cbn [carve foldr In].
  set (size := if c =? 0 then rem else Z.min c rem). assert (0 ≤ size ≤ rem) as Hs by (unfold size; destruct (c =? 0); lia).
  destruct (IH (rem - size) Hc ltac:(lia)) as (H1 & H2 & H3). split; [by constructor; [lia|]|]. split; [lia|].
  intros [->|Hin]; [|specialize (H3 Hin); lia]. assert (size = rem) as -> by done.
  assert (forall l, Forall (fun s => 0 ≤ s) l -> 0 ≤ foldr Z.add 0 l) as Hpos.
  { induction l as [|x l IHl]; [done|]. intros [Hx Hl]%Forall_cons. cbn. specialize (IHl Hl). lia. }
  specialize (Hpos _ H1). lia.
Qed.

(** Regions of a list of sizes follow each other. *)
Lemma regions_disjoint sizes : forall i addr, Forall (fun s => 0 ≤ s) sizes ->
  forall j k a sa b sb ni nj, (j < k)%nat -> regions i addr sizes !! j = Some (ni, sa, a) -> regions i addr sizes !! k = Some (nj, sb, b) ->
  addr ≤ a /\ a + sa ≤ b /\ b + sb ≤ addr + foldr Z.add 0 sizes.
Proof.
  assert (forall sizes i addr, Forall (fun s => 0 ≤ s) sizes -> forall k b sb nj, regions i addr sizes !! k = Some (nj, sb, b) ->
    addr ≤ b /\ b + sb ≤ addr + foldr Z.add 0 sizes) as Hone.
  { clear. induction sizes as [|s sizes IH]; intros i addr Hf k b sb nj; [done|]. apply Forall_cons in Hf as [Hs Hf]. cbn [regions foldr].
    assert (0 ≤ foldr Z.add 0 sizes) as Hpos by (clear IH; induction Hf; cbn; lia).
    destruct k as [|k]; [intros [= <- <- <-]; lia|]. intros Hk. destruct (IH _ _ Hf _ _ _ _ Hk). lia. }
  induction sizes as [|s sizes IH]; intros i addr Hf j k a sa b sb ni nj Hjk Hj Hk; [done|]. apply Forall_cons in Hf as [Hs Hf].
  destruct k as [|k]; [lia|]. cbn [regions foldr] in *. destruct j as [|j].
  - injection Hj as <- <- <-. destruct (Hone _ _ _ Hf _ _ _ _ Hk). lia.
  - destruct (IH _ _ Hf j k a sa b sb ni nj ltac:(lia) Hj Hk) as (? & ? & ?). lia.
Qed.

Lemma namespace_loop_ok caps : forall pre i rem addr acc, ns_capacity = pre ++ caps -> Z.of_nat (length pre) = i ->
  Forall (fun c => 0 ≤ c) caps -> 0 ≤ rem ≤ U64_MAX ->
  Forall (fun r => exists x, init_ns r.1.1 r.1.2 r.2 = Ok x) (regions i addr (carve rem caps)) ->
  exists ns, namespace_loop simple_init conv_init zns_init kv_init ns_ssd_type ns_capacity (length caps) i rem addr acc = Ok (acc ++ ns) /\
    Forall2 (fun r x => init_ns r.1.1 r.1.2 r.2 = Ok x) (regions i addr (carve rem caps)) ns.
Proof.
  induction caps as [|c caps IH]; intros pre i rem addr acc Ecap Hi Hc Hr Ht; cbn [length namespace_loop carve regions].
  { exists []. rewrite app_nil_r. by split; [|constructor]. }
  apply Forall_cons in Hc as [Hc0 Hc]. unfold ns_size_of.
  assert (aget ns_capacity i = Ok c) as ->.
  { apply aget_Ok. split; [lia|]. rewrite Ecap. rewrite lookup_app_r by lia. by replace (Z.to_nat i - length pre)%nat with 0%nat by lia. }
  cbn [mbind res_bind]. set (size := if c =? 0 then rem else Z.min c rem). assert (0 ≤ size ≤ rem) as Hs by (unfold size; destruct (c =? 0); lia).
  cbn [carve regions] in Ht. fold size in Ht. apply Forall_cons in Ht as [[x Hx] Ht]. cbn [fst snd] in Hx. rewrite Hx. cbn [mbind res_bind].
  rewrite u64_small by lia.
  destruct (IH (pre ++ [c]) (i + 1) (rem - size) (addr + size) (acc ++ [x])) as (ns & E & Hf); [|rewrite length_app; cbn; lia|done|lia|done|].
  { by rewrite <- app_assoc. }
  exists (x :: ns). rewrite E, <- app_assoc. split; [done|]. constructor; [exact Hx | exact Hf].
Qed.

Lemma partition_ok size mapped : Forall (fun c => 0 ≤ c) ns_capacity -> 0 ≤ size ≤ U64_MAX ->
  Forall (fun r => exists x, init_ns r.1.1 r.1.2 r.2 = Ok x) (regions 0 mapped (carve size ns_capacity)) ->
  exists ns, NVMEV_NAMESPACE_INIT simple_init conv_init zns_init kv_init ns_ssd_type ns_capacity (length ns_capacity) size mapped = Ok ns /\
    Forall2 (fun r x => init_ns r.1.1 r.1.2 r.2 = Ok x) (regions 0 mapped (carve size ns_capacity)) ns.
Proof. intros Hc Hs Ht. exact (namespace_loop_ok ns_capacity [] 0 size mapped [] eq_refl eq_refl Hc Hs Ht). Qed.

Lemma carve_length caps : forall rem, length (carve rem caps) = length caps.
Proof. induction caps as [|c caps IH]; intros rem; [done|]. cbn. by rewrite IH. Qed.
Lemma regions_length sizes : forall i addr, length (regions i addr sizes) = length sizes.
Proof. induction sizes as [|x l IH]; intros i addr; [done|]. cbn. by rewrite IH. Qed.

(** C29. Namespaces: when the initialisers return on the regions that they are
    given (that of a zoned device has an assertion on the size of its region),
    each namespace is initialised, in order, on a region of its own; the regions follow each
    other from the start of the storage, none exceeds its configured capacity,
    together they fit the storage, and they fill it as soon as one capacity
    is zero. *)
Theorem namespaces_partition size mapped : Forall (fun c => 0 ≤ c) ns_capacity -> 0 ≤ size ≤ U64_MAX ->
  Forall (fun r => exists x, init_ns r.1.1 r.1.2 r.2 = Ok x) (regions 0 mapped (carve size ns_capacity)) ->
  exists ns sizes, NVMEV_NAMESPACE_INIT simple_init conv_init zns_init kv_init ns_ssd_type ns_capacity (length ns_capacity) size mapped = Ok ns /\
    Forall2 (fun r x => init_ns r.1.1 r.1.2 r.2 = Ok x) (regions 0 mapped sizes) ns /\
    Forall2 (fun c s => 0 ≤ s /\ (c <> 0 -> s ≤ c)) ns_capacity sizes /\
    foldr Z.add 0 sizes ≤ size /\ (In 0 ns_capacity -> foldr Z.add 0 sizes = size) /\
    (forall j k a sa b sb ni nj, (j < k)%nat -> regions 0 mapped sizes !! j = Some (ni, sa, a) ->
       regions 0 mapped sizes !! k = Some (nj, sb, b) -> mapped ≤ a /\ a + sa ≤ b /\ b + sb ≤ mapped + size).
Proof.
  intros Hc Hs Ht. destruct (partition_ok size mapped Hc Hs Ht) as (ns & E & Hf).
  destruct (carve_bounds ns_capacity size Hc ltac:(lia)) as (H1 & H2 & H3).
  exists ns, (carve size ns_capacity). split; [exact E|]. split; [exact Hf|]. split; [|split; [done|split; [done|]]].
  - clear - Hc Hs. destruct Hs as [Hs _]. revert size Hs. induction Hc as [|c caps Hc0 Hc IH]; intros rem Hr; cbn [carve]; [constructor|].
    assert (0 ≤ (if c =? 0 then rem else Z.min c rem) ≤ rem) as Hx by (destruct (c =? 0); lia).
    constructor; [|apply IH; lia]. split; [lia|]. intros Hne. rewrite (proj2 (Z.eqb_neq _ _) Hne). lia.
  - intros j k a sa b sb ni nj Hjk Hj Hk. destruct (regions_disjoint _ 0 mapped H1 _ _ _ _ _ _ _ _ Hjk Hj Hk) as (? & ? & ?). lia.
Qed.
End NamespaceProps.

(** ** Too few processors *)
Section OneCpu.
Context {F : Type} `{FtlOps F}.

(** With fewer than two processors the parameters are accepted and there is
    no I/O worker: the first request that needs one, to any queue, divides by
    zero. *)
Theorem one_cpu_divides_by_zero e820_ram e820_reserved_kern e820_reserved simple_strtol kv_table p (d : io_dev F) sqid :
  0 ≤ p_memmap_size p -> params_ok e820_ram e820_reserved_kern e820_reserved p -> Z.of_nat (length (tokens (p_cpus p))) ≤ 1 ->
  exists c, __load_configs e820_ram e820_reserved_kern e820_reserved simple_strtol kv_table p = Ok (Some c) /\ nr_io_workers c = 0 /\
    (Z.of_nat (length (io_workers d)) = nr_io_workers c -> __allocate_work_queue_entry sqid d = Bug DivByZero).
Proof.
  intros Hz Hp Hn. destruct (load_accepted e820_ram e820_reserved_kern e820_reserved simple_strtol kv_table p Hz Hp ltac:(lia)) as (c & E & _ & Ew & _).
  exists c. split; [done|]. rewrite Ew, Z.max_l by lia. split; [done|]. intros Hw.
  unfold __allocate_work_queue_entry, __get_io_worker, mbind, prog_bind. by rewrite Hw.
Qed.
End OneCpu.

(** ** Examples *)

(** Four processors, 64 MiB reserved from 4 GiB on. *)
Definition four_cpus : module_params :=
  mk_params (2 ^ 32) (MB 64) (mk_config 8 12 1 1 0 1 1 0) (Some "7,8,9,10"%string).
Definition one_cpu : module_params := mk_params (2 ^ 32) (MB 64) (mk_config 8 12 1 1 0 1 1 0) (Some "7"%string).
Definition nowhere (start end_ : Z) : bool := false.
Definition reserved_from_4g (start end_ : Z) : bool := 2 ^ 32 <=? start.

(** [simple_strtol] on decimal digits. *)
Fixpoint decimal (acc : Z) (s : string) : Z :=
  match s with
  | EmptyString => acc
  | String c s =>
    let x := Z.of_nat (nat_of_ascii c) - 48 in
    if (0 <=? x) && (x <=? 9) then decimal (acc * 10 + x) s else acc
  end.

Example four_cpus_loaded :
  __load_configs nowhere nowhere reserved_from_4g (decimal 0) None four_cpus =
    Ok (Some (mk_devcfg (2 ^ 32) (MB 64) (2 ^ 32 + MB 1) (MB 63) 7 3 (8 :: 9 :: 10 :: replicate 29 0) (p_perf four_cpus))).
Proof. reflexivity. Qed.

Lemma params_ok_4g cpus : params_ok nowhere nowhere reserved_from_4g (mk_params (2 ^ 32) (MB 64) (mk_config 8 12 1 1 0 1 1 0) cpus).
Proof. by split. Qed.

Lemma load_configs_spec_witness :
  exists c, __load_configs nowhere nowhere reserved_from_4g (decimal 0) (Some (MB 8)) four_cpus = Ok (Some c) /\
    nr_io_workers c = 3 /\ layout_ok four_cpus (MB 8) c.
Proof.
  destruct (load_configs_spec nowhere nowhere reserved_from_4g (decimal 0) (Some (MB 8)) four_cpus _ eq_refl
    ltac:(done) ltac:(done) ltac:(done) ltac:(done)) as (_ & _ & Hok).
  destruct (Hok (params_ok_4g _) ltac:(by vm_compute)) as (c & E & _ & Hn & _ & Hl & _).
  exists c. split; [exact E|]. split; [exact Hn | by apply Hl].
Defined.

(** Three namespaces, the second of at most 16 MiB. *)
Definition named (kind i size addr : Z) : res (Z * Z * Z * Z) := Ok (kind, i, size, addr).

Lemma namespaces_partition_witness :
  exists ns, NVMEV_NAMESPACE_INIT (named 0) (named 1) (named 2) (named 3) [1; 0; 2] [MB 32; MB 16; 0] 3 (MB 63) 4096 = Ok ns /\
    length ns = 3%nat.
Proof.
  destruct (namespaces_partition (named 0) (named 1) (named 2) (named 3) [1; 0; 2] [MB 32; MB 16; 0] (MB 63) 4096)
    as (ns & sizes & E & Hf & Hc & _).
  - by repeat constructor.
  - done.
  - repeat constructor; by eexists.
  - exists ns. split; [exact E|]. apply Forall2_length in Hf, Hc. rewrite <- Hf.
    by rewrite regions_length, <- Hc.
Defined.

Example namespaces_carved :
  NVMEV_NAMESPACE_INIT (named 0) (named 1) (named 2) (named 3) [1; 0; 2] [MB 32; MB 16; 0] 3 (MB 63) 4096 =
    Ok [(1, 0, MB 32, 4096); (0, 1, MB 16, 4096 + MB 32); (2, 2, MB 15, 4096 + MB 48)].
Proof. reflexivity. Qed.

(** A device as the initialisation leaves it with no worker. *)
Definition no_workers : io_dev unit :=
  mk_dev (replicate 73 None) (replicate 73 None) [] 0 0 0 (replicate 146 0) (replicate 146 0) [] 0 tt.

Lemma one_cpu_divides_by_zero_witness :
  exists c, __load_configs nowhere nowhere reserved_from_4g (decimal 0) None one_cpu = Ok (Some c) /\ nr_io_workers c = 0 /\
    __allocate_work_queue_entry 1 no_workers = Bug DivByZero.
Proof.
  destruct (one_cpu_divides_by_zero nowhere nowhere reserved_from_4g (decimal 0) None one_cpu no_workers 1
    ltac:(done) (params_ok_4g _) ltac:(by vm_compute)) as (c & E & Hn & Hd).
  exists c. split; [exact E|]. split; [exact Hn|]. apply Hd. rewrite Hn. reflexivity.
Defined.
