(* ===== verification/Pci.v ===== *)
(** * The virtual PCI device
    ([src/pci.c] apart from [nvmev_proc_bars], the structures of [src/pci.h])

    The device is a page of configuration space that the module fills in and
    the kernel's PCI code then reads and writes through [nvmev_pci_ops].  A
    write goes through a mask that depends on the register it starts at.  The
    module also follows two bits: whether MSI-X is on, and whether legacy
    interrupts are off. *)
From Stdlib Require Import String.
From S2P Require Import Prelude Prp.
#[local] Open Scope string_scope.
#[local] Open Scope Z_scope.

(** ** Structures as C lays them out

    A member is its name, the bits of its declared type and its own bits; a
    group is a nested structure, or a member of its own.  A bit field does not
    cross a boundary of its type, and a structure is aligned to its widest
    type. *)
Definition member : Type := string * Z * Z.
Definition layout : Type := list (list member).

Definition align_to (pos a : Z) : Z := DIV_ROUND_UP pos a * a.

Definition place (pos unit width : Z) : Z :=
  if pos / unit =? (pos + width - 1) / unit then pos else align_to pos unit.

Fixpoint place_group (pos : Z) (g : list member) : list (string * (Z * Z * Z)) * Z :=
  match g with
  | [] => ([], pos)
  | (name, unit, width) :: g =>
    let p := place pos unit width in
    let '(l, e) := place_group (p + width) g in ((name, (p, unit, width)) :: l, e)
  end.

Definition group_align (g : list member) : Z := foldr (fun '(_, unit, _) a => Z.max unit a) 8 g.

Fixpoint place_all (pos : Z) (l : layout) : list (string * (Z * Z * Z)) * Z :=
  match l with
  | [] => ([], pos)
  | g :: l =>
    let '(ms, e) := place_group (align_to pos (group_align g)) g in
    let '(rest, e') := place_all (align_to e (group_align g)) l in (ms ++ rest, e')%list
  end.

Definition sizeof (l : layout) : Z :=
  align_to (place_all 0 l).2 (foldr (fun g a => Z.max (group_align g) a) 8 l) / 8.

Definition find_member (l : layout) (name : string) : option (Z * Z * Z) :=
  snd <$> List.find (fun m => String.eqb (fst m) name) (place_all 0 l).1.

Definition pci_header : layout :=
  [[("id.vid", 16, 16); ("id.did", 16, 16)];
   [("cmd.iose", 8, 1); ("cmd.mse", 8, 1); ("cmd.bme", 8, 1); ("cmd.sce", 8, 1); ("cmd.mwie", 8, 1); ("cmd.vga", 8, 1);
    ("cmd.pee", 8, 1); ("cmd.fixed", 8, 1); ("cmd.see", 8, 1); ("cmd.fbe", 8, 1); ("cmd.id", 8, 1); ("cmd.rsvd", 8, 5)];
   [("sts.rsvd1", 8, 3); ("sts.is", 8, 1); ("sts.cl", 8, 1); ("sts.c66", 8, 1); ("sts.rsvd2", 8, 1); ("sts.fbc", 8, 1);
    ("sts.dpd", 8, 1); ("sts.devt", 8, 2); ("sts.sta", 8, 1); ("sts.rta", 8, 1); ("sts.rma", 8, 1); ("sts.sse", 8, 1);
    ("sts.dpe", 8, 1)];
   [("rid", 8, 8)];
   [("cc.pi", 8, 8); ("cc.scc", 8, 8); ("cc.bcc", 8, 8)];
   [("cls", 8, 8)]; [("mlt", 8, 8)];
   [("htype.hl", 8, 7); ("htype.mfd", 8, 1)];
   [("bist.cc", 8, 4); ("bist.rsvd", 8, 2); ("bist.sb", 8, 1); ("bist.bc", 8, 1)];
   [("mlbar.rte", 32, 1); ("mlbar.tp", 32, 2); ("mlbar.pf", 32, 1); ("mlbar.rsvd", 32, 10); ("mlbar.ba", 32, 18)];
   [("mulbar", 32, 32)]; [("idbar", 32, 32)]; [("bar3", 32, 32)]; [("bar4", 32, 32)]; [("bar5", 32, 32)]; [("ccptr", 32, 32)];
   [("ss.ssvid", 16, 16); ("ss.ssid", 16, 16)];
   [("erom", 32, 32)]; [("cap", 8, 8)];
   [("rsvd0", 8, 8); ("rsvd1", 8, 8); ("rsvd2", 8, 8); ("rsvd3", 8, 8); ("rsvd4", 8, 8); ("rsvd5", 8, 8); ("rsvd6", 8, 8)];
   [("intr.iline", 8, 8); ("intr.ipin", 8, 8)];
   [("mgnt", 8, 8)]; [("mlat", 8, 8)]].

Definition pci_pm_cap : layout :=
  [[("pid.cid", 8, 8); ("pid.next", 8, 8)];
   [("pc.vs", 16, 3); ("pc.pmec", 16, 1); ("pc.resv", 16, 1); ("pc.dsi", 16, 1); ("pc.auxc", 16, 3); ("pc.d1s", 16, 1);
    ("pc.d2s", 16, 1); ("pc.psup", 16, 5)];
   [("pmcs.ps", 16, 2); ("pmcs.rsvd01", 16, 1); ("pmcs.nsfrst", 16, 1); ("pmcs.rsvd02", 16, 4); ("pmcs.pmee", 16, 1);
    ("pmcs.dse", 16, 4); ("pmcs.dsc", 16, 2); ("pmcs.pmes", 16, 1)];
   [("ext0", 8, 8); ("ext1", 8, 8)]].

Definition pci_msix_cap : layout :=
  [[("mxid.cid", 8, 8); ("mxid.next", 8, 8)];
   [("mxc.ts", 16, 11); ("mxc.rsvd", 16, 3); ("mxc.fm", 16, 1); ("mxc.mxe", 16, 1)];
   [("mtab.tbir", 32, 3); ("mtab.to", 32, 29)];
   [("mpba.pbir", 32, 3); ("mpba.pbao", 32, 29)]].

Definition pcie_cap : layout :=
  [[("pxid.cid", 8, 8); ("pxid.next", 8, 8)];
   [("pxcap.ver", 8, 4); ("pxcap.dpt", 8, 4); ("pxcap.si", 8, 1); ("pxcap.imn", 8, 5); ("pxcap.rsvd", 8, 2)];
   [("pxdcap.mps", 32, 3); ("pxdcap.pfs", 32, 2); ("pxdcap.etfs", 32, 1); ("pxdcap.l0sl", 32, 3); ("pxdcap.l1l", 32, 3);
    ("pxdcap.rsvd", 32, 3); ("pxdcap.rer", 32, 1); ("pxdcap.rsvd2", 32, 2); ("pxdcap.csplv", 32, 8); ("pxdcap.cspls", 32, 2);
    ("pxdcap.flrc", 32, 1); ("pxdcap.rsvd3", 32, 3)];
   [("pxdc.cere", 16, 1); ("pxdc.nfere", 16, 1); ("pxdc.fere", 16, 2); ("pxdc.urre", 16, 1); ("pxdc.ero", 16, 1);
    ("pxdc.mps", 16, 3); ("pxdc.ete", 16, 1); ("pxdc.pfe", 16, 1); ("pxdc.appme", 16, 1); ("pxdc.ens", 16, 1);
    ("pxdc.mrrs", 16, 3); ("pxdc.iflr", 16, 1)];
   [("pxds.ced", 16, 1); ("pxds.nfed", 16, 1); ("pxds.fed", 16, 1); ("pxds.urd", 16, 1); ("pxds.apd", 16, 1); ("pxds.tp", 16, 1);
    ("pxds.rsvd", 16, 10)];
   [("pxlcap.sls", 32, 4); ("pxlcap.mlw", 32, 6); ("pxlcap.aspms", 32, 2); ("pxlcap.l0sel", 32, 3); ("pxlcap.l1el", 32, 3);
    ("pxlcap.cpm", 32, 1); ("pxlcap.sderc", 32, 1); ("pxlcap.dllla", 32, 20); ("pxlcap.lbnc", 32, 1); ("pxlcap.aoc", 32, 1);
    ("pxlcap.rsvd", 32, 1); ("pxlcap.pn", 32, 8)];
   [("pxlc.aspmc", 16, 2); ("pxlc.rsvd", 16, 1); ("pxlc.rcb", 16, 1); ("pxlc.rsvd2", 16, 2); ("pxlc.ccc", 16, 1); ("pxlc.es", 16, 1);
    ("pxlc.ecpm", 16, 1); ("pxlc.hawd", 16, 1); ("pxlc.rsvd3", 16, 6)];
   [("pxls.clc", 16, 4); ("pxls.nlw", 16, 6); ("pxls.rsvd", 16, 2); ("pxls.scc", 16, 1); ("pxls.rsvd2", 16, 3)];
   [("pxdcap2.ctrs", 32, 4); ("pxdcap2.ctds", 32, 1); ("pxdcap2.arifs", 32, 1); ("pxdcap2.aors", 32, 1); ("pxdcap2.aocs32", 32, 1);
    ("pxdcap2.aocs", 32, 1); ("pxdcap2.ccs128", 32, 1); ("pxdcap2.nprpr", 32, 1); ("pxdcap2.ltrs", 32, 1); ("pxdcap2.tphcs", 32, 2);
    ("pxdcap2.rsvd", 32, 4); ("pxdcap2.obffs", 32, 2); ("pxdcap2.effs", 32, 1); ("pxdcap2.eetps", 32, 1); ("pxdcap2.meetp", 32, 2);
    ("pxdcap2.rsvd2", 32, 8)];
   [("pxdc2.ctv", 32, 4); ("pxdc2.ctd", 32, 1); ("pxdc2.rsvd", 32, 5); ("pxdc2.ltrme", 32, 1); ("pxdc2.rsvd2", 32, 2);
    ("pxdc2.obffe", 32, 2); ("pxdc2.rsvd3", 32, 17)]].

Definition pci_ext_cap : layout := [[("cid", 16, 16); ("cver", 16, 4); ("next", 16, 12)]].

(** ** Configuration space

    [virtDev], a zeroed page; the structures lie at fixed offsets in it. *)
Definition OFFS_PCI_HDR : Z := 0x0.
Definition OFFS_PCI_PM_CAP : Z := 0x40.
Definition OFFS_PCI_MSIX_CAP : Z := 0x50.
Definition OFFS_PCIE_CAP : Z := 0x60.
(** [PCI_CFG_SPACE_SIZE] of the kernel, repeated in a comment of [pci.h]. *)
Definition OFFS_PCI_EXT_CAP : Z := 0x100.

Definition space : Type := list Z.

(** [memcpy] of [n] little-endian bytes out of and into the space. *)
Definition read_le (s : space) (off n : Z) : res Z := b ← buf_read s off n; Ok (le_word b).
Definition write_le (s : space) (off n v : Z) : res space := memcpy_to s off (le_bytes (Z.to_nat n) v).

(** The storage unit of a member, its shift in the unit, and [p->name = v]
    for a structure at [base]. *)
Definition field_mask (m : Z * Z * Z) : Z := let '(pos, unit, width) := m in Z.shiftl (Z.ones width) (pos mod unit).
Definition field_addr (base : Z) (m : Z * Z * Z) : Z := let '(pos, unit, _) := m in base + pos / unit * (unit / 8).
Definition store_member (base : Z) (m : Z * Z * Z) (v : Z) (s : space) : res space :=
  let '(pos, unit, _) := m in
  let a := field_addr base m in
  x ← read_le s a (unit / 8);
  write_le s a (unit / 8) (Z.lor (Z.ldiff x (field_mask m)) (Z.land (Z.shiftl v (pos mod unit)) (field_mask m))).
Definition set_member (l : layout) (base : Z) (name : string) (v : Z) (s : space) : res space :=
  m ← deref (find_member l name); store_member base m v s.

Fixpoint set_members (l : layout) (base : Z) (vs : list (string * Z)) (s : space) : res space :=
  match vs with [] => Ok s | (name, v) :: vs => s ← set_member l base name v s; set_members l base vs s end.

(** ** What the module fills in

    The identifiers of [nvmev.h] and the constants of [linux/pci_regs.h]. *)
Definition NVMEV_DEVICE_ID : Z := 0x0110.
Definition NVMEV_VENDOR_ID : Z := 0x0c51.
Definition NVMEV_SUBSYSTEM_ID : Z := 0x370d.
Definition NVMEV_SUBSYSTEM_VENDOR_ID : Z := NVMEV_VENDOR_ID.
Definition NVMEV_INTX_IRQ : Z := 15.
Definition PCI_HEADER_TYPE_NORMAL : Z := 0.
Definition PCI_BASE_CLASS_STORAGE : Z := 0x01.
Definition PCI_BASE_ADDRESS_MEM_TYPE_64 : Z := 0x04.
Definition PCI_CAP_ID_PM : Z := 0x01.
Definition PCI_CAP_ID_EXP : Z := 0x10.
Definition PCI_CAP_ID_MSIX : Z := 0x11.
Definition PCI_PM_CAP_PME_D0 : Z := 0x0800.
Definition PCI_EXP_FLAGS : Z := 0x02.
Definition PCI_EXP_TYPE_ENDPOINT : Z := 0x0.
Definition PCI_EXT_CAP_ID_ERR : Z := 0x01.
Definition PCI_EXT_CAP_ID_VC : Z := 0x02.
Definition PCI_EXT_CAP_ID_DSN : Z := 0x03.
Definition PCI_EXT_CAP_ID_PWR : Z := 0x04.
Definition PCI_EXT_CAP_ID_ARI : Z := 0x0E.
Definition PCI_EXT_CAP_ID_SECPCI : Z := 0x19.

Definition header_values (base_pa : Z) : list (string * Z) :=
  [("id.did", NVMEV_DEVICE_ID); ("id.vid", NVMEV_VENDOR_ID); ("cmd.mse", 1); ("sts.cl", 1);
   ("htype.mfd", 0); ("htype.hl", PCI_HEADER_TYPE_NORMAL); ("rid", 0x01);
   ("cc.bcc", PCI_BASE_CLASS_STORAGE); ("cc.scc", 0x08); ("cc.pi", 0x02);
   ("mlbar.tp", Z.shiftr PCI_BASE_ADDRESS_MEM_TYPE_64 1); ("mlbar.ba", Z.shiftr (Z.land base_pa 0xFFFFFFFF) 14);
   ("mulbar", Z.shiftr base_pa 32); ("ss.ssid", NVMEV_SUBSYSTEM_ID); ("ss.ssvid", NVMEV_SUBSYSTEM_VENDOR_ID);
   ("erom", 0x0); ("cap", OFFS_PCI_PM_CAP); ("intr.ipin", 0); ("intr.iline", NVMEV_INTX_IRQ)].
Definition PCI_HEADER_SETTINGS (base_pa : Z) : space -> res space := set_members pci_header OFFS_PCI_HDR (header_values base_pa).

Definition pmcap_values : list (string * Z) :=
  [("pid.cid", PCI_CAP_ID_PM); ("pid.next", OFFS_PCI_MSIX_CAP); ("pc.vs", 3); ("pmcs.nsfrst", 1);
   ("pmcs.ps", Z.shiftr PCI_PM_CAP_PME_D0 16)].
Definition PCI_PMCAP_SETTINGS : space -> res space := set_members pci_pm_cap OFFS_PCI_PM_CAP pmcap_values.

Definition msixcap_values : list (string * Z) :=
  [("mxid.cid", PCI_CAP_ID_MSIX); ("mxid.next", OFFS_PCIE_CAP); ("mxc.mxe", 1); ("mxc.ts", 127);
   ("mtab.tbir", 0); ("mtab.to", 0x400); ("mpba.pbao", 0x1000); ("mpba.pbir", 0)].
Definition PCI_MSIXCAP_SETTINGS : space -> res space := set_members pci_msix_cap OFFS_PCI_MSIX_CAP msixcap_values.

Definition pciecap_values : list (string * Z) :=
  [("pxid.cid", PCI_CAP_ID_EXP); ("pxid.next", 0x0); ("pxcap.ver", PCI_EXP_FLAGS); ("pxcap.imn", 0);
   ("pxcap.dpt", PCI_EXP_TYPE_ENDPOINT); ("pxdcap.mps", 1); ("pxdcap.pfs", 0); ("pxdcap.etfs", 1); ("pxdcap.l0sl", 6);
   ("pxdcap.l1l", 2); ("pxdcap.rer", 1); ("pxdcap.csplv", 0); ("pxdcap.cspls", 0); ("pxdcap.flrc", 1)].
Definition PCI_PCIECAP_SETTINGS : space -> res space := set_members pcie_cap OFFS_PCIE_CAP pciecap_values.

(** The extended capabilities: offset, identifier, the [next] of each. *)
Definition ext_caps : list (Z * Z * Z) :=
  [(0x0, PCI_EXT_CAP_ID_ERR, OFFS_PCI_EXT_CAP + 0x50); (0x50, PCI_EXT_CAP_ID_VC, OFFS_PCI_EXT_CAP + 0x80);
   (0x80, PCI_EXT_CAP_ID_PWR, OFFS_PCI_EXT_CAP + 0x90); (0x90, PCI_EXT_CAP_ID_ARI, OFFS_PCI_EXT_CAP + 0x170);
   (0x170, PCI_EXT_CAP_ID_DSN, OFFS_PCI_EXT_CAP + 0x1a0); (0x1a0, PCI_EXT_CAP_ID_SECPCI, 0)].

Fixpoint set_ext_caps (cs : list (Z * Z * Z)) (s : space) : res space :=
  match cs with
  | [] => Ok s
  | (off, cid, next) :: cs =>
    s ← set_members pci_ext_cap (OFFS_PCI_EXT_CAP + off) [("cid", cid); ("cver", 1); ("next", next)] s;
    set_ext_caps cs s
  end.
Definition PCI_EXTCAP_SETTINGS : space -> res space := set_ext_caps ext_caps.

(** ** The device's side of it *)
(** The [struct pci_dev] the kernel creates for the device. *)
Record pci_dev := mk_pdev { msix_enabled : bool; irq : Z }.

Record pci_state := mk_pci {
  virtDev : space;
  intx_disabled : bool;
  pdev : option pci_dev;
  signalled : list Z; (* the interrupt lines retriggered so far *)
}.
Definition with_space (s : space) (d : pci_state) : pci_state := mk_pci s (intx_disabled d) (pdev d) (signalled d).

(** [VDEV_INIT]. *)
Definition VDEV_INIT : pci_state := mk_pci (replicate (Z.to_nat PAGE_SIZE) 0) false None [].

Definition NVMEV_PCI_SETTINGS (base_pa : Z) (s : space) : res space :=
  s ← PCI_HEADER_SETTINGS base_pa s; s ← PCI_PMCAP_SETTINGS s; s ← PCI_MSIXCAP_SETTINGS s;
  s ← PCI_PCIECAP_SETTINGS s; PCI_EXTCAP_SETTINGS s.

(** *** The kernel's accesses

    Offsets and bits of [linux/pci_regs.h]. *)
Definition PCI_COMMAND : Z := 0x04.
Definition PCI_COMMAND_INTX_DISABLE : Z := 0x400.
Definition PCI_STATUS : Z := 0x06.
Definition PCI_BIST : Z := 0x0f.
Definition PCI_BIST_START : Z := 0x40.
Definition PCI_BASE_ADDRESS_0 : Z := 0x10.
Definition PCI_INTERRUPT_LINE : Z := 0x3c.
Definition PCI_MSIX_FLAGS : Z := 2.
Definition PCI_MSIX_FLAGS_MASKALL : Z := 0x4000.
Definition PCI_MSIX_FLAGS_ENABLE : Z := 0x8000.

#[local] Abbreviation M := (prog pci_state).
Definition from_space {A} (f : space -> res A) : M A := fun d => a ← f (virtDev d); Ok (a, d).
Definition to_space (f : space -> res space) : M unit := fun d => s ← f (virtDev d); Ok (tt, with_space s d).

(** The return value, and [*val] afterwards; the copy is into a 32-bit
    variable. *)
Definition nvmev_pci_read (devfn where_ size val : Z) : M (Z * Z) := fun d =>
  if negb (devfn =? 0) then Ok ((1, val), d)
  else if 4 <? size then Bug OutOfRange
  else
    x ← read_le (virtDev d) where_ size;
    Ok ((0, Z.lor (Z.ldiff val (Z.ones (8 * size))) x), d).

(** The bits of the register at [where_] that a write may change. *)
Definition write_mask (where_ : Z) : Z :=
  if where_ <? OFFS_PCI_PM_CAP then
    if where_ =? PCI_COMMAND then PCI_COMMAND_INTX_DISABLE
    else if where_ =? PCI_STATUS then 0xF200
    else if where_ =? PCI_BIST then PCI_BIST_START
    else if where_ =? PCI_BASE_ADDRESS_0 then 0xFFFFC000
    else if where_ =? PCI_INTERRUPT_LINE then 0xFF
    else 0x0
  else if where_ <? OFFS_PCI_MSIX_CAP then 0xFFFFFFFF
  else if where_ <? OFFS_PCIE_CAP then
    if where_ - OFFS_PCI_MSIX_CAP =? PCI_MSIX_FLAGS then Z.lor PCI_MSIX_FLAGS_MASKALL PCI_MSIX_FLAGS_ENABLE else 0x0
  else 0xFFFFFFFF.

(** The bookkeeping for a write of [_val] over [val]. *)
Definition note_command (val _val : Z) : M unit := fun d =>
  if negb (Z.land (Z.lxor val _val) PCI_COMMAND_INTX_DISABLE =? 0) then
    let off := negb (Z.land _val PCI_COMMAND_INTX_DISABLE =? 0) in
    s ← (if off then Ok (virtDev d) else set_member pci_header OFFS_PCI_HDR "sts.is" 0 (virtDev d));
    Ok (tt, mk_pci s off (pdev d) (signalled d))
  else Ok (tt, d).

Definition note_msix (val _val : Z) : M unit := fun d =>
  match pdev d with
  | Some p =>
    if negb (Z.land (Z.lxor val _val) PCI_MSIX_FLAGS_ENABLE =? 0) then
      Ok (tt, mk_pci (virtDev d) (intx_disabled d) (Some (mk_pdev (negb (Z.land _val PCI_MSIX_FLAGS_ENABLE =? 0)) (irq p))) (signalled d))
    else Ok (tt, d)
  | None => Ok (tt, d)
  end.

(** [devfn] is not looked at. *)
Definition nvmev_pci_write (devfn where_ size _val : Z) : M Z :=
  _ ← lift (if 4 <? size then Bug OutOfRange else Ok tt);
  val ← from_space (fun s => read_le s where_ size);
  _ ← (if where_ =? PCI_COMMAND then note_command val _val
       else if where_ =? OFFS_PCI_MSIX_CAP + PCI_MSIX_FLAGS then note_msix val _val
       else mret tt);
  let mask := write_mask where_ in
  let val := Z.lor (Z.ldiff val mask) (Z.land _val mask) in
  _ ← to_space (fun s => write_le s where_ size val);
  mret 0.

(** *** Interrupts

    [msi_get_virq] is the kernel's line of an MSI-X vector, 0 for none;
    retriggering a line is logged. *)
Section Irq.
Variable msi_get_virq : Z -> Z.

Definition __signal_irq (line : Z) : M unit := modify (fun d => mk_pci (virtDev d) (intx_disabled d) (pdev d) (signalled d ++ [line])%list).

Definition __process_msi_irq (msi_index : Z) : M unit :=
  let virq := msi_get_virq msi_index in
  _ ← lift (NVMEV_ASSERT (negb (virq =? 0)));
  __signal_irq virq.

Definition nvmev_signal_irq (msi_index : Z) : M unit :=
  p ← gets pdev;
  p ← lift (deref p);
  if msix_enabled p then __process_msi_irq msi_index
  else
    _ ← to_space (set_member pci_header OFFS_PCI_HDR "sts.is" 1);
    p ← gets pdev;
    p ← lift (deref p);
    __signal_irq (irq p).
End Irq.

(** [NVMEV_PCI_INIT] up to the scan of the bus, and what [__create_pci_bus]
    does with the device the scan found. *)
Definition NVMEV_PCI_INIT (base_pa : Z) : M unit := fun d =>
  s ← NVMEV_PCI_SETTINGS base_pa (virtDev d);
  Ok (tt, mk_pci s false (pdev d) (signalled d)).

Definition adopt_pdev (msix : bool) : M unit := fun d =>
  line ← read_le (virtDev d) (OFFS_PCI_HDR + 0x3c) 1;
  Ok (tt, mk_pci (virtDev d) (intx_disabled d) (Some (mk_pdev msix line)) (signalled d)).

(** ** Sizes *)
Example layouts_fit :
  sizeof pci_header = OFFS_PCI_PM_CAP /\ OFFS_PCI_PM_CAP + sizeof pci_pm_cap ≤ OFFS_PCI_MSIX_CAP /\
  OFFS_PCI_MSIX_CAP + sizeof pci_msix_cap ≤ OFFS_PCIE_CAP /\ OFFS_PCIE_CAP + sizeof pcie_cap ≤ OFFS_PCI_EXT_CAP.
Proof. repeat (split; [by vm_compute|]). by vm_compute. Qed.

(** A flag of two bits and one of twenty: the device control register and the
    link capability register of the PCI Express capability take two storage
    units each, and what follows them is eight bytes late. *)
Example registers_overlong :
  find_member pcie_cap "pxdc.iflr" = Some (80, 16, 1) /\ find_member pcie_cap "pxlcap.dllla" = Some (160, 32, 20) /\
  find_member pcie_cap "pxlc.aspmc" = Some (192, 16, 2).
Proof. done. Qed.
