(* ===== verification/PciProps.v ===== *)
(** * Properties of the configuration space

    The space is reasoned about bit by bit: a read gives the bits of its
    range, a write of a word or of a member changes the bits of its range and
    no other. *)
From Stdlib Require Import String.
From S2P Require Import Prelude Prp Pci.
#[local] Open Scope string_scope.
#[local] Open Scope Z_scope.

(** ** Bits of the space *)
Definition byte (s : space) (i : Z) : Z := nth (Z.to_nat i) s 0.
Definition bit (s : space) (n : Z) : bool := Z.testbit (byte s (n / 8)) (n mod 8).
Definition is_byte (b : Z) : Prop := 0 ≤ b < 256.
Definition space_ok (s : space) : Prop := arr PAGE_SIZE is_byte s.

Lemma small_bits k x j : 0 ≤ x < 2 ^ k -> 0 ≤ k ≤ j -> Z.testbit x j = false.
Proof. intros Hx Hj. rewrite <- (Z.mod_small x (2 ^ k)) by done. by apply Z.mod_pow2_bits_high. Qed.

Lemma byte_split b x j : is_byte b -> 0 ≤ j -> Z.testbit (b + 256 * x) j = if j <? 8 then Z.testbit b j else Z.testbit x (j - 8).
Proof.
  intros Hb Hj. unfold is_byte in Hb. destruct (Z.ltb_spec j 8).
  - rewrite <- (Z.mod_pow2_bits_low _ 8) by lia. change (2 ^ 8) with 256. f_equal.
    symmetry. apply (Z.mod_unique_pos _ _ x); lia.
  - replace j with (j - 8 + 8) at 1 by lia. rewrite <- Z.div_pow2_bits by lia. change (2 ^ 8) with 256. f_equal.
    symmetry. apply (Z.div_unique_pos _ _ _ b); lia.
Qed.

Lemma le_word_bit l : forall n, 0 ≤ n -> Forall is_byte l -> Z.testbit (le_word l) n = bit l n.
Proof.
  unfold bit, byte. induction l as [|b l IH]; intros n Hn Hf.
  { cbn. destruct (Z.to_nat (n / 8)); by rewrite !Z.bits_0. }
  apply Forall_cons in Hf as [Hb Hf]. cbn [le_word foldr]. fold (le_word l). rewrite byte_split by done.
  destruct (Z.ltb_spec n 8).
  - by rewrite (Z.div_small n 8), (Z.mod_small n 8) by lia.
  - rewrite IH by (done || lia). replace (n / 8) with (1 + (n - 8) / 8) by (rewrite <- (Z.add_comm ((n - 8) / 8)), <- Z.div_add by lia; f_equal; lia).
    replace ((n - 8) mod 8) with (n mod 8) by (rewrite <- (Z.mod_add (n - 8) 1) by lia; f_equal; lia).
    rewrite Z2Nat.inj_add by (try done; apply Z.div_pos; lia). done.
Qed.

Lemma le_bytes_bit n : forall v m, 0 ≤ m < 8 * Z.of_nat n -> bit (le_bytes n v) m = Z.testbit v m.
Proof.
  unfold bit, byte. induction n as [|n IH]; intros v m Hm; [lia|]. cbn [le_bytes].
  destruct (decide (m < 8)).
  - rewrite (Z.div_small m 8), (Z.mod_small m 8) by lia. cbn [nth Z.to_nat]. change 256 with (2 ^ 8). apply Z.mod_pow2_bits_low. lia.
  - specialize (IH (v / 256) (m - 8) ltac:(lia)). replace (m / 8) with (1 + (m - 8) / 8) by (rewrite <- (Z.add_comm ((m - 8) / 8)), <- Z.div_add by lia; f_equal; lia).
    replace (m mod 8) with ((m - 8) mod 8) by (rewrite <- (Z.mod_add (m - 8) 1) by lia; f_equal; lia).
    rewrite Z2Nat.inj_add by (try done; apply Z.div_pos; lia). change (Z.to_nat 1 + ?k)%nat with (S k). cbn [nth]. rewrite IH.
    change 256 with (2 ^ 8). rewrite Z.div_pow2_bits by lia. f_equal. lia.
Qed.

Lemma le_bytes_are_bytes n v : Forall is_byte (le_bytes n v).
Proof. revert v. induction n as [|n IH]; intros v; cbn [le_bytes]; constructor; [|apply IH]. apply Z.mod_pos_bound. lia. Qed.

Lemma bit_app_take s off n m : 0 ≤ off -> 0 ≤ n -> 0 ≤ m -> (Z.to_nat (off + n) <= length s)%nat ->
  bit (take (Z.to_nat n) (drop (Z.to_nat off) s)) m = (m <? 8 * n) && bit s (8 * off + m).
Proof.
  intros Ho Hn Hm Hl. unfold bit, byte. pose proof (Z.div_pos m 8 Hm ltac:(lia)) as Hd.
  rewrite nth_lookup. destruct (Z.ltb_spec m (8 * n)) as [Hlt|Hge].
  - rewrite lookup_take_lt, lookup_drop by (apply Z2Nat.inj_lt; [lia..|]; apply Z.div_lt_upper_bound; lia).
    replace ((8 * off + m) mod 8) with (m mod 8) by (rewrite Z.add_comm, (Z.mul_comm 8 off), Z.mod_add by lia; done).
    replace ((8 * off + m) / 8) with (off + m / 8) by (rewrite (Z.mul_comm 8 off), Z.div_add_l by lia; done).
    rewrite Z2Nat.inj_add, nth_lookup by lia. done.
  - rewrite lookup_take_ge; [cbn; apply Z.bits_0|]. apply Z2Nat.inj_le; [lia..|]. apply Z.div_le_lower_bound; lia.
Qed.

(** ** Reads and writes of words *)
Lemma read_le_ok s off n : space_ok s -> 0 ≤ off -> 0 ≤ n -> off + n ≤ PAGE_SIZE -> exists v, read_le s off n = Ok v /\ 0 ≤ v /\
  forall m, 0 ≤ m -> Z.testbit v m = (m <? 8 * n) && bit s (8 * off + m).
Proof.
  intros [Hl Hf] Ho Hn Hs. unfold read_le, buf_read. rewrite decide_True by lia. eexists. split; [done|].
  assert (Forall is_byte (take (Z.to_nat n) (drop (Z.to_nat off) s))) as Hf' by (by apply Forall_take, Forall_drop). split.
  - clear - Hf'. induction Hf' as [|b l Hb _ IH]; [done|]. cbn [le_word foldr]. fold (le_word l). unfold is_byte in Hb. lia.
  - intros m Hm. rewrite le_word_bit by done. apply bit_app_take; lia.
Qed.

Lemma write_le_ok s off n v : space_ok s -> 0 ≤ off -> 0 ≤ n -> off + n ≤ PAGE_SIZE -> exists s', write_le s off n v = Ok s' /\ space_ok s' /\
  forall m, 0 ≤ m -> bit s' m = if (8 * off <=? m) && (m <? 8 * (off + n)) then Z.testbit v (m - 8 * off) else bit s m.
Proof.
  intros [Hl Hf] Ho Hn Hs. unfold write_le, memcpy_to. pose proof (le_bytes_length (Z.to_nat n) v) as Hlb.
  rewrite decide_True by lia. eexists. split; [done|]. split.
  - split.
    + rewrite !length_app, length_take, length_drop, Hlb. lia.
    + apply Forall_app. split; [by apply Forall_take|]. apply Forall_app. split; [apply le_bytes_are_bytes | by apply Forall_drop].
  - intros m Hm. unfold bit at 1, byte. pose proof (Z.div_pos m 8 Hm ltac:(lia)) as Hd.
    assert (length (take (Z.to_nat off) s) = Z.to_nat off) as Hlt by (rewrite length_take; lia).
    pose proof (Z.div_mod m 8 ltac:(lia)) as Edm. pose proof (Z.mod_pos_bound m 8 ltac:(lia)) as Hmb.
    destruct (Z.leb_spec (8 * off) m); cbn [andb].
    + rewrite app_nth2, Hlt by (rewrite Hlt; lia). destruct (Z.ltb_spec m (8 * (off + n))).
      * rewrite app_nth1 by lia. rewrite <- (le_bytes_bit (Z.to_nat n) v (m - 8 * off)) by lia. unfold bit, byte.
        replace ((m - 8 * off) mod 8) with (m mod 8) by (rewrite <- (Z.mod_add (m - 8 * off) off) by lia; f_equal; lia).
        assert ((m - 8 * off) / 8 = m / 8 - off) as ->
          by (replace (m - 8 * off) with (m + - off * 8) by lia; rewrite Z.div_add by lia; lia).
        by rewrite <- Z2Nat.inj_sub by lia.
      * rewrite app_nth2, Hlb by lia. rewrite !nth_lookup, lookup_drop. unfold bit, byte. rewrite nth_lookup. do 3 f_equal. lia.
    + rewrite app_nth1 by lia. unfold bit, byte. rewrite !nth_lookup, lookup_take_lt by lia. done.
Qed.

(** ** Members

    The place of a member in the whole space, as a range of bits. *)
Definition placed (m : Z * Z * Z) : Prop := let '(pos, unit, width) := m in
  (unit = 8 \/ unit = 16 \/ unit = 32) /\ 0 ≤ pos /\ 0 ≤ width /\ pos mod unit + width ≤ unit.

Lemma store_member_ok base pos unit width v s : placed (pos, unit, width) -> space_ok s -> 0 ≤ base -> base + pos / 8 + 4 ≤ PAGE_SIZE ->
  exists s', store_member base (pos, unit, width) v s = Ok s' /\ space_ok s' /\
    forall n, 0 ≤ n -> bit s' n = if (8 * base + pos <=? n) && (n <? 8 * base + pos + width) then Z.testbit v (n - (8 * base + pos)) else bit s n.
Proof.
  intros (Hu & Hp & Hw & Hfit) Hs Hb Hin. unfold store_member, field_addr, field_mask.
  set (a := base + pos / unit * (unit / 8)). set (sh := pos mod unit).
  assert (0 ≤ sh /\ 8 * a + sh = 8 * base + pos /\ 0 ≤ a /\ 8 * (unit / 8) = unit /\ 0 < unit / 8 /\ a + unit / 8 ≤ PAGE_SIZE) as (Hsh & Ea & Ha & Eu & Hu8 & Hain).
  { unfold a, sh. pose proof (Z.div_mod pos unit ltac:(lia)). pose proof (Z.mod_pos_bound pos unit ltac:(lia)).
    pose proof (Z.div_pos pos unit Hp ltac:(lia)). pose proof (Z.div_mod pos 8 ltac:(lia)). pose proof (Z.mod_pos_bound pos 8 ltac:(lia)).
    destruct Hu as [-> |[-> | ->]]; [change (8 / 8) with 1 | change (16 / 8) with 2 | change (32 / 8) with 4]; lia. }
  destruct (read_le_ok s a (unit / 8)) as (x & Ex & Hx0 & Hx); [done|lia..|]. rewrite Ex. cbn [mbind res_bind].
  destruct (write_le_ok s a (unit / 8) (Z.lor (Z.ldiff x (Z.shiftl (Z.ones width) sh)) (Z.land (Z.shiftl v sh) (Z.shiftl (Z.ones width) sh))))
    as (s' & Es & Hs' & Hbits); [done|lia..|].
  exists s'. split; [exact Es|]. split; [done|]. intros n Hn. rewrite Hbits by done. rewrite <- Ea.
  destruct (Z.leb_spec (8 * a) n), (Z.ltb_spec n (8 * (a + unit / 8))); cbn [andb].
  - assert (exists k, n = 8 * a + k) as [k ->] by (exists (n - 8 * a); lia). replace (8 * a + k - 8 * a) with k by lia. rewrite Z.lor_spec, Z.ldiff_spec, Z.land_spec, !Z.shiftl_spec, Hx by lia.
    rewrite (proj2 (Z.ltb_lt _ _)) by lia. cbn [andb]. rewrite Z.testbit_ones by lia.
    replace (8 * a + k - (8 * a + sh)) with (k - sh) by lia.
    destruct (Z.leb_spec 0 (k - sh)), (Z.ltb_spec (k - sh) width), (Z.leb_spec (8 * a + sh) (8 * a + k)), (Z.ltb_spec (8 * a + k) (8 * a + sh + width)); try lia; cbn [andb negb];
      rewrite ?andb_false_r, ?andb_true_r, ?orb_false_r; done.
  - destruct (Z.leb_spec (8 * a + sh) n), (Z.ltb_spec n (8 * a + sh + width)); try done; lia.
  - destruct (Z.leb_spec (8 * a + sh) n), (Z.ltb_spec n (8 * a + sh + width)); try done; lia.
  - destruct (Z.leb_spec (8 * a + sh) n), (Z.ltb_spec n (8 * a + sh + width)); try done; lia.
Qed.

(** ** Fillings

    What a sequence of assignments leaves in a bit: the last one that covers
    it counts. *)
Definition store : Type := Z * Z * Z. (* first bit, width, value *)
Definition stored_bit (sts : list store) (n : Z) (old : bool) : bool :=
  foldl (fun old '(a, w, v) => if (a <=? n) && (n <? a + w) then Z.testbit v (n - a) else old) old sts.

Definition stores_of (l : layout) (base : Z) (vs : list (string * Z)) : list store :=
  omap (fun '(name, v) => (fun '(pos, _, width) => (8 * base + pos, width, v)) <$> find_member l name) vs.

Definition member_fits (l : layout) (base : Z) (name : string) : bool :=
  match find_member l name with
  | Some (pos, unit, width) =>
    ((unit =? 8) || (unit =? 16) || (unit =? 32)) && (0 <=? pos) && (0 <=? width) && (pos mod unit + width <=? unit) &&
    (base + pos / 8 + 4 <=? PAGE_SIZE)
  | None => false
  end.

Lemma set_members_ok l base vs : 0 ≤ base -> forallb (fun nv => member_fits l base nv.1) vs = true -> forall s, space_ok s ->
  exists s', set_members l base vs s = Ok s' /\ space_ok s' /\ forall n, 0 ≤ n -> bit s' n = stored_bit (stores_of l base vs) n (bit s n).
Proof.
  intros Hb. induction vs as [|[name v] vs IH]; intros Hf s Hs; cbn [set_members]; [by exists s|].
  cbn [forallb fst] in Hf. apply andb_true_iff in Hf as [Hm Hf]. unfold member_fits in Hm. unfold set_member, stores_of.
  cbn [omap list_omap]. destruct (find_member l name) as [[[pos unit] width]|] eqn:E; [|done]. bool_prop.
  cbn [mbind res_bind deref fmap option_fmap option_map].
  destruct (store_member_ok base pos unit width v s) as (s1 & -> & Hs1 & Hb1); [|done..|lia|].
  { split; [|lia]. repeat match goal with H : _ || _ = true |- _ => apply orb_true_iff in H as [H|H] end; bool_prop; lia. }
  cbn [mbind res_bind]. destruct (IH Hf s1 Hs1) as (s2 & E2 & Hs2 & Hb2). exists s2. split; [done|]. split; [done|].
  intros n Hn. rewrite Hb2, Hb1 by done. done.
Qed.

Lemma stored_bit_app l1 l2 n old : stored_bit (l1 ++ l2) n old = stored_bit l2 n (stored_bit l1 n old).
Proof. unfold stored_bit. apply foldl_app. Qed.

(** The fields of all structures, in the order of [NVMEV_PCI_SETTINGS]. *)
Definition ext_stores : list store :=
  concat (map (fun '(off, cid, next) => stores_of pci_ext_cap (OFFS_PCI_EXT_CAP + off) [("cid", cid); ("cver", 1); ("next", next)]) ext_caps).
Definition init_stores (base_pa : Z) : list store := Eval cbv -[Z.land Z.shiftr] in
  (stores_of pci_header OFFS_PCI_HDR (header_values base_pa) ++ stores_of pci_pm_cap OFFS_PCI_PM_CAP pmcap_values ++
   stores_of pci_msix_cap OFFS_PCI_MSIX_CAP msixcap_values ++ stores_of pcie_cap OFFS_PCIE_CAP pciecap_values ++ ext_stores)%list.
Definition init_bit (base_pa n : Z) : bool := stored_bit (init_stores base_pa) n false.

Lemma set_ext_caps_ok cs : forallb (fun c => member_fits pci_ext_cap (OFFS_PCI_EXT_CAP + c.1.1) "cid" && member_fits pci_ext_cap (OFFS_PCI_EXT_CAP + c.1.1) "cver" &&
    member_fits pci_ext_cap (OFFS_PCI_EXT_CAP + c.1.1) "next" && (0 <=? c.1.1)) cs = true -> forall s, space_ok s ->
  exists s', set_ext_caps cs s = Ok s' /\ space_ok s' /\ forall n, 0 ≤ n ->
    bit s' n = stored_bit (concat (map (fun '(off, cid, next) => stores_of pci_ext_cap (OFFS_PCI_EXT_CAP + off) [("cid", cid); ("cver", 1); ("next", next)]) cs)) n (bit s n).
Proof.
  induction cs as [|[[off cid] next] cs IH]; intros Hf s Hs; cbn [set_ext_caps map concat]; [by exists s|].
  cbn [forallb fst] in Hf. bool_prop.
  destruct (set_members_ok pci_ext_cap (OFFS_PCI_EXT_CAP + off) [("cid", cid); ("cver", 1); ("next", next)]) with (s := s) as (s1 & -> & Hs1 & Hb1);
    [unfold OFFS_PCI_EXT_CAP; lia | cbn [forallb fst]; by repeat (apply andb_true_iff; split) | done |].
  cbn [mbind res_bind]. destruct (IH ltac:(done) s1 Hs1) as (s2 & -> & Hs2 & Hb2). exists s2. split; [done|]. split; [done|].
  intros n Hn. by rewrite Hb2, Hb1, stored_bit_app by done.
Qed.

Lemma zero_space_ok : space_ok (replicate (Z.to_nat PAGE_SIZE) 0) /\ forall n, bit (replicate (Z.to_nat PAGE_SIZE) 0) n = false.
Proof.
  split; [apply arr_replicate; [done | unfold is_byte; lia]|]. intros n. unfold bit, byte. rewrite nth_lookup.
  destruct (_ !! _) as [b|] eqn:E; [|apply Z.bits_0]. apply lookup_replicate in E as [-> _]. apply Z.bits_0.
Qed.

(** The configuration space after the initialisation, bit by bit. *)
Lemma settings_ok base_pa : exists s, NVMEV_PCI_SETTINGS base_pa (virtDev VDEV_INIT) = Ok s /\ space_ok s /\ forall n, 0 ≤ n -> bit s n = init_bit base_pa n.
Proof.
  destruct zero_space_ok as [H0 Hz]. unfold NVMEV_PCI_SETTINGS. cbn [virtDev VDEV_INIT].
  destruct (set_members_ok pci_header OFFS_PCI_HDR (header_values base_pa) ltac:(done) ltac:(by vm_compute) (replicate (Z.to_nat PAGE_SIZE) 0) ltac:(done)) as (s1 & E1 & H1 & B1).
  unfold PCI_HEADER_SETTINGS. rewrite E1. cbn [mbind res_bind].
  destruct (set_members_ok pci_pm_cap OFFS_PCI_PM_CAP pmcap_values ltac:(done) ltac:(by vm_compute) (s1) ltac:(done)) as (s2 & E2 & H2 & B2).
  unfold PCI_PMCAP_SETTINGS. rewrite E2. cbn [mbind res_bind].
  destruct (set_members_ok pci_msix_cap OFFS_PCI_MSIX_CAP msixcap_values ltac:(done) ltac:(by vm_compute) (s2) ltac:(done)) as (s3 & E3 & H3 & B3).
  unfold PCI_MSIXCAP_SETTINGS. rewrite E3. cbn [mbind res_bind].
  destruct (set_members_ok pcie_cap OFFS_PCIE_CAP pciecap_values ltac:(done) ltac:(by vm_compute) (s3) ltac:(done)) as (s4 & E4 & H4 & B4).
  unfold PCI_PCIECAP_SETTINGS. rewrite E4. cbn [mbind res_bind].
  destruct (set_ext_caps_ok ext_caps ltac:(by vm_compute) s4 H4) as (s5 & E5 & H5 & B5).
  exists s5. split; [exact E5|]. split; [done|]. intros n Hn. unfold init_bit.
  change (init_stores base_pa) with (stores_of pci_header OFFS_PCI_HDR (header_values base_pa) ++ stores_of pci_pm_cap OFFS_PCI_PM_CAP pmcap_values ++
   stores_of pci_msix_cap OFFS_PCI_MSIX_CAP msixcap_values ++ stores_of pcie_cap OFFS_PCIE_CAP pciecap_values ++ ext_stores)%list.
  by rewrite B5, B4, B3, B2, B1, Hz, !stored_bit_app by done.
Qed.

(** Only the stores that meet a range count for its bits. *)
Definition meets (lo hi : Z) (st : store) : bool := let '(a, w, _) := st in (lo <? a + w) && (a <? hi).

Lemma stored_bit_range lo hi sts n : lo ≤ n < hi -> forall old, stored_bit sts n old = stored_bit (List.filter (meets lo hi) sts) n old.
Proof.
  intros Hn. induction sts as [|[[a w] v] sts IH]; intros old; [done|]. cbn [List.filter]. unfold stored_bit in *. cbn [foldl]. rewrite IH.
  change (meets lo hi (a, w, v)) with ((lo <? a + w) && (a <? hi)). destruct (Z.ltb_spec lo (a + w)), (Z.ltb_spec a hi); cbn [andb foldl]; try done;
    destruct (Z.leb_spec a n), (Z.ltb_spec n (a + w)); cbn [andb]; done || lia.
Qed.

(** A byte, by its bits. *)
Lemma byte_eq s i b : space_ok s -> 0 ≤ i < PAGE_SIZE -> is_byte b -> (forall j, 0 ≤ j < 8 -> bit s (8 * i + j) = Z.testbit b j) -> byte s i = b.
Proof.
  intros [Hl Hf] Hi Hb Hj. assert (is_byte (byte s i)) as Hbi.
  { unfold byte. destruct (nth_in_or_default (Z.to_nat i) s 0) as [Hin| ->]; [|unfold is_byte; lia].
    rewrite Forall_forall in Hf. by apply Hf, list_elem_of_In. }
  apply Z.bits_inj'. intros j Hj0. destruct (decide (j < 8)).
  - rewrite <- Hj by lia. unfold bit. rewrite (Z.add_comm (8 * i)), (Z.mul_comm 8), Z.div_add, Z.mod_add, Z.div_small, Z.mod_small by lia. done.
  - rewrite !(small_bits 8) by (done || lia). done.
Qed.

(** A word, by its bits. *)
Lemma word_eq s off n w : space_ok s -> 0 ≤ off -> 0 ≤ n -> off + n ≤ PAGE_SIZE -> 0 ≤ w < 2 ^ (8 * n) ->
  (forall m, 0 ≤ m < 8 * n -> bit s (8 * off + m) = Z.testbit w m) -> read_le s off n = Ok w.
Proof.
  intros Hs Ho Hn Hl Hw Hm. destruct (read_le_ok s off n) as (v & -> & Hv0 & Hv); [done..|]. f_equal.
  apply Z.bits_inj'. intros m Hm0. rewrite Hv by done. destruct (Z.ltb_spec m (8 * n)); cbn [andb]; [by apply Hm|].
  symmetry. apply (small_bits (8 * n)); lia.
Qed.

Lemma init_word base_pa s off n w : space_ok s -> (forall m, 8 * off ≤ m < 8 * (off + n) -> bit s m = init_bit base_pa m) ->
  0 ≤ off -> 0 ≤ n -> off + n ≤ PAGE_SIZE -> 0 ≤ w < 2 ^ (8 * n) ->
  forallb (fun m => Bool.eqb (init_bit base_pa (8 * off + m)) (Z.testbit w m)) (seqZ 0 (8 * n)) = true -> read_le s off n = Ok w.
Proof.
  intros Hs Hb Ho Hn Hl Hw Hf. apply word_eq; try done. intros m Hm. rewrite Hb by lia.
  rewrite forallb_forall in Hf. apply eqb_prop, Hf, list_elem_of_In, elem_of_seqZ. lia.
Qed.

(** ** What a kernel does with the space

    [pci_find_next_capability] and its extended sibling: from a position to
    the end of the list. *)
Fixpoint cap_walk (fuel : nat) (s : space) (pos : Z) : res (list (Z * Z)) :=
  if pos =? 0 then Ok [] else
  match fuel with
  | O => Bug NoFuel
  | S fuel =>
    id ← read_le s pos 1; next ← read_le s (pos + 1) 1;
    rest ← cap_walk fuel s next; Ok ((pos, id) :: rest)
  end.

Fixpoint ext_walk (fuel : nat) (s : space) (pos : Z) : res (list (Z * Z)) :=
  match fuel with
  | O => Bug NoFuel
  | S fuel =>
    hdr ← read_le s pos 4;
    let next := Z.land (Z.shiftr hdr 20) 0xffc in
    if next <? 0x100 then Ok [(pos, Z.land hdr 0xffff)]
    else rest ← ext_walk fuel s next; Ok ((pos, Z.land hdr 0xffff) :: rest)
  end.

(** The base address of a 64-bit memory BAR. *)
Definition bar_base (s : space) : res Z :=
  lo ← read_le s 0x10 4; hi ← read_le s 0x14 4;
  Ok (Z.lor (Z.ldiff lo 0xf) (Z.shiftl hi 32)).

Lemma init_bar_bits base_pa n : 0 ≤ n < 64 -> init_bit base_pa (128 + n) = if n <? 14 then n =? 2 else Z.testbit base_pa n.
Proof.
  intros Hn. destruct (decide (n < 14)) as [Hlt|Hge].
  - assert (forallb (fun n => Bool.eqb (init_bit base_pa (128 + n)) (n =? 2)) (seqZ 0 14) = true) as Hf by (by vm_compute).
    rewrite forallb_forall in Hf. rewrite (proj2 (Z.ltb_lt _ _)) by done. apply eqb_prop, Hf, list_elem_of_In, elem_of_seqZ. lia.
  - rewrite (proj2 (Z.ltb_ge _ _)) by lia. destruct (decide (n < 32)).
    + unfold init_bit. rewrite (stored_bit_range 142 160) by lia.
      change (List.filter _ _) with [(142, 18, Z.shiftr (Z.land base_pa 0xFFFFFFFF) 14)]. unfold stored_bit. cbn [foldl].
      rewrite (proj2 (Z.leb_le _ _)), (proj2 (Z.ltb_lt _ _)) by lia. cbn [andb]. rewrite Z.shiftr_spec, Z.land_spec by lia.
      replace (128 + n - 142 + 14) with n by lia. change 0xFFFFFFFF with (Z.ones 32). by rewrite Z.ones_spec_low, andb_true_r by lia.
    + unfold init_bit. rewrite (stored_bit_range 160 192) by lia.
      change (List.filter _ _) with [(160, 32, Z.shiftr base_pa 32)]. unfold stored_bit. cbn [foldl].
      rewrite (proj2 (Z.leb_le _ _)), (proj2 (Z.ltb_lt _ _)) by lia. cbn [andb]. rewrite Z.shiftr_spec by lia. f_equal. lia.
Qed.

(** A word of the initialised space, given its value. *)
Ltac init_read Hw := apply Hw; [done | done | done | by split | vm_compute; reflexivity].

Lemma bar_base_ok base_pa s : space_ok s -> (forall n, 0 ≤ n -> bit s n = init_bit base_pa n) -> 0 ≤ base_pa < 2 ^ 64 ->
  bar_base s = Ok (Z.ldiff base_pa 0x3fff).
Proof.
  intros Hs Hb Hr. unfold bar_base. destruct (read_le_ok s 0x10 4) as (lo & -> & _ & Hlo); [done..|]. cbn [mbind res_bind].
  destruct (read_le_ok s 0x14 4) as (hi & -> & _ & Hhi); [done..|]. cbn [mbind res_bind]. f_equal.
  apply Z.bits_inj'. intros n Hn. change 0x3fff with (Z.ones 14). change 0xf with (Z.ones 4).
  rewrite Z.lor_spec, !Z.ldiff_spec, !Z.testbit_ones, Hlo, Z.shiftl_spec by lia. rewrite !(proj2 (Z.leb_le 0 n)) by done. cbn [andb].
  change (8 * 4) with 32. change (8 * 16) with 128.
  destruct (decide (n < 32)) as [Hlt|Hge].
  - rewrite (proj2 (Z.ltb_lt n 32)), (Z.testbit_neg_r hi) by lia. cbn [andb]. rewrite orb_false_r, Hb, init_bar_bits by lia.
    destruct (Z.ltb_spec n 14), (Z.ltb_spec n 4), (Z.eqb_spec n 2); cbn; rewrite ?andb_true_r, ?andb_false_r; done || lia.
  - rewrite (proj2 (Z.ltb_ge n 32)), (proj2 (Z.ltb_ge n 14)) by lia. cbn [andb negb orb]. rewrite andb_true_r, Hhi by lia.
    destruct (Z.ltb_spec (n - 32) (8 * 4)); cbn [andb].
    + replace (8 * 20 + (n - 32)) with (128 + n) by lia. rewrite Hb, init_bar_bits by lia. by rewrite (proj2 (Z.ltb_ge n 14)) by lia.
    + symmetry. apply (small_bits 64); [done | lia].
Qed.

(** C25. The initialised configuration space, for every reserved memory: the
    identifiers and the class code of an NVMe controller, a 64-bit BAR at the
    reserved memory rounded down to 16 KiB, and two capability lists that end
    and name power management, MSI-X and PCI Express, and six extended
    capabilities, in order. *)
Theorem pci_init_spec base_pa : 0 ≤ base_pa < 2 ^ 64 -> exists d, NVMEV_PCI_INIT base_pa VDEV_INIT = Ok (tt, d) /\
  let s := virtDev d in
  space_ok s /\ read_le s 0x0 2 = Ok NVMEV_VENDOR_ID /\ read_le s 0x2 2 = Ok NVMEV_DEVICE_ID /\ read_le s 0x9 3 = Ok 0x010802 /\
  read_le s 0x2c 2 = Ok NVMEV_SUBSYSTEM_VENDOR_ID /\ read_le s 0x2e 2 = Ok NVMEV_SUBSYSTEM_ID /\
  read_le s 0x3c 1 = Ok NVMEV_INTX_IRQ /\ bar_base s = Ok (Z.ldiff base_pa 0x3fff) /\
  (first ← read_le s 0x34 1; cap_walk 3 s first) =
    Ok [(OFFS_PCI_PM_CAP, PCI_CAP_ID_PM); (OFFS_PCI_MSIX_CAP, PCI_CAP_ID_MSIX); (OFFS_PCIE_CAP, PCI_CAP_ID_EXP)] /\
  ext_walk 6 s OFFS_PCI_EXT_CAP =
    Ok [(0x100, PCI_EXT_CAP_ID_ERR); (0x150, PCI_EXT_CAP_ID_VC); (0x180, PCI_EXT_CAP_ID_PWR); (0x190, PCI_EXT_CAP_ID_ARI);
        (0x270, PCI_EXT_CAP_ID_DSN); (0x2a0, PCI_EXT_CAP_ID_SECPCI)].
Proof.
  intros Hr. destruct (settings_ok base_pa) as (s & E & Hs & Hb0). unfold NVMEV_PCI_INIT. rewrite E. cbn [mbind res_bind].
  eexists. split; [done|]. cbn [virtDev]. split; [done|].
  assert (forall off n m, 0 ≤ off -> 8 * off ≤ m < 8 * (off + n) -> bit s m = init_bit base_pa m) as Hb by (intros; apply Hb0; lia).
  assert (forall off n w, 0 ≤ off -> 0 ≤ n -> off + n ≤ PAGE_SIZE -> 0 ≤ w < 2 ^ (8 * n) ->
    forallb (fun m => Bool.eqb (init_bit base_pa (8 * off + m)) (Z.testbit w m)) (seqZ 0 (8 * n)) = true -> read_le s off n = Ok w) as Hw
    by (intros; eapply init_word; eauto).
  do 6 (split; [init_read Hw|]). split; [by apply bar_base_ok|].
  replace (read_le s 0x34 1) with (@Ok Z 0x40) by (symmetry; init_read Hw). cbn [mbind res_bind]. split.
  - cbn [cap_walk].
    repeat (match goal with |- context [read_le s ?o 1] => let v := eval vm_compute in (foldr (fun m acc => Z.b2z (init_bit 0 (8 * o + m)) + 2 * acc) 0 (seqZ 0 8)) in
      replace (read_le s o 1) with (@Ok Z v) by (symmetry; init_read Hw) end; cbn [mbind res_bind cap_walk Z.eqb]). done.
  - cbn [ext_walk].
    repeat (match goal with |- context [read_le s ?o 4] => let v := eval vm_compute in (foldr (fun m acc => Z.b2z (init_bit 0 (8 * o + m)) + 2 * acc) 0 (seqZ 0 32)) in
      replace (read_le s o 4) with (@Ok Z v) by (symmetry; init_read Hw) end; cbn [mbind res_bind]; cbn [ext_walk]). done.
Qed.

(** ** Writes of the kernel *)
Lemma land_bit x k : 0 ≤ k -> (Z.land x (2 ^ k) =? 0) = negb (Z.testbit x k).
Proof.
  intros Hk. destruct (Z.testbit x k) eqn:E; cbn.
  - apply Z.eqb_neq. intros H0. apply (f_equal (fun y => Z.testbit y k)) in H0.
    rewrite Z.land_spec, E, Z.pow2_bits_true, Z.bits_0 in H0 by done. done.
  - apply Z.eqb_eq, Z.bits_inj'. intros n Hn. rewrite Z.land_spec, Z.bits_0. destruct (decide (n = k)) as [->|Hne]; [by rewrite E|].
    rewrite Z.pow2_bits_false by lia. apply andb_false_r.
Qed.

(** The bits of the command register's interrupt disable, of the status
    register's interrupt status and of MSI-X enable. *)
Definition INTX_BIT : Z := 42.
Definition IS_BIT : Z := 51.
Definition MSIX_BIT : Z := 671.

(** What a write leaves in a bit. *)
Definition written_bit (s : space) (where_ size v n : Z) : bool :=
  if (8 * where_ <=? n) && (n <? 8 * (where_ + size)) && Z.testbit (write_mask where_) (n - 8 * where_) then Z.testbit v (n - 8 * where_)
  else bit s n.

(** The accesses the kernel makes: one, two or four bytes, aligned, inside the
    space. *)
Definition access_ok (where_ size : Z) : Prop :=
  (size = 1 \/ size = 2 \/ size = 4) /\ 0 ≤ where_ /\ where_ mod size = 0 /\ where_ + size ≤ PAGE_SIZE.

(** The module's flags say what the registers say. *)
Record pci_inv (d : pci_state) : Prop := {
  pi_space : space_ok (virtDev d);
  pi_intx : intx_disabled d = bit (virtDev d) INTX_BIT;
  pi_msix : forall p, pdev d = Some p -> msix_enabled p = bit (virtDev d) MSIX_BIT;
}.

(** Clearing the interrupt status beside the write. *)
Definition is_cleared (d : pci_state) (where_ size v : Z) : bool :=
  (where_ =? PCI_COMMAND) && (size =? 2) && intx_disabled d && negb (Z.testbit v 10).

Lemma note_command_ok d val v : space_ok (virtDev d) -> exists d', note_command val v d = Ok (tt, d') /\
  space_ok (virtDev d') /\ pdev d' = pdev d /\ signalled d' = signalled d /\
  (if Bool.eqb (Z.testbit val 10) (Z.testbit v 10) then d' = d else
   intx_disabled d' = Z.testbit v 10 /\
   forall n, 0 ≤ n -> bit (virtDev d') n = if (n =? IS_BIT) && negb (Z.testbit v 10) then false else bit (virtDev d) n).
Proof.
  intros Hs. unfold note_command. change PCI_COMMAND_INTX_DISABLE with (2 ^ 10). rewrite !land_bit, Z.lxor_spec, negb_involutive by lia.
  destruct (Z.testbit val 10), (Z.testbit v 10); cbn [xorb negb Bool.eqb]; try by exists d.
  - unfold set_member. change (find_member pci_header "sts.is") with (Some (51, 8, 1)). cbn [deref mbind res_bind].
    destruct (store_member_ok OFFS_PCI_HDR 51 8 1 0 (virtDev d)) as (s & -> & Hs' & Hb);
      [split; [by left | by repeat split] | done | done | by vm_compute |].
    cbn [mbind res_bind]. eexists. split; [done|]. split; [done|]. split; [done|]. split; [done|]. split; [done|]. intros n Hn. cbn [virtDev]. rewrite Hb by done.
    change (8 * OFFS_PCI_HDR + 51) with IS_BIT. rewrite andb_true_r, Z.bits_0.
    destruct (Z.eqb_spec n IS_BIT), (Z.leb_spec IS_BIT n), (Z.ltb_spec n (IS_BIT + 1)); cbn; done || lia.
  - eexists. split; [done|]. split; [done|]. split; [done|]. split; [done|]. split; [done|]. intros n Hn. by rewrite andb_false_r.
Qed.

Lemma note_msix_ok d val v : exists d', note_msix val v d = Ok (tt, d') /\
  virtDev d' = virtDev d /\ intx_disabled d' = intx_disabled d /\ signalled d' = signalled d /\ (is_Some (pdev d') <-> is_Some (pdev d)) /\
  (forall p', pdev d' = Some p' -> exists p, pdev d = Some p /\
     msix_enabled p' = if Bool.eqb (Z.testbit val 15) (Z.testbit v 15) then msix_enabled p else Z.testbit v 15).
Proof.
  unfold note_msix. destruct (pdev d) as [p|] eqn:Ep.
  - change PCI_MSIX_FLAGS_ENABLE with (2 ^ 15). rewrite !land_bit, Z.lxor_spec, negb_involutive by lia.
    destruct (Z.testbit val 15), (Z.testbit v 15); cbn [xorb negb Bool.eqb];
      eexists; (split; [done|]); (split; [done|]); (split; [done|]); (split; [done|]); cbn [pdev]; rewrite ?Ep;
      (split; [by split; eexists|]); intros p' [= <-]; eauto.
  - exists d. split; [done|]. split; [done|]. split; [done|]. split; [done|]. rewrite Ep. split; [done|]. done.
Qed.

(** The bits a masked write leaves, and where the flags' bits can be reached. *)
Lemma masked_bit val v mask n : 0 ≤ n -> Z.testbit (Z.lor (Z.ldiff val mask) (Z.land v mask)) n = if Z.testbit mask n then Z.testbit v n else Z.testbit val n.
Proof.
  intros Hn. rewrite Z.lor_spec, Z.ldiff_spec, Z.land_spec. destruct (Z.testbit mask n); cbn; [by rewrite andb_false_r, andb_true_r|].
  by rewrite andb_true_r, andb_false_r, orb_false_r.
Qed.

Lemma intx_elsewhere s w size v : access_ok w size -> w <> PCI_COMMAND -> written_bit s w size v INTX_BIT = bit s INTX_BIT.
Proof.
  intros (Hsz & Hw & Ha & _) Hne. unfold written_bit, INTX_BIT, PCI_COMMAND in *.
  destruct (Z.leb_spec (8 * w) 42), (Z.ltb_spec 42 (8 * (w + size))); cbn [andb]; try done.
  assert (w = 5) as -> by (destruct Hsz as [-> |[-> | ->]]; Z.div_mod_to_equations; lia). done.
Qed.

Lemma msix_elsewhere s w size v : access_ok w size -> w <> OFFS_PCI_MSIX_CAP + PCI_MSIX_FLAGS -> written_bit s w size v MSIX_BIT = bit s MSIX_BIT.
Proof.
  intros (Hsz & Hw & Ha & _) Hne. unfold written_bit, MSIX_BIT in *. change (OFFS_PCI_MSIX_CAP + PCI_MSIX_FLAGS) with 82 in Hne.
  destruct (Z.leb_spec (8 * w) 671), (Z.ltb_spec 671 (8 * (w + size))); cbn [andb]; try done.
  assert (w = 80 \/ w = 83) as [-> | ->] by (destruct Hsz as [-> |[-> | ->]]; Z.div_mod_to_equations; lia); done.
Qed.

Lemma high_bit v size k : 0 ≤ v < 2 ^ (8 * size) -> 0 ≤ size -> 8 * size ≤ k -> Z.testbit v k = false.
Proof. intros Hv Hs Hk. apply (small_bits (8 * size)); lia. Qed.

(** The bookkeeping agrees with what the write is about to do. *)
Lemma note_ok d w size v val : pci_inv d -> access_ok w size -> 0 ≤ v < 2 ^ (8 * size) ->
  (forall m, 0 ≤ m -> Z.testbit val m = (m <? 8 * size) && bit (virtDev d) (8 * w + m)) ->
  exists d1, (if w =? PCI_COMMAND then note_command val v else if w =? OFFS_PCI_MSIX_CAP + PCI_MSIX_FLAGS then note_msix val v else mret tt) d = Ok (tt, d1) /\
    space_ok (virtDev d1) /\ signalled d1 = signalled d /\ (is_Some (pdev d1) <-> is_Some (pdev d)) /\
    (forall n, 0 ≤ n -> bit (virtDev d1) n =
       if (n =? IS_BIT) && ((w =? PCI_COMMAND) && negb (Bool.eqb (Z.testbit val 10) (Z.testbit v 10)) && negb (Z.testbit v 10)) then false else bit (virtDev d) n) /\
    intx_disabled d1 = written_bit (virtDev d) w size v INTX_BIT /\
    (forall p, pdev d1 = Some p -> msix_enabled p = written_bit (virtDev d) w size v MSIX_BIT).
Proof.
  intros [Hs Hi Hm] Hacc Hv Hval. pose proof Hacc as (Hsz & _).
  destruct (Z.eqb_spec w PCI_COMMAND) as [->|Hw]; [|destruct (Z.eqb_spec w (OFFS_PCI_MSIX_CAP + PCI_MSIX_FLAGS)) as [->|Hw']]; cbn [andb].
  - destruct (note_command_ok d val v Hs) as (d1 & -> & Hs1 & Hp1 & Hl1 & Hb1). exists d1. split; [done|]. split; [done|]. split; [done|].
    rewrite Hp1. split; [done|]. rewrite (msix_elsewhere _ _ _ _ Hacc) by done.
    assert (intx_disabled d1 = written_bit (virtDev d) PCI_COMMAND size v INTX_BIT /\ (Bool.eqb (Z.testbit val 10) (Z.testbit v 10) = false -> intx_disabled d1 = Z.testbit v 10)) as [E1 E2].
    { pose proof (Hval 10 ltac:(lia)) as H10. change (8 * PCI_COMMAND + 10) with INTX_BIT in H10. rewrite <- Hi in H10.
      assert (size = 1 /\ Z.testbit v 10 = false /\ written_bit (virtDev d) PCI_COMMAND size v INTX_BIT = bit (virtDev d) INTX_BIT \/
              (10 <? 8 * size) = true /\ written_bit (virtDev d) PCI_COMMAND size v INTX_BIT = Z.testbit v 10) as [(-> & E10 & ->)|[El ->]].
      { destruct Hsz as [-> |[-> | ->]]; [left; split; [done|]; split; [by apply (high_bit v 1)|done] | by right..]. }
      - change (10 <? 8 * 1) with false in H10. cbn [andb] in H10. rewrite H10, E10 in Hb1 |- *. cbn [Bool.eqb] in Hb1. by subst d1.
      - rewrite El in H10. cbn [andb] in H10. rewrite H10 in Hb1 |- *. destruct (Bool.eqb _ _) eqn:Eq; [apply eqb_prop in Eq; by subst d1 | by destruct Hb1]. }
    split; [|by split; [|intros p Hp; rewrite (Hm p Hp)]].
    intros n Hn. destruct (Bool.eqb _ _) eqn:Eq; cbn [negb andb].
    + subst d1. by rewrite andb_false_r.
    + by apply Hb1.
  - destruct (note_msix_ok d val v) as (d1 & -> & Ev1 & Ei1 & El1 & Ep1 & Hp1). exists d1. rewrite Ev1, Ei1. split; [done|]. split; [done|].
    split; [done|]. split; [done|]. split; [intros n Hn; by rewrite andb_false_r|]. rewrite intx_elsewhere by done. split; [done|].
    intros p' Hp'. destruct (Hp1 p' Hp') as (p & Hp & ->). rewrite (Hm p Hp). pose proof (Hval 15 ltac:(lia)) as H15.
    change (8 * (OFFS_PCI_MSIX_CAP + PCI_MSIX_FLAGS) + 15) with MSIX_BIT in H15.
    assert (size = 1 /\ Z.testbit v 15 = false /\ written_bit (virtDev d) (OFFS_PCI_MSIX_CAP + PCI_MSIX_FLAGS) size v MSIX_BIT = bit (virtDev d) MSIX_BIT \/
            (15 <? 8 * size) = true /\ written_bit (virtDev d) (OFFS_PCI_MSIX_CAP + PCI_MSIX_FLAGS) size v MSIX_BIT = Z.testbit v 15) as [(-> & E15 & ->)|[El ->]].
    { destruct Hsz as [-> |[-> | ->]]; [left; split; [done|]; split; [by apply (high_bit v 1)|done] | by right | by destruct Hacc as (_ & _ & Ha & _)]. }
    + change (15 <? 8 * 1) with false in H15. cbn [andb] in H15. by rewrite H15, E15.
    + rewrite El in H15. cbn [andb] in H15. rewrite H15. by destruct (bit (virtDev d) MSIX_BIT), (Z.testbit v 15).
  - exists d. split; [done|]. split; [done|]. split; [done|]. split; [done|]. rewrite intx_elsewhere, msix_elsewhere by done.
    split; [intros n Hn; by rewrite andb_false_r|]. by split.
Qed.

Lemma pci_write_ok d devfn w size v : pci_inv d -> access_ok w size -> 0 ≤ v < 2 ^ (8 * size) ->
  exists d', nvmev_pci_write devfn w size v d = Ok (0, d') /\ pci_inv d' /\ signalled d' = signalled d /\
    (is_Some (pdev d') <-> is_Some (pdev d)) /\
    forall n, 0 ≤ n -> bit (virtDev d') n = if (n =? IS_BIT) && is_cleared d w size v then false else written_bit (virtDev d) w size v n.
Proof.
  intros Hinv Hacc Hv. pose proof Hinv as [Hs Hi _]. pose proof Hacc as (Hsz & Hw & Ha & Hin).
  unfold nvmev_pci_write. rewrite (proj2 (Z.ltb_ge 4 size)) by lia.
  destruct (read_le_ok (virtDev d) w size) as (val & Er & _ & Hval); [done|lia..|].
  destruct (note_ok d w size v val Hinv Hacc Hv Hval) as (d1 & En & Hs1 & El1 & Ep1 & Hb1 & Ei1 & Em1).
  set (mask := write_mask w) in *. set (nv := Z.lor (Z.ldiff val mask) (Z.land v mask)).
  destruct (write_le_ok (virtDev d1) w size nv Hs1) as (s' & Ew & Hs' & Hb'); [lia..|].
  exists (with_space s' d1).
  assert (forall n, 0 ≤ n -> bit s' n = if (n =? IS_BIT) && is_cleared d w size v then false else written_bit (virtDev d) w size v n) as Hfin.
  { intros n Hn. rewrite Hb', Hb1 by done. unfold is_cleared, written_bit. fold mask.
    destruct ((8 * w <=? n) && (n <? 8 * (w + size))) eqn:Ein; cbn [andb].
    - bool_prop. assert ((n =? IS_BIT) && ((w =? PCI_COMMAND) && (size =? 2) && intx_disabled d && negb (Z.testbit v 10)) = false) as ->.
      { destruct (Z.eqb_spec n IS_BIT), (Z.eqb_spec w PCI_COMMAND), (Z.eqb_spec size 2); cbn [andb]; try done. unfold IS_BIT, PCI_COMMAND in *. lia. }
      unfold nv. rewrite masked_bit, Hval by lia. rewrite (proj2 (Z.ltb_lt _ _)) by lia. cbn [andb]. destruct (Z.testbit mask _); [done|]. f_equal. lia.
    - destruct (Z.eqb_spec n IS_BIT) as [->|]; cbn [andb]; [|done]. destruct (Z.eqb_spec w PCI_COMMAND) as [->|]; cbn [andb]; [|done].
      rewrite Hval by lia. change (8 * PCI_COMMAND + 10) with INTX_BIT. rewrite <- Hi.
      destruct Hsz as [-> |[-> | ->]].
      + rewrite (high_bit v 1 10 Hv) by lia. done.
      + cbn [Z.eqb Z.mul Z.ltb andb]. destruct (intx_disabled d), (Z.testbit v 10); done.
      + discriminate Ein. }
  assert (written_bit (virtDev d) w size v INTX_BIT = bit s' INTX_BIT /\ written_bit (virtDev d) w size v MSIX_BIT = bit s' MSIX_BIT) as [F1 F2]
    by (rewrite !Hfin by done; done).
  split; [|split; [|split; [exact El1|split; [exact Ep1|exact Hfin]]]].
  - unfold mbind, prog_bind, lift, from_space, to_space. cbn [mbind res_bind]. rewrite Er. cbn [mbind res_bind]. rewrite En. fold mask nv.
    by rewrite Ew.
  - split; cbn [virtDev intx_disabled pdev with_space]; [done | by rewrite Ei1, F1 | intros p Hp; by rewrite (Em1 p Hp), F2].
Qed.

(** ** A run of the device

    Reads, aligned writes, the kernel's device appearing with the MSI-X flag
    its register shows, and interrupts. *)
Section Run.
Variable msi_get_virq : Z -> Z.

Inductive pci_step (d : pci_state) : pci_state -> Prop :=
| step_write devfn w size v d' : access_ok w size -> 0 ≤ v < 2 ^ (8 * size) -> nvmev_pci_write devfn w size v d = Ok (0, d') -> pci_step d d'
| step_read devfn w size v x d' : nvmev_pci_read devfn w size v d = Ok (x, d') -> pci_step d d'
| step_adopt d' : adopt_pdev (bit (virtDev d) MSIX_BIT) d = Ok (tt, d') -> pci_step d d'
| step_irq i d' : nvmev_signal_irq msi_get_virq i d = Ok (tt, d') -> pci_step d d'.

(** The bits of the header and the first capabilities that may change: interrupt
    disable and status, the status bits of the mask, self test, the base
    address, the interrupt line, all of power management, MSI-X control. *)
Definition writable_ranges : list (Z * Z) :=
  [(42, 43); (51, 52); (57, 58); (60, 64); (126, 127); (142, 160); (480, 488); (512, 640); (670, 672)].
Definition writable (n : Z) : bool := existsb (fun '(a, b) => (a <=? n) && (n <? b)) writable_ranges.

Definition kept (base_pa : Z) (d : pci_state) : Prop :=
  forall n, 0 ≤ n < 8 * (OFFS_PCIE_CAP) -> writable n = false -> bit (virtDev d) n = init_bit base_pa n.

Lemma masks_writable w size k : access_ok w size -> w < OFFS_PCIE_CAP -> 0 ≤ k < 8 * size -> Z.testbit (write_mask w) k = true ->
  writable (8 * w + k) = true.
Proof.
  intros (Hsz & Hw & Ha & _) Hlt Hk Hm.
  assert (forallb (fun size => forallb (fun w => forallb (fun k => negb ((w mod size =? 0) && Z.testbit (write_mask w) k) || writable (8 * w + k))
    (seqZ 0 (8 * size))) (seqZ 0 96)) [1; 2; 4] = true) as Hall by (by vm_compute).
  rewrite forallb_forall in Hall. specialize (Hall size ltac:(destruct Hsz as [-> |[-> | ->]]; cbn; auto)).
  rewrite forallb_forall in Hall. specialize (Hall w ltac:(apply list_elem_of_In, elem_of_seqZ; unfold OFFS_PCIE_CAP in *; lia)).
  rewrite forallb_forall in Hall. specialize (Hall k ltac:(apply list_elem_of_In, elem_of_seqZ; lia)).
  rewrite Ha, Hm in Hall. exact Hall.
Qed.

Lemma access_below w size n : access_ok w size -> n < 8 * OFFS_PCIE_CAP -> 8 * w ≤ n -> w < OFFS_PCIE_CAP.
Proof. lia. Qed.

Lemma write_keeps base_pa d d' w size v : kept base_pa d -> access_ok w size ->
  (forall n, 0 ≤ n -> bit (virtDev d') n = if (n =? IS_BIT) && is_cleared d w size v then false else written_bit (virtDev d) w size v n) -> kept base_pa d'.
Proof.
  intros Hk Hacc Hb n Hn Hwr. rewrite Hb by lia. destruct (Z.eqb_spec n IS_BIT) as [->|]; [done|]. cbn [andb].
  unfold written_bit. destruct ((8 * w <=? n) && (n <? 8 * (w + size)) && Z.testbit (write_mask w) (n - 8 * w)) eqn:E; [|by apply Hk].
  bool_prop. pose proof (masks_writable w size (n - 8 * w) Hacc ltac:(lia) ltac:(lia) ltac:(done)) as Hx.
  replace (8 * w + (n - 8 * w)) with n in Hx by lia. congruence.
Qed.

Lemma signal_space d d' i : pci_inv d -> nvmev_signal_irq msi_get_virq i d = Ok (tt, d') ->
  pci_inv d' /\ forall n, 0 ≤ n -> n <> IS_BIT -> bit (virtDev d') n = bit (virtDev d) n.
Proof.
  intros [Hs Hi Hm] E. unfold nvmev_signal_irq, gets, lift, mbind, prog_bind in E. destruct (pdev d) as [p|] eqn:Ep; [|done]. cbn [deref mbind res_bind] in E.
  destruct (msix_enabled p) eqn:Emx.
  - unfold __process_msi_irq, lift, mbind, prog_bind in E. destruct (negb _); [|done]. injection E as <-. split; [|done]. split; [done..|].
    intros p' Hp'. apply Hm. by rewrite <- Ep.
  - unfold to_space, set_member in E. change (find_member pci_header "sts.is") with (Some (51, 8, 1)) in E. cbn [deref mbind res_bind] in E.
    destruct (store_member_ok OFFS_PCI_HDR 51 8 1 1 (virtDev d)) as (s & Es & Hs' & Hb);
      [split; [by left | by repeat split] | done | done | by vm_compute |].
    rewrite Es in E. cbn [mbind res_bind with_space pdev] in E. rewrite Ep in E. injection E as <-. cbn [virtDev intx_disabled pdev].
    assert (forall n, 0 ≤ n -> n <> IS_BIT -> bit s n = bit (virtDev d) n) as Hsame.
    { intros n Hn Hne. rewrite Hb by done. change (8 * OFFS_PCI_HDR + 51) with IS_BIT.
      destruct (Z.leb_spec IS_BIT n), (Z.ltb_spec n (IS_BIT + 1)); cbn; done || lia. }
    split; [|done]. split; cbn [virtDev intx_disabled pdev]; [done | by rewrite Hsame | intros p' Hp'; rewrite Hsame by done; apply Hm; congruence].
Qed.

Lemma step_keeps base_pa d d' : pci_inv d -> kept base_pa d -> pci_step d d' -> pci_inv d' /\ kept base_pa d'.
Proof.
  intros Hi Hk [devfn w size v d2 Hacc Hv E|devfn w size v x d2 E|d2 E|i d2 E].
  - destruct (pci_write_ok d devfn w size v Hi Hacc Hv) as (d3 & E3 & Hi3 & _ & _ & Hb). rewrite E in E3. injection E3 as <-.
    split; [done|]. by eapply write_keeps.
  - unfold nvmev_pci_read in E. destruct (negb _); [by injection E as _ <-|]. destruct (4 <? size); [done|].
    destruct (read_le _ _ _); [|done]. by injection E as _ <-.
  - unfold adopt_pdev in E. destruct (read_le _ _ _); [|done]. injection E as <-. destruct Hi as [Hs Hx Hm].
    split; [|exact Hk]. split; [done..|]. by intros p [= <-].
  - destruct (signal_space d d2 i Hi E) as [Hi2 Hb]. split; [done|]. intros n Hn Hw. rewrite Hb; [by apply Hk | lia | by intros ->].
Qed.

Lemma init_bit_clear base_pa : init_bit base_pa INTX_BIT = false.
Proof. vm_compute. reflexivity. Qed.

Lemma pci_settings_inv base_pa d0 : NVMEV_PCI_INIT base_pa VDEV_INIT = Ok (tt, d0) -> pci_inv d0 /\ kept base_pa d0.
Proof.
  destruct (settings_ok base_pa) as (s & Es & Hs & Hb). unfold NVMEV_PCI_INIT. rewrite Es. intros [= <-]. split.
  - split; cbn [virtDev intx_disabled pdev]; [done | by rewrite Hb, init_bit_clear by done | done].
  - intros n [Hn _] _. exact (Hb n Hn).
Qed.

Lemma run_keeps base_pa d0 d : pci_inv d0 -> kept base_pa d0 -> rtc pci_step d0 d -> pci_inv d /\ kept base_pa d.
Proof. intros Hi Hk Hr. induction Hr as [d|d d1 d2 Hst _ IH]; [done|]. destruct (step_keeps base_pa d d1 Hi Hk Hst). by apply IH. Qed.

Lemma adopt_ok d : pci_inv d -> bit (virtDev d) MSIX_BIT = false -> exists d', adopt_pdev false d = Ok (tt, d') /\ pci_inv d' /\
  virtDev d' = virtDev d /\ exists line, pdev d' = Some (mk_pdev false line).
Proof.
  intros [Hs Hi Hm] Hb. unfold adopt_pdev. destruct (read_le_ok (virtDev d) (OFFS_PCI_HDR + 0x3c) 1) as (line & -> & _); [done..|].
  eexists. split; [done|]. split; [|by split; [|eexists]]. split; [done | done |]. by intros p [= <-].
Qed.

(** C26. However the kernel reads and writes the configuration space, and
    whatever interrupts are signalled meanwhile: every access returns; the
    module's flags for MSI-X and legacy interrupts are the bits of the
    registers; and the identifiers, class code, BAR type, capability pointer
    and the MSI-X capability but for its two control bits are as initialised. *)
Theorem config_accesses_keep base_pa d0 d : NVMEV_PCI_INIT base_pa VDEV_INIT = Ok (tt, d0) -> rtc pci_step d0 d ->
  pci_inv d /\ kept base_pa d /\
  read_le (virtDev d) 0x0 4 = Ok (Z.lor (Z.shiftl NVMEV_DEVICE_ID 16) NVMEV_VENDOR_ID) /\ read_le (virtDev d) 0x8 4 = Ok 0x01080201 /\
  read_le (virtDev d) 0x34 1 = Ok OFFS_PCI_PM_CAP /\ read_le (virtDev d) 0x50 2 = Ok (Z.lor (Z.shiftl OFFS_PCIE_CAP 8) PCI_CAP_ID_MSIX) /\
  read_le (virtDev d) 0x54 4 = Ok 0x2000 /\
  forall devfn w size, access_ok w size ->
    (forall old, exists x, nvmev_pci_read devfn w size old d = Ok (x, d)) /\
    (forall v, 0 ≤ v < 2 ^ (8 * size) -> exists d', nvmev_pci_write devfn w size v d = Ok (0, d') /\ pci_step d d').
Proof.
  intros E Hr. destruct (pci_settings_inv base_pa d0 E) as [Hi0 Hk0]. destruct (run_keeps base_pa d0 d Hi0 Hk0 Hr) as [Hi Hk].
  pose proof (pi_space _ Hi) as Hs. split; [done|]. split; [done|].
  assert (forall off n w, 0 ≤ off -> 0 ≤ n -> off + n ≤ OFFS_PCIE_CAP -> 0 ≤ w < 2 ^ (8 * n) ->
    forallb (fun m => negb (writable (8 * off + m)) && Bool.eqb (init_bit base_pa (8 * off + m)) (Z.testbit w m)) (seqZ 0 (8 * n)) = true ->
    read_le (virtDev d) off n = Ok w) as Hw.
  { intros off n w Ho Hn Hl Hwr Hf. apply word_eq; [done..|unfold OFFS_PCIE_CAP, PAGE_SIZE in *; lia|done|]. intros m Hm. rewrite forallb_forall in Hf.
    specialize (Hf m ltac:(apply list_elem_of_In, elem_of_seqZ; lia)). apply andb_true_iff in Hf as [H1 H2]. apply negb_true_iff in H1.
    rewrite Hk; [exact (eqb_prop _ _ H2) | lia | exact H1]. }
  do 5 (split; [init_read Hw|]). intros devfn w size Hacc. pose proof Hacc as (Hsz & H0 & _ & Hin). split.
  - intros old. unfold nvmev_pci_read. destruct (negb _); [by eexists|]. rewrite (proj2 (Z.ltb_ge 4 size)) by lia.
    destruct (read_le_ok (virtDev d) w size) as (x & -> & _); [done|lia..|]. by eexists.
  - intros v Hv. destruct (pci_write_ok d devfn w size v Hi Hacc Hv) as (d' & Ed & _). exists d'. split; [done|]. by eapply step_write.
Qed.
End Run.

(** ** Sizing the BAR *)
Lemma space_eq s s' : space_ok s -> space_ok s' -> (forall n, 0 ≤ n -> bit s n = bit s' n) -> s = s'.
Proof.
  intros [Hl Hf] [Hl' Hf'] Hb. apply (list_eq_same_length s s' (Z.to_nat PAGE_SIZE)); [lia..|]. intros i x y Hi Hx Hy.
  pose proof (Forall_lookup_1 _ _ _ _ Hf Hx) as Bx. pose proof (Forall_lookup_1 _ _ _ _ Hf' Hy) as By.
  apply Z.bits_inj'. intros j Hj. destruct (decide (j < 8)); [|by rewrite !(small_bits 8) by (done || lia)].
  specialize (Hb (j + Z.of_nat i * 8) ltac:(lia)). unfold bit, byte in Hb.
  rewrite Z.div_add, Z.mod_add, Z.div_small, Z.mod_small, Z.add_0_l, Nat2Z.id in Hb by lia.
  by rewrite (nth_lookup_Some _ _ _ _ Hx), (nth_lookup_Some _ _ _ _ Hy) in Hb.
Qed.

Lemma bar_written s v n : 0 ≤ n -> written_bit s PCI_BASE_ADDRESS_0 4 v n = if (142 <=? n) && (n <? 160) then Z.testbit v (n - 128) else bit s n.
Proof.
  intros Hn. unfold written_bit. change (write_mask PCI_BASE_ADDRESS_0) with (Z.shiftl (Z.ones 18) 14).
  change (8 * PCI_BASE_ADDRESS_0) with 128. change (8 * (PCI_BASE_ADDRESS_0 + 4)) with 160.
  destruct (Z.leb_spec 128 n), (Z.ltb_spec n 160), (Z.leb_spec 142 n); cbn [andb]; try lia; try done;
    rewrite Z.shiftl_spec, Z.testbit_ones by lia;
    destruct (Z.leb_spec 0 (n - 128 - 14)), (Z.ltb_spec (n - 128 - 14) 18); cbn [andb]; done || lia.
Qed.

(** Where the MSI-X table -- 16 bytes for each vector -- and the pending bits
    lie in the BAR. *)
Definition msix_table (s : space) : res (Z * Z) :=
  ctrl ← read_le s 0x52 2; off ← read_le s 0x54 4; Ok (Z.ldiff off 7, 16 * (Z.land ctrl 0x7ff + 1)).
Definition msix_pba (s : space) : res Z := off ← read_le s 0x58 4; Ok (Z.ldiff off 7).

Section Probe.
Variable msi_get_virq : Z -> Z.
Context (base_pa : Z) (d0 d : pci_state).
Context (Hinit : NVMEV_PCI_INIT base_pa VDEV_INIT = Ok (tt, d0)) (Hrun : rtc (pci_step msi_get_virq) d0 d).

Lemma pci_run_inv : pci_inv d /\ kept base_pa d.
Proof using Hinit Hrun. destruct (pci_settings_inv base_pa d0 Hinit) as [Hi Hk]. by eapply run_keeps. Qed.

Lemma kept_bits off n w : 0 ≤ off -> 0 ≤ n -> off + n ≤ OFFS_PCIE_CAP -> 0 ≤ w ->
  forallb (fun m => negb (writable (8 * off + m)) && Bool.eqb (init_bit base_pa (8 * off + m)) (Z.testbit w m)) (seqZ 0 (8 * n)) = true ->
  forall m, 0 ≤ m < 8 * n -> bit (virtDev d) (8 * off + m) = Z.testbit w m.
Proof using Hinit Hrun.
  intros Ho Hn Hl Hw Hf m Hm. destruct pci_run_inv as [_ Hk]. rewrite forallb_forall in Hf.
  specialize (Hf m ltac:(apply list_elem_of_In, elem_of_seqZ; lia)). apply andb_true_iff in Hf as [H1 H2]. apply negb_true_iff in H1.
  rewrite Hk; [exact (eqb_prop _ _ H2) | lia | exact H1].
Qed.

Lemma kept_word off n w : 0 ≤ off -> 0 ≤ n -> off + n ≤ OFFS_PCIE_CAP -> 0 ≤ w < 2 ^ (8 * n) ->
  forallb (fun m => negb (writable (8 * off + m)) && Bool.eqb (init_bit base_pa (8 * off + m)) (Z.testbit w m)) (seqZ 0 (8 * n)) = true ->
  read_le (virtDev d) off n = Ok w.
Proof using Hinit Hrun.
  intros Ho Hn Hl Hw Hf. destruct pci_run_inv as [Hi _]. apply word_eq; [apply Hi | done..|unfold OFFS_PCIE_CAP, PAGE_SIZE in *; lia|done|].
  apply kept_bits; [done..|apply Hw | exact Hf].
Qed.

Lemma msix_table_ok : msix_table (virtDev d) = Ok (0x2000, 0x800).
Proof using Hinit Hrun.
  unfold msix_table. destruct pci_run_inv as [Hi _]. destruct (read_le_ok (virtDev d) 0x52 2) as (c & -> & _ & Hc); [apply Hi | done..|].
  cbn [mbind res_bind]. replace (read_le (virtDev d) 0x54 4) with (@Ok Z 0x2000) by (symmetry; init_read kept_word). cbn [mbind res_bind].
  assert (Z.land c 0x7ff = 127) as ->; [|done]. apply Z.bits_inj'. intros m Hm. change 0x7ff with (Z.ones 11). change 127 with (Z.ones 7).
  rewrite Z.land_spec, !Z.testbit_ones, Hc by lia. rewrite (proj2 (Z.leb_le 0 m)) by done. cbn [andb].
  destruct (Z.ltb_spec m 11); [|rewrite andb_false_r; symmetry; apply Z.ltb_ge; lia]. rewrite (proj2 (Z.ltb_lt m (8 * 2))), andb_true_r by lia. cbn [andb].
  assert (forallb (fun m => negb (writable (8 * 0x52 + m)) && Bool.eqb (init_bit base_pa (8 * 0x52 + m)) (Z.testbit (Z.ones 7) m)) (seqZ 0 11) = true) as Hf
    by (vm_compute; reflexivity).
  rewrite forallb_forall in Hf. specialize (Hf m ltac:(apply list_elem_of_In, elem_of_seqZ; lia)). apply andb_true_iff in Hf as [H1 H2].
  apply negb_true_iff in H1. destruct pci_run_inv as [_ Hk]. rewrite Hk; [|unfold OFFS_PCIE_CAP; lia | exact H1]. rewrite (eqb_prop _ _ H2), Z.testbit_ones by lia.
  by rewrite (proj2 (Z.leb_le 0 m)) by done.
Qed.

(** C27. The kernel sizes the BAR by writing ones and reading back: the answer
    is that of a 64-bit memory BAR of 16 KiB, and writing the old value back
    restores the whole space.  The MSI-X table lies inside these 16 KiB, behind
    the registers and the doorbells; the pending bits are announced outside. *)
Theorem bar_probe : exists old d1 d2 size,
  read_le (virtDev d) 0x10 4 = Ok old /\
  nvmev_pci_write 0 PCI_BASE_ADDRESS_0 4 0xFFFFFFFF d = Ok (0, d1) /\
  nvmev_pci_read 0 PCI_BASE_ADDRESS_0 4 0 d1 = Ok (0, 2 ^ 32 - size + 4, d1) /\ size = 0x4000 /\
  nvmev_pci_write 0 PCI_BASE_ADDRESS_0 4 old d1 = Ok (0, d2) /\ virtDev d2 = virtDev d /\
  (exists off len, msix_table (virtDev d) = Ok (off, len) /\ 2 * PAGE_SIZE ≤ off /\ off + len ≤ size) /\
  exists off, msix_pba (virtDev d) = Ok off /\ size ≤ off.
Proof using Hinit Hrun.
  destruct pci_run_inv as [Hi Hk]. pose proof (pi_space _ Hi) as Hs.
  destruct (read_le_ok (virtDev d) 0x10 4) as (old & Eo & Ho0 & Ho); [done..|].
  assert (access_ok PCI_BASE_ADDRESS_0 4) as Hacc by (split; [auto | split; [done | by split]]).
  assert (0 ≤ old < 2 ^ (8 * 4)) as Hold.
  { split; [done|]. destruct (Z.lt_ge_cases old (2 ^ (8 * 4))) as [|Hge]; [done|]. exfalso.
    pose proof (Z.log2_le_mono _ _ Hge) as Hlg. rewrite Z.log2_pow2 in Hlg by done.
    pose proof (Z.bit_log2 old ltac:(lia)) as Hb. rewrite Ho, (proj2 (Z.ltb_ge _ _)) in Hb by lia. done. }
  destruct (pci_write_ok d 0 PCI_BASE_ADDRESS_0 4 0xFFFFFFFF Hi Hacc ltac:(split; [vm_compute; discriminate | vm_compute; reflexivity])) as (d1 & E1 & Hi1 & _ & _ & Hb1).
  destruct (pci_write_ok d1 0 PCI_BASE_ADDRESS_0 4 old Hi1 Hacc Hold) as (d2 & E2 & Hi2 & _ & _ & Hb2).
  exists old, d1, d2, 0x4000. split; [done|]. split; [done|]. split.
  { unfold nvmev_pci_read. cbn [Z.eqb negb Z.ltb Z.compare Pos.compare Pos.compare_cont].
    assert (read_le (virtDev d1) PCI_BASE_ADDRESS_0 4 = Ok 0xFFFFC004) as ->; [|done].
    apply word_eq; [apply Hi1 | done | done | done | by split |]. intros m Hm. change (8 * PCI_BASE_ADDRESS_0 + m) with (128 + m). rewrite Hb1 by lia.
    rewrite andb_false_r, bar_written by lia. destruct (decide (14 ≤ m)).
    - rewrite (proj2 (Z.leb_le _ _)), (proj2 (Z.ltb_lt _ _)) by lia. cbn [andb]. replace (128 + m - 128) with m by lia.
      assert (forallb (fun m => Z.testbit 0xFFFFFFFF m && Z.testbit 0xFFFFC004 m) (seqZ 14 18) = true) as Hf by (vm_compute; reflexivity).
      rewrite forallb_forall in Hf. specialize (Hf m ltac:(apply list_elem_of_In, elem_of_seqZ; lia)). apply andb_true_iff in Hf as [-> ->]. done.
    - rewrite (proj2 (Z.leb_gt _ _)) by lia. cbn [andb].
      assert (forallb (fun m => negb (writable (128 + m)) && Bool.eqb (init_bit base_pa (128 + m)) (Z.testbit 0xFFFFC004 m)) (seqZ 0 14) = true) as Hf
        by (vm_compute; reflexivity).
      rewrite forallb_forall in Hf. specialize (Hf m ltac:(apply list_elem_of_In, elem_of_seqZ; lia)). apply andb_true_iff in Hf as [H1 H2].
      apply negb_true_iff in H1. rewrite Hk; [exact (eqb_prop _ _ H2) | unfold OFFS_PCIE_CAP; lia | exact H1]. }
  split; [done|]. split; [done|]. split.
  { apply space_eq; [apply Hi2 | done|]. intros n Hn. rewrite Hb2, andb_false_r, bar_written by done.
    destruct ((142 <=? n) && (n <? 160)) eqn:En.
    - bool_prop. rewrite Ho, (proj2 (Z.ltb_lt _ _)) by lia. cbn [andb]. f_equal. lia.
    - by rewrite Hb1, andb_false_r, bar_written, En by done. }
  split; [exists 0x2000, 0x800; split; [exact msix_table_ok | by split]|].
  exists 0x8000. split; [|done]. unfold msix_pba. replace (read_le (virtDev d) 0x58 4) with (@Ok Z 0x8000) by (symmetry; init_read kept_word). done.
Qed.
End Probe.

(** The power-management capability is writable as a whole: when the kernel
    writes a byte over its link -- a hardware register there is read-only --
    the capability list has no end. *)
Theorem capability_link_writable base_pa d0 : NVMEV_PCI_INIT base_pa VDEV_INIT = Ok (tt, d0) ->
  exists d, nvmev_pci_write 0 (OFFS_PCI_PM_CAP + 1) 1 OFFS_PCI_PM_CAP d0 = Ok (0, d) /\
    read_le (virtDev d) 0x34 1 = Ok OFFS_PCI_PM_CAP /\ forall fuel, cap_walk fuel (virtDev d) OFFS_PCI_PM_CAP = Bug NoFuel.
Proof.
  intros E. destruct (pci_settings_inv base_pa d0 E) as [Hi Hk].
  assert (access_ok (OFFS_PCI_PM_CAP + 1) 1) as Hacc by (split; [auto | split; [done | by split]]).
  destruct (pci_write_ok d0 0 (OFFS_PCI_PM_CAP + 1) 1 OFFS_PCI_PM_CAP Hi Hacc ltac:(by split)) as (d & Ed & Hi' & _ & _ & Hb).
  exists d. split; [exact Ed|]. pose proof (write_keeps base_pa d0 d _ _ _ Hk Hacc Hb) as Hk'.
  assert (read_le (virtDev d) (OFFS_PCI_PM_CAP + 1) 1 = Ok OFFS_PCI_PM_CAP) as En.
  { apply word_eq; [apply Hi' | done | done | done | by split |]. intros m Hm. rewrite Hb by (unfold OFFS_PCI_PM_CAP; lia). rewrite andb_false_r. unfold written_bit.
    rewrite (proj2 (Z.leb_le _ _)), (proj2 (Z.ltb_lt _ _)) by lia. replace (8 * (OFFS_PCI_PM_CAP + 1) + m - 8 * (OFFS_PCI_PM_CAP + 1)) with m by lia.
    change (write_mask (OFFS_PCI_PM_CAP + 1)) with (Z.ones 32). by rewrite Z.ones_spec_low by lia. }
  destruct (read_le_ok (virtDev d) OFFS_PCI_PM_CAP 1) as (id & Eid & _); [apply Hi' | done..|]. split.
  - apply word_eq; [apply Hi' | done | done | done | by split |]. intros m Hm. rewrite Hk'; [| unfold OFFS_PCIE_CAP; lia|].
    + assert (forallb (fun m => Bool.eqb (init_bit base_pa (8 * 0x34 + m)) (Z.testbit 0x40 m)) (seqZ 0 8) = true) as Hf by (vm_compute; reflexivity).
      rewrite forallb_forall in Hf. exact (eqb_prop _ _ (Hf m ltac:(apply list_elem_of_In, elem_of_seqZ; lia))).
    + assert (forallb (fun m => negb (writable (8 * 0x34 + m))) (seqZ 0 8) = true) as Hf by (vm_compute; reflexivity).
      rewrite forallb_forall in Hf. apply negb_true_iff, Hf, list_elem_of_In, elem_of_seqZ. lia.
  - induction fuel as [|fuel IH]; [done|]. cbn [cap_walk]. rewrite Eid. cbn [mbind res_bind]. rewrite En. cbn [mbind res_bind]. by rewrite IH.
Qed.

(** ** Examples: 64 GiB reserved from 4 GiB on *)
Lemma init_returns base_pa : exists d0, NVMEV_PCI_INIT base_pa VDEV_INIT = Ok (tt, d0).
Proof. destruct (settings_ok base_pa) as (s & Es & _). unfold NVMEV_PCI_INIT. rewrite Es. by eexists. Qed.

(** The kernel switches MSI-X off before the device appears, as it does. *)
Lemma msix_written_off base_pa d0 : NVMEV_PCI_INIT base_pa VDEV_INIT = Ok (tt, d0) ->
  exists d1, nvmev_pci_write 0 0x52 2 0x7f d0 = Ok (0, d1) /\ pci_step (fun i => i + 32) d0 d1 /\ bit (virtDev d1) MSIX_BIT = false.
Proof.
  intros E. destruct (pci_settings_inv base_pa d0 E) as [Hi _].
  assert (access_ok 0x52 2) as Hacc by (split; [auto | split; [done | by split]]).
  destruct (pci_write_ok d0 0 0x52 2 0x7f Hi Hacc ltac:(by split)) as (d1 & E1 & _ & _ & _ & Hb). exists d1. split; [exact E1|]. split.
  - by apply (step_write _ _ 0 0x52 2 0x7f); [done | split |].
  - rewrite Hb by done. done.
Qed.

Lemma pci_init_spec_witness : exists d, NVMEV_PCI_INIT (2 ^ 32) VDEV_INIT = Ok (tt, d) /\ bar_base (virtDev d) = Ok (2 ^ 32).
Proof.
  destruct (pci_init_spec (2 ^ 32) ltac:(by split)) as (d & E & _ & _ & _ & _ & _ & _ & _ & Hb & _). exists d. split; [exact E | exact Hb].
Defined.

Lemma config_accesses_keep_witness : exists d0 d, NVMEV_PCI_INIT (2 ^ 32) VDEV_INIT = Ok (tt, d0) /\
  bit (virtDev d) MSIX_BIT = false /\ read_le (virtDev d) 0x54 4 = Ok 0x2000.
Proof.
  destruct (init_returns (2 ^ 32)) as [d0 E]. destruct (msix_written_off (2 ^ 32) d0 E) as (d1 & _ & Hst & Hm). exists d0, d1. split; [exact E|]. split; [exact Hm|].
  destruct (config_accesses_keep (fun i => i + 32) (2 ^ 32) d0 d1 E (rtc_once _ _ Hst)) as (_ & _ & _ & _ & _ & _ & Ht & _). exact Ht.
Defined.

Lemma bar_probe_witness : exists d0 d1 old, NVMEV_PCI_INIT (2 ^ 32) VDEV_INIT = Ok (tt, d0) /\
  nvmev_pci_write 0 PCI_BASE_ADDRESS_0 4 0xFFFFFFFF d0 = Ok (0, d1) /\ nvmev_pci_read 0 PCI_BASE_ADDRESS_0 4 0 d1 = Ok (0, 0xFFFFC004, d1) /\
  read_le (virtDev d0) 0x10 4 = Ok old.
Proof.
  destruct (init_returns (2 ^ 32)) as [d0 E]. destruct (bar_probe (fun i => i + 32) (2 ^ 32) d0 d0 E (rtc_refl _ _)) as (old & d1 & d2 & size & Eo & E1 & Er & -> & _).
  exists d0, d1, old. split; [exact E|]. split; [exact E1|]. split; [exact Er | exact Eo].
Defined.

Lemma capability_link_writable_witness : exists d0 d, NVMEV_PCI_INIT (2 ^ 32) VDEV_INIT = Ok (tt, d0) /\
  nvmev_pci_write 0 0x41 1 0x40 d0 = Ok (0, d) /\ cap_walk 100 (virtDev d) 0x40 = Bug NoFuel.
Proof.
  destruct (init_returns (2 ^ 32)) as [d0 E]. destruct (capability_link_writable (2 ^ 32) d0 E) as (d & Ed & _ & Hw).
  exists d0, d. split; [exact E|]. split; [exact Ed | exact (Hw 100%nat)].
Defined.
