(* ===== verification/Init.v ===== *)
(** * The builds and their namespaces
    ([BASE_SSD] in [src/ssd_config.h]; [simple_init_namespace] of
    [src/simple_ftl.c], and the initialisers of [ConvFtl], [ZnsFtl] and [KvFtl])

    A build has one kind of device.  Its initialisers are those that
    [NVMEV_NAMESPACE_INIT] calls; here they get one type of result, and it is
    settled on which storage they return. *)
From S2P Require Import Prelude Nvme SsdConfig ChannelModel Ssd ConvFtl ConvGeom ConvInv ConvInit Alloc ZnsFtl KvFtl Config.

Lemma res_bind_Ok {A B} (f : A -> res B) x : (x ← Ok x; f x) = f x.
Proof. reflexivity. Qed.

(** ** The builds *)
Inductive base_ssd : Set := Build_INTEL_OPTANE | Build_KV_PROTOTYPE | Build_SAMSUNG_970PRO | Build_ZNS_PROTOTYPE | Build_WD_ZN540.

Definition NS_SSD_TYPE (b : base_ssd) : list Z :=
  match b with Build_INTEL_OPTANE => [0] | Build_SAMSUNG_970PRO => [1] | Build_ZNS_PROTOTYPE | Build_WD_ZN540 => [2] | Build_KV_PROTOTYPE => [3] end.
Definition NS_CAPACITY (b : base_ssd) : list Z := [0].
Definition MDTS (b : base_ssd) : Z := match b with Build_INTEL_OPTANE | Build_KV_PROTOTYPE => 5 | _ => 6 end.
(** The geometry of the flash devices. *)
Definition flash_config (b : base_ssd) : option ssd_config :=
  match b with
  | Build_SAMSUNG_970PRO => Some SAMSUNG_970PRO
  | Build_ZNS_PROTOTYPE => Some ZNS_PROTOTYPE
  | Build_WD_ZN540 => Some WD_ZN540
  | _ => None
  end.
Definition kv_table_of (b : base_ssd) : option Z := match b with Build_KV_PROTOTYPE => Some KV_MAPPING_TABLE_SIZE | _ => None end.
Definition SUPPORTED_ZNS (b : base_ssd) : bool := existsb (Z.eqb 2) (NS_SSD_TYPE b).

(** ** The initialisers *)

(** [nr_parts] is not set and never read. *)
Definition simple_init_namespace {N} (ftls : N) (id size mapped_addr : Z) : res (nvmev_ns N) :=
  Ok (mk_ns id NVME_CSI_NVM size 0 ftls).

(** [ns->ftls] of each kind, with the link and the write buffer it shares. *)
Inductive ns_ftl : Type :=
  | NvmFtl
  | ConvFtls (parts : list conv_ftl) (pcie : channel_model) (write_buffer : buffer)
  | ZnsFtl (z : zns_ftl) (pcie : channel_model) (write_buffer : buffer)
  | KvFtl (kv : kv_ftl AppendOnly.ao_state).

Definition ns_with {N N'} (f : N -> N') (ns : nvmev_ns N) : nvmev_ns N' :=
  mk_ns (ns_id ns) (ns_csi ns) (ns_size ns) (ns_nr_parts ns) (f (ns_ftls ns)).

Section Inits.
Variable b : base_ssd.
(** What [kmalloc] left in the report buffer; the bytes of the storage; the
    allocator's statics. *)
Variables (heap : list Z) (storage : Z -> Z) (allocator : AppendOnly.ao_state).

(** A build has no code for the kinds that it does not have. *)
Definition build_simple_init (id size addr : Z) : res (nvmev_ns ns_ftl) := simple_init_namespace NvmFtl id size addr.
Definition build_conv_init (id size addr : Z) : res (nvmev_ns ns_ftl) :=
  cfg ← deref (flash_config b);
  '(ns, pcie, wb) ← conv_init_namespace cfg id size; Ok (ns_with (fun parts => ConvFtls parts pcie wb) ns).
Definition build_zns_init (id size addr : Z) : res (nvmev_ns ns_ftl) :=
  cfg ← deref (flash_config b);
  '(ns, pcie, wb) ← zns_init_namespace cfg id size heap (fun off => storage (addr + off)); Ok (ns_with (fun z => ZnsFtl z pcie wb) ns).
Definition build_kv_init (config : device_config) (id size addr : Z) : res (nvmev_ns ns_ftl) :=
  ns ← kv_init_namespace kv_allocator (storage_size config) id KV_MAPPING_TABLE_SIZE size allocator; Ok (ns_with KvFtl ns).

(** ** Where they return *)

Definition zone_bytes : Z := match flash_config b with Some cfg => ZONE_SIZE cfg | None => 0 end.

(** The storage a build can be loaded with, and one that trips the assertion
    of [zns_init_params]. *)
Definition storage_fits (size : Z) : Prop :=
  match b with
  | Build_INTEL_OPTANE | Build_KV_PROTOTYPE => True
  | Build_SAMSUNG_970PRO => 2 ^ 20 ≤ size ≤ 2 ^ 43
  | Build_ZNS_PROTOTYPE | Build_WD_ZN540 =>
    2 ^ 20 ≤ size ≤ 2 ^ 43 /\ size mod zone_bytes = 0
  end.
Definition half_zone (size : Z) : Prop :=
  match b with
  | Build_ZNS_PROTOTYPE | Build_WD_ZN540 =>
    2 ^ 20 ≤ size ≤ 2 ^ 43 /\ size mod zone_bytes <> 0
  | _ => False
  end.

(** The namespace of the build: its command set and the size it shows. *)
Definition build_csi : Z := if SUPPORTED_ZNS b then NVME_CSI_ZNS else NVME_CSI_NVM.
Definition build_size (size : Z) : Z := match b with Build_SAMSUNG_970PRO => size * 100 / 107 | _ => size end.

Lemma zns_params_return cfg spp size : cfg ∈ [ZNS_PROTOTYPE; WD_ZN540] -> secsz spp = 512 -> pgsz spp = 4096 ->
  SSD_PARTITIONS cfg = 1 /\
  if size mod ZONE_SIZE cfg =? 0 then exists zpp, zns_init_params cfg spp size = Ok zpp else zns_init_params cfg spp size = Bug BugOn.
Proof.
  intros Hc Es Ep. unfold zns_init_params. rewrite Es, Ep. rewrite !elem_of_cons in Hc. destruct Hc as [-> | [-> | Hn]]; [| |by apply not_elem_of_nil in Hn].
  - split; [done|]. change (ZONE_SIZE ZNS_PROTOTYPE) with 33554432. unfold checked_div, checked_mod. cbn [Z.eqb Pos.eqb zone_size mbind res_bind].
    change (u32 33554432) with 33554432. cbn [Z.eqb Pos.eqb mbind res_bind]. destruct (size mod 33554432 =? 0); [|done]. by eexists.
  - split; [done|]. change (ZONE_SIZE WD_ZN540) with 2147483648. unfold checked_div, checked_mod. cbn [Z.eqb Pos.eqb zone_size mbind res_bind].
    change (u32 2147483648) with 2147483648. cbn [Z.eqb Pos.eqb mbind res_bind]. destruct (size mod 2147483648 =? 0); [|done]. by eexists.
Qed.

Lemma zns_returns cfg id size mapped : cfg ∈ [ZNS_PROTOTYPE; WD_ZN540] -> 2 ^ 20 ≤ size ≤ 2 ^ 43 ->
  if size mod ZONE_SIZE cfg =? 0 then exists ns pcie wb, zns_init_namespace cfg id size heap mapped = Ok (ns, pcie, wb) /\
    ns_id ns = id /\ ns_size ns = size /\ ns_csi ns = NVME_CSI_ZNS
  else zns_init_namespace cfg id size heap mapped = Bug BugOn.
Proof.
  intros Hc Hs. assert (cfg ∈ [SAMSUNG_970PRO; ZNS_PROTOTYPE; WD_ZN540]) as Hcfg by (apply elem_of_cons; by right).
  destruct (shipped_sizes cfg size Hcfg Hs) as (chs & bs & blks & Hsz & _). pose proof (shipped_configs_ok _ Hcfg) as Hok.
  pose proof (ssd_init_params_sizes cfg size _ chs bs blks Hok Hsz) as Hp. pose proof (co_lba _ Hok) as Hlba.
  destruct (zns_params_return cfg (derived_params cfg chs bs blks) size Hc) as [E1 Hz]; [cbn; unfold LBA_SIZE; by rewrite Hlba..|].
  rewrite E1 in Hp. unfold zns_init_namespace. rewrite Hp. cbn [mbind res_bind]. destruct (ssd_init _) as [[s pcie] wb].
  destruct (_ =? 0); [|by rewrite Hz]. destruct Hz as [zpp ->]. cbn [mbind res_bind]. by eexists _, pcie, wb.
Qed.

Lemma init_kinds {N} (f0 f1 f2 f3 : Z -> Z -> Z -> res (nvmev_ns N)) size addr :
  init_namespace f0 f1 f2 f3 [0] 0 size addr = f0 0 size addr /\ init_namespace f0 f1 f2 f3 [1] 0 size addr = f1 0 size addr /\
  init_namespace f0 f1 f2 f3 [2] 0 size addr = f2 0 size addr /\ init_namespace f0 f1 f2 f3 [3] 0 size addr = f3 0 size addr.
Proof. done. Qed.

Lemma kv_returns {A} (ops : allocator_ops A) total id table size a r : Alloc.init ops total a = Ok r ->
  exists ns, kv_init_namespace ops total id table size a = Ok ns /\ ns_id ns = id /\ ns_csi ns = NVME_CSI_NVM /\ ns_size ns = size.
Proof. intros E. unfold kv_init_namespace. rewrite E. destruct r as [r a']. by eexists. Qed.

Lemma conv_id cfg id size ns pcie wb : conv_init_namespace cfg id size = Ok (ns, pcie, wb) -> ns_id ns = id.
Proof.
  unfold conv_init_namespace. intros E. apply bind_Ok in E as (spp & _ & E). destruct (ssd_init spp) as [[? ?] ?].
  apply bind_Ok in E as (ftls & _ & E). by injection E as <- _ _.
Qed.

Lemma conv_returns id size : 2 ^ 20 ≤ size ≤ 2 ^ 43 -> exists ns pcie wb, conv_init_namespace SAMSUNG_970PRO id size = Ok (ns, pcie, wb) /\
  ns_id ns = id /\ ns_csi ns = NVME_CSI_NVM /\ ns_size ns = size * 100 / 107.
Proof.
  intros Hs. destruct (proj1 (returns_iff _ _) (conv_init_namespace_ok id size Hs)) as ([[ns pcie] wb] & E & H). exists ns, pcie, wb.
  split; [exact E|]. split; [exact (conv_id _ _ _ _ _ _ E)|]. split; [exact (init_namespace_csi _ _ _ _ _ _ E) | exact (proj1 (proj2 H))].
Qed.

(** On a storage that fits, the namespace is there and shows its size; a zoned
    device whose storage ends inside a zone stops at the assertion. *)
#[local] Abbreviation build_init config := (init_namespace build_simple_init build_conv_init build_zns_init (build_kv_init config) (NS_SSD_TYPE b) 0).

Lemma build_kinds config size addr :
  (NS_SSD_TYPE b = [0] -> build_init config size addr = build_simple_init 0 size addr) /\
  (NS_SSD_TYPE b = [1] -> build_init config size addr = build_conv_init 0 size addr) /\
  (NS_SSD_TYPE b = [2] -> build_init config size addr = build_zns_init 0 size addr) /\
  (NS_SSD_TYPE b = [3] -> build_init config size addr = build_kv_init config 0 size addr).
Proof. split; [|split; [|split]]; intros ->; apply init_kinds. Qed.

Lemma build_zns cfg size addr : flash_config b = Some cfg -> cfg ∈ [ZNS_PROTOTYPE; WD_ZN540] -> 2 ^ 20 ≤ size ≤ 2 ^ 43 ->
  if size mod ZONE_SIZE cfg =? 0 then exists ns, build_zns_init 0 size addr = Ok ns /\ ns_id ns = 0 /\ ns_csi ns = NVME_CSI_ZNS /\ ns_size ns = size
  else build_zns_init 0 size addr = Bug BugOn.
Proof.
  intros Ec Hc Hs. pose proof (zns_returns cfg 0 size (fun off => storage (addr + off)) Hc Hs) as Hr. unfold build_zns_init. rewrite Ec. cbn [deref mbind res_bind].
  destruct (_ =? 0); [|by rewrite Hr]. destruct Hr as (ns & pcie & wb & -> & Eid & Esz & Ecsi). by eexists.
Qed.

Lemma build_conv size addr : flash_config b = Some SAMSUNG_970PRO -> 2 ^ 20 ≤ size ≤ 2 ^ 43 ->
  exists ns, build_conv_init 0 size addr = Ok ns /\ ns_id ns = 0 /\ ns_csi ns = NVME_CSI_NVM /\ ns_size ns = size * 100 / 107.
Proof.
  intros Ec Hs. destruct (conv_returns 0 size Hs) as (ns & pcie & wb & E & E1 & E2 & E3). unfold build_conv_init. rewrite Ec. cbn [deref]. rewrite res_bind_Ok, E, res_bind_Ok.
  exists (ns_with (fun parts => ConvFtls parts pcie wb) ns). split; [reflexivity|]. split; [exact E1|]. split; [exact E2 | exact E3].
Qed.

Lemma build_kv config size addr : exists ns, build_kv_init config 0 size addr = Ok ns /\ ns_id ns = 0 /\ ns_csi ns = NVME_CSI_NVM /\ ns_size ns = size.
Proof.
  destruct (kv_returns kv_allocator (storage_size config) 0 KV_MAPPING_TABLE_SIZE size allocator (1, AppendOnly.mk 0 (storage_size config) 0) eq_refl) as (ns & E & E1 & E2 & E3).
  unfold build_kv_init. rewrite E, res_bind_Ok. exists (ns_with KvFtl ns). split; [reflexivity|]. split; [exact E1|]. split; [exact E2 | exact E3].
Qed.

Lemma build_returns config size addr : storage_fits size ->
  exists ns, build_init config size addr = Ok ns /\ ns_id ns = 0 /\ ns_csi ns = build_csi /\ ns_size ns = build_size size.
Proof.
  destruct (build_kinds config size addr) as (H0 & H1 & H2 & H3). unfold storage_fits, zone_bytes, build_csi, build_size, SUPPORTED_ZNS.
  destruct b eqn:Eb.
  - intros _. rewrite H0 by done. by eexists.
  - intros _. rewrite H3 by done. apply build_kv.
  - intros Hs. rewrite H1 by done. apply build_conv; [by rewrite Eb | done].
  - intros [Hs Hz]. cbn [flash_config] in Hz. rewrite H2 by done. pose proof (build_zns ZNS_PROTOTYPE size addr) as Hzns. rewrite Hz in Hzns.
    apply Hzns; [by rewrite Eb | set_solver | done].
  - intros [Hs Hz]. cbn [flash_config] in Hz. rewrite H2 by done. pose proof (build_zns WD_ZN540 size addr) as Hzns. rewrite Hz in Hzns.
    apply Hzns; [by rewrite Eb | set_solver | done].
Qed.

Lemma build_stops config size addr : half_zone size -> build_init config size addr = Bug BugOn.
Proof.
  destruct (build_kinds config size addr) as (_ & _ & H2 & _). unfold half_zone, zone_bytes. destruct b eqn:Eb; try done; intros [Hs Hz]; cbn [flash_config] in Hz; rewrite H2 by done.
  - pose proof (build_zns ZNS_PROTOTYPE size addr) as Hzns. rewrite (proj2 (Z.eqb_neq _ _) Hz) in Hzns. apply Hzns; [by rewrite Eb | set_solver | done].
  - pose proof (build_zns WD_ZN540 size addr) as Hzns. rewrite (proj2 (Z.eqb_neq _ _) Hz) in Hzns. apply Hzns; [by rewrite Eb | set_solver | done].
Qed.
End Inits.
