(* ===== verification/Dma.v ===== *)
(** * The DMA engine ([src/dma.c])

    Instead of copying, a worker may have the I/OAT engine move the data.  The
    kernel's DMA-engine interface is a parameter ([DmaEngine], [DmaPool]): what
    the module relies on is stated as laws, and a transfer that the engine does
    not report complete may have done anything. *)
From Stdlib Require Import String.
From S2P Require Import Prelude Prp HostIo.
#[local] Open Scope string_scope.
#[local] Open Scope list_scope.
#[local] Open Scope Z_scope.

Definition ENOMEM : Z := 12.
Definition EBUSY : Z := 16.
Definition EINVAL : Z := 22.

(** [enum dma_status] of the kernel. *)
Inductive dma_status := DMA_COMPLETE | DMA_IN_PROGRESS | DMA_PAUSED | DMA_ERROR | DMA_OUT_OF_ORDER.
#[export] Instance dma_status_eq_dec : EqDecision dma_status.
Proof. solve_decision. Defined.

(** What the module looks at of a [struct dma_chan]. *)
Record dma_chan := mk_chan { dma_chan_name : string; dev_name : string; cap_memcpy : bool; cap_no_order : bool }.

(** ** State *)
Record ioat_dma_params := mk_dma_params {
  buf_size : Z;
  channel : string;
  device : string;
  max_channels : Z;
  timeout : Z;
  transfer_size : Z;
  polled : bool;
}.

(** [struct ioat_dma_info], its list by channel; the thread's channel. *)
Record ioat_dma_info := mk_info {
  params : ioat_dma_params;
  channels : list dma_chan;
  nr_channels : Z;
  last_error : Z;
  dma_thread : option dma_chan;
  test_channel : string;
}.

Definition with_params (i : ioat_dma_info) p := mk_info p (channels i) (nr_channels i) (last_error i) (dma_thread i) (test_channel i).
Definition with_error (i : ioat_dma_info) e := mk_info (params i) (channels i) (nr_channels i) e (dma_thread i) (test_channel i).
Definition with_test_channel (i : ioat_dma_info) s := mk_info (params i) (channels i) (nr_channels i) (last_error i) (dma_thread i) s.
Definition with_polled (p : ioat_dma_params) b :=
  mk_dma_params (buf_size p) (channel p) (device p) (max_channels p) (timeout p) (transfer_size p) b.

Definition CHANNEL_NAME_LEN : Z := 20.

(** [test_info] as it is linked. *)
Definition test_info : ioat_dma_info := mk_info (mk_dma_params 0 "" "" 0 0 0 false) [] 0 0 None "".

(** ** Choosing a channel *)
Definition ioat_dma_match_channel (p : ioat_dma_params) (chan : dma_chan) : bool :=
  (channel p =? "")%string || (dma_chan_name chan =? channel p)%string.
Definition ioat_dma_match_device (p : ioat_dma_params) (chan : dma_chan) : bool :=
  (device p =? "")%string || (dev_name chan =? device p)%string.
Definition filter_chan (p : ioat_dma_params) (chan : dma_chan) : bool := ioat_dma_match_channel p chan && ioat_dma_match_device p chan.

(** [dma_request_channel] with the mask DMA_MEMCPY, on the kernel's state. *)
Class DmaPool (K : Type) := {
  free_channels : K -> list dma_chan;
  dma_request_channel : (dma_chan -> bool) -> K -> option dma_chan * K;
  dma_release_channel : dma_chan -> K -> K;
  dma_stop_channel : dma_chan -> K -> K; (* [dmaengine_terminate_sync] *)
}.
Class DmaPoolLaws (K : Type) `{DmaPool K} : Prop := {
  request_some : forall f k chan k', dma_request_channel f k = (Some chan, k') ->
    cap_memcpy chan = true /\ f chan = true /\ free_channels k ≡ₚ chan :: free_channels k';
  request_none : forall f k k', dma_request_channel f k = (None, k') ->
    free_channels k' = free_channels k /\ forall chan, chan ∈ free_channels k -> cap_memcpy chan = true -> f chan = false;
}.

Section Channels.
Context {K : Type} `{DmaPool K}.
(** Whether [kmalloc] has room for another channel; [strim] of the kernel. *)
Variable kmalloc_ok : dma_chan -> bool.
Variable strim : string -> string.

Definition ioat_dma_add_channel (i : ioat_dma_info) (chan : dma_chan) : Z * ioat_dma_info :=
  if negb (kmalloc_ok chan) then (- ENOMEM, i)
  else
    let p := if cap_no_order chan && polled (params i) then with_polled (params i) false else params i in
    let th := if cap_memcpy chan then Some chan else dma_thread i in
    (0, mk_info p (channels i ++ [chan]) (nr_channels i + 1) (last_error i) th (test_channel i)).

Fixpoint request_channels (fuel : nat) (i : ioat_dma_info) (k : K) : res (ioat_dma_info * K) :=
  match fuel with
  | O => Bug NoFuel
  | S fuel =>
    match dma_request_channel (filter_chan (params i)) k with
    | (None, k) => Ok (i, k)
    | (Some chan, k) =>
      let '(ret, i) := ioat_dma_add_channel i chan in
      if negb (ret =? 0) then Ok (i, dma_release_channel chan k)
      else if negb (max_channels (params i) =? 0) && (max_channels (params i) <=? nr_channels i) then Ok (i, k)
      else request_channels fuel i k
    end
  end.

(** The static defaults; [test_device] is never set. *)
Definition add_threaded_dma (i : ioat_dma_info) (k : K) : res (ioat_dma_info * K) :=
  let i := with_params i (mk_dma_params 4096 (strim (test_channel i)) (strim "") 0 3000 1024 true) in
  request_channels (S (length (free_channels k))) i k.

Definition ioat_dma_chan_set (val : string) (i : ioat_dma_info) (k : K) : res (Z * ioat_dma_info * K) :=
  if CHANNEL_NAME_LEN <=? Z.of_nat (String.length val) then Bug BugOn
  else
    let i := with_test_channel i val in
    if existsb (fun chan => (dma_chan_name chan =? strim (test_channel i))%string) (channels i) then
      Ok (- EBUSY, with_error i (- EBUSY), k)
    else
      '(i, k) ← add_threaded_dma i k;
      match last (channels i) with
      | Some chan =>
        if negb (dma_chan_name chan =? strim (test_channel i))%string && negb (strim (test_channel i) =? "")%string then
          Ok (- EINVAL, with_error i (- EINVAL), k)
        else Ok (0, with_error i 0, k)
      | None => Ok (- EBUSY, with_error i (- EBUSY), k)
      end.

(** Every channel is stopped and given back; the thread keeps its pointer. *)
Definition ioat_dma_cleanup (i : ioat_dma_info) (k : K) : ioat_dma_info * K :=
  (mk_info (params i) [] 0 (last_error i) (dma_thread i) (test_channel i), foldl (fun k chan => dma_release_channel chan (dma_stop_channel chan k)) k (channels i)).
End Channels.

(** ** A transfer *)
(** The descriptor operations of the engine on its state [E], which includes
    the memory. *)
Class DmaEngine (E Tx : Type) := {
  dma_mem : E -> host_mem;
  device_prep_dma_memcpy : dma_chan -> Z -> Z -> Z -> bool -> E -> option Tx * E; (* destination, source, size, interrupt *)
  tx_submit : Tx -> E -> Z * E;
  dma_sync_wait : dma_chan -> Z -> E -> dma_status * E;
  dma_async_issue_pending : dma_chan -> E -> E;
  wait_done : Z -> E -> bool * E; (* [wait_event_freezable_timeout]: whether the callback came *)
  dma_async_is_tx_complete : dma_chan -> Z -> E -> dma_status;
  dmaengine_terminate_sync : dma_chan -> E -> E;
}.

Section Submit.
Context {E Tx : Type} `{DmaEngine E Tx}.

Definition ioat_dma_submit (i : ioat_dma_info) (src_addr dst_addr size : Z) (e : E) : res (Z * E) :=
  chan ← deref (dma_thread i);
  let out e := Ok (- ENOMEM, dmaengine_terminate_sync chan e) in
  match device_prep_dma_memcpy chan dst_addr src_addr size (negb (polled (params i))) e with
  | (None, e) => out e
  | (Some tx, e) =>
    let '(cookie, e) := tx_submit tx e in
    if cookie <? 0 then out e
    else
      let '(done, status, e) :=
        if polled (params i) then
          let '(status, e) := dma_sync_wait chan cookie e in
          (bool_decide (status = DMA_COMPLETE), status, dmaengine_terminate_sync chan e)
        else
          let '(done, e) := wait_done (timeout (params i)) (dma_async_issue_pending chan e) in
          (done, dma_async_is_tx_complete chan cookie e, e) in
      if negb done then out e
      else if negb (bool_decide (status = DMA_COMPLETE)) && negb (cap_no_order chan && bool_decide (status = DMA_OUT_OF_ORDER)) then out e
      else Ok (0, e)
  end.

(** What the module relies on: a transfer between disjoint ranges that is
    reported complete has been carried out, and nothing else touches the
    memory.  [dma_pending] is the engine's own book-keeping. *)
Class DmaLaws := {
  tx_copy : Tx -> Z * Z * Z;
  dma_pending : E -> Z -> option (Z * Z * Z);
  prep_tx : forall chan dst src size irq e tx e', device_prep_dma_memcpy chan dst src size irq e = (Some tx, e') ->
    tx_copy tx = (dst, src, size) /\ dma_mem e' = dma_mem e;
  submit_tx : forall tx e c e', tx_submit tx e = (c, e') -> 0 ≤ c -> dma_pending e' c = Some (tx_copy tx) /\ dma_mem e' = dma_mem e;
  sync_wait_copies : forall chan c e e' dst src size, dma_sync_wait chan c e = (DMA_COMPLETE, e') -> dma_pending e c = Some (dst, src, size) ->
    dst + size ≤ src \/ src + size ≤ dst -> dma_mem e' = mem_copy (dma_mem e) dst (dma_mem e) src size;
  interrupt_copies : forall chan c e t e' dst src size, dma_pending e c = Some (dst, src, size) ->
    wait_done t (dma_async_issue_pending chan e) = (true, e') ->
    dma_async_is_tx_complete chan c e' = DMA_COMPLETE \/ cap_no_order chan = true /\ dma_async_is_tx_complete chan c e' = DMA_OUT_OF_ORDER ->
    dst + size ≤ src \/ src + size ≤ dst -> dma_mem e' = mem_copy (dma_mem e) dst (dma_mem e) src size;
  terminate_keeps : forall chan e, dma_mem (dmaengine_terminate_sync chan e) = dma_mem e;
}.

(** An engine that carries out whatever it is given, polled. *)
Class DmaReliable : Prop := {
  prep_total : forall chan dst src size irq e, exists tx e', device_prep_dma_memcpy chan dst src size irq e = (Some tx, e');
  submit_total : forall tx e, exists c e', tx_submit tx e = (c, e') /\ 0 ≤ c;
  wait_completes : forall chan c e, exists e', dma_sync_wait chan c e = (DMA_COMPLETE, e');
}.
End Submit.
Arguments DmaLaws E Tx {_}.
Arguments DmaReliable E Tx {_}.

(** * Properties *)
Section SubmitProps.
Context {E Tx : Type} `{DmaEngine E Tx} (Hl : DmaLaws E Tx).

(** With a channel a transfer always returns, 0 or -ENOMEM, and 0 only if the
    bytes have arrived. *)
Lemma ioat_dma_submit_ok i chan src dst size e : dma_thread i = Some chan -> dst + size ≤ src \/ src + size ≤ dst ->
  returns (ioat_dma_submit i src dst size e) (fun '(ret, e') =>
    (ret = 0 \/ ret = - ENOMEM) /\ (ret = 0 -> dma_mem e' = mem_copy (dma_mem e) dst (dma_mem e) src size)).
Proof.
  intros Ht Hd. unfold ioat_dma_submit. rewrite Ht. cbn [deref mbind res_bind].
  assert (forall e', returns (Ok (- ENOMEM, dmaengine_terminate_sync chan e')) (fun '(ret, e') =>
    (ret = 0 \/ ret = - ENOMEM) /\ (ret = 0 -> dma_mem e' = mem_copy (dma_mem e) dst (dma_mem e) src size))) as Hout.
  { intros e'. cbn. split; [by right | done]. }
  destruct (device_prep_dma_memcpy _ _ _ _ _ _) as [[tx|] e1] eqn:E1; [|apply Hout]. destruct (prep_tx _ _ _ _ _ _ _ _ E1) as [Hc M1].
  destruct (tx_submit tx e1) as [c e2] eqn:E2. destruct (Z.ltb_spec c 0) as [|Hc0]; [apply Hout|]. destruct (submit_tx _ _ _ _ E2 Hc0) as [Hp M2].
  rewrite Hc in Hp. destruct (polled (params i)).
  - destruct (dma_sync_wait chan c e2) as [st e3] eqn:E3. destruct (bool_decide_reflect (st = DMA_COMPLETE)) as [->|]; [|apply Hout].
    cbn. split; [by left|]. intros _. by rewrite terminate_keeps, (sync_wait_copies _ _ _ _ _ _ _ E3 Hp Hd), M2, M1.
  - destruct (wait_done _ _) as [[] e3] eqn:E3; [|apply Hout]. cbn [negb].
    destruct (bool_decide_reflect (dma_async_is_tx_complete chan c e3 = DMA_COMPLETE)) as [Es|Es]; cbn [negb andb].
    + cbn. split; [by left|]. intros _. by rewrite (interrupt_copies _ _ _ _ _ _ _ _ Hp E3 (or_introl Es) Hd), M2, M1.
    + destruct (cap_no_order chan) eqn:En; [|apply Hout]. cbn [andb].
      destruct (bool_decide_reflect (dma_async_is_tx_complete chan c e3 = DMA_OUT_OF_ORDER)) as [Eo|]; [|apply Hout].
      cbn. split; [by left|]. intros _. by rewrite (interrupt_copies _ _ _ _ _ _ _ _ Hp E3 (or_intror (conj En Eo)) Hd), M2, M1.
Qed.

Lemma ioat_dma_submit_copies (Hr : DmaReliable E Tx) i chan src dst size e : dma_thread i = Some chan -> polled (params i) = true ->
  dst + size ≤ src \/ src + size ≤ dst ->
  exists e', ioat_dma_submit i src dst size e = Ok (0, e') /\ dma_mem e' = mem_copy (dma_mem e) dst (dma_mem e) src size.
Proof.
  intros Ht Hp Hd. pose proof (ioat_dma_submit_ok i chan src dst size e Ht Hd) as Hok. unfold ioat_dma_submit in *. rewrite Ht, Hp in *.
  cbn [deref mbind res_bind negb] in *. destruct (prep_total chan dst src size false e) as (tx & e1 & E1). rewrite E1 in *.
  destruct (submit_total tx e1) as (c & e2 & E2 & Hc). rewrite E2 in *. rewrite (proj2 (Z.ltb_ge _ _) Hc) in *.
  destruct (wait_completes chan c e2) as [e3 E3]. rewrite E3 in *. rewrite bool_decide_eq_true_2 in * by done. cbn [negb andb] in *.
  eexists. split; [done|]. by apply Hok.
Qed.
End SubmitProps.

(** ** Asking for a channel returns *)
Section ChannelReturns.
Context {K : Type} `{DmaPoolLaws K} (kmalloc_ok : dma_chan -> bool) (strim : string -> string).

Lemma request_channels_returns fuel : forall i (k : K), (length (free_channels k) < fuel)%nat -> exists x, request_channels kmalloc_ok fuel i k = Ok x.
Proof.
  induction fuel as [|fuel IH]; intros i k Hf; [lia|]. cbn [request_channels].
  destruct (dma_request_channel _ k) as [[chan|] k1] eqn:E; [|by eexists]. destruct (request_some _ _ _ _ E) as (_ & _ & Hp).
  destruct (ioat_dma_add_channel kmalloc_ok i chan) as [ret i1]. destruct (negb (ret =? 0)); [by eexists|]. destruct (_ && _); [by eexists|].
  apply IH. apply Permutation_length in Hp. cbn in Hp. lia.
Qed.

Lemma chan_set_returns val i (k : K) : Z.of_nat (String.length val) < CHANNEL_NAME_LEN ->
  exists ret i' k', ioat_dma_chan_set kmalloc_ok strim val i k = Ok (ret, i', k').
Proof.
  intros Hl. unfold ioat_dma_chan_set. rewrite (proj2 (Z.leb_gt _ _) Hl). destruct (existsb _ _); [by eexists _, _, _|].
  unfold add_threaded_dma. edestruct request_channels_returns as [[i1 k1] E]; [|rewrite E; cbn [mbind res_bind]]; [lia|].
  destruct (last (channels i1)); [|by eexists _, _, _]. destruct (_ && _); by eexists _, _, _.
Qed.
End ChannelReturns.

(** ** The channel of the module *)
Section ChannelProps.
Context {K : Type} `{DmaPoolLaws K} (strim : string -> string).
#[local] Abbreviation kmalloc_ok := (fun _ : dma_chan => true).

(** While there is memory the loop takes every channel that the filter lets
    through. *)
Lemma request_channels_ok fuel : forall i (k : K), (length (free_channels k) < fuel)%nat -> max_channels (params i) = 0 ->
  returns (request_channels kmalloc_ok fuel i k) (fun '(i', k') => exists taken,
    channels i' = channels i ++ taken /\ free_channels k ≡ₚ taken ++ free_channels k' /\
    Forall (fun chan => cap_memcpy chan = true /\ filter_chan (params i) chan = true) taken /\
    (forall chan, chan ∈ free_channels k' -> cap_memcpy chan = true -> filter_chan (params i) chan = false) /\
    dma_thread i' = (match last taken with Some chan => Some chan | None => dma_thread i end) /\
    polled (params i') = polled (params i) && forallb (fun chan => negb (cap_no_order chan)) taken /\ test_channel i' = test_channel i).
Proof.
  induction fuel as [|fuel IH]; intros i k Hf Hm; [lia|]. cbn [request_channels].
  destruct (dma_request_channel _ k) as [[chan|] k1] eqn:E.
  - destruct (request_some _ _ _ _ E) as (Hc & Hfl & Hp). cbn [ioat_dma_add_channel negb]. rewrite Hc. cbn [Z.eqb negb].
    set (i1 := mk_info _ _ _ _ _ _).
    assert (max_channels (params i1) = 0 /\ (forall c, filter_chan (params i1) c = filter_chan (params i) c)) as [Hm1 Hf1]
      by (unfold i1; cbn [params]; by destruct (cap_no_order chan && polled (params i))).
    rewrite Hm1. cbn [Z.eqb negb andb]. eapply returns_mono; [apply IH; [|done]|].
    { apply Permutation_length in Hp. cbn in Hp. lia. }
    intros [i' k'] (taken & Ec & Hp' & Hall & Hno & Et & Epo & Etc). exists (chan :: taken). split_and!.
    + rewrite Ec. unfold i1. cbn. by rewrite <- app_assoc.
    + by rewrite Hp, Hp'.
    + constructor; [done|]. eapply Forall_impl; [exact Hall|]. intros c [Hcc Hfc]. rewrite Hf1 in Hfc. done.
    + intros c Hin Hcap. rewrite <- Hf1. by apply Hno.
    + rewrite Et, (last_cons chan taken). by destruct (last taken).
    + rewrite Epo. unfold i1. cbn. destruct (cap_no_order chan); destruct (polled (params i)) eqn:Ep; cbn; by rewrite ?Ep.
    + by rewrite Etc.
  - destruct (request_none _ _ _ E) as [Ek Hno]. cbn. exists []. rewrite app_nil_r, Ek. split_and!; try done. by rewrite andb_true_r.
Qed.

(** Choosing the DMA channel by name, on the module as it is loaded: the
    loop over the kernel's channels ends; the result is 0 exactly when a free
    channel of that name that can copy exists, the thread then has such a
    channel, and polling is kept unless a channel completes out of order; else
    it is -EBUSY and no channel is held. *)
Lemma chan_set_spec val (k : K) : Z.of_nat (String.length val) < CHANNEL_NAME_LEN -> val <> "" -> strim val = val -> strim "" = "" ->
  returns (ioat_dma_chan_set kmalloc_ok strim val test_info k) (fun '(ret, i, k') =>
    free_channels k ≡ₚ channels i ++ free_channels k' /\
    if existsb (fun chan => cap_memcpy chan && (dma_chan_name chan =? val)%string) (free_channels k) then
      ret = 0 /\ exists chan, dma_thread i = Some chan /\ chan ∈ channels i /\ dma_chan_name chan = val /\ cap_memcpy chan = true /\
        (polled (params i) = true <-> Forall (fun chan => cap_no_order chan = false) (channels i))
    else ret = - EBUSY /\ channels i = [] /\ dma_thread i = None).
Proof.
  intros Hlen Hne Hs Hs0. unfold ioat_dma_chan_set. rewrite (proj2 (Z.leb_gt _ _) Hlen). cbn [test_channel with_test_channel channels test_info existsb].
  unfold add_threaded_dma. cbn [test_channel with_test_channel]. rewrite Hs, Hs0. set (p := mk_dma_params _ _ _ _ _ _ _).
  apply returns_bind. eapply returns_mono; [apply (request_channels_ok _ _ k); [lia | done]|].
  intros [i k'] (taken & Ec & Hp & Hall & Hno & Et & Epo & Etc). cbn [params with_params channels dma_thread app test_channel with_test_channel test_info] in *.
  assert (forall c, filter_chan p c = (dma_chan_name c =? val)%string) as Hfl.
  { intros c. unfold filter_chan, ioat_dma_match_channel, ioat_dma_match_device, p. cbn [channel device].
    rewrite (proj2 (String.eqb_neq _ _) Hne). cbn [orb]. by rewrite andb_true_r. }
  rewrite Ec. destruct (last taken) as [chan|] eqn:El.
  - destruct (last_Some taken chan) as [Hl _]. destruct (Hl El) as [l ->]. apply Forall_app in Hall as [Hall Hc].
    apply Forall_singleton in Hc as [Hcap Hc]. rewrite Hfl in Hc. rewrite Etc, Hs, Hc. cbn [negb andb].
    apply String.eqb_eq in Hc. cbn [returns channels with_error dma_thread params]. split; [by rewrite Ec|].
    rewrite (proj2 (existsb_exists _ _)).
    + split; [done|]. exists chan. split; [exact Et|]. rewrite Ec. split; [apply elem_of_app; right; by apply list_elem_of_singleton|].
      split; [done|]. split; [done|]. rewrite Epo. cbn [polled p andb]. rewrite forallb_forall, Forall_forall. unfold p. cbn [polled].
      split; intros Hx c Hc'; specialize (Hx c); rewrite <- ?list_elem_of_In in *; specialize (Hx Hc'); by destruct (cap_no_order c).
    + exists chan. split; [|by rewrite Hcap, Hc, String.eqb_refl]. apply list_elem_of_In. rewrite Hp, elem_of_app. left. apply elem_of_app. right. by apply list_elem_of_singleton.
  - apply last_None in El as ->. cbn [returns channels with_error dma_thread]. rewrite Ec. split; [done|].
    destruct (existsb _ _) eqn:Ee; [|done]. apply existsb_exists in Ee as (chan & Hin & Hx). apply andb_true_iff in Hx as [Hcap Hn].
    apply list_elem_of_In in Hin. rewrite Hp in Hin. specialize (Hno chan Hin Hcap). rewrite Hfl in Hno. congruence.
Qed.
End ChannelProps.

(** The kernel's channels as a list, an example. *)
#[export] Instance list_pool : DmaPool (list dma_chan) := {|
  free_channels := fun k => k;
  dma_request_channel := fun f k =>
    match list_find (fun chan => cap_memcpy chan && f chan = true) k with
    | Some (i, chan) => (Some chan, delete i k)
    | None => (None, k)
    end;
  dma_release_channel := fun chan k => chan :: k;
  dma_stop_channel := fun _ k => k;
|}.
#[export] Instance list_pool_laws : DmaPoolLaws (list dma_chan).
Proof.
  split; intros f k; cbn; destruct (list_find _ k) as [[i chan]|] eqn:E.
  - intros c k' [= <- <-]. apply list_find_Some in E as (Hi & Hp & _). apply andb_prop in Hp as [Hc Hf]. split; [done|]. split; [done|].
    by apply delete_Permutation.
  - done.
  - done.
  - intros k' [= <-]. split; [done|]. intros chan Hin Hc. apply list_find_None in E. rewrite Forall_forall in E. specialize (E chan Hin). cbv beta in E.
    rewrite Hc in E. by apply not_true_is_false.
Qed.
