(* ===== verification/Boot.v ===== *)
(** * Loading the module
    ([NVMeV_init] of [src/main.c], [__create_pci_bus] and
    [__init_nvme_ctrl_regs] of [src/pci.c], [NVMEV_IO_WORKER_INIT] of
    [src/io.c])

    Loading puts the components together: parameters, namespaces, the virtual
    PCI device, the registers, the workers.  The state it leaves is the state
    in which the theorems on the components start. *)
From Stdlib Require Import String.
From S2P Require Import Dma Prelude Nvme Prp Alloc SimpleFtl WorkQueue IoWorker IoRing IoInv IoProps Ctrl CtrlProps Admin AdminProps QueueProps Config Init Pci PciProps.
#[local] Open Scope string_scope.
#[local] Open Scope Z_scope.

(** ** The registers as [__init_nvme_ctrl_regs] sets them *)
Definition cap_layout : layout :=
  [[("mqes", 16, 16); ("cqr", 16, 1); ("ams", 16, 2); ("rsvd", 16, 5); ("to", 16, 8); ("dstrd", 16, 4); ("nssrs", 16, 1);
    ("css", 16, 8); ("rsvd2", 16, 3); ("mpsmin", 16, 4); ("mpsmax", 16, 4); ("rsvd3", 16, 8)]].
Definition vs_layout : layout := [[("rsvd", 8, 8); ("mnr", 8, 8); ("mjr", 16, 16)]].
Definition CAP_CSS_BIT_SPECIFIC : Z := Z.shiftl 1 6.

(** [zns] is [SUPPORTED_SSD_TYPE(ZNS)]. *)
Definition init_cap (zns : bool) : res Z :=
  s ← set_members cap_layout 0
        ([("to", 1); ("mpsmin", 0); ("mqes", 1024 - 1)] ++ if zns then [("css", CAP_CSS_BIT_SPECIFIC)] else [])%list (replicate 8 0);
  read_le s 0 8.
Definition init_vs : res Z :=
  s ← set_members vs_layout 0 [("mjr", 1); ("mnr", 0)] (replicate 4 0); read_le s 0 4.

(** A page of doorbells. *)
Definition NR_DBS : nat := Z.to_nat (PAGE_SIZE / 4).

Definition NVMEV_IO_WORKER_INIT (nr_io_workers : Z) : res (list nvmev_io_worker) := mapM init_worker (seqZ 0 nr_io_workers).

Section Boot.
Context {F N K : Type} `{DmaPool K}.
Variables e820_ram e820_reserved_kern e820_reserved : Z -> Z -> bool.
Variable simple_strtol : string -> Z.
Variable kv_table : option Z.
(** The initialisers of the four FTLs ([Init] has those of each build) and the
    build's namespaces. *)
Variables simple_init conv_init zns_init : Z -> Z -> Z -> res (nvmev_ns N).
Variable kv_init : device_config -> Z -> Z -> Z -> res (nvmev_ns N).
Variables ns_ssd_type ns_capacity : list Z.
Variables (MDTS : Z) (zns_supported : bool).
(** [memremap] of the storage; the namespaces as the commands find them. *)
Variable memremap : Z -> Z -> Z.
Variable start_ftl : list (nvmev_ns N) -> F.
(** [pci_scan_bus]: the kernel's accesses to the configuration space while it
    looks for devices; [None] when it creates no bus. *)
Variable pci_scan_bus : pci_state -> option pci_state.
(** The global [io_using_dma] as it is linked, and what [src/dma.c] needs of
    the kernel. *)
Variables (using_dma : bool) (kmalloc_ok : dma_chan -> bool) (strim : string -> string) (dma_pool : K).

Record nvmev_module := mk_module {
  m_config : device_config;
  m_io_unit_stat : list Z;
  m_io_using_dma : bool;
  m_dma : ioat_dma_info;
  m_pci : pci_state;
  m_cap : Z;
  m_vs : Z;
  m_dev : nvmev_dev F N;
}.

(** [__create_pci_bus] for the device found: its registers and doorbells, and
    the copies the dispatcher compares with.  The copy of the doorbells takes
    the first word only. *)
Definition __create_pci_bus (pci : pci_state) : res (pci_state * Z * Z * nvme_ctrl_regs * __nvme_bar * list Z * list Z) :=
  '(_, pci) ← adopt_pdev false pci;
  cap ← init_cap zns_supported;
  vs ← init_vs;
  let bar := mk_regs 0 0 0 0 0 in
  let dbs := replicate NR_DBS 0 in
  first ← aget dbs 0;
  old_dbs ← aset (replicate NR_DBS 0) 0 first;
  Ok (pci, cap, vs, bar, mk_bar (u_cc bar) (u_aqa bar) (u_asq bar) (u_acq bar), dbs, old_dbs).

Definition NVMeV_init (p : module_params) : res (option nvmev_module) :=
  config ← __load_configs e820_ram e820_reserved_kern e820_reserved simple_strtol kv_table p;
  match config with
  | None => Ok None
  | Some config =>
    let io_unit_stat := replicate (Z.to_nat (nr_io_units (perf config))) 0 in
    let storage_mapped := memremap (storage_start config) (storage_size config) in
    ns ← NVMEV_NAMESPACE_INIT simple_init conv_init zns_init (kv_init config) ns_ssd_type ns_capacity (length ns_capacity) (storage_size config) storage_mapped;
    dma ← (if using_dma then ioat_dma_chan_set kmalloc_ok strim "dma7chan0" test_info dma_pool else Ok (-1, test_info, dma_pool));
    let io_using_dma := using_dma && (dma.1.1 =? 0) in
    '(_, pci) ← NVMEV_PCI_INIT (memmap_start config) VDEV_INIT;
    match pci_scan_bus pci with
    | None => Ok None
    | Some pci =>
      '(pci, cap, vs, bar, old_bar, dbs, old_dbs) ← __create_pci_bus pci;
      workers ← NVMEV_IO_WORKER_INIT (nr_io_workers config);
      let queues {A} : list (option A) := replicate (Z.to_nat (NR_MAX_IO_QUEUE + 1)) None in
      let io := mk_dev queues queues workers 0 0 0 dbs old_dbs [] 0 (start_ftl ns) in
      Ok (Some (mk_module config io_unit_stat io_using_dma dma.1.2 pci cap vs (mk_vdev bar old_bar None io ns MDTS)))
    end
  end.
End Boot.
Arguments nvmev_module : clear implicits.
Arguments mk_module {F N}.

(** * Properties *)
Lemma NR_DBS_eq : Z.of_nat NR_DBS = 1024.
Proof. vm_compute. reflexivity. Qed.

Lemma mapM_workers l : returns (mapM init_worker l) (fun ws => Forall2 (fun id wk => init_worker id = Ok wk) l ws).
Proof.
  induction l as [|id l IH]; [by constructor|]. cbn [mapM]. apply returns_bind. pose proof (init_worker_ok id) as Hi.
  destruct (init_worker id) as [wk|] eqn:E; [|done]. cbn [returns]. apply returns_bind. eapply returns_mono; [exact IH|].
  intros ws Hws. by constructor.
Qed.

Lemma workers_each n ws : NVMEV_IO_WORKER_INIT n = Ok ws -> length ws = Z.to_nat n /\ forall turn wk, aget ws turn = Ok wk -> init_worker turn = Ok wk.
Proof.
  intros E. pose proof (mapM_workers (seqZ 0 n)) as Hf. unfold NVMEV_IO_WORKER_INIT in E. rewrite E in Hf. cbn in Hf.
  pose proof (Forall2_length _ _ _ Hf) as Hl. rewrite length_seqZ in Hl. split; [done|].
  intros turn wk Hwk. pose proof (aget_range _ _ _ Hwk) as Hr. apply aget_Ok in Hwk as [Ht Hl2].
  destruct (Forall2_lookup_r _ _ _ _ _ Hf Hl2) as (id & Hid & Hi). rewrite lookup_seqZ_lt in Hid by lia. injection Hid as <-.
  by replace (0 + Z.of_nat (Z.to_nat turn)) with turn in Hi by lia.
Qed.

Lemma workers_init n : 0 ≤ n -> exists ws, NVMEV_IO_WORKER_INIT n = Ok ws /\ Z.of_nat (length ws) = n /\
  forall turn wk, aget ws turn = Ok wk -> init_worker turn = Ok wk.
Proof.
  intros Hn. pose proof (mapM_workers (seqZ 0 n)) as H. apply returns_iff in H as (ws & E & _). exists ws. split; [exact E|].
  destruct (workers_each n ws E) as [Hl Hw]. split; [lia | exact Hw].
Qed.

(** The capabilities a driver reads: a thousand and twenty-four entries in a
    queue, doorbells of four bytes in a row, version 1.0. *)
Definition cap_ok (zns : bool) (cap vs : Z) : Prop :=
  Z.land cap 0xffff = 1023 /\ Z.land (Z.shiftr cap 32) 0xf = 0 /\ Z.testbit cap 43 = zns /\ vs = 0x10000.

Lemma init_caps zns : exists cap vs, init_cap zns = Ok cap /\ init_vs = Ok vs /\ cap_ok zns cap vs.
Proof. destruct zns; eexists _, _; (split; [vm_compute; reflexivity|]); (split; [vm_compute; reflexivity|]); by repeat split. Qed.

Section BootProps.
Context {F N K : Type} `{HFm : HostMem F} `{HFo : FtlOps F} `{HFc : CmdFine F} `{HK : DmaPoolLaws K}.
Variables e820_ram e820_reserved_kern e820_reserved : Z -> Z -> bool.
Variable simple_strtol : string -> Z.
Variable kv_table : option Z.
Variables simple_init conv_init zns_init : Z -> Z -> Z -> res (nvmev_ns N).
Variable kv_init : device_config -> Z -> Z -> Z -> res (nvmev_ns N).
Variables ns_ssd_type ns_capacity : list Z.
Variables (MDTS : Z) (zns_supported : bool).
Variable memremap : Z -> Z -> Z.
Variable start_ftl : list (nvmev_ns N) -> F.
Variable pci_scan_bus : pci_state -> option pci_state.
Variables (using_dma : bool) (kmalloc_ok : dma_chan -> bool) (strim : string -> string) (dma_pool : K).
Variable msi_get_virq : Z -> Z.
#[local] Abbreviation init := (NVMeV_init e820_ram e820_reserved_kern e820_reserved simple_strtol kv_table simple_init conv_init zns_init kv_init
  ns_ssd_type ns_capacity MDTS zns_supported memremap start_ftl pci_scan_bus using_dma kmalloc_ok strim dma_pool).

(** The kernel's scan only accesses the space, and leaves MSI-X off. *)
Definition scan_ok : Prop := forall start d0, NVMEV_PCI_INIT start VDEV_INIT = Ok (tt, d0) ->
  exists d, pci_scan_bus d0 = Some d /\ rtc (pci_step msi_get_virq) d0 d /\ bit (virtDev d) MSIX_BIT = false.

(** A device on which nothing has happened: every invariant holds. *)
Record fresh (d : nvmev_dev F N) : Prop := {
  fr_io : io_inv (mk_io (vio d) (map (fun _ => NIL) (io_workers (vio d))) [] []);
  fr_queues : forall qid, 0 ≤ qid ≤ NR_MAX_IO_QUEUE -> aget (sqes (vio d)) qid = Ok None /\ aget (cqes (vio d)) qid = Ok None;
  fr_sqes : Z.of_nat (length (sqes (vio d))) = NR_MAX_IO_QUEUE + 1;
  fr_cqes : Z.of_nat (length (cqes (vio d))) = NR_MAX_IO_QUEUE + 1;
  fr_dbs : Z.of_nat (length (dbs (vio d))) = 1024 /\ Z.of_nat (length (old_dbs (vio d))) = 1024;
  fr_admin : admin_q d = None;
  fr_bar : bar d = mk_regs 0 0 0 0 0 /\ old_bar d = mk_bar 0 0 0 0;
}.

Lemma aget_replicate_in {A} n (x : A) i : 0 ≤ i < Z.of_nat n -> aget (replicate n x) i = Ok x.
Proof. intros Hi. apply aget_Ok. split; [lia|]. apply lookup_replicate. split; [done | lia]. Qed.

(** The state that [NVMeV_init] builds around the workers. *)
Lemma fresh_ok ws f ns n : 0 < n -> Z.of_nat (length ws) = n -> (forall turn wk, aget ws turn = Ok wk -> init_worker turn = Ok wk) ->
  fresh (mk_vdev (mk_regs 0 0 0 0 0) (mk_bar 0 0 0 0) None
    (mk_dev (replicate (Z.to_nat (NR_MAX_IO_QUEUE + 1)) None) (replicate (Z.to_nat (NR_MAX_IO_QUEUE + 1)) None) ws 0 0 0 (replicate NR_DBS 0) (replicate NR_DBS 0) [] 0 f) ns MDTS).
Proof.
  intros Hn Hl Hi. split; cbn [vio bar old_bar admin_q sqes cqes dbs old_dbs io_workers]; try done.
  - apply start_inv. split; cbn [st_dev st_pcs st_accepted st_posted io_workers cqes]; try done; [lia|].
    intros cqid cq Hc. apply aget_Ok in Hc as [_ Hc]. by apply lookup_replicate in Hc as [? _].
  - intros qid Hq. unfold NR_MAX_IO_QUEUE in *. split; apply aget_replicate_in; lia.
Qed.

Lemma create_pci_bus_ok d : pci_inv d -> bit (virtDev d) MSIX_BIT = false -> exists d2 cap vs,
  __create_pci_bus zns_supported d = Ok (d2, cap, vs, mk_regs 0 0 0 0 0, mk_bar 0 0 0 0, replicate NR_DBS 0, replicate NR_DBS 0) /\
  pci_inv d2 /\ virtDev d2 = virtDev d /\ (exists line, pdev d2 = Some (mk_pdev false line)) /\ cap_ok zns_supported cap vs.
Proof.
  intros Hi Hmsix. unfold __create_pci_bus. destruct (init_caps zns_supported) as (cap & vs & -> & -> & Hcap).
  destruct (adopt_ok d Hi Hmsix) as (d2 & -> & Hi2 & Ev & Hpd). cbn [mbind res_bind]. rewrite aget_replicate_in by (rewrite NR_DBS_eq; lia). cbn [mbind res_bind].
  rewrite aset_in_range by (rewrite length_replicate, NR_DBS_eq; lia). cbn [mbind res_bind].
  rewrite (list_insert_id (replicate NR_DBS 0) (Z.to_nat 0) 0) by (apply lookup_replicate; split; [done | pose proof NR_DBS_eq; lia]).
  by exists d2, cap, vs.
Qed.

(** The DMA channel, if one is asked for. *)
Definition dma_of : res (Z * ioat_dma_info * K) :=
  if using_dma then ioat_dma_chan_set kmalloc_ok strim "dma7chan0" test_info dma_pool else Ok (-1, test_info, dma_pool).

Lemma dma_returns : exists dma, dma_of = Ok dma.
Proof.
  unfold dma_of. destruct using_dma; [|by eexists]. destruct (chan_set_returns kmalloc_ok strim "dma7chan0" test_info dma_pool) as (r & i & k & E); [done|].
  rewrite E. by eexists.
Qed.

(** What [NVMeV_init] builds, given what its steps return. *)
Lemma init_steps p c ns dma d0 d d2 cap vs b ob l ol ws :
  __load_configs e820_ram e820_reserved_kern e820_reserved simple_strtol kv_table p = Ok (Some c) ->
  NVMEV_NAMESPACE_INIT simple_init conv_init zns_init (kv_init c) ns_ssd_type ns_capacity (length ns_capacity) (storage_size c)
    (memremap (storage_start c) (storage_size c)) = Ok ns ->
  dma_of = Ok dma ->
  NVMEV_PCI_INIT (memmap_start c) VDEV_INIT = Ok (tt, d0) -> pci_scan_bus d0 = Some d ->
  __create_pci_bus zns_supported d = Ok (d2, cap, vs, b, ob, l, ol) -> NVMEV_IO_WORKER_INIT (nr_io_workers c) = Ok ws ->
  init p = Ok (Some (mk_module c (replicate (Z.to_nat (nr_io_units (perf c))) 0) (using_dma && (dma.1.1 =? 0)) dma.1.2 d2 cap vs
    (mk_vdev b ob None (mk_dev (replicate (Z.to_nat (NR_MAX_IO_QUEUE + 1)) None) (replicate (Z.to_nat (NR_MAX_IO_QUEUE + 1)) None)
       ws 0 0 0 l ol [] 0 (start_ftl ns)) ns MDTS))).
Proof.
  intros E1 E2 Ed E3 E4 E5 E6. unfold NVMeV_init. rewrite E1. rewrite res_bind_Ok. cbv zeta. rewrite E2, res_bind_Ok. fold dma_of. rewrite Ed, res_bind_Ok, E3, res_bind_Ok, E4, E5, res_bind_Ok, E6.
  reflexivity.
Qed.

Lemma create_pci_bus_inv d d2 cap vs b ob l ol : __create_pci_bus zns_supported d = Ok (d2, cap, vs, b, ob, l, ol) ->
  b = mk_regs 0 0 0 0 0 /\ ob = mk_bar 0 0 0 0 /\ l = replicate NR_DBS 0 /\ ol = replicate NR_DBS 0.
Proof.
  unfold __create_pci_bus. intros ([u d1] & _ & E)%bind_Ok. apply bind_Ok in E as (? & _ & E). apply bind_Ok in E as (? & _ & E).
  apply bind_Ok in E as (fst1 & Ex & E). apply bind_Ok in E as (o & Eo & E). injection E as _ _ _ <- <- <- <-.
  apply aget_Ok in Ex as [_ [-> _]%lookup_replicate]. apply aset_Ok in Eo as [_ ->].
  split; [done|]. split; [done|]. split; [done|]. apply list_insert_id, lookup_replicate. split; [done|]. pose proof NR_DBS_eq. lia.
Qed.

(** What has been built when loading succeeds. *)
Lemma init_built p m : init p = Ok (Some m) -> exists c ns ws,
  __load_configs e820_ram e820_reserved_kern e820_reserved simple_strtol kv_table p = Ok (Some c) /\
  NVMEV_NAMESPACE_INIT simple_init conv_init zns_init (kv_init c) ns_ssd_type ns_capacity (length ns_capacity) (storage_size c)
    (memremap (storage_start c) (storage_size c)) = Ok ns /\ NVMEV_IO_WORKER_INIT (nr_io_workers c) = Ok ws /\
  m_dev m = mk_vdev (mk_regs 0 0 0 0 0) (mk_bar 0 0 0 0) None
    (mk_dev (replicate (Z.to_nat (NR_MAX_IO_QUEUE + 1)) None) (replicate (Z.to_nat (NR_MAX_IO_QUEUE + 1)) None) ws 0 0 0
       (replicate NR_DBS 0) (replicate NR_DBS 0) [] 0 (start_ftl ns)) ns MDTS.
Proof.
  unfold NVMeV_init. intros E. apply bind_Ok in E as ([c|] & Ec & E); [|done]. cbv zeta in E.
  apply bind_Ok in E as (ns & Ens & E). apply bind_Ok in E as (dma & _ & E). apply bind_Ok in E as ([? d0] & _ & E). destruct (pci_scan_bus d0) as [d|]; [|done].
  apply bind_Ok in E as ([[[[[[d2 cap] vs] b] ob] l] ol] & Eb & E). apply bind_Ok in E as (ws & Ew & E). injection E as <-.
  destruct (create_pci_bus_inv _ _ _ _ _ _ _ _ Eb) as (-> & -> & -> & ->). exists c, ns, ws.
  split; [exact Ec|]. split; [exact Ens|]. split; [exact Ew | reflexivity].
Qed.

(** Whatever was loaded, the device is fresh if it has a worker. *)
Lemma init_fresh p m : init p = Ok (Some m) -> io_workers (vio (m_dev m)) <> [] -> fresh (m_dev m).
Proof.
  intros E. destruct (init_built p m E) as (c & ns & ws & _ & _ & Ew & ->). cbn [vio io_workers]. intros Hw. destruct (workers_each _ _ Ew) as [_ Hi].
  apply (fresh_ok ws (start_ftl ns) ns (Z.of_nat (length ws))); [destruct ws; [done | cbn; lia] | done | done].
Qed.

Lemma fresh_quiet d : fresh d -> nvmev_proc_bars d = Ok (false, d).
Proof. intros [_ _ _ _ _ _ [Hb Ho]]. unfold nvmev_proc_bars, gets, mbind, prog_bind. by rewrite Hb, Ho. Qed.

(** Loading goes through when the initialisers return on the regions they get. *)
Lemma init_loads p t n S : t = match kv_table with Some t => t | None => 0 end -> S = p_memmap_size p - t - MB 1 ->
  params_ok e820_ram e820_reserved_kern e820_reserved p -> 0 ≤ p_memmap_start p -> p_memmap_start p + p_memmap_size p ≤ U64_MAX ->
  0 ≤ t < p_memmap_size p - MB 1 -> n = Z.of_nat (length (tokens (p_cpus p))) -> 2 ≤ n ≤ 33 -> Forall (fun c => 0 ≤ c) ns_capacity ->
  (forall c a, storage_size c = S ->
     Forall (fun r => exists x, init_namespace simple_init conv_init zns_init (kv_init c) ns_ssd_type r.1.1 r.1.2 r.2 = Ok x) (regions 0 a (carve S ns_capacity))) ->
  scan_ok -> exists m, init p = Ok (Some m) /\
    Z.of_nat (length (io_workers (vio (m_dev m)))) = n - 1 /\ pci_inv (m_pci m) /\ kept (p_memmap_start p) (m_pci m) /\
    (exists line, pdev (m_pci m) = Some (mk_pdev false line)) /\ cap_ok zns_supported (m_cap m) (m_vs m) /\ layout_ok p t (m_config m) /\
    storage_size (m_config m) = S /\
    Forall2 (fun r x => init_namespace simple_init conv_init zns_init (kv_init (m_config m)) ns_ssd_type r.1.1 r.1.2 r.2 = Ok x)
      (regions 0 (memremap (storage_start (m_config m)) S) (carve S ns_capacity)) (vns (m_dev m)) /\
    exists dma, dma_of = Ok dma /\ m_io_using_dma m = using_dma && (dma.1.1 =? 0) /\ m_dma m = dma.1.2.
Proof.
  intros Et ES Hp Hst Hend Ht En Hn Hcap Htot Hscan. pose proof (po_size _ _ _ _ Hp) as Hsz. assert (0 < MB 1 < 2000000) as HM by done.
  destruct (load_ok e820_ram e820_reserved_kern e820_reserved simple_strtol kv_table p t Et Hp Hst Hend Ht ltac:(lia)) as (c & Ec & Hnw & Hlay & Hms).
  pose proof Hlay as (Ess & Esz & Hpos & _). assert (storage_size c = S) as EcS by lia.
  destruct (partition_ok simple_init conv_init zns_init (kv_init c) ns_ssd_type ns_capacity S
    (memremap (storage_start c) S) Hcap ltac:(lia) (Htot c _ EcS)) as (ns & En2 & Hf).
  destruct dma_returns as [dma Ed].
  destruct (init_returns (memmap_start c)) as [d0 E0]. destruct (pci_settings_inv _ _ E0) as [Hi0 Hk0]. destruct (Hscan _ d0 E0) as (d & Esc & Hrun & Hmsix).
  destruct (run_keeps msi_get_virq (memmap_start c) d0 d Hi0 Hk0 Hrun) as [Hi Hk].
  destruct (create_pci_bus_ok d Hi Hmsix) as (d2 & cap & vs & Eb & Hi2 & Ev & Hpd & Hcap').
  destruct (workers_init (nr_io_workers c) ltac:(lia)) as (ws & Ew & Hl & _). rewrite <- EcS in En2.
  eexists. split; [exact (init_steps _ _ _ _ _ _ _ _ _ _ _ _ _ _ Ec En2 Ed E0 Esc Eb Ew)|]. cbn [m_dev m_pci m_cap m_vs m_config m_io_using_dma m_dma vns vio io_workers].
  split; [lia|]. split; [exact Hi2|]. split; [intros x Hx Hw; rewrite Ev, <- Hms; by apply Hk|].
  split; [exact Hpd|]. split; [exact Hcap'|]. split; [exact Hlay|]. split; [exact EcS|]. split; [exact Hf|]. exists dma. split; [exact Ed|]. split; reflexivity.
Qed.

(** Loading stops where an initialiser does. *)
Lemma init_stops p c e : __load_configs e820_ram e820_reserved_kern e820_reserved simple_strtol kv_table p = Ok (Some c) ->
  NVMEV_NAMESPACE_INIT simple_init conv_init zns_init (kv_init c) ns_ssd_type ns_capacity (length ns_capacity) (storage_size c)
    (memremap (storage_start c) (storage_size c)) = Bug e -> init p = Bug e.
Proof. intros E1 E2. unfold NVMeV_init. rewrite E1, res_bind_Ok. cbv zeta. by rewrite E2. Qed.
End BootProps.

(** ** Loading a build *)
Section Builds.
Context {F K : Type} `{HFm : HostMem F} `{HFo : FtlOps F} `{HFc : CmdFine F} `{HK : DmaPoolLaws K}.
Variables e820_ram e820_reserved_kern e820_reserved : Z -> Z -> bool.
Variable simple_strtol : string -> Z.
Variable b : base_ssd.
Variables (heap : list Z) (storage : Z -> Z) (allocator : AppendOnly.ao_state).
Variable memremap : Z -> Z -> Z.
Variable start_ftl : list (nvmev_ns ns_ftl) -> F.
Variable pci_scan_bus : pci_state -> option pci_state.
Variables (using_dma : bool) (kmalloc_ok : dma_chan -> bool) (strim : string -> string) (dma_pool : K).
Variable msi_get_virq : Z -> Z.

(** The module as it is built for [b], its FTLs initialised by their own code. *)
Definition load_build : module_params -> res (option (nvmev_module F ns_ftl)) :=
  NVMeV_init e820_ram e820_reserved_kern e820_reserved simple_strtol (kv_table_of b) build_simple_init (build_conv_init b)
    (build_zns_init b heap storage) (build_kv_init allocator) (NS_SSD_TYPE b) (NS_CAPACITY b) (MDTS b) (SUPPORTED_ZNS b)
    memremap start_ftl pci_scan_bus using_dma kmalloc_ok strim dma_pool.

(** C24. Loading any of the five builds with accepted parameters, two to
    thirty-three processors and room for the key-value table.  With a storage
    that fits the build (any for the Optane and key-value devices, 1 MiB to
    8 TiB for the flash devices, and whole zones for the zoned ones) it
    returns: the first processor is the dispatcher's and each other has an idle
    worker; the one namespace takes the whole storage, which begins behind the
    megabyte at the BAR, with the build's command set and size; the PCI device
    is consistent with MSI-X off; the DMA engine is used if it was asked for
    and its channel was there; and the device is fresh -- the invariant of
    dispatcher, workers and rings holds, no queue exists, and the dispatcher's
    poll finds nothing to do.  A zoned device whose storage ends inside a zone
    stops at the assertion of its initialiser. *)
Theorem module_init_spec p t n S : t = match kv_table_of b with Some t => t | None => 0 end -> S = p_memmap_size p - t - MB 1 ->
  params_ok e820_ram e820_reserved_kern e820_reserved p -> 0 ≤ p_memmap_start p -> p_memmap_start p + p_memmap_size p ≤ U64_MAX ->
  0 ≤ t < p_memmap_size p - MB 1 -> n = Z.of_nat (length (tokens (p_cpus p))) -> 2 ≤ n ≤ 33 ->
  scan_ok pci_scan_bus msi_get_virq ->
  (storage_fits b S -> exists m ns, load_build p = Ok (Some m) /\
    fresh (m_dev m) /\ nvmev_proc_bars (m_dev m) = Ok (false, m_dev m) /\ Z.of_nat (length (io_workers (vio (m_dev m)))) = n - 1 /\
    pci_inv (m_pci m) /\ kept (p_memmap_start p) (m_pci m) /\ (exists line, pdev (m_pci m) = Some (mk_pdev false line)) /\
    cap_ok (SUPPORTED_ZNS b) (m_cap m) (m_vs m) /\ layout_ok p t (m_config m) /\ storage_size (m_config m) = S /\
    vns (m_dev m) = [ns] /\ ns_id ns = 0 /\ ns_csi ns = build_csi b /\ ns_size ns = build_size b S /\
    (m_io_using_dma m = true <-> using_dma = true /\ exists i k, ioat_dma_chan_set kmalloc_ok strim "dma7chan0" test_info dma_pool = Ok (0, i, k))) /\
  (half_zone b S -> load_build p = Bug BugOn).
Proof.
  intros Et ES Hp Hst Hend Ht En Hn Hscan. pose proof (po_size _ _ _ _ Hp) as Hsz. assert (carve S (NS_CAPACITY b) = [S]) as Ecarve by reflexivity. split.
  - intros Hfit. assert (0 < MB 1 < 2000000) as HM by done.
    destruct (init_loads (F := F) e820_ram e820_reserved_kern e820_reserved simple_strtol (kv_table_of b) build_simple_init (build_conv_init b)
      (build_zns_init b heap storage) (build_kv_init allocator) (NS_SSD_TYPE b) (NS_CAPACITY b) (MDTS b) (SUPPORTED_ZNS b)
      memremap start_ftl pci_scan_bus using_dma kmalloc_ok strim dma_pool msi_get_virq p t n S)
      as (m & Em & Hw & Hi & Hk & Hpd & Hc & Hl & HS & Hf & dma & Ed & Eu & _); try done.
    { by repeat constructor. }
    { intros c a _. rewrite Ecarve. constructor; [|constructor]. cbn [fst snd].
      destruct (build_returns b heap storage allocator c S a Hfit) as (ns & E & _). by exists ns. }
    rewrite Ecarve in Hf. cbn [regions] in Hf. apply Forall2_cons_inv_l in Hf as (ns & l & Ens & Hnil & Evns). apply Forall2_nil_inv_l in Hnil as ->. cbn [fst snd] in Ens.
    destruct (build_returns b heap storage allocator (m_config m) S (memremap (storage_start (m_config m)) S) Hfit) as (ns' & E & E1 & E2 & E3).
    rewrite E in Ens. injection Ens as <-.
    assert (fresh (m_dev m)) as Hfr by (eapply init_fresh; [exact Em|]; intros E0; rewrite E0 in Hw; cbn in Hw; lia).
    exists m, ns'. split; [exact Em|]. split; [exact Hfr|]. split; [exact (fresh_quiet _ Hfr)|]. split; [exact Hw|]. split; [exact Hi|].
    split; [exact Hk|]. split; [exact Hpd|]. split; [exact Hc|]. split; [exact Hl|]. split; [exact HS|]. split; [exact Evns|].
    split; [exact E1|]. split; [exact E2|]. split; [exact E3|]. rewrite Eu. unfold dma_of in Ed. destruct using_dma; [|by split; [|intros []]]. cbn [andb].
    rewrite Ed. destruct dma as [[r i] k]. cbn [fst snd]. split.
    + intros ->%Z.eqb_eq. split; [done|]. by eexists _, _.
    + by intros (_ & i' & k' & [= -> _ _]).
  - intros Hhalf. destruct (load_ok e820_ram e820_reserved_kern e820_reserved simple_strtol (kv_table_of b) p t Et Hp Hst Hend Ht ltac:(lia)) as (c & Ec & _ & (_ & Esz & _) & _).
    eapply init_stops; [exact Ec|]. unfold NVMEV_NAMESPACE_INIT. change (length (NS_CAPACITY b)) with 1%nat. cbn [namespace_loop].
    unfold ns_size_of. change (aget (NS_CAPACITY b) 0) with (Ok 0). cbn [mbind res_bind Z.eqb]. replace (storage_size c) with S by lia.
    by rewrite build_stops.
Qed.
End Builds.

(** ** Examples: four processors, 64 MiB reserved *)

(** A kernel that clears the enable bit of MSI-X and looks no further. *)
Definition quiet_scan (d : pci_state) : option pci_state :=
  match nvmev_pci_write 0 0x52 2 0x7f d with Ok (_, d) => Some d | Bug _ => None end.

Lemma quiet_scan_ok : scan_ok quiet_scan (fun i => i + 32).
Proof.
  intros start d0 E. destruct (msix_written_off start d0 E) as (d1 & E1 & Hst & Hm). exists d1. unfold quiet_scan. rewrite E1.
  split; [done|]. split; [by apply rtc_once | done].
Qed.

(** A Simple FTL device without DMA, for the examples. *)
#[local] Abbreviation load_simple kinds caps f := (NVMeV_init nowhere nowhere reserved_from_4g (decimal 0) None
  (simple_init_namespace SSD_TYPE_NVM) (simple_init_namespace SSD_TYPE_NVM) (simple_init_namespace SSD_TYPE_NVM) (fun _ => simple_init_namespace SSD_TYPE_NVM)
  kinds caps 5 false (fun start size => start) f quiet_scan false (fun _ => true) (fun s => s) ([] : list dma_chan) four_cpus).

(** Two namespaces. *)
Lemma example_loads {F} (start : list (nvmev_ns ns_kind) -> F) : exists m, load_simple [0; 0] [MB 32; 0] start = Ok (Some m) /\ Z.of_nat (length (io_workers (vio (m_dev m)))) = 3.
Proof.
  destruct (init_loads (F := F) nowhere nowhere reserved_from_4g (decimal 0) None
    (simple_init_namespace SSD_TYPE_NVM) (simple_init_namespace SSD_TYPE_NVM) (simple_init_namespace SSD_TYPE_NVM) (fun _ => simple_init_namespace SSD_TYPE_NVM)
    [0; 0] [MB 32; 0] 5 false (fun start size => start) start quiet_scan false (fun _ => true) (fun s => s) ([] : list dma_chan) (fun i => i + 32) four_cpus 0 4 (MB 63))
    as (m & Em & Hw & _).
  - reflexivity.
  - reflexivity.
  - exact (params_ok_4g _).
  - vm_compute. discriminate.
  - vm_compute. discriminate.
  - split; vm_compute; [discriminate | reflexivity].
  - reflexivity.
  - split; vm_compute; discriminate.
  - apply Forall_cons_2; [vm_compute; discriminate|]. apply Forall_cons_2; [vm_compute; discriminate | constructor].
  - intros c a _. repeat constructor; by eexists.
  - exact quiet_scan_ok.
  - exists m. split; [exact Em | exact Hw].
Qed.

#[local] Instance boot_host : HostMem host_mem := {| host_of := fun m => m; host_put := fun m _ => m |}.
#[local] Instance boot_fine : CmdFine host_mem := fun _ => True.

(** The 970 PRO, with its own FTL and the DMA channel; a zoned device of 63 MiB,
    which is not a whole number of zones. *)
#[local] Abbreviation load_example b := (load_build nowhere nowhere reserved_from_4g (decimal 0) b [] (fun _ => 0) (AppendOnly.mk 0 0 0)
  (fun start size => start) (fun _ (_ : Z) => 0) quiet_scan true (fun _ => true) (fun s => s) [mk_chan "dma7chan0" "0000:00:04.7" true false] four_cpus).

Lemma module_init_spec_witness :
  (exists m ns, load_example Build_SAMSUNG_970PRO = Ok (Some m) /\ vns (m_dev m) = [ns] /\ ns_size ns = MB 63 * 100 / 107 /\ m_io_using_dma m = true /\
    Z.of_nat (length (io_workers (vio (m_dev m)))) = 3 /\ nvmev_proc_bars (m_dev m) = Ok (false, m_dev m)) /\
  load_example Build_ZNS_PROTOTYPE = Bug BugOn.
Proof.
  split.
  - destruct (module_init_spec (F := host_mem) nowhere nowhere reserved_from_4g (decimal 0) Build_SAMSUNG_970PRO [] (fun _ => 0) (AppendOnly.mk 0 0 0)
      (fun start size => start) (fun _ (_ : Z) => 0) quiet_scan true (fun _ => true) (fun s => s) [mk_chan "dma7chan0" "0000:00:04.7" true false]
      (fun i => i + 32) four_cpus 0 4 (MB 63) eq_refl eq_refl (params_ok_4g _) ltac:(by vm_compute) ltac:(by vm_compute) ltac:(by vm_compute) eq_refl
      ltac:(by vm_compute) quiet_scan_ok) as [Hok _].
    destruct (Hok ltac:(by vm_compute)) as (m & ns & Em & _ & Hq & Hw & _ & _ & _ & _ & _ & _ & Ens & _ & _ & Esz & Hdma).
    exists m, ns. split; [exact Em|]. split; [exact Ens|]. split; [exact Esz|]. split; [|split; [exact Hw | exact Hq]].
    apply Hdma. split; [reflexivity|]. eexists _, _. reflexivity.
  - destruct (module_init_spec (F := host_mem) nowhere nowhere reserved_from_4g (decimal 0) Build_ZNS_PROTOTYPE [] (fun _ => 0) (AppendOnly.mk 0 0 0)
      (fun start size => start) (fun _ (_ : Z) => 0) quiet_scan true (fun _ => true) (fun s => s) [mk_chan "dma7chan0" "0000:00:04.7" true false]
      (fun i => i + 32) four_cpus 0 4 (MB 63) eq_refl eq_refl (params_ok_4g _) ltac:(by vm_compute) ltac:(by vm_compute) ltac:(by vm_compute) eq_refl
      ltac:(by vm_compute) quiet_scan_ok) as [_ Hstop].
    apply Hstop. vm_compute. split; [done | discriminate].
Defined.
