(* ===== verification/SimpleDev.v ===== *)
(** * A device with Simple FTL namespaces
    ([simple_ftl.c] and [__do_perform_io] of [io.c] behind the interface of the workers)

    [FtlOps] is instantiated with the handlers the module runs for
    [BASE_SSD == INTEL_OPTANE]: [simple_proc_nvme_io_cmd] times a command and
    [__do_perform_io] moves its data.  The copy fails on one kind of command
    only ([copy_ends]): two pages would do, but PRP2 is not at the start of its
    page and the rest does not fit.  [prp_fits] leaves that out. *)
From S2P Require Import Prelude Nvme Prp IoWorker IoInv HostIo SimpleFtl Ctrl.

(** ** When the walk of a PRP list does not fail *)
Section Total.
Variable pfn_valid : Z -> bool.
Context {St : Type} (rd64 : St -> Z -> Z) (memcpy : St -> Z -> Z -> Z -> res St).
Hypothesis memcpy_total : forall s vaddr offset n, exists s', memcpy s vaddr offset n = Ok s'.
Variables prp1 prp2 : Z.

(** What is left for the second page either needs a list or fits in it. *)
Definition second_fits (remaining : Z) : Prop := remaining ≤ PAGE_SIZE -> page_offset prp2 + remaining ≤ PAGE_SIZE.
Definition prp_fits (length : Z) : Prop :=
  0 < length - prp_chunk prp1 length -> second_fits (length - prp_chunk prp1 length).

#[export] Instance prp_fits_dec length : Decision (prp_fits length).
Proof. unfold prp_fits, second_fits. apply _. Defined.

(** The locals between two turns, with [remaining] bytes to go. *)
Definition walk_fine (remaining : Z) (w : prp_walk) : Prop :=
  remaining = 0 \/ (prp_offs w = 0 /\ prp_fits remaining) \/ (prp_offs w = 1 /\ second_fits remaining) \/
  (2 ≤ prp_offs w /\ is_Some (paddr_list w)).

Lemma prp_chunk_range a n : 0 < n -> 0 < prp_chunk a n ≤ n.
Proof. intros Hn. rewrite prp_chunk_eq by lia. pose proof (page_offset_range a). lia. Qed.

Lemma next_prp_fine rd remaining w : 0 < remaining -> walk_fine remaining w ->
  exists w' a, next_prp pfn_valid rd prp1 prp2 remaining w = Ok (w', a) /\ walk_fine (remaining - prp_chunk a remaining) w'.
Proof.
  intros Hr [|[[Ho Hf]|[[Ho Hf]|[Ho [l Hl]]]]]; [lia| | |]; unfold next_prp.
  - rewrite Ho. cbn. do 2 eexists. split; [reflexivity|]. destruct (decide (remaining - prp_chunk prp1 remaining = 0)) as [E|E]; [by left|].
    right; right; left. split; [done|]. apply Hf. pose proof (prp_chunk_range prp1 remaining Hr). lia.
  - rewrite Ho. cbn -[PAGE_SIZE]. destruct (Z.ltb_spec PAGE_SIZE remaining) as [E|E].
    + do 2 eexists. split; [reflexivity|]. right; right; right. by split.
    + do 2 eexists. split; [reflexivity|]. left. specialize (Hf E). rewrite prp_chunk_eq by lia. lia.
  - rewrite (proj2 (Z.eqb_neq _ 1)), (proj2 (Z.eqb_neq _ 2)) by lia. destruct w as [o o2 pl]. cbn in *. rewrite Hl. cbn.
    do 2 eexists. split; [reflexivity|]. right; right; right. split; [cbn; lia | done].
Qed.

(** One turn. *)
Lemma loop_turn fuel s w w' a offset remaining : 0 < remaining -> next_prp pfn_valid (rd64 s) prp1 prp2 remaining w = Ok (w', a) ->
  exists s', prp_transfer_loop pfn_valid rd64 memcpy (S fuel) s prp1 prp2 w offset remaining =
    prp_transfer_loop pfn_valid rd64 memcpy fuel s' prp1 prp2 w' (offset + prp_chunk a remaining) (remaining - prp_chunk a remaining).
Proof.
  intros Hr En. cbn [prp_transfer_loop]. rewrite (proj2 (Z.eqb_neq remaining 0)), En by lia. cbn -[prp_transfer_loop].
  destruct (memcpy_total s (map_page pfn_valid a + page_offset a) offset (prp_chunk a remaining)) as [s' ->]. by exists s'.
Qed.

Lemma prp_loop_total fuel : forall s w offset remaining, 0 ≤ remaining ≤ Z.of_nat fuel -> walk_fine remaining w ->
  exists s', prp_transfer_loop pfn_valid rd64 memcpy fuel s prp1 prp2 w offset remaining = Ok s'.
Proof.
  induction fuel as [|fuel IH]; intros s w offset remaining Hr Hw; (destruct (decide (remaining = 0)) as [->|E]; [by eexists|]); [lia|].
  destruct (next_prp_fine (rd64 s) remaining w ltac:(lia) Hw) as (w' & a & En & Hw').
  destruct (loop_turn fuel s w w' a offset remaining ltac:(lia) En) as [s' ->].
  pose proof (prp_chunk_range a remaining ltac:(lia)). apply IH; [lia | done].
Qed.

Lemma prp_transfer_total s offset length : 0 ≤ length -> prp_fits length ->
  exists s', prp_transfer pfn_valid rd64 memcpy s prp1 prp2 offset length = Ok s'.
Proof. intros Hl Hf. apply prp_loop_total; [lia|]. right; left. by split. Qed.

(** Without it the second page ends with bytes left and no list mapped. *)
Lemma prp_transfer_null s offset length : 0 < length -> ~ prp_fits length ->
  prp_transfer pfn_valid rd64 memcpy s prp1 prp2 offset length = Bug NullDeref.
Proof.
  intros Hlen Hf. unfold prp_fits, second_fits in Hf. set (left := length - prp_chunk prp1 length) in *.
  assert (0 < left ≤ PAGE_SIZE /\ PAGE_SIZE < page_offset prp2 + left) as [Hl Hp] by lia.
  pose proof (page_offset_range prp2). pose proof (prp_chunk_range prp1 length Hlen).
  assert (prp_chunk prp2 left = PAGE_SIZE - page_offset prp2) as E2 by (rewrite prp_chunk_eq by lia; lia).
  unfold prp_transfer. replace (Z.to_nat length) with (S (S (S (Z.to_nat (length - 3))))) by lia.
  destruct (loop_turn (S (S (Z.to_nat (length - 3)))) s walk_start (mk_walk 1 0 None) prp1 offset length Hlen eq_refl) as [s1 ->]. fold left.
  destruct (loop_turn (S (Z.to_nat (length - 3))) s1 (mk_walk 1 0 None) (mk_walk 2 0 None) prp2 (offset + prp_chunk prp1 length) left) as [s2 ->]; [lia| |].
  { unfold next_prp. cbn -[PAGE_SIZE]. by rewrite (proj2 (Z.ltb_ge _ _)) by lia. }
  cbn [prp_transfer_loop]. rewrite (proj2 (Z.eqb_neq _ 0)) by lia. reflexivity.
Qed.
End Total.

(** ** The copy of a command *)
#[local] Abbreviation fits c := (prp_fits (prp1 c) (prp2 c) (__cmd_io_size c)).

Section Copy.
Context (pfn_valid : Z -> bool) (ns_mapped : Z -> Z).

Lemma io_memcpy_total c s vaddr offset n : exists s', io_memcpy ns_mapped c s vaddr offset n = Ok s'.
Proof. unfold io_memcpy. repeat case_match; by eexists. Qed.

Lemma perform_fits c s : fits c -> exists s', __do_perform_io pfn_valid ns_mapped c s = Ok (s', __cmd_io_size c).
Proof.
  intros Hf. pose proof (proj2 (__cmd_io_size_eq c)) as Hl. unfold __do_perform_io.
  destruct (prp_transfer_total pfn_valid (fun s => mem_u64 (host s)) _ (io_memcpy_total c) (prp1 c) (prp2 c) s (__cmd_io_offset c) (__cmd_io_size c)
    ltac:(lia) Hf) as [s' ->].
  exists s'. cbn. rewrite u32_small by (unfold U32_MAX; lia). done.
Qed.

(** C12. The copy of a command's data ends, with any opcode, any addresses and
    any contents of host memory, in one of two ways.  The loop runs to its end
    and returns the length of the command; or, exactly when what is left after
    the first page is at most a page but goes beyond the end of the page at
    PRP2, it follows a list pointer that was never set. *)
Theorem copy_ends c s :
  if decide (fits c) then exists s', __do_perform_io pfn_valid ns_mapped c s = Ok (s', __cmd_io_size c)
  else __do_perform_io pfn_valid ns_mapped c s = Bug NullDeref.
Proof.
  destruct (decide _) as [Hf|Hf]; [by apply perform_fits|]. unfold __do_perform_io.
  rewrite prp_transfer_null; [done | apply io_memcpy_total | apply (__cmd_io_size_eq c) | done].
Qed.
End Copy.

(** Two pages from a page boundary on, and PRP2 half a kilobyte into its page. *)
Definition unfit_cmd : nvme_command := mk_cmd nvme_cmd_write 1 1 0x10000 0x20200 100 15 0.
Example unfit_refused : bool_decide (fits unfit_cmd) = false /\ bool_decide (fits tiny_write) = true.
Proof. by split. Qed.

(** ** The device *)
Record simple_state (N : Type) := mk_simple {
  sim_mem : io_mem;                     (* host memory and the storage *)
  sim_stat : list Z;                    (* [io_unit_stat] *)
  sim_ns : list (nvmev_ns N);
}.
Arguments mk_simple {N}.
Arguments sim_mem {N}.
Arguments sim_stat {N}.
Arguments sim_ns {N}.

Section Ops.
Context {N : Type}.

#[export] Instance simple_host : HostMem (simple_state N) := {|
  host_of := fun f => host (sim_mem f);
  host_put := fun m f => mk_simple (mk_io_mem m (storage (sim_mem f))) (sim_stat f) (sim_ns f);
|}.
#[export] Instance simple_host_laws : HostMemLaws (simple_state N).
Proof. by constructor. Qed.

Context (config : nvmev_config) (pfn_valid : Z -> bool) (ns_mapped : Z -> Z).
(** What the dispatcher's clock shows when the handler reads it, after it
    showed [nsecs_start]. *)
Variable wallclock : Z -> Z.

(** The Simple FTL queues no internal work and has no write buffers. *)
#[export] Instance simple_ops : FtlOps (simple_state N) := {|
  proc_io_cmd := fun nsid req ret f =>
    ns ← aget (sim_ns f) nsid;
    '(ok, stat, ret) ← simple_proc_nvme_io_cmd config ns (sim_stat f) (cmd req) ret (wallclock (nsecs_start req));
    Ok (ok, req, ret, [], mk_simple (sim_mem f) stat (sim_ns f));
  perform_io := fun c f =>
    '(m, _) ← __do_perform_io pfn_valid ns_mapped c (sim_mem f);
    Ok (mk_simple m (sim_stat f) (sim_ns f));
  release_buffer := fun _ _ f => Ok f;
|}.

#[export] Instance simple_fine : CmdFine (simple_state N) := fun c => fits c.

#[export] Instance simple_total : FtlTotal (F := simple_state N).
Proof.
  split; [|by eexists]. intros c f Hc. destruct (perform_fits pfn_valid ns_mapped c (sim_mem f) Hc) as [m E].
  unfold perform_io, simple_ops. rewrite E. by eexists.
Qed.
End Ops.

