(* ===== verification/Device.v ===== *)
(** * The whole device
    ([nvmev_dispatcher] of [src/main.c], [nvmev_io_worker] of [src/io.c],
    [nvmev_proc_bars] of [src/pci.c], [__nvmev_proc_admin_req] of
    [src/admin.c], together)

    Dispatcher, workers and host act on one device in any order.  [vdev_step]
    is the union of their steps; [vdev_inv], which joins the invariants of the
    components, holds from [NVMeV_init] on. *)
From S2P Require Import Dma Prelude Nvme Prp Ssd WorkQueue IoWorker IoRing IoInv IoProps Ctrl CtrlProps Admin AdminProps QueueProps Pci PciProps Config Init Boot HostIo SimpleFtl SimpleDev.

(** ** Programs that keep the sizes of the tables *)
Section Keeps.
Context {F : Type} `{FtlOps F} (local_clock : nat -> Z).
Implicit Types d : io_dev F.

Definition sizes d : nat * nat * nat * nat := (length (sqes d), length (cqes d), length (dbs d), length (old_dbs d)).
Definition keeps_sizes {A} (m : prog (io_dev F) A) : Prop := forall d a d', m d = Ok (a, d') -> sizes d' = sizes d.

Lemma keeps_ret {A} (a : A) : keeps_sizes (mret a).
Proof. by intros d b d' [= _ <-]. Qed.
Lemma keeps_lift {A} (m : res A) : keeps_sizes (lift m).
Proof. intros d a d'. unfold lift. destruct m; [|done]. by intros [= _ <-]. Qed.
Lemma keeps_gets {A} (f : io_dev F -> A) : keeps_sizes (gets f).
Proof. by intros d a d' [= _ <-]. Qed.
Lemma keeps_bind {A B} (m : prog (io_dev F) A) (f : A -> prog (io_dev F) B) : keeps_sizes m -> (forall a, keeps_sizes (f a)) -> keeps_sizes (m ≫= f).
Proof.
  intros Hm Hf d b d'. unfold mbind, prog_bind. destruct (m d) as [[a d1]|] eqn:E; [|done]. intros E2.
  rewrite (Hf _ _ _ _ E2). exact (Hm _ _ _ E).
Qed.
Lemma keeps_modify (f : io_dev F -> io_dev F) : (forall d, sizes (f d) = sizes d) -> keeps_sizes (modify f).
Proof. intros Hf d a d' [= _ <-]. apply Hf. Qed.

(** The accesses. *)
Lemma keeps_res {A B} (g : io_dev F -> res A) (k : A -> io_dev F -> B * io_dev F) :
  (forall d a, g d = Ok a -> sizes (k a d).2 = sizes d) -> keeps_sizes (fun d => a ← g d; Ok (k a d)).
Proof. intros Hk d b d' E. apply bind_Ok in E as (a & Ea & [= E]). rewrite <- (Hk _ _ Ea), E. done. Qed.

Lemma keeps_get_worker i : keeps_sizes (get_worker i).
Proof. by apply (keeps_res (fun d => aget (io_workers d) i) (fun wk d => (wk, d))). Qed.
Lemma keeps_set_worker i wk : keeps_sizes (set_worker i wk).
Proof. by apply (keeps_res (fun d => aset (io_workers d) i wk) (fun ws d => (tt, dev_with_workers d ws))). Qed.
Lemma keeps_find_sq i : keeps_sizes (find_sq i).
Proof. by apply (keeps_res (fun d => aget (sqes d) i) (fun q d => (q, d))). Qed.
Lemma keeps_find_cq i : keeps_sizes (find_cq i).
Proof. by apply (keeps_res (fun d => aget (cqes d) i) (fun q d => (q, d))). Qed.
Lemma keeps_set_cq i q : keeps_sizes (set_cq i q).
Proof.
  apply (keeps_res (fun d => aset (cqes d) i (Some q)) (fun qs d => (tt, dev_with_cqes d qs))). intros d qs [_ ->]%aset_Ok.
  unfold sizes. cbn. by rewrite length_insert.
Qed.
Lemma keeps_on_ftl {A} (f : F -> res (A * F)) : keeps_sizes (on_ftl f).
Proof. intros d a d' E. apply bind_Ok in E as ([b f'] & _ & [= _ <-]). done. Qed.
Lemma keeps_clock : keeps_sizes (get_local_clock local_clock).
Proof. by intros d a d' [= _ <-]. Qed.
Lemma keeps_get_io_worker i : keeps_sizes (__get_io_worker i).
Proof. by apply (keeps_res (fun d => checked_mod (u32 (i - 1)) (Z.of_nat (length (io_workers d)))) (fun t d => (t, d))). Qed.
End Keeps.

Create HintDb keeps_sizes.
#[export] Hint Resolve keeps_ret keeps_lift keeps_gets keeps_get_worker keeps_set_worker keeps_find_sq keeps_find_cq keeps_set_cq
  keeps_on_ftl keeps_clock keeps_get_io_worker : keeps_sizes.

Ltac keep :=
  repeat (eauto with keeps_sizes; match goal with
    | |- keeps_sizes (_ ≫= _) => apply keeps_bind; [|intros]
    | |- keeps_sizes (modify _) => by apply keeps_modify
    | |- context [match ?x with _ => _ end] => destruct x
    end); eauto with keeps_sizes.

Section KeptOperations.
Context {F : Type} `{HFo : FtlOps F} `{HFc : CmdFine F} (local_clock : nat -> Z).

Lemma keeps_get_sq i : keeps_sizes (F := F) (get_sq i).
Proof. unfold get_sq. keep. Qed.
Lemma keeps_get_cq i : keeps_sizes (F := F) (get_cq i).
Proof. unfold get_cq. keep. Qed.
#[local] Hint Resolve keeps_get_sq keeps_get_cq : keeps_sizes.
Lemma keeps_allocate i : keeps_sizes (F := F) (__allocate_work_queue_entry i).
Proof. unfold __allocate_work_queue_entry. keep. Qed.
#[local] Hint Resolve keeps_allocate : keeps_sizes.
Lemma keeps_enqueue sqid cqid sqe start ret : keeps_sizes (F := F) (__enqueue_io_req local_clock sqid cqid sqe start ret).
Proof. unfold __enqueue_io_req. keep. Qed.
Lemma keeps_schedule op : keeps_sizes (F := F) (dev_schedule_internal_operation local_clock op).
Proof. unfold dev_schedule_internal_operation. keep. Qed.
Lemma keeps_reclaim : keeps_sizes (F := F) __reclaim_completed_reqs.
Proof.
  intros d a d' E. unfold __reclaim_completed_reqs in E. apply bind_Ok in E as (ws & _ & [= _ <-]). done.
Qed.
Lemma keeps_visit turn curr delta : keeps_sizes (F := F) (visit_entry local_clock turn curr delta).
Proof. unfold visit_entry, copy_entry, finish_entry. keep. Qed.
Lemma keeps_next turn curr : keeps_sizes (F := F) (next_entry turn curr).
Proof. unfold next_entry. keep. Qed.
Lemma keeps_signal id qidx u : keeps_sizes (F := F) (signal_cq id qidx u).
Proof. unfold signal_cq. keep. Qed.

Lemma io_step_sizes st st' : io_step local_clock st st' -> sizes (st_dev st') = sizes (F := F) (st_dev st).
Proof.
  intros Hs. destruct Hs as [? ? ? ? ? ? ? ? ? ? ? ? ? _ _ _ _ He | ? ? ? ? ? ? He | ? ? ? ? ? He | | d ? ? ? sqid ? sq' ? _ _ He
    | | ? ? ? ? ? ? ? ? _ _ He | ? ? ? ? ? ? ? ? ? _ _ He _ | ? ? ? ? ? ? ? He]; cbn [st_dev]; try done.
  - exact (keeps_enqueue _ _ _ _ _ _ _ _ He).
  - exact (keeps_schedule _ _ _ _ He).
  - exact (keeps_reclaim _ _ _ He).
  - apply aset_Ok in He as [_ ->]. unfold sizes. cbn. by rewrite length_insert.
  - exact (keeps_visit _ _ _ _ _ _ He).
  - exact (keeps_next _ _ _ _ _ He).
  - exact (keeps_signal _ _ _ _ _ _ He).
Qed.
End KeptOperations.

(** ** The steps of the device *)
Record vdev_state (F : Type) := mk_ds {
  ds_dev : nvmev_dev F ns_kind;
  ds_pcs : list Z;                         (* [curr] of each worker *)
  ds_accepted : list nvmev_io_work;        (* ghost: I/O requests that got a slot *)
  ds_posted : list (Z * nvmev_io_work);    (* ghost: finished I/O requests and when *)
  ds_answers : option (list (Z * Z * Z));  (* ghost: admin answers since ACQ was taken over on cleared memory *)
}.
Arguments mk_ds {F}.
Arguments ds_dev {F}.
Arguments ds_pcs {F}.
Arguments ds_accepted {F}.
Arguments ds_posted {F}.
Arguments ds_answers {F}.

Section Device.
Context {F : Type} `{HFm : HostMem F} `{HFo : FtlOps F} `{HFc : CmdFine F} (local_clock : nat -> Z) (pfn_valid : Z -> bool) (zns_supported : bool).
#[local] Abbreviation dev := (nvmev_dev F ns_kind).
Implicit Types d : dev.
#[local] Abbreviation ios s := (mk_io (vio (ds_dev s)) (ds_pcs s) (ds_accepted s) (ds_posted s)).

(** The host has cleared the memory at ACQ. *)
Definition acq_cleared d : Prop := Forall (fun j =>
  phase_bit (cqe_at (host_of (dev_ftl (vio d))) (Z.shiftl (Z.shiftr (u_acq (bar d)) 12) 12) j) = 0) (seqZ 0 (aqa_acqs (bar d) + 1)).

(** The answers in the admin completion ring after a poll of the registers: the
    ring begins anew when ACQ is taken over on cleared memory.  On other memory,
    after a new AQA, and after a shutdown request it holds entries that the
    device's position and phase do not fit ([None]), until the next ACQ. *)
Definition answers_after d (an : option (list (Z * Z * Z))) : option (list (Z * Z * Z)) :=
  let o := old_bar d in
  let r := bar d in
  if negb (aqa o =? u_aqa r) then None
  else if negb (asq o =? u_asq r) then an
  else if negb (acq o =? u_acq r) then
    match admin_q d with Some _ => if decide (acq_cleared d) then Some [] else None | None => an end
  else if negb (cc o =? u_cc r) && (cc_shn r =? 1) then match an with Some [] => Some [] | _ => None end
  else an.

Inductive vdev_step : vdev_state F -> vdev_state F -> Prop :=
  | dev_io d v pcs acc post pcs' acc' post' an :
      (* dispatcher and workers on the I/O queues; the host writes memory *)
      io_step local_clock (mk_io (vio d) pcs acc post) (mk_io v pcs' acc' post') ->
      vdev_step (mk_ds d pcs acc post an) (mk_ds (dev_with_io d v) pcs' acc' post' an)
  | dev_doorbells d l o pcs acc post an :
      (* the host rings doorbells, the dispatcher notes them *)
      length l = length (dbs (vio d)) -> length o = length (old_dbs (vio d)) ->
      vdev_step (mk_ds d pcs acc post an) (mk_ds (dev_with_io d (dev_with_old_dbs (io_with_dbs (vio d) l) o)) pcs acc post an)
  | dev_write_sq d q pages pcs acc post an :
      (* the host writes admin commands *)
      admin_q d = Some q ->
      vdev_step (mk_ds d pcs acc post an)
        (mk_ds (dev_with_admin d (Some (mk_aq (aq_phase q) (sq_depth q) (cq_depth q) (aq_cq_head q) (Some pages) (nvme_cq q)))) pcs acc post an)
  | dev_admin d q eid c d' pcs acc post an :
      (* the dispatcher executes any command it finds *)
      admin_q d = Some q -> sq_at q eid = Ok c -> cmd_fits c -> queue_cmd_safe post d c ->
      __nvmev_proc_admin_req pfn_valid zns_supported eid d = Ok (tt, d') ->
      vdev_step (mk_ds d pcs acc post an) (mk_ds d' pcs acc post (an ← an; Some (an ++ map answer_of (filter answered [(eid, c)]))))
  | dev_admin_irq d pcs acc post an :
      vdev_step (mk_ds d pcs acc post an) (mk_ds (dev_with_io d (dev_with_irqs (vio d) (irqs (vio d) ++ [0]))) pcs acc post an)
  | dev_poll d r b d' pcs acc post an :
      (* the host writes any registers; the dispatcher polls them *)
      nvmev_proc_bars (dev_with_bar d r) = Ok (b, d') ->
      vdev_step (mk_ds d pcs acc post an) (mk_ds d' pcs acc post (answers_after (dev_with_bar d r) an)).

(** ** The invariant *)
Record tables_ok d : Prop := {
  tk_sqes : Z.of_nat (length (sqes (vio d))) = NR_MAX_IO_QUEUE + 1;
  tk_cqes : Z.of_nat (length (cqes (vio d))) = NR_MAX_IO_QUEUE + 1;
  tk_dbs : 2 * NR_MAX_IO_QUEUE + 2 ≤ Z.of_nat (length (dbs (vio d)));
  tk_old_dbs : 2 * NR_MAX_IO_QUEUE + 2 ≤ Z.of_nat (length (old_dbs (vio d)));
  tk_ns : Z.of_nat (length (vns d)) < 2147483648;
  tk_csi : Forall (fun ns => match ns_ftls ns with SSD_TYPE_ZNS _ => ns_csi ns = NVME_CSI_ZNS | _ => True end) (vns d);
}.

Record vdev_inv (s : vdev_state F) : Prop := {
  di_io : io_inv (ios s);
  di_tables : tables_ok (ds_dev s);
  di_admin : forall an, ds_answers s = Some an -> exists log, admin_inv log (ds_dev s) /\ map answer_in log = an;
}.

Lemma tables_admin d : tables_ok d -> forall log,
  admin_inv log d <-> exists q pages, admin_q d = Some q /\ nvme_cq q = Some pages /\ cq_ok (admin_ring q pages) log.
Proof. intros [] log. split; [by intros [] | by split]. Qed.

Lemma tables_same d d' : sizes (vio d') = sizes (vio d) -> vns d' = vns d -> tables_ok d -> tables_ok d'.
Proof.
  intros Hs Hn [H1 H2 H3 H4 H5 H6]. unfold sizes in Hs. injection Hs as E1 E2 E3 E4. split; rewrite ?E1, ?E2, ?E3, ?E4, ?Hn; done.
Qed.

(** A change of the I/O side leaves the admin queue as it is. *)
Lemma admin_kept d d' log : tables_ok d -> tables_ok d' -> admin_q d' = admin_q d -> admin_inv log d -> admin_inv log d'.
Proof. intros Ht Ht' Eq Hi. apply (tables_admin d' Ht'). apply (tables_admin d Ht) in Hi. by rewrite Eq. Qed.

(** An admin command that returns leaves the tables their sizes. *)
Lemma admin_io_sizes d c v : admin_io pfn_valid zns_supported d c v -> sizes v = sizes (vio d).
Proof.
  unfold admin_io, admin_effect, sizes. destruct (admin_opcode_of (opcode c)); try (intros ->; cbn; rewrite ?length_insert; done).
  - by intros [-> | [f ->]].
  - by intros [-> | [f ->]].
  - by intros [-> | (a & b & ->)].
Qed.

(** What the register poll leaves of everything but registers, admin queue
    and doorbells. *)
Record poll_frame d d' : Prop := {
  pf_sizes : sizes (vio d') = sizes (vio d);
  pf_sqes : sqes (vio d') = sqes (vio d);
  pf_cqes : cqes (vio d') = cqes (vio d);
  pf_workers : io_workers (vio d') = io_workers (vio d);
  pf_ns : vns d' = vns d;
}.
#[local] Instance poll_frame_refl : Reflexive poll_frame.
Proof. by split. Qed.
#[local] Instance poll_frame_trans : Transitive poll_frame.
Proof. intros d1 d2 d3 [] []. split; congruence. Qed.

Lemma cleared_frame i d : poll_frame d (cleared i d).
Proof. split; try done. unfold sizes, cleared. cbn. by rewrite !length_insert. Qed.

Lemma after_frames d : poll_frame d (after_aqa d) /\ (forall f : nvmev_admin_queue -> _, (forall q, poll_frame d (f q)) -> poll_frame d (with_queue d f)) /\
  (forall q, poll_frame d (after_asq d q)) /\ (forall q, poll_frame d (after_acq d q)) /\ (forall q, poll_frame d (after_cc d q)) /\ poll_frame d (after_cc_alone d).
Proof.
  split; [|split; [|split; [|split; [|split]]]].
  - unfold after_aqa. set (d1 := dev_with_admin _ _). transitivity d1; [by split|]. transitivity (cleared 0 d1); apply cleared_frame.
  - intros f Hf. unfold with_queue. by destruct (admin_q d).
  - intros q. unfold after_asq. set (d1 := dev_with_admin _ _). transitivity d1; [by split | apply cleared_frame].
  - intros q. unfold after_acq. set (d1 := dev_with_admin _ _). transitivity d1; [by split | apply cleared_frame].
  - intros q. unfold after_cc. destruct (_ =? _); [|by split]. set (d1 := dev_with_old_bar _ _).
    transitivity d1; [by split|]. transitivity (cleared 0 d1); [apply cleared_frame|]. transitivity (cleared 1 (cleared 0 d1)); [apply cleared_frame | by split].
  - unfold after_cc_alone. by destruct (_ =? _).
Qed.

Lemma settle_frame d : poll_frame d (settle d).
Proof.
  assert (forall d, poll_frame d (settle_aqa d)) as H1 by (intros d0; unfold settle_aqa; destruct (_ =? _); [done | apply after_frames]).
  assert (forall d, poll_frame d (settle_asq d)) as H2.
  { intros d0. unfold settle_asq. destruct (_ =? _); [done|]. destruct (after_frames d0) as (_ & Hw & H2 & _). by apply Hw. }
  assert (forall d, poll_frame d (settle_acq d)) as H3.
  { intros d0. unfold settle_acq. destruct (_ =? _); [done|]. destruct (after_frames d0) as (_ & Hw & _ & H3 & _). by apply Hw. }
  assert (forall d, poll_frame d (settle_cc d)) as H4.
  { intros d0. unfold settle_cc. destruct (_ =? _); [done|]. destruct (after_frames d0) as (_ & Hw & _ & _ & H4 & _). by apply Hw. }
  unfold settle. by rewrite <- H4, <- H3, <- H2, <- H1.
Qed.

(** *** A restart *)
Lemma asqs_acqs_range r : 0 ≤ aqa_acqs r.
Proof. apply Z.land_nonneg. by right. Qed.

Lemma acq_entry d q j : nvme_cq q = Some (acq_pages d) -> 0 ≤ j < aqa_acqs (bar d) + 1 ->
  cq_entry (admin_ring q (acq_pages d)) j = Ok (cqe_at (host_of (dev_ftl (vio d))) (Z.shiftl (Z.shiftr (u_acq (bar d)) 12) 12) j).
Proof.
  intros Hq Hj. unfold cq_entry, admin_ring. cbn [cq_pages]. unfold acq_pages, cq_page.
  rewrite (paged_get NR_CQE_PER_PAGE _ (fun i k => read_completion _ (Z.shiftl (Z.shiftr (u_acq (bar d)) 12 + i) 12 + sizeof_nvme_completion * k)));
    [|done|lia|by apply pages_enough].
  unfold cqe_at. do 2 f_equal. rewrite !Z.shiftl_mul_pow2 by lia. change (2 ^ 12) with (sizeof_nvme_completion * NR_CQE_PER_PAGE).
  rewrite (Z.div_mod j NR_CQE_PER_PAGE) at 3 by done. lia.
Qed.

Lemma acq_ring_ok d q : acq_cleared d -> nvme_cq q = Some (acq_pages d) -> cq_depth q = aqa_acqs (bar d) + 1 -> aq_phase q = 1 ->
  aq_cq_head q = 0 -> cq_ok (admin_ring q (acq_pages d)) [].
Proof.
  intros Hc Hq Hd Hp Hh. pose proof (asqs_acqs_range (bar d)). split; cbn [admin_ring cq_queue_size cq_head cq_phase length Z.of_nat]; rewrite ?Hd, ?Hp, ?Hh.
  - lia.
  - intros j Hj. eexists. by apply acq_entry.
  - unfold slot_at. by rewrite Z.mod_0_l by lia.
  - unfold phase_of. cbn [Z.of_nat]. by rewrite Z.div_0_l by lia.
  - done.
  - intros j Hj. cbn in Hj. eexists. split; [by apply acq_entry|]. apply (proj1 (Forall_forall _ _) Hc), elem_of_seqZ. lia.
Qed.

Lemma tables_has_dbs d : tables_ok d -> has_dbs d.
Proof. intros []. unfold has_dbs, NR_MAX_IO_QUEUE in *. lia. Qed.

(** A poll of whatever registers keeps the frame, and the admin ring as
    [answers_after] says. *)
Definition answers_in d (an : option (list (Z * Z * Z))) : Prop := forall a, an = Some a -> exists log, admin_inv log d /\ map answer_in log = a.

Lemma poll_frame_ok d b d' : tables_ok d -> nvmev_proc_bars d = Ok (b, d') -> poll_frame d d'.
Proof.
  intros Ht E. destruct (after_frames d) as (H1 & Hw & H2 & H3 & H4 & H5).
  destruct (bars_cases d b d' (tables_has_dbs d Ht) E) as [[_ ->] | [(_ & _ & ->) | [(_ & _ & _ & ->) | [(_ & _ & _ & _ & ->) | [_ ->]]]]]; try done; try by apply Hw.
  by destruct (admin_q d).
Qed.

(** With the same ring, the same answers. *)
Lemma ring_kept d d' q q' pages log : tables_ok d -> tables_ok d' -> admin_q d = Some q -> admin_q d' = Some q' -> nvme_cq q = Some pages ->
  nvme_cq q' = nvme_cq q -> admin_ring q' pages = admin_ring q pages -> admin_inv log d -> admin_inv log d'.
Proof.
  intros Ht Ht' Hq Hq' Hp Ep Er Hi. apply (tables_admin d Ht) in Hi as (q0 & pg & E0 & Epg & Hok). assert (q0 = q) as -> by congruence. assert (pg = pages) as -> by congruence.
  apply (tables_admin d' Ht'). exists q', pages. by rewrite Ep, Er.
Qed.

Lemma poll_answers d b d' an : tables_ok d -> nvmev_proc_bars d = Ok (b, d') -> answers_in d an -> answers_in d' (answers_after d an).
Proof.
  intros Ht E Ha. pose proof (poll_frame_ok d b d' Ht E) as Hf. pose proof (tables_same _ _ (pf_sizes _ _ Hf) (pf_ns _ _ Hf) Ht) as Ht'. unfold answers_after.
  assert (forall a, an = Some a -> exists log q pages, admin_inv log d /\ map answer_in log = a /\ admin_q d = Some q /\ nvme_cq q = Some pages /\ cq_ok (admin_ring q pages) log) as Han.
  { intros a Ea. destruct (Ha a Ea) as (log & Hi & El). destruct (ai_queue _ _ Hi) as (q & pages & H1 & H2 & H3). by exists log, q, pages. }
  destruct (bars_cases d b d' (tables_has_dbs d Ht) E) as [[Hx ->] | [(Hx & Hs & ->) | [(Hx & Hs & Hc & ->) | [(Hx & Hs & Hc & Hcc & ->) | [Hse ->]]]]].
  - by rewrite (proj2 (Z.eqb_neq _ _) Hx).
  - rewrite (proj2 (Z.eqb_eq _ _) Hx), (proj2 (Z.eqb_neq _ _) Hs). cbn [negb]. intros a Ea. destruct (Han a Ea) as (log & q & pages & Hi & El & Hq & Hp & _).
    exists log. split; [|done]. unfold with_queue in *. rewrite Hq in *. by eapply (ring_kept d).
  - rewrite (proj2 (Z.eqb_eq _ _) Hx), (proj2 (Z.eqb_eq _ _) Hs), (proj2 (Z.eqb_neq _ _) Hc). cbn [negb]. unfold with_queue in *.
    destruct (admin_q d) as [q|] eqn:Hq; [|done]. destruct (decide (acq_cleared d)) as [Hcl|]; [|done]. intros a [= <-]. exists []. split; [|done].
    apply (tables_admin _ Ht'). eexists _, (acq_pages d). split; [reflexivity|]. split; [done|]. by apply acq_ring_ok.
  - rewrite (proj2 (Z.eqb_eq _ _) Hx), (proj2 (Z.eqb_eq _ _) Hs), (proj2 (Z.eqb_eq _ _) Hc), (proj2 (Z.eqb_neq _ _) Hcc). cbn [negb andb].
    destruct (Z.eqb_spec (cc_shn (bar d)) 1) as [E1|E1].
    + destruct an as [[|]|]; [|done..]. intros a [= <-]. destruct (Han [] eq_refl) as (log & q & pages & Hi & El & Hq & Hp & Hok). exists log. split; [|done].
      rewrite Hq in *. unfold after_cc in *. rewrite E1 in *. cbn [Z.eqb Pos.eqb] in *. eapply (ring_kept d); [done | done | exact Hq | done | exact Hp | done | | exact Hi].
      unfold admin_ring. cbn. assert (aq_cq_head q = 0) as ->; [|done]. destruct log; [|done]. pose proof (co_head _ _ Hok) as Hh. pose proof (co_size _ _ Hok). cbn in Hh.
      rewrite Hh. unfold slot_at. apply Z.mod_0_l. cbn in *. lia.
    + intros a Ea. destruct (Han a Ea) as (log & q & pages & Hi & El & Hq & Hp & _). exists log. split; [|done].
      rewrite Hq in *. unfold after_cc in *. rewrite (proj2 (Z.eqb_neq _ _) E1) in *. by eapply (ring_kept d).
  - unfold settled in Hse. rewrite Hse. cbn [aqa asq acq cc]. by rewrite !Z.eqb_refl.
Qed.

(** The I/O side through a register poll. *)
Lemma io_inv_frame d d' pcs acc post : poll_frame d d' -> io_inv (mk_io (vio d) pcs acc post) -> io_inv (mk_io (vio d') pcs acc post).
Proof.
  intros [_ E1 E2 E3 _] Hi. pose proof Hi as [_ _ _ Hr Hq]. cbn in *. apply (io_inv_tables _ _ _ _ _ Hi); [done | by rewrite E2 |].
  eapply Forall_impl; [exact Hq|]. intros w. by apply serviceable_same.
Qed.

(** *** Every step keeps the invariant *)
Lemma vdev_step_inv (Ht : FtlTotal) s s' : vdev_step s s' -> vdev_inv s -> vdev_inv s'.
Proof.
  intros Hs [Hio Htb Had]. destruct Hs as [d v pcs acc post pcs' acc' post' an Hst | d l o pcs acc post an Hl Ho | d q pages pcs acc post an Hq
    | d q eid c d' pcs acc post an Hq Hc Hw Hsafe He | d pcs acc post an | d r b d' pcs acc post an He];
    cbn [ds_dev ds_pcs ds_accepted ds_posted ds_answers] in *.
  - assert (tables_ok (dev_with_io d v)) as Ht'.
    { apply (tables_same d); [|done|done]. exact (io_step_sizes local_clock _ _ Hst). }
    split; [exact (step_inv local_clock Ht _ _ Hst Hio) | exact Ht'|]. intros a Ea. destruct (Had a Ea) as (log & Hi & El). exists log. by split; [apply (admin_kept d)|].
  - assert (poll_frame d (dev_with_io d (dev_with_old_dbs (io_with_dbs (vio d) l) o))) as Hf by (split; [unfold sizes; cbn; by rewrite Hl, Ho | done..]).
    assert (tables_ok (dev_with_io d (dev_with_old_dbs (io_with_dbs (vio d) l) o))) as Ht' by exact (tables_same _ _ (pf_sizes _ _ Hf) (pf_ns _ _ Hf) Htb).
    split; [by apply (io_inv_frame d) | exact Ht'|]. intros a Ea. destruct (Had a Ea) as (log & Hi & El). exists log. by split; [apply (admin_kept d)|].
  - split; [done | destruct Htb; by split|]. cbn. intros a Ea. destruct (Had a Ea) as (log & Hi & El). exists log. split; [|done].
    destruct (ai_queue _ _ Hi) as (q' & pg & Eq & Ep & _). assert (q' = q) as -> by congruence. eapply (ring_kept d); try done. destruct Htb; by split.
  - destruct (admin_req_wlp pfn_valid zns_supported d q eid c Hq Hc tt d' He) as [Hv En].
    assert (tables_ok d') as Ht' by exact (tables_same _ _ (admin_io_sizes _ _ _ Hv) En Htb).
    split; [exact (admin_io_inv pfn_valid zns_supported d c _ pcs acc post Hv Hsafe Hio) | exact Ht'|].
    destruct an as [an|]; [|done]. intros a [= <-]. destruct (Had an eq_refl) as (log & Hi & El).
    destruct (decide (admin_cmd_ok d c)) as [Hok|Hbad]; [|by rewrite (proc_admin_req_bug pfn_valid zns_supported log d q eid c Hi Hq Hc Hw Hbad) in He].
    destruct (wp_run _ _ _ _ _ (proc_admin_one pfn_valid zns_supported log d q eid c Hi Hq Hc Hok) He) as (_ & ws & Hi' & Ea).
    exists (log ++ ws). split; [done|]. by rewrite map_app, El, Ea.
  - assert (poll_frame d (dev_with_io d (dev_with_irqs (vio d) (irqs (vio d) ++ [0])))) as Hf by by split.
    split; [by apply (io_inv_frame d) | by apply (tables_same d)|]. intros a Ea. destruct (Had a Ea) as (log & Hi & El). exists log.
    split; [|done]. apply (admin_kept d); [done | by apply (tables_same d) | done | done].
  - set (d0 := dev_with_bar d r) in *. assert (tables_ok d0) as Ht0 by (destruct Htb; by split). pose proof (poll_frame_ok d0 b d' Ht0 He) as Hf.
    split; [by apply (io_inv_frame d0) | exact (tables_same _ _ (pf_sizes _ _ Hf) (pf_ns _ _ Hf) Ht0)|]. apply (poll_answers d0 b); [done | done|].
    intros a Ea. destruct (Had a Ea) as (log & Hi & El). exists log. by split; [apply (admin_kept d)|].
Qed.

(** *** From loading on *)
Definition ds_start d : vdev_state F := mk_ds d (map (fun _ => NIL) (io_workers (vio d))) [] [] None.

(** What holds of the namespaces that the configuration makes. *)
Definition ns_fine d : Prop := Z.of_nat (length (vns d)) < 2147483648 /\
  Forall (fun ns => match ns_ftls ns with SSD_TYPE_ZNS _ => ns_csi ns = NVME_CSI_ZNS | _ => True end) (vns d).

Lemma fresh_inv d : fresh d -> ns_fine d -> vdev_inv (ds_start d).
Proof.
  intros [Hio _ Hs Hc [Hd Ho] Ha _] [Hn Hcsi]. split; cbn [ds_start ds_dev ds_pcs ds_accepted ds_posted ds_answers].
  - exact Hio.
  - split; unfold NR_MAX_IO_QUEUE in *; try lia; done.
  - done.
Qed.

Lemma vdev_run_inv (Ht : FtlTotal) s s' : rtc vdev_step s s' -> vdev_inv s -> vdev_inv s'.
Proof. intros Hr. induction Hr as [|s1 s2 s3 H1 _ IH]; [done|]. intros Hi. apply IH. by apply (vdev_step_inv Ht s1). Qed.

(** Polling is a run of steps in which the host writes nothing new. *)
Lemma poll_run (P : dev -> option (list (Z * Z * Z)) -> Prop) n : (forall d b d' an, tables_ok d -> P d an -> nvmev_proc_bars d = Ok (b, d') -> P d' (answers_after d an)) ->
  forall d d' an pcs acc post, tables_ok d -> P d an -> poll_bars n d = Ok (false, d') ->
  exists an', rtc vdev_step (mk_ds d pcs acc post an) (mk_ds d' pcs acc post an') /\ P d' an'.
Proof.
  intros Hstep. induction n as [|n IH]; intros d d' an pcs acc post Ht Hp E; [done|]. cbn [poll_bars] in E. unfold mbind, prog_bind in E.
  destruct (nvmev_proc_bars d) as [[b d1]|] eqn:E1; [|done].
  assert (dev_with_bar d (bar d) = d) as Esame by by destruct d.
  assert (vdev_step (mk_ds d pcs acc post an) (mk_ds d1 pcs acc post (answers_after d an))) as Hs.
  { pose proof (dev_poll d (bar d) b d1 pcs acc post an) as Hs. rewrite Esame in Hs. exact (Hs E1). }
  pose proof (Hstep d b d1 an Ht Hp E1) as Hp1. destruct b.
  - pose proof (poll_frame_ok d true d1 Ht E1) as Hf.
    destruct (IH d1 d' (answers_after d an) pcs acc post (tables_same _ _ (pf_sizes _ _ Hf) (pf_ns _ _ Hf) Ht) Hp1 E) as (an' & Hr & Hp').
    exists an'. split; [|done]. by eapply rtc_l.
  - injection E as <-. eexists. split; [by apply rtc_once | done].
Qed.

(** What polling keeps of the registers that matter for the admin ring. *)
Lemma poll_regs d b d' : tables_ok d -> nvmev_proc_bars d = Ok (b, d') -> u_aqa (bar d') = u_aqa (bar d) /\ u_acq (bar d') = u_acq (bar d) /\
  u_cc (bar d') = u_cc (bar d) /\ (acq_cleared d -> acq_cleared d').
Proof.
  intros Ht E.
  assert (u_aqa (bar d') = u_aqa (bar d) /\ u_acq (bar d') = u_acq (bar d) /\ u_cc (bar d') = u_cc (bar d) /\ host_of (dev_ftl (vio d')) = host_of (dev_ftl (vio d))) as (H1 & H2 & H3 & H4).
  { destruct (bars_cases d b d' (tables_has_dbs d Ht) E) as [[_ ->] | [(_ & _ & ->) | [(_ & _ & _ & ->) | [(_ & _ & _ & _ & ->) | [_ ->]]]]]; try done.
    - unfold with_queue. by destruct (admin_q d).
    - unfold with_queue. by destruct (admin_q d).
    - destruct (admin_q d) as [q|].
      + destruct (after_cc_regs d q) as (_ & -> & -> & _ & ->). unfold after_cc. by destruct (_ =? _).
      + unfold after_cc_alone. by destruct (_ =? _). }
  split; [done|]. split; [done|]. split; [done|]. unfold acq_cleared, aqa_acqs. by rewrite H1, H2, H4.
Qed.

(** A new ACQ on cleared memory is in the end an empty ring; *)
Definition ring_new d (an : option (list (Z * Z * Z))) : Prop :=
  acq_cleared d /\ (acq (old_bar d) = u_acq (bar d) -> aqa (old_bar d) = u_aqa (bar d) /\ an = Some []).
(** without a new AQA, a new ACQ and a shutdown the ring goes on. *)
Definition ring_same (a : option (list (Z * Z * Z))) d (an : option (list (Z * Z * Z))) : Prop :=
  aqa (old_bar d) = u_aqa (bar d) /\ acq (old_bar d) = u_acq (bar d) /\ cc_shn (bar d) <> 1 /\ an = a.

Lemma ring_new_step d b d' an : tables_ok d -> ring_new d an -> nvmev_proc_bars d = Ok (b, d') -> ring_new d' (answers_after d an).
Proof.
  intros Ht [Hcl Hn] E. destruct (poll_regs d b d' Ht E) as (E1 & E2 & _ & Hc). split; [by apply Hc|]. rewrite E1, E2. unfold answers_after.
  destruct (bars_cases d b d' (tables_has_dbs d Ht) E) as [[Hx ->] | [(Hx & Hs & ->) | [(Hx & Hs & Hc' & ->) | [(Hx & Hs & Hc' & Hcc & ->) | [Hse ->]]]]].
  - cbn. intros Eq. by destruct (Hn Eq).
  - rewrite (proj2 (Z.eqb_eq _ _) Hx), (proj2 (Z.eqb_neq _ _) Hs). cbn [negb]. unfold with_queue. by destruct (admin_q d).
  - rewrite (proj2 (Z.eqb_eq _ _) Hx), (proj2 (Z.eqb_eq _ _) Hs), (proj2 (Z.eqb_neq _ _) Hc'). cbn [negb]. unfold with_queue.
    destruct (admin_q d); [|done]. intros _. by rewrite decide_True.
  - destruct (Hn Hc') as [_ ->]. rewrite (proj2 (Z.eqb_eq _ _) Hx), (proj2 (Z.eqb_eq _ _) Hs), (proj2 (Z.eqb_eq _ _) Hc'). cbn [negb].
    destruct (_ && _), (admin_q d) as [q|]; unfold after_cc, after_cc_alone; by destruct (_ =? _).
  - unfold settled in Hse. rewrite Hse. cbn [aqa asq acq cc]. rewrite !Z.eqb_refl. cbn [negb andb]. rewrite Hse in Hn. exact Hn.
Qed.

Lemma ring_same_step a d b d' an : tables_ok d -> ring_same a d an -> nvmev_proc_bars d = Ok (b, d') -> ring_same a d' (answers_after d an).
Proof.
  intros Ht (H1 & H2 & H3 & ->) E. destruct (poll_regs d b d' Ht E) as (E1 & E2 & E3 & _). unfold ring_same, answers_after in *.
  assert (cc_shn (bar d') = cc_shn (bar d)) as -> by (unfold cc_shn; by rewrite E3). rewrite E1, E2.
  destruct (bars_cases d b d' (tables_has_dbs d Ht) E) as [[Hx ->] | [(Hx & Hs & ->) | [(Hx & Hs & Hc' & ->) | [(Hx & Hs & Hc' & Hcc & ->) | [Hse ->]]]]]; try done.
  - rewrite (proj2 (Z.eqb_eq _ _) Hx), (proj2 (Z.eqb_neq _ _) Hs). cbn [negb]. unfold with_queue. by destruct (admin_q d).
  - rewrite (proj2 (Z.eqb_eq _ _) Hx), (proj2 (Z.eqb_eq _ _) Hs), (proj2 (Z.eqb_eq _ _) Hc'), (proj2 (Z.eqb_neq _ _) H3), andb_false_r. cbn [negb].
    destruct (admin_q d) as [q|]; unfold after_cc, after_cc_alone; by destruct (_ =? _).
  - unfold settled in Hse. rewrite Hse. cbn [aqa asq acq cc]. by rewrite !Z.eqb_refl.
Qed.

(** A restart: the dispatcher takes over all the registers, and the ring is
    new or the same. *)
Lemma restart_run d r pcs acc post an : tables_ok d -> aqa (old_bar d) <> u_aqa r \/ is_Some (admin_q d) ->
  let d0 := dev_with_bar d r in
  poll_bars 5 d0 = Ok (false, settle d0) /\ exists an', rtc vdev_step (mk_ds d pcs acc post an) (mk_ds (settle d0) pcs acc post an') /\
    (acq (old_bar d) <> u_acq r -> acq_cleared d0 -> an' = Some []) /\
    (aqa (old_bar d) = u_aqa r -> acq (old_bar d) = u_acq r -> cc_shn r <> 1 -> an' = an).
Proof.
  intros Ht Hq d0. assert (tables_ok d0) as Ht0 by (destruct Ht; by split). destruct (poll_settle d0 (tables_has_dbs _ Ht0) Hq) as [Hp Hse]. split; [done|].
  destruct (nvmev_proc_bars d0) as [[b d1]|] eqn:E1; [|by cbn [poll_bars] in Hp; unfold mbind, prog_bind in Hp; rewrite E1 in Hp].
  pose proof (dev_poll d r b d1 pcs acc post an E1) as Hs. fold d0 in Hs.
  set (P := fun d an' => (acq (old_bar d0) <> u_acq r -> acq_cleared d0 -> ring_new d an') /\
    (aqa (old_bar d0) = u_aqa r -> acq (old_bar d0) = u_acq r -> cc_shn r <> 1 -> ring_same an d an')).
  assert (forall d b d' an, tables_ok d -> P d an -> nvmev_proc_bars d = Ok (b, d') -> P d' (answers_after d an)) as Hstep.
  { intros d2 b2 d3 an2 Ht2 [H1 H2] E2. split; intros; [eapply ring_new_step; eauto | eapply ring_same_step; eauto]. }
  assert (P d0 an) as H0 by (split; [intros Hx Hc; by split | done]).
  pose proof (Hstep d0 b d1 an Ht0 H0 E1) as H1. pose proof (poll_frame_ok d0 b d1 Ht0 E1) as Hf.
  pose proof (tables_same _ _ (pf_sizes _ _ Hf) (pf_ns _ _ Hf) Ht0) as Ht1.
  assert (poll_bars 4 d1 = Ok (false, settle d0) \/ d1 = settle d0) as Hrest.
  { change (poll_bars 5 d0) with ((b ← nvmev_proc_bars; if b : bool then poll_bars 4 else mret false) d0) in Hp. unfold mbind, prog_bind in Hp.
    rewrite E1 in Hp. destruct b; [by left | right; by injection Hp]. }
  assert (exists an', rtc vdev_step (mk_ds d1 pcs acc post (answers_after d0 an)) (mk_ds (settle d0) pcs acc post an') /\ P (settle d0) an') as (an' & Hr & Hn & Hk).
  { destruct Hrest as [E|<-]; [exact (poll_run P 4 Hstep d1 _ _ pcs acc post Ht1 H1 E) | eexists; by split]. }
  exists an'. split; [by eapply rtc_l|]. split.
  - intros Hx Hc. destruct (Hn Hx Hc) as [_ Hn']. apply Hn'. by rewrite Hse.
  - intros Ha Hc Hsh. by destruct (Hk Ha Hc Hsh) as (_ & _ & _ & ->).
Qed.

Section Loaded.
Context {K : Type} `{HK : DmaPool K}.
Variables e820_ram e820_reserved_kern e820_reserved : Z -> Z -> bool.
Variable simple_strtol : String.string -> Z.
Variable kv_table : option Z.
Variables simple_init conv_init zns_init : Z -> Z -> Z -> res (nvmev_ns ns_kind).
Variable kv_init : device_config -> Z -> Z -> Z -> res (nvmev_ns ns_kind).
Variables ns_ssd_type ns_capacity : list Z.
Variables (MDTS : Z) (memremap : Z -> Z -> Z) (start_ftl : list (nvmev_ns ns_kind) -> F) (pci_scan_bus : pci_state -> option pci_state).
Variables (using_dma : bool) (kmalloc_ok : dma_chan -> bool) (strim : String.string -> String.string) (dma_pool : K).
#[local] Abbreviation init := (NVMeV_init e820_ram e820_reserved_kern e820_reserved simple_strtol kv_table simple_init conv_init zns_init kv_init
  ns_ssd_type ns_capacity MDTS zns_supported memremap start_ftl pci_scan_bus using_dma kmalloc_ok strim dma_pool).

Lemma loaded_inv (Ht : FtlTotal) p m s : init p = Ok (Some m) -> io_workers (vio (m_dev m)) <> [] -> ns_fine (m_dev m) ->
  rtc vdev_step (ds_start (m_dev m)) s -> vdev_inv s.
Proof. intros E Hw Hn Hr. apply (vdev_run_inv Ht _ _ Hr), fresh_inv; [by eapply init_fresh | done]. Qed.


(** C2. Bring-up after loading and restarts after any run: once the host has
    written registers, with an AQA that is new or an admin queue from before,
    the dispatcher takes all of it in within five polls, which are steps of
    the device, and I/O queues and requests in flight are not disturbed.  CSTS.RDY
    is CC.EN if CC is new.  If ACQ is new and its memory cleared, the admin
    ring is an empty ring of the size in AQA on the pages at ACQ; if AQA and
    ACQ are the old ones and no shutdown is asked for, the ring goes on as it
    was.  (What becomes of it otherwise is C34.) *)
Theorem boot_to_ready (Ht : FtlTotal) p m s r : init p = Ok (Some m) -> io_workers (vio (m_dev m)) <> [] -> ns_fine (m_dev m) ->
  rtc vdev_step (ds_start (m_dev m)) s ->
  let d := ds_dev s in
  aqa (old_bar d) <> u_aqa r \/ is_Some (admin_q d) ->
  exists d' an' q, poll_bars 5 (dev_with_bar d r) = Ok (false, d') /\ settled d' /\ admin_q d' = Some q /\
    rtc vdev_step s (mk_ds d' (ds_pcs s) (ds_accepted s) (ds_posted s) an') /\
    io_workers (vio d') = io_workers (vio d) /\ sqes (vio d') = sqes (vio d) /\ cqes (vio d') = cqes (vio d) /\
    (cc (old_bar d) <> u_cc r -> csts_rdy (bar d') = cc_en r) /\
    (acq (old_bar d) <> u_acq r -> acq_cleared (dev_with_bar d r) ->
       an' = Some [] /\ cq_depth q = aqa_acqs r + 1 /\ nvme_cq q = Some (acq_pages (dev_with_bar d r)) /\
       cq_ok (admin_ring q (acq_pages (dev_with_bar d r))) []) /\
    (aqa (old_bar d) = u_aqa r -> acq (old_bar d) = u_acq r -> cc_shn r <> 1 -> an' = ds_answers s).
Proof.
  intros E Hw Hn Hr d Hq. destruct (loaded_inv Ht p m s E Hw Hn Hr) as [_ Htb _]. destruct s as [d1 pcs acc post an]. cbn [ds_dev ds_pcs ds_accepted ds_posted ds_answers] in *.
  subst d. set (d0 := dev_with_bar d1 r). assert (tables_ok d0) as Ht0 by (destruct Htb; by split). pose proof (tables_has_dbs d0 Ht0) as Hd.
  destruct (restart_run d1 r pcs acc post an Htb Hq) as (Ep & an' & Hrun & Hnew & Hsame). fold d0 in Ep, Hrun, Hnew.
  destruct (poll_settle d0 Hd Hq) as [_ Hse]. destruct (settle_queue d0 Hq) as (q & Eq & _ & H2 & _ & H4). pose proof (settle_frame d0) as Hf.
  exists (settle d0), an', q. split; [exact Ep|]. split; [exact Hse|]. split; [exact Eq|]. split; [exact Hrun|].
  split; [exact (pf_workers _ _ Hf)|]. split; [exact (pf_sqes _ _ Hf)|]. split; [exact (pf_cqes _ _ Hf)|].
  split; [intros Hcc; by apply (settle_status d0 Hd Hq Hcc)|]. split; [|exact Hsame].
  intros Hx Hc. destruct (H2 (or_intror Hx)) as (Hdep & Hph & Hhd). split; [by apply Hnew|]. split; [exact Hdep|]. split; [by apply H4|].
  apply acq_ring_ok; [done | by apply H4 | done..].
Qed.
End Loaded.
End Device.

(** ** The module of [Boot]'s example, with Simple FTL namespaces *)
Definition example_ftl (ns : list (nvmev_ns ns_kind)) : simple_state ns_kind :=
  mk_simple (mk_io_mem (fun _ => 0) (fun _ => 0)) (replicate 8 0) ns.

#[local] Instance example_ops : FtlOps (simple_state ns_kind) := simple_ops (mk_config 8 12 1 1 0 1 1 0) (fun _ => true) (fun _ => 0) (fun now => now).
#[local] Abbreviation example_total := (simple_total (mk_config 8 12 1 1 0 1 1 0) (fun _ => true) (fun _ => 0) (fun now => now)).

#[local] Abbreviation load_example := (NVMeV_init nowhere nowhere reserved_from_4g (decimal 0) None
  (simple_init_namespace SSD_TYPE_NVM) (simple_init_namespace SSD_TYPE_NVM) (simple_init_namespace SSD_TYPE_NVM) (fun _ => simple_init_namespace SSD_TYPE_NVM)
  [0; 0] [MB 32; 0] 5 false (fun start size => start) example_ftl quiet_scan false (fun _ => true) (fun s => s) ([] : list dma_chan) four_cpus).

(** Loaded, with plain namespaces and cleared memory. *)
Lemma example_ready : exists m : nvmev_module (simple_state ns_kind) ns_kind, load_example = Ok (Some m) /\ io_workers (vio (m_dev m)) <> [] /\ ns_fine (m_dev m) /\
  old_bar (m_dev m) = mk_bar 0 0 0 0 /\ sim_mem (dev_ftl (vio (m_dev m))) = mk_io_mem (fun _ => 0) (fun _ => 0).
Proof.
  destruct (example_loads example_ftl) as (m & Em & Hw). exists m. split; [exact Em|]. split; [intros E; rewrite E in Hw; discriminate|].
  destruct (init_built _ _ _ _ _ _ _ _ _ _ _ _ _ _ _ _ _ _ _ _ _ _ Em) as (c & ns & ws & Ec & Ens & _ & ->).
  rewrite four_cpus_loaded in Ec. injection Ec as <-. vm_compute in Ens. injection Ens as <-.
  split; [|split; reflexivity]. split; [vm_compute; reflexivity | repeat constructor].
Qed.

(** The host gives a queue pair of four entries each and enables the device. *)
Definition example_regs : nvme_ctrl_regs := mk_regs 1 0 0x30003 0x10000 0x20000.

Lemma example_given (d : nvmev_dev (simple_state ns_kind) ns_kind) : old_bar d = mk_bar 0 0 0 0 -> sim_mem (dev_ftl (vio d)) = mk_io_mem (fun _ => 0) (fun _ => 0) ->
  (aqa (old_bar d) <> u_aqa example_regs \/ is_Some (admin_q d)) /\ acq (old_bar d) <> u_acq example_regs /\ acq_cleared (dev_with_bar d example_regs).
Proof.
  intros Eo Ef. rewrite Eo. split; [left; discriminate|]. split; [discriminate|].
  apply Forall_forall. intros j _. cbn [vio dev_with_bar dev_ftl host_of simple_host]. rewrite Ef. reflexivity.
Qed.

Lemma boot_to_ready_witness : exists m d' an' q, load_example = Ok (Some m) /\
  poll_bars 5 (dev_with_bar (m_dev m) example_regs) = Ok (false, d') /\ csts_rdy (bar d') = 1 /\ an' = Some [] /\ cq_depth q = 4 /\
  rtc (vdev_step (fun n => Z.of_nat n) (fun _ => true) false) (ds_start (m_dev m)) (mk_ds d' (map (fun _ => NIL) (io_workers (vio (m_dev m)))) [] [] an').
Proof.
  destruct example_ready as (m & Em & Hw & Hn & Eo & Ef). destruct (example_given (m_dev m) Eo Ef) as (Hq & Hac & Hcl).
  destruct (boot_to_ready (fun n => Z.of_nat n) (fun _ => true) false _ _ _ _ _ _ _ _ _ _ _ _ _ _ _ _ _ _ _ example_total four_cpus m (ds_start (m_dev m)) example_regs Em Hw Hn
    (rtc_refl _ _) Hq) as (d' & an' & q & Ep & _ & _ & Hrun & _ & _ & _ & Er & Hnew & _).
  destruct (Hnew Hac Hcl) as (Ean & Ed & _). exists m, d', an', q. split; [exact Em|]. split; [exact Ep|]. split.
  - apply Er. change (cc (old_bar (m_dev m)) <> 1). rewrite Eo. discriminate.
  - split; [exact Ean|]. split; [exact Ed | exact Hrun].
Defined.

