(* ===== verification/DmaIo.v ===== *)
(** * Moving a command's data by DMA ([__do_perform_io_using_dma] of
    [src/io.c])

    The page addresses of a command are gathered in a table first; then
    adjacent pages are joined and each run is one transfer of the engine.  The
    engine works on physical memory, storage included.  On the first namespace
    it does what the copying loop does. *)
From Stdlib Require Import String.
From S2P Require Import Prelude Nvme Prp IoWorker HostIo Dma.
#[local] Open Scope Z_scope.
#[local] Open Scope list_scope.

(** [static u64 paddr_list[513]]; index 0 is not used. *)
Definition PADDR_LIST_LEN : nat := 513.

Section Loops.
Variable pfn_valid : Z -> bool.

(** The first loop: the table and the number of pages. *)
Fixpoint gather_loop (fuel : nat) (rd64 : Z -> Z) (prp1 prp2 : Z) (w : prp_walk) (l : list Z) (remaining : Z) : res (list Z * Z) :=
  if remaining =? 0 then Ok (l, prp_offs w) else
  match fuel with
  | O => Bug NoFuel
  | S fuel =>
    '(w, paddr) ← next_prp pfn_valid rd64 prp1 prp2 remaining w;
    l ← aset l (prp_offs w) paddr;
    gather_loop fuel rd64 prp1 prp2 w l (remaining - prp_chunk paddr remaining)
  end.

(** The inner [for]: the pages that follow on. *)
Fixpoint join_pages (fuel : nat) (l : list Z) (num_prps i page_size : Z) : res (Z * Z) :=
  if num_prps <? i then Ok (i, page_size) else
  match fuel with
  | O => Bug NoFuel
  | S fuel =>
    a ← aget l i; b ← aget l (i - 1);
    if a =? u64 (b + PAGE_SIZE) then join_pages fuel l num_prps (i + 1) (page_size + PAGE_SIZE) else Ok (i, page_size)
  end.

Context {St : Type}.
(** The transfer of [io_size] bytes at a host address and [offset]. *)
Variable submit : St -> Z -> Z -> Z -> res St.

Fixpoint dma_loop (fuel : nat) (s : St) (l : list Z) (num_prps i offset remaining : Z) : res St :=
  if remaining =? 0 then Ok s else
  match fuel with
  | O => Bug NoFuel
  | S fuel =>
    paddr ← aget l i;
    '(i, page_size) ← join_pages (length l) l num_prps (i + 1) (prp_chunk paddr remaining);
    let io_size := Z.min remaining page_size in
    s ← submit s paddr offset io_size;
    dma_loop fuel s l num_prps i (offset + io_size) (remaining - io_size)
  end.

Definition dma_transfer (rd64 : Z -> Z) (s : St) (prp1 prp2 offset length : Z) : res St :=
  '(l, num_prps) ← gather_loop (Z.to_nat length) rd64 prp1 prp2 walk_start (replicate PADDR_LIST_LEN 0) length;
  dma_loop (Z.to_nat length) s l num_prps 1 offset length.
End Loops.

Section Command.
Context {E Tx : Type} `{DmaEngine E Tx}.
Variable pfn_valid : Z -> bool.
Variable info : ioat_dma_info.
(** [nvmev_vdev->config.storage_start]. *)
Variable storage_start : Z.

(** What [ioat_dma_submit] returns is not looked at. *)
Definition io_submit (c : nvme_command) (e : E) (paddr offset io_size : Z) : res E :=
  let dev := u64 (storage_start + offset) in
  if (opcode c =? nvme_cmd_write) || (opcode c =? nvme_cmd_zone_append) then
    '(_, e) ← ioat_dma_submit info paddr dev (u32 io_size) e; Ok e
  else if opcode c =? nvme_cmd_read then
    '(_, e) ← ioat_dma_submit info dev paddr (u32 io_size) e; Ok e
  else Ok e.

Definition __do_perform_io_using_dma (c : nvme_command) (e : E) : res (E * Z) :=
  e ← dma_transfer pfn_valid (io_submit c) (mem_u64 (dma_mem e)) e (prp1 c) (prp2 c) (__cmd_io_offset c) (__cmd_io_size c);
  Ok (e, u32 (__cmd_io_size c)).
End Command.

(** * Properties *)
Section Rule.
Context (pfn_valid : Z -> bool) (rd : Z -> Z) (prp1 prp2 len : Z) (Hok : prp_ok rd prp1 prp2 len pfn_valid).
#[local] Abbreviation first := (prp_first prp1 len).
#[local] Abbreviation addr := (prp_addr rd prp1 prp2 len).

(** Entry [i] of the table, and where its data begins. *)
Definition entry_of (i : Z) : Z := if i =? 1 then prp1 else prp_page rd prp1 prp2 len (i - 2).
Definition pos_of (i : Z) : Z := if i =? 1 then 0 else first + PAGE_SIZE * (i - 2).

(** At most 512 pages, at addresses a machine has. *)
Record prp_table_ok : Prop := {
  tb_pages : len ≤ first + PAGE_SIZE * 511;
  tb_range : forall i, 1 ≤ i -> pos_of i < len -> 0 ≤ entry_of i < 2 ^ 63;
}.

Definition gathered (l : list Z) (n : Z) : Prop := forall i, 1 ≤ i ≤ n -> aget l i = Ok (entry_of i).

Lemma page_size_pos : 0 < PAGE_SIZE.
Proof. by vm_compute. Qed.

Lemma pos_next i : 2 ≤ i -> pos_of (i + 1) = pos_of i + PAGE_SIZE.
Proof. intros Hi. unfold pos_of. rewrite !(proj2 (Z.eqb_neq _ _)) by lia. lia. Qed.

Lemma pos_two : pos_of 2 = first.
Proof. unfold pos_of. cbn [Z.eqb Pos.eqb]. lia. Qed.

(** A turn of the walk, at entry [i]. *)
Lemma walk_turn w i : 0 < len -> 1 ≤ i -> pos_of i < len -> prp_offs w = i - 1 -> walk_at prp1 prp2 len (pos_of i) w ->
  exists w', next_prp pfn_valid rd prp1 prp2 (len - pos_of i) w = Ok (w', entry_of i) /\ prp_offs w' = i /\
    walk_at prp1 prp2 len (Z.min len (pos_of (i + 1))) w'.
Proof.
  intros Hl Hi Hlt Hw Hat. pose proof (first_range prp1 len Hl) as Hf. destruct (decide (i = 1)) as [->|Hne].
  - change (pos_of 1) with 0 in *. destruct (next_prp_first pfn_valid (fun _ : unit => rd) prp1 prp2 len tt w Hat Hl) as (w' & En & Hw').
    exists w'. rewrite Z.sub_0_r. split; [exact En|]. unfold next_prp in En. rewrite Hw in En. cbn in En. injection En as <-. split; [done|].
    change (1 + 1) with 2. rewrite pos_two, Z.min_r by lia. done.
  - assert (pos_of i = first + PAGE_SIZE * (i - 2)) as Ep by (unfold pos_of; by rewrite (proj2 (Z.eqb_neq _ _)) by lia).
    rewrite Ep in *. destruct (next_prp_page pfn_valid (fun _ : unit => rd) rd prp1 prp2 len Hok tt w (i - 2)) as (w' & En & Hw'); [lia | done | done | done |].
    exists w'. unfold entry_of. rewrite (proj2 (Z.eqb_neq _ _)) by lia. split; [exact En|]. split.
    + unfold next_prp in En. rewrite Hw in En. repeat case_test; try (injection En as <- _; cbn; lia); try lia.
      destruct (paddr_list w); [injection En as <- _; cbn; lia | done].
    + rewrite pos_next, Ep by lia. by replace (first + PAGE_SIZE * (i - 2) + PAGE_SIZE) with (first + PAGE_SIZE * (i - 2 + 1)) by lia.
Qed.

(** The bytes of entry [i]. *)
Lemma chunk_at i : 0 < len -> 1 ≤ i -> pos_of i < len ->
  pfn_valid (Z.shiftr (entry_of i) 12) = true /\ 0 < prp_chunk (entry_of i) (len - pos_of i) /\
  pos_of i + prp_chunk (entry_of i) (len - pos_of i) = Z.min len (pos_of (i + 1)) /\
  (1 < i -> page_offset (entry_of i) = 0) /\
  (pos_of (i + 1) < len -> page_offset (entry_of i) = 0 -> pos_of (i + 1) = pos_of i + PAGE_SIZE) /\
  forall j, 0 ≤ j < prp_chunk (entry_of i) (len - pos_of i) -> addr (pos_of i + j) = entry_of i + j.
Proof.
  intros Hl Hi Hlt. pose proof (first_range prp1 len Hl) as Hf. pose proof page_size_pos as HP. rewrite prp_chunk_eq by lia.
  pose proof (page_offset_range (entry_of i)) as Hpo. destruct (decide (i = 1)) as [->|Hne].
  - change (pos_of 1) with 0 in *. change (entry_of 1) with prp1 in *. change (1 + 1) with 2. rewrite pos_two, Z.sub_0_r, !Z.add_0_l. unfold prp_first in *.
    split; [apply Hok|]. split; [lia|]. split; [lia|]. split; [lia|]. split.
    + intros Hl2 Ho. unfold prp_first in *. rewrite Ho in *. lia.
    + intros j Hj. rewrite Z.add_0_l. apply addr_first. unfold prp_first. lia.
  - assert (pos_of i = first + PAGE_SIZE * (i - 2)) as Ep by (unfold pos_of; by rewrite (proj2 (Z.eqb_neq _ _)) by lia).
    assert (entry_of i = prp_page rd prp1 prp2 len (i - 2)) as Ee by (unfold entry_of; by rewrite (proj2 (Z.eqb_neq _ _)) by lia).
    destruct (po_page _ _ _ _ _ Hok (i - 2)) as [Hv Ho]; [lia | lia |]. rewrite <- Ee in Hv, Ho. rewrite Ho, Z.sub_0_r, pos_next by lia.
    split; [done|]. split; [lia|]. split; [lia|]. split; [done|]. split; [done|].
    intros j Hj. rewrite Ep, Ee. apply addr_page; lia.
Qed.

(** *** The table *)
Lemma gather_ok fuel : forall w l i, 0 < len -> prp_table_ok -> length l = PADDR_LIST_LEN -> 1 ≤ i -> prp_offs w = i - 1 ->
  walk_at prp1 prp2 len (Z.min len (pos_of i)) w -> (1 < i -> pos_of (i - 1) < len) -> gathered l (i - 1) -> len - pos_of i ≤ Z.of_nat fuel ->
  exists l' num, gather_loop pfn_valid fuel rd prp1 prp2 w l (len - Z.min len (pos_of i)) = Ok (l', num) /\
    gathered l' num /\ length l' = PADDR_LIST_LEN /\ 1 ≤ num /\ pos_of num < len ≤ pos_of (num + 1).
Proof.
  induction fuel as [|fuel IH]; intros w l i Hl Ht Hll Hi Hw Hat Hpre Hg Hf; cbn [gather_loop];
    (destruct (Z.eqb_spec (len - Z.min len (pos_of i)) 0) as [E|E];
     [exists l, (prp_offs w); split; [done|]; rewrite Hw; split; [done|]; split; [done|];
      assert (i <> 1) by (intros ->; change (pos_of 1) with 0 in *; lia); replace (i - 1 + 1) with i by lia; split; [lia|]; split; [apply Hpre; lia | lia] |]); [lia|].
  assert (pos_of i < len) as Hlt by lia. rewrite Z.min_r in * by lia.
  destruct (walk_turn w i Hl Hi Hlt Hw Hat) as (w' & En & Hw' & Hat'). destruct (chunk_at i Hl Hi Hlt) as (_ & Hc0 & Hc & _).
  rewrite En. cbn [mbind res_bind]. rewrite Hw'.
  assert (i ≤ 512) as Hi512.
  { destruct Ht as [Htb _]. pose proof page_size_pos. destruct (decide (i = 1)); [lia|].
    unfold pos_of in Hlt. rewrite (proj2 (Z.eqb_neq _ _)) in Hlt by lia. nia. }
  rewrite aset_in_range by (rewrite Hll; unfold PADDR_LIST_LEN; lia). cbn [mbind res_bind].
  replace (len - pos_of i - prp_chunk (entry_of i) (len - pos_of i)) with (len - Z.min len (pos_of (i + 1))) by lia.
  apply IH; try done; try lia.
  - by rewrite length_insert.
  - replace (i + 1 - 1) with i by lia. done.
  - intros j Hj. rewrite aget_insert by (rewrite Hll; unfold PADDR_LIST_LEN; lia). destruct (decide (i = j)) as [<-|]; [done|]. apply Hg. lia.
Qed.

(** Nothing bounds the number of pages by the size of the table. *)
Lemma gather_overflow fuel : forall w l i, length l = PADDR_LIST_LEN -> 1 ≤ i ≤ 513 -> prp_offs w = i - 1 ->
  walk_at prp1 prp2 len (pos_of i) w -> first + PAGE_SIZE * 511 < len -> len - pos_of i ≤ Z.of_nat fuel ->
  gather_loop pfn_valid fuel rd prp1 prp2 w l (len - pos_of i) = Bug OutOfRange.
Proof.
  induction fuel as [|fuel IH]; intros w l i Hll Hi Hw Hat Hbig Hf; pose proof page_size_pos; pose proof (page_offset_range prp1);
    (assert (pos_of i < len) as Hlt by (unfold pos_of, prp_first in *; case_test; bool_prop; nia));
    (assert (0 < len) as Hl by (unfold prp_first in *; lia)); cbn [gather_loop]; (rewrite (proj2 (Z.eqb_neq _ _)) by lia); [lia|].
  destruct (walk_turn w i Hl ltac:(lia) Hlt Hw Hat) as (w' & En & Hw' & Hat'). destruct (chunk_at i Hl ltac:(lia) Hlt) as (_ & Hc0 & Hc & _).
  rewrite En. cbn [mbind res_bind]. rewrite Hw'. destruct (decide (i = 513)) as [->|Hne].
  { unfold aset. by rewrite decide_False by (rewrite Hll; unfold PADDR_LIST_LEN; lia). }
  rewrite aset_in_range by (rewrite Hll; unfold PADDR_LIST_LEN; lia). cbn [mbind res_bind].
  assert (pos_of (i + 1) < len) as Hlt2 by (unfold pos_of; rewrite (proj2 (Z.eqb_neq (i + 1) 1)) by lia; nia).
  replace (len - pos_of i - prp_chunk (entry_of i) (len - pos_of i)) with (len - pos_of (i + 1)) by lia. rewrite Z.min_r in Hat' by lia.
  apply IH; try done; try lia. by rewrite length_insert.
Qed.

(** *** Joining pages *)
Lemma pos_mono i j : 0 < len -> 1 ≤ i ≤ j -> pos_of i ≤ pos_of j.
Proof.
  intros Hl Hij. pose proof (first_range prp1 len Hl). pose proof page_size_pos. unfold pos_of.
  destruct (Z.eqb_spec i 1), (Z.eqb_spec j 1); nia.
Qed.

(** The run from entry [i] that ends before [i'] has [n] bytes, all in one
    piece. *)
Record run_at (num i i' n : Z) : Prop := {
  rn_pos : 0 < n;
  rn_flat : forall j, 0 ≤ j < n -> pos_of i + j < len -> addr (pos_of i + j) = entry_of i + j;
  rn_next : i' ≤ num -> pos_of i + n = pos_of i';
  rn_last : i' ≤ num -> page_offset (entry_of (i' - 1)) = 0 -> entry_of (i' - 1) + PAGE_SIZE = entry_of i + n;
  rn_end : num < i' -> len ≤ pos_of i + n;
}.

Lemma page_offset_next a : page_offset (a + PAGE_SIZE) = page_offset a.
Proof. rewrite !page_offset_mod. replace (a + PAGE_SIZE) with (a + 1 * PAGE_SIZE) by lia. by apply Z.mod_add. Qed.

Section Table.
Context (l : list Z) (num : Z) (Hlen : 0 < len) (Htab : prp_table_ok) (Hg : gathered l num) (Hn1 : 1 ≤ num) (Hn : pos_of num < len ≤ pos_of (num + 1)).

Lemma num_small : num < Z.of_nat (length l).
Proof using Hg Hn1. pose proof (aget_range _ _ _ (Hg num ltac:(lia))). lia. Qed.

Lemma join_ok fuel : forall i i' n, 1 ≤ i -> i < i' ≤ num + 1 -> run_at num i i' n -> num + 1 - i' ≤ Z.of_nat fuel ->
  exists i2 n2, join_pages fuel l num i' n = Ok (i2, n2) /\ i < i2 ≤ num + 1 /\ run_at num i i2 n2.
Proof using Hok Hlen Htab Hg Hn1 Hn.
  induction fuel as [|fuel IH]; intros i i' n Hi Hi' Hrun Hf; cbn [join_pages];
    (destruct (Z.ltb_spec num i') as [|Hle]; [by exists i', n|]); [lia|].
  rewrite (Hg i') by lia. cbn [mbind res_bind]. rewrite (Hg (i' - 1)) by lia. cbn [mbind res_bind].
  pose proof (pos_mono i' num Hlen ltac:(lia)). pose proof (pos_mono (i' - 1) num Hlen ltac:(lia)). pose proof page_size_pos.
  pose proof (tb_range Htab (i' - 1) ltac:(lia) ltac:(lia)) as Hr.
  rewrite u64_small by (unfold U64_MAX; change PAGE_SIZE with 4096; lia).
  destruct (Z.eqb_spec (entry_of i') (entry_of (i' - 1) + PAGE_SIZE)) as [E|]; [|by exists i', n].
  destruct (chunk_at i' Hlen ltac:(lia) ltac:(lia)) as (_ & Hc0 & Hc & Ho & _ & Hflat). specialize (Ho ltac:(lia)).
  destruct Hrun as [R1 R2 R3 R4 R5]. specialize (R3 Hle). rewrite E, page_offset_next in Ho. specialize (R4 Hle Ho). rewrite <- E in R4.
  assert (pos_of (i' + 1) = pos_of i' + PAGE_SIZE) as Ep by (apply pos_next; lia).
  apply IH; [done | lia | | lia]. split.
  - lia.
  - intros j Hj Hlt. destruct (decide (j < n)) as [|Hge]; [apply R2; lia|].
    replace (pos_of i + j) with (pos_of i' + (j - n)) by lia. rewrite Hflat by lia. lia.
  - intros _. lia.
  - intros _ _. replace (i' + 1 - 1) with i' by lia. lia.
  - intros ?. replace i' with num in * by lia. lia.
Qed.

(** A run starts as one page. *)
Lemma run_start i : 1 ≤ i ≤ num -> run_at num i (i + 1) (prp_chunk (entry_of i) (len - pos_of i)).
Proof using Hok Hlen Hn1 Hn.
  intros Hi. pose proof (pos_mono i num Hlen ltac:(lia)). destruct (chunk_at i Hlen ltac:(lia) ltac:(lia)) as (_ & Hc0 & Hc & _ & Hal & Hflat). split.
  - done.
  - intros j Hj _. by apply Hflat.
  - intros Hle. pose proof (pos_mono (i + 1) num Hlen ltac:(lia)). lia.
  - intros Hle. replace (i + 1 - 1) with i by lia. intros Ho. pose proof (pos_mono (i + 1) num Hlen ltac:(lia)). specialize (Hal ltac:(lia) Ho). lia.
  - intros ?. replace i with num in * by lia. lia.
Qed.

Lemma dma_loop_done {St} (submit : St -> Z -> Z -> Z -> res St) fuel s i off : dma_loop submit fuel s l num i off 0 = Ok s.
Proof. by destruct fuel. Qed.

(** The data goes over in order, run by run. *)
Lemma dma_loop_rule {St} (submit : St -> Z -> Z -> Z -> res St) (Q : Z -> St -> Prop) off :
  (forall k n s, 0 ≤ k -> 0 < n -> k + n ≤ len -> Q k s -> (forall j, 0 ≤ j < n -> addr (k + j) = addr k + j) ->
     returns (submit s (addr k) (off + k) n) (Q (k + n))) ->
  forall fuel s i, 1 ≤ i ≤ num -> Q (pos_of i) s -> len - pos_of i ≤ Z.of_nat fuel ->
  returns (dma_loop submit fuel s l num i (off + pos_of i) (len - pos_of i)) (Q len).
Proof using Hok Hlen Htab Hg Hn1 Hn.
  intros Hcp fuel. induction fuel as [|fuel IH]; intros s i Hi HQ Hf; pose proof (pos_mono i num Hlen ltac:(lia)); [lia|]. cbn [dma_loop].
  rewrite (proj2 (Z.eqb_neq _ _)) by lia. rewrite (Hg i) by lia. cbn [mbind res_bind]. pose proof num_small as Hns.
  destruct (join_ok (length l) i (i + 1) _ ltac:(lia) ltac:(lia) (run_start i Hi) ltac:(lia)) as (i2 & n & -> & Hi2 & [R1 R2 R3 _ R5]).
  cbn [mbind res_bind]. set (io := Z.min (len - pos_of i) n).
  assert (addr (pos_of i) = entry_of i) as Ea by (pose proof (R2 0 ltac:(lia) ltac:(lia)) as H0; by rewrite !Z.add_0_r in H0).
  assert (0 ≤ pos_of i) by (exact (pos_mono 1 i Hlen ltac:(lia))). rewrite <- Ea.
  apply returns_bind. eapply returns_mono; [apply (Hcp (pos_of i) io); [done | lia | lia | done |]|].
  { intros j Hj. rewrite Ea. apply R2; lia. }
  intros s' HQ'. destruct (decide (i2 ≤ num)) as [Hle|Hgt].
  - pose proof (pos_mono i2 num Hlen ltac:(lia)). specialize (R3 Hle). assert (pos_of i + io = pos_of i2) as E by lia.
    replace (off + pos_of i + io) with (off + pos_of i2) by lia. replace (len - pos_of i - io) with (len - pos_of i2) by lia.
    apply IH; [lia | by rewrite <- E | lia].
  - specialize (R5 ltac:(lia)). replace (len - pos_of i - io) with 0 by lia. rewrite dma_loop_done. cbn. by replace len with (pos_of i + io) by lia.
Qed.
End Table.

Lemma dma_transfer_rule {St} (submit : St -> Z -> Z -> Z -> res St) (Q : Z -> St -> Prop) off s : 0 < len -> prp_table_ok ->
  (forall k n s, 0 ≤ k -> 0 < n -> k + n ≤ len -> Q k s -> (forall j, 0 ≤ j < n -> addr (k + j) = addr k + j) ->
     returns (submit s (addr k) (off + k) n) (Q (k + n))) ->
  Q 0 s -> returns (dma_transfer pfn_valid submit rd s prp1 prp2 off len) (Q len).
Proof using Hok.
  intros Hlen Htab Hcp HQ. unfold dma_transfer.
  destruct (gather_ok (Z.to_nat len) walk_start (replicate PADDR_LIST_LEN 0) 1) as (l & num & Eg & Hg & _ & Hn1 & Hn); try done; try lia.
  - left. change (pos_of 1) with 0. split; [lia | done].
  - intros i Hi. lia.
  - change (pos_of 1) with 0. lia.
  - change (pos_of 1) with 0 in Eg. rewrite Z.min_r, Z.sub_0_r in Eg by lia. rewrite Eg. cbn [mbind res_bind].
    pose proof (dma_loop_rule l num Hlen Htab Hg Hn1 Hn submit Q off Hcp (Z.to_nat len) s 1) as Hr. change (pos_of 1) with 0 in Hr.
    rewrite Z.add_0_r, Z.sub_0_r in Hr. apply Hr; [lia | done | lia].
Qed.
End Rule.

(** The walk reads the list only where the command's pages are named. *)
Section SameList.
Context (pfn_valid : Z -> bool) (rd rd' : Z -> Z) (prp1 prp2 len : Z).
Hypothesis Hrd : prp_listed prp1 len = true -> forall j, 0 ≤ j -> j * PAGE_SIZE < len - prp_first prp1 len -> rd' (prp2 + 8 * j) = rd (prp2 + 8 * j).

Lemma same_page j : 0 ≤ j -> j * PAGE_SIZE < len - prp_first prp1 len -> prp_page rd' prp1 prp2 len j = prp_page rd prp1 prp2 len j.
Proof using Hrd. intros Hj Hlt. unfold prp_page. destruct (prp_listed prp1 len) eqn:El; [|done]. by apply Hrd. Qed.

Lemma same_addr i : i < len -> prp_addr rd' prp1 prp2 len i = prp_addr rd prp1 prp2 len i.
Proof using Hrd.
  intros Hi. unfold prp_addr. destruct (Z.ltb_spec i (prp_first prp1 len)); [done|]. pose proof page_size_pos as HP.
  rewrite same_page; [done | apply Z.div_pos; lia |]. pose proof (Z.mul_div_le (i - prp_first prp1 len) PAGE_SIZE HP). lia.
Qed.

Lemma same_prp_ok : prp_ok rd prp1 prp2 len pfn_valid -> prp_ok rd' prp1 prp2 len pfn_valid.
Proof using Hrd. intros [H1 H2 H3 H4]. split; try done. intros j Hj Hlt. rewrite same_page by done. by apply H4. Qed.

Lemma same_table : prp_table_ok rd prp1 prp2 len -> prp_table_ok rd' prp1 prp2 len.
Proof using Hrd.
  intros [H1 H2]. split; [done|]. intros i Hi Hlt. replace (entry_of rd' prp1 prp2 len i) with (entry_of rd prp1 prp2 len i); [by apply H2|].
  unfold entry_of, pos_of in *. destruct (Z.eqb_spec i 1); [done|]. symmetry. apply same_page; lia.
Qed.
End SameList.

Section Equivalence.
Context {E Tx : Type} `{DmaEngine E Tx} (Hl : DmaLaws E Tx) (Hr : DmaReliable E Tx).
Variables (pfn_valid : Z -> bool) (ns_mapped : Z -> Z) (info : ioat_dma_info) (chan : dma_chan) (storage_start storage_size : Z).
Hypotheses (Hchan : dma_thread info = Some chan) (Hpoll : polled (params info) = true).
Hypothesis Hsto : 0 ≤ storage_start /\ storage_start + storage_size ≤ U64_MAX.
Implicit Types (c : nvme_command) (s : io_mem) (e : E).

Definition in_reserved (x : Z) : Prop := storage_start ≤ x < storage_start + storage_size.

(** The two memories of the copying loop, and the physical memory of the
    engine, which holds both. *)
Record same_bytes s (m : host_mem) : Prop := {
  sb_host : forall x, ~ in_reserved x -> host s x = m x;
  sb_storage : forall y, 0 ≤ y < storage_size -> storage s (ns_mapped 0 + y) = m (storage_start + y);
}.

(** A command for the first namespace, at most 512 pages, its data and page
    list outside the storage. *)
Record dma_cmd_ok s c : Prop := {
  dc_io : io_ok pfn_valid (host s) c;
  dc_ns : nsid c = 1;
  dc_fits : __cmd_io_offset c + __cmd_io_size c ≤ storage_size;
  dc_table : prp_table_ok (mem_u64 (host s)) (prp1 c) (prp2 c) (__cmd_io_size c);
  dc_data : forall i, 0 ≤ i < __cmd_io_size c -> ~ in_reserved (data_addr (host s) c i);
  dc_list : prp_listed (prp1 c) (__cmd_io_size c) = true -> forall j b, 0 ≤ j -> 0 ≤ b < 8 ->
    j * PAGE_SIZE < __cmd_io_size c - prp_first (prp1 c) (__cmd_io_size c) -> ~ in_reserved (prp2 c + 8 * j + b);
}.

Lemma cmd_offset_range c : 0 ≤ __cmd_io_offset c.
Proof. unfold __cmd_io_offset, u64. by apply Z.mod_pos_bound. Qed.

Section One.
Context s e c (Hs : same_bytes s (dma_mem e)) (Hc : dma_cmd_ok s c).
#[local] Abbreviation len := (__cmd_io_size c).
#[local] Abbreviation off := (__cmd_io_offset c).
#[local] Abbreviation addr := (prp_addr (mem_u64 (dma_mem e)) (prp1 c) (prp2 c) len).
#[local] Abbreviation m0 := (dma_mem e).

Lemma one_list : prp_listed (prp1 c) len = true -> forall j, 0 ≤ j -> j * PAGE_SIZE < len - prp_first (prp1 c) len ->
  mem_u64 m0 (prp2 c + 8 * j) = mem_u64 (host s) (prp2 c + 8 * j).
Proof using Hs Hc.
  intros El j Hj Hlt. apply mem_u64_ext. intros b Hb. symmetry. apply (sb_host _ _ Hs). by apply (dc_list _ _ Hc).
Qed.

Lemma one_addr i : 0 ≤ i < len -> addr i = data_addr (host s) c i /\ ~ in_reserved (addr i).
Proof using Hs Hc.
  intros Hi. assert (addr i = data_addr (host s) c i) as -> by (apply same_addr; [exact one_list | lia]).
  split; [done | by apply (dc_data _ _ Hc)].
Qed.

Lemma one_ok : prp_ok (mem_u64 m0) (prp1 c) (prp2 c) len pfn_valid /\ prp_table_ok (mem_u64 m0) (prp1 c) (prp2 c) len.
Proof using Hs Hc.
  split; [|exact (same_table _ _ _ _ _ one_list (dc_table _ _ Hc))]. apply (same_prp_ok pfn_valid (mem_u64 (host s))); [exact one_list|].
  pose proof (dc_io _ _ Hc) as Hi. unfold io_ok in Hi. destruct (is_write c); [exact Hi | apply Hi].
Qed.

(** The two ranges of a transfer are apart. *)
Lemma one_apart k n : 0 ≤ k -> 0 < n -> k + n ≤ len -> (forall j, 0 ≤ j < n -> addr (k + j) = addr k + j) ->
  let dev := storage_start + (off + k) in
  u64 dev = dev /\ u32 n = n /\ (addr k + n ≤ dev \/ dev + n ≤ addr k).
Proof using Hs Hc Hsto.
  intros Hk Hn Hkn Hj dev. pose proof (cmd_offset_range c). pose proof (__cmd_io_size_eq c) as [_ Hlen]. pose proof (dc_fits _ _ Hc).
  assert (0 ≤ dev /\ dev ≤ U64_MAX) by (unfold dev; lia). split; [apply u64_small; lia|]. split; [apply u32_small; unfold U32_MAX; lia|].
  assert (forall j, 0 ≤ j < n -> ~ in_reserved (addr k + j)) as Hout.
  { intros j Hjn. rewrite <- Hj by done. apply one_addr. lia. }
  unfold in_reserved in Hout. destruct (decide (addr k < storage_start)) as [Hlt|Hge].
  - left. destruct (decide (addr k + n ≤ dev)) as [|Hno]; [done|]. destruct (Hout (dev - addr k)); unfold dev in *; lia.
  - right. destruct (decide (dev + n ≤ addr k)) as [|Hno]; [done|]. destruct (Hout 0); unfold dev in *; lia.
Qed.

Lemma one_write : is_write c = true ->
  returns (__do_perform_io_using_dma pfn_valid info storage_start c e) (fun '(e', n) => n = len /\
    forall x, dma_mem e' x = if (storage_start + off <=? x) && (x <? storage_start + off + len) then m0 (addr (x - (storage_start + off))) else m0 x).
Proof using Hs Hc Hl Hr Hchan Hpoll Hsto.
  intros Hw. pose proof (__cmd_io_size_eq c) as [_ Hlen]. destruct one_ok as [Hok Htab]. unfold __do_perform_io_using_dma. apply returns_bind.
  eapply returns_mono; [apply (dma_transfer_rule pfn_valid (mem_u64 m0) (prp1 c) (prp2 c) len Hok _
    (fun k e' => forall x, dma_mem e' x = if (storage_start + off <=? x) && (x <? storage_start + off + k) then m0 (addr (x - (storage_start + off))) else m0 x)); [lia | exact Htab | |]|].
  - intros k n e' Hk Hn Hkn HQ Hj. destruct (one_apart k n Hk Hn Hkn Hj) as (E1 & E2 & Hap).
    unfold io_submit. fold (is_write c). rewrite Hw, E1, E2.
    destruct (ioat_dma_submit_copies Hl Hr info chan (addr k) (storage_start + (off + k)) n e' Hchan Hpoll ltac:(clear -Hap; tauto)) as (e2 & -> & Hm). cbn.
    intros x. rewrite Hm. destruct (decide (storage_start + (off + k) ≤ x < storage_start + (off + k) + n)) as [Hin|Hout].
    + replace x with (storage_start + (off + k) + (x - (storage_start + (off + k)))) at 1 by lia. rewrite mem_copy_in by lia.
      rewrite (proj2 (Z.leb_le _ _)), (proj2 (Z.ltb_lt _ _)) by lia. cbn [andb]. set (j := x - (storage_start + (off + k))) in *.
      replace (x - (storage_start + off)) with (k + j) by lia. rewrite HQ, <- Hj by lia.
      pose proof (proj2 (one_addr (k + j) ltac:(lia))) as Hns. unfold in_reserved in Hns. pose proof (dc_fits _ _ Hc). pose proof (cmd_offset_range c).
      destruct (Z.leb_spec (storage_start + off) (addr (k + j))), (Z.ltb_spec (addr (k + j)) (storage_start + off + k)); cbn [andb]; done || lia.
    + rewrite mem_copy_out by lia. rewrite HQ. destruct (Z.leb_spec (storage_start + off) x); [|done]. cbn [andb].
      destruct (Z.ltb_spec x (storage_start + off + k)), (Z.ltb_spec x (storage_start + off + (k + n))); done || lia.
  - intros x. destruct (Z.leb_spec (storage_start + off) x); cbn [andb]; [|done]. by rewrite (proj2 (Z.ltb_ge _ _)) by lia.
  - intros e' HQ. cbn. split; [apply u32_small; unfold U32_MAX; lia | exact HQ].
Qed.

Lemma one_read : opcode c = nvme_cmd_read -> pages_ok pfn_valid (host s) (prp1 c) (prp2 c) len ->
  returns (__do_perform_io_using_dma pfn_valid info storage_start c e) (fun '(e', n) => n = len /\
    (forall i, 0 ≤ i < len -> dma_mem e' (addr i) = m0 (storage_start + off + i)) /\
    (forall x, (forall i, 0 ≤ i < len -> x <> addr i) -> dma_mem e' x = m0 x)).
Proof using Hs Hc Hl Hr Hchan Hpoll Hsto.
  intros Hop [_ Hinj _]. pose proof (__cmd_io_size_eq c) as [_ Hlen]. destruct one_ok as [Hok Htab]. unfold __do_perform_io_using_dma. apply returns_bind.
  eapply returns_mono; [apply (dma_transfer_rule pfn_valid (mem_u64 m0) (prp1 c) (prp2 c) len Hok _
    (fun k e' => 0 ≤ k ≤ len /\ (forall i, 0 ≤ i < k -> dma_mem e' (addr i) = m0 (storage_start + off + i)) /\
       (forall x, (forall i, 0 ≤ i < k -> x <> addr i) -> dma_mem e' x = m0 x))); [lia | exact Htab | |]|].
  - intros k n e' Hk Hn Hkn (_ & Hd & Hx) Hj. destruct (one_apart k n Hk Hn Hkn Hj) as (E1 & E2 & Hap).
    unfold io_submit. rewrite Hop, E1, E2. cbn [Z.eqb nvme_cmd_read nvme_cmd_write nvme_cmd_zone_append Pos.eqb orb].
    destruct (ioat_dma_submit_copies Hl Hr info chan (storage_start + (off + k)) (addr k) n e' Hchan Hpoll ltac:(clear -Hap; tauto)) as (e2 & -> & Hm). cbn.
    split; [lia|]. split.
    + intros i Hi. rewrite Hm. destruct (decide (i < k)) as [Hlt|Hge].
      * rewrite mem_copy_out; [apply Hd; lia|]. intros j Hjn Eq. rewrite <- Hj in Eq by done.
        destruct (one_addr i ltac:(lia)) as [E3 _], (one_addr (k + j) ltac:(lia)) as [E4 _]. rewrite E3, E4 in Eq. apply Hinj in Eq; lia.
      * replace i with (k + (i - k)) by lia. rewrite Hj, mem_copy_in by lia. rewrite Hx; [f_equal; lia|].
        intros j Hjk Eq. apply (proj2 (one_addr j ltac:(lia))). rewrite <- Eq. unfold in_reserved. pose proof (dc_fits _ _ Hc). pose proof (cmd_offset_range c). lia.
    + intros x Hxi. rewrite Hm, mem_copy_out; [apply Hx; intros i Hi; apply Hxi; lia|].
      intros j Hjn ->. apply (Hxi (k + j)); [lia|]. by rewrite Hj.
  - split; [lia|]. split; [lia | done].
  - intros e' (_ & Hd & Hx). cbn. split; [apply u32_small; unfold U32_MAX; lia | by split].
Qed.
End One.

(** C9. On the first namespace, with an engine that completes its transfers,
    moving a command's data by DMA does what the copying loop does: whatever
    the page list, both return the same length and leave the same bytes in
    host memory and in storage, although one copies page by page and the
    other gathers the pages and moves joined runs. *)
Theorem dma_equivalent s e c : same_bytes s (dma_mem e) -> dma_cmd_ok s c ->
  returns (__do_perform_io pfn_valid ns_mapped c s) (fun '(s', n) =>
    returns (__do_perform_io_using_dma pfn_valid info storage_start c e) (fun '(e', n') => n' = n /\ same_bytes s' (dma_mem e'))).
Proof using Hl Hr Hchan Hpoll Hsto.
  intros Hs Hc. pose proof (dc_io _ _ Hc) as Hio. unfold io_ok in Hio. pose proof (dc_fits _ _ Hc) as Hfit. pose proof (cmd_offset_range c) as Hoff.
  pose proof (__cmd_io_size_eq c) as [_ Hlen]. assert (forall i, dev_addr ns_mapped c i = ns_mapped 0 + (__cmd_io_offset c + i)) as Hdev.
  { intros i. unfold dev_addr. rewrite (dc_ns _ _ Hc). change (u64 (1 - 1)) with 0. lia. }
  destruct (is_write c) eqn:Ew.
  - eapply returns_mono; [by apply write_moves|]. intros [s' n] (-> & Eh & Est). eapply returns_mono; [by apply (one_write s)|].
    intros [e' n'] [-> He]. split; [done|]. split.
    + intros x Hx. rewrite Eh, He, (sb_host _ _ Hs) by done. unfold in_reserved in Hx.
      destruct (Z.leb_spec (storage_start + __cmd_io_offset c) x), (Z.ltb_spec x (storage_start + __cmd_io_offset c + __cmd_io_size c)); cbn [andb]; done || lia.
    + intros y Hy. rewrite Est, He, !Hdev.
      destruct (Z.leb_spec (storage_start + __cmd_io_offset c) (storage_start + y)), (Z.ltb_spec (storage_start + y) (storage_start + __cmd_io_offset c + __cmd_io_size c));
        destruct (Z.leb_spec (ns_mapped 0 + (__cmd_io_offset c + 0)) (ns_mapped 0 + y)), (Z.ltb_spec (ns_mapped 0 + y) (ns_mapped 0 + (__cmd_io_offset c + __cmd_io_size c)));
        try lia; cbn [andb]; try by apply (sb_storage _ _ Hs).
      replace (ns_mapped 0 + y - (ns_mapped 0 + (__cmd_io_offset c + 0))) with (y - __cmd_io_offset c) by lia.
      replace (storage_start + y - (storage_start + __cmd_io_offset c)) with (y - __cmd_io_offset c) by lia.
      destruct (one_addr s e c Hs Hc (y - __cmd_io_offset c) ltac:(lia)) as [Ea Hns]. rewrite <- Ea. by apply (sb_host _ _ Hs).
  - destruct Hio as [Hop Hio]. eapply returns_mono; [by apply read_moves|]. intros [s' n] (-> & Est & Hd & Hx). eapply returns_mono; [by apply (one_read s)|].
    intros [e' n'] (-> & Hd' & Hx'). split; [done|]. split.
    + intros x Hns. destruct (decide (x ∈ map (data_addr (host s) c) (seqZ 0 (__cmd_io_size c)))) as [Hin|Hout].
      * apply list_elem_of_fmap in Hin as (i & -> & Hi). apply elem_of_seqZ in Hi. destruct (one_addr s e c Hs Hc i ltac:(lia)) as [Ea _].
        rewrite Hd by lia. rewrite <- Ea, Hd' by lia. rewrite Hdev, (sb_storage _ _ Hs) by lia. f_equal. lia.
      * assert (forall i, 0 ≤ i < __cmd_io_size c -> x <> data_addr (host s) c i) as Hne.
        { intros i Hi ->. apply Hout, list_elem_of_fmap. exists i. split; [done | apply elem_of_seqZ; lia]. }
        rewrite Hx by done. rewrite Hx'; [by apply (sb_host _ _ Hs)|]. intros i Hi. destruct (one_addr s e c Hs Hc i Hi) as [-> _]. by apply Hne.
    + intros y Hy. rewrite Est, (sb_storage _ _ Hs) by done. rewrite Hx'; [done|]. intros i Hi Eq.
      apply (proj2 (one_addr s e c Hs Hc i Hi)). rewrite <- Eq. unfold in_reserved. lia.
Qed.
End Equivalence.

(** More than 512 pages overrun the table; MDTS asks the host not to. *)
Lemma long_command_overruns {E Tx : Type} `{DmaEngine E Tx} pfn_valid info storage_start c (e : E) : data_ok pfn_valid (dma_mem e) c ->
  prp_first (prp1 c) (__cmd_io_size c) + PAGE_SIZE * 511 < __cmd_io_size c ->
  __do_perform_io_using_dma pfn_valid info storage_start c e = Bug OutOfRange.
Proof.
  intros Hok Hbig. pose proof (__cmd_io_size_eq c) as [_ Hlen]. unfold __do_perform_io_using_dma, dma_transfer.
  pose proof (gather_overflow pfn_valid (mem_u64 (dma_mem e)) (prp1 c) (prp2 c) (__cmd_io_size c) Hok (Z.to_nat (__cmd_io_size c)) walk_start (replicate PADDR_LIST_LEN 0) 1) as Hg.
  change (pos_of (prp1 c) (__cmd_io_size c) 1) with 0 in Hg. rewrite Z.sub_0_r in Hg. rewrite Hg; [done | done | lia | done | by left | done | lia].
Qed.

(** ** An engine, and the three-page transfer of [HostIo] on it *)
Definition copy_pending (e : host_mem * option (Z * Z * Z)) : host_mem * option (Z * Z * Z) :=
  match e.2 with Some (dst, src, size) => (mem_copy e.1 dst e.1 src size, None) | None => e end.
#[local] Instance copy_engine : DmaEngine (host_mem * option (Z * Z * Z)) (Z * Z * Z) := {|
  dma_mem := fst;
  device_prep_dma_memcpy := fun _ dst src size _ e => (Some (dst, src, size), e);
  tx_submit := fun tx e => (0, (e.1, Some tx));
  dma_sync_wait := fun _ _ e => (DMA_COMPLETE, copy_pending e);
  dma_async_issue_pending := fun _ e => e;
  wait_done := fun _ e => (true, copy_pending e);
  dma_async_is_tx_complete := fun _ _ _ => DMA_COMPLETE;
  dmaengine_terminate_sync := fun _ e => (e.1, None);
|}.
#[local] Instance copy_laws : DmaLaws (host_mem * option (Z * Z * Z)) (Z * Z * Z).
Proof.
  refine {| tx_copy := fun tx => tx; dma_pending := fun e _ => e.2 |}.
  - by intros ? ? ? ? ? e tx e' [= <- <-].
  - by intros tx e c e' [= _ <-].
  - intros ? ? e e' dst src size [= <-] Hp _. unfold copy_pending. cbn in *. by rewrite Hp.
  - intros ? ? e ? e' dst src size Hp [= <-] _ _. unfold copy_pending. cbn in *. by rewrite Hp.
  - done.
Defined.
#[local] Instance copy_reliable : DmaReliable (host_mem * option (Z * Z * Z)) (Z * Z * Z).
Proof. split; intros; repeat eexists. done. Qed.

Definition dma7 : dma_chan := mk_chan "dma7chan0" "0000:00:04.7" true false.
Definition dma7_info : ioat_dma_info := mk_info (mk_dma_params 4096 "dma7chan0" "" 0 3000 1024 true) [dma7] 1 0 (Some dma7) "dma7chan0".

Example dma7_chosen :
  ioat_dma_chan_set (fun _ => true) (fun s => s) "dma7chan0" test_info [mk_chan "dma0chan0" "0000:00:04.0" true false; dma7] =
    Ok (0, dma7_info, [mk_chan "dma0chan0" "0000:00:04.0" true false]) /\
  ioat_dma_chan_set (fun _ => true) (fun s => s) "dma7chan0" dma7_info [] = Ok (- EBUSY, with_error dma7_info (- EBUSY), []).
Proof. split; reflexivity. Qed.

Lemma tiny_dma_ok : dma_cmd_ok (fun _ => true) 0x100000 0x40000 (mk_io_mem tiny_filled (fun _ => 0)) tiny_write.
Proof.
  assert (forall x, 0x20000 ≤ x < 0x20100 -> tiny_filled x = tiny_pages x) as Hp.
  { intros x Hx. unfold tiny_filled. destruct (Z.ltb_spec x 0x20000); [lia|]. destruct (Z.ltb_spec x 0x30000); [reflexivity|lia]. }
  split.
  - by apply tiny_data_ok.
  - done.
  - vm_compute. discriminate.
  - split; [vm_compute; discriminate|]. change (__cmd_io_size tiny_write) with 12288. change (prp1 tiny_write) with 0x10200. change (prp2 tiny_write) with 0x20000.
    intros i Hi Hlt. unfold pos_of, entry_of in *. destruct (Z.eqb_spec i 1); [cbn; lia|]. change (prp_first 66048 12288) with 3584 in Hlt. change PAGE_SIZE with 4096 in Hlt.
    pose proof (tiny_page tiny_filled tiny_write (i - 2) eq_refl eq_refl eq_refl Hp ltac:(lia)) as E.
    change (__cmd_io_size tiny_write) with 12288 in E. change (prp1 tiny_write) with 66048 in E. change (prp2 tiny_write) with 131072 in E.
    change (prp_first 66048 12288) with 3584 in E. change PAGE_SIZE with 4096 in E. cbn [host]. rewrite E by lia. lia.
  - intros i Hi. cbn [host]. rewrite tiny_addr by done. unfold in_reserved. change (__cmd_io_size tiny_write) with 12288 in Hi. destruct (Z.ltb_spec i 3584); lia.
  - intros _ j b Hj Hb Hlt. change (__cmd_io_size tiny_write) with 12288 in Hlt. change (prp1 tiny_write) with 66048 in Hlt.
    change (prp_first 66048 12288) with 3584 in Hlt. change PAGE_SIZE with 4096 in Hlt. change (prp2 tiny_write) with 0x20000. unfold in_reserved. lia.
Qed.

Definition tiny_phys : host_mem := fun x => if (0x100000 <=? x) && (x <? 0x140000) then 0 else tiny_filled x.

Lemma tiny_same : same_bytes (fun _ => 0) 0x100000 0x40000 (mk_io_mem tiny_filled (fun _ => 0)) tiny_phys.
Proof.
  split; cbn [host storage]; unfold tiny_phys, in_reserved.
  - intros x Hx. destruct (Z.leb_spec 0x100000 x), (Z.ltb_spec x 0x140000); cbn [andb]; done || lia.
  - intros y Hy. rewrite (proj2 (Z.leb_le _ _)), (proj2 (Z.ltb_lt _ _)) by lia. done.
Qed.

Lemma dma_equivalent_witness : exists s' e' n,
  __do_perform_io (fun _ => true) (fun _ => 0) tiny_write (mk_io_mem tiny_filled (fun _ => 0)) = Ok (s', n) /\
  __do_perform_io_using_dma (fun _ => true) dma7_info 0x100000 tiny_write (tiny_phys, None) = Ok (e', n) /\
  same_bytes (fun _ => 0) 0x100000 0x40000 s' (dma_mem e').
Proof.
  pose proof (dma_equivalent copy_laws copy_reliable (fun _ => true) (fun _ => 0) dma7_info dma7 0x100000 0x40000 eq_refl eq_refl
    ltac:(split; vm_compute; discriminate) _ (tiny_phys, None) tiny_write tiny_same tiny_dma_ok) as Hx.
  apply returns_iff in Hx as ([s' n] & E1 & Hx). apply returns_iff in Hx as ([e' n'] & E2 & -> & Hs). exists s', e', n.
  split; [exact E1|]. split; [exact E2 | exact Hs].
Defined.

(** A run of joined pages is one transfer: the three pages of the list go over
    at once. *)
Example tiny_joined :
  match gather_loop (fun _ => true) (Z.to_nat 12288) (mem_u64 tiny_phys) 0x10200 0x20000 walk_start (replicate PADDR_LIST_LEN 0) 12288 with
  | Ok (l, num) => Some (num, map (aget l) [1; 2; 3; 4], join_pages 513 l num 3 4096)
  | Bug _ => None
  end = Some (4, map Ok [0x10200; 0x30000; 0x31000; 0x32000], Ok (5, 12288)).
Proof. vm_compute. reflexivity. Qed.
